(* ===== verification/_CoqProject ===== *)
-Q . S2P
Prelude.v
Layout.v
CString.v
TextTools.v
Printf.v
Sh.v
Umalloc.v
Mp.v
Boot.v
State.v
Spinlock.v
SpinProtocol.v
Sched.v
Mem.v
Sleeplock.v
Ring.v
Memide.v
Bio.v
Ide.v
Session.v
Log.v
LogDisk.v
LogSafe.v
LogTxn.v
Txn.v
LogRefine.v
Fs.v
FsAlloc.v
FsInode.v
FsBmap.v
FsNames.v
Kalloc.v
KallocSafe.v
Vm.v
VmSafe.v
KvmSafe.v
Pipe.v
File.v
FsWrite.v
FsDir.v
FileWrite.v
Mkfs.v
MkfsSafe.v
MkfsImage.v
Proc.v
Console.v
ConsoleSafe.v
Syscall.v
Sysfile.v
User.v
ShRun.v
UserProgs.v
UserTests.v
TestSafe.v
Trap.v
Asm.v
Devices.v
SyscallSafe.v
UserMem.v
InitProc.v
Main.v
MainSafe.v
Machine.v
System.v
Witness.v
