(* ===== verification/Prelude.v ===== *)
(** A verification of this fork of xv6, a teaching operating system for 32-bit x86
    with a file system that logs its updates, extended by swapping of user pages.

    The development is a shallow embedding: C functions are Rocq functions with the
    same names, C structs are records, and the theorems are about these functions.

    * The program and its model

    The kernel is a set of C files that share global tables protected by locks.
    State.v has one record, [kstate], for all of that memory; a pointer to an element of
    a static array (a proc, buf, inode or file) is an index, and a pointer into pages or
    user memory is an address.  A kernel function is a computation [K A] over [kstate]
    with five outcomes: a result, a call of panic, an access that C leaves undefined,
    a loop that does not end, and a call of swtch, which hands the processor to some
    other thread and carries the rest of the function (this file, [outcome]).

    - Layout.v: the constants, address arithmetic and on-disk layout (param.h,
      memlayout.h, mmu.h, fs.h).  CString.v: string.c and the string part of ulib.c.
    - Spinlock.v: spinlock.c with interrupt nesting; SpinProtocol.v: the lock word under
      every interleaving of processors.  Sched.v: sched, yield, sleep, wakeup and kill
      of proc.c.  Sleeplock.v: sleeplock.c.
    - Ring.v: circular doubly linked lists.  Memide.v: memide.c and the class [Driver],
      the contract between the buffer cache and a disk driver.  Bio.v: bio.c.
      Ide.v: ide.c, whose iderw sleeps until the disk interrupts.  Session.v: the rules
      for clients of the cache.
    - Log.v: log.c.  LogDisk.v, LogSafe.v and LogTxn.v: the log on the disk, crash safety
      of commit and recovery, and transactions.  Txn.v: the rules for updating blocks
      inside a transaction.  LogRefine.v: the log as an implementation of an atomic disk.
    - Fs.v: fs.c.  FsAlloc.v, FsInode.v, FsBmap.v, FsWrite.v, FsNames.v, FsDir.v: theorems
      on block allocation, inodes and reading, the blocks of a file, writing, the inode
      cache and path names, and directories as finite maps.  Mkfs.v: mkfs.c; MkfsSafe.v
      and MkfsImage.v: the image it builds.
    - Mem.v: memory accesses through the page table of the running process.  Kalloc.v:
      kalloc.c, the page allocator and the list of user pages for swapping.  Vm.v: vm.c.
      KallocSafe.v, VmSafe.v and KvmSafe.v: their theorems, the last on the page table
      of setupkvm.  UserMem.v: what a process sees of copyout, and the stack exec builds.
    - Pipe.v: pipe.c.  File.v: file.c; FileWrite.v: filewrite and what a crash leaves of it.
      Proc.v: the rest of proc.c.
    - Console.v: console.c, kbd.c and uart.c; ConsoleSafe.v: its theorems.
    - Syscall.v: the argument fetching of syscall.c, and exec.c.  Sysfile.v: sysfile.c.
      Trap.v: sysproc.c, the dispatch of syscall.c, and trap.c.  SyscallSafe.v: theorems
      on arguments and file descriptors.
    - Asm.v: the instructions of swtch.S, of the trap entry and exit (vectors.pl,
      trapasm.S), of the system call stubs (usys.S) and of initcode.S.  Boot.v: the boot
      loader, bootmain.c.  Mp.v: mp.c.  Devices.v: lapic.c, ioapic.c, picirq.c and the
      ports of uart.c, as the accesses the code makes.
    - Main.v: main.c, with seginit, kvmalloc and switchkvm of vm.c, over the kernel's
      memory, the devices and the registers that only the boot uses.  InitProc.v: the
      first process, made by userinit.  MainSafe.v: the theorems on the boot.
    - TextTools.v: grep.c, wc.c and fmtname of ls.c.  Printf.v: printf.c and cprintf of
      console.c.  Sh.v: the parser of sh.c.  Umalloc.v: umalloc.c over any sbrk.  User.v:
      programs as trees of system calls, and processes with their descriptors that run
      them.  ShRun.v: runcmd and main of sh.c.  UserProgs.v: the small programs.
    - UserTests.v: usertests.c, as programs of system calls.  TestSafe.v: running a
      program against any system, what a test establishes, and a reference file system.
      System.v: the parts put together, a process whose calls are handled by the kernel
      of the files above on a disk that Mkfs.v made.
    - Machine.v: a concrete machine that satisfies the invariants.  Witness.v: the
      theorems on the kernel applied to it.

    * What is shown

    - Locks and scheduling: at most one processor is between acquire and release; sleep
      loses no wakeup; a sleep-lock has one holder; the scheduler switches only to
      runnable processes, with the right lock.  Where a thread can be suspended,
      [guar G R Q] states that every switch happens in a state satisfying [G], and that
      [Q] holds at the end whatever state satisfying [R] the thread resumes in.
    - Storage: a crash at any disk write of a commit leaves, after recovery, all of a
      transaction or none of it; end_op makes it durable; begin_op admits only what fits
      the log; every sequence of operations, reads and crashes is one of an atomic disk.
      The disk driver serves every queued request, and iderw returns only with its
      buffer equal to its block.  On top of this: bread, balloc, bfree, readi, writei,
      iupdate and ilock, iget, path names; a write through a descriptor is durable and
      a crash in it leaves a first part of it; a directory is a finite map that dirlookup
      reads and dirlink extends; mkfs builds a file system that satisfies
      the invariant of all of these.
    - Memory: kalloc, kfree, mappages, copyout, and the kernel's mappings that setupkvm
      makes; and what this fork's swapping does: an
      evicted page is not found again, and freeing user memory does not return.
    - Processes: allocproc, exit's reparenting, the argument stack of exec.
    - System calls: no argument leaves the process' memory; the reference counts of files
      match the descriptors.  Pipes are byte queues; the console is a line editor.
    - Assembly and boot: swtch saves and resumes a context, the code of a trap restores
      every register from the frame that the C code saw, a stub passes its arguments to
      the kernel; the boot loader puts the segments of the kernel where they belong;
      mpinit finds the processors, and loops for ever on a table it does not understand.
      main initialises every part, starts the other processors with a stack that their
      page table maps, and the scheduler hands the processor to the first process.
    - User programs: the shell's parser returns well-typed commands and inverts printing;
      grep matches the language of its expressions; printf and cprintf agree; malloc and free keep a heap
      of disjoint blocks; from the bytes typed, the shell starts exactly the programs that
      are meant, with their redirections and pipes, and when calls fail only fewer.
    - The system as a whole: on a fresh disk the kernel runs nine of the tests of names,
      links and directories to their end, and answers every call as the reference file
      system does, which itself passes all tests of files that one process makes.  The
      test pipe1 succeeds only if the pipe has delivered what was written.

    * Bounds and fuel

    Recursion that is not structural takes fuel, and running out is the outcome [Hang].
    - Loops over a buffer, a range of pages, a file or a directory get as many rounds as
      their length allows; the theorems on them state that they return.
    - [lru_fuel] is the number of pages; a search that exceeds it has seen the whole list,
      and the theorems on endless searches hold for every fuel.
    - A loop that sleeps until a condition holds gets [wait_fuel], 1000 wakeups.  The
      theorems on such loops either start where no wait is needed or are about all that
      can happen at each switch; [Hang] stands for a wait that has not ended.
    - The shell's parser gets fuel linear in the length of the line, proved sufficient.
    - User programs with loops that their arguments do not bound take fuel; the theorems
      ask for as much as the input has lines or bytes, and say that the program ends.
    - The tests take fuel for the loops that read a file or a directory to its end.
    - The searches of malloc and free get as many rounds as the heap has units, twice
      that for malloc, which may extend the heap once; the theorems state that they return.

    * Not modelled

    - The real-mode and paging code of bootasm.S, entry.S and entryother.S, instructions
      that change how the processor reads the following ones; MainSafe.v starts from the
      state they leave.  switchuvm loads no task state segment and no page table: the
      model finds both through the running process.  In the kernel model swtch is the
      outcome above, and the frame that the trap entry builds is a record.
    - Device registers in the kernel model: the bytes of console, keyboard and serial
      port are lists, the ports of the disk are modelled and its status register is a
      parameter, and lapiceoi has no effect; Devices.v models the ports on their own.
    - Memory other than pages: kernel stacks are addresses, and the trap frame and the
      context saved on them are fields of the process.
    - test4.c, which prints its own memory, and of usertests.c the functions mem,
      sbrktest, validatetest and uio, which use their memory and single instructions
      rather than the results of calls; they are parameters of main.  The processes of a
      test run one at a time in TestSafe.v, and System.v runs tests of one process.
    - The Perl scripts of the build. *)

From stdpp Require Export base list gmap strings numbers tactics.
From Stdlib Require Export ZArith Lia.
Global Open Scope Z_scope.
#[export] Set Warnings "-clear-no-such-hyp".

(** * Machine integers

    A C [uint] is a [Z] kept in the range [0 .. 2^32-1] by [u32]; a C [int] is
    a [Z] kept in the range [-2^31 .. 2^31-1] by [s32].  The narrower types of
    types.h ([uchar], [ushort], [short]) are treated the same way. *)
Definition u32 (z : Z) : Z := z mod 2 ^ 32.

Definition s32 (z : Z) : Z :=
  let u := z mod 2 ^ 32 in if u <? 2 ^ 31 then u else u - 2 ^ 32.

Definition u16 (z : Z) : Z := z mod 2 ^ 16.

Definition s16 (z : Z) : Z :=
  let u := z mod 2 ^ 16 in if u <? 2 ^ 15 then u else u - 2 ^ 16.

Definition u8 (z : Z) : Z := z mod 2 ^ 8.

(** * Little-endian words

    [le_bytes n w] is the memory image of the [n]-byte integer [w] on x86, and
    [le_val bs] the integer whose image is [bs]. *)
Fixpoint le_bytes (n : nat) (w : Z) : list Z :=
  match n with
  | O => []
  | S n' => w mod 256 :: le_bytes n' (w / 256)
  end.

Fixpoint le_val (bs : list Z) : Z :=
  match bs with
  | [] => 0
  | b :: bs' => b + 256 * le_val bs'
  end.

(** A byte list holds values of the C type [uchar]. *)
Definition is_byte (b : Z) : bool := (0 <=? b) && (b <? 256).

Definition bytes_ok (bs : list Z) : Prop := Forall (fun b => 0 <= b < 256) bs.

(** [slice off n l] is [l[off .. off+n-1]]; [splice l off l'] overwrites
    [l[off ..]] with [l'], as a [memmove] into the middle of an array does. *)
Definition slice {A} (off n : nat) (l : list A) : list A := take n (drop off l).

Definition splice {A} (l : list A) (off : nat) (l' : list A) : list A :=
  take off l ++ l' ++ drop (off + length l') l.

(** 32-bit words at a byte offset of an array, as a cast of its address to an [int*]
    or [uint*] reads and writes them. *)
Definition get32 (l : list Z) (off : nat) : Z := le_val (slice off 4 l).
Definition set32 (l : list Z) (off : nat) (v : Z) : list Z := splice l off (le_bytes 4 v).
Definition get16 (l : list Z) (off : nat) : Z := le_val (slice off 2 l).
Definition set16 (l : list Z) (off : nat) (v : Z) : list Z := splice l off (le_bytes 2 v).

(** * Effects of kernel code

    A kernel routine maps the state it starts in to an outcome.  [Panic] is a
    call of panic(), [Undef] an access C leaves undefined (a null pointer or an
    index outside its array), [Hang] a loop that was not seen to end (the fuel
    of the model ran out, or the code spins), and [Swtch] a context switch: the
    routine is suspended in state [s] and goes on as [k] in whatever state the
    other kernel threads have left when it is resumed. *)
Inductive outcome (St A : Type) : Type :=
| Ok (a : A) (s : St)
| Panic (msg : string)
| Undef (why : string)
| Hang
| Swtch (s : St) (k : St -> outcome St A).

Arguments Ok {St A} a s.
Arguments Panic {St A} msg.
Arguments Undef {St A} why.
Arguments Hang {St A}.
Arguments Swtch {St A} s k.

Definition M (St A : Type) : Type := St -> outcome St A.

Fixpoint obind {St A B} (o : outcome St A) (f : A -> M St B) : outcome St B :=
  match o with
  | Ok a s => f a s
  | Panic msg => Panic msg
  | Undef why => Undef why
  | Hang => Hang
  | Swtch s k => Swtch s (fun s' => obind (k s') f)
  end.

Definition ret {St A} (a : A) : M St A := fun s => Ok a s.

Definition bind {St A B} (m : M St A) (f : A -> M St B) : M St B :=
  fun s => obind (m s) f.

Definition panic {St A} (msg : string) : M St A := fun _ => Panic msg.

Definition undef {St A} (why : string) : M St A := fun _ => Undef why.

Definition hang {St A} : M St A := fun _ => Hang.

Definition reads {St A} (f : St -> A) : M St A := fun s => Ok (f s) s.

Definition modify {St} (f : St -> St) : M St unit := fun s => Ok tt (f s).

(** [a[i]] for an array modelled as a list: outside the array it is undefined. *)
Definition index {St A} (what : string) (o : option A) : M St A :=
  match o with Some a => ret a | None => undef what end.

Definition when {St} (b : bool) (m : M St unit) : M St unit :=
  if b then m else ret tt.

Fixpoint for_each {St A} (l : list A) (f : A -> M St unit) : M St unit :=
  match l with
  | [] => ret tt
  | x :: l' => bind (f x) (fun _ => for_each l' f)
  end.

Declare Scope kernel_scope.
Delimit Scope kernel_scope with kernel.

Notation "'let!' x := m 'in' k" := (bind m (fun x => k))
  (at level 10, x pattern, m at level 100, k at level 200) : kernel_scope.
Notation "m ;;; k" := (bind m (fun _ => k))
  (at level 100, k at level 200, right associativity) : kernel_scope.

(** Rely-guarantee reasoning over context switches: [guar G R Q o] says that the
    outcome [o] is no panic and no undefined access, that the guarantee [G] holds
    whenever it gives up the processor, and that it ends in [Q] provided that each
    time it is resumed the state [s'] it finds is related by the rely [R] to the
    state [s] it left.  Routines with matching [G] and [R] can be interleaved at
    their switch points.  [Hang] is allowed: a sleeping thread need not be woken. *)
Fixpoint guar {St A} (G : St -> Prop) (R : St -> St -> Prop) (Q : A -> St -> Prop)
    (o : outcome St A) : Prop :=
  match o with
  | Ok a s => Q a s
  | Panic _ => False
  | Undef _ => False
  | Hang => True
  | Swtch s k => G s /\ forall s', R s s' -> guar G R Q (k s')
  end.

(** Total correctness of a run without a context switch: [m] started in [s] returns,
    and result and final state satisfy [Q]. *)
Definition runs {St A} (m : M St A) (s : St) (Q : A -> St -> Prop) : Prop :=
  exists a s', m s = Ok a s' /\ Q a s'.

(** * Automation *)
Create HintDb xv6.
Create Rewrite HintDb xv6.
Create Rewrite HintDb xv6len.

(** Split every conjunction, disjunction and existential among the hypotheses. *)
Ltac split_hyps :=
  repeat match goal with
  | H : _ /\ _ |- _ => destruct H
  | H : exists _, _ |- _ => destruct H
  end.

(** Turn boolean comparisons on [Z] among the hypotheses into inequalities. *)
Ltac zbool :=
  repeat match goal with
  | H : (_ && _)%bool = true |- _ => apply andb_prop in H; destruct H
  | H : (_ || _)%bool = false |- _ => apply orb_false_elim in H; destruct H
  | H : negb _ = true |- _ => apply negb_true_iff in H
  | H : negb _ = false |- _ => apply negb_false_iff in H
  | H : (_ <? _) = true |- _ => apply Z.ltb_lt in H
  | H : (_ <? _) = false |- _ => apply Z.ltb_ge in H
  | H : (_ <=? _) = true |- _ => apply Z.leb_le in H
  | H : (_ <=? _) = false |- _ => apply Z.leb_gt in H
  | H : (_ =? _) = true |- _ => apply Z.eqb_eq in H
  | H : (_ =? _) = false |- _ => apply Z.eqb_neq in H
  end.

(** Case analysis on the first boolean test of the goal, with its meaning. *)
Ltac case_bool :=
  match goal with
  | |- context [if ?b then _ else _] =>
      let E := fresh "E" in destruct b eqn:E
  end; zbool.

(** Normalise division and remainder by constants and finish with [lia]. *)
Ltac zdiv := Z.div_mod_to_equations; lia.

(** * Lemmas *)
Lemma u32_range z : 0 <= u32 z < 2 ^ 32.
Proof. unfold u32. apply Z.mod_pos_bound. lia. Qed.

Lemma u32_small z : 0 <= z < 2 ^ 32 -> u32 z = z.
Proof. unfold u32. apply Z.mod_small. Qed.

Lemma u32_idemp z : u32 (u32 z) = u32 z.
Proof. apply u32_small, u32_range. Qed.

Lemma u32_add_l a b : u32 (u32 a + b) = u32 (a + b).
Proof. unfold u32. apply Zplus_mod_idemp_l. Qed.

Lemma u32_add_r a b : u32 (a + u32 b) = u32 (a + b).
Proof. unfold u32. apply Zplus_mod_idemp_r. Qed.

Lemma u32_sub_l a b : u32 (u32 a - b) = u32 (a - b).
Proof. unfold u32. apply Zminus_mod_idemp_l. Qed.

Lemma u32_sub_r a b : u32 (a - u32 b) = u32 (a - b).
Proof. unfold u32. apply Zminus_mod_idemp_r. Qed.

Lemma s32_range z : - 2 ^ 31 <= s32 z < 2 ^ 31.
Proof.
  unfold s32. pose proof (Z.mod_pos_bound z (2 ^ 32)).
  destruct (z mod 2 ^ 32 <? 2 ^ 31) eqn:E; zbool; lia.
Qed.

Lemma s32_small z : - 2 ^ 31 <= z < 2 ^ 31 -> s32 z = z.
Proof.
  intros Hz. unfold s32. destruct (Z.ltb_spec (z mod 2 ^ 32) (2 ^ 31)); zdiv.
Qed.

Lemma u32_s32 z : u32 (s32 z) = u32 z.
Proof.
  unfold u32, s32. destruct (Z.ltb_spec (z mod 2 ^ 32) (2 ^ 31)).
  - by rewrite Z.mod_mod by lia.
  - rewrite Zminus_mod_idemp_l. replace (z - 2 ^ 32) with (z + (-1) * 2 ^ 32) by lia.
    apply Z_mod_plus_full.
Qed.

Lemma s32_u32 z : s32 (u32 z) = s32 z.
Proof. unfold s32, u32. by rewrite Z.mod_mod by lia. Qed.

Lemma u8_range z : 0 <= u8 z < 256.
Proof. unfold u8. apply Z.mod_pos_bound. lia. Qed.

Lemma u8_small z : 0 <= z < 256 -> u8 z = z.
Proof. intros. unfold u8. apply Z.mod_small. lia. Qed.

#[export] Hint Resolve u32_range s32_range u8_range : xv6.
#[export] Hint Rewrite u32_idemp u32_add_l u32_add_r u32_sub_l u32_sub_r u32_s32 s32_u32 : xv6.

Lemma length_le_bytes n w : length (le_bytes n w) = n.
Proof. revert w. induction n; intros; simpl; auto. Qed.

Lemma le_bytes_ok n w : bytes_ok (le_bytes n w).
Proof.
  revert w. induction n; intros; simpl; constructor; auto.
  apply Z.mod_pos_bound. lia.
  apply IHn.
Qed.

Lemma le_val_bytes n w : le_val (le_bytes n w) = w mod 2 ^ (8 * Z.of_nat n).
Proof.
  revert w. induction n as [|n IH]; intros w; simpl le_val.
  - by rewrite Z.mod_1_r.
  - rewrite IH.
    replace (8 * Z.of_nat (S n)) with (8 + 8 * Z.of_nat n) by lia.
    rewrite Z.pow_add_r by lia. change (2 ^ 8) with 256.
    rewrite Z.rem_mul_r by lia. lia.
Qed.

Lemma le_bytes_val bs : bytes_ok bs -> le_bytes (length bs) (le_val bs) = bs.
Proof.
  induction 1 as [|b bs Hb _ IH]; simpl; [done|].
  rewrite (Z.mul_comm 256), Z_mod_plus_full, Z.mod_small by lia.
  rewrite Z.div_add, Z.div_small by lia. rewrite Z.add_0_l. by rewrite IH.
Qed.

Lemma le_val_range bs : bytes_ok bs -> 0 <= le_val bs < 2 ^ (8 * Z.of_nat (length bs)).
Proof.
  intros Hbs. replace (le_val bs) with (le_val bs mod 2 ^ (8 * Z.of_nat (length bs))).
  - apply Z.mod_pos_bound, Z.pow_pos_nonneg; lia.
  - rewrite <- le_val_bytes. by rewrite le_bytes_val.
Qed.

(** An array of 32-bit words as bytes. *)
Lemma length_words ws : length (concat (le_bytes 4 <$> ws)) = (4 * length ws)%nat.
Proof. induction ws as [|a ws IH]; [done|]. cbn [fmap list_fmap concat]. rewrite length_app, IH, length_le_bytes. simpl. lia. Qed.

Lemma slice_words ws j a : ws !! j = Some a -> slice (4 * j) 4 (concat (le_bytes 4 <$> ws)) = le_bytes 4 a.
Proof.
  revert j. induction ws as [|b ws IH]; intros [|j] Ha; try done.
  - simpl in Ha. simplify_eq. reflexivity.
  - simpl in Ha. rewrite <- (IH j Ha). replace (4 * S j)%nat with (4 + 4 * j)%nat by lia.
    unfold slice. rewrite <- drop_drop. reflexivity.
Qed.

Lemma words_ok ws : bytes_ok (concat (le_bytes 4 <$> ws)).
Proof. induction ws as [|w ws IH]; [constructor|]. cbn [fmap list_fmap concat]. apply Forall_app. split; [apply le_bytes_ok|exact IH]. Qed.

Lemma length_slice {A} off n (l : list A) : length (slice off n l) = (n `min` (length l - off))%nat.
Proof. unfold slice. by rewrite length_take, length_drop. Qed.

Lemma length_splice {A} (l : list A) off l' :
  (off + length l' <= length l)%nat -> length (splice l off l') = length l.
Proof.
  intros. unfold splice. rewrite !length_app, length_take, length_drop. lia.
Qed.

Lemma slice_splice_eq {A} (l : list A) off l' :
  (off + length l' <= length l)%nat -> slice off (length l') (splice l off l') = l'.
Proof.
  intros. unfold slice, splice. rewrite drop_app_le by (rewrite length_take; lia).
  rewrite drop_ge by (rewrite length_take; lia). simpl. by rewrite take_app_length.
Qed.

Lemma lookup_splice_in {A} (l : list A) off l' i :
  (off + length l' <= length l)%nat -> (off <= i < off + length l')%nat ->
  splice l off l' !! i = l' !! (i - off)%nat.
Proof.
  intros. unfold splice. rewrite lookup_app_r by (rewrite length_take; lia).
  rewrite lookup_app_l by (rewrite length_take; lia). f_equal. rewrite length_take. lia.
Qed.

Lemma lookup_splice_out {A} (l : list A) off l' i :
  (off + length l' <= length l)%nat -> (i < off \/ off + length l' <= i)%nat ->
  splice l off l' !! i = l !! i.
Proof.
  intros Hl [Hi|Hi]; unfold splice.
  - rewrite lookup_app_l by (rewrite length_take; lia). by rewrite lookup_take_lt by lia.
  - rewrite lookup_app_r by (rewrite length_take; lia).
    rewrite lookup_app_r by (rewrite length_take; lia).
    rewrite lookup_drop. f_equal. rewrite length_take. lia.
Qed.

Lemma slice_splice_ne {A} (l : list A) off l' off' n :
  (off + length l' <= length l)%nat ->
  (off' + n <= off \/ off + length l' <= off')%nat ->
  slice off' n (splice l off l') = slice off' n l.
Proof.
  intros Hl Hd. apply list_eq. intros i. unfold slice.
  destruct (decide (i < n)%nat).
  - rewrite !lookup_take_lt by lia. rewrite !lookup_drop. apply lookup_splice_out; lia.
  - by rewrite !lookup_take_ge by lia.
Qed.

Lemma lookup_splice {A} (l : list A) o l' j : (o <= length l)%nat ->
  splice l o l' !! j = if decide (o <= j < o + length l')%nat then l' !! (j - o)%nat else l !! j.
Proof.
  intros Hl. unfold splice. destruct (decide (j < o)%nat).
  - rewrite decide_False by lia. rewrite lookup_app_l, lookup_take_lt by (rewrite ?length_take; lia). done.
  - rewrite lookup_app_r by (rewrite length_take; lia). rewrite length_take, Nat.min_l by done. case_decide.
    + by rewrite lookup_app_l by lia.
    + rewrite lookup_app_r, lookup_drop by lia. f_equal. lia.
Qed.

Lemma splice_nil {A} (l : list A) o : splice l o [] = l.
Proof. unfold splice. cbn. rewrite Nat.add_0_r. apply take_drop. Qed.

(** Adjacent writes are one write. *)
Lemma splice_splice {A} (l : list A) o p q : (o <= length l)%nat ->
  splice (splice l o p) (o + length p) q = splice l o (p ++ q).
Proof.
  intros Ho. assert (Hlen : (o + length p <= length (splice l o p))%nat).
  { unfold splice. rewrite !length_app, length_take. lia. }
  apply list_eq. intros j. rewrite !lookup_splice by done. rewrite length_app. repeat case_decide; try lia; try done.
  - rewrite lookup_app_r by lia. f_equal. lia.
  - by rewrite lookup_app_l by lia.
Qed.

(** Reading within what was written. *)
Lemma slice_splice_sub {A} (l : list A) off l' k n :
  (off + length l' <= length l)%nat -> (k + n <= length l')%nat ->
  slice (off + k) n (splice l off l') = slice k n l'.
Proof.
  intros Hl Hk. apply list_eq. intros i. unfold slice. destruct (decide (i < n)%nat).
  - rewrite !lookup_take_lt, !lookup_drop by lia. rewrite lookup_splice_in by lia. f_equal. lia.
  - by rewrite !lookup_take_ge by lia.
Qed.

Lemma splice_bytes_ok l off l' : bytes_ok l -> bytes_ok l' -> bytes_ok (splice l off l').
Proof.
  intros Hl Hl'. unfold splice, bytes_ok in *. rewrite !Forall_app. split; [by apply Forall_take|].
  split; [done|]. by apply Forall_drop.
Qed.

Lemma slice_bytes_ok l off n : bytes_ok l -> bytes_ok (slice off n l).
Proof. intros Hl. unfold slice, bytes_ok in *. by apply Forall_take, Forall_drop. Qed.

Lemma length_set32 l off v : (off + 4 <= length l)%nat -> length (set32 l off v) = length l.
Proof. intros. apply length_splice. by rewrite length_le_bytes. Qed.

Lemma set32_bytes_ok l off v : bytes_ok l -> bytes_ok (set32 l off v).
Proof. intros. apply splice_bytes_ok; [done|apply le_bytes_ok]. Qed.

Lemma get32_set32_eq l off v : (off + 4 <= length l)%nat -> get32 (set32 l off v) off = u32 v.
Proof.
  intros. unfold get32, set32. replace 4%nat with (length (le_bytes 4 v)) at 1 by apply length_le_bytes.
  rewrite slice_splice_eq by (by rewrite length_le_bytes). apply le_val_bytes.
Qed.

Lemma get32_set32_ne l off off' v : (off + 4 <= length l)%nat -> (off' + 4 <= off \/ off + 4 <= off')%nat ->
  get32 (set32 l off v) off' = get32 l off'.
Proof. intros. unfold get32, set32. by rewrite slice_splice_ne by (by rewrite length_le_bytes). Qed.

Lemma get32_range l off : bytes_ok l -> (off + 4 <= length l)%nat -> 0 <= get32 l off < 2 ^ 32.
Proof.
  intros Hl Hlen. unfold get32. pose proof (le_val_range _ (slice_bytes_ok l off 4 Hl)) as H.
  rewrite length_slice in H. replace (4 `min` (length l - off))%nat with 4%nat in H by lia. exact H.
Qed.

Lemma length_set16 l off v : (off + 2 <= length l)%nat -> length (set16 l off v) = length l.
Proof. intros. apply length_splice. by rewrite length_le_bytes. Qed.

Lemma set16_bytes_ok l off v : bytes_ok l -> bytes_ok (set16 l off v).
Proof. intros. apply splice_bytes_ok; [done|apply le_bytes_ok]. Qed.

Lemma get16_set16_eq l off v : (off + 2 <= length l)%nat -> get16 (set16 l off v) off = u16 v.
Proof.
  intros. unfold get16, set16. replace 2%nat with (length (le_bytes 2 v)) at 1 by apply length_le_bytes.
  rewrite slice_splice_eq by (by rewrite length_le_bytes). apply le_val_bytes.
Qed.

Lemma get16_set16_ne l off off' v : (off + 2 <= length l)%nat -> (off' + 2 <= off \/ off + 2 <= off')%nat ->
  get16 (set16 l off v) off' = get16 l off'.
Proof. intros. unfold get16, set16. by rewrite slice_splice_ne by (by rewrite length_le_bytes). Qed.

#[export] Hint Rewrite @length_le_bytes @length_slice @length_app @length_take @length_drop
  @length_replicate @length_fmap @length_insert : xv6len.

(** [len] solves goals on the lengths of compound lists. *)
Ltac len := autorewrite with xv6len in *; simpl in *; try lia.

Lemma bind_ok {St A B} (m : M St A) (f : A -> M St B) s a s' :
  m s = Ok a s' -> bind m f s = f a s'.
Proof. intros H. unfold bind. by rewrite H. Qed.

Lemma bind_ok_inv {St A B} (m : M St A) (f : A -> M St B) s b s' :
  (forall s0 k, m s <> Swtch s0 k) ->
  bind m f s = Ok b s' -> exists a s1, m s = Ok a s1 /\ f a s1 = Ok b s'.
Proof.
  unfold bind. intros Hsw H. destruct (m s) as [a s1| | | |s0 k]; simpl in H; try discriminate; eauto.
Qed.

(** Running the first statements of a block. *)
Lemma bind_prefix {St A B C} (m : M St A) (f : A -> M St B) (g : B -> M St C) s b s' :
  bind m f s = Ok b s' -> bind m (fun a => bind (f a) g) s = g b s'.
Proof. unfold bind. destruct (m s); simpl; intros H; try discriminate. by rewrite H. Qed.

Lemma bind_panic {St A B} (m : M St A) (f : A -> M St B) s msg :
  m s = Panic msg -> bind m f s = Panic msg.
Proof. intros H. unfold bind. by rewrite H. Qed.

Lemma guar_bind {St A B} G R (Q : A -> St -> Prop) (P : B -> St -> Prop)
    (o : outcome St A) (f : A -> M St B) :
  guar G R Q o -> (forall a s, Q a s -> guar G R P (f a s)) -> guar G R P (obind o f).
Proof.
  intros Ho Hf. induction o as [a s| | | |s k IH]; simpl in *; auto.
  destruct Ho as [Hs Hk]. split; [done|]. intros s' Hs'. apply IH, Hk, Hs'.
Qed.

Lemma guar_mono {St A} G R (Q P : A -> St -> Prop) (o : outcome St A) :
  guar G R Q o -> (forall a s, Q a s -> P a s) -> guar G R P o.
Proof.
  intros Ho HQP. induction o as [a s| | | |s k IH]; simpl in *; auto.
  destruct Ho as [Hs Hk]. split; [done|]. auto.
Qed.

Lemma runs_bind {St A B} (m : M St A) (f : A -> M St B) s Q R :
  runs m s Q -> (forall a s', Q a s' -> runs (f a) s' R) -> runs (bind m f) s R.
Proof.
  intros (a & s' & Hm & HQ) Hf. destruct (Hf a s' HQ) as (b & s2 & Hfs & HR).
  exists b, s2. split; [|done]. by rewrite (bind_ok _ _ _ _ _ Hm).
Qed.

Lemma runs_ret {St A} (a : A) (s : St) (Q : A -> St -> Prop) : Q a s -> runs (ret a) s Q.
Proof. intros. by exists a, s. Qed.

Lemma runs_ok {St A} (m : M St A) s a s' (Q : A -> St -> Prop) : m s = Ok a s' -> Q a s' -> runs m s Q.
Proof. intros. by exists a, s'. Qed.

Lemma runs_mono {St A} (m : M St A) s (Q R : A -> St -> Prop) :
  runs m s Q -> (forall a s', Q a s' -> R a s') -> runs m s R.
Proof. intros (a & s' & Hm & HQ) HR. exists a, s'. auto. Qed.

Lemma runs_guar {St A} G R (m : M St A) s (Q : A -> St -> Prop) : runs m s Q -> guar G R Q (m s).
Proof. intros (a & s' & -> & HQ). exact HQ. Qed.

(** * Updates of one element of a list *)
Lemma list_alter_at {A} (l : list A) (i : nat) x (f g : A -> A) :
  l !! i = Some x -> f x = g x -> alter f i l = alter g i l.
Proof.
  intros Hx Hfg. apply list_alter_ext; [|done]. intros y Hy. rewrite Hx in Hy. by simplify_eq.
Qed.

Lemma list_alter_insert_at {A} (l : list A) (i : nat) x (f : A -> A) :
  l !! i = Some x -> alter f i l = <[i := f x]> l.
Proof. intros Hx. rewrite list_insert_alter. by apply (list_alter_at l i x). Qed.

Lemma NoDup_fst_eq {A B} (l : list (A * B)) a b b' :
  NoDup l.*1 -> (a, b) ∈ l -> (a, b') ∈ l -> b = b'.
Proof.
  induction l as [|[x y] l IH]; cbn; [set_solver|]. intros [Hx Hnd]%list.NoDup_cons.
  assert (Hin : forall z, (a, z) ∈ l -> a ∈ l.*1) by (intros z Hz; apply list_elem_of_fmap; by exists (a, z)).
  intros [E1|H1]%elem_of_cons [E2|H2]%elem_of_cons; simplify_eq; eauto; destruct Hx; eauto.
Qed.
