(* ===== verification/Layout.v ===== *)
(** Constants and address arithmetic of the headers param.h, memlayout.h, mmu.h
    and fs.h: page rounding, the three-part split of a virtual address, page
    table entries, segment and gate descriptors, and the block numbers of the
    on-disk layout. *)

From S2P Require Import Prelude.

(** ** param.h *)
Definition NPROC : Z := 64.
Definition KSTACKSIZE : Z := 4096.
Definition NCPU : Z := 8.
Definition NOFILE : Z := 16.
Definition NFILE : Z := 100.
Definition NINODE : Z := 50.
Definition NDEV : Z := 10.
Definition ROOTDEV : Z := 1.
Definition MAXARG : Z := 32.
Definition MAXOPBLOCKS : Z := 10.
Definition LOGSIZE : Z := MAXOPBLOCKS * 3.
Definition NBUF : Z := MAXOPBLOCKS * 3.
Definition FSSIZE : Z := 100000.
Definition SWAPBASE : Z := 500.
Definition SWAPMAX : Z := 100000 - SWAPBASE.

(** ** memlayout.h *)
Definition EXTMEM : Z := 0x100000.
Definition PHYSTOP : Z := 0xE000000.
Definition DEVSPACE : Z := 0xFE000000.
Definition KERNBASE : Z := 0x80000000.
Definition KERNLINK : Z := KERNBASE + EXTMEM.

Definition V2P (a : Z) : Z := u32 (a - KERNBASE).
Definition P2V (a : Z) : Z := u32 (a + KERNBASE).

(** ** mmu.h: addresses *)
Definition PGSIZE : Z := 4096.
Definition NPDENTRIES : Z := 1024.
Definition NPTENTRIES : Z := 1024.
Definition PTXSHIFT : Z := 12.
Definition PDXSHIFT : Z := 22.

Definition PDX (va : Z) : Z := Z.land (Z.shiftr (u32 va) PDXSHIFT) 0x3FF.
Definition PTX (va : Z) : Z := Z.land (Z.shiftr (u32 va) PTXSHIFT) 0x3FF.

Definition PGADDR (d t o : Z) : Z :=
  u32 (Z.lor (Z.lor (Z.shiftl d PDXSHIFT) (Z.shiftl t PTXSHIFT)) o).

Definition PGROUNDUP (sz : Z) : Z := Z.land (u32 (sz + PGSIZE - 1)) (Z.lnot (PGSIZE - 1)).
Definition PGROUNDDOWN (a : Z) : Z := Z.land (u32 a) (Z.lnot (PGSIZE - 1)).

(** ** mmu.h: page table entries *)
Definition PTE_P : Z := 0x001.
Definition PTE_W : Z := 0x002.
Definition PTE_U : Z := 0x004.
Definition PTE_PS : Z := 0x080.
Definition PTE_A : Z := 0x20.
Definition PTE_SWAP : Z := 0x100.

Definition PTE_ADDR (pte : Z) : Z := Z.land (u32 pte) (Z.lnot 0xFFF).
Definition PTE_FLAGS (pte : Z) : Z := Z.land (u32 pte) 0xFFF.

(** ** mmu.h: segment and gate descriptors *)
Definition FL_IF : Z := 0x200.
Definition SEG_KCODE : Z := 1.
Definition SEG_KDATA : Z := 2.
Definition SEG_UCODE : Z := 3.
Definition SEG_UDATA : Z := 4.
Definition SEG_TSS : Z := 5.
Definition DPL_USER : Z := 3.
Definition STA_X : Z := 8.
Definition STA_W : Z := 2.
Definition STA_R : Z := 2.
Definition STS_T32A : Z := 9.
Definition STS_IG32 : Z := 14.
Definition STS_TG32 : Z := 15.

Record segdesc := mk_segdesc {
  lim_15_0 : Z;
  base_15_0 : Z;
  base_23_16 : Z;
  sd_type : Z;
  sd_s : Z;
  sd_dpl : Z;
  sd_p : Z;
  lim_19_16 : Z;
  sd_avl : Z;
  sd_rsv1 : Z;
  sd_db : Z;
  sd_g : Z;
  base_31_24 : Z }.

(** [lim] is an unsigned constant in every use of the macros. *)
Definition SEG (type base lim dpl : Z) : segdesc :=
  mk_segdesc (Z.land (Z.shiftr lim 12) 0xffff) (Z.land (u32 base) 0xffff)
    (Z.land (Z.shiftr (u32 base) 16) 0xff) type 1 dpl 1
    (Z.shiftr (u32 lim) 28) 0 0 1 1 (Z.shiftr (u32 base) 24).

Definition SEG16 (type base lim dpl : Z) : segdesc :=
  mk_segdesc (Z.land lim 0xffff) (Z.land (u32 base) 0xffff)
    (Z.land (Z.shiftr (u32 base) 16) 0xff) type 1 dpl 1
    (Z.shiftr (u32 lim) 16) 0 0 1 0 (Z.shiftr (u32 base) 24).

Record gatedesc := mk_gatedesc {
  off_15_0 : Z;
  gd_cs : Z;
  gd_args : Z;
  gd_rsv1 : Z;
  gd_type : Z;
  gd_s : Z;
  gd_dpl : Z;
  gd_p : Z;
  off_31_16 : Z }.

Definition SETGATE (istrap : bool) (sel off d : Z) : gatedesc :=
  mk_gatedesc (Z.land (u32 off) 0xffff) sel 0 0
    (if istrap then STS_TG32 else STS_IG32) 0 d 1 (Z.shiftr (u32 off) 16).

(** What the processor reads out of the descriptors (Intel SDM vol. 3, 3.4.5
    and 6.11): the base, the limit in bytes and the handler's offset. *)
Definition seg_base (d : segdesc) : Z :=
  base_15_0 d + 2 ^ 16 * base_23_16 d + 2 ^ 24 * base_31_24 d.

Definition seg_limit (d : segdesc) : Z :=
  let raw := lim_15_0 d + 2 ^ 16 * lim_19_16 d in
  if sd_g d =? 1 then 4096 * raw + 4095 else raw.

Definition gate_offset (g : gatedesc) : Z := off_15_0 g + 2 ^ 16 * off_31_16 g.

(** ** fs.h *)
Definition ROOTINO : Z := 1.
Definition BSIZE : Z := 512.
Definition NDIRECT : Z := 12.
Definition NINDIRECT : Z := BSIZE / 4.
Definition MAXFILE : Z := NDIRECT + NINDIRECT.
Definition DIRSIZ : Z := 14.

(** The sizes the compiler gives [struct dinode] and [struct dirent]. *)
Definition sizeof_dinode : Z := 64.
Definition sizeof_dirent : Z := 16.

Definition IPB : Z := BSIZE / sizeof_dinode.
Definition BPB : Z := BSIZE * 8.

Record superblock := mk_superblock {
  sb_size : Z;
  sb_nblocks : Z;
  sb_ninodes : Z;
  sb_nlog : Z;
  sb_logstart : Z;
  sb_inodestart : Z;
  sb_bmapstart : Z }.

Definition IBLOCK (i : Z) (sb : superblock) : Z := i / IPB + sb_inodestart sb.
Definition BBLOCK (b : Z) (sb : superblock) : Z := b / BPB + sb_bmapstart sb.

(** ** stat.h and fcntl.h *)
Definition T_DIR : Z := 1.
Definition T_FILE : Z := 2.
Definition T_DEV : Z := 3.
Definition O_RDONLY : Z := 0x000.
Definition O_WRONLY : Z := 0x001.
Definition O_RDWR : Z := 0x002.
Definition O_CREATE : Z := 0x200.

(** * Lemmas *)
Lemma land_low z n : 0 <= n -> Z.land z (Z.ones n) = z mod 2 ^ n.
Proof. apply Z.land_ones. Qed.

(** Clearing the low [n] bits rounds down to a multiple of [2^n]. *)
Lemma land_high z n : 0 <= n -> Z.land z (Z.lnot (Z.ones n)) = 2 ^ n * (z / 2 ^ n).
Proof.
  intros Hn. rewrite <- Z.ldiff_land, Z.ldiff_ones_r by lia.
  rewrite Z.shiftl_mul_pow2, Z.shiftr_div_pow2 by lia. lia.
Qed.

Lemma PGROUNDDOWN_eq a : PGROUNDDOWN a = PGSIZE * (u32 a / PGSIZE).
Proof. unfold PGROUNDDOWN, PGSIZE. change (4096 - 1) with (Z.ones 12). apply land_high. lia. Qed.

Lemma PGROUNDUP_eq a : PGROUNDUP a = PGSIZE * (u32 (a + PGSIZE - 1) / PGSIZE).
Proof. unfold PGROUNDUP, PGSIZE. change (4096 - 1) with (Z.ones 12). apply land_high. lia. Qed.

Lemma PTE_ADDR_eq p : PTE_ADDR p = PGSIZE * (u32 p / PGSIZE).
Proof. unfold PTE_ADDR. change 0xFFF with (Z.ones 12). apply land_high. lia. Qed.

Lemma PTE_FLAGS_eq p : PTE_FLAGS p = u32 p mod PGSIZE.
Proof. unfold PTE_FLAGS. change 0xFFF with (Z.ones 12). apply land_low. lia. Qed.

Lemma PDX_eq va : PDX va = u32 va / 2 ^ 22.
Proof.
  unfold PDX, PDXSHIFT. change 0x3FF with (Z.ones 10). rewrite land_low by lia.
  rewrite Z.shiftr_div_pow2 by lia. pose proof (u32_range va).
  apply Z.mod_small. zdiv.
Qed.

Lemma PTX_eq va : PTX va = (u32 va / 2 ^ 12) mod 2 ^ 10.
Proof.
  unfold PTX, PTXSHIFT. change 0x3FF with (Z.ones 10). rewrite land_low by lia.
  by rewrite Z.shiftr_div_pow2 by lia.
Qed.

(** Disjoint fields: [lor] of a multiple of [2^n] and a number below [2^n] adds. *)
Lemma lor_disjoint a b n : 0 <= n -> 0 <= b < 2 ^ n -> Z.lor (a * 2 ^ n) b = a * 2 ^ n + b.
Proof.
  intros Hn Hb. symmetry. apply Z.add_nocarry_lor.
  apply Z.bits_inj'. intros i Hi. rewrite Z.land_spec, Z.bits_0.
  destruct (Z.lt_ge_cases i n) as [H|H].
  - by rewrite Z.mul_pow2_bits_low by lia.
  - rewrite <- (Z.mod_small b (2 ^ n)) by lia.
    rewrite Z.mod_pow2_bits_high by lia. apply andb_false_r.
Qed.

Lemma PGADDR_eq d t o :
  0 <= d < 2 ^ 10 -> 0 <= t < 2 ^ 10 -> 0 <= o < PGSIZE ->
  PGADDR d t o = d * 2 ^ 22 + t * 2 ^ 12 + o.
Proof.
  intros Hd Ht Ho. unfold PGADDR, PDXSHIFT, PTXSHIFT, PGSIZE in *.
  rewrite !Z.shiftl_mul_pow2 by lia. rewrite lor_disjoint by lia.
  replace (d * 2 ^ 22 + t * 2 ^ 12) with ((d * 2 ^ 10 + t) * 2 ^ 12) by lia.
  rewrite lor_disjoint by lia. rewrite u32_small; lia.
Qed.

Lemma PGROUNDUP_small a : 0 <= a <= 2 ^ 32 - PGSIZE ->
  PGROUNDUP a = PGSIZE * ((a + PGSIZE - 1) / PGSIZE).
Proof. intros. rewrite PGROUNDUP_eq, u32_small; [done|unfold PGSIZE in *; lia]. Qed.

Lemma PGROUNDUP_bounds a : 0 <= a <= 2 ^ 32 - PGSIZE ->
  a <= PGROUNDUP a < a + PGSIZE /\ PGROUNDUP a mod PGSIZE = 0.
Proof.
  intros. rewrite PGROUNDUP_small by done. unfold PGSIZE in *.
  rewrite Z.mul_comm, Z.mod_mul by lia. zdiv.
Qed.

Lemma PGROUNDDOWN_bounds a : 0 <= a < 2 ^ 32 ->
  a - PGSIZE < PGROUNDDOWN a <= a /\ PGROUNDDOWN a mod PGSIZE = 0.
Proof.
  intros. rewrite PGROUNDDOWN_eq, u32_small by done. unfold PGSIZE in *.
  rewrite Z.mul_comm, Z.mod_mul by lia. zdiv.
Qed.

Lemma V2P_P2V pa : 0 <= pa < 2 ^ 32 -> V2P (P2V pa) = pa.
Proof.
  intros. unfold V2P, P2V. rewrite u32_sub_l. rewrite u32_small; lia.
Qed.

Lemma P2V_V2P va : 0 <= va < 2 ^ 32 -> P2V (V2P va) = va.
Proof.
  intros. unfold V2P, P2V. rewrite u32_add_l. rewrite u32_small; lia.
Qed.

(** The three-part split of a virtual address loses nothing: the address is
    rebuilt from its directory index, table index and page offset, and the
    indexes of a rebuilt address are the ones it was built from. *)
Lemma pgaddr_split va : 0 <= va < 2 ^ 32 -> PGADDR (PDX va) (PTX va) (va mod PGSIZE) = va.
Proof.
  intros H. rewrite PDX_eq, PTX_eq, (u32_small va H), PGADDR_eq; unfold PGSIZE; zdiv.
Qed.

Lemma pgaddr_indexes d t o :
  0 <= d < 2 ^ 10 -> 0 <= t < 2 ^ 10 -> 0 <= o < PGSIZE ->
  PDX (PGADDR d t o) = d /\ PTX (PGADDR d t o) = t /\ PGADDR d t o mod PGSIZE = o.
Proof.
  intros Hd Ht Ho. rewrite PDX_eq, PTX_eq, PGADDR_eq by done.
  unfold PGSIZE in *. rewrite u32_small by lia. zdiv.
Qed.

(** A page table entry splits into the frame address and the flag bits. *)
Lemma pte_split pte : 0 <= pte < 2 ^ 32 -> PTE_ADDR pte + PTE_FLAGS pte = pte.
Proof.
  intros. rewrite PTE_ADDR_eq, PTE_FLAGS_eq, u32_small by done. unfold PGSIZE. zdiv.
Qed.

(** SEG builds a 4K-granular descriptor: its base is [base] and the limit the
    processor computes is [lim] with its low 12 bits set, provided bits 12-27 and
    28-31 of [lim] are its 20-bit page limit.  SEG16 keeps a byte limit. *)
Lemma SEG_fields type base lim dpl :
  0 <= base < 2 ^ 32 -> 0 <= lim < 2 ^ 32 ->
  seg_base (SEG type base lim dpl) = base /\
  seg_limit (SEG type base lim dpl) = 4096 * (lim / 4096) + 4095.
Proof.
  intros Hb Hl. unfold seg_base, seg_limit, SEG. cbn -[Z.pow Z.mul Z.div Z.modulo].
  change 0xffff with (Z.ones 16). change 0xff with (Z.ones 8).
  rewrite !land_low by lia. rewrite !(u32_small base), !(u32_small lim) by lia.
  rewrite !Z.shiftr_div_pow2 by lia. zdiv.
Qed.

Lemma SEG16_fields type base lim dpl :
  0 <= base < 2 ^ 32 -> 0 <= lim < 2 ^ 20 ->
  seg_base (SEG16 type base lim dpl) = base /\ seg_limit (SEG16 type base lim dpl) = lim.
Proof.
  intros Hb Hl. unfold seg_base, seg_limit, SEG16. cbn -[Z.pow Z.mul Z.div Z.modulo].
  change 0xffff with (Z.ones 16). change 0xff with (Z.ones 8).
  rewrite !land_low by lia. rewrite !(u32_small base), !(u32_small lim) by lia.
  rewrite !Z.shiftr_div_pow2 by lia. zdiv.
Qed.

Lemma SETGATE_offset istrap sel off d :
  0 <= off < 2 ^ 32 -> gate_offset (SETGATE istrap sel off d) = off.
Proof.
  intros Ho. unfold gate_offset, SETGATE. cbn -[Z.pow Z.mul Z.div Z.modulo].
  change 0xffff with (Z.ones 16). rewrite land_low by lia. rewrite !u32_small by lia.
  rewrite Z.shiftr_div_pow2 by lia. zdiv.
Qed.
