(* ===== verification/CString.v ===== *)
(** The memory and string routines of string.c, and the ones of ulib.c that user
    programs link instead of them.

    [memset] and [memmove] act on a byte-addressed memory, because what they do
    depends on how source and destination overlap.  A [char*] that is only read
    as a string is the list of the bytes from the pointer on, and reading past
    the end of the list gives the NUL that ends the string. *)

From S2P Require Import Prelude Layout.

(** ** Byte-addressed memory *)
Abbreviation memory := (gmap Z Z).

Definition ldb (m : memory) (a : Z) : Z := default 0 (m !! a).
Definition stb (m : memory) (a v : Z) : memory := <[a := u8 v]> m.

(** [rep stosb] and [rep stosl] of x86.h. *)
Fixpoint stosb (m : memory) (addr data : Z) (cnt : nat) : memory :=
  match cnt with
  | O => m
  | S cnt' => stosb (stb m addr data) (addr + 1) data cnt'
  end.

Definition st32 (m : memory) (a w : Z) : memory :=
  stb (stb (stb (stb m a w) (a + 1) (w / 2 ^ 8)) (a + 2) (w / 2 ^ 16)) (a + 3) (w / 2 ^ 24).

Definition ld32 (m : memory) (a : Z) : Z :=
  ldb m a + 2 ^ 8 * ldb m (a + 1) + 2 ^ 16 * ldb m (a + 2) + 2 ^ 24 * ldb m (a + 3).

Fixpoint stosl (m : memory) (addr data : Z) (cnt : nat) : memory :=
  match cnt with
  | O => m
  | S cnt' => stosl (st32 m addr data) (addr + 4) data cnt'
  end.

(** ** string.c *)
Definition memset (m : memory) (dst c n : Z) : memory :=
  if (Z.rem (s32 dst) 4 =? 0) && (n mod 4 =? 0) then
    let c := Z.land c 0xFF in
    stosl m dst (Z.lor (Z.lor (Z.lor (Z.shiftl c 24) (Z.shiftl c 16)) (Z.shiftl c 8)) c)
      (Z.to_nat (n / 4))
  else stosb m dst c (Z.to_nat n).

Fixpoint memmove_fwd (m : memory) (d s : Z) (n : nat) : memory :=
  match n with
  | O => m
  | S n' => memmove_fwd (stb m d (ldb m s)) (d + 1) (s + 1) n'
  end.

Fixpoint memmove_bwd (m : memory) (d s : Z) (n : nat) : memory :=
  match n with
  | O => m
  | S n' => memmove_bwd (stb m (d - 1) (ldb m (s - 1))) (d - 1) (s - 1) n'
  end.

Definition memmove (m : memory) (dst src n : Z) : memory :=
  if (src <? dst) && (dst <? src + n)
  then memmove_bwd m (dst + n) (src + n) (Z.to_nat n)
  else memmove_fwd m dst src (Z.to_nat n).

Definition memcpy (m : memory) (dst src n : Z) : memory := memmove m dst src n.

(** [*s] and [s + 1] on strings. *)
Definition deref (s : list Z) : Z := match s with [] => 0 | c :: _ => c end.
Definition next (s : list Z) : list Z := match s with [] => [] | _ :: s' => s' end.

Fixpoint memcmp (s1 s2 : list Z) (n : nat) : Z :=
  match n with
  | O => 0
  | S n' =>
      if negb (u8 (deref s1) =? u8 (deref s2)) then u8 (deref s1) - u8 (deref s2)
      else memcmp (next s1) (next s2) n'
  end.

Fixpoint strncmp (p q : list Z) (n : nat) : Z :=
  match n with
  | O => 0
  | S n' =>
      if negb (deref p =? 0) && (deref p =? deref q) then strncmp (next p) (next q) n'
      else u8 (deref p) - u8 (deref q)
  end.

(** The bytes strncpy stores at its destination; the second loop pads. *)
Fixpoint strncpy (t : list Z) (n : nat) : list Z :=
  match n with
  | O => []
  | S n' =>
      let c := deref t in
      if negb (c =? 0) then c :: strncpy (next t) n' else c :: replicate n' 0
  end.

(** The bytes safestrcpy stores: the loop runs while [--n > 0], then [*s = 0]. *)
Fixpoint safestrcpy_loop (t : list Z) (n : nat) : list Z :=
  match n with
  | O => [0]
  | S n' =>
      let c := deref t in
      if negb (c =? 0) then c :: safestrcpy_loop (next t) n' else [c; 0]
  end.

Definition safestrcpy (t : list Z) (n : Z) : list Z :=
  if n <=? 0 then [] else safestrcpy_loop t (Z.to_nat (n - 1)).

Fixpoint strlen (s : list Z) : Z :=
  match s with
  | [] => 0
  | c :: s' => if c =? 0 then 0 else 1 + strlen s'
  end.

(** ** ulib.c *)
Fixpoint strcpy (t : list Z) : list Z :=
  match t with
  | [] => [0]
  | c :: t' => if c =? 0 then [0] else c :: strcpy t'
  end.

Fixpoint strcmp (p q : list Z) {struct p} : Z :=
  match p with
  | [] => 0 - u8 (deref q)
  | c :: p' =>
      if negb (c =? 0) && (c =? deref q) then strcmp p' (next q)
      else u8 c - u8 (deref q)
  end.

(** The suffix strchr points at, or [None] for a null pointer. *)
Fixpoint strchr (s : list Z) (c : Z) : option (list Z) :=
  match s with
  | [] => None
  | x :: s' => if x =? 0 then None else if x =? c then Some s else strchr s' c
  end.

Fixpoint atoi_loop (n : Z) (s : list Z) : Z :=
  match s with
  | [] => n
  | c :: s' => if (48 <=? c) && (c <=? 57) then atoi_loop (s32 (n * 10 + c - 48)) s' else n
  end.

Definition atoi (s : list Z) : Z := atoi_loop 0 s.

(** The user-level memmove copies forward whatever the overlap. *)
Definition ulib_memmove (m : memory) (vdst vsrc n : Z) : memory :=
  memmove_fwd m vdst vsrc (Z.to_nat n).

Definition ulib_memset (m : memory) (dst c n : Z) : memory := stosb m dst c (Z.to_nat n).

(** gets reads one byte at a time; [inp] is what the successive reads of
    descriptor 0 return, and a read at its end returns less than 1. *)
Fixpoint gets_loop (inp : list Z) (room : nat) : list Z * list Z :=
  match room, inp with
  | S room', c :: inp' =>
      if (c =? 10) || (c =? 13) then ([c], inp')
      else let '(b, rest) := gets_loop inp' room' in (c :: b, rest)
  | _, _ => ([], inp)
  end.

(** The bytes stored in [buf], with the final NUL, and the input left. *)
Definition gets (inp : list Z) (max : Z) : list Z * list Z :=
  let '(b, rest) := gets_loop inp (Z.to_nat (max - 1)) in (b ++ [0], rest).

(** ** Specifications *)

(** The bytes of a string literal, without the NUL. *)
Definition str (s : string) : list Z := (fun c => Z.of_N (Ascii.N_of_ascii c)) <$> String.list_ascii_of_string s.

(** The characters of a C string, up to its NUL and at most [n] of them. *)
Fixpoint cstr (n : nat) (s : list Z) : list Z :=
  match n, s with
  | S n', c :: s' => if c =? 0 then [] else c :: cstr n' s'
  | _, _ => []
  end.

(** * Lemmas: memory *)
Lemma ldb_stb m a v b : ldb (stb m a v) b = if decide (a = b) then u8 v else ldb m b.
Proof. unfold ldb, stb. rewrite lookup_insert. by case_decide. Qed.

Lemma ldb_stb_eq m a v : ldb (stb m a v) a = u8 v.
Proof. rewrite ldb_stb. by rewrite decide_True. Qed.

Lemma ldb_stb_ne m a v b : a <> b -> ldb (stb m a v) b = ldb m b.
Proof. intros. rewrite ldb_stb. by rewrite decide_False. Qed.

(** Every byte of memory is in range. *)
Definition mem_ok (m : memory) : Prop := forall a, 0 <= ldb m a < 256.

Lemma mem_ok_stb m a v : mem_ok m -> mem_ok (stb m a v).
Proof. intros H b. rewrite ldb_stb. case_decide; [apply u8_range|apply H]. Qed.

Lemma ldb_st32 m a w b :
  ldb (st32 m a w) b =
  if decide (a <= b < a + 4) then w / 2 ^ (8 * (b - a)) mod 256 else ldb m b.
Proof.
  unfold st32. rewrite !ldb_stb. unfold u8. change (2 ^ 8) with 256.
  repeat case_decide; subst; try lia; try done.
  - by replace (a + 3 - a) with 3 by lia.
  - by replace (a + 2 - a) with 2 by lia.
  - by replace (a + 1 - a) with 1 by lia.
  - rewrite Z.sub_diag. by rewrite Z.div_1_r.
Qed.

Lemma ld32_st32_eq m a w : ld32 (st32 m a w) a = u32 w.
Proof.
  unfold ld32. rewrite !ldb_st32. rewrite !decide_True by lia.
  rewrite Z.sub_diag.
  replace (a + 1 - a) with 1 by lia. replace (a + 2 - a) with 2 by lia.
  replace (a + 3 - a) with 3 by lia. unfold u32.
  change (8 * 0) with 0. change (8 * 1) with 8. change (8 * 2) with 16. change (8 * 3) with 24.
  rewrite Z.pow_0_r, Z.div_1_r. zdiv.
Qed.

Lemma ld32_st32_ne m a w b : b + 4 <= a \/ a + 4 <= b -> ld32 (st32 m a w) b = ld32 m b.
Proof. intros. unfold ld32. rewrite !ldb_st32. by rewrite !decide_False by lia. Qed.

Lemma ld32_ext m m' a : (forall b, a <= b < a + 4 -> ldb m b = ldb m' b) -> ld32 m a = ld32 m' a.
Proof. intros H. unfold ld32. rewrite !H by lia. done. Qed.

Lemma ld32_range m a : mem_ok m -> 0 <= ld32 m a < 2 ^ 32.
Proof.
  intros H. unfold ld32. pose proof (H a). pose proof (H (a + 1)).
  pose proof (H (a + 2)). pose proof (H (a + 3)). lia.
Qed.

Lemma mem_ok_st32 m a w : mem_ok m -> mem_ok (st32 m a w).
Proof. intros. unfold st32. by repeat apply mem_ok_stb. Qed.

Lemma ldb_stosb m a c n b :
  ldb (stosb m a c n) b = if decide (a <= b < a + Z.of_nat n) then u8 c else ldb m b.
Proof.
  revert m a. induction n as [|n IH]; intros m a; simpl stosb.
  - by rewrite decide_False by lia.
  - rewrite IH, ldb_stb. repeat case_decide; try lia; done.
Qed.

Lemma ldb_stosl m a w n b :
  ldb (stosl m a w n) b =
  if decide (a <= b < a + 4 * Z.of_nat n) then w / 2 ^ (8 * ((b - a) mod 4)) mod 256 else ldb m b.
Proof.
  revert m a. induction n as [|n IH]; intros m a; simpl stosl.
  - by rewrite decide_False by lia.
  - rewrite IH, ldb_st32. repeat case_decide; try lia; try done.
    + f_equal. f_equal. f_equal. f_equal. zdiv.
    + do 4 f_equal. symmetry. apply Z.mod_small. lia.
Qed.

(** The word [stosl] is given repeats the fill byte. *)
Lemma fill_word_byte c i : 0 <= c < 256 -> 0 <= i < 4 ->
  Z.lor (Z.lor (Z.lor (Z.shiftl c 24) (Z.shiftl c 16)) (Z.shiftl c 8)) c / 2 ^ (8 * i) mod 256 = c.
Proof.
  intros Hc Hi. rewrite !Z.shiftl_mul_pow2 by lia.
  assert (Hw : Z.lor (Z.lor (Z.lor (c * 2 ^ 24) (c * 2 ^ 16)) (c * 2 ^ 8)) c
    = c * 2 ^ 24 + c * 2 ^ 16 + c * 2 ^ 8 + c).
  { rewrite <- !Z.lor_assoc. rewrite (lor_disjoint c c 8) by lia.
    rewrite (lor_disjoint c (c * 2 ^ 8 + c) 16) by lia.
    rewrite (lor_disjoint c (c * 2 ^ 16 + (c * 2 ^ 8 + c)) 24) by lia. lia. }
  rewrite Hw. assert (i = 0 \/ i = 1 \/ i = 2 \/ i = 3) as [->|[->|[->| ->]]] by lia;
    cbn [Z.mul Pos.mul]; rewrite ?Z.div_1_r; zdiv.
Qed.

(** Both branches of the kernel's memset, the word-at-a-time one and the
    byte-at-a-time one, fill exactly [n] bytes with the low byte of [c]. *)
Lemma memset_spec m dst c n a :
  0 <= n ->
  ldb (memset m dst c n) a = if decide (dst <= a < dst + n) then u8 c else ldb m a.
Proof.
  intros Hn. unfold memset. case_bool.
  - rewrite ldb_stosl. rewrite Z2Nat.id by zdiv.
    assert (4 * (n / 4) = n) as -> by zdiv.
    case_decide; [|done]. change 0xFF with (Z.ones 8). rewrite land_low by lia.
    rewrite fill_word_byte; [done|apply u8_range|zdiv].
  - rewrite ldb_stosb. by rewrite Z2Nat.id by lia.
Qed.

Lemma memset_mem_ok m dst c n : 0 <= n -> mem_ok m -> mem_ok (memset m dst c n).
Proof. intros Hn H a. rewrite memset_spec by done. case_decide; [apply u8_range|apply H]. Qed.

(** Copying forward is right when the destination is not inside the part of
    the source that is still to be read. *)
Lemma ldb_memmove_fwd m d s n a :
  mem_ok m -> (d <= s \/ s + Z.of_nat n <= d) ->
  ldb (memmove_fwd m d s n) a =
  if decide (d <= a < d + Z.of_nat n) then ldb m (s + (a - d)) else ldb m a.
Proof.
  intros Hm Hov. revert m d s Hm Hov. induction n as [|n IH]; intros m d s Hm Hov; simpl memmove_fwd.
  - by rewrite decide_False by lia.
  - rewrite IH; [|by apply mem_ok_stb|lia]. rewrite !ldb_stb.
    repeat case_decide; subst; try lia; try done.
    + f_equal. lia.
    + rewrite u8_small by apply Hm. f_equal. lia.
Qed.

Lemma ldb_memmove_bwd m d s n a :
  mem_ok m -> (s <= d) ->
  ldb (memmove_bwd m d s n) a =
  if decide (d - Z.of_nat n <= a < d) then ldb m (s + (a - d)) else ldb m a.
Proof.
  intros Hm Hov. revert m d s Hm Hov. induction n as [|n IH]; intros m d s Hm Hov; simpl memmove_bwd.
  - by rewrite decide_False by lia.
  - rewrite IH; [|by apply mem_ok_stb|lia]. rewrite !ldb_stb.
    repeat case_decide; subst; try lia; try done.
    + f_equal. lia.
    + rewrite u8_small by apply Hm. f_equal. lia.
Qed.

Lemma memmove_spec m dst src n a :
  mem_ok m -> 0 <= n ->
  ldb (memmove m dst src n) a =
  if decide (dst <= a < dst + n) then ldb m (src + (a - dst)) else ldb m a.
Proof.
  intros Hm Hn. unfold memmove. case_bool.
  - rewrite ldb_memmove_bwd by (done || lia). rewrite Z2Nat.id by lia.
    repeat case_decide; try lia; try done. f_equal. lia.
  - apply andb_false_iff in E. rewrite ldb_memmove_fwd; [by rewrite Z2Nat.id by lia|done|].
    rewrite Z2Nat.id by lia. destruct E; zbool; lia.
Qed.

(** Memmove copies the bytes the source had before the call, whatever the
    overlap of source and destination, and touches no other byte. *)
Theorem memmove_correct m dst src n :
  mem_ok m -> 0 <= n ->
  forall a, ldb (memmove m dst src n) a =
    if decide (dst <= a < dst + n) then ldb m (src + (a - dst)) else ldb m a.
Proof. intros. by apply memmove_spec. Qed.

(** Moving three bytes up by one, in place. *)
Lemma memmove_correct_witness :
  let m := stb (stb (stb ∅ 10 1) 11 2) 12 3 in
  ldb (memmove m 11 10 3) 13 = 3 /\ ldb (memmove m 11 10 3) 12 = 2 /\ ldb (memmove m 11 10 3) 10 = 1.
Proof.
  assert (H0 : mem_ok ∅) by (intros a; unfold ldb; rewrite lookup_empty; simpl; lia).
  assert (Hm : mem_ok (stb (stb (stb ∅ 10 1) 11 2) 12 3)) by (repeat apply mem_ok_stb; exact H0).
  cbv zeta. rewrite !(memmove_correct _ 11 10 3 Hm) by lia. vm_compute. done.
Defined.

(** * Lemmas: strings *)
Lemma strncmp_cstr p q n :
  bytes_ok p -> bytes_ok q -> strncmp p q n = 0 <-> cstr n p = cstr n q.
Proof.
  intros Hp. revert q n. induction Hp as [|c p Hc Hp IH]; intros q n Hq.
  - destruct n as [|n]; [done|]. simpl. destruct Hq as [|d q Hd Hq]; simpl; [done|].
    rewrite (u8_small d) by lia. change (u8 0) with 0.
    destruct (Z.eqb_spec d 0); subst; split; intros; try done. lia.
  - destruct n as [|n]; [done|]. cbn [strncmp deref next cstr]. destruct Hq as [|d q Hd Hq].
    + cbn [strncmp deref next cstr]. destruct (Z.eqb_spec c 0); subst; simpl; [done|].
      rewrite (u8_small c) by lia. change (u8 0) with 0. split; intros; try done.
      destruct (Z.eqb_spec c 0); lia.
    + cbn [strncmp deref next cstr].
      destruct (Z.eqb_spec c 0); subst; simpl.
      * rewrite (u8_small d) by lia. change (u8 0) with 0.
        destruct (Z.eqb_spec d 0); subst; split; intros; try done. lia.
      * destruct (Z.eqb_spec c d); subst; simpl.
        -- rewrite (proj2 (Z.eqb_neq d 0)) by done. rewrite IH by done. split; congruence.
        -- rewrite !u8_small by lia. split; [lia|]. destruct (d =? 0); congruence.
Qed.

Lemma length_strncpy t n : length (strncpy t n) = n.
Proof.
  revert t. induction n as [|n IH]; intros t; simpl; [done|].
  case_match; simpl; [by rewrite IH|by rewrite length_replicate].
Qed.

Lemma strncpy_bytes_ok t n : bytes_ok t -> bytes_ok (strncpy t n).
Proof.
  revert t. induction n as [|n IH]; intros t Ht; simpl; [constructor|].
  assert (0 <= deref t < 256) by (destruct Ht; simpl; lia).
  assert (bytes_ok (next t)) by (destruct Ht; [constructor|done]).
  case_match; constructor; auto; [by apply IH|]. apply Forall_replicate. lia.
Qed.

Lemma cstr_strncpy t n : cstr n (strncpy t n) = cstr n t.
Proof.
  revert t. induction n as [|n IH]; intros t; [done|]. cbn [strncpy].
  destruct t as [|c t]; cbn [deref next]; [done|].
  destruct (Z.eqb_spec c 0); subst; cbn [negb cstr]; [done|].
  rewrite (proj2 (Z.eqb_neq c 0)) by done. by rewrite IH.
Qed.

(** A name copied with strncpy compares equal, under strncmp with the same
    bound, exactly to the strings that agree with the original up to it. *)
Lemma strncmp_strncpy p t n :
  bytes_ok p -> bytes_ok t -> strncmp p (strncpy t n) n = 0 <-> cstr n p = cstr n t.
Proof.
  intros. rewrite strncmp_cstr by (done || by apply strncpy_bytes_ok).
  by rewrite cstr_strncpy.
Qed.

Lemma strlen_nonneg s : 0 <= strlen s.
Proof. induction s; simpl; [lia|]. case_bool; lia. Qed.

Lemma strlen_le s : strlen s <= Z.of_nat (length s).
Proof. induction s; simpl; [lia|]. case_bool; lia. Qed.

Lemma strlen_cstr s : strlen s = Z.of_nat (length (cstr (length s) s)).
Proof. induction s as [|c s IH]; simpl; [done|]. case_bool; simpl; lia. Qed.

Lemma cstr_nonzero n s : Forall (fun c => c <> 0) (cstr n s).
Proof.
  revert s. induction n as [|n IH]; intros [|c s]; simpl; try constructor.
  case_bool; constructor; auto.
Qed.

Lemma length_cstr n s : (length (cstr n s) <= n)%nat.
Proof.
  revert s. induction n as [|n IH]; intros [|c s]; simpl; try lia.
  case_bool; simpl; [lia|]. specialize (IH s). lia.
Qed.

(** A string without NUL that fits in its bound is its own C string. *)
Lemma cstr_id n s : Forall (fun c => c <> 0) s -> (length s <= n)%nat -> cstr n s = s.
Proof.
  revert s. induction n as [|n IH]; intros s Hs Hn.
  - destruct s; simpl in *; [done|lia].
  - destruct Hs as [|c s Hc Hs]; simpl in *; [done|].
    rewrite (proj2 (Z.eqb_neq c 0)) by done. by rewrite IH by (done || lia).
Qed.

Lemma safestrcpy_loop_spec t n :
  (length (safestrcpy_loop t n) <= S n)%nat /\
  cstr (S n) (safestrcpy_loop t n) = cstr n t /\ In 0 (safestrcpy_loop t n).
Proof.
  revert t. induction n as [|n IH]; intros t; simpl.
  - split; [lia|]. split; [done|]. by left.
  - destruct (IH (next t)) as (Hl & Hc & Hi). destruct t as [|c t]; cbn [deref next] in *; simpl.
    + split; [lia|]. split; [done|]. by left.
    + destruct (Z.eqb_spec c 0); subst; cbn [negb].
      * simpl. split; [lia|]. split; [done|]. by left.
      * simpl. rewrite (proj2 (Z.eqb_neq c 0)) by done. split; [lia|].
        split; [f_equal; exact Hc|]. by right.
Qed.

(** safestrcpy writes at most [n] bytes, always a NUL among them, and the string
    it leaves is the source cut to [n-1] characters. *)
Lemma safestrcpy_spec t n :
  0 < n ->
  Z.of_nat (length (safestrcpy t n)) <= n /\ In 0 (safestrcpy t n) /\
  cstr (Z.to_nat n) (safestrcpy t n) = cstr (Z.to_nat (n - 1)) t.
Proof.
  intros Hn. unfold safestrcpy. rewrite (proj2 (Z.leb_gt n 0)) by lia.
  destruct (safestrcpy_loop_spec t (Z.to_nat (n - 1))) as (Hl & Hc & Hi).
  replace (Z.to_nat n) with (S (Z.to_nat (n - 1))) by lia. split; [lia|]. done.
Qed.

Lemma memcmp_eq s1 s2 n :
  bytes_ok s1 -> bytes_ok s2 -> (n <= length s1)%nat -> (n <= length s2)%nat ->
  memcmp s1 s2 n = 0 <-> take n s1 = take n s2.
Proof.
  revert s1 s2. induction n as [|n IH]; intros s1 s2 H1 H2 L1 L2; [done|].
  destruct H1 as [|a s1 Ha H1], H2 as [|b s2 Hb H2]; simpl in *; try lia.
  rewrite !u8_small by lia. destruct (Z.eqb_spec a b); subst; cbn [negb].
  - rewrite IH by (done || lia). split; congruence.
  - split; [lia|congruence].
Qed.

(** gets stores at most [max] bytes, the last one NUL, and consumes exactly the
    bytes it stores before the NUL. *)
Lemma gets_loop_spec inp room :
  let '(b, rest) := gets_loop inp room in inp = b ++ rest /\ (length b <= room)%nat.
Proof.
  revert inp. induction room as [|room IH]; intros [|c inp]; simpl; try (split; [done|lia]).
  case_bool; simpl; [split; [done|lia]|].
  specialize (IH inp). destruct (gets_loop inp room) as [b rest]. destruct IH as [-> ?].
  split; [done|simpl; lia].
Qed.
