(* ===== verification/TextTools.v ===== *)
(** The text filters of user space: the regular-expression matcher and the line
    loop of grep.c, the counters of wc.c, and the column formatting of ls.c.

    A descriptor is modelled by the list of the chunks that successive reads
    return: a read with room for [k] bytes takes at most [k] bytes of the first
    chunk.  A file on disk is one chunk; a pipe or the console has as many as
    there were writes. *)

From S2P Require Import Prelude Layout CString.

(** read(fd, buf, room): the bytes returned and the descriptor afterwards.  An
    empty result is the return value 0. *)
Definition read_fd (room : nat) (fd : list (list Z)) : list Z * list (list Z) :=
  match fd with
  | [] => ([], [])
  | c :: cs => if (length c <=? room)%nat then (c, cs) else (take room c, drop room c :: cs)
  end.

(** ** grep.c: the matcher *)
Fixpoint matchstar (c : Z) (matchhere_re : list Z -> bool) (text : list Z) : bool :=
  if matchhere_re text then true else
  match text with
  | [] => false
  | t :: text' =>
      if negb (t =? 0) && ((t =? c) || (c =? 46)) then matchstar c matchhere_re text' else false
  end.

Fixpoint matchhere (re text : list Z) {struct re} : bool :=
  match re with
  | [] => true
  | r0 :: re1 =>
      if r0 =? 0 then true else
      let rest :=
        if (r0 =? 36) && (deref re1 =? 0) then deref text =? 0
        else if negb (deref text =? 0) && ((r0 =? 46) || (r0 =? deref text))
        then matchhere re1 (next text) else false in
      match re1 with
      | r1 :: re2 => if r1 =? 42 then matchstar r0 (matchhere re2) text else rest
      | [] => rest
      end
  end.

Fixpoint match_loop (re text : list Z) {struct text} : bool :=
  if matchhere re text then true else
  match text with
  | [] => false
  | t :: text' => if negb (t =? 0) then match_loop re text' else false
  end.

Definition match_ (re text : list Z) : bool :=
  if deref re =? 94 then matchhere (next re) text else match_loop re text.

(** ** grep.c: the line loop *)

(** The inner loop on [p], the unread part of buf: what is written to
    descriptor 1, and the [p] the loop ends with. *)
Fixpoint grep_lines (fuel : nat) (pattern p : list Z) : list Z * list Z :=
  match fuel with
  | O => ([], p)
  | S fuel' =>
      match strchr p 10 with
      | None => ([], p)
      | Some q =>
          let line := take (length p - length q) p in
          let '(out, p') := grep_lines fuel' pattern (next q) in
          ((if match_ pattern line then line ++ [10] else []) ++ out, p')
      end
  end.

(** The outer loop: [buf] is buf[0 .. m-1]. *)
Fixpoint grep_loop (fuel : nat) (pattern buf : list Z) (fd : list (list Z)) : list Z :=
  match fuel with
  | O => []
  | S fuel' =>
      let '(chunk, fd') := read_fd (1024 - length buf - 1) fd in
      if (length chunk =? 0)%nat then []
      else
        let buf := buf ++ chunk in
        let '(out, p) := grep_lines (S (length buf)) pattern buf in
        let buf := if (length p =? length buf)%nat then [] else p in
        out ++ grep_loop fuel' pattern buf fd'
  end.

(** Each turn of the loop consumes at least one byte of the descriptor. *)
Definition grep (pattern : list Z) (fd : list (list Z)) : list Z :=
  grep_loop (S (length (concat fd))) pattern [] fd.

(** ** wc.c *)
Record wc_state := mk_wc { wc_l : Z; wc_w : Z; wc_c : Z; wc_inword : bool }.

Definition wc_byte (st : wc_state) (b : Z) : wc_state :=
  let c := wc_c st + 1 in
  let l := if b =? 10 then wc_l st + 1 else wc_l st in
  if match strchr [32; 13; 9; 10; 11] b with Some _ => true | None => false end
  then mk_wc l (wc_w st) c false
  else if negb (wc_inword st) then mk_wc l (wc_w st + 1) c true
  else mk_wc l (wc_w st) c (wc_inword st).

Fixpoint wc_loop (fuel : nat) (st : wc_state) (fd : list (list Z)) : wc_state :=
  match fuel with
  | O => st
  | S fuel' =>
      let '(chunk, fd') := read_fd 512 fd in
      if (length chunk =? 0)%nat then st else wc_loop fuel' (fold_left wc_byte chunk st) fd'
  end.

Definition wc (fd : list (list Z)) : wc_state :=
  wc_loop (S (length (concat fd))) (mk_wc 0 0 0 false) fd.

(** ** ls.c *)

(** The loop [for(p=path+strlen(path); p >= path && *p != '/'; p--)] and the
    [p++] after it, on the path reversed. *)
Fixpoint take_name (rpath : list Z) : list Z :=
  match rpath with
  | [] => []
  | c :: r => if c =? 47 then [] else take_name r ++ [c]
  end.

Definition fmtname (path : list Z) : list Z :=
  let p := take_name (rev path) in
  if DIRSIZ <=? strlen p then p
  else p ++ replicate (Z.to_nat (DIRSIZ - strlen p)) 32.

(** ** Specification of the matcher *)
Inductive item := One (c : Z) | Star (c : Z) | Eol.

Fixpoint parse_re (re : list Z) : list item :=
  match re with
  | [] => []
  | r0 :: re1 =>
      match re1 with
      | r1 :: re2 => if r1 =? 42 then Star r0 :: parse_re re2 else One r0 :: parse_re re1
      | [] => if r0 =? 36 then [Eol] else [One r0]
      end
  end.

(** [.] stands for every character, any other character for itself. *)
Definition accepts (c t : Z) : Prop := c = 46 \/ c = t.

(** [denotes its w rest]: the items match [w] where [rest] follows. *)
Inductive denotes : list item -> list Z -> list Z -> Prop :=
| den_nil rest : denotes [] [] rest
| den_one c t its w rest : accepts c t -> denotes its w rest -> denotes (One c :: its) (t :: w) rest
| den_star c v its w rest :
    Forall (accepts c) v -> denotes its w rest -> denotes (Star c :: its) (v ++ w) rest
| den_eol its rest : denotes its [] rest -> rest = [] -> denotes (Eol :: its) [] rest.

(** A line of [text] from [pre] on is matched by the expression. *)
Definition re_matches (re text : list Z) : Prop :=
  exists pre w rest,
    text = pre ++ w ++ rest /\
    if decide (deref re = 94) then pre = [] /\ denotes (parse_re (next re)) w rest
    else denotes (parse_re re) w rest.

Definition nonul (s : list Z) : Prop := Forall (fun c => c <> 0) s.

(** Text as lines: each line followed by a newline. *)
Definition render (lines : list (list Z)) : list Z := concat (map (fun l => l ++ [10]) lines).

Definition line_ok (l : list Z) : Prop := nonul l /\ Forall (fun c => c <> 10) l.

(** Words are maximal runs of non-space bytes: one begins wherever a non-space
    byte is first or follows a space. *)
Fixpoint word_starts (prev_space : bool) (s : list Z) : Z :=
  match s with
  | [] => 0
  | c :: s' =>
      let sp := bool_decide (c ∈ [32; 13; 9; 10; 11]) in
      (if prev_space && negb sp then 1 else 0) + word_starts sp s'
  end.

Definition newlines (s : list Z) : Z := Z.of_nat (length (List.filter (fun c => c =? 10) s)).

(** * The matcher *)
Lemma accepts_test c t : ((t =? c) || (c =? 46)) = true <-> accepts c t.
Proof. unfold accepts. rewrite orb_true_iff, !Z.eqb_eq. intuition. Qed.

Lemma matchstar_spec c f text :
  nonul text ->
  matchstar c f text = true <->
  exists v rest, text = v ++ rest /\ Forall (accepts c) v /\ f rest = true.
Proof.
  induction 1 as [|t text Ht Hn IH]; simpl.
  - destruct (f []) eqn:E; split; try done.
    + intros _. exists [], []. by repeat split; [constructor|].
    + intros (v & rest & Hv & _ & Hf). symmetry in Hv. apply app_eq_nil in Hv as [-> ->]. congruence.
  - destruct (f (t :: text)) eqn:E.
    + split; [|done]. intros _. exists [], (t :: text). by repeat split; [constructor|].
    + rewrite (proj2 (Z.eqb_neq t 0) Ht). cbn [negb andb].
      destruct ((t =? c) || (c =? 46)) eqn:Ea.
      * apply accepts_test in Ea. rewrite IH. split.
        -- intros (v & rest & -> & Hv & Hf). exists (t :: v), rest. repeat split; [by constructor|done].
        -- intros ([|t' v] & rest & Hv & Ha & Hf); simpl in Hv; [congruence|].
           inversion Ha; subst. inversion Hv; subst. eauto.
      * split; [done|]. intros ([|t' v] & rest & Hv & Ha & Hf); simpl in Hv; [congruence|].
        inversion Ha; subst. inversion Hv; subst.
        by rewrite (proj2 (accepts_test c t')) in Ea by done.
Qed.

Lemma matchhere_one r0 re1 text :
  nonul text -> r0 <> 0 -> (r0 = 36 -> re1 <> []) -> nonul re1 ->
  (forall t, nonul t -> matchhere re1 t = true <-> exists w rest, t = w ++ rest /\ denotes (parse_re re1) w rest) ->
  (if (r0 =? 36) && (deref re1 =? 0) then deref text =? 0
   else if negb (deref text =? 0) && ((r0 =? 46) || (r0 =? deref text))
   then matchhere re1 (next text) else false) = true <->
  exists w rest, text = w ++ rest /\ denotes (One r0 :: parse_re re1) w rest.
Proof.
  intros Ht H0 Hd Hre IH.
  assert ((r0 =? 36) && (deref re1 =? 0) = false) as ->.
  { destruct (Z.eqb_spec r0 36); [|done]. destruct Hre; simpl; [tauto|]. by apply Z.eqb_neq. }
  destruct Ht as [|t text Ht0 Ht]; cbn [deref next].
  - simpl. split; [done|]. intros (w & rest & Hw & Hden). inversion Hden; subst. discriminate.
  - rewrite (proj2 (Z.eqb_neq t 0) Ht0). cbn [negb andb].
    destruct ((r0 =? 46) || (r0 =? t)) eqn:Ea.
    + apply orb_true_iff in Ea. rewrite !Z.eqb_eq in Ea. rewrite IH by done. split.
      * intros (w & rest & -> & Hden). exists (t :: w), rest. split; [done|]. by constructor.
      * intros (w & rest & Hw & Hden). inversion Hden; subst. simplify_eq/=. eauto.
    + split; [done|]. intros (w & rest & Hw & Hden). inversion Hden as [|? ? ? ? ? Hacc| |]; subst.
      simplify_eq/=. apply orb_false_elim in Ea. rewrite !Z.eqb_neq in Ea. destruct Hacc; tauto.
Qed.

Lemma matchhere_spec re text :
  nonul re -> nonul text ->
  matchhere re text = true <-> exists w rest, text = w ++ rest /\ denotes (parse_re re) w rest.
Proof.
  intros Hre. revert text. remember (length re) as n eqn:Hn. revert re Hre Hn.
  induction n as [n IH] using lt_wf_ind. intros re Hre Hn text Ht.
  destruct Hre as [|r0 re1 H0 Hre1].
  { split; [|done]. intros _. exists [], text. split; [done|constructor]. }
  cbn [matchhere parse_re]. rewrite (proj2 (Z.eqb_neq r0 0) H0).
  assert (IH1 : forall t, nonul t -> matchhere re1 t = true <->
    exists w rest, t = w ++ rest /\ denotes (parse_re re1) w rest).
  { intros t. apply (IH (length re1)); simpl in *; (done || lia). }
  destruct Hre1 as [|r1 re2 H1 Hre2].
  - destruct (Z.eqb_spec r0 36) as [->|Hne].
    + cbn [deref andb]. simpl. destruct Ht as [|t text Ht0 Ht]; simpl.
      * split; [|done]. intros _. exists [], []. split; [done|]. constructor; [constructor|done].
      * rewrite (proj2 (Z.eqb_neq t 0) Ht0). split; [done|].
        intros (w & rest & Hw & Hden). inversion Hden; subst. discriminate.
    + rewrite <- (matchhere_one r0 [] text) by (done || constructor).
      by rewrite (proj2 (Z.eqb_neq r0 36) Hne).
  - destruct (Z.eqb_spec r1 42) as [->|Hr1].
    + rewrite matchstar_spec by done. split.
      * intros (v & rest & -> & Hv & Hm). apply Forall_app in Ht as [_ Ht].
        apply (IH (length re2)) in Hm as (w & rest' & -> & Hden); simpl in *; try done; try lia.
        exists (v ++ w), rest'. split; [by rewrite app_assoc|]. by constructor.
      * intros (w & rest & -> & Hden). inversion Hden as [| |? v ? w' ? Hv Hd|]; subst.
        exists v, (w' ++ rest). split; [by rewrite app_assoc|]. split; [done|].
        rewrite <- app_assoc in Ht. apply Forall_app in Ht as [_ Ht].
        apply (IH (length re2)); simpl in *; eauto; lia.
    + apply matchhere_one; try done. by constructor.
Qed.

Lemma match_loop_spec re text :
  nonul text ->
  match_loop re text = true <-> exists pre suf, text = pre ++ suf /\ matchhere re suf = true.
Proof.
  induction 1 as [|t text Ht Hn IH]; simpl.
  - destruct (matchhere re []) eqn:E; split; try done.
    + intros _. by exists [], [].
    + intros (pre & suf & Hs & Hm). symmetry in Hs. apply app_eq_nil in Hs as [-> ->]. congruence.
  - destruct (matchhere re (t :: text)) eqn:E.
    + split; [|done]. intros _. by exists [], (t :: text).
    + rewrite (proj2 (Z.eqb_neq t 0) Ht). cbn [negb]. rewrite IH. split.
      * intros (pre & suf & -> & Hm). by exists (t :: pre), suf.
      * intros ([|p pre] & suf & Hs & Hm); simplify_eq/=; [congruence|]. eauto.
Qed.

Lemma match_iff re text :
  nonul re -> nonul text -> match_ re text = true <-> re_matches re text.
Proof.
  intros Hre Ht. unfold match_, re_matches. destruct (Z.eqb_spec (deref re) 94) as [He|He].
  - rewrite matchhere_spec; [|by destruct Hre|done]. destruct (decide (deref re = 94)); [|done]. split.
    + intros (w & rest & -> & Hd). by exists [], w, rest.
    + intros (pre & w & rest & -> & -> & Hd). by exists w, rest.
  - rewrite match_loop_spec by done. destruct (decide (deref re = 94)); [done|]. split.
    + intros (pre & suf & -> & Hm). apply Forall_app in Ht as [_ Ht].
      apply matchhere_spec in Hm as (w & rest & -> & Hd); eauto.
    + intros (pre & w & rest & -> & Hd). apply Forall_app in Ht as [_ Ht].
      exists pre, (w ++ rest). split; [done|]. apply matchhere_spec; eauto.
Qed.

(** The backtracking matcher of grep decides the regular-expression
    language: it answers yes exactly when some substring of the line (its
    prefix, when the expression starts with ^) is in the denotation of the
    expression's items. *)
Theorem match_decides re text :
  nonul re -> nonul text -> match_ re text = true <-> re_matches re text.
Proof. apply match_iff. Qed.

Lemma match_decides_witness :
  (nonul [94; 97; 42; 98] /\ nonul [97; 97; 98; 99]) /\
  (match_ [94; 97; 42; 98] [97; 97; 98; 99] = true <-> re_matches [94; 97; 42; 98] [97; 97; 98; 99]).
Proof.
  split; [split; repeat (constructor; [discriminate|]); constructor|].
  apply (match_decides [94; 97; 42; 98] [97; 97; 98; 99]);
    repeat (constructor; [discriminate|]); constructor.
Defined.

(** * The line loop *)
Lemma strchr_line l rest :
  line_ok l -> strchr (l ++ 10 :: rest) 10 = Some (10 :: rest).
Proof.
  intros [Hn Hl]. induction Hn as [|c l Hc Hn IH]; [done|].
  inversion Hl; subst. cbn [app strchr]. rewrite (proj2 (Z.eqb_neq c 0)), (proj2 (Z.eqb_neq c 10)) by done.
  by apply IH.
Qed.

Lemma strchr_none p : line_ok p -> strchr p 10 = None.
Proof.
  intros [Hn Hl]. induction Hn as [|c p Hc Hn IH]; [done|].
  inversion Hl; subst. cbn [strchr]. rewrite (proj2 (Z.eqb_neq c 0)), (proj2 (Z.eqb_neq c 10)) by done.
  by apply IH.
Qed.

(** What grep should print for a list of lines. *)
Definition selected (pattern : list Z) (lines : list (list Z)) : list Z :=
  render (List.filter (match_ pattern) lines).

Lemma render_cons l ls : render (l :: ls) = l ++ 10 :: render ls.
Proof. unfold render. cbn [map concat]. by rewrite <- app_assoc. Qed.

Lemma render_app ls1 ls2 : render (ls1 ++ ls2) = render ls1 ++ render ls2.
Proof. unfold render. by rewrite map_app, concat_app. Qed.

Lemma selected_cons pattern l ls :
  selected pattern (l :: ls) = (if match_ pattern l then l ++ [10] else []) ++ selected pattern ls.
Proof.
  unfold selected. cbn [List.filter]. destruct (match_ pattern l); [|done].
  rewrite render_cons. by rewrite <- app_assoc.
Qed.

Lemma selected_app pattern ls1 ls2 :
  selected pattern (ls1 ++ ls2) = selected pattern ls1 ++ selected pattern ls2.
Proof. unfold selected. by rewrite List.filter_app, render_app. Qed.

(** The inner loop prints the selected complete lines and stops at the partial
    one. *)
Lemma grep_lines_spec pattern ls part fuel :
  Forall line_ok ls -> line_ok part -> (length ls < fuel)%nat ->
  grep_lines fuel pattern (render ls ++ part) = (selected pattern ls, part).
Proof.
  intros Hls Hp. revert fuel. induction Hls as [|l ls Hl Hls IH]; intros [|fuel] Hf; simpl in Hf; try lia.
  - cbn [grep_lines render map concat app]. by rewrite strchr_none.
  - rewrite render_cons. rewrite <- app_assoc. cbn [app grep_lines]. rewrite strchr_line by done.
    cbn [next]. rewrite IH by lia. rewrite selected_cons.
    assert ((length (l ++ (10:Z) :: render ls ++ part) - length ((10:Z) :: render ls ++ part))%nat = length l) as ->.
    { rewrite length_app. lia. }
    by rewrite take_app_length.
Qed.

(** A prefix of rendered lines is some complete lines and a partial one. *)
Lemma render_prefix ls t r :
  Forall line_ok ls -> render ls = t ++ r ->
  exists ls1 ls2 part,
    ls = ls1 ++ ls2 /\ t = render ls1 ++ part /\ line_ok part /\ render ls2 = part ++ r.
Proof.
  intros Hls. revert t. induction Hls as [|l ls Hl Hls IH]; intros t Ht.
  - symmetry in Ht. apply app_eq_nil in Ht as [-> ->]. exists [], [], []. by repeat split; constructor.
  - rewrite render_cons in Ht. destruct (decide (length t <= length l)%nat) as [Hle|Hgt].
    + exists [], (l :: ls), t. split; [done|]. split; [done|].
      rewrite render_cons. split; [|done].
      assert (t = take (length t) l) as ->.
      { rewrite <- (take_app_le l (10 :: render ls)) by done. by rewrite Ht, take_app_length. }
      destruct Hl. split; by apply Forall_take.
    + assert (exists t', t = l ++ 10 :: t' /\ render ls = t' ++ r) as (t' & -> & Ht').
      { exists (drop (S (length l)) t).
        assert (t = (l ++ [10]) ++ drop (S (length l)) t) as Heq.
        { rewrite <- (take_drop (S (length l)) t) at 1. f_equal.
          rewrite <- (take_app_le t r) by lia. rewrite <- Ht.
          replace (l ++ 10 :: render ls) with ((l ++ [10]) ++ render ls) by by rewrite <- app_assoc.
          rewrite take_app_le by (rewrite length_app; simpl; lia).
          rewrite take_ge by (rewrite length_app; simpl; lia). done. }
        split; [by rewrite Heq at 1; rewrite <- app_assoc|].
        rewrite Heq in Ht. rewrite <- !app_assoc in Ht. apply app_inv_head in Ht. by simplify_eq/=. }
      destruct (IH t' Ht') as (ls1 & ls2 & part & -> & -> & Hp & Hr).
      exists (l :: ls1), ls2, part. split; [done|]. rewrite render_cons. by rewrite <- app_assoc.
Qed.

Lemma read_one room data :
  (0 < room)%nat -> exists chunk rest fd',
    read_fd room [data] = (chunk, fd') /\ data = chunk ++ rest /\
    (fd' = [rest] \/ (rest = [] /\ fd' = [])) /\ length chunk = (room `min` length data)%nat.
Proof.
  intros Hr. unfold read_fd. destruct (Nat.leb_spec (length data) room).
  - exists data, [], []. rewrite app_nil_r. split; [done|]. split; [done|]. split; [by right|]. lia.
  - exists (take room data), (drop room data), [drop room data].
    split; [done|]. split; [by rewrite take_drop|]. split; [by left|]. rewrite length_take. lia.
Qed.

Lemma length_render ls : (length ls <= length (render ls))%nat.
Proof. induction ls; [done|]. rewrite render_cons, length_app. simpl. lia. Qed.

Lemma grep_loop_done pattern fuel buf : grep_loop fuel pattern buf [] = [].
Proof. by destruct fuel. Qed.

(** The outer loop on a file of complete lines, each short enough for buf: the
    partial line kept from one read to the next never fills the buffer. *)
Lemma grep_loop_spec pattern fuel ls buf data :
  Forall line_ok ls -> Forall (fun l => (length l < 1023)%nat) ls ->
  line_ok buf -> render ls = buf ++ data -> (length data < fuel)%nat ->
  grep_loop fuel pattern buf [data] = selected pattern ls.
Proof.
  intros Hls Hlen. revert ls buf data Hls Hlen.
  induction fuel as [|fuel IH]; intros ls buf data Hls Hlen Hbuf Hr Hf; [lia|].
  assert (Hb : (length buf < 1023)%nat \/ ls = [] /\ buf = []).
  { destruct Hls as [|l ls' Hl Hls']; [right; symmetry in Hr; by apply app_eq_nil in Hr as [-> _]|].
    left. rewrite render_cons in Hr. inversion Hlen; subst.
    destruct (decide (length buf <= length l)%nat); [lia|].
    exfalso. destruct Hbuf as [_ Hno].
    assert (buf !! length l = Some 10) as Hnl.
    { rewrite <- (lookup_app_l buf data) by lia. rewrite <- Hr. by rewrite list_lookup_middle. }
    by eapply Forall_lookup_1 in Hno; [|exact Hnl]. }
  assert (Hroom : (0 < 1024 - length buf - 1)%nat) by (destruct Hb as [|[-> ->]]; simpl; lia).
  destruct (read_one _ data Hroom) as (chunk & rest & fd' & Hrd & -> & Hfd & Hcl).
  cbn [grep_loop]. rewrite Hrd. destruct (Nat.eqb_spec (length chunk) 0) as [Hc0|Hc0].
  { assert (chunk ++ rest = []) as Hnil.
    { apply length_zero_iff_nil. rewrite length_app in *. lia. }
    rewrite Hnil, app_nil_r in Hr. destruct ls as [|l ls]; [done|].
    destruct Hbuf as [_ Hno]. exfalso. rewrite <- Hr, render_cons in Hno.
    apply Forall_app in Hno as [_ Hno]. by inversion Hno. }
  rewrite app_assoc in Hr.
  destruct (render_prefix ls _ _ Hls Hr) as (ls1 & ls2 & part & -> & Ht & Hp & Hr2).
  rewrite Ht. apply Forall_app in Hls as [Hls1 Hls2]. apply Forall_app in Hlen as [Hlen1 Hlen2].
  rewrite grep_lines_spec; [|done|done|].
  2:{ rewrite length_app. pose proof (length_render ls1). lia. }
  rewrite selected_app. f_equal.
  destruct (Nat.eqb_spec (length part) (length (render ls1 ++ part))) as [Hpl|Hpl].
  - exfalso. rewrite length_app in Hpl. assert (ls1 = []) as ->.
    { destruct ls1; [done|]. rewrite render_cons, length_app in Hpl. simpl in Hpl. lia. }
    simpl in Ht. rewrite <- Ht in Hr2. destruct ls2 as [|l ls2].
    + symmetry in Hr2. apply app_eq_nil in Hr2 as [Hz _]. apply app_eq_nil in Hz as [-> ->]. done.
    + rewrite render_cons in Hr2. inversion Hlen2; subst. destruct Hp as [_ Hno].
      destruct (decide (length (buf ++ chunk) <= length l)%nat) as [Hle|Hgt].
      * rewrite length_app in Hle. destruct (Nat.le_gt_cases (1024 - length buf - 1) (length (chunk ++ rest))).
        -- lia.
        -- assert (rest = []) as ->.
           { rewrite length_app in *. apply length_zero_iff_nil. lia. }
           rewrite app_nil_r in Hr2. apply (f_equal length) in Hr2.
           rewrite !length_app in Hr2. simpl in Hr2. lia.
      * assert ((buf ++ chunk) !! length l = Some 10) as Hnl.
        { rewrite <- (lookup_app_l (buf ++ chunk) rest) by lia. rewrite <- Hr2.
          by rewrite list_lookup_middle. }
        by eapply Forall_lookup_1 in Hno; [|exact Hnl].
  - destruct Hfd as [-> | [-> ->]].
    + apply IH; try done. rewrite length_app in Hf. lia.
    + rewrite grep_loop_done. rewrite app_nil_r in Hr2. destruct ls2 as [|l ls2]; [done|].
      destruct Hp as [_ Hno]. rewrite <- Hr2, render_cons in Hno.
      apply Forall_app in Hno as [_ Hno]. by inversion Hno.
Qed.

(** On a regular file made of lines that fit its 1024-byte buffer, grep
    prints exactly the lines the expression matches, in order, although it
    reads the file through the buffer in pieces that cut lines. *)
Theorem grep_file pattern lines :
  Forall line_ok lines -> Forall (fun l => (length l < 1023)%nat) lines ->
  grep pattern [render lines] = render (List.filter (match_ pattern) lines).
Proof.
  intros Hls Hlen. unfold grep. apply (grep_loop_spec pattern _ lines []); try done.
  - by split; constructor.
  - simpl. rewrite app_nil_r. lia.
Qed.

Lemma grep_file_witness :
  (Forall line_ok [[97; 98]; [99]; [98; 97]] /\
   Forall (fun l => (length l < 1023)%nat) [[97; 98]; [99]; [98; 97]]) /\
  grep [97; 36] [render [[97; 98]; [99]; [98; 97]]] = render [[98; 97]].
Proof.
  assert (H1 : Forall line_ok [[97; 98]; [99]; [98; 97]]).
  { repeat constructor; discriminate. }
  assert (H2 : Forall (fun l => (length l < 1023)%nat) [[97; 98]; [99]; [98; 97]]).
  { repeat constructor; simpl; lia. }
  split; [by split|]. exact (grep_file [97; 36] [[97; 98]; [99]; [98; 97]] H1 H2).
Defined.

(** The same line is lost when it arrives in two reads, as from a pipe: a
    read without a newline makes the loop discard what it has. *)
Theorem grep_partial_read_loses :
  grep [97; 98] [[97; 98; 10]] = [97; 98; 10] /\ grep [97; 98] [[97]; [98; 10]] = [].
Proof. split; reflexivity. Qed.

(** * wc *)
Lemma wc_space_test c :
  match strchr [32; 13; 9; 10; 11] c with Some _ => true | None => false end
  = bool_decide (c ∈ [32; 13; 9; 10; 11]).
Proof.
  cbn [strchr].
  repeat match goal with |- context [if ?b =? c then _ else _] =>
    destruct (Z.eqb_spec b c); [subst; reflexivity|] end.
  rewrite bool_decide_eq_false_2; [done|].
  rewrite !elem_of_cons, elem_of_nil. intuition congruence.
Qed.

Lemma wc_fold s st :
  fold_left wc_byte s st =
  mk_wc (wc_l st + newlines s) (wc_w st + word_starts (negb (wc_inword st)) s)
        (wc_c st + Z.of_nat (length s))
        (fold_left (fun _ c => negb (bool_decide (c ∈ [32; 13; 9; 10; 11]))) s (wc_inword st)).
Proof.
  revert st. induction s as [|c s IH]; intros st.
  - destruct st. cbn [fold_left wc_l wc_w wc_c wc_inword newlines word_starts List.filter length].
    unfold newlines. simpl. f_equal; lia.
  - cbn [fold_left]. rewrite IH. unfold wc_byte. rewrite wc_space_test.
    set (sp := bool_decide (c ∈ [32; 13; 9; 10; 11])).
    assert (Hnl : newlines (c :: s) = (if c =? 10 then 1 else 0) + newlines s).
    { unfold newlines. cbn [List.filter]. destruct (c =? 10); simpl length; lia. }
    rewrite Hnl. cbn [word_starts]. fold sp.
    destruct st as [l w k iw], sp, iw; cbn [wc_l wc_w wc_c wc_inword negb andb];
      f_equal; destruct (c =? 10); simpl length; lia.
Qed.

Lemma read_fd_concat room fd chunk fd' :
  (0 < room)%nat -> Forall (fun c => c <> []) fd -> read_fd room fd = (chunk, fd') ->
  concat fd = chunk ++ concat fd' /\ Forall (fun c => c <> []) fd' /\ (chunk = [] -> fd = []).
Proof.
  intros Hr Hfd Hread. destruct Hfd as [|c cs Hc Hcs]; simpl in Hread.
  - by simplify_eq.
  - destruct (Nat.leb_spec (length c) room); simplify_eq.
    + done.
    + split; [simpl; by rewrite app_assoc, take_drop|]. split.
      * constructor; [|done]. intros Hd. apply (f_equal length) in Hd. rewrite length_drop in Hd. simpl in Hd. lia.
      * intros Ht. apply (f_equal length) in Ht. rewrite length_take in Ht. simpl in Ht. lia.
Qed.

Lemma wc_loop_spec fuel st fd :
  Forall (fun c => c <> []) fd -> (length (concat fd) < fuel)%nat ->
  wc_loop fuel st fd = fold_left wc_byte (concat fd) st.
Proof.
  revert st fd. induction fuel as [|fuel IH]; intros st fd Hfd Hf; [lia|].
  cbn [wc_loop]. destruct (read_fd 512 fd) as [chunk fd'] eqn:Hr.
  apply read_fd_concat in Hr as (Hc & Hfd' & Hnil); [|lia|done].
  rewrite Hc. destruct (Nat.eqb_spec (length chunk) 0) as [H0|H0].
  - apply length_zero_iff_nil in H0. rewrite (Hnil H0) in Hc. simpl in Hc.
    symmetry in Hc. apply app_eq_nil in Hc as [-> ->]. done.
  - rewrite fold_left_app. apply IH; [done|]. rewrite Hc, length_app in Hf. lia.
Qed.

(** However its input is cut into reads, wc counts the newlines, the words
    (maximal runs of non-space bytes) and the bytes of the whole input. *)
Theorem wc_counts fd :
  Forall (fun c => c <> []) fd ->
  wc_l (wc fd) = newlines (concat fd) /\
  wc_w (wc fd) = word_starts true (concat fd) /\
  wc_c (wc fd) = Z.of_nat (length (concat fd)).
Proof.
  intros Hfd. unfold wc. rewrite wc_loop_spec by (done || lia).
  by rewrite wc_fold.
Qed.

Lemma wc_counts_witness :
  wc_l (wc [[97; 32]; [98; 10]]) = 1 /\ wc_w (wc [[97; 32]; [98; 10]]) = 2 /\
  wc_c (wc [[97; 32]; [98; 10]]) = 4.
Proof.
  assert (H1 : Forall (fun c : list Z => c <> []) [[97; 32]; [98; 10]]).
  { repeat constructor; discriminate. }
  exact (wc_counts [[97; 32]; [98; 10]] H1).
Defined.

(** * ls *)
Lemma fmtname_width path :
  nonul path -> (length (take_name (rev path)) < 14)%nat -> length (fmtname path) = 14%nat.
Proof.
  intros Hn Hl.
  assert (Hsuf : forall r, nonul r -> nonul (take_name r)).
  { intros r. induction 1 as [|c r Hc Hr IH]; simpl; [constructor|].
    case_bool; [constructor|]. apply Forall_app. by repeat constructor. }
  assert (Hs : strlen (take_name (rev path)) = Z.of_nat (length (take_name (rev path)))).
  { rewrite strlen_cstr. rewrite cstr_id; [done| |done]. apply Hsuf. by apply Forall_rev. }
  unfold fmtname, DIRSIZ. rewrite Hs. rewrite (proj2 (Z.leb_gt _ _)) by lia.
  rewrite length_app, length_replicate. lia.
Qed.
