(* ===== verification/Printf.v ===== *)
(** Formatted output: the user-level printf of printf.c and the kernel's printint
    and cprintf of console.c.

    The output is the list of the bytes handed to putc (one write of one byte
    each) or to consputc.  The variable arguments are the words on the caller's
    stack after [fmt]; [str_at] gives the string a pointer argument of %s points
    at.  Reading past the last argument gives 0 (in C it reads whatever is above
    it on the stack). *)

From S2P Require Import Prelude Layout CString.

(** ** printf.c *)
Definition digits_upper : list Z := [48; 49; 50; 51; 52; 53; 54; 55; 56; 57; 65; 66; 67; 68; 69; 70].
Definition digits_lower : list Z := [48; 49; 50; 51; 52; 53; 54; 55; 56; 57; 97; 98; 99; 100; 101; 102].

(** The do-while loop that fills [buf] with the digits of [x], least significant
    first.  [x] is a 32-bit unsigned number and [base] is 10 or 16, so ten turns
    are enough. *)
Fixpoint digit_loop (digits : list Z) (base : Z) (fuel : nat) (x : Z) : list Z :=
  match fuel with
  | O => []
  | S fuel' =>
      nth (Z.to_nat (x mod base)) digits 0 ::
      (if x / base =? 0 then [] else digit_loop digits base fuel' (x / base))
  end.

Definition printint (xx base : Z) (sgn : bool) : list Z :=
  let neg := sgn && (s32 xx <? 0) in
  let x := if neg then u32 (- s32 xx) else u32 xx in
  let buf := digit_loop digits_upper base 10 x in
  let buf := if neg then buf ++ [45] else buf in
  rev buf.

Section Format.
Variable str_at : Z -> list Z.

Definition print_str (s : Z) : list Z :=
  let str := if s =? 0 then [40; 110; 117; 108; 108; 41] else str_at s in
  cstr (length str) str.

Fixpoint printf_loop (fmt : list Z) (state : Z) (ap : list Z) : list Z :=
  match fmt with
  | [] => []
  | c0 :: fmt' =>
      if c0 =? 0 then [] else
      let c := Z.land c0 0xff in
      if state =? 0 then
        if c =? 37 then printf_loop fmt' 37 ap else c :: printf_loop fmt' state ap
      else if state =? 37 then
        if c =? 100 then printint (deref ap) 10 true ++ printf_loop fmt' 0 (next ap)
        else if (c =? 120) || (c =? 112) then
          printint (deref ap) 16 false ++ printf_loop fmt' 0 (next ap)
        else if c =? 115 then print_str (deref ap) ++ printf_loop fmt' 0 (next ap)
        else if c =? 99 then u8 (deref ap) :: printf_loop fmt' 0 (next ap)
        else if c =? 37 then c :: printf_loop fmt' 0 ap
        else 37 :: c :: printf_loop fmt' 0 ap
      else printf_loop fmt' state ap
  end.

Definition printf (fmt : list Z) (ap : list Z) : list Z := printf_loop fmt 0 ap.

(** ** console.c *)
Definition kprintint (xx base : Z) (sign : bool) : list Z :=
  let neg := s32 xx <? 0 in
  let '(sign, x) :=
    if sign then (if neg then (true, u32 (- s32 xx)) else (false, u32 xx)) else (sign, u32 xx) in
  let buf := digit_loop digits_lower base 10 x in
  let buf := if sign then buf ++ [45] else buf in
  rev buf.

Fixpoint cprintf (fmt : list Z) (argp : list Z) : list Z :=
  match fmt with
  | [] => []
  | c0 :: fmt1 =>
      if Z.land c0 0xff =? 0 then []
      else if negb (Z.land c0 0xff =? 37) then Z.land c0 0xff :: cprintf fmt1 argp
      else
        match fmt1 with
        | [] => []
        | c1 :: fmt2 =>
            let c := Z.land c1 0xff in
            if c =? 0 then []
            else if c =? 100 then kprintint (deref argp) 10 true ++ cprintf fmt2 (next argp)
            else if (c =? 120) || (c =? 112) then
              kprintint (deref argp) 16 false ++ cprintf fmt2 (next argp)
            else if c =? 115 then print_str (deref argp) ++ cprintf fmt2 (next argp)
            else if c =? 37 then 37 :: cprintf fmt2 argp
            else 37 :: c :: cprintf fmt2 argp
        end
  end.
End Format.

(** ** Specifications *)

(** The number a digit string denotes in a base, most significant first. *)
Definition digit_val (c : Z) : Z := if c <=? 57 then c - 48 else if c <=? 70 then c - 55 else c - 87.

Fixpoint base_val (base : Z) (acc : Z) (ds : list Z) : Z :=
  match ds with
  | [] => acc
  | d :: ds' => base_val base (acc * base + digit_val d) ds'
  end.

(** A format that uses none of the conversions on which the two functions
    differ: %c, which the kernel does not know, and hexadecimal, whose digits the
    kernel prints in lower case. *)
Fixpoint common_fmt (fmt : list Z) : bool :=
  match fmt with
  | c0 :: ((c1 :: fmt2) as fmt1) =>
      if c0 =? 37 then negb (c1 =? 99) && negb (c1 =? 120) && negb (c1 =? 112) && common_fmt fmt2
      else common_fmt fmt1
  | _ => true
  end.

(** * Lemmas *)
Lemma base_val_app base acc ds ds' :
  base_val base acc (ds ++ ds') = base_val base (base_val base acc ds) ds'.
Proof. revert acc. induction ds; intros; simpl; auto. Qed.

Lemma digit_val_upper d : 0 <= d < 16 -> digit_val (nth (Z.to_nat d) digits_upper 0) = d.
Proof.
  intros. assert (forall k, (k < 16)%nat -> digit_val (nth k digits_upper 0) = Z.of_nat k) as Hk.
  { intros k Hk. do 16 (destruct k as [|k]; [done|]). lia. }
  rewrite Hk; lia.
Qed.

Lemma digit_val_lower d : 0 <= d < 16 -> digit_val (nth (Z.to_nat d) digits_lower 0) = d.
Proof.
  intros. assert (forall k, (k < 16)%nat -> digit_val (nth k digits_lower 0) = Z.of_nat k) as Hk.
  { intros k Hk. do 16 (destruct k as [|k]; [done|]). lia. }
  rewrite Hk; lia.
Qed.

Lemma length_digit_loop digits base fuel x : (length (digit_loop digits base fuel x) <= fuel)%nat.
Proof.
  revert x. induction fuel as [|fuel IH]; intros x; simpl; [lia|].
  destruct (x / base =? 0); simpl; [lia|]. specialize (IH (x / base)). lia.
Qed.

(** The digits denote the number, when the fuel covers its length. *)
Lemma digit_loop_val digits base fuel x :
  2 <= base <= 16 ->
  (forall d, 0 <= d < 16 -> digit_val (nth (Z.to_nat d) digits 0) = d) ->
  0 <= x < base ^ Z.of_nat fuel -> (0 < fuel)%nat ->
  base_val base 0 (rev (digit_loop digits base fuel x)) = x.
Proof.
  intros Hb Hd. revert x. induction fuel as [|fuel IH]; intros x Hx Hf; [lia|].
  cbn [digit_loop]. destruct (Z.eqb_spec (x / base) 0) as [H0|H0].
  - cbn [rev app base_val]. pose proof (Z.mod_pos_bound x base). rewrite Hd by lia. Z.div_mod_to_equations. lia.
  - cbn [rev]. rewrite base_val_app. cbn [base_val].
    assert (0 < x / base) by (pose proof (Z.div_pos x base); lia).
    rewrite Nat2Z.inj_succ, Z.pow_succ_r in Hx by lia.
    assert (x / base < base ^ Z.of_nat fuel) by (apply Z.div_lt_upper_bound; lia).
    rewrite IH; [|lia|destruct fuel; [simpl in *; lia|lia]].
    pose proof (Z.mod_pos_bound x base). rewrite Hd by lia.
    rewrite (Z.div_mod x base) at 3 by lia. lia.
Qed.

Lemma digit_loop_decimal digits base fuel x c :
  (forall d, 0 <= d < 10 -> nth (Z.to_nat d) digits 0 = 48 + d) -> base = 10 ->
  In c (digit_loop digits base fuel x) -> 48 <= c <= 57.
Proof.
  intros Hd ->. revert x. induction fuel as [|fuel IH]; intros x; simpl; [tauto|].
  pose proof (Z.mod_pos_bound x 10). intros [<-|Hin].
  - rewrite Hd by lia. lia.
  - destruct (x / 10 =? 0); simpl in Hin; [tauto|]. eauto.
Qed.

Lemma digits_upper_dec d : 0 <= d < 10 -> nth (Z.to_nat d) digits_upper 0 = 48 + d.
Proof.
  intros. assert (forall k, (k < 10)%nat -> nth k digits_upper 0 = 48 + Z.of_nat k) as Hk.
  { intros k Hk. do 10 (destruct k as [|k]; [done|]). lia. }
  rewrite Hk; lia.
Qed.

Lemma digit_loop_same base fuel x :
  base = 10 -> digit_loop digits_lower base fuel x = digit_loop digits_upper base fuel x.
Proof.
  intros ->. revert x. induction fuel as [|fuel IH]; intros x; simpl; [done|].
  pose proof (Z.mod_pos_bound x 10). f_equal.
  - assert (forall k, (k < 10)%nat -> nth k digits_lower 0 = nth k digits_upper 0) as Hk.
    { intros k Hk. do 10 (destruct k as [|k]; [done|]). lia. }
    apply Hk. lia.
  - by rewrite IH.
Qed.

Lemma atoi_loop_digits n ds :
  Forall (fun c => 48 <= c <= 57) ds -> 0 <= n -> base_val 10 n ds < 2 ^ 31 ->
  atoi_loop n ds = base_val 10 n ds.
Proof.
  intros Hds. revert n. induction Hds as [|c ds Hc Hds IH]; intros n Hn Hlt; [done|].
  cbn [atoi_loop base_val] in *.
  rewrite (proj2 (Z.leb_le 48 c)), (proj2 (Z.leb_le c 57)) by lia. cbn [andb].
  assert (Hdv : digit_val c = c - 48).
  { unfold digit_val. by rewrite (proj2 (Z.leb_le c 57)) by lia. }
  rewrite Hdv in *.
  assert (Hmono : forall m l, Forall (fun c => 48 <= c <= 57) l -> 0 <= m -> m <= base_val 10 m l).
  { intros m l Hl. revert m. induction Hl as [|d l Hd Hl IHl]; intros m Hm; cbn [base_val]; [lia|].
    assert (digit_val d = d - 48) as ->
      by (unfold digit_val; by rewrite (proj2 (Z.leb_le d 57)) by lia).
    specialize (IHl (m * 10 + (d - 48))). lia. }
  pose proof (Hmono (n * 10 + (c - 48)) ds Hds ltac:(lia)).
  rewrite s32_small by lia. replace (n * 10 + c - 48) with (n * 10 + (c - 48)) by lia.
  apply IH; [lia|done].
Qed.

(** The signed decimal output of printint denotes its argument for every
    32-bit value, the most negative one included, fits the 16-byte buffer, and
    for non-negative values atoi reads it back. *)
Theorem printint_decimal xx :
  - 2 ^ 31 <= xx < 2 ^ 31 ->
  (length (printint xx 10 true) <= 11)%nat /\
  (if xx <? 0
   then exists ds, printint xx 10 true = 45 :: ds /\ base_val 10 0 ds = - xx
   else base_val 10 0 (printint xx 10 true) = xx /\ atoi (printint xx 10 true) = xx).
Proof.
  intros Hx. unfold printint. rewrite (s32_small xx) by lia. cbn [andb].
  pose proof (length_digit_loop digits_upper 10 10) as Hlen.
  destruct (Z.ltb_spec xx 0).
  - rewrite rev_app_distr. cbn [rev app]. split.
    + cbn [length]. rewrite length_rev. specialize (Hlen (u32 (- xx))). lia.
    + eexists. split; [done|]. rewrite u32_small by lia.
      apply digit_loop_val; try lia. apply digit_val_upper.
  - rewrite u32_small by lia. split.
    + rewrite length_rev. specialize (Hlen xx). lia.
    + assert (Hv : base_val 10 0 (rev (digit_loop digits_upper 10 10 xx)) = xx).
      { apply digit_loop_val; try lia. apply digit_val_upper. }
      split; [done|]. unfold atoi. rewrite atoi_loop_digits; [done| |lia|lia].
      apply Forall_rev, List.Forall_forall. intros c Hc.
      eapply digit_loop_decimal; [apply digits_upper_dec|done|done].
Qed.

Lemma printint_decimal_witness :
  (length (printint (-2147483648) 10 true) <= 11)%nat /\
  exists ds, printint (-2147483648) 10 true = 45 :: ds /\ base_val 10 0 ds = 2147483648.
Proof. exact (printint_decimal (-2147483648) ltac:(lia)). Defined.

(** Hexadecimal output, as %x and %p use it, denotes the unsigned argument. *)
Lemma printint_hex xx :
  0 <= xx < 2 ^ 32 ->
  base_val 16 0 (printint xx 16 false) = xx /\ base_val 16 0 (kprintint xx 16 false) = xx.
Proof.
  intros Hx. unfold printint, kprintint. cbn [andb]. rewrite u32_small by lia.
  split; apply digit_loop_val; try lia.
  - apply digit_val_upper.
  - apply digit_val_lower.
Qed.

Lemma kprintint_eq xx : kprintint xx 10 true = printint xx 10 true.
Proof.
  unfold kprintint, printint. cbn [andb].
  destruct (s32 xx <? 0); by rewrite digit_loop_same.
Qed.

Lemma land_byte c : 0 <= c < 256 -> Z.land c 0xff = c.
Proof. intros. change 0xff with (Z.ones 8). rewrite land_low by lia. apply Z.mod_small. lia. Qed.

Lemma cprintf_printf_aux str_at n fmt ap :
  (length fmt < n)%nat -> bytes_ok fmt -> common_fmt fmt = true ->
  cprintf str_at fmt ap = printf_loop str_at fmt 0 ap.
Proof.
  revert fmt ap. induction n as [|n IH]; intros fmt ap Hn Hb Hc; [lia|].
  destruct Hb as [|c0 fmt1 H0 Hb1]; [done|]. simpl in Hn.
  cbn [cprintf printf_loop]. rewrite !(land_byte c0) by lia.
  destruct (Z.eqb_spec c0 0); [done|]. cbn [Z.eqb].
  destruct (Z.eqb_spec c0 37) as [->|Hne]; cbn [negb].
  - destruct Hb1 as [|c1 fmt2 H1 Hb2]; [done|]. simpl in Hn. cbn [common_fmt Z.eqb Pos.eqb] in Hc. zbool.
    cbn [printf_loop Z.eqb Pos.eqb]. rewrite !(land_byte c1) by lia.
    destruct (Z.eqb_spec c1 0); [done|].
    rewrite (proj2 (Z.eqb_neq c1 99)), (proj2 (Z.eqb_neq c1 120)), (proj2 (Z.eqb_neq c1 112)) by done.
    cbn [orb]. rewrite kprintint_eq. rewrite !IH by (done || lia).
    destruct (Z.eqb_spec c1 37); [by subst|done].
  - f_equal. apply IH; [lia|done|]. cbn [common_fmt] in Hc. destruct fmt1; [done|].
    by rewrite (proj2 (Z.eqb_neq c0 37)) in Hc.
Qed.

(** The kernel's cprintf, which looks ahead after a percent sign, and the
    user-level printf, which is a state machine over the characters, print the
    same bytes for every format that uses only the conversions both know. *)
Theorem cprintf_agrees_printf str_at fmt ap :
  bytes_ok fmt -> common_fmt fmt = true -> cprintf str_at fmt ap = printf str_at fmt ap.
Proof. intros. apply (cprintf_printf_aux str_at (S (length fmt))); (done || lia). Qed.

(** The format is "a%d%%%s" with arguments -5 and a string pointer. *)
Lemma cprintf_agrees_printf_witness :
  bytes_ok [97; 37; 100; 37; 37; 37; 115] /\
  cprintf (fun _ => [120; 0]) [97; 37; 100; 37; 37; 37; 115] [2 ^ 32 - 5; 8] = [97; 45; 53; 37; 120] /\
  cprintf (fun _ => [120; 0]) [97; 37; 100; 37; 37; 37; 115] [2 ^ 32 - 5; 8]
  = printf (fun _ => [120; 0]) [97; 37; 100; 37; 37; 37; 115] [2 ^ 32 - 5; 8].
Proof.
  assert (H : bytes_ok [97; 37; 100; 37; 37; 37; 115]) by (repeat constructor; lia).
  split; [done|]. split; [reflexivity|].
  exact (cprintf_agrees_printf (fun _ => [120; 0]) _ [2 ^ 32 - 5; 8] H eq_refl).
Defined.
