(* ===== verification/Sh.v ===== *)
(** The command parser of the shell, sh.c.

    A [char*] into the command line is the suffix of the line that starts there,
    so the end pointer [es] is the empty list and [*es], the NUL that ends the
    line, is what [deref] gives on it.  The parser state [*ps] is such a suffix.
    panic() of sh.c ends the process: it is the [Panic] outcome. *)

From S2P Require Import Prelude Layout CString.
Local Open Scope kernel_scope.

Definition MAXARGS : Z := 10.

(** A counted string: its first byte and the byte after its last. *)
Abbreviation token := (list Z * list Z)%type.

(** struct execcmd, redircmd, pipecmd, listcmd and backcmd. *)
Inductive cmd :=
| EXEC (argv : list token)
| REDIR (c : cmd) (file : token) (mode fd : Z)
| PIPE (left right : cmd)
| LIST (left right : cmd)
| BACK (c : cmd).

(** The constructors of sh.c. *)
Definition execcmd : cmd := EXEC [].
Definition redircmd (subcmd : cmd) (file : token) (mode fd : Z) : cmd := REDIR subcmd file mode fd.
Definition pipecmd (left right : cmd) : cmd := PIPE left right.
Definition listcmd (left right : cmd) : cmd := LIST left right.
Definition backcmd (subcmd : cmd) : cmd := BACK subcmd.

Definition whitespace : list Z := [32; 9; 13; 10; 11].
Definition symbols : list Z := [60; 124; 62; 38; 59; 40; 41].

Definition has_char (set : list Z) (c : Z) : bool :=
  match strchr set c with Some _ => true | None => false end.

(** [while(s < es && strchr(whitespace, *s)) s++;] *)
Fixpoint skip_ws (s : list Z) : list Z :=
  match s with
  | [] => []
  | c :: s' => if has_char whitespace c then skip_ws s' else s
  end.

Fixpoint skip_word (s : list Z) : list Z :=
  match s with
  | [] => []
  | c :: s' =>
      if negb (has_char whitespace c) && negb (has_char symbols c) then skip_word s' else s
  end.

Definition gettoken : M (list Z) (Z * token) := fun ps =>
  let s := skip_ws ps in
  let q := s in
  let '(ret, s) :=
    let c := deref s in
    if c =? 0 then (c, s)
    else if (c =? 124) || (c =? 40) || (c =? 41) || (c =? 59) || (c =? 38) || (c =? 60)
    then (c, next s)
    else if c =? 62 then (let s := next s in if deref s =? 62 then (43, next s) else (c, s))
    else (97, skip_word s) in
  let eq := s in
  Ok (ret, (q, eq)) (skip_ws s).

Definition peek (toks : list Z) : M (list Z) bool := fun ps =>
  let s := skip_ws ps in
  Ok (negb (deref s =? 0) && has_char toks (deref s)) s.

(** Each turn of the loop reads at least one symbol, so the length of the rest
    of the line bounds the number of turns. *)
Fixpoint parseredirs_loop (fuel : nat) (c : cmd) : M (list Z) cmd :=
  match fuel with
  | O => hang
  | S fuel' =>
      let! b := peek [60; 62] in
      if negb b then ret c else
      let! (tok, _) := gettoken in
      let! (a, file) := gettoken in
      if negb (a =? 97) then panic "missing file for redirection" else
      if tok =? 60 then parseredirs_loop fuel' (redircmd c file O_RDONLY 0)
      else if tok =? 62 then parseredirs_loop fuel' (redircmd c file (Z.lor O_WRONLY O_CREATE) 1)
      else if tok =? 43 then parseredirs_loop fuel' (redircmd c file (Z.lor O_WRONLY O_CREATE) 1)
      else parseredirs_loop fuel' c
  end.

Definition parseredirs (c : cmd) : M (list Z) cmd := fun ps => parseredirs_loop (S (length ps)) c ps.

(** In parseexec the pointer [cmd] is the execcmd at the bottom of the redirections
    in [ret]: storing an argument through it changes that leaf. *)
Fixpoint push_arg (ret : cmd) (arg : token) : cmd :=
  match ret with
  | EXEC argv => EXEC (argv ++ [arg])
  | REDIR c file mode fd => REDIR (push_arg c arg) file mode fd
  | _ => ret
  end.

Fixpoint args_loop (fuel : nat) (argc : Z) (rt : cmd) : M (list Z) cmd :=
  match fuel with
  | O => hang
  | S fuel' =>
      let! b := peek [124; 41; 38; 59] in
      if b then ret rt else
      let! (tok, arg) := gettoken in
      if tok =? 0 then ret rt else
      if negb (tok =? 97) then panic "syntax" else
      let rt := push_arg rt arg in
      let argc := argc + 1 in
      if MAXARGS <=? argc then panic "too many args" else
      let! rt := parseredirs rt in
      args_loop fuel' argc rt
  end.

(** The loop of parseline that reads background marks. *)
Fixpoint back_loop (fuel : nat) (c : cmd) : M (list Z) cmd :=
  match fuel with
  | O => hang
  | S fuel' =>
      let! b := peek [38] in
      if negb b then ret c else
      let! _ := gettoken in
      back_loop fuel' (backcmd c)
  end.

Fixpoint parseline (fuel : nat) : M (list Z) cmd :=
  match fuel with
  | O => hang
  | S fuel' =>
      let! c := parsepipe fuel' in
      let! c := (fun ps => back_loop (S (length ps)) c ps) in
      let! b := peek [59] in
      if b then
        let! _ := gettoken in
        let! r := parseline fuel' in
        ret (listcmd c r)
      else ret c
  end
with parsepipe (fuel : nat) : M (list Z) cmd :=
  match fuel with
  | O => hang
  | S fuel' =>
      let! c := parseexec fuel' in
      let! b := peek [124] in
      if b then
        let! _ := gettoken in
        let! r := parsepipe fuel' in
        ret (pipecmd c r)
      else ret c
  end
with parseexec (fuel : nat) : M (list Z) cmd :=
  match fuel with
  | O => hang
  | S fuel' =>
      let! b := peek [40] in
      if b then parseblock fuel' else
      let! rt := parseredirs execcmd in
      fun ps => args_loop (S (length ps)) 0 rt ps
  end
with parseblock (fuel : nat) : M (list Z) cmd :=
  match fuel with
  | O => hang
  | S fuel' =>
      let! b := peek [40] in
      if negb b then panic "parseblock" else
      let! _ := gettoken in
      let! c := parseline fuel' in
      let! b := peek [41] in
      if negb b then panic "syntax - missing )" else
      let! _ := gettoken in
      parseredirs c
  end.

(** [*eq = 0] on the line [buf]: the offset of [eq] is what [buf] has more. *)
Definition put_nul (buf eq : list Z) (line : list Z) : list Z :=
  <[(length line - length eq)%nat := 0]> buf.

(** nulterminate, on the buffer that held [line]. *)
Fixpoint nulterminate (line : list Z) (c : cmd) (buf : list Z) : list Z :=
  match c with
  | EXEC argv => fold_left (fun buf a => put_nul buf (snd a) line) argv buf
  | REDIR c' file _ _ => put_nul (nulterminate line c' buf) (snd file) line
  | PIPE l r | LIST l r => nulterminate line r (nulterminate line l buf)
  | BACK c' => nulterminate line c' buf
  end.

(** Four calls are nested between two symbols of the line. *)
Definition parse_fuel (s : list Z) : nat := 4 * length s + 4.

(** [s] is the line up to its NUL.  The result is the command and the buffer with
    the NULs stored. *)
Definition parsecmd (s : list Z) : outcome (list Z) (cmd * list Z) :=
  (let! c := parseline (parse_fuel s) in
   let! _ := peek [] in
   fun ps =>
     if negb (length ps =? 0)%nat then Panic "syntax"
     else Ok (c, nulterminate s c (s ++ [0])) ps) s.

(** ** Specification *)

(** The text of a counted string, and commands over texts. *)
Definition text (t : token) : list Z := take (length (fst t) - length (snd t)) (fst t).

Inductive ast :=
| Exec (argv : list (list Z))
| Redir (c : ast) (file : list Z) (out : bool)
| Pipe (left right : ast)
| Lst (left right : ast)
| Back (c : ast).

Definition mode_of (out : bool) : Z := if out then Z.lor O_WRONLY O_CREATE else O_RDONLY.
Definition fd_of (out : bool) : Z := if out then 1 else 0.

(** [denote c a]: the parsed command [c] is the command [a]. *)
Inductive denote : cmd -> ast -> Prop :=
| de_exec argv : denote (EXEC argv) (Exec (map text argv))
| de_redir c a file out :
    denote c a -> denote (REDIR c file (mode_of out) (fd_of out)) (Redir a (text file) out)
| de_pipe l r a b : denote l a -> denote r b -> denote (PIPE l r) (Pipe a b)
| de_list l r a b : denote l a -> denote r b -> denote (LIST l r) (Lst a b)
| de_back c a : denote c a -> denote (BACK c) (Back a).

(** A word the shell reads as one argument. *)
Definition word_ok (w : list Z) : Prop :=
  w <> [] /\ Forall (fun c => c <> 0 /\ has_char whitespace c = false /\ has_char symbols c = false) w.

Fixpoint ast_ok (a : ast) : Prop :=
  match a with
  | Exec argv => Forall word_ok argv /\ Z.of_nat (length argv) < MAXARGS
  | Redir c file _ => ast_ok c /\ word_ok file
  | Pipe l r | Lst l r => ast_ok l /\ ast_ok r
  | Back c => ast_ok c
  end.

(** Lexical tokens, and the line that is typed for them: a space between two tokens
    and a newline after the last. *)
Inductive tk := W (w : list Z) | Sy (c : Z).

Definition tk_text (t : tk) : list Z := match t with W w => w | Sy c => [c] end.
Definition sep (ts : list tk) : Z := match ts with [] => 10 | _ => 32 end.
Fixpoint line_of (ts : list tk) : list Z :=
  match ts with [] => [] | t :: ts' => tk_text t ++ sep ts' :: line_of ts' end.

Definition tk_ok (t : tk) : Prop :=
  match t with W w => word_ok w | Sy c => has_char symbols c = true end.

Definition parens (b : bool) (ts : list tk) : list tk := if b then Sy 40 :: ts ++ [Sy 41] else ts.

(** How to write a command so that the shell reads it: the level says what the
    context takes (0 a line, 1 a background job, 2 a pipeline, 3 a single
    command); a command of a lower level is put in parentheses. *)
Fixpoint show (lvl : nat) (a : ast) : list tk :=
  match a with
  | Exec argv => map W argv
  | Redir c file out => show 3 c ++ [Sy (if out then 62 else 60); W file]
  | Pipe l r => parens (2 <? lvl)%nat (show 3 l ++ Sy 124 :: show 2 r)
  | Back c => parens (1 <? lvl)%nat (show 1 c ++ [Sy 38])
  | Lst l r => parens (0 <? lvl)%nat (show 1 l ++ Sy 59 :: show 0 r)
  end.

(** * Termination *)

(** The outcome is reached, and the rest of the line is no longer than [n]. *)
Definition within {A} (n : nat) (o : outcome (list Z) A) : Prop :=
  match o with
  | Ok _ s => (length s <= n)%nat
  | Panic _ => True
  | _ => False
  end.

Lemma within_bind {A B} n (m : M (list Z) A) (f : A -> M (list Z) B) s :
  within n (m s) -> (forall a s', (length s' <= n)%nat -> within n (f a s')) -> within n (bind m f s).
Proof. unfold bind. intros Hm Hf. destruct (m s); simpl in *; auto. Qed.

Lemma within_mono {A} n n' (o : outcome (list Z) A) : (n <= n')%nat -> within n o -> within n' o.
Proof. destruct o; simpl; auto; lia. Qed.

Lemma length_skip_ws s : (length (skip_ws s) <= length s)%nat.
Proof. induction s as [|c s IH]; simpl; [lia|]. destruct (has_char whitespace c); simpl; lia. Qed.

Lemma length_skip_word s : (length (skip_word s) <= length s)%nat.
Proof. induction s as [|c s IH]; simpl; [lia|]. case_match; simpl; lia. Qed.

Lemma skip_ws_idem s : skip_ws (skip_ws s) = skip_ws s.
Proof.
  induction s as [|c s IH]; simpl; [done|]. destruct (has_char whitespace c) eqn:E; [done|].
  simpl. by rewrite E.
Qed.

Lemma skip_ws_head s c s' : skip_ws s = c :: s' -> has_char whitespace c = false.
Proof.
  induction s as [|d s IH]; simpl; [done|]. destruct (has_char whitespace d) eqn:E; [done|].
  intros. by simplify_eq.
Qed.

Lemma length_next s : (length (next s) <= length s)%nat.
Proof. destruct s; simpl; lia. Qed.

Lemma gettoken_ok s : exists a s', gettoken s = Ok a s'.
Proof. unfold gettoken. repeat case_match; eauto. Qed.

Lemma gettoken_within s : within (length s) (gettoken s).
Proof.
  unfold gettoken. pose proof (length_skip_ws s).
  pose proof (length_next (skip_ws s)). pose proof (length_next (next (skip_ws s))).
  pose proof (length_skip_word (skip_ws s)).
  repeat case_match; simplify_eq; simpl;
    match goal with |- (length (skip_ws ?x) <= _)%nat => pose proof (length_skip_ws x) end; lia.
Qed.

Lemma has_char_symbols c :
  has_char symbols c = false ->
  c <> 60 /\ c <> 124 /\ c <> 62 /\ c <> 38 /\ c <> 59 /\ c <> 40 /\ c <> 41.
Proof.
  unfold has_char, symbols. cbn [strchr].
  repeat match goal with |- context [if ?b =? c then _ else _] =>
    destruct (Z.eqb_spec b c); [done|] end.
  intros _. repeat split; congruence.
Qed.

Lemma not_symbol c :
  (c =? 124) || (c =? 40) || (c =? 41) || (c =? 59) || (c =? 38) || (c =? 60) = false -> c <> 62 -> has_char symbols c = false.
Proof.
  intros E1 H62. repeat (apply orb_false_elim in E1 as [E1 ?]). zbool. unfold has_char, symbols. cbn [strchr].
  repeat match goal with |- context [if ?b =? c then _ else _] => rewrite (proj2 (Z.eqb_neq b c)) by congruence end. done.
Qed.

(** Where the line goes on with a character, gettoken consumes some of it. *)
Lemma gettoken_progress s a s' :
  deref (skip_ws s) <> 0 -> gettoken s = Ok a s' -> (length s' < length s)%nat.
Proof.
  unfold gettoken. intros H0. pose proof (length_skip_ws s).
  destruct (skip_ws s) as [|c r] eqn:Hs; [done|]. cbn [deref next] in *.
  pose proof (skip_ws_head _ _ _ Hs) as Hw.
  rewrite (proj2 (Z.eqb_neq c 0) H0).
  destruct ((c =? 124) || (c =? 40) || (c =? 41) || (c =? 59) || (c =? 38) || (c =? 60)) eqn:E1.
  { intros ?; simplify_eq. pose proof (length_skip_ws r). simpl in *. lia. }
  destruct (Z.eqb_spec c 62).
  { pose proof (length_next r). intros Hg. destruct (deref r =? 62); simplify_eq.
    - pose proof (length_skip_ws (next r)). simpl in *. lia.
    - pose proof (length_skip_ws r). simpl in *. lia. }
  intros Hg. simplify_eq. cbn [skip_word]. rewrite Hw. cbn [negb andb].
  rewrite (not_symbol c) by done.
  cbn [negb]. pose proof (length_skip_ws (skip_word r)). pose proof (length_skip_word r).
  simpl in *. lia.
Qed.

Lemma peek_spec toks s :
  exists b, peek toks s = Ok b (skip_ws s) /\ (b = true -> deref (skip_ws s) <> 0).
Proof.
  unfold peek. eexists. split; [done|]. intros H. apply andb_prop in H as [H _].
  by apply negb_true_iff, Z.eqb_neq in H.
Qed.

(** Step through a peek: its answer, and the position it leaves. *)
Ltac step_peek :=
  match goal with
  | |- context [bind (peek ?t) _ ?s] =>
      let b := fresh "b" in let Hb := fresh "Hb" in let Ht := fresh "Ht" in
      let Hl := fresh "Hl" in
      destruct (peek_spec t s) as (b & Hb & Ht);
      pose proof (length_skip_ws s) as Hl;
      rewrite (bind_ok _ _ _ _ _ Hb); clear Hb; destruct b; cbn [negb]
  end.

(** Step through a gettoken that follows a successful peek. *)
Ltac step_token :=
  match goal with
  | Ht : true = true -> deref (skip_ws ?s) <> 0 |- context [bind gettoken _ (skip_ws ?s)] =>
      let a := fresh "a" in let s' := fresh "s'" in let Hg := fresh "Hg" in
      let Hn := fresh "Hn" in
      destruct (gettoken_ok (skip_ws s)) as (a & s' & Hg);
      assert (length s' < length (skip_ws s))%nat as Hn
        by (eapply gettoken_progress; [rewrite skip_ws_idem; by apply Ht|done]);
      rewrite (bind_ok _ _ _ _ _ Hg); clear Hg
  end.

Lemma parseredirs_within fuel c s : (length s < fuel)%nat -> within (length s) (parseredirs_loop fuel c s).
Proof.
  revert c s. induction fuel as [|fuel IH]; intros c s Hf; [lia|]. cbn [parseredirs_loop].
  step_peek; [|simpl; lia]. step_token. destruct a as [tok t].
  apply (within_mono (length s')); [lia|].
  apply within_bind; [apply gettoken_within|]. intros [a file] s2 Hs2.
  destruct (negb (a =? 97)); [done|].
  destruct (tok =? 60); [|destruct (tok =? 62); [|destruct (tok =? 43)]];
    (eapply within_mono; [|apply IH]; lia).
Qed.

Lemma args_within fuel argc c s : (length s < fuel)%nat -> within (length s) (args_loop fuel argc c s).
Proof.
  revert argc c s. induction fuel as [|fuel IH]; intros argc c s Hf; [lia|]. cbn [args_loop].
  step_peek; [simpl; lia|].
  destruct (gettoken_ok (skip_ws s)) as ([tok arg] & s' & Hg).
  rewrite (bind_ok _ _ _ _ _ Hg).
  pose proof (gettoken_within (skip_ws s)) as Hw. rewrite Hg in Hw. simpl in Hw.
  destruct (Z.eqb_spec tok 0); [simpl; lia|].
  destruct (tok =? 97) eqn:Htok; [|done]. cbn [negb].
  assert (length s' < length s)%nat.
  { apply (gettoken_progress _ _ _) in Hg; [lia|]. rewrite skip_ws_idem. intros H0.
    unfold gettoken in Hg. rewrite skip_ws_idem, H0 in Hg. simpl in Hg. by simplify_eq. }
  destruct (MAXARGS <=? argc + 1); [done|].
  apply (within_mono (length s')); [lia|].
  apply within_bind; [apply parseredirs_within; lia|]. intros c2 s2 Hs2.
  eapply within_mono; [|apply IH]; lia.
Qed.

Lemma back_within fuel c s : (length s < fuel)%nat -> within (length s) (back_loop fuel c s).
Proof.
  revert c s. induction fuel as [|fuel IH]; intros c s Hf; [lia|]. cbn [back_loop].
  step_peek; [|simpl; lia]. step_token. eapply within_mono; [|apply IH]; lia.
Qed.

Lemma parse_within fuel :
  (forall s, (4 * length s + 4 <= fuel)%nat -> within (length s) (parseline fuel s)) /\
  (forall s, (4 * length s + 3 <= fuel)%nat -> within (length s) (parsepipe fuel s)) /\
  (forall s, (4 * length s + 2 <= fuel)%nat -> within (length s) (parseexec fuel s)) /\
  (forall s, (4 * length s + 1 <= fuel)%nat -> within (length s) (parseblock fuel s)).
Proof.
  induction fuel as [|fuel (IHl & IHp & IHe & IHb)]; [repeat split; lia|].
  repeat split; intros s Hf; cbn [parseline parsepipe parseexec parseblock].
  - apply within_bind; [apply IHp; lia|]. intros c s1 H1.
    apply within_bind; [eapply within_mono; [|apply back_within]; lia|]. intros c2 s2 H2.
    step_peek; [|simpl; lia]. step_token.
    apply within_bind; [eapply within_mono; [|apply IHl]; lia|]. done.
  - apply within_bind; [apply IHe; lia|]. intros c s1 H1.
    step_peek; [|simpl; lia]. step_token.
    apply within_bind; [eapply within_mono; [|apply IHp]; lia|]. done.
  - step_peek.
    + destruct (decide (length (skip_ws s) = 0)%nat) as [Hz|].
      * exfalso. apply length_zero_iff_nil in Hz. rewrite Hz in Ht. by apply Ht.
      * destruct (peek_spec [40] s) as (b & Hpk & _).
        eapply within_mono; [|apply IHb]; lia.
    + apply within_bind; [eapply within_mono; [|apply parseredirs_within]; lia|].
      intros c s1 H1. eapply within_mono; [|apply args_within]; lia.
  - step_peek; [|done]. step_token.
    apply within_bind; [eapply within_mono; [|apply IHl]; lia|]. intros c s2 H2.
    step_peek; [|done]. step_token. eapply within_mono; [|apply parseredirs_within]; lia.
Qed.

(** The recursive-descent parser of the shell terminates on every command line, with a
    command or with a syntax error. *)
Lemma parsecmd_total s :
  (exists r rest, parsecmd s = Ok r rest) \/ (exists msg, parsecmd s = Panic msg).
Proof.
  assert (H : within (length s) (parsecmd s)).
  { unfold parsecmd. apply within_bind; [apply parse_within; unfold parse_fuel; lia|].
    intros c s1 H1. step_peek; simpl; (destruct (negb _); simpl; [done|lia]). }
  destruct (parsecmd s) as [r rest|msg| | |]; simpl in H; try done; eauto.
Qed.

(** * Reading back what was written *)

Lemma word_head w : word_ok w -> exists c w', w = c :: w' /\ c <> 0 /\
  has_char whitespace c = false /\ has_char symbols c = false.
Proof. intros [Hne Hw]. destruct Hw as [|c w' (H0 & Hws & Hsy) _]; [done|]. eauto 8. Qed.

Lemma symbol_not_ws c : has_char symbols c = true -> has_char whitespace c = false /\ c <> 0.
Proof.
  unfold has_char, symbols. cbn [strchr].
  repeat match goal with |- context [if ?b =? c then _ else _] =>
    destruct (Z.eqb_spec b c); [subst; intros; by split|] end. done.
Qed.

Lemma line_of_cons t ts : line_of (t :: ts) = tk_text t ++ sep ts :: line_of ts.
Proof. done. Qed.

Lemma skip_ws_line ts : Forall tk_ok ts -> skip_ws (line_of ts) = line_of ts.
Proof.
  destruct 1 as [|[w|c] ts Ht Hts]; [done| |].
  - destruct (word_head w Ht) as (c & w' & -> & _ & Hws & _). rewrite line_of_cons. simpl. by rewrite Hws.
  - rewrite line_of_cons. simpl. by rewrite (proj1 (symbol_not_ws c Ht)).
Qed.

Lemma skip_ws_sep ts s : skip_ws (sep ts :: s) = skip_ws s.
Proof. by destruct ts. Qed.

Lemma skip_word_word w ts rest :
  Forall (fun c => c <> 0 /\ has_char whitespace c = false /\ has_char symbols c = false) w ->
  skip_word (w ++ sep ts :: rest) = sep ts :: rest.
Proof. induction 1 as [|c w (_ & Hws & Hsy) _ IH]; simpl; [by destruct ts|]. by rewrite Hws, Hsy. Qed.

(** gettoken on a written line: a word, or a symbol other than [>] before [>]. *)
Lemma gettoken_word w ts :
  word_ok w -> Forall tk_ok ts ->
  exists t, gettoken (line_of (W w :: ts)) = Ok (97, t) (line_of ts) /\ text t = w.
Proof.
  intros Hw Hts. destruct (word_head w Hw) as (c & w' & -> & H0 & Hws & Hsy).
  destruct Hw as [_ Hw]. apply has_char_symbols in Hsy as (? & ? & ? & ? & ? & ? & ?).
  unfold gettoken. rewrite skip_ws_line by (constructor; [split; [done|]|]; done).
  rewrite line_of_cons. cbn [tk_text app deref].
  rewrite (proj2 (Z.eqb_neq c 0)), (proj2 (Z.eqb_neq c 124)), (proj2 (Z.eqb_neq c 40)),
    (proj2 (Z.eqb_neq c 41)), (proj2 (Z.eqb_neq c 59)), (proj2 (Z.eqb_neq c 38)),
    (proj2 (Z.eqb_neq c 60)), (proj2 (Z.eqb_neq c 62)) by done. cbn [orb].
  change (c :: w' ++ sep ts :: line_of ts) with ((c :: w') ++ sep ts :: line_of ts).
  rewrite skip_word_word by done. rewrite skip_ws_sep, skip_ws_line by done.
  eexists. split; [done|]. unfold text. cbn [fst snd].
  replace (length ((c :: w') ++ sep ts :: line_of ts) - length (sep ts :: line_of ts))%nat
    with (length (c :: w')) by (rewrite length_app; simpl; lia).
  by rewrite take_app_length.
Qed.

Lemma gettoken_symbol c ts :
  has_char symbols c = true -> Forall tk_ok ts ->
  exists t, gettoken (line_of (Sy c :: ts)) = Ok (c, t) (line_of ts).
Proof.
  intros Hc Hts. unfold gettoken. rewrite skip_ws_line by (by constructor).
  rewrite line_of_cons. cbn [tk_text app deref next].
  rewrite (proj2 (Z.eqb_neq c 0)) by (by apply symbol_not_ws).
  destruct ((c =? 124) || (c =? 40) || (c =? 41) || (c =? 59) || (c =? 38) || (c =? 60)) eqn:E.
  { rewrite skip_ws_sep, skip_ws_line by done. eauto. }
  assert (c = 62) as ->.
  { repeat (apply orb_false_elim in E as [E ?]). zbool. revert Hc. unfold has_char, symbols. cbn [strchr].
    repeat match goal with |- context [if ?b =? c then _ else _] =>
      destruct (Z.eqb_spec b c); [congruence|] end. done. }
  cbn [Z.eqb Pos.eqb deref]. rewrite (proj2 (Z.eqb_neq (sep ts) 62)) by (by destruct ts).
  rewrite skip_ws_sep, skip_ws_line by done. eauto.
Qed.

(** The first character decides every peek. *)
Definition first_sym (ts : list tk) : Z :=
  match ts with Sy c :: _ => c | _ => 0 end.

Lemma strchr_nonzero toks : has_char toks 0 = false.
Proof.
  unfold has_char. induction toks as [|x toks IH]; [done|]. cbn [strchr].
  destruct (x =? 0); done.
Qed.

Lemma has_char_subset toks c :
  Forall (fun x => has_char symbols x = true) toks -> has_char toks c = true -> has_char symbols c = true.
Proof.
  unfold has_char at 2. induction 1 as [|x toks Hx _ IH]; cbn [strchr]; [done|].
  destruct (x =? 0); [done|]. destruct (Z.eqb_spec x c); [by subst|]. apply IH.
Qed.

Lemma peek_line toks ts :
  Forall tk_ok ts -> Forall (fun x => has_char symbols x = true) toks ->
  peek toks (line_of ts) = Ok (has_char toks (first_sym ts)) (line_of ts).
Proof.
  intros Hts Htoks. unfold peek. rewrite skip_ws_line by done.
  destruct Hts as [|[w|c] ts Ht Hts]; cbn [first_sym].
  - simpl. by rewrite strchr_nonzero.
  - destruct (word_head w Ht) as (c & w' & -> & H0 & Hws & Hsy). rewrite line_of_cons. cbn [tk_text app deref].
    rewrite strchr_nonzero, (proj2 (Z.eqb_neq c 0)) by done. cbn [negb andb].
    destruct (has_char toks c) eqn:E; [|done]. by rewrite (has_char_subset toks c) in Hsy.
  - rewrite line_of_cons. cbn [tk_text app deref].
    by rewrite (proj2 (Z.eqb_neq c 0)) by (by apply symbol_not_ws).
Qed.

(** Redirections: how they are written, and what they wrap around a command. *)
Definition redir_tks (rs : list (list Z * bool)) : list tk :=
  concat (map (fun r : list Z * bool => [Sy (if snd r then 62 else 60); W (fst r)]) rs).

Definition wraps (a : ast) (rs : list (list Z * bool)) : ast :=
  fold_left (fun a (r : list Z * bool) => Redir a (fst r) (snd r)) rs a.

(** A context that a parsed command goes into unchanged by later wrapping: the
    command with the redirections [rs] around it. *)
Lemma redir_tks_ok (rs : list (list Z * bool)) : Forall (fun r => word_ok (fst r)) rs -> Forall tk_ok (redir_tks rs).
Proof.
  induction 1 as [|[f o] rs Hf _ IH]; [constructor|]. unfold redir_tks. cbn [map concat app fst snd].
  constructor; [by destruct o|]. by constructor.
Qed.

Lemma length_redir_tks rs : length (redir_tks rs) = (2 * length rs)%nat.
Proof. unfold redir_tks. induction rs; simpl; lia. Qed.

Lemma length_line_of ts : (2 * length ts <= length (line_of ts) \/ ~ Forall tk_ok ts)%nat.
Proof.
  induction ts as [|t ts IH]; [by left|]. rewrite line_of_cons, length_app.
  destruct IH as [IH|IH]; [|right; by inversion 1].
  destruct t as [w|c]; simpl; [|left; lia].
  destruct w as [|x w]; [right; intros Hf; inversion Hf as [|? ? Hw _]; by destruct Hw as [Hw _]|].
  left. simpl. lia.
Qed.

Lemma length_line_ok ts : Forall tk_ok ts -> (2 * length ts <= length (line_of ts))%nat.
Proof. destruct (length_line_of ts); tauto. Qed.

Definition no_redir (ts : list tk) : Prop := has_char [60; 62] (first_sym ts) = false.

Lemma parseredirs_line fuel c a (rs : list (list Z * bool)) ts :
  denote c a -> Forall (fun r => word_ok (fst r)) rs -> Forall tk_ok ts -> no_redir ts ->
  (length rs < fuel)%nat ->
  exists c', parseredirs_loop fuel c (line_of (redir_tks rs ++ ts)) = Ok c' (line_of ts) /\
    denote c' (wraps a rs) /\ (rs = [] -> c' = c).
Proof.
  intros Hc Hrs Hts Hno. revert fuel c a Hc. induction Hrs as [|[f o] rs Hf Hrs IH]; intros fuel c a Hc Hfuel.
  - destruct fuel as [|fuel]; [simpl in *; lia|]. exists c. cbn [parseredirs_loop redir_tks map concat app].
    rewrite (bind_ok _ _ _ _ _ (peek_line [60; 62] ts Hts ltac:(repeat constructor))).
    unfold no_redir in Hno. rewrite Hno. done.
  - destruct fuel as [|fuel]; [simpl in *; lia|]. cbn [parseredirs_loop].
    assert (Hok : Forall tk_ok (redir_tks rs ++ ts)) by (apply Forall_app; split; [by apply redir_tks_ok|done]).
    change (redir_tks ((f, o) :: rs) ++ ts)
      with (Sy (if o then 62 else 60) :: W f :: redir_tks rs ++ ts).
    assert (Hsy : has_char symbols (if o then 62 else 60) = true) by (by destruct o).
    assert (Hok' : Forall tk_ok (Sy (if o then 62 else 60) :: W f :: redir_tks rs ++ ts))
      by (constructor; [done|]; by constructor).
    rewrite (bind_ok _ _ _ _ _ (peek_line [60; 62] _ Hok' ltac:(repeat constructor))).
    cbn [first_sym]. assert (has_char [60; 62] (if o then 62 else 60) = true) as -> by (by destruct o).
    cbn [negb].
    destruct (gettoken_symbol (if o then 62 else 60) (W f :: redir_tks rs ++ ts) Hsy ltac:(by constructor))
      as (t1 & Ht1). rewrite (bind_ok _ _ _ _ _ Ht1). cbv beta iota.
    destruct (gettoken_word f (redir_tks rs ++ ts) Hf Hok) as (t2 & Ht2 & Htx).
    rewrite (bind_ok _ _ _ _ _ Ht2). cbv beta iota. cbn [Z.eqb Pos.eqb negb].
    destruct (IH fuel (redircmd c t2 (mode_of o) (fd_of o)) (Redir a f o)) as (c' & Hp & Hd & _).
    { subst f. by constructor. } { simpl in *; lia. }
    exists c'. split; [|by split]. by destruct o.
Qed.

(** After a single command the line ends, or goes on with one of | ) & ; *)
Definition follow (stop : list Z) (ts : list tk) : Prop :=
  ts = [] \/ has_char stop (first_sym ts) = true.

Lemma follow_no_redir stop ts :
  has_char stop 60 = false -> has_char stop 62 = false -> follow stop ts -> no_redir ts.
Proof.
  intros H1 H2 [->|Hf]; [done|]. unfold no_redir, has_char. cbn [strchr].
  destruct (Z.eqb_spec 60 (first_sym ts)) as [He|]; [by rewrite <- He in Hf; congruence|].
  destruct (Z.eqb_spec 62 (first_sym ts)) as [He|]; [by rewrite <- He in Hf; congruence|]. done.
Qed.

Definition exec_stop : list Z := [124; 41; 38; 59].

Lemma follow_stop stop ts b :
  follow stop ts -> Forall (fun x => x <> b) stop -> b <> 0 -> has_char [b] (first_sym ts) = false.
Proof.
  intros [->|Hf] Hb Hb0; unfold has_char in *; cbn [strchr].
  - destruct (b =? 0); [done|]. destruct (Z.eqb_spec b (first_sym [])); [simpl in *; congruence|done].
  - destruct (b =? 0); [done|]. destruct (Z.eqb_spec b (first_sym ts)) as [He|]; [|done].
    exfalso. rewrite <- He in Hf. clear He. induction Hb as [|x stop Hx _ IH]; cbn [strchr] in Hf; [done|].
    destruct (x =? 0); [done|]. rewrite (proj2 (Z.eqb_neq x b)) in Hf by done. auto.
Qed.

Lemma args_stop fuel argc c ts :
  Forall tk_ok ts -> follow exec_stop ts -> (0 < fuel)%nat ->
  args_loop fuel argc c (line_of ts) = Ok c (line_of ts).
Proof.
  intros Hts Hf Hfuel. destruct fuel as [|fuel]; [lia|]. cbn [args_loop].
  rewrite (bind_ok _ _ _ _ _ (peek_line [124; 41; 38; 59] ts Hts ltac:(repeat constructor))).
  destruct Hf as [->|Hf]; [done|]. by unfold exec_stop in Hf; rewrite Hf.
Qed.

(** The argument loop reads the words, then the redirections after them. *)
Lemma args_line ws : forall fuel args (rs : list (list Z * bool)) ts,
  Forall word_ok ws -> ws <> [] -> Forall (fun r => word_ok (fst r)) rs -> Forall tk_ok ts ->
  follow exec_stop ts -> Z.of_nat (length args + length ws) < MAXARGS ->
  (length (map W ws ++ redir_tks rs ++ ts) < fuel)%nat ->
  exists c', args_loop fuel (Z.of_nat (length args)) (EXEC args) (line_of (map W ws ++ redir_tks rs ++ ts))
      = Ok c' (line_of ts) /\
    denote c' (wraps (Exec (map text args ++ ws)) rs).
Proof.
  induction ws as [|w ws IH]; intros fuel args rs ts Hws Hne Hrs Hts Hfo Hmax Hfuel; [done|].
  inversion Hws as [|? ? Hw Hws']; subst. destruct fuel as [|fuel]; [lia|].
  assert (Hok : Forall tk_ok (map W ws ++ redir_tks rs ++ ts)).
  { apply Forall_app; split; [by apply Forall_map|]. apply Forall_app; split; [by apply redir_tks_ok|done]. }
  cbn [args_loop map app].
  rewrite (bind_ok _ _ _ _ _ (peek_line [124; 41; 38; 59] (W w :: map W ws ++ redir_tks rs ++ ts)
    ltac:(by constructor) ltac:(repeat constructor))).
  cbn [first_sym]. rewrite strchr_nonzero.
  destruct (gettoken_word w _ Hw Hok) as (t & Hg & Htx). rewrite (bind_ok _ _ _ _ _ Hg).
  cbv beta iota. cbn [Z.eqb Pos.eqb negb push_arg].
  cbn [length] in Hmax. rewrite (proj2 (Z.leb_gt _ _)) by lia.
  assert (Hargs : map text args ++ w :: ws = map text (args ++ [t]) ++ ws).
  { rewrite map_app. cbn [map]. rewrite <- app_assoc. by rewrite Htx. }
  assert (Hlen : Z.of_nat (length args) + 1 = Z.of_nat (length (args ++ [t]))).
  { rewrite length_app. simpl. lia. }
  rewrite Hargs, Hlen. unfold parseredirs. destruct ws as [|w2 ws].
  - cbn [map app]. rewrite app_nil_r.
    destruct (parseredirs_line (S (length (line_of (redir_tks rs ++ ts)))) (EXEC (args ++ [t]))
      (Exec (map text (args ++ [t]))) rs ts) as (c' & Hp & Hd & _); try done.
    { constructor. } { by apply (follow_no_redir exec_stop). }
    { assert (Hk := length_line_ok (redir_tks rs ++ ts) ltac:(apply Forall_app; split; [by apply redir_tks_ok|done])).
      rewrite length_app, length_redir_tks in Hk. lia. }
    exists c'. split; [|done]. unfold bind at 1. rewrite Hp. cbn [obind].
    apply args_stop; [done|done|]. rewrite !length_app in Hfuel. simpl in Hfuel. lia.
  - destruct (parseredirs_line (S (length (line_of (map W (w2 :: ws) ++ redir_tks rs ++ ts)))) (EXEC (args ++ [t]))
      (Exec (map text (args ++ [t]))) [] (map W (w2 :: ws) ++ redir_tks rs ++ ts)) as (c' & Hp & Hd & Heq); try done.
    { constructor. } { simpl; lia. }
    unfold bind at 1. cbn [redir_tks map concat app] in Hp. cbn [map app]. rewrite Hp. cbn [obind].
    rewrite Heq by done. apply IH; try done.
    + rewrite length_app. simpl in *. lia.
    + simpl in *. lia.
Qed.

Lemma show_ok a lvl : ast_ok a -> Forall tk_ok (show lvl a).
Proof.
  assert (Hpar : forall b ts, Forall tk_ok ts -> Forall tk_ok (parens b ts)).
  { intros [] ts H; [|done]. constructor; [done|]. apply Forall_app. by repeat constructor. }
  revert lvl. induction a as [argv|c IH f o|l IHl r IHr|l IHl r IHr|c IH]; intros lvl Hok; cbn [show ast_ok] in *.
  - apply Forall_map. tauto.
  - apply Forall_app. split; [apply IH; tauto|]. constructor; [by destruct o|]. constructor; [tauto|done].
  - apply Hpar, Forall_app. split; [apply IHl; tauto|]. constructor; [done|]. apply IHr; tauto.
  - apply Hpar, Forall_app. split; [apply IHl; tauto|]. constructor; [done|]. apply IHr; tauto.
  - apply Hpar, Forall_app. split; [by apply IH|]. by constructor.
Qed.

Definition pipe_stop : list Z := [41; 38; 59].
Definition bg_stop : list Z := [41; 59].
Definition line_stop : list Z := [41].

(** What each nonterminal does on a command written for it, in any context the
    grammar puts it in and with the fuel the termination argument asks for. *)
Definition reads_exec (a : ast) : Prop := forall fuel (rs : list (list Z * bool)) ts,
  Forall (fun r => word_ok (fst r)) rs -> Forall tk_ok ts -> follow exec_stop ts ->
  (4 * length (line_of (show 3 a ++ redir_tks rs ++ ts)) + 2 <= fuel)%nat ->
  exists c, parseexec fuel (line_of (show 3 a ++ redir_tks rs ++ ts)) = Ok c (line_of ts) /\
    denote c (wraps a rs).

Definition reads_pipe (a : ast) : Prop := forall fuel ts,
  Forall tk_ok ts -> follow pipe_stop ts ->
  (4 * length (line_of (show 2 a ++ ts)) + 3 <= fuel)%nat ->
  exists c, parsepipe fuel (line_of (show 2 a ++ ts)) = Ok c (line_of ts) /\ denote c a.

Definition reads_bg (a : ast) : Prop := forall fuel ts,
  Forall tk_ok ts -> follow pipe_stop ts ->
  (4 * length (line_of (show 1 a ++ ts)) + 3 <= fuel)%nat ->
  exists c k, bind (parsepipe fuel) (fun c ps => back_loop (S (length ps)) c ps)
      (line_of (show 1 a ++ ts)) = back_loop k c (line_of ts) /\
    denote c a /\ (length (line_of ts) < k)%nat.

Definition reads_line (a : ast) : Prop := forall fuel ts,
  Forall tk_ok ts -> follow line_stop ts ->
  (4 * length (line_of (show 0 a ++ ts)) + 4 <= fuel)%nat ->
  exists c, parseline fuel (line_of (show 0 a ++ ts)) = Ok c (line_of ts) /\ denote c a.

Lemma follow_mono stop stop' ts :
  Forall (fun x => has_char stop' x = true) stop -> follow stop ts -> follow stop' ts.
Proof.
  intros Hs [->|Hf]; [by left|right]. revert Hf. unfold has_char at 1.
  induction Hs as [|x stop Hx _ IH]; cbn [strchr]; [done|].
  destruct (x =? 0); [done|]. destruct (Z.eqb_spec x (first_sym ts)) as [<-|]; [done|]. apply IH.
Qed.

Lemma follow_sym stop c ts : has_char stop c = true -> follow stop (Sy c :: ts).
Proof. by right. Qed.

Lemma bind_bind_ok {A B C} (m : M (list Z) A) (f : A -> M (list Z) B) (g : B -> M (list Z) C) s b s1 :
  bind m f s = Ok b s1 -> bind m (fun x => bind (f x) g) s = g b s1.
Proof.
  unfold bind. destruct (m s) as [a s2| | | |]; cbn [obind]; try discriminate. intros ->. done.
Qed.

(** Step through a peek on a written line. *)
Ltac peek_ts ts :=
  match goal with
  | |- context [bind (peek ?t) _ (line_of ts)] =>
      rewrite (bind_ok _ _ _ _ _ (peek_line t ts ltac:(assumption) ltac:(repeat constructor)))
  end.

(** Step through the reading of a symbol. *)
Ltac symbol_ts c ts :=
  let t := fresh "t" in let Ht := fresh "Ht" in
  destruct (gettoken_symbol c ts ltac:(reflexivity) ltac:(assumption)) as (t & Ht);
  rewrite (bind_ok _ _ _ _ _ Ht); clear Ht; cbv beta iota.

Lemma length_line_cons t ts : (length (line_of ts) <= length (line_of (t :: ts)))%nat.
Proof. rewrite line_of_cons, length_app. simpl. lia. Qed.

Lemma length_line_sym c ts : length (line_of (Sy c :: ts)) = (2 + length (line_of ts))%nat.
Proof. rewrite line_of_cons, length_app. done. Qed.

Lemma length_line_app ts ts' :
  length (line_of (ts ++ ts')) = (length (line_of ts) + length (line_of ts'))%nat.
Proof. induction ts as [|t ts IH]; [done|]. cbn [app line_of]. rewrite !length_app. cbn [length]. lia. Qed.

Lemma exec_to_pipe a : ast_ok a -> show 2 a = show 3 a -> reads_exec a -> reads_pipe a.
Proof.
  intros Ha Hs He fuel ts Hts Hf Hfuel. rewrite Hs in *. destruct fuel as [|fuel]; [lia|].
  destruct (He fuel [] ts) as (c & Hp & Hd); try done.
  { by apply (follow_mono pipe_stop); [repeat constructor|]. } { simpl in *. lia. }
  cbn [parsepipe]. exists c. cbn [redir_tks map concat app] in Hp. rewrite (bind_ok _ _ _ _ _ Hp).
  peek_ts ts. rewrite (follow_stop pipe_stop) by first [done | repeat constructor; done]. done.
Qed.

Lemma pipe_to_bg a : show 1 a = show 2 a -> reads_pipe a -> reads_bg a.
Proof.
  intros Hs Hp fuel ts Hts Hf Hfuel. rewrite Hs in *.
  destruct (Hp fuel ts Hts Hf Hfuel) as (c & Hc & Hd).
  exists c, (S (length (line_of ts))). rewrite (bind_ok _ _ _ _ _ Hc). split; [done|]. split; [done|lia].
Qed.

Lemma back_stop k c ts :
  Forall tk_ok ts -> follow bg_stop ts -> (0 < k)%nat -> back_loop k c (line_of ts) = Ok c (line_of ts).
Proof.
  intros Hts Hf Hk. destruct k as [|k]; [lia|]. cbn [back_loop]. peek_ts ts.
  rewrite (follow_stop bg_stop) by first [done | repeat constructor; done]. done.
Qed.

Lemma bg_to_line a : ast_ok a -> show 0 a = show 1 a -> reads_bg a -> reads_line a.
Proof.
  intros Ha Hs Hb fuel ts Hts Hf Hfuel. rewrite Hs in *. destruct fuel as [|fuel]; [lia|].
  destruct (Hb fuel ts) as (c & k & Hc & Hd & Hk); try done; [|lia|].
  { by apply (follow_mono line_stop); [repeat constructor|]. }
  rewrite back_stop in Hc; [|done| |lia].
  2:{ by apply (follow_mono line_stop); [repeat constructor|]. }
  cbn [parseline]. exists c. rewrite (bind_bind_ok _ _ _ _ _ _ Hc).
  peek_ts ts. rewrite (follow_stop line_stop) by first [done | repeat constructor; done]. done.
Qed.

Lemma line_to_exec a : ast_ok a -> show 3 a = parens true (show 0 a) -> reads_line a -> reads_exec a.
Proof.
  intros Ha Hs Hl fuel rs ts Hrs Hts Hf Hfuel. rewrite Hs in *. cbn [parens app] in *.
  rewrite <- !app_assoc in *. cbn [app] in *.
  assert (Hrt : Forall tk_ok (redir_tks rs ++ ts)) by (apply Forall_app; split; [by apply redir_tks_ok|done]).
  set (body := show 0 a ++ Sy 41 :: redir_tks rs ++ ts) in *.
  assert (H1 : Forall tk_ok (Sy 41 :: redir_tks rs ++ ts)) by (by constructor).
  assert (H2 : Forall tk_ok body) by (apply Forall_app; split; [by apply show_ok|done]).
  assert (H3 : Forall tk_ok (Sy 40 :: body)) by (by constructor).
  rewrite length_line_sym in Hfuel. do 2 (destruct fuel as [|fuel]; [lia|]).
  cbn [parseexec]. peek_ts (Sy 40 :: body). cbn [first_sym].
  change (has_char [40] 40) with true. cbv iota. cbn [parseblock].
  peek_ts (Sy 40 :: body). cbn [first_sym]. change (has_char [40] 40) with true. cbn [negb].
  symbol_ts 40 body.
  destruct (Hl fuel (Sy 41 :: redir_tks rs ++ ts) H1) as (c & Hc & Hd).
  { by apply follow_sym. } { subst body. lia. }
  fold body in Hc. rewrite (bind_ok _ _ _ _ _ Hc). peek_ts (Sy 41 :: redir_tks rs ++ ts).
  cbn [first_sym]. change (has_char [41] 41) with true. cbn [negb].
  symbol_ts 41 (redir_tks rs ++ ts). unfold parseredirs.
  destruct (parseredirs_line (S (length (line_of (redir_tks rs ++ ts)))) c a rs ts) as (c' & Hp & Hd' & _);
    try done.
  { by apply (follow_no_redir exec_stop). }
  { pose proof (length_line_ok _ Hrt) as Hk. rewrite length_app, length_redir_tks in Hk. lia. }
  eauto.
Qed.

Lemma reads_exec_exec argv : ast_ok (Exec argv) -> reads_exec (Exec argv).
Proof.
  intros [Hw Hm] fuel rs ts Hrs Hts Hf Hfuel. destruct fuel as [|fuel]; [lia|].
  assert (Hrt : Forall tk_ok (redir_tks rs ++ ts)) by (apply Forall_app; split; [by apply redir_tks_ok|done]).
  assert (Hall : Forall tk_ok (map W argv ++ redir_tks rs ++ ts))
    by (apply Forall_app; split; [by apply Forall_map|done]).
  pose proof (length_line_ok _ Hrt) as Hk. rewrite length_app, length_redir_tks in Hk.
  cbn [parseexec show] in *. peek_ts (map W argv ++ redir_tks rs ++ ts).
  assert (has_char [40] (first_sym (map W argv ++ redir_tks rs ++ ts)) = false) as ->.
  { destruct argv; [|done]. cbn [map app]. destruct rs as [|[f []] rs]; [|done|done].
    cbn [redir_tks map concat app]. by apply (follow_stop exec_stop); [|repeat constructor|]. }
  unfold parseredirs. destruct argv as [|w argv].
  - cbn [map app] in *.
    destruct (parseredirs_line (S (length (line_of (redir_tks rs ++ ts)))) execcmd (Exec []) rs ts)
      as (c & Hp & Hd & _); try done.
    { apply (de_exec []). } { by apply (follow_no_redir exec_stop). } { lia. }
    exists c. split; [|done]. erewrite bind_ok; [|exact Hp].
    apply args_stop; [done|done|lia].
  - destruct (parseredirs_line (S (length (line_of (map W (w :: argv) ++ redir_tks rs ++ ts)))) execcmd (Exec []) []
      (map W (w :: argv) ++ redir_tks rs ++ ts)) as (c & Hp & _ & Heq); try done.
    { apply (de_exec []). } { simpl. lia. }
    cbn [redir_tks map concat app] in Hp. erewrite bind_ok; [|exact Hp]. rewrite Heq by done.
    apply (args_line (w :: argv) _ [] rs ts); try done.
    pose proof (length_line_ok _ Hall). cbn [map app] in *. lia.
Qed.

Lemma reads_exec_redir a f o : word_ok f -> reads_exec a -> reads_exec (Redir a f o).
Proof.
  intros Hw He fuel rs ts Hrs Hts Hf Hfuel.
  assert (Heq : show 3 (Redir a f o) ++ redir_tks rs ++ ts = show 3 a ++ redir_tks ((f, o) :: rs) ++ ts).
  { cbn [show]. by rewrite <- app_assoc. }
  rewrite Heq in *. apply (He fuel ((f, o) :: rs) ts); try done. by constructor.
Qed.

Lemma reads_pipe_pipe l r :
  ast_ok (Pipe l r) -> reads_exec l -> reads_pipe r -> reads_pipe (Pipe l r).
Proof.
  intros [Hl Hr] Hle Hrp fuel ts Hts Hf Hfuel. destruct fuel as [|fuel]; [lia|].
  cbn [show parens Nat.ltb Nat.leb] in *. rewrite <- app_assoc in *. cbn [app] in *.
  assert (H1 : Forall tk_ok (show 2 r ++ ts)) by (apply Forall_app; split; [by apply show_ok|done]).
  assert (H2 : Forall tk_ok (Sy 124 :: show 2 r ++ ts)) by (by constructor).
  rewrite length_line_app, length_line_sym in Hfuel.
  destruct (Hle fuel [] (Sy 124 :: show 2 r ++ ts)) as (c & Hc & Hd); try done.
  { by apply follow_sym. }
  { cbn [redir_tks map concat app]. rewrite length_line_app, length_line_sym. lia. }
  cbn [redir_tks map concat app] in Hc. cbn [parsepipe]. rewrite (bind_ok _ _ _ _ _ Hc).
  peek_ts (Sy 124 :: show 2 r ++ ts). cbn [first_sym]. change (has_char [124] 124) with true. cbv iota.
  symbol_ts 124 (show 2 r ++ ts).
  destruct (Hrp fuel ts Hts Hf) as (c2 & Hc2 & Hd2); [lia|].
  rewrite (bind_ok _ _ _ _ _ Hc2). eexists. split; [done|]. by constructor.
Qed.

Lemma reads_bg_back a : ast_ok a -> reads_bg a -> reads_bg (Back a).
Proof.
  intros Ha Hb fuel ts Hts Hf Hfuel. cbn [show parens Nat.ltb Nat.leb] in *.
  rewrite <- app_assoc in *. cbn [app] in *.
  assert (H1 : Forall tk_ok (Sy 38 :: ts)) by (by constructor).
  destruct (Hb fuel (Sy 38 :: ts) H1) as (c & k & Hc & Hd & Hk); [by apply follow_sym|done|].
  rewrite length_line_sym in Hk. destruct k as [|k]; [lia|].
  exists (BACK c), k. rewrite Hc. split; [|split; [by constructor|lia]].
  cbn [back_loop]. peek_ts (Sy 38 :: ts). cbn [first_sym]. change (has_char [38] 38) with true. cbn [negb].
  symbol_ts 38 ts. done.
Qed.

Lemma reads_line_list l r :
  ast_ok (Lst l r) -> reads_bg l -> reads_line r -> reads_line (Lst l r).
Proof.
  intros [Hl Hr] Hlb Hrl fuel ts Hts Hf Hfuel. destruct fuel as [|fuel]; [lia|].
  cbn [show parens Nat.ltb Nat.leb] in *. rewrite <- app_assoc in *. cbn [app] in *.
  assert (H1 : Forall tk_ok (show 0 r ++ ts)) by (apply Forall_app; split; [by apply show_ok|done]).
  assert (H2 : Forall tk_ok (Sy 59 :: show 0 r ++ ts)) by (by constructor).
  rewrite length_line_app, length_line_sym in Hfuel.
  destruct (Hlb fuel (Sy 59 :: show 0 r ++ ts) H2) as (c & k & Hc & Hd & Hk).
  { by apply follow_sym. } { rewrite length_line_app, length_line_sym. lia. }
  rewrite back_stop in Hc; [|done|by apply follow_sym|lia].
  cbn [parseline]. rewrite (bind_bind_ok _ _ _ _ _ _ Hc).
  peek_ts (Sy 59 :: show 0 r ++ ts). cbn [first_sym]. change (has_char [59] 59) with true. cbv iota.
  symbol_ts 59 (show 0 r ++ ts).
  destruct (Hrl fuel ts Hts Hf) as (c2 & Hc2 & Hd2); [lia|].
  rewrite (bind_ok _ _ _ _ _ Hc2). eexists. split; [done|]. by constructor.
Qed.

Lemma reads_all a : ast_ok a -> reads_exec a /\ reads_pipe a /\ reads_bg a /\ reads_line a.
Proof.
  induction a as [argv|c IH f o|l IHl r IHr|l IHl r IHr|c IH]; intros Ha.
  - pose proof (reads_exec_exec argv Ha) as He. pose proof (exec_to_pipe (Exec argv) Ha eq_refl He) as Hp.
    pose proof (pipe_to_bg (Exec argv) eq_refl Hp) as Hb. pose proof (bg_to_line (Exec argv) Ha eq_refl Hb). done.
  - destruct Ha as [Hc Hw]. destruct (IH Hc) as (He0 & _).
    assert (Ha : ast_ok (Redir c f o)) by done.
    pose proof (reads_exec_redir c f o Hw He0) as He. pose proof (exec_to_pipe (Redir c f o) Ha eq_refl He) as Hp.
    pose proof (pipe_to_bg (Redir c f o) eq_refl Hp) as Hb. pose proof (bg_to_line (Redir c f o) Ha eq_refl Hb). done.
  - destruct (IHl (proj1 Ha)) as (Hle & _). destruct (IHr (proj2 Ha)) as (_ & Hrp & _).
    pose proof (reads_pipe_pipe l r Ha Hle Hrp) as Hp. pose proof (pipe_to_bg (Pipe l r) eq_refl Hp) as Hb.
    pose proof (bg_to_line (Pipe l r) Ha eq_refl Hb) as Hl. pose proof (line_to_exec (Pipe l r) Ha eq_refl Hl). done.
  - destruct (IHl (proj1 Ha)) as (_ & _ & Hlb & _). destruct (IHr (proj2 Ha)) as (_ & _ & _ & Hrl).
    pose proof (reads_line_list l r Ha Hlb Hrl) as Hl. pose proof (line_to_exec (Lst l r) Ha eq_refl Hl) as He.
    pose proof (exec_to_pipe (Lst l r) Ha eq_refl He) as Hp. pose proof (pipe_to_bg (Lst l r) eq_refl Hp). done.
  - destruct (IH Ha) as (_ & _ & Hb0 & _). pose proof (reads_bg_back c Ha Hb0) as Hb.
    assert (Ha' : ast_ok (Back c)) by done.
    pose proof (bg_to_line (Back c) Ha' eq_refl Hb) as Hl. pose proof (line_to_exec (Back c) Ha' eq_refl Hl) as He.
    pose proof (exec_to_pipe (Back c) Ha' eq_refl He). done.
Qed.

Lemma parseline_show a : ast_ok a ->
  exists c, parseline (parse_fuel (line_of (show 0 a))) (line_of (show 0 a)) = Ok c [] /\ denote c a.
Proof.
  intros Ha. destruct (reads_all a Ha) as (_ & _ & _ & Hl).
  destruct (Hl (parse_fuel (line_of (show 0 a))) []) as (c & Hc & Hd).
  { constructor. } { by left. } { rewrite app_nil_r. done. }
  rewrite app_nil_r in Hc. by exists c.
Qed.

(** The shell reads back every command that can be written: the line for any
    tree of simple commands, redirections, pipelines, lists and background jobs
    (parenthesised where the grammar needs it) parses, without an error or
    leftovers, to that very tree. *)
Theorem parsecmd_reads_show a :
  ast_ok a ->
  exists c buf, parsecmd (line_of (show 0 a)) = Ok (c, buf) [] /\ denote c a.
Proof.
  intros Ha. destruct (parseline_show a Ha) as (c & Hc & Hd). exists c. eexists. split; [|done].
  unfold parsecmd. by rewrite (bind_ok _ _ _ _ _ Hc).
Qed.

(** The line is "( ls -l ; wc ) > f | g x &". *)
Lemma parsecmd_reads_show_witness :
  ast_ok (Back (Pipe (Redir (Lst (Exec [[108; 115]; [45; 108]]) (Exec [[119; 99]])) [102] true)
                     (Exec [[103]; [120]]))) /\
  exists c buf, parsecmd (line_of (show 0
      (Back (Pipe (Redir (Lst (Exec [[108; 115]; [45; 108]]) (Exec [[119; 99]])) [102] true)
                  (Exec [[103]; [120]]))))) = Ok (c, buf) [] /\
    denote c (Back (Pipe (Redir (Lst (Exec [[108; 115]; [45; 108]]) (Exec [[119; 99]])) [102] true)
                         (Exec [[103]; [120]]))).
Proof.
  assert (H : ast_ok (Back (Pipe (Redir (Lst (Exec [[108; 115]; [45; 108]]) (Exec [[119; 99]])) [102] true)
                     (Exec [[103]; [120]])))).
  { cbn [ast_ok]. unfold word_ok, MAXARGS. repeat (split || constructor); try discriminate; reflexivity. }
  split; [exact H|]. exact (parsecmd_reads_show _ H).
Defined.

(** * The strings after nulterminate *)

(** The counted strings of a command, in the order nulterminate meets them. *)
Fixpoint tokens (c : cmd) : list token :=
  match c with
  | EXEC argv => argv
  | REDIR c' file _ _ => tokens c' ++ [file]
  | PIPE l r | LIST l r => tokens l ++ tokens r
  | BACK c' => tokens c'
  end.

Definition word_char (c : Z) : Prop :=
  c <> 0 /\ has_char whitespace c = false /\ has_char symbols c = false.

(** [t] is a word of the line [s]: a stretch of word characters, and what
    follows it is not one. *)
Definition word_of (s : list Z) (t : token) : Prop :=
  fst t `suffix_of` s /\ snd t `suffix_of` fst t /\
  fst t = text t ++ snd t /\ word_ok (text t) /\ ~ word_char (deref (snd t)).

(** The two kinds of redirection. *)
Definition redir_ok (mode fd : Z) : Prop := exists out, mode = mode_of out /\ fd = fd_of out.

(** Well-typed commands over the words of [s]. *)
Fixpoint typed (s : list Z) (c : cmd) : Prop :=
  match c with
  | EXEC argv => Forall (word_of s) argv /\ Z.of_nat (length argv) < MAXARGS
  | REDIR c' file mode fd => typed s c' /\ word_of s file /\ redir_ok mode fd
  | PIPE l r | LIST l r => typed s l /\ typed s r
  | BACK c' => typed s c'
  end.

(** What parseexec builds: redirections around a command with [n] arguments. *)
Fixpoint simple (s : list Z) (n : Z) (c : cmd) : Prop :=
  match c with
  | EXEC argv => Forall (word_of s) argv /\ Z.of_nat (length argv) = n
  | REDIR c' file mode fd => simple s n c' /\ word_of s file /\ redir_ok mode fd
  | _ => False
  end.

(** The outcome's command has the property, and the rest is a suffix of [s]. *)
Definition emits (P : cmd -> Prop) (s : list Z) (o : outcome (list Z) cmd) : Prop :=
  match o with
  | Ok c s' => P c /\ s' `suffix_of` s
  | _ => True
  end.

Lemma skip_ws_suffix s : skip_ws s `suffix_of` s.
Proof.
  induction s as [|c s IH]; simpl; [done|]. destruct (has_char whitespace c); [|done].
  by apply suffix_cons_r.
Qed.

Lemma skip_word_split s :
  Forall (fun c => c <> 0) s ->
  exists w, s = w ++ skip_word s /\ Forall word_char w /\ ~ word_char (deref (skip_word s)).
Proof.
  induction 1 as [|c s Hc Hs IH]; simpl.
  - exists []. split; [done|]. split; [constructor|]. by intros [? _].
  - destruct (has_char whitespace c) eqn:Ew; [|destruct (has_char symbols c) eqn:Es]; cbn [negb andb].
    + exists []. split; [done|]. split; [constructor|]. intros (_ & ? & _). simpl in *. congruence.
    + exists []. split; [done|]. split; [constructor|]. intros (_ & _ & ?). simpl in *. congruence.
    + destruct IH as (w & Heq & Hw & Hd). exists (c :: w). split; [simpl; congruence|].
      split; [by constructor|done].
Qed.

Lemma suffix_nonzero (s s' : list Z) :
  s' `suffix_of` s -> Forall (fun c => c <> 0) s -> Forall (fun c => c <> 0) s'.
Proof. intros [k ->] H. by apply Forall_app in H as [_ H]. Qed.

Lemma next_suffix s : next s `suffix_of` s.
Proof. destruct s; simpl; [done|]. by apply suffix_cons_r. Qed.

Lemma gettoken_suffix s a s' : gettoken s = Ok a s' -> s' `suffix_of` s.
Proof.
  unfold gettoken. pose proof (skip_ws_suffix s) as Hs.
  assert (Hx : forall x, x `suffix_of` skip_ws s -> skip_ws x `suffix_of` s).
  { intros x Hx. etrans; [apply skip_ws_suffix|]. by etrans. }
  pose proof (next_suffix (skip_ws s)) as Hn. pose proof (next_suffix (next (skip_ws s))) as Hn2.
  assert (Hw : skip_word (skip_ws s) `suffix_of` skip_ws s).
  { generalize (skip_ws s). intros l. induction l as [|c l IH]; simpl; [done|].
    case_match; [by apply suffix_cons_r|done]. }
  repeat case_match; intros Hg; simplify_eq; apply Hx; (done || by etrans).
Qed.

(** The first character of a word. *)
Lemma token_head s : deref (skip_ws s) <> 0 -> has_char symbols (deref (skip_ws s)) = false -> word_char (deref (skip_ws s)).
Proof.
  intros H0 Hs. destruct (skip_ws s) as [|c r] eqn:E; [done|]. split; [done|]. split; [|done]. by apply (skip_ws_head s c r).
Qed.

Lemma gettoken_word_of s0 s t s' :
  Forall (fun c => c <> 0) s0 -> s `suffix_of` s0 -> gettoken s = Ok (97, t) s' -> word_of s0 t.
Proof.
  intros Hnz Hs Hg. assert (Hsw : skip_ws s `suffix_of` s0) by (etrans; [apply skip_ws_suffix|done]).
  pose proof (suffix_nonzero _ _ Hsw Hnz) as Hnz'.
  unfold gettoken in Hg. cbv zeta in Hg. destruct (Z.eqb_spec (deref (skip_ws s)) 0) as [H0|H0].
  { simplify_eq. rewrite H0 in *. done. }
  match type of Hg with context [if ?b then (deref _, _) else _] => destruct b eqn:E1 end.
  { injection Hg as Hc _ _. rewrite Hc in E1. done. }
  destruct (Z.eqb_spec (deref (skip_ws s)) 62) as [H62|H62].
  { destruct (deref (next (skip_ws s)) =? 62) in Hg; [discriminate Hg|]. injection Hg as Hc _ _. by rewrite H62 in Hc. }
  simplify_eq. destruct (skip_word_split _ Hnz') as (w & Heq & Hw & Hd).
  unfold word_of, text. cbn [fst snd].
  assert (Hlen : (length (skip_ws s) - length (skip_word (skip_ws s)))%nat = length w).
  { rewrite Heq at 1. rewrite length_app. lia. }
  assert (Htake : take (length w) (skip_ws s) = w) by (rewrite Heq at 1; apply take_app_length).
  rewrite Hlen, Htake. split; [done|]. split; [by exists w|]. split; [done|]. split; [|done].
  split; [|done]. intros ->. apply Hd. rewrite <- Heq at 1. apply token_head; [done|]. by apply not_symbol.
Qed.

Lemma simple_push s n c arg : word_of s arg -> simple s n c -> simple s (n + 1) (push_arg c arg).
Proof.
  intros Ha. induction c as [argv|c IH f m d|l _ r _|l _ r _|c _]; cbn [push_arg simple]; try done.
  - intros [Hw Hn]. rewrite Forall_app, length_app, Nat2Z.inj_add. split; [|simpl; lia]. by split; [|constructor].
  - intros [Hc Hf]. by split; [apply IH|].
Qed.

Lemma simple_typed s n c : n < MAXARGS -> simple s n c -> typed s c.
Proof.
  intros Hn. induction c as [argv|c IH f m d|l _ r _|l _ r _|c _]; cbn [simple typed]; try done.
  - intros [? ?]. by split; [|lia].
  - intros [? ?]. by split; [apply IH|].
Qed.

Lemma typed_tokens s c : typed s c -> Forall (word_of s) (tokens c).
Proof.
  induction c as [argv|c IH f m d|l IHl r IHr|l IHl r IHr|c IH]; cbn [typed tokens]; rewrite ?Forall_app; naive_solver.
Qed.

Lemma typed_denotes s c : typed s c -> exists a, denote c a /\ ast_ok a.
Proof.
  induction c as [argv|c IH f m d|l IHl r IHr|l IHl r IHr|c IH]; cbn [typed].
  - intros [Hw Hn]. eexists. split; [constructor|]. cbn [ast_ok]. rewrite length_map. split; [|done].
    apply Forall_fmap. eapply List.Forall_impl; [|exact Hw]. by intros t (_ & _ & _ & ? & _).
  - intros (Hc & (_ & _ & _ & Hf & _) & out & -> & ->). destruct (IH Hc) as (a & Ha & Hok). eexists. by split; [constructor|].
  - intros [Hl Hr]. destruct (IHl Hl) as (a & ? & ?), (IHr Hr) as (b & ? & ?). eexists. by split; [constructor|].
  - intros [Hl Hr]. destruct (IHl Hl) as (a & ? & ?), (IHr Hr) as (b & ? & ?). eexists. by split; [constructor|].
  - intros Hc. destruct (IH Hc) as (a & ? & ?). eexists. by split; [constructor|].
Qed.

Lemma emits_bind (P Q : cmd -> Prop) s0 (m : M (list Z) cmd) (f : cmd -> M (list Z) cmd) s :
  emits P s0 (m s) -> (forall c s', P c -> s' `suffix_of` s0 -> emits Q s0 (f c s')) -> emits Q s0 (bind m f s).
Proof. unfold bind. intros Hm Hf. destruct (m s); simpl in *; try done. destruct Hm. by apply Hf. Qed.

(** Steps of the parser on a suffix [s] of the line [s0]. *)
Ltac emit_peek :=
  match goal with
  | |- context [bind (peek ?t) _ ?s] =>
      let b := fresh "b" in let Hb := fresh "Hb" in
      destruct (peek_spec t s) as (b & Hb & _);
      rewrite (bind_ok _ _ _ _ _ Hb); clear Hb; destruct b; cbn [negb];
      match goal with
      | Hs : s `suffix_of` ?s0 |- _ =>
          assert (skip_ws s `suffix_of` s0) by (etrans; [apply skip_ws_suffix|done])
      end
  end.

Ltac emit_token a Hg :=
  match goal with
  | |- context [bind gettoken _ ?s] =>
      let s' := fresh "s'" in
      destruct (gettoken_ok s) as (a & s' & Hg);
      rewrite (bind_ok _ _ _ _ _ Hg);
      match goal with
      | Hs : s `suffix_of` ?s0 |- _ =>
          assert (s' `suffix_of` s0) by (etrans; [by eapply gettoken_suffix|done])
      end
  end.

Section Emits.
Variable s0 : list Z.
Hypothesis s0_nonzero : Forall (fun c => c <> 0) s0.

Lemma emits_redirs (P : cmd -> Prop) fuel c s :
  (forall c file m d, P c -> word_of s0 file -> redir_ok m d -> P (redircmd c file m d)) ->
  P c -> s `suffix_of` s0 -> emits P s0 (parseredirs_loop fuel c s).
Proof.
  intros HP. revert c s. induction fuel as [|fuel IH]; intros c s Hc Hs; [done|]. cbn [parseredirs_loop].
  emit_peek; [|done]. emit_token a1 Hg1. destruct a1 as [tok t1].
  emit_token a2 Hg2. destruct a2 as [a file].
  destruct (Z.eqb_spec a 97) as [->|]; cbn [negb]; [|done].
  assert (word_of s0 file) by (eapply gettoken_word_of; [done| |exact Hg2]; done).
  repeat case_match; apply IH; try done; apply HP; try done; [by exists false|by exists true..].
Qed.

Lemma emits_args fuel argc c s : argc < MAXARGS -> simple s0 argc c -> s `suffix_of` s0 -> emits (typed s0) s0 (args_loop fuel argc c s).
Proof.
  revert argc c s. induction fuel as [|fuel IH]; intros argc c s Hn Hc Hs; [done|]. cbn [args_loop].
  pose proof (simple_typed _ _ _ Hn Hc) as Ht. emit_peek; [done|]. emit_token a1 Hg1. destruct a1 as [tok arg].
  destruct (tok =? 0); [done|]. destruct (Z.eqb_spec tok 97) as [->|]; cbn [negb]; [|done].
  destruct (Z.leb_spec MAXARGS (argc + 1)); [done|].
  assert (Hw : word_of s0 arg) by (eapply gettoken_word_of; [done| |exact Hg1]; done).
  apply (emits_bind (simple s0 (argc + 1))); [|by intros; apply IH].
  apply emits_redirs; [done|by apply simple_push|done].
Qed.

Lemma emits_back fuel c s : typed s0 c -> s `suffix_of` s0 -> emits (typed s0) s0 (back_loop fuel c s).
Proof.
  revert c s. induction fuel as [|fuel IH]; intros c s Hc Hs; [done|]. cbn [back_loop].
  emit_peek; [|done]. emit_token a1 Hg1. by apply IH.
Qed.

Lemma emits_parse fuel s :
  s `suffix_of` s0 ->
  emits (typed s0) s0 (parseline fuel s) /\ emits (typed s0) s0 (parsepipe fuel s) /\
  emits (typed s0) s0 (parseexec fuel s) /\ emits (typed s0) s0 (parseblock fuel s).
Proof.
  revert s. induction fuel as [|fuel IH]; intros s Hs; [done|].
  cbn [parseline parsepipe parseexec parseblock]. repeat split.
  - apply (emits_bind (typed s0)); [by apply IH|]. intros c s1 Hc Hs1.
    apply (emits_bind (typed s0)); [by apply emits_back|]. intros c2 s2 Hc2 Hs2.
    emit_peek; [|done]. emit_token a1 Hg1.
    by apply (emits_bind (typed s0)); [apply IH|].
  - apply (emits_bind (typed s0)); [by apply IH|]. intros c s1 Hc Hs1.
    emit_peek; [|done]. emit_token a1 Hg1.
    by apply (emits_bind (typed s0)); [apply IH|].
  - emit_peek; [by apply IH|]. apply (emits_bind (simple s0 0)); [by apply emits_redirs; [|split; [constructor|]|]|].
    intros c s1 Hc Hs1. by apply emits_args.
  - emit_peek; [|done]. emit_token a1 Hg1.
    apply (emits_bind (typed s0)); [by apply IH|]. intros c s1 Hc Hs1.
    emit_peek; [|done]. emit_token a2 Hg2. by apply emits_redirs.
Qed.

Lemma parsecmd_inv c buf rest : parsecmd s0 = Ok (c, buf) rest ->
  typed s0 c /\ buf = nulterminate s0 c (s0 ++ [0]) /\ rest = [].
Proof.
  intros Hp. unfold parsecmd in Hp. destruct (emits_parse (parse_fuel s0) s0 ltac:(done)) as (He & _).
  unfold bind at 1 in Hp. destruct (parseline (parse_fuel s0) s0) as [c1 s1| | | |]; try done.
  cbn [obind] in Hp. destruct (peek_spec [] s1) as (b & Hb & _). rewrite (bind_ok _ _ _ _ _ Hb) in Hp.
  cbv beta in Hp. destruct (Nat.eqb_spec (length (skip_ws s1)) 0) as [Hz|]; [|done]. cbn [negb] in Hp.
  destruct He. simplify_eq. by apply length_zero_iff_nil in Hz.
Qed.
End Emits.

Lemma nulterminate_fold line c buf :
  nulterminate line c buf = fold_left (fun b t => put_nul b (snd t) line) (tokens c) buf.
Proof.
  revert buf. induction c as [argv|c IH f m d|l IHl r IHr|l IHl r IHr|c IH]; intros buf;
    cbn [nulterminate tokens]; rewrite ?fold_left_app; cbn [fold_left]; congruence.
Qed.

Definition nul_at (line : list Z) (t : token) : nat := (length line - length (snd t))%nat.

Lemma fold_put_nul line ts buf i :
  (forall t, t ∈ ts -> (nul_at line t < length buf)%nat) ->
  fold_left (fun b t => put_nul b (snd t) line) ts buf !! i
  = if decide (i ∈ nul_at line <$> ts) then Some 0 else buf !! i.
Proof.
  revert buf. induction ts as [|t ts IH]; intros buf Hb; cbn [fold_left]; [done|].
  rewrite IH.
  2:{ intros t' Ht'. unfold put_nul. rewrite length_insert. apply Hb. by right. }
  assert (Hlt := Hb t (list_elem_of_here t ts)).
  unfold put_nul. fold (nul_at line t). rewrite fmap_cons.
  destruct (decide (i ∈ nul_at line <$> ts)) as [Hin|Hno].
  - rewrite decide_True; [done|by right].
  - destruct (decide (i = nul_at line t)) as [->|Hne].
    + rewrite decide_True; [by rewrite list_lookup_insert_eq|by left].
    + rewrite list_lookup_insert_ne by done. rewrite decide_False; [done|].
      by rewrite elem_of_cons; intros [?|?].
Qed.

Lemma length_put_nuls line (ts : list token) : forall b, length (fold_left (fun b t => put_nul b (snd t) line) ts b) = length b.
Proof. induction ts as [|u ts IH]; intros b; cbn [fold_left]; [done|]. rewrite IH. apply length_insert. Qed.

(** The buffer read as a C string from a word's first byte. *)
Lemma cstr_prefix w rest n :
  Forall (fun c => c <> 0) w -> (length w < n)%nat -> cstr n (w ++ 0 :: rest) = w.
Proof.
  intros Hw. revert n. induction Hw as [|c w Hc Hw IH]; intros [|n] Hn; simpl in *; try lia; [done|].
  rewrite (proj2 (Z.eqb_neq c 0)) by done. by rewrite IH by lia.
Qed.

Lemma suffix_lookup (q s : list Z) i :
  q `suffix_of` s -> s !! (length s - length q + i)%nat = q !! i.
Proof.
  intros [k ->]. rewrite length_app. replace (length k + length q - length q + i)%nat with (length k + i)%nat by lia.
  by rewrite lookup_app_r, Nat.add_comm, Nat.add_sub by lia.
Qed.

(** After parsecmd every argument and file name of the command is a proper C
    string in the command buffer: the NULs nulterminate stores end each word
    exactly where it was counted to end, and cut no other word short. *)
Theorem nulterminate_strings s c buf rest t :
  Forall (fun c => c <> 0) s -> parsecmd s = Ok (c, buf) rest -> t ∈ tokens c ->
  cstr (length buf) (drop (length s - length (fst t)) buf) = text t.
Proof.
  intros Hnz Hp Ht.
  destruct (parsecmd_inv s Hnz c buf rest Hp) as (Hw%typed_tokens & -> & _).
  pose proof Hw as Hall. rewrite list.Forall_forall in Hall.
  destruct (Hall t Ht) as (Hq & He & Heq & [_ Hwc] & Hd).
  assert (Hpos : forall u, u ∈ tokens c -> (nul_at s u < length (s ++ [0]%Z))%nat).
  { intros u Hu. rewrite length_app. unfold nul_at. simpl. lia. }
  assert (Hqs : (length (fst t) <= length s)%nat) by (by apply suffix_length).
  assert (Heqs : (length (fst t) = length (text t) + length (snd t))%nat) by (rewrite Heq at 1; apply length_app).
  assert (Hdrop : exists tl, drop (length s - length (fst t)) (nulterminate s c (s ++ [0])) = text t ++ 0 :: tl).
  { exists (drop (S (length (text t))) (drop (length s - length (fst t)) (nulterminate s c (s ++ [0])))).
    apply list_eq. intros i. rewrite lookup_drop, nulterminate_fold, fold_put_nul by done.
    destruct (decide (i < length (text t))%nat) as [Hi|Hi]; [|destruct (decide (i = length (text t))) as [->|Hi2]].
    - rewrite (lookup_app_l (text t)) by done.
      destruct (lookup_lt_is_Some_2 _ _ Hi) as [x Hx].
      assert (Hsx : s !! (length s - length (fst t) + i)%nat = Some x).
      { rewrite suffix_lookup by done. rewrite Heq. by rewrite lookup_app_l. }
      rewrite decide_False.
      + rewrite lookup_app_l by (by apply lookup_lt_Some in Hsx). by rewrite Hsx, Hx.
      + intros (u & Hui & Hu)%list_elem_of_fmap. symmetry in Hui. destruct (Hall u Hu) as (Huq & Hue & Hueq & Huw & Hud).
        assert (Hus : snd u `suffix_of` s) by (by etrans).
        assert (Hux : snd u !! 0%nat = Some x).
        { rewrite <- (suffix_lookup (snd u) s 0) by done. unfold nul_at in Hui. by rewrite Nat.add_0_r, Hui. }
        destruct (snd u) as [|y r]; [done|]. simpl in Hux, Hud. simplify_eq. apply Hud.
        by eapply Forall_lookup_1 in Hx.
    - rewrite (list_lookup_middle (text t)) by done. rewrite decide_True; [done|].
      apply list_elem_of_fmap. exists t. split; [|done]. unfold nul_at. lia.
    - rewrite (lookup_app_r (text t)) by lia. destruct (i - length (text t))%nat as [|j] eqn:Hj; [lia|].
      match goal with |- _ = (0 :: ?tl) !! _ => change ((0 :: tl) !! S j) with (tl !! j) end.
      rewrite !lookup_drop, fold_put_nul by done.
      by replace (length s - length (fst t) + (S (length (text t)) + j))%nat
        with (length s - length (fst t) + i)%nat by lia. }
  destruct Hdrop as [tl ->]. apply cstr_prefix.
  - eapply List.Forall_impl; [|exact Hwc]. by intros x [? _].
  - rewrite nulterminate_fold, length_put_nuls, length_app. simpl. lia.
Qed.

(** The line is "ls>f|wc": the NUL after "ls" overwrites the symbol that ended it. *)
Lemma nulterminate_strings_witness :
  exists c buf t,
    parsecmd [108; 115; 62; 102; 124; 119; 99] = Ok (c, buf) [] /\ t ∈ tokens c /\ text t = [119; 99] /\
    cstr (length buf) (drop (length [108; 115; 62; 102; 124; 119; 99] - length (fst t)) buf) = text t.
Proof.
  eexists _, _, ([119; 99], []). split; [vm_compute; reflexivity|].
  split; [cbn [tokens app]; repeat constructor|]. split; [reflexivity|].
  eapply (nulterminate_strings [108; 115; 62; 102; 124; 119; 99]).
  - repeat constructor; discriminate.
  - vm_compute. reflexivity.
  - cbn [tokens app]. repeat constructor.
Defined.

(** C31: whatever is typed, the parser returns a well-typed command or reports a syntax
    error.  The command denotes a tree in which every argument and file name is a
    non-empty word of the line, no command has MAXARGS arguments or more, and every
    redirection is an input of descriptor 0 or an output of descriptor 1; the buffer has
    kept its length. *)
Theorem parsecmd_typed s : Forall (fun c => c <> 0) s ->
  (exists c buf a, parsecmd s = Ok (c, buf) [] /\ denote c a /\ ast_ok a /\ Forall (word_of s) (tokens c) /\ length buf = S (length s)) \/
  (exists msg, parsecmd s = Panic msg).
Proof.
  intros Hs. destruct (parsecmd_total s) as [([c buf] & rest & E)|?]; [left|by right].
  destruct (parsecmd_inv s Hs c buf rest E) as (Ht & -> & ->). destruct (typed_denotes s c Ht) as (a & Ha & Hok).
  exists c, (nulterminate s c (s ++ [0])), a. split; [done|]. split; [done|]. split; [done|]. split; [by apply typed_tokens|].
  by rewrite nulterminate_fold, length_put_nuls, length_app, Nat.add_comm.
Qed.

(** The line "ls>f|wc;(a b)&". *)
Lemma parsecmd_typed_witness :
  exists c buf a, parsecmd [108; 115; 62; 102; 124; 119; 99; 59; 40; 97; 32; 98; 41; 38] = Ok (c, buf) [] /\ denote c a /\ ast_ok a.
Proof.
  destruct (parsecmd_typed [108; 115; 62; 102; 124; 119; 99; 59; 40; 97; 32; 98; 41; 38]) as [(c & buf & a & E & Hd & Ha & _)|[msg E]].
  - repeat constructor; discriminate.
  - by exists c, buf, a.
  - vm_compute in E. discriminate E.
Defined.
