(* ===== verification/Umalloc.v ===== *)
(** The memory allocator of user programs: umalloc.c, the allocator of Kernighan and
    Ritchie on a circular list of free blocks.

    A block is a header of eight bytes (the link and the size in units of eight bytes)
    and the memory behind it.  [hp_mem] is the memory of the process, [hp_brk] its size,
    and [base] the address of the static header that starts the list.  The system call
    sbrk is an interface: it refuses, or it appends memory to the process. *)

From S2P Require Import Prelude Layout CString.
Local Open Scope kernel_scope.

Record heap := mk_heap { hp_mem : memory; hp_brk : Z; freep : Z }.
Definition H := M heap.

Definition set_hmem (m : memory) (h : heap) : heap := mk_heap m (hp_brk h) (freep h).
Definition set_freep (p : Z) (h : heap) : heap := mk_heap (hp_mem h) (hp_brk h) p.

(** sizeof(Header), and the fields of a header. *)
Definition sizeof_Header : Z := 8.
Definition hptr (p : Z) : H Z := reads (fun h => ld32 (hp_mem h) p).
Definition hsize (p : Z) : H Z := reads (fun h => ld32 (hp_mem h) (p + 4)).
Definition set_hptr (p v : Z) : H unit := modify (fun h => set_hmem (st32 (hp_mem h) p v) h).
Definition set_hsize (p v : Z) : H unit := modify (fun h => set_hmem (st32 (hp_mem h) (p + 4) v) h).

(** The address of the header [n] headers after [p]. *)
Definition hadd (p n : Z) : Z := u32 (p + sizeof_Header * n).

(** The most headers that fit below the break. *)
Definition heap_fuel (h : heap) : nat := S (Z.to_nat (hp_brk h / sizeof_Header)).

(** sbrk returns -1 and changes nothing, or the old break; the memory below it is kept. *)
Class Sbrk := {
  sbrk : Z -> H Z;
  sbrk_grows : forall n h, 0 <= n < 2 ^ 31 -> 0 <= hp_brk h <= KERNBASE ->
    sbrk n h = Ok (-1) h \/
    exists m, sbrk n h = Ok (hp_brk h) (mk_heap m (hp_brk h + n) (freep h)) /\ hp_brk h + n <= KERNBASE /\
      forall a, a < hp_brk h -> ldb m a = ldb (hp_mem h) a }.

(** The search of free: the block after which [bp] belongs. *)
Fixpoint free_find (fuel : nat) (bp p : Z) : H Z :=
  match fuel with
  | O => hang
  | S fuel' =>
      let! nx := hptr p in
      if (p <? bp) && (bp <? nx) then ret p
      else if (nx <=? p) && ((p <? bp) || (bp <? nx)) then ret p
      else free_find fuel' bp nx
  end.

(** The two halves of free's update: block [x] is joined to the block [y] that follows
    it if they are adjacent, and linked to it otherwise. *)
Definition join (x y : Z) : H unit :=
  let! n := hsize x in
  if hadd x n =? y then
    let! k := hsize y in
    set_hsize x (u32 (n + k)) ;;;
    let! q := hptr y in
    set_hptr x q
  else set_hptr x y.

Definition free (ap : Z) : H unit :=
  let bp := ap - sizeof_Header in
  let! fp := reads freep in
  let! fuel := reads heap_fuel in
  let! p := free_find fuel bp fp in
  let! nx := hptr p in
  join bp nx ;;;
  join p bp ;;;
  modify (set_freep p).

Section umalloc.
Context `{!Sbrk} (base : Z).

Definition morecore (nu : Z) : H Z :=
  let nu := if nu <? 4096 then 4096 else nu in
  let! p := sbrk (s32 (nu * sizeof_Header)) in
  if p =? -1 then ret 0 else
  set_hsize p nu ;;;
  free (p + sizeof_Header) ;;;
  reads freep.

(** Taking [nunits] units off the block [p], whose predecessor is [prevp]. *)
Definition take_block (nunits prevp p size : Z) : H Z :=
  let! p := (if size =? nunits then
               let! q := hptr p in
               set_hptr prevp q ;;;
               ret p
             else
               set_hsize p (u32 (size - nunits)) ;;;
               let! rest := hsize p in
               set_hsize (hadd p rest) nunits ;;;
               ret (hadd p rest)) in
  modify (set_freep prevp) ;;;
  ret (p + sizeof_Header).

Fixpoint malloc_loop (fuel : nat) (nunits prevp p : Z) : H Z :=
  match fuel with
  | O => hang
  | S fuel' =>
      let! size := hsize p in
      if nunits <=? size then take_block nunits prevp p size else
      let! fp := reads freep in
      if p =? fp then
        let! p := morecore nunits in
        if p =? 0 then ret 0 else
        let! q := hptr p in
        malloc_loop fuel' nunits p q
      else
        let! q := hptr p in
        malloc_loop fuel' nunits p q
  end.

Definition malloc (nbytes : Z) : H Z :=
  let nunits := u32 (u32 (nbytes + sizeof_Header - 1) / sizeof_Header + 1) in
  let! prevp := reads freep in
  let! prevp := (if prevp =? 0 then
                   modify (set_freep base) ;;;
                   set_hptr base base ;;;
                   set_hsize base 0 ;;;
                   ret base
                 else ret prevp) in
  let! p := hptr prevp in
  let! fuel := reads heap_fuel in
  malloc_loop (2 * fuel) nunits prevp p.
End umalloc.

(** * The free list *)

(** A block is its address and its size; the static header [base] has size 0 but takes
    the room of a header. *)
Definition width (n : Z) : Z := sizeof_Header * Z.max n 1.

(** The block after those of [l], in a list that continues at [b]. *)
Definition nxt (l : list (Z * Z)) (b : Z) : Z := match l with (y, _) :: _ => y | [] => b end.

(** The headers in [m] of a list of blocks that continues at [b]. *)
Fixpoint seg (m : memory) (l : list (Z * Z)) (b : Z) : Prop :=
  match l with
  | [] => True
  | (x, n) :: l' => ld32 m x = nxt l' b /\ ld32 m (x + 4) = n /\ seg m l' b
  end.

(** Blocks in increasing order, without overlap, from [lo] up to [hi]. *)
Fixpoint inc (lo : Z) (l : list (Z * Z)) (hi : Z) : Prop :=
  match l with
  | [] => lo <= hi
  | (x, n) :: l' => lo <= x /\ inc (x + width n) l' hi
  end.

Definition disj (x y : Z * Z) : Prop := x.1 + width x.2 <= y.1 \/ y.1 + width y.2 <= x.1.

Fixpoint apart (l : list (Z * Z)) : Prop :=
  match l with [] => True | x :: l' => Forall (disj x) l' /\ apart l' end.

(** The two memories agree outside [x, x + 8). *)
Definition agree_off (m m' : memory) (x : Z) : Prop := forall a, a < x \/ x + 8 <= a -> ldb m' a = ldb m a.

Lemma width_pos n : 8 <= width n.
Proof. unfold width, sizeof_Header. lia. Qed.

Lemma width_unit n : 1 <= n -> width n = 8 * n.
Proof. unfold width, sizeof_Header. lia. Qed.

Lemma seg_app m l1 x n l2 b : seg m (l1 ++ (x, n) :: l2) b <-> seg m l1 x /\ seg m ((x, n) :: l2) b.
Proof.
  induction l1 as [|[y k] l1 IH]; [split; [by split|by intros []]|].
  change (seg m (((y, k) :: l1) ++ (x, n) :: l2) b) with
    (ld32 m y = nxt (l1 ++ (x, n) :: l2) b /\ ld32 m (y + 4) = k /\ seg m (l1 ++ (x, n) :: l2) b).
  change (seg m ((y, k) :: l1) x) with (ld32 m y = nxt l1 x /\ ld32 m (y + 4) = k /\ seg m l1 x).
  rewrite IH. assert (nxt (l1 ++ (x, n) :: l2) b = nxt l1 x) as -> by (by destruct l1 as [|[]]). tauto.
Qed.

Lemma inc_app lo l1 x n l2 hi : inc lo (l1 ++ (x, n) :: l2) hi <-> inc lo l1 x /\ inc (x + width n) l2 hi.
Proof. revert lo. induction l1 as [|[y k] l1 IH]; intros lo; [done|]. cbn [app inc]. rewrite IH. tauto. Qed.

Lemma inc_le lo l hi : inc lo l hi -> lo + 8 * Z.of_nat (length l) <= hi.
Proof.
  revert lo. induction l as [|[x n] l IH]; intros lo; cbn [inc length]; [lia|]. intros [H1 H2%IH]. pose proof (width_pos n). lia.
Qed.

Lemma inc_lower lo lo' l hi : inc lo l hi -> lo' <= lo -> inc lo' l hi.
Proof. destruct l as [|[x n] l]; cbn [inc]; [lia|]. intros [H1 H2] H. split; [lia|done]. Qed.

Lemma inc_raise lo l hi hi' : inc lo l hi -> hi <= hi' -> inc lo l hi'.
Proof. revert lo. induction l as [|[x n] l IH]; intros lo; cbn [inc]; [lia|]. intros [H1 H2] H. split; [done|by apply IH]. Qed.

Lemma inc_in lo l hi x n : inc lo l hi -> (x, n) ∈ l -> lo <= x /\ x + width n <= hi.
Proof.
  intros H (l1 & l2 & ->)%list_elem_of_split. apply inc_app in H as [H1%inc_le H2%inc_le]. lia.
Qed.

Lemma ld32_off m m' x a : agree_off m m' x -> a + 4 <= x \/ x + 8 <= a -> ld32 m' a = ld32 m a.
Proof. intros H Ha. apply ld32_ext. intros b Hb. apply H. lia. Qed.

Lemma seg_same m m' l b : (forall y k, (y, k) ∈ l -> ld32 m' y = ld32 m y /\ ld32 m' (y + 4) = ld32 m (y + 4)) -> seg m l b -> seg m' l b.
Proof.
  induction l as [|[y k] l IH]; intros Hl; [done|]. cbn [seg]. intros (H1 & H2 & H3). destruct (Hl y k) as [-> ->]; [set_solver|].
  split; [done|]. split; [done|]. apply IH; [|done]. intros z j Hz. apply (Hl z j). set_solver.
Qed.

Lemma seg_off m m' x l b : agree_off m m' x -> (forall y k, (y, k) ∈ l -> y + 8 <= x \/ x + 8 <= y) -> seg m l b -> seg m' l b.
Proof.
  intros Hm Hl. apply seg_same. intros y k Hy. pose proof (Hl y k Hy). by rewrite !(ld32_off m m' x) by (done || lia).
Qed.

Lemma agree_off_trans m m1 m2 x : agree_off m m1 x -> agree_off m1 m2 x -> agree_off m m2 x.
Proof. intros H1 H2 a Ha. rewrite H2 by done. by apply H1. Qed.

Lemma agree_off_st m x a v : x <= a -> a + 4 <= x + 8 -> agree_off m (st32 m a v) x.
Proof. intros H1 H2 b Hb. rewrite ldb_st32. by rewrite decide_False by lia. Qed.

(** ** Joining a block to its successor *)

(** Block [x] of size [n] before the blocks [R] becomes block [x] of size [n'] before [R']. *)
Definition joined (x n : Z) (R : list (Z * Z)) (n' : Z) (R' : list (Z * Z)) : Prop :=
  (n' = n /\ R' = R) \/ exists y k, 1 <= n /\ 1 <= k /\ R = (y, k) :: R' /\ n' = n + k /\ y = x + 8 * n.

Lemma joined_inc x n R n' R' lo hi : joined x n R n' R' -> inc lo ((x, n) :: R) hi -> inc lo ((x, n') :: R') hi.
Proof.
  intros [[-> ->]|(y & k & Hn & Hk & -> & -> & ->)]; [done|]. cbn [inc]. rewrite !width_unit by lia.
  intros (H1 & H2 & H3). split; [done|]. by replace (x + 8 * (n + k)) with (x + 8 * n + 8 * k) by lia.
Qed.

Lemma joined_disj x n R n' R' z : joined x n R n' R' -> 1 <= z.2 -> Forall (disj z) ((x, n) :: R) -> Forall (disj z) ((x, n') :: R').
Proof.
  intros [[-> ->]|(y & k & Hn & Hk & -> & -> & ->)]; [done|]. intros Hz. rewrite !Forall_cons_iff. unfold disj. cbn [fst snd].
  rewrite !width_unit by lia. intros (H1 & H2 & H3). split; [lia|done].
Qed.

Lemma joined_units x n R n' R' : joined x n R n' R' -> Forall (fun y => 1 <= y.2) R -> Forall (fun y => 1 <= y.2) R' /\ (1 <= n -> 1 <= n').
Proof.
  intros [[-> ->]|(y & k & Hn & Hk & -> & -> & ->)]; [done|]. rewrite Forall_cons_iff. intros [_ H]. split; [done|lia].
Qed.

(** What a list of blocks holds. *)
Definition units (l : list (Z * Z)) : Z := foldr (fun x n => x.2 + n) 0 l.

Lemma joined_total x n R n' R' : joined x n R n' R' -> n' + units R' = n + units R /\ n <= n'.
Proof. intros [[-> ->]|(y & k & Hn & Hk & -> & -> & ->)]; cbn [units foldr snd]; [lia|]. fold (units R'). lia. Qed.

Lemma nxt_range lo R hi b : inc lo R hi -> 0 <= lo -> hi <= KERNBASE -> 0 <= b < 2 ^ 32 -> 0 <= nxt R b < 2 ^ 32.
Proof.
  destruct R as [|[z j] R]; cbn [nxt inc]; [done|]. intros [Hz Hin%inc_le] Hlo Hhi _. pose proof (width_pos j). unfold KERNBASE in *. lia.
Qed.

Lemma join_run h x n R b lo hi : ld32 (hp_mem h) (x + 4) = n -> 0 <= n -> seg (hp_mem h) R b ->
  0 <= lo -> inc lo ((x, n) :: R) hi -> hi <= KERNBASE -> 0 <= b < 2 ^ 32 -> (R = [] -> b < x) -> Forall (fun y => 1 <= y.2) R ->
  exists m' n' R', join x (nxt R b) h = Ok tt (set_hmem m' h) /\ seg m' ((x, n') :: R') b /\
    agree_off (hp_mem h) m' x /\ joined x n R n' R'.
Proof.
  intros Hn Hn0 Hseg Hlo Hinc Hhi Hb Hnil Hun. unfold join. erewrite bind_ok by reflexivity. rewrite Hn. unfold hadd.
  pose proof Hinc as [Hx Hin]. assert (Hfits : x + 8 * n <= hi) by (pose proof (inc_le _ _ _ Hin); unfold width, sizeof_Header in *; lia).
  unfold sizeof_Header. rewrite u32_small by (unfold KERNBASE in *; lia).
  destruct (Z.eqb_spec (x + 8 * n) (nxt R b)) as [E|E].
  - destruct R as [|[y k] R]; cbn [nxt] in *; [specialize (Hnil eq_refl); lia|]. destruct Hseg as (H1 & H2 & H3).
    destruct Hin as [Hy Hin]. apply Forall_cons_iff in Hun as [Hk Hun]. cbn in Hk. pose proof (width_pos n). pose proof (inc_le _ _ _ Hin) as Hle. rewrite (width_unit k Hk) in *.
    erewrite bind_ok by reflexivity. rewrite H2. erewrite bind_ok by reflexivity. erewrite bind_ok by reflexivity.
    cbn [hp_mem set_hmem]. rewrite ld32_st32_ne by lia. rewrite H1.
    set (m' := st32 (st32 (hp_mem h) (x + 4) (u32 (n + k))) x (nxt R b)).
    assert (Hoff : agree_off (hp_mem h) m' x) by (eapply agree_off_trans; apply agree_off_st; lia).
    exists m', (n + k), R. split; [reflexivity|]. split; [|split; [done|right; exists y, k; unfold width, sizeof_Header in *; lia || (repeat split; try done; lia)]].
    assert (Hz : forall z j, (z, j) ∈ R -> x + 8 <= z) by (intros z j Hz; pose proof (inc_in _ _ _ _ _ Hin Hz); lia).
    cbn [seg]. unfold m' at 1. rewrite ld32_st32_eq. unfold m' at 1. rewrite ld32_st32_ne, ld32_st32_eq, u32_idemp by lia.
    split; [|split; [apply u32_small; unfold KERNBASE in *; lia|apply (seg_off (hp_mem h) m' x); [done|intros z j Hzj; right; by apply (Hz z j)|done]]].
    apply u32_small. by apply (nxt_range _ _ _ _ Hin); [lia|done|].
  - exists (st32 (hp_mem h) x (nxt R b)), n, R. split; [reflexivity|].
    assert (Hoff : agree_off (hp_mem h) (st32 (hp_mem h) x (nxt R b)) x) by (apply agree_off_st; lia).
    split; [|split; [done|by left]]. cbn [seg]. rewrite ld32_st32_eq, ld32_st32_ne by lia. pose proof (width_pos n).
    split; [|split; [done|apply (seg_off (hp_mem h) _ x); [done| |done]]].
    + apply u32_small. by apply (nxt_range _ _ _ _ Hin); [lia|done|].
    + intros z j Hzj. right. pose proof (inc_in _ _ _ _ _ Hin Hzj). lia.
Qed.

(** ** The search of free *)
Section search.
Context (h : heap) (bp : Z).

(** Below the place of [bp] the search goes on, up to block [p]. *)
Lemma find_below v k p : forall f j lo, seg (hp_mem h) ((f, j) :: v) p -> inc lo ((f, j) :: v) p -> p < bp ->
  free_find (S (length v) + k) bp f h = free_find k bp p h.
Proof.
  induction v as [|[y i] v IH]; intros f j lo Hseg Hinc Hp; pose proof (width_pos j); cbn [length Nat.add free_find];
    cbn [seg nxt] in Hseg; destruct Hseg as (H1 & H2 & H3); cbn [inc] in Hinc.
  - erewrite bind_ok by reflexivity. rewrite H1, (proj2 (Z.ltb_ge bp p)), andb_false_r, (proj2 (Z.leb_gt p f)) by lia. done.
  - pose proof (inc_le _ _ _ (proj2 (proj2 Hinc))). pose proof (width_pos i). erewrite bind_ok by reflexivity.
    rewrite H1, (proj2 (Z.ltb_ge bp y)), andb_false_r, (proj2 (Z.leb_gt y f)) by lia. cbn [andb].
    apply (IH y i (f + width j)); [by cbn [seg]|cbn [inc]; tauto|done].
Qed.

(** Above it, to the end of the list and on to its start [b]. *)
Lemma find_above v k b hi : forall f j lo, seg (hp_mem h) ((f, j) :: v) b -> inc lo ((f, j) :: v) hi -> bp < f -> b < bp ->
  free_find (S (length v) + k) bp f h = free_find k bp b h.
Proof.
  induction v as [|[y i] v IH]; intros f j lo Hseg Hinc Hf Hb; pose proof (width_pos j); cbn [length Nat.add free_find];
    cbn [seg nxt] in Hseg; destruct Hseg as (H1 & H2 & H3); cbn [inc] in Hinc; erewrite bind_ok by reflexivity; rewrite H1.
  - rewrite (proj2 (Z.ltb_ge f bp)), (proj2 (Z.ltb_ge bp b)) by lia. cbn [andb orb]. rewrite andb_false_r. done.
  - rewrite (proj2 (Z.ltb_ge f bp)), (proj2 (Z.leb_gt y f)) by lia. cbn [andb].
    apply (IH y i (f + width j)); [by cbn [seg]|cbn [inc]; tauto|lia|done].
Qed.

(** Block [p] stops it. *)
Lemma find_stop k p j l2 b : seg (hp_mem h) ((p, j) :: l2) b -> p < bp -> bp < nxt l2 (bp + 1) -> b <= p ->
  free_find (S k) bp p h = Ok p h.
Proof.
  intros (H1 & _) Hp Hn Hb. cbn [free_find]. erewrite bind_ok by reflexivity. rewrite H1, (proj2 (Z.ltb_lt p bp)) by done.
  destruct l2 as [|[y i] l2]; cbn [nxt andb orb] in *.
  - rewrite (proj2 (Z.ltb_ge bp b)), (proj2 (Z.leb_le b p)) by lia. done.
  - rewrite (proj2 (Z.ltb_lt bp y)) by lia. done.
Qed.

(** Started at any block, it finds the one that precedes [bp]. *)
Lemma free_find_run fuel f base l1 p j l2 hi :
  let fl := l1 ++ (p, j) :: l2 in
  nxt fl 0 = base -> seg (hp_mem h) fl base -> inc base fl hi -> p < bp -> bp < nxt l2 (bp + 1) -> f ∈ fl.*1 ->
  (length fl < fuel)%nat -> free_find fuel bp f h = Ok p h.
Proof.
  intros fl Hbase Hseg Hinc Hp Hn Hf Hfuel. assert (Hb : base <= p) by (apply inc_app in Hinc as [Hi%inc_le _]; lia).
  apply seg_app in Hseg as [Hs1 Hs2]. apply inc_app in Hinc as [Hi1 Hi2]. unfold fl in *. rewrite length_app in Hfuel. cbn [length] in Hfuel.
  assert (Hbelow : forall f j' v k, (exists u, l1 = u ++ (f, j') :: v) ->
    free_find (S (length v) + S k) bp f h = Ok p h).
  { intros f' j' v k [u ->].
    apply seg_app in Hs1 as [_ Hs1]. apply inc_app in Hi1 as [_ Hi1]. rewrite (find_below v (S k) p f' j' f'); [|done|split; [lia|done]|done].
    by apply (find_stop k p j l2 base). }
  rewrite fmap_app, elem_of_app in Hf. cbn [fmap list_fmap fst] in Hf. rewrite elem_of_cons in Hf. destruct Hf as [Hf|[->|Hf]].
  - apply list_elem_of_fmap in Hf as ([x i] & -> & (u & v & E)%list_elem_of_split). cbn [fst].
    assert (Hl : length l1 = (length u + S (length v))%nat) by (rewrite E, length_app; done).
    replace fuel with (S (length v) + S (fuel - S (S (length v))))%nat by lia. apply (Hbelow x i v). by exists u.
  - destruct fuel as [|k]; [lia|]. by apply (find_stop k p j l2 base).
  - apply list_elem_of_fmap in Hf as ([x i] & -> & (u & v & E)%list_elem_of_split). cbn [fst]. subst l2.
    pose proof Hs2 as (_ & _ & [_ Hs3]%seg_app). pose proof Hi2 as Hi2'. apply inc_app in Hi2 as [Hiu Hi2]. rewrite !length_app in Hfuel. cbn [length] in Hfuel.
    assert (Hx : bp < x). { destruct u as [|[y k] u]; cbn [app nxt inc] in *; [done|]. destruct Hiu as [_ Hiu%inc_le]. pose proof (width_pos k). lia. }
    replace fuel with (S (length v) + (fuel - S (length v)))%nat by lia.
    rewrite (find_above v _ base hi x i x); [|done|split; [lia|done]|done|lia].
    destruct l1 as [|[y k] l1]; cbn [app nxt] in Hbase; subst.
    + destruct (fuel - S (length v))%nat as [|k] eqn:Ek; [cbn in *; lia|]. apply (find_stop k base j (u ++ (x, i) :: v) base); try done; lia.
    + replace (fuel - S (length v))%nat with (S (length l1) + S (fuel - S (length v) - S (S (length l1))))%nat by (cbn in *; lia).
      apply (Hbelow base k l1). by exists [].
Qed.
End search.

(** * The invariant *)

(** [fl] are the free blocks in the order of their addresses, the static header first;
    [al] are the blocks in use. *)
Record heap_ok (base : Z) (h : heap) (fl al : list (Z * Z)) : Prop := mk_heap_ok {
  hk_base : 0 < base;
  hk_head : exists tl, fl = (base, 0) :: tl /\ Forall (fun x => 1 <= x.2) tl;
  hk_seg : seg (hp_mem h) fl base;
  hk_inc : inc base fl (hp_brk h);
  hk_brk : hp_brk h <= KERNBASE;
  hk_freep : freep h ∈ fl.*1;
  hk_units : Forall (fun x => 1 <= x.2) al;
  hk_sizes : Forall (fun x => ld32 (hp_mem h) (x.1 + 4) = x.2) al;
  hk_bounds : Forall (fun x => base + 8 <= x.1 /\ x.1 + 8 * x.2 <= hp_brk h) al;
  hk_disj : Forall (fun x => Forall (disj x) fl) al;
  hk_apart : apart al }.

(** The contents of the blocks of [al] are the same. *)
Definition kept (al : list (Z * Z)) (h h' : heap) : Prop :=
  Forall (fun x => forall a, x.1 <= a < x.1 + width x.2 -> ldb (hp_mem h') a = ldb (hp_mem h) a) al.

Lemma kept_refl al h : kept al h h.
Proof. apply list.Forall_forall. done. Qed.

Lemma kept_trans al h h1 h2 : kept al h h1 -> kept al h1 h2 -> kept al h h2.
Proof.
  unfold kept. rewrite !list.Forall_forall. intros H1 H2 x Hx a Ha. rewrite (H2 x Hx a Ha). by apply (H1 x Hx).
Qed.

Lemma kept_sizes al h h' : kept al h h' -> Forall (fun x => ld32 (hp_mem h) (x.1 + 4) = x.2) al ->
  Forall (fun x => ld32 (hp_mem h') (x.1 + 4) = x.2) al.
Proof.
  unfold kept. rewrite !list.Forall_forall. intros H1 H2 x Hx. rewrite <- (H2 x Hx). apply ld32_ext. intros b Hb.
  apply (H1 x Hx). pose proof (width_pos x.2). lia.
Qed.

Lemma kept_off al m h m' x : agree_off m m' x -> hp_mem h = m -> Forall (fun y => exists n, disj y (x, n)) al ->
  kept al h (set_hmem m' h).
Proof.
  intros Hoff Hm. unfold kept. rewrite !list.Forall_forall. intros Hd y Hy a Ha. destruct (Hd y Hy) as [n Hn]. cbn [hp_mem set_hmem].
  rewrite Hm. apply Hoff. unfold disj in Hn. cbn [fst snd] in Hn. pose proof (width_pos n). lia.
Qed.

Lemma fuel_enough base h fl al : heap_ok base h fl al -> (length fl < heap_fuel h)%nat.
Proof.
  intros Hok. pose proof (inc_le _ _ _ (hk_inc _ _ _ _ Hok)). pose proof (hk_base _ _ _ _ Hok). unfold heap_fuel, sizeof_Header. zdiv.
Qed.

(** The place of a block in the list. *)
Lemma find_place fl : forall lo hi bp n, inc lo fl hi -> nxt fl bp < bp -> Forall (disj (bp, n)) fl ->
  exists l1 p j l2, fl = l1 ++ (p, j) :: l2 /\ p + width j <= bp /\ inc (bp + width n) l2 (Z.max hi (bp + width n)).
Proof.
  induction fl as [|[x k] fl IH]; intros lo hi bp n Hinc Hx Hd; cbn [nxt] in Hx; [lia|].
  apply Forall_cons_iff in Hd as [Hd Hds]. unfold disj in Hd. cbn [fst snd] in Hd. pose proof (width_pos n). cbn [inc] in Hinc.
  destruct fl as [|[y i] fl]; [exists [], x, k, []; split; [done|]; cbn [inc]; lia|].
  destruct (Z.lt_ge_cases y bp) as [Hy|Hy].
  - destruct (IH (x + width k) hi bp n) as (l1 & p & j & l2 & -> & H1 & H2); [apply Hinc|done|done|]. by exists ((x, k) :: l1), p, j, l2.
  - exists [], x, k, ((y, i) :: fl). split; [done|]. split; [lia|]. apply Forall_cons_iff in Hds as [Hd1 _]. unfold disj in Hd1. cbn [fst snd] in Hd1.
    pose proof (width_pos i). cbn [inc] in *. split; [lia|]. apply (inc_raise _ _ hi); [tauto|lia].
Qed.

Lemma disj_sym x y : disj x y -> disj y x.
Proof. unfold disj. tauto. Qed.

(** The blocks of the new list keep off the blocks in use. *)
Lemma joined_off l1 p j bp n l2 n1 R1 n2 R2 z :
  joined bp n l2 n1 R1 -> joined p j ((bp, n1) :: R1) n2 R2 -> 1 <= z.2 ->
  disj (bp, n) z -> Forall (disj z) (l1 ++ (p, j) :: l2) -> Forall (disj z) (l1 ++ (p, n2) :: R2).
Proof.
  intros J1 J2 Hz Hb [H1 H2]%Forall_app. apply Forall_cons_iff in H2 as [Hp H2]. apply Forall_app. split; [done|].
  apply (joined_disj _ _ _ _ _ _ J2 Hz). constructor; [done|]. apply (joined_disj _ _ _ _ _ _ J1 Hz). constructor; [by apply disj_sym|done].
Qed.

Lemma free_first base l1 p j bp l2 tl n1 R1 n2 R2 : l1 ++ (p, j) :: l2 = (base, 0) :: tl -> Forall (fun x => 1 <= x.2) tl ->
  joined p j ((bp, n1) :: R1) n2 R2 -> 1 <= n1 -> Forall (fun x => 1 <= x.2) R1 ->
  exists tl', l1 ++ (p, n2) :: R2 = (base, 0) :: tl' /\ Forall (fun x => 1 <= x.2) tl'.
Proof.
  intros E Htl J' Hn1 HR1.
  destruct l1 as [|[y k] l1]; cbn [app] in *.
  - injection E as -> -> <-. destruct J' as [[-> ->]|(? & ? & ? & _)]; [|lia]. eexists. split; [done|]. by constructor.
  - injection E as -> -> E. eexists. split; [done|]. subst tl. apply Forall_app in Htl as [H1 H2]. apply Forall_cons_iff in H2 as [Hj H2].
    destruct (joined_units _ _ _ _ _ J') as [HR2 Hn2]; [by constructor|]. apply Forall_app. split; [done|]. constructor; [by apply Hn2|done].
Qed.

Lemma units_app l1 l2 : units (l1 ++ l2) = units l1 + units l2.
Proof. induction l1 as [|x l1 IH]; cbn [app units foldr]; [done|]. fold (units (l1 ++ l2)) (units l1). lia. Qed.

(** The two joins of free, for a block [bp] between [p] and [l2]. *)
Lemma free_update h base p j bp n l2 :
  seg (hp_mem h) l2 base -> ld32 (hp_mem h) (p + 4) = j -> ld32 (hp_mem h) (bp + 4) = n ->
  0 < base <= p -> 0 <= j -> 1 <= n -> p + width j <= bp -> inc (bp + 8 * n) l2 (hp_brk h) -> hp_brk h <= KERNBASE ->
  Forall (fun x => 1 <= x.2) l2 ->
  exists m1 m n1 R1 n2 R2, join bp (nxt l2 base) h = Ok tt (set_hmem m1 h) /\ join p bp (set_hmem m1 h) = Ok tt (set_hmem m h) /\
    joined bp n l2 n1 R1 /\ joined p j ((bp, n1) :: R1) n2 R2 /\ seg m ((p, n2) :: R2) base /\
    inc p ((p, n2) :: R2) (hp_brk h) /\ 1 <= n1 /\ Forall (fun x => 1 <= x.2) R1 /\
    agree_off (hp_mem h) m1 bp /\ agree_off m1 m p.
Proof.
  intros Hs2 Hpj Hs Hpb Hj0 Hn Hp Hi2 Hbrk Hul. pose proof (width_unit n Hn) as Hw. pose proof (width_pos j) as Hwj. pose proof (inc_le _ _ _ Hi2) as Hle.
  destruct (join_run h bp n l2 base bp (hp_brk h)) as (m1 & n1 & R1 & E1 & Hsg1 & Hoff1 & J1); try done; try lia.
  { cbn [inc]. rewrite Hw. split; [lia|done]. } { unfold KERNBASE in *. lia. }
  destruct (joined_units _ _ _ _ _ J1 Hul) as [HuR Hn1]. specialize (Hn1 Hn).
  assert (Hi4 : inc p ((p, j) :: (bp, n1) :: R1) (hp_brk h)).
  { split; [lia|]. apply (joined_inc _ _ _ _ _ _ _ J1). cbn [inc]. rewrite Hw. split; [lia|done]. }
  destruct (join_run (set_hmem m1 h) p j ((bp, n1) :: R1) base p (hp_brk h)) as (m2 & n2 & R2 & E2 & Hsg2 & Hoff2 & J2); try done; try lia.
  { cbn [hp_mem set_hmem]. by rewrite (ld32_off _ _ _ _ Hoff1) by lia. } { unfold KERNBASE in *. lia. } { by constructor. }
  exists m1, m2, n1, R1, n2, R2. do 5 (split; [done|]). split; [by apply (joined_inc _ _ _ _ _ _ _ J2)|]. done.
Qed.

Lemma joined_length p j bp n l2 n1 R1 n2 R2 : joined bp n l2 n1 R1 -> joined p j ((bp, n1) :: R1) n2 R2 -> (length R2 <= S (length l2))%nat.
Proof.
  intros J1 J2. assert (length R1 <= length l2)%nat by (destruct J1 as [[_ ->]|(? & ? & _ & _ & -> & _)]; simpl; lia).
  destruct J2 as [[_ ->]|(? & ? & _ & _ & [= _ _ <-] & _)]; simpl; lia.
Qed.

Lemma joined_room p j bp n l2 n1 R1 n2 R2 : joined bp n l2 n1 R1 -> joined p j ((bp, n1) :: R1) n2 R2 ->
  exists x k, (x, k) ∈ (p, n2) :: R2 /\ n <= k.
Proof.
  intros J1 J2. destruct (joined_total _ _ _ _ _ J1) as [_ Ht1]. destruct J2 as [[-> ->]|(? & ? & ? & ? & [= <- <- <-] & -> & _)].
  - exists bp, n1. split; [set_solver|lia].
  - exists p, (j + n1). split; [set_solver|lia].
Qed.

(** What precedes and follows a block of the list. *)
Lemma head_parts base tl l1 p j l2 : l1 ++ (p, j) :: l2 = (base, 0) :: tl -> Forall (fun x : Z * Z => 1 <= x.2) tl ->
  Forall (fun x => 1 <= x.2) l2 /\ 0 <= j.
Proof.
  intros E Htl. destruct l1 as [|? l1]; injection E as ? E; subst; [split; [done|lia]|].
  apply Forall_app in Htl as [_ H]. apply Forall_cons_iff in H as [? ?]. cbn in *. split; [done|lia].
Qed.

(** Freeing the block [bp]. *)
Lemma free_run base h fl bp n al : heap_ok base h fl ((bp, n) :: al) ->
  exists h' fl', free (bp + sizeof_Header) h = Ok tt h' /\ heap_ok base h' fl' al /\ kept al h h' /\ hp_brk h' = hp_brk h /\
    units fl' = units fl + n /\ (length fl' <= S (length fl))%nat /\ exists x k, (x, k) ∈ fl' /\ n <= k.
Proof.
  intros Hok. pose proof (fuel_enough _ _ _ _ Hok) as Hfuel.
  destruct Hok as [Hbase (tl & Hfl & Htl) Hseg Hinc Hbrk Hfp Hun Hsz Hbd Hdj Hap].
  apply Forall_cons_iff in Hun as [Hn Hun], Hsz as [Hs Hsz], Hbd as [Hb Hbd], Hdj as [Hd Hdj]. cbn [fst snd apart] in *.
  destruct Hap as [Hbpd Hap]. pose proof (width_unit n Hn) as Hw.
  destruct (find_place fl base (hp_brk h) bp n Hinc) as (l1 & p & j & l2 & E & Hp & Hi2); [rewrite Hfl; cbn; lia|done|].
  rewrite Z.max_l, Hw in Hi2 by lia. pose proof (width_pos j) as Hwj. rewrite E in *.
  assert (Hfind : free_find (heap_fuel h) bp (freep h) h = Ok p h).
  { apply (free_find_run h bp _ _ base l1 p j l2 (hp_brk h)); try done; [by rewrite Hfl|lia|destruct l2 as [|[y k] l2]; cbn [nxt inc] in *; lia]. }
  apply seg_app in Hseg as [Hs1 (Hpn & Hpj & Hs2)]. apply inc_app in Hinc as [Hi1 Hi3]. pose proof (inc_le _ _ _ Hi1) as Hpb.
  destruct (head_parts _ _ _ _ _ _ Hfl Htl) as [Hul Hj0].
  destruct (free_update h base p j bp n l2) as (m1 & m & n1 & R1 & n2 & R2 & E1 & E2 & J1 & J2 & Hsg & Hi4 & Hn1 & HuR & Hoff1 & Hoff2); try done; [lia|].
  assert (Hk : kept al h (set_freep p (set_hmem m h))).
  { apply (kept_trans al h (set_hmem m1 h)); [apply (kept_off al (hp_mem h) h m1 bp); [done|done|]|apply (kept_off al m1 (set_hmem m1 h) m p); [done|done|]].
    - apply (list.Forall_impl _ _ _ Hbpd). intros y Hy. exists n. by apply disj_sym.
    - apply (list.Forall_impl _ _ _ Hdj). intros y Hy. exists j. rewrite Forall_app, Forall_cons_iff in Hy. tauto. }
  exists (set_freep p (set_hmem m h)), (l1 ++ (p, n2) :: R2). split.
  { unfold free. replace (bp + sizeof_Header - sizeof_Header) with bp by lia. do 2 erewrite bind_ok by reflexivity.
    rewrite (bind_ok _ _ _ _ _ Hfind). erewrite bind_ok by reflexivity. rewrite Hpn, (bind_ok _ _ _ _ _ E1), (bind_ok _ _ _ _ _ E2). reflexivity. }
  split; [|split; [done|split; [done|split; [|split]]]].
  - split; try done; cbn [hp_mem freep set_freep set_hmem].
    + by eapply free_first.
    + apply seg_app. split; [|done].
      assert (Hl1 : forall y k, (y, k) ∈ l1 -> y + 8 <= p) by (intros y k Hy; pose proof (inc_in _ _ _ _ _ Hi1 Hy); pose proof (width_pos k); lia).
      apply (seg_off m1 m p); [done|intros y k Hy; left; by apply (Hl1 y k)|]. apply (seg_off (hp_mem h) m1 bp); [done| |done].
      intros y k Hy. specialize (Hl1 y k Hy). lia.
    + apply inc_app. split; [done|]. by destruct Hi4.
    + rewrite fmap_app. set_solver.
    + exact (kept_sizes al h _ Hk Hsz).
    + rewrite list.Forall_forall in Hdj, Hbpd, Hun |- *. intros z Hz. by apply (joined_off l1 p j bp n l2 n1 R1 n2 R2 z J1 J2); auto.
  - rewrite !units_app. destruct (joined_total _ _ _ _ _ J1), (joined_total _ _ _ _ _ J2). cbn [units foldr snd] in *. fold (units R1) (units R2) (units l2) in *. lia.
  - rewrite !length_app. cbn [length]. pose proof (joined_length _ _ _ _ _ _ _ _ _ J1 J2). lia.
  - destruct (joined_room _ _ _ _ _ _ _ _ _ J1 J2) as (x & k & Hx & Hk'). exists x, k. split; [set_solver|done].
Qed.

(** ** Taking a block *)
Lemma inc_disj lo l x n r hi : inc lo (l ++ (x, n) :: r) hi -> Forall (disj (x, n)) (l ++ r).
Proof.
  intros [H1 H2]%inc_app. apply Forall_app. unfold disj. cbn [fst snd].
  split; apply list.Forall_forall; intros [y k] Hy; cbn [fst snd].
  - right. apply (inc_in _ _ _ _ _ H1 Hy).
  - left. apply (inc_in _ _ _ _ _ H2 Hy).
Qed.

Lemma inc_remove lo l x n r hi : inc lo (l ++ (x, n) :: r) hi -> inc lo (l ++ r) hi.
Proof.
  intros [H1 H2]%inc_app. destruct r as [|[y k] r].
  - rewrite app_nil_r. apply (inc_raise _ _ x); [done|]. apply inc_le in H2. pose proof (width_pos n). simpl in H2. lia.
  - apply inc_app. cbn [inc] in H2. pose proof (width_pos n). split; [apply (inc_raise _ _ x); [done|lia]|tauto].
Qed.

Lemma disj_sub x n a k z : 1 <= n -> 1 <= k -> x <= a -> a + 8 * k <= x + 8 * n -> disj (x, n) z -> disj (a, k) z.
Proof. unfold disj. cbn [fst snd]. intros Hn Hk. rewrite (width_unit n), (width_unit k) by done. lia. Qed.

Lemma head_middle base tl l (prev x : Z) j n r : l ++ (prev, j) :: (x, n) :: r = (base, 0) :: tl ->
  Forall (fun x => 1 <= x.2) tl -> 1 <= n /\ 0 <= j.
Proof.
  intros E Htl. destruct l as [|? l]; injection E as ? E; subst; [apply Forall_cons_iff in Htl as [? _]; cbn in *; lia|].
  apply Forall_app in Htl as [_ H]. apply Forall_cons_iff in H as [? H]. apply Forall_cons_iff in H as [? _]. cbn in *. lia.
Qed.

Lemma head_replace base tl l (prev : Z) j rest rest' : l ++ (prev, j) :: rest = (base, 0) :: tl ->
  Forall (fun x => 1 <= x.2) tl -> Forall (fun x => 1 <= x.2) rest' ->
  exists tl', l ++ (prev, j) :: rest' = (base, 0) :: tl' /\ Forall (fun x => 1 <= x.2) tl'.
Proof.
  intros E Htl Hr. destruct l as [|y l]; injection E as ? E; subst; [by eexists|]. eexists. split; [done|].
  apply Forall_app in Htl as [H1 H2]. apply Forall_cons_iff in H2 as [H2 _]. apply Forall_app. split; [done|]. by constructor.
Qed.

Section take.
Context (base : Z) (h : heap) (al l : list (Z * Z)) (prev j x n : Z) (r : list (Z * Z)) (nu : Z).
Context (Hok : heap_ok base h (l ++ (prev, j) :: (x, n) :: r) al) (Hnu : 1 <= nu <= n).

Lemma take_geometry : prev + width j <= x /\ base <= prev /\ x + 8 * n <= hp_brk h /\ inc (x + 8 * n) r (hp_brk h) /\
  Forall (fun x => 1 <= x.2) r /\ 0 <= j.
Proof.
  destruct Hok as [Hbase (tl & Hfl & Htl) Hseg Hinc Hbrk _ _ _ _ _ _]. destruct (head_middle _ _ _ _ _ _ _ _ Hfl Htl) as [Hn Hj].
  apply inc_app in Hinc as [Hi1 (Hx & Hi2)]. rewrite (width_unit n) in Hi2 by lia. pose proof (inc_le _ _ _ Hi1). pose proof (inc_le _ _ _ Hi2).
  repeat split; try done; try lia. destruct l as [|? l']; injection Hfl as ? E; subst tl; [by apply Forall_cons_iff in Htl as [_ ?]|].
  apply Forall_app in Htl as [_ H]. apply Forall_cons_iff in H as [_ H]. by apply Forall_cons_iff in H as [_ ?].
Qed.

(** A piece of the block [x] keeps off the blocks in use. *)
Lemma take_apart a : x <= a -> a + 8 * nu <= x + 8 * n -> Forall (disj (a, nu)) al.
Proof.
  intros H1 H2. destruct Hok. rewrite list.Forall_forall in hk_disj0 |- *. intros z Hz. apply (disj_sub x n); try lia.
  specialize (hk_disj0 z Hz). apply Forall_app in hk_disj0 as [_ H]. apply Forall_cons_iff in H as [_ H].
  apply Forall_cons_iff in H as [H _]. by apply disj_sym.
Qed.

Lemma take_exact : n = nu -> exists h', take_block nu prev x n h = Ok (x + sizeof_Header) h' /\
  heap_ok base h' (l ++ (prev, j) :: r) ((x, nu) :: al) /\ kept al h h' /\ hp_brk h' = hp_brk h.
Proof.
  intros En. destruct take_geometry as (Hpx & Hbp & Hend & Hir & Hur & Hj). pose proof (width_pos j) as Hwj. pose proof (take_apart x ltac:(lia) ltac:(lia)) as Hxa.
  destruct Hok as [Hbase (tl & Hfl & Htl) Hseg Hinc Hbrk Hfp Hun Hsz Hbd Hdj Hap].
  apply seg_app in Hseg as [Hs1 (Hp1 & Hp2 & Hx1 & Hx2 & Hs2)].
  set (m' := st32 (hp_mem h) prev (nxt r base)). assert (Hoff : agree_off (hp_mem h) m' prev) by (apply agree_off_st; lia).
  exists (set_freep prev (set_hmem m' h)). split.
  { unfold take_block. rewrite (proj2 (Z.eqb_eq n nu) En). erewrite bind_ok; [|erewrite bind_ok by reflexivity; rewrite Hx1; erewrite bind_ok by reflexivity; reflexivity].
    erewrite bind_ok by reflexivity. reflexivity. }
  assert (Hk : kept al h (set_freep prev (set_hmem m' h))).
  { apply (kept_off al (hp_mem h) h m' prev); [done|done|]. apply (list.Forall_impl _ _ _ Hdj). intros y Hy. exists j.
    apply Forall_app in Hy as [_ Hy]. by apply Forall_cons_iff in Hy as [? _]. }
  split; [|split; [done|done]]. pose proof (Hinc) as Hinc2. rewrite (cons_middle _ l), (app_assoc l) in Hinc2.
  pose proof (inc_disj _ _ _ _ _ _ Hinc2) as Hdx. apply inc_remove in Hinc2. rewrite <- app_assoc in Hdx, Hinc2.
  split; try done; cbn [hp_mem hp_brk freep set_freep set_hmem].
  - by eapply head_replace.
  - apply seg_app. split; [|cbn [seg]; split; [|split]].
    + apply (seg_off (hp_mem h) m' prev); [done| |done]. intros y k Hy. left. apply inc_app in Hinc as [Hi1 _].
      pose proof (inc_in _ _ _ _ _ Hi1 Hy). pose proof (width_pos k). lia.
    + unfold m'. rewrite ld32_st32_eq. apply u32_small. apply (nxt_range _ _ _ _ Hir); unfold KERNBASE in *; lia.
    + unfold m'. by rewrite ld32_st32_ne by lia.
    + apply (seg_off (hp_mem h) m' prev); [done| |done]. intros y k Hy. right. pose proof (inc_in _ _ _ _ _ Hir Hy). lia.
  - rewrite fmap_app. set_solver.
  - by constructor; [cbn; lia|].
  - constructor; [cbn [fst snd]; rewrite (ld32_off _ _ _ _ Hoff) by lia; lia|exact (kept_sizes al h _ Hk Hsz)].
  - constructor; [cbn [fst snd]; lia|done].
  - constructor; [by rewrite <- En|]. apply (list.Forall_impl _ _ _ Hdj). intros y Hy. rewrite Forall_app, !Forall_cons_iff in Hy.
    rewrite Forall_app, Forall_cons_iff. tauto.
Qed.

Lemma take_split : nu < n -> let a := x + 8 * (n - nu) in
  exists h', take_block nu prev x n h = Ok (a + sizeof_Header) h' /\
    heap_ok base h' (l ++ (prev, j) :: (x, n - nu) :: r) ((a, nu) :: al) /\ kept al h h' /\ hp_brk h' = hp_brk h.
Proof.
  intros Hlt a. destruct take_geometry as (Hpx & Hbp & Hend & Hir & Hur & Hj). pose proof (width_pos j) as Hwj.
  pose proof (take_apart a ltac:(lia) ltac:(lia)) as Hxa.
  destruct Hok as [Hbase (tl & Hfl & Htl) Hseg Hinc Hbrk Hfp Hun Hsz Hbd Hdj Hap].
  apply seg_app in Hseg as [Hs1 (Hp1 & Hp2 & Hx1 & Hx2 & Hs2)]. unfold KERNBASE in Hbrk.
  set (m1 := st32 (hp_mem h) (x + 4) (n - nu)). set (m' := st32 m1 (a + 4) nu).
  assert (Hsame : forall b, b < x \/ x + 8 * n <= b -> ldb m' b = ldb (hp_mem h) b).
  { intros b Hb. unfold m', m1. rewrite !ldb_st32. by rewrite !decide_False by lia. }
  assert (Hoff : forall z b, disj z (x, n) -> z.1 <= b < z.1 + width z.2 -> ldb m' b = ldb (hp_mem h) b).
  { intros z b Hd Hb. apply Hsame. unfold disj in Hd. cbn [fst snd] in Hd. rewrite (width_unit n) in Hd by lia. lia. }
  exists (set_freep prev (set_hmem m' h)). split.
  { unfold take_block. rewrite (proj2 (Z.eqb_neq n nu)), (u32_small (n - nu)) by lia.
    assert (Er : ld32 m1 (x + 4) = n - nu) by (unfold m1; rewrite ld32_st32_eq; apply u32_small; lia).
    assert (Ea : hadd x (n - nu) = a) by (unfold hadd, sizeof_Header; apply u32_small; lia).
    erewrite bind_ok; [|erewrite bind_ok by reflexivity; erewrite bind_ok by reflexivity; cbn [hp_mem set_hmem]; fold m1; rewrite Er, Ea;
      erewrite bind_ok by reflexivity; reflexivity].
    erewrite bind_ok by reflexivity. reflexivity. }
  assert (Hk : kept al h (set_freep prev (set_hmem m' h))).
  { apply (list.Forall_impl _ _ _ Hdj). intros y Hy b Hb. apply (Hoff y); [|done].
    rewrite Forall_app, !Forall_cons_iff in Hy. tauto. }
  assert (Hword : forall z, z + 4 <= x \/ x + 8 * n <= z -> ld32 m' z = ld32 (hp_mem h) z) by (intros z Hz; apply ld32_ext; intros b Hb; apply Hsame; lia).
  assert (Hwseg : forall L b, (forall y k, (y, k) ∈ L -> y + 8 <= x \/ x + 8 * n <= y) -> seg (hp_mem h) L b -> seg m' L b).
  { intros L b HL. apply seg_same. intros y k Hy. pose proof (HL y k Hy). by rewrite !Hword by lia. }
  split; [|split; [done|done]]. split; try done; cbn [hp_mem hp_brk freep set_freep set_hmem].
  - eapply head_replace; [done|done|]. constructor; [cbn; lia|done].
  - apply inc_app in Hinc as [Hi1 _]. apply seg_app. split; [|cbn [seg nxt]; split; [|split; [|split; [|split]]]].
    + apply Hwseg; [|done]. intros y k Hy. pose proof (inc_in _ _ _ _ _ Hi1 Hy). pose proof (width_pos k). lia.
    + by rewrite Hword by lia.
    + by rewrite Hword by lia.
    + unfold m', m1. by rewrite !ld32_st32_ne by lia.
    + unfold m', m1. rewrite ld32_st32_ne, ld32_st32_eq by lia. apply u32_small. lia.
    + apply Hwseg; [|done]. intros y k Hy. pose proof (inc_in _ _ _ _ _ Hir Hy). lia.
  - apply inc_app in Hinc as [Hi1 _]. apply inc_app. split; [done|]. cbn [inc]. split; [lia|]. rewrite width_unit by lia.
    apply (inc_lower (x + 8 * n)); [done|lia].
  - rewrite fmap_app. set_solver.
  - constructor; [cbn; lia|done].
  - constructor; [cbn [fst snd]; unfold m'; rewrite ld32_st32_eq; apply u32_small; lia|exact (kept_sizes al h _ Hk Hsz)].
  - constructor; [cbn [fst snd]; lia|done].
  - assert (Hi' : inc base (l ++ (prev, j) :: (x, n) :: r) (hp_brk h)) by done. rewrite (cons_middle _ l), (app_assoc l) in Hi'.
    apply inc_disj in Hi'. rewrite <- app_assoc in Hi'. rewrite Forall_app, Forall_app, Forall_singleton in Hi'. destruct Hi' as (D1 & D2 & D3).
    assert (Hsub : forall z, disj (x, n) z -> disj (a, nu) z) by (intros z; apply disj_sub; lia).
    constructor.
    + apply Forall_app. split; [by eapply list.Forall_impl|]. constructor; [by apply Hsub|]. constructor; [|by eapply list.Forall_impl].
      right. cbn [fst snd]. rewrite width_unit by lia. lia.
    + rewrite list.Forall_forall in Hdj |- *. intros y Hy. specialize (Hdj y Hy). rewrite Forall_app, !Forall_cons_iff in Hdj. rewrite Forall_app, !Forall_cons_iff.
      destruct Hdj as (? & ? & Hyx & ?). repeat split; try done. apply disj_sym, (disj_sub x n); try lia. by apply disj_sym.
Qed.

Lemma take_run : exists h' a fl', take_block nu prev x n h = Ok (a + sizeof_Header) h' /\
  heap_ok base h' fl' ((a, nu) :: al) /\ kept al h h' /\ hp_brk h' = hp_brk h.
Proof.
  destruct (Z.eq_dec n nu) as [E|E].
  - destruct (take_exact E) as (h' & H). by exists h', x, (l ++ (prev, j) :: r).
  - destruct (take_split ltac:(lia)) as (h' & H). by exists h', (x + 8 * (n - nu)), (l ++ (prev, j) :: (x, n - nu) :: r).
Qed.
End take.

(** ** malloc *)
Lemma pred_split base h fl al prev x : heap_ok base h fl al -> prev ∈ fl.*1 -> ld32 (hp_mem h) prev = x -> x <> base ->
  exists l j n r, fl = l ++ (prev, j) :: (x, n) :: r /\ ld32 (hp_mem h) (x + 4) = n.
Proof.
  intros [_ _ Hseg _ _ _ _ _ _ _ _] Hp Hx Hne. apply list_elem_of_fmap in Hp as ([y j] & -> & (l & r & ->)%list_elem_of_split).
  apply seg_app in Hseg as [_ (H1 & H2 & H3)]. cbn [fst] in *. destruct r as [|[z n] r]; cbn [nxt] in H1; [congruence|].
  exists l, j, n, r. destruct H3 as (_ & H3 & _). assert (z = x) as -> by congruence. done.
Qed.

(** The list from any of its blocks back to that block. *)
Lemma seg_rotate base h fl al f : heap_ok base h fl al -> f ∈ fl.*1 ->
  exists j rest, seg (hp_mem h) ((f, j) :: rest) f /\ fl ≡ₚ (f, j) :: rest.
Proof.
  intros [_ (tl & Hfl & _) Hseg _ _ _ _ _ _ _ _] Hf. apply list_elem_of_fmap in Hf as ([y j] & -> & (u & v & ->)%list_elem_of_split).
  exists j, (v ++ u). cbn [fst]. split; [|by rewrite <- Permutation_middle, (Permutation_app_comm u v)]. apply seg_app in Hseg as [H1 H2].
  destruct u as [|[b k] u]; [rewrite app_nil_r; injection Hfl as -> -> _; done|]. injection Hfl as -> -> _.
  change ((y, j) :: v ++ (base, 0) :: u) with (((y, j) :: v) ++ (base, 0) :: u). apply seg_app. split; done.
Qed.

Lemma inc_nodup lo l hi : inc lo l hi -> NoDup l.*1.
Proof.
  revert lo. induction l as [|[x n] l IH]; intros lo; cbn [inc fmap list_fmap fst]; [constructor|]. intros [_ H]. constructor; [|by eapply IH].
  intros ([y k] & -> & Hy)%list_elem_of_fmap. pose proof (inc_in _ _ _ _ _ H Hy). pose proof (width_pos n). cbn in *. lia.
Qed.

Section malloc.
Context `{!Sbrk} (base : Z) (nu : Z) (Hnu : 1 <= nu).

(** After a full round without a fit. *)
Definition more (fuel : nat) : H Z :=
  let! p := morecore nu in
  if p =? 0 then ret 0 else
  let! q := hptr p in
  malloc_loop fuel nu p q.

Lemma scan h rest : forall prev j fuel, seg (hp_mem h) ((prev, j) :: rest) (freep h) -> freep h ∉ rest.*1 -> (length rest < fuel)%nat ->
  (exists prev' x, prev' ∈ ((prev, j) :: rest).*1 /\ ld32 (hp_mem h) prev' = x /\ nu <= ld32 (hp_mem h) (x + 4) /\
    malloc_loop fuel nu prev (nxt rest (freep h)) h = take_block nu prev' x (ld32 (hp_mem h) (x + 4)) h) \/
  (Forall (fun x => x.2 < nu) rest /\ ld32 (hp_mem h) (freep h + 4) < nu /\
    malloc_loop fuel nu prev (nxt rest (freep h)) h = more (fuel - S (length rest)) h).
Proof.
  induction rest as [|[x n] rest IH]; intros prev j [|fuel] Hseg Hf Hfuel; cbn [length] in Hfuel; try lia; cbn [nxt malloc_loop];
    erewrite bind_ok by reflexivity.
  - destruct Hseg as (H1 & _). cbn [nxt] in H1. destruct (Z.leb_spec nu (ld32 (hp_mem h) (freep h + 4))) as [Hfit|Hno].
    + left. exists prev, (freep h). split; [set_solver|]. done.
    + right. split; [constructor|]. split; [done|]. erewrite bind_ok by reflexivity. rewrite Z.eqb_refl.
      cbn [length]. by replace (S fuel - 1)%nat with fuel by lia.
  - destruct Hseg as (H1 & _ & Hseg). cbn [nxt] in H1. pose proof Hseg as (Hx1 & Hx2 & _). rewrite Hx2.
    destruct (Z.leb_spec nu n) as [Hfit|Hno].
    + left. exists prev, x. rewrite Hx2. split; [set_solver|]. done.
    + erewrite bind_ok by reflexivity. rewrite (proj2 (Z.eqb_neq x (freep h))) by (intros ->; set_solver).
      erewrite bind_ok by reflexivity. rewrite Hx1.
      destruct (IH x n fuel Hseg ltac:(set_solver) ltac:(lia)) as [(p' & y & Hp' & Hy)|(Hall & Hlast & E)].
      * left. exists p', y. split; [set_solver|done].
      * right. split; [by constructor|]. split; [done|]. rewrite E. cbn [length]. by replace (S fuel - S (S (length rest)))%nat with (fuel - S (length rest))%nat by lia.
Qed.

(** A round of the list, from the block after [freep]: a fit is taken, or there is none. *)
Lemma round h fl al fuel : heap_ok base h fl al -> (length fl <= fuel)%nat ->
  (exists h' a fl', malloc_loop fuel nu (freep h) (ld32 (hp_mem h) (freep h)) h = Ok (a + sizeof_Header) h' /\
    heap_ok base h' fl' ((a, nu) :: al) /\ kept al h h' /\ hp_brk h' = hp_brk h) \/
  (Forall (fun x => x.2 < nu) fl /\
    malloc_loop fuel nu (freep h) (ld32 (hp_mem h) (freep h)) h = more (fuel - length fl) h).
Proof.
  intros Hok Hfuel. destruct (seg_rotate base h fl al (freep h) Hok (hk_freep _ _ _ _ Hok)) as (j & rest & Hseg & Hperm).
  pose proof (inc_nodup _ _ _ (hk_inc _ _ _ _ Hok)) as Hnd. rewrite Hperm in Hnd. apply list.NoDup_cons in Hnd as [Hf _].
  assert (Hlen : length fl = S (length rest)) by (by rewrite Hperm).
  pose proof (scan h rest (freep h) j fuel Hseg Hf ltac:(lia)) as Hscan. destruct Hseg as (H1 & H2 & _). rewrite <- H1 in Hscan.
  destruct Hscan as [(p' & x & Hp' & Hx & Hfit & E)|(Hall & Hlast & E)].
  - left. assert (Hp : p' ∈ fl.*1) by (by rewrite Hperm).
    assert (Hne : x <> base).
    { intros ->. destruct Hok as [_ (tl & -> & _) (_ & Hs0 & _) _ _ _ _ _ _ _ _]. lia. }
    destruct (pred_split base h fl al p' x Hok Hp Hx Hne) as (l & i & n & r & -> & Hn). rewrite E, Hn in *.
    by apply (take_run base h al l p' i x n r nu Hok); [lia..].
  - right. split; [|by rewrite E, Hlen]. rewrite Hperm. constructor; [|done]. cbn. by rewrite <- H2.
Qed.

(** Memory that sbrk appended, as a block in use. *)
Lemma grow_ok h fl al m k : heap_ok base h fl al -> 1 <= k -> hp_brk h + 8 * k <= KERNBASE ->
  (forall a, a < hp_brk h -> ldb m a = ldb (hp_mem h) a) ->
  let h' := mk_heap (st32 m (hp_brk h + 4) k) (hp_brk h + 8 * k) (freep h) in
  heap_ok base h' fl ((hp_brk h, k) :: al) /\ kept al h h'.
Proof.
  intros Hok Hk Hend Hm h'. pose proof (inc_le _ _ _ (hk_inc _ _ _ _ Hok)) as Hle.
  destruct Hok as [Hbase (tl & Hfl & Htl) Hseg Hinc Hbrk Hfp Hun Hsz Hbd Hdj Hap].
  assert (Hsame : forall a, a < hp_brk h -> ldb (hp_mem h') a = ldb (hp_mem h) a).
  { intros a Ha. cbn [hp_mem h']. rewrite ldb_st32, decide_False by lia. by apply Hm. }
  assert (Hword : forall a, a + 4 <= hp_brk h -> ld32 (hp_mem h') a = ld32 (hp_mem h) a) by (intros a Ha; apply ld32_ext; intros b Hb; apply Hsame; lia).
  assert (Hkept : kept al h h').
  { unfold kept. rewrite list.Forall_forall in Hbd, Hun |- *. intros x Hx a Ha. apply Hsame. specialize (Hbd x Hx). specialize (Hun x Hx).
    cbn in Hun. rewrite (width_unit x.2) in Ha by done. lia. }
  assert (Hfb : base + 8 <= hp_brk h) by (rewrite Hfl in Hle; simpl in Hle; lia).
  split; [|done]. split; try done; cbn [hp_brk freep h'].
  - by exists tl.
  - apply (seg_same (hp_mem h)); [|done]. intros y i Hy. pose proof (inc_in _ _ _ _ _ Hinc Hy). pose proof (width_pos i). by rewrite !Hword by lia.
  - apply (inc_raise _ _ (hp_brk h)); [done|lia].
  - by constructor.
  - constructor; [cbn [fst snd hp_mem h']; rewrite ld32_st32_eq; apply u32_small; unfold KERNBASE in *; lia|by apply (kept_sizes al h)].
  - constructor; [cbn [fst snd]; lia|]. apply (list.Forall_impl _ _ _ Hbd). cbn. lia.
  - constructor; [|done]. apply list.Forall_forall. intros [y i] Hy. pose proof (inc_in _ _ _ _ _ Hinc Hy). right. cbn [fst snd]. lia.
  - split; [|done]. rewrite list.Forall_forall in Hbd, Hun |- *. intros x Hx. right. specialize (Hbd x Hx). specialize (Hun x Hx). cbn in Hun.
    rewrite (width_unit x.2) by done. cbn [fst]. lia.
Qed.

Lemma morecore_run h fl al : heap_ok base h fl al -> 8 * nu < 2 ^ 31 ->
  morecore nu h = Ok 0 h \/
  exists h' fl', morecore nu h = Ok (freep h') h' /\ heap_ok base h' fl' al /\ kept al h h' /\
    (length fl' <= S (length fl))%nat /\ exists x k, (x, k) ∈ fl' /\ nu <= k.
Proof.
  intros Hok H31. unfold morecore. set (k := if nu <? 4096 then 4096 else nu).
  assert (Hk : nu <= k /\ 1 <= k /\ 8 * k < 2 ^ 31) by (unfold k; destruct (Z.ltb_spec nu 4096); lia). clearbody k. destruct Hk as (Hk & Hk1 & Hk31).
  assert (s32 (k * sizeof_Header) = 8 * k) as -> by (unfold sizeof_Header; rewrite s32_small; lia).
  pose proof (inc_le _ _ _ (hk_inc _ _ _ _ Hok)) as Hle. pose proof (hk_base _ _ _ _ Hok) as Hb. pose proof (hk_brk _ _ _ _ Hok) as Hbrk.
  destruct (sbrk_grows (8 * k) h ltac:(lia) ltac:(lia)) as [E|(m & E & Hend & Hm)]; rewrite (bind_ok _ _ _ _ _ E); [by left|].
  right. rewrite (proj2 (Z.eqb_neq _ _)) by lia. erewrite bind_ok by reflexivity.
  destruct (grow_ok h fl al m k Hok Hk1 Hend Hm) as [Hok1 Hk2].
  destruct (free_run base _ fl (hp_brk h) k al Hok1) as (h' & fl' & Ef & Hok' & Hkept & _ & _ & Hlen & x & i & Hx & Hi).
  exists h', fl'. split; [|split; [done|split; [by eapply kept_trans|split; [done|exists x, i; split; [done|lia]]]]].
  unfold set_hmem. cbn [hp_mem hp_brk freep]. rewrite (bind_ok _ _ _ _ _ Ef). reflexivity.
Qed.

Lemma malloc_loop_run h fl al fuel : heap_ok base h fl al -> 8 * nu < 2 ^ 31 -> (2 * length fl + 1 <= fuel)%nat ->
  (malloc_loop fuel nu (freep h) (ld32 (hp_mem h) (freep h)) h = Ok 0 h /\ Forall (fun x => x.2 < nu) fl) \/
  exists h' a fl', malloc_loop fuel nu (freep h) (ld32 (hp_mem h) (freep h)) h = Ok (a + sizeof_Header) h' /\
    heap_ok base h' fl' ((a, nu) :: al) /\ kept al h h'.
Proof.
  intros Hok H31 Hfuel. destruct (round h fl al fuel Hok ltac:(lia)) as [(h' & a & fl' & E & Hok' & Hk & _)|[Hall E]]; [right; by exists h', a, fl'|].
  rewrite E. unfold more. destruct (morecore_run h fl al Hok H31) as [Em|(h1 & fl1 & Em & Hok1 & Hk1 & Hlen & x & k & Hx & Hfit)];
    rewrite (bind_ok _ _ _ _ _ Em); [by left|]. right.
  assert (Hf : freep h1 <> 0).
  { pose proof (hk_freep _ _ _ _ Hok1) as Hf. apply list_elem_of_fmap in Hf as ([y j] & -> & Hy).
    pose proof (inc_in _ _ _ _ _ (hk_inc _ _ _ _ Hok1) Hy). pose proof (hk_base _ _ _ _ Hok1). cbn. lia. }
  rewrite (proj2 (Z.eqb_neq _ _)) by done. erewrite bind_ok by reflexivity.
  destruct (round h1 fl1 al (fuel - length fl) Hok1 ltac:(lia)) as [(h' & a & fl' & E' & Hok' & Hk & _)|[Hno _]].
  - exists h', a, fl'. split; [done|]. split; [done|]. by eapply kept_trans.
  - rewrite list.Forall_forall in Hno. specialize (Hno (x, k) Hx). cbn in Hno. lia.
Qed.
End malloc.

(** The heap of a process: before the first call of malloc, or with its free list. *)
Definition heap_rep (base : Z) (h : heap) (fl al : list (Z * Z)) : Prop :=
  heap_ok base h fl al \/
  (freep h = 0 /\ 0 < base /\ base + 8 <= hp_brk h <= KERNBASE /\ fl = [(base, 0)] /\ al = []).

Lemma init_ok base h : 0 < base -> base + 8 <= hp_brk h <= KERNBASE ->
  heap_ok base (set_hmem (st32 (st32 (hp_mem h) base base) (base + 4) 0) (set_freep base h)) [(base, 0)] [].
Proof.
  intros Hb Hbrk. split; try done; try (by constructor).
  - by exists [].
  - cbn [seg nxt hp_mem set_hmem]. rewrite ld32_st32_ne, ld32_st32_eq, ld32_st32_eq by lia. split; [apply u32_small; unfold KERNBASE in *; lia|done].
  - cbn [inc hp_brk set_hmem set_freep]. unfold width, sizeof_Header. lia.
  - apply Hbrk.
Qed.

Section claims.
Context `{!Sbrk}.

(** C36: malloc of any size that fits an int returns.  It returns a block that lies in
    the heap, overlaps neither the free blocks nor any block in use and has room for
    the bytes asked for, or 0, which it does only if no free block is large enough.
    The blocks in use keep their contents, and the free list stays well formed. *)
Theorem malloc_correct (base : Z) (h : heap) (fl al : list (Z * Z)) (nbytes : Z) :
  heap_rep base h fl al -> 0 <= nbytes < 2 ^ 31 - 16 ->
  (exists h', malloc base nbytes h = Ok 0 h' /\ heap_ok base h' fl al /\ kept al h h' /\
    Forall (fun x => sizeof_Header * (x.2 - 1) < nbytes) fl) \/
  (exists h' a n fl', malloc base nbytes h = Ok (a + sizeof_Header) h' /\ nbytes <= sizeof_Header * (n - 1) /\
    heap_ok base h' fl' ((a, n) :: al) /\ kept al h h').
Proof.
  intros Hrep Hn. unfold malloc. set (nu := u32 _).
  assert (Enu : nu = (nbytes + 7) / 8 + 1).
  { unfold nu, sizeof_Header. rewrite (u32_small (nbytes + 8 - 1)) by lia. replace (nbytes + 8 - 1) with (nbytes + 7) by lia. apply u32_small. zdiv. }
  assert (Hnu : 1 <= nu /\ 8 * nu < 2 ^ 31 /\ nbytes <= 8 * (nu - 1) /\ 8 * (nu - 2) < nbytes) by (clearbody nu; zdiv). clearbody nu.
  destruct Hnu as (H1 & H31 & Hroom & Htight).
  assert (Hstart : exists h1, heap_ok base h1 fl al /\ kept al h h1 /\ forall k,
    (let! prevp := reads freep in
     let! prevp := (if prevp =? 0 then modify (set_freep base) ;;; set_hptr base base ;;; set_hsize base 0 ;;; ret base else ret prevp) in
     k prevp : H Z) h = k (freep h1) h1).
  { destruct Hrep as [Hok|(Hf & Hb & Hbrk & -> & ->)].
    - exists h. split; [done|]. split; [apply kept_refl|]. intros k. erewrite bind_ok by reflexivity.
      pose proof (hk_freep _ _ _ _ Hok) as Hf. apply list_elem_of_fmap in Hf as ([y j] & E & Hy).
      pose proof (inc_in _ _ _ _ _ (hk_inc _ _ _ _ Hok) Hy). pose proof (hk_base _ _ _ _ Hok). cbn [fst] in E.
      rewrite (proj2 (Z.eqb_neq _ _)) by lia. by erewrite bind_ok by reflexivity.
    - eexists. split; [by apply (init_ok base h)|]. split; [constructor|]. intros k. erewrite bind_ok by reflexivity. rewrite Hf. reflexivity. }
  destruct Hstart as (h1 & Hok & Hk & Hrun). rewrite Hrun. do 2 erewrite bind_ok by reflexivity.
  destruct (malloc_loop_run base nu H1 h1 fl al (2 * heap_fuel h1) Hok H31) as [[E Hall]|(h' & a & fl' & E & Hok' & Hk')].
  - pose proof (fuel_enough _ _ _ _ Hok). lia.
  - left. exists h1. split; [exact E|]. split; [done|]. split; [done|]. apply (list.Forall_impl _ _ _ Hall). intros x Hx. unfold sizeof_Header. lia.
  - right. exists h', a, nu, fl'. split; [exact E|]. split; [done|]. split; [done|]. by eapply kept_trans.
Qed.

(** Free of a block in use returns, and puts exactly that block back on the free
    list, joined with the free blocks next to it: the free list stays well formed, holds
    the units of the block in addition, and every other block in use keeps its contents
    and overlaps no free block. *)
Theorem free_correct (base : Z) (h : heap) (fl al : list (Z * Z)) (a n : Z) :
  heap_ok base h fl ((a, n) :: al) ->
  exists h' fl', free (a + sizeof_Header) h = Ok tt h' /\ heap_ok base h' fl' al /\ kept al h h' /\
    units fl' = units fl + n /\ hp_brk h' = hp_brk h.
Proof. intros Hok. destruct (free_run base h fl a n al Hok) as (h' & fl' & E & Hok' & Hk & Hb & Hu & _). by exists h', fl'. Qed.
End claims.

(** A request of almost 2^32 bytes is treated like a request of none: the computation of
    the number of units overflows. *)
Lemma malloc_wraps `{!Sbrk} base n : 2 ^ 32 - 7 <= n < 2 ^ 32 -> malloc base n = malloc base 0.
Proof.
  intros Hn. unfold malloc. do 2 f_equal. unfold sizeof_Header.
  assert (u32 (n + 8 - 1) / 8 = u32 (0 + 8 - 1) / 8) as ->; [|done].
  unfold u32. replace (n + 8 - 1) with (n + 7 - 2 ^ 32 + 1 * 2 ^ 32) by lia. rewrite Z.mod_add by lia.
  rewrite !Z.mod_small by lia. zdiv.
Qed.

(** * A process *)

(** A kernel that gives the process up to 0x20000 bytes. *)
Definition limited_sbrk (n : Z) : H Z := fun h =>
  if hp_brk h + n <=? 0x20000 then Ok (hp_brk h) (mk_heap (hp_mem h) (hp_brk h + n) (freep h)) else Ok (-1) h.

#[local] Instance limited : Sbrk.
Proof.
  exists limited_sbrk. intros n h Hn Hb. unfold limited_sbrk. destruct (Z.leb_spec (hp_brk h + n) 0x20000); [right|by left].
  exists (hp_mem h). split; [done|]. split; [unfold KERNBASE; lia|done].
Defined.

Lemma malloc_correct_witness : exists r h', malloc 0x2000 100 (mk_heap ∅ 0x3000 0) = Ok r h'.
Proof.
  destruct (malloc_correct 0x2000 (mk_heap ∅ 0x3000 0) [(0x2000, 0)] [] 100) as [(h' & E & _)|(h' & a & n & fl' & E & _)].
  - right. split; [done|]. split; [lia|]. split; [cbn; unfold KERNBASE; lia|]. split; [done|done].
  - lia.
  - exists 0, h'. exact E.
  - exists (a + sizeof_Header), h'. exact E.
Defined.

Lemma free_correct_witness : exists h h', heap_ok 0x2000 h [(0x2000, 0)] [(0x3000, 16)] /\ free 0x3008 h = Ok tt h' /\
  exists fl, heap_ok 0x2000 h' fl [] /\ units fl = 16.
Proof.
  pose proof (init_ok 0x2000 (mk_heap ∅ 0x3000 0) ltac:(lia) ltac:(cbn; unfold KERNBASE; lia)) as H0.
  destruct (grow_ok 0x2000 _ _ _ _ 16 H0 ltac:(lia) ltac:(cbn; unfold KERNBASE; lia) ltac:(done)) as [H1 _].
  destruct (free_correct 0x2000 _ [(0x2000, 0)] [] 0x3000 16 H1) as (h' & fl' & E & Hok & _ & Hu & _).
  eexists. exists h'. split; [exact H1|]. split; [exact E|]. exists fl'. split; [exact Hok|exact Hu].
Defined.
