(* ===== verification/Mp.v ===== *)
(** Multiprocessor support, mp.c: the search of memory for the tables the firmware left
    there, and mpinit, which counts the processors.

    [m] gives the byte at each physical address; the code reads it through P2V. *)

From S2P Require Import Prelude Layout CString.

Section Mp.
Variable m : Z -> Z.

Definition mem_bytes (a : Z) (n : nat) : list Z := (fun i => m (a + Z.of_nat i)) <$> seq 0 n.
Definition mem16 (a : Z) : Z := m a + 2 ^ 8 * m (a + 1).
Definition mem32 (a : Z) : Z := m a + 2 ^ 8 * m (a + 1) + 2 ^ 16 * m (a + 2) + 2 ^ 24 * m (a + 3).

(** The sum of the bytes, as a uchar. *)
Definition sum (addr len : Z) : Z := u8 (foldr Z.add 0 (mem_bytes addr (Z.to_nat len))).

(** struct mp: the signature, the address of the table at 4, imcrp at 12. *)
Definition sizeof_mp : Z := 16.
Definition mp_signature : list Z := str "_MP_".
Definition mp_physaddr (mp : Z) : Z := mem32 (mp + 4).
Definition mp_imcrp (mp : Z) : Z := m (mp + 12).

(** struct mpconf: its length at 4, the version at 6, the address of the local APIC at 36. *)
Definition sizeof_mpconf : Z := 44.
Definition conf_signature : list Z := str "PCMP".
Definition conf_length (conf : Z) : Z := mem16 (conf + 4).
Definition conf_version (conf : Z) : Z := m (conf + 6).
Definition conf_lapicaddr (conf : Z) : Z := mem32 (conf + 36).

(** The loop of mpsearch1 over [n] places of sizeof(struct mp) bytes. *)
Fixpoint mpsearch1_loop (n : nat) (p : Z) : option Z :=
  match n with
  | O => None
  | S n' =>
      if (memcmp (mem_bytes p 4) mp_signature 4 =? 0) && (sum p sizeof_mp =? 0) then Some p
      else mpsearch1_loop n' (p + sizeof_mp)
  end.

Definition mpsearch1 (a len : Z) : option Z := mpsearch1_loop (Z.to_nat ((len + sizeof_mp - 1) / sizeof_mp)) a.

Definition mpsearch : option Z :=
  let bda := 0x400 in
  let p := Z.shiftl (Z.lor (Z.shiftl (m (bda + 0x0f)) 8) (m (bda + 0x0e))) 4 in
  let first :=
    if negb (p =? 0) then mpsearch1 p 1024
    else mpsearch1 (Z.lor (Z.shiftl (m (bda + 0x14)) 8) (m (bda + 0x13)) * 1024 - 1024) 1024 in
  match first with Some mp => Some mp | None => mpsearch1 0xF0000 0x10000 end.

(** The floating pointer structure and the configuration table it leads to. *)
Definition mpconfig : option (Z * Z) :=
  match mpsearch with
  | None => None
  | Some mp =>
      if mp_physaddr mp =? 0 then None else
      let conf := mp_physaddr mp in
      if negb (memcmp (mem_bytes conf 4) conf_signature 4 =? 0) then None else
      if negb (conf_version conf =? 1) && negb (conf_version conf =? 4) then None else
      if negb (sum conf (conf_length conf) =? 0) then None else
      Some (mp, conf)
  end.

(** What mpinit finds: the APIC ids of the processors (cpus[0 .. ncpu-1]), the id of the
    I/O APIC, the address of the local APIC, and whether the interrupt mode register is
    to be programmed. *)
Record mpinfo := mk_mpinfo { mi_cpus : list Z; mi_ioapicid : Z; mi_lapic : Z; mi_imcr : bool }.

Definition MPPROC : Z := 0.
Definition MPBUS : Z := 1.
Definition MPIOAPIC : Z := 2.
Definition MPIOINTR : Z := 3.
Definition MPLINTR : Z := 4.
Definition sizeof_mpproc : Z := 20.
Definition sizeof_mpioapic : Z := 8.

(** The loop over the entries.  The break of the default case leaves the switch, not the
    loop, and [p] stays where it is. *)
Fixpoint mp_entries (fuel : nat) (p e : Z) (ismp : bool) (cpus : list Z) (ioapicid : Z) : outcome () (bool * list Z * Z) :=
  if e <=? p then Ok (ismp, cpus, ioapicid) tt else
  match fuel with
  | O => Hang
  | S fuel' =>
      if m p =? MPPROC then
        let cpus := if Z.of_nat (length cpus) <? NCPU then cpus ++ [m (p + 1)] else cpus in
        mp_entries fuel' (p + sizeof_mpproc) e ismp cpus ioapicid
      else if m p =? MPIOAPIC then mp_entries fuel' (p + sizeof_mpioapic) e ismp cpus (m (p + 1))
      else if (m p =? MPBUS) || (m p =? MPIOINTR) || (m p =? MPLINTR) then mp_entries fuel' (p + 8) e ismp cpus ioapicid
      else mp_entries fuel' p e false cpus ioapicid
  end.

Definition mpinit (fuel : nat) : outcome () mpinfo :=
  match mpconfig with
  | None => Panic "Expect to run on an SMP"
  | Some (mp, conf) =>
      obind (mp_entries fuel (conf + sizeof_mpconf) (conf + conf_length conf) true [] 0) (fun r =>
        let '(ismp, cpus, ioapicid) := r in
        if negb ismp then fun _ => Panic "Didn't find a suitable machine" else
        ret (mk_mpinfo cpus ioapicid (conf_lapicaddr conf) (negb (mp_imcrp mp =? 0))))
  end.
End Mp.

(** * Specification: tables as lists of entries *)

(** A table entry with the bytes that mpinit does not look at. *)
Inductive entry :=
| E_proc (apicid : Z) (tl : list Z)
| E_ioapic (apicno : Z) (tl : list Z)
| E_other (ty : Z) (tl : list Z).

Definition entry_bytes (x : entry) : list Z :=
  match x with
  | E_proc id tl => MPPROC :: id :: tl
  | E_ioapic id tl => MPIOAPIC :: id :: tl
  | E_other ty tl => ty :: tl
  end.

Definition entry_ok (x : entry) : Prop :=
  match x with
  | E_proc _ tl => length tl = 18%nat
  | E_ioapic _ tl => length tl = 6%nat
  | E_other ty tl => (ty = MPBUS \/ ty = MPIOINTR \/ ty = MPLINTR) /\ length tl = 7%nat
  end.

Definition table (es : list entry) : list Z := concat (map entry_bytes es).

Definition apic_ids (es : list entry) : list Z := omap (fun x => match x with E_proc id _ => Some id | _ => None end) es.
Definition io_apic (es : list entry) (id0 : Z) : Z :=
  fold_left (fun id x => match x with E_ioapic id' _ => id' | _ => id end) es id0.

(** The bytes [bs] are in memory at [a]. *)
Definition holds (m : Z -> Z) (a : Z) (bs : list Z) : Prop := forall i b, bs !! i = Some b -> m (a + Z.of_nat i) = b.

(** * The search *)
Lemma holds_app m a bs bs' : holds m a (bs ++ bs') <-> holds m a bs /\ holds m (a + Z.of_nat (length bs)) bs'.
Proof.
  split.
  - intros H. split; intros i b Hi.
    + apply H. by apply lookup_app_l_Some.
    + rewrite <- (H (length bs + i)%nat b); [f_equal; lia|]. rewrite lookup_app_r by lia. by replace (length bs + i - length bs)%nat with i by lia.
  - intros [H1 H2] i b Hi. apply lookup_app_Some in Hi as [Hi|[Hl Hi]]; [by apply H1|].
    rewrite <- (H2 _ _ Hi). f_equal. lia.
Qed.

Lemma holds_head m a b bs : holds m a (b :: bs) -> m a = b.
Proof. intros H. rewrite <- (H 0%nat b eq_refl). f_equal. lia. Qed.

Definition byte_memory (m : Z -> Z) : Prop := forall a, 0 <= m a < 256.

Definition is_mp (m : Z -> Z) (p : Z) : Prop := holds m p mp_signature /\ sum m p sizeof_mp = 0.

Lemma mem_bytes_holds m a bs : mem_bytes m a (length bs) = bs <-> holds m a bs.
Proof.
  unfold mem_bytes. split.
  - intros E i b Hi. rewrite <- E in Hi. apply list_lookup_fmap_Some in Hi as (j & -> & Hj).
    apply lookup_seq in Hj as [-> _]. done.
  - intros H. apply list_eq. intros i. rewrite list_lookup_fmap. destruct (bs !! i) as [b|] eqn:Hi.
    + rewrite lookup_seq_lt by (by eapply lookup_lt_Some). cbn. by rewrite (H i b Hi).
    + rewrite lookup_seq_ge; [done|]. by apply lookup_ge_None.
Qed.

Lemma mem_bytes_ok m a n : byte_memory m -> bytes_ok (mem_bytes m a n).
Proof. intros Hm. apply Forall_fmap, list.Forall_forall. intros i _. apply Hm. Qed.

Lemma mp_test m p : byte_memory m ->
  (memcmp (mem_bytes m p 4) mp_signature 4 =? 0) && (sum m p sizeof_mp =? 0) = true <-> is_mp m p.
Proof.
  intros Hm. rewrite andb_true_iff, !Z.eqb_eq. unfold is_mp. rewrite <- (mem_bytes_holds m p mp_signature).
  rewrite memcmp_eq; [|by apply mem_bytes_ok|by repeat constructor|by vm_compute; lia|vm_compute; lia].
  change (take 4 mp_signature) with mp_signature. rewrite take_ge by (unfold mem_bytes; rewrite length_fmap, length_seq; done). done.
Qed.

(** mpsearch1 finds the first place in the range with the signature and sum zero. *)
Lemma mpsearch1_spec m a len : byte_memory m -> 0 <= len ->
  match mpsearch1 m a len with
  | Some p => exists k, 0 <= k /\ p = a + 16 * k /\ p < a + len /\ is_mp m p /\ forall j, 0 <= j < k -> ~ is_mp m (a + 16 * j)
  | None => forall j, 0 <= j -> a + 16 * j < a + len -> ~ is_mp m (a + 16 * j)
  end.
Proof.
  intros Hm Hlen. unfold mpsearch1, sizeof_mp.
  assert (H : forall n i, 0 <= i -> (forall j, 0 <= j < i -> ~ is_mp m (a + 16 * j)) ->
    match mpsearch1_loop m n (a + 16 * i) with
    | Some p => exists k, 0 <= k < i + Z.of_nat n /\ p = a + 16 * k /\ is_mp m p /\ forall j, 0 <= j < k -> ~ is_mp m (a + 16 * j)
    | None => forall j, 0 <= j < i + Z.of_nat n -> ~ is_mp m (a + 16 * j) end).
  { induction n as [|n IH]; intros i Hi Hno; cbn [mpsearch1_loop]; [intros j Hj; apply Hno; lia|].
    destruct (_ && _) eqn:E.
    - apply (mp_test m _ Hm) in E. exists i. split; [lia|]. done.
    - replace (a + 16 * i + sizeof_mp) with (a + 16 * (i + 1)) by (unfold sizeof_mp; lia).
      specialize (IH (i + 1) ltac:(lia)). replace (i + Z.of_nat (S n)) with (i + 1 + Z.of_nat n) by lia. apply IH.
      intros j Hj. destruct (decide (j = i)) as [->|]; [|apply Hno; lia]. intros Hmp. apply (mp_test m _ Hm) in Hmp. congruence. }
  specialize (H (Z.to_nat ((len + 16 - 1) / 16)) 0 ltac:(lia) ltac:(lia)). replace (a + 16 * 0) with a in H by lia.
  assert (0 <= (len + 16 - 1) / 16) by (apply Z.div_pos; lia).
  destruct (mpsearch1_loop m _ a) as [p|].
  - destruct H as (k & Hk & -> & H1 & H2). exists k. repeat (split; [lia || done|]). split; [zdiv|done].
  - intros j Hj Hl. apply H. zdiv.
Qed.

(** * The entries *)
Lemma entry_length x : entry_ok x ->
  Z.of_nat (length (entry_bytes x)) = match x with E_proc _ _ => sizeof_mpproc | _ => 8 end.
Proof. destruct x as [id tl|id tl|ty tl]; cbn [entry_ok entry_bytes length]; [intros ->|intros ->|intros [_ ->]]; done. Qed.

Lemma entry_type_other ty : ty = MPBUS \/ ty = MPIOINTR \/ ty = MPLINTR ->
  (ty =? MPPROC) = false /\ (ty =? MPIOAPIC) = false /\ (ty =? MPBUS) || (ty =? MPIOINTR) || (ty =? MPLINTR) = true.
Proof. by intros [->|[-> | ->]]. Qed.

(** The loop over entries that are in memory: it takes them one by one. *)
Lemma mp_entries_table m e ismp es : forall fuel p cpus id,
  Forall entry_ok es -> holds m p (table es) -> p + Z.of_nat (length (table es)) <= e ->
  mp_entries m (length es + fuel) p e ismp cpus id =
  mp_entries m fuel (p + Z.of_nat (length (table es))) e ismp (cpus ++ take (Z.to_nat NCPU - length cpus) (apic_ids es)) (io_apic es id).
Proof.
  induction es as [|x es IH]; intros fuel p cpus id Hok Hh He.
  - cbn [length table map concat apic_ids omap list_omap io_apic fold_left]. by rewrite take_nil, app_nil_r, Z.add_0_r.
  - inversion Hok as [|? ? Hx Hes]; subst. pose proof (entry_length x Hx) as Hl.
    change (table (x :: es)) with (entry_bytes x ++ table es) in *. rewrite length_app, Nat2Z.inj_add in *.
    apply holds_app in Hh as [Hh1 Hh2]. cbn [length Nat.add].
    assert (Hlt : (e <=? p) = false) by (apply Z.leb_gt; destruct x; unfold sizeof_mpproc in Hl; lia).
    cbn [mp_entries]. rewrite Hlt. rewrite Z.add_assoc.
    destruct x as [a tl|a tl|ty tl]; cbn [entry_bytes] in Hh1.
    + rewrite (holds_head m p _ _ Hh1), Z.eqb_refl. rewrite Hl in *. pose proof (Hh1 1%nat a eq_refl) as Ha. change (Z.of_nat 1) with 1 in Ha.
      rewrite Ha, IH by (done || lia). f_equal. change (apic_ids (E_proc a tl :: es)) with (a :: apic_ids es).
      destruct (Z.ltb_spec (Z.of_nat (length cpus)) NCPU) as [Hn|Hn]; unfold NCPU in *.
      * rewrite length_app. cbn [length]. replace (Z.to_nat 8 - length cpus)%nat with (S (Z.to_nat 8 - (length cpus + 1))) by lia.
        by rewrite <- app_assoc.
      * replace (Z.to_nat 8 - length cpus)%nat with 0%nat by lia. done.
    + rewrite (holds_head m p _ _ Hh1). change (MPIOAPIC =? MPPROC) with false. rewrite Z.eqb_refl. rewrite Hl in *.
      pose proof (Hh1 1%nat a eq_refl) as Ha. change (Z.of_nat 1) with 1 in Ha. rewrite Ha. unfold sizeof_mpioapic. by rewrite IH by (done || lia).
    + rewrite (holds_head m p _ _ Hh1). destruct Hx as [Hty _]. destruct (entry_type_other ty Hty) as (-> & -> & ->). rewrite Hl in *.
      by rewrite IH by (done || lia).
Qed.

(** An entry of an unknown type is never left. *)
Lemma mp_entries_stuck m fuel p e ismp cpus id : p < e -> 4 < m p -> mp_entries m fuel p e ismp cpus id = Hang.
Proof.
  intros He Hp. revert ismp. induction fuel as [|fuel IH]; intros ismp; cbn [mp_entries]; rewrite (proj2 (Z.leb_gt _ _)) by done; [done|].
  unfold MPPROC, MPIOAPIC, MPBUS, MPIOINTR, MPLINTR. rewrite !(proj2 (Z.eqb_neq _ _)) by lia. apply IH.
Qed.

(** The loop returns or not; with more fuel it returns the same. *)
Lemma mp_entries_cases m fuel : forall p e ismp cpus id,
  mp_entries m fuel p e ismp cpus id = Hang \/
  exists r, forall k, mp_entries m (fuel + k) p e ismp cpus id = Ok r tt.
Proof.
  induction fuel as [|fuel IH]; intros p e ismp cpus id.
  - cbn [mp_entries]. destruct (e <=? p) eqn:E; [right|by left]. eexists. intros [|k]; cbn [Nat.add mp_entries]; by rewrite E.
  - cbn [mp_entries Nat.add]. destruct (e <=? p) eqn:E; [right; by eexists|].
    destruct (m p =? MPPROC); [apply IH|]. destruct (m p =? MPIOAPIC); [apply IH|]. destruct (_ || _); apply IH.
Qed.

(** The table found by mpconfig holds the entries [es], and more bytes after them. *)
Definition has_table (m : Z -> Z) (mp conf : Z) (es : list entry) : Prop :=
  mpconfig m = Some (mp, conf) /\ Forall entry_ok es /\ holds m (conf + sizeof_mpconf) (table es).

(** C10: mpinit reads the table of the firmware.  With as much fuel as there are entries it
    returns: the processors are the first NCPU of the processor entries, in order, the I/O
    APIC is that of the last I/O APIC entry, and the local APIC that of the header. *)
Theorem mpinit_correct m fuel mp conf es :
  has_table m mp conf es -> sizeof_mpconf + Z.of_nat (length (table es)) = conf_length m conf -> (length es <= fuel)%nat ->
  mpinit m fuel = Ok (mk_mpinfo (take (Z.to_nat NCPU) (apic_ids es)) (io_apic es 0) (conf_lapicaddr m conf) (negb (mp_imcrp m mp =? 0))) tt.
Proof.
  intros (Hc & Hok & Hh) Hl Hf. unfold mpinit. rewrite Hc.
  replace fuel with (length es + (fuel - length es))%nat by lia.
  rewrite (mp_entries_table m _ true es) by (done || lia). cbn [length app]. rewrite Nat.sub_0_r.
  replace (mp_entries m (fuel - length es) _ _ true _ _) with (@Ok () _ (true, take (Z.to_nat NCPU) (apic_ids es), io_apic es 0) tt); [done|].
  destruct (fuel - length es)%nat; cbn [mp_entries]; by rewrite (proj2 (Z.leb_le _ _)) by lia.
Qed.

(** A table with an entry of a type that mpinit does not know hangs the machine: the
    break in the default case ends the switch and not the loop, so the same entry is met
    for ever and the panic behind the loop is never reached. *)
Theorem mpinit_unknown_entry_hangs m mp conf es :
  has_table m mp conf es -> sizeof_mpconf + Z.of_nat (length (table es)) < conf_length m conf ->
  4 < m (conf + sizeof_mpconf + Z.of_nat (length (table es))) ->
  forall fuel, mpinit m fuel = Hang.
Proof.
  intros (Hc & Hok & Hh) Hl Ht fuel. unfold mpinit. rewrite Hc.
  destruct (mp_entries_cases m fuel (conf + sizeof_mpconf) (conf + conf_length m conf) true [] 0) as [E|[r E]]; [by rewrite E|].
  specialize (E (length es)). rewrite Nat.add_comm, (mp_entries_table m _ true es) in E by (done || lia).
  by rewrite mp_entries_stuck in E by (done || lia).
Qed.

(** ** Witnesses: two processors and an I/O APIC, found in the BIOS area *)
Definition demo_entries : list entry := [E_proc 0 (replicate 18 0); E_other 1 (replicate 7 0); E_proc 3 (replicate 18 0); E_ioapic 2 (replicate 6 0)].

(** A table of [len] bytes at 0x100000 and the structure that points to it; the check
    bytes make the sums zero. *)
Definition demo_mp : list Z := mp_signature ++ [0; 0; 16; 0; 1; 4; 144; 0; 0; 0; 0; 0].
Definition demo_conf (len check : Z) : list Z :=
  conf_signature ++ [len; 0; 4; check] ++ replicate 28 0 ++ [0; 0; 224; 254] ++ replicate 4 0 ++ table demo_entries.
Definition demo_memory (len check extra : Z) : Z -> Z := fun a =>
  if (0xF0020 <=? a) && (a <? 0xF0030) then nth (Z.to_nat (a - 0xF0020)) demo_mp 0
  else if (0x100000 <=? a) && (a <? 0x100064) then nth (Z.to_nat (a - 0x100000)) (demo_conf len check) 0
  else if a =? 0x100064 then extra else 0.

Lemma demo_holds len check extra : holds (demo_memory len check extra) (0x100000 + sizeof_mpconf) (table demo_entries).
Proof.
  apply mem_bytes_holds. vm_compute. reflexivity.
Qed.

Lemma mpinit_correct_witness :
  mpinit (demo_memory 100 130 0) 4 = Ok (mk_mpinfo [0; 3] 2 0xfee00000 false) tt.
Proof.
  refine (eq_trans (mpinit_correct (demo_memory 100 130 0) 4 0xF0020 0x100000 demo_entries _ _ _) _).
  - split; [vm_compute; reflexivity|]. split; [|apply demo_holds]. repeat constructor.
  - vm_compute. reflexivity.
  - done.
  - vm_compute. reflexivity.
Defined.

(** The same table with a last entry of type 7. *)
Lemma mpinit_unknown_entry_hangs_witness : mpinit (demo_memory 101 122 7) 1000 = Hang.
Proof.
  apply (mpinit_unknown_entry_hangs (demo_memory 101 122 7) 0xF0020 0x100000 demo_entries).
  - split; [vm_compute; reflexivity|]. split; [|apply demo_holds]. repeat constructor.
  - vm_compute. reflexivity.
  - vm_compute. reflexivity.
Defined.
