(* ===== verification/Boot.v ===== *)
(** The boot loader, bootmain.c: it reads the kernel, an ELF file that starts at sector 1
    of the disk, to the physical addresses its program headers ask for.

    [disk] gives the bytes of each sector, and memory the byte at each physical address.
    waitdisk only polls the status of the disk.  The sector that is read is the one the
    disk decodes from the bytes written to its ports.  Addresses are numbers that do not
    wrap around; the theorem asks for segments below 2^32. *)

From S2P Require Import Prelude Layout CString Mp.

Definition SECTSIZE : Z := 512.
Definition ELF_MAGIC : Z := 0x464C457F.

Abbreviation bytes := (Z -> Z).

Section Boot.
Variable disk : Z -> Z -> Z.

(** The sector number in the ports 0x1F3 to 0x1F6. *)
Definition lba (b3 b4 b5 b6 : Z) : Z := b3 + 2 ^ 8 * b4 + 2 ^ 16 * b5 + 2 ^ 24 * (b6 mod 16).

Definition readsect (m : bytes) (dst offset : Z) : bytes :=
  let sector := lba (u8 offset) (u8 (Z.shiftr offset 8)) (u8 (Z.shiftr offset 16)) (u8 (Z.lor (Z.shiftr offset 24) 0xE0)) in
  fun a => if (dst <=? a) && (a <? dst + SECTSIZE) then disk sector (a - dst) else m a.

(** [n] turns of the loop of readseg. *)
Fixpoint readseg_loop (n : nat) (m : bytes) (pa epa offset : Z) : bytes :=
  match n with
  | O => m
  | S n' => if pa <? epa then readseg_loop n' (readsect m pa offset) (pa + SECTSIZE) epa (offset + 1) else m
  end.

(** Every turn advances by a sector, so the distance to the end bounds their number. *)
Definition readseg (m : bytes) (pa count offset : Z) : bytes :=
  let epa := pa + count in
  let pa := pa - offset mod SECTSIZE in
  readseg_loop (Z.to_nat ((count + 2 * SECTSIZE) / SECTSIZE)) m pa epa (offset / SECTSIZE + 1).

Definition stosb (m : bytes) (a v n : Z) : bytes := fun x => if (a <=? x) && (x <? a + n) then v else m x.

(** struct elfhdr and struct proghdr in memory, and their sizes. *)
Definition elf_magic (m : bytes) (elf : Z) : Z := mem32 m elf.
Definition elf_entry (m : bytes) (elf : Z) : Z := mem32 m (elf + 24).
Definition elf_phoff (m : bytes) (elf : Z) : Z := mem32 m (elf + 28).
Definition elf_phnum (m : bytes) (elf : Z) : Z := mem16 m (elf + 44).
Definition ph_size : Z := 32.

Record segment := mk_segment { sg_off : Z; sg_paddr : Z; sg_filesz : Z; sg_memsz : Z }.
Definition segment_at (m : bytes) (ph : Z) : segment :=
  mk_segment (mem32 m (ph + 4)) (mem32 m (ph + 12)) (mem32 m (ph + 16)) (mem32 m (ph + 20)).

(** The body of the loop over the program headers. *)
Definition load_segment (m : bytes) (s : segment) : bytes :=
  let pa := sg_paddr s in
  let m := readseg m pa (sg_filesz s) (sg_off s) in
  if sg_filesz s <? sg_memsz s then stosb m (pa + sg_filesz s) 0 (sg_memsz s - sg_filesz s) else m.

Fixpoint load_loop (n : nat) (m : bytes) (ph : Z) : bytes :=
  match n with
  | O => m
  | S n' => load_loop n' (load_segment m (segment_at m ph)) (ph + ph_size)
  end.

Definition scratch : Z := 0x10000.

(** The memory and the entry point that is called, or nothing for a file of another kind. *)
Definition bootmain (m : bytes) : option (bytes * Z) :=
  let elf := scratch in
  let m := readseg m elf 4096 0 in
  if negb (elf_magic m elf =? ELF_MAGIC) then None else
  let ph := elf + elf_phoff m elf in
  let m := load_loop (Z.to_nat (elf_phnum m elf)) m ph in
  Some (m, elf_entry m elf).

(** * Specification *)

(** The kernel file, from sector 1 on. *)
Definition kernel (i : Z) : Z := disk (i / SECTSIZE + 1) (i mod SECTSIZE).

(** The headers in the file, and the segments they describe. *)
Definition file_segments : list segment :=
  (fun i => segment_at kernel (elf_phoff kernel 0 + ph_size * Z.of_nat i)) <$> seq 0 (Z.to_nat (elf_phnum kernel 0)).

(** Memory holds the segment: its part of the file, and zeros behind it. *)
Definition loaded (m : bytes) (s : segment) : Prop :=
  (forall i, 0 <= i < sg_filesz s -> m (sg_paddr s + i) = kernel (sg_off s + i)) /\
  (forall i, sg_filesz s <= i < sg_memsz s -> m (sg_paddr s + i) = 0).

(** The lowest address that loading the segment writes to, and the end of the segment. *)
Definition sg_low (s : segment) : Z := sg_paddr s - sg_off s mod SECTSIZE.
Definition sg_end (s : segment) : Z := sg_paddr s + Z.max (sg_filesz s) (sg_memsz s).

Definition segment_ok (s : segment) : Prop :=
  0 <= sg_off s /\ 0 <= sg_filesz s /\ 0 <= sg_memsz s /\ sg_off s + sg_filesz s + SECTSIZE < 2 ^ 32 /\ sg_end s + SECTSIZE <= 2 ^ 32.

(** The segments are in increasing order, and each starts, rounded down to the sector,
    behind the one before it, and behind [low]. *)
Fixpoint increasing (low : Z) (l : list segment) : Prop :=
  match l with
  | [] => True
  | s :: l' => segment_ok s /\ low <= sg_low s /\ increasing (sg_end s) l'
  end.

(** * Proofs *)
Lemma low_bits x : 0 <= x < 16 -> (Z.lor x 224 mod 256) mod 16 = x.
Proof.
  intros Hx. change 256 with (2 ^ 8). change 16 with (2 ^ 4). rewrite <- !Z.land_ones, <- Z.land_assoc by lia.
  change (Z.land (Z.ones 8) (Z.ones 4)) with (Z.ones 4). rewrite Z.land_lor_distr_l. change (Z.land 224 (Z.ones 4)) with 0.
  rewrite Z.lor_0_r, Z.land_ones by lia. apply Z.mod_small. lia.
Qed.

Lemma lba_spec n : 0 <= n < 2 ^ 28 -> lba (u8 n) (u8 (Z.shiftr n 8)) (u8 (Z.shiftr n 16)) (u8 (Z.lor (Z.shiftr n 24) 0xE0)) = n.
Proof.
  intros Hn. unfold lba, u8. rewrite !Z.shiftr_div_pow2 by lia. change (2 ^ 8) with 256. rewrite low_bits by zdiv.
  change (2 ^ 16) with 65536. change (2 ^ 24) with 16777216. zdiv.
Qed.

Lemma readsect_spec m dst n a : 0 <= n < 2 ^ 28 ->
  readsect m dst n a = if (dst <=? a) && (a <? dst + SECTSIZE) then disk n (a - dst) else m a.
Proof. intros Hn. unfold readsect. by rewrite lba_spec. Qed.

Lemma readseg_loop_spec n : forall m p epa s a, 0 <= s -> s + Z.of_nat n < 2 ^ 28 ->
  (a < p -> readseg_loop n m p epa s a = m a) /\
  (epa - p <= SECTSIZE * Z.of_nat n -> p <= a < epa -> readseg_loop n m p epa s a = disk (s + (a - p) / SECTSIZE) ((a - p) mod SECTSIZE)).
Proof.
  induction n as [|n IH]; intros m p epa s a H0 Hs; cbn [readseg_loop]; [split; [done|lia]|].
  destruct (Z.ltb_spec p epa) as [Hlt|Hge]; [|split; [done|lia]].
  destruct (IH (readsect m p s) (p + SECTSIZE) epa (s + 1) a ltac:(lia) ltac:(lia)) as [I1 I2]. unfold SECTSIZE in *.
  split.
  - intros Ha. rewrite I1 by lia. rewrite readsect_spec by lia. rewrite (proj2 (Z.leb_gt p a)) by lia. done.
  - intros He Ha. destruct (decide (a < p + 512)) as [Hin|Hout].
    + rewrite I1 by done. rewrite readsect_spec by lia. unfold SECTSIZE. rewrite (proj2 (Z.leb_le p a)), (proj2 (Z.ltb_lt _ _)) by lia. cbn [andb].
      rewrite Z.div_small, Z.mod_small by lia. by rewrite Z.add_0_r.
    + rewrite I2 by lia. f_equal; zdiv.
Qed.

Lemma readseg_spec m pa count off a : 0 <= off -> 0 <= count -> off + count + SECTSIZE < 2 ^ 32 ->
  (pa <= a < pa + count -> readseg m pa count off a = kernel (off + (a - pa))) /\
  (a < pa - off mod SECTSIZE -> readseg m pa count off a = m a).
Proof.
  intros H0 Hc Hs. unfold readseg, kernel. unfold SECTSIZE in *.
  assert (Hn : 0 <= (count + 2 * 512) / 512 < 2 ^ 24) by zdiv. assert (Ho : 0 <= off / 512 < 2 ^ 24) by zdiv.
  assert (Hr : 0 <= off mod 512 < 512) by (apply Z.mod_pos_bound; lia).
  destruct (readseg_loop_spec (Z.to_nat ((count + 2 * 512) / 512)) m (pa - off mod 512) (pa + count) (off / 512 + 1) a) as [I1 I2]; [lia|lia|].
  split; [|exact I1]. intros Ha. unfold SECTSIZE in I2. rewrite I2; [|zdiv|lia]. f_equal; zdiv.
Qed.

Lemma load_segment_spec m s : segment_ok s -> loaded (load_segment m s) s /\ forall a, a < sg_low s -> load_segment m s a = m a.
Proof.
  intros (H0 & H1 & H2 & H3 & _). unfold load_segment, loaded, sg_low.
  assert (Hr : 0 <= sg_off s mod SECTSIZE) by (apply Z.mod_pos_bound; done).
  assert (R : forall a, (sg_paddr s <= a < sg_paddr s + sg_filesz s -> readseg m (sg_paddr s) (sg_filesz s) (sg_off s) a = kernel (sg_off s + (a - sg_paddr s))) /\
    (a < sg_paddr s - sg_off s mod SECTSIZE -> readseg m (sg_paddr s) (sg_filesz s) (sg_off s) a = m a)) by (intros; by apply readseg_spec).
  destruct (Z.ltb_spec (sg_filesz s) (sg_memsz s)); unfold stosb; (split; [split|]).
  - intros i Hi. rewrite (proj2 (Z.leb_gt _ _)) by lia. cbn [andb]. rewrite (proj1 (R _)) by lia. f_equal. lia.
  - intros i Hi. by rewrite (proj2 (Z.leb_le _ _)), (proj2 (Z.ltb_lt _ _)) by lia.
  - intros a Ha. rewrite (proj2 (Z.leb_gt _ _)) by lia. cbn [andb]. by apply R.
  - intros i Hi. rewrite (proj1 (R _)) by lia. f_equal. lia.
  - lia.
  - intros a Ha. by apply R.
Qed.

(** Loading a list of segments in increasing order. *)
Lemma load_list_spec l : forall m low, increasing low l ->
  Forall (loaded (fold_left load_segment l m)) l /\ forall a, a < low -> fold_left load_segment l m a = m a.
Proof.
  induction l as [|s l IH]; intros m low Hl; [done|]. destruct Hl as (Hs & Hlow & Hl). cbn [fold_left].
  destruct (load_segment_spec m s Hs) as [[L1 L2] L3]. destruct (IH (load_segment m s) (sg_end s) Hl) as [I1 I2].
  destruct Hs as (H0 & H1 & H2 & _). unfold sg_end in *. split.
  - constructor; [|exact I1]. split; intros i Hi; rewrite I2 by lia; [by apply L1|by apply L2].
  - assert (0 <= sg_off s mod SECTSIZE) by (apply Z.mod_pos_bound; done).
    intros a Ha. rewrite I2 by (unfold sg_low in *; lia). apply L3. lia.
Qed.

(** The first page of the file is at the scratch address. *)
Definition page_read (m : bytes) : Prop := forall i, 0 <= i < 4096 -> m (scratch + i) = kernel i.

Lemma mem32_page m a : page_read m -> 0 <= a <= 4092 -> mem32 m (scratch + a) = mem32 kernel a.
Proof. intros H Ha. unfold mem32. rewrite <- !Z.add_assoc. by rewrite !H by lia. Qed.

Lemma mem16_page m a : page_read m -> 0 <= a <= 4094 -> mem16 m (scratch + a) = mem16 kernel a.
Proof. intros H Ha. unfold mem16. rewrite <- !Z.add_assoc. by rewrite !H by lia. Qed.

Lemma segment_page m a : page_read m -> 0 <= a <= 4096 - ph_size -> segment_at m (scratch + a) = segment_at kernel a.
Proof. intros H Ha. unfold ph_size in Ha. unfold segment_at. rewrite <- !Z.add_assoc. by rewrite !mem32_page by (done || lia). Qed.

Lemma load_loop_spec n : forall m off low, page_read m -> 0 <= off -> off + ph_size * Z.of_nat n <= 4096 -> scratch + 4096 <= low ->
  increasing low ((fun i => segment_at kernel (off + ph_size * Z.of_nat i)) <$> seq 0 n) ->
  load_loop n m (scratch + off) = fold_left load_segment ((fun i => segment_at kernel (off + ph_size * Z.of_nat i)) <$> seq 0 n) m.
Proof.
  induction n as [|n IH]; intros m off low Hp H0 Hn Hlow Hl; [done|]. unfold ph_size in *.
  cbn [seq fmap list_fmap fold_left load_loop increasing] in *. rewrite Z.mul_0_r, Z.add_0_r in *.
  rewrite segment_page by (unfold ph_size; done || lia). destruct Hl as (Hs & Hsl & Hl). rewrite <- Z.add_assoc.
  assert (E : forall i, off + 32 * Z.of_nat (S i) = off + ph_size + 32 * Z.of_nat i) by (intros; unfold ph_size; lia).
  assert (Ef : (fun i => segment_at kernel (off + 32 * Z.of_nat i)) <$> seq 1 n = (fun i => segment_at kernel (off + ph_size + 32 * Z.of_nat i)) <$> seq 0 n).
  { rewrite <- fmap_S_seq, <- list_fmap_compose. apply list_fmap_ext. intros _ i _. cbn. by rewrite E. }
  rewrite Ef in *. destruct (load_segment_spec m _ Hs) as [_ Hk]. unfold ph_size in *. apply (IH _ _ (sg_end (segment_at kernel off))); try done; try lia.
  - intros i Hi. rewrite Hk by lia. by apply Hp.
  - destruct Hs as (? & ? & ? & _). unfold sg_end, sg_low in *. assert (0 <= sg_off (segment_at kernel off) mod SECTSIZE) by (apply Z.mod_pos_bound; done). lia.
Qed.

(** C7: the boot loader loads the kernel.  When the file is an ELF file whose headers are
    in its first page and whose segments come in increasing order behind the scratch page,
    each rounded down to a sector behind the one before it, bootmain calls the entry point
    of the file, with every segment in memory at its physical address, the part that is in
    the file and zeros for the rest. *)
Theorem bootmain_loads m :
  elf_magic kernel 0 = ELF_MAGIC -> 0 <= elf_phoff kernel 0 -> 0 <= elf_phnum kernel 0 ->
  elf_phoff kernel 0 + ph_size * elf_phnum kernel 0 <= 4096 -> increasing (scratch + 4096) file_segments ->
  exists m', bootmain m = Some (m', elf_entry kernel 0) /\ Forall (loaded m') file_segments.
Proof.
  intros Hmagic Hoff Hnum Hpage Hinc. unfold bootmain. set (m1 := readseg m scratch 4096 0).
  assert (Hp : page_read m1).
  { intros i Hi. unfold m1. rewrite (proj1 (readseg_spec m scratch 4096 0 (scratch + i) ltac:(lia) ltac:(lia) ltac:(done))) by lia. f_equal. lia. }
  clearbody m1. pose proof (mem32_page m1 0 Hp ltac:(lia)) as E0. pose proof (mem32_page m1 28 Hp ltac:(lia)) as E28.
  pose proof (mem16_page m1 44 Hp ltac:(lia)) as E44. rewrite Z.add_0_r in E0. unfold elf_magic, elf_phoff, elf_phnum, elf_entry in *.
  rewrite E0, E28, E44, Hmagic, Z.eqb_refl. cbn [negb].
  rewrite (load_loop_spec _ _ _ (scratch + 4096)); [|done|done|rewrite Z2Nat.id; done|done|exact Hinc].
  change (fmap _ (seq 0 (Z.to_nat (mem16 kernel 44)))) with file_segments.
  destruct (load_list_spec file_segments m1 (scratch + 4096) Hinc) as [Hl Hk]. eexists. split; [|exact Hl].
  apply (f_equal Some), (f_equal (pair _)). apply mem32_page; [|lia]. intros i Hi. rewrite Hk by lia. by apply Hp.
Qed.
End Boot.

(** A kernel file with two segments, the first with five bytes in the file and ten in memory. *)
Definition little4 (x : Z) : list Z := [x mod 256; x / 256 mod 256; x / 65536 mod 256; x / 16777216 mod 256].
Definition small_headers : list Z :=
  little4 ELF_MAGIC ++ replicate 20 0 ++ little4 0x10000C ++ little4 52 ++ replicate 12 0 ++ [2; 0] ++ replicate 6 0 ++
  mjoin (little4 <$> [1; 0x1000; 0x80100000; 0x100000; 5; 10; 7; 0x1000]) ++
  mjoin (little4 <$> [1; 0x1205; 0x80100405; 0x100405; 3; 3; 6; 0x1000]).
Definition small_kernel (i : Z) : Z :=
  if i <? 0x1000 then nth (Z.to_nat i) small_headers 0
  else if i <? 0x1200 then nth (Z.to_nat (i - 0x1000)) [1; 2; 3; 4; 5] 0xCC else nth (Z.to_nat (i - 0x1205)) [6; 7; 8] 0xCC.
Definition small_disk (sector off : Z) : Z := small_kernel (SECTSIZE * (sector - 1) + off).

Lemma bootmain_loads_witness : exists m', bootmain small_disk (fun _ => 0xFF) = Some (m', 0x10000C) /\
  Forall (loaded small_disk m') [mk_segment 0x1000 0x100000 5 10; mk_segment 0x1205 0x100405 3 3].
Proof.
  apply (bootmain_loads small_disk (fun _ => 0xFF)); try (vm_compute; congruence).
  replace (file_segments small_disk) with [mk_segment 0x1000 0x100000 5 10; mk_segment 0x1205 0x100405 3 3] by (vm_compute; reflexivity).
  repeat split; vm_compute; congruence.
Defined.
