(* ===== verification/State.v ===== *)
(** The global state of the kernel: one record per source file that declares
    globals, with the structs of proc.h, spinlock.h, sleeplock.h, buf.h, file.h,
    fs.h and mmu.h as records.

    A pointer to an element of a static array (a proc, a buf, an inode, a file, a
    struct page) is its index; a null pointer is [None].  The spin locks are kept
    together in [k_sync], keyed by the struct that contains them, so that the
    locking code of spinlock.c and the data it protects change independently. *)

From S2P Require Import Prelude Layout CString.

(** ** spinlock.h and the per-CPU state of proc.h *)

(** The name and the call stack recorded for debugging are left out. *)
Record spinlock := mk_spinlock { lk_locked : Z; lk_cpu : option nat }.

(** Which lock: the global ones, and the one inside each pipe, and inside the
    sleep-lock of each buffer and inode. *)
Inductive lockid :=
| L_ptable | L_ticks | L_kmem | L_bcache | L_ide | L_log | L_icache | L_ftable | L_cons
| L_pipe (addr : Z) | L_buf (i : nat) | L_inode (i : nat).

#[global] Instance lockid_eq_dec : EqDecision lockid.
Proof. solve_decision. Defined.

#[global] Instance lockid_countable : Countable lockid.
Proof.
  refine (inj_countable'
    (fun l => match l with
      | L_ptable => (0%nat, 0%Z) | L_ticks => (1%nat, 0%Z) | L_kmem => (2%nat, 0%Z)
      | L_bcache => (3%nat, 0%Z) | L_ide => (4%nat, 0%Z) | L_log => (5%nat, 0%Z)
      | L_icache => (6%nat, 0%Z) | L_ftable => (7%nat, 0%Z) | L_cons => (8%nat, 0%Z)
      | L_pipe a => (9%nat, a) | L_buf i => (10%nat, Z.of_nat i) | L_inode i => (11%nat, Z.of_nat i)
      end)
    (fun p => match p with
      | (0%nat, _) => L_ptable | (1%nat, _) => L_ticks | (2%nat, _) => L_kmem
      | (3%nat, _) => L_bcache | (4%nat, _) => L_ide | (5%nat, _) => L_log
      | (6%nat, _) => L_icache | (7%nat, _) => L_ftable | (8%nat, _) => L_cons
      | (9%nat, a) => L_pipe a | (10%nat, i) => L_buf (Z.to_nat i) | (_, i) => L_inode (Z.to_nat i)
      end) _).
  intros []; simpl; rewrite ?Nat2Z.id; done.
Defined.

Record cpu := mk_cpu {
  apicid : Z;
  started : Z;
  ncli : Z;
  intena : bool;
  cpu_proc : option nat;
  (** the interrupt flag FL_IF of the processor's eflags *)
  eflags_if : bool }.

Record sync := mk_sync {
  cpus : list cpu;
  (** the processor that executes: lapicid() is its APIC id *)
  cur : nat;
  locks : gmap lockid spinlock }.

(** ** sleeplock.h: without the embedded spin lock, which is in [locks] *)
Record sleeplock := mk_sleeplock { sl_locked : Z; sl_pid : Z }.

(** ** proc.h and x86.h *)
Inductive procstate := UNUSED | EMBRYO | SLEEPING | RUNNABLE | RUNNING | ZOMBIE.

(** The addresses processes sleep on. *)
Inductive chan :=
| C_proc (i : nat) | C_ticks | C_log | C_input | C_buf (i : nat)
| C_buflock (i : nat) | C_inodelock (i : nat) | C_pipe_r (addr : Z) | C_pipe_w (addr : Z).

Record trapframe := mk_trapframe {
  tf_edi : Z; tf_esi : Z; tf_ebp : Z; tf_oesp : Z; tf_ebx : Z; tf_edx : Z; tf_ecx : Z; tf_eax : Z;
  tf_gs : Z; tf_fs : Z; tf_es : Z; tf_ds : Z; tf_trapno : Z; tf_err : Z; tf_eip : Z; tf_cs : Z;
  tf_eflags : Z; tf_esp : Z; tf_ss : Z }.

Record context := mk_context { cx_edi : Z; cx_esi : Z; cx_ebx : Z; cx_ebp : Z; cx_eip : Z }.

Record proc := mk_proc {
  p_sz : Z;
  p_pgdir : Z;
  p_kstack : Z;
  p_state : procstate;
  p_pid : Z;
  p_parent : option nat;
  p_tf : trapframe;
  p_context : context;
  p_chan : option chan;
  p_killed : Z;
  p_ofile : list (option nat);
  p_cwd : option nat;
  p_name : list Z }.

Record ptable := mk_ptable { procs : list proc; nextpid : Z; initproc : option nat }.

(** ** kalloc.c *)
Record page := mk_page {
  pg_next : option nat;
  pg_prev : option nat;
  pg_pgdir : Z;
  pg_vaddr : Z }.

Record kmem := mk_kmem {
  use_lock : bool;
  freelist : Z;
  pages : list page;
  page_lru_head : option nat;
  num_lru_pages : Z;
  swapbitmap : list Z }.

(** ** buf.h and bio.c: index [NBUF] is [bcache.head] *)
Record buf := mk_buf {
  b_flags : Z;
  b_dev : Z;
  b_blockno : Z;
  b_lock : sleeplock;
  b_refcnt : Z;
  b_prev : nat;
  b_next : nat;
  b_data : list Z }.

Record bcache := mk_bcache { bufs : list buf; head_prev : nat; head_next : nat }.

(** ** ide.c: the request queue, and the disk behind the driver *)
Record disk := mk_disk {
  idequeue : list nat;
  havedisk1 : bool;
  (** disksize of memide.c, in blocks *)
  dk_size : Z;
  (** the blocks of the disks, by disk number and block number *)
  dk_image : gmap (Z * Z) (list Z);
  (** every write since the machine was started, the latest first *)
  dk_writes : list ((Z * Z) * list Z);
  (** what was written to the ports of the controller, the latest first *)
  dk_ports : list (Z * Z) }.

(** ** log.c *)
Record log := mk_log {
  l_start : Z;
  l_size : Z;
  outstanding : Z;
  committing : Z;
  l_dev : Z;
  lh_n : Z;
  lh_block : list Z }.

(** ** fs.c and file.h *)
Record inode := mk_inode {
  i_dev : Z;
  i_inum : Z;
  i_ref : Z;
  i_lock : sleeplock;
  i_valid : Z;
  i_type : Z;
  i_major : Z;
  i_minor : Z;
  i_nlink : Z;
  i_size : Z;
  i_addrs : list Z }.

Record fs := mk_fs { sb : superblock; inodes : list inode; nr_sectors_read : Z; nr_sectors_write : Z }.

Inductive ftype := FD_NONE | FD_PIPE | FD_INODE.

Record file := mk_file {
  f_type : ftype;
  f_ref : Z;
  f_readable : Z;
  f_writable : Z;
  f_pipe : Z;
  f_ip : option nat;
  f_off : Z }.

(** ** pipe.c: pipes live in kalloc'ed pages and are named by their address *)
Record pipe := mk_pipe {
  pi_data : list Z;
  nread : Z;
  nwrite : Z;
  readopen : Z;
  writeopen : Z }.

(** ** console.c *)
Record console := mk_console { in_buf : list Z; in_r : Z; in_w : Z; in_e : Z; con_out : list Z }.

Record kstate := mk_kstate {
  k_sync : sync;
  k_ptable : ptable;
  k_ticks : Z;
  k_kmem : kmem;
  k_mem : memory;
  k_bcache : bcache;
  k_disk : disk;
  k_log : log;
  k_fs : fs;
  k_files : list file;
  k_pipes : gmap Z pipe;
  k_cons : console }.

(** * Updates *)
Definition set_sync (x : sync) (s : kstate) : kstate :=
  mk_kstate x (k_ptable s) (k_ticks s) (k_kmem s) (k_mem s) (k_bcache s) (k_disk s) (k_log s)
    (k_fs s) (k_files s) (k_pipes s) (k_cons s).
Definition set_ptable (x : ptable) (s : kstate) : kstate :=
  mk_kstate (k_sync s) x (k_ticks s) (k_kmem s) (k_mem s) (k_bcache s) (k_disk s) (k_log s)
    (k_fs s) (k_files s) (k_pipes s) (k_cons s).
Definition set_ticks (x : Z) (s : kstate) : kstate :=
  mk_kstate (k_sync s) (k_ptable s) x (k_kmem s) (k_mem s) (k_bcache s) (k_disk s) (k_log s)
    (k_fs s) (k_files s) (k_pipes s) (k_cons s).
Definition set_kmem (x : kmem) (s : kstate) : kstate :=
  mk_kstate (k_sync s) (k_ptable s) (k_ticks s) x (k_mem s) (k_bcache s) (k_disk s) (k_log s)
    (k_fs s) (k_files s) (k_pipes s) (k_cons s).
Definition set_mem (x : memory) (s : kstate) : kstate :=
  mk_kstate (k_sync s) (k_ptable s) (k_ticks s) (k_kmem s) x (k_bcache s) (k_disk s) (k_log s)
    (k_fs s) (k_files s) (k_pipes s) (k_cons s).
Definition set_bcache (x : bcache) (s : kstate) : kstate :=
  mk_kstate (k_sync s) (k_ptable s) (k_ticks s) (k_kmem s) (k_mem s) x (k_disk s) (k_log s)
    (k_fs s) (k_files s) (k_pipes s) (k_cons s).
Definition set_disk (x : disk) (s : kstate) : kstate :=
  mk_kstate (k_sync s) (k_ptable s) (k_ticks s) (k_kmem s) (k_mem s) (k_bcache s) x (k_log s)
    (k_fs s) (k_files s) (k_pipes s) (k_cons s).
Definition set_log (x : log) (s : kstate) : kstate :=
  mk_kstate (k_sync s) (k_ptable s) (k_ticks s) (k_kmem s) (k_mem s) (k_bcache s) (k_disk s) x
    (k_fs s) (k_files s) (k_pipes s) (k_cons s).
Definition set_fs (x : fs) (s : kstate) : kstate :=
  mk_kstate (k_sync s) (k_ptable s) (k_ticks s) (k_kmem s) (k_mem s) (k_bcache s) (k_disk s) (k_log s)
    x (k_files s) (k_pipes s) (k_cons s).
Definition set_files (x : list file) (s : kstate) : kstate :=
  mk_kstate (k_sync s) (k_ptable s) (k_ticks s) (k_kmem s) (k_mem s) (k_bcache s) (k_disk s) (k_log s)
    (k_fs s) x (k_pipes s) (k_cons s).
Definition set_pipes (x : gmap Z pipe) (s : kstate) : kstate :=
  mk_kstate (k_sync s) (k_ptable s) (k_ticks s) (k_kmem s) (k_mem s) (k_bcache s) (k_disk s) (k_log s)
    (k_fs s) (k_files s) x (k_cons s).
Definition set_cons (x : console) (s : kstate) : kstate :=
  mk_kstate (k_sync s) (k_ptable s) (k_ticks s) (k_kmem s) (k_mem s) (k_bcache s) (k_disk s) (k_log s)
    (k_fs s) (k_files s) (k_pipes s) x.

(** Kernel code: a computation over the whole state. *)
Abbreviation K := (M kstate).

(** A proc with one field replaced. *)
Definition with_sz (x : Z) (p : proc) : proc :=
  mk_proc x (p_pgdir p) (p_kstack p) (p_state p) (p_pid p) (p_parent p) (p_tf p) (p_context p) (p_chan p)
    (p_killed p) (p_ofile p) (p_cwd p) (p_name p).
Definition with_pgdir (x : Z) (p : proc) : proc :=
  mk_proc (p_sz p) x (p_kstack p) (p_state p) (p_pid p) (p_parent p) (p_tf p) (p_context p) (p_chan p)
    (p_killed p) (p_ofile p) (p_cwd p) (p_name p).
Definition with_kstack (x : Z) (p : proc) : proc :=
  mk_proc (p_sz p) (p_pgdir p) x (p_state p) (p_pid p) (p_parent p) (p_tf p) (p_context p) (p_chan p)
    (p_killed p) (p_ofile p) (p_cwd p) (p_name p).
Definition with_state (x : procstate) (p : proc) : proc :=
  mk_proc (p_sz p) (p_pgdir p) (p_kstack p) x (p_pid p) (p_parent p) (p_tf p) (p_context p) (p_chan p)
    (p_killed p) (p_ofile p) (p_cwd p) (p_name p).
Definition with_pid (x : Z) (p : proc) : proc :=
  mk_proc (p_sz p) (p_pgdir p) (p_kstack p) (p_state p) x (p_parent p) (p_tf p) (p_context p) (p_chan p)
    (p_killed p) (p_ofile p) (p_cwd p) (p_name p).
Definition with_parent (x : option nat) (p : proc) : proc :=
  mk_proc (p_sz p) (p_pgdir p) (p_kstack p) (p_state p) (p_pid p) x (p_tf p) (p_context p) (p_chan p)
    (p_killed p) (p_ofile p) (p_cwd p) (p_name p).
Definition with_tf (x : trapframe) (p : proc) : proc :=
  mk_proc (p_sz p) (p_pgdir p) (p_kstack p) (p_state p) (p_pid p) (p_parent p) x (p_context p) (p_chan p)
    (p_killed p) (p_ofile p) (p_cwd p) (p_name p).
Definition with_context (x : context) (p : proc) : proc :=
  mk_proc (p_sz p) (p_pgdir p) (p_kstack p) (p_state p) (p_pid p) (p_parent p) (p_tf p) x (p_chan p)
    (p_killed p) (p_ofile p) (p_cwd p) (p_name p).
Definition with_chan (x : option chan) (p : proc) : proc :=
  mk_proc (p_sz p) (p_pgdir p) (p_kstack p) (p_state p) (p_pid p) (p_parent p) (p_tf p) (p_context p)
    x (p_killed p) (p_ofile p) (p_cwd p) (p_name p).
Definition with_killed (x : Z) (p : proc) : proc :=
  mk_proc (p_sz p) (p_pgdir p) (p_kstack p) (p_state p) (p_pid p) (p_parent p) (p_tf p) (p_context p)
    (p_chan p) x (p_ofile p) (p_cwd p) (p_name p).
Definition with_ofile (x : list (option nat)) (p : proc) : proc :=
  mk_proc (p_sz p) (p_pgdir p) (p_kstack p) (p_state p) (p_pid p) (p_parent p) (p_tf p) (p_context p)
    (p_chan p) (p_killed p) x (p_cwd p) (p_name p).
Definition with_cwd (x : option nat) (p : proc) : proc :=
  mk_proc (p_sz p) (p_pgdir p) (p_kstack p) (p_state p) (p_pid p) (p_parent p) (p_tf p) (p_context p)
    (p_chan p) (p_killed p) (p_ofile p) x (p_name p).
Definition with_name (x : list Z) (p : proc) : proc :=
  mk_proc (p_sz p) (p_pgdir p) (p_kstack p) (p_state p) (p_pid p) (p_parent p) (p_tf p) (p_context p)
    (p_chan p) (p_killed p) (p_ofile p) (p_cwd p) x.

(** [ptable.proc[i]] changed by [f]. *)
Definition upd_procs (i : nat) (f : proc -> proc) (t : ptable) : ptable :=
  mk_ptable (alter f i (procs t)) (nextpid t) (initproc t).

Definition get_proc (i : nat) : K proc := fun s => index "ptable.proc" (procs (k_ptable s) !! i) s.

Definition upd_proc (i : nat) (f : proc -> proc) : K unit :=
  modify (fun s => set_ptable (upd_procs i f (k_ptable s)) s).

(** A buf with one field replaced. *)
Definition with_b_flags (x : Z) (b : buf) : buf :=
  mk_buf x (b_dev b) (b_blockno b) (b_lock b) (b_refcnt b) (b_prev b) (b_next b) (b_data b).
Definition with_b_dev (x : Z) (b : buf) : buf :=
  mk_buf (b_flags b) x (b_blockno b) (b_lock b) (b_refcnt b) (b_prev b) (b_next b) (b_data b).
Definition with_b_blockno (x : Z) (b : buf) : buf :=
  mk_buf (b_flags b) (b_dev b) x (b_lock b) (b_refcnt b) (b_prev b) (b_next b) (b_data b).
Definition with_b_lock (x : sleeplock) (b : buf) : buf :=
  mk_buf (b_flags b) (b_dev b) (b_blockno b) x (b_refcnt b) (b_prev b) (b_next b) (b_data b).
Definition with_b_refcnt (x : Z) (b : buf) : buf :=
  mk_buf (b_flags b) (b_dev b) (b_blockno b) (b_lock b) x (b_prev b) (b_next b) (b_data b).
Definition with_b_prev (x : nat) (b : buf) : buf :=
  mk_buf (b_flags b) (b_dev b) (b_blockno b) (b_lock b) (b_refcnt b) x (b_next b) (b_data b).
Definition with_b_next (x : nat) (b : buf) : buf :=
  mk_buf (b_flags b) (b_dev b) (b_blockno b) (b_lock b) (b_refcnt b) (b_prev b) x (b_data b).
Definition with_b_data (x : list Z) (b : buf) : buf :=
  mk_buf (b_flags b) (b_dev b) (b_blockno b) (b_lock b) (b_refcnt b) (b_prev b) (b_next b) x.

(** A bcache with one field replaced. *)
Definition with_bufs (x : list buf) (c : bcache) : bcache :=
  mk_bcache x (head_prev c) (head_next c).
Definition with_head_prev (x : nat) (c : bcache) : bcache :=
  mk_bcache (bufs c) x (head_next c).
Definition with_head_next (x : nat) (c : bcache) : bcache :=
  mk_bcache (bufs c) (head_prev c) x.

(** A log with one field replaced. *)
Definition with_l_start (x : Z) (l : log) : log :=
  mk_log x (l_size l) (outstanding l) (committing l) (l_dev l) (lh_n l) (lh_block l).
Definition with_l_size (x : Z) (l : log) : log :=
  mk_log (l_start l) x (outstanding l) (committing l) (l_dev l) (lh_n l) (lh_block l).
Definition with_outstanding (x : Z) (l : log) : log :=
  mk_log (l_start l) (l_size l) x (committing l) (l_dev l) (lh_n l) (lh_block l).
Definition with_committing (x : Z) (l : log) : log :=
  mk_log (l_start l) (l_size l) (outstanding l) x (l_dev l) (lh_n l) (lh_block l).
Definition with_l_dev (x : Z) (l : log) : log :=
  mk_log (l_start l) (l_size l) (outstanding l) (committing l) x (lh_n l) (lh_block l).
Definition with_lh_n (x : Z) (l : log) : log :=
  mk_log (l_start l) (l_size l) (outstanding l) (committing l) (l_dev l) x (lh_block l).
Definition with_lh_block (x : list Z) (l : log) : log :=
  mk_log (l_start l) (l_size l) (outstanding l) (committing l) (l_dev l) (lh_n l) x.

(** A inode with one field replaced. *)
Definition with_i_dev (x : Z) (ip : inode) : inode :=
  mk_inode x (i_inum ip) (i_ref ip) (i_lock ip) (i_valid ip) (i_type ip) (i_major ip) (i_minor ip)
    (i_nlink ip) (i_size ip) (i_addrs ip).
Definition with_i_inum (x : Z) (ip : inode) : inode :=
  mk_inode (i_dev ip) x (i_ref ip) (i_lock ip) (i_valid ip) (i_type ip) (i_major ip) (i_minor ip)
    (i_nlink ip) (i_size ip) (i_addrs ip).
Definition with_i_ref (x : Z) (ip : inode) : inode :=
  mk_inode (i_dev ip) (i_inum ip) x (i_lock ip) (i_valid ip) (i_type ip) (i_major ip) (i_minor ip)
    (i_nlink ip) (i_size ip) (i_addrs ip).
Definition with_i_lock (x : sleeplock) (ip : inode) : inode :=
  mk_inode (i_dev ip) (i_inum ip) (i_ref ip) x (i_valid ip) (i_type ip) (i_major ip) (i_minor ip)
    (i_nlink ip) (i_size ip) (i_addrs ip).
Definition with_i_valid (x : Z) (ip : inode) : inode :=
  mk_inode (i_dev ip) (i_inum ip) (i_ref ip) (i_lock ip) x (i_type ip) (i_major ip) (i_minor ip)
    (i_nlink ip) (i_size ip) (i_addrs ip).
Definition with_i_type (x : Z) (ip : inode) : inode :=
  mk_inode (i_dev ip) (i_inum ip) (i_ref ip) (i_lock ip) (i_valid ip) x (i_major ip) (i_minor ip)
    (i_nlink ip) (i_size ip) (i_addrs ip).
Definition with_i_major (x : Z) (ip : inode) : inode :=
  mk_inode (i_dev ip) (i_inum ip) (i_ref ip) (i_lock ip) (i_valid ip) (i_type ip) x (i_minor ip)
    (i_nlink ip) (i_size ip) (i_addrs ip).
Definition with_i_minor (x : Z) (ip : inode) : inode :=
  mk_inode (i_dev ip) (i_inum ip) (i_ref ip) (i_lock ip) (i_valid ip) (i_type ip) (i_major ip)
    x (i_nlink ip) (i_size ip) (i_addrs ip).
Definition with_i_nlink (x : Z) (ip : inode) : inode :=
  mk_inode (i_dev ip) (i_inum ip) (i_ref ip) (i_lock ip) (i_valid ip) (i_type ip) (i_major ip) (i_minor ip)
    x (i_size ip) (i_addrs ip).
Definition with_i_size (x : Z) (ip : inode) : inode :=
  mk_inode (i_dev ip) (i_inum ip) (i_ref ip) (i_lock ip) (i_valid ip) (i_type ip) (i_major ip) (i_minor ip)
    (i_nlink ip) x (i_addrs ip).
Definition with_i_addrs (x : list Z) (ip : inode) : inode :=
  mk_inode (i_dev ip) (i_inum ip) (i_ref ip) (i_lock ip) (i_valid ip) (i_type ip) (i_major ip) (i_minor ip)
    (i_nlink ip) (i_size ip) x.

(** A fs with one field replaced. *)
Definition with_sb (x : superblock) (f : fs) : fs :=
  mk_fs x (inodes f) (nr_sectors_read f) (nr_sectors_write f).
Definition with_inodes (x : list inode) (f : fs) : fs :=
  mk_fs (sb f) x (nr_sectors_read f) (nr_sectors_write f).
Definition with_nr_sectors_read (x : Z) (f : fs) : fs :=
  mk_fs (sb f) (inodes f) x (nr_sectors_write f).
Definition with_nr_sectors_write (x : Z) (f : fs) : fs :=
  mk_fs (sb f) (inodes f) (nr_sectors_read f) x.

(** A file with one field replaced. *)
Definition with_f_type (x : ftype) (f : file) : file :=
  mk_file x (f_ref f) (f_readable f) (f_writable f) (f_pipe f) (f_ip f) (f_off f).
Definition with_f_ref (x : Z) (f : file) : file :=
  mk_file (f_type f) x (f_readable f) (f_writable f) (f_pipe f) (f_ip f) (f_off f).
Definition with_f_readable (x : Z) (f : file) : file :=
  mk_file (f_type f) (f_ref f) x (f_writable f) (f_pipe f) (f_ip f) (f_off f).
Definition with_f_writable (x : Z) (f : file) : file :=
  mk_file (f_type f) (f_ref f) (f_readable f) x (f_pipe f) (f_ip f) (f_off f).
Definition with_f_pipe (x : Z) (f : file) : file :=
  mk_file (f_type f) (f_ref f) (f_readable f) (f_writable f) x (f_ip f) (f_off f).
Definition with_f_ip (x : option nat) (f : file) : file :=
  mk_file (f_type f) (f_ref f) (f_readable f) (f_writable f) (f_pipe f) x (f_off f).
Definition with_f_off (x : Z) (f : file) : file :=
  mk_file (f_type f) (f_ref f) (f_readable f) (f_writable f) (f_pipe f) (f_ip f) x.

(** A pipe with one field replaced. *)
Definition with_pi_data (x : list Z) (p : pipe) : pipe :=
  mk_pipe x (nread p) (nwrite p) (readopen p) (writeopen p).
Definition with_nread (x : Z) (p : pipe) : pipe :=
  mk_pipe (pi_data p) x (nwrite p) (readopen p) (writeopen p).
Definition with_nwrite (x : Z) (p : pipe) : pipe :=
  mk_pipe (pi_data p) (nread p) x (readopen p) (writeopen p).
Definition with_readopen (x : Z) (p : pipe) : pipe :=
  mk_pipe (pi_data p) (nread p) (nwrite p) x (writeopen p).
Definition with_writeopen (x : Z) (p : pipe) : pipe :=
  mk_pipe (pi_data p) (nread p) (nwrite p) (readopen p) x.

(** A page with one field replaced. *)
Definition with_pg_next (x : option nat) (p : page) : page := mk_page x (pg_prev p) (pg_pgdir p) (pg_vaddr p).
Definition with_pg_prev (x : option nat) (p : page) : page := mk_page (pg_next p) x (pg_pgdir p) (pg_vaddr p).
Definition with_pg_pgdir (x : Z) (p : page) : page := mk_page (pg_next p) (pg_prev p) x (pg_vaddr p).
Definition with_pg_vaddr (x : Z) (p : page) : page := mk_page (pg_next p) (pg_prev p) (pg_pgdir p) x.

(** A kmem with one field replaced. *)
Definition with_use_lock (x : bool) (m : kmem) : kmem :=
  mk_kmem x (freelist m) (pages m) (page_lru_head m) (num_lru_pages m) (swapbitmap m).
Definition with_freelist (x : Z) (m : kmem) : kmem :=
  mk_kmem (use_lock m) x (pages m) (page_lru_head m) (num_lru_pages m) (swapbitmap m).
Definition with_pages (x : list page) (m : kmem) : kmem :=
  mk_kmem (use_lock m) (freelist m) x (page_lru_head m) (num_lru_pages m) (swapbitmap m).
Definition with_page_lru_head (x : option nat) (m : kmem) : kmem :=
  mk_kmem (use_lock m) (freelist m) (pages m) x (num_lru_pages m) (swapbitmap m).
Definition with_num_lru_pages (x : Z) (m : kmem) : kmem :=
  mk_kmem (use_lock m) (freelist m) (pages m) (page_lru_head m) x (swapbitmap m).
Definition with_swapbitmap (x : list Z) (m : kmem) : kmem :=
  mk_kmem (use_lock m) (freelist m) (pages m) (page_lru_head m) (num_lru_pages m) x.

(** A disk with one field replaced. *)
Definition with_idequeue (x : list nat) (d : disk) : disk :=
  mk_disk x (havedisk1 d) (dk_size d) (dk_image d) (dk_writes d) (dk_ports d).
Definition with_havedisk1 (x : bool) (d : disk) : disk :=
  mk_disk (idequeue d) x (dk_size d) (dk_image d) (dk_writes d) (dk_ports d).
Definition with_dk_size (x : Z) (d : disk) : disk :=
  mk_disk (idequeue d) (havedisk1 d) x (dk_image d) (dk_writes d) (dk_ports d).
Definition with_dk_image (x : gmap (Z * Z) (list Z)) (d : disk) : disk :=
  mk_disk (idequeue d) (havedisk1 d) (dk_size d) x (dk_writes d) (dk_ports d).
Definition with_dk_writes (x : list ((Z * Z) * list Z)) (d : disk) : disk :=
  mk_disk (idequeue d) (havedisk1 d) (dk_size d) (dk_image d) x (dk_ports d).
Definition with_dk_ports (x : list (Z * Z)) (d : disk) : disk :=
  mk_disk (idequeue d) (havedisk1 d) (dk_size d) (dk_image d) (dk_writes d) x.

(** * Decidable equality *)
#[global] Instance procstate_eq_dec : EqDecision procstate.
Proof. solve_decision. Defined.

#[global] Instance chan_eq_dec : EqDecision chan.
Proof. solve_decision. Defined.

#[global] Instance ftype_eq_dec : EqDecision ftype.
Proof. solve_decision. Defined.

(** [set_sync_id] and its like: storing back what is there changes nothing. *)
Lemma set_cons_id s : set_cons (k_cons s) s = s.
Proof. by destruct s. Qed.

Lemma set_sync_id s : set_sync (k_sync s) s = s.
Proof. by destruct s. Qed.

Lemma set_sync_sync x y s : set_sync x (set_sync y s) = set_sync x s.
Proof. done. Qed.

Lemma set_ptable_ptable x y s : set_ptable x (set_ptable y s) = set_ptable x s.
Proof. done. Qed.
