(* ===== verification/Spinlock.v ===== *)
(** Spin locks and interrupt nesting: spinlock.c, and mycpu, cpuid and myproc of
    proc.c.

    The routines are computations over [sync], the per-CPU state and the lock
    words.  A routine runs on the processor [cur]; acquiring a lock that another
    processor holds spins, which is the outcome [Hang].  The second part of the
    file is the protocol at the grain of its atomic instructions, for any number
    of processors. *)

From S2P Require Import Prelude Layout CString State.
Local Open Scope kernel_scope.

(** * The routines *)

Definition this_cpu (what : string) (y : sync) : M sync cpu := index what (cpus y !! cur y).

Definition readeflags_if : M sync bool :=
  fun y => (let! c := this_cpu "cpu" y in ret (eflags_if c)) y.

(** Change the struct of the executing processor. *)
Definition upd_cur (f : cpu -> cpu) (y : sync) : sync :=
  mk_sync (alter f (cur y) (cpus y)) (cur y) (locks y).

Definition set_if (b : bool) : M sync unit :=
  modify (upd_cur (fun c => mk_cpu (apicid c) (started c) (ncli c) (intena c) (cpu_proc c) b)).

Definition cli : M sync unit := set_if false.
Definition sti : M sync unit := set_if true.

(** The local APIC id of the executing processor. *)
Definition lapicid : M sync Z := fun y => (let! c := this_cpu "lapicid" y in ret (apicid c)) y.

Fixpoint find_cpu (cs : list cpu) (id : Z) (i : nat) : option nat :=
  match cs with
  | [] => None
  | c :: cs' => if apicid c =? id then Some i else find_cpu cs' id (S i)
  end.

Definition mycpu : M sync nat :=
  let! b := readeflags_if in
  if b then panic "mycpu called with interrupts enabled" else
  let! id := lapicid in
  let! y := reads (fun y => y) in
  match find_cpu (cpus y) id 0 with
  | Some i => ret i
  | None => panic "unknown apicid"
  end.

Definition cpuid : M sync Z := let! i := mycpu in ret (Z.of_nat i).

(** Reading and changing the cpu struct mycpu() returns. *)
Definition get_mycpu : M sync cpu :=
  let! i := mycpu in fun y => index "cpus" (cpus y !! i) y.

Definition upd_mycpu (f : cpu -> cpu) : M sync unit :=
  let! i := mycpu in
  modify (fun y => mk_sync (alter f i (cpus y)) (cur y) (locks y)).

Definition pushcli : M sync unit :=
  let! eflags := readeflags_if in
  cli ;;;
  let! c := get_mycpu in
  (if ncli c =? 0 then
     upd_mycpu (fun c => mk_cpu (apicid c) (started c) (ncli c) eflags (cpu_proc c) (eflags_if c))
   else ret tt) ;;;
  upd_mycpu (fun c => mk_cpu (apicid c) (started c) (ncli c + 1) (intena c) (cpu_proc c) (eflags_if c)).

Definition popcli : M sync unit :=
  let! b := readeflags_if in
  if b then panic "popcli - interruptible" else
  upd_mycpu (fun c => mk_cpu (apicid c) (started c) (ncli c - 1) (intena c) (cpu_proc c) (eflags_if c)) ;;;
  let! c := get_mycpu in
  if ncli c <? 0 then panic "popcli" else
  let! c := get_mycpu in
  if ncli c =? 0 then (let! c := get_mycpu in if intena c then sti else ret tt) else ret tt.

Definition get_lock (lk : lockid) : M sync spinlock := fun y => index "lock" (locks y !! lk) y.

Definition put_lock (lk : lockid) (v : spinlock) : M sync unit :=
  modify (fun y => mk_sync (cpus y) (cur y) (<[lk := v]> (locks y))).

Definition initlock (lk : lockid) : M sync unit := put_lock lk (mk_spinlock 0 None).

Definition holding (lk : lockid) : M sync bool :=
  pushcli ;;;
  let! l := get_lock lk in
  let! r := (if lk_locked l =? 0 then ret false
             else let! i := mycpu in ret (bool_decide (lk_cpu l = Some i))) in
  popcli ;;;
  ret r.

(** [xchg(&lk->locked, 1)]: the word it returns. *)
Definition xchg_locked (lk : lockid) : M sync Z :=
  let! l := get_lock lk in
  put_lock lk (mk_spinlock 1 (lk_cpu l)) ;;;
  ret (lk_locked l).

(** The barrier and the recorded call stack have no effect on this state. *)
Definition acquire (lk : lockid) : M sync unit :=
  pushcli ;;;
  let! h := holding lk in
  if h then panic "acquire" else
  let! old := xchg_locked lk in
  if negb (old =? 0) then hang else
  let! i := mycpu in
  let! l := get_lock lk in
  put_lock lk (mk_spinlock (lk_locked l) (Some i)).

Definition release (lk : lockid) : M sync unit :=
  let! h := holding lk in
  if negb h then panic "release" else
  let! l := get_lock lk in
  put_lock lk (mk_spinlock (lk_locked l) None) ;;;
  put_lock lk (mk_spinlock 0 None) ;;;
  popcli.

Definition myproc : M sync (option nat) :=
  pushcli ;;;
  let! c := get_mycpu in
  popcli ;;;
  ret (cpu_proc c).

(** Record the call stack: [ld] reads a word of the stack, [pcs] is filled with
    return addresses and padded with zeros to ten entries. *)
Fixpoint getcallerpcs_loop (ld : Z -> Z) (ebp : Z) (n : nat) : list Z :=
  match n with
  | O => []
  | S n' =>
      if (ebp =? 0) || (ebp <? KERNBASE) || (ebp =? 0xffffffff) then replicate n 0
      else ld (ebp + 4) :: getcallerpcs_loop ld (ld ebp) n'
  end.

Definition getcallerpcs (ld : Z -> Z) (v : Z) : list Z := getcallerpcs_loop ld (v - 8) 10.

(** Kernel code uses the routines on the [k_sync] part of its state. *)
Fixpoint lift_out {A} (o : outcome sync A) (s : kstate) : outcome kstate A :=
  match o with
  | Ok a y => Ok a (set_sync y s)
  | Panic msg => Panic msg
  | Undef why => Undef why
  | Hang => Hang
  | Swtch y k => Swtch (set_sync y s) (fun s' => lift_out (k (k_sync s')) s')
  end.

Definition on_sync {A} (m : M sync A) : K A := fun s => lift_out (m (k_sync s)) s.

(** * What the routines do to a well-formed state *)

Definition push_cpu (c : cpu) : cpu :=
  mk_cpu (apicid c) (started c) (ncli c + 1)
    (if ncli c =? 0 then eflags_if c else intena c) (cpu_proc c) false.

Definition pop_cpu (c : cpu) : cpu :=
  mk_cpu (apicid c) (started c) (ncli c - 1) (intena c) (cpu_proc c)
    ((ncli c - 1 =? 0) && intena c).

Definition push (y : sync) : sync := upd_cur push_cpu y.
Definition pop (y : sync) : sync := upd_cur pop_cpu y.

Definition lock (lk : lockid) (y : sync) : sync :=
  mk_sync (cpus (push y)) (cur y) (<[lk := mk_spinlock 1 (Some (cur y))]> (locks y)).
Definition unlock (lk : lockid) (y : sync) : sync :=
  mk_sync (cpus (pop y)) (cur y) (<[lk := mk_spinlock 0 None]> (locks y)).

Definition free_lock (lk : lockid) (y : sync) : Prop := locks y !! lk = Some (mk_spinlock 0 None).
Definition held_lock (lk : lockid) (y : sync) : Prop :=
  locks y !! lk = Some (mk_spinlock 1 (Some (cur y))).

(** The executing processor is known by its APIC id, its nesting depth is not
    negative, interrupts are off while it is positive, and [intena] is what the
    interrupt flag was at depth zero (as it is after any pushcli and popcli). *)
Definition sync_ok (y : sync) : Prop :=
  exists c, cpus y !! cur y = Some c /\
    find_cpu (cpus y) (apicid c) 0 = Some (cur y) /\
    0 <= ncli c /\ (ncli c = 0 -> intena c = eflags_if c) /\ (0 < ncli c -> eflags_if c = false).

(** The nesting depth of the executing processor. *)
Definition depth (y : sync) : Z := match cpus y !! cur y with Some c => ncli c | None => -1 end.

Definition cpu_at (y : sync) (c : cpu) : Prop :=
  cpus y !! cur y = Some c /\ find_cpu (cpus y) (apicid c) 0 = Some (cur y).

Lemma find_cpu_alter (cs : list cpu) id i (j : nat) f :
  (forall c, apicid (f c) = apicid c) -> find_cpu (alter f j cs) id i = find_cpu cs id i.
Proof.
  intros Hf. revert i j. induction cs as [|c cs IH]; intros i [|j]; simpl; [done..| |].
  - by rewrite Hf.
  - destruct (apicid c =? id); [done|]. apply IH.
Qed.

Lemma cpu_at_upd y c f :
  (forall c, apicid (f c) = apicid c) -> cpu_at y c -> cpu_at (upd_cur f y) (f c).
Proof.
  intros Hf [Hc Hid]. split; unfold upd_cur; cbn [cpus cur].
  - by rewrite list_lookup_alter_eq, Hc.
  - by rewrite find_cpu_alter, Hf.
Qed.

Lemma upd_cur_upd_cur f g y : upd_cur f (upd_cur g y) = upd_cur (f ∘ g) y.
Proof. unfold upd_cur. cbn [cpus cur locks]. by rewrite list_alter_alter_eq. Qed.

Lemma upd_cur_ext f g y c : cpus y !! cur y = Some c -> f c = g c -> upd_cur f y = upd_cur g y.
Proof.
  intros Hc Hfg. unfold upd_cur. f_equal. apply list_alter_ext; [|done].
  intros x Hx. rewrite Hc in Hx. by simplify_eq.
Qed.

Lemma upd_cur_id f y c : cpus y !! cur y = Some c -> f c = c -> upd_cur f y = y.
Proof.
  intros Hc Hf. rewrite (upd_cur_ext f id y c Hc Hf). unfold upd_cur.
  rewrite list_alter_id by done. by destruct y.
Qed.

Lemma readeflags_ok y c : cpu_at y c -> readeflags_if y = Ok (eflags_if c) y.
Proof. intros [Hc _]. unfold readeflags_if, this_cpu, index, bind. by rewrite Hc. Qed.

Lemma mycpu_ok y c : cpu_at y c -> eflags_if c = false -> mycpu y = Ok (cur y) y.
Proof.
  intros Hat Hif. unfold mycpu. rewrite (bind_ok _ _ _ _ _ (readeflags_ok y c Hat)), Hif.
  destruct Hat as [Hc Hid]. unfold bind at 1, lapicid, this_cpu, index. rewrite Hc. cbn. by rewrite Hid.
Qed.

Lemma get_mycpu_ok y c : cpu_at y c -> eflags_if c = false -> get_mycpu y = Ok c y.
Proof.
  intros Hat Hif. unfold get_mycpu. rewrite (bind_ok _ _ _ _ _ (mycpu_ok y c Hat Hif)).
  destruct Hat as [Hc _]. unfold index. by rewrite Hc.
Qed.

Lemma upd_mycpu_ok y c f : cpu_at y c -> eflags_if c = false -> upd_mycpu f y = Ok tt (upd_cur f y).
Proof. intros Hat Hif. unfold upd_mycpu. by rewrite (bind_ok _ _ _ _ _ (mycpu_ok y c Hat Hif)). Qed.

Lemma pushcli_ok y c : cpu_at y c -> pushcli y = Ok tt (push y).
Proof.
  intros Hat. unfold pushcli. rewrite (bind_ok _ _ _ _ _ (readeflags_ok y c Hat)).
  unfold cli, set_if. erewrite bind_ok by reflexivity.
  pose proof (cpu_at_upd y c
    (fun c => mk_cpu (apicid c) (started c) (ncli c) (intena c) (cpu_proc c) false) ltac:(done) Hat) as Hat1.
  rewrite (bind_ok _ _ _ _ _ (get_mycpu_ok _ _ Hat1 eq_refl)). cbn [ncli].
  destruct Hat as [Hc Hid]. unfold push. destruct (Z.eqb_spec (ncli c) 0) as [H0|H0].
  - rewrite (bind_ok _ _ _ _ _ (upd_mycpu_ok _ _ _ Hat1 eq_refl)).
    pose proof (cpu_at_upd _ _ (fun c' => mk_cpu (apicid c') (started c') (ncli c') (eflags_if c) (cpu_proc c') (eflags_if c'))
      ltac:(done) Hat1) as Hat2.
    rewrite (upd_mycpu_ok _ _ _ Hat2) by done. f_equal. rewrite !upd_cur_upd_cur.
    eapply upd_cur_ext; [exact Hc|]. unfold push_cpu. simpl. by rewrite (proj2 (Z.eqb_eq _ _) H0).
  - erewrite bind_ok by reflexivity. rewrite (upd_mycpu_ok _ _ _ Hat1) by done.
    f_equal. rewrite !upd_cur_upd_cur. eapply upd_cur_ext; [exact Hc|].
    unfold push_cpu. simpl. by rewrite (proj2 (Z.eqb_neq _ _) H0).
Qed.

Lemma popcli_ok y c : cpu_at y c -> eflags_if c = false -> 0 < ncli c -> popcli y = Ok tt (pop y).
Proof.
  intros Hat Hif Hn. unfold popcli. rewrite (bind_ok _ _ _ _ _ (readeflags_ok y c Hat)), Hif.
  rewrite (bind_ok _ _ _ _ _ (upd_mycpu_ok y c _ Hat Hif)).
  pose proof (cpu_at_upd y c (fun c => mk_cpu (apicid c) (started c) (ncli c - 1) (intena c) (cpu_proc c) (eflags_if c))
    ltac:(done) Hat) as Hat1.
  rewrite !(bind_ok _ _ _ _ _ (get_mycpu_ok _ _ Hat1 Hif)). cbn [ncli].
  rewrite (proj2 (Z.ltb_ge _ _)) by lia.
  rewrite !(bind_ok _ _ _ _ _ (get_mycpu_ok _ _ Hat1 Hif)). cbn [ncli intena].
  destruct Hat as [Hc Hid]. unfold pop.
  destruct (ncli c - 1 =? 0) eqn:E.
  1: rewrite (bind_ok _ _ _ _ _ (get_mycpu_ok _ _ Hat1 Hif)); cbn [intena]; destruct (intena c) eqn:Ei.
  - unfold sti, set_if, modify. f_equal. rewrite upd_cur_upd_cur. eapply upd_cur_ext; [exact Hc|].
    unfold pop_cpu. simpl. by rewrite E, Ei.
  - unfold ret. f_equal. eapply upd_cur_ext; [exact Hc|]. unfold pop_cpu. by rewrite E, Ei, Hif.
  - unfold ret. f_equal. eapply upd_cur_ext; [exact Hc|]. unfold pop_cpu. by rewrite E, Hif.
Qed.

Lemma sync_ok_at y : sync_ok y -> exists c, cpu_at y c /\ 0 <= ncli c /\
  (ncli c = 0 -> intena c = eflags_if c) /\ (0 < ncli c -> eflags_if c = false).
Proof. intros (c & Hc & Hid & H). exists c. split; [by split|done]. Qed.

(** pushcli and popcli match: after a push, a pop restores the state exactly. *)
Lemma pop_push y : sync_ok y -> pop (push y) = y.
Proof.
  intros (c & Hc & _ & Hn & Hen & Hif). unfold pop, push. rewrite upd_cur_upd_cur.
  eapply upd_cur_id; [exact Hc|].
  destruct c as [a st n ie p fl]. unfold pop_cpu, push_cpu. simpl in *.
  replace (n + 1 - 1) with n by lia. f_equal.
  - destruct (Z.eqb_spec n 0); [|done]. symmetry. auto.
  - destruct (Z.eqb_spec n 0); [done|]. simpl. symmetry. apply Hif. lia.
Qed.

Lemma push_at y c : cpu_at y c -> cpu_at (push y) (push_cpu c).
Proof. intros. by apply cpu_at_upd. Qed.

Lemma sync_ok_push y : sync_ok y -> sync_ok (push y) /\ depth (push y) = depth y + 1.
Proof.
  intros Hy. destruct (sync_ok_at y Hy) as (c & Hat & Hn & Hen & Hif).
  pose proof (push_at y c Hat) as [Hc' Hid']. split.
  - exists (push_cpu c). unfold push_cpu in *. cbn [ncli intena eflags_if apicid] in *.
    split; [done|]. split; [done|]. split; [lia|]. split; [lia|done].
  - unfold depth. rewrite Hc'. destruct Hat as [Hc _]. by rewrite Hc.
Qed.

Lemma get_lock_ok y lk l : locks y !! lk = Some l -> get_lock lk y = Ok l y.
Proof. intros Hl. unfold get_lock, index. by rewrite Hl. Qed.

(** holding asks without changing anything. *)
Lemma holding_ok y lk l :
  sync_ok y -> locks y !! lk = Some l ->
  holding lk y = Ok (negb (lk_locked l =? 0) && bool_decide (lk_cpu l = Some (cur y))) y.
Proof.
  intros Hy Hl. destruct (sync_ok_at y Hy) as (c & Hat & Hn & Hen & Hif).
  unfold holding. rewrite (bind_ok _ _ _ _ _ (pushcli_ok y c Hat)).
  pose proof (push_at y c Hat) as Hat1. 
  rewrite (bind_ok _ _ _ _ _ (get_lock_ok (push y) lk l Hl)).
  assert (Hpop : popcli (push y) = Ok tt y).
  { rewrite (popcli_ok _ _ Hat1) by (done || simpl; lia). by rewrite pop_push. }
  destruct (lk_locked l =? 0).
  - erewrite bind_ok by reflexivity. by rewrite (bind_ok _ _ _ _ _ Hpop).
  - rewrite (bind_ok _ _ (push y) (bool_decide (lk_cpu l = Some (cur y))) (push y)).
    + by rewrite (bind_ok _ _ _ _ _ Hpop).
    + by rewrite (bind_ok _ _ _ _ _ (mycpu_ok _ _ Hat1 eq_refl)).
Qed.

Lemma acquire_ok y lk : sync_ok y -> free_lock lk y -> acquire lk y = Ok tt (lock lk y).
Proof.
  intros Hy Hf. destruct (sync_ok_at y Hy) as (c & Hat & _). unfold acquire.
  rewrite (bind_ok _ _ _ _ _ (pushcli_ok y c Hat)).
  destruct (sync_ok_push y Hy) as [Hy1 _]. pose proof (push_at y c Hat) as Hat1.
  rewrite (bind_ok _ _ _ _ _ (holding_ok (push y) lk _ Hy1 Hf)). cbn [lk_locked negb andb Z.eqb].
  set (y2 := mk_sync (cpus (push y)) (cur y) (<[lk := mk_spinlock 1 None]> (locks y))).
  assert (Hx : xchg_locked lk (push y) = Ok 0 y2).
  { unfold xchg_locked. by rewrite (bind_ok _ _ _ _ _ (get_lock_ok (push y) lk _ Hf)). }
  rewrite (bind_ok _ _ _ _ _ Hx). cbn [Z.eqb negb].
  assert (Hat2 : cpu_at y2 (push_cpu c)) by done.
  rewrite (bind_ok _ _ _ _ _ (mycpu_ok y2 _ Hat2 eq_refl)).
  rewrite (bind_ok _ _ _ _ _ (get_lock_ok y2 lk _ (lookup_insert_eq _ _ _))).
  unfold put_lock, modify, lock. subst y2. cbn [cpus cur locks lk_locked]. by rewrite insert_insert_eq.
Qed.

Lemma release_ok y lk : sync_ok y -> 0 < depth y -> held_lock lk y -> release lk y = Ok tt (unlock lk y).
Proof.
  intros Hy Hd Hh. destruct (sync_ok_at y Hy) as (c & Hat & Hn & Hen & Hif). unfold release.
  rewrite (bind_ok _ _ _ _ _ (holding_ok y lk _ Hy Hh)). cbn [lk_locked lk_cpu negb andb Z.eqb].
  rewrite bool_decide_eq_true_2 by done. cbn [negb].
  rewrite (bind_ok _ _ _ _ _ (get_lock_ok y lk _ Hh)).
  unfold put_lock, modify. erewrite !bind_ok by reflexivity. cbn [cpus cur locks]. rewrite insert_insert_eq.
  set (y2 := mk_sync (cpus y) (cur y) (<[lk := mk_spinlock 0 None]> (locks y))).
  assert (Hat2 : cpu_at y2 c) by done.
  assert (Hd' : 0 < ncli c) by (unfold depth in Hd; destruct Hat as [Hc _]; by rewrite Hc in Hd).
  rewrite (popcli_ok y2 c Hat2) by auto. done.
Qed.

(** A lock that is already held makes acquire panic, a lock that is not held
    makes release panic: neither can go wrong silently. *)
Lemma acquire_held_panics y lk : sync_ok y -> held_lock lk y -> acquire lk y = Panic "acquire".
Proof.
  intros Hy Hh. destruct (sync_ok_at y Hy) as (c & Hat & _). unfold acquire.
  rewrite (bind_ok _ _ _ _ _ (pushcli_ok y c Hat)). destruct (sync_ok_push y Hy) as [Hy1 _].
  rewrite (bind_ok _ _ _ _ _ (holding_ok (push y) lk _ Hy1 Hh)). cbn [lk_locked lk_cpu negb andb Z.eqb].
  by rewrite bool_decide_eq_true_2.
Qed.

Lemma release_free_panics y lk : sync_ok y -> free_lock lk y -> release lk y = Panic "release".
Proof. intros Hy Hf. unfold release. by rewrite (bind_ok _ _ _ _ _ (holding_ok y lk _ Hy Hf)). Qed.

Lemma sync_ok_lock lk y : sync_ok y -> sync_ok (lock lk y) /\ depth (lock lk y) = depth y + 1.
Proof. intros Hy. destruct (sync_ok_push y Hy) as [(c & H) Hd]. split; [by exists c|exact Hd]. Qed.

Lemma held_lock_lock lk y : held_lock lk (lock lk y).
Proof. unfold held_lock, lock. cbn [locks cur]. apply lookup_insert_eq. Qed.

Lemma lock_other lk lk' y : lk <> lk' -> locks (lock lk y) !! lk' = locks y !! lk'.
Proof. intros. unfold lock. cbn [locks]. by rewrite lookup_insert_ne. Qed.

Lemma unlock_lock lk y : sync_ok y -> free_lock lk y -> unlock lk (lock lk y) = y.
Proof.
  intros Hy Hf. pose proof (pop_push y Hy) as Hp. apply (f_equal cpus) in Hp.
  unfold unlock, lock, pop, push, upd_cur in *. cbn [cpus cur locks] in *. rewrite Hp.
  rewrite insert_insert_eq, insert_id by exact Hf. by destruct y.
Qed.

(** The inner of two nested locks may be the one that stays: releasing the outer
    one leaves the state as if only the other had been taken. *)
Lemma unlock_lock_other lk lk' y :
  lk <> lk' -> sync_ok y -> free_lock lk y -> unlock lk (lock lk' (lock lk y)) = lock lk' y.
Proof.
  intros Hne (c & Hc & _ & Hn & Hen & Hif) Hf. unfold unlock, lock, pop, push, upd_cur. cbn [cpus cur locks].
  f_equal.
  - rewrite !list_alter_alter_eq. apply list_alter_ext; [|done]. intros x Hx. assert (x = c) as -> by congruence.
    unfold push_cpu, pop_cpu. simpl.
    rewrite (proj2 (Z.eqb_neq (ncli c + 1) 0)) by lia.
    rewrite (proj2 (Z.eqb_neq (ncli c + 1 + 1 - 1) 0)) by lia. simpl. f_equal. lia.
  - rewrite insert_insert_ne by done. rewrite (insert_insert_eq (locks y)).
    f_equal. by apply insert_id.
Qed.

Lemma myproc_ok y c : sync_ok y -> cpus y !! cur y = Some c -> myproc y = Ok (cpu_proc c) y.
Proof.
  intros Hy Hc. destruct (sync_ok_at y Hy) as (c' & Hat & Hn & Hen & Hif).
  destruct (Hat) as [Hc' _]. rewrite Hc in Hc'. simplify_eq.
  unfold myproc. rewrite (bind_ok _ _ _ _ _ (pushcli_ok y c' Hat)).
  pose proof (push_at y c' Hat) as Hat1.
  rewrite (bind_ok _ _ _ _ _ (get_mycpu_ok _ _ Hat1 eq_refl)).
  rewrite (bind_ok _ _ (push y) tt y); [done|].
  rewrite (popcli_ok _ _ Hat1) by (done || simpl; lia). by rewrite pop_push.
Qed.
