(* ===== verification/SpinProtocol.v ===== *)
(** The spin-lock protocol of acquire and release (spinlock.c) at the grain of
    its memory accesses, for any number of processors.

    Each processor is at a point of acquire or release, or outside both; one step
    is one access to the lock struct by one processor, in any order.  The lock
    words are as the C struct has them, so that the two reads of holding() and the
    two writes of release() can be interleaved with other processors. *)

From S2P Require Import Prelude Layout CString State Spinlock.

(** Where a processor is: outside; in acquire, about to read [lk->locked] or
    [lk->cpu] for holding(), to xchg, or to record itself; in the critical
    section; in release, about to read the two words, to clear [lk->cpu], or to
    clear [lk->locked]; or in panic(). *)
Inductive pc :=
| Out | Acq_locked | Acq_cpu | Acq_xchg | Acq_record | Crit
| Rel_locked | Rel_cpu | Rel_clear | Rel_unlock | Panicked.

Record pstate := mk_pstate { ps_lk : spinlock; ps_pc : list pc }.

(** The next access of processor [i] at point [p]: the new lock struct and the
    processor's next point. *)
Definition access (i : nat) (lk : spinlock) (p : pc) : spinlock * pc :=
  match p with
  | Out => (lk, Acq_locked)
  | Acq_locked => (lk, if lk_locked lk =? 0 then Acq_xchg else Acq_cpu)
  | Acq_cpu => (lk, if bool_decide (lk_cpu lk = Some i) then Panicked else Acq_xchg)
  | Acq_xchg => (mk_spinlock 1 (lk_cpu lk), if lk_locked lk =? 0 then Acq_record else Acq_xchg)
  | Acq_record => (mk_spinlock (lk_locked lk) (Some i), Crit)
  | Crit => (lk, Rel_locked)
  | Rel_locked => (lk, if lk_locked lk =? 0 then Panicked else Rel_cpu)
  | Rel_cpu => (lk, if bool_decide (lk_cpu lk = Some i) then Rel_clear else Panicked)
  | Rel_clear => (mk_spinlock (lk_locked lk) None, Rel_unlock)
  | Rel_unlock => (mk_spinlock 0 (lk_cpu lk), Out)
  | Panicked => (lk, Panicked)
  end.

Inductive pstep : pstate -> pstate -> Prop :=
| pstep_cpu i p st :
    ps_pc st !! i = Some p ->
    pstep st (mk_pstate (access i (ps_lk st) p).1 (<[i := (access i (ps_lk st) p).2]> (ps_pc st))).

(** After initlock, with every processor outside. *)
Definition pinit (n : nat) : pstate := mk_pstate (mk_spinlock 0 None) (replicate n Out).

(** The processor owns the lock: from its successful xchg to the store of zero. *)
Definition owns (p : pc) : bool :=
  match p with
  | Acq_record | Crit | Rel_locked | Rel_cpu | Rel_clear | Rel_unlock => true
  | _ => false
  end.

(** The processor is recorded in [lk->cpu]. *)
Definition recorded (p : pc) : bool :=
  match p with Crit | Rel_locked | Rel_cpu | Rel_clear => true | _ => false end.

(** One processor running alone from [Out] for [n] accesses. *)
Fixpoint solo (n : nat) (i : nat) (lk : spinlock) (p : pc) : spinlock * pc :=
  match n with
  | O => (lk, p)
  | S n' => let '(lk', p') := access i lk p in solo n' i lk' p'
  end.

Record pinv (st : pstate) : Prop := mk_pinv {
  inv_word : lk_locked (ps_lk st) = 0 \/ lk_locked (ps_lk st) = 1;
  inv_owner : forall i p, ps_pc st !! i = Some p -> owns p = true -> lk_locked (ps_lk st) = 1;
  inv_one : forall i j p q, ps_pc st !! i = Some p -> ps_pc st !! j = Some q ->
    owns p = true -> owns q = true -> i = j;
  inv_cpu : forall i p, ps_pc st !! i = Some p ->
    recorded p = bool_decide (lk_cpu (ps_lk st) = Some i);
  inv_fine : forall i, ps_pc st !! i <> Some Panicked }.

Lemma recorded_owns p : recorded p = true -> owns p = true.
Proof. by destruct p. Qed.

Lemma pinv_init n : pinv (pinit n).
Proof.
  assert (Hout : forall i p, replicate n Out !! i = Some p -> p = Out)
    by (intros i p H; by apply lookup_replicate in H as [-> _]).
  split; simpl; [by left|intros i p H|intros i j p q H _|intros i p H|intros i H];
    apply Hout in H; subst; try done.
Qed.

(** What a step of processor [i] must establish, in terms of its own point and of
    the lock word only. *)
Lemma pinv_upd lk pcs i p lk' p' :
  pinv (mk_pstate lk pcs) -> pcs !! i = Some p -> p' <> Panicked ->
  (lk_locked lk' = 0 \/ lk_locked lk' = 1) ->
  (owns p' = true -> lk_locked lk' = 1 /\ (owns p = true \/ lk_locked lk = 0)) ->
  (lk_locked lk' = 0 -> lk_locked lk = 0 \/ owns p = true) ->
  recorded p' = bool_decide (lk_cpu lk' = Some i) ->
  (lk_cpu lk' = lk_cpu lk \/ (owns p = true /\ (lk_cpu lk' = None \/ lk_cpu lk' = Some i))) ->
  pinv (mk_pstate lk' (<[i := p']> pcs)).
Proof.
  intros [Hw Ho H1 Hc Hf] Hp Hfine Hw' Hown Hfree Hrec Hcpu. simpl in *.
  assert (Hi : (i < length pcs)%nat) by (by eapply lookup_lt_Some).
  assert (Hget : forall j q, <[i := p']> pcs !! j = Some q -> (j = i /\ q = p') \/ (j <> i /\ pcs !! j = Some q)).
  { intros j q Hj. destruct (decide (j = i)) as [->|Hne].
    - rewrite list_lookup_insert_eq in Hj by done. left. split; congruence.
    - rewrite list_lookup_insert_ne in Hj by done. by right. }
  assert (Hexcl : forall j q, j <> i -> pcs !! j = Some q -> owns q = true ->
            owns p = false /\ lk_locked lk = 1).
  { intros j q Hne Hj Hq. split; [|by eapply Ho]. destruct (owns p) eqn:E; [|done].
    by destruct (Hne (H1 j i q p Hj Hp Hq E)). }
  split; simpl.
  - done.
  - intros j q Hj Hq. destruct (Hget j q Hj) as [[-> ->]|[Hne Hj']]; [by apply Hown|].
    destruct (Hexcl j q Hne Hj' Hq) as [Hn Hl]. destruct Hw' as [H0|]; [|done].
    destruct (Hfree H0); [lia|congruence].
  - intros j k q r Hj Hk Hq Hr.
    destruct (Hget j q Hj) as [[-> ->]|[Hne Hj']]; destruct (Hget k r Hk) as [[-> ->]|[Hne' Hk']]; [done| | |by eauto].
    + destruct (Hexcl k r Hne' Hk' Hr). destruct (Hown Hq) as [_ [?|?]]; [congruence|lia].
    + destruct (Hexcl j q Hne Hj' Hq). destruct (Hown Hr) as [_ [?|?]]; [congruence|lia].
  - intros j q Hj. destruct (Hget j q Hj) as [[-> ->]|[Hne Hj']]; [done|].
    rewrite (Hc j q Hj'). destruct Hcpu as [->|[Hpo Hlk]]; [done|].
    assert (Hj0 : lk_cpu lk <> Some j).
    { intros E. pose proof (Hc j q Hj') as Hr. rewrite (bool_decide_true _ E) in Hr.
      destruct (Hexcl j q Hne Hj' (recorded_owns q Hr)). congruence. }
    rewrite !bool_decide_false; [done| |done]. destruct Hlk as [-> | ->]; congruence.
  - intros j Hj. destruct (Hget j _ Hj) as [[-> E]|[Hne Hj']]; [congruence|by eapply Hf].
Qed.

Lemma pinv_step st st' : pinv st -> pstep st st' -> pinv st'.
Proof.
  intros Hinv Hst. destruct Hst as [i p [lk pcs] Hp]. simpl in *.
  pose proof (inv_word _ Hinv) as Hw. pose proof (inv_owner _ Hinv i p Hp) as Ho.
  pose proof (inv_cpu _ Hinv i p Hp) as Hc. pose proof (inv_fine _ Hinv i) as Hf. simpl in *.
  destruct p; simpl in *; try congruence;
    repeat case_bool_decide; repeat case_bool; try congruence; try lia;
    (eapply pinv_upd; [exact Hinv|exact Hp|..]); simpl; try done; try congruence; try tauto;
    try lia; rewrite ?bool_decide_true by done; try done; by rewrite bool_decide_false by done.
Qed.

Lemma pinv_reachable n st : rtc pstep (pinit n) st -> pinv st.
Proof. intros H. eapply (rtc_ind_r pinv (pinit n)); eauto using pinv_init, pinv_step. Qed.

(** C3: for any number of processors and any interleaving of their memory
    accesses, at most one processor is between its xchg and its release of a spin
    lock, the lock word is 1 while one is, and [lk->cpu] names a processor exactly
    while that processor is in its critical section or about to leave it; the
    panics of acquire and release are never reached. *)
Theorem spinlock_mutual_exclusion n st :
  rtc pstep (pinit n) st ->
  (forall i j p q, ps_pc st !! i = Some p -> ps_pc st !! j = Some q ->
     owns p = true -> owns q = true -> i = j) /\
  (forall i p, ps_pc st !! i = Some p -> owns p = true -> lk_locked (ps_lk st) = 1) /\
  (forall i p, ps_pc st !! i = Some p -> recorded p = bool_decide (lk_cpu (ps_lk st) = Some i)) /\
  (forall i, ps_pc st !! i <> Some Panicked).
Proof.
  intros H%pinv_reachable. split; [exact (inv_one _ H)|]. split; [exact (inv_owner _ H)|].
  split; [exact (inv_cpu _ H)|exact (inv_fine _ H)].
Qed.

(** Two processors, the first in its critical section and the second spinning. *)
Lemma contended_reachable :
  rtc pstep (pinit 2) (mk_pstate (mk_spinlock 1 (Some 0%nat)) [Crit; Acq_xchg]).
Proof.
  do 4 (eapply rtc_l; [apply (pstep_cpu 0%nat); reflexivity|simpl]).
  do 3 (eapply rtc_l; [apply (pstep_cpu 1%nat); reflexivity|simpl]).
  apply rtc_refl.
Qed.

Lemma spinlock_mutual_exclusion_witness :
  rtc pstep (pinit 2) (mk_pstate (mk_spinlock 1 (Some 0%nat)) [Crit; Acq_xchg]) /\
  recorded Acq_xchg = bool_decide (Some 0%nat = Some 1%nat).
Proof.
  split; [exact contended_reachable|].
  apply (spinlock_mutual_exclusion 2 _ contended_reachable). reflexivity.
Defined.

(** Running alone, a processor takes and gives back the lock with the words the
    sequential routines [lock] and [unlock] leave, in four and five accesses. *)
Lemma solo_acquire_release i :
  solo 4 i (mk_spinlock 0 None) Out = (mk_spinlock 1 (Some i), Crit) /\
  solo 5 i (mk_spinlock 1 (Some i)) Crit = (mk_spinlock 0 None, Out).
Proof. split; simpl; [done|]. by rewrite bool_decide_true by done. Qed.
