(* ===== verification/Sched.v ===== *)
(** Giving up and regaining the processor: sched, yield, sleep, wakeup1, wakeup and
    kill of proc.c.

    swtch() is the [Swtch] outcome: the thread is suspended in the middle of sched
    and goes on in whatever state the machine is in when a scheduler picks it.
    [resumed] is what the scheduler promises then. *)

From S2P Require Import Prelude Layout CString State Spinlock.
Local Open Scope kernel_scope.

(** * The routines *)

(** Save the registers of this kernel thread and run the CPU's scheduler thread. *)
Definition swtch : K unit := fun s => Swtch s (fun s' => Ok tt s').

Definition with_intena (b : bool) (c : cpu) : cpu :=
  mk_cpu (apicid c) (started c) (ncli c) b (cpu_proc c) (eflags_if c).

Definition sched : K unit :=
  let! p := on_sync myproc in
  let! h := on_sync (holding L_ptable) in
  if negb h then panic "sched ptable.lock" else
  let! c := on_sync get_mycpu in
  if negb (ncli c =? 1) then panic "sched locks" else
  let! i := index "p" p in
  let! pr := get_proc i in
  if bool_decide (p_state pr = RUNNING) then panic "sched running" else
  let! b := on_sync readeflags_if in
  if b then panic "sched interruptible" else
  let! c := on_sync get_mycpu in
  swtch ;;;
  on_sync (upd_mycpu (with_intena (intena c))).

Definition yield : K unit :=
  on_sync (acquire L_ptable) ;;;
  let! p := on_sync myproc in
  let! i := index "myproc()" p in
  upd_proc i (with_state RUNNABLE) ;;;
  sched ;;;
  on_sync (release L_ptable).

(** [lk] is the address of the lock, [None] the null pointer. *)
Definition sleep (ch : chan) (lk : option lockid) : K unit :=
  let! p := on_sync myproc in
  match p with
  | None => panic "sleep"
  | Some i =>
      match lk with
      | None => panic "sleep without lk"
      | Some lk =>
          when (bool_decide (lk <> L_ptable))
            (on_sync (acquire L_ptable) ;;; on_sync (release lk)) ;;;
          upd_proc i (with_chan (Some ch)) ;;;
          upd_proc i (with_state SLEEPING) ;;;
          sched ;;;
          upd_proc i (with_chan None) ;;;
          when (bool_decide (lk <> L_ptable))
            (on_sync (release L_ptable) ;;; on_sync (acquire lk))
      end
  end.

(** The scan of the process table: the body runs on every entry in order. *)
Definition wake_proc (ch : chan) (p : proc) : proc :=
  if bool_decide (p_state p = SLEEPING) && bool_decide (p_chan p = Some ch)
  then with_state RUNNABLE p else p.

Definition wakeup1 (ch : chan) : K unit :=
  modify (fun s => set_ptable (mk_ptable (wake_proc ch <$> procs (k_ptable s))
                                 (nextpid (k_ptable s)) (initproc (k_ptable s))) s).

Definition wakeup (ch : chan) : K unit :=
  on_sync (acquire L_ptable) ;;;
  wakeup1 ch ;;;
  on_sync (release L_ptable).

Fixpoint find_pid (ps : list proc) (pid : Z) (i : nat) : option nat :=
  match ps with
  | [] => None
  | p :: ps' => if p_pid p =? pid then Some i else find_pid ps' pid (S i)
  end.

Definition kill (pid : Z) : K Z :=
  on_sync (acquire L_ptable) ;;;
  let! ps := reads (fun s => procs (k_ptable s)) in
  match find_pid ps pid 0 with
  | Some i =>
      upd_proc i (with_killed 1) ;;;
      let! p := get_proc i in
      when (bool_decide (p_state p = SLEEPING)) (upd_proc i (with_state RUNNABLE)) ;;;
      on_sync (release L_ptable) ;;;
      ret 0
  | None =>
      on_sync (release L_ptable) ;;;
      ret (-1)
  end.

(** * Locks in kernel states *)

Definition cur_proc (y : sync) : option nat := cpus y !! cur y ≫= cpu_proc.
Definition cur_intena (y : sync) : bool :=
  match cpus y !! cur y with Some c => intena c | None => false end.

(** Kernel code that holds exactly the spin lock [lk] on behalf of process [i],
    which may sleep: ptable.lock is free. *)
Record in_cs (lk : lockid) (i : nat) (s : kstate) : Prop := mk_in_cs {
  cs_sync : sync_ok (k_sync s);
  cs_held : held_lock lk (k_sync s);
  cs_depth : depth (k_sync s) = 1;
  cs_free : free_lock L_ptable (k_sync s);
  cs_cur : cur_proc (k_sync s) = Some i;
  cs_proc : is_Some (procs (k_ptable s) !! i) }.

(** What a scheduler promises the thread of process [i] when it switches to it,
    with [lk] free to be taken again. *)
Record resumed (lk : lockid) (i : nat) (s : kstate) : Prop := mk_resumed {
  rs_sync : sync_ok (k_sync s);
  rs_held : held_lock L_ptable (k_sync s);
  rs_depth : depth (k_sync s) = 1;
  rs_free : free_lock lk (k_sync s);
  rs_cur : cur_proc (k_sync s) = Some i;
  rs_proc : is_Some (procs (k_ptable s) !! i) }.

(** The state in which a sleeper leaves the processor, and the one in which sleep
    returns when it is resumed in [s']. *)
Definition asleep (ch : chan) (lk : lockid) (i : nat) (s : kstate) : kstate :=
  set_ptable (upd_procs i (with_state SLEEPING ∘ with_chan (Some ch)) (k_ptable s))
    (set_sync (unlock lk (lock L_ptable (k_sync s))) s).

Definition awake (ie : bool) (lk : lockid) (i : nat) (s' : kstate) : kstate :=
  set_ptable (upd_procs i (with_chan None) (k_ptable s'))
    (set_sync (lock lk (unlock L_ptable (upd_cur (with_intena ie) (k_sync s')))) s').

Lemma on_sync_ok {A} (m : M sync A) s a y : m (k_sync s) = Ok a y -> on_sync m s = Ok a (set_sync y s).
Proof. intros H. unfold on_sync. by rewrite H. Qed.

Lemma on_sync_pure {A} (m : M sync A) s a : m (k_sync s) = Ok a (k_sync s) -> on_sync m s = Ok a s.
Proof. intros H. rewrite (on_sync_ok m s a _ H). by rewrite set_sync_id. Qed.

Lemma sync_ok_unlock lk y :
  sync_ok y -> 0 < depth y -> sync_ok (unlock lk y) /\ depth (unlock lk y) = depth y - 1.
Proof.
  intros (c & Hc & Hid & Hn & Hen & Hif) Hd. unfold depth in *. rewrite Hc in Hd.
  pose proof (cpu_at_upd y c pop_cpu ltac:(done) (conj Hc Hid)) as [Hc' Hid'].
  unfold unlock, pop. cbn [cpus cur]. unfold upd_cur in *. cbn [cpus cur] in *. rewrite Hc', Hc.
  split; [|done]. exists (pop_cpu c). cbn [cpus cur]. split; [done|]. split; [done|].
  unfold pop_cpu. simpl. split; [lia|]. split.
  - intros ->. simpl. done.
  - intros. by rewrite (proj2 (Z.eqb_neq _ _)) by lia.
Qed.

Lemma cur_proc_upd f y : (forall c, cpu_proc (f c) = cpu_proc c) -> cur_proc (upd_cur f y) = cur_proc y.
Proof.
  intros Hf. unfold cur_proc, upd_cur. cbn [cpus cur]. rewrite list_lookup_alter_eq.
  destruct (cpus y !! cur y); simpl; [apply Hf|done].
Qed.

Lemma cur_proc_lock lk y : cur_proc (lock lk y) = cur_proc y.
Proof. by apply (cur_proc_upd push_cpu). Qed.

Lemma cur_proc_unlock lk y : cur_proc (unlock lk y) = cur_proc y.
Proof. by apply (cur_proc_upd pop_cpu). Qed.

Lemma myproc_cur y : sync_ok y -> myproc y = Ok (cur_proc y) y.
Proof.
  intros Hy. destruct (Hy) as (c & Hc & _). rewrite (myproc_ok y c Hy Hc). unfold cur_proc. by rewrite Hc.
Qed.

Lemma unlock_other lk lk' y : lk <> lk' -> locks (unlock lk y) !! lk' = locks y !! lk'.
Proof. intros. unfold unlock. cbn [locks]. by rewrite lookup_insert_ne. Qed.

Lemma get_mycpu_sync y : sync_ok y -> 0 < depth y ->
  exists c, get_mycpu y = Ok c y /\ ncli c = depth y /\ intena c = cur_intena y /\ eflags_if c = false /\ cpu_at y c.
Proof.
  intros (c & Hc & Hid & Hn & Hen & Hif) Hd. exists c. unfold depth, cur_intena in *. rewrite Hc in *.
  split; [|split; [done|split; [done|split; [auto|by split]]]]. apply get_mycpu_ok; [by split|auto].
Qed.

Lemma sync_ok_intena ie y : sync_ok y -> 0 < depth y ->
  sync_ok (upd_cur (with_intena ie) y) /\ depth (upd_cur (with_intena ie) y) = depth y.
Proof.
  intros (c & Hc & Hid & Hn & Hen & Hif) Hd. unfold depth in *. rewrite Hc in Hd.
  pose proof (cpu_at_upd y c (with_intena ie) ltac:(done) (conj Hc Hid)) as [Hc' Hid'].
  rewrite Hc', Hc. split; [|done]. exists (with_intena ie c). split; [done|]. split; [done|].
  unfold with_intena. simpl. split; [lia|]. split; [lia|done].
Qed.

(** * What the routines do *)

(** sched suspends a thread that holds only ptable.lock and is no longer RUNNING,
    and restores the interrupt state of the thread when it is resumed. *)
Lemma sched_spec i p s :
  sync_ok (k_sync s) -> held_lock L_ptable (k_sync s) -> depth (k_sync s) = 1 ->
  cur_proc (k_sync s) = Some i -> procs (k_ptable s) !! i = Some p -> p_state p <> RUNNING ->
  exists k, sched s = Swtch s k /\ forall s', sync_ok (k_sync s') -> 0 < depth (k_sync s') ->
    k s' = Ok tt (set_sync (upd_cur (with_intena (cur_intena (k_sync s))) (k_sync s')) s').
Proof.
  intros Hy Hh Hd Hcur Hp Hst. unfold sched.
  rewrite (bind_ok _ _ _ _ _ (on_sync_pure _ s _ (myproc_cur _ Hy))).
  rewrite (bind_ok _ _ _ _ _ (on_sync_pure _ s _ (holding_ok _ _ _ Hy Hh))).
  cbn [lk_locked lk_cpu Z.eqb negb andb]. rewrite bool_decide_eq_true_2 by done. cbn [negb].
  destruct (get_mycpu_sync _ Hy ltac:(lia)) as (c & Hc & Hn & Hie & Hif & Hat).
  rewrite (bind_ok _ _ _ _ _ (on_sync_pure _ s _ Hc)), Hn, Hd. cbn [Z.eqb Pos.eqb negb].
  rewrite Hcur. erewrite bind_ok by reflexivity.
  rewrite (bind_ok _ _ s p s) by (unfold get_proc; by rewrite Hp).
  rewrite bool_decide_eq_false_2 by done.
  rewrite (bind_ok _ _ _ _ _ (on_sync_pure _ s _ (readeflags_ok _ _ Hat))), Hif.
  rewrite (bind_ok _ _ _ _ _ (on_sync_pure _ s _ Hc)), Hie.
  eexists. split; [reflexivity|]. intros s' Hy' Hd'. simpl.
  destruct (get_mycpu_sync _ Hy' ltac:(lia)) as (c' & _ & _ & _ & Hif' & Hat').
  apply on_sync_ok. by apply (upd_mycpu_ok _ c').
Qed.

Lemma upd_proc_ok i f s : upd_proc i f s = Ok tt (set_ptable (upd_procs i f (k_ptable s)) s).
Proof. done. Qed.

Lemma upd_procs_procs i f g t : upd_procs i g (upd_procs i f t) = upd_procs i (g ∘ f) t.
Proof. unfold upd_procs. simpl. by rewrite list_alter_alter_eq. Qed.

Lemma acquire_k lk s : sync_ok (k_sync s) -> free_lock lk (k_sync s) ->
  on_sync (acquire lk) s = Ok tt (set_sync (lock lk (k_sync s)) s).
Proof. intros. by apply on_sync_ok, acquire_ok. Qed.

Lemma release_k lk s : sync_ok (k_sync s) -> 0 < depth (k_sync s) -> held_lock lk (k_sync s) ->
  on_sync (release lk) s = Ok tt (set_sync (unlock lk (k_sync s)) s).
Proof. intros. by apply on_sync_ok, release_ok. Qed.

Lemma held_other lk lk' y : lk <> lk' -> held_lock lk y -> held_lock lk (lock lk' y).
Proof. intros Hne Hh. unfold held_lock. rewrite lock_other by done. exact Hh. Qed.

Lemma sleep_sync lk y :
  sync_ok y -> held_lock lk y -> depth y = 1 -> lk <> L_ptable ->
  let y2 := unlock lk (lock L_ptable y) in
  sync_ok y2 /\ depth y2 = 1 /\ held_lock L_ptable y2 /\ cur_proc y2 = cur_proc y /\ free_lock lk y2.
Proof.
  intros Hy Hh Hd Hne. destruct (sync_ok_lock L_ptable y Hy) as [Hy1 Hd1].
  destruct (sync_ok_unlock lk (lock L_ptable y) Hy1 ltac:(lia)) as [Hy2 Hd2]. simpl.
  split; [done|]. split; [lia|]. split; [|split].
  - unfold held_lock. rewrite unlock_other by done. apply held_lock_lock.
  - by rewrite cur_proc_unlock, cur_proc_lock.
  - unfold free_lock, unlock. cbn [locks]. by rewrite lookup_insert_eq.
Qed.

Lemma wake_sync ie lk i s :
  resumed lk i s -> lk <> L_ptable ->
  let y1 := upd_cur (with_intena ie) (k_sync s) in
  sync_ok y1 /\ depth y1 = 1 /\ held_lock L_ptable y1 /\
  sync_ok (unlock L_ptable y1) /\ free_lock lk (unlock L_ptable y1).
Proof.
  intros [Hy Hh Hd Hf _ _] Hne. destruct (sync_ok_intena ie _ Hy ltac:(lia)) as [Hy1 Hd1]. simpl.
  split; [done|]. split; [lia|]. split; [exact Hh|].
  destruct (sync_ok_unlock L_ptable _ Hy1 ltac:(lia)) as [Hy2 _]. split; [done|].
  unfold free_lock. rewrite unlock_other by done. exact Hf.
Qed.

(** sleep gives up [lk] and the processor in one step: in the state it leaves the
    processor in, [lk] is free, ptable.lock is held, and the process is marked as
    sleeping on [ch].  When it is resumed it holds [lk] again, and nothing else. *)
Lemma sleep_spec ch lk i s :
  in_cs lk i s -> lk <> L_ptable ->
  exists k, sleep ch (Some lk) s = Swtch (asleep ch lk i s) k /\
    forall s', resumed lk i s' -> k s' = Ok tt (awake (cur_intena (unlock lk (lock L_ptable (k_sync s)))) lk i s').
Proof.
  intros [Hy Hh Hd Hf Hcur [p Hp]] Hne. unfold sleep.
  rewrite (bind_ok _ _ _ _ _ (on_sync_pure _ s _ (myproc_cur _ Hy))), Hcur.
  rewrite !bool_decide_eq_true_2 by done. unfold when.
  destruct (sleep_sync lk _ Hy Hh Hd Hne) as (Hy2 & Hd2 & Hh2 & Hcur2 & _).
  destruct (sync_ok_lock L_ptable _ Hy) as [Hy1 Hd1].
  set (y1 := lock L_ptable (k_sync s)) in *. set (y2 := unlock lk y1) in *.
  rewrite (bind_ok _ _ s tt (set_sync y2 s)).
  2:{ rewrite (bind_ok _ _ _ _ _ (acquire_k _ s Hy Hf)).
      rewrite release_k; [done|exact Hy1|cbn [k_sync set_sync]; fold y1; lia|]. apply held_other; done. }
  rewrite (bind_ok _ _ _ _ _ (upd_proc_ok _ _ _)). rewrite (bind_ok _ _ _ _ _ (upd_proc_ok _ _ _)).
  match goal with |- context [bind sched _ ?st] => set (s2 := st) end.
  assert (Hs2 : s2 = asleep ch lk i s).
  { unfold s2, asleep. cbn [k_ptable set_ptable set_sync]. by rewrite upd_procs_procs. }
  destruct (sched_spec i (with_state SLEEPING (with_chan (Some ch) p)) s2) as (k & Hk & Hres).
  { exact Hy2. } { exact Hh2. } { exact Hd2. } { rewrite <- Hcur. exact Hcur2. }
  { unfold s2, upd_procs. simpl. by rewrite !list_lookup_alter_eq, Hp. } { done. }
  unfold bind at 1. rewrite Hk, Hs2. simpl. eexists. split; [reflexivity|].
  intros s' Hr. destruct (wake_sync (cur_intena (k_sync s2)) lk i s' Hr Hne) as (Hw1 & Hwd & Hwh & Hw2 & Hwf).
  simpl. rewrite Hres by (apply Hr || (rewrite (rs_depth _ _ _ Hr); lia)). cbn [obind].
  rewrite (bind_ok _ _ _ _ _ (upd_proc_ok _ _ _)).
  erewrite bind_ok; [|apply release_k; [exact Hw1| |exact Hwh]].
  2:{ cbn [k_sync set_ptable set_sync]. lia. }
  rewrite acquire_k; [|exact Hw2|exact Hwf]. by rewrite Hs2.
Qed.

(** The whole process table after wakeup1. *)
Definition woken (ch : chan) (t : ptable) : ptable :=
  mk_ptable (wake_proc ch <$> procs t) (nextpid t) (initproc t).

Lemma wakeup_ok ch s : sync_ok (k_sync s) -> free_lock L_ptable (k_sync s) ->
  wakeup ch s = Ok tt (set_ptable (woken ch (k_ptable s)) s).
Proof.
  intros Hy Hf. unfold wakeup, wakeup1. rewrite (bind_ok _ _ _ _ _ (acquire_k _ s Hy Hf)).
  erewrite bind_ok by reflexivity. destruct (sync_ok_lock L_ptable _ Hy) as [Hy1 Hd1].
  destruct (Hy) as (c & Hc & _ & Hn & _).
  rewrite release_k; [|exact Hy1| |apply held_lock_lock].
  - cbn [k_sync set_sync set_ptable k_ptable]. rewrite unlock_lock by done. by destruct s.
  - cbn [k_sync set_sync set_ptable]. unfold depth in Hd1 at 2. rewrite Hc in Hd1. lia.
Qed.

(** A critical section of ptable.lock around a change [t] of the process table. *)
Lemma depth_lock_pos lk y : sync_ok y -> 0 < depth (lock lk y).
Proof.
  intros Hy. destruct (sync_ok_lock lk y Hy) as [_ ->]. destruct Hy as (c & Hc & _ & Hn & _).
  unfold depth. rewrite Hc. lia.
Qed.

Lemma release_locked lk s y : k_sync s = lock lk y -> sync_ok y -> free_lock lk y ->
  on_sync (release lk) s = Ok tt (set_sync y s).
Proof.
  intros Hs Hy Hf. destruct (sync_ok_lock lk y Hy) as [Hy1 Hd1]. rewrite release_k; rewrite ?Hs.
  - by rewrite unlock_lock.
  - done.
  - by apply depth_lock_pos.
  - apply held_lock_lock.
Qed.

Definition killed_proc (p : proc) : proc :=
  with_killed 1 (if bool_decide (p_state p = SLEEPING) then with_state RUNNABLE p else p).

Lemma find_pid_lookup ps pid j i :
  find_pid ps pid j = Some i -> exists p, ps !! (i - j)%nat = Some p /\ p_pid p = pid /\ (j <= i)%nat.
Proof.
  revert j. induction ps as [|p ps IH]; intros j; simpl; [done|]. destruct (Z.eqb_spec (p_pid p) pid).
  - intros [= ->]. rewrite Nat.sub_diag. by exists p.
  - intros (q & Hq & Hpid & Hj)%IH. exists q. replace (i - j)%nat with (S (i - S j)) by lia.
    split; [done|]. split; [done|lia].
Qed.

Lemma find_pid_none ps pid j : find_pid ps pid j = None <-> Forall (fun p => p_pid p <> pid) ps.
Proof.
  revert j. induction ps as [|p ps IH]; intros j; simpl; [done|].
  rewrite Forall_cons_iff. destruct (Z.eqb_spec (p_pid p) pid); [|by rewrite IH; tauto].
  split; [done|tauto].
Qed.

Lemma kill_ok pid s : sync_ok (k_sync s) -> free_lock L_ptable (k_sync s) ->
  kill pid s =
  match find_pid (procs (k_ptable s)) pid 0 with
  | Some i => Ok 0 (set_ptable (upd_procs i killed_proc (k_ptable s)) s)
  | None => Ok (-1) s
  end.
Proof.
  intros Hy Hf. unfold kill. rewrite (bind_ok _ _ _ _ _ (acquire_k _ s Hy Hf)).
  erewrite bind_ok by reflexivity. cbn [k_ptable set_sync].
  destruct (find_pid (procs (k_ptable s)) pid 0) as [i|] eqn:Hi.
  - rewrite (bind_ok _ _ _ _ _ (upd_proc_ok _ _ _)).
    destruct (find_pid_lookup _ _ _ _ Hi) as (p & Hp & _). rewrite Nat.sub_0_r in Hp.
    rewrite (bind_ok _ _ _ (with_killed 1 p) (set_ptable (upd_procs i (with_killed 1) (k_ptable s)) (set_sync (lock L_ptable (k_sync s)) s))).
    2:{ unfold get_proc, upd_procs. simpl. by rewrite list_lookup_alter_eq, Hp. }
    set (s1 := set_ptable (upd_procs i killed_proc (k_ptable s)) (set_sync (lock L_ptable (k_sync s)) s)).
    rewrite (bind_ok _ _ _ tt s1).
    2:{ unfold s1, killed_proc, when. cbn [p_state with_killed]. case_bool_decide as Hst.
        - rewrite upd_proc_ok, set_ptable_ptable. cbn [k_ptable set_ptable]. rewrite upd_procs_procs.
          unfold upd_procs. do 3 f_equal. apply (list_alter_at _ _ _ _ _ Hp). simpl. by rewrite bool_decide_eq_true_2.
        - unfold ret, upd_procs. do 3 f_equal. apply (list_alter_at _ _ _ _ _ Hp). by rewrite bool_decide_eq_false_2. }
    rewrite (bind_ok _ _ _ _ _ (release_locked L_ptable s1 (k_sync s) eq_refl Hy Hf)).
    done.
  - rewrite (bind_ok _ _ _ _ _ (release_locked L_ptable (set_sync _ s) (k_sync s) eq_refl Hy Hf)).
    unfold ret. f_equal. by destruct s.
Qed.

Lemma awake_in_cs ie lk i s : resumed lk i s -> lk <> L_ptable -> in_cs lk i (awake ie lk i s).
Proof.
  intros Hr Hne. destruct (wake_sync ie lk i s Hr Hne) as (Hy1 & Hd1 & Hh1 & Hy2 & Hf2).
  destruct (sync_ok_unlock L_ptable _ Hy1 ltac:(lia)) as [_ Hd2].
  destruct (sync_ok_lock lk _ Hy2) as [Hy3 Hd3]. unfold awake. split; cbn [k_sync set_ptable set_sync k_ptable].
  - done.
  - apply held_lock_lock.
  - lia.
  - unfold free_lock. rewrite lock_other by done. unfold unlock. cbn [locks]. by rewrite lookup_insert_eq.
  - rewrite cur_proc_lock, cur_proc_unlock, cur_proc_upd by done. apply (rs_cur _ _ _ Hr).
  - destruct (rs_proc _ _ _ Hr) as [p Hp]. unfold upd_procs. cbn [procs].
    rewrite list_lookup_alter_eq, Hp. by eexists.
Qed.

(** A property of the kernel's data that does not depend on locks and processes. *)
Class DataInv (I : kstate -> Prop) : Prop := {
  data_sync y s : I s -> I (set_sync y s);
  data_ptable t s : I s -> I (set_ptable t s) }.

(** The rely and the guarantee of code that keeps [I] whenever [lk] is free. *)
Definition cs_guar (I : kstate -> Prop) (lk : lockid) (s : kstate) : Prop :=
  I s /\ free_lock lk (k_sync s).
Definition cs_rely (I : kstate -> Prop) (lk : lockid) (i : nat) (_ s' : kstate) : Prop :=
  I s' /\ resumed lk i s'.

(** sleep gives the data protected by its lock to other threads and finds the
    invariant re-established, in the critical section again. *)
Lemma sleep_guar I `{!DataInv I} ch lk i s :
  in_cs lk i s -> lk <> L_ptable -> I s ->
  guar (cs_guar I lk) (cs_rely I lk i) (fun _ s' => in_cs lk i s' /\ I s') (sleep ch (Some lk) s).
Proof.
  intros Hcs Hne HI. destruct (sleep_spec ch lk i s Hcs Hne) as (k & -> & Hk). simpl.
  destruct Hcs as [Hy Hh Hd _ _ _]. destruct (sleep_sync lk _ Hy Hh Hd Hne) as (_ & _ & _ & _ & Hf).
  split; [split; [by apply data_ptable, data_sync|exact Hf]|].
  intros s' [HI' Hr]. rewrite Hk by done. simpl. split; [by apply awake_in_cs|].
  by apply data_ptable, data_sync.
Qed.


(** Kill finds the process by its pid, marks it killed and makes it RUNNABLE if
    it sleeps; it changes no other process and no other state, and reports -1
    exactly when no process has the pid. *)
Theorem kill_correct pid s :
  sync_ok (k_sync s) -> free_lock L_ptable (k_sync s) ->
  (Forall (fun p => p_pid p <> pid) (procs (k_ptable s)) /\ kill pid s = Ok (-1) s) \/
  (exists i p q t, kill pid s = Ok 0 (set_ptable t s) /\
     procs (k_ptable s) !! i = Some p /\ p_pid p = pid /\
     procs t = <[i := q]> (procs (k_ptable s)) /\
     p_killed q = 1 /\ p_state q <> SLEEPING /\
     (p_state p <> SLEEPING -> q = with_killed 1 p) /\ p_pid q = pid).
Proof.
  intros Hy Hf. rewrite kill_ok by done. destruct (find_pid (procs (k_ptable s)) pid 0) as [i|] eqn:Hi.
  - right. destruct (find_pid_lookup _ _ _ _ Hi) as (p & Hp & Hpid & _). rewrite Nat.sub_0_r in Hp.
    exists i, p, (killed_proc p), (upd_procs i killed_proc (k_ptable s)).
    split; [done|]. split; [done|]. split; [done|]. split.
    { unfold upd_procs. simpl. by apply list_alter_insert_at. }
    unfold killed_proc. split; [done|]. case_bool_decide; simpl; [|done].
    split; [done|]. split; [done|done].
  - left. split; [|done]. by apply (find_pid_none _ _ 0%nat).
Qed.
