(* ===== verification/Mem.v ===== *)
(** Access to memory through virtual addresses.

    [k_mem] is the physical memory, by kernel address: the kernel maps physical
    address [p] at [P2V p].  An access to an address below KERNBASE goes through the
    page table of the running process, as the processor does it; where there is no
    mapping, it faults. *)

From S2P Require Import Prelude Layout CString State Spinlock Sched.
Local Open Scope kernel_scope.

(** The two steps of the walk through the page directory and the page table. *)
Definition pde_at (pgdir va : Z) : Z := pgdir + 4 * PDX va.
Definition pte_at (pde va : Z) : Z := P2V (PTE_ADDR pde) + 4 * PTX va.
Definition pg_off (va : Z) : Z := Z.land va 0xFFF.

(** The address of the page table entry of [va], if its page table is present. *)
Definition find_pte (m : memory) (pgdir va : Z) : option Z :=
  let pde := ld32 m (pde_at pgdir va) in
  if Z.land pde PTE_P =? 0 then None else Some (pte_at pde va).

(** The kernel address that user address [va] stands for. *)
Definition user_ka (m : memory) (pgdir va : Z) : option Z :=
  match find_pte m pgdir va with
  | Some a =>
      let pte := ld32 m a in
      if Z.land pte PTE_P =? 0 then None else Some (P2V (PTE_ADDR pte) + pg_off va)
  | None => None
  end.

(** The page directory in cr3: that of the running process. *)
Definition active_pgdir (s : kstate) : Z :=
  match cur_proc (k_sync s) ≫= fun i => procs (k_ptable s) !! i with Some p => p_pgdir p | None => 0 end.

Definition vaddr_ka (s : kstate) (a : Z) : option Z :=
  if KERNBASE <=? a then Some a
  else if active_pgdir s =? 0 then None else user_ka (k_mem s) (active_pgdir s) a.

Definition upd_mem (f : memory -> memory) : K unit := modify (fun s => set_mem (f (k_mem s)) s).

(** Loads and stores of bytes and words at virtual addresses. *)
Definition vldb (a : Z) : K Z := fun s =>
  (let! k := index "page fault" (vaddr_ka s a) in ret (ldb (k_mem s) k)) s.
Definition vstb (a v : Z) : K unit := fun s =>
  (let! k := index "page fault" (vaddr_ka s a) in upd_mem (fun m => stb m k v)) s.

Fixpoint vload (a : Z) (n : nat) : K (list Z) :=
  match n with
  | O => ret []
  | S n' => let! b := vldb a in let! bs := vload (a + 1) n' in ret (b :: bs)
  end.

Fixpoint vstore (a : Z) (bs : list Z) : K unit :=
  match bs with
  | [] => ret tt
  | b :: bs' => vstb a b ;;; vstore (a + 1) bs'
  end.

Definition vld32 (a : Z) : K Z := let! bs := vload a 4 in ret (le_val bs).
Definition vst32 (a v : Z) : K unit := vstore a (le_bytes 4 v).

(** * Lemmas *)
Lemma vldb_kernel a s : KERNBASE <= a -> vldb a s = Ok (ldb (k_mem s) a) s.
Proof. intros Ha. unfold vldb, vaddr_ka. rewrite (proj2 (Z.leb_le _ _)) by done. done. Qed.

Lemma vstb_kernel a v s : KERNBASE <= a -> vstb a v s = Ok tt (set_mem (stb (k_mem s) a v) s).
Proof. intros Ha. unfold vstb, vaddr_ka. rewrite (proj2 (Z.leb_le _ _)) by done. done. Qed.

Fixpoint ld_bytes (m : memory) (a : Z) (n : nat) : list Z :=
  match n with O => [] | S n' => ldb m a :: ld_bytes m (a + 1) n' end.

Fixpoint st_bytes (m : memory) (a : Z) (bs : list Z) : memory :=
  match bs with [] => m | b :: bs' => st_bytes (stb m a b) (a + 1) bs' end.

Lemma vload_kernel n : forall a s, KERNBASE <= a -> vload a n s = Ok (ld_bytes (k_mem s) a n) s.
Proof.
  induction n as [|n IH]; intros a s Ha; [done|]. cbn [vload ld_bytes].
  rewrite (bind_ok _ _ _ _ _ (vldb_kernel _ _ Ha)), (bind_ok _ _ _ _ _ (IH (a + 1) s ltac:(lia))). done.
Qed.

Lemma set_mem_mem m m' s : set_mem m (set_mem m' s) = set_mem m s.
Proof. done. Qed.

Lemma vstore_kernel bs : forall a s, KERNBASE <= a -> vstore a bs s = Ok tt (set_mem (st_bytes (k_mem s) a bs) s).
Proof.
  induction bs as [|b bs IH]; intros a s Ha; [by destruct s|]. cbn [vstore st_bytes].
  rewrite (bind_ok _ _ _ _ _ (vstb_kernel _ _ _ Ha)), IH by lia. done.
Qed.

Lemma ld_bytes_4 m a : le_val (ld_bytes m a 4) = ld32 m a.
Proof.
  cbn [ld_bytes le_val]. unfold ld32. replace (a + 1 + 1) with (a + 2) by lia. replace (a + 2 + 1) with (a + 3) by lia.
  change (2 ^ 8) with 256. change (2 ^ 16) with (256 * 256). change (2 ^ 24) with (256 * 256 * 256). lia.
Qed.

Lemma st_bytes_4 m a v : st_bytes m a (le_bytes 4 v) = st32 m a v.
Proof.
  cbn [st_bytes le_bytes]. unfold st32, stb, u8. replace (a + 1 + 1) with (a + 2) by lia. replace (a + 2 + 1) with (a + 3) by lia.
  rewrite !Z.div_div by lia. change (2 ^ 8) with 256. change (2 ^ 16) with (256 * 256). change (2 ^ 24) with (256 * 256 * 256).
  rewrite !Z.mul_assoc. by rewrite !Z.mod_mod by lia.
Qed.

Lemma vld32_kernel a s : KERNBASE <= a -> vld32 a s = Ok (ld32 (k_mem s) a) s.
Proof. intros Ha. unfold vld32. rewrite (bind_ok _ _ _ _ _ (vload_kernel 4 a s Ha)), ld_bytes_4. done. Qed.

Lemma vst32_kernel a v s : KERNBASE <= a -> vst32 a v s = Ok tt (set_mem (st32 (k_mem s) a v) s).
Proof. intros Ha. unfold vst32. by rewrite vstore_kernel, st_bytes_4. Qed.
