(* ===== verification/Sleeplock.v ===== *)
(** Sleep-locks: sleeplock.c, for the locks inside buffers and inodes.

    A sleep-lock is named by the struct that contains it.  [calm] describes a state
    in which a process runs kernel code without holding spin locks; the routines
    run there without switching when the sleep-lock is free, and [acquiresleep_guar]
    covers the contended case. *)

From S2P Require Import Prelude Layout CString State Spinlock Sched.
Local Open Scope kernel_scope.

(** * The routines *)
Inductive sleepid := S_buf (i : nat) | S_inode (i : nat).

Definition sl_spin (id : sleepid) : lockid :=
  match id with S_buf i => L_buf i | S_inode i => L_inode i end.

Definition sl_chan (id : sleepid) : chan :=
  match id with S_buf i => C_buflock i | S_inode i => C_inodelock i end.

Definition sl_get (id : sleepid) (s : kstate) : option sleeplock :=
  match id with
  | S_buf i => b_lock <$> bufs (k_bcache s) !! i
  | S_inode i => i_lock <$> inodes (k_fs s) !! i
  end.

Definition sl_put (id : sleepid) (v : sleeplock) (s : kstate) : kstate :=
  match id with
  | S_buf i => set_bcache (with_bufs (alter (with_b_lock v) i (bufs (k_bcache s))) (k_bcache s)) s
  | S_inode i => set_fs (with_inodes (alter (with_i_lock v) i (inodes (k_fs s))) (k_fs s)) s
  end.

Definition get_sleeplock (id : sleepid) : K sleeplock := fun s => index "sleeplock" (sl_get id s) s.

Definition upd_sleeplock (id : sleepid) (f : sleeplock -> sleeplock) : K unit :=
  let! l := get_sleeplock id in modify (sl_put id (f l)).

Definition initsleeplock (id : sleepid) : K unit :=
  on_sync (initlock (sl_spin id)) ;;;
  upd_sleeplock id (fun l => mk_sleeplock 0 (sl_pid l)) ;;;
  upd_sleeplock id (fun l => mk_sleeplock (sl_locked l) 0).

(** How often a thread is woken in one wait before the model gives up on it. *)
Definition wait_fuel : nat := 1000.

Fixpoint wait_unlocked (fuel : nat) (id : sleepid) : K unit :=
  let! l := get_sleeplock id in
  if sl_locked l =? 0 then ret tt else
  match fuel with
  | O => hang
  | S fuel' => sleep (sl_chan id) (Some (sl_spin id)) ;;; wait_unlocked fuel' id
  end.

(** [myproc()->pid] *)
Definition mypid : K Z :=
  let! p := on_sync myproc in
  let! i := index "myproc()" p in
  let! pr := get_proc i in
  ret (p_pid pr).

Definition acquiresleep (id : sleepid) : K unit :=
  on_sync (acquire (sl_spin id)) ;;;
  wait_unlocked wait_fuel id ;;;
  upd_sleeplock id (fun l => mk_sleeplock 1 (sl_pid l)) ;;;
  let! pid := mypid in
  upd_sleeplock id (fun l => mk_sleeplock (sl_locked l) pid) ;;;
  on_sync (release (sl_spin id)).

Definition releasesleep (id : sleepid) : K unit :=
  on_sync (acquire (sl_spin id)) ;;;
  upd_sleeplock id (fun l => mk_sleeplock 0 (sl_pid l)) ;;;
  upd_sleeplock id (fun l => mk_sleeplock (sl_locked l) 0) ;;;
  wakeup (sl_chan id) ;;;
  on_sync (release (sl_spin id)).

Definition holdingsleep (id : sleepid) : K bool :=
  on_sync (acquire (sl_spin id)) ;;;
  let! l := get_sleeplock id in
  let! r := (if sl_locked l =? 0 then ret false
             else let! pid := mypid in ret (sl_pid l =? pid)) in
  on_sync (release (sl_spin id)) ;;;
  ret r.

(** * Calm states *)

(** The locks that exist in a state. *)
Definition has_lock (lk : lockid) (s : kstate) : Prop :=
  match lk with
  | L_buf i => (i < length (bufs (k_bcache s)))%nat
  | L_inode i => (i < length (inodes (k_fs s)))%nat
  | L_pipe a => is_Some (k_pipes s !! a)
  | _ => True
  end.

(** Process [pid] runs kernel code and holds no spin lock, and no one else does. *)
Record calm (pid : Z) (s : kstate) : Prop := mk_calm {
  calm_sync : sync_ok (k_sync s);
  calm_depth : depth (k_sync s) = 0;
  calm_locks : forall lk, has_lock lk s -> free_lock lk (k_sync s);
  calm_proc : exists i p, cur_proc (k_sync s) = Some i /\ procs (k_ptable s) !! i = Some p /\ p_pid p = pid }.

(** No processor holds a spin lock, whether a process runs or not. *)
Record quiet (s : kstate) : Prop := mk_quiet {
  quiet_sync : sync_ok (k_sync s);
  quiet_depth : depth (k_sync s) = 0;
  quiet_locks : forall lk, has_lock lk s -> free_lock lk (k_sync s) }.

Lemma calm_quiet pid s : calm pid s -> quiet s.
Proof. by intros []. Qed.

(** The same with one spin lock taken. *)
Definition calm_with (lk : lockid) (pid : Z) (s : kstate) : Prop :=
  exists s0, calm pid s0 /\ has_lock lk s0 /\ s = set_sync (lock lk (k_sync s0)) s0.

Lemma sl_put_sync id v s : k_sync (sl_put id v s) = k_sync s.
Proof. by destruct id. Qed.

Lemma sl_put_ptable id v s : k_ptable (sl_put id v s) = k_ptable s.
Proof. by destruct id. Qed.

Lemma sl_put_put id v w s : sl_put id v (sl_put id w s) = sl_put id v s.
Proof.
  destruct id; simpl; unfold set_bcache, set_fs, with_bufs, with_inodes; simpl; do 2 f_equal;
    rewrite list_alter_alter_eq; by apply list_alter_ext.
Qed.

Lemma sl_put_set_sync id v y s : sl_put id v (set_sync y s) = set_sync y (sl_put id v s).
Proof. by destruct id. Qed.

Lemma sl_get_put id v s l : sl_get id s = Some l -> sl_get id (sl_put id v s) = Some v.
Proof.
  destruct id as [i|i]; simpl; rewrite fmap_Some; intros (b & Hb & _);
    rewrite list_lookup_alter_eq, Hb; done.
Qed.

Lemma sl_put_id id s l : sl_get id s = Some l -> sl_put id l s = s.
Proof.
  destruct id as [i|i]; simpl; rewrite fmap_Some; intros (b & Hb & ->);
    unfold set_bcache, set_fs, with_bufs, with_inodes.
  - rewrite (list_alter_at _ _ _ _ id Hb), list_alter_id by (by destruct b). by destruct s as [????? []].
  - rewrite (list_alter_at _ _ _ _ id Hb), list_alter_id by (by destruct b). by destruct s as [???????? []].
Qed.

Lemma has_lock_put id v s lk : has_lock lk (sl_put id v s) <-> has_lock lk s.
Proof. destruct id, lk; simpl; rewrite ?length_alter; done. Qed.

Lemma sl_spin_has id s l : sl_get id s = Some l -> has_lock (sl_spin id) s.
Proof. destruct id; simpl; rewrite fmap_Some; intros (b & Hb & _); by eapply lookup_lt_Some. Qed.

Lemma sl_spin_ptable id : sl_spin id <> L_ptable.
Proof. by destruct id. Qed.
#[export] Hint Resolve sl_spin_ptable : xv6.

Lemma calm_put id v pid s : calm pid s -> calm pid (sl_put id v s).
Proof.
  intros [Hy Hd Hl Hp]. split; rewrite ?sl_put_sync, ?sl_put_ptable; try done.
  intros lk H%has_lock_put. by apply Hl.
Qed.

Lemma wake_pid ch p : p_pid (wake_proc ch p) = p_pid p.
Proof. unfold wake_proc. by destruct (_ && _). Qed.

Lemma calm_woken ch pid s : calm pid s -> calm pid (set_ptable (woken ch (k_ptable s)) s).
Proof.
  intros [Hy Hd Hl (i & p & Hi & Hp & Hpid)]. split; try done.
  exists i, (wake_proc ch p). split; [done|]. simpl. rewrite list_lookup_fmap, Hp. split; [done|].
  by rewrite wake_pid.
Qed.

(** The current process is found in any state that differs in its locks only. *)
Lemma mypid_ok pid s i p :
  sync_ok (k_sync s) -> cur_proc (k_sync s) = Some i -> procs (k_ptable s) !! i = Some p -> p_pid p = pid ->
  mypid s = Ok pid s.
Proof.
  intros Hy Hi Hp Hpid. unfold mypid. rewrite (bind_ok _ _ _ _ _ (on_sync_pure _ s _ (myproc_cur _ Hy))), Hi.
  erewrite bind_ok by reflexivity. rewrite (bind_ok _ _ s p s) by (unfold get_proc; by rewrite Hp).
  by rewrite <- Hpid.
Qed.

Lemma get_sleeplock_ok id s l : sl_get id s = Some l -> get_sleeplock id s = Ok l s.
Proof. intros H. unfold get_sleeplock. by rewrite H. Qed.

Lemma upd_sleeplock_ok id f s l : sl_get id s = Some l -> upd_sleeplock id f s = Ok tt (sl_put id (f l) s).
Proof. intros H. unfold upd_sleeplock. by rewrite (bind_ok _ _ _ _ _ (get_sleeplock_ok _ _ _ H)). Qed.

Lemma sl_get_set_sync id y s : sl_get id (set_sync y s) = sl_get id s.
Proof. by destruct id. Qed.

(** * What the routines do in calm states *)

Lemma acquire_quiet lk s : quiet s -> has_lock lk s -> on_sync (acquire lk) s = Ok tt (set_sync (lock lk (k_sync s)) s).
Proof. intros [Hy _ Hl] Hh. apply acquire_k; [done|by apply Hl]. Qed.

Lemma release_quiet lk s0 s : quiet s0 -> has_lock lk s0 ->
  k_sync s = lock lk (k_sync s0) -> on_sync (release lk) s = Ok tt (set_sync (k_sync s0) s).
Proof. intros [Hy _ Hl] Hh Hs. apply release_locked; [done|done|by apply Hl]. Qed.

Lemma acquire_calm lk pid s : calm pid s -> has_lock lk s ->
  on_sync (acquire lk) s = Ok tt (set_sync (lock lk (k_sync s)) s).
Proof. intros Hc. by apply acquire_quiet, (calm_quiet pid). Qed.

(** Leaving the critical section that was entered from the calm state [s0]. *)
Lemma release_calm lk pid s0 s : calm pid s0 -> has_lock lk s0 ->
  k_sync s = lock lk (k_sync s0) -> on_sync (release lk) s = Ok tt (set_sync (k_sync s0) s).
Proof. intros Hc. by apply release_quiet, (calm_quiet pid). Qed.

Lemma locked_pid lk pid s0 s : calm pid s0 -> k_sync s = lock lk (k_sync s0) ->
  k_ptable s = k_ptable s0 -> mypid s = Ok pid s.
Proof.
  intros [Hy _ _ (i & p & Hi & Hp & Hpid)] Hs Ht. apply (mypid_ok pid s i p); rewrite ?Hs, ?Ht; try done.
  - by apply sync_ok_lock.
  - by rewrite cur_proc_lock.
Qed.

Lemma acquiresleep_calm id pid s l :
  calm pid s -> sl_get id s = Some l -> sl_locked l = 0 ->
  acquiresleep id s = Ok tt (sl_put id (mk_sleeplock 1 pid) s).
Proof.
  intros Hc Hl H0. unfold acquiresleep. pose proof (sl_spin_has _ _ _ Hl) as Hhas.
  rewrite (bind_ok _ _ _ _ _ (acquire_calm _ _ s Hc Hhas)).
  set (s1 := set_sync (lock (sl_spin id) (k_sync s)) s).
  assert (Hl1 : sl_get id s1 = Some l) by (unfold s1; by rewrite sl_get_set_sync).
  rewrite (bind_ok _ _ s1 tt s1).
  2:{ unfold wait_fuel. cbn [wait_unlocked]. rewrite (bind_ok _ _ _ _ _ (get_sleeplock_ok _ _ _ Hl1)), H0. done. }
  rewrite (bind_ok _ _ _ _ _ (upd_sleeplock_ok id _ s1 l Hl1)).
  rewrite (bind_ok _ _ _ _ _ (locked_pid (sl_spin id) pid s _ Hc (sl_put_sync id _ s1) (sl_put_ptable id _ s1))).
  rewrite (bind_ok _ _ _ _ _ (upd_sleeplock_ok id _ _ _ (sl_get_put _ _ _ _ Hl1))). cbn [sl_locked].
  rewrite sl_put_put. unfold s1. rewrite sl_put_set_sync.
  rewrite (release_calm _ pid s) by done. f_equal.
  by rewrite set_sync_sync, <- sl_put_set_sync, set_sync_id.
Qed.

Lemma holdingsleep_calm id pid s l :
  calm pid s -> sl_get id s = Some l ->
  holdingsleep id s = Ok (negb (sl_locked l =? 0) && (sl_pid l =? pid)) s.
Proof.
  intros Hc Hl. unfold holdingsleep. pose proof (sl_spin_has _ _ _ Hl) as Hhas.
  rewrite (bind_ok _ _ _ _ _ (acquire_calm _ _ s Hc Hhas)).
  rewrite (bind_ok _ _ _ _ _ (get_sleeplock_ok _ _ _ (eq_trans (sl_get_set_sync _ _ _) Hl))).
  assert (Hrel : on_sync (release (sl_spin id)) (set_sync (lock (sl_spin id) (k_sync s)) s) = Ok tt s).
  { rewrite (release_calm _ pid s) by done. by rewrite set_sync_sync, set_sync_id. }
  destruct (sl_locked l =? 0).
  - erewrite bind_ok by reflexivity. by rewrite (bind_ok _ _ _ _ _ Hrel).
  - erewrite bind_ok by (by rewrite (bind_ok _ _ _ _ _ (locked_pid (sl_spin id) pid s (set_sync _ s) Hc eq_refl eq_refl))).
    by rewrite (bind_ok _ _ _ _ _ Hrel).
Qed.

(** Releasing also wakes the processes that wait for the lock. *)
Lemma wakeup_with lk ch pid s0 s : calm pid s0 -> has_lock lk s0 -> lk <> L_ptable ->
  k_sync s = lock lk (k_sync s0) -> wakeup ch s = Ok tt (set_ptable (woken ch (k_ptable s)) s).
Proof.
  intros Hc Hl Hne Hs. apply wakeup_ok; rewrite Hs.
  - apply sync_ok_lock, Hc.
  - unfold free_lock. rewrite lock_other by done. by apply (calm_locks _ _ Hc L_ptable).
Qed.

Lemma releasesleep_calm id pid s l :
  calm pid s -> sl_get id s = Some l ->
  releasesleep id s = Ok tt (set_ptable (woken (sl_chan id) (k_ptable s)) (sl_put id (mk_sleeplock 0 0) s)).
Proof.
  intros Hc Hl. unfold releasesleep. pose proof (sl_spin_has _ _ _ Hl) as Hhas.
  rewrite (bind_ok _ _ _ _ _ (acquire_calm _ _ s Hc Hhas)).
  set (s1 := set_sync (lock (sl_spin id) (k_sync s)) s).
  assert (Hl1 : sl_get id s1 = Some l) by (unfold s1; by rewrite sl_get_set_sync).
  rewrite (bind_ok _ _ _ _ _ (upd_sleeplock_ok id _ s1 l Hl1)).
  rewrite (bind_ok _ _ _ _ _ (upd_sleeplock_ok id _ _ _ (sl_get_put _ _ _ _ Hl1))). cbn [sl_locked].
  rewrite sl_put_put. unfold s1. rewrite sl_put_set_sync.
  rewrite (bind_ok _ _ _ _ _ (wakeup_with (sl_spin id) (sl_chan id) pid s (set_sync _ _) Hc Hhas (sl_spin_ptable id) eq_refl)).
  rewrite (release_calm _ pid s) by done. f_equal. by destruct id, s.
Qed.

(** * The contended case *)
Definition sl_exists (id : sleepid) (s : kstate) : Prop := is_Some (sl_get id s).

#[export] Instance sl_exists_data id : DataInv (sl_exists id).
Proof. split; intros; destruct id; done. Qed.

Lemma wait_unlocked_guar fuel id i s :
  in_cs (sl_spin id) i s -> sl_exists id s ->
  guar (cs_guar (sl_exists id) (sl_spin id)) (cs_rely (sl_exists id) (sl_spin id) i)
    (fun _ s' => in_cs (sl_spin id) i s' /\ exists l, sl_get id s' = Some l /\ sl_locked l = 0)
    (wait_unlocked fuel id s).
Proof.
  revert s. induction fuel as [|fuel IH]; intros s Hcs [l Hl];
    cbn [wait_unlocked]; rewrite (bind_ok _ _ _ _ _ (get_sleeplock_ok _ _ _ Hl));
    destruct (Z.eqb_spec (sl_locked l) 0); simpl; eauto.
  eapply guar_bind; [apply sleep_guar; eauto with xv6; by eexists|].
  intros [] s' [Hcs' Hex]. by apply IH.
Qed.

(** Entering a critical section from a calm state. *)
Lemma calm_in_cs lk pid s : calm pid s -> has_lock lk s -> lk <> L_ptable ->
  exists i, cur_proc (k_sync s) = Some i /\ in_cs lk i (set_sync (lock lk (k_sync s)) s).
Proof.
  intros [Hy Hd Hl (i & p & Hi & Hp & _)] Hhas Hne. exists i. split; [done|].
  destruct (sync_ok_lock lk _ Hy) as [Hy1 Hd1]. split; cbn [k_sync set_sync k_ptable].
  - done.
  - apply held_lock_lock.
  - lia.
  - unfold free_lock. rewrite lock_other by done. by apply (Hl L_ptable).
  - by rewrite cur_proc_lock.
  - by exists p.
Qed.

Lemma take_sleeplock id i s l :
  in_cs (sl_spin id) i s -> sl_get id s = Some l ->
  exists p, procs (k_ptable s) !! i = Some p /\
  (upd_sleeplock id (fun l => mk_sleeplock 1 (sl_pid l)) ;;;
   let! pid := mypid in
   upd_sleeplock id (fun l => mk_sleeplock (sl_locked l) pid) ;;;
   on_sync (release (sl_spin id))) s =
  Ok tt (set_sync (unlock (sl_spin id) (k_sync s)) (sl_put id (mk_sleeplock 1 (p_pid p)) s)).
Proof.
  intros [Hy Hh Hd Hf Hcur [p Hp]] Hl. exists p. split; [done|].
  rewrite (bind_ok _ _ _ _ _ (upd_sleeplock_ok id _ s l Hl)).
  erewrite bind_ok.
  2:{ apply (mypid_ok (p_pid p) _ i p); rewrite ?sl_put_sync, ?sl_put_ptable; done. }
  rewrite (bind_ok _ _ _ _ _ (upd_sleeplock_ok id _ _ _ (sl_get_put _ _ _ _ Hl))). cbn [sl_locked].
  rewrite sl_put_put, release_k; rewrite ?sl_put_sync; [done|done|lia|done].
Qed.

(** ** A lock that nobody releases *)
Definition sl_held (id : sleepid) (s : kstate) : Prop := exists l, sl_get id s = Some l /\ sl_locked l <> 0.

#[export] Instance sl_held_data id : DataInv (sl_held id).
Proof. split; intros; destruct id; done. Qed.

Lemma wait_held fuel id i s : in_cs (sl_spin id) i s -> sl_held id s ->
  guar (cs_guar (sl_held id) (sl_spin id)) (cs_rely (sl_held id) (sl_spin id) i) (fun _ _ => False) (wait_unlocked fuel id s).
Proof.
  revert s. induction fuel as [|fuel IH]; intros s Hcs (l & Hl & Hne);
    cbn [wait_unlocked]; rewrite (bind_ok _ _ _ _ _ (get_sleeplock_ok _ _ _ Hl)), (proj2 (Z.eqb_neq _ _)) by done; [done|].
  eapply guar_bind; [apply sleep_guar; [exact _|exact Hcs|apply sl_spin_ptable|by exists l]|]. intros [] s' [Hcs' Hex]. by apply IH.
Qed.

(** The process sleeps, and sleeps on as long as the lock is held. *)
Lemma acquiresleep_blocks id pid s i : calm pid s -> sl_held id s -> cur_proc (k_sync s) = Some i ->
  guar (cs_guar (sl_held id) (sl_spin id)) (cs_rely (sl_held id) (sl_spin id) i) (fun _ _ => False) (acquiresleep id s) /\
  exists s1 k p, acquiresleep id s = Swtch s1 k /\ procs (k_ptable s1) !! i = Some p /\ p_state p = SLEEPING /\ p_chan p = Some (sl_chan id).
Proof.
  intros Hc (l & Hl & Hne) Hcur. pose proof (sl_spin_has _ _ _ Hl) as Hhas. unfold acquiresleep.
  rewrite (bind_ok _ _ _ _ _ (acquire_calm _ _ s Hc Hhas)).
  destruct (calm_in_cs _ _ _ Hc Hhas (sl_spin_ptable id)) as (i' & Hi' & Hcs). rewrite Hcur in Hi'. simplify_eq.
  set (s0 := set_sync _ s) in *. assert (Hl0 : sl_get id s0 = Some l) by (unfold s0; by rewrite sl_get_set_sync). split.
  - eapply guar_bind; [apply wait_held; [exact Hcs|by exists l]|]. done.
  - destruct (sleep_spec (sl_chan id) (sl_spin id) i' s0 Hcs (sl_spin_ptable id)) as (k & Hs & _). destruct (cs_proc _ _ _ Hcs) as [p Hp].
    change wait_fuel with (S (pred wait_fuel)). cbn [wait_unlocked]. unfold bind at 1 2.
    rewrite (get_sleeplock_ok _ _ _ Hl0). cbn [obind]. rewrite (proj2 (Z.eqb_neq _ _)) by done. unfold bind at 1. rewrite Hs. cbn [obind].
    do 2 eexists. exists (with_state SLEEPING (with_chan (Some (sl_chan id)) p)). split; [reflexivity|]. split; [|done].
    unfold asleep. cbn [k_ptable set_ptable]. unfold upd_procs. cbn [procs]. by rewrite list_lookup_alter_eq, Hp.
Qed.

