(* ===== verification/Ring.v ===== *)
(** Doubly linked circular lists, as the buffer cache (bio.c) and the page list of
    kalloc.c use them: the pointer assignments of the C code on one side, the list
    of the elements in order on the other.

    The pointers are two functions from node to node; a ring is a path from the
    head back to the head. *)

From S2P Require Import Prelude.

Definition upd (f : nat -> nat) (i v : nat) : nat -> nat := fun j => if decide (j = i) then v else f j.

(** [path nx pv a l b]: following [nx] from [a] visits [l] and arrives at [b], and
    the [pv] pointers lead back. *)
Fixpoint path (nx pv : nat -> nat) (a : nat) (l : list nat) (b : nat) : Prop :=
  match l with
  | [] => nx a = b /\ pv b = a
  | x :: l' => nx a = x /\ pv x = a /\ path nx pv x l' b
  end.

Lemma upd_eq f i v : upd f i v i = v.
Proof. unfold upd. by rewrite decide_True. Qed.

Lemma upd_ne f i v j : j <> i -> upd f i v j = f j.
Proof. intros. unfold upd. by rewrite decide_False. Qed.

Lemma upd_ext f g i v j : (forall x, f x = g x) -> upd f i v j = upd g i v j.
Proof. intros H. unfold upd. case_decide; [done|apply H]. Qed.

(** A path depends on the [nx] of its nodes but the last and the [pv] of its nodes
    but the first. *)
Lemma path_ext nx pv nx' pv' a l b :
  (forall x, x ∈ a :: l -> nx' x = nx x) -> (forall x, x ∈ l ++ [b] -> pv' x = pv x) ->
  path nx pv a l b -> path nx' pv' a l b.
Proof.
  revert a. induction l as [|x l IH]; intros a Hn Hp; simpl.
  - intros [H1 H2]. by rewrite (Hn a), (Hp b) by set_solver.
  - intros (H1 & H2 & H3). rewrite (Hn a), (Hp x) by set_solver. split; [done|]. split; [done|].
    apply IH; [|intros; apply Hp; set_solver|done]. intros; apply Hn; set_solver.
Qed.

Lemma path_upd_nx nx pv a l b i v : i ∉ a :: l -> path nx pv a l b -> path (upd nx i v) pv a l b.
Proof. intros Hi. apply path_ext; [|done]. intros x Hx. apply upd_ne. intros ->. done. Qed.

Lemma path_upd_pv nx pv a l b i v : i ∉ l ++ [b] -> path nx pv a l b -> path nx (upd pv i v) a l b.
Proof. intros Hi. apply path_ext; [done|]. intros x Hx. apply upd_ne. intros ->. done. Qed.

Lemma path_app nx pv a l1 x l2 b :
  path nx pv a (l1 ++ x :: l2) b <-> path nx pv a l1 x /\ path nx pv x l2 b.
Proof. revert a. induction l1 as [|y l1 IH]; intros a; simpl; [tauto|]. rewrite IH. tauto. Qed.

Lemma path_next nx pv a l b : path nx pv a l b -> nx a = default b (head l).
Proof. destruct l; simpl; tauto. Qed.

Lemma path_prev nx pv a l b : path nx pv a l b -> pv b = default a (list.last l).
Proof.
  revert a. induction l as [|x l IH]; intros a; simpl; [tauto|]. intros (_ & _ & H%IH). rewrite H.
  change (list.last (x :: l)) with (list.last ([x] ++ l)). rewrite list.last_app. by destruct (list.last l).
Qed.

Section ring.
Context (nx pv : nat -> nat) (h : nat).

(** Insertion of [b] after [h], in the order of the assignments
    [b->next = h->next; b->prev = h; h->next->prev = b; h->next = b]. *)
Lemma path_push b l :
  path nx pv h l h -> b <> h -> b ∉ l -> NoDup l -> h ∉ l ->
  let x := nx h in path (upd (upd nx b x) h b) (upd (upd pv b h) x b) h (b :: l) h.
Proof.
  intros Hp Hb Hl Hnd Hh x. pose proof (path_next _ _ _ _ _ Hp) as Hx. fold x in Hx.
  assert (Hxb : b <> x) by (rewrite Hx; destruct l; set_solver).
  cbn [path]. rewrite upd_eq. split; [done|]. split; [by rewrite upd_ne, upd_eq by done|].
  destruct l as [|y l]; simpl in Hx; rewrite Hx in *.
  - cbn [path]. by rewrite (upd_ne _ h), !upd_eq by done.
  - destruct Hp as (_ & _ & Hp). cbn [path]. rewrite (upd_ne _ h), !upd_eq by done.
    split; [done|]. split; [done|]. apply list.NoDup_cons in Hnd as [Hy Hnd].
    repeat (apply path_upd_nx; [set_solver|]). repeat (apply path_upd_pv; [set_solver|]). done.
Qed.

(** Removal of [b], in the order of the assignments
    [b->next->prev = b->prev; b->prev->next = b->next]. *)
Lemma path_unlink b l1 l2 :
  path nx pv h (l1 ++ b :: l2) h -> NoDup (h :: l1 ++ b :: l2) ->
  path (upd nx (pv b) (nx b)) (upd pv (nx b) (pv b)) h (l1 ++ l2) h.
Proof.
  intros [H1 H2]%path_app Hnd.
  pose proof (path_prev _ _ _ _ _ H1) as Hpb. pose proof (path_next _ _ _ _ _ H2) as Hnb.
  remember (pv b) as p eqn:Ep. remember (nx b) as n eqn:En.
  apply list.NoDup_cons in Hnd as [Hh Hnd]. apply list.NoDup_app in Hnd as (Hnd1 & Hd & Hnd2).
  apply list.NoDup_cons in Hnd2 as [Hb Hnd2].
  assert (Hfront : forall e, path nx pv h l1 e -> p = default h (list.last l1) ->
            n ∉ l1 -> path (upd nx p n) (upd pv n p) h l1 n).
  { intros e He Hp Hn. destruct (list.last l1) as [q|] eqn:Hlast; simpl in Hp; rewrite Hp in *.
    - apply list.last_Some in Hlast as [l1' ->]. apply path_app in He as [He1 He2].
      apply path_app. split; [|simpl; by rewrite !upd_eq].
      apply path_upd_nx.
      { apply list.NoDup_app in Hnd1 as (_ & Hd1 & _). set_solver. }
      apply path_upd_pv; [set_solver|done].
    - apply list.last_None in Hlast as ->. simpl. by rewrite !upd_eq. }
  destruct l2 as [|y l2]; simpl in Hnb.
  - rewrite app_nil_r. rewrite Hnb in *. apply (Hfront b); [done|done|set_solver].
  - destruct H2 as (_ & _ & H2). apply path_app. rewrite Hnb in *. split.
    + apply (Hfront b); [done|done|]. set_solver.
    + apply path_upd_nx; [|apply path_upd_pv; [|done]].
      * rewrite Hpb. destruct (list.last l1) as [q|] eqn:Hlast; simpl; [|set_solver].
        apply list.last_Some in Hlast as [l1' ->]. set_solver.
      * apply list.NoDup_cons in Hnd2 as [? ?]. set_solver.
Qed.
End ring.
