(* ===== verification/Memide.v ===== *)
(** The in-memory disk driver memide.c, and the interface of a disk driver that
    the buffer cache is written against.

    The disk is the map [dk_image] from device and block number to block contents;
    [dk_writes] records every block write, so that a crash can be placed between
    any two of them. *)

From S2P Require Import Prelude Layout CString State Spinlock Sched Sleeplock.
Local Open Scope kernel_scope.

(** * buf.h and access to the buffers *)
Definition B_VALID : Z := 0x2.
Definition B_DIRTY : Z := 0x4.

Definition get_buf (i : nat) : K buf := fun s => index "bcache.buf" (bufs (k_bcache s) !! i) s.

Definition upd_bufs (i : nat) (f : buf -> buf) (s : kstate) : kstate :=
  set_bcache (with_bufs (alter f i (bufs (k_bcache s))) (k_bcache s)) s.

Definition upd_buf (i : nat) (f : buf -> buf) : K unit := modify (upd_bufs i f).

(** [b->flags |= m] and [b->flags &= ~m] *)
Definition set_flag (m : Z) (b : buf) : buf := with_b_flags (Z.lor (b_flags b) m) b.
Definition clear_flag (m : Z) (b : buf) : buf := with_b_flags (Z.land (b_flags b) (Z.lnot m)) b.
Definition has_flag (m : Z) (b : buf) : bool := negb (Z.land (b_flags b) m =? 0).

(** * The disk *)
Definition zero_block : list Z := replicate (Z.to_nat BSIZE) 0.

Definition disk_block (img : gmap (Z * Z) (list Z)) (k : Z * Z) : list Z := default zero_block (img !! k).

Definition write_block (k : Z * Z) (data : list Z) (d : disk) : disk :=
  with_dk_writes ((k, data) :: dk_writes d) (with_dk_image (<[k := data]> (dk_image d)) d).

(** * memide.c *)
Definition ideinit (img : gmap (Z * Z) (list Z)) (size : Z) : K unit :=
  modify (fun s => set_disk (with_dk_size size (with_dk_image img (k_disk s))) s).

Definition ideintr : K unit := ret tt.

Definition iderw (i : nat) : K unit :=
  let! h := holdingsleep (S_buf i) in
  if negb h then panic "iderw: buf not locked" else
  let! b := get_buf i in
  if Z.land (b_flags b) (Z.lor B_VALID B_DIRTY) =? B_VALID then panic "iderw: nothing to do" else
  if negb (b_dev b =? 1) then panic "iderw: request not for disk 1" else
  let! d := reads k_disk in
  if dk_size d <=? b_blockno b then panic "iderw: block out of range" else
  (if has_flag B_DIRTY b then
     upd_buf i (clear_flag B_DIRTY) ;;;
     modify (fun s => set_disk (write_block (1, b_blockno b) (b_data b) (k_disk s)) s)
   else
     upd_buf i (with_b_data (disk_block (dk_image d) (1, b_blockno b)))) ;;;
  upd_buf i (set_flag B_VALID).

(** * The interface *)

(** What the state looks like after a synchronisation of buffer [i]. *)
Definition synced (i : nat) (b : buf) (s : kstate) : kstate :=
  if has_flag B_DIRTY b
  then set_disk (write_block (b_dev b, b_blockno b) (b_data b) (k_disk s))
         (upd_bufs i (set_flag B_VALID ∘ clear_flag B_DIRTY) s)
  else upd_bufs i (set_flag B_VALID ∘ with_b_data (disk_block (dk_image (k_disk s)) (b_dev b, b_blockno b))) s.

(** A disk driver: [drv_rw] is its iderw, [drv_block] the blocks it can serve.  The
    law is the comment on iderw in both drivers: if B_DIRTY is set, write the buffer
    to disk, clear B_DIRTY and set B_VALID; else if B_VALID is not set, read it and
    set B_VALID. *)
Class Driver := {
  drv_rw : nat -> K unit;
  drv_block : kstate -> Z -> Z -> bool;
  drv_block_disk s s' d b : dk_size (k_disk s') = dk_size (k_disk s) -> drv_block s' d b = drv_block s d b;
  drv_rw_spec pid i b s :
    calm pid s -> bufs (k_bcache s) !! i = Some b -> b_lock b = mk_sleeplock 1 pid ->
    (has_flag B_VALID b = false \/ has_flag B_DIRTY b = true) ->
    drv_block s (b_dev b) (b_blockno b) = true ->
    drv_rw i s = Ok tt (synced i b s) }.

Lemma land_bit x k : 0 <= k -> Z.land x (2 ^ k) = if Z.testbit x k then 2 ^ k else 0.
Proof.
  intros Hk. apply Z.bits_inj'. intros n Hn. rewrite Z.land_spec, Z.pow2_bits_eqb by done.
  destruct (Z.eqb_spec k n) as [->|].
  - rewrite andb_true_r. destruct (Z.testbit x n) eqn:E; [by rewrite Z.pow2_bits_true|by rewrite Z.bits_0].
  - rewrite andb_false_r. destruct (Z.testbit x k); [|by rewrite Z.bits_0].
    rewrite Z.pow2_bits_eqb by done. symmetry. by apply Z.eqb_neq.
Qed.

Lemma has_valid b : has_flag B_VALID b = Z.testbit (b_flags b) 1.
Proof. unfold has_flag, B_VALID. change 2 with (2 ^ 1). rewrite land_bit by lia. by destruct (Z.testbit _ _). Qed.

Lemma has_dirty b : has_flag B_DIRTY b = Z.testbit (b_flags b) 2.
Proof. unfold has_flag, B_DIRTY. change 4 with (2 ^ 2). rewrite land_bit by lia. by destruct (Z.testbit _ _). Qed.

Lemma flag_test b :
  (Z.land (b_flags b) (Z.lor B_VALID B_DIRTY) =? B_VALID) = has_flag B_VALID b && negb (has_flag B_DIRTY b).
Proof.
  rewrite has_valid, has_dirty, Z.land_lor_distr_r. unfold B_VALID, B_DIRTY.
  change 2 with (2 ^ 1) at 1. change 4 with (2 ^ 2). rewrite !land_bit by lia.
  by destruct (Z.testbit _ 1), (Z.testbit _ 2).
Qed.

Lemma valid_set b : has_flag B_VALID (set_flag B_VALID b) = true.
Proof. rewrite has_valid. unfold set_flag. cbn [b_flags with_b_flags]. rewrite Z.lor_spec. apply orb_true_r. Qed.

Lemma dirty_set_valid b : has_flag B_DIRTY (set_flag B_VALID b) = has_flag B_DIRTY b.
Proof. rewrite !has_dirty. unfold set_flag. cbn [b_flags with_b_flags]. rewrite Z.lor_spec. apply orb_false_r. Qed.

Lemma dirty_clear b : has_flag B_DIRTY (clear_flag B_DIRTY b) = false.
Proof.
  rewrite has_dirty. unfold clear_flag. cbn [b_flags with_b_flags]. rewrite Z.land_spec, Z.lnot_spec by lia. apply andb_false_r.
Qed.

Lemma dirty_set b : has_flag B_DIRTY (set_flag B_DIRTY b) = true.
Proof. rewrite has_dirty. unfold set_flag. cbn [b_flags with_b_flags]. rewrite Z.lor_spec. apply orb_true_r. Qed.

Lemma valid_set_dirty b : has_flag B_VALID (set_flag B_DIRTY b) = has_flag B_VALID b.
Proof. rewrite !has_valid. unfold set_flag. cbn [b_flags with_b_flags]. rewrite Z.lor_spec. apply orb_false_r. Qed.

Lemma get_buf_ok i s b : bufs (k_bcache s) !! i = Some b -> get_buf i s = Ok b s.
Proof. intros H. unfold get_buf. by rewrite H. Qed.

Lemma upd_bufs_bufs i f g s : upd_bufs i g (upd_bufs i f s) = upd_bufs i (g ∘ f) s.
Proof. unfold upd_bufs, with_bufs, set_bcache. simpl. by rewrite list_alter_alter_eq. Qed.

Lemma upd_bufs_at i f g s b :
  bufs (k_bcache s) !! i = Some b -> f b = g b -> upd_bufs i f s = upd_bufs i g s.
Proof. intros Hb Hfg. unfold upd_bufs. do 2 f_equal. by apply (list_alter_at _ _ b). Qed.

Lemma lookup_upd_bufs i f s b : bufs (k_bcache s) !! i = Some b -> bufs (k_bcache (upd_bufs i f s)) !! i = Some (f b).
Proof. intros Hb. simpl. by rewrite list_lookup_alter_eq, Hb. Qed.

Lemma iderw_synced pid i b s :
  calm pid s -> bufs (k_bcache s) !! i = Some b -> b_lock b = mk_sleeplock 1 pid ->
  (has_flag B_VALID b = false \/ has_flag B_DIRTY b = true) ->
  (b_dev b =? 1) && (b_blockno b <? dk_size (k_disk s)) = true ->
  iderw i s = Ok tt (synced i b s).
Proof.
  intros Hc Hb Hl Hf Hd. apply andb_prop in Hd as [Hd Hn]. apply Z.eqb_eq in Hd. unfold iderw.
  assert (Hsl : sl_get (S_buf i) s = Some (mk_sleeplock 1 pid)) by (simpl; by rewrite Hb, <- Hl).
  rewrite (bind_ok _ _ _ _ _ (holdingsleep_calm _ _ _ _ Hc Hsl)). cbn [sl_locked sl_pid Z.eqb negb andb].
  rewrite Z.eqb_refl. cbn [negb]. rewrite (bind_ok _ _ _ _ _ (get_buf_ok _ _ _ Hb)), flag_test.
  assert (has_flag B_VALID b && negb (has_flag B_DIRTY b) = false) as -> by (destruct Hf as [-> | ->]; [done|apply andb_false_r]).
  rewrite Hd, Z.eqb_refl. cbn [negb]. erewrite bind_ok by reflexivity.
  rewrite (proj2 (Z.leb_gt _ _)) by (by apply Z.ltb_lt). unfold synced. rewrite Hd.
  destruct (has_flag B_DIRTY b).
  - erewrite bind_ok by reflexivity. unfold upd_buf, modify. f_equal.
    rewrite <- upd_bufs_bufs. reflexivity.
  - erewrite bind_ok by reflexivity. unfold upd_buf, modify. f_equal. by rewrite upd_bufs_bufs.
Qed.

Definition memide_block (s : kstate) (d b : Z) : bool := (d =? 1) && (b <? dk_size (k_disk s)).

Lemma memide_block_disk s s' d b :
  dk_size (k_disk s') = dk_size (k_disk s) -> memide_block s' d b = memide_block s d b.
Proof. intros H. unfold memide_block. by rewrite H. Qed.

#[export] Instance memide : Driver := {|
  drv_rw := iderw;
  drv_block := memide_block;
  drv_block_disk := memide_block_disk;
  drv_rw_spec := iderw_synced |}.
