(* ===== verification/Bio.v ===== *)
(** The buffer cache: bio.c.

    The doubly linked list of buffers is modelled with its pointers; [HEAD] is the
    dummy node bcache.head.  [ring] relates the pointers to the list of buffers in
    order of use.  [view] is what the cache promises to its clients: the contents of
    every block, wherever its latest copy is. *)

From S2P Require Import Prelude Layout CString State Spinlock Sched Sleeplock Ring Memide.
Local Open Scope kernel_scope.

(** * The routines *)
Definition HEAD : nat := Z.to_nat NBUF.

(** [b->next] and [b->prev] of a buffer or of the head. *)
Definition c_next (c : bcache) (i : nat) : nat :=
  if decide (i = HEAD) then head_next c else match bufs c !! i with Some b => b_next b | None => HEAD end.
Definition c_prev (c : bcache) (i : nat) : nat :=
  if decide (i = HEAD) then head_prev c else match bufs c !! i with Some b => b_prev b | None => HEAD end.
Definition c_set_next (i v : nat) (c : bcache) : bcache :=
  if decide (i = HEAD) then with_head_next v c else with_bufs (alter (with_b_next v) i (bufs c)) c.
Definition c_set_prev (i v : nat) (c : bcache) : bcache :=
  if decide (i = HEAD) then with_head_prev v c else with_bufs (alter (with_b_prev v) i (bufs c)) c.

Definition get_next (i : nat) : K nat := reads (fun s => c_next (k_bcache s) i).
Definition get_prev (i : nat) : K nat := reads (fun s => c_prev (k_bcache s) i).
Definition set_next (i v : nat) : K unit := modify (fun s => set_bcache (c_set_next i v (k_bcache s)) s).
Definition set_prev (i v : nat) : K unit := modify (fun s => set_bcache (c_set_prev i v (k_bcache s)) s).

Definition binit : K unit :=
  on_sync (initlock L_bcache) ;;;
  set_prev HEAD HEAD ;;;
  set_next HEAD HEAD ;;;
  for_each (seq 0 HEAD) (fun b =>
    let! n := get_next HEAD in
    set_next b n ;;;
    set_prev b HEAD ;;;
    initsleeplock (S_buf b) ;;;
    let! n := get_next HEAD in
    set_prev n b ;;;
    set_next HEAD b).

(** [for(b = head.next; b != &head; b = b->next)] up to the first buffer with [P]. *)
Fixpoint scan_next (fuel : nat) (P : buf -> bool) (b : nat) : K (option nat) :=
  if decide (b = HEAD) then ret None else
  match fuel with
  | O => hang
  | S fuel' =>
      let! x := get_buf b in
      if P x then ret (Some b) else
      let! n := get_next b in
      scan_next fuel' P n
  end.

Fixpoint scan_prev (fuel : nat) (P : buf -> bool) (b : nat) : K (option nat) :=
  if decide (b = HEAD) then ret None else
  match fuel with
  | O => hang
  | S fuel' =>
      let! x := get_buf b in
      if P x then ret (Some b) else
      let! n := get_prev b in
      scan_prev fuel' P n
  end.

Definition is_block (dev blockno : Z) (b : buf) : bool := (b_dev b =? dev) && (b_blockno b =? blockno).
Definition is_unused (b : buf) : bool := (b_refcnt b =? 0) && (Z.land (b_flags b) B_DIRTY =? 0).

Definition bget (dev blockno : Z) : K nat :=
  on_sync (acquire L_bcache) ;;;
  let! b := get_next HEAD in
  let! r := scan_next HEAD (is_block dev blockno) b in
  match r with
  | Some b =>
      upd_buf b (fun x => with_b_refcnt (u32 (b_refcnt x + 1)) x) ;;;
      on_sync (release L_bcache) ;;;
      acquiresleep (S_buf b) ;;;
      ret b
  | None =>
      let! b := get_prev HEAD in
      let! r := scan_prev HEAD is_unused b in
      match r with
      | Some b =>
          upd_buf b (with_b_dev dev) ;;;
          upd_buf b (with_b_blockno blockno) ;;;
          upd_buf b (with_b_flags 0) ;;;
          upd_buf b (with_b_refcnt 1) ;;;
          on_sync (release L_bcache) ;;;
          acquiresleep (S_buf b) ;;;
          ret b
      | None => panic "bget: no buffers"
      end
  end.

Definition bread `{!Driver} (dev blockno : Z) : K nat :=
  let! b := bget dev blockno in
  let! x := get_buf b in
  when (Z.land (b_flags x) B_VALID =? 0) (drv_rw b) ;;;
  ret b.

Definition bwrite `{!Driver} (b : nat) : K unit :=
  let! h := holdingsleep (S_buf b) in
  if negb h then panic "bwrite" else
  upd_buf b (set_flag B_DIRTY) ;;;
  drv_rw b.

Definition brelse (b : nat) : K unit :=
  let! h := holdingsleep (S_buf b) in
  if negb h then panic "brelse" else
  releasesleep (S_buf b) ;;;
  on_sync (acquire L_bcache) ;;;
  upd_buf b (fun x => with_b_refcnt (u32 (b_refcnt x - 1)) x) ;;;
  let! x := get_buf b in
  when (b_refcnt x =? 0)
    (let! n := get_next b in
     let! p := get_prev b in
     set_prev n p ;;;
     let! p := get_prev b in
     let! n := get_next b in
     set_next p n ;;;
     let! h := get_next HEAD in
     set_next b h ;;;
     set_prev b HEAD ;;;
     let! h := get_next HEAD in
     set_prev h b ;;;
     set_next HEAD b) ;;;
  on_sync (release L_bcache).

(** * The list of buffers behind the pointers *)
Definition ring (c : bcache) (l : list nat) : Prop :=
  path (c_next c) (c_prev c) HEAD l HEAD /\ (l ≡ₚ seq 0 HEAD) /\ length (bufs c) = HEAD.

Fixpoint first_such (bs : list buf) (P : buf -> bool) (l : list nat) : option nat :=
  match l with
  | [] => None
  | i :: l' =>
      match bs !! i with
      | Some b => if P b then Some i else first_such bs P l'
      | None => None
      end
  end.

Lemma ring_facts c l : ring c l ->
  NoDup l /\ (HEAD ∉ l) /\ (forall i, i ∈ l <-> (i < HEAD)%nat) /\ length l = HEAD.
Proof.
  intros (_ & Hp & _). assert (Hel : forall i, i ∈ l <-> (i < HEAD)%nat).
  { intros i. rewrite Hp, elem_of_seq. lia. }
  split; [rewrite Hp; apply NoDup_seq|]. split; [rewrite Hel; lia|]. split; [done|].
  by rewrite Hp, length_seq.
Qed.

Lemma c_next_set_next i v c j : (i = HEAD \/ (i < length (bufs c))%nat) ->
  c_next (c_set_next i v c) j = upd (c_next c) i v j.
Proof.
  intros Hi. unfold c_next, c_set_next, upd.
  repeat case_decide; subst; simpl; try done; try lia.
  - destruct Hi as [|Hi]; [done|]. apply lookup_lt_is_Some in Hi as [b Hb].
    by rewrite list_lookup_alter_eq, Hb.
  - rewrite list_lookup_alter_ne by done. done.
Qed.

Lemma c_prev_set_prev i v c j : (i = HEAD \/ (i < length (bufs c))%nat) ->
  c_prev (c_set_prev i v c) j = upd (c_prev c) i v j.
Proof.
  intros Hi. unfold c_prev, c_set_prev, upd.
  repeat case_decide; subst; simpl; try done; try lia.
  - destruct Hi as [|Hi]; [done|]. apply lookup_lt_is_Some in Hi as [b Hb].
    by rewrite list_lookup_alter_eq, Hb.
  - rewrite list_lookup_alter_ne by done. done.
Qed.

Lemma lookup_alter_field {A} (f : buf -> buf) (g : buf -> A) i j (l : list buf) (d : A) :
  (forall b, g (f b) = g b) ->
  match alter f i l !! j with Some b => g b | None => d end = match l !! j with Some b => g b | None => d end.
Proof.
  intros Hg. destruct (decide (i = j)) as [->|Hne].
  - rewrite list_lookup_alter_eq. destruct (l !! j); simpl; [apply Hg|done].
  - by rewrite list_lookup_alter_ne.
Qed.

Lemma c_next_set_prev i v c j : c_next (c_set_prev i v c) j = c_next c j.
Proof. unfold c_next, c_set_prev. repeat case_decide; try done. simpl. by apply lookup_alter_field. Qed.

Lemma c_prev_set_next i v c j : c_prev (c_set_next i v c) j = c_prev c j.
Proof. unfold c_prev, c_set_next. repeat case_decide; try done. simpl. by apply lookup_alter_field. Qed.

(** A buffer without its list pointers. *)
Definition core (b : buf) : buf :=
  mk_buf (b_flags b) (b_dev b) (b_blockno b) (b_lock b) (b_refcnt b) 0 0 (b_data b).

Definition cores (c : bcache) : list buf := core <$> bufs c.

Lemma fmap_alter {A B} (h : A -> B) (f : A -> A) (g : B -> B) (i : nat) (l : list A) :
  (forall x, h (f x) = g (h x)) -> h <$> alter f i l = alter g i (h <$> l).
Proof.
  intros Hfg. apply list_eq. intros j. rewrite list_lookup_fmap. destruct (decide (i = j)) as [->|Hne].
  - rewrite !list_lookup_alter_eq, list_lookup_fmap. destruct (l !! j); simpl; [by rewrite Hfg|done].
  - by rewrite !list_lookup_alter_ne, list_lookup_fmap.
Qed.

(** Changes of the pointers do not show in the cores. *)
Lemma cores_alter_id (f : buf -> buf) i (l : list buf) :
  (forall b, core (f b) = core b) -> core <$> alter f i l = core <$> l.
Proof. intros Hf. rewrite (fmap_alter core f id) by done. by rewrite list_alter_id. Qed.

Lemma cores_set_next i v c : cores (c_set_next i v c) = cores c.
Proof. unfold cores, c_set_next. case_decide; [done|]. simpl. by apply cores_alter_id. Qed.

Lemma cores_set_prev i v c : cores (c_set_prev i v c) = cores c.
Proof. unfold cores, c_set_prev. case_decide; [done|]. simpl. by apply cores_alter_id. Qed.

Lemma length_set_next i v c : length (bufs (c_set_next i v c)) = length (bufs c).
Proof. unfold c_set_next. case_decide; [done|]. simpl. by rewrite length_alter. Qed.

Lemma length_set_prev i v c : length (bufs (c_set_prev i v c)) = length (bufs c).
Proof. unfold c_set_prev. case_decide; [done|]. simpl. by rewrite length_alter. Qed.

(** ** Scanning *)
Lemma scan_next_ok P s a l fuel :
  path (c_next (k_bcache s)) (c_prev (k_bcache s)) a l HEAD -> HEAD ∉ l ->
  Forall (fun i => is_Some (bufs (k_bcache s) !! i)) l -> (length l <= fuel)%nat ->
  scan_next fuel P (c_next (k_bcache s) a) s = Ok (first_such (bufs (k_bcache s)) P l) s.
Proof.
  revert a fuel. induction l as [|x l IH]; intros a fuel Hp Hh Hl Hf.
  - destruct Hp as [-> _]. destruct fuel; cbn [scan_next scan_prev]; by rewrite decide_True.
  - destruct Hp as (-> & _ & Hp). apply not_elem_of_cons in Hh as [Hx Hh].
    apply Forall_cons_iff in Hl as [[b Hb] Hl]. destruct fuel as [|fuel]; simpl in Hf; [lia|].
    cbn [scan_next first_such]. rewrite decide_False by done.
    rewrite (bind_ok _ _ _ _ _ (get_buf_ok _ _ _ Hb)), Hb. destruct (P b); [done|].
    unfold get_next. erewrite bind_ok by reflexivity. apply (IH x); [done..|lia].
Qed.

Lemma scan_prev_ok P s l b fuel :
  path (c_next (k_bcache s)) (c_prev (k_bcache s)) HEAD l b -> HEAD ∉ l ->
  Forall (fun i => is_Some (bufs (k_bcache s) !! i)) l -> (length l <= fuel)%nat ->
  scan_prev fuel P (c_prev (k_bcache s) b) s = Ok (first_such (bufs (k_bcache s)) P (rev l)) s.
Proof.
  revert b fuel. induction l as [|x l IH] using rev_ind; intros b fuel Hp Hh Hl Hf.
  - destruct Hp as [_ ->]. destruct fuel; cbn [scan_next scan_prev]; by rewrite decide_True.
  - apply path_app in Hp as [Hp [_ ->]]. apply not_elem_of_app in Hh as [Hh Hx].
    apply Forall_app in Hl as [Hl [[y Hy] _]%Forall_cons_iff].
    rewrite length_app in Hf. simpl in Hf. destruct fuel as [|fuel]; [lia|].
    rewrite rev_unit. cbn [scan_prev first_such]. rewrite decide_False by set_solver.
    rewrite (bind_ok _ _ _ _ _ (get_buf_ok _ _ _ Hy)), Hy. destruct (P y); [done|].
    unfold get_prev. erewrite bind_ok by reflexivity. apply IH; [done..|lia].
Qed.

Lemma first_such_some bs P l i :
  first_such bs P l = Some i -> i ∈ l /\ exists b, bs !! i = Some b /\ P b = true.
Proof.
  induction l as [|x l IH]; simpl; [done|]. destruct (bs !! x) as [b|] eqn:Hb; [|done].
  destruct (P b) eqn:HP.
  - intros [= ->]. split; [set_solver|]. by exists b.
  - intros [Hi Hex]%IH. split; [set_solver|done].
Qed.

Lemma first_such_none bs P l :
  Forall (fun i => is_Some (bs !! i)) l -> first_such bs P l = None ->
  forall i b, i ∈ l -> bs !! i = Some b -> P b = false.
Proof.
  induction l as [|x l IH]; simpl; [set_solver|]. intros [[b Hb] Hl]%Forall_cons_iff. rewrite Hb.
  destruct (P b) eqn:HP; [done|]. intros Hn i b' [->|Hi]%elem_of_cons Hi'; [congruence|by eapply IH].
Qed.

(** ** Keeping the list *)
Lemma path_eq nx pv nx' pv' a l b :
  (forall x, nx' x = nx x) -> (forall x, pv' x = pv x) -> path nx pv a l b -> path nx' pv' a l b.
Proof. intros. by apply (path_ext nx pv). Qed.

(** A change of a buffer that leaves its pointers alone. *)
Lemma ring_alter c l i f :
  (forall b, b_next (f b) = b_next b) -> (forall b, b_prev (f b) = b_prev b) ->
  ring c l -> ring (with_bufs (alter f i (bufs c)) c) l.
Proof.
  intros Hn Hp (Hpath & Hperm & Hlen). split; [|split; [done|simpl; by rewrite length_alter]].
  apply (path_eq (c_next c) (c_prev c)); [| |done]; intros x.
  - unfold c_next. case_decide; [done|]. simpl. by apply lookup_alter_field.
  - unfold c_prev. case_decide; [done|]. simpl. by apply lookup_alter_field.
Qed.

(** The assignments of brelse on the list. *)
Definition unlink (i : nat) (c : bcache) : bcache :=
  let c1 := c_set_prev (c_next c i) (c_prev c i) c in
  c_set_next (c_prev c1 i) (c_next c1 i) c1.
Definition push_front (i : nat) (c : bcache) : bcache :=
  let c1 := c_set_prev i HEAD (c_set_next i (c_next c HEAD) c) in
  c_set_next HEAD i (c_set_prev (c_next c1 HEAD) i c1).

Lemma ring_node c l a : ring c l -> a ∈ HEAD :: l -> a = HEAD \/ (a < length (bufs c))%nat.
Proof.
  intros Hr [->|Ha]%elem_of_cons; [by left|right]. pose proof (ring_facts c l Hr) as (_ & _ & Hel & _).
  destruct Hr as (_ & _ & ->). by apply Hel.
Qed.

Lemma ring_unlink c l1 i l2 : ring c (l1 ++ i :: l2) ->
  path (c_next (unlink i c)) (c_prev (unlink i c)) HEAD (l1 ++ l2) HEAD /\
  length (bufs (unlink i c)) = HEAD /\ cores (unlink i c) = cores c.
Proof.
  intros Hr. pose proof (ring_facts _ _ Hr) as (Hnd & Hh & _ & _).
  pose proof (Hr) as (Hp & _ & Hlen).
  assert (Hnd' : NoDup (HEAD :: l1 ++ i :: l2)) by (by apply list.NoDup_cons).
  pose proof (proj1 (path_app _ _ _ _ _ _ _) Hp) as [H1 H2].
  assert (Hn : c_next c i ∈ HEAD :: l2).
  { rewrite (path_next _ _ _ _ _ H2). destruct l2; set_solver. }
  assert (Hpr : c_prev c i ∈ HEAD :: l1).
  { rewrite (path_prev _ _ _ _ _ H1). destruct (list.last l1) eqn:E; [|set_solver].
    apply list.last_Some in E as [? ->]. set_solver. }
  assert (Hni : c_next c i <> i).
  { intros E. rewrite E in Hn. apply list.NoDup_cons in Hnd' as [? Hnd']. 
    apply list.NoDup_app in Hnd' as (_ & _ & [? _]%list.NoDup_cons). set_solver. }
  unfold unlink. cbv zeta. rewrite length_set_next, length_set_prev, cores_set_next, cores_set_prev.
  split; [|done]. rewrite c_next_set_prev.
  rewrite c_prev_set_prev by (eapply (ring_node c); [exact Hr|set_solver]).
  rewrite upd_ne by done. eapply path_eq; [| |apply (path_unlink _ _ HEAD i l1 l2 Hp Hnd')]; intros x.
  - rewrite c_next_set_next by (rewrite length_set_prev; eapply (ring_node c); [exact Hr|set_solver]).
    unfold upd. case_decide; [done|]. apply c_next_set_prev.
  - rewrite c_prev_set_next. apply c_prev_set_prev. eapply (ring_node c); [exact Hr|set_solver].
Qed.

Lemma path_push_front c l i :
  path (c_next c) (c_prev c) HEAD l HEAD -> length (bufs c) = HEAD -> NoDup (i :: l) ->
  Forall (fun j => j < HEAD)%nat (i :: l) ->
  path (c_next (push_front i c)) (c_prev (push_front i c)) HEAD (i :: l) HEAD /\
  length (bufs (push_front i c)) = HEAD /\ cores (push_front i c) = cores c.
Proof.
  intros Hp Hlen [Hil Hnd]%list.NoDup_cons [Hi Hel]%Forall_cons_iff. rewrite list.Forall_forall in Hel.
  assert (Hhl : HEAD ∉ l) by (intros H; pose proof (Hel HEAD H); lia).
  assert (Hx : c_next c HEAD = HEAD \/ (c_next c HEAD < HEAD)%nat).
  { rewrite (path_next _ _ _ _ _ Hp). destruct l as [|y l]; simpl; [by left|right]. apply Hel. set_solver. }
  unfold push_front. cbv zeta.
  rewrite cores_set_next, !cores_set_prev, cores_set_next, length_set_next, !length_set_prev, length_set_next.
  split; [|done].
  assert (E1 : c_next (c_set_prev i HEAD (c_set_next i (c_next c HEAD) c)) HEAD = c_next c HEAD).
  { rewrite c_next_set_prev, c_next_set_next by lia. apply upd_ne. lia. }
  rewrite E1. eapply path_eq; [| |apply (path_push _ _ HEAD i l Hp); [lia|exact Hil|exact Hnd|exact Hhl]]; intros x.
  - rewrite c_next_set_next by (by left). apply upd_ext. intros y.
    rewrite !c_next_set_prev. apply c_next_set_next. lia.
  - rewrite c_prev_set_next, c_prev_set_prev by (rewrite !length_set_prev, length_set_next; lia).
    apply upd_ext. intros y. rewrite c_prev_set_prev by (rewrite length_set_next; lia).
    apply upd_ext. intros z. apply c_prev_set_next.
Qed.

Lemma ring_push c l i :
  path (c_next c) (c_prev c) HEAD l HEAD -> length (bufs c) = HEAD -> (i < HEAD)%nat ->
  (i :: l ≡ₚ seq 0 HEAD) -> ring (push_front i c) (i :: l) /\ cores (push_front i c) = cores c.
Proof.
  intros Hp Hlen Hi Hperm. destruct (path_push_front c l i Hp Hlen) as (Hp' & Hl' & Hc').
  - rewrite Hperm. apply NoDup_seq.
  - apply list.Forall_forall. intros j Hj. rewrite Hperm, elem_of_seq in Hj. lia.
  - done.
Qed.

(** Unlinking a buffer and pushing it at the front moves it there. *)
Lemma ring_move c l1 i l2 : ring c (l1 ++ i :: l2) ->
  ring (push_front i (unlink i c)) (i :: l1 ++ l2) /\ cores (push_front i (unlink i c)) = cores c.
Proof.
  intros Hr. destruct (ring_unlink _ _ _ _ Hr) as (Hp & Hlen & Hc).
  pose proof (ring_facts _ _ Hr) as (_ & _ & Hel & _). destruct Hr as (_ & Hperm & _).
  destruct (ring_push (unlink i c) (l1 ++ l2) i Hp Hlen) as [Hr' Hc'].
  - apply Hel. set_solver.
  - by rewrite <- Hperm, Permutation_middle.
  - split; [done|]. by rewrite Hc'.
Qed.

(** * What the cache promises *)
Definition block_ok (bs : list Z) : Prop := length bs = Z.to_nat BSIZE /\ bytes_ok bs.

(** The first valid buffer for a block, and the contents of a block: those of its
    valid buffer, or those on the disk. *)
Fixpoint find_block (cs : list buf) (d n : Z) : option buf :=
  match cs with
  | [] => None
  | b :: cs' => if is_block d n b && has_flag B_VALID b then Some b else find_block cs' d n
  end.

Definition view (cs : list buf) (img : gmap (Z * Z) (list Z)) (k : Z * Z) : list Z :=
  match find_block cs k.1 k.2 with Some b => b_data b | None => disk_block img k end.

(** Block 0 of device 0 is what the buffers are initialised to; no code reads it. *)
Record cache_inv (cs : list buf) (img : gmap (Z * Z) (list Z)) : Prop := mk_cache_inv {
  ci_uniq : forall i j b b', cs !! i = Some b -> cs !! j = Some b' ->
    b_dev b = b_dev b' -> b_blockno b = b_blockno b' -> (b_dev b, b_blockno b) <> (0, 0) -> i = j;
  ci_ref : forall i b, cs !! i = Some b ->
    b_refcnt b = sl_locked (b_lock b) /\ (sl_locked (b_lock b) = 0 \/ sl_locked (b_lock b) = 1);
  ci_clean : forall i b, cs !! i = Some b -> sl_locked (b_lock b) = 0 ->
    has_flag B_VALID b = true -> has_flag B_DIRTY b = false ->
    b_data b = disk_block img (b_dev b, b_blockno b);
  ci_dirty : forall i b, cs !! i = Some b -> has_flag B_DIRTY b = true ->
    has_flag B_VALID b = true /\ (b_dev b, b_blockno b) <> (0, 0);
  ci_len : forall i b, cs !! i = Some b -> block_ok (b_data b);
  ci_disk : forall k, block_ok (disk_block img k) }.

Definition k_cores (s : kstate) : list buf := cores (k_bcache s).
Definition k_img (s : kstate) : gmap (Z * Z) (list Z) := dk_image (k_disk s).
Definition k_view (s : kstate) (k : Z * Z) : list Z := view (k_cores s) (k_img s) k.

Record bio_ok (pid : Z) (s : kstate) : Prop := mk_bio_ok {
  bio_calm : calm pid s;
  bio_ring : exists l, ring (k_bcache s) l;
  bio_inv : cache_inv (k_cores s) (k_img s) }.

Lemma is_block_iff d n b : is_block d n b = true <-> b_dev b = d /\ b_blockno b = n.
Proof. unfold is_block. rewrite andb_true_iff, !Z.eqb_eq. done. Qed.

Lemma find_block_some cs d n b : find_block cs d n = Some b ->
  exists i, cs !! i = Some b /\ is_block d n b = true /\ has_flag B_VALID b = true.
Proof.
  induction cs as [|c cs IH]; simpl; [done|]. destruct (is_block d n c && has_flag B_VALID c) eqn:E.
  - intros [= ->]. apply andb_prop in E as [? ?]. by exists 0%nat.
  - intros (i & ? & ?)%IH. by exists (S i).
Qed.

Lemma find_block_none cs d n : find_block cs d n = None ->
  forall i b, cs !! i = Some b -> is_block d n b = true -> has_flag B_VALID b = false.
Proof.
  induction cs as [|c cs IH]; simpl; [done|]. destruct (is_block d n c && has_flag B_VALID c) eqn:E; [done|].
  intros H [|i] b Hb Hk; simpl in Hb; [|by eapply IH]. simplify_eq. by rewrite Hk in E.
Qed.

Lemma view_hit cs img i b : cache_inv cs img -> cs !! i = Some b -> has_flag B_VALID b = true ->
  (b_dev b, b_blockno b) <> (0, 0) -> view cs img (b_dev b, b_blockno b) = b_data b.
Proof.
  intros Hci Hb Hv H0. unfold view. simpl. destruct (find_block cs _ _) as [b'|] eqn:E.
  - apply find_block_some in E as (j & Hj & [Hd Hn]%is_block_iff & _).
    rewrite (ci_uniq _ _ Hci i j b b') in Hb by done. congruence.
  - pose proof (find_block_none _ _ _ E i b Hb). rewrite H in Hv; [done|]. by apply is_block_iff.
Qed.

Lemma view_miss cs img k :
  (forall i b, cs !! i = Some b -> is_block k.1 k.2 b = true -> has_flag B_VALID b = false) ->
  view cs img k = disk_block img k.
Proof.
  intros H. unfold view. destruct (find_block cs k.1 k.2) as [b|] eqn:E; [|done].
  apply find_block_some in E as (i & Hi & Hk & Hv). rewrite (H i b Hi Hk) in Hv. done.
Qed.

(** The view of another block does not depend on buffer [i] once it is neither
    before nor after a copy of that block. *)
Lemma view_insert_ne cs img i b k : is_block k.1 k.2 b = false ->
  (forall b0, cs !! i = Some b0 -> is_block k.1 k.2 b0 = false) ->
  view (<[i := b]> cs) img k = view cs img k.
Proof.
  intros Hb H0. unfold view. f_equal. revert i Hb H0. induction cs as [|c cs IH]; intros i Hb H0; [done|].
  destruct i as [|i]; simpl.
  - rewrite Hb. simpl. by rewrite (H0 c eq_refl).
  - destruct (is_block k.1 k.2 c && has_flag B_VALID c); [done|]. by apply IH.
Qed.

(** ** Changing one buffer *)
Record buf_inv (img : gmap (Z * Z) (list Z)) (b : buf) : Prop := mk_buf_inv {
  bi_ref : b_refcnt b = sl_locked (b_lock b) /\ (sl_locked (b_lock b) = 0 \/ sl_locked (b_lock b) = 1);
  bi_clean : sl_locked (b_lock b) = 0 -> has_flag B_VALID b = true -> has_flag B_DIRTY b = false ->
    b_data b = disk_block img (b_dev b, b_blockno b);
  bi_dirty : has_flag B_DIRTY b = true -> has_flag B_VALID b = true /\ (b_dev b, b_blockno b) <> (0, 0);
  bi_len : block_ok (b_data b) }.

Lemma cache_buf cs img i b : cache_inv cs img -> cs !! i = Some b -> buf_inv img b.
Proof. intros [Hu Hr Hc Hd Hl _] Hb. split; eauto. Qed.

Definition no_other (cs : list buf) (i : nat) (d n : Z) : Prop :=
  forall j b, j <> i -> cs !! j = Some b -> is_block d n b = false.

Lemma cache_inv_set cs img i b0 b :
  cache_inv cs img -> cs !! i = Some b0 -> buf_inv img b ->
  no_other cs i (b_dev b) (b_blockno b) -> cache_inv (<[i := b]> cs) img.
Proof.
  intros Hci Hb0 Hb Hno. pose proof (lookup_lt_Some _ _ _ Hb0) as Hlt.
  assert (Hget : forall j c, <[i := b]> cs !! j = Some c -> (j = i /\ c = b) \/ (j <> i /\ cs !! j = Some c)).
  { intros j c Hj. destruct (decide (j = i)) as [->|Hne].
    - rewrite list_lookup_insert_eq in Hj by done. left. split; congruence.
    - rewrite list_lookup_insert_ne in Hj by done. by right. }
  assert (Hbuf : forall j c, <[i := b]> cs !! j = Some c -> buf_inv img c).
  { intros j c [[-> ->]|[_ Hj]]%Hget; [done|by eapply cache_buf]. }
  split; try (intros j c Hj; by apply (Hbuf j c Hj)); [|apply Hci].
  intros j k c c' Hj Hk Hd Hn H0.
  destruct (Hget j c Hj) as [[-> ->]|[Hji Hj']]; destruct (Hget k c' Hk) as [[-> ->]|[Hki Hk']]; try done.
  - pose proof (Hno k c' Hki Hk') as E. rewrite (proj2 (is_block_iff _ _ _)) in E by done. done.
  - pose proof (Hno j c Hji Hj') as E. rewrite (proj2 (is_block_iff _ _ _)) in E by done. done.
  - by eapply (ci_uniq _ _ Hci).
Qed.

Lemma no_other_uniq cs img i b : cache_inv cs img -> cs !! i = Some b ->
  (b_dev b, b_blockno b) <> (0, 0) -> no_other cs i (b_dev b) (b_blockno b).
Proof.
  intros Hci Hb H0 j b' Hne Hj. destruct (is_block _ _ b') eqn:E; [|done]. apply is_block_iff in E as [Hd Hn].
  destruct Hne. symmetry. by eapply (ci_uniq _ _ Hci i j b b').
Qed.

(** The buffer keeps its block: only the view of that block can change. *)
Lemma view_set_same cs img i b0 b k :
  cache_inv cs img -> cache_inv (<[i := b]> cs) img -> cs !! i = Some b0 ->
  b_dev b = b_dev b0 -> b_blockno b = b_blockno b0 -> has_flag B_VALID b = true -> k <> (0, 0) ->
  view (<[i := b]> cs) img k = if decide (k = (b_dev b, b_blockno b)) then b_data b else view cs img k.
Proof.
  intros Hci Hci' Hb0 Hd Hn Hv Hk. pose proof (lookup_lt_Some _ _ _ Hb0) as Hlt. case_decide as E.
  - subst k. apply (view_hit _ _ i); [done| |done|done]. by rewrite list_lookup_insert_eq.
  - assert (Hnb : is_block k.1 k.2 b = false).
    { destruct (is_block _ _ b) eqn:F; [|done]. apply is_block_iff in F as [F1 F2]. destruct E, k. simpl in *. congruence. }
    apply view_insert_ne; [done|]. intros b1 Hb1. assert (b1 = b0) as -> by congruence.
    unfold is_block in *. congruence.
Qed.

(** The buffer is recycled for another block, whose contents it now holds. *)
Lemma view_set_miss cs img i b0 b k :
  cache_inv cs img -> cache_inv (<[i := b]> cs) img -> cs !! i = Some b0 ->
  sl_locked (b_lock b0) = 0 -> has_flag B_DIRTY b0 = false ->
  has_flag B_VALID b = true -> b_data b = disk_block img (b_dev b, b_blockno b) ->
  no_other cs i (b_dev b) (b_blockno b) -> is_block (b_dev b) (b_blockno b) b0 = false ->
  k <> (0, 0) ->
  view (<[i := b]> cs) img k = view cs img k.
Proof.
  intros Hci Hci' Hb0 Hl Hdirty Hv Hdata Hno Hnb0 Hk. pose proof (lookup_lt_Some _ _ _ Hb0) as Hlt.
  destruct k as [d n]. destruct (is_block d n b) eqn:E.
  - apply is_block_iff in E as [<- <-].
    rewrite (view_hit _ _ i b) by (done || by rewrite list_lookup_insert_eq).
    rewrite view_miss; [done|]. simpl. intros j c Hj Hc. destruct (decide (j = i)) as [->|Hne]; [congruence|].
    by rewrite (Hno j c Hne Hj) in Hc.
  - destruct (is_block d n b0) eqn:E0; [|apply view_insert_ne; [done|]; intros; by simplify_eq].
    apply is_block_iff in E0 as [<- <-].
    rewrite view_miss.
    + destruct (has_flag B_VALID b0) eqn:Hv0.
      * rewrite (view_hit _ _ i b0) by done. symmetry. by eapply (ci_clean _ _ Hci).
      * symmetry. apply view_miss. simpl. intros j c Hj Hc.
        destruct (decide (j = i)) as [->|Hne]; [congruence|].
        by rewrite (no_other_uniq _ _ i b0 Hci Hb0 Hk j c Hne Hj) in Hc.
    + simpl. intros j c Hj Hc. destruct (decide (j = i)) as [->|Hne].
      * rewrite list_lookup_insert_eq in Hj by done. simplify_eq. congruence.
      * rewrite list_lookup_insert_ne in Hj by done.
        by rewrite (no_other_uniq _ _ i b0 Hci Hb0 Hk j c Hne Hj) in Hc.
Qed.

(** * What the routines do *)
Lemma calm_upd_bufs pid i f s : calm pid s -> calm pid (upd_bufs i f s).
Proof.
  intros [Hy Hd Hl Hp]. split; try done. intros lk Hlk. apply Hl.
  destruct lk; simpl in *; rewrite ?length_alter in Hlk; done.
Qed.

Lemma cores_lookup c i b : cores c !! i = Some b <-> exists b', bufs c !! i = Some b' /\ b = core b'.
Proof. unfold cores. rewrite list_lookup_fmap, fmap_Some. done. Qed.

Lemma upd_bufs_sync i f y s : set_sync y (upd_bufs i f s) = upd_bufs i f (set_sync y s).
Proof. done. Qed.

Lemma acquiresleep_buf pid i b s :
  calm pid s -> bufs (k_bcache s) !! i = Some b -> sl_locked (b_lock b) = 0 ->
  acquiresleep (S_buf i) s = Ok tt (upd_bufs i (with_b_lock (mk_sleeplock 1 pid)) s).
Proof.
  intros Hc Hb Hl. apply (acquiresleep_calm (S_buf i) pid s (b_lock b) Hc); [|done].
  simpl. by rewrite Hb.
Qed.

(** A buffer found in the cache, and a buffer recycled for another block. *)
Definition hit_buf (pid : Z) (b : buf) : buf :=
  with_b_lock (mk_sleeplock 1 pid) (with_b_refcnt (u32 (b_refcnt b + 1)) b).
Definition miss_buf (pid d n : Z) (b : buf) : buf :=
  with_b_lock (mk_sleeplock 1 pid)
    (with_b_refcnt 1 (with_b_flags 0 (with_b_blockno n (with_b_dev d b)))).

Definition unheld (d n : Z) (cs : list buf) : Prop :=
  forall i b, cs !! i = Some b -> is_block d n b = true -> sl_locked (b_lock b) = 0.
Definition room (d n : Z) (cs : list buf) : Prop :=
  exists i b, cs !! i = Some b /\ (is_block d n b = true \/ is_unused b = true).

Lemma ring_all c l : ring c l -> Forall (fun i => is_Some (bufs c !! i)) l.
Proof.
  intros Hr. pose proof (ring_facts _ _ Hr) as (_ & _ & Hel & _). destruct Hr as (_ & _ & Hlen).
  apply list.Forall_forall. intros i Hi. apply lookup_lt_is_Some. rewrite Hlen. by apply Hel.
Qed.

(** Leaving bcache.lock and taking the sleep-lock of buffer [i]. *)
Lemma bget_finish pid s i b f :
  calm pid s -> bufs (k_bcache s) !! i = Some b -> sl_locked (b_lock (f b)) = 0 ->
  (on_sync (release L_bcache) ;;; acquiresleep (S_buf i) ;;; ret i)
    (upd_bufs i f (set_sync (lock L_bcache (k_sync s)) s)) =
  Ok i (upd_bufs i (with_b_lock (mk_sleeplock 1 pid) ∘ f) s).
Proof.
  intros Hc Hb Hl. rewrite (bind_ok _ _ _ _ _ (release_calm L_bcache pid s (upd_bufs i f (set_sync _ s)) Hc I eq_refl)).
  rewrite upd_bufs_sync, set_sync_sync, set_sync_id.
  rewrite (bind_ok _ _ _ _ _ (acquiresleep_buf pid i (f b) (upd_bufs i f s) (calm_upd_bufs _ _ _ _ Hc)
    (lookup_upd_bufs _ _ _ _ Hb) Hl)).
  unfold ret. by rewrite upd_bufs_bufs.
Qed.

Lemma bget_spec pid d n s :
  bio_ok pid s -> unheld d n (k_cores s) -> room d n (k_cores s) ->
  exists i b, bufs (k_bcache s) !! i = Some b /\
    ((is_block d n b = true /\ sl_locked (b_lock b) = 0 /\ bget d n s = Ok i (upd_bufs i (hit_buf pid) s)) \/
     (is_unused b = true /\ (forall j c, bufs (k_bcache s) !! j = Some c -> is_block d n c = false) /\
      bget d n s = Ok i (upd_bufs i (miss_buf pid d n) s))).
Proof.
  intros [Hc [l Hr] Hinv] Hun Hroom. pose proof (ring_all _ _ Hr) as Hall.
  pose proof (ring_facts _ _ Hr) as (_ & Hhd & Hel & Hlen). pose proof (Hr) as (Hpath & _ & Hlb).
  unfold bget. rewrite (bind_ok _ _ _ _ _ (acquire_calm L_bcache pid s Hc I)).
  set (s1 := set_sync (lock L_bcache (k_sync s)) s).
  unfold get_next. erewrite bind_ok by reflexivity.
  rewrite (bind_ok _ _ _ _ _ (scan_next_ok (is_block d n) s1 HEAD l HEAD Hpath Hhd Hall ltac:(lia))).
  change (bufs (k_bcache s1)) with (bufs (k_bcache s)).
  assert (Hin : forall j c, bufs (k_bcache s) !! j = Some c -> j ∈ l).
  { intros j c Hj. apply Hel. rewrite <- Hlb. by eapply lookup_lt_Some. }
  destruct (first_such (bufs (k_bcache s)) (is_block d n) l) as [i|] eqn:Hf.
  - apply first_such_some in Hf as (Hi & b & Hb & Hk). exists i, b. split; [done|]. left.
    assert (Hl0 : sl_locked (b_lock b) = 0).
    { apply (Hun i (core b)); [apply cores_lookup; by exists b|done]. }
    split; [done|]. split; [done|]. unfold upd_buf, modify. erewrite bind_ok by reflexivity.
    by apply (bget_finish pid s i b).
  - pose proof (first_such_none _ _ _ Hall Hf) as Hno.
    unfold get_prev. erewrite bind_ok by reflexivity.
    rewrite (bind_ok _ _ _ _ _ (scan_prev_ok is_unused s1 l HEAD HEAD Hpath Hhd Hall ltac:(lia))).
    change (bufs (k_bcache s1)) with (bufs (k_bcache s)).
    destruct (first_such (bufs (k_bcache s)) is_unused (rev l)) as [i|] eqn:Hf'.
    + apply first_such_some in Hf' as (Hi & b & Hb & Hk). exists i, b. split; [done|]. right.
      split; [done|]. split; [by eauto|]. unfold upd_buf, modify.
      do 4 (erewrite bind_ok by reflexivity). rewrite !upd_bufs_bufs.
      assert (Hb' : buf_inv (k_img s) (core b)).
      { eapply cache_buf; [exact Hinv|]. apply cores_lookup. by exists b. }
      unfold is_unused in Hk. apply andb_prop in Hk as [Hk%Z.eqb_eq _].
      rewrite (bget_finish pid s i b) by (done || (simpl; destruct Hb' as [[Hr' _] _ _ _]; simpl in Hr'; lia)).
      done.
    + exfalso. destruct Hroom as (j & c & Hj & Hjc). apply cores_lookup in Hj as (c' & Hj & ->).
      destruct Hjc as [Hjc|Hjc].
      * change (is_block d n c' = true) in Hjc. by rewrite (Hno j c' (Hin _ _ Hj) Hj) in Hjc.
      * assert (Hall' : Forall (fun i => is_Some (bufs (k_bcache s) !! i)) (rev l)) by (by apply Forall_rev).
        change (is_unused c' = true) in Hjc. rewrite (first_such_none _ _ _ Hall' Hf' j c') in Hjc; [done| |done].
        rewrite list_elem_of_In, <- in_rev, <- list_elem_of_In. by eauto.
Qed.

(** ** The interface for clients

    [io s s']: a step of the cache, the disk and the processes it wakes, which
    leaves every other part of the kernel as it was. *)
Definition io (s s' : kstate) : Prop :=
  s' = set_ptable (k_ptable s') (set_disk (k_disk s') (set_bcache (k_bcache s') s)) /\
  dk_size (k_disk s') = dk_size (k_disk s).

#[export] Instance io_preorder : PreOrder io.
Proof.
  split.
  - intros s. split; [by destruct s|done].
  - intros s1 s2 s3 [H12 E12] [H23 E23]. split; [rewrite H23, H12; done|congruence].
Qed.

Lemma io_log s s' : io s s' -> k_log s' = k_log s.
Proof. intros [-> _]. done. Qed.
Lemma io_fs s s' : io s s' -> k_fs s' = k_fs s.
Proof. intros [-> _]. done. Qed.
Lemma io_sync s s' : io s s' -> k_sync s' = k_sync s.
Proof. intros [-> _]. done. Qed.
Lemma io_size s s' : io s s' -> dk_size (k_disk s') = dk_size (k_disk s).
Proof. by intros [_ ?]. Qed.

(** A buffer in the hands of process [pid]. *)
Record held (pid d n : Z) (b : buf) : Prop := mk_held {
  held_block : is_block d n b = true;
  held_valid : has_flag B_VALID b = true;
  held_lock_by : b_lock b = mk_sleeplock 1 pid;
  held_data : block_ok (b_data b) }.

(** bread returned buffer [i] for block [(d, n)] and led from [s] to [s']: the
    buffer was free and is now held, with the contents of the block; no other buffer
    has changed, nor the contents of any block. *)
Record got (pid d n : Z) (i : nat) (s s' : kstate) : Prop := mk_got {
  got_bio : bio_ok pid s';
  got_io : io s s';
  got_disk : k_disk s' = k_disk s;
  got_buf : exists b b', k_cores s !! i = Some b /\ k_cores s' = <[i := b']> (k_cores s) /\
    held pid d n b' /\ b_data b' = k_view s (d, n) /\
    sl_locked (b_lock b) = 0 /\
    (is_block d n b = true \/
     (is_unused b = true /\ forall j c, k_cores s !! j = Some c -> is_block d n c = false)) /\
    has_flag B_DIRTY b' = is_block d n b && has_flag B_DIRTY b /\
    (has_flag B_DIRTY b' = false -> b_data b' = disk_block (k_img s) (d, n));
  got_view : forall k, k <> (0, 0) -> k_view s' k = k_view s k }.

Lemma k_cores_upd i f b s : bufs (k_bcache s) !! i = Some b ->
  k_cores (upd_bufs i f s) = <[i := core (f b)]> (k_cores s).
Proof.
  intros Hb. unfold k_cores, cores. simpl. rewrite (list_alter_insert_at _ _ _ _ Hb). apply list_fmap_insert.
Qed.

Definition keeps_links (f : buf -> buf) : Prop :=
  (forall b, b_next (f b) = b_next b) /\ (forall b, b_prev (f b) = b_prev b).

Lemma bio_ok_upd pid s i b f :
  bio_ok pid s -> bufs (k_bcache s) !! i = Some b -> keeps_links f ->
  buf_inv (k_img s) (core (f b)) -> no_other (k_cores s) i (b_dev (f b)) (b_blockno (f b)) ->
  bio_ok pid (upd_bufs i f s).
Proof.
  intros [Hc [l Hr] Hinv] Hb [Hn Hp] Hbi Hno. split.
  - by apply calm_upd_bufs.
  - exists l. by apply ring_alter.
  - rewrite (k_cores_upd i f b s Hb). eapply cache_inv_set; [exact Hinv| |exact Hbi|exact Hno].
    apply cores_lookup. by exists b.
Qed.

Lemma io_upd_bufs i f s : io s (upd_bufs i f s).
Proof. split; [by destruct s|done]. Qed.

Section driver.
Context `{!Driver}.

Lemma unused_clean b : is_unused b = true -> b_refcnt b = 0 /\ has_flag B_DIRTY b = false.
Proof.
  unfold is_unused, has_flag. intros [H1%Z.eqb_eq H2]%andb_prop. split; [done|]. by rewrite H2.
Qed.

(** The buffer bget returned holds a valid copy. *)
Lemma bread_valid pid d n s i b :
  bio_ok pid s -> (d, n) <> (0, 0) ->
  bufs (k_bcache s) !! i = Some b -> is_block d n b = true -> sl_locked (b_lock b) = 0 ->
  has_flag B_VALID b = true -> bget d n s = Ok i (upd_bufs i (hit_buf pid) s) ->
  exists s', bread d n s = Ok i s' /\ got pid d n i s s'.
Proof.
  intros Hok H0 Hb Hk Hl Hv Hget. unfold bread. rewrite (bind_ok _ _ _ _ _ Hget).
  rewrite (bind_ok _ _ _ _ _ (get_buf_ok _ _ _ (lookup_upd_bufs i (hit_buf pid) s b Hb))).
  assert (Hcb : k_cores s !! i = Some (core b)) by (apply cores_lookup; by exists b).
  pose proof (bio_inv _ _ Hok) as Hinv. pose proof (cache_buf _ _ _ _ Hinv Hcb) as [[Hr Hr'] Hcl Hdi Hle].
  simpl in Hr, Hr', Hcl, Hle. pose proof (proj1 (is_block_iff _ _ _) Hk) as [Hd Hn].
  assert (Href : u32 (b_refcnt b + 1) = 1) by (rewrite Hr, Hl; done).
  assert (Hno : no_other (k_cores s) i d n).
  { rewrite <- Hd, <- Hn. apply (no_other_uniq _ _ i (core b) Hinv Hcb). simpl. congruence. }
  exists (upd_bufs i (hit_buf pid) s). split.
  { unfold has_flag in Hv. change (b_flags (hit_buf pid b)) with (b_flags b).
    destruct (Z.land (b_flags b) B_VALID =? 0); done. }
  assert (Hok' : bio_ok pid (upd_bufs i (hit_buf pid) s)).
  { apply (bio_ok_upd pid s i b); [done|done|done| |simpl; by rewrite Hd, Hn].
    split; simpl; [rewrite Href; tauto|done|exact Hdi|done]. }
  assert (Hview : k_view s (d, n) = b_data b).
  { unfold k_view. rewrite <- Hd, <- Hn. apply (view_hit _ _ i (core b) Hinv Hcb Hv). simpl. congruence. }
  split; [done|apply io_upd_bufs|done| |].
  - exists (core b), (core (hit_buf pid b)). split; [done|]. split; [by apply k_cores_upd|].
    split; [split; done|]. split; [done|]. split; [done|]. split; [by left|].
    change (is_block d n (core b)) with (is_block d n b). rewrite Hk. split; [done|].
    simpl. intros Hnd. rewrite <- Hd, <- Hn. by apply Hcl.
  - intros k Hk0. unfold k_view. pose proof (bio_inv _ _ Hok') as Hinv'. revert Hinv'.
    rewrite (k_cores_upd i _ b s Hb). intros Hinv'.
    rewrite (view_set_same _ _ i (core b)) by done. case_decide; [|done]. subst k. simpl.
    rewrite Hd, Hn. unfold k_view in Hview. by rewrite Hview.
Qed.

(** The buffer bget returned has to be read from the disk. *)
Lemma bread_fill pid d n s i b f :
  bio_ok pid s -> (d, n) <> (0, 0) -> drv_block s d n = true ->
  bufs (k_bcache s) !! i = Some b -> sl_locked (b_lock b) = 0 -> has_flag B_DIRTY b = false ->
  keeps_links f -> is_block d n (f b) = true -> has_flag B_VALID (f b) = false ->
  has_flag B_DIRTY (f b) = false -> b_lock (f b) = mk_sleeplock 1 pid -> b_refcnt (f b) = 1 ->
  block_ok (b_data (f b)) -> no_other (k_cores s) i d n ->
  (is_block d n b = true /\ has_flag B_VALID b = false) \/ (is_block d n b = false /\ is_unused b = true) ->
  bget d n s = Ok i (upd_bufs i f s) ->
  exists s', bread d n s = Ok i s' /\ got pid d n i s s'.
Proof.
  intros Hok H0 Hdrv Hb Hl Hdb [Hln Hlp] Hk Hv Hdi Hlk Href Hlen Hno Hwas Hget.
  assert (Hcb : k_cores s !! i = Some (core b)) by (apply cores_lookup; by exists b).
  pose proof (bio_inv _ _ Hok) as Hinv. pose proof (proj1 (is_block_iff _ _ _) Hk) as [Hd Hn].
  set (g := set_flag B_VALID ∘ with_b_data (disk_block (k_img s) (d, n)) ∘ f).
  assert (Hread : bread d n s = Ok i (upd_bufs i g s)).
  { unfold bread. rewrite (bind_ok _ _ _ _ _ Hget).
    rewrite (bind_ok _ _ _ _ _ (get_buf_ok _ _ _ (lookup_upd_bufs i f s b Hb))).
    assert ((Z.land (b_flags (f b)) B_VALID =? 0) = true) as ->
      by (unfold has_flag in Hv; by apply negb_false_iff in Hv).
    cbn [when]. erewrite bind_ok.
    2:{ apply (drv_rw_spec pid i (f b)); [apply calm_upd_bufs, Hok|by apply lookup_upd_bufs|done|by left|].
        rewrite (drv_block_disk s) by done. by rewrite Hd, Hn. }
    unfold synced, ret. rewrite Hdi, upd_bufs_bufs, Hd, Hn. done. }
  exists (upd_bufs i g s). split; [done|].
  assert (Hlen' : block_ok (disk_block (k_img s) (d, n))) by apply Hinv.
  assert (Hgd : has_flag B_DIRTY (g b) = false) by (unfold g; simpl; rewrite dirty_set_valid; exact Hdi).
  assert (Hgv : has_flag B_VALID (g b) = true) by (unfold g; simpl; apply valid_set).
  assert (Hok' : bio_ok pid (upd_bufs i g s)).
  { apply (bio_ok_upd pid s i b); [done|done|by split| |unfold g; simpl; by rewrite Hd, Hn].
    split; [unfold g; simpl; rewrite Hlk, Href; tauto| | |exact Hlen'].
    - intros E. unfold g in E. simpl in E. by rewrite Hlk in E.
    - intros E. change (has_flag B_DIRTY (g b) = true) in E. congruence. }
  pose proof (bio_inv _ _ Hok') as Hinv'. rewrite (k_cores_upd i g b s Hb) in Hinv'.
  assert (Hview : k_view s (d, n) = disk_block (k_img s) (d, n)).
  { apply view_miss. simpl. intros j c Hj Hjk. destruct (decide (j = i)) as [->|Hne].
    - assert (c = core b) as -> by congruence. destruct Hwas as [[_ ?]|[E _]]; [done|].
      change (is_block d n b = true) in Hjk. congruence.
    - by rewrite (Hno j c Hne Hj) in Hjk. }
  split; [done|apply io_upd_bufs|done| |].
  - exists (core b), (core (g b)). split; [done|]. split; [by apply k_cores_upd|].
    split; [split; done|]. split; [by rewrite Hview|]. split; [done|].
    split.
    { destruct Hwas as [[? _]|[Hnb ?]]; [by left|right]. split; [done|]. intros j c Hj.
      destruct (decide (j = i)) as [->|Hne]; [|by apply (Hno j)].
      assert (c = core b) as -> by congruence. exact Hnb. }
    split; [|done]. change (has_flag B_DIRTY (g b) = is_block d n b && has_flag B_DIRTY b).
    by rewrite Hgd, Hdb, andb_false_r.
  - intros k Hk0. unfold k_view. rewrite (k_cores_upd i _ b s Hb).
    destruct Hwas as [[Hkb _]|[Hkb Hu]].
    + apply is_block_iff in Hkb as [Hdb' Hnb'].
      rewrite (view_set_same _ _ i (core b)) by (done || (unfold g; simpl; congruence)).
      case_decide; [|done]. subst k. unfold g. simpl. rewrite Hd, Hn. symmetry. exact Hview.
    + apply (view_set_miss _ _ i (core b)); try done; unfold g; simpl; by rewrite Hd, Hn.
Qed.

Lemma bread_spec pid d n s :
  bio_ok pid s -> (d, n) <> (0, 0) -> drv_block s d n = true ->
  unheld d n (k_cores s) -> room d n (k_cores s) ->
  exists i s', bread d n s = Ok i s' /\ got pid d n i s s'.
Proof.
  intros Hok H0 Hdrv Hun Hroom. pose proof (bio_inv _ _ Hok) as Hinv.
  destruct (bget_spec pid d n s Hok Hun Hroom) as (i & b & Hb & Hcase). exists i.
  assert (Hcb : k_cores s !! i = Some (core b)) by (apply cores_lookup; by exists b).
  pose proof (cache_buf _ _ _ _ Hinv Hcb) as [[Hr Hr'] _ Hdi Hle]. simpl in Hr, Hr', Hle.
  destruct Hcase as [(Hk & Hl & Hget)|(Hu & Hno & Hget)].
  - destruct (has_flag B_VALID b) eqn:Hv; [by apply (bread_valid pid d n s i b)|].
    assert (Hnd : has_flag B_DIRTY b = false).
    { destruct (has_flag B_DIRTY b) eqn:E; [|done]. destruct (Hdi E) as [Hdv _]. change (has_flag B_VALID b = true) in Hdv. congruence. }
    apply (bread_fill pid d n s i b (hit_buf pid)); try done.
    + simpl. by rewrite Hr, Hl.
    + pose proof (proj1 (is_block_iff _ _ _) Hk) as [<- <-].
      exact (no_other_uniq (k_cores s) (k_img s) i (core b) Hinv Hcb H0).
    + by left.
  - apply unused_clean in Hu as Hu'. destruct Hu' as [Hu0 Hud].
    apply (bread_fill pid d n s i b (miss_buf pid d n)); try done.
    + congruence.
    + by apply is_block_iff.
    + intros j c _ Hj. apply cores_lookup in Hj as (c' & Hj & ->). exact (Hno j c' Hj).
    + right. split; [by apply (Hno i)|done].
Qed.

(** C13: the buffer cache is coherent.  bread of a block that nobody holds returns a
    buffer locked for the caller with the current contents of the block, those of its
    cached copy if there is one and those on the disk if not.  The disk, the contents
    of every block and all other buffers are as before, the ring is intact, and there
    is still at most one buffer per block ([bio_ok]). *)
Theorem bread_correct pid d n s :
  bio_ok pid s -> (d, n) <> (0, 0) -> drv_block s d n = true ->
  unheld d n (k_cores s) -> room d n (k_cores s) ->
  exists i s' b, bread d n s = Ok i s' /\ bio_ok pid s' /\
    k_cores s' !! i = Some b /\ is_block d n b = true /\ has_flag B_VALID b = true /\
    b_lock b = mk_sleeplock 1 pid /\ b_data b = k_view s (d, n) /\
    k_disk s' = k_disk s /\ (forall k, k <> (0, 0) -> k_view s' k = k_view s k) /\
    forall j, j <> i -> k_cores s' !! j = k_cores s !! j.
Proof.
  intros Hok H0 Hdrv Hun Hr. destruct (bread_spec pid d n s Hok H0 Hdrv Hun Hr) as (i & s' & Hrun & Hgot).
  destruct Hgot as [Hok' _ Hdk (b & b' & Hb & Hc & [Hk Hv Hl _] & Hdat & _) Hview].
  exists i, s', b'. rewrite Hc. split; [done|]. split; [done|].
  split; [by rewrite list_lookup_insert_eq by (by eapply lookup_lt_Some)|].
  do 6 (split; [done|]). intros j Hj. by rewrite list_lookup_insert_ne.
Qed.
End driver.

(** A step that changed only buffer [i], which stays with its block: [b] is what it
    was, [b'] what it is, and [v] the contents of the block from now on. *)
Record stepped (pid d n : Z) (i : nat) (b b' : buf) (s s' : kstate) : Prop := mk_stepped {
  st_bio : bio_ok pid s';
  st_io : io s s';
  st_cores : k_cores s' = <[i := b']> (k_cores s);
  st_view : forall k, k <> (0, 0) -> k_view s' k = if decide (k = (d, n)) then b_data b' else k_view s k }.

Lemma cores_fun (f : buf -> buf) i b s : (forall x, core (f x) = f (core x)) -> k_cores s !! i = Some b ->
  exists b', bufs (k_bcache s) !! i = Some b' /\ b = core b' /\ core (f b') = f b.
Proof. intros Hf (b' & Hb & ->)%cores_lookup. by exists b'. Qed.

(** Writing [v] into the data of a buffer that is held. *)
Lemma set_data_spec pid d n s i b v :
  bio_ok pid s -> k_cores s !! i = Some b -> held pid d n b -> (d, n) <> (0, 0) -> block_ok v ->
  stepped pid d n i b (with_b_data v b) s (upd_bufs i (with_b_data v) s).
Proof.
  intros Hok Hb Hh H0 Hv. pose proof (bio_inv _ _ Hok) as Hinv.
  destruct Hh as [Hk Hval Hlk _]. apply is_block_iff in Hk as [Hd Hn].
  destruct (cores_fun (with_b_data v) i b s ltac:(done) Hb) as (b0 & Hb0 & Eb & Ef).
  pose proof (cache_buf _ _ _ _ Hinv Hb) as [Href Hcl Hdi Hle].
  assert (Hcores : k_cores (upd_bufs i (with_b_data v) s) = <[i := with_b_data v b]> (k_cores s)).
  { by rewrite (k_cores_upd i _ b0 s Hb0), Ef. }
  assert (Hok' : bio_ok pid (upd_bufs i (with_b_data v) s)).
  { apply (bio_ok_upd pid s i b0 _ Hok Hb0); [done| |].
    - rewrite Ef. split; simpl; [done| |exact Hdi|done]. intros E. by rewrite Hlk in E.
    - replace (b_dev (with_b_data v b0)) with (b_dev b) by (by rewrite Eb).
      replace (b_blockno (with_b_data v b0)) with (b_blockno b) by (by rewrite Eb).
      apply (no_other_uniq _ _ _ _ Hinv Hb). congruence. }
  split; [done|apply io_upd_bufs|done|]. intros k Hk0. unfold k_view.
  pose proof (bio_inv _ _ Hok') as Hinv'. rewrite Hcores in *.
  rewrite (view_set_same _ _ i b) by done. simpl. by rewrite Hd, Hn.
Qed.

Lemma disk_block_insert img k v k' :
  disk_block (<[k := v]> img) k' = if decide (k' = k) then v else disk_block img k'.
Proof.
  unfold disk_block. case_decide; subst; [by rewrite lookup_insert_eq|]. by rewrite lookup_insert_ne.
Qed.

(** Writing a block to the disk keeps the other buffers coherent. *)
Lemma cache_inv_write cs img i b :
  cache_inv cs img -> cs !! i = Some b -> (b_dev b, b_blockno b) <> (0, 0) -> sl_locked (b_lock b) = 1 ->
  cache_inv cs (<[(b_dev b, b_blockno b) := b_data b]> img).
Proof.
  intros Hci Hb H0 Hl. destruct (Hci) as [Hu Hr Hc Hd Hle Hdk]. split; try done.
  - intros j c Hj Hlc Hv Hdi. rewrite disk_block_insert. case_decide as E; [|by eapply Hc].
    simplify_eq. destruct (decide (j = i)) as [->|Hne]; [congruence|].
    destruct Hne. apply (Hu j i c b); try congruence.
  - intros k. rewrite disk_block_insert. case_decide; [by eapply Hle|done].
Qed.

Lemma view_write cs img i b k :
  cache_inv cs img -> cs !! i = Some b -> has_flag B_VALID b = true -> k <> (0, 0) ->
  cache_inv cs (<[(b_dev b, b_blockno b) := b_data b]> img) -> (b_dev b, b_blockno b) <> (0, 0) ->
  view cs (<[(b_dev b, b_blockno b) := b_data b]> img) k = view cs img k.
Proof.
  intros Hci Hb Hv Hk Hci' H0. destruct (decide (k = (b_dev b, b_blockno b))) as [->|Hne].
  - by rewrite !(view_hit _ _ i b).
  - unfold view. case_match; [done|]. rewrite disk_block_insert, decide_False; done.
Qed.

Section driver2.
Context `{!Driver}.

Definition clean_buf (b : buf) : buf := set_flag B_VALID (clear_flag B_DIRTY (set_flag B_DIRTY b)).

Lemma bwrite_run pid d n s i b :
  bio_ok pid s -> k_cores s !! i = Some b -> held pid d n b -> drv_block s d n = true ->
  bwrite i s = Ok tt (set_disk (write_block (d, n) (b_data b) (k_disk s)) (upd_bufs i clean_buf s)).
Proof.
  intros Hok Hb [Hk Hval Hlk _] Hdrv. apply is_block_iff in Hk as [Hd Hn].
  destruct (cores_fun (set_flag B_DIRTY) i b s ltac:(done) Hb) as (b0 & Hb0 & Eb & Ef).
  assert (Hsl : sl_get (S_buf i) s = Some (mk_sleeplock 1 pid)) by (simpl; rewrite Hb0; simpl; by rewrite <- Hlk, Eb).
  unfold bwrite. rewrite (bind_ok _ _ _ _ _ (holdingsleep_calm _ pid s _ (bio_calm _ _ Hok) Hsl)).
  cbn [sl_locked sl_pid Z.eqb negb andb]. rewrite Z.eqb_refl. cbn [negb].
  unfold upd_buf, modify. erewrite bind_ok by reflexivity.
  rewrite (drv_rw_spec pid i (set_flag B_DIRTY b0) (upd_bufs i (set_flag B_DIRTY) s)).
  - unfold synced. rewrite dirty_set, upd_bufs_bufs. rewrite Eb in *. simpl in Hd, Hn.
    simpl b_dev. simpl b_blockno. rewrite Hd, Hn. done.
  - apply calm_upd_bufs, Hok.
  - by apply lookup_upd_bufs.
  - rewrite Eb in Hlk. exact Hlk.
  - right. apply dirty_set.
  - rewrite (drv_block_disk s) by done. rewrite Eb in *. simpl in *. by rewrite Hd, Hn.
Qed.

(** bwrite puts the contents of a held buffer on the disk; nothing a client sees
    through the cache changes. *)
Lemma bwrite_spec pid d n s i b :
  bio_ok pid s -> k_cores s !! i = Some b -> held pid d n b -> (d, n) <> (0, 0) -> drv_block s d n = true ->
  exists s' b', bwrite i s = Ok tt s' /\ stepped pid d n i b b' s s' /\ held pid d n b' /\
    b_data b' = b_data b /\ has_flag B_DIRTY b' = false /\
    k_disk s' = write_block (d, n) (b_data b) (k_disk s).
Proof.
  intros Hok Hb Hh H0 Hdrv. pose proof (bwrite_run pid d n s i b Hok Hb Hh Hdrv) as Hrun.
  pose proof (bio_inv _ _ Hok) as Hinv. destruct (Hh) as [Hk Hval Hlk Hdat].
  pose proof (proj1 (is_block_iff _ _ _) Hk) as [Hd Hn].
  destruct (cores_fun clean_buf i b s ltac:(done) Hb) as (b0 & Hb0 & Eb & Ef).
  pose proof (cache_buf _ _ _ _ Hinv Hb) as [Href Hcl Hdi Hle].
  assert (Hval' : has_flag B_VALID (clean_buf b) = true) by apply valid_set.
  assert (Hdi' : has_flag B_DIRTY (clean_buf b) = false).
  { unfold clean_buf. rewrite dirty_set_valid. apply dirty_clear. }
  assert (Hcores : k_cores (upd_bufs i clean_buf s) = <[i := clean_buf b]> (k_cores s)).
  { by rewrite (k_cores_upd i _ b0 s Hb0), Ef. }
  assert (Hok' : bio_ok pid (upd_bufs i clean_buf s)).
  { apply (bio_ok_upd pid s i b0 _ Hok Hb0); [done| |].
    - rewrite Ef. split; [done| |by rewrite Hdi'|done]. intros E. change (sl_locked (b_lock b) = 0) in E. by rewrite Hlk in E.
    - replace (b_dev (clean_buf b0)) with (b_dev b) by (by rewrite Eb).
      replace (b_blockno (clean_buf b0)) with (b_blockno b) by (by rewrite Eb).
      apply (no_other_uniq _ _ _ _ Hinv Hb). congruence. }
  pose proof (bio_inv _ _ Hok') as Hinv'. rewrite Hcores in Hinv'. pose proof (lookup_lt_Some _ _ _ Hb) as Hlt.
  assert (Hb' : <[i := clean_buf b]> (k_cores s) !! i = Some (clean_buf b)) by (by apply list_lookup_insert_eq).
  assert (H0' : (b_dev (clean_buf b), b_blockno (clean_buf b)) <> (0, 0)) by (simpl; congruence).
  pose proof (cache_inv_write _ _ i _ Hinv' Hb' H0' ltac:(simpl; by rewrite Hlk)) as Hinv2.
  eexists _, (clean_buf b). split; [exact Hrun|].
  split; [|split; [split; done|split; [done|split; [done|done]]]]. split.
  - destruct Hok' as [Hc' Hr' _]. split; [by destruct Hc'|exact Hr'|].
    change (k_cores (set_disk _ _)) with (k_cores (upd_bufs i clean_buf s)). rewrite Hcores.
    unfold k_img. simpl. by rewrite <- Hd, <- Hn.
  - split; [by destruct s|done].
  - exact Hcores.
  - intros k Hk0. unfold k_view.
    change (k_cores (set_disk _ _)) with (k_cores (upd_bufs i clean_buf s)). rewrite Hcores.
    unfold k_img. simpl. rewrite <- Hd, <- Hn.
    change (b_dev b, b_blockno b) with (b_dev (clean_buf b), b_blockno (clean_buf b)) at 1.
    change (b_data b) with (b_data (clean_buf b)).
    change (dk_image (k_disk s)) with (k_img (upd_bufs i clean_buf s)).
    rewrite (view_write _ _ i) by done. by rewrite (view_set_same _ _ i b) by done.
Qed.
End driver2.

Definition released (b : buf) : buf := with_b_refcnt 0 (with_b_lock (mk_sleeplock 0 0) b).

(** The state brelse leaves. *)
Definition brelsed (i : nat) (s : kstate) : kstate :=
  let s1 := upd_bufs i (fun b => with_b_refcnt (u32 (b_refcnt b - 1)) (with_b_lock (mk_sleeplock 0 0) b)) s in
  set_ptable (woken (C_buflock i) (k_ptable s))
    (set_bcache (push_front i (unlink i (k_bcache s1))) s1).

Lemma brelse_run pid s i b :
  calm pid s -> bufs (k_bcache s) !! i = Some b -> b_lock b = mk_sleeplock 1 pid -> b_refcnt b = 1 ->
  brelse i s = Ok tt (brelsed i s).
Proof.
  intros Hc Hb Hlk Href. assert (Hsl : sl_get (S_buf i) s = Some (mk_sleeplock 1 pid)) by (simpl; by rewrite Hb, <- Hlk).
  unfold brelse. rewrite (bind_ok _ _ _ _ _ (holdingsleep_calm _ pid s _ Hc Hsl)).
  cbn [sl_locked sl_pid Z.eqb negb andb]. rewrite Z.eqb_refl. cbn [negb].
  rewrite (bind_ok _ _ _ _ _ (releasesleep_calm _ pid s _ Hc Hsl)).
  pose proof (calm_woken (sl_chan (S_buf i)) pid _ (calm_put (S_buf i) (mk_sleeplock 0 0) pid s Hc)) as Hc1.
  rewrite sl_put_ptable in Hc1. set (s1 := set_ptable _ _) in *.
  rewrite (bind_ok _ _ _ _ _ (acquire_calm L_bcache pid s1 Hc1 I)).
  unfold upd_buf at 1, modify at 1. erewrite bind_ok by reflexivity.
  erewrite bind_ok.
  2:{ apply get_buf_ok. apply (lookup_upd_bufs i _ _ (with_b_lock (mk_sleeplock 0 0) b)).
      simpl. by rewrite list_lookup_alter_eq, Hb. }
  cbn [b_refcnt with_b_refcnt with_b_lock]. rewrite Href. change (u32 (1 - 1) =? 0) with true. cbn [when].
  erewrite bind_ok by reflexivity.
  rewrite (release_calm L_bcache pid s1 _ Hc1 I) by reflexivity.
  f_equal. unfold brelsed.
  change (upd_bufs i _ s) with (upd_bufs i ((fun b => with_b_refcnt (u32 (b_refcnt b - 1)) b) ∘ with_b_lock (mk_sleeplock 0 0)) s).
  rewrite <- upd_bufs_bufs. subst s1. by destruct s.
Qed.

(** brelse gives the buffer back, as the most recently used one; its contents must be
    on the disk already or be marked dirty. *)
Lemma brelse_spec pid d n s i b :
  bio_ok pid s -> k_cores s !! i = Some b -> held pid d n b -> (d, n) <> (0, 0) ->
  has_flag B_DIRTY b = true \/ b_data b = disk_block (k_img s) (d, n) ->
  brelse i s = Ok tt (brelsed i s) /\ stepped pid d n i b (released b) s (brelsed i s) /\
  k_disk (brelsed i s) = k_disk s.
Proof.
  intros Hok Hb [Hk Hval Hlk Hdat] H0 Hclean. pose proof (bio_inv _ _ Hok) as Hinv.
  pose proof (proj1 (is_block_iff _ _ _) Hk) as [Hd Hn]. pose proof (lookup_lt_Some _ _ _ Hb) as Hlt.
  destruct (cores_fun released i b s ltac:(done) Hb) as (b0 & Hb0 & Eb & Ef).
  pose proof (cache_buf _ _ _ _ Hinv Hb) as [[Href _] Hcl Hdi Hle]. rewrite Hlk in Href. simpl in Href.
  assert (Href0 : b_refcnt b0 = 1) by (rewrite Eb in Href; exact Href).
  split; [apply (brelse_run pid s i b0); [apply Hok|done| |done]; rewrite <- Hlk, Eb; done|].
  assert (Hcores : k_cores (brelsed i s) = <[i := released b]> (k_cores s) /\
                   exists l, ring (k_bcache (brelsed i s)) l).
  { destruct (bio_ring _ _ Hok) as [l Hr].
    pose proof (ring_alter _ _ i (fun b => with_b_refcnt (u32 (b_refcnt b - 1)) (with_b_lock (mk_sleeplock 0 0) b))
      ltac:(done) ltac:(done) Hr) as Hr1.
    assert (Hi : i ∈ l).
    { pose proof (ring_facts _ _ Hr) as (_ & _ & Hel & _). apply Hel. destruct Hr as (_ & _ & Hlb).
      rewrite <- Hlb. by eapply lookup_lt_Some. }
    apply list_elem_of_split in Hi as (l1 & l2 & ->). destruct (ring_move _ _ _ _ Hr1) as [Hr2 Hc2].
    split; [|eexists; exact Hr2]. unfold k_cores, brelsed. cbn [k_bcache set_ptable set_bcache].
    etransitivity; [exact Hc2|]. unfold cores. cbn [bufs with_bufs].
    rewrite (list_alter_insert_at _ _ _ _ Hb0), list_fmap_insert, Href0. f_equal. exact Ef. }
  destruct Hcores as [Hcores Hring].
  assert (Hinv' : cache_inv (<[i := released b]> (k_cores s)) (k_img s)).
  { apply (cache_inv_set _ _ i b); [done|done| |].
    - split; simpl; [split; [done|by left]| |exact Hdi|done].
      intros _ Hv Hdi'. destruct Hclean as [Hc|Hc]; [|by rewrite Hd, Hn].
      change (has_flag B_DIRTY b = false) in Hdi'. congruence.
    - apply (no_other_uniq _ _ _ _ Hinv Hb). congruence. }
  split; [|done]. split.
  - split; [|done|by rewrite Hcores].
    destruct (calm_woken (C_buflock i) pid s (bio_calm _ _ Hok)) as [Hy Hdp Hl Hp]. split; [done|done| |done].
    intros lk Hhas. apply Hl. destruct lk; simpl in *; try done.
    assert (Hlen : length (k_cores (brelsed i s)) = length (k_cores s)) by (by rewrite Hcores, length_insert).
    unfold k_cores, cores in Hlen. rewrite !length_fmap in Hlen. by rewrite <- Hlen.
  - split; [by destruct s|done].
  - done.
  - intros k Hk0. unfold k_view. rewrite Hcores. change (k_img (brelsed i s)) with (k_img s).
    rewrite (view_set_same _ _ i b) by done. simpl. by rewrite Hd, Hn.
Qed.

(** ** binit *)

(** The lock of buffer [b] in the state that initsleeplock gives it. *)
Definition opened (b : nat) (c : bcache) : bcache := with_bufs (alter (with_b_lock (mk_sleeplock 0 0)) b (bufs c)) c.

Lemma initsleeplock_run b s : (b < length (bufs (k_bcache s)))%nat -> free_lock (L_buf b) (k_sync s) ->
  initsleeplock (S_buf b) s = Ok tt (set_bcache (opened b (k_bcache s)) s).
Proof.
  intros [x Hx]%lookup_lt_is_Some Hf. unfold initsleeplock, initlock, put_lock. erewrite bind_ok by reflexivity.
  cbn [sl_spin]. rewrite insert_id by exact Hf. unfold upd_sleeplock, get_sleeplock, bind, modify.
  cbn [sl_get k_bcache set_sync sl_put set_bcache with_bufs bufs]. rewrite Hx. cbn [fmap option_fmap option_map index obind ret].
  cbn [sl_get k_bcache set_sync sl_put set_bcache with_bufs bufs]. rewrite list_lookup_alter_eq, Hx. cbn.
  unfold modify, opened, with_bufs. cbn [bufs head_prev head_next]. apply (f_equal (Ok tt)).
  replace (alter _ b (alter _ b (bufs (k_bcache s)))) with (alter (with_b_lock (mk_sleeplock 0 0)) b (bufs (k_bcache s))); [by destruct s as [[] ? ? ? ? []]|].
  rewrite list_alter_alter_eq. by apply list_alter_ext.
Qed.

Lemma opened_push b c : (b < HEAD)%nat ->
  opened b (c_set_prev b HEAD (c_set_next b (c_next c HEAD) c)) =
  c_set_prev b HEAD (c_set_next b (c_next (opened b c) HEAD) (opened b c)).
Proof.
  intros Hb. unfold opened, c_set_prev, c_set_next, c_next. rewrite !(decide_False (P := b = HEAD)), !(decide_True (P := HEAD = HEAD)) by (done || lia).
  unfold with_bufs. cbn [bufs head_prev head_next]. f_equal. rewrite !list_alter_alter_eq. by apply list_alter_ext.
Qed.

(** The first [n] turns of binit's loop. *)
Definition linked_up (n : nat) (c0 c : bcache) : Prop :=
  path (c_next c) (c_prev c) HEAD (rev (seq 0 n)) HEAD /\ length (bufs c) = HEAD /\
  forall i, cores c !! i = (if decide (i < n)%nat then with_b_lock (mk_sleeplock 0 0) else id) <$> (cores c0 !! i).

Lemma linked_up_step n c0 c : (n < HEAD)%nat -> linked_up n c0 c -> linked_up (S n) c0 (push_front n (opened n c)).
Proof.
  intros Hn (Hp & Hl & Hc). rewrite <- (Nat.add_1_r n) at 1. unfold linked_up. rewrite seq_app, rev_app_distr. cbn [seq rev app Nat.add].
  assert (Hp' : path (c_next (opened n c)) (c_prev (opened n c)) HEAD (rev (seq 0 n)) HEAD).
  { apply (path_eq (c_next c) (c_prev c)); [| |done]; intros x; unfold c_next, c_prev; case_decide; try done; cbn [opened with_bufs bufs];
      by apply lookup_alter_field. }
  destruct (path_push_front (opened n c) (rev (seq 0 n)) n) as (P & L & C); try done.
  - cbn. by rewrite length_alter.
  - apply list.NoDup_cons. split; [rewrite list_elem_of_In, <- in_rev, in_seq; lia|]. rewrite <- (Permutation_rev (seq 0 n)). apply NoDup_seq.
  - apply Forall_cons_iff. split; [done|]. apply list.Forall_forall. intros j. rewrite list_elem_of_In, <- in_rev, in_seq. lia.
  - split; [done|]. split; [done|]. intros i. rewrite C. unfold cores at 1. cbn [opened with_bufs bufs].
    rewrite (fmap_alter core _ (with_b_lock (mk_sleeplock 0 0))) by done. destruct (decide (i = n)) as [->|Hne].
    + rewrite list_lookup_alter_eq. fold (cores c). rewrite Hc, decide_False, decide_True by lia. by destruct (cores c0 !! n).
    + rewrite list_lookup_alter_ne by done. fold (cores c). rewrite Hc. repeat case_decide; try done; lia.
Qed.

Lemma binit_loop m : forall n c0 s, (n + m = HEAD)%nat -> linked_up n c0 (k_bcache s) ->
  (forall i, (i < HEAD)%nat -> free_lock (L_buf i) (k_sync s)) ->
  exists c, for_each (seq n m) (fun b =>
    let! n := get_next HEAD in
    set_next b n ;;;
    set_prev b HEAD ;;;
    initsleeplock (S_buf b) ;;;
    let! n := get_next HEAD in
    set_prev n b ;;;
    set_next HEAD b) s = Ok tt (set_bcache c s) /\ linked_up HEAD c0 c.
Proof.
  induction m as [|m IH]; intros n c0 s Hm Hl Hf.
  - exists (k_bcache s). rewrite Nat.add_0_r in Hm. subst n. split; [by destruct s|done].
  - cbn [seq for_each]. destruct (IH (S n) c0 (set_bcache (push_front n (opened n (k_bcache s))) s)) as (c & R & Hc); [lia|by apply linked_up_step; [lia|]|done|].
    exists c. split; [|done]. erewrite bind_ok; [exact R|]. destruct Hl as (_ & Hlen & _).
    unfold get_next, set_next, set_prev, reads, modify. do 3 erewrite bind_ok by reflexivity.
    erewrite bind_ok by (apply initsleeplock_run; [cbn; rewrite length_set_prev, length_set_next; lia|apply Hf; lia]).
    do 2 erewrite bind_ok by reflexivity. cbn [k_bcache set_bcache]. by rewrite opened_push by lia.
Qed.

(** binit sets up the cache: the buffers form the doubly linked list that bget and
    brelse rely on, the last one first, with their locks free and nothing else changed. *)
Lemma binit_run s : length (bufs (k_bcache s)) = HEAD -> (forall lk, has_lock lk s -> free_lock lk (k_sync s)) ->
  exists c, binit s = Ok tt (set_bcache c s) /\ ring c (rev (seq 0 HEAD)) /\
    cores c = with_b_lock (mk_sleeplock 0 0) <$> cores (k_bcache s).
Proof.
  intros Hlen Hf. unfold binit, initlock, put_lock, set_prev at 1, set_next at 1, modify. erewrite !bind_ok by reflexivity.
  rewrite insert_id by (by apply (Hf L_bcache)).
  destruct (binit_loop HEAD 0 (k_bcache s) (set_bcache (c_set_next HEAD HEAD (c_set_prev HEAD HEAD (k_bcache s))) s)) as (c & R & P & L & C); [done| | |].
  - split; [done|]. split; [done|]. intros i. cbn. by rewrite option_fmap_id.
  - intros i Hi. apply (Hf (L_buf i)). cbn. lia.
  - exists c. split; [|split].
    + etransitivity; [|exact R]. by destruct s as [[] ? ? ? ? []].
    + split; [done|]. split; [|done]. symmetry. apply Permutation_rev.
    + apply list_eq. intros i. rewrite C, list_lookup_fmap. case_decide as Hi; [done|].
      rewrite lookup_ge_None_2; [done|]. unfold cores. rewrite length_fmap. lia.
Qed.
