(* ===== verification/Ide.v ===== *)
(** The IDE disk driver: ide.c.

    The queue of requests is the list [idequeue] of buffers, linked through qnext in the
    code.  [dk_ports] records what is written to the ports of the controller.  The
    controller serves the sector that its address registers name ([target]): data sent
    to it goes to that sector, and data read from it comes from there.  Its status byte
    at the moment it becomes ready is a parameter. *)

From S2P Require Import Prelude Layout CString State Spinlock Sched Sleeplock Memide.
Local Open Scope kernel_scope.

Definition SECTOR_SIZE : Z := 512.
Definition IDE_BSY : Z := 0x80.
Definition IDE_DRDY : Z := 0x40.
Definition IDE_DF : Z := 0x20.
Definition IDE_ERR : Z := 0x01.
Definition IDE_CMD_READ : Z := 0x20.
Definition IDE_CMD_WRITE : Z := 0x30.
Definition IDE_CMD_RDMUL : Z := 0xc4.
Definition IDE_CMD_WRMUL : Z := 0xc5.

Definition sector_per_block : Z := BSIZE / SECTOR_SIZE.

(** * The controller *)
Definition upd_disk (f : disk -> disk) : K unit := modify (fun s => set_disk (f (k_disk s)) s).
Definition outb (port data : Z) : K unit := upd_disk (fun d => with_dk_ports ((port, u8 data) :: dk_ports d) d).

(** The last value written to a port. *)
Fixpoint port_val (ports : list (Z * Z)) (p : Z) : Z :=
  match ports with
  | [] => 0
  | (q, v) :: ports' => if q =? p then v else port_val ports' p
  end.

(** The drive and the block that the address registers of the controller name. *)
Definition target (ports : list (Z * Z)) : Z * Z :=
  let r := port_val ports in
  (Z.land (Z.shiftr (r 0x1f6) 4) 1,
   (r 0x1f3 + Z.shiftl (r 0x1f4) 8 + Z.shiftl (r 0x1f5) 16 + Z.shiftl (Z.land (r 0x1f6) 0x0f) 24) / sector_per_block).

(** The data of a block, sent to and received from the controller. *)
Definition outsl (data : list Z) : K unit := upd_disk (fun d => write_block (target (dk_ports d)) data d).
Definition insl : K (list Z) := reads (fun s => disk_block (dk_image (k_disk s)) (target (dk_ports (k_disk s)))).

Class Controller := { ide_status : kstate -> Z }.

Section ide.
Context {ctl : Controller}.

Definition idewait (checkerr : bool) : K Z :=
  let! r := reads ide_status in
  if negb (Z.land r (Z.lor IDE_BSY IDE_DRDY) =? IDE_DRDY) then hang else
  if checkerr && negb (Z.land r (Z.lor IDE_DF IDE_ERR) =? 0) then ret (-1) else ret 0.

(** The loop of ideinit that reads the status up to [n] times; [inb] gives the reads. *)
Fixpoint probe (n : nat) (inb : nat -> Z) : bool :=
  match n with
  | O => false
  | S n' => negb (inb O =? 0) || probe n' (fun k => inb (S k))
  end.

Definition ideinit (inb : nat -> Z) : K unit :=
  on_sync (initlock L_ide) ;;;
  let! _ := idewait false in
  outb 0x1f6 (Z.lor 0xe0 (Z.shiftl 1 4)) ;;;
  when (probe 1000 inb) (upd_disk (with_havedisk1 true)) ;;;
  outb 0x1f6 (Z.lor 0xe0 (Z.shiftl 0 4)).

Definition idestart (i : nat) : K unit :=
  let! b := get_buf i in
  if FSSIZE <=? b_blockno b then panic "incorrect blockno" else
  let sector := s32 (u32 (b_blockno b * sector_per_block)) in
  let read_cmd := if sector_per_block =? 1 then IDE_CMD_READ else IDE_CMD_RDMUL in
  let write_cmd := if sector_per_block =? 1 then IDE_CMD_WRITE else IDE_CMD_WRMUL in
  if 7 <? sector_per_block then panic "idestart" else
  let! _ := idewait false in
  outb 0x3f6 0 ;;;
  outb 0x1f2 sector_per_block ;;;
  outb 0x1f3 (Z.land sector 0xff) ;;;
  outb 0x1f4 (Z.land (Z.shiftr sector 8) 0xff) ;;;
  outb 0x1f5 (Z.land (Z.shiftr sector 16) 0xff) ;;;
  outb 0x1f6 (Z.lor (Z.lor 0xe0 (Z.shiftl (Z.land (b_dev b) 1) 4)) (Z.land (Z.shiftr sector 24) 0x0f)) ;;;
  if has_flag B_DIRTY b then
    outb 0x1f7 write_cmd ;;;
    outsl (b_data b)
  else outb 0x1f7 read_cmd.

Definition ideintr : K unit :=
  on_sync (acquire L_ide) ;;;
  let! d := reads k_disk in
  match idequeue d with
  | [] => on_sync (release L_ide)
  | i :: q =>
      upd_disk (with_idequeue q) ;;;
      let! b := get_buf i in
      (if negb (has_flag B_DIRTY b) then
         let! r := idewait true in
         when (0 <=? r) (let! data := insl in upd_buf i (with_b_data data))
       else ret tt) ;;;
      upd_buf i (set_flag B_VALID) ;;;
      upd_buf i (clear_flag B_DIRTY) ;;;
      wakeup (C_buf i) ;;;
      match q with j :: _ => idestart j | [] => ret tt end ;;;
      on_sync (release L_ide)
  end.

(** The loop of iderw. *)
Fixpoint wait_synced (fuel : nat) (i : nat) : K unit :=
  let! b := get_buf i in
  if Z.land (b_flags b) (Z.lor B_VALID B_DIRTY) =? B_VALID then ret tt else
  match fuel with
  | O => hang
  | S fuel' => sleep (C_buf i) (Some L_ide) ;;; wait_synced fuel' i
  end.

Definition iderw (i : nat) : K unit :=
  let! h := holdingsleep (S_buf i) in
  if negb h then panic "iderw: buf not locked" else
  let! b := get_buf i in
  if Z.land (b_flags b) (Z.lor B_VALID B_DIRTY) =? B_VALID then panic "iderw: nothing to do" else
  let! d := reads k_disk in
  if negb (b_dev b =? 0) && negb (havedisk1 d) then panic "iderw: ide disk 1 not present" else
  on_sync (acquire L_ide) ;;;
  upd_disk (fun d => with_idequeue (idequeue d ++ [i]) d) ;;;
  let! d := reads k_disk in
  when (bool_decide (head (idequeue d) = Some i)) (idestart i) ;;;
  wait_synced wait_fuel i ;;;
  on_sync (release L_ide).

(** * What the controller is told *)

Definition blk (b : buf) : Z * Z := (b_dev b, b_blockno b).

(** A buffer that iderw may be called on, and one that the driver is done with. *)
Definition to_sync (b : buf) : Prop :=
  (b_dev b = 0 \/ b_dev b = 1) /\ 0 <= b_blockno b < FSSIZE /\
  has_flag B_VALID b && negb (has_flag B_DIRTY b) = false.

Definition command (b : buf) : Z := if has_flag B_DIRTY b then IDE_CMD_WRITE else IDE_CMD_READ.

Definition regs (b : buf) : list (Z * Z) :=
  let sector := b_blockno b in
  [(0x1f7, command b);
   (0x1f6, u8 (Z.lor (Z.lor 0xe0 (Z.shiftl (Z.land (b_dev b) 1) 4)) (Z.land (Z.shiftr sector 24) 0x0f)));
   (0x1f5, u8 (Z.land (Z.shiftr sector 16) 0xff));
   (0x1f4, u8 (Z.land (Z.shiftr sector 8) 0xff));
   (0x1f3, u8 (Z.land sector 0xff));
   (0x1f2, 1); (0x3f6, 0)].

(** The disk once the request for [b] is started. *)
Definition issued (b : buf) (d : disk) : disk :=
  let d1 := with_dk_ports (regs b ++ dk_ports d) d in
  if has_flag B_DIRTY b then write_block (blk b) (b_data b) d1 else d1.

(** The disk is working on the request for [b]. *)
Definition serving (b : buf) (d : disk) : Prop :=
  target (dk_ports d) = blk b /\ port_val (dk_ports d) 0x1f7 = command b /\
  (has_flag B_DIRTY b = true -> dk_image d !! blk b = Some (b_data b)).

Lemma target_regs b ports : to_sync b -> target (regs b ++ ports) = blk b.
Proof.
  intros (Hd & Hn & _). unfold target, regs, sector_per_block. cbn [app port_val].
  change (BSIZE / SECTOR_SIZE) with 1. cbn [Z.eqb Pos.eqb]. rewrite Z.div_1_r.
  unfold FSSIZE in Hn. set (n := b_blockno b) in *.
  assert (Z.shiftr n 24 = 0) as -> by (rewrite Z.shiftr_div_pow2 by lia; zdiv).
  change 0xff with (Z.ones 8). rewrite !Z.land_ones, !Z.shiftr_div_pow2, !Z.shiftl_mul_pow2 by lia.
  unfold blk. fold n. f_equal.
  - destruct Hd as [-> | ->]; reflexivity.
  - assert (Z.land (u8 (Z.lor (Z.lor 224 (Z.land (b_dev b) 1 * 2 ^ 4)) (Z.land 0 15))) 15 = 0) as ->
      by (destruct Hd as [-> | ->]; reflexivity).
    unfold u8. simpl. zdiv.
Qed.

Lemma issued_serving b d : to_sync b -> serving b (issued b d).
Proof.
  intros Hb. unfold serving, issued. assert (dk_ports (if has_flag B_DIRTY b
    then write_block (blk b) (b_data b) (with_dk_ports (regs b ++ dk_ports d) d)
    else with_dk_ports (regs b ++ dk_ports d) d) = regs b ++ dk_ports d) as -> by (by destruct (has_flag _ _)).
  split; [by apply target_regs|]. split; [done|]. intros ->. simpl. apply lookup_insert_eq.
Qed.

(** * The queue *)

(** The buffer once the driver is done with it. *)
Definition finished (img : gmap (Z * Z) (list Z)) (b : buf) : buf :=
  clear_flag B_DIRTY (set_flag B_VALID
    (if has_flag B_DIRTY b then b else with_b_data (disk_block img (blk b)) b)).

Definition content (b : buf) : Z * Z * Z * list Z := (b_dev b, b_blockno b, b_flags b, b_data b).

Definition queued (i : nat) (s : kstate) : Prop := i ∈ idequeue (k_disk s).

Record ide_ok (s : kstate) : Prop := mk_ide_ok {
  io_nodup : NoDup (idequeue (k_disk s));
  io_bufs i : queued i s -> exists b, bufs (k_bcache s) !! i = Some b /\ to_sync b;
  io_blks i j bi bj : queued i s -> queued j s -> bufs (k_bcache s) !! i = Some bi ->
    bufs (k_bcache s) !! j = Some bj -> blk bi = blk bj -> i = j;
  io_head i b : head (idequeue (k_disk s)) = Some i -> bufs (k_bcache s) !! i = Some b -> serving b (k_disk s) }.

(** The request for buffer [i] with the contents of [b0], from the call of iderw on:
    it waits in the queue, or it is done, and no other request is for its block. *)
Record request (i : nat) (b0 : buf) (s : kstate) : Prop := mk_request {
  rq_alone j bj : queued j s -> bufs (k_bcache s) !! j = Some bj -> blk bj = blk b0 -> j = i;
  rq_state : exists b, bufs (k_bcache s) !! i = Some b /\
    ((queued i s /\ content b = content b0) \/
     (~ queued i s /\ content b = content (finished (dk_image (k_disk s)) b0) /\
      disk_block (dk_image (k_disk s)) (blk b0) = b_data b)) }.

#[export] Instance ide_ok_data : DataInv ide_ok.
Proof. split; intros ? s []; by split. Qed.

#[export] Instance request_data i b : DataInv (request i b).
Proof. split; intros ? s []; by split. Qed.

(** A drive that becomes ready and reports no error. *)
Class Sound : Prop := {
  sound_ready s : Z.land (ide_status s) (Z.lor IDE_BSY IDE_DRDY) = IDE_DRDY;
  sound_error s : Z.land (ide_status s) (Z.lor IDE_DF IDE_ERR) = 0 }.

Lemma idewait_ready e s : Z.land (ide_status s) (Z.lor IDE_BSY IDE_DRDY) = IDE_DRDY ->
  idewait e s = Ok (if e && negb (Z.land (ide_status s) (Z.lor IDE_DF IDE_ERR) =? 0) then -1 else 0) s.
Proof.
  intros H. unfold idewait. erewrite bind_ok by reflexivity. rewrite H. cbn [negb Z.eqb Pos.eqb].
  rewrite Z.eqb_refl. cbn [negb]. by destruct (e && _).
Qed.

(** The rest of the queue is not touched when its head is completed. *)
Definition completed (i : nat) (q : list nat) (s : kstate) : kstate :=
  set_disk (with_idequeue q (k_disk s)) (upd_bufs i (finished (dk_image (k_disk s))) s).

Lemma completed_other i j q s : i <> j -> bufs (k_bcache (completed i q s)) !! j = bufs (k_bcache s) !! j.
Proof. intros. simpl. by rewrite list_lookup_alter_ne. Qed.

Lemma completed_bufs i q s j : ide_ok s -> idequeue (k_disk s) = i :: q -> j ∈ q ->
  exists b, bufs (k_bcache (completed i q s)) !! j = Some b /\ to_sync b.
Proof.
  intros Hok Hq Hj. pose proof (io_nodup s Hok) as Hnd. rewrite Hq in Hnd. apply list.NoDup_cons in Hnd as [Hni _].
  rewrite completed_other by (by intros ->). apply (io_bufs s Hok). unfold queued. rewrite Hq. by right.
Qed.

Definition next_issued (q : list nat) (s : kstate) : kstate :=
  match head q ≫= (fun j => bufs (k_bcache s) !! j) with
  | Some b => set_disk (issued b (k_disk s)) s
  | None => s
  end.

Definition interrupted (i : nat) (q : list nat) (s : kstate) : kstate :=
  next_issued q (set_ptable (woken (C_buf i) (k_ptable s)) (completed i q s)).

Lemma next_bcache q s : k_bcache (next_issued q s) = k_bcache s.
Proof. unfold next_issued. by destruct (_ ≫= _). Qed.

Lemma next_queue q s : idequeue (k_disk (next_issued q s)) = idequeue (k_disk s).
Proof. unfold next_issued, issued, write_block. destruct (_ ≫= _); [|done]. simpl. by destruct (has_flag _ _). Qed.

Lemma next_image q s k :
  (forall j b, head q = Some j -> bufs (k_bcache s) !! j = Some b -> blk b <> k) ->
  dk_image (k_disk (next_issued q s)) !! k = dk_image (k_disk s) !! k.
Proof.
  intros Hk. unfold next_issued, issued, write_block. destruct (head q ≫= _) as [b|] eqn:E; [|done].
  apply bind_Some in E as (j & Hj & Hb). cbn [k_disk set_disk].
  destruct (has_flag _ _); [|done]. simpl. apply lookup_insert_ne. by apply (Hk j).
Qed.

Lemma finished_content img b b0 : content b = content b0 -> content (finished img b) = content (finished img b0).
Proof.
  destruct b, b0. unfold content. intros [= -> -> -> ->]. unfold finished, blk, has_flag. simpl.
  by destruct (negb _).
Qed.

Lemma content_blk b b0 : content b = content b0 -> blk b = blk b0.
Proof. unfold content, blk. by intros [= -> -> _ _]. Qed.

Lemma interrupted_bufs i q s : k_bcache (interrupted i q s) = k_bcache (completed i q s).
Proof. unfold interrupted. by rewrite next_bcache. Qed.

Lemma interrupted_queued i q s j : queued j (interrupted i q s) <-> j ∈ q.
Proof. unfold queued, interrupted. by rewrite next_queue. Qed.

Lemma tail_queued i q s j : ide_ok s -> idequeue (k_disk s) = i :: q -> j ∈ q -> queued j s /\ i <> j.
Proof.
  intros Hok Hq Hj. pose proof (io_nodup s Hok) as Hnd. rewrite Hq in Hnd. apply list.NoDup_cons in Hnd as [Hni _].
  split; [unfold queued; rewrite Hq; by right|by intros ->].
Qed.

Lemma interrupted_ok i q s : ide_ok s -> idequeue (k_disk s) = i :: q -> ide_ok (interrupted i q s).
Proof.
  intros Hok Hq. split.
  - unfold interrupted. rewrite next_queue. simpl. pose proof (io_nodup s Hok) as Hnd. rewrite Hq in Hnd.
    by apply list.NoDup_cons in Hnd as [_ ?].
  - intros j Hj%interrupted_queued. rewrite interrupted_bufs. by apply completed_bufs.
  - intros j k bj bk Hj%interrupted_queued Hk%interrupted_queued. rewrite interrupted_bufs.
    destruct (tail_queued _ _ _ _ Hok Hq Hj), (tail_queued _ _ _ _ Hok Hq Hk).
    rewrite !completed_other by done. by apply (io_blks s Hok).
  - intros j b Hj. rewrite interrupted_bufs. intros Hb. unfold interrupted in *. rewrite next_queue in Hj.
    cbn [k_disk set_ptable completed set_disk idequeue with_idequeue] in Hj.
    assert (Hjq : j ∈ q) by (destruct q; simplify_eq/=; by left).
    destruct (completed_bufs i q s j Hok Hq Hjq) as (b' & Hb' & Hs). rewrite Hb in Hb'. simplify_eq.
    unfold next_issued. rewrite Hj. cbn [mbind option_bind]. cbn [k_bcache set_ptable].
    rewrite Hb. cbn [k_disk set_disk]. by apply issued_serving.
Qed.

Lemma interrupted_image i q s j b0 : ide_ok s -> idequeue (k_disk s) = i :: q -> request j b0 s -> j ∉ q ->
  disk_block (dk_image (k_disk (interrupted i q s))) (blk b0) = disk_block (dk_image (k_disk s)) (blk b0).
Proof.
  intros Hok Hq Hr Hj. unfold disk_block, interrupted. rewrite next_image; [done|].
  intros k b Hk. assert (Hkq : k ∈ q) by (destruct q; simplify_eq/=; by left).
  destruct (tail_queued _ _ _ _ Hok Hq Hkq) as [Hkd Hne]. cbn [k_bcache set_ptable]. rewrite completed_other by done.
  intros Hb Heq. apply Hj. by rewrite <- (rq_alone j b0 s Hr k b Hkd Hb Heq).
Qed.

Lemma finished_dirty img b : has_flag B_DIRTY b = true -> b_data (finished img b) = b_data b.
Proof. intros H. unfold finished. by rewrite H. Qed.

Lemma finished_read img b : has_flag B_DIRTY b = false -> b_data (finished img b) = disk_block img (blk b).
Proof. intros H. unfold finished. by rewrite H. Qed.

Lemma interrupted_head i q s b0 : ide_ok s -> idequeue (k_disk s) = i :: q -> request i b0 s ->
  exists b, bufs (k_bcache (interrupted i q s)) !! i = Some b /\
    content b = content (finished (dk_image (k_disk (interrupted i q s))) b0) /\
    disk_block (dk_image (k_disk (interrupted i q s))) (blk b0) = b_data b.
Proof.
  intros Hok Hq Hr. destruct (rq_state i b0 s Hr) as (b & Hb & [[_ Hc]|[[] _]]).
  2:{ unfold queued. rewrite Hq. by left. }
  assert (Hni : i ∉ q).
  { pose proof (io_nodup s Hok) as Hnd. rewrite Hq in Hnd. by apply list.NoDup_cons in Hnd as [? _]. }
  pose proof (interrupted_image i q s i b0 Hok Hq Hr Hni) as Himg.
  exists (finished (dk_image (k_disk s)) b). rewrite interrupted_bufs. split.
  { simpl. by rewrite list_lookup_alter_eq, Hb. }
  split.
  - rewrite (finished_content _ _ _ Hc). unfold finished. by rewrite Himg.
  - rewrite Himg, <- (content_blk _ _ Hc). destruct (has_flag B_DIRTY b) eqn:Hd.
    + rewrite finished_dirty by done. destruct (io_head s Hok i b) as (_ & _ & Hw); [by rewrite Hq|done|].
      unfold disk_block. by rewrite Hw.
    + by rewrite finished_read.
Qed.

Lemma interrupted_request i q s j b0 : ide_ok s -> idequeue (k_disk s) = i :: q ->
  request j b0 s -> request j b0 (interrupted i q s).
Proof.
  intros Hok Hq Hr. split.
  - intros k bk Hk%interrupted_queued. destruct (tail_queued _ _ _ _ Hok Hq Hk).
    rewrite interrupted_bufs, completed_other by done. by apply (rq_alone j b0 s Hr).
  - destruct (decide (i = j)) as [<-|Hne].
    { destruct (interrupted_head i q s b0 Hok Hq Hr) as (b & Hb & Hc & Hd). exists b. split; [done|].
      right. split; [|done]. intros Hi%interrupted_queued. by destruct (tail_queued _ _ _ _ Hok Hq Hi). }
    destruct (rq_state j b0 s Hr) as (b & Hb & Hst). exists b. rewrite interrupted_bufs, completed_other by done.
    split; [done|]. rewrite interrupted_queued. unfold queued in Hst. rewrite Hq, elem_of_cons in Hst.
    destruct Hst as [[[|Hj] Hc]|(Hj & Hc & Hd)]; [congruence|by left|right].
    assert (Hjq : j ∉ q) by tauto. pose proof (interrupted_image i q s j b0 Hok Hq Hr Hjq) as Himg.
    split; [done|]. rewrite Himg. split; [|done]. rewrite Hc. unfold finished. by rewrite Himg.
Qed.

(** ** A new request *)

(** Buffer [i] is appended to the queue, and started if it is the only one. *)
Definition enqueued (i : nat) (s : kstate) : kstate :=
  let s1 := set_disk (with_idequeue (idequeue (k_disk s) ++ [i]) (k_disk s)) s in
  if bool_decide (head (idequeue (k_disk s) ++ [i]) = Some i) then next_issued [i] s1 else s1.

(** What iderw is called on: a buffer that is not queued, for a block of its own. *)
Record requestable (i : nat) (b : buf) (s : kstate) : Prop := mk_requestable {
  ra_buf : bufs (k_bcache s) !! i = Some b;
  ra_sync : to_sync b;
  ra_disk : b_dev b = 0 \/ havedisk1 (k_disk s) = true;
  ra_new : ~ queued i s;
  ra_alone j bj : queued j s -> bufs (k_bcache s) !! j = Some bj -> blk bj <> blk b }.

Lemma enqueued_bcache i s : k_bcache (enqueued i s) = k_bcache s.
Proof. unfold enqueued. case_bool_decide; [|done]. by rewrite next_bcache. Qed.

Lemma enqueued_queue i s : idequeue (k_disk (enqueued i s)) = idequeue (k_disk s) ++ [i].
Proof. unfold enqueued. case_bool_decide; [|done]. by rewrite next_queue. Qed.

Lemma enqueued_queued i s j : queued j (enqueued i s) <-> queued j s \/ j = i.
Proof. unfold queued. by rewrite enqueued_queue, elem_of_app, list_elem_of_singleton. Qed.

Lemma enqueued_image i b s k : bufs (k_bcache s) !! i = Some b -> blk b <> k ->
  dk_image (k_disk (enqueued i s)) !! k = dk_image (k_disk s) !! k.
Proof.
  intros Hb Hk. unfold enqueued. case_bool_decide; [|done]. rewrite next_image; [done|].
  intros j bj [= <-]. cbn [k_bcache set_disk]. rewrite Hb. by intros [= <-].
Qed.

Lemma enqueued_ok i b s : ide_ok s -> requestable i b s -> ide_ok (enqueued i s).
Proof.
  intros Hok [Hb Hs _ Hnew Halone]. split.
  - rewrite enqueued_queue. apply list.NoDup_app. split; [apply Hok|]. split; [|apply list.NoDup_singleton].
    intros j Hj ->%list_elem_of_singleton. by apply Hnew.
  - intros j. rewrite enqueued_bcache, enqueued_queued. intros [Hj| ->]; [by apply (io_bufs s Hok)|by exists b].
  - intros j k bj bk. rewrite enqueued_bcache, !enqueued_queued.
    intros [Hj| ->] [Hk| ->] Hbj Hbk Heq; [by apply (io_blks s Hok j k bj bk)| | |done]; exfalso.
    + apply (Halone j bj Hj Hbj). congruence.
    + apply (Halone k bk Hk Hbk). congruence.
  - intros j bj. rewrite enqueued_bcache, enqueued_queue. intros Hj Hbj. unfold enqueued.
    destruct (idequeue (k_disk s)) as [|k q] eqn:Hq; simplify_eq/=.
    + rewrite bool_decide_eq_true_2 by done. unfold next_issued. simpl. rewrite Hb. simpl. by apply issued_serving.
    + rewrite bool_decide_eq_false_2.
      * destruct (io_head s Hok j bj) as (?&?&?); [by rewrite Hq|done|]. by split.
      * intros [= ->]. apply Hnew. unfold queued. rewrite Hq. by left.
Qed.

Lemma enqueued_request i b s : ide_ok s -> requestable i b s -> request i b (enqueued i s).
Proof.
  intros Hok [Hb Hs _ Hnew Halone]. split.
  - intros j bj. rewrite enqueued_bcache, enqueued_queued. intros [Hj| ->] Hbj Heq; [|done].
    by destruct (Halone j bj Hj Hbj).
  - exists b. rewrite enqueued_bcache, enqueued_queued. split; [done|]. left. auto.
Qed.

(** The other requests are not disturbed. *)
Lemma enqueued_others i b s j bj : requestable i b s -> j <> i -> blk bj <> blk b ->
  request j bj s -> request j bj (enqueued i s).
Proof.
  intros [Hb _ _ _ _] Hne Hbl [Ha Hst]. split.
  - intros k bk. rewrite enqueued_bcache, enqueued_queued. intros [Hk| ->] Hbk Heq; [by apply (Ha k bk)|].
    exfalso. apply Hbl. congruence.
  - destruct Hst as (b' & Hb' & Hst). exists b'. rewrite enqueued_bcache, enqueued_queued. split; [done|].
    assert (Himg : disk_block (dk_image (k_disk (enqueued i s))) (blk bj) = disk_block (dk_image (k_disk s)) (blk bj)).
    { unfold disk_block. by rewrite (enqueued_image i b). }
    destruct Hst as [[Hq Hc]|(Hq & Hc & Hd)]; [by left; auto|right]. rewrite Himg. split; [tauto|].
    split; [|done]. rewrite Hc. unfold finished. by rewrite Himg.
Qed.

Section sound.
Context {ok : Sound}.

Lemma idewait_sound e s : idewait e s = Ok 0 s.
Proof. rewrite idewait_ready by apply sound_ready. rewrite sound_error. by rewrite andb_false_r. Qed.

Lemma idestart_ok i b s : bufs (k_bcache s) !! i = Some b -> to_sync b ->
  idestart i s = Ok tt (set_disk (issued b (k_disk s)) s).
Proof.
  intros Hb Hs. pose proof (target_regs b (dk_ports (k_disk s)) Hs) as Ht. destruct Hs as (_ & Hn & _).
  unfold idestart. rewrite (bind_ok _ _ _ _ _ (get_buf_ok _ _ _ Hb)), (proj2 (Z.leb_gt _ _)) by lia.
  unfold sector_per_block. change (BSIZE / SECTOR_SIZE) with 1. cbn [Z.eqb Pos.eqb Z.ltb Z.compare Pos.compare Pos.compare_cont].
  rewrite Z.mul_1_r, u32_small, s32_small by (unfold FSSIZE in Hn; lia).
  rewrite (bind_ok _ _ _ _ _ (idewait_sound false s)).
  do 6 (erewrite bind_ok by reflexivity). unfold issued, regs, command in *.
  destruct (has_flag B_DIRTY b); [|by destruct s].
  erewrite bind_ok by reflexivity. unfold outsl, upd_disk, modify.
  cbn [k_disk set_disk dk_ports with_dk_ports]. f_equal. unfold set_disk at 1. simpl.
  rewrite <- Ht. done.
Qed.

(** ** The interrupt handler *)

Lemma fetch_ok i q b s : bufs (k_bcache s) !! i = Some b -> target (dk_ports (k_disk s)) = blk b ->
  ((if negb (has_flag B_DIRTY b) then
      let! r := idewait true in
      when (0 <=? r) (let! data := insl in upd_buf i (with_b_data data))
    else ret tt) ;;;
   upd_buf i (set_flag B_VALID) ;;;
   upd_buf i (clear_flag B_DIRTY)) (set_disk (with_idequeue q (k_disk s)) s) = Ok tt (completed i q s).
Proof.
  intros Hb Ht. unfold completed. destruct (has_flag B_DIRTY b) eqn:Hd; cbn [negb].
  - do 2 (erewrite bind_ok by reflexivity). unfold upd_buf, modify. f_equal. rewrite upd_bufs_bufs.
    etrans; [|symmetry; apply (f_equal (set_disk _)), (upd_bufs_at i _ (clear_flag B_DIRTY ∘ set_flag B_VALID) s b Hb)].
    { done. } unfold finished. by rewrite Hd.
  - erewrite bind_ok.
    2:{ rewrite (bind_ok _ _ _ _ _ (idewait_sound true _)). cbn [Z.leb Z.compare when].
        erewrite bind_ok by reflexivity. reflexivity. }
    erewrite bind_ok by reflexivity. unfold upd_buf, modify. f_equal. rewrite !upd_bufs_bufs.
    cbn [k_disk set_disk dk_ports dk_image with_idequeue]. rewrite Ht.
    etrans; [|symmetry; apply (f_equal (set_disk _)),
      (upd_bufs_at i _ (clear_flag B_DIRTY ∘ (set_flag B_VALID ∘ with_b_data (disk_block (dk_image (k_disk s)) (blk b)))) s b Hb)].
    { done. } unfold finished. by rewrite Hd.
Qed.

Lemma next_issued_ok q s :
  (forall j, head q = Some j -> exists b, bufs (k_bcache s) !! j = Some b /\ to_sync b) ->
  match q with j :: _ => idestart j | [] => ret tt end s = Ok tt (next_issued q s).
Proof.
  intros Hq. destruct q as [|j q]; [done|]. destruct (Hq j eq_refl) as (b & Hb & Hs).
  rewrite (idestart_ok j b) by done. unfold next_issued. cbn [head mbind option_bind]. by rewrite Hb.
Qed.

Lemma next_sync q s : k_sync (next_issued q s) = k_sync s.
Proof. unfold next_issued. by destruct (_ ≫= _). Qed.

Lemma ideintr_ok i q s :
  sync_ok (k_sync s) -> free_lock L_ide (k_sync s) -> free_lock L_ptable (k_sync s) ->
  ide_ok s -> idequeue (k_disk s) = i :: q ->
  ideintr s = Ok tt (interrupted i q s).
Proof.
  intros Hy Hi Hp Hok Hq. unfold ideintr. rewrite (bind_ok _ _ _ _ _ (acquire_k _ s Hy Hi)).
  set (s1 := set_sync _ s). erewrite bind_ok by reflexivity.
  change (k_disk s1) with (k_disk s). rewrite Hq. erewrite bind_ok by reflexivity.
  destruct (io_bufs s Hok i) as (b & Hb & Hs); [unfold queued; rewrite Hq; by left|].
  erewrite bind_ok by (apply get_buf_ok; exact Hb).
  destruct (io_head s Hok i b) as (Ht & _); [by rewrite Hq|done|].
  refine (eq_trans (bind_prefix _ _ _ _ _ _ (fetch_ok i q b s1 Hb Ht)) _).
  destruct (sync_ok_lock L_ide _ Hy) as [Hy1 _].
  assert (Hp1 : free_lock L_ptable (lock L_ide (k_sync s))) by (unfold free_lock; by rewrite lock_other).
  rewrite (bind_ok _ _ _ _ _ (wakeup_ok (C_buf i) (completed i q s1) Hy1 Hp1)).
  erewrite bind_ok.
  2:{ apply next_issued_ok. intros j Hj. apply (completed_bufs i q s); [done..|].
      destruct q; simplify_eq/=. by left. }
  rewrite (release_locked L_ide _ (k_sync s)); [|by rewrite next_sync|done..].
  f_equal. unfold interrupted, next_issued. cbn [k_bcache set_ptable completed set_disk upd_bufs set_bcache s1 set_sync].
  destruct (_ ≫= _); by destruct s.
Qed.

(** The interrupt handler of the disk driver.  It keeps the queue in order, completes
    exactly the request at its head, gives the disk the next one, and keeps every
    other request: whatever request was waiting or done stays so, with its data. *)
Theorem ideintr_correct s :
  sync_ok (k_sync s) -> free_lock L_ide (k_sync s) -> free_lock L_ptable (k_sync s) -> ide_ok s ->
  exists s', ideintr s = Ok tt s' /\ ide_ok s' /\ k_sync s' = k_sync s /\
    idequeue (k_disk s') = tail (idequeue (k_disk s)) /\
    (forall j b, request j b s -> request j b s') /\
    (forall j, head (idequeue (k_disk s)) <> Some j -> bufs (k_bcache s') !! j = bufs (k_bcache s) !! j) /\
    procs (k_ptable s') =
      match head (idequeue (k_disk s)) with
      | Some i => wake_proc (C_buf i) <$> procs (k_ptable s)
      | None => procs (k_ptable s)
      end.
Proof.
  intros Hy Hi Hp Hok. destruct (idequeue (k_disk s)) as [|i q] eqn:Hq.
  - exists s. split; [|done]. unfold ideintr. rewrite (bind_ok _ _ _ _ _ (acquire_k _ s Hy Hi)).
    erewrite bind_ok by reflexivity. cbn [k_disk set_sync]. rewrite Hq.
    rewrite (release_locked L_ide _ (k_sync s)) by done. by rewrite set_sync_sync, set_sync_id.
  - exists (interrupted i q s). split; [by apply ideintr_ok|]. split; [by apply interrupted_ok|].
    split; [unfold interrupted; by rewrite next_sync|]. split; [unfold interrupted; by rewrite next_queue|].
    split; [intros; by apply interrupted_request|]. split.
    + intros j Hj. rewrite interrupted_bufs. apply completed_other. by intros ->.
    + unfold interrupted, next_issued. by destruct (_ ≫= _).
Qed.

(** ** Waiting for a request *)

(** What holds whenever idelock is free while a thread waits for its request. *)
Definition waiting (i : nat) (b : buf) (s : kstate) : Prop := ide_ok s /\ request i b s.

#[export] Instance waiting_data i b : DataInv (waiting i b).
Proof. split; intros ? s [H1 H2]; (split; [destruct H1|destruct H2]; by split). Qed.

(** The request is done: the buffer is valid and clean, a write is on the disk and a
    read has the data of the disk. *)
Definition served (i : nat) (b : buf) (s : kstate) : Prop :=
  exists b', bufs (k_bcache s) !! i = Some b' /\ blk b' = blk b /\
    has_flag B_VALID b' = true /\ has_flag B_DIRTY b' = false /\
    disk_block (dk_image (k_disk s)) (blk b) = b_data b' /\
    (has_flag B_DIRTY b = true -> b_data b' = b_data b).

Lemma content_test b b0 : content b = content b0 ->
  (Z.land (b_flags b) (Z.lor B_VALID B_DIRTY) =? B_VALID) = has_flag B_VALID b0 && negb (has_flag B_DIRTY b0).
Proof. intros Hc. rewrite flag_test. unfold has_flag. unfold content in Hc. injection Hc as _ _ -> _. done. Qed.

Lemma finished_flags img b : has_flag B_VALID (finished img b) && negb (has_flag B_DIRTY (finished img b)) = true.
Proof.
  unfold finished. rewrite dirty_clear. rewrite andb_true_r, has_valid. unfold clear_flag, set_flag.
  cbn [b_flags with_b_flags]. rewrite Z.land_spec, Z.lor_spec, Z.lnot_spec by lia.
  change (Z.testbit B_VALID 1) with true. change (Z.testbit B_DIRTY 1) with false. by rewrite orb_true_r.
Qed.

Lemma done_served i b s : request i b s -> ~ queued i s -> served i b s.
Proof.
  intros Hr Hn. destruct (rq_state i b s Hr) as (b' & Hb' & [[]|(_ & Hc & Hd)]); [done|].
  exists b'. split; [done|]. split.
  { rewrite (content_blk _ _ Hc). unfold finished. by destruct (has_flag _ _). }
  pose proof (content_test _ _ Hc) as Ht. rewrite flag_test, finished_flags in Ht. apply andb_prop in Ht as [Hv Hnd].
  split; [done|]. split; [by apply negb_true_iff|]. split; [done|]. intros Hdirty.
  rewrite <- (finished_dirty (dk_image (k_disk s)) b Hdirty). unfold content in Hc. injection Hc as _ _ _ ->. done.
Qed.

Lemma wait_synced_guar fuel i b p : to_sync b -> forall s, in_cs L_ide p s -> waiting i b s ->
  guar (cs_guar (waiting i b) L_ide) (cs_rely (waiting i b) L_ide p)
    (fun _ s' => in_cs L_ide p s' /\ waiting i b s' /\ ~ queued i s') (wait_synced fuel i s).
Proof.
  intros Hs. induction fuel as [|fuel IH]; intros s Hcs [Hok Hr];
    destruct (rq_state i b s Hr) as (b' & Hb' & [[Hq Hc]|(Hq & Hc & Hd)]); cbn [wait_synced];
    rewrite (bind_ok _ _ _ _ _ (get_buf_ok _ _ _ Hb')), (content_test _ _ Hc), ?finished_flags; try done.
  - by destruct Hs as (_ & _ & ->).
  - destruct Hs as (Hs1 & Hs2 & Hs3). rewrite Hs3.
    eapply guar_bind; [apply (sleep_guar (waiting i b)); [done|done|by split]|].
    intros [] s' [Hcs' Hw]. by apply IH.
Qed.

(** The handler leaves the critical section. *)
Lemma leave_ide p s : in_cs L_ide p s ->
  exists s', on_sync (release L_ide) s = Ok tt s' /\ s' = set_sync (unlock L_ide (k_sync s)) s /\
    free_lock L_ide (k_sync s') /\ sync_ok (k_sync s').
Proof.
  intros [Hy Hh Hd Hf Hc Hp]. eexists. split; [apply release_k; [done|lia|done]|]. split; [done|].
  destruct (sync_ok_unlock L_ide _ Hy ltac:(lia)) as [Hy' _]. split; [|done].
  unfold free_lock, unlock. cbn [k_sync set_sync locks]. by rewrite lookup_insert_eq.
Qed.

Definition finish_rw (i : nat) : K unit := wait_synced wait_fuel i ;;; on_sync (release L_ide).

Lemma finish_rw_guar i b p s : to_sync b -> in_cs L_ide p s -> waiting i b s ->
  guar (cs_guar (waiting i b) L_ide) (cs_rely (waiting i b) L_ide p)
    (fun _ s' => ide_ok s' /\ served i b s' /\ free_lock L_ide (k_sync s') /\ sync_ok (k_sync s'))
    (finish_rw i s).
Proof.
  intros Hs Hcs Hw. eapply guar_bind; [by apply (wait_synced_guar wait_fuel i b p)|].
  intros [] s' (Hcs' & [Hok' Hr'] & Hn). destruct (leave_ide p s' Hcs') as (s2 & -> & -> & Hf & Hy).
  split; [by apply ide_ok_data|]. split; [|done]. by apply (done_served i b s').
Qed.

Lemma iderw_enqueues pid i b s :
  calm pid s -> requestable i b s -> b_lock b = mk_sleeplock 1 pid ->
  iderw i s = finish_rw i (set_sync (lock L_ide (k_sync s)) (enqueued i s)).
Proof.
  intros Hc [Hb Hs Hd Hnew _] Hl. unfold iderw.
  assert (Hsl : sl_get (S_buf i) s = Some (mk_sleeplock 1 pid)) by (simpl; by rewrite Hb, <- Hl).
  rewrite (bind_ok _ _ _ _ _ (holdingsleep_calm _ _ _ _ Hc Hsl)). cbn [sl_locked sl_pid Z.eqb negb andb].
  rewrite Z.eqb_refl. cbn [negb]. rewrite (bind_ok _ _ _ _ _ (get_buf_ok _ _ _ Hb)), flag_test.
  rewrite (proj2 (proj2 Hs)). erewrite bind_ok by reflexivity.
  assert (negb (b_dev b =? 0) && negb (havedisk1 (k_disk s)) = false) as ->
    by (destruct Hd as [-> | ->]; [done|apply andb_false_r]).
  rewrite (bind_ok _ _ _ _ _ (acquire_calm L_ide pid s Hc I)).
  do 2 (erewrite bind_ok by reflexivity). unfold finish_rw.
  erewrite bind_ok; [reflexivity|]. unfold enqueued. cbn [k_disk set_disk set_sync idequeue with_idequeue].
  case_bool_decide; cbn [when]; [|by destruct s].
  rewrite (idestart_ok i b) by done. unfold next_issued. cbn [head mbind option_bind k_bcache set_disk].
  rewrite Hb. by destruct s.
Qed.

Lemma enqueued_in_cs pid p i s : calm pid s -> cur_proc (k_sync s) = Some p ->
  in_cs L_ide p (set_sync (lock L_ide (k_sync s)) (enqueued i s)).
Proof.
  intros Hc Hp. destruct (calm_in_cs L_ide pid s Hc I ltac:(done)) as (p' & Hp' & [H1 H2 H3 H4 H5 H6]).
  rewrite Hp in Hp'. simplify_eq. split; try done. cbn [k_ptable set_sync] in *.
  assert (k_ptable (enqueued i s) = k_ptable s) as ->; [|done].
  unfold enqueued, next_issued. case_bool_decide; [|done]. by destruct (_ ≫= _).
Qed.


(** Interrupts of the disk, one after the other. *)
Fixpoint interrupts (n : nat) : K unit :=
  match n with O => ret tt | S n' => ideintr ;;; interrupts n' end.

Lemma wake_runnable ch p : p_state p = RUNNABLE -> p_state (wake_proc ch p) = RUNNABLE.
Proof. intros H. unfold wake_proc. by destruct (_ && _). Qed.

Lemma wake_sleeping ch i p : p_state p = SLEEPING /\ p_chan p = Some (C_buf i) ->
  if decide (ch = C_buf i) then p_state (wake_proc ch p) = RUNNABLE
  else p_state (wake_proc ch p) = SLEEPING /\ p_chan (wake_proc ch p) = Some (C_buf i).
Proof.
  intros [Hs Hc]. unfold wake_proc. rewrite Hs, Hc. rewrite bool_decide_eq_true_2 by done.
  case_decide as Hch; case_bool_decide; simpl; try done; congruence.
Qed.

Lemma interrupted_procs i q s : procs (k_ptable (interrupted i q s)) = wake_proc (C_buf i) <$> procs (k_ptable s).
Proof. unfold interrupted, next_issued. by destruct (_ ≫= _). Qed.

(** Process [p] runs, or it sleeps on a request for one of the buffers [is]. *)
Definition wakes (l : list nat) (p : nat) (s : kstate) : Prop :=
  exists pr, procs (k_ptable s) !! p = Some pr /\
    (p_state pr = RUNNABLE \/
     exists i, i ∈ l /\ p_state pr = SLEEPING /\ p_chan pr = Some (C_buf i)).

Lemma interrupted_wakes i l q s p : wakes (i :: l) p s -> wakes l p (interrupted i q s).
Proof.
  intros (pr & Hpr & Hst). exists (wake_proc (C_buf i) pr). rewrite interrupted_procs, list_lookup_fmap, Hpr.
  split; [done|]. destruct Hst as [Hr|(j & Hj & Hst)]; [left; by apply wake_runnable|].
  pose proof (wake_sleeping (C_buf i) j pr Hst) as Hw. case_decide as Hd; [by left|right].
  exists j. split; [|done]. apply elem_of_cons in Hj as [->|]; [congruence|done].
Qed.

Lemma interrupts_run n : forall s, (n <= length (idequeue (k_disk s)))%nat ->
  sync_ok (k_sync s) -> free_lock L_ide (k_sync s) -> free_lock L_ptable (k_sync s) -> ide_ok s ->
  exists s', interrupts n s = Ok tt s' /\ ide_ok s' /\ k_sync s' = k_sync s /\
    idequeue (k_disk s') = drop n (idequeue (k_disk s)) /\
    (forall j bj, request j bj s -> request j bj s') /\
    (forall p, wakes (take n (idequeue (k_disk s))) p s -> wakes [] p s').
Proof.
  induction n as [|n IH]; intros s Hn Hy Hi Hp Hok; [by exists s|].
  destruct (idequeue (k_disk s)) as [|i q] eqn:Hq; [simpl in Hn; lia|].
  assert (Hq' : idequeue (k_disk (interrupted i q s)) = q) by (unfold interrupted; by rewrite next_queue).
  assert (Hy' : k_sync (interrupted i q s) = k_sync s) by (unfold interrupted; by rewrite next_sync).
  destruct (IH (interrupted i q s)) as (s' & Hrun & Hok' & Hs' & Hq2 & Hr & Hw); rewrite ?Hq', ?Hy'; try done.
  { simpl in Hn. lia. } { by apply interrupted_ok. }
  rewrite Hq' in *. exists s'. cbn [interrupts]. rewrite (bind_ok _ _ _ _ _ (ideintr_ok i q s Hy Hi Hp Hok Hq)).
  split; [done|]. split; [done|]. split; [congruence|]. split; [done|]. split.
  - intros j bj Hj. by apply Hr, interrupted_request.
  - intros p Hp'. apply Hw. by apply interrupted_wakes.
Qed.


End sound.

(** A drive that reports an error: the handler then marks the buffer valid although
    it read nothing. *)
Lemma ideintr_error i b s :
  sync_ok (k_sync s) -> free_lock L_ide (k_sync s) -> free_lock L_ptable (k_sync s) ->
  (forall s, ide_status s = Z.lor IDE_DRDY IDE_ERR) ->
  idequeue (k_disk s) = [i] -> bufs (k_bcache s) !! i = Some b -> has_flag B_DIRTY b = false ->
  exists s' b', ideintr s = Ok tt s' /\ bufs (k_bcache s') !! i = Some b' /\
    has_flag B_VALID b' = true /\ b_data b' = b_data b.
Proof.
  intros Hy Hi Hp He Hq Hb Hd. unfold ideintr. rewrite (bind_ok _ _ _ _ _ (acquire_k _ s Hy Hi)).
  set (s1 := set_sync _ s). erewrite bind_ok by reflexivity.
  change (k_disk s1) with (k_disk s). rewrite Hq. erewrite bind_ok by reflexivity.
  erewrite bind_ok by (apply get_buf_ok; exact Hb). rewrite Hd. cbn [negb].
  erewrite bind_ok.
  2:{ erewrite bind_ok by (apply idewait_ready; by rewrite He). rewrite He. reflexivity. }
  do 2 (erewrite bind_ok by reflexivity).
  destruct (sync_ok_lock L_ide _ Hy) as [Hy1 _].
  assert (Hp1 : free_lock L_ptable (lock L_ide (k_sync s))) by (unfold free_lock; by rewrite lock_other).
  erewrite bind_ok by (apply wakeup_ok; [exact Hy1|exact Hp1]). erewrite bind_ok by reflexivity.
  rewrite (release_locked L_ide _ (k_sync s)) by done.
  eexists _, (clear_flag B_DIRTY (set_flag B_VALID b)). split; [reflexivity|]. split.
  - simpl. by rewrite !list_lookup_alter_eq, Hb.
  - split; [|done]. pose proof (finished_flags (<[blk b := b_data b]> ∅) b) as Hf. apply andb_prop in Hf as [Hf _].
    rewrite <- Hf. unfold finished. by rewrite Hd.
Qed.
End ide.
