(* ===== verification/Session.v ===== *)
(** Using the buffer cache: the rules by which the log and the file system reason
    about bread, writing into a buffer, bwrite and brelse.

    [session pid H s]: process [pid] holds exactly the buffers listed in [H], each
    with its block.  [dirty] is the set of blocks pinned in the cache, [nspare] the
    number of buffers that can be recycled. *)

From S2P Require Import Prelude Layout CString State Spinlock Sched Sleeplock Ring Memide Bio.
Local Open Scope kernel_scope.

Record session (pid : Z) (H : list (nat * (Z * Z))) (s : kstate) : Prop := mk_session {
  ss_bio : bio_ok pid s;
  ss_nodup : NoDup H.*1;
  ss_real : forall i k, (i, k) ∈ H -> k <> (0, 0);
  ss_held : forall i d n, (i, (d, n)) ∈ H -> exists b, k_cores s !! i = Some b /\ held pid d n b;
  ss_free : forall i b, k_cores s !! i = Some b -> i ∉ H.*1 -> sl_locked (b_lock b) = 0 }.

Definition dirty (cs : list buf) (k : Z * Z) : Prop :=
  exists i b, cs !! i = Some b /\ is_block k.1 k.2 b = true /\ has_flag B_DIRTY b = true.

Definition k_dirty (s : kstate) : Z * Z -> Prop := dirty (k_cores s).

Fixpoint nspare (cs : list buf) : nat :=
  match cs with
  | [] => 0
  | b :: cs' => (if is_unused b then 1 else 0) + nspare cs'
  end.

Definition k_spare (s : kstate) : nat := nspare (k_cores s).

(** The contents of buffer [i]. *)
Definition data_at (s : kstate) (i : nat) : list Z :=
  match k_cores s !! i with Some b => b_data b | None => [] end.

Lemma nspare_insert cs i b b' : cs !! i = Some b ->
  (nspare (<[i := b']> cs) + (if is_unused b then 1 else 0) = nspare cs + (if is_unused b' then 1 else 0))%nat.
Proof.
  revert i. induction cs as [|c cs IH]; intros [|i] Hb; simpl in *; [done|done| |].
  - simplify_eq. lia.
  - specialize (IH i Hb). lia.
Qed.

Lemma nspare_pos cs : (0 < nspare cs)%nat -> exists i b, cs !! i = Some b /\ is_unused b = true.
Proof.
  induction cs as [|c cs IH]; simpl; [lia|]. destruct (is_unused c) eqn:E.
  - intros _. by exists 0%nat, c.
  - intros (i & b & Hb & Hu)%IH. by exists (S i), b.
Qed.

(** Replacing a buffer that keeps its block changes the dirtiness of that block only. *)
Lemma dirty_insert_same cs img i b b' k : cache_inv cs img -> cs !! i = Some b ->
  b_dev b' = b_dev b -> b_blockno b' = b_blockno b -> k <> (0, 0) ->
  dirty (<[i := b']> cs) k <->
  if decide (k = (b_dev b, b_blockno b)) then has_flag B_DIRTY b' = true else dirty cs k.
Proof.
  intros Hci Hb Hd Hn Hk0. pose proof (lookup_lt_Some _ _ _ Hb) as Hlt. case_decide as E.
  - subst k. split.
    + intros (j & c & Hj & [Hjd Hjn]%is_block_iff & Hdc). destruct (decide (j = i)) as [->|Hne].
      * rewrite list_lookup_insert_eq in Hj by done. by simplify_eq.
      * rewrite list_lookup_insert_ne in Hj by done. destruct Hne.
        by apply (ci_uniq _ _ Hci j i c b); simpl in *; try congruence.
    + intros Hf. exists i, b'. split; [by rewrite list_lookup_insert_eq|]. split; [by apply is_block_iff|done].
  - split; intros (j & c & Hj & Hjk & Hdc).
    + destruct (decide (j = i)) as [->|Hne].
      * rewrite list_lookup_insert_eq in Hj by done. simplify_eq. apply is_block_iff in Hjk as [? ?].
        destruct E, k. simpl in *. congruence.
      * rewrite list_lookup_insert_ne in Hj by done. by exists j, c.
    + exists j, c. split; [|done]. rewrite list_lookup_insert_ne; [done|]. intros <-.
      assert (c = b) as -> by congruence. apply is_block_iff in Hjk as [? ?]. destruct E, k. simpl in *. congruence.
Qed.

Lemma session_data pid H s i d n : session pid H s -> (i, (d, n)) ∈ H ->
  exists b, bufs (k_bcache s) !! i = Some b /\ b_data b = data_at s i /\ k_cores s !! i = Some (core b) /\
    held pid d n (core b) /\ block_ok (b_data b).
Proof.
  intros Hs Hi. destruct (ss_held _ _ _ Hs i d n Hi) as (b & Hb & Hh).
  pose proof (proj1 (cores_lookup _ _ _) Hb) as (b0 & Hb0 & ->). exists b0. split; [done|].
  unfold data_at. rewrite Hb. split; [done|]. split; [done|]. split; [done|]. apply Hh.
Qed.

Lemma get_buf_session pid H s i d n : session pid H s -> (i, (d, n)) ∈ H ->
  exists b, get_buf i s = Ok b s /\ b_data b = data_at s i /\ b_blockno b = n.
Proof.
  intros Hs Hi. destruct (session_data _ _ _ _ _ _ Hs Hi) as (b & Hb & Hd & _ & Hh & _).
  exists b. split; [by apply get_buf_ok|]. split; [done|]. destruct Hh as [Hk _ _ _].
  by apply is_block_iff in Hk as [_ ?].
Qed.

(** The contents of a held buffer are the contents of its block. *)
Lemma session_view pid H s i k : session pid H s -> (i, k) ∈ H -> data_at s i = k_view s k.
Proof.
  intros Hs Hi. pose proof (ss_real _ _ _ Hs _ _ Hi) as H0. destruct k as [d n].
  destruct (ss_held _ _ _ Hs i d n Hi) as (b & Hb & [Hk Hv _ _]).
  apply is_block_iff in Hk as [<- <-]. unfold data_at, k_view. rewrite Hb. symmetry.
  apply (view_hit _ _ i b); [apply Hs|done..].
Qed.

(** Buffer [i], held for [(d, n)], was changed by [stepped]: the session goes on. *)
Lemma session_stepped pid H s s' i d n b b' :
  session pid H s -> (i, (d, n)) ∈ H -> k_cores s !! i = Some b ->
  stepped pid d n i b b' s s' -> held pid d n b' -> session pid H s'.
Proof.
  intros Hs Hi Hb [Hok _ Hc _] Hh. pose proof (lookup_lt_Some _ _ _ Hb) as Hlt.
  destruct Hs as [_ Hnd Hre Hheld Hfree]. split; try done.
  - intros j d' n' Hj. destruct (decide (j = i)) as [->|Hne].
    + exists b'. rewrite Hc, list_lookup_insert_eq by done. split; [done|].
      assert ((d', n') = (d, n)) as [= -> ->]; [|done].
      by apply (NoDup_fst_eq H i).
    + rewrite Hc, list_lookup_insert_ne by done. by apply Hheld.
  - intros j c. rewrite Hc. destruct (decide (j = i)) as [->|Hne].
    + intros _ Hj. destruct Hj. apply list_elem_of_fmap. by exists (i, (d, n)).
    + rewrite list_lookup_insert_ne by done. apply Hfree.
Qed.

(** * The effect of a step on what clients see

    [effect s s' V D W]: the contents of the blocks are now [V], the pinned blocks
    are [D], and the disk writes [W] (the latest first) have been made. *)
Definition apply_writes (W : list ((Z * Z) * list Z)) (img : gmap (Z * Z) (list Z)) : gmap (Z * Z) (list Z) :=
  foldr (fun w m => <[w.1 := w.2]> m) img W.

Record effect (s s' : kstate) (V : Z * Z -> list Z) (D : Z * Z -> Prop) (W : list ((Z * Z) * list Z)) : Prop :=
  mk_effect {
  ef_io : io s s';
  ef_view : forall k, k <> (0, 0) -> k_view s' k = V k;
  ef_dirty : forall k, k <> (0, 0) -> k_dirty s' k <-> D k;
  ef_writes : dk_writes (k_disk s') = W ++ dk_writes (k_disk s);
  ef_img : k_img s' = apply_writes W (k_img s) }.

Definition put {A} (k : Z * Z) (v : A) (f : Z * Z -> A) : Z * Z -> A := fun k' => if decide (k' = k) then v else f k'.

Lemma effect_refl s : effect s s (k_view s) (k_dirty s) [].
Proof. split; try done; reflexivity. Qed.

Lemma effect_trans s1 s2 s3 V V' D D' W W' :
  effect s1 s2 V D W -> effect s2 s3 V' D' W' -> effect s1 s3 V' D' (W' ++ W).
Proof.
  intros [Hi1 _ _ Hw1 Hm1] [Hi2 Hv2 Hd2 Hw2 Hm2]. split; try done.
  - by etransitivity.
  - by rewrite Hw2, Hw1, app_assoc.
  - unfold apply_writes in *. by rewrite Hm2, Hm1, foldr_app.
Qed.

Lemma effect_ext s s' V V' D D' W :
  effect s s' V D W -> (forall k, k <> (0, 0) -> V k = V' k) -> (forall k, k <> (0, 0) -> D k <-> D' k) ->
  effect s s' V' D' W.
Proof.
  intros [? Hv Hd ? ?] HV HD. split; try done; intros k Hk.
  - by rewrite Hv, HV.
  - by rewrite Hd, HD.
Qed.

Lemma k_cores_unused pid d n b : held pid d n b -> forall img, buf_inv img b -> is_unused b = false.
Proof.
  intros [_ _ Hl _] img [[Hr _] _ _ _]. unfold is_unused. rewrite Hr, Hl. done.
Qed.

(** Blocks that are neither held nor pinned are as on the disk. *)
Lemma view_clean pid H s k : session pid H s -> k ∉ H.*2 -> ~ k_dirty s k ->
  k_view s k = disk_block (k_img s) k.
Proof.
  intros Hs HkH Hnd. unfold k_view, view. destruct (find_block (k_cores s) k.1 k.2) as [b|] eqn:E; [|done].
  apply find_block_some in E as (i & Hb & Hk & Hv). pose proof (proj1 (is_block_iff _ _ _) Hk) as [Hd Hn].
  assert (Hnd' : has_flag B_DIRTY b = false).
  { destruct (has_flag B_DIRTY b) eqn:F; [|done]. destruct Hnd. by exists i, b. }
  rewrite (ci_clean _ _ (bio_inv _ _ (ss_bio _ _ _ Hs)) i b); [|done| |done|done].
  - rewrite Hd, Hn. by destruct k.
  - apply (ss_free _ _ _ Hs i b Hb). intros Hi. apply list_elem_of_fmap in Hi as ([j [d n]] & -> & Hj).
    destruct (ss_held _ _ _ Hs _ _ _ Hj) as (b' & Hb' & [Hk' _ _ _]). simpl in Hb.
    assert (b' = b) as -> by congruence. apply is_block_iff in Hk' as [? ?]. destruct HkH.
    apply list_elem_of_fmap. exists (j, (d, n)). split; [|done]. destruct k. simpl in *. congruence.
Qed.

Section rules.
Context {drv : Driver}.
Implicit Types H : list (nat * (Z * Z)).

Definition cached (s : kstate) (d n : Z) : Prop := exists i b, k_cores s !! i = Some b /\ is_block d n b = true.

Lemma s_bread pid H s d n :
  session pid H s -> (d, n) ∉ H.*2 -> (d, n) <> (0, 0) -> drv_block s d n = true ->
  (0 < k_spare s)%nat \/ cached s d n ->
  exists i s', bread d n s = Ok i s' /\ session pid ((i, (d, n)) :: H) s' /\
    effect s s' (k_view s) (k_dirty s) [] /\ (k_spare s <= k_spare s' + 1)%nat /\
    (k_dirty s (d, n) -> k_spare s' = k_spare s).
Proof.
  intros Hs HkH H0 Hdrv Hroom. pose proof (ss_bio _ _ _ Hs) as Hok.
  assert (Hun : unheld d n (k_cores s)).
  { intros i b Hb Hk. apply (ss_free _ _ _ Hs i b Hb). intros Hi.
    apply list_elem_of_fmap in Hi as ([j [d' n']] & -> & Hj). simpl in Hb.
    destruct (ss_held _ _ _ Hs _ _ _ Hj) as (b' & Hb' & [Hk' _ _ _]).
    assert (b' = b) as -> by congruence. apply is_block_iff in Hk as [? ?], Hk' as [? ?].
    destruct HkH. apply list_elem_of_fmap. exists (j, (d', n')). split; [simpl; congruence|done]. }
  assert (Hr : room d n (k_cores s)).
  { destruct Hroom as [(i & b & ? & ?)%nspare_pos|(i & b & ? & ?)]; exists i, b; auto. }
  destruct (bread_spec pid d n s Hok H0 Hdrv Hun Hr) as (i & s' & Hread & Hgot). exists i, s'.
  split; [done|]. destruct Hgot as [Hok' Hio Hdk (b & b' & Hb & Hc & Hh & Hdata & Hl & Hwas & Hdirty & _) Hview].
  pose proof (lookup_lt_Some _ _ _ Hb) as Hlt.
  assert (HiH : i ∉ H.*1).
  { intros Hi. apply list_elem_of_fmap in Hi as ([j [d' n']] & -> & Hj). simpl in Hb.
    destruct (ss_held _ _ _ Hs _ _ _ Hj) as (b2 & Hb2 & [_ _ Hl2 _]).
    assert (b2 = b) as -> by congruence. rewrite Hl2 in Hl. done. }
  pose proof (bio_inv _ _ Hok) as Hinv. pose proof (bio_inv _ _ Hok') as Hinv'.
  assert (Hu' : is_unused b' = false).
  { eapply k_cores_unused; [exact Hh|]. eapply (cache_buf _ _ i); [exact Hinv'|].
    rewrite Hc. by apply list_lookup_insert_eq. }
  split; [|split; [|split]].
  - split; [done|apply list.NoDup_cons; split; [exact HiH|apply Hs]| | |].
    + intros j k [[= -> ->]|Hj]%elem_of_cons; [done|by eapply ss_real].
    + intros j d' n' [[= -> -> ->]|Hj]%elem_of_cons.
      * exists b'. split; [|done]. rewrite Hc. by apply list_lookup_insert_eq.
      * destruct (ss_held _ _ _ Hs _ _ _ Hj) as (b2 & Hb2 & Hh2). exists b2. split; [|done].
        rewrite Hc, list_lookup_insert_ne; [done|]. intros <-. destruct HiH.
        apply list_elem_of_fmap. by exists (i, (d', n')).
    + intros j c Hj Hjn. apply not_elem_of_cons in Hjn as [Hji HjH]. simpl in Hji.
      rewrite Hc, list_lookup_insert_ne in Hj by done. by apply (ss_free _ _ _ Hs j c).
  - split; [done|by apply Hview| |by rewrite Hdk|unfold k_img; by rewrite Hdk].
    intros k Hk0. unfold k_dirty. rewrite Hc. destruct Hh as [Hk' _ _ _].
    destruct (is_block d n b) eqn:Hkb.
    + apply is_block_iff in Hkb as Hkb2, Hk'. destruct Hkb2 as [Hdb Hnb], Hk' as [Hd' Hn'].
      rewrite (dirty_insert_same _ _ _ _ _ _ Hinv Hb) by (done || congruence). case_decide as E; [|done].
      rewrite Hdirty. simpl. split; intros F.
      * exists i, b. split; [done|]. split; [|done]. subst k. simpl. by apply is_block_iff.
      * destruct F as (j & c & Hj & [Hjd Hjn]%is_block_iff & Hcd).
        assert (j = i) as ->; [|congruence].
        apply (ci_uniq _ _ Hinv j i c b); subst k; simpl in *; try congruence.
    + destruct Hwas as [?|[Hu _]]; [done|]. apply unused_clean in Hu as [_ Hud]. simpl in Hdirty.
      split; intros (j & c & Hj & Hjk & Hcd); exists j, c.
      * destruct (decide (j = i)) as [->|Hne].
        -- rewrite list_lookup_insert_eq in Hj by done. simplify_eq. congruence.
        -- rewrite list_lookup_insert_ne in Hj by done. done.
      * destruct (decide (j = i)) as [->|Hne]; [congruence|]. by rewrite list_lookup_insert_ne.
  - unfold k_spare. rewrite Hc. pose proof (nspare_insert _ i b b' Hb). rewrite Hu' in *.
    destruct (is_unused b); lia.
  - intros (j & c & Hj & Hjk & Hcd). unfold k_spare. rewrite Hc.
    pose proof (nspare_insert _ i b b' Hb) as Hns. rewrite Hu' in Hns.
    assert (is_unused b = false) as Hub; [|rewrite Hub in Hns; lia].
    destruct Hwas as [Hkb|[_ Hno]]; [|simpl in Hjk; by rewrite (Hno j c Hj) in Hjk].
    assert (j = i) as ->.
    { apply is_block_iff in Hkb as [? ?], Hjk as [? ?]. simpl in *.
      apply (ci_uniq _ _ Hinv j i c b); try congruence. }
    assert (c = b) as -> by congruence. unfold is_unused. unfold has_flag in Hcd.
    apply negb_true_iff in Hcd. by rewrite Hcd, andb_false_r.
Qed.

Lemma s_write pid H s i k v :
  session pid H s -> (i, k) ∈ H -> block_ok v ->
  let s' := upd_bufs i (with_b_data v) s in
  session pid H s' /\ effect s s' (put k v (k_view s)) (k_dirty s) [] /\ k_spare s' = k_spare s.
Proof.
  intros Hs Hi Hv s'. destruct k as [d n]. pose proof (ss_real _ _ _ Hs _ _ Hi) as H0.
  destruct (ss_held _ _ _ Hs _ _ _ Hi) as (b & Hb & Hh). pose proof (ss_bio _ _ _ Hs) as Hok.
  pose proof (set_data_spec pid d n s i b v Hok Hb Hh H0 Hv) as Hst. fold s' in Hst.
  pose proof (bio_inv _ _ Hok) as Hinv. destruct (Hh) as [Hk Hval Hl Hd].
  split; [|split].
  - eapply session_stepped; [exact Hs|exact Hi|exact Hb|exact Hst|]. by split.
  - destruct Hst as [_ Hio Hc Hview]. split; [done|done| |done|done].
    intros k Hk0. unfold k_dirty. rewrite Hc, (dirty_insert_same _ _ _ _ _ _ Hinv Hb) by done.
    case_decide as E; [|done]. subst k. split.
    + intros F. exists i, b. split; [done|]. split; [by apply is_block_iff|done].
    + intros (j & c & Hj & [? ?]%is_block_iff & F). simpl in *.
      assert (j = i) as -> by (apply (ci_uniq _ _ Hinv j i c b); congruence).
      assert (c = b) as -> by congruence. done.
  - destruct Hst as [_ _ Hc _]. unfold k_spare. rewrite Hc. pose proof (nspare_insert _ i b (with_b_data v b) Hb).
    change (is_unused (with_b_data v b)) with (is_unused b) in *. lia.
Qed.

Lemma s_bwrite pid H s i d n :
  session pid H s -> (i, (d, n)) ∈ H -> drv_block s d n = true ->
  exists s', bwrite i s = Ok tt s' /\ session pid H s' /\
    effect s s' (k_view s) (fun k' => k_dirty s k' /\ k' <> (d, n)) [((d, n), k_view s (d, n))] /\
    k_spare s' = k_spare s.
Proof.
  intros Hs Hi Hdrv. pose proof (ss_real _ _ _ Hs _ _ Hi) as H0.
  destruct (ss_held _ _ _ Hs _ _ _ Hi) as (b & Hb & Hh). pose proof (ss_bio _ _ _ Hs) as Hok.
  destruct (bwrite_spec pid d n s i b Hok Hb Hh H0 Hdrv) as (s' & b' & Hrun & Hst & Hh' & Hdat & Hdi & Hdk).
  exists s'. split; [done|]. pose proof (session_stepped _ _ _ _ _ _ _ _ _ Hs Hi Hb Hst Hh') as Hs'.
  split; [done|]. pose proof (bio_inv _ _ Hok) as Hinv.
  pose proof (session_view _ _ _ _ _ Hs Hi) as Hview. unfold data_at in Hview. rewrite Hb in Hview.
  destruct (Hh) as [Hk Hval Hl Hd], (Hh') as [Hk' _ _ _].
  pose proof (lookup_lt_Some _ _ _ Hb) as Hlt. destruct Hst as [Hok' Hio Hc Hv]. split.
  - split; [done| | | |].
    + intros k Hk0. rewrite Hv by done. case_decide; [|done]. subst k. by rewrite Hdat.
    + intros k Hk0. unfold k_dirty. apply is_block_iff in Hk as [Hd1 Hn1], Hk' as [Hd2 Hn2].
      rewrite Hc, (dirty_insert_same _ _ _ _ _ _ Hinv Hb) by (done || congruence).
      rewrite Hd1, Hn1, Hdi. case_decide; [|tauto]. split; [done|tauto].
    + rewrite Hdk. unfold write_block. simpl. by rewrite Hview.
    + unfold k_img. rewrite Hdk. simpl. by rewrite Hview.
  - unfold k_spare. rewrite Hc. pose proof (nspare_insert _ i b b' Hb) as Hns.
    rewrite (k_cores_unused _ _ _ _ Hh _ (cache_buf _ _ _ _ Hinv Hb)) in Hns.
    assert (Hb' : k_cores s' !! i = Some b') by (rewrite Hc; by apply list_lookup_insert_eq).
    rewrite (k_cores_unused _ _ _ _ Hh' _ (cache_buf _ _ _ _ (bio_inv _ _ Hok') Hb')) in Hns. lia.
Qed.

Lemma s_brelse pid H1 H2 s i k :
  session pid (H1 ++ (i, k) :: H2) s ->
  k_dirty s k \/ k_view s k = disk_block (k_img s) k ->
  exists s', brelse i s = Ok tt s' /\ session pid (H1 ++ H2) s' /\
    effect s s' (k_view s) (k_dirty s) [] /\
    (k_spare s <= k_spare s')%nat /\ (~ k_dirty s k -> k_spare s' = S (k_spare s)).
Proof.
  intros Hs Hcl. destruct k as [d n]. set (H := H1 ++ (i, (d, n)) :: H2) in *.
  assert (Hi : (i, (d, n)) ∈ H) by (unfold H; set_solver).
  pose proof (ss_real _ _ _ Hs _ _ Hi) as H0. pose proof (ss_bio _ _ _ Hs) as Hok.
  destruct (ss_held _ _ _ Hs _ _ _ Hi) as (b & Hb & Hh). pose proof (bio_inv _ _ Hok) as Hinv.
  pose proof (session_view _ _ _ _ _ Hs Hi) as Hview. unfold data_at in Hview. rewrite Hb in Hview.
  pose proof (lookup_lt_Some _ _ _ Hb) as Hlt.
  assert (Hdb : k_dirty s (d, n) <-> has_flag B_DIRTY b = true).
  { destruct Hh as [[? ?]%is_block_iff _ _ _]. split.
    - intros (j & c & Hj & [? ?]%is_block_iff & F). simpl in *.
      assert (j = i) as -> by (apply (ci_uniq _ _ Hinv j i c b); congruence).
      assert (c = b) as -> by congruence. done.
    - intros F. exists i, b. split; [done|]. split; [by apply is_block_iff|done]. }
  destruct (brelse_spec pid d n s i b Hok Hb Hh H0) as (Hrun & Hst & Hdk).
  { destruct Hcl as [Hcl|Hcl]; [left; by apply Hdb|right; by rewrite Hview]. }
  exists (brelsed i s). split; [done|]. destruct Hst as [Hok' Hio Hc Hv]. destruct (Hh) as [Hk Hval Hl Hd].
  assert (HH : forall j k, (j, k) ∈ H1 ++ H2 -> (j, k) ∈ H) by (intros j k; unfold H; set_solver).
  assert (HiN : (i ∉ (H1 ++ H2).*1) /\ NoDup (H1 ++ H2).*1).
  { pose proof (ss_nodup _ _ _ Hs) as Hnd. unfold H in Hnd. rewrite fmap_app in *. cbn in Hnd.
    rewrite <- Permutation_middle in Hnd. by apply list.NoDup_cons in Hnd. }
  destruct HiN as [HiN Hnd]. split; [|split; [|split]].
  - split; [done|done| | |].
    + intros j k Hj%HH. by eapply ss_real.
    + intros j d' n' Hj. destruct (ss_held _ _ _ Hs _ _ _ (HH _ _ Hj)) as (b2 & Hb2 & Hh2). exists b2.
      split; [|done]. rewrite Hc, list_lookup_insert_ne; [done|]. intros <-. destruct HiN.
      apply list_elem_of_fmap. by exists (i, (d', n')).
    + intros j c Hj Hjn. rewrite Hc in Hj. destruct (decide (j = i)) as [->|Hne].
      * rewrite list_lookup_insert_eq in Hj by done. simplify_eq. done.
      * rewrite list_lookup_insert_ne in Hj by done. apply (ss_free _ _ _ Hs j c Hj).
        unfold H. rewrite fmap_app in *. cbn. set_solver.
  - split; [done| | |by rewrite Hdk|unfold k_img; by rewrite Hdk].
    + intros k Hk0. rewrite Hv by done. case_decide; [|done]. subst k. by rewrite <- Hview.
    + intros k Hk0. unfold k_dirty. apply is_block_iff in Hk as [Hd1 Hn1].
      rewrite Hc, (dirty_insert_same _ _ _ _ _ _ Hinv Hb) by done. rewrite Hd1, Hn1.
      case_decide; [|done]. subst k. unfold k_dirty in Hdb. by rewrite Hdb.
  - unfold k_spare. rewrite Hc. pose proof (nspare_insert _ i b (released b) Hb) as Hns.
    rewrite (k_cores_unused _ _ _ _ Hh _ (cache_buf _ _ _ _ Hinv Hb)) in Hns. lia.
  - intros Hn. unfold k_spare. rewrite Hc. pose proof (nspare_insert _ i b (released b) Hb) as Hns.
    rewrite (k_cores_unused _ _ _ _ Hh _ (cache_buf _ _ _ _ Hinv Hb)) in Hns.
    assert (Hu : is_unused (released b) = true); [|rewrite Hu in Hns; lia].
    unfold is_unused. simpl. destruct (has_flag B_DIRTY b) eqn:F; [tauto|]. unfold has_flag in F.
    by apply negb_false_iff in F.
Qed.
End rules.
