(* ===== verification/LogDisk.v ===== *)
(** The log on the disk, as pure functions of a disk image.

    [logical] gives the contents that recovery would establish; the theorems on the
    routines of log.c are stated with it. *)

From S2P Require Import Prelude Layout CString State Spinlock Sched Sleeplock Ring Memide Bio Session Log.

Abbreviation image := (gmap (Z * Z) (list Z)).
Abbreviation writes := (list ((Z * Z) * list Z)).

(** The header block and the log blocks, and the blocks outside the log (block 0 of
    device 0, which no code reads, is left out). *)
Definition hd_blk (l : log) : Z * Z := (l_dev l, u32 (l_start l)).
Definition log_blk (l : log) (t : nat) : Z * Z := (l_dev l, u32 (l_start l + Z.of_nat t + 1)).
Definition home (l : log) (k : Z * Z) : Prop :=
  k <> (0, 0) /\ (k.1 <> l_dev l \/ ~ (l_start l <= k.2 < l_start l + l_size l)).

(** The block a header entry names. *)
Definition home_blk (l : log) (data : list Z) (t : nat) : Z * Z := (l_dev l, u32 (hdr_block data t)).
Definition hdr_count (data : list Z) : nat := Z.to_nat (hdr_n data).

(** The writes that install the blocks of a committed transaction, latest first. *)
Definition replay_writes (l : log) (img : image) : writes :=
  let H := disk_block img (hd_blk l) in
  reverse ((fun t => (home_blk l H t, disk_block img (log_blk l t))) <$> seq 0 (hdr_count H)).

Definition logical (l : log) (img : image) (k : Z * Z) : list Z :=
  disk_block (apply_writes (replay_writes l img) img) k.

(** The contents of the header block when [n] entries [bl] are written over [data]. *)
Fixpoint put_blocks (data : list Z) (i : nat) (bl : list Z) : list Z :=
  match bl with
  | [] => data
  | b :: bl' => put_blocks (set_hdr_block data i b) (S i) bl'
  end.
Definition put_header (data : list Z) (n : Z) (bl : list Z) : list Z := put_blocks (set_hdr_n data n) 0 bl.

(** The log lies on the disk and its header is sound: at most as many entries as
    there are log blocks, all of them outside the log. *)
Record log_layout (l : log) : Prop := mk_log_layout {
  ll_start : 0 < l_start l;
  ll_size : 1 < l_size l;
  ll_end : l_start l + l_size l < 2 ^ 31;
  ll_n : l_size l <= LOGSIZE }.

Record header_ok (l : log) (data : list Z) : Prop := mk_header_ok {
  ho_n : 0 <= hdr_n data < l_size l;
  ho_home : forall t, (t < hdr_count data)%nat -> home l (home_blk l data t) }.

(** ** Encoding the header *)
Lemma s32_u32_id v : - 2 ^ 31 <= v < 2 ^ 31 -> s32 (u32 v) = v.
Proof. intros. by rewrite s32_u32, s32_small. Qed.

Lemma length_put_blocks data i bl : (4 + 4 * (i + length bl) <= length data)%nat ->
  length (put_blocks data i bl) = length data.
Proof.
  revert data i. induction bl as [|b bl IH]; intros data i Hl; simpl in *; [done|].
  assert (length (set_hdr_block data i b) = length data) as E by (apply length_set32; lia).
  rewrite IH; [done|]. rewrite E. lia.
Qed.

Lemma put_blocks_bytes data i bl : bytes_ok data -> bytes_ok (put_blocks data i bl).
Proof. revert data i. induction bl as [|b bl IH]; intros data i Hd; simpl; [done|]. by apply IH, set32_bytes_ok. Qed.

Lemma put_blocks_before data i bl off : (4 + 4 * (i + length bl) <= length data)%nat -> (off + 4 <= 4 + 4 * i)%nat ->
  get32 (put_blocks data i bl) off = get32 data off.
Proof.
  revert data i. induction bl as [|b bl IH]; intros data i Hl Ho; simpl in *; [done|].
  assert (length (set_hdr_block data i b) = length data) as E by (apply length_set32; lia).
  rewrite IH by lia. unfold set_hdr_block. apply get32_set32_ne; lia.
Qed.

Lemma put_blocks_get data i bl j b : (4 + 4 * (i + length bl) <= length data)%nat -> bl !! j = Some b ->
  - 2 ^ 31 <= b < 2 ^ 31 -> hdr_block (put_blocks data i bl) (i + j) = b.
Proof.
  revert data i j. induction bl as [|c bl IH]; intros data i j Hl Hj Hb; [done|]. simpl in *.
  assert (length (set_hdr_block data i c) = length data) as E by (apply length_set32; lia).
  destruct j as [|j]; simpl in Hj.
  - simplify_eq. unfold hdr_block. rewrite Nat.add_0_r, put_blocks_before by lia.
    unfold set_hdr_block. rewrite get32_set32_eq by lia. by apply s32_u32_id.
  - replace (i + S j)%nat with (S i + j)%nat by lia. apply IH; [lia|done|done].
Qed.

Section header.
Context (data : list Z) (n : Z) (bl : list Z).
Hypothesis Hlen : length data = Z.to_nat BSIZE.
Hypothesis Hbl : (length bl <= Z.to_nat LOGSIZE)%nat.

Lemma length_set_hdr_n : length (set_hdr_n data n) = length data.
Proof. apply length_set32. rewrite Hlen. unfold BSIZE. lia. Qed.

Lemma length_put_header : length (put_header data n bl) = Z.to_nat BSIZE.
Proof.
  unfold put_header. rewrite length_put_blocks; rewrite length_set_hdr_n; [done|].
  rewrite Hlen. unfold BSIZE, LOGSIZE, MAXOPBLOCKS in *. lia.
Qed.

Lemma put_header_n : - 2 ^ 31 <= n < 2 ^ 31 -> hdr_n (put_header data n bl) = n.
Proof.
  intros Hn. unfold hdr_n, put_header. rewrite put_blocks_before.
  - unfold set_hdr_n. rewrite get32_set32_eq; [by apply s32_u32_id|]. rewrite Hlen. unfold BSIZE. lia.
  - rewrite length_set_hdr_n, Hlen. unfold BSIZE, LOGSIZE, MAXOPBLOCKS in *. lia.
  - lia.
Qed.

Lemma put_header_block t b : bl !! t = Some b -> - 2 ^ 31 <= b < 2 ^ 31 -> hdr_block (put_header data n bl) t = b.
Proof.
  intros Ht Hb. unfold put_header. apply (put_blocks_get _ 0 bl t); [|done|done].
  rewrite length_set_hdr_n, Hlen. unfold BSIZE, LOGSIZE, MAXOPBLOCKS in *. lia.
Qed.

Lemma put_header_ok : bytes_ok data -> block_ok (put_header data n bl).
Proof. intros Hb. split; [apply length_put_header|]. by apply put_blocks_bytes, set32_bytes_ok. Qed.
End header.

(** ** Replaying writes *)
Definition apply_view (W : writes) (V : Z * Z -> list Z) : Z * Z -> list Z :=
  foldr (fun w f => put w.1 w.2 f) V W.

Lemma disk_apply W img k : disk_block (apply_writes W img) k = apply_view W (disk_block img) k.
Proof.
  induction W as [|[k' v] W IH]; simpl; [done|]. rewrite disk_block_insert. unfold put. by case_decide.
Qed.

Lemma apply_view_app W W' V : apply_view (W ++ W') V = apply_view W (apply_view W' V).
Proof. unfold apply_view. apply foldr_app. Qed.

Lemma apply_view_notin W V k : k ∉ W.*1 -> apply_view W V k = V k.
Proof.
  induction W as [|[k' v] W IH]; cbn; [done|]. intros [Hk HW]%not_elem_of_cons. unfold put.
  rewrite decide_False by done. by apply IH.
Qed.

Lemma apply_view_in W V V' k : k ∈ W.*1 -> apply_view W V k = apply_view W V' k.
Proof.
  induction W as [|[k' v] W IH]; cbn; [set_solver|]. unfold put. case_decide as E; [done|].
  intros [->|Hk]%elem_of_cons; [done|by apply IH].
Qed.

(** Writes that all carry the contents [f] of their block. *)
Lemma apply_view_fun W V (f : Z * Z -> list Z) k :
  (forall w, w ∈ W -> w.2 = f w.1) -> k ∈ W.*1 -> apply_view W V k = f k.
Proof.
  induction W as [|[k' v] W IH]; cbn; [set_solver|]. intros Hf Hk. unfold put. case_decide as E.
  - subst. apply (Hf (k', v)). set_solver.
  - apply elem_of_cons in Hk as [->|Hk]; [done|]. apply IH; [|done]. intros w Hw. apply Hf. set_solver.
Qed.

Lemma apply_view_cases W V k : apply_view W V k = V k \/ (k, apply_view W V k) ∈ W.
Proof.
  induction W as [|[k' v] W IH]; simpl; [by left|]. unfold put. case_decide as E.
  - subst. right. set_solver.
  - destruct IH as [?|?]; [by left|right; set_solver].
Qed.

Lemma app_split {A} (X Y W9 W0 : list A) : X ++ Y = W9 ++ W0 ->
  (exists Z, W0 = Z ++ Y /\ X = W9 ++ Z) \/ (exists Z, Y = Z ++ W0 /\ W9 = X ++ Z).
Proof.
  revert W9. induction X as [|x X IH]; intros W9; simpl.
  - intros ->. right. by exists W9.
  - destruct W9 as [|w W9]; simpl.
    + intros <-. left. by exists (x :: X).
    + intros [= <- [(C & -> & ->)|(C & -> & ->)]%IH]; [left|right]; by exists C.
Qed.

Lemma elem_of_fst_map {A B} (W : list (A * B)) k : k ∈ W.*1 <-> exists v, (k, v) ∈ W.
Proof.
  rewrite list_elem_of_fmap. split; [intros ([x y] & -> & Hw); by exists y|].
  intros [v Hv]. by exists (k, v).
Qed.

Section logical.
Context (l : log) (Hl : log_layout l).

Lemma hd_u32 : hd_blk l = (l_dev l, l_start l).
Proof. destruct Hl. unfold hd_blk. by rewrite u32_small by lia. Qed.

Lemma log_u32 t : Z.of_nat t < l_size l - 1 -> log_blk l t = (l_dev l, l_start l + Z.of_nat t + 1).
Proof. intros. destruct Hl. unfold log_blk. by rewrite u32_small by lia. Qed.

Lemma home_not_hd k : home l k -> k <> hd_blk l.
Proof. rewrite hd_u32. intros [_ [Hk|Hk]] ->; simpl in *; [done|]. destruct Hl. lia. Qed.

Lemma home_not_log k t : home l k -> Z.of_nat t < l_size l - 1 -> k <> log_blk l t.
Proof. intros Hk Ht. rewrite log_u32 by done. intros ->. destruct Hk as [_ [?|Hk]]; simpl in *; [done|]. lia. Qed.

Lemma log_not_hd t : Z.of_nat t < l_size l - 1 -> log_blk l t <> hd_blk l.
Proof. intros. rewrite log_u32, hd_u32 by done. intros [= ?]. lia. Qed.

Lemma log_blk_inj t t' : Z.of_nat t < l_size l - 1 -> Z.of_nat t' < l_size l - 1 -> log_blk l t = log_blk l t' -> t = t'.
Proof. intros. rewrite !log_u32 in * by done. simplify_eq. lia. Qed.

Lemma hdr_count_lt data t : header_ok l data -> (t < hdr_count data)%nat -> Z.of_nat t < l_size l - 1.
Proof. intros [Hn _] Ht. unfold hdr_count in Ht. lia. Qed.

(** An image and another agree on everything the log consists of. *)
Definition same_log (img img' : image) : Prop :=
  disk_block img' (hd_blk l) = disk_block img (hd_blk l) /\
  forall t, (t < hdr_count (disk_block img (hd_blk l)))%nat -> disk_block img' (log_blk l t) = disk_block img (log_blk l t).

Lemma replay_same img img' : same_log img img' -> replay_writes l img' = replay_writes l img.
Proof.
  intros [Hh Ht]. unfold replay_writes. rewrite Hh. f_equal. apply list_fmap_ext.
  intros i t [-> Hlt]%lookup_seq. f_equal. by apply Ht.
Qed.

Lemma replay_blocks img k : k ∈ (replay_writes l img).*1 ->
  exists t, (t < hdr_count (disk_block img (hd_blk l)))%nat /\ k = home_blk l (disk_block img (hd_blk l)) t.
Proof.
  rewrite elem_of_fst_map. unfold replay_writes. intros [v Hv]. rewrite elem_of_reverse, list_elem_of_fmap in Hv.
  destruct Hv as (t & [= -> ->] & Ht%elem_of_seq). exists t. split; [lia|done].
Qed.

(** Writes to blocks outside the log leave the log alone. *)
Lemma home_writes_same img W : header_ok l (disk_block img (hd_blk l)) ->
  (forall k, k ∈ W.*1 -> home l k) -> same_log img (apply_writes W img).
Proof.
  intros Hok HW. split; rewrite ?disk_apply.
  - rewrite apply_view_notin; [done|]. intros H%HW. by apply (home_not_hd _ H).
  - intros t Ht. rewrite disk_apply, apply_view_notin; [done|]. intros H%HW.
    by apply (home_not_log _ t H (hdr_count_lt _ _ Hok Ht)).
Qed.

(** No entry in the header: the contents are those on the disk. *)
Lemma logical_empty img k : hdr_n (disk_block img (hd_blk l)) = 0 -> logical l img k = disk_block img k.
Proof. intros Hn. unfold logical, replay_writes, hdr_count. rewrite Hn. done. Qed.

(** Installing any part of the logged blocks does not change the logical contents. *)
Lemma logical_install img R9 R0 k : header_ok l (disk_block img (hd_blk l)) ->
  replay_writes l img = R9 ++ R0 -> logical l (apply_writes R0 img) k = logical l img k.
Proof.
  intros Hok HR. assert (Hhome : forall k, k ∈ (replay_writes l img).*1 -> home l k).
  { intros k' (t & Ht & ->)%replay_blocks. by apply Hok. }
  assert (Hsame : same_log img (apply_writes R0 img)).
  { apply home_writes_same; [done|]. intros k' Hk'. apply Hhome. rewrite HR, fmap_app. set_solver. }
  unfold logical. rewrite (replay_same _ _ Hsame), !disk_apply.
  destruct (decide (k ∈ (replay_writes l img).*1)) as [Hk|Hk]; [by apply apply_view_in|].
  rewrite !apply_view_notin by done. rewrite disk_apply, apply_view_notin; [done|].
  rewrite HR, fmap_app in Hk. set_solver.
Qed.

(** Clearing the header once everything is installed does not either. *)
Lemma logical_clear img data k : header_ok l (disk_block img (hd_blk l)) -> hdr_n data = 0 -> home l k ->
  logical l (<[hd_blk l := data]> (apply_writes (replay_writes l img) img)) k = logical l img k.
Proof.
  intros Hok Hn Hk. rewrite logical_empty.
  - rewrite disk_block_insert, decide_False by (by apply home_not_hd). done.
  - by rewrite disk_block_insert, decide_True.
Qed.

(** ** The writes of a commit

    [f] gives the new contents of the blocks, [Hn] is the header that lists them and
    [H0] the cleared one. *)
Section commit.
Context (img : image) (f : Z * Z -> list Z) (Hn H0 : list Z).
Hypothesis Hempty : hdr_n (disk_block img (hd_blk l)) = 0.
Hypothesis Hok : header_ok l Hn.
Hypothesis Hzero : hdr_n H0 = 0.
Hypothesis Hrest : forall k, home l k -> (forall t, (t < hdr_count Hn)%nat -> k <> home_blk l Hn t) ->
  f k = disk_block img k.

Definition log_writes : writes :=
  reverse ((fun t => (log_blk l t, f (home_blk l Hn t))) <$> seq 0 (hdr_count Hn)).
Definition install_writes : writes :=
  reverse ((fun t => (home_blk l Hn t, f (home_blk l Hn t))) <$> seq 0 (hdr_count Hn)).
Definition commit_writes : writes :=
  (hd_blk l, H0) :: install_writes ++ (hd_blk l, Hn) :: log_writes.

Lemma log_writes_blocks w : w ∈ log_writes ->
  exists t, (t < hdr_count Hn)%nat /\ w = (log_blk l t, f (home_blk l Hn t)).
Proof.
  unfold log_writes. rewrite elem_of_reverse, list_elem_of_fmap. intros (t & -> & Ht%elem_of_seq).
  exists t. split; [lia|done].
Qed.

(** Before the header is written the contents are the old ones. *)
Lemma logical_before L9 L0 k : log_writes = L9 ++ L0 -> home l k ->
  logical l (apply_writes L0 img) k = disk_block img k.
Proof.
  intros HL Hk. assert (HL0 : forall b, b ∈ L0.*1 -> exists t, (t < hdr_count Hn)%nat /\ b = log_blk l t).
  { intros b [v Hv]%elem_of_fst_map. destruct (log_writes_blocks (b, v)) as (t & Ht & [= -> ->]).
    - rewrite HL. set_solver.
    - by exists t. }
  rewrite logical_empty; rewrite disk_apply, apply_view_notin; try done.
  - intros (t & Ht & ->)%HL0. by apply (home_not_log _ t Hk (hdr_count_lt _ _ Hok Ht)).
  - intros (t & Ht & E)%HL0. by apply (log_not_hd t (hdr_count_lt _ _ Hok Ht)).
Qed.

(** Once it is written, replaying the log is the installation. *)
Lemma header_written_blocks :
  disk_block (apply_writes ((hd_blk l, Hn) :: log_writes) img) (hd_blk l) = Hn /\
  forall t, (t < hdr_count Hn)%nat ->
    disk_block (apply_writes ((hd_blk l, Hn) :: log_writes) img) (log_blk l t) = f (home_blk l Hn t).
Proof.
  simpl. split; [by rewrite disk_block_insert, decide_True|]. intros t Ht.
  pose proof (hdr_count_lt _ _ Hok Ht) as Hlt.
  rewrite disk_block_insert, decide_False by (by apply log_not_hd). rewrite disk_apply.
  set (g := fun k : Z * Z => f (home_blk l Hn (Z.to_nat (k.2 - l_start l - 1)))).
  assert (Hg : forall t', (t' < hdr_count Hn)%nat -> g (log_blk l t') = f (home_blk l Hn t')).
  { intros t' Ht'. unfold g. rewrite log_u32 by (by apply (hdr_count_lt Hn)). simpl. do 2 f_equal. lia. }
  rewrite (apply_view_fun _ _ g); [by apply Hg| |].
  - intros w (t' & Ht' & ->)%log_writes_blocks. simpl. by rewrite Hg.
  - apply elem_of_fst_map. exists (f (home_blk l Hn t)). unfold log_writes.
    rewrite elem_of_reverse, list_elem_of_fmap. exists t. split; [done|]. apply elem_of_seq. lia.
Qed.

Lemma replay_is_install : replay_writes l (apply_writes ((hd_blk l, Hn) :: log_writes) img) = install_writes.
Proof.
  destruct header_written_blocks as [Hh Ht]. unfold replay_writes, install_writes. rewrite Hh. f_equal.
  apply list_fmap_ext. intros i t [-> Hlt]%lookup_seq. f_equal. by apply Ht.
Qed.

Lemma logical_committed k : home l k ->
  logical l (apply_writes ((hd_blk l, Hn) :: log_writes) img) k = f k.
Proof.
  intros Hk. unfold logical. rewrite replay_is_install, disk_apply.
  destruct (decide (k ∈ install_writes.*1)) as [Hin|Hin].
  - apply apply_view_fun; [|done]. intros w. unfold install_writes.
    rewrite elem_of_reverse, list_elem_of_fmap. by intros (t & -> & _).
  - rewrite apply_view_notin by done. simpl. rewrite disk_block_insert, decide_False by (by apply home_not_hd).
    rewrite disk_apply, apply_view_notin.
    + symmetry. apply Hrest; [done|]. intros t Ht ->. destruct Hin. apply elem_of_fst_map. eexists.
      unfold install_writes. rewrite elem_of_reverse, list_elem_of_fmap. exists t. split; [done|].
      apply elem_of_seq. lia.
    + intros [v (t & Ht & [= -> _])%log_writes_blocks]%elem_of_fst_map.
      by apply (home_not_log _ t Hk (hdr_count_lt _ _ Hok Ht)).
Qed.

Lemma commit_atomic W9 W0 : commit_writes = W9 ++ W0 ->
  (forall k, home l k -> logical l (apply_writes W0 img) k = disk_block img k) \/
  (forall k, home l k -> logical l (apply_writes W0 img) k = f k).
Proof.
  set (img' := apply_writes ((hd_blk l, Hn) :: log_writes) img).
  assert (Hok' : header_ok l (disk_block img' (hd_blk l))) by (unfold img'; by rewrite (proj1 header_written_blocks)).
  unfold commit_writes. intros HW.
  change ([(hd_blk l, H0)] ++ install_writes ++ (hd_blk l, Hn) :: log_writes = W9 ++ W0) in HW.
  apply app_split in HW as [(C & -> & HC)|(C & HW & _)].
  - right. intros k Hk. destruct W9 as [|w W9]; simpl in HC.
    + subst C. unfold apply_writes at 1. rewrite !foldr_app. fold img'.
      change (foldr _ img _) with img'. change (foldr _ img' install_writes) with (apply_writes install_writes img').
      simpl. unfold img' at 1. rewrite <- replay_is_install. fold img'.
      rewrite logical_clear by done. by apply logical_committed.
    + simplify_eq. destruct W9; [|done]. simpl in *. subst C. simpl.
      change (foldr _ img (install_writes ++ _)) with (apply_writes (install_writes ++ (hd_blk l, Hn) :: log_writes) img).
      unfold apply_writes. rewrite foldr_app. change (foldr _ img _) with img'.
      change (foldr _ img' install_writes) with (apply_writes install_writes img').
      rewrite (logical_install img' []); [by apply logical_committed|done|]. apply replay_is_install.
  - change (install_writes ++ [(hd_blk l, Hn)] ++ log_writes = C ++ W0) in HW.
    apply app_split in HW as [(C' & -> & HC)|(C' & HW & _)].
    + right. intros k Hk. unfold apply_writes. rewrite foldr_app. change (foldr _ img _) with img'.
      change (foldr _ img' C') with (apply_writes C' img').
      rewrite (logical_install img' C C'); [by apply logical_committed|done|]. by rewrite <- HC, <- replay_is_install.
    + apply app_split in HW as [(C2 & -> & HC)|(C2 & HW & _)].
      * destruct C' as [|x C']; simpl in HC.
        -- right. intros k Hk. subst C2. by apply logical_committed.
        -- left. intros k Hk. simplify_eq. destruct C', C2; try done. simpl.
           by apply (logical_before []).
      * left. intros k Hk. by apply (logical_before C2).
Qed.

(** At every moment the header on the disk is the old one, the new one or the
    cleared one. *)
Lemma commit_header W9 W0 : commit_writes = W9 ++ W0 ->
  disk_block (apply_writes W0 img) (hd_blk l) ∈ [disk_block img (hd_blk l); Hn; H0].
Proof.
  intros HW. rewrite disk_apply. destruct (apply_view_cases W0 (disk_block img) (hd_blk l)) as [->|Hin]; [set_solver|].
  set (v := apply_view _ _ _) in *. assert (Hc : (hd_blk l, v) ∈ commit_writes) by (rewrite HW; set_solver).
  unfold commit_writes in Hc. apply elem_of_cons in Hc as [[= ->]|Hc]; [set_solver|].
  apply elem_of_app in Hc as [Hc|[[= ->]|Hc]%elem_of_cons]; [|set_solver|].
  - exfalso. unfold install_writes in Hc. rewrite elem_of_reverse, list_elem_of_fmap in Hc.
    destruct Hc as (t & E & Ht%elem_of_seq). apply (f_equal fst) in E. simpl in E.
    apply (home_not_hd (home_blk l Hn t)); [apply Hok; lia|]. by rewrite <- E.
  - exfalso. apply log_writes_blocks in Hc as (t & Ht & E). apply (f_equal fst) in E. simpl in E.
    by apply (log_not_hd t (hdr_count_lt _ _ Hok Ht)).
Qed.
End commit.
End logical.

(** The logical contents depend on where the log is, not on its state in memory. *)
Definition same_place (l l' : log) : Prop :=
  l_dev l' = l_dev l /\ l_start l' = l_start l /\ l_size l' = l_size l.

Lemma logical_place l l' img k : same_place l l' -> logical l' img k = logical l img k.
Proof.
  intros (Hd & Hs & _). unfold logical, replay_writes, hd_blk, home_blk, log_blk. by rewrite Hd, Hs.
Qed.

Lemma home_place l l' k : same_place l l' -> home l' k <-> home l k.
Proof. intros (Hd & Hs & Hz). unfold home. by rewrite Hd, Hs, Hz. Qed.

Lemma header_place l l' data : same_place l l' -> header_ok l data -> header_ok l' data.
Proof.
  intros Hp [Hn Hh]. destruct (Hp) as (Hd & Hs & Hz). split; [by rewrite Hz|]. intros t Ht.
  rewrite (home_place l) by done. unfold home_blk. rewrite Hd. by apply Hh.
Qed.
