(* ===== verification/LogSafe.v ===== *)
(** Crash safety of log.c: what commit and recover_from_log do to the cache and to
    the disk, write by write. *)

From S2P Require Import Prelude Layout CString State Spinlock Sched Sleeplock Ring Memide Bio Session Log LogDisk.
Local Open Scope kernel_scope.

Section safe.
Context {drv : Driver}.

Lemma drv_io s s' d n : io s s' -> drv_block s' d n = drv_block s d n.
Proof. intros H. apply drv_block_disk. by apply io_size. Qed.

Lemma get_lh_block_ok s t v : lh_block (k_log s) !! t = Some v -> get_lh_block t s = Ok v s.
Proof. intros H. unfold get_lh_block. by rewrite H. Qed.

Lemma session_block pid H s i k : session pid H s -> (i, k) ∈ H -> block_ok (k_view s k).
Proof.
  intros Hs Hi. rewrite <- (session_view _ _ _ _ _ Hs Hi). destruct k as [d n].
  destruct (session_data _ _ _ _ _ _ Hs Hi) as (b & _ & <- & _ & _ & Hok). exact Hok.
Qed.

Lemma view_ok pid H s k : session pid H s -> block_ok (k_view s k).
Proof.
  intros Hs. pose proof (bio_inv _ _ (ss_bio _ _ _ Hs)) as Hinv. unfold k_view, view.
  destruct (find_block (k_cores s) k.1 k.2) as [b|] eqn:E; [|apply Hinv].
  apply find_block_some in E as (i & Hb & _). by apply (ci_len _ _ Hinv i).
Qed.

(** memmove from buffer [j] into buffer [i], which is written to the disk. *)
Lemma copy_step {A} pid H s i d n j kj (m : K A) :
  session pid H s -> (i, (d, n)) ∈ H -> (j, kj) ∈ H -> drv_block s d n = true ->
  exists s', session pid H s' /\
    effect s s' (put (d, n) (k_view s kj) (k_view s)) (fun k => k_dirty s k /\ k <> (d, n)) [((d, n), k_view s kj)] /\
    k_spare s' = k_spare s /\
    (let! fb := get_buf j in upd_buf i (with_b_data (b_data fb)) ;;; bwrite i ;;; m) s = m s'.
Proof.
  intros Hs Hi Hj Hdrv. destruct kj as [dj nj].
  destruct (get_buf_session _ _ _ j dj nj Hs Hj) as (fb & Rf & Hfd & _).
  rewrite (session_view _ _ _ _ _ Hs Hj) in Hfd.
  destruct (s_write pid H s i (d, n) (k_view s (dj, nj)) Hs Hi (session_block _ _ _ _ _ Hs Hj)) as (Hs1 & E1 & Hsp1).
  set (s1 := upd_bufs i _ s) in *.
  destruct (s_bwrite pid H s1 i d n Hs1 Hi ltac:(by rewrite (drv_io s) by apply E1)) as (s2 & Rw & Hs2 & E2 & Hsp2).
  pose proof (ss_real _ _ _ Hs _ _ Hi) as H0.
  exists s2. split; [done|]. split; [|split; [lia|]].
  - pose proof (effect_trans _ _ _ _ _ _ _ _ _ E1 E2) as E. rewrite app_nil_r in E.
    assert (Hv : k_view s1 (d, n) = k_view s (dj, nj)).
    { rewrite (ef_view _ _ _ _ _ E1) by done. unfold put. by rewrite decide_True. }
    rewrite Hv in E. eapply effect_ext; [exact E| |].
    + intros k Hk. by apply (ef_view _ _ _ _ _ E1).
    + intros k Hk. cbv beta. by rewrite (ef_dirty _ _ _ _ _ E1).
  - rewrite (bind_ok _ _ _ _ _ Rf), Hfd. unfold upd_buf at 1, modify.
    erewrite bind_ok by reflexivity. fold s1. by rewrite (bind_ok _ _ _ _ _ Rw).
Qed.

(** Releasing two buffers that are pinned or as on the disk. *)
Lemma release_two pid s i ki j kj H :
  session pid H s -> H = [(i, ki); (j, kj)] \/ H = [(j, kj); (i, ki)] ->
  (k_dirty s ki \/ k_view s ki = disk_block (k_img s) ki) ->
  (k_dirty s kj \/ k_view s kj = disk_block (k_img s) kj) -> kj <> (0, 0) ->
  exists s', (brelse i ;;; brelse j) s = Ok tt s' /\ session pid [] s' /\
    effect s s' (k_view s) (k_dirty s) [] /\
    (k_spare s <= k_spare s')%nat /\ (~ k_dirty s ki \/ ~ k_dirty s kj -> S (k_spare s) <= k_spare s')%nat /\
    (~ k_dirty s ki -> ~ k_dirty s kj -> k_spare s' = S (S (k_spare s))).
Proof.
  intros Hs HH Hi Hj Hkj.
  assert (exists s1, brelse i s = Ok tt s1 /\ session pid [(j, kj)] s1 /\ effect s s1 (k_view s) (k_dirty s) [] /\
    (k_spare s <= k_spare s1)%nat /\ (~ k_dirty s ki -> k_spare s1 = S (k_spare s))) as (s1 & R1 & Hs1 & E1 & Hsp1 & Hsp1').
  { destruct HH as [-> | ->]; [apply (s_brelse pid [] [(j, kj)] s i ki Hs Hi)|apply (s_brelse pid [(j, kj)] [] s i ki Hs Hi)]. }
  destruct (s_brelse pid [] [] s1 j kj Hs1) as (s2 & R2 & Hs2 & E2 & Hsp2 & Hsp2').
  { rewrite (ef_dirty _ _ _ _ _ E1), (ef_view _ _ _ _ _ E1), (ef_img _ _ _ _ _ E1) by done. exact Hj. }
  rewrite (ef_dirty _ _ _ _ _ E1 kj Hkj) in Hsp2'.
  exists s2. split; [by rewrite (bind_ok _ _ _ _ _ R1)|]. split; [done|]. split.
  - pose proof (effect_trans _ _ _ _ _ _ _ _ _ E1 E2) as E. eapply effect_ext; [exact E| |]; intros k Hk.
    + by apply (ef_view _ _ _ _ _ E1).
    + by apply (ef_dirty _ _ _ _ _ E1).
  - split; [lia|]. split.
    + intros [Hn|Hn]; [rewrite <- (Hsp1' Hn); lia|]. rewrite (Hsp2' Hn). lia.
    + intros Hn1 Hn2. by rewrite (Hsp2' Hn2), (Hsp1' Hn1).
Qed.

(** Two different blocks are read, the log block [a] and the home block [h]. *)
Lemma read_two pid s t bn :
  let l := k_log s in let a := log_blk l t in let h := (l_dev l, u32 bn) in
  session pid [] s -> lh_block l !! t = Some bn -> a <> (0, 0) -> h <> (0, 0) -> a <> h ->
  drv_block s a.1 a.2 = true -> drv_block s h.1 h.2 = true ->
  (1 < k_spare s)%nat \/ ((0 < k_spare s)%nat /\ k_dirty s h) ->
  exists i j s', session pid [(j, h); (i, a)] s' /\ effect s s' (k_view s) (k_dirty s) [] /\
    (k_spare s <= k_spare s' + 2)%nat /\ (k_dirty s h -> k_spare s <= k_spare s' + 1)%nat /\
    forall A (m : nat -> nat -> K A),
      (let! x := bread (l_dev l) (u32 (l_start l + Z.of_nat t + 1)) in
       let! b := get_lh_block t in
       let! y := bread (l_dev l) (u32 b) in m x y) s = m i j s'.
Proof.
  intros l a h Hs Hbn Ha0 Hh0 Hah Hda Hdh Hsp.
  destruct (s_bread pid [] s (l_dev l) (u32 (l_start l + Z.of_nat t + 1)) Hs) as (i & s1 & R1 & Hs1 & E1 & Hsp1 & _);
    [set_solver|done|done|left; lia|].
  destruct (s_bread pid _ s1 (l_dev l) (u32 bn) Hs1) as (j & s2 & R2 & Hs2 & E2 & Hsp2 & Hsp2').
  { cbn. set_solver. } { done. } { rewrite (drv_io s) by apply E1. done. }
  { destruct Hsp as [Hsp|[_ Hdirty]]; [left; lia|right].
    assert (Hd1 : k_dirty s1 h) by (by apply (ef_dirty _ _ _ _ _ E1)).
    destruct Hd1 as (x & b & ? & ? & _). by exists x, b. }
  exists i, j, s2. split; [done|]. split; [|split; [lia|split]].
  - pose proof (effect_trans _ _ _ _ _ _ _ _ _ E1 E2) as E. eapply effect_ext; [exact E| |]; intros k Hk.
    + by apply (ef_view _ _ _ _ _ E1).
    + by apply (ef_dirty _ _ _ _ _ E1).
  - intros Hd. rewrite Hsp2' by (by apply (ef_dirty _ _ _ _ _ E1)). lia.
  - intros A m. rewrite (bind_ok _ _ _ _ _ R1).
    rewrite (bind_ok _ _ _ _ _ (get_lh_block_ok s1 t bn ltac:(by rewrite (io_log _ _ (ef_io _ _ _ _ _ E1))))).
    by rewrite (bind_ok _ _ _ _ _ R2).
Qed.

Lemma write_log_one_spec pid s t bn :
  let l := k_log s in let a := log_blk l t in let h := (l_dev l, u32 bn) in
  session pid [] s -> lh_block l !! t = Some bn -> a <> (0, 0) -> h <> (0, 0) -> a <> h ->
  drv_block s a.1 a.2 = true -> drv_block s h.1 h.2 = true ->
  k_dirty s h -> ~ k_dirty s a -> (0 < k_spare s)%nat ->
  exists s', write_log_one l t s = Ok tt s' /\ session pid [] s' /\
    effect s s' (put a (k_view s h) (k_view s)) (k_dirty s) [(a, k_view s h)] /\
    (k_spare s <= k_spare s')%nat.
Proof.
  intros l a h Hs Hbn Ha0 Hh0 Hah Hda Hdh Hdirty Hclean Hsp. unfold write_log_one.
  destruct (read_two pid s t bn Hs Hbn Ha0 Hh0 Hah Hda Hdh ltac:(right; done))
    as (i & j & s2 & Hs2 & E2 & _ & Hsp2 & ->). specialize (Hsp2 Hdirty). fold l a h in Hs2, E2, Hsp2.
  destruct (copy_step pid _ s2 i a.1 a.2 j h (brelse j ;;; brelse i) Hs2)
    as (s3 & Hs3 & E3 & Hsp3 & ->); [set_solver|set_solver|by rewrite (drv_io s) by apply E2|].
  change (a.1, a.2) with a in E3.
  pose proof (effect_trans _ _ _ _ _ _ _ _ _ E2 E3) as E. rewrite (ef_view _ _ _ _ _ E2 h Hh0) in E. simpl in E.
  assert (E' : effect s s3 (put a (k_view s h) (k_view s)) (k_dirty s) [(a, k_view s h)]).
  { eapply effect_ext; [exact E| |]; intros k Hk; cbv beta.
    - unfold put. case_decide; [done|by apply (ef_view _ _ _ _ _ E2)].
    - rewrite (ef_dirty _ _ _ _ _ E2) by done. split; [tauto|]. intros Hd. split; [done|]. by intros ->. }
  assert (Hd3 : k_dirty s3 h) by (by apply (ef_dirty _ _ _ _ _ E')).
  assert (Hn3 : ~ k_dirty s3 a) by (by rewrite (ef_dirty _ _ _ _ _ E')).
  destruct (release_two pid s3 j h i a _ Hs3 ltac:(by left) ltac:(by left)) as (s4 & R4 & Hs4 & E4 & _ & Hsp4 & _); [|done|].
  { right. rewrite (ef_view _ _ _ _ _ E'), (ef_img _ _ _ _ _ E') by done. simpl.
    rewrite disk_block_insert. unfold put. by rewrite !decide_True. }
  exists s4. split; [done|]. split; [done|]. split; [|specialize (Hsp4 ltac:(by right)); lia].
  pose proof (effect_trans _ _ _ _ _ _ _ _ _ E' E4) as E5. eapply effect_ext; [exact E5| |]; intros k Hk.
  - by apply (ef_view _ _ _ _ _ E').
  - by apply (ef_dirty _ _ _ _ _ E').
Qed.

Lemma install_one_spec pid s t bn :
  let l := k_log s in let a := log_blk l t in let h := (l_dev l, u32 bn) in
  session pid [] s -> lh_block l !! t = Some bn -> a <> (0, 0) -> h <> (0, 0) -> a <> h ->
  drv_block s a.1 a.2 = true -> drv_block s h.1 h.2 = true -> ~ k_dirty s a ->
  (1 < k_spare s)%nat \/ ((0 < k_spare s)%nat /\ k_dirty s h) ->
  exists s', install_one l t s = Ok tt s' /\ session pid [] s' /\
    effect s s' (put h (k_view s a) (k_view s)) (fun k => k_dirty s k /\ k <> h) [(h, k_view s a)] /\
    (k_spare s <= k_spare s')%nat /\ (k_dirty s h -> k_spare s < k_spare s')%nat.
Proof.
  intros l a h Hs Hbn Ha0 Hh0 Hah Hda Hdh Hclean Hsp. unfold install_one.
  pose proof (view_clean _ _ _ a Hs ltac:(set_solver) Hclean) as Hva.
  destruct (read_two pid s t bn Hs Hbn Ha0 Hh0 Hah Hda Hdh Hsp)
    as (i & j & s2 & Hs2 & E2 & Hsp2 & Hsp2' & ->). fold l a h in Hs2, E2, Hsp2, Hsp2'.
  destruct (copy_step pid _ s2 j h.1 h.2 i a (brelse i ;;; brelse j) Hs2)
    as (s3 & Hs3 & E3 & Hsp3 & ->); [set_solver|set_solver|by rewrite (drv_io s) by apply E2|].
  change (h.1, h.2) with h in E3.
  pose proof (effect_trans _ _ _ _ _ _ _ _ _ E2 E3) as E. rewrite (ef_view _ _ _ _ _ E2 a Ha0) in E. simpl in E.
  assert (E' : effect s s3 (put h (k_view s a) (k_view s)) (fun k => k_dirty s k /\ k <> h) [(h, k_view s a)]).
  { eapply effect_ext; [exact E| |]; intros k Hk; cbv beta.
    - unfold put. case_decide; [done|by apply (ef_view _ _ _ _ _ E2)].
    - by rewrite (ef_dirty _ _ _ _ _ E2). }
  assert (Hna : ~ k_dirty s3 a) by (rewrite (ef_dirty _ _ _ _ _ E') by done; tauto).
  assert (Hnh : ~ k_dirty s3 h) by (rewrite (ef_dirty _ _ _ _ _ E') by done; tauto).
  destruct (release_two pid s3 i a j h _ Hs3 ltac:(by right)) as (s4 & R4 & Hs4 & E4 & _ & _ & Hsp4); [| |done|].
  { right. rewrite (ef_view _ _ _ _ _ E'), (ef_img _ _ _ _ _ E') by done. simpl.
    rewrite disk_block_insert. unfold put. by rewrite !decide_False. }
  { right. rewrite (ef_view _ _ _ _ _ E'), (ef_img _ _ _ _ _ E') by done. simpl.
    rewrite disk_block_insert. unfold put. by rewrite !decide_True. }
  exists s4. split; [done|]. split; [done|]. split; [|rewrite (Hsp4 Hna Hnh); split; [lia|intros Hd; specialize (Hsp2' Hd); lia]].
  pose proof (effect_trans _ _ _ _ _ _ _ _ _ E' E4) as E5. eapply effect_ext; [exact E5| |]; intros k Hk.
  - by apply (ef_view _ _ _ _ _ E').
  - by apply (ef_dirty _ _ _ _ _ E').
Qed.

(** ** The loops *)
Definition lh_home (l : log) (t : nat) : Z * Z := (l_dev l, u32 (default 0 (lh_block l !! t))).

Record log_disk (s : kstate) : Prop := mk_log_disk {
  ld_layout : log_layout (k_log s);
  ld_area : forall m, l_start (k_log s) <= m < l_start (k_log s) + l_size (k_log s) ->
    drv_block s (l_dev (k_log s)) m = true }.

(** The first [n] entries of the log header in memory name blocks outside the log. *)
Definition entries_ok (s : kstate) (n : nat) : Prop :=
  forall t, (t < n)%nat -> is_Some (lh_block (k_log s) !! t) /\
    home (k_log s) (lh_home (k_log s) t) /\
    drv_block s (lh_home (k_log s) t).1 (lh_home (k_log s) t).2 = true.

Lemma log_disk_io s s' : io s s' -> log_disk s -> log_disk s'.
Proof.
  intros Hio [Hl Ha]. split; rewrite (io_log _ _ Hio); [done|]. intros m Hm. rewrite (drv_io s) by done. auto.
Qed.

Lemma entries_io s s' n : io s s' -> entries_ok s n -> entries_ok s' n.
Proof. intros Hio He t Ht. rewrite (io_log _ _ Hio), (drv_io s) by done. by apply He. Qed.

Lemma log_blk_ok s t : log_disk s -> Z.of_nat t < l_size (k_log s) - 1 ->
  log_blk (k_log s) t <> (0, 0) /\ drv_block s (log_blk (k_log s) t).1 (log_blk (k_log s) t).2 = true.
Proof.
  intros [Hl Ha] Ht. rewrite log_u32 by done. destruct Hl. simpl. split; [intros [= ??]; lia|]. apply Ha. lia.
Qed.

Lemma apply_view_ext W V V' k : V k = V' k -> apply_view W V k = apply_view W V' k.
Proof. induction W as [|[k' v] W IH]; simpl; [done|]. intros H. unfold put. case_decide; auto. Qed.

(** The writes of a loop that copies block [src t] to block [dst t]. *)
Definition copy_writes (V : Z * Z -> list Z) (dst src : nat -> Z * Z) (ts : list nat) : writes :=
  reverse ((fun t => (dst t, V (src t))) <$> ts).

Lemma copy_writes_cons V V' dst src t ts :
  (forall t', t' ∈ ts -> V' (src t') = V (src t')) ->
  copy_writes V' dst src ts ++ [(dst t, V (src t))] = copy_writes V dst src (t :: ts).
Proof.
  intros Hv. unfold copy_writes. rewrite fmap_cons, reverse_cons. f_equal. f_equal.
  apply list_fmap_ext. intros i x Hx. f_equal. apply Hv. by eapply list_elem_of_lookup_2.
Qed.

(** One more copy before a loop. *)
Lemma effect_copy s s1 s' V1 dst src t ts D :
  effect s s1 (put (dst t) (k_view s (src t)) (k_view s)) V1 [(dst t, k_view s (src t))] ->
  effect s1 s' (apply_view (copy_writes (k_view s1) dst src ts) (k_view s1)) D (copy_writes (k_view s1) dst src ts) ->
  (forall t', t' ∈ ts -> src t' <> (0, 0) /\ src t' <> dst t) ->
  effect s s' (apply_view (copy_writes (k_view s) dst src (t :: ts)) (k_view s)) D
    (copy_writes (k_view s) dst src (t :: ts)).
Proof.
  intros E1 E2 Hsrc.
  assert (Hv : forall t', t' ∈ ts -> k_view s1 (src t') = k_view s (src t')).
  { intros t' Ht'. destruct (Hsrc t' Ht') as [H0 Hne]. rewrite (ef_view _ _ _ _ _ E1) by done.
    unfold put. by rewrite decide_False. }
  pose proof (effect_trans _ _ _ _ _ _ _ _ _ E1 E2) as E. rewrite copy_writes_cons in E by done.
  eapply effect_ext; [exact E| |done]. intros k Hk. rewrite <- (copy_writes_cons _ (k_view s1)) by done.
  rewrite apply_view_app. apply apply_view_ext. by apply (ef_view _ _ _ _ _ E1).
Qed.

Lemma write_log_loop pid ts s n :
  session pid [] s -> log_disk s -> entries_ok s n -> Z.of_nat n < l_size (k_log s) ->
  (forall t, t ∈ ts -> (t < n)%nat) -> (0 < k_spare s)%nat ->
  (forall t, (t < n)%nat -> k_dirty s (lh_home (k_log s) t) /\ ~ k_dirty s (log_blk (k_log s) t)) ->
  exists s', for_each ts (write_log_one (k_log s)) s = Ok tt s' /\ session pid [] s' /\
    (let W := copy_writes (k_view s) (log_blk (k_log s)) (lh_home (k_log s)) ts in
     effect s s' (apply_view W (k_view s)) (k_dirty s) W) /\ (k_spare s <= k_spare s')%nat.
Proof.
  revert s. induction ts as [|t ts IH]; intros s Hs Hld Hen Hn Hts Hsp Hdi.
  - exists s. split; [done|]. split; [done|]. split; [|done]. apply effect_refl.
  - pose proof (Hts t ltac:(set_solver)) as Ht. destruct (Hen t Ht) as ([bn Hbn] & Hhome & Hdrv). pose proof (proj1 Hhome) as Hh0.
    destruct (log_blk_ok s t Hld ltac:(lia)) as [Ha0 Hda]. destruct (Hdi t Ht) as [Hd Hnd].
    unfold lh_home in Hhome, Hh0, Hdrv, Hd. rewrite Hbn in Hhome, Hh0, Hdrv, Hd. simpl in Hhome, Hh0, Hdrv, Hd.
    destruct (write_log_one_spec pid s t bn Hs Hbn Ha0 Hh0) as (s1 & R1 & Hs1 & E1 & Hsp1); try done.
    { intros E. apply (home_not_log _ (ld_layout _ Hld) _ t Hhome ltac:(lia)). done. }
    pose proof (ef_io _ _ _ _ _ E1) as Hio. pose proof (io_log _ _ Hio) as Hlog.
    destruct (IH s1 Hs1 (log_disk_io _ _ Hio Hld) (entries_io _ _ _ Hio Hen)) as (s2 & R2 & Hs2 & E2 & Hsp2).
    { by rewrite Hlog. } { intros t' Ht'. apply Hts. set_solver. } { lia. }
    { intros t' Ht'. rewrite Hlog. destruct (log_blk_ok s t' Hld ltac:(lia)) as [Ha0' _].
      destruct (Hen t' Ht') as (_ & [Hh0' _] & _). rewrite !(ef_dirty _ _ _ _ _ E1) by done. by apply Hdi. }
    rewrite Hlog in *. exists s2. split; [cbn [for_each]; by rewrite (bind_ok _ _ _ _ _ R1)|].
    split; [done|]. split; [|lia]. cbv zeta in *.
    assert (Hhb : lh_home (k_log s) t = (l_dev (k_log s), u32 bn)) by (unfold lh_home; by rewrite Hbn).
    eapply effect_ext; [eapply (effect_copy s s1 s2)| |].
    + rewrite Hhb. exact E1.
    + exact E2.
    + intros t' Ht'. destruct (Hen t' (Hts t' ltac:(set_solver))) as (_ & Hhome' & _). split; [apply Hhome'|].
      apply (home_not_log _ (ld_layout _ Hld)); [done|lia].
    + done.
    + intros k Hk. by rewrite (ef_dirty _ _ _ _ _ E1).
Qed.

Lemma install_loop pid ts s n :
  session pid [] s -> log_disk s -> entries_ok s n -> Z.of_nat n < l_size (k_log s) ->
  (forall t, t ∈ ts -> (t < n)%nat) ->
  (1 < k_spare s)%nat \/ ((0 < k_spare s)%nat /\ forall t, t ∈ ts -> k_dirty s (lh_home (k_log s) t)) ->
  (forall t, (t < n)%nat -> ~ k_dirty s (log_blk (k_log s) t)) ->
  exists s', for_each ts (install_one (k_log s)) s = Ok tt s' /\ session pid [] s' /\
    (let W := copy_writes (k_view s) (lh_home (k_log s)) (log_blk (k_log s)) ts in
     effect s s' (apply_view W (k_view s)) (fun k => k_dirty s k /\ k ∉ lh_home (k_log s) <$> ts) W) /\
    (k_spare s <= k_spare s')%nat.
Proof.
  revert s. induction ts as [|t ts IH]; intros s Hs Hld Hen Hn Hts Hsp Hdi.
  - exists s. split; [done|]. split; [done|]. split; [|done]. eapply effect_ext; [apply effect_refl|done|].
    intros k Hk. set_solver.
  - pose proof (Hts t ltac:(set_solver)) as Ht. destruct (Hen t Ht) as ([bn Hbn] & Hhome & Hdrv). pose proof (proj1 Hhome) as Hh0.
    destruct (log_blk_ok s t Hld ltac:(lia)) as [Ha0 Hda].
    assert (Hhb : lh_home (k_log s) t = (l_dev (k_log s), u32 bn)) by (unfold lh_home; by rewrite Hbn).
    rewrite Hhb in Hhome, Hh0, Hdrv.
    destruct (install_one_spec pid s t bn Hs Hbn Ha0 Hh0) as (s1 & R1 & Hs1 & E1 & Hsp1 & Hsp1'); [|done|done|by apply Hdi| |].
    { intros E. apply (home_not_log _ (ld_layout _ Hld) _ t Hhome ltac:(lia)). done. }
    { destruct Hsp as [?|[? Hd]]; [by left|right]. split; [done|]. rewrite <- Hhb. apply Hd. set_solver. }
    pose proof (ef_io _ _ _ _ _ E1) as Hio. pose proof (io_log _ _ Hio) as Hlog.
    destruct (IH s1 Hs1 (log_disk_io _ _ Hio Hld) (entries_io _ _ _ Hio Hen)) as (s2 & R2 & Hs2 & E2 & Hsp2).
    { by rewrite Hlog. } { intros t' Ht'. apply Hts. set_solver. }
    { left. destruct Hsp as [?|[? Hd]]; [lia|]. specialize (Hsp1' ltac:(rewrite <- Hhb; apply Hd; set_solver)). lia. }
    { intros t' Ht'. rewrite Hlog. destruct (log_blk_ok s t' Hld ltac:(lia)) as [Ha0' _].
      rewrite !(ef_dirty _ _ _ _ _ E1) by done. intros [? _]. by apply (Hdi t'). }
    rewrite Hlog in *. exists s2. split; [cbn [for_each]; by rewrite (bind_ok _ _ _ _ _ R1)|].
    split; [done|]. split; [|lia]. cbv zeta in *. rewrite <- Hhb in E1.
    eapply effect_ext; [eapply (effect_copy s s1 s2); [exact E1|exact E2|]|done|].
    + intros t' Ht'. pose proof (Hts t' ltac:(set_solver)) as Hlt'.
      destruct (log_blk_ok s t' Hld ltac:(lia)) as [Ha0' _]. split; [done|]. intros E.
      rewrite <- Hhb in Hhome. apply (home_not_log _ (ld_layout _ Hld) _ t' Hhome ltac:(lia)). done.
    + intros k Hk. cbv beta. rewrite (ef_dirty _ _ _ _ _ E1) by done. rewrite fmap_cons, not_elem_of_cons. tauto.
Qed.

(** ** The header *)
Lemma put_blocks_loop b s m i d bufd :
  (i + m <= length (lh_block (k_log s)))%nat -> bufs (k_bcache s) !! b = Some bufd ->
  for_each (seq i m) (fun i => let! v := get_lh_block i in
    upd_buf b (fun x => with_b_data (set_hdr_block (b_data x) i v) x)) (upd_bufs b (with_b_data d) s) =
  Ok tt (upd_bufs b (with_b_data (put_blocks d i (take m (drop i (lh_block (k_log s)))))) s).
Proof.
  revert i d. induction m as [|m IH]; intros i d Hm Hb; [done|].
  assert (Hi : is_Some (lh_block (k_log s) !! i)) by (apply lookup_lt_is_Some; lia). destruct Hi as [v Hv].
  cbn [seq for_each]. erewrite bind_ok.
  2:{ rewrite (bind_ok _ _ _ _ _ (get_lh_block_ok (upd_bufs b _ s) i v Hv)). reflexivity. }
  rewrite upd_bufs_bufs. rewrite (upd_bufs_at b _ (with_b_data (set_hdr_block d i v)) s bufd Hb) by done.
  rewrite IH by (done || lia). rewrite (drop_S _ _ _ Hv). done.
Qed.

Lemma write_head_spec pid s :
  session pid [] s -> log_disk s -> 0 <= lh_n (k_log s) <= Z.of_nat (length (lh_block (k_log s))) ->
  length (lh_block (k_log s)) = Z.to_nat LOGSIZE ->
  ~ k_dirty s (hd_blk (k_log s)) -> (0 < k_spare s)%nat ->
  let l := k_log s in
  let H := put_header (k_view s (hd_blk l)) (lh_n l) (take (Z.to_nat (lh_n l)) (lh_block l)) in
  exists s', write_head s = Ok tt s' /\ session pid [] s' /\
    effect s s' (put (hd_blk l) H (k_view s)) (k_dirty s) [(hd_blk l, H)] /\ (k_spare s <= k_spare s')%nat.
Proof.
  intros Hs Hld Hn Hlen Hnd Hsp l H. destruct (Hld) as [Hlay Harea]. fold l in Hn, Hlen, Hnd, Hlay, Harea.
  assert (Hhd0 : hd_blk l <> (0, 0)) by (rewrite (hd_u32 l Hlay); destruct Hlay; intros [= ??]; lia).
  assert (Hdrv : drv_block s (l_dev l) (u32 (l_start l)) = true).
  { rewrite u32_small by (destruct Hlay; lia). apply Harea. destruct Hlay; lia. }
  unfold write_head, get_log. erewrite bind_ok by reflexivity. fold l.
  destruct (s_bread pid [] s (l_dev l) (u32 (l_start l)) Hs) as (b & s1 & R1 & Hs1 & E1 & Hsp1 & _);
    [set_solver|done|done|by left|].
  rewrite (bind_ok _ _ _ _ _ R1). change (l_dev l, u32 (l_start l)) with (hd_blk l) in Hs1.
  assert (Hin : (b, hd_blk l) ∈ [(b, hd_blk l)]) by set_solver.
  destruct (session_data _ _ _ _ _ _ Hs1 Hin) as (bb & Hbb & Hdat & _).
  rewrite (session_view _ _ _ _ _ Hs1 Hin), (ef_view _ _ _ _ _ E1) in Hdat by done.
  unfold upd_buf at 1, modify at 1. erewrite bind_ok by reflexivity.
  rewrite (upd_bufs_at b _ (with_b_data (set_hdr_n (k_view s (hd_blk l)) (lh_n l))) s1 bb Hbb) by (by rewrite Hdat).
  pose proof (io_log _ _ (ef_io _ _ _ _ _ E1)) as Hlog.
  erewrite bind_ok by (apply (put_blocks_loop b s1 _ 0 _ bb); [rewrite Hlog; fold l; lia|done]).
  rewrite Hlog. fold l. rewrite drop_0.
  change (put_blocks (set_hdr_n (k_view s (hd_blk l)) (lh_n l)) 0 (take (Z.to_nat (lh_n l)) (lh_block l))) with H.
  assert (HH : block_ok H).
  { pose proof (session_block _ _ _ _ _ Hs1 Hin) as [HL HB]. rewrite (ef_view _ _ _ _ _ E1) in HL, HB by done.
    apply put_header_ok; [done| |done]. rewrite length_take, <- Hlen. fold l. lia. }
  destruct (s_write pid _ s1 b (hd_blk l) H Hs1 Hin HH) as (Hs2 & E2 & Hsp2).
  destruct (s_bwrite pid _ (upd_bufs b (with_b_data H) s1) b (l_dev l) (u32 (l_start l)) Hs2 Hin) as (s3 & R3 & Hs3 & E3 & Hsp3).
  { rewrite (drv_io s1) by apply E2. by rewrite (drv_io s) by apply E1. }
  rewrite (bind_ok _ _ _ _ _ R3). change (l_dev l, u32 (l_start l)) with (hd_blk l) in E3.
  pose proof (effect_trans _ _ _ _ _ _ _ _ _ (effect_trans _ _ _ _ _ _ _ _ _ E1 E2) E3) as E.
  assert (Hvh : k_view (upd_bufs b (with_b_data H) s1) (hd_blk l) = H).
  { rewrite (ef_view _ _ _ _ _ E2) by done. unfold put. by rewrite decide_True. }
  rewrite Hvh in E. simpl in E.
  assert (E' : effect s s3 (put (hd_blk l) H (k_view s)) (k_dirty s) [(hd_blk l, H)]).
  { eapply effect_ext; [exact E| |]; intros k Hk; cbv beta.
    - rewrite (ef_view _ _ _ _ _ E2) by done. unfold put. case_decide; [done|]. by apply (ef_view _ _ _ _ _ E1).
    - rewrite (ef_dirty _ _ _ _ _ E2), (ef_dirty _ _ _ _ _ E1) by done. split; [tauto|]. intros ?. split; [done|].
      by intros ->. }
  destruct (s_brelse pid [] [] s3 b (hd_blk l) Hs3) as (s4 & R4 & Hs4 & E4 & _ & Hsp4).
  { right. rewrite (ef_view _ _ _ _ _ E'), (ef_img _ _ _ _ _ E') by done. simpl.
    rewrite disk_block_insert. unfold put. by rewrite !decide_True. }
  exists s4. split; [done|]. split; [done|]. split.
  - pose proof (effect_trans _ _ _ _ _ _ _ _ _ E' E4) as E5. eapply effect_ext; [exact E5| |]; intros k Hk.
    + by apply (ef_view _ _ _ _ _ E').
    + by apply (ef_dirty _ _ _ _ _ E').
  - rewrite Hsp4; [lia|]. by rewrite (ef_dirty _ _ _ _ _ E').
Qed.

(** ** Changes of the log in memory *)
Lemma bio_ok_set_log pid s l : bio_ok pid s -> bio_ok pid (set_log l s).
Proof. intros [[Hy Hd Hl Hp] Hr Hi]. split; [|done|done]. by split. Qed.

Lemma session_set_log pid H s l : session pid H s -> session pid H (set_log l s).
Proof. intros [Hb Hn Hr Hh Hf]. split; try done. by apply bio_ok_set_log. Qed.

Lemma upd_log_ok f s : upd_log f s = Ok tt (set_log (f (k_log s)) s).
Proof. done. Qed.

(** The state at the start of a commit: the header in memory lists exactly the pinned
    blocks, and the header on the disk is empty. *)
Record committable (pid : Z) (s : kstate) : Prop := mk_committable {
  cm_session : session pid [] s;
  cm_disk : log_disk s;
  cm_n : 0 < lh_n (k_log s) < l_size (k_log s);
  cm_len : length (lh_block (k_log s)) = Z.to_nat LOGSIZE;
  cm_entries : entries_ok s (Z.to_nat (lh_n (k_log s)));
  cm_range : Forall (fun b => - 2 ^ 31 <= b < 2 ^ 31) (lh_block (k_log s));
  cm_dirty : forall k, k <> (0, 0) ->
    k_dirty s k <-> k ∈ lh_home (k_log s) <$> seq 0 (Z.to_nat (lh_n (k_log s)));
  cm_empty : hdr_n (disk_block (k_img s) (hd_blk (k_log s))) = 0;
  cm_spare : (0 < k_spare s)%nat }.

Lemma home_blk_header l data t n :
  length data = Z.to_nat BSIZE -> length (lh_block l) = Z.to_nat LOGSIZE ->
  Forall (fun b => - 2 ^ 31 <= b < 2 ^ 31) (lh_block l) -> (t < n <= Z.to_nat LOGSIZE)%nat ->
  home_blk l (put_header data (Z.of_nat n) (take n (lh_block l))) t = lh_home l t.
Proof.
  intros Hd Hl Hr Ht. assert (Hb : is_Some (lh_block l !! t)) by (apply lookup_lt_is_Some; lia).
  destruct Hb as [b Hb]. unfold home_blk, lh_home. rewrite Hb.
  rewrite (put_header_block data (Z.of_nat n) (take n (lh_block l)) Hd ltac:(rewrite length_take; lia) t b); [done| |].
  - by rewrite lookup_take_lt by lia.
  - by apply (Forall_lookup_1 _ _ t _ Hr).
Qed.

Lemma log_home_dirty pid s t : committable pid s -> Z.of_nat t < l_size (k_log s) - 1 ->
  ~ k_dirty s (log_blk (k_log s) t) /\ ~ k_dirty s (hd_blk (k_log s)).
Proof.
  intros [Hs Hld Hn Hlen Hen Hr Hd _ _] Ht. pose proof (ld_layout _ Hld) as Hlay.
  assert (Hno : forall k, k <> (0, 0) -> k_dirty s k -> home (k_log s) k).
  { intros k Hk. rewrite Hd by done. rewrite list_elem_of_fmap. intros (t' & -> & Ht'%elem_of_seq).
    apply Hen. lia. }
  split; intros Hdk.
  - pose proof (Hno _ (proj1 (log_blk_ok s t Hld Ht)) Hdk) as Hh. by apply (home_not_log _ Hlay _ t Hh).
  - assert (Hhd0 : hd_blk (k_log s) <> (0, 0)) by (rewrite (hd_u32 _ Hlay); destruct Hlay; intros [= ??]; lia).
    by apply (home_not_hd _ Hlay _ (Hno _ Hhd0 Hdk)).
Qed.

Lemma list_fmap_seq_ext {A} (f g : nat -> A) n : (forall t, (t < n)%nat -> f t = g t) -> f <$> seq 0 n = g <$> seq 0 n.
Proof. intros H. apply list_fmap_ext. intros i x [-> Hx]%lookup_seq. by apply H. Qed.

(** Setting the count to zero and writing the header, with nothing pinned. *)
Lemma clear_header pid s : session pid [] s -> log_disk s -> length (lh_block (k_log s)) = Z.to_nat LOGSIZE ->
  (forall k, k <> (0, 0) -> ~ k_dirty s k) -> (0 < k_spare s)%nat ->
  exists s' H0, (upd_log (with_lh_n 0) ;;; write_head) s = Ok tt s' /\ session pid [] s' /\ hdr_n H0 = 0 /\
    k_log s' = with_lh_n 0 (k_log s) /\
    dk_writes (k_disk s') = (hd_blk (k_log s), H0) :: dk_writes (k_disk s) /\
    k_img s' = <[hd_blk (k_log s) := H0]> (k_img s) /\
    (forall k, k <> (0, 0) -> ~ k_dirty s' k) /\ (k_spare s <= k_spare s')%nat /\ io (set_log (with_lh_n 0 (k_log s)) s) s'.
Proof.
  intros Hs Hld Hlen Hcl Hsp. pose proof (ld_layout _ Hld) as Hlay.
  rewrite (bind_ok _ _ _ _ _ (upd_log_ok _ _)). set (l := k_log s) in *. set (s4 := set_log (with_lh_n 0 l) s).
  assert (Hld4 : log_disk s4).
  { destruct Hld as [_ Ha]. split; [by destruct Hlay|]. intros m Hm. rewrite (drv_block_disk s) by done. by apply Ha. }
  assert (Hhd0 : hd_blk l <> (0, 0)) by (rewrite (hd_u32 l Hlay); destruct Hlay; intros [= ??]; lia).
  destruct (write_head_spec pid s4 (session_set_log _ _ _ _ Hs) Hld4) as (s5 & R5 & Hs5 & E5 & Hsp5).
  { simpl. lia. } { exact Hlen. } { by apply Hcl. } { exact Hsp. }
  cbv zeta in E5. set (H0 := put_header _ _ _) in E5. change (hd_blk (k_log s4)) with (hd_blk l) in E5.
  exists s5, H0. split; [done|]. split; [done|]. split.
  { unfold H0. rewrite put_header_n; [done| |simpl; lia|simpl; lia].
    apply (view_ok pid [] s4). by apply session_set_log. }
  split; [by rewrite (io_log _ _ (ef_io _ _ _ _ _ E5))|].
  split; [apply (ef_writes _ _ _ _ _ E5)|]. split; [apply (ef_img _ _ _ _ _ E5)|]. split; [|split; [exact Hsp5|exact (ef_io _ _ _ _ _ E5)]].
  intros k Hk. rewrite (ef_dirty _ _ _ _ _ E5) by done. by apply Hcl.
Qed.

Lemma io_set_log l s s' : io s s' -> io (set_log l s) (set_log l s').
Proof. intros [E Ez]. split; [|done]. rewrite E. done. Qed.

Lemma session_clean pid s k : session pid [] s -> (forall k, k <> (0, 0) -> ~ k_dirty s k) -> k <> (0, 0) ->
  k_view s k = disk_block (k_img s) k.
Proof. intros Hs Hd Hk. apply (view_clean pid [] s k Hs); [set_solver|by apply Hd]. Qed.

Section run.
Context (pid : Z) (s : kstate) (Hc : committable pid s).
Let l := k_log s.
Let n := Z.to_nat (lh_n l).
Let Hn := put_header (k_view s (hd_blk l)) (lh_n l) (take n (lh_block l)).

Lemma run_n : lh_n l = Z.of_nat n /\ (0 < n < Z.to_nat LOGSIZE)%nat /\ Z.of_nat n < l_size l.
Proof.
  destruct Hc as [_ [Hlay _] Hlh _ _ _ _ _ _]. fold l in Hlh, Hlay. destruct Hlay. unfold n. lia.
Qed.

Lemma run_hd : k_view s (hd_blk l) = disk_block (k_img s) (hd_blk l) /\ length (k_view s (hd_blk l)) = Z.to_nat BSIZE.
Proof.
  destruct (log_home_dirty pid s 0 Hc) as [_ Hnd].
  { destruct Hc as [_ [[? ? ? ?] _] ? _ _ _ _ _ _]. lia. }
  rewrite (view_clean pid [] s (hd_blk l) (cm_session _ _ Hc) ltac:(set_solver) Hnd).
  split; [done|]. apply (bio_inv _ _ (ss_bio _ _ _ (cm_session _ _ Hc))).
Qed.

Lemma run_Hn : hdr_count Hn = n /\ header_ok l Hn /\ forall t, (t < n)%nat -> home_blk l Hn t = lh_home l t.
Proof.
  destruct run_n as (En & Hlt & Hsz). destruct run_hd as [_ Hlen].
  assert (Hcnt : hdr_n Hn = Z.of_nat n).
  { unfold Hn. rewrite put_header_n; [done|done| |].
    - rewrite length_take. lia.
    - rewrite En. unfold LOGSIZE, MAXOPBLOCKS in Hlt. lia. }
  assert (Hhb : forall t, (t < n)%nat -> home_blk l Hn t = lh_home l t).
  { intros t Ht. unfold Hn. rewrite En. apply home_blk_header; [done|apply Hc|apply Hc|lia]. }
  split; [unfold hdr_count; lia|]. split; [|done]. split; [lia|].
  unfold hdr_count. rewrite Hcnt, Nat2Z.id. intros t Ht. rewrite Hhb by done.
  by destruct (cm_entries _ _ Hc t Ht) as (_ & ? & _).
Qed.

Lemma run_log_writes : copy_writes (k_view s) (log_blk l) (lh_home l) (seq 0 n) = log_writes l (k_view s) Hn.
Proof.
  destruct run_Hn as (Hcnt & _ & Hhb). unfold copy_writes, log_writes. rewrite Hcnt. f_equal.
  apply list_fmap_seq_ext. intros t Ht. by rewrite Hhb.
Qed.

Lemma run_rest k : home l k -> (forall t, (t < hdr_count Hn)%nat -> k <> home_blk l Hn t) ->
  k_view s k = disk_block (k_img s) k.
Proof.
  destruct run_Hn as (Hcnt & _ & Hhb). intros Hk Hne.
  apply (view_clean _ _ _ _ (cm_session _ _ Hc)); [set_solver|]. rewrite (cm_dirty _ _ Hc) by apply Hk.
  rewrite list_elem_of_fmap. intros (t & -> & Ht%elem_of_seq). apply (Hne t).
  - rewrite Hcnt. unfold n. fold l in Ht. lia.
  - rewrite Hhb; [done|]. unfold n. fold l in Ht. lia.
Qed.

Lemma run_hd0 : hd_blk l <> (0, 0).
Proof. pose proof (ld_layout _ (cm_disk _ _ Hc)) as Hlay. rewrite (hd_u32 l Hlay). destruct Hlay. intros [= ??]. subst l. lia. Qed.

Lemma run_undirty t : (t < n)%nat -> ~ k_dirty s (log_blk l t) /\ ~ k_dirty s (hd_blk l).
Proof. intros Ht. destruct run_n as (_ & _ & Hsz). apply (log_home_dirty pid s t Hc). fold l. lia. Qed.

(** A stage of commit: it has reached [s'] after the writes [W]. *)
Definition reached (W : writes) (s' : kstate) : Prop :=
  session pid [] s' /\ io s s' /\ dk_writes (k_disk s') = W ++ dk_writes (k_disk s) /\
  k_img s' = apply_writes W (k_img s) /\ (0 < k_spare s')%nat.

Lemma effect_reached W V D W' s1 s2 : reached W s1 -> effect s1 s2 V D W' -> session pid [] s2 ->
  (k_spare s1 <= k_spare s2)%nat -> reached (W' ++ W) s2.
Proof.
  intros (_ & Hio & Hw & Hi & Hsp) [Hio2 _ _ Hw2 Hi2] Hs2 Hsp2. split; [done|]. split; [by etransitivity|].
  split; [by rewrite Hw2, Hw, app_assoc|]. split; [|lia]. rewrite Hi2, Hi. unfold apply_writes. by rewrite foldr_app.
Qed.

Lemma run_header : exists s2, reached ((hd_blk l, Hn) :: log_writes l (k_view s) Hn) s2 /\
  (forall k, k <> (0, 0) -> k_dirty s2 k <-> k_dirty s k) /\
  forall (m : K unit), (write_log ;;; write_head ;;; m) s = m s2.
Proof.
  destruct run_n as (En & Hlt & Hsz). destruct (Hc) as [Hs Hld Hlh Hll Hen _ Hdi _ Hsp].
  fold l n in Hlh, Hll, Hen, Hdi.
  destruct (write_log_loop pid (seq 0 n) s n Hs Hld Hen Hsz) as (s1 & R1 & Hs1 & E1 & Hsp1); [|done| |].
  { intros t Ht%elem_of_seq. lia. }
  { intros t Ht. split; [|by apply run_undirty]. apply Hdi; [by apply (Hen t Ht)|]. apply list_elem_of_fmap. exists t.
    split; [done|]. apply elem_of_seq. lia. }
  fold l in E1, R1. cbv zeta in E1. rewrite run_log_writes in E1.
  assert (Hre1 : reached (log_writes l (k_view s) Hn) s1).
  { split; [done|]. split; [apply E1|]. split; [apply E1|]. split; [apply E1|lia]. }
  pose proof (io_log _ _ (ef_io _ _ _ _ _ E1)) as Hl1. fold l in Hl1.
  destruct (write_head_spec pid s1 Hs1) as (s2 & R2 & Hs2 & E2 & Hsp2); rewrite ?Hl1.
  { apply (log_disk_io s); [apply E1|done]. } { rewrite Hll. lia. } { done. }
  { rewrite (ef_dirty _ _ _ _ _ E1) by apply run_hd0. by apply (run_undirty 0); lia. } { lia. }
  rewrite Hl1 in E2. cbv zeta in E2.
  assert (Hv1 : k_view s1 (hd_blk l) = k_view s (hd_blk l)).
  { rewrite (ef_view _ _ _ _ _ E1) by apply run_hd0. apply apply_view_notin.
    intros [v (t & Ht & [= E _])%log_writes_blocks]%elem_of_fst_map. destruct run_Hn as (Hcnt & _ & _).
    apply (log_not_hd l (ld_layout _ Hld) t); [lia|]. unfold log_blk, hd_blk. by rewrite E. }
  rewrite Hv1 in E2. fold n Hn in E2. exists s2. split; [by eapply (effect_reached _ _ _ [_] s1)|]. split.
  - intros k Hk. by rewrite (ef_dirty _ _ _ _ _ E2), (ef_dirty _ _ _ _ _ E1).
  - intros m. erewrite bind_ok; [|unfold write_log, get_log; erewrite bind_ok by reflexivity; exact R1].
    by rewrite (bind_ok _ _ _ _ _ R2).
Qed.

Lemma run_install : exists s3,
  reached (install_writes l (k_view s) Hn ++ (hd_blk l, Hn) :: log_writes l (k_view s) Hn) s3 /\
  (forall k, k <> (0, 0) -> ~ k_dirty s3 k) /\
  forall (m : K unit), (write_log ;;; write_head ;;; install_trans ;;; m) s = m s3.
Proof.
  destruct run_header as (s2 & Hre & Hdi2 & Hrun). destruct (Hre) as (Hs2 & Hio2 & _ & Himg2 & Hsp2).
  destruct run_n as (En & Hlt & Hsz). destruct run_Hn as (Hcnt & Hok & Hhb).
  destruct (Hc) as [Hs Hld Hlh Hll Hen _ Hdi _ _]. fold l n in Hlh, Hll, Hen, Hdi.
  pose proof (io_log _ _ Hio2) as Hl2. fold l in Hl2.
  pose proof (header_written_blocks l (ld_layout _ Hld) (k_img s) (k_view s) Hn Hok) as [_ Hbt].
  destruct (install_loop pid (seq 0 n) s2 n Hs2) as (s3 & R3 & Hs3 & E3 & Hsp3); rewrite ?Hl2.
  { by apply (log_disk_io s). } { by apply (entries_io s). } { done. }
  { intros t Ht%elem_of_seq. lia. }
  { right. split; [done|]. intros t Ht%elem_of_seq. assert (Ht' : (t < n)%nat) by lia.
    destruct (Hen t Ht') as (_ & [H0 _] & _).
    apply Hdi2, Hdi; [done|done|]. apply list_elem_of_fmap. exists t. split; [done|]. apply elem_of_seq. lia. }
  { intros t Ht. rewrite Hdi2; [by apply run_undirty|]. apply (log_blk_ok s t Hld). fold l. lia. }
  rewrite Hl2 in E3, R3. cbv zeta in E3.
  assert (HW3 : copy_writes (k_view s2) (lh_home l) (log_blk l) (seq 0 n) = install_writes l (k_view s) Hn).
  { unfold copy_writes, install_writes. rewrite Hcnt. f_equal. apply list_fmap_seq_ext. intros t Ht.
    rewrite Hhb by done. f_equal.
    destruct (log_blk_ok s t Hld ltac:(fold l; lia)) as [Ha0 _]. fold l in Ha0.
    rewrite (view_clean pid [] s2 (log_blk l t) Hs2 ltac:(set_solver)).
    - rewrite Himg2, Hbt by lia. by rewrite Hhb.
    - rewrite Hdi2 by done. by apply run_undirty. }
  rewrite HW3 in E3. exists s3. split; [by eapply (effect_reached _ _ _ _ s2)|]. split.
  - intros k Hk. rewrite (ef_dirty _ _ _ _ _ E3) by done. rewrite Hdi2, Hdi by done. tauto.
  - intros m. rewrite Hrun.
    erewrite bind_ok; [|unfold install_trans, get_log; erewrite bind_ok by reflexivity; rewrite Hl2; exact R3]. done.
Qed.

(** The writes commit makes, the blocks it leaves pinned, and the header it leaves. *)
Lemma commit_run : exists s' H0, commit s = Ok tt s' /\ session pid [] s' /\ hdr_n H0 = 0 /\
  dk_writes (k_disk s') = commit_writes l (k_view s) Hn H0 ++ dk_writes (k_disk s) /\
  k_img s' = apply_writes (commit_writes l (k_view s) Hn H0) (k_img s) /\
  (forall k, k <> (0, 0) -> ~ k_dirty s' k) /\ k_log s' = with_lh_n 0 l /\ io (set_log (with_lh_n 0 l) s) s'.
Proof.
  destruct run_install as (s3 & (Hs3 & Hio3 & Hw3 & Hi3 & Hsp3) & Hcl3 & Hrun).
  destruct run_n as (En & Hlt & _). pose proof (io_log _ _ Hio3) as Hl3. fold l in Hl3.
  destruct (clear_header pid s3 Hs3) as (s5 & H0 & R5 & Hs5 & HH0 & Hl5 & Hw5 & Hi5 & Hcl5 & _ & Hz5); try done.
  { apply (log_disk_io s); [done|apply Hc]. } { rewrite Hl3. apply Hc. }
  exists s5, H0. split.
  { unfold commit, get_log. erewrite bind_ok by reflexivity. fold l.
    rewrite (proj2 (Z.ltb_lt _ _)) by lia. cbn [when]. by rewrite Hrun. }
  rewrite Hl5, Hw5, Hi5, Hw3, Hi3, Hl3. do 6 (split; [done|]). rewrite Hl3 in Hz5. etrans; [|exact Hz5]. by apply io_set_log.
Qed.

Lemma commit_view s' H0 k : session pid [] s' -> (forall k, k <> (0, 0) -> ~ k_dirty s' k) ->
  k_img s' = apply_writes (commit_writes l (k_view s) Hn H0) (k_img s) -> home l k ->
  k_view s' k = k_view s k.
Proof.
  intros Hs' Hcl Hi Hk. destruct run_Hn as (_ & Hok & _). pose proof (ld_layout _ (cm_disk _ _ Hc)) as Hlay.
  rewrite (session_clean pid s' k Hs' Hcl) by apply Hk. rewrite Hi.
  unfold commit_writes. simpl. rewrite disk_block_insert, decide_False by (by apply home_not_hd).
  rewrite <- (logical_committed l Hlay (k_img s) (k_view s) _ Hok run_rest k Hk).
  unfold logical. rewrite replay_is_install by done. unfold apply_writes. by rewrite foldr_app.
Qed.
(** Wherever the writes of commit are cut off, the header on the disk is sound. *)
Lemma crash_header H0 W9 W0 : hdr_n H0 = 0 -> commit_writes l (k_view s) Hn H0 = W9 ++ W0 ->
  let H := disk_block (apply_writes W0 (k_img s)) (hd_blk l) in
  header_ok l H /\ forall t, (t < hdr_count H)%nat -> drv_block s (l_dev l) (u32 (hdr_block H t)) = true.
Proof.
  intros HH0 HW H. destruct run_Hn as (Hcnt & Hok & Hhb). pose proof (ld_layout _ (cm_disk _ _ Hc)) as Hlay.
  pose proof (commit_header l Hlay (k_img s) (k_view s) _ H0 (cm_empty _ _ Hc) Hok HH0 run_rest W9 W0 HW) as Hin. fold H in Hin.
  assert (Hz : forall G, hdr_n G = 0 -> header_ok l G /\
    forall t, (t < hdr_count G)%nat -> drv_block s (l_dev l) (u32 (hdr_block G t)) = true).
  { intros G HG. assert (hdr_count G = 0%nat) by (unfold hdr_count; by rewrite HG).
    split; [split; [rewrite HG; fold l in Hlay; destruct Hlay; lia|]|]; intros t Ht; lia. }
  apply elem_of_cons in Hin as [->|[->|[->|[]%not_elem_of_nil]%elem_of_cons]%elem_of_cons].
  - apply Hz, Hc.
  - split; [done|]. rewrite Hcnt. intros t Ht. destruct (cm_entries _ _ Hc t Ht) as (_ & _ & Hd).
    fold l in Hd. rewrite <- (Hhb t Ht) in Hd. exact Hd.
  - by apply Hz.
Qed.
End run.

(** ** Recovery *)
Lemma set_lh_block_ok s i v : (i < length (lh_block (k_log s)))%nat ->
  set_lh_block i v s = Ok tt (set_log (with_lh_block (<[i := v]> (lh_block (k_log s))) (k_log s)) s).
Proof.
  intros Hi. apply lookup_lt_is_Some in Hi as [x Hx]. unfold set_lh_block.
  by rewrite (bind_ok _ _ _ _ _ (get_lh_block_ok s i x Hx)).
Qed.

Lemma set_lh_loop f m i s : (i + m <= length (lh_block (k_log s)))%nat ->
  exists bl, for_each (seq i m) (fun t => set_lh_block t (f t)) s = Ok tt (set_log (with_lh_block bl (k_log s)) s) /\
    length bl = length (lh_block (k_log s)) /\
    forall t, bl !! t = if decide (i <= t < i + m)%nat then Some (f t) else lh_block (k_log s) !! t.
Proof.
  revert i s. induction m as [|m IH]; intros i s Hm.
  - exists (lh_block (k_log s)). split; [simpl; unfold ret; f_equal; by destruct s as [??????? []]|]. split; [done|].
    intros t. by rewrite decide_False by lia.
  - cbn [seq for_each]. rewrite (bind_ok _ _ _ _ _ (set_lh_block_ok s i (f i) ltac:(lia))).
    set (s1 := set_log _ s). destruct (IH (S i) s1) as (bl & R & Hlen & Hbl).
    { unfold s1. simpl. rewrite length_insert. lia. }
    exists bl. split; [exact R|]. unfold s1 in Hlen, Hbl. simpl in Hlen, Hbl.
    rewrite length_insert in Hlen. split; [done|]. intros t. rewrite Hbl.
    destruct (decide (t = i)) as [->|Hne].
    + rewrite decide_False, decide_True by lia. apply list_lookup_insert_eq. lia.
    + rewrite list_lookup_insert_ne by done. by repeat case_decide; try lia.
Qed.

(** The state in which recovery starts, after a reboot: nothing is pinned, and the
    header on the disk is sound. *)
Record recoverable (pid : Z) (s : kstate) : Prop := mk_recoverable {
  rc_session : session pid [] s;
  rc_disk : log_disk s;
  rc_len : length (lh_block (k_log s)) = Z.to_nat LOGSIZE;
  rc_header : header_ok (k_log s) (disk_block (k_img s) (hd_blk (k_log s)));
  rc_drv : forall t, (t < hdr_count (disk_block (k_img s) (hd_blk (k_log s))))%nat ->
    drv_block s (l_dev (k_log s)) (u32 (hdr_block (disk_block (k_img s) (hd_blk (k_log s))) t)) = true;
  rc_clean : forall k, k <> (0, 0) -> ~ k_dirty s k;
  rc_spare : (1 < k_spare s)%nat }.

Lemma read_head_spec pid s : recoverable pid s ->
  let l := k_log s in let H := disk_block (k_img s) (hd_blk l) in
  exists s' bl, read_head s = Ok tt s' /\ session pid [] s' /\
    k_log s' = with_lh_block bl (with_lh_n (hdr_n H) l) /\
    (length bl = Z.to_nat LOGSIZE /\ (Forall (fun b => - 2 ^ 31 <= b < 2 ^ 31) (lh_block l) -> Forall (fun b => - 2 ^ 31 <= b < 2 ^ 31) bl)) /\
    (forall t, (t < hdr_count H)%nat -> bl !! t = Some (hdr_block H t)) /\
    dk_size (k_disk s') = dk_size (k_disk s) /\ dk_writes (k_disk s') = dk_writes (k_disk s) /\
    k_img s' = k_img s /\ (forall k, k <> (0, 0) -> ~ k_dirty s' k) /\ (k_spare s <= k_spare s')%nat.
Proof.
  intros [Hs Hld Hlen Hho Hdrv Hcl Hsp] l H. pose proof (ld_layout _ Hld) as Hlay. fold l in Hlay.
  assert (Hhd0 : hd_blk l <> (0, 0)) by (rewrite (hd_u32 l Hlay); destruct Hlay; intros [= ??]; lia).
  unfold read_head, get_log. erewrite bind_ok by reflexivity. fold l.
  destruct (s_bread pid [] s (l_dev l) (u32 (l_start l)) Hs) as (b & s1 & R1 & Hs1 & E1 & Hsp1 & _);
    [set_solver|done| |left; lia|].
  { rewrite u32_small by (destruct Hlay; lia). apply Hld. fold l. destruct Hlay; lia. }
  rewrite (bind_ok _ _ _ _ _ R1). change (l_dev l, u32 (l_start l)) with (hd_blk l) in Hs1.
  destruct (get_buf_session _ _ _ b _ _ Hs1 (list_elem_of_here _ _)) as (x & Rx & Hx & _).
  rewrite (session_view _ _ _ _ _ Hs1 (list_elem_of_here _ _)) in Hx.
  change (l_dev l, u32 (l_start l)) with (hd_blk l) in Hx.
  rewrite (ef_view _ _ _ _ _ E1), (session_clean _ _ _ Hs Hcl) in Hx by done. fold H in Hx.
  rewrite (bind_ok _ _ _ _ _ Rx), Hx, (bind_ok _ _ _ _ _ (upd_log_ok _ _)).
  pose proof (io_log _ _ (ef_io _ _ _ _ _ E1)) as Hl1. fold l in Hl1. rewrite Hl1.
  set (s2 := set_log (with_lh_n (hdr_n H) l) s1).
  destruct (set_lh_loop (hdr_block H) (Z.to_nat (hdr_n H)) 0 s2) as (bl & R2 & Hbl & Hget).
  { simpl. fold l in Hlen. destruct Hho as [Hn _]. fold l H in Hn. destruct Hlay. rewrite Hlen. lia. }
  rewrite (bind_ok _ _ _ _ _ R2). set (s3 := set_log _ s2).
  assert (Hs3 : session pid [(b, hd_blk l)] s3) by (by repeat apply session_set_log).
  assert (Hd1 : forall k, k <> (0, 0) -> ~ k_dirty s1 k) by (intros k Hk; rewrite (ef_dirty _ _ _ _ _ E1) by done; auto).
  destruct (s_brelse pid [] [] s3 b (hd_blk l) Hs3) as (s4 & R4 & Hs4 & E4 & _ & Hsp4).
  { right. change (k_view s1 (hd_blk l) = disk_block (k_img s1) (hd_blk l)).
    rewrite (ef_view _ _ _ _ _ E1), (ef_img _ _ _ _ _ E1) by done. by apply session_clean with pid. }
  exists s4, bl. split; [done|]. split; [done|]. split; [by rewrite (io_log _ _ (ef_io _ _ _ _ _ E4))|].
  split.
  { split; [rewrite Hbl; exact Hlen|]. intros Hr. apply Forall_lookup. intros t v. rewrite Hget. case_decide; [intros [= <-]; apply s32_range|].
    intros Hv. exact (proj1 (Forall_lookup _ _) Hr t v Hv). }
  split.
  { intros t Ht. rewrite Hget, decide_True; [done|]. unfold hdr_count in Ht. lia. }
  split; [rewrite (io_size _ _ (ef_io _ _ _ _ _ E4)); apply (io_size _ _ (ef_io _ _ _ _ _ E1))|].
  split; [rewrite (ef_writes _ _ _ _ _ E4); apply (ef_writes _ _ _ _ _ E1)|].
  split; [rewrite (ef_img _ _ _ _ _ E4); apply (ef_img _ _ _ _ _ E1)|]. split.
  - intros k Hk. rewrite (ef_dirty _ _ _ _ _ E4) by done. by apply Hd1.
  - rewrite Hsp4 by (by apply Hd1). change (k_spare s3) with (k_spare s1). lia.
Qed.

Lemma recover_run pid s : recoverable pid s ->
  let l := k_log s in
  exists s' H0, recover_from_log s = Ok tt s' /\ session pid [] s' /\ hdr_n H0 = 0 /\
    dk_writes (k_disk s') = (hd_blk l, H0) :: replay_writes l (k_img s) ++ dk_writes (k_disk s) /\
    k_img s' = <[hd_blk l := H0]> (apply_writes (replay_writes l (k_img s)) (k_img s)) /\
    (forall k, k <> (0, 0) -> ~ k_dirty s' k) /\
    lh_n (k_log s') = 0 /\ hd_blk (k_log s') = hd_blk l /\ dk_size (k_disk s') = dk_size (k_disk s) /\
    exists bl, k_log s' = with_lh_block bl (with_lh_n 0 l) /\ length bl = Z.to_nat LOGSIZE /\
      (Forall (fun b => - 2 ^ 31 <= b < 2 ^ 31) (lh_block l) -> Forall (fun b => - 2 ^ 31 <= b < 2 ^ 31) bl).
Proof.
  intros Hrc l. destruct (read_head_spec pid s Hrc) as (s1 & bl & R1 & Hs1 & Hl1 & (Hlen & Hrg) & Hbl & Hsz & Hw1 & Hi1 & Hcl1 & Hsp1).
  destruct Hrc as [Hs Hld _ Hho Hdrv Hcl Hsp]. fold l in Hl1, Hbl, Hho, Hdrv.
  set (H := disk_block (k_img s) (hd_blk l)) in *. set (n := hdr_count H) in *.
  pose proof (ld_layout _ Hld) as Hlay. fold l in Hlay.
  assert (Hld1 : log_disk s1).
  { destruct Hld as [_ Ha]. split; rewrite Hl1; [by destruct Hlay|]. intros m Hm. rewrite (drv_block_disk s) by done. by apply Ha. }
  assert (Hhome : forall t, (t < n)%nat -> lh_home (k_log s1) t = home_blk l H t).
  { intros t Ht. unfold lh_home, home_blk. rewrite Hl1. simpl. by rewrite (Hbl t Ht). }
  assert (Hen1 : entries_ok s1 n).
  { intros t Ht. rewrite (Hhome t Ht). split; [rewrite Hl1; simpl; rewrite (Hbl t Ht); by eexists|].
    split; [rewrite Hl1; apply (ho_home _ _ Hho t Ht)|]. rewrite (drv_block_disk s) by done. by apply Hdrv. }
  assert (Hnz : Z.of_nat n < l_size l) by (pose proof (ho_n _ _ Hho); unfold n, hdr_count; lia).
  destruct (install_loop pid (seq 0 n) s1 n Hs1 Hld1 Hen1) as (s2 & R2 & Hs2 & E2 & Hsp2).
  { by rewrite Hl1. } { intros t Ht%elem_of_seq. lia. } { left. lia. }
  { intros t Ht. apply Hcl1. apply (log_blk_ok s1 t Hld1). rewrite Hl1. simpl. lia. }
  assert (HW : copy_writes (k_view s1) (lh_home (k_log s1)) (log_blk (k_log s1)) (seq 0 n) = replay_writes l (k_img s)).
  { unfold copy_writes, replay_writes. f_equal. apply list_fmap_seq_ext. intros t Ht. assert (Ht' : (t < n)%nat) by exact Ht.
    rewrite Hhome by done. f_equal. rewrite (session_clean pid s1 _ Hs1 Hcl1), Hi1; [by rewrite Hl1|].
    apply (log_blk_ok s1 t Hld1). rewrite Hl1. simpl. lia. }
  cbv zeta in E2. rewrite HW in E2. pose proof (io_log _ _ (ef_io _ _ _ _ _ E2)) as Hl2.
  unfold recover_from_log. rewrite (bind_ok _ _ _ _ _ R1).
  erewrite bind_ok; [|unfold install_trans, get_log; erewrite bind_ok by reflexivity; rewrite Hl1; simpl; rewrite Hl1 in R2; exact R2].
  assert (Hcl2 : forall k, k <> (0, 0) -> ~ k_dirty s2 k).
  { intros k Hk. rewrite (ef_dirty _ _ _ _ _ E2) by done. intros [? _]. by apply (Hcl1 k). }
  destruct (clear_header pid s2 Hs2) as (s3 & H0 & R3 & Hs3 & HH0 & Hl3 & Hw3 & Hi3 & Hcl3 & _ & Hz3%io_size); try done; cbn [k_disk set_log] in *.
  { apply (log_disk_io s1); [apply E2|done]. } { by rewrite Hl2, Hl1. } { lia. }
  assert (Hhd : hd_blk (k_log s2) = hd_blk l) by (by rewrite Hl2, Hl1).
  exists s3, H0. rewrite R3. split; [done|]. split; [done|]. split; [done|].
  rewrite Hw3, Hi3, Hhd, (ef_writes _ _ _ _ _ E2), (ef_img _ _ _ _ _ E2), Hw1, Hi1.
  split; [done|]. split; [done|]. split; [done|]. rewrite Hl3, Hl2, Hl1. split; [done|]. split; [done|].
  split; [rewrite Hz3, (io_size _ _ (ef_io _ _ _ _ _ E2)); exact Hsz|]. by exists bl.
Qed.

(** * The theorems *)

(** A commit is atomic.  It runs to the end, empties the header in memory and pins
    nothing any more; and wherever a crash cuts off the sequence [W] of its disk
    writes, the contents that the disk then stands for (its blocks with the committed
    part of the log replayed) are, for all blocks outside the log at once, either
    those the disk had before or those in the cache. *)
Theorem commit_crash_atomic pid s :
  committable pid s ->
  exists s' W, commit s = Ok tt s' /\ dk_writes (k_disk s') = W ++ dk_writes (k_disk s) /\
    lh_n (k_log s') = 0 /\ (forall k, home (k_log s) k -> k_view s' k = k_view s k) /\
    forall W9 W0, W = W9 ++ W0 ->
      (forall k, home (k_log s) k -> logical (k_log s) (apply_writes W0 (k_img s)) k = disk_block (k_img s) k) \/
      (forall k, home (k_log s) k -> logical (k_log s) (apply_writes W0 (k_img s)) k = k_view s k).
Proof.
  intros Hc. destruct (commit_run pid s Hc) as (s' & H0 & R & Hs' & HH0 & Hw & Hi & Hcl & Hl & _).
  destruct (run_Hn pid s Hc) as (_ & Hok & _). pose proof (ld_layout _ (cm_disk _ _ Hc)) as Hlay.
  pose proof (commit_atomic (k_log s) Hlay (k_img s) (k_view s) _ H0 (cm_empty _ _ Hc) Hok HH0 (run_rest pid s Hc)) as Hat.
  eexists s', _. split; [done|]. split; [exact Hw|]. split; [by rewrite Hl|]. split; [|exact Hat].
  intros k Hk. by apply (commit_view pid s Hc s' H0).
Qed.

(** Recovery establishes the logical contents of the disk and leaves an empty
    header; a crash in the middle of recovery does not change what the next recovery
    will establish. *)
Theorem recover_correct pid s :
  recoverable pid s ->
  exists s' W, recover_from_log s = Ok tt s' /\ dk_writes (k_disk s') = W ++ dk_writes (k_disk s) /\
    lh_n (k_log s') = 0 /\ hdr_n (disk_block (k_img s') (hd_blk (k_log s'))) = 0 /\
    (forall k, home (k_log s) k -> k_view s' k = logical (k_log s) (k_img s) k) /\
    forall W9 W0 k, W = W9 ++ W0 -> home (k_log s) k ->
      logical (k_log s) (apply_writes W0 (k_img s)) k = logical (k_log s) (k_img s) k.
Proof.
  intros Hrc. destruct (recover_run pid s Hrc) as (s' & H0 & R & Hs' & HH0 & Hw & Hi & Hcl & Hn & Hhd & _).
  pose proof (ld_layout _ (rc_disk _ _ Hrc)) as Hlay. pose proof (rc_header _ _ Hrc) as Hok.
  set (l := k_log s) in *. set (img := k_img s) in *.
  exists s', ((hd_blk l, H0) :: replay_writes l img). split; [done|]. split; [done|]. split; [done|].
  split; [by rewrite Hi, Hhd, disk_block_insert, decide_True|]. split.
  - intros k Hk. rewrite (session_clean pid s' k Hs' Hcl) by apply Hk. rewrite Hi, disk_block_insert.
    by rewrite decide_False by (by apply home_not_hd).
  - intros W9 W0 k HW Hk. destruct W9 as [|w W9]; simpl in HW.
    + subst W0. by apply (logical_clear l Hlay img H0 k Hok).
    + simplify_eq. by apply (logical_install l Hlay img W9 W0).
Qed.

(** The machine restarted on the disk that the crash left: the log is in the same
    place, the cache holds nothing pinned, and the driver serves the same blocks. *)
Record rebooted (pid : Z) (s0 : kstate) (img : image) (s : kstate) : Prop := mk_rebooted {
  rb_session : session pid [] s;
  rb_place : same_place (k_log s0) (k_log s);
  rb_len : length (lh_block (k_log s)) = Z.to_nat LOGSIZE;
  rb_img : k_img s = img;
  rb_drv : forall d n, drv_block s0 d n = true -> drv_block s d n = true;
  rb_clean : forall k, k <> (0, 0) -> ~ k_dirty s k;
  rb_spare : (1 < k_spare s)%nat }.

Lemma rebooted_recoverable s0 pid' img s :
  log_disk s0 -> rebooted pid' s0 img s ->
  (let H := disk_block img (hd_blk (k_log s0)) in header_ok (k_log s0) H /\
   forall t, (t < hdr_count H)%nat -> drv_block s0 (l_dev (k_log s0)) (u32 (hdr_block H t)) = true) ->
  recoverable pid' s.
Proof.
  intros Hc [Hs Hp Hlen Hi Hd Hcl Hsp] [Hok Hdrv]. destruct (Hp) as (Hdev & Hst & Hsz).
  assert (Hhd : hd_blk (k_log s) = hd_blk (k_log s0)) by (unfold hd_blk; by rewrite Hdev, Hst).
  destruct Hc as [Hlay Ha].
  split; rewrite ?Hhd, ?Hi; try done.
  - split; [destruct Hlay; split; rewrite ?Hst, ?Hsz; done|]. rewrite Hdev, Hst, Hsz. intros m Hm. by apply Hd, Ha.
  - by apply (header_place (k_log s0)).
  - rewrite Hdev. intros t Ht. by apply Hd, Hdrv.
Qed.

(** C1: crash recovery, end to end.  If the machine crashes at any point during a
    commit and is restarted, recover_from_log leaves either every block as it was
    before the transaction or every block as the transaction left it. *)
Theorem crash_recovery pid pid' s :
  committable pid s ->
  exists s' W, commit s = Ok tt s' /\ dk_writes (k_disk s') = W ++ dk_writes (k_disk s) /\
    forall W9 W0 sb, W = W9 ++ W0 -> rebooted pid' s (apply_writes W0 (k_img s)) sb ->
      exists s2, recover_from_log sb = Ok tt s2 /\
        ((forall k, home (k_log s) k -> k_view s2 k = disk_block (k_img s) k) \/
         (forall k, home (k_log s) k -> k_view s2 k = k_view s k)).
Proof.
  intros Hc. destruct (commit_run pid s Hc) as (s' & H0 & R & _ & HH0 & Hw & _).
  destruct (run_Hn pid s Hc) as (Hcnt & Hok & Hhb). pose proof (ld_layout _ (cm_disk _ _ Hc)) as Hlay.
  eexists s', _. split; [done|]. split; [exact Hw|]. intros W9 W0 sb HW Hrb.
  assert (Hrc : recoverable pid' sb).
  { apply (rebooted_recoverable s pid' _ sb (cm_disk _ _ Hc) Hrb). exact (crash_header pid s Hc H0 W9 W0 HH0 HW). }
  destruct (recover_run pid' sb Hrc) as (s2 & H1 & R2 & Hs2 & _ & _ & Hi2 & Hcl2 & _ & _).
  exists s2. split; [done|].
  pose proof (commit_atomic (k_log s) Hlay (k_img s) (k_view s) _ H0 (cm_empty _ _ Hc) Hok HH0 (run_rest pid s Hc) W9 W0 HW) as Hat.
  assert (Hv : forall k, home (k_log s) k -> k_view s2 k = logical (k_log s) (apply_writes W0 (k_img s)) k).
  { intros k Hk. rewrite (session_clean pid' s2 k Hs2 Hcl2) by apply Hk. rewrite Hi2, disk_block_insert.
    pose proof (proj2 (home_place _ _ k (rb_place _ _ _ _ Hrb)) Hk) as Hk'.
    rewrite decide_False by (by apply home_not_hd; [apply Hrc|]).
    rewrite <- (logical_place _ _ _ _ (rb_place _ _ _ _ Hrb)), <- (rb_img _ _ _ _ Hrb). done. }
  destruct Hat as [Hat|Hat]; [left|right]; intros k Hk; rewrite Hv by done; by apply Hat.
Qed.
End safe.
