(* ===== verification/LogTxn.v ===== *)
(** Transactions: log_write, begin_op and end_op (log.c).

    [log_inv] holds between file-system operations: the blocks listed in the header
    in memory are exactly the pinned ones, each listed once. *)

From S2P Require Import Prelude Layout CString State Spinlock Sched Sleeplock Ring Memide Bio Session Log LogDisk LogSafe.
Local Open Scope kernel_scope.

(** The block numbers listed in the header in memory. *)
Definition logged (l : log) : list Z := u32 <$> take (Z.to_nat (lh_n l)) (lh_block l).

Section txn.
Context {drv : Driver}.

Record log_inv (s : kstate) : Prop := mk_log_inv {
  li_disk : log_disk s;
  li_n : 0 <= lh_n (k_log s) < l_size (k_log s);
  li_len : length (lh_block (k_log s)) = Z.to_nat LOGSIZE;
  li_range : Forall (fun b => - 2 ^ 31 <= b < 2 ^ 31) (lh_block (k_log s));
  li_nodup : NoDup (logged (k_log s));
  li_home : forall n, n ∈ logged (k_log s) ->
    home (k_log s) (l_dev (k_log s), n) /\ drv_block s (l_dev (k_log s)) n = true;
  li_dirty : forall k, k <> (0, 0) ->
    k_dirty s k <-> k.1 = l_dev (k_log s) /\ k.2 ∈ logged (k_log s);
  li_empty : hdr_n (disk_block (k_img s) (hd_blk (k_log s))) = 0 }.

(** ** log_write *)
Lemma find_logged_spec bs bn i :
  (exists j, find_logged bs bn i = (i + j)%nat /\ u32 <$> bs !! j = Some bn) \/
  (find_logged bs bn i = (i + length bs)%nat /\ bn ∉ u32 <$> bs).
Proof.
  revert i. induction bs as [|b bs IH]; intros i; simpl.
  - right. split; [lia|set_solver].
  - destruct (Z.eqb_spec (u32 b) bn) as [E|E].
    + left. exists 0%nat. simpl. split; [lia|by rewrite E].
    + destruct (IH (S i)) as [(j & Hj & Hb)|[Hj Hn]].
      * left. exists (S j). split; [lia|done].
      * right. split; [lia|]. set_solver.
Qed.

(** The header after log_write of block [n]. *)
Definition log_add (n : Z) (l : log) : log :=
  let i := find_logged (take (Z.to_nat (lh_n l)) (lh_block l)) n 0 in
  let l1 := with_lh_block (<[i := s32 n]> (lh_block l)) l in
  if Z.of_nat i =? lh_n l then with_lh_n (lh_n l + 1) l1 else l1.

(** Log absorption: a block is listed once, however often it is written. *)
Lemma logged_add n l :
  0 <= n < 2 ^ 32 -> 0 <= lh_n l < Z.of_nat (length (lh_block l)) ->
  logged (log_add n l) = if decide (n ∈ logged l) then logged l else logged l ++ [n].
Proof.
  intros Hn Hl. unfold log_add, logged. set (m := Z.to_nat (lh_n l)). set (bl := lh_block l).
  assert (Hm : length (take m bl) = m) by (rewrite length_take; unfold m, bl; lia).
  destruct (find_logged_spec (take m bl) n 0) as [(j & Hj & Hb)|[Hj Hb]]; rewrite Hj; simpl.
  - apply fmap_Some in Hb as (b & Hb & ->).
    assert (Hjm : (j < m)%nat) by (rewrite <- Hm; by eapply lookup_lt_Some).
    rewrite (proj2 (Z.eqb_neq _ _)) by (unfold m in Hjm; lia). simpl. fold m.
    rewrite decide_True by (apply list_elem_of_fmap; exists b; split; [done|by eapply list_elem_of_lookup_2]).
    rewrite take_insert_lt by done. rewrite list_fmap_insert, u32_s32, u32_idemp. apply list_insert_id.
    by rewrite list_lookup_fmap, Hb.
  - rewrite Hm. rewrite (proj2 (Z.eqb_eq _ _)) by (unfold m; lia). simpl.
    rewrite decide_False by done.
    replace (Z.to_nat (lh_n l + 1)) with (S m) by (unfold m; lia).
    rewrite (take_S_r _ _ (s32 n)) by (apply list_lookup_insert_eq; unfold m, bl; lia).
    rewrite fmap_app, take_insert_ge by done. simpl. by rewrite u32_s32, u32_small.
Qed.

Lemma log_write_run pid H s i d n :
  session pid H s -> (i, (d, n)) ∈ H -> 0 <= n < 2 ^ 32 ->
  0 <= lh_n (k_log s) < l_size (k_log s) - 1 -> lh_n (k_log s) < LOGSIZE ->
  length (lh_block (k_log s)) = Z.to_nat LOGSIZE -> 1 <= outstanding (k_log s) ->
  log_write i s = Ok tt (set_log (log_add n (k_log s)) (upd_bufs i (set_flag B_DIRTY) s)).
Proof.
  intros Hs Hi Hn Hl1 Hl2 Hlen Ho. set (l := k_log s) in *.
  unfold log_write, get_log. erewrite bind_ok by reflexivity. fold l.
  rewrite (proj2 (Z.leb_gt _ _)), (proj2 (Z.leb_gt (l_size l - 1) _)), (proj2 (Z.ltb_ge _ _)) by lia. cbn [orb].
  pose proof (bio_calm _ _ (ss_bio _ _ _ Hs)) as Hc.
  rewrite (bind_ok _ _ _ _ _ (acquire_calm L_log pid s Hc I)). erewrite bind_ok by reflexivity.
  destruct (session_data _ _ _ _ _ _ Hs Hi) as (b & Hb & _ & _ & Hh & _).
  rewrite (bind_ok _ _ _ _ _ (get_buf_ok i (set_sync _ s) b Hb)). cbn [k_log set_sync]. fold l.
  assert (b_blockno b = n) as -> by (by destruct Hh as [[_ ?]%is_block_iff _ _ _]).
  set (j := find_logged _ n 0).
  assert (Hj : (j <= Z.to_nat (lh_n l))%nat).
  { unfold j. destruct (find_logged_spec (take (Z.to_nat (lh_n l)) (lh_block l)) n 0) as [(x & -> & Hx)|[-> _]].
    - apply fmap_Some in Hx as (y & Hx & _). apply lookup_lt_Some in Hx. rewrite length_take in Hx. lia.
    - rewrite length_take. lia. }
  erewrite bind_ok.
  2:{ apply set_lh_block_ok. cbn [k_log set_sync]. fold l. rewrite Hlen. unfold LOGSIZE, MAXOPBLOCKS in *. lia. }
  set (s1 := set_log _ _). cbn [k_log set_sync] in s1.
  rewrite (bind_ok _ _ s1 tt (set_log (log_add n l) s1)).
  2:{ unfold log_add. fold j. unfold s1, when. destruct (Z.of_nat j =? lh_n l); done. }
  unfold upd_buf, modify. erewrite bind_ok by reflexivity.
  rewrite (release_calm L_log pid s) by done. by destruct s.
Qed.

Lemma set_dirty_spec pid d n s i b :
  bio_ok pid s -> k_cores s !! i = Some b -> held pid d n b -> (d, n) <> (0, 0) ->
  stepped pid d n i b (set_flag B_DIRTY b) s (upd_bufs i (set_flag B_DIRTY) s) /\
  held pid d n (set_flag B_DIRTY b).
Proof.
  intros Hok Hb [Hk Hval Hlk Hdat] H0. pose proof (bio_inv _ _ Hok) as Hinv.
  pose proof (proj1 (is_block_iff _ _ _) Hk) as [Hd Hn].
  destruct (cores_fun (set_flag B_DIRTY) i b s ltac:(done) Hb) as (b0 & Hb0 & Eb & Ef).
  pose proof (cache_buf _ _ _ _ Hinv Hb) as [Href Hcl Hdi Hle].
  assert (Hval' : has_flag B_VALID (set_flag B_DIRTY b) = true) by (by rewrite valid_set_dirty).
  assert (Hcores : k_cores (upd_bufs i (set_flag B_DIRTY) s) = <[i := set_flag B_DIRTY b]> (k_cores s)).
  { by rewrite (k_cores_upd i _ b0 s Hb0), Ef. }
  assert (Hok' : bio_ok pid (upd_bufs i (set_flag B_DIRTY) s)).
  { apply (bio_ok_upd pid s i b0 _ Hok Hb0); [done| |].
    - rewrite Ef. split; [done| |intros _; split; [done|simpl; congruence]|done]. intros E. change (sl_locked (b_lock b) = 0) in E. by rewrite Hlk in E.
    - replace (b_dev (set_flag B_DIRTY b0)) with (b_dev b) by (by rewrite Eb).
      replace (b_blockno (set_flag B_DIRTY b0)) with (b_blockno b) by (by rewrite Eb).
      apply (no_other_uniq _ _ _ _ Hinv Hb). congruence. }
  split; [|split; done]. split; [done|apply io_upd_bufs|done|]. intros k Hk0. unfold k_view.
  pose proof (bio_inv _ _ Hok') as Hinv'. rewrite Hcores in *.
  rewrite (view_set_same _ _ i b) by done. simpl. by rewrite Hd, Hn.
Qed.

(** log_write pins the block and lists it; nobody sees a change of contents. *)
Lemma s_log_write pid H s i d n :
  session pid H s -> (i, (d, n)) ∈ H -> 0 <= n < 2 ^ 32 ->
  0 <= lh_n (k_log s) < l_size (k_log s) - 1 -> lh_n (k_log s) < LOGSIZE ->
  length (lh_block (k_log s)) = Z.to_nat LOGSIZE -> 1 <= outstanding (k_log s) ->
  exists s0, log_write i s = Ok tt (set_log (log_add n (k_log s)) s0) /\ session pid H s0 /\
    effect s s0 (k_view s) (fun k => k_dirty s k \/ k = (d, n)) [] /\ k_spare s0 = k_spare s.
Proof.
  intros Hs Hi Hn Hl1 Hl2 Hlen Ho. exists (upd_bufs i (set_flag B_DIRTY) s).
  split; [by apply (log_write_run pid H s i d n)|].
  pose proof (ss_real _ _ _ Hs _ _ Hi) as H0. pose proof (ss_bio _ _ _ Hs) as Hok. pose proof (bio_inv _ _ Hok) as Hinv.
  destruct (ss_held _ _ _ Hs _ _ _ Hi) as (b & Hb & Hh).
  destruct (set_dirty_spec pid d n s i b Hok Hb Hh H0) as [Hst Hh'].
  split; [by eapply session_stepped|]. pose proof (session_view _ _ _ _ _ Hs Hi) as Hview.
  unfold data_at in Hview. rewrite Hb in Hview. destruct Hst as [Hok' Hio Hc Hv].
  pose proof (lookup_lt_Some _ _ _ Hb) as Hlt. destruct (Hh) as [Hk _ _ _]. apply is_block_iff in Hk as [Hd Hnn].
  split.
  - split; [done| | |done|done].
    + intros k Hk0. rewrite Hv by done. case_decide; [|done]. subst k. by rewrite <- Hview.
    + intros k Hk0. unfold k_dirty. rewrite Hc, (dirty_insert_same _ _ _ _ _ _ Hinv Hb) by done.
      rewrite Hd, Hnn. case_decide as E.
      * subst k. rewrite dirty_set. tauto.
      * tauto.
  - unfold k_spare. rewrite Hc. pose proof (nspare_insert _ i b (set_flag B_DIRTY b) Hb) as Hns.
    rewrite (k_cores_unused _ _ _ _ Hh _ (cache_buf _ _ _ _ Hinv Hb)) in Hns.
    assert (Hb' : k_cores (upd_bufs i (set_flag B_DIRTY) s) !! i = Some (set_flag B_DIRTY b))
      by (rewrite Hc; by apply list_lookup_insert_eq).
    rewrite (k_cores_unused _ _ _ _ Hh' _ (cache_buf _ _ _ _ (bio_inv _ _ Hok') Hb')) in Hns. lia.
Qed.

Lemma log_add_place n l : l_dev (log_add n l) = l_dev l /\ l_start (log_add n l) = l_start l /\
  l_size (log_add n l) = l_size l /\ outstanding (log_add n l) = outstanding l /\
  committing (log_add n l) = committing l /\ length (lh_block (log_add n l)) = length (lh_block l) /\
  (lh_n (log_add n l) = lh_n l \/ lh_n (log_add n l) = lh_n l + 1).
Proof.
  unfold log_add. destruct (_ =? _); simpl; rewrite ?length_insert; repeat (split; [done|]); auto.
Qed.

(** log_write keeps the invariant of the log, and the header grows by at most one. *)
Lemma log_inv_write pid H s i n s0 :
  session pid H s -> log_inv s -> (i, (l_dev (k_log s), n)) ∈ H -> 0 <= n < 2 ^ 31 ->
  lh_n (k_log s) < l_size (k_log s) - 1 ->
  home (k_log s) (l_dev (k_log s), n) -> drv_block s (l_dev (k_log s)) n = true ->
  effect s s0 (k_view s) (fun k => k_dirty s k \/ k = (l_dev (k_log s), n)) [] ->
  log_inv (set_log (log_add n (k_log s)) s0).
Proof.
  intros Hs [Hld Hn Hlen Hrg Hnd Hho Hdi Hem] Hi Hb Hsz Hhome Hdrv E. set (l := k_log s) in *.
  destruct (log_add_place n l) as (Hd & Hst & Hz & _ & _ & Hl & Hln).
  pose proof (logged_add n l ltac:(lia)) as Hlog.
  rewrite Hlen in Hlog. destruct (Hld) as [Hlay _]. fold l in Hlay. pose proof (ll_n _ Hlay).
  specialize (Hlog ltac:(unfold LOGSIZE, MAXOPBLOCKS in *; lia)).
  assert (Hel : forall x, x ∈ logged (log_add n l) <-> x ∈ logged l \/ x = n).
  { intros x. rewrite Hlog. case_decide; [|set_solver]. split; [tauto|]. intros [? | ->]; done. }
  assert (Hdk : forall d b, drv_block (set_log (log_add n l) s0) d b = drv_block s d b).
  { intros d b. apply drv_block_disk. simpl. apply (io_size _ _ (ef_io _ _ _ _ _ E)). }
  assert (Hhm : forall k, home (log_add n l) k <-> home l k) by (intros k; unfold home; by rewrite Hd, Hst, Hz).
  split; cbn [k_log set_log]; rewrite ?Hd, ?Hz, ?Hl; try done.
  - destruct Hld as [_ Ha]. split; cbn [k_log set_log].
    + destruct Hlay. split; by rewrite ?Hst, ?Hz.
    + rewrite Hd, Hst, Hz. intros m Hm. rewrite Hdk. by apply Ha.
  - lia.
  - unfold log_add. assert (Hr' : Forall (fun b => - 2 ^ 31 <= b < 2 ^ 31) (<[find_logged (take (Z.to_nat (lh_n l)) (lh_block l)) n 0 := s32 n]> (lh_block l))).
    { apply Forall_insert; [done|]. apply s32_range. }
    destruct (_ =? _); exact Hr'.
  - rewrite Hlog. case_decide; [done|]. apply list.NoDup_app. split; [done|]. split; [|apply list.NoDup_singleton].
    intros x Hx ->%list_elem_of_singleton. done.
  - intros x [Hx | ->]%Hel; rewrite Hhm, Hdk; [by apply Hho|done].
  - intros k Hk. change (k_dirty (set_log _ s0) k) with (k_dirty s0 k).
    rewrite (ef_dirty _ _ _ _ _ E), Hdi, Hel by done. destruct k as [kd kn]. simpl. split.
    + intros [[? ?]|[= -> ->]]; auto.
    + intros [-> [? | ->]]; auto.
  - change (hd_blk (log_add n l)) with (l_dev (log_add n l), u32 (l_start (log_add n l))). rewrite Hd, Hst.
    change (k_img (set_log _ s0)) with (k_img s0). rewrite (ef_img _ _ _ _ _ E). exact Hem.
Qed.

(** ** Committing *)
Lemma lh_home_logged s t : (t < Z.to_nat (lh_n (k_log s)))%nat -> 0 <= lh_n (k_log s) <= Z.of_nat (length (lh_block (k_log s))) ->
  exists n, logged (k_log s) !! t = Some n /\ lh_home (k_log s) t = (l_dev (k_log s), n).
Proof.
  intros Ht Hn. assert (Hb : is_Some (lh_block (k_log s) !! t)) by (apply lookup_lt_is_Some; lia).
  destruct Hb as [b Hb]. exists (u32 b). unfold logged, lh_home. rewrite list_lookup_fmap, lookup_take_lt, Hb by lia. done.
Qed.

Lemma log_inv_committable pid s :
  session pid [] s -> log_inv s -> 0 < lh_n (k_log s) -> (0 < k_spare s)%nat -> committable pid s.
Proof.
  intros Hs [Hld Hn Hlen Hrg Hnd Hho Hdi Hem] Hpos Hsp. destruct (Hld) as [[] _].
  assert (Hln : 0 <= lh_n (k_log s) <= Z.of_nat (length (lh_block (k_log s))))
    by (rewrite Hlen; unfold LOGSIZE, MAXOPBLOCKS in *; lia).
  split; try done; try lia.
  - intros t Ht. destruct (lh_home_logged s t Ht Hln) as (n & Hl & Hh). rewrite Hh.
    split; [apply lookup_lt_is_Some; lia|]. apply Hho. by eapply list_elem_of_lookup_2.
  - intros k Hk. rewrite Hdi by done. rewrite list_elem_of_fmap. split.
    + intros [Hd Hin]. apply list_elem_of_lookup_1 in Hin as [t Ht]. exists t.
      assert (Hlt : (t < Z.to_nat (lh_n (k_log s)))%nat).
      { apply lookup_lt_Some in Ht. unfold logged in Ht. rewrite length_fmap, length_take in Ht. lia. }
      split; [|apply elem_of_seq; lia]. destruct (lh_home_logged s t Hlt Hln) as (n & Hl & ->).
      destruct k. simpl in *. congruence.
    + intros (t & -> & Ht%elem_of_seq). destruct (lh_home_logged s t ltac:(lia) Hln) as (n & Hl & ->). simpl.
      split; [done|]. by eapply list_elem_of_lookup_2.
Qed.

Lemma commit_any pid s :
  session pid [] s -> log_inv s -> (0 < k_spare s)%nat ->
  exists s', commit s = Ok tt s' /\ session pid [] s' /\ k_log s' = with_lh_n 0 (k_log s) /\
    (forall k, k <> (0, 0) -> ~ k_dirty s' k) /\ (forall k, home (k_log s) k -> k_view s' k = k_view s k).
Proof.
  intros Hs Hli Hsp. destruct (Z.lt_total 0 (lh_n (k_log s))) as [Hpos|[H0|Hneg]].
  - pose proof (log_inv_committable pid s Hs Hli Hpos Hsp) as Hc.
    destruct (commit_run pid s Hc) as (s' & H0 & R & Hs' & HH0 & Hw & Hi & Hcl & Hl & Hz).
    exists s'. split; [done|]. split; [done|]. split; [done|]. split; [done|].
    intros k Hk. by apply (commit_view pid s Hc s' H0).
  - exists s. split.
    { unfold commit, get_log. erewrite bind_ok by reflexivity. rewrite (proj2 (Z.ltb_ge _ _)) by lia. done. }
    split; [done|]. split; [rewrite H0; by destruct (k_log s)|]. split; [|done].
    intros k Hk. rewrite (li_dirty _ Hli) by done. unfold logged. rewrite <- H0. simpl. set_solver.
  - pose proof (li_n _ Hli). lia.
Qed.

Lemma log_inv_log_fields s f :
  (forall l, l_dev (f l) = l_dev l /\ l_start (f l) = l_start l /\ l_size (f l) = l_size l /\
             lh_n (f l) = lh_n l /\ lh_block (f l) = lh_block l) ->
  log_inv s -> log_inv (set_log (f (k_log s)) s).
Proof.
  intros Hf [[Hlay Ha] Hn Hlen Hrg Hnd Hho Hdi Hem]. destruct (Hf (k_log s)) as (Hd & Hst & Hz & Hln & Hlb).
  assert (Hlg : logged (f (k_log s)) = logged (k_log s)) by (unfold logged; by rewrite Hln, Hlb).
  assert (Hdk : forall d b, drv_block (set_log (f (k_log s)) s) d b = drv_block s d b) by (intros; by apply drv_block_disk).
  split; cbn [k_log set_log]; rewrite ?Hd, ?Hst, ?Hz, ?Hln, ?Hlb, ?Hlg; try done.
  - split; cbn [k_log set_log]; rewrite ?Hd, ?Hst, ?Hz.
    + destruct Hlay. split; by rewrite ?Hst, ?Hz.
    + intros m Hm. rewrite Hdk. by apply Ha.
  - intros n Hin. rewrite Hdk. destruct (Hho n Hin). split; [|done]. unfold home. by rewrite Hd, Hst, Hz.
  - unfold hd_blk. by rewrite Hd, Hst.
Qed.

(** The last end_op commits, with the log marked as committing. *)
Definition closing (l : log) : log := with_committing 1 (with_outstanding 0 l).

Lemma end_op_commit pid s s1 : session pid [] s -> outstanding (k_log s) = 1 -> committing (k_log s) = 0 ->
  commit (set_log (closing (k_log s)) s) = Ok tt s1 -> session pid [] s1 ->
  end_op s = Ok tt (set_ptable (woken C_log (k_ptable s1)) (set_log (with_committing 0 (k_log s1)) s1)).
Proof.
  intros Hs Ho Hcm R1 Hs1. set (l := k_log s) in *. unfold end_op, get_log.
  pose proof (bio_calm _ _ (ss_bio _ _ _ Hs)) as Hc.
  rewrite (bind_ok _ _ _ _ _ (acquire_calm L_log pid s Hc I)).
  rewrite (bind_ok _ _ _ _ _ (upd_log_ok _ _)). erewrite bind_ok by reflexivity.
  cbn [k_log set_log set_sync]. fold l. cbn [committing outstanding with_outstanding]. rewrite Hcm, Ho.
  cbn [Z.eqb negb Z.sub Z.add Z.opp Z.pos_sub].
  erewrite (bind_ok (upd_log (with_committing 1) ;;; ret true)) by reflexivity.
  erewrite bind_ok; [|apply (release_calm L_log pid s); [done|done|reflexivity]]. cbn [when].
  match goal with |- context [bind commit _ ?st] => assert (Est : st = set_log (closing l) s) by (by destruct s); rewrite Est; clear Est end.
  rewrite (bind_ok _ _ _ _ _ R1). pose proof (bio_calm _ _ (ss_bio _ _ _ Hs1)) as Hc1.
  rewrite (bind_ok _ _ _ _ _ (acquire_calm L_log pid s1 Hc1 I)).
  rewrite (bind_ok _ _ _ _ _ (upd_log_ok _ _)).
  erewrite bind_ok; [|apply (wakeup_with L_log C_log pid s1); [done|done|done|reflexivity]].
  rewrite (release_calm L_log pid s1) by done. done.
Qed.

(** Durability.  When the last outstanding operation ends, end_op runs to the end,
    and every block outside the log is on the disk with the contents the operations
    gave it; the log is empty and ready for the next transaction. *)
Theorem end_op_durable pid s :
  session pid [] s -> log_inv s -> outstanding (k_log s) = 1 -> committing (k_log s) = 0 -> (0 < k_spare s)%nat ->
  exists s', end_op s = Ok tt s' /\
    outstanding (k_log s') = 0 /\ committing (k_log s') = 0 /\ lh_n (k_log s') = 0 /\
    forall k, home (k_log s) k -> k_view s' k = k_view s k /\ disk_block (k_img s') k = k_view s k.
Proof.
  intros Hs Hli Ho Hcm Hsp. destruct (commit_any pid (set_log (closing (k_log s)) s)) as (s1 & R1 & Hs1 & Hl1 & Hcl1 & Hv1).
  { by apply session_set_log. } { by apply (log_inv_log_fields s closing). } { done. }
  eexists. split; [by apply (end_op_commit pid s s1)|].
  cbn [k_log set_log set_sync set_ptable with_committing outstanding committing lh_n]. rewrite Hl1.
  split; [done|]. split; [done|]. split; [done|]. intros k Hk.
  assert (Hv : k_view s1 k = k_view s k) by (by apply Hv1). split; [exact Hv|].
  rewrite <- Hv. symmetry. apply (session_clean pid s1 k Hs1 Hcl1), Hk.
Qed.

(** ** Reservation of log space *)
Definition log_room (s : kstate) : Prop :=
  lh_n (k_log s) + outstanding (k_log s) * MAXOPBLOCKS <= LOGSIZE /\ committing (k_log s) = 0.

Definition any_state (s : kstate) : Prop := True.

#[local] Instance any_data : DataInv any_state.
Proof. by split. Qed.

Lemma begin_op_loop_guar fuel i s : in_cs L_log i s ->
  guar (cs_guar any_state L_log) (cs_rely any_state L_log i)
    (fun _ s' => log_room s' /\ free_lock L_log (k_sync s') /\ depth (k_sync s') = 0) (begin_op_loop fuel s).
Proof.
  revert s. induction fuel as [|fuel IH]; intros s Hcs; cbn [begin_op_loop]; unfold get_log; erewrite bind_ok by reflexivity.
  all: destruct (committing (k_log s) =? 0) eqn:Ec; cbn [negb];
    [destruct (LOGSIZE <? lh_n (k_log s) + (outstanding (k_log s) + 1) * MAXOPBLOCKS) eqn:El|].
  all: try done.
  all: try (eapply guar_bind; [apply sleep_guar; [apply _|exact Hcs|done|done]|]; intros [] s' [Hcs' _]; by apply IH).
  all: zbool; rewrite (bind_ok _ _ _ _ _ (upd_log_ok _ _)); destruct Hcs as [Hy Hh Hd Hf Hcur Hp];
    rewrite release_k by (done || (cbn [k_sync set_log]; lia)); simpl;
    destruct (sync_ok_unlock L_log _ Hy ltac:(lia)) as [_ Hd']; split; [split; simpl; [lia|done]|];
    (split; [unfold free_lock, unlock; cbn [locks]; by rewrite lookup_insert_eq|rewrite Hd'; lia]).
Qed.

End txn.
