(* ===== verification/Txn.v ===== *)
(** Updates of blocks within a transaction: the rules by which the file system
    reasons about bread, log_write and brelse (bio.c and log.c).

    [txn pid H r s]: process [pid] is inside a transaction, holds the buffers [H],
    and the log has room for [r] more blocks.  [upd s s' V]: from [s] to [s'] only
    the cache, the log in memory and sleeping processes have changed, the blocks now
    have the contents [V], and nothing has been written to the disk. *)

From S2P Require Import Prelude Layout CString State Spinlock Sched Sleeplock Ring Memide Bio Session Log LogDisk LogSafe LogTxn.
Local Open Scope kernel_scope.

Definition pinned (l : log) (k : Z * Z) : Prop := k.1 = l_dev l /\ k.2 ∈ logged l.

#[export] Instance pinned_dec l k : Decision (pinned l k).
Proof. unfold pinned. apply _. Defined.

(** The held buffers that are not pinned. *)
Definition loose (l : log) (H : list (nat * (Z * Z))) : list (nat * (Z * Z)) := filter (fun p => ~ pinned l p.2) H.

Record upd (s s' : kstate) (V : Z * Z -> list Z) : Prop := mk_upd {
  up_rest : s' = set_log (k_log s') (set_ptable (k_ptable s') (set_disk (k_disk s') (set_bcache (k_bcache s') s)));
  up_size : dk_size (k_disk s') = dk_size (k_disk s);
  up_log : same_place (k_log s) (k_log s') /\ outstanding (k_log s') = outstanding (k_log s) /\
    committing (k_log s') = committing (k_log s);
  up_writes : dk_writes (k_disk s') = dk_writes (k_disk s);
  up_img : k_img s' = k_img s;
  up_pinned : forall k, pinned (k_log s) k -> pinned (k_log s') k;
  up_view : forall k, k <> (0, 0) -> k_view s' k = V k }.

Lemma upd_refl s : upd s s (k_view s).
Proof. split; try done. by destruct s. Qed.

Lemma upd_trans s1 s2 s3 V V' : upd s1 s2 V -> upd s2 s3 V' -> upd s1 s3 V'.
Proof.
  intros [E1 Z1 (P1 & O1 & C1) W1 I1 Q1 _] [E2 Z2 (P2 & O2 & C2) W2 I2 Q2 H2]. split; try congruence; try done; auto.
  - rewrite E2. rewrite E1. done.
  - destruct P1 as (?&?&?), P2 as (?&?&?). repeat split; congruence.
Qed.

Lemma upd_view s s' V V' : upd s s' V -> (forall k, k <> (0, 0) -> V k = V' k) -> upd s s' V'.
Proof. intros [] HV. split; try done. intros k Hk. rewrite <- HV by done. auto. Qed.

Lemma upd_effect s s' V D : effect s s' V D [] -> upd s s' V.
Proof.
  intros [Hio Hv _ Hw Hi]. split; try done.
  - rewrite (io_log _ _ Hio). destruct Hio as [E _]. rewrite E at 1. by destruct s.
  - by apply io_size.
  - by rewrite (io_log _ _ Hio).
  - by rewrite (io_log _ _ Hio).
Qed.

Lemma upd_set_log s s' V l : upd s s' V -> same_place (k_log s') l -> outstanding l = outstanding (k_log s') ->
  committing l = committing (k_log s') -> (forall k, pinned (k_log s') k -> pinned l k) ->
  upd s (set_log l s') V.
Proof.
  intros [E1 Z1 (P1 & O1 & C1) W1 I1 Q1 H1] P O C Q. split; try done; auto.
  - rewrite E1. done.
  - simpl. split; [|split; congruence]. destruct P1 as (?&?&?), P as (?&?&?). repeat split; congruence.
Qed.

Lemma upd_fs s s' V : upd s s' V -> k_fs s' = k_fs s.
Proof. intros E. by rewrite (up_rest _ _ _ E). Qed.
Lemma upd_dev s s' V : upd s s' V -> l_dev (k_log s') = l_dev (k_log s).
Proof. intros E. destruct (up_log _ _ _ E) as [(?&?&?) _]. congruence. Qed.
Lemma upd_home s s' V k : upd s s' V -> home (k_log s') k <-> home (k_log s) k.
Proof. intros E. apply home_place, (up_log _ _ _ E). Qed.

Section txn.
Context {drv : Driver}.
Implicit Types H : list (nat * (Z * Z)).

Lemma upd_drv s s' V d n : upd s s' V -> drv_block s' d n = drv_block s d n.
Proof. intros E. apply drv_block_disk. apply E. Qed.

Record txn (pid : Z) (H : list (nat * (Z * Z))) (r : Z) (s : kstate) : Prop := mk_txn {
  tx_session : session pid H s;
  tx_log : log_inv s;
  tx_out : 1 <= outstanding (k_log s);
  tx_room : lh_n (k_log s) + r <= l_size (k_log s) - 1;
  tx_spare : NBUF <= Z.of_nat (k_spare s) + lh_n (k_log s) + Z.of_nat (length (loose (k_log s) H));
  tx_clean : forall i k, (i, k) ∈ H -> pinned (k_log s) k \/ k_view s k = disk_block (k_img s) k }.

Lemma txn_weaken pid H r r' s : r' <= r -> txn pid H r s -> txn pid H r' s.
Proof. intros Hr []. split; try done. lia. Qed.

Lemma pinned_dirty s k : log_inv s -> k <> (0, 0) -> k_dirty s k <-> pinned (k_log s) k.
Proof. intros Hl Hk. by apply (li_dirty _ Hl). Qed.

Lemma length_loose l H : (length (loose l H) <= length H)%nat.
Proof. apply length_filter. Qed.

Lemma loose_cons l i k H : loose l ((i, k) :: H) = if decide (pinned l k) then loose l H else (i, k) :: loose l H.
Proof. unfold loose. rewrite filter_cons. simpl. repeat case_decide; tauto. Qed.

(** The log is not touched, and neither is the set of pinned blocks. *)
Lemma log_inv_effect s s' V : log_inv s -> effect s s' V (k_dirty s) [] -> log_inv s'.
Proof.
  intros [Hld Hn Hlen Hrg Hnd Hho Hdi Hem] E. pose proof (ef_io _ _ _ _ _ E) as Hio.
  pose proof (io_log _ _ Hio) as Hl.
  split; rewrite ?Hl; try done.
  - by apply (log_disk_io s).
  - intros n Hin. rewrite (drv_io s s') by done. auto.
  - intros k Hk. rewrite (ef_dirty _ _ _ _ _ E) by done. auto.
  - rewrite (ef_img _ _ _ _ _ E). exact Hem.
Qed.

Lemma t_bread pid H r s n :
  txn pid H r s -> let d := l_dev (k_log s) in
  ((d, n) ∉ H.*2) -> (d, n) <> (0, 0) -> drv_block s d n = true -> Z.of_nat (length H) <= r ->
  exists i s', bread d n s = Ok i s' /\ txn pid ((i, (d, n)) :: H) r s' /\ upd s s' (k_view s).
Proof.
  intros [Hs Hl Ho Hr Hsp Hcl] d HkH H0 Hdrv Hroom.
  assert (Hpos : (0 < k_spare s)%nat).
  { pose proof (length_loose (k_log s) H). destruct (ld_layout _ (li_disk _ Hl)).
    unfold NBUF, LOGSIZE, MAXOPBLOCKS in *. lia. }
  destruct (s_bread pid H s d n Hs HkH H0 Hdrv (or_introl Hpos)) as (i & s' & Hrun & Hs' & E & Hsp1 & Hsp2).
  exists i, s'. split; [done|]. pose proof (upd_effect _ _ _ _ E) as U. split; [|done].
  pose proof (io_log _ _ (ef_io _ _ _ _ _ E)) as El.
  split; rewrite ?El; try done.
  - by apply (log_inv_effect s s' (k_view s)).
  - rewrite loose_cons. case_decide as Hp.
    + rewrite Hsp2; [done|]. by apply pinned_dirty.
    + cbn [length]. lia.
  - intros j k Hj. rewrite (up_img _ _ _ U).
    assert (Hk0 : k <> (0, 0)) by (by eapply (ss_real _ _ _ Hs')).
    rewrite (up_view _ _ _ U) by done.
    apply elem_of_cons in Hj as [[= -> ->]|Hj]; [|by eapply Hcl].
    destruct (decide (pinned (k_log s) (d, n))) as [|Hp]; [by left|right].
    apply (view_clean pid H); [done|done|]. by rewrite pinned_dirty.
Qed.

Lemma t_brelse pid H r s i k :
  txn pid ((i, k) :: H) r s ->
  exists s', brelse i s = Ok tt s' /\ txn pid H r s' /\ upd s s' (k_view s).
Proof.
  intros [Hs Hl Ho Hr Hsp Hcl].
  assert (Hk0 : k <> (0, 0)) by (eapply (ss_real _ _ _ Hs); apply list_elem_of_here).
  destruct (s_brelse pid [] H s i k Hs) as (s' & Hrun & Hs' & E & Hsp1 & Hsp2).
  { rewrite pinned_dirty by done. eapply Hcl. apply list_elem_of_here. }
  exists s'. split; [done|]. pose proof (upd_effect _ _ _ _ E) as U. split; [|done].
  pose proof (io_log _ _ (ef_io _ _ _ _ _ E)) as El.
  split; rewrite ?El; try done.
  - by apply (log_inv_effect s s' (k_view s)).
  - rewrite loose_cons in Hsp. case_decide as Hp; [lia|]. cbn [length] in Hsp.
    rewrite Hsp2; [lia|]. by rewrite pinned_dirty.
  - intros j k' Hj. rewrite (up_img _ _ _ U).
    assert (k' <> (0, 0)) by (by eapply (ss_real _ _ _ Hs')).
    rewrite (up_view _ _ _ U) by done. eapply Hcl. by apply list_elem_of_further.
Qed.

(** The block of a held buffer is held by no other buffer. *)
Lemma session_uniq pid i k H s : session pid ((i, k) :: H) s -> k ∉ H.*2.
Proof.
  intros Hs Hin. apply list_elem_of_fmap in Hin as ([j [d n]] & -> & Hj). simpl in *.
  destruct (ss_held _ _ _ Hs i d n ltac:(apply list_elem_of_here)) as (b & Hb & [[Hd Hn]%is_block_iff _ _ _]).
  destruct (ss_held _ _ _ Hs j d n ltac:(by apply list_elem_of_further)) as (c & Hc & [[Hd' Hn']%is_block_iff _ _ _]).
  assert (i = j) as ->.
  { apply (ci_uniq _ _ (bio_inv _ _ (ss_bio _ _ _ Hs)) i j b c); try congruence.
    rewrite Hd, Hn. by eapply (ss_real _ _ _ Hs), list_elem_of_here. }
  pose proof (ss_nodup _ _ _ Hs) as Hnd. cbn in Hnd. apply list.NoDup_cons in Hnd as [Hnd _].
  destruct Hnd. apply list_elem_of_fmap. by exists (j, (d, n)).
Qed.

Lemma length_logged l : 0 <= lh_n l <= Z.of_nat (length (lh_block l)) -> Z.of_nat (length (logged l)) = lh_n l.
Proof. intros Hl. unfold logged. rewrite length_fmap, length_take. lia. Qed.

(** The pinned blocks after log_write. *)
Lemma pinned_add l n k : 0 <= n < 2 ^ 32 -> 0 <= lh_n l < Z.of_nat (length (lh_block l)) ->
  pinned (log_add n l) k <-> pinned l k \/ k = (l_dev l, n).
Proof.
  intros Hn Hl. unfold pinned. destruct (log_add_place n l) as (-> & _). rewrite logged_add by done.
  destruct k as [d m]. simpl. case_decide as E.
  - split; [tauto|]. intros [?|[= -> ->]]; done.
  - rewrite elem_of_app, list_elem_of_singleton. split.
    + intros [-> [? | ->]]; auto.
    + intros [[-> ?]|[= -> ->]]; auto.
Qed.

Lemma log_add_n l n : 0 <= n < 2 ^ 32 -> 0 <= lh_n l < Z.of_nat (length (lh_block l)) ->
  lh_n (log_add n l) = if decide (pinned l (l_dev l, n)) then lh_n l else lh_n l + 1.
Proof.
  intros Hn Hl. destruct (log_add_place n l) as (_ & _ & _ & _ & _ & Hlen & Hln).
  rewrite <- (length_logged (log_add n l)) by (rewrite Hlen; lia).
  rewrite logged_add by done. pose proof (length_logged l ltac:(lia)).
  unfold pinned. simpl. repeat case_decide; try tauto. rewrite length_app. simpl. lia.
Qed.

Lemma loose_add l n H : 0 <= n < 2 ^ 32 -> 0 <= lh_n l < Z.of_nat (length (lh_block l)) ->
  (l_dev l, n) ∉ H.*2 -> loose (log_add n l) H = loose l H.
Proof.
  intros Hn Hl HnH. induction H as [|[j k] H IH]; [done|]. rewrite !loose_cons.
  apply not_elem_of_cons in HnH as [Hk HnH]. rewrite IH by done. simpl in Hk.
  assert (k <> (l_dev l, n)) by congruence. pose proof (pinned_add l n k Hn Hl). repeat case_decide; try done; tauto.
Qed.

(** A held buffer is given new contents, logged and released: the block has the new
    contents, and one unit of log space is used if it was not in the log before. *)
Lemma t_commit_pinned pid H r s i n v :
  txn pid ((i, (l_dev (k_log s), n)) :: H) r s -> 1 <= r -> 0 <= n < 2 ^ 31 ->
  home (k_log s) (l_dev (k_log s), n) -> drv_block s (l_dev (k_log s)) n = true -> block_ok v ->
  exists s2 s', log_write i (upd_bufs i (with_b_data v) s) = Ok tt s2 /\ brelse i s2 = Ok tt s' /\
    txn pid H (if decide (pinned (k_log s) (l_dev (k_log s), n)) then r else r - 1) s' /\
    pinned (k_log s') (l_dev (k_log s), n) /\ upd s s' (put (l_dev (k_log s), n) v (k_view s)).
Proof.
  intros [Hs Hl Ho Hr Hsp Hcl] Hr1 Hn Hhome Hdrv Hv. set (l := k_log s) in *. set (d := l_dev l) in *.
  set (HH := (i, (d, n)) :: H) in *. assert (Hi : (i, (d, n)) ∈ HH) by apply list_elem_of_here.
  destruct (s_write pid HH s i (d, n) v Hs Hi Hv) as (Hs1 & E1 & Sp1).
  set (s1 := upd_bufs i (with_b_data v) s) in *. assert (El : k_log s1 = l) by done.
  pose proof (log_inv_effect _ _ _ Hl E1) as Hl1. pose proof (li_n _ Hl) as Hln. fold l in Hln.
  pose proof (li_len _ Hl) as Hlen. fold l in Hlen. pose proof (ll_n _ (ld_layout _ (li_disk _ Hl))) as Hmax. fold l in Hmax.
  assert (Hbl : 0 <= lh_n l < Z.of_nat (length (lh_block l))) by (rewrite Hlen; unfold LOGSIZE, MAXOPBLOCKS in *; lia).
  destruct (s_log_write pid HH s1 i d n Hs1 Hi) as (s2 & R2 & Hs2 & E2 & Sp2); rewrite ?El; try lia; try done.
  rewrite El in R2. pose proof (log_inv_write pid HH s1 i n s2 Hs1 Hl1) as Hl2. rewrite El in Hl2.
  assert (Hdrv1 : drv_block s1 d n = true) by (by rewrite (drv_io s s1) by apply E1).
  specialize (Hl2 Hi Hn ltac:(lia) Hhome Hdrv1 E2). set (s3 := set_log (log_add n l) s2) in *.
  destruct (log_add_place n l) as (Hd & Hst & Hz & Hou & Hco & _ & _).
  assert (U : upd s s3 (put (d, n) v (k_view s))).
  { apply upd_set_log.
    - eapply upd_view; [eapply upd_trans; eapply upd_effect; [exact E1|exact E2]|]. intros k Hk.
      by apply (ef_view _ _ _ _ _ E1).
    - rewrite (io_log _ _ (ef_io _ _ _ _ _ E2)). by repeat split.
    - rewrite (io_log _ _ (ef_io _ _ _ _ _ E2)). done.
    - rewrite (io_log _ _ (ef_io _ _ _ _ _ E2)). done.
    - rewrite (io_log _ _ (ef_io _ _ _ _ _ E2)). intros k Hk. apply pinned_add; [lia|done|by left]. }
  assert (Hsess : session pid HH s3) by (by apply session_set_log).
  pose proof (session_uniq _ _ _ _ _ Hs) as HkH.
  set (r' := if decide (pinned l (d, n)) then r else r - 1).
  assert (T : txn pid HH r' s3).
  { split; try done; cbn [k_log s3 set_log].
    - by rewrite Hou.
    - rewrite Hz, log_add_n by lia. unfold r'. fold d. case_decide; lia.
    - change (k_spare s3) with (k_spare s2). rewrite Sp2, Sp1. unfold HH in Hsp |- *. rewrite loose_cons in Hsp |- *.
      rewrite (loose_add l n) by (done || lia).
      rewrite log_add_n by lia. rewrite (decide_True (P := pinned (log_add n l) (d, n))).
      + fold d. destruct (decide (pinned l (d, n))); cbn [length] in Hsp; lia.
      + apply pinned_add; [lia|done|by right].
    - intros j k Hj. rewrite pinned_add by lia. apply elem_of_cons in Hj as [[= -> ->]|Hj]; [left; by right|].
      destruct (Hcl j k) as [Hp|Hp]; [by apply list_elem_of_further|left; by left|right].
      rewrite (up_view _ _ _ U), (up_img _ _ _ U), <- Hp by (eapply (ss_real _ _ _ Hs); by apply list_elem_of_further).
      unfold put. case_decide; [|done]. subst k. destruct HkH. apply list_elem_of_fmap. by exists (j, (d, n)). }
  destruct (t_brelse pid H r' s3 i (d, n) T) as (s4 & R4 & T4 & U4).
  exists s3, s4. split; [done|]. split; [done|]. split; [done|]. split.
  { apply (up_pinned _ _ _ U4). cbn [k_log s3 set_log]. apply pinned_add; [lia|done|by right]. }
  eapply upd_view; [by eapply upd_trans|]. intros k Hk. by apply (up_view _ _ _ U).
Qed.

Lemma t_commit_buf pid H r s i n v :
  txn pid ((i, (l_dev (k_log s), n)) :: H) r s -> 1 <= r -> 0 <= n < 2 ^ 31 ->
  home (k_log s) (l_dev (k_log s), n) -> drv_block s (l_dev (k_log s)) n = true -> block_ok v ->
  exists s2 s', log_write i (upd_bufs i (with_b_data v) s) = Ok tt s2 /\ brelse i s2 = Ok tt s' /\
    txn pid H (r - 1) s' /\ upd s s' (put (l_dev (k_log s), n) v (k_view s)).
Proof.
  intros T Hr Hn Hh Hd Hv. destruct (t_commit_pinned pid H r s i n v T Hr Hn Hh Hd Hv) as (s2 & s' & R2 & R3 & T' & _ & U).
  exists s2, s'. do 2 (split; [done|]). split; [|done]. eapply txn_weaken; [|exact T']. case_decide; lia.
Qed.

(** bread returns a buffer with the contents of the block. *)
Lemma t_read pid H r s n :
  txn pid H r s -> let d := l_dev (k_log s) in
  ((d, n) ∉ H.*2) -> (d, n) <> (0, 0) -> drv_block s d n = true -> Z.of_nat (length H) <= r ->
  exists i s', bread d n s = Ok i s' /\
    (exists b, get_buf i s' = Ok b s' /\ b_data b = k_view s (d, n)) /\
    txn pid ((i, (d, n)) :: H) r s' /\ upd s s' (k_view s).
Proof.
  intros T d HkH H0 Hdrv Hroom. destruct (t_bread pid H r s n T HkH H0 Hdrv Hroom) as (i & s' & R & T' & U).
  exists i, s'. split; [done|]. split; [|done].
  destruct (get_buf_session pid _ s' i d n (tx_session _ _ _ _ T') ltac:(apply list_elem_of_here)) as (b & Hb & Hd & _).
  exists b. split; [done|]. rewrite Hd, (session_view pid _ s' i (d, n) (tx_session _ _ _ _ T') ltac:(apply list_elem_of_here)).
  by apply (up_view _ _ _ U).
Qed.
End txn.
