(* ===== verification/LogRefine.v ===== *)
(** The log implements an atomic disk (log.c): every sequence of operations and crashes
    of the code is a sequence of steps of a disk whose transactions happen at once. *)

From S2P Require Import Prelude Layout CString State Spinlock Sched Sleeplock Ring Memide Bio Session Log LogDisk LogSafe LogTxn Txn.
Local Open Scope kernel_scope.

(** * The specification *)

(** What survives a crash, what reads see, and the room left in the open transaction. *)
Record adisk := mk_adisk { durable : Z * Z -> list Z; current : Z * Z -> list Z; open_txn : option Z }.

Inductive event := Begin | Write (k : Z * Z) (v : list Z) | Read (k : Z * Z) (v : list Z) | End_ | Crash.

Inductive astep : adisk -> event -> adisk -> Prop :=
  | a_begin D C : astep (mk_adisk D C None) Begin (mk_adisk D C (Some MAXOPBLOCKS))
  | a_write D C r k v : 1 <= r -> astep (mk_adisk D C (Some r)) (Write k v) (mk_adisk D (put k v C) (Some (r - 1)))
  | a_read D C r k : astep (mk_adisk D C (Some r)) (Read k (C k)) (mk_adisk D C (Some r))
  | a_end D C r : astep (mk_adisk D C (Some r)) End_ (mk_adisk C C None)
  | a_crash D C t : astep (mk_adisk D C t) Crash (mk_adisk D D None)
  | a_crash_late D C r : astep (mk_adisk D C (Some r)) Crash (mk_adisk C C None).

Inductive asteps : adisk -> list event -> adisk -> Prop :=
  | as_nil A : asteps A [] A
  | as_cons A1 e A2 es A3 : astep A1 e A2 -> asteps A2 es A3 -> asteps A1 (e :: es) A3.

(** * The code *)
Section refine.
Context {drv : Driver}.

(** The use of the log that the comment on log_write describes. *)
Definition write_through (n : Z) (v : list Z) : K unit :=
  let! l := get_log in
  let! bp := bread (l_dev l) n in
  upd_buf bp (with_b_data v) ;;;
  log_write bp ;;;
  brelse bp.

Definition read_through (n : Z) : K (list Z) :=
  let! l := get_log in
  let! bp := bread (l_dev l) n in
  let! b := get_buf bp in
  brelse bp ;;;
  ret (b_data b).

(** A block of the log's device, outside the log, that the driver can serve. *)
Definition data_block (s : kstate) (n : Z) : Prop :=
  0 <= n < 2 ^ 31 /\ home (k_log s) (l_dev (k_log s), n) /\ drv_block s (l_dev (k_log s)) n = true.

(** The machine restarted on image [img]: nothing is cached and no operation is open. *)
Record restarted (s0 : kstate) (img : image) (s : kstate) : Prop := mk_restarted {
  rs_reboot : exists pid, rebooted pid s0 img s;
  rs_open : outstanding (k_log s) = 0 /\ committing (k_log s) = 0;
  rs_range : Forall (fun b => - 2 ^ 31 <= b < 2 ^ 31) (lh_block (k_log s)) }.

(** A step of a client that keeps to the protocol of the log: one operation at a time,
    with at most MAXOPBLOCKS writes; the first argument is what it may still write. *)
Inductive cstep : option Z -> kstate -> event -> option Z -> kstate -> Prop :=
  | c_begin s s' : begin_op s = Ok tt s' -> cstep None s Begin (Some MAXOPBLOCKS) s'
  | c_write r s n v s' : 1 <= r -> data_block s n -> block_ok v -> write_through n v s = Ok tt s' ->
      cstep (Some r) s (Write (l_dev (k_log s), n) v) (Some (r - 1)) s'
  | c_read r s n v s' : data_block s n -> read_through n s = Ok v s' ->
      cstep (Some r) s (Read (l_dev (k_log s), n) v) (Some r) s'
  | c_end r s s' : end_op s = Ok tt s' -> cstep (Some r) s End_ None s'
  | c_crash t s sb s' : restarted s (k_img s) sb -> recover_from_log sb = Ok tt s' -> cstep t s Crash None s'
  | c_crash_end r s s1 W9 W0 sb s' : end_op s = Ok tt s1 ->
      dk_writes (k_disk s1) = (W9 ++ W0) ++ dk_writes (k_disk s) ->
      restarted s (apply_writes W0 (k_img s)) sb -> recover_from_log sb = Ok tt s' -> cstep (Some r) s Crash None s'.

Inductive csteps : option Z -> kstate -> list event -> option Z -> kstate -> Prop :=
  | cs_nil t s : csteps t s [] t s
  | cs_cons t1 s1 e t2 s2 es t3 s3 : cstep t1 s1 e t2 s2 -> csteps t2 s2 es t3 s3 -> csteps t1 s1 (e :: es) t3 s3.

(** * The simulation *)

(** No operation is open, and the log is empty. *)
Record idle (pid : Z) (s : kstate) : Prop := mk_idle {
  id_session : session pid [] s;
  id_log : log_inv s;
  id_open : outstanding (k_log s) = 0 /\ committing (k_log s) = 0 /\ lh_n (k_log s) = 0;
  id_spare : NBUF <= Z.of_nat (k_spare s);
  id_room : MAXOPBLOCKS < l_size (k_log s) }.

Record in_op (pid r : Z) (s : kstate) : Prop := mk_in_op {
  io_txn : txn pid [] r s;
  io_open : outstanding (k_log s) = 1 /\ committing (k_log s) = 0;
  io_left : 0 <= r;
  io_big : MAXOPBLOCKS < l_size (k_log s) }.

Definition represents (s : kstate) (A : adisk) : Prop :=
  (exists pid, match open_txn A with None => idle pid s | Some r => in_op pid r s end) /\
  (forall k, home (k_log s) k -> durable A k = disk_block (k_img s) k) /\
  (forall k, home (k_log s) k -> current A k = k_view s k).

(** ** States without an open operation *)
Lemma nspare_all cs : Forall (fun b => is_unused b = true) cs -> nspare cs = length cs.
Proof. induction 1 as [|b cs Hb _ IH]; [done|]. cbn [nspare length]. rewrite Hb, IH. lia. Qed.

Lemma spare_all pid s : session pid [] s -> (forall k, k <> (0, 0) -> ~ k_dirty s k) -> NBUF <= Z.of_nat (k_spare s).
Proof.
  intros Hs Hcl. pose proof (ss_bio _ _ _ Hs) as [_ [l Hr] Hinv]. unfold k_spare. rewrite nspare_all.
  - destruct Hr as (_ & _ & Hlen). unfold k_cores, cores. rewrite length_fmap, Hlen. vm_compute. discriminate.
  - apply Forall_lookup. intros i b Hb. pose proof (ss_free _ _ _ Hs i b Hb ltac:(set_solver)) as Hl.
    destruct (ci_ref _ _ Hinv i b Hb) as [Href _]. unfold is_unused. rewrite Href, Hl. cbn [Z.eqb andb].
    destruct (has_flag B_DIRTY b) eqn:Ed; [|unfold has_flag in Ed; by apply negb_false_iff in Ed].
    destruct (ci_dirty _ _ Hinv i b Hb Ed) as [_ H0]. destruct (Hcl _ H0). exists i, b. split; [done|]. split; [by apply is_block_iff|done].
Qed.

Lemma idle_intro pid s : session pid [] s -> (forall k, k <> (0, 0) -> ~ k_dirty s k) -> log_disk s ->
  outstanding (k_log s) = 0 /\ committing (k_log s) = 0 /\ lh_n (k_log s) = 0 ->
  length (lh_block (k_log s)) = Z.to_nat LOGSIZE -> Forall (fun b => - 2 ^ 31 <= b < 2 ^ 31) (lh_block (k_log s)) ->
  hdr_n (disk_block (k_img s) (hd_blk (k_log s))) = 0 -> MAXOPBLOCKS < l_size (k_log s) -> idle pid s.
Proof.
  intros Hs Hcl Hld (Ho & Hc & Hn) Hlen Hrg Hhd Hbig. assert (El : logged (k_log s) = []) by (unfold logged; by rewrite Hn).
  split; try done; [|by apply (spare_all pid)]. split; try done; rewrite ?El.
  - rewrite Hn. destruct (ld_layout _ Hld). lia.
  - constructor.
  - intros n []%not_elem_of_nil.
  - intros k Hk. split; [intros []%Hcl; done|intros [_ []%not_elem_of_nil]].
Qed.

Lemma same_place_log_disk s s' : same_place (k_log s) (k_log s') -> dk_size (k_disk s') = dk_size (k_disk s) -> log_disk s -> log_disk s'.
Proof.
  intros (Hd & Hst & Hz) Hs [Hlay Ha]. split; [destruct Hlay; split; rewrite ?Hst, ?Hz; done|].
  rewrite Hd, Hst, Hz. intros m Hm. rewrite (drv_block_disk s) by done. by apply Ha.
Qed.

(** ** The operations *)
Lemma begin_op_run pid s : idle pid s ->
  exists s', begin_op s = Ok tt s' /\ in_op pid MAXOPBLOCKS s' /\ s' = set_log (with_outstanding 1 (k_log s)) s.
Proof.
  intros [Hs Hl (Ho & Hc & Hn) Hsp Hbig]. exists (set_log (with_outstanding 1 (k_log s)) s).
  pose proof (bio_calm _ _ (ss_bio _ _ _ Hs)) as Hcalm. split; [|split; [|done]].
  - unfold begin_op. rewrite (bind_ok _ _ _ _ _ (acquire_calm L_log pid s Hcalm I)).
    assert (E : forall fuel, begin_op_loop fuel (set_sync (lock L_log (k_sync s)) s) = Ok tt (set_log (with_outstanding 1 (k_log s)) s)).
    { intros [|fuel]; cbn [begin_op_loop]; unfold get_log; erewrite bind_ok by reflexivity; cbn [k_log set_sync]; rewrite Hc, Ho, Hn;
        cbn [Z.eqb negb]; change (LOGSIZE <? _) with false; cbv iota; rewrite (bind_ok _ _ _ _ _ (upd_log_ok _ _));
        rewrite (release_calm L_log pid s) by done; by destruct s. }
    apply E.
  - split; [|done|done|done]. split; [by apply session_set_log|by apply (log_inv_log_fields s (with_outstanding 1))| | | |].
    + done.
    + cbn [k_log set_log lh_n l_size with_outstanding]. lia.
    + cbn [k_log set_log lh_n with_outstanding]. change (k_spare (set_log _ s)) with (k_spare s). lia.
    + intros i k []%not_elem_of_nil.
Qed.

Lemma write_through_run pid r s n v : in_op pid r s -> data_block s n -> block_ok v -> 1 <= r ->
  exists s', write_through n v s = Ok tt s' /\ in_op pid (r - 1) s' /\ upd s s' (put (l_dev (k_log s), n) v (k_view s)).
Proof.
  intros [T (Ho & Hc) Hr Hbig] (Hn & Hhome & Hdrv) Hv Hr1. unfold write_through, get_log. erewrite bind_ok by reflexivity.
  destruct (t_bread pid [] r s n T) as (i & s1 & R1 & T1 & U1); [set_solver|apply Hhome|done|simpl; lia|].
  rewrite (bind_ok _ _ _ _ _ R1). pose proof (upd_dev _ _ _ U1) as Ed. rewrite <- Ed in T1.
  destruct (t_commit_buf pid [] r s1 i n v T1 Hr1 Hn) as (s2 & s' & R2 & R3 & T' & U').
  { rewrite Ed. by apply (upd_home _ _ _ _ U1). } { by rewrite Ed, (upd_drv _ _ _ _ _ U1). } { done. }
  erewrite bind_ok by reflexivity. rewrite (bind_ok _ _ _ _ _ R2). exists s'. split; [exact R3|].
  assert (U : upd s s' (put (l_dev (k_log s), n) v (k_view s))).
  { eapply upd_view; [by eapply upd_trans|]. intros k Hk. rewrite Ed. unfold put. case_decide; [done|]. by apply (up_view _ _ _ U1). }
  split; [|done]. destruct (up_log _ _ _ U) as ((P1 & P2 & P3) & O & C). split; [done| |lia|by rewrite P3].
  by rewrite O, C.
Qed.

Lemma read_through_run pid r s n : in_op pid r s -> data_block s n ->
  exists s', read_through n s = Ok (k_view s (l_dev (k_log s), n)) s' /\ in_op pid r s' /\ upd s s' (k_view s).
Proof.
  intros [T (Ho & Hc) Hr Hbig] (Hn & Hhome & Hdrv). unfold read_through, get_log. erewrite bind_ok by reflexivity.
  destruct (t_read pid [] r s n T) as (i & s1 & R1 & (b & Rb & Hb) & T1 & U1); [set_solver|apply Hhome|done|simpl; lia|].
  rewrite (bind_ok _ _ _ _ _ R1), (bind_ok _ _ _ _ _ Rb).
  destruct (t_brelse pid [] r s1 i _ T1) as (s' & R2 & T' & U2). rewrite (bind_ok _ _ _ _ _ R2), Hb. exists s'. split; [done|].
  assert (U : upd s s' (k_view s)) by (eapply upd_view; [by eapply upd_trans|]; intros k Hk; by apply (up_view _ _ _ U1)).
  split; [|done]. destruct (up_log _ _ _ U) as ((P1 & P2 & P3) & O & C). split; [done| |done|by rewrite P3]. by rewrite O, C.
Qed.

(** The header that a crash can leave on the disk can be recovered from. *)
Definition sound_header (s : kstate) (img : image) : Prop :=
  let H := disk_block img (hd_blk (k_log s)) in header_ok (k_log s) H /\
  forall t, (t < hdr_count H)%nat -> drv_block s (l_dev (k_log s)) (u32 (hdr_block H t)) = true.

Lemma sound_empty s img : log_disk s -> hdr_n (disk_block img (hd_blk (k_log s))) = 0 -> sound_header s img.
Proof.
  intros Hld H0. pose proof (ld_layout _ Hld) as [? Hsz ? ?]. unfold sound_header.
  assert (hdr_count (disk_block img (hd_blk (k_log s))) = 0%nat) as E by (unfold hdr_count; by rewrite H0).
  split; [split; [rewrite H0; lia|]|]; rewrite ?E; intros t Ht; lia.
Qed.

(** A crash after the writes [W0]: everything is old, or everything is new. *)
Definition all_or_nothing (s : kstate) (img : image) : Prop :=
  sound_header s img /\
  ((forall k, home (k_log s) k -> logical (k_log s) img k = disk_block (k_img s) k) \/
   (forall k, home (k_log s) k -> logical (k_log s) img k = k_view s k)).

Lemma commit_full pid s : session pid [] s -> log_inv s -> (0 < k_spare s)%nat ->
  exists s' W, commit s = Ok tt s' /\ session pid [] s' /\ (forall k, k <> (0, 0) -> ~ k_dirty s' k) /\
    k_log s' = with_lh_n 0 (k_log s) /\ io (set_log (with_lh_n 0 (k_log s)) s) s' /\
    hdr_n (disk_block (k_img s') (hd_blk (k_log s))) = 0 /\ dk_writes (k_disk s') = W ++ dk_writes (k_disk s) /\
    k_img s' = apply_writes W (k_img s) /\
    (forall k, home (k_log s) k -> k_view s' k = k_view s k) /\
    forall W9 W0, W = W9 ++ W0 -> all_or_nothing s (apply_writes W0 (k_img s)).
Proof.
  intros Hs Hli Hsp. destruct (Z.lt_total 0 (lh_n (k_log s))) as [Hpos|[H0|Hneg]]; [| |pose proof (li_n _ Hli); lia].
  - pose proof (log_inv_committable pid s Hs Hli Hpos Hsp) as Hc. pose proof (ld_layout _ (cm_disk _ _ Hc)) as Hlay.
    destruct (commit_run pid s Hc) as (s' & H0 & R & Hs' & HH0 & Hw & Hi & Hcl & Hl & Hz). destruct (run_Hn pid s Hc) as (_ & Hok & _).
    eexists s', _. split; [done|]. split; [done|]. split; [done|]. split; [done|]. split; [done|].
    split; [rewrite Hi; cbn [apply_writes commit_writes foldr fst snd]; by rewrite disk_block_insert, decide_True|]. split; [exact Hw|]. split; [exact Hi|].
    split; [intros k Hk; by apply (commit_view pid s Hc s' H0)|]. intros W9 W0 HW. split; [exact (crash_header pid s Hc H0 W9 W0 HH0 HW)|].
    exact (commit_atomic (k_log s) Hlay (k_img s) (k_view s) _ H0 (cm_empty _ _ Hc) Hok HH0 (run_rest pid s Hc) W9 W0 HW).
  - pose proof (li_empty _ Hli) as Hem. exists s, []. split.
    { unfold commit, get_log. erewrite bind_ok by reflexivity. rewrite (proj2 (Z.ltb_ge _ _)) by lia. done. }
    split; [done|]. split; [|split; [rewrite H0; by destruct (k_log s)|split; [|split; [done|split; [done|split; [done|split; [done|]]]]]]].
    + intros k Hk. rewrite (li_dirty _ Hli) by done. unfold logged. rewrite <- H0. simpl. set_solver.
    + rewrite H0. split; [|done]. by destruct s as [???????[]].
    + intros W9 W0 HW. symmetry in HW. apply app_eq_nil in HW as [-> ->]. split; [apply sound_empty; [apply Hli|done]|].
      left. intros k Hk. by apply logical_empty.
Qed.

Lemma aon_log s l img : same_place l (k_log s) -> all_or_nothing (set_log l s) img -> all_or_nothing s img.
Proof.
  intros Hp [[Hok Hd] Hat]. pose proof Hp as (E1 & E2 & _). cbn [k_log set_log] in *.
  assert (Eh : hd_blk (k_log s) = hd_blk l) by (unfold hd_blk; by rewrite E1, E2). split.
  - unfold sound_header. rewrite Eh, E1. split; [by apply (header_place l)|]. intros t Ht. rewrite (drv_block_disk (set_log l s)) by done. by apply Hd.
  - destruct Hat as [Hat|Hat]; [left|right]; intros k Hk; rewrite (logical_place _ _ _ _ Hp); apply Hat; by apply (home_place _ _ _ Hp).
Qed.

Lemma session_woken ch pid H s : session pid H s -> session pid H (set_ptable (woken ch (k_ptable s)) s).
Proof. intros [[Hc Hr Hi] Hn Hre Hh Hf]. split; try done. split; [by apply calm_woken|done|done]. Qed.

Lemma end_op_run pid r s : in_op pid r s ->
  exists s' W, end_op s = Ok tt s' /\ idle pid s' /\ same_place (k_log s) (k_log s') /\ io (set_log (k_log s') s) s' /\
    dk_writes (k_disk s') = W ++ dk_writes (k_disk s) /\ k_img s' = apply_writes W (k_img s) /\
    (forall k, home (k_log s) k -> k_view s' k = k_view s k /\ disk_block (k_img s') k = k_view s k) /\
    forall W9 W0, W = W9 ++ W0 -> all_or_nothing s (apply_writes W0 (k_img s)).
Proof.
  intros [[Hs Hli _ Hroom Hsp _] (Ho & Hcm) Hr Hbig]. set (l := k_log s) in *. pose proof (li_disk _ Hli) as Hld.
  assert (Hspare : (0 < k_spare s)%nat).
  { pose proof (li_n _ Hli) as Hn. pose proof (ll_n _ (ld_layout _ Hld)) as Hmax. fold l in Hn, Hmax. cbn [loose filter list_filter length] in Hsp.
    unfold NBUF, LOGSIZE, MAXOPBLOCKS in *. lia. }
  destruct (commit_full pid (set_log (closing l) s)) as (s1 & W & R & Hs1 & Hcl & Hl & Hz & Hhd & Hw & Hi & Hv & Hat).
  { by apply session_set_log. } { by apply (log_inv_log_fields s closing). } { done. }
  eexists _, W. split; [by apply (end_op_commit pid s s1)|]. split; [|split; [|split; [|split; [exact Hw|split; [exact Hi|split]]]]].
  - assert (Hplace : same_place l (k_log s1)) by (by rewrite Hl).
    apply idle_intro; cbn [k_log set_ptable set_log with_committing outstanding committing lh_n lh_block l_size].
    + exact (session_woken C_log pid [] _ (session_set_log _ _ _ (with_committing 0 (k_log s1)) Hs1)).
    + exact Hcl.
    + apply (same_place_log_disk s); [exact Hplace|exact (io_size _ _ Hz)|exact Hld].
    + by rewrite Hl.
    + rewrite Hl. apply Hli.
    + rewrite Hl. apply Hli.
    + unfold hd_blk. cbn [k_log set_ptable set_log with_committing l_dev l_start]. by rewrite Hl.
    + by rewrite Hl.
  - by rewrite Hl.
  - destruct Hz as [E Ez]. split; [|exact Ez]. rewrite E. done.
  - intros k Hk. assert (E : k_view s1 k = k_view s k) by (by apply Hv). split; [exact E|]. rewrite <- E. symmetry.
    apply (session_clean pid s1 k Hs1 Hcl), Hk.
  - intros W9 W0 HW. apply (aon_log s (closing l)); [done|]. by apply (Hat W9).
Qed.

Lemma restart_run s0 img sb : log_disk s0 -> MAXOPBLOCKS < l_size (k_log s0) -> sound_header s0 img -> restarted s0 img sb ->
  exists pid s', recover_from_log sb = Ok tt s' /\ idle pid s' /\ same_place (k_log s0) (k_log s') /\
    forall k, home (k_log s0) k -> disk_block (k_img s') k = logical (k_log s0) img k /\ k_view s' k = logical (k_log s0) img k.
Proof.
  intros Hld Hbig Hsnd [[pid Hrb] (Ho & Hcm) Hrg]. pose proof (rebooted_recoverable s0 pid img sb Hld Hrb Hsnd) as Hrc.
  destruct (recover_run pid sb Hrc) as (s' & H0 & R & Hs' & HH0 & _ & Hi & Hcl & Hn & Hhd & Hz & bl & Hl & Hlen & Hbl).
  pose proof (rb_place _ _ _ _ Hrb) as Hp. pose proof Hp as (P1 & P2 & P3).
  assert (Hp' : same_place (k_log s0) (k_log s')) by (rewrite Hl; by repeat split).
  exists pid, s'. split; [done|]. split; [|split; [done|]].
  - apply idle_intro; try done.
    + apply (same_place_log_disk sb); [by rewrite Hl|done|apply Hrc].
    + by rewrite Hl.
    + by rewrite Hl.
    + rewrite Hl. by apply Hbl.
    + by rewrite Hi, Hhd, disk_block_insert, decide_True.
    + rewrite Hl. cbn [l_size with_lh_block with_lh_n]. by rewrite P3.
  - intros k Hk. assert (E : disk_block (k_img s') k = logical (k_log s0) img k).
    { pose proof (proj2 (home_place _ _ k Hp) Hk) as Hk'. rewrite Hi, disk_block_insert, decide_False by (by apply home_not_hd; [apply Hrc|]).
      rewrite <- (logical_place _ _ _ _ Hp), <- (rb_img _ _ _ _ Hrb). done. }
    split; [done|]. rewrite <- E. apply (session_clean pid s' k Hs' Hcl), Hk.
Qed.

(** * Refinement *)
Lemma represents_disk s A : represents s A -> log_disk s /\ MAXOPBLOCKS < l_size (k_log s) /\
  hdr_n (disk_block (k_img s) (hd_blk (k_log s))) = 0.
Proof.
  intros [[pid H] _]. destruct (open_txn A) as [r|]; destruct H as [H1 H2 H3 H4].
  - destruct H1 as [_ Hl _ _ _ _]. destruct Hl. done.
  - destruct H2. done.
Qed.

Lemma represents_intro (pid : Z) s s' A' : same_place (k_log s) (k_log s') ->
  match open_txn A' with None => idle pid s' | Some r => in_op pid r s' end ->
  (forall k, home (k_log s) k -> durable A' k = disk_block (k_img s') k /\ current A' k = k_view s' k) -> represents s' A'.
Proof.
  intros Hp Ho H. split; [by exists pid|]. split; intros k Hk; apply (home_place _ _ k Hp) in Hk; by apply H.
Qed.

(** The crash of [s] into image [img], where the blocks logically have the contents [V]. *)
Lemma crash_represents s A img sb s' V : represents s A -> sound_header s img -> restarted s img sb ->
  recover_from_log sb = Ok tt s' -> (forall k, home (k_log s) k -> logical (k_log s) img k = V k) ->
  represents s' (mk_adisk V V None).
Proof.
  intros Hrep Hsnd Hrs R HV. destruct (represents_disk s A Hrep) as (Hld & Hbig & _).
  destruct (restart_run s img sb Hld Hbig Hsnd Hrs) as (pid & s2 & R2 & Hidle & Hp & Hk2). rewrite R2 in R. injection R as <-.
  apply (represents_intro pid s); [done|done|]. intros k Hk. destruct (Hk2 k Hk) as [-> ->]. cbn. by rewrite HV.
Qed.

Lemma upd_represents pid s s' V D C t : upd s s' V -> (forall k, home (k_log s) k -> D k = disk_block (k_img s) k) ->
  (forall k, home (k_log s) k -> V k = C k) -> match t with None => idle pid s' | Some r => in_op pid r s' end ->
  represents s' (mk_adisk D C t).
Proof.
  intros U HD HV Ho. apply (represents_intro pid s); [apply (up_log _ _ _ U)|done|]. intros k Hk. cbn.
  split; [rewrite (up_img _ _ _ U); by apply HD|]. rewrite (up_view _ _ _ U) by apply Hk. by rewrite HV.
Qed.

Lemma cstep_simulated s e t' s' A : represents s A -> cstep (open_txn A) s e t' s' ->
  exists A', astep A e A' /\ open_txn A' = t' /\ represents s' A'.
Proof.
  intros Hrep Hstep. pose proof Hrep as ((pid & Hst) & HD & HC). destruct A as [D C t]. cbn [open_txn durable current] in *.
  destruct Hstep as [s s' R|r s n v s' Hr Hn Hv R|r s n v s' Hn R|r s s' R|t s sb s' Hrs R|r s s1 W9 W0 sb s' R1 Hw Hrs R].
  - destruct (begin_op_run pid s Hst) as (s2 & R2 & Hin & E). rewrite R2 in R. injection R as <-.
    eexists. split; [constructor|]. split; [done|]. apply (represents_intro pid s); [by rewrite E|done|].
    intros k Hk. rewrite E. split; [by apply HD|by apply HC].
  - destruct (write_through_run pid r s n v Hst Hn Hv Hr) as (s2 & R2 & Hin & U). rewrite R2 in R. injection R as <-.
    eexists. split; [by constructor|]. split; [done|]. apply (upd_represents pid s s2 _ D _ _ U); try done.
    intros k Hk. unfold put. case_decide; [done|]. symmetry. by apply HC.
  - destruct (read_through_run pid r s n Hst Hn) as (s2 & R2 & Hin & U). rewrite R2 in R. injection R as <- <-.
    rewrite <- HC by apply Hn. eexists. split; [apply a_read|]. split; [done|]. apply (upd_represents pid s s2 _ D _ _ U); try done.
    intros k Hk. symmetry. by apply HC.
  - destruct (end_op_run pid r s Hst) as (s2 & W & R2 & Hidle & Hp & _ & _ & _ & Hk2 & _). rewrite R2 in R. injection R as <-.
    eexists. split; [constructor|]. split; [done|]. apply (represents_intro pid s); [done|done|].
    intros k Hk. destruct (Hk2 k Hk) as [-> ->]. cbn. split; by apply HC.
  - destruct (represents_disk _ _ Hrep) as (Hld & _ & Hem). eexists. split; [apply a_crash|]. split; [done|].
    apply (crash_represents s _ (k_img s) sb s' D Hrep); try done; [by apply sound_empty|].
    intros k Hk. rewrite logical_empty by done. symmetry. by apply HD.
  - destruct (end_op_run pid r s Hst) as (s2 & W & R2 & _ & _ & _ & Hw2 & _ & _ & Hat). rewrite R2 in R1. injection R1 as <-.
    rewrite Hw2 in Hw. apply app_inv_tail in Hw. destruct (Hat W9 W0 Hw) as [Hsnd [Hold|Hnew]].
    + eexists. split; [apply a_crash|]. split; [done|]. apply (crash_represents s _ _ sb s' D Hrep Hsnd Hrs R).
      intros k Hk. rewrite Hold by done. symmetry. by apply HD.
    + eexists. split; [apply a_crash_late|]. split; [done|]. apply (crash_represents s _ _ sb s' C Hrep Hsnd Hrs R).
      intros k Hk. rewrite Hnew by done. symmetry. by apply HC.
Qed.

(** What the client may do next returns. *)
Definition returns (s : kstate) (t : option Z) : Prop :=
  match t with
  | None => exists s', begin_op s = Ok tt s'
  | Some r =>
      (exists s', end_op s = Ok tt s') /\
      (forall n, data_block s n -> exists v s', read_through n s = Ok v s') /\
      (forall n v, data_block s n -> block_ok v -> 1 <= r -> exists s', write_through n v s = Ok tt s')
  end.

Lemma represents_returns s A : represents s A -> returns s (open_txn A).
Proof.
  intros ((pid & Hst) & _). destruct (open_txn A) as [r|]; cbn [returns].
  - split; [destruct (end_op_run pid r s Hst) as (s' & _ & R & _); by exists s'|]. split.
    + intros n Hn. destruct (read_through_run pid r s n Hst Hn) as (s' & R & _). by eexists _, s'.
    + intros n v Hn Hv Hr. destruct (write_through_run pid r s n v Hst Hn Hv Hr) as (s' & R & _). by exists s'.
  - destruct (begin_op_run pid s Hst) as (s' & R & _). by exists s'.
Qed.

(** C2: the log implements an atomic disk.  Whatever sequence of operations, block writes,
    reads and crashes a client performs that keeps to the protocol of the log, a crash
    possibly falling between any two disk writes of a commit and followed by recovery,
    the same sequence is one of the atomic disk, on which a transaction happens at once:
    every read returns what the atomic disk holds, and after every crash either all of
    the transaction is there or none of it.  And no call of the client gets stuck: from
    every state it reaches, each call it may make next returns. *)
Theorem log_refines (s : kstate) (A : adisk) (es : list event) (t' : option Z) (s' : kstate) :
  represents s A -> csteps (open_txn A) s es t' s' ->
  returns s' t' /\ exists A', asteps A es A' /\ open_txn A' = t' /\ represents s' A'.
Proof.
  intros Hrep Hsteps. remember (open_txn A) as t eqn:Et. revert A Hrep Et.
  induction Hsteps as [t s|t1 s1 e t2 s2 es t3 s3 Hstep _ IH]; intros A Hrep ->.
  - split; [by apply represents_returns|]. exists A. split; [constructor|done].
  - destruct (cstep_simulated s1 e t2 s2 A Hrep Hstep) as (A2 & Ha & <- & Hrep2).
    destruct (IH A2 Hrep2 eq_refl) as [Hret (A3 & Has & Et & Hrep3)]. split; [done|]. exists A3. split; [by econstructor|done].
Qed.
End refine.
