(* ===== verification/Fs.v ===== *)
(** The file system: fs.c.

    An inode pointer is an index of icache.inode.  The destination of readi is the
    list of bytes it returns, and the source of writei the list it is given; device
    files go through [DevSw], the table devsw of file.h. *)

From S2P Require Import Prelude Layout CString State Spinlock Sched Mem Sleeplock Ring Memide Bio Log.
Local Open Scope kernel_scope.

(** ** Access to the inode cache *)
Definition get_inode (i : nat) : K inode := fun s => index "icache.inode" (inodes (k_fs s) !! i) s.
Definition upd_inodes (i : nat) (f : inode -> inode) (s : kstate) : kstate :=
  set_fs (with_inodes (alter f i (inodes (k_fs s))) (k_fs s)) s.
Definition upd_inode (i : nat) (f : inode -> inode) : K unit := modify (upd_inodes i f).
Definition get_sb : K superblock := reads (fun s => sb (k_fs s)).

(** The entries of devsw: each device may have a read and a write function. *)
Class DevSw := {
  dev_read : Z -> option (nat -> Z -> K (Z * list Z));
  dev_write : Z -> option (nat -> list Z -> K Z) }.

(** ** struct dinode in a block of inodes *)
Record dinode := mk_dinode {
  di_type : Z; di_major : Z; di_minor : Z; di_nlink : Z; di_size : Z; di_addrs : list Z }.

Definition dinode_off (inum : Z) : nat := Z.to_nat (inum mod IPB * sizeof_dinode).

Definition get_addrs (data : list Z) (off : nat) : list Z :=
  (fun j => get32 data (off + 4 * j)) <$> seq 0 (Z.to_nat (NDIRECT + 1)).

Fixpoint set_addrs (data : list Z) (off : nat) (addrs : list Z) : list Z :=
  match addrs with
  | [] => data
  | a :: addrs' => set_addrs (set32 data off a) (off + 4) addrs'
  end.

Definition get_dinode (data : list Z) (inum : Z) : dinode :=
  let o := dinode_off inum in
  mk_dinode (s16 (get16 data o)) (s16 (get16 data (o + 2))) (s16 (get16 data (o + 4)))
    (s16 (get16 data (o + 6))) (get32 data (o + 8)) (get_addrs data (o + 12)).

Definition set_dinode (data : list Z) (inum : Z) (d : dinode) : list Z :=
  let o := dinode_off inum in
  set_addrs (set32 (set16 (set16 (set16 (set16 data o (di_type d)) (o + 2) (di_major d))
    (o + 4) (di_minor d)) (o + 6) (di_nlink d)) (o + 8) (di_size d)) (o + 12) (di_addrs d).

(** [memset(dip, 0, sizeof( *dip)); dip->type = type] *)
Definition clear_dinode (data : list Z) (inum type : Z) : list Z :=
  set16 (splice data (dinode_off inum) (replicate (Z.to_nat sizeof_dinode) 0)) (dinode_off inum) type.

(** ** Bits of the free map *)
Definition bit_mask (bi : nat) : Z := Z.shiftl 1 (Z.of_nat (bi mod 8)).
Definition get_byte (data : list Z) (i : nat) : Z := default 0 (data !! i).
Definition bit_set (data : list Z) (bi : nat) : bool := negb (Z.land (get_byte data (bi / 8)) (bit_mask bi) =? 0).
Definition set_bit (data : list Z) (bi : nat) : list Z :=
  <[(bi / 8)%nat := u8 (Z.lor (get_byte data (bi / 8)) (bit_mask bi))]> data.
Definition clear_bit (data : list Z) (bi : nat) : list Z :=
  <[(bi / 8)%nat := u8 (Z.land (get_byte data (bi / 8)) (Z.lnot (bit_mask bi)))]> data.

(** The inner loop of balloc: the first clear bit below [lim]. *)
Fixpoint find_clear (data : list Z) (bi : nat) (fuel : nat) : option nat :=
  match fuel with
  | O => None
  | S fuel' => if bit_set data bi then find_clear data (S bi) fuel' else Some bi
  end.

Section fs.
Context `{!Driver} `{!DevSw}.

Definition bzero (dev bno : Z) : K unit :=
  let! bp := bread dev bno in
  upd_buf bp (with_b_data (replicate (Z.to_nat BSIZE) 0)) ;;;
  log_write bp ;;;
  brelse bp.

(** The outer loop of balloc, over the indices of the bitmap blocks. *)
Fixpoint balloc_loop (dev : Z) (sz : Z) (js : list nat) : K Z :=
  match js with
  | [] => panic "balloc: out of blocks"
  | j :: js' =>
      let b := Z.of_nat j * BPB in
      let! sb := get_sb in
      let! bp := bread dev (BBLOCK b sb) in
      let! x := get_buf bp in
      match find_clear (b_data x) 0 (Z.to_nat (Z.min BPB (sz - b))) with
      | Some bi =>
          upd_buf bp (with_b_data (set_bit (b_data x) bi)) ;;;
          log_write bp ;;;
          brelse bp ;;;
          bzero dev (b + Z.of_nat bi) ;;;
          ret (b + Z.of_nat bi)
      | None => brelse bp ;;; balloc_loop dev sz js'
      end
  end.

Definition balloc (dev : Z) : K Z :=
  let! sb := get_sb in
  balloc_loop dev (sb_size sb) (seq 0 (Z.to_nat ((sb_size sb + BPB - 1) / BPB))).

Definition bfree (dev b : Z) : K unit :=
  let! sb := readsb dev in
  modify (fun s => set_fs (with_sb sb (k_fs s)) s) ;;;
  let! bp := bread dev (BBLOCK b sb) in
  let bi := Z.to_nat (b mod BPB) in
  let! x := get_buf bp in
  if negb (bit_set (b_data x) bi) then panic "freeing free block" else
  upd_buf bp (with_b_data (clear_bit (b_data x) bi)) ;;;
  log_write bp ;;;
  brelse bp.

(** The message printed by iinit is left out. *)
Definition iinit (dev : Z) : K unit :=
  on_sync (initlock L_icache) ;;;
  for_each (seq 0 (Z.to_nat NINODE)) (fun i => initsleeplock (S_inode i)) ;;;
  let! sb := readsb dev in
  modify (fun s => set_fs (with_sb sb (k_fs s)) s).

(** The scan of iget: the cached entry, or the first empty one. *)
Fixpoint icache_scan (ips : list inode) (dev inum : Z) (i : nat) (empty : option nat) : nat + option nat :=
  match ips with
  | [] => inr empty
  | ip :: ips' =>
      if (0 <? i_ref ip) && (i_dev ip =? dev) && (i_inum ip =? inum) then inl i
      else icache_scan ips' dev inum (S i)
             (match empty with Some e => Some e | None => if i_ref ip =? 0 then Some i else None end)
  end.

Definition iget (dev inum : Z) : K nat :=
  on_sync (acquire L_icache) ;;;
  let! ips := reads (fun s => inodes (k_fs s)) in
  match icache_scan ips dev inum 0 None with
  | inl i =>
      upd_inode i (fun ip => with_i_ref (i_ref ip + 1) ip) ;;;
      on_sync (release L_icache) ;;;
      ret i
  | inr None => panic "iget: no inodes"
  | inr (Some i) =>
      upd_inode i (with_i_dev dev) ;;;
      upd_inode i (with_i_inum inum) ;;;
      upd_inode i (with_i_ref 1) ;;;
      upd_inode i (with_i_valid 0) ;;;
      on_sync (release L_icache) ;;;
      ret i
  end.

Fixpoint ialloc_loop (dev type : Z) (inums : list nat) : K nat :=
  match inums with
  | [] => panic "ialloc: no inodes"
  | n :: inums' =>
      let inum := Z.of_nat n in
      let! sb := get_sb in
      let! bp := bread dev (IBLOCK inum sb) in
      let! x := get_buf bp in
      if di_type (get_dinode (b_data x) inum) =? 0 then
        upd_buf bp (with_b_data (clear_dinode (b_data x) inum type)) ;;;
        log_write bp ;;;
        brelse bp ;;;
        iget dev inum
      else
        brelse bp ;;; ialloc_loop dev type inums'
  end.

Definition ialloc (dev type : Z) : K nat :=
  let! sb := get_sb in
  ialloc_loop dev type (seq 1 (Z.to_nat (sb_ninodes sb) - 1)).

Definition iupdate (i : nat) : K unit :=
  let! ip := get_inode i in
  let! sb := get_sb in
  let! bp := bread (i_dev ip) (IBLOCK (i_inum ip) sb) in
  let! x := get_buf bp in
  upd_buf bp (with_b_data (set_dinode (b_data x) (i_inum ip)
    (mk_dinode (i_type ip) (i_major ip) (i_minor ip) (i_nlink ip) (i_size ip) (i_addrs ip)))) ;;;
  log_write bp ;;;
  brelse bp.

Definition idup (i : nat) : K nat :=
  on_sync (acquire L_icache) ;;;
  upd_inode i (fun ip => with_i_ref (i_ref ip + 1) ip) ;;;
  on_sync (release L_icache) ;;;
  ret i.

Definition ilock (i : nat) : K unit :=
  let! ip := get_inode i in
  if i_ref ip <? 1 then panic "ilock" else
  acquiresleep (S_inode i) ;;;
  let! ip := get_inode i in
  when (i_valid ip =? 0)
    (let! sb := get_sb in
     let! bp := bread (i_dev ip) (IBLOCK (i_inum ip) sb) in
     let! x := get_buf bp in
     let d := get_dinode (b_data x) (i_inum ip) in
     upd_inode i (with_i_type (di_type d)) ;;;
     upd_inode i (with_i_major (di_major d)) ;;;
     upd_inode i (with_i_minor (di_minor d)) ;;;
     upd_inode i (with_i_nlink (di_nlink d)) ;;;
     upd_inode i (with_i_size (di_size d)) ;;;
     upd_inode i (with_i_addrs (di_addrs d)) ;;;
     brelse bp ;;;
     upd_inode i (with_i_valid 1) ;;;
     when (di_type d =? 0) (panic "ilock: no type")).

Definition iunlock (i : nat) : K unit :=
  let! h := holdingsleep (S_inode i) in
  let! ip := get_inode i in
  if negb h || (i_ref ip <? 1) then panic "iunlock" else
  releasesleep (S_inode i).

(** [ip->addrs[j]] and an assignment to it: the array has NDIRECT+1 elements. *)
Definition get_addr (i j : nat) : K Z :=
  let! ip := get_inode i in index "addrs" (i_addrs ip !! j).
Definition set_addr (i j : nat) (v : Z) : K unit :=
  let! _ := get_addr i j in
  upd_inode i (fun ip => with_i_addrs (<[j := v]> (i_addrs ip)) ip).

Definition bmap (i : nat) (bn : Z) : K Z :=
  let! ip := get_inode i in
  if bn <? NDIRECT then
    let! addr := get_addr i (Z.to_nat bn) in
    if addr =? 0 then
      let! addr := balloc (i_dev ip) in
      set_addr i (Z.to_nat bn) addr ;;;
      ret addr
    else ret addr
  else
    let bn := bn - NDIRECT in
    if bn <? NINDIRECT then
      let! addr := get_addr i (Z.to_nat NDIRECT) in
      let! addr := (if addr =? 0 then
                      let! addr := balloc (i_dev ip) in
                      set_addr i (Z.to_nat NDIRECT) addr ;;;
                      ret addr
                    else ret addr) in
      let! bp := bread (i_dev ip) addr in
      let! x := get_buf bp in
      let addr := get32 (b_data x) (4 * Z.to_nat bn) in
      let! addr := (if addr =? 0 then
                      let! addr := balloc (i_dev ip) in
                      upd_buf bp (fun x => with_b_data (set32 (b_data x) (4 * Z.to_nat bn) addr) x) ;;;
                      log_write bp ;;;
                      ret addr
                    else ret addr) in
      brelse bp ;;;
      ret addr
    else panic "bmap: out of range".

Definition itrunc (i : nat) : K unit :=
  let! ip := get_inode i in
  for_each (seq 0 (Z.to_nat NDIRECT)) (fun j =>
    let! a := get_addr i j in
    when (negb (a =? 0)) (bfree (i_dev ip) a ;;; set_addr i j 0)) ;;;
  let! a := get_addr i (Z.to_nat NDIRECT) in
  when (negb (a =? 0))
    (let! bp := bread (i_dev ip) a in
     let! x := get_buf bp in
     for_each (seq 0 (Z.to_nat NINDIRECT)) (fun j =>
       let v := get32 (b_data x) (4 * j) in
       when (negb (v =? 0)) (bfree (i_dev ip) v)) ;;;
     brelse bp ;;;
     bfree (i_dev ip) a ;;;
     set_addr i (Z.to_nat NDIRECT) 0) ;;;
  upd_inode i (with_i_size 0) ;;;
  iupdate i.

Definition iput (i : nat) : K unit :=
  acquiresleep (S_inode i) ;;;
  let! ip := get_inode i in
  when (negb (i_valid ip =? 0) && (i_nlink ip =? 0))
    (on_sync (acquire L_icache) ;;;
     let! ip := get_inode i in
     let r := i_ref ip in
     on_sync (release L_icache) ;;;
     when (r =? 1)
       (itrunc i ;;;
        upd_inode i (with_i_type 0) ;;;
        iupdate i ;;;
        upd_inode i (with_i_valid 0))) ;;;
  releasesleep (S_inode i) ;;;
  on_sync (acquire L_icache) ;;;
  upd_inode i (fun ip => with_i_ref (i_ref ip - 1) ip) ;;;
  on_sync (release L_icache).

Definition iunlockput (i : nat) : K unit := iunlock i ;;; iput i.

(** struct stat of stat.h *)
Record stat := mk_stat { st_type : Z; st_dev : Z; st_ino : Z; st_nlink : Z; st_size : Z }.

Definition stati (i : nat) : K stat :=
  let! ip := get_inode i in
  ret (mk_stat (i_type ip) (i_dev ip) (i_inum ip) (i_nlink ip) (i_size ip)).

(** The loop of readi: [fuel] bounds the number of blocks, [n] is what is left. *)
Fixpoint readi_loop (fuel : nat) (i : nat) (off n : Z) : K (list Z) :=
  if n <=? 0 then ret [] else
  match fuel with
  | O => hang
  | S fuel' =>
      let! ip := get_inode i in
      let! addr := bmap i (off / BSIZE) in
      let! bp := bread (i_dev ip) addr in
      let! x := get_buf bp in
      let m := Z.min n (BSIZE - off mod BSIZE) in
      let bytes := slice (Z.to_nat (off mod BSIZE)) (Z.to_nat m) (b_data x) in
      brelse bp ;;;
      let! rest := readi_loop fuel' i (off + m) (n - m) in
      ret (bytes ++ rest)
  end.

(** Blocks touched by [n] bytes at any offset, plus one. *)
Definition io_fuel (n : Z) : nat := S (S (Z.to_nat (n / BSIZE))).

Definition readi (i : nat) (off n : Z) : K (Z * list Z) :=
  let! ip := get_inode i in
  if i_type ip =? T_DEV then
    if (i_major ip <? 0) || (NDEV <=? i_major ip) then ret (-1, []) else
    match dev_read (i_major ip) with
    | None => ret (-1, [])
    | Some f => f i n
    end
  else
  if (i_size ip <? off) || (u32 (off + n) <? off) then ret (-1, []) else
  let n := if i_size ip <? off + n then i_size ip - off else n in
  let! bytes := readi_loop (io_fuel n) i off n in
  ret (n, bytes).

Fixpoint writei_loop (fuel : nat) (i : nat) (off : Z) (src : list Z) : K Z :=
  match src with
  | [] => ret off
  | _ =>
      match fuel with
      | O => hang
      | S fuel' =>
          let! ip := get_inode i in
          let! addr := bmap i (off / BSIZE) in
          let! bp := bread (i_dev ip) addr in
          let m := Z.min (Z.of_nat (length src)) (BSIZE - off mod BSIZE) in
          upd_buf bp (fun x =>
            with_b_data (splice (b_data x) (Z.to_nat (off mod BSIZE)) (take (Z.to_nat m) src)) x) ;;;
          log_write bp ;;;
          brelse bp ;;;
          writei_loop fuel' i (off + m) (drop (Z.to_nat m) src)
      end
  end.

Definition writei (i : nat) (src : list Z) (off : Z) : K Z :=
  let n := Z.of_nat (length src) in
  let! ip := get_inode i in
  if i_type ip =? T_DEV then
    if (i_major ip <? 0) || (NDEV <=? i_major ip) then ret (-1) else
    match dev_write (i_major ip) with
    | None => ret (-1)
    | Some f => f i src
    end
  else
  if (i_size ip <? off) || (u32 (off + n) <? off) then ret (-1) else
  if MAXFILE * BSIZE <? off + n then ret (-1) else
  let! off := writei_loop (io_fuel n) i off src in
  let! ip := get_inode i in
  when ((0 <? n) && (i_size ip <? off))
    (upd_inode i (with_i_size off) ;;;
     iupdate i) ;;;
  ret n.

Definition namecmp (s t : list Z) : Z := strncmp s t (Z.to_nat DIRSIZ).

(** struct dirent: the inode number and the name. *)
Definition de_inum (de : list Z) : Z := get16 de 0.
Definition de_name (de : list Z) : list Z := slice 2 (Z.to_nat DIRSIZ) de.
Definition mk_dirent (inum : Z) (name : list Z) : list Z := le_bytes 2 inum ++ strncpy name (Z.to_nat DIRSIZ).

(** The loop of dirlookup from offset [off]; the result is the inode and *poff. *)
Fixpoint dirlookup_loop (fuel : nat) (dp : nat) (name : list Z) (off : Z) : K (option (nat * Z)) :=
  let! d := get_inode dp in
  if i_size d <=? off then ret None else
  match fuel with
  | O => hang
  | S fuel' =>
      let! (r, de) := readi dp off sizeof_dirent in
      if negb (r =? sizeof_dirent) then panic "dirlookup read" else
      if de_inum de =? 0 then dirlookup_loop fuel' dp name (off + sizeof_dirent) else
      if namecmp name (de_name de) =? 0 then
        let! ip := iget (i_dev d) (de_inum de) in
        ret (Some (ip, off))
      else dirlookup_loop fuel' dp name (off + sizeof_dirent)
  end.

Definition dir_fuel (sz : Z) : nat := S (Z.to_nat (sz / sizeof_dirent)).

Definition dirlookup (dp : nat) (name : list Z) : K (option (nat * Z)) :=
  let! d := get_inode dp in
  if negb (i_type d =? T_DIR) then panic "dirlookup not DIR" else
  dirlookup_loop (dir_fuel (i_size d)) dp name 0.

(** The search of dirlink for an empty entry. *)
Fixpoint find_empty (fuel : nat) (dp : nat) (off : Z) : K Z :=
  let! d := get_inode dp in
  if i_size d <=? off then ret off else
  match fuel with
  | O => hang
  | S fuel' =>
      let! (r, de) := readi dp off sizeof_dirent in
      if negb (r =? sizeof_dirent) then panic "dirlink read" else
      if de_inum de =? 0 then ret off else find_empty fuel' dp (off + sizeof_dirent)
  end.

Definition dirlink (dp : nat) (name : list Z) (inum : Z) : K Z :=
  let! r := dirlookup dp name in
  match r with
  | Some (ip, _) => iput ip ;;; ret (-1)
  | None =>
      let! d := get_inode dp in
      let! off := find_empty (dir_fuel (i_size d)) dp 0 in
      let! r := writei dp (mk_dirent (u16 inum) name) off in
      if negb (r =? sizeof_dirent) then panic "dirlink" else ret 0
  end.
End fs.

(** ** Paths *)
Definition slash : Z := 47.

Fixpoint skip_slashes (path : list Z) : list Z :=
  match path with
  | c :: path' => if c =? slash then skip_slashes path' else path
  | [] => []
  end.

(** The characters up to the next slash or NUL, and what follows. *)
Fixpoint span_elem (path : list Z) : list Z * list Z :=
  match path with
  | [] => ([], [])
  | c :: path' =>
      if (c =? slash) || (c =? 0) then ([], path)
      else let '(s, rest) := span_elem path' in (c :: s, rest)
  end.

(** The name it copies, cut to DIRSIZ characters, and the rest of the path. *)
Definition skipelem (path : list Z) : option (list Z * list Z) :=
  let path := skip_slashes path in
  if deref path =? 0 then None else
  let '(s, rest) := span_elem path in
  Some (take (Z.to_nat DIRSIZ) s, skip_slashes rest).

Section names.
Context `{!Driver} `{!DevSw}.

(** The loop of namex; [name] is what the caller's buffer holds. *)
Fixpoint namex_loop (fuel : nat) (ip : nat) (path : list Z) (parent : bool) (name : list Z) :
    K (option nat * list Z) :=
  match skipelem path with
  | None => if parent then iput ip ;;; ret (None, name) else ret (Some ip, name)
  | Some (name, path) =>
      match fuel with
      | O => hang
      | S fuel' =>
          ilock ip ;;;
          let! d := get_inode ip in
          if negb (i_type d =? T_DIR) then iunlockput ip ;;; ret (None, name) else
          if parent && (deref path =? 0) then iunlock ip ;;; ret (Some ip, name) else
          let! r := dirlookup ip name in
          match r with
          | None => iunlockput ip ;;; ret (None, name)
          | Some (next, _) => iunlockput ip ;;; namex_loop fuel' next path parent name
          end
      end
  end.

Definition namex (path : list Z) (parent : bool) : K (option nat * list Z) :=
  let! ip := (if deref path =? slash then iget ROOTDEV ROOTINO
              else let! p := on_sync myproc in
                   let! p := index "myproc()" p in
                   let! pr := get_proc p in
                   let! c := index "cwd" (p_cwd pr) in
                   idup c) in
  namex_loop (S (length path)) ip path parent [].

Definition namei (path : list Z) : K (option nat) :=
  let! r := namex path false in ret r.1.

Definition nameiparent (path : list Z) : K (option nat * list Z) := namex path true.

(** ** Swap space *)
Definition BLKS_PER_PG : Z := PGSIZE / BSIZE.

Definition swapread (ptr blkno : Z) : K unit :=
  if (blkno <? 0) || (SWAPMAX / BLKS_PER_PG <=? blkno) then panic "swapread: blkno exceeded range" else
  for_each (seq 0 (Z.to_nat BLKS_PER_PG)) (fun i =>
    modify (fun s => set_fs (with_nr_sectors_read (nr_sectors_read (k_fs s) + 1) (k_fs s)) s) ;;;
    let! bp := bread 0 (SWAPBASE + BLKS_PER_PG * blkno + Z.of_nat i) in
    let! x := get_buf bp in
    vstore (ptr + Z.of_nat i * BSIZE) (b_data x) ;;;
    brelse bp).

Definition swapwrite (ptr blkno : Z) : K unit :=
  if (blkno <? 0) || (SWAPMAX / BLKS_PER_PG <=? blkno) then panic "swapwrite: blkno exceeded range" else
  for_each (seq 0 (Z.to_nat BLKS_PER_PG)) (fun i =>
    modify (fun s => set_fs (with_nr_sectors_write (nr_sectors_write (k_fs s) + 1) (k_fs s)) s) ;;;
    let! bp := bread 0 (SWAPBASE + BLKS_PER_PG * blkno + Z.of_nat i) in
    let! data := vload (ptr + Z.of_nat i * BSIZE) (Z.to_nat BSIZE) in
    upd_buf bp (with_b_data data) ;;;
    bwrite bp ;;;
    brelse bp).

Definition balloc_for_swap : K Z := balloc T_FILE.
End names.
