(* ===== verification/FsAlloc.v ===== *)
(** Allocation of disk blocks: balloc and bfree (fs.c) on the free bitmap. *)

From S2P Require Import Prelude Layout CString State Spinlock Sched Sleeplock Ring Memide Bio Session Log LogDisk LogSafe LogTxn Txn Fs.
Local Open Scope kernel_scope.

(** ** Bits *)
Lemma bit_set_testbit data bi : bit_set data bi = Z.testbit (get_byte data (bi / 8)) (Z.of_nat (bi mod 8)).
Proof.
  unfold bit_set, bit_mask. rewrite Z.shiftl_1_l, land_bit by lia.
  destruct (Z.testbit _ _); [|done]. apply negb_true_iff, Z.eqb_neq. pose proof (Z.pow_pos_nonneg 2 (Z.of_nat (bi mod 8))). lia.
Qed.

Lemma testbit_u8 x (k : nat) : (k < 8)%nat -> Z.testbit (u8 x) (Z.of_nat k) = Z.testbit x (Z.of_nat k).
Proof. intros. apply Z.mod_pow2_bits_low. lia. Qed.

Lemma testbit_mask bi (k : nat) : Z.testbit (bit_mask bi) (Z.of_nat k) = bool_decide (k = bi mod 8)%nat.
Proof.
  unfold bit_mask. rewrite Z.shiftl_1_l, Z.pow2_bits_eqb by lia.
  case_bool_decide; [apply Z.eqb_eq; lia|apply Z.eqb_neq; lia].
Qed.

Lemma get_byte_insert data i v j : (i < length data)%nat ->
  get_byte (<[i := v]> data) j = if decide (j = i) then v else get_byte data j.
Proof.
  intros Hi. unfold get_byte. case_decide; [subst; by rewrite list_lookup_insert_eq|by rewrite list_lookup_insert_ne].
Qed.

Lemma bit_set_set data bi bi' : (bi / 8 < length data)%nat ->
  bit_set (set_bit data bi) bi' = bool_decide (bi' = bi) || bit_set data bi'.
Proof.
  intros Hb. rewrite !bit_set_testbit. unfold set_bit. rewrite get_byte_insert by done.
  pose proof (Nat.mod_upper_bound bi' 8). pose proof (Nat.div_mod_eq bi 8). pose proof (Nat.div_mod_eq bi' 8).
  case_decide as E.
  - rewrite testbit_u8 by lia. rewrite Z.lor_spec, testbit_mask, E, orb_comm. f_equal.
    repeat case_bool_decide; try done; lia.
  - rewrite bool_decide_false; [done|]. intros ->. done.
Qed.

Lemma bit_set_clear data bi bi' : (bi / 8 < length data)%nat ->
  bit_set (clear_bit data bi) bi' = negb (bool_decide (bi' = bi)) && bit_set data bi'.
Proof.
  intros Hb. rewrite !bit_set_testbit. unfold clear_bit. rewrite get_byte_insert by done.
  pose proof (Nat.mod_upper_bound bi' 8). pose proof (Nat.div_mod_eq bi 8). pose proof (Nat.div_mod_eq bi' 8).
  case_decide as E.
  - rewrite testbit_u8 by lia. rewrite Z.land_spec, Z.lnot_spec, testbit_mask, E, andb_comm by lia. f_equal.
    repeat case_bool_decide; try done; lia.
  - rewrite bool_decide_false; [done|]. intros ->. done.
Qed.

Lemma set_bit_ok data bi : block_ok data -> block_ok (set_bit data bi).
Proof.
  intros [Hl Hb]. unfold set_bit, clear_bit. split; [by rewrite length_insert|]. apply Forall_insert; [done|]. apply u8_range.
Qed.

Lemma clear_bit_ok data bi : block_ok data -> block_ok (clear_bit data bi).
Proof.
  intros [Hl Hb]. unfold set_bit, clear_bit. split; [by rewrite length_insert|]. apply Forall_insert; [done|]. apply u8_range.
Qed.

Lemma find_clear_some data bi fuel x : find_clear data bi fuel = Some x ->
  (bi <= x < bi + fuel)%nat /\ bit_set data x = false /\ forall y, (bi <= y < x)%nat -> bit_set data y = true.
Proof.
  revert bi. induction fuel as [|fuel IH]; intros bi; simpl; [done|].
  destruct (bit_set data bi) eqn:E.
  - intros (Hx & Hf & Hy)%IH. split; [lia|]. split; [done|]. intros y Hy'.
    destruct (decide (y = bi)) as [->|]; [done|]. apply Hy. lia.
  - intros [= ->]. split; [lia|]. split; [done|]. lia.
Qed.

Lemma find_clear_none data bi fuel : find_clear data bi fuel = None ->
  forall y, (bi <= y < bi + fuel)%nat -> bit_set data y = true.
Proof.
  revert bi. induction fuel as [|fuel IH]; intros bi; simpl; [lia|].
  destruct (bit_set data bi) eqn:E; [|done]. intros Hn y Hy.
  destruct (decide (y = bi)) as [->|]; [done|]. apply (IH (S bi)); [done|lia].
Qed.

(** ** The file system on disk *)

(** Block [b] is marked in use. *)
Definition used (V : Z * Z -> list Z) (dev : Z) (sb : superblock) (b : Z) : bool :=
  bit_set (V (dev, BBLOCK b sb)) (Z.to_nat (b mod BPB)).

(** The first block after boot block, superblock, log, inodes and bitmap. *)
Definition data_start (sb : superblock) : Z := sb_bmapstart sb + sb_size sb / BPB + 1.

Definition decode_sb (data : list Z) : superblock :=
  let w i := get32 data (4 * i) in
  mk_superblock (w 0%nat) (w 1%nat) (w 2%nat) (w 3%nat) (w 4%nat) (w 5%nat) (w 6%nat).

(** The contents of the blocks after the allocation of block [b], and after it was
    freed. *)
Definition alloc_view (dev : Z) (sb : superblock) (b : Z) (V : Z * Z -> list Z) : Z * Z -> list Z :=
  put (dev, b) zero_block
    (put (dev, BBLOCK b sb) (set_bit (V (dev, BBLOCK b sb)) (Z.to_nat (b mod BPB))) V).
Definition free_view (dev : Z) (sb : superblock) (b : Z) (V : Z * Z -> list Z) : Z * Z -> list Z :=
  put (dev, BBLOCK b sb) (clear_bit (V (dev, BBLOCK b sb)) (Z.to_nat (b mod BPB))) V.

Lemma same_bit b b' : 0 <= b -> 0 <= b' -> b / BPB = b' / BPB -> Z.to_nat (b mod BPB) = Z.to_nat (b' mod BPB) -> b = b'.
Proof.
  change BPB with 4096. intros. pose proof (Z.div_mod b 4096). pose proof (Z.div_mod b' 4096).
  pose proof (Z.mod_pos_bound b 4096). pose proof (Z.mod_pos_bound b' 4096). lia.
Qed.

Lemma bit_in_block b (data : list Z) : block_ok data -> (Z.to_nat (b mod BPB) / 8 < length data)%nat.
Proof.
  intros [-> _]. change BPB with 4096. change (Z.to_nat BSIZE) with 512%nat.
  pose proof (Z.mod_pos_bound b 4096). apply Nat.Div0.div_lt_upper_bound. lia.
Qed.

Lemma used_set dev sb b data V b' : 0 <= b -> 0 <= b' -> block_ok (V (dev, BBLOCK b sb)) ->
  data = set_bit (V (dev, BBLOCK b sb)) (Z.to_nat (b mod BPB)) ->
  used (put (dev, BBLOCK b sb) data V) dev sb b' = (b' =? b) || used V dev sb b'.
Proof.
  intros Hb Hb' Hok ->. unfold used, put. case_decide as E.
  - injection E as E. rewrite E, bit_set_set by (by apply bit_in_block). f_equal.
    assert (b' / BPB = b / BPB) by (unfold BBLOCK in E; lia).
    case_bool_decide as F; destruct (Z.eqb_spec b' b) as [->|Hne]; try done.
    by destruct Hne; apply same_bit.
  - destruct (Z.eqb_spec b' b) as [->|]; done.
Qed.

Lemma used_clear dev sb b V b' : 0 <= b -> 0 <= b' -> block_ok (V (dev, BBLOCK b sb)) ->
  used (free_view dev sb b V) dev sb b' = negb (b' =? b) && used V dev sb b'.
Proof.
  intros Hb Hb' Hok. unfold used, free_view, put. case_decide as E.
  - injection E as E. rewrite E, bit_set_clear by (by apply bit_in_block). do 2 f_equal.
    assert (b' / BPB = b / BPB) by (unfold BBLOCK in E; lia).
    case_bool_decide as F; destruct (Z.eqb_spec b' b) as [->|Hne]; try done.
    by destruct Hne; apply same_bit.
  - destruct (Z.eqb_spec b' b) as [->|]; done.
Qed.

Lemma used_alloc dev sb b V b' : 0 <= b -> 0 <= b' -> block_ok (V (dev, BBLOCK b sb)) -> BBLOCK b' sb <> b ->
  used (alloc_view dev sb b V) dev sb b' = (b' =? b) || used V dev sb b'.
Proof.
  intros Hb Hb' Hok Hne. rewrite <- (used_set dev sb b _ V b') by done. unfold used, alloc_view.
  f_equal. unfold put at 1. rewrite decide_False; [done|]. congruence.
Qed.

Section alloc.
Context {drv : Driver}.
Implicit Types H : list (nat * (Z * Z)).

(** The layout mkfs writes: the superblock, the log, the inodes and the bitmap one
    after the other, then the data; everything before the data is marked in use. *)
Record fs_inv (s : kstate) : Prop := mk_fs_inv {
  fi_dev : 0 < l_dev (k_log s);
  fi_sb : decode_sb (k_view s (l_dev (k_log s), 1)) = sb (k_fs s);
  fi_log : 2 <= l_start (k_log s) <= l_start (k_log s) + l_size (k_log s) /\
    l_start (k_log s) + l_size (k_log s) <= sb_inodestart (sb (k_fs s));
  fi_inodes : 0 <= sb_ninodes (sb (k_fs s)) /\
    sb_inodestart (sb (k_fs s)) + sb_ninodes (sb (k_fs s)) / IPB + 1 <= sb_bmapstart (sb (k_fs s));
  fi_bmap : data_start (sb (k_fs s)) <= sb_size (sb (k_fs s)) < 2 ^ 31;
  fi_drv : forall n, 0 < n < sb_size (sb (k_fs s)) -> drv_block s (l_dev (k_log s)) n = true;
  fi_meta : forall b, 0 <= b < data_start (sb (k_fs s)) ->
    used (k_view s) (l_dev (k_log s)) (sb (k_fs s)) b = true }.

Lemma fs_inv_upd s s' V : upd s s' V -> fs_inv s ->
  V (l_dev (k_log s), 1) = k_view s (l_dev (k_log s), 1) ->
  (forall b, 0 <= b < data_start (sb (k_fs s)) -> used V (l_dev (k_log s)) (sb (k_fs s)) b = true) ->
  fs_inv s'.
Proof.
  intros U [Hd Hsb Hlog Hino Hbm Hdrv Hmeta] H1 Hm. pose proof (upd_fs _ _ _ U) as Ef.
  pose proof (upd_dev _ _ _ U) as Ed. destruct (up_log _ _ _ U) as [(_ & Est & Esz) _].
  assert (Hnz : forall n, (l_dev (k_log s), n) <> (0, 0)) by (intros n [= E _]; lia).
  split; rewrite ?Ef, ?Ed, ?Est, ?Esz; try done.
  - by rewrite (up_view _ _ _ U), H1.
  - intros n Hn. rewrite (upd_drv _ _ _ _ _ U). auto.
  - intros b Hb. rewrite <- (Hm b Hb). unfold used. by rewrite (up_view _ _ _ U).
Qed.

(** A held block is in use, and is a data block. *)
Definition held_data_blocks H (s : kstate) : Prop :=
  forall d b, (d, b) ∈ H.*2 -> data_start (sb (k_fs s)) <= b < sb_size (sb (k_fs s)) /\
    used (k_view s) (l_dev (k_log s)) (sb (k_fs s)) b = true.

(** The order of the areas. *)
Lemma fs_order s : fs_inv s -> let sb0 := sb (k_fs s) in
  2 <= sb_inodestart sb0 <= sb_bmapstart sb0 /\ sb_bmapstart sb0 < data_start sb0 /\
  data_start sb0 <= sb_size sb0 < 2 ^ 31 /\ 0 < l_dev (k_log s).
Proof.
  intros [Hd _ Hlog [Hni Hib] Hbm _ _] sb0. fold sb0 in Hlog, Hni, Hib, Hbm. unfold data_start in *.
  change BPB with 4096 in *. change IPB with 8 in *. zdiv.
Qed.

Lemma bitmap_block s b : fs_inv s -> 0 <= b < sb_size (sb (k_fs s)) ->
  sb_bmapstart (sb (k_fs s)) <= BBLOCK b (sb (k_fs s)) < data_start (sb (k_fs s)).
Proof.
  intros Hf Hb. pose proof (fs_order s Hf) as Hord. cbv zeta in Hord. unfold BBLOCK, data_start in *. change BPB with 4096 in *.
  assert (b / 4096 <= sb_size (sb (k_fs s)) / 4096) by (apply Z.div_le_mono; lia). zdiv.
Qed.

Lemma home_after_log s n : fs_inv s -> sb_inodestart (sb (k_fs s)) <= n -> home (k_log s) (l_dev (k_log s), n).
Proof. intros [] Hn. split; [intros [= ? _]; lia|]. right. simpl. lia. Qed.

Lemma zero_block_ok : block_ok (replicate (Z.to_nat BSIZE) 0).
Proof. split; [apply length_replicate|]. apply Forall_replicate. lia. Qed.

Lemma bzero_spec pid H r s n :
  txn pid H r s -> 1 <= r -> Z.of_nat (length H) <= r -> fs_inv s ->
  sb_inodestart (sb (k_fs s)) <= n < sb_size (sb (k_fs s)) -> ((l_dev (k_log s), n) ∉ H.*2) ->
  exists s', bzero (l_dev (k_log s)) n s = Ok tt s' /\ txn pid H (r - 1) s' /\
    pinned (k_log s') (l_dev (k_log s), n) /\ upd s s' (put (l_dev (k_log s), n) zero_block (k_view s)).
Proof.
  intros T Hr HH Hf Hn HnH. destruct (Hf) as [Hd _ Hlog _ Hbm Hdrv _].
  destruct (t_bread pid H r s n T HnH) as (i & s1 & R & T1 & U1).
  { intros [= ? _]; lia. } { apply Hdrv. lia. } { done. }
  pose proof (upd_dev _ _ _ U1) as Ed.
  destruct (t_commit_pinned pid H r s1 i n (replicate (Z.to_nat BSIZE) 0)) as (s2 & s3 & R2 & R3 & T3 & P3 & U3).
  { by rewrite Ed. } { done. } { lia. }
  { rewrite Ed. rewrite (upd_home _ _ _ _ U1). apply home_after_log; [done|lia]. }
  { rewrite Ed, (upd_drv _ _ _ _ _ U1). apply Hdrv. lia. } { apply zero_block_ok. }
  exists s3. split; [|split; [eapply txn_weaken; [|exact T3]; case_decide; lia|split; [by rewrite <- Ed|]]].
  - unfold bzero. rewrite (bind_ok _ _ _ _ _ R). erewrite bind_ok by reflexivity.
    by rewrite (bind_ok _ _ _ _ _ R2).
  - clear T3. eapply upd_view; [by eapply upd_trans|]. intros k Hk. unfold put. rewrite Ed. case_decide; [done|].
    by apply (up_view _ _ _ U1).
Qed.

(** What balloc did: [b] was the first free block, and is now marked and zeroed. *)
Record allocated (pid : Z) (H : list (nat * (Z * Z))) (r : Z) (s : kstate) (b : Z) (s' : kstate) : Prop := mk_allocated {
  al_txn : txn pid H (r - 2) s';
  al_range : data_start (sb (k_fs s)) <= b < sb_size (sb (k_fs s));
  al_free : used (k_view s) (l_dev (k_log s)) (sb (k_fs s)) b = false;
  al_pinned : pinned (k_log s') (l_dev (k_log s), b);
  al_first : forall b', 0 <= b' < b -> used (k_view s) (l_dev (k_log s)) (sb (k_fs s)) b' = true;
  al_upd : upd s s' (alloc_view (l_dev (k_log s)) (sb (k_fs s)) b (k_view s)) }.

Definition full (s : kstate) (n : Z) : Prop :=
  forall b, 0 <= b < n -> b < sb_size (sb (k_fs s)) -> used (k_view s) (l_dev (k_log s)) (sb (k_fs s)) b = true.

Lemma used_upd s s' b : fs_inv s -> upd s s' (k_view s) ->
  used (k_view s') (l_dev (k_log s')) (sb (k_fs s')) b = used (k_view s) (l_dev (k_log s)) (sb (k_fs s)) b.
Proof.
  intros [Hd _ _ _ _ _ _] U. unfold used. rewrite (upd_dev _ _ _ U), (upd_fs _ _ _ U), (up_view _ _ _ U); [done|].
  intros [= ? _]. lia.
Qed.

Lemma fs_inv_same s s' : fs_inv s -> upd s s' (k_view s) -> fs_inv s'.
Proof. intros Hf U. apply (fs_inv_upd s s' _ U Hf); [done|]. apply Hf. Qed.

Lemma allocated_from pid H r s s1 b s' : fs_inv s -> upd s s1 (k_view s) ->
  allocated pid H r s1 b s' -> allocated pid H r s b s'.
Proof.
  intros Hf U [T R F P Fi Up]. pose proof (upd_fs _ _ _ U) as Ef. pose proof (upd_dev _ _ _ U) as Ed.
  rewrite Ef in R. split; try done.
  - by rewrite <- (used_upd s s1).
  - by rewrite <- Ed.
  - intros b' Hb'. rewrite <- (used_upd s s1) by done. auto.
  - eapply upd_view; [by eapply upd_trans|]. intros k Hk. rewrite Ef, Ed. unfold alloc_view, put.
    assert (Hnz : forall n, (l_dev (k_log s), n) <> (0, 0)) by (intros n [= E _]; destruct Hf; lia).
    repeat case_decide; rewrite ?(up_view _ _ _ U) by done; done.
Qed.

(** One bitmap block with a free bit. *)
Lemma balloc_here pid H r s i j bi b (m : K Z) :
  txn pid ((i, (l_dev (k_log s), BBLOCK (Z.of_nat j * BPB) (sb (k_fs s)))) :: H) r s ->
  fs_inv s -> held_data_blocks H s -> 2 <= r -> Z.of_nat (length H) <= r - 1 -> full s (Z.of_nat j * BPB) ->
  find_clear (k_view s (l_dev (k_log s), BBLOCK (Z.of_nat j * BPB) (sb (k_fs s)))) 0
    (Z.to_nat (Z.min BPB (sb_size (sb (k_fs s)) - Z.of_nat j * BPB))) = Some bi ->
  b = Z.of_nat j * BPB + Z.of_nat bi ->
  exists s', (upd_buf i (with_b_data (set_bit (k_view s (l_dev (k_log s), BBLOCK (Z.of_nat j * BPB) (sb (k_fs s)))) bi)) ;;;
     log_write i ;;; brelse i ;;; bzero (l_dev (k_log s)) b ;;; m) s = m s' /\ allocated pid H r s b s'.
Proof.
  intros T Hf HH Hr HlH Hfull Hfc Eb. set (d := l_dev (k_log s)) in *. set (sb0 := sb (k_fs s)) in *.
  destruct (find_clear_some _ _ _ _ Hfc) as (Hbi & Hclr & Hset).
  assert (Hb : 0 <= b < sb_size sb0 /\ b / BPB = Z.of_nat j /\ Z.to_nat (b mod BPB) = bi).
  { change BPB with 4096 in *. zdiv. }
  destruct Hb as (Hb & Hdiv & Hmod).
  assert (EB : BBLOCK (Z.of_nat j * BPB) sb0 = BBLOCK b sb0).
  { unfold BBLOCK. rewrite Hdiv, Z.div_mul; [done|]. by compute. }
  rewrite EB in *. pose proof (bitmap_block s b Hf Hb) as Hbb. fold sb0 in Hbb.
  assert (Hu : used (k_view s) d sb0 b = false) by (unfold used; by rewrite Hmod).
  assert (Hds : data_start sb0 <= b).
  { destruct (Z_lt_dec b (data_start sb0)); [|lia]. pose proof (fi_meta _ Hf b) as Hm. fold d sb0 in Hm. rewrite Hm in Hu by lia. done. }
  pose proof (fs_order s Hf) as Hord. cbv zeta in Hord. fold d sb0 in Hord.
  assert (Hok : block_ok (k_view s (d, BBLOCK b sb0))) by (eapply view_ok; apply T).
  destruct (t_commit_buf pid H r s i (BBLOCK b sb0) (set_bit (k_view s (d, BBLOCK b sb0)) bi)) as (s2 & s3 & R2 & R3 & T3 & U3).
  { done. } { lia. } { lia. } { apply home_after_log; [done|]. fold sb0. lia. }
  { apply (fi_drv _ Hf). fold sb0. lia. } { by apply set_bit_ok. } fold d in U3.
  set (V1 := put (d, BBLOCK b sb0) _ _) in *.
  assert (HV1 : forall b', 0 <= b' -> used V1 d sb0 b' = (b' =? b) || used (k_view s) d sb0 b').
  { intros b' Hb'. unfold V1. apply used_set; [lia|lia|done|by rewrite Hmod]. }
  assert (Hf3 : fs_inv s3).
  { apply (fs_inv_upd s s3 V1 U3 Hf).
    - unfold V1, put. rewrite decide_False; [done|]. intros [= E]. lia.
    - intros b' Hb'. fold d sb0. rewrite HV1 by lia. fold d sb0 in Hb'.
      pose proof (fi_meta _ Hf b' Hb') as Hm. fold d sb0 in Hm. rewrite Hm. apply orb_true_r. }
  pose proof (upd_fs _ _ _ U3) as Ef. pose proof (upd_dev _ _ _ U3) as Ed.
  destruct (bzero_spec pid H (r - 1) s3 b T3) as (s4 & R4 & T4 & P4 & U4).
  { lia. } { lia. } { done. } { rewrite Ef. fold sb0. lia. }
  { rewrite Ed. fold d. intros Hin. destruct (HH d b Hin) as [_ Hu']. fold d sb0 in Hu'. congruence. }
  exists s4. split.
  - unfold upd_buf, modify. erewrite bind_ok by reflexivity. rewrite (bind_ok _ _ _ _ _ R2), (bind_ok _ _ _ _ _ R3).
    rewrite Ed in R4. by rewrite (bind_ok _ _ _ _ _ R4).
  - split; try done.
    + by replace (r - 2) with (r - 1 - 1) by lia.
    + fold sb0. lia.
    + by rewrite <- Ed.
    + intros b' Hb'. destruct (Z_lt_dec b' (Z.of_nat j * BPB)); [apply Hfull; fold sb0; lia|].
      unfold used. assert (E' : b' / BPB = Z.of_nat j /\ (0 <= Z.to_nat (b' mod BPB) < bi)%nat).
      { change BPB with 4096 in *. zdiv. }
      destruct E' as [E' Hlt]. fold d sb0. replace (BBLOCK b' sb0) with (BBLOCK b sb0) by (unfold BBLOCK; lia). by apply Hset.
    + eapply upd_view; [by eapply upd_trans|]. intros k Hk. fold d sb0. rewrite Ed. fold d. unfold alloc_view.
      unfold put at 1 2. case_decide; [done|]. rewrite (up_view _ _ _ U3) by done. unfold V1. by rewrite Hmod.
Qed.

Lemma held_data_upd H s s' : fs_inv s -> upd s s' (k_view s) -> held_data_blocks H s -> held_data_blocks H s'.
Proof.
  intros Hf U HH d b Hin. destruct (HH d b Hin) as [Hb Hu]. rewrite (used_upd s s') by done. by rewrite (upd_fs _ _ _ U).
Qed.

Lemma full_upd s s' n : fs_inv s -> upd s s' (k_view s) -> full s n -> full s' n.
Proof. intros Hf U Hn b Hb Hs. rewrite (used_upd s s') by done. apply Hn; [done|]. by rewrite <- (upd_fs _ _ _ U). Qed.

Lemma balloc_loop_spec pid H r m : forall j s,
  txn pid H r s -> fs_inv s -> held_data_blocks H s -> 2 <= r -> Z.of_nat (length H) <= r - 1 ->
  full s (Z.of_nat j * BPB) -> (j + m)%nat = Z.to_nat ((sb_size (sb (k_fs s)) + BPB - 1) / BPB) ->
  let o := balloc_loop (l_dev (k_log s)) (sb_size (sb (k_fs s))) (seq j m) s in
  (full s (sb_size (sb (k_fs s))) /\ o = Panic "balloc: out of blocks") \/
  (exists b s', o = Ok b s' /\ allocated pid H r s b s').
Proof.
  induction m as [|m IH]; intros j s T Hf HH Hr HlH Hfull Hm o.
  - left. split; [|done]. intros b Hb Hb2. apply Hfull; [|done]. change BPB with 4096 in *. zdiv.
  - unfold o. cbn [seq balloc_loop]. set (sb0 := sb (k_fs s)) in *. set (d := l_dev (k_log s)) in *.
    set (B := Z.of_nat j * BPB) in *.
    assert (HB : 0 <= B < sb_size sb0) by (unfold B; change BPB with 4096 in *; zdiv).
    pose proof (bitmap_block s B Hf HB) as Hbb. fold sb0 in Hbb.
    pose proof (fs_order s Hf) as Hord. cbv zeta in Hord. fold d sb0 in Hord.
    unfold get_sb. erewrite bind_ok by reflexivity. fold sb0.
    destruct (t_read pid H r s (BBLOCK B sb0) T) as (i & s1 & R1 & (x & Rx & Hx) & T1 & U1).
    { intros Hin. destruct (HH _ _ Hin) as [Hlo _]. fold sb0 in Hlo. lia. }
    { intros [= E _]. lia. } { apply (fi_drv _ Hf). fold sb0. lia. } { lia. }
    fold d in R1, Hx, T1. rewrite (bind_ok _ _ _ _ _ R1), (bind_ok _ _ _ _ _ Rx), Hx.
    pose proof (upd_fs _ _ _ U1) as Ef. pose proof (upd_dev _ _ _ U1) as Ed.
    pose proof (fs_inv_same _ _ Hf U1) as Hf1. pose proof (held_data_upd H _ _ Hf U1 HH) as HH1.
    assert (Hv : k_view s1 (d, BBLOCK B sb0) = k_view s (d, BBLOCK B sb0)).
    { apply (up_view _ _ _ U1). intros [= E _]. lia. }
    destruct (find_clear _ 0 _) as [bi|] eqn:Hfc.
    + right. destruct (balloc_here pid H r s1 i j bi (B + Z.of_nat bi) (ret (B + Z.of_nat bi))) as (s' & R' & Ha).
      { rewrite Ef, Ed. done. } { done. } { done. } { done. } { done. } { by apply (full_upd s). }
      { rewrite Ef, Ed. fold d sb0 B. by rewrite Hv. } { done. }
      rewrite Ef, Ed in R'. fold d sb0 B in R'. rewrite Hv in R'.
      eexists _, s'. split; [exact R'|]. by eapply allocated_from.
    + destruct (t_brelse pid H r s1 i _ T1) as (s2 & R2 & T2 & U2). rewrite (bind_ok _ _ _ _ _ R2).
      assert (U12 : upd s s2 (k_view s)) by (eapply upd_view; [by eapply upd_trans|]; by apply U1).
      pose proof (upd_fs _ _ _ U12) as Ef2. pose proof (upd_dev _ _ _ U12) as Ed2.
      destruct (IH (S j) s2) as [[Hfl E]|(b & s' & E & Ha)].
      { done. } { by apply (fs_inv_same s). } { by apply (held_data_upd H s). } { done. } { done. }
      { apply (full_upd s); [done|done|]. intros b Hb Hbs. destruct (Z_lt_dec b B); [apply Hfull; [lia|done]|].
        fold d sb0. fold sb0 in Hbs. unfold used.
        assert (E' : b / BPB = Z.of_nat j /\ (0 <= Z.to_nat (b mod BPB) < Z.to_nat (Z.min BPB (sb_size sb0 - B)))%nat).
        { unfold B in *. change BPB with 4096 in *. zdiv. }
        destruct E' as [E' Hlt]. replace (BBLOCK b sb0) with (BBLOCK B sb0).
        2:{ unfold BBLOCK, B. rewrite E', Z.div_mul; [done|by compute]. }
        by apply (find_clear_none _ _ _ Hfc). }
      { rewrite Ef2. fold sb0. lia. }
      * left. rewrite Ef2, Ed2 in E. fold d sb0 in E. split; [|done]. rewrite Ef2 in Hfl. fold sb0 in Hfl.
        intros b Hb Hbs. rewrite <- (used_upd s s2) by done. apply Hfl; [done|]. by rewrite Ef2.
      * right. exists b, s'. rewrite Ef2, Ed2 in E. split; [done|]. by eapply allocated_from.
Qed.

Lemma balloc_spec pid H r s :
  txn pid H r s -> fs_inv s -> held_data_blocks H s -> 2 <= r -> Z.of_nat (length H) <= r - 1 ->
  (full s (sb_size (sb (k_fs s))) /\ balloc (l_dev (k_log s)) s = Panic "balloc: out of blocks") \/
  (exists b s', balloc (l_dev (k_log s)) s = Ok b s' /\ allocated pid H r s b s').
Proof.
  intros T Hf HH Hr HlH. unfold balloc, get_sb. erewrite bind_ok by reflexivity.
  apply (balloc_loop_spec pid H r _ 0 s); try done. intros b Hb. lia.
Qed.

(** The file system after balloc. *)
Lemma allocated_inv pid H r s b s' : block_ok (k_view s (l_dev (k_log s), BBLOCK b (sb (k_fs s)))) ->
  fs_inv s -> allocated pid H r s b s' ->
  fs_inv s' /\ forall b', 0 <= b' < sb_size (sb (k_fs s)) ->
    used (k_view s') (l_dev (k_log s)) (sb (k_fs s)) b' =
    (b' =? b) || used (k_view s) (l_dev (k_log s)) (sb (k_fs s)) b'.
Proof.
  intros Hok Hf [T R F _ Fi U]. set (d := l_dev (k_log s)) in *. set (sb0 := sb (k_fs s)) in *.
  pose proof (fs_order s Hf) as Hord. cbv zeta in Hord. fold d sb0 in Hord.
  assert (HV : forall b', 0 <= b' < sb_size sb0 ->
    used (alloc_view d sb0 b (k_view s)) d sb0 b' = (b' =? b) || used (k_view s) d sb0 b').
  { intros b' Hb'. pose proof (bitmap_block s b' Hf Hb') as Hbb. fold sb0 in Hbb. apply used_alloc; try done; lia. }
  split.
  - apply (fs_inv_upd s s' _ U Hf).
    + pose proof (bitmap_block s b Hf ltac:(fold sb0; lia)) as Hbb. fold sb0 in Hbb.
      unfold alloc_view, put. rewrite !decide_False; [done|intros [= E]; lia|intros [= E]; lia].
    + intros b' Hb'. fold d sb0 in Hb' |- *. rewrite HV by lia.
      pose proof (fi_meta _ Hf b' Hb') as Hm. fold d sb0 in Hm. rewrite Hm. apply orb_true_r.
  - intros b' Hb'. rewrite <- HV by done. unfold used. rewrite (up_view _ _ _ U); [done|].
    intros [= E _]. lia.
Qed.

(** Balloc hands out a block that was free, the first one, marks it in use and
    zeroes it, and changes no other block and no other mark of the bitmap; it panics
    only if every block is in use.  It works in the cache and uses at most two blocks
    of log space, so nothing reaches the disk before the transaction commits. *)
Theorem balloc_correct pid H r s :
  txn pid H r s -> fs_inv s -> held_data_blocks H s -> 2 <= r -> Z.of_nat (length H) <= r - 1 ->
  let dev := l_dev (k_log s) in let sb0 := sb (k_fs s) in
  (balloc dev s = Panic "balloc: out of blocks" /\
   forall b, 0 <= b < sb_size sb0 -> used (k_view s) dev sb0 b = true) \/
  exists b s', balloc dev s = Ok b s' /\ txn pid H (r - 2) s' /\ fs_inv s' /\
    data_start sb0 <= b < sb_size sb0 /\ used (k_view s) dev sb0 b = false /\
    (forall b', 0 <= b' < sb_size sb0 ->
      used (k_view s') dev sb0 b' = (b' =? b) || used (k_view s) dev sb0 b') /\
    k_view s' (dev, b) = zero_block /\
    (forall k, k <> (0, 0) -> k <> (dev, b) -> k <> (dev, BBLOCK b sb0) -> k_view s' k = k_view s k) /\
    dk_writes (k_disk s') = dk_writes (k_disk s).
Proof.
  intros T Hf HH Hr HlH dev sb0. destruct (balloc_spec pid H r s T Hf HH Hr HlH) as [[Hfl E]|(b & s' & E & Ha)].
  - left. split; [done|]. intros b Hb. by apply Hfl; destruct Hb.
  - right. exists b, s'. split; [done|].
    destruct (allocated_inv pid H r s b s' (view_ok pid H s _ (tx_session _ _ _ _ T)) Hf Ha) as [Hf' Hu].
    destruct Ha as [T' R F _ _ U]. pose proof (fi_dev _ Hf) as Hd. fold dev in Hd.
    split; [done|]. split; [done|]. split; [done|]. split; [done|]. split; [done|]. split; [|split].
    + rewrite (up_view _ _ _ U) by (intros [= ? _]; lia). unfold alloc_view, put. by rewrite decide_True.
    + intros k Hk H1 H2. rewrite (up_view _ _ _ U) by done. unfold alloc_view, put. by rewrite !decide_False.
    + apply U.
Qed.

Lemma readsb_spec pid H r s :
  txn pid H r s -> fs_inv s -> Z.of_nat (length H) <= r -> ((l_dev (k_log s), 1) ∉ H.*2) ->
  exists s', readsb (l_dev (k_log s)) s = Ok (sb (k_fs s)) s' /\ txn pid H r s' /\ upd s s' (k_view s).
Proof.
  intros T Hf HlH H1. pose proof (fs_order s Hf) as Hord. cbv zeta in Hord. destruct (Hf) as [_ Hsb _ _ _ Hdrv _].
  destruct (t_read pid H r s 1 T) as (i & s1 & R1 & (x & Rx & Hx) & T1 & U1).
  { done. } { intros [= ? _]; lia. } { apply Hdrv. lia. } { done. }
  destruct (t_brelse pid H r s1 i _ T1) as (s2 & R2 & T2 & U2). exists s2.
  split; [|split; [done|]].
  - unfold readsb. rewrite (bind_ok _ _ _ _ _ R1), (bind_ok _ _ _ _ _ Rx), (bind_ok _ _ _ _ _ R2), Hx.
    unfold ret. f_equal. exact Hsb.
  - eapply upd_view; [by eapply upd_trans|]. by apply U1.
Qed.

Lemma with_sb_id s : set_fs (with_sb (sb (k_fs s)) (k_fs s)) s = s.
Proof. by destruct s as [? ? ? ? ? ? ? ? []]. Qed.

(** Bfree of a block in use clears its mark and changes nothing else; bfree of a
    block that is not in use panics. *)
Theorem bfree_correct pid H r s b :
  txn pid H r s -> fs_inv s -> held_data_blocks H s -> 1 <= r -> Z.of_nat (length H) <= r ->
  data_start (sb (k_fs s)) <= b < sb_size (sb (k_fs s)) ->
  let dev := l_dev (k_log s) in let sb0 := sb (k_fs s) in
  if used (k_view s) dev sb0 b then
    exists s', bfree dev b s = Ok tt s' /\ txn pid H (r - 1) s' /\ fs_inv s' /\
      (forall b', 0 <= b' < sb_size sb0 ->
        used (k_view s') dev sb0 b' = negb (b' =? b) && used (k_view s) dev sb0 b') /\
      (forall k, k <> (0, 0) -> k <> (dev, BBLOCK b sb0) -> k_view s' k = k_view s k) /\
      dk_writes (k_disk s') = dk_writes (k_disk s)
  else bfree dev b s = Panic "freeing free block".
Proof.
  intros T Hf HH Hr HlH Hb dev sb0.
  pose proof (fs_order s Hf) as Hord. cbv zeta in Hord. fold dev sb0 in Hord.
  fold sb0 in Hb. pose proof (bitmap_block s b Hf ltac:(fold sb0; lia)) as Hbb. fold sb0 in Hbb.
  assert (HnH : forall n, n < data_start sb0 -> (dev, n) ∉ H.*2).
  { intros n Hn Hin. destruct (HH _ _ Hin) as [Hlo _]. fold sb0 in Hlo. lia. }
  destruct (readsb_spec pid H r s T Hf HlH) as (s1 & R1 & T1 & U1); [apply HnH; lia|].
  pose proof (upd_fs _ _ _ U1) as Ef. pose proof (upd_dev _ _ _ U1) as Ed. fold dev in Ed.
  assert (Hnz : forall n, (dev, n) <> (0, 0)) by (intros n [= E _]; lia).
  destruct (t_read pid H r s1 (BBLOCK b sb0) T1) as (i & s2 & R2 & (x & Rx & Hx) & T2 & U2).
  { rewrite Ed. apply HnH. lia. } { by rewrite Ed. }
  { rewrite Ed, (upd_drv _ _ _ _ _ U1). apply (fi_drv _ Hf). fold sb0. lia. } { done. }
  rewrite Ed in R2, Hx, T2. rewrite (up_view _ _ _ U1) in Hx by done.
  assert (U12 : upd s s2 (k_view s)) by (eapply upd_view; [by eapply upd_trans|]; by apply U1).
  assert (Ebf : bfree dev b s = (if negb (used (k_view s) dev sb0 b) then Panic "freeing free block" else
    (upd_buf i (with_b_data (clear_bit (k_view s (dev, BBLOCK b sb0)) (Z.to_nat (b mod BPB)))) ;;; log_write i ;;; brelse i) s2)).
  { unfold bfree. rewrite (bind_ok _ _ _ _ _ R1). erewrite bind_ok by reflexivity. fold sb0.
    assert (set_fs (with_sb sb0 (k_fs s1)) s1 = s1) as -> by (unfold sb0; rewrite <- Ef; apply with_sb_id).
    rewrite (bind_ok _ _ _ _ _ R2), (bind_ok _ _ _ _ _ Rx), Hx. unfold used. by destruct (bit_set _ _). }
  rewrite Ebf. destruct (used _ _ _ b) eqn:Hu; cbn [negb]; [|done].
  pose proof (upd_dev _ _ _ U12) as Ed2. fold dev in Ed2.
  assert (Hok : block_ok (k_view s (dev, BBLOCK b sb0))) by (eapply view_ok; apply T).
  destruct (t_commit_buf pid H r s2 i (BBLOCK b sb0) (clear_bit (k_view s (dev, BBLOCK b sb0)) (Z.to_nat (b mod BPB))))
    as (s3 & s4 & R3 & R4 & T4 & U4); rewrite ?Ed2.
  { done. } { done. } { lia. } { rewrite (upd_home _ _ _ _ U12). apply home_after_log; [done|fold sb0; lia]. }
  { rewrite (upd_drv _ _ _ _ _ U12). apply (fi_drv _ Hf). fold sb0. lia. } { by apply clear_bit_ok. }
  assert (U : upd s s4 (free_view dev sb0 b (k_view s))).
  { eapply upd_view; [by eapply upd_trans|]. intros k Hk. rewrite Ed2. unfold free_view, put. case_decide; [done|]. by apply U12. }
  assert (Hus : forall b', 0 <= b' < sb_size sb0 ->
    used (k_view s4) dev sb0 b' = negb (b' =? b) && used (k_view s) dev sb0 b').
  { intros b' Hb'. rewrite <- (used_clear dev sb0 b) by (done || lia). unfold used. by rewrite (up_view _ _ _ U). }
  exists s4. split; [|split; [done|split; [|split; [done|split; [|apply U]]]]].
  - unfold upd_buf, modify. erewrite bind_ok by reflexivity. by rewrite (bind_ok _ _ _ _ _ R3).
  - apply (fs_inv_upd s s4 _ U Hf); fold dev sb0.
    + unfold free_view, put. rewrite decide_False; [done|intros [= E]; lia].
    + intros b' Hb'. rewrite used_clear by (done || lia). pose proof (fi_meta _ Hf b' Hb') as Hm. fold dev sb0 in Hm.
      rewrite Hm, andb_true_r. apply negb_true_iff, Z.eqb_neq. lia.
  - intros k Hk Hne. rewrite (up_view _ _ _ U) by done. unfold free_view, put. by rewrite decide_False.
Qed.
End alloc.
