(* ===== verification/FsInode.v ===== *)
(** Inodes: the on-disk form, the inode cache, and reading files (fs.c). *)

From S2P Require Import Prelude Layout CString State Spinlock Sched Sleeplock Ring Memide Bio Session Log LogDisk LogSafe LogTxn Txn Fs FsAlloc.
Local Open Scope kernel_scope.

(** ** struct dinode *)

(** The 64 bytes of a dinode. *)
Definition enc_dinode (d : dinode) : list Z :=
  le_bytes 2 (di_type d) ++ le_bytes 2 (di_major d) ++ le_bytes 2 (di_minor d) ++ le_bytes 2 (di_nlink d) ++
  le_bytes 4 (di_size d) ++ concat (le_bytes 4 <$> di_addrs d).

(** The values the fields of a dinode can hold. *)
Record dinode_ok (d : dinode) : Prop := mk_dinode_ok {
  do_type : s16 (di_type d) = di_type d;
  do_major : s16 (di_major d) = di_major d;
  do_minor : s16 (di_minor d) = di_minor d;
  do_nlink : s16 (di_nlink d) = di_nlink d;
  do_size : u32 (di_size d) = di_size d;
  do_len : length (di_addrs d) = Z.to_nat (NDIRECT + 1);
  do_addrs : Forall (fun a => u32 a = a) (di_addrs d) }.

Lemma set_addrs_splice addrs data off : (off + 4 * length addrs <= length data)%nat ->
  set_addrs data off addrs = splice data off (concat (le_bytes 4 <$> addrs)).
Proof.
  revert data off. induction addrs as [|a addrs IH]; intros data off Hl.
  - cbn. unfold splice. cbn. by rewrite Nat.add_0_r, take_drop.
  - cbn [set_addrs fmap list_fmap concat]. cbn [length] in Hl.
    rewrite IH by (rewrite length_set32; lia). unfold set32.
    replace (off + 4)%nat with (off + length (le_bytes 4 a))%nat by (by rewrite length_le_bytes).
    apply splice_splice. lia.
Qed.

Lemma length_enc_dinode d : dinode_ok d -> length (enc_dinode d) = Z.to_nat sizeof_dinode.
Proof.
  intros []. unfold enc_dinode. rewrite !length_app, !length_le_bytes, length_words, do_len0. done.
Qed.

Lemma dinode_off_bound inum : (dinode_off inum + Z.to_nat sizeof_dinode <= Z.to_nat BSIZE)%nat.
Proof.
  unfold dinode_off. change IPB with 8. change sizeof_dinode with 64. change BSIZE with 512.
  pose proof (Z.mod_pos_bound inum 8). lia.
Qed.

Lemma dinode_off_sep inum inum' : inum mod IPB <> inum' mod IPB ->
  (dinode_off inum + Z.to_nat sizeof_dinode <= dinode_off inum' \/ dinode_off inum' + Z.to_nat sizeof_dinode <= dinode_off inum)%nat.
Proof.
  unfold dinode_off. change IPB with 8. change sizeof_dinode with 64.
  pose proof (Z.mod_pos_bound inum 8). pose proof (Z.mod_pos_bound inum' 8). lia.
Qed.

Lemma set_dinode_splice data inum d : block_ok data -> dinode_ok d ->
  set_dinode data inum d = splice data (dinode_off inum) (enc_dinode d).
Proof.
  intros [Hlen _] Hd. pose proof (dinode_off_bound inum) as Hb. change (Z.to_nat sizeof_dinode) with 64%nat in Hb.
  pose proof (do_len _ Hd) as Ha. change (Z.to_nat (NDIRECT + 1)) with 13%nat in Ha.
  unfold set_dinode, enc_dinode, set16, set32. set (o := dinode_off inum) in *.
  rewrite <- Hlen in Hb.
  assert (step : forall n off w base acc, (o + length acc <= length data)%nat ->
    base = splice data o acc -> off = (o + length acc)%nat -> splice base off (le_bytes n w) = splice data o (acc ++ le_bytes n w)).
  { intros n off w base acc Hacc -> ->. apply splice_splice; lia. }
  rewrite (step 2%nat (o + 2)%nat (di_major d) _ (le_bytes 2 (di_type d))) by (done || (simpl; lia)).
  rewrite (step 2%nat (o + 4)%nat (di_minor d) _ (le_bytes 2 (di_type d) ++ le_bytes 2 (di_major d))) by (done || (simpl; lia)).
  rewrite (step 2%nat (o + 6)%nat (di_nlink d) _ ((le_bytes 2 (di_type d) ++ le_bytes 2 (di_major d)) ++ le_bytes 2 (di_minor d)))
    by (done || (simpl; lia)).
  rewrite (step 4%nat (o + 8)%nat (di_size d) _ (((le_bytes 2 (di_type d) ++ le_bytes 2 (di_major d)) ++ le_bytes 2 (di_minor d)) ++
    le_bytes 2 (di_nlink d))) by (done || (simpl; lia)).
  rewrite set_addrs_splice by (rewrite length_splice; [rewrite Ha|simpl]; lia).
  replace (o + 12)%nat with (o + length ((((le_bytes 2 (di_type d) ++ le_bytes 2 (di_major d)) ++ le_bytes 2 (di_minor d)) ++
    le_bytes 2 (di_nlink d)) ++ le_bytes 4 (di_size d)))%nat by done.
  rewrite splice_splice by (simpl; lia). by rewrite <- !app_assoc.
Qed.

(** Encoding and decoding a dinode. *)
Lemma get_set_dinode data inum d : block_ok data -> dinode_ok d -> get_dinode (set_dinode data inum d) inum = d.
Proof.
  intros Hok Hd. pose proof (length_enc_dinode d Hd) as Henc. pose proof (dinode_off_bound inum) as Hb.
  rewrite set_dinode_splice by done. unfold get_dinode, get16, get32. set (o := dinode_off inum) in *.
  assert (sub : forall k n, (k + n <= 64)%nat -> slice (o + k) n (splice data o (enc_dinode d)) = slice k n (enc_dinode d)).
  { intros k n Hk. apply slice_splice_sub; rewrite Henc; [rewrite (proj1 Hok); done|exact Hk]. }
  assert (sub0 : slice o 2 (splice data o (enc_dinode d)) = slice 0 2 (enc_dinode d)).
  { rewrite <- (sub 0%nat 2%nat) by lia. by rewrite Nat.add_0_r. }
  rewrite sub0, !sub by lia.
  change (slice 0 2 (enc_dinode d)) with (le_bytes 2 (di_type d)).
  change (slice 2 2 (enc_dinode d)) with (le_bytes 2 (di_major d)).
  change (slice 4 2 (enc_dinode d)) with (le_bytes 2 (di_minor d)).
  change (slice 6 2 (enc_dinode d)) with (le_bytes 2 (di_nlink d)).
  change (slice 8 4 (enc_dinode d)) with (le_bytes 4 (di_size d)).
  rewrite !le_val_bytes. destruct Hd as [H1 H2 H3 H4 H5 H6 H7].
  assert (Ha : get_addrs (splice data o (enc_dinode d)) (o + 12) = di_addrs d).
  { unfold get_addrs. change (Z.to_nat (NDIRECT + 1)) with 13%nat in *. apply list_eq. intros j.
    rewrite list_lookup_fmap. destruct (decide (j < 13)%nat).
    - rewrite lookup_seq_lt by lia. cbn [fmap option_fmap option_map]. destruct (di_addrs d !! j) as [a|] eqn:Ea.
      2:{ apply lookup_ge_None in Ea. lia. }
      unfold get32. replace (o + 12 + 4 * (0 + j))%nat with (o + (12 + 4 * j))%nat by lia. rewrite sub by lia.
      assert (slice (12 + 4 * j) 4 (enc_dinode d) = le_bytes 4 a) as ->.
      { rewrite <- (slice_words _ _ _ Ea). unfold slice. rewrite <- drop_drop. reflexivity. }
      rewrite le_val_bytes. f_equal. rewrite list.Forall_forall in H7. apply H7. by eapply list_elem_of_lookup_2.
    - rewrite lookup_seq_ge by lia. simpl. symmetry. apply lookup_ge_None. lia. }
  rewrite Ha. destruct d as [ty ma mi nl sz ad]. cbn [di_type di_major di_minor di_nlink di_size di_addrs] in *.
  f_equal; unfold s16, u32 in *; rewrite ?Z.mod_mod by lia; done.
Qed.

(** Other dinodes of the block are not touched. *)
Lemma get_set_dinode_ne data inum inum' d : block_ok data -> dinode_ok d -> inum mod IPB <> inum' mod IPB ->
  get_dinode (set_dinode data inum d) inum' = get_dinode data inum'.
Proof.
  intros Hok Hd Hne. pose proof (length_enc_dinode d Hd) as Henc. pose proof (dinode_off_bound inum) as Hb.
  pose proof (dinode_off_sep _ _ Hne) as Hsep. change (Z.to_nat sizeof_dinode) with 64%nat in *.
  rewrite set_dinode_splice by done. unfold get_dinode, get_addrs, get16, get32.
  rewrite !slice_splice_ne by (rewrite ?Henc, ?(proj1 Hok); lia). f_equal.
  apply list_fmap_ext. intros j x Hx. apply lookup_seq in Hx as [-> Hj]. change (Z.to_nat (NDIRECT + 1)) with 13%nat in Hj.
  by rewrite slice_splice_ne by (rewrite ?Henc, ?(proj1 Hok); lia).
Qed.

(** The dinode of an inode, and the dinode that describes a cached inode. *)
Definition dinode_at (V : Z * Z -> list Z) (dev : Z) (sb : superblock) (inum : Z) : dinode :=
  get_dinode (V (dev, IBLOCK inum sb)) inum.
Definition inode_dinode (ip : inode) : dinode :=
  mk_dinode (i_type ip) (i_major ip) (i_minor ip) (i_nlink ip) (i_size ip) (i_addrs ip).

(** The inode after ilock has read its dinode. *)
Definition loaded (d : dinode) (ip : inode) : inode :=
  with_i_valid 1 (with_i_addrs (di_addrs d) (with_i_size (di_size d) (with_i_nlink (di_nlink d)
    (with_i_minor (di_minor d) (with_i_major (di_major d) (with_i_type (di_type d) ip)))))).

Lemma get_inode_ok i s ip : inodes (k_fs s) !! i = Some ip -> get_inode i s = Ok ip s.
Proof. intros H. unfold get_inode. by rewrite H. Qed.

Section inode.
Context {drv : Driver} {dsw : DevSw}.

Lemma inode_block s inum : fs_inv s -> 0 <= inum < sb_ninodes (sb (k_fs s)) ->
  sb_inodestart (sb (k_fs s)) <= IBLOCK inum (sb (k_fs s)) < sb_bmapstart (sb (k_fs s)).
Proof.
  intros [_ _ _ [Hni Hib] _ _ _] Hi. unfold IBLOCK. change IPB with 8 in *.
  assert (inum / 8 <= sb_ninodes (sb (k_fs s)) / 8) by (apply Z.div_le_mono; lia). zdiv.
Qed.

(** Changing inodes in the cache leaves the rest alone. *)
Lemma txn_set_fs pid H r s f : length (inodes f) = length (inodes (k_fs s)) -> txn pid H r s -> txn pid H r (set_fs f s).
Proof.
  intros Hl [[[[Hy Hd Hlk Hp] Hring Hinv] Hnd Hre Hhe Hfr] [[Hlay Ha] Hn Hlen Hrg Hnd2 Hho Hdi Hem] Ho Hr Hsp Hcl].
  assert (Hdk : forall d b, drv_block (set_fs f s) d b = drv_block s d b) by (intros; by apply drv_block_disk).
  assert (Hc : calm pid (set_fs f s)).
  { split; try done. intros lk Hlk'. apply Hlk. destruct lk; simpl in *; try done. by rewrite <- Hl. }
  assert (Hld : log_disk (set_fs f s)) by (split; [done|]; intros m Hm; rewrite Hdk; by apply Ha).
  split; try done; split; try done.
  intros n Hin. rewrite Hdk. by apply Hho.
Qed.

Lemma fs_inv_set_inodes s f : sb f = sb (k_fs s) -> fs_inv s -> fs_inv (set_fs f s).
Proof.
  intros Hf [Hd Hsb Hlog Hino Hbm Hdrv Hmeta]. split; cbn [k_fs set_fs]; rewrite ?Hf; try done.
  intros n Hn. rewrite <- (Hdrv n Hn). by apply drv_block_disk.
Qed.

Lemma iupdate_spec pid r s i ip :
  txn pid [] r s -> fs_inv s -> 1 <= r -> inodes (k_fs s) !! i = Some ip -> i_dev ip = l_dev (k_log s) ->
  0 <= i_inum ip < sb_ninodes (sb (k_fs s)) -> dinode_ok (inode_dinode ip) ->
  let k := (l_dev (k_log s), IBLOCK (i_inum ip) (sb (k_fs s))) in
  exists s', iupdate i s = Ok tt s' /\ txn pid [] (r - 1) s' /\
    upd s s' (put k (set_dinode (k_view s k) (i_inum ip) (inode_dinode ip)) (k_view s)).
Proof.
  intros T Hf Hr Hi Hdev Hin Hd k. pose proof (fs_order s Hf) as Hord. cbv zeta in Hord.
  pose proof (inode_block s _ Hf Hin) as Hib. set (sb0 := sb (k_fs s)) in *. set (n := IBLOCK (i_inum ip) sb0) in *.
  destruct (t_read pid [] r s n T) as (b & s1 & R1 & (x & Rx & Hx) & T1 & U1).
  { set_solver. } { intros [= ? _]; lia. } { apply (fi_drv _ Hf). fold sb0. lia. } { simpl. lia. }
  pose proof (upd_dev _ _ _ U1) as Ed.
  assert (Hok : block_ok (k_view s k)) by (eapply view_ok; apply T).
  destruct (t_commit_buf pid [] r s1 b n (set_dinode (k_view s k) (i_inum ip) (inode_dinode ip)))
    as (s2 & s3 & R2 & R3 & T3 & U3); rewrite ?Ed.
  { done. } { done. } { lia. } { rewrite (upd_home _ _ _ _ U1). apply home_after_log; [done|fold sb0; lia]. }
  { rewrite (upd_drv _ _ _ _ _ U1). apply (fi_drv _ Hf). fold sb0. lia. }
  { rewrite set_dinode_splice by done. split.
    - rewrite length_splice; [apply Hok|]. rewrite (length_enc_dinode _ Hd), (proj1 Hok). apply dinode_off_bound.
    - apply splice_bytes_ok; [apply Hok|]. unfold enc_dinode, bytes_ok. rewrite !Forall_app.
      repeat (split; [apply le_bytes_ok|]). apply Forall_concat, list.Forall_forall. intros l Hl.
      apply list_elem_of_fmap in Hl as (a & -> & _). apply le_bytes_ok. }
  exists s3. split; [|split; [done|]].
  - unfold iupdate, get_sb. rewrite (bind_ok _ _ _ _ _ (get_inode_ok _ _ _ Hi)). erewrite bind_ok by reflexivity.
    fold sb0 n. rewrite Hdev, (bind_ok _ _ _ _ _ R1), (bind_ok _ _ _ _ _ Rx), Hx.
    erewrite bind_ok by reflexivity. by rewrite (bind_ok _ _ _ _ _ R2).
  - eapply upd_view; [by eapply upd_trans|]. intros k' Hk'. rewrite Ed. unfold put. fold k. case_decide; [done|]. by apply U1.
Qed.

Lemma iunlock_run pid s i ip : calm pid s -> inodes (k_fs s) !! i = Some ip -> i_lock ip = mk_sleeplock 1 pid -> 1 <= i_ref ip ->
  iunlock i s = Ok tt (set_ptable (woken (C_inodelock i) (k_ptable s)) (sl_put (S_inode i) (mk_sleeplock 0 0) s)).
Proof.
  intros Hc Hi Hl Href. assert (Hsl : sl_get (S_inode i) s = Some (mk_sleeplock 1 pid)) by (simpl; by rewrite Hi, <- Hl).
  unfold iunlock. rewrite (bind_ok _ _ _ _ _ (holdingsleep_calm _ pid s _ Hc Hsl)).
  erewrite bind_ok by (unfold get_inode; rewrite Hi; reflexivity). cbn [sl_locked sl_pid].
  rewrite Z.eqb_refl, (proj2 (Z.ltb_ge _ _)) by lia. exact (releasesleep_calm _ pid s _ Hc Hsl).
Qed.

Lemma ilock_valid pid s i ip : calm pid s -> inodes (k_fs s) !! i = Some ip -> sl_locked (i_lock ip) = 0 -> 1 <= i_ref ip ->
  i_valid ip <> 0 -> ilock i s = Ok tt (sl_put (S_inode i) (mk_sleeplock 1 pid) s).
Proof.
  intros Hc Hi Hl Href Hv. assert (Hsl : sl_get (S_inode i) s = Some (i_lock ip)) by (simpl; by rewrite Hi).
  unfold ilock. erewrite bind_ok by (unfold get_inode; rewrite Hi; reflexivity). rewrite (proj2 (Z.ltb_ge _ _)) by lia.
  rewrite (bind_ok _ _ _ _ _ (acquiresleep_calm _ pid s _ Hc Hsl Hl)).
  erewrite bind_ok by (unfold get_inode; simpl; rewrite list_lookup_alter_eq, Hi; reflexivity).
  cbn. by rewrite (proj2 (Z.eqb_neq _ _)).
Qed.

(** The state in which ilock has loaded the inode: [ip] locked by [pid]. *)
Lemma ilock_load pid r s i ip d :
  txn pid [] r s -> fs_inv s -> 0 <= r -> inodes (k_fs s) !! i = Some ip -> i_dev ip = l_dev (k_log s) ->
  0 <= i_inum ip < sb_ninodes (sb (k_fs s)) -> 1 <= i_ref ip -> sl_locked (i_lock ip) = 0 -> i_valid ip = 0 ->
  d = dinode_at (k_view s) (l_dev (k_log s)) (sb (k_fs s)) (i_inum ip) ->
  if di_type d =? 0 then ilock i s = Panic "ilock: no type" else
  exists s', ilock i s = Ok tt s' /\ txn pid [] r s' /\
    k_fs s' = with_inodes (<[i := loaded d (with_i_lock (mk_sleeplock 1 pid) ip)]> (inodes (k_fs s))) (k_fs s) /\
    forall k, k <> (0, 0) -> k_view s' k = k_view s k.
Proof.
  intros T Hf Hr Hi Hdev Hin Href Hlk Hval ->. pose proof (fs_order s Hf) as Hord. cbv zeta in Hord.
  pose proof (inode_block s _ Hf Hin) as Hib.
  pose proof (bio_calm _ _ (ss_bio _ _ _ (tx_session _ _ _ _ T))) as Hc.
  assert (Hsl : sl_get (S_inode i) s = Some (i_lock ip)) by (simpl; by rewrite Hi).
  set (ip1 := with_i_lock (mk_sleeplock 1 pid) ip). set (f1 := with_inodes (<[i := ip1]> (inodes (k_fs s))) (k_fs s)).
  assert (Es1 : sl_put (S_inode i) (mk_sleeplock 1 pid) s = set_fs f1 s).
  { simpl. unfold f1. do 2 f_equal. by rewrite (list_alter_insert_at _ _ ip). }
  set (s1 := set_fs f1 s) in *. pose proof (lookup_lt_Some _ _ _ Hi) as Hlt.
  assert (T1 : txn pid [] r s1) by (apply txn_set_fs; [simpl; by rewrite length_insert|done]).
  assert (Hf1 : fs_inv s1) by (by apply fs_inv_set_inodes).
  assert (Hi1 : inodes (k_fs s1) !! i = Some ip1) by (simpl; by rewrite list_lookup_insert_eq).
  set (n := IBLOCK (i_inum ip) (sb (k_fs s))) in *.
  destruct (t_read pid [] r s1 n T1) as (b & s2 & R2 & (x & Rx & Hx) & T2 & U2).
  { set_solver. } { cbn. intros [= ? _]; lia. } { apply (fi_drv _ Hf1). cbn. lia. } { simpl. lia. }
  change (l_dev (k_log s1)) with (l_dev (k_log s)) in *. change (k_view s1) with (k_view s) in *.
  set (d := dinode_at _ _ _ _).
  set (f3 := with_inodes (<[i := with_i_addrs (di_addrs d) (with_i_size (di_size d) (with_i_nlink (di_nlink d)
    (with_i_minor (di_minor d) (with_i_major (di_major d) (with_i_type (di_type d) ip1)))))]> (inodes (k_fs s))) (k_fs s)).
  pose proof (upd_fs _ _ _ U2) as Ef2.
  assert (T3 : txn pid [(b, (l_dev (k_log s), n))] r (set_fs f3 s2)).
  { apply txn_set_fs; [|done]. rewrite Ef2. simpl. by rewrite !length_insert. }
  destruct (t_brelse pid [] r (set_fs f3 s2) b _ T3) as (s4 & R4 & T4 & U4).
  pose proof (upd_fs _ _ _ U4) as Ef4. cbn [k_fs set_fs] in Ef4.
  set (s5 := upd_inodes i (with_i_valid 1) s4).
  assert (Hrun : ilock i s = when (di_type d =? 0) (panic "ilock: no type") s5).
  { unfold ilock. rewrite (bind_ok _ _ _ _ _ (get_inode_ok _ _ _ Hi)), (proj2 (Z.ltb_ge _ _)) by lia.
    rewrite (bind_ok _ _ _ _ _ (acquiresleep_calm _ _ _ _ Hc Hsl Hlk)), Es1.
    rewrite (bind_ok _ _ _ _ _ (get_inode_ok _ _ _ Hi1)). cbn [i_valid ip1 with_i_lock i_dev i_inum]. rewrite Hval, Hdev.
    cbn [Z.eqb when]. unfold get_sb. erewrite bind_ok by reflexivity. change (sb (k_fs s1)) with (sb (k_fs s)). fold n.
    rewrite (bind_ok _ _ _ _ _ R2), (bind_ok _ _ _ _ _ Rx), Hx. fold (dinode_at (k_view s) (l_dev (k_log s)) (sb (k_fs s)) (i_inum ip)). fold d.
    do 6 (erewrite bind_ok by reflexivity).
    match goal with |- bind (brelse b) _ ?st = _ => assert (st = set_fs f3 s2) as -> end.
    { unfold upd_inodes. cbn [k_fs set_fs inodes with_inodes]. rewrite !list_alter_alter_eq. rewrite Ef2. cbn [inodes f1 s1 k_fs set_fs with_inodes].
      unfold f3, f1. rewrite (list_alter_insert_at _ _ ip1) by done. rewrite list_insert_insert_eq. done. }
    rewrite (bind_ok _ _ _ _ _ R4). erewrite bind_ok by reflexivity. done. }
  rewrite Hrun. destruct (di_type d =? 0); [done|]. exists s5. split; [done|].
  split; [|split].
  - apply txn_set_fs; [|done]. cbn. by rewrite length_alter.
  - unfold s5, upd_inodes. cbn [k_fs set_fs]. rewrite Ef4. unfold f3. cbn [inodes with_inodes].
    rewrite (list_alter_insert_at _ _ _ _ (list_lookup_insert_eq _ _ _ Hlt)), list_insert_insert_eq. done.
  - intros k Hk. change (k_view s5 k) with (k_view s4 k). rewrite (up_view _ _ _ U4) by done.
    change (k_view (set_fs f3 s2) k) with (k_view s2 k). by apply U2.
Qed.

(** C17: an inode survives its eviction from the cache.  After iupdate of a cached
    inode, locking any cache entry for the same inode that has not been read yet
    gives it the same type, device numbers, link count, size and block addresses, as
    long as the inode's block has not been written in between; the other inodes on
    the block are not affected. *)
Theorem iupdate_ilock_roundtrip pid r s i ip :
  txn pid [] r s -> fs_inv s -> 1 <= r -> inodes (k_fs s) !! i = Some ip -> i_dev ip = l_dev (k_log s) ->
  0 <= i_inum ip < sb_ninodes (sb (k_fs s)) -> dinode_ok (inode_dinode ip) -> i_type ip <> 0 ->
  exists s1, iupdate i s = Ok tt s1 /\ txn pid [] (r - 1) s1 /\
    (forall inum, 0 <= inum < sb_ninodes (sb (k_fs s)) -> inum <> i_inum ip ->
      dinode_at (k_view s1) (i_dev ip) (sb (k_fs s)) inum = dinode_at (k_view s) (i_dev ip) (sb (k_fs s)) inum) /\
    forall pid' r' s2 j jp, txn pid' [] r' s2 -> fs_inv s2 -> 0 <= r' ->
      sb (k_fs s2) = sb (k_fs s) -> l_dev (k_log s2) = l_dev (k_log s) ->
      k_view s2 (i_dev ip, IBLOCK (i_inum ip) (sb (k_fs s))) = k_view s1 (i_dev ip, IBLOCK (i_inum ip) (sb (k_fs s))) ->
      inodes (k_fs s2) !! j = Some jp -> i_dev jp = i_dev ip -> i_inum jp = i_inum ip ->
      1 <= i_ref jp -> sl_locked (i_lock jp) = 0 -> i_valid jp = 0 ->
      exists s3 jp', ilock j s2 = Ok tt s3 /\ inodes (k_fs s3) !! j = Some jp' /\
        inode_dinode jp' = inode_dinode ip /\ i_valid jp' = 1 /\ i_lock jp' = mk_sleeplock 1 pid'.
Proof.
  intros T Hf Hr Hi Hdev Hin Hd Hty. destruct (iupdate_spec pid r s i ip T Hf Hr Hi Hdev Hin Hd) as (s1 & R1 & T1 & U1).
  pose proof (fs_order s Hf) as Hord. cbv zeta in Hord. set (sb0 := sb (k_fs s)) in *.
  assert (Hnz : forall n, (i_dev ip, n) <> (0, 0)) by (intros n [= E _]; lia).
  assert (Hok : forall k, block_ok (k_view s k)) by (intros k; eapply view_ok; apply T).
  exists s1. split; [done|]. split; [done|]. split.
  - intros inum Hinum Hne. unfold dinode_at. rewrite (up_view _ _ _ U1) by done. unfold put. case_decide as E; [|done].
    injection E as _ E. rewrite <- Hdev, E. apply get_set_dinode_ne; [apply Hok|done|].
    unfold IBLOCK in E. change IPB with 8 in *. intros Em. apply Hne.
    pose proof (Z.div_mod inum 8). pose proof (Z.div_mod (i_inum ip) 8). lia.
  - intros pid' r' s2 j jp T2 Hf2 Hr' Esb Ed2 Hv Hj Hjd Hjn Hjr Hjl Hjv.
    assert (Hdn : dinode_at (k_view s2) (l_dev (k_log s2)) (sb (k_fs s2)) (i_inum jp) = inode_dinode ip).
    { unfold dinode_at. rewrite Hjn, Esb, Ed2, <- Hdev. fold sb0. rewrite Hv, (up_view _ _ _ U1) by done. unfold put.
      rewrite decide_True by (by rewrite Hdev). apply get_set_dinode; [apply Hok|done]. }
    pose proof (ilock_load pid' r' s2 j jp (inode_dinode ip) T2 Hf2 Hr' Hj) as L.
    specialize (L ltac:(congruence) ltac:(rewrite Hjn, Esb; exact Hin) Hjr Hjl Hjv ltac:(by symmetry)).
    cbn [di_type inode_dinode] in L. rewrite (proj2 (Z.eqb_neq _ _)) in L by done.
    destruct L as (s3 & R3 & _ & Ef3 & _). eexists s3, _. split; [done|]. rewrite Ef3. cbn [inodes with_inodes].
    split; [apply list_lookup_insert_eq; by eapply lookup_lt_Some|]. by destruct ip.
Qed.

(** ** Reading files *)

(** The address of block [bn] of a file, and the byte at offset [o]. *)
Definition addr_of (V : Z * Z -> list Z) (ip : inode) (bn : Z) : Z :=
  if bn <? NDIRECT then default 0 (i_addrs ip !! Z.to_nat bn)
  else get32 (V (i_dev ip, default 0 (i_addrs ip !! Z.to_nat NDIRECT))) (4 * Z.to_nat (bn - NDIRECT)).
Definition file_byte (V : Z * Z -> list Z) (ip : inode) (o : Z) : Z :=
  get_byte (V (i_dev ip, addr_of V ip (o / BSIZE))) (Z.to_nat (o mod BSIZE)).
Definition file_bytes (V : Z * Z -> list Z) (ip : inode) (off n : Z) : list Z :=
  (fun j => file_byte V ip (off + Z.of_nat j)) <$> seq 0 (Z.to_nat n).

(** A file without holes: every block below its size has an address. *)
Record mapped (s : kstate) (ip : inode) : Prop := mk_mapped {
  mp_len : length (i_addrs ip) = Z.to_nat (NDIRECT + 1);
  mp_size : 0 <= i_size ip <= MAXFILE * BSIZE;
  mp_ind : NDIRECT * BSIZE < i_size ip ->
    0 < default 0 (i_addrs ip !! Z.to_nat NDIRECT) < sb_size (sb (k_fs s));
  mp_addr : forall bn, 0 <= bn -> bn * BSIZE < i_size ip -> 0 < addr_of (k_view s) ip bn < sb_size (sb (k_fs s)) }.

Lemma lookup_addr s ip j : mapped s ip -> (j < Z.to_nat (NDIRECT + 1))%nat ->
  i_addrs ip !! j = Some (default 0 (i_addrs ip !! j)).
Proof.
  intros [Hl _ _ _] Hj. rewrite <- Hl in Hj. apply lookup_lt_is_Some in Hj as [a Ha]. by rewrite Ha.
Qed.

Lemma mapped_upd s s' ip : upd s s' (k_view s) -> 0 < i_dev ip -> mapped s ip -> mapped s' ip.
Proof.
  intros U Hd [Hl Hs Hi Ha]. split; try done; rewrite (upd_fs _ _ _ U); [done|].
  intros bn Hbn Hlt. specialize (Ha bn Hbn Hlt). unfold addr_of in *. case_bool; [done|].
  rewrite (up_view _ _ _ U); [done|]. intros [= ? _]. lia.
Qed.

Lemma bmap_mapped pid r s i ip bn :
  txn pid [] r s -> fs_inv s -> 0 <= r -> inodes (k_fs s) !! i = Some ip -> i_dev ip = l_dev (k_log s) ->
  mapped s ip -> 0 <= bn -> bn * BSIZE < i_size ip ->
  exists s', bmap i bn s = Ok (addr_of (k_view s) ip bn) s' /\ txn pid [] r s' /\ upd s s' (k_view s).
Proof.
  intros T Hf Hr Hi Hdev Hm Hbn Hlt. unfold bmap, get_addr. rewrite (bind_ok _ _ _ _ _ (get_inode_ok _ _ _ Hi)).
  pose proof (mp_addr _ _ Hm bn Hbn Hlt) as Ha. unfold addr_of in Ha |- *.
  assert (Hget : forall j, (j < Z.to_nat (NDIRECT + 1))%nat -> get_addr i j s = Ok (default 0 (i_addrs ip !! j)) s).
  { intros j Hj. unfold get_addr. rewrite (bind_ok _ _ _ _ _ (get_inode_ok _ _ _ Hi)).
    by rewrite (lookup_addr s ip j Hm Hj). }
  fold (get_addr i (Z.to_nat bn)). fold (get_addr i (Z.to_nat NDIRECT)).
  destruct (bn <? NDIRECT) eqn:E; zbool.
  - rewrite (bind_ok _ _ _ _ _ (Hget (Z.to_nat bn) ltac:(unfold NDIRECT in *; lia))), (proj2 (Z.eqb_neq _ _)) by lia.
    exists s. split; [done|]. split; [done|]. apply upd_refl.
  - destruct Hm as [Hlen [Hs0 Hs] Hind _]. unfold MAXFILE in Hs.
    assert (bn - NDIRECT < NINDIRECT) by (change BSIZE with 512 in *; lia). rewrite (proj2 (Z.ltb_lt _ _)) by done.
    specialize (Hind ltac:(change BSIZE with 512 in *; lia)). set (a := default 0 (i_addrs ip !! Z.to_nat NDIRECT)) in *.
    rewrite (bind_ok _ _ _ _ _ (Hget (Z.to_nat NDIRECT) ltac:(unfold NDIRECT in *; lia))). fold a.
    rewrite (proj2 (Z.eqb_neq a 0)) by lia. erewrite bind_ok by reflexivity. rewrite Hdev in Ha |- *.
    pose proof (fi_dev _ Hf) as Hd0.
    destruct (t_read pid [] r s a T) as (b & s1 & R1 & (x & Rx & Hx) & T1 & U1).
    { set_solver. } { intros [= ? _]; lia. } { apply (fi_drv _ Hf). lia. } { simpl. lia. }
    rewrite (bind_ok _ _ _ _ _ R1), (bind_ok _ _ _ _ _ Rx), Hx, (proj2 (Z.eqb_neq _ _)) by lia.
    erewrite bind_ok by reflexivity. destruct (t_brelse pid [] r s1 b _ T1) as (s2 & R2 & T2 & U2).
    rewrite (bind_ok _ _ _ _ _ R2). exists s2. split; [done|]. split; [done|].
    eapply upd_view; [by eapply upd_trans|]. by apply U1.
Qed.

Lemma slice_bytes (data : list Z) o m : (o + m <= length data)%nat ->
  slice o m data = (fun j => get_byte data (o + j)) <$> seq 0 m.
Proof.
  intros Hl. apply list_eq. intros j. unfold slice. rewrite list_lookup_fmap. destruct (decide (j < m)%nat).
  - rewrite lookup_take_lt, lookup_drop, lookup_seq_lt by lia. cbn [fmap option_fmap option_map].
    change (0 + j)%nat with j. unfold get_byte. destruct (data !! (o + j)%nat) eqn:E; [done|]. apply lookup_ge_None in E. lia.
  - rewrite lookup_take_ge, lookup_seq_ge by lia. done.
Qed.

Lemma file_bytes_app V ip off m n : 0 <= m -> 0 <= n ->
  file_bytes V ip off (m + n) = file_bytes V ip off m ++ file_bytes V ip (off + m) n.
Proof.
  intros Hm Hn. unfold file_bytes. rewrite Z2Nat.inj_add, seq_app, fmap_app by lia. f_equal. simpl.
  apply list_eq. intros j. rewrite !list_lookup_fmap. destruct (decide (j < Z.to_nat n)%nat).
  - rewrite !lookup_seq_lt by lia. simpl. do 2 f_equal. lia.
  - by rewrite !lookup_seq_ge by lia.
Qed.

(** Part of one block. *)
Lemma file_bytes_block V ip off m : 0 <= off -> 0 <= m -> off mod BSIZE + m <= BSIZE ->
  length (V (i_dev ip, addr_of V ip (off / BSIZE))) = Z.to_nat BSIZE ->
  slice (Z.to_nat (off mod BSIZE)) (Z.to_nat m) (V (i_dev ip, addr_of V ip (off / BSIZE))) = file_bytes V ip off m.
Proof.
  change BSIZE with 512. intros Ho Hm Hle Hl. pose proof (Z.mod_pos_bound off 512).
  rewrite slice_bytes by lia. unfold file_bytes. apply list_fmap_ext. intros j x Hx. apply lookup_seq in Hx as [-> Hj].
  unfold file_byte. change BSIZE with 512. simpl.
  assert (E : (off + Z.of_nat j) / 512 = off / 512 /\ (off + Z.of_nat j) mod 512 = off mod 512 + Z.of_nat j) by zdiv.
  destruct E as [-> ->]. f_equal. lia.
Qed.

Lemma addr_of_upd s s' ip bn : upd s s' (k_view s) -> 0 < i_dev ip ->
  addr_of (k_view s') ip bn = addr_of (k_view s) ip bn.
Proof. intros U Hd. unfold addr_of. case_bool; [done|]. rewrite (up_view _ _ _ U); [done|]. intros [= ? _]. lia. Qed.

Lemma file_bytes_upd s s' ip off n : upd s s' (k_view s) -> 0 < i_dev ip ->
  file_bytes (k_view s') ip off n = file_bytes (k_view s) ip off n.
Proof.
  intros U Hd. unfold file_bytes. apply list_fmap_ext. intros j x _. unfold file_byte.
  rewrite (addr_of_upd s s') by done. rewrite (up_view _ _ _ U); [done|]. intros [= ? _]. lia.
Qed.

Lemma readi_loop_spec pid r i ip fuel : forall s off n,
  txn pid [] r s -> fs_inv s -> 0 <= r -> inodes (k_fs s) !! i = Some ip -> i_dev ip = l_dev (k_log s) ->
  mapped s ip -> 0 <= off -> 0 <= n -> off + n <= i_size ip -> n = 0 \/ off mod BSIZE + n <= Z.of_nat fuel * BSIZE ->
  exists s', readi_loop fuel i off n s = Ok (file_bytes (k_view s) ip off n) s' /\ txn pid [] r s' /\ upd s s' (k_view s).
Proof.
  induction fuel as [|fuel IH]; intros s off n T Hf Hr Hi Hdev Hm Ho Hn Hle Hfuel.
  - pose proof (Z.mod_pos_bound off BSIZE). assert (n = 0) as -> by (change BSIZE with 512 in *; lia).
    exists s. split; [done|]. split; [done|]. apply upd_refl.
  - cbn [readi_loop]. destruct (n <=? 0) eqn:E0; zbool.
    { assert (n = 0) as -> by lia. exists s. split; [done|]. split; [done|]. apply upd_refl. }
    rewrite (bind_ok _ _ _ _ _ (get_inode_ok _ _ _ Hi)). pose proof (fi_dev _ Hf) as Hd0. set (bn := off / BSIZE).
    assert (Hbn : 0 <= bn /\ bn * BSIZE < i_size ip) by (unfold bn; change BSIZE with 512 in *; zdiv).
    destruct (bmap_mapped pid r s i ip bn T Hf Hr Hi Hdev Hm) as (s1 & R1 & T1 & U1); [lia|lia|].
    rewrite (bind_ok _ _ _ _ _ R1). set (a := addr_of (k_view s) ip bn).
    pose proof (mp_addr _ _ Hm bn (proj1 Hbn) (proj2 Hbn)) as Ha. fold a in Ha. pose proof (upd_dev _ _ _ U1) as Ed1.
    destruct (t_read pid [] r s1 a T1) as (b & s2 & R2 & (x & Rx & Hx) & T2 & U2); rewrite ?Ed1 in *.
    { set_solver. } { intros [= ? _]; lia. } { rewrite (upd_drv _ _ _ _ _ U1). apply (fi_drv _ Hf). lia. } { simpl. lia. }
    rewrite Hdev, (bind_ok _ _ _ _ _ R2), (bind_ok _ _ _ _ _ Rx), Hx.
    rewrite (up_view _ _ _ U1) by (intros [= ? _]; lia). set (m := Z.min n (BSIZE - off mod BSIZE)).
    destruct (t_brelse pid [] r s2 b _ T2) as (s3 & R3 & T3 & U3). rewrite (bind_ok _ _ _ _ _ R3).
    assert (U : upd s s3 (k_view s)).
    { eapply upd_view; [eapply upd_trans; [exact U1|]; eapply upd_trans; [exact U2|exact U3]|].
      intros k Hk. rewrite (up_view _ _ _ U2) by done. by apply U1. }
    assert (Hm0 : 0 < m <= n /\ off mod BSIZE + m <= BSIZE).
    { pose proof (Z.mod_pos_bound off BSIZE). unfold m. change BSIZE with 512 in *. lia. }
    destruct (IH s3 (off + m) (n - m)) as (s4 & R4 & T4 & U4); try lia; try done.
    { by apply (fs_inv_same s). } { by rewrite (upd_fs _ _ _ U). } { by rewrite (upd_dev _ _ _ U). }
    { apply (mapped_upd s); [done|lia|done]. }
    { destruct (Z.eq_dec m n); [left; lia|right]. unfold m in *. change BSIZE with 512 in *. zdiv. }
    rewrite (bind_ok _ _ _ _ _ R4). exists s4. split; [|split; [done|]].
    + unfold ret. f_equal. rewrite (file_bytes_upd s s3) by (done || lia).
      replace n with (m + (n - m)) at 2 by lia. rewrite file_bytes_app by lia. f_equal.
      rewrite <- Hdev. apply file_bytes_block; [done|lia|lia|]. eapply view_ok, T.
    + eapply upd_view; [by eapply upd_trans|]. by apply U.
Qed.

Lemma readi_spec pid r s i ip off n :
  txn pid [] r s -> fs_inv s -> 0 <= r -> inodes (k_fs s) !! i = Some ip -> i_dev ip = l_dev (k_log s) ->
  mapped s ip -> i_type ip <> T_DEV -> 0 <= off < 2 ^ 32 -> 0 <= n < 2 ^ 32 ->
  if decide (off <= i_size ip /\ off + n < 2 ^ 32) then
    let n' := Z.min n (i_size ip - off) in
    exists s', readi i off n s = Ok (n', file_bytes (k_view s) ip off n') s' /\
      Z.of_nat (length (file_bytes (k_view s) ip off n')) = n' /\
      txn pid [] r s' /\ upd s s' (k_view s)
  else readi i off n s = Ok (-1, []) s.
Proof.
  intros T Hf Hr Hi Hdev Hm Hty Ho Hn. unfold readi. rewrite (bind_ok _ _ _ _ _ (get_inode_ok _ _ _ Hi)).
  rewrite (proj2 (Z.eqb_neq _ _)) by done.
  assert (Htest : (i_size ip <? off) || (u32 (off + n) <? off) = bool_decide (~ (off <= i_size ip /\ off + n < 2 ^ 32))).
  { unfold u32. case_bool_decide as E.
    - apply orb_true_iff. rewrite !Z.ltb_lt. destruct (Z_lt_dec (i_size ip) off); [by left|right].
      replace (off + n) with (off + n - 2 ^ 32 + 1 * 2 ^ 32) by lia. rewrite Z_mod_plus_full, Z.mod_small by lia. lia.
    - apply orb_false_iff. rewrite !Z.ltb_ge. rewrite Z.mod_small by lia. lia. }
  rewrite Htest. destruct (decide (off <= i_size ip /\ off + n < 2 ^ 32)) as [E|E]; [|by rewrite bool_decide_true by done].
  rewrite bool_decide_false by tauto. destruct E as [E1 E2]. cbv zeta. set (n' := Z.min n (i_size ip - off)).
  replace (if i_size ip <? off + n then i_size ip - off else n) with n' by (unfold n'; case_bool; lia).
  assert (Hn' : 0 <= n' /\ off + n' <= i_size ip) by (unfold n'; lia).
  destruct (readi_loop_spec pid r i ip (io_fuel n') s off n' T Hf Hr Hi Hdev Hm) as (s' & R & T' & U); try lia.
  { right. unfold io_fuel. pose proof (Z.mod_pos_bound off BSIZE). change BSIZE with 512 in *.
    pose proof (Z.div_mod n' 512). pose proof (Z.mod_pos_bound n' 512). pose proof (Z.div_pos n' 512). lia. }
  rewrite (bind_ok _ _ _ _ _ R). exists s'. split; [done|]. split; [|done].
  unfold file_bytes. rewrite length_fmap, length_seq. lia.
Qed.

End inode.
