(* ===== verification/FsBmap.v ===== *)
(** Mapping the blocks of a file: bmap, which allocates missing blocks (fs.c).

    [file_ok] says that the blocks of a file are its own: in use, distinct, and every
    block below its size is there.  [stepped] describes what one step of a write may
    change, and [bmap_spec] what bmap does, with the log space it takes. *)

From S2P Require Import Prelude Layout CString State Spinlock Sched Sleeplock Ring Memide Bio Session Log LogDisk LogSafe LogTxn Txn Fs FsAlloc FsInode.
Local Open Scope kernel_scope.

(** * The blocks of a file *)

(** Block address [a] is entered at index [j] of the inode. *)
Definition link (j : nat) (a : Z) (ip : inode) : inode := with_i_addrs (<[j := a]> (i_addrs ip)) ip.

Section blocks.
Context (sb0 : superblock).
Implicit Types (V : Z * Z -> list Z) (ip : inode).

Definition ind_addr ip : Z := default 0 (i_addrs ip !! Z.to_nat NDIRECT).

(** The address of block [bn], 0 if there is none. *)
Definition file_addr V ip (bn : Z) : Z :=
  if bn <? NDIRECT then default 0 (i_addrs ip !! Z.to_nat bn)
  else if ind_addr ip =? 0 then 0
  else get32 (V (i_dev ip, ind_addr ip)) (4 * Z.to_nat (bn - NDIRECT)).

(** A block of the data area that is in use. *)
Definition in_use V (dev b : Z) : Prop := data_start sb0 <= b < sb_size sb0 /\ used V dev sb0 b = true.

Record file_ok V ip : Prop := mk_file_ok {
  fo_len : length (i_addrs ip) = Z.to_nat (NDIRECT + 1);
  fo_size : 0 <= i_size ip <= MAXFILE * BSIZE;
  fo_data bn : 0 <= bn < MAXFILE -> file_addr V ip bn = 0 \/ in_use V (i_dev ip) (file_addr V ip bn);
  fo_ind : ind_addr ip = 0 \/ in_use V (i_dev ip) (ind_addr ip) /\ block_ok (V (i_dev ip, ind_addr ip));
  fo_inj bn bn' : 0 <= bn < MAXFILE -> 0 <= bn' < MAXFILE ->
    file_addr V ip bn <> 0 -> file_addr V ip bn = file_addr V ip bn' -> bn = bn';
  fo_sep bn : 0 <= bn < MAXFILE -> file_addr V ip bn <> 0 -> file_addr V ip bn <> ind_addr ip;
  fo_full bn : 0 <= bn -> bn * BSIZE < i_size ip -> file_addr V ip bn <> 0 }.

(** The blocks that belong to a file. *)
Definition owns V ip (b : Z) : Prop := b <> 0 /\ (b = ind_addr ip \/ exists bn, 0 <= bn < MAXFILE /\ b = file_addr V ip bn).

(** The order of the areas on the disk. *)
Record layout_ok : Prop := mk_layout_ok {
  lo_bmap b : 0 <= b < sb_size sb0 -> sb_bmapstart sb0 <= BBLOCK b sb0 < data_start sb0;
  lo_order : 0 < sb_bmapstart sb0 <= data_start sb0 /\ sb_size sb0 < 2 ^ 31 }.

(** [V'] is [V] with the free block [a] taken and zeroed. *)
Record fresh V V' (dev a : Z) : Prop := mk_fresh {
  fr_range : data_start sb0 <= a < sb_size sb0;
  fr_free : used V dev sb0 a = false;
  fr_used b : 0 <= b < sb_size sb0 -> used V' dev sb0 b = (b =? a) || used V dev sb0 b;
  fr_zero : V' (dev, a) = zero_block;
  fr_same b : in_use V dev b -> V' (dev, b) = V (dev, b);
  fr_meta b : b < sb_bmapstart sb0 -> V' (dev, b) = V (dev, b) }.

Context (Hlo : layout_ok).

Lemma fresh_in_use V V' dev a b : fresh V V' dev a -> in_use V dev b -> in_use V' dev b /\ b <> a.
Proof using Hlo.
  intros Hf [Hb Hu]. destruct Hlo as [_ [Ho _]]. split.
  - split; [done|]. rewrite (fr_used _ _ _ _ Hf) by lia. rewrite Hu. apply orb_true_r.
  - intros ->. rewrite (fr_free _ _ _ _ Hf) in Hu. done.
Qed.

Lemma fresh_used V V' dev a : fresh V V' dev a -> in_use V' dev a.
Proof using Hlo.
  intros Hf. pose proof (fr_range _ _ _ _ Hf). destruct Hlo as [_ [Ho _]]. split; [done|].
  rewrite (fr_used _ _ _ _ Hf) by lia. by rewrite Z.eqb_refl.
Qed.

Lemma fresh_addr V V' ip a bn : file_ok V ip -> fresh V V' (i_dev ip) a -> file_addr V' ip bn = file_addr V ip bn.
Proof.
  intros Hok Hf. unfold file_addr. destruct (bn <? NDIRECT); [done|]. destruct (Z.eqb_spec (ind_addr ip) 0); [done|].
  destruct (fo_ind _ _ Hok) as [|[Hi _]]; [done|]. by rewrite (fr_same _ _ _ _ Hf).
Qed.

Lemma file_ok_fresh V V' ip a : file_ok V ip -> fresh V V' (i_dev ip) a -> file_ok V' ip /\ ~ owns V' ip a.
Proof using Hlo.
  intros Hok Hf. assert (Ha : forall bn, file_addr V' ip bn = file_addr V ip bn) by (intros; by eapply fresh_addr).
  destruct (Hok) as [Hl Hs Hd Hi Hinj Hsep Hfull]. split.
  - split; try done.
    + intros bn Hbn. rewrite Ha. destruct (Hd bn Hbn) as [|Hu]; [by left|right]. by eapply fresh_in_use.
    + destruct Hi as [|[Hi Hb]]; [by left|right]. split; [by eapply fresh_in_use|]. by rewrite (fr_same _ _ _ _ Hf).
    + intros bn bn'. rewrite !Ha. apply Hinj.
    + intros bn. rewrite Ha. apply Hsep.
    + intros bn. rewrite Ha. apply Hfull.
  - intros [Hne [E|(bn & Hbn & E)]].
    + destruct Hi as [|[Hi _]]; [congruence|]. by destruct (fresh_in_use _ _ _ _ _ Hf Hi).
    + rewrite Ha in E. destruct (Hd bn Hbn) as [|Hu]; [congruence|]. by destruct (fresh_in_use _ _ _ _ _ Hf Hu).
Qed.

(** A block is linked into the file. *)
Lemma file_ok_link V V' ip ip' a bn :
  file_ok V ip -> in_use V (i_dev ip) a -> ~ owns V ip a -> 0 <= bn < MAXFILE ->
  i_dev ip' = i_dev ip -> i_size ip' = i_size ip -> length (i_addrs ip') = length (i_addrs ip) ->
  ind_addr ip' = ind_addr ip ->
  (forall b, in_use V (i_dev ip) b -> in_use V' (i_dev ip) b) ->
  (ind_addr ip <> 0 -> block_ok (V' (i_dev ip, ind_addr ip))) ->
  (forall bn', 0 <= bn' < MAXFILE -> file_addr V' ip' bn' = if decide (bn' = bn) then a else file_addr V ip bn') ->
  file_ok V' ip'.
Proof using Hlo.
  intros [Hl Hs Hd Hi Hinj Hsep Hfull] Ha Hown Hbn Ed Es El Ei Hu Hb Hfa.
  assert (Ha0 : a <> 0) by (destruct Ha; destruct Hlo as [_ [? _]]; lia).
  assert (Hnew : forall bn', 0 <= bn' < MAXFILE -> file_addr V ip bn' <> a).
  { intros bn' Hbn' E. apply Hown. split; [done|]. right. by exists bn'. }
  split; rewrite ?Ed, ?Es, ?El, ?Ei; try done.
  - intros bn' Hbn'. rewrite Hfa by done. case_decide; [right; auto|]. destruct (Hd bn' Hbn'); [by left|right; auto].
  - destruct Hi as [|[Hi _]]; [by left|]. destruct (Z.eq_dec (ind_addr ip) 0); [by left|right; auto].
  - intros b1 b2 H1 H2. rewrite !Hfa by done. repeat case_decide; subst; try done.
    + intros _ E. by destruct (Hnew b2 H2).
    + intros _ E. by destruct (Hnew b1 H1).
    + by apply Hinj.
  - intros b1 H1. rewrite Hfa by done. case_decide; [|by apply Hsep]. intros _ E. apply Hown. split; [done|by left].
  - intros b1 H1 H2. assert (b1 < MAXFILE) by (change BSIZE with 512 in *; lia).
    rewrite Hfa by lia. case_decide; [done|]. by apply Hfull.
Qed.

Lemma link_direct V ip a bn : file_ok V ip -> in_use V (i_dev ip) a -> ~ owns V ip a -> 0 <= bn < NDIRECT ->
  let ip' := link (Z.to_nat bn) a ip in
  file_ok V ip' /\ ind_addr ip' = ind_addr ip /\
  forall bn', 0 <= bn' < MAXFILE -> file_addr V ip' bn' = if decide (bn' = bn) then a else file_addr V ip bn'.
Proof using Hlo.
  intros Hok Ha Hown Hbn ip'.
  assert (Ei : ind_addr ip' = ind_addr ip).
  { unfold ind_addr, ip'. cbn [i_addrs link with_i_addrs]. rewrite list_lookup_insert_ne; [done|lia]. }
  assert (Hfa : forall bn', 0 <= bn' < MAXFILE -> file_addr V ip' bn' = if decide (bn' = bn) then a else file_addr V ip bn').
  { intros bn' Hbn'. unfold file_addr. rewrite Ei. destruct (Z.ltb_spec bn' NDIRECT).
    - unfold ip'. cbn [i_addrs link with_i_addrs]. case_decide as E.
      + subst. rewrite list_lookup_insert_eq; [done|]. rewrite (fo_len _ _ Hok). unfold NDIRECT in *. lia.
      + rewrite list_lookup_insert_ne; [done|unfold NDIRECT in *; lia].
    - rewrite decide_False by lia. done. }
  split; [|done]. apply (file_ok_link V V ip ip' a bn); try done.
  - change MAXFILE with (NDIRECT + 128). lia.
  - cbn. by rewrite length_insert.
  - intros Hne. by destruct (fo_ind _ _ Hok) as [|[_ ?]].
Qed.

Lemma get32_zero j : get32 zero_block j = 0.
Proof.
  unfold get32, slice, zero_block. rewrite drop_replicate, take_replicate.
  induction (4 `min` (Z.to_nat BSIZE - j))%nat as [|n IH]; [done|]. cbn [replicate le_val]. rewrite IH. done.
Qed.

Lemma link_ind V ip a : file_ok V ip -> ind_addr ip = 0 -> in_use V (i_dev ip) a -> ~ owns V ip a ->
  V (i_dev ip, a) = zero_block -> let ip' := link (Z.to_nat NDIRECT) a ip in
  file_ok V ip' /\ ind_addr ip' = a /\ forall bn, file_addr V ip' bn = file_addr V ip bn.
Proof using Hlo.
  intros [Hl Hs Hd Hi Hinj Hsep Hfull] H0 Ha Hown Hz ip'.
  assert (Ei : ind_addr ip' = a).
  { unfold ind_addr, ip'. cbn [i_addrs link with_i_addrs]. rewrite list_lookup_insert_eq; [done|]. rewrite Hl. unfold NDIRECT. lia. }
  assert (Ha0 : a <> 0) by (destruct Ha; destruct Hlo as [_ [? _]]; lia).
  assert (Hfa : forall bn, file_addr V ip' bn = file_addr V ip bn).
  { intros bn. unfold file_addr. rewrite Ei, H0. destruct (Z.ltb_spec bn NDIRECT).
    - unfold ip'. cbn [i_addrs link with_i_addrs]. destruct (Z_lt_dec bn 0).
      + replace (Z.to_nat bn) with 0%nat by lia. by rewrite list_lookup_insert_ne.
      + rewrite list_lookup_insert_ne; [done|lia].
    - rewrite (proj2 (Z.eqb_neq a 0)) by done. change (i_dev ip') with (i_dev ip). by rewrite Hz, get32_zero. }
  split; [|done]. split; try done.
  - cbn. by rewrite length_insert.
  - intros bn Hbn. rewrite Hfa. by apply Hd.
  - right. rewrite Ei. split; [done|]. change (i_dev ip') with (i_dev ip). rewrite Hz. apply zero_block_ok.
  - intros bn bn'. rewrite !Hfa. apply Hinj.
  - intros bn Hbn. rewrite Hfa, Ei. intros Hne E. apply Hown. split; [done|]. right. by exists bn.
  - intros bn. rewrite Hfa. apply Hfull.
Qed.

(** The bitmap is not in the data area. *)
Lemma used_put V V' dev b v b' : data_start sb0 <= b -> (forall n, n <> b -> V' (dev, n) = put (dev, b) v V (dev, n)) ->
  0 <= b' < sb_size sb0 -> used V' dev sb0 b' = used V dev sb0 b'.
Proof using Hlo.
  intros Hb HV Hb'. pose proof (lo_bmap Hlo b' Hb'). unfold used. rewrite HV by lia. unfold put.
  rewrite decide_False; [done|]. intros [= E]. lia.
Qed.

Lemma in_use_put V V' dev b v b' : data_start sb0 <= b -> (forall n, n <> b -> V' (dev, n) = put (dev, b) v V (dev, n)) ->
  in_use V dev b' -> in_use V' dev b'.
Proof using Hlo.
  intros Hb HV [Hr Hu]. destruct Hlo as [_ [Ho _]]. split; [done|]. by rewrite (used_put V V' dev b v) by (done || lia).
Qed.

(** The entry of block [bn] in the indirect block is set. *)
Lemma link_entry V V' ip a bn : file_ok V ip -> in_use V (i_dev ip) a -> ~ owns V ip a ->
  NDIRECT <= bn < MAXFILE -> ind_addr ip <> 0 ->
  (forall n, V' (i_dev ip, n) =
     put (i_dev ip, ind_addr ip) (set32 (V (i_dev ip, ind_addr ip)) (4 * Z.to_nat (bn - NDIRECT)) a) V (i_dev ip, n)) ->
  file_ok V' ip /\
  forall bn', 0 <= bn' < MAXFILE -> file_addr V' ip bn' = if decide (bn' = bn) then a else file_addr V ip bn'.
Proof using Hlo.
  intros Hok Ha Hown Hbn Hi HV. destruct (fo_ind _ _ Hok) as [|[Hiu Hib]]; [done|].
  assert (Hlen : (4 * Z.to_nat (bn - NDIRECT) + 4 <= length (V (i_dev ip, ind_addr ip)))%nat).
  { rewrite (proj1 Hib). change MAXFILE with (NDIRECT + 128) in Hbn. change BSIZE with 512. lia. }
  assert (HVi : V' (i_dev ip, ind_addr ip) = set32 (V (i_dev ip, ind_addr ip)) (4 * Z.to_nat (bn - NDIRECT)) a).
  { rewrite HV. unfold put. by rewrite decide_True. }
  assert (Hfa : forall bn', 0 <= bn' < MAXFILE -> file_addr V' ip bn' = if decide (bn' = bn) then a else file_addr V ip bn').
  { intros bn' Hbn'. unfold file_addr. destruct (Z.ltb_spec bn' NDIRECT).
    - by rewrite decide_False by lia.
    - rewrite (proj2 (Z.eqb_neq _ _)), HVi by done. case_decide as E.
      + subst. rewrite get32_set32_eq by done. destruct Ha as [Ha _], Hlo as [_ [? ?]]. apply u32_small. lia.
      + rewrite get32_set32_ne; [done|done|]. lia. }
  split; [|done]. apply (file_ok_link V V' ip ip a bn); try done.
  - change MAXFILE with (NDIRECT + 128) in *. unfold NDIRECT in *. lia.
  - intros b Hb. eapply in_use_put; [apply Hiu| |done]. intros n _. apply HV.
  - intros _. rewrite HVi. split; [rewrite length_set32; [apply Hib|done]|]. apply set32_bytes_ok; apply Hib.
Qed.

(** The contents of block [bn] are changed. *)
Lemma put_data V V' ip bn v : file_ok V ip -> 0 <= bn < MAXFILE -> file_addr V ip bn <> 0 ->
  (forall n, V' (i_dev ip, n) = put (i_dev ip, file_addr V ip bn) v V (i_dev ip, n)) ->
  file_ok V' ip /\ forall bn', file_addr V' ip bn' = file_addr V ip bn'.
Proof using Hlo.
  intros Hok Hbn Hne HV. destruct (fo_data _ _ Hok bn Hbn) as [|Hu]; [done|].
  assert (HVi : V' (i_dev ip, ind_addr ip) = V (i_dev ip, ind_addr ip)).
  { rewrite HV. unfold put. rewrite decide_False; [done|]. intros [= E]. by apply (fo_sep _ _ Hok bn Hbn Hne). }
  assert (Hfa : forall bn', file_addr V' ip bn' = file_addr V ip bn').
  { intros bn'. unfold file_addr. by rewrite HVi. }
  assert (Hus : forall b, in_use V (i_dev ip) b -> in_use V' (i_dev ip) b).
  { intros b Hb. eapply in_use_put; [apply Hu| |done]. intros n _. apply HV. }
  split; [|done]. destruct Hok as [Hl Hs Hd Hi Hinj Hsep Hfull]. split; try done.
  - intros b Hb. rewrite Hfa. destruct (Hd b Hb); [by left|right; auto].
  - rewrite HVi. destruct Hi as [|[? ?]]; [by left|right; auto].
  - intros b b'. rewrite !Hfa. apply Hinj.
  - intros b. rewrite Hfa. apply Hsep.
  - intros b. rewrite Hfa. apply Hfull.
Qed.
End blocks.

(** * Steps of a write *)
Section write.
Context {drv : Driver} {dsw : DevSw}.
Implicit Types H : list (nat * (Z * Z)).

Abbreviation dev s := (l_dev (k_log s)).
Abbreviation sblk s := (sb (k_fs s)).

(** From [s] to [s'] only the cache entry [i] of the inode table, the blocks [own] and
    blocks that were free have changed, all inside the transaction. *)
Record stepped (i : nat) (ip' : inode) (s s' : kstate) (own : Z -> Prop) : Prop := mk_stepped {
  st_fs : k_fs s' = with_inodes (<[i := ip']> (inodes (k_fs s))) (k_fs s);
  st_upd : upd s (set_fs (k_fs s) s') (k_view s');
  st_inv : fs_inv s';
  st_meta b : b < sb_bmapstart (sblk s) -> k_view s' (dev s, b) = k_view s (dev s, b);
  st_used b : in_use (sblk s) (k_view s) (dev s) b -> in_use (sblk s) (k_view s') (dev s) b;
  st_frame b : in_use (sblk s) (k_view s) (dev s) b -> ~ own b -> k_view s' (dev s, b) = k_view s (dev s, b) }.

Lemma layout_inv s : fs_inv s -> layout_ok (sblk s).
Proof.
  intros Hf. pose proof (fs_order s Hf) as Ho. cbv zeta in Ho. split; [|lia].
  intros b Hb. by apply bitmap_block.
Qed.

Lemma step_sb i ip' s s' own : stepped i ip' s s' own -> sblk s' = sblk s.
Proof. intros [-> _ _ _ _ _]. done. Qed.

Lemma step_dev i ip' s s' own : stepped i ip' s s' own -> dev s' = dev s.
Proof. intros [_ U _ _ _ _]. by apply (upd_dev _ _ _ U). Qed.

Lemma step_pinned i ip' s s' own k : stepped i ip' s s' own -> pinned (k_log s) k -> pinned (k_log s') k.
Proof. intros [_ U _ _ _ _]. by apply (up_pinned _ _ _ U). Qed.

Lemma step_inode i ip' s s' own : stepped i ip' s s' own -> (i < length (inodes (k_fs s)))%nat ->
  inodes (k_fs s') !! i = Some ip'.
Proof. intros [-> _ _ _ _ _] Hi. cbn. by apply list_lookup_insert_eq. Qed.

Lemma upd_set_fs s1 s2 s3 V V' f : upd s1 (set_fs f s2) V -> upd s2 s3 V' -> upd s1 (set_fs f s3) V'.
Proof.
  intros [E1 Z1 (P1 & O1 & C1) W1 I1 Q1 _] [E2 Z2 (P2 & O2 & C2) W2 I2 Q2 H2].
  split; try (cbn in *; congruence); try done.
  - apply (f_equal (fun s => set_log (k_log s3) (set_ptable (k_ptable s3) (set_disk (k_disk s3) (set_bcache (k_bcache s3) s))))) in E1.
    rewrite E2. exact E1.
  - destruct P1 as (?&?&?), P2 as (?&?&?). cbn in *. repeat split; congruence.
  - exact (eq_trans I2 I1).
  - intros k Hk. by apply Q2, Q1.
Qed.

Lemma stepped_trans i ip1 ip2 s s1 s2 own own1 own2 :
  stepped i ip1 s s1 own1 -> stepped i ip2 s1 s2 own2 ->
  (forall b, in_use (sblk s) (k_view s) (dev s) b -> own1 b \/ own2 b -> own b) -> stepped i ip2 s s2 own.
Proof.
  intros S1 S2 Ho. pose proof (step_sb _ _ _ _ _ S1) as Esb. pose proof (step_dev _ _ _ _ _ S1) as Ed.
  destruct S1 as [F1 U1 I1 M1 Us1 Fr1], S2 as [F2 U2 I2 M2 Us2 Fr2]. rewrite Esb, Ed in *. split; try done.
  - rewrite F2, F1. cbn. by rewrite list_insert_insert_eq.
  - rewrite F1 in U2. pose proof (upd_set_fs s s1 _ _ _ (k_fs s) U1 U2) as U. done.
  - intros b Hb. rewrite M2 by done. by apply M1.
  - intros b Hb. auto.
  - intros b Hb Hn. rewrite Fr2; [apply Fr1|apply Us1|]; try done; intros ?; apply Hn; auto.
Qed.

Lemma stepped_weaken i ip' s s' (own own' : Z -> Prop) : stepped i ip' s s' own' ->
  (forall b, in_use (sblk s) (k_view s) (dev s) b -> own' b -> own b) -> stepped i ip' s s' own.
Proof. intros [] Ho. split; try done. intros b Hb Hn. auto. Qed.

(** Reading and releasing buffers. *)
Lemma stepped_same i ip s s' : fs_inv s -> inodes (k_fs s) !! i = Some ip -> upd s s' (k_view s) ->
  stepped i ip s s' (fun _ => False).
Proof.
  intros Hf Hi U. pose proof (fi_dev _ Hf) as Hd. pose proof (upd_fs _ _ _ U) as Ef.
  assert (HV : forall b, k_view s' (dev s, b) = k_view s (dev s, b)).
  { intros b. apply (up_view _ _ _ U). intros [= E _]. lia. }
  split; try done.
  - rewrite Ef, list_insert_id by done. by destruct (k_fs s).
  - rewrite <- Ef. replace (set_fs (k_fs s') s') with s' by (by destruct s'). eapply upd_view; [exact U|].
    intros k Hk. symmetry. by apply (up_view _ _ _ U).
  - by apply (fs_inv_same s).
  - intros b [Hb Hu]. split; [done|]. unfold used. by rewrite HV.
Qed.

(** Changing the cached inode. *)
Lemma stepped_inode i f ip s : fs_inv s -> inodes (k_fs s) !! i = Some ip ->
  stepped i (f ip) s (upd_inodes i f s) (fun _ => False).
Proof.
  intros Hf Hi. split; try done.
  - unfold upd_inodes. cbn [k_fs set_fs]. by rewrite (list_alter_insert_at _ _ ip).
  - by apply fs_inv_set_inodes.
Qed.

Lemma txn_inode pid H r i f s : txn pid H r s -> txn pid H r (upd_inodes i f s).
Proof. apply txn_set_fs. cbn. by rewrite length_alter. Qed.

(** Allocating a block. *)
Lemma allocated_fresh pid H r s a s' : txn pid H r s -> fs_inv s -> allocated pid H r s a s' ->
  fresh (sblk s) (k_view s) (k_view s') (dev s) a.
Proof.
  intros T Hf Ha. pose proof (layout_inv s Hf) as [Hbm [Ho1 Ho2]]. pose proof (fi_dev _ Hf) as Hd.
  destruct (allocated_inv pid H r s a s' (view_ok pid H s _ (tx_session _ _ _ _ T)) Hf Ha) as [Hf' Hu].
  destruct Ha as [T' R F P _ U].
  assert (HV : forall b, k_view s' (dev s, b) = alloc_view (dev s) (sblk s) a (k_view s) (dev s, b)).
  { intros b. apply (up_view _ _ _ U). intros [= E _]. lia. }
  pose proof (Hbm a ltac:(lia)) as Hba. split; try done.
  - rewrite HV. unfold alloc_view, put. by rewrite decide_True.
  - intros b [Hb Hub]. rewrite HV. unfold alloc_view, put. rewrite !decide_False; [done|intros [= E]; lia|].
    intros [= E]. subst. congruence.
  - intros b Hb. rewrite HV. unfold alloc_view, put. rewrite !decide_False; [done|intros [= E]; lia|intros [= E]; lia].
Qed.

Lemma stepped_alloc pid H r i ip s a s' : txn pid H r s -> fs_inv s -> inodes (k_fs s) !! i = Some ip ->
  allocated pid H r s a s' -> stepped i ip s s' (fun _ => False).
Proof.
  intros T Hf Hi Ha. pose proof (allocated_fresh _ _ _ _ _ _ T Hf Ha) as Hfr. pose proof (layout_inv s Hf) as Hlo.
  destruct (allocated_inv pid H r s a s' (view_ok pid H s _ (tx_session _ _ _ _ T)) Hf Ha) as [Hf' _].
  pose proof (al_upd _ _ _ _ _ _ Ha) as U. pose proof (upd_fs _ _ _ U) as Ef. split; try done.
  - rewrite Ef, list_insert_id by done. by destruct (k_fs s).
  - rewrite <- Ef. replace (set_fs (k_fs s') s') with s' by (by destruct s'). eapply upd_view; [exact U|].
    intros k Hk. symmetry. by apply (up_view _ _ _ U).
  - by apply Hfr.
  - intros b Hb. by apply (fresh_in_use (sblk s) Hlo (k_view s) (k_view s') (dev s) a).
  - intros b Hb _. by apply Hfr.
Qed.

(** Changing a block of the data area. *)
Lemma stepped_put i ip s s' b v : fs_inv s -> inodes (k_fs s) !! i = Some ip ->
  upd s s' (put (dev s, b) v (k_view s)) -> data_start (sblk s) <= b -> stepped i ip s s' (fun b' => b' = b).
Proof.
  intros Hf Hi U Hb. pose proof (layout_inv s Hf) as Hlo. pose proof (fi_dev _ Hf) as Hd. pose proof (upd_fs _ _ _ U) as Ef.
  assert (HV : forall n, k_view s' (dev s, n) = put (dev s, b) v (k_view s) (dev s, n)).
  { intros n. apply (up_view _ _ _ U). intros [= E _]. lia. }
  pose proof (fs_order s Hf) as Hord. cbv zeta in Hord.
  split; try done.
  - rewrite Ef, list_insert_id by done. by destruct (k_fs s).
  - rewrite <- Ef. replace (set_fs (k_fs s') s') with s' by (by destruct s'). eapply upd_view; [exact U|].
    intros k Hk. symmetry. by apply (up_view _ _ _ U).
  - apply (fs_inv_upd s s' _ U Hf).
    + unfold put. rewrite decide_False; [done|]. intros [= E]. lia.
    + intros n Hn. rewrite (used_put (sblk s) Hlo (k_view s) _ (dev s) b v); [by apply Hf|done|done|].
      destruct Hord as (_ & _ & ? & _). lia.
  - intros n Hn. rewrite HV. unfold put. rewrite decide_False; [done|]. intros [= E]. destruct Hlo as [_ [? _]]. lia.
  - intros n Hn. by apply (in_use_put (sblk s) Hlo (k_view s) _ (dev s) b v).
  - intros n Hn Hne. rewrite HV. unfold put. rewrite decide_False; [done|]. by intros [= E].
Qed.

(** * bmap *)

(** The room in the log that the indirect block may still need. *)
Definition icost (s : kstate) (ip : inode) : Z :=
  if decide (ind_addr ip <> 0 /\ pinned (k_log s) (dev s, ind_addr ip)) then 0 else 2.

Lemma icost_range s ip : 0 <= icost s ip <= 2.
Proof. unfold icost. case_decide; lia. Qed.

Lemma icost_step i ip' s s' own ip : stepped i ip' s s' own -> icost s' ip <= icost s ip.
Proof.
  intros S. unfold icost at 2. case_decide as E; [|apply icost_range].
  unfold icost. rewrite (step_dev _ _ _ _ _ S), decide_True; [lia|]. split; [apply E|]. eapply step_pinned; [done|apply E].
Qed.

(** A file that is being changed: the cache entry [i] holds its inode. *)
Record writing (pid : Z) (r : Z) (i : nat) (ip : inode) (s : kstate) : Prop := mk_writing {
  wr_txn : txn pid [] (r + icost s ip) s;
  wr_inv : fs_inv s;
  wr_inode : inodes (k_fs s) !! i = Some ip;
  wr_dev : i_dev ip = dev s;
  wr_ok : file_ok (sblk s) (k_view s) ip }.

(** Block [bn] has address [a] afterwards, and the other blocks are where they were. *)
Record mapped_block (pid r : Z) (i : nat) (ip : inode) (bn : Z) (s : kstate) (a : Z) (ip' : inode) (s' : kstate) : Prop := mk_mapped_block {
  mb_writing : writing pid r i ip' s';
  mb_step : stepped i ip' s s' (fun b => b = ind_addr ip);
  mb_ip : ip' = with_i_addrs (i_addrs ip') ip;
  mb_addr : a <> 0;
  mb_addrs bn' : 0 <= bn' < MAXFILE ->
    file_addr (k_view s') ip' bn' = if decide (bn' = bn) then a else file_addr (k_view s) ip bn';
  mb_case : file_addr (k_view s) ip bn = a \/
    file_addr (k_view s) ip bn = 0 /\ ~ in_use (sblk s) (k_view s) (dev s) a /\ pinned (k_log s') (dev s, a);
  mb_ind b : in_use (sblk s) (k_view s) (dev s) b -> b = ind_addr ip' -> b = ind_addr ip;
  mb_same : file_addr (k_view s) ip bn <> 0 -> ip' = ip }.

Lemma get_addr_ok i j ip s : inodes (k_fs s) !! i = Some ip -> length (i_addrs ip) = Z.to_nat (NDIRECT + 1) ->
  (j <= Z.to_nat NDIRECT)%nat -> get_addr i j s = Ok (default 0 (i_addrs ip !! j)) s.
Proof.
  intros Hi Hl Hj. unfold get_addr. rewrite (bind_ok _ _ _ _ _ (get_inode_ok _ _ _ Hi)).
  destruct (lookup_lt_is_Some_2 (i_addrs ip) j) as [a Ha]; [rewrite Hl; unfold NDIRECT in *; lia|]. by rewrite Ha.
Qed.

Lemma set_addr_ok i j v ip s : inodes (k_fs s) !! i = Some ip -> length (i_addrs ip) = Z.to_nat (NDIRECT + 1) ->
  (j <= Z.to_nat NDIRECT)%nat -> set_addr i j v s = Ok tt (upd_inodes i (link j v) s).
Proof. intros Hi Hl Hj. unfold set_addr. by rewrite (bind_ok _ _ _ _ _ (get_addr_ok _ _ _ _ Hi Hl Hj)). Qed.

(** A block is allocated and entered in the inode. *)
Lemma alloc_link pid r i j ip s :
  txn pid [] r s -> fs_inv s -> inodes (k_fs s) !! i = Some ip -> i_dev ip = dev s -> 2 <= r ->
  file_ok (sblk s) (k_view s) ip -> (j <= Z.to_nat NDIRECT)%nat ->
  let m := (let! addr := balloc (i_dev ip) in set_addr i j addr ;;; ret addr) in
  m s = Panic "balloc: out of blocks" \/
  exists a s', m s = Ok a s' /\ txn pid [] (r - 2) s' /\ stepped i (link j a ip) s s' (fun _ => False) /\
    fresh (sblk s) (k_view s) (k_view s') (dev s) a /\ pinned (k_log s') (dev s, a).
Proof.
  intros T Hf Hi Hd Hr Hok Hj m. subst m. rewrite Hd.
  destruct (balloc_spec pid [] r s T Hf) as [[_ E]|(a & s1 & E & Ha)]; [by intros ? ? ?%not_elem_of_nil|done|simpl; lia| |].
  { left. by apply bind_panic. }
  right. exists a, (upd_inodes i (link j a) s1). rewrite (bind_ok _ _ _ _ _ E).
  pose proof (stepped_alloc pid [] r i ip s a s1 T Hf Hi Ha) as S1. pose proof (lookup_lt_Some _ _ _ Hi) as Hlt.
  pose proof (step_inode _ _ _ _ _ S1 Hlt) as Hi1.
  rewrite (bind_ok _ _ _ _ _ (set_addr_ok i j a ip s1 Hi1 (fo_len _ _ _ Hok) Hj)).
  split; [done|]. split; [apply txn_inode, Ha|]. split; [|split].
  - eapply stepped_trans; [exact S1|apply (stepped_inode i (link j a) ip s1); [apply S1|done]|]. tauto.
  - exact (allocated_fresh pid [] r s a s1 T Hf Ha).
  - exact (al_pinned _ _ _ _ _ _ Ha).
Qed.

Lemma writing_step pid r r0 i ip ip' s s' own : writing pid r0 i ip s -> stepped i ip' s s' own ->
  txn pid [] (r + icost s' ip') s' -> i_dev ip' = i_dev ip -> file_ok (sblk s) (k_view s') ip' ->
  writing pid r i ip' s'.
Proof.
  intros [_ _ Hi Hd _] S T Ed Hok. split; rewrite ?(step_sb _ _ _ _ _ S), ?(step_dev _ _ _ _ _ S); try done.
  - apply S.
  - eapply step_inode; [exact S|]. by eapply lookup_lt_Some.
  - congruence.
Qed.

Lemma file_ok_same s s' ip : upd s s' (k_view s) -> 0 < i_dev ip -> file_ok (sblk s) (k_view s) ip ->
  file_ok (sblk s) (k_view s') ip.
Proof.
  intros U Hd [Hl Hs Hda Hin Hinj Hsep Hfull].
  assert (HV : forall b, k_view s' (i_dev ip, b) = k_view s (i_dev ip, b)).
  { intros b. apply (up_view _ _ _ U). intros [= E _]. lia. }
  assert (Hfa : forall b, file_addr (k_view s') ip b = file_addr (k_view s) ip b) by (intros; unfold file_addr; by rewrite HV).
  assert (Hu : forall b, in_use (sblk s) (k_view s) (i_dev ip) b -> in_use (sblk s) (k_view s') (i_dev ip) b).
  { intros b [Hb Hu]. split; [done|]. unfold used. by rewrite HV. }
  split; try done.
  - intros b Hb. rewrite Hfa. destruct (Hda b Hb); [by left|right; auto].
  - rewrite HV. destruct Hin as [|[? ?]]; [by left|right; auto].
  - intros b b'. rewrite !Hfa. apply Hinj.
  - intros b. rewrite Hfa. apply Hsep.
  - intros b. rewrite Hfa. apply Hfull.
Qed.

(** A block that is already there. *)
Lemma mapped_there pid r i ip bn s s' : writing pid r i ip s -> txn pid [] (r + icost s ip) s' -> upd s s' (k_view s) ->
  file_addr (k_view s) ip bn <> 0 -> mapped_block pid r i ip bn s (file_addr (k_view s) ip bn) ip s'.
Proof.
  intros [T Hf Hi Hd Hok] T' U Hne. pose proof (stepped_same i ip s s' Hf Hi U) as S.
  pose proof (upd_fs _ _ _ U) as Ef. pose proof (upd_dev _ _ _ U) as Ed. pose proof (fi_dev _ Hf) as Hd0.
  assert (HV : forall b, k_view s' (i_dev ip, b) = k_view s (i_dev ip, b)).
  { intros b. apply (up_view _ _ _ U). intros [= E _]. lia. }
  assert (Hfa : forall b, file_addr (k_view s') ip b = file_addr (k_view s) ip b) by (intros; unfold file_addr; by rewrite HV).
  split; try done.
  - split; rewrite ?Ef, ?Ed; try done.
    + eapply txn_weaken; [|exact T']. pose proof (icost_step _ _ _ _ _ ip S). lia.
    + apply S.
    + apply file_ok_same; [done|lia|done].
  - eapply stepped_trans; [exact S|apply (stepped_same i ip s' s')|]; try apply S.
    + by rewrite Ef.
    + apply upd_refl.
    + tauto.
  - by destruct ip.
  - intros bn' Hbn'. rewrite Hfa. by case_decide; subst.
  - by left.
Qed.

(** The blocks of the file that a step does not touch. *)
Lemma owns_use sb0 V ip b : layout_ok sb0 -> file_ok sb0 V ip -> owns V ip b -> in_use sb0 V (i_dev ip) b.
Proof.
  intros Hlo Hok [Hne [->|(bn & Hbn & ->)]].
  - by destruct (fo_ind _ _ _ Hok) as [|[? _]].
  - by destruct (fo_data _ _ _ Hok bn Hbn).
Qed.

Lemma bmap_direct pid r i ip bn s :
  writing pid r i ip s -> 0 <= bn < NDIRECT ->
  let c := if decide (file_addr (k_view s) ip bn = 0) then 2 else 0 in c + 1 <= r ->
  bmap i bn s = Panic "balloc: out of blocks" \/
  exists a ip' s', bmap i bn s = Ok a s' /\ mapped_block pid (r - c) i ip bn s a ip' s'.
Proof.
  intros W Hbn c Hc. destruct (W) as [T Hf Hi Hd Hok]. pose proof (layout_inv s Hf) as Hlo.
  assert (Ea : file_addr (k_view s) ip bn = default 0 (i_addrs ip !! Z.to_nat bn)).
  { unfold file_addr. by rewrite (proj2 (Z.ltb_lt _ _)) by lia. }
  unfold bmap. rewrite (bind_ok _ _ _ _ _ (get_inode_ok _ _ _ Hi)), (proj2 (Z.ltb_lt _ _)) by lia.
  rewrite (bind_ok _ _ _ _ _ (get_addr_ok i (Z.to_nat bn) ip s Hi (fo_len _ _ _ Hok) ltac:(lia))), <- Ea.
  destruct (Z.eqb_spec (file_addr (k_view s) ip bn) 0) as [E0|E0].
  - unfold c in *. rewrite decide_True in * by done. pose proof (icost_range s ip).
    destruct (alloc_link pid (r + icost s ip) i (Z.to_nat bn) ip s T Hf Hi Hd) as [E|(a & s' & E & T' & S & Hfr & Hp)];
      [lia|done|lia|by left|right].
    exists a, (link (Z.to_nat bn) a ip), s'. split; [exact E|]. rewrite <- Hd in Hfr.
    destruct (file_ok_fresh _ Hlo _ _ _ _ Hok Hfr) as [Hok1 Hown].
    destruct (link_direct _ Hlo (k_view s') ip a bn Hok1 (fresh_used _ Hlo _ _ _ _ Hfr) Hown Hbn) as (Hok' & Hind & Hfa).
    pose proof (fr_range _ _ _ _ _ Hfr) as Hra. destruct (Hlo) as [_ [Ho _]].
    assert (Hic : icost s' (link (Z.to_nat bn) a ip) <= icost s ip).
    { etrans; [|by eapply (icost_step _ _ _ _ _ ip S)]. unfold icost. by rewrite Hind. }
    split; try done.
    + eapply writing_step; try done. eapply txn_weaken; [|exact T']. lia.
    + eapply stepped_trans; [exact S|apply (stepped_same i _ s' s')|]; try apply S.
      * eapply step_inode; [exact S|]. by eapply lookup_lt_Some.
      * apply upd_refl.
      * tauto.
    + lia.
    + intros bn' Hbn'. rewrite Hfa by done. case_decide; [done|]. by eapply fresh_addr.
    + right. split; [done|]. split; [|done]. rewrite <- Hd. intros Hu. by destruct (fresh_in_use _ Hlo _ _ _ _ _ Hfr Hu).
    + intros b _. by rewrite Hind.
  - right. unfold c in *. rewrite decide_False in * by done. rewrite Z.sub_0_r.
    exists (file_addr (k_view s) ip bn), ip, s. split; [done|]. apply mapped_there; try done. apply upd_refl.
Qed.

Lemma indirect_ready pid r i ip s : writing pid r i ip s ->
  let m := (if ind_addr ip =? 0 then
              let! addr := balloc (i_dev ip) in set_addr i (Z.to_nat NDIRECT) addr ;;; ret addr
            else ret (ind_addr ip)) in 0 <= r ->
  m s = Panic "balloc: out of blocks" \/
  exists ip1 s1, m s = Ok (ind_addr ip1) s1 /\ writing pid r i ip1 s1 /\ stepped i ip1 s s1 (fun _ => False) /\
    ip1 = with_i_addrs (i_addrs ip1) ip /\ ind_addr ip1 <> 0 /\
    (forall bn, file_addr (k_view s1) ip1 bn = file_addr (k_view s) ip bn) /\
    (forall b, in_use (sblk s) (k_view s) (dev s) b -> b = ind_addr ip1 -> b = ind_addr ip) /\
    (ind_addr ip <> 0 -> ip1 = ip).
Proof.
  intros W m Hr. subst m. destruct (W) as [T Hf Hi Hd Hok]. pose proof (layout_inv s Hf) as Hlo.
  destruct (Z.eqb_spec (ind_addr ip) 0) as [E0|E0].
  - assert (Hic : icost s ip = 2) by (unfold icost; rewrite decide_False; [done|tauto]).
    destruct (alloc_link pid (r + icost s ip) i (Z.to_nat NDIRECT) ip s T Hf Hi Hd) as [E|(a & s' & E & T' & S & Hfr & Hp)];
      [lia|done|lia|by left|right].
    rewrite <- Hd in Hfr. destruct (file_ok_fresh _ Hlo _ _ _ _ Hok Hfr) as [Hok1 Hown].
    destruct (link_ind _ Hlo (k_view s') ip a Hok1 E0 (fresh_used _ Hlo _ _ _ _ Hfr) Hown (fr_zero _ _ _ _ _ Hfr)) as (Hok' & Hind & Hfa).
    pose proof (fr_range _ _ _ _ _ Hfr) as Hra. destruct (Hlo) as [_ [Ho _]].
    exists (link (Z.to_nat NDIRECT) a ip), s'. rewrite Hind.
    split; [exact E|]. split; [|split; [done|split; [done|split; [lia|split; [|split; [|done]]]]]].
    + eapply writing_step; try done. unfold icost. rewrite Hind, (step_dev _ _ _ _ _ S), decide_True by (split; [lia|done]).
      eapply txn_weaken; [|exact T']. lia.
    + intros bn. rewrite <- (fresh_addr _ _ _ _ _ bn Hok Hfr). apply Hfa.
    + intros b Hb ->. rewrite <- Hd in Hb. by destruct (fresh_in_use _ Hlo _ _ _ _ _ Hfr Hb).
  - right. exists ip, s. split; [done|]. split; [done|]. split; [apply stepped_same; [done|done|apply upd_refl]|].
    split; [by destruct ip|]. done.
Qed.

(** The contents of a held buffer are those of its block. *)
Lemma held_upd pid H r s i k g : txn pid ((i, k) :: H) r s ->
  upd_bufs i (fun x => with_b_data (g (b_data x)) x) s = upd_bufs i (with_b_data (g (k_view s k))) s.
Proof.
  intros T. destruct k as [d n]. pose proof (tx_session _ _ _ _ T) as Ss.
  destruct (get_buf_session pid _ s i d n Ss ltac:(apply list_elem_of_here)) as (b & Hb & Hd & _).
  rewrite <- (session_view pid _ s i (d, n) Ss ltac:(apply list_elem_of_here)).
  unfold get_buf, index in Hb. destruct (bufs (k_bcache s) !! i) as [b'|] eqn:E; [|done]. injection Hb as ->.
  apply (upd_bufs_at i _ _ s b E). by rewrite Hd.
Qed.

Definition entry_of (i : nat) (ip : inode) (ind bn : Z) : K Z :=
  let! bp := bread (i_dev ip) ind in
  let! x := get_buf bp in
  let addr := get32 (b_data x) (4 * Z.to_nat (bn - NDIRECT)) in
  let! addr := (if addr =? 0 then
                  let! addr := balloc (i_dev ip) in
                  upd_buf bp (fun x => with_b_data (set32 (b_data x) (4 * Z.to_nat (bn - NDIRECT)) addr) x) ;;;
                  log_write bp ;;;
                  ret addr
                else ret addr) in
  brelse bp ;;;
  ret addr.

(** A new block is entered in the indirect block [ind], which is held in buffer [bp]. *)
Lemma entry_alloc pid R i ip bn s bp :
  let ind := ind_addr ip in
  txn pid [(bp, (dev s, ind))] R s -> fs_inv s -> inodes (k_fs s) !! i = Some ip -> i_dev ip = dev s ->
  file_ok (sblk s) (k_view s) ip -> ind <> 0 -> NDIRECT <= bn < MAXFILE -> 3 <= R ->
  let m := (let! addr := (let! addr := balloc (i_dev ip) in
                 upd_buf bp (fun x => with_b_data (set32 (b_data x) (4 * Z.to_nat (bn - NDIRECT)) addr) x) ;;;
                 log_write bp ;;;
                 ret addr) in
            brelse bp ;;;
            ret addr) in
  m s = Panic "balloc: out of blocks" \/
  exists a s', m s = Ok a s' /\
    txn pid [] (if decide (pinned (k_log s) (dev s, ind)) then R - 2 else R - 3) s' /\
    stepped i ip s s' (fun b => b = ind) /\ a <> 0 /\ ~ in_use (sblk s) (k_view s) (dev s) a /\
    pinned (k_log s') (dev s, a) /\ pinned (k_log s') (dev s, ind) /\
    file_ok (sblk s) (k_view s') ip /\
    forall bn', 0 <= bn' < MAXFILE -> file_addr (k_view s') ip bn' = if decide (bn' = bn) then a else file_addr (k_view s) ip bn'.
Proof.
  intros ind T Hf Hi Hd Hok Hne Hbn HR m. subst m. rewrite Hd. pose proof (layout_inv s Hf) as Hlo. pose proof (fi_dev _ Hf) as Hd0.
  destruct (fo_ind _ _ _ Hok) as [|[Hiu Hib]]; [done|]. rewrite Hd in Hiu, Hib. fold ind in Hiu, Hib.
  destruct (balloc_spec pid _ R s T Hf) as [[_ E]|(a & s1 & E & Ha)].
  { intros d b Hin. apply list_elem_of_singleton in Hin as [= -> ->]. exact Hiu. } { lia. } { simpl. lia. }
  { left. do 2 apply bind_panic. exact E. }
  right. pose proof (stepped_alloc pid _ R i ip s a s1 T Hf Hi Ha) as S1. pose proof (allocated_fresh _ _ _ _ _ _ T Hf Ha) as Hfr.
  pose proof (step_sb _ _ _ _ _ S1) as Esb. pose proof (step_dev _ _ _ _ _ S1) as Ed. pose proof (lookup_lt_Some _ _ _ Hi) as Hlt.
  rewrite <- Hd in Hfr. destruct (file_ok_fresh _ Hlo _ _ _ _ Hok Hfr) as [Hok1 Hown].
  set (v := set32 (k_view s1 (dev s1, ind)) (4 * Z.to_nat (bn - NDIRECT)) a).
  pose proof (al_txn _ _ _ _ _ _ Ha) as T1. rewrite <- Ed in T1.
  assert (Hb1 : block_ok (k_view s1 (dev s1, ind))) by (eapply view_ok, T1).
  destruct (t_commit_pinned pid [] (R - 2) s1 bp ind v T1) as (s2 & s3 & R2 & R3 & T3 & P3 & U3).
  { lia. } { destruct Hiu as [? _], Hlo as [_ [? ?]]. lia. }
  { apply home_after_log; [apply S1|]. rewrite Esb. pose proof (fs_order s Hf) as Hord. cbv zeta in Hord. destruct Hiu as [? _]. lia. }
  { apply (fi_drv _ (st_inv _ _ _ _ _ S1)). rewrite Esb. destruct Hiu as [? _], Hlo as [_ [? ?]]. lia. }
  { split; [|apply set32_bytes_ok, Hb1]. unfold v. rewrite length_set32; [apply Hb1|].
    rewrite (proj1 Hb1). change MAXFILE with (NDIRECT + 128) in Hbn. change BSIZE with 512. lia. }
  exists a, s3. split; [|split].
  - rewrite (bind_ok _ _ s a s2).
    + by rewrite (bind_ok _ _ _ _ _ R3).
    + rewrite (bind_ok _ _ _ _ _ E). unfold upd_buf, modify. erewrite bind_ok by reflexivity.
      rewrite (held_upd pid [] (R - 2) s1 bp (dev s1, ind) (fun x => set32 x (4 * Z.to_nat (bn - NDIRECT)) a) T1).
      fold v. by rewrite (bind_ok _ _ _ _ _ R2).
  - rewrite Ed in T3. eapply txn_weaken; [|exact T3]. clear T3. destruct (decide (pinned (k_log s) (dev s, ind))) as [Hp|].
    + rewrite decide_True; [lia|]. by eapply step_pinned.
    + case_decide; lia.
  - assert (S3 : stepped i ip s1 s3 (fun b => b = ind)).
    { eapply stepped_put; [apply S1|by eapply step_inode|exact U3|]. rewrite Esb. apply Hiu. }
    rewrite <- Ed in *. pose proof (fr_range _ _ _ _ _ Hfr) as Hra.
    destruct (link_entry _ Hlo (k_view s1) (k_view s3) ip a bn Hok1) as [Hok3 Hfa]; try done.
    { by eapply fresh_used. }
    { intros n. rewrite Hd. apply (up_view _ _ _ U3). intros [= ? _]. lia. }
    split; [|split; [|split; [|split; [|split; [|split; [done|]]]]]].
    + eapply stepped_trans; [exact S1|exact S3|]. tauto.
    + destruct Hlo as [_ [? ?]]. lia.
    + rewrite <- Hd. intros Hu. by destruct (fresh_in_use _ Hlo _ _ _ _ _ Hfr Hu).
    + eapply step_pinned; [exact S3|]. rewrite Ed. exact (al_pinned _ _ _ _ _ _ Ha).
    + exact P3.
    + intros bn' Hbn'. rewrite Hfa by done. clear T3. case_decide; [done|]. exact (fresh_addr _ _ _ _ _ bn' Hok Hfr).
Qed.

Lemma indirect_entry pid r i ip bn s :
  writing pid r i ip s -> NDIRECT <= bn < MAXFILE -> ind_addr ip <> 0 ->
  let c := if decide (file_addr (k_view s) ip bn = 0) then 2 else 0 in c + 1 <= r ->
  entry_of i ip (ind_addr ip) bn s = Panic "balloc: out of blocks" \/
  exists a s', entry_of i ip (ind_addr ip) bn s = Ok a s' /\ mapped_block pid (r - c) i ip bn s a ip s'.
Proof.
  intros W Hbn Hne c Hc. destruct (W) as [T Hf Hi Hd Hok]. pose proof (layout_inv s Hf) as Hlo. pose proof (fi_dev _ Hf) as Hd0.
  destruct (fo_ind _ _ _ Hok) as [|[Hiu Hib]]; [done|]. set (ind := ind_addr ip) in *.
  assert (Ea : get32 (k_view s (dev s, ind)) (4 * Z.to_nat (bn - NDIRECT)) = file_addr (k_view s) ip bn).
  { unfold file_addr. fold ind. by rewrite (proj2 (Z.ltb_ge _ _)), (proj2 (Z.eqb_neq _ _)), Hd by (done || lia). }
  pose proof (icost_range s ip) as Hic. assert (0 <= c) by (unfold c; case_decide; lia).
  destruct (t_read pid [] (r + icost s ip) s ind T) as (bp & s1 & R1 & (x & Rx & Hx) & T1 & U1).
  { by intros ?%not_elem_of_nil. } { intros [= ? _]. lia. }
  { apply (fi_drv _ Hf). destruct Hiu as [? _], Hlo as [_ [? ?]]. lia. } { simpl. lia. }
  pose proof (stepped_same i ip s s1 Hf Hi U1) as S1. pose proof (upd_dev _ _ _ U1) as Ed. pose proof (upd_fs _ _ _ U1) as Ef.
  unfold entry_of. rewrite Hd, (bind_ok _ _ _ _ _ R1), (bind_ok _ _ _ _ _ Rx), Hx, Ea, <- Hd.
  destruct (Z.eqb_spec (file_addr (k_view s) ip bn) 0) as [E0|E0].
  - unfold c in *. rewrite decide_True in * by done. pose proof (lookup_lt_Some _ _ _ Hi) as Hlt.
    assert (HV1 : forall b, k_view s1 (i_dev ip, b) = k_view s (i_dev ip, b)).
    { intros b. apply (up_view _ _ _ U1). intros [= ? _]. lia. }
    assert (Hfa1 : forall b, file_addr (k_view s1) ip b = file_addr (k_view s) ip b) by (intros; unfold file_addr; by rewrite HV1).
    destruct (entry_alloc pid (r + icost s ip) i ip bn s1 bp) as [E|(a & s' & E & T' & S' & Ha & Na & Pa & Pi & Hok' & Hfa)];
      rewrite ?Ed, ?Ef in *; try done; try lia.
    { apply S1. } { apply (file_ok_same s s1); [done|by rewrite Hd|done]. } { by left. } right.
    exists a, s'. split; [done|].
    assert (S : stepped i ip s s' (fun b => b = ind)) by (eapply stepped_trans; [exact S1|exact S'|]; tauto).
    split; try done.
    + eapply writing_step; try done. eapply txn_weaken; [|exact T']. unfold icost in *. fold ind in Hic |- *.
      rewrite (step_dev _ _ _ _ _ S), (decide_True (P := ind <> 0 /\ pinned (k_log s') (dev s, ind))) by done.
      destruct (decide (pinned (k_log s) (dev s, ind))) as [Hp|Hp].
      * rewrite !decide_True; [lia|done|]. by apply (up_pinned _ _ _ U1).
      * rewrite (decide_False (P := ind <> 0 /\ pinned (k_log s) (dev s, ind))) by tauto.
        destruct (decide (pinned (k_log s1) (dev s, ind))); lia.
    + by destruct ip.
    + intros bn' Hbn'. rewrite Hfa by done. by rewrite Hfa1.
    + right. split; [done|]. split; [|done]. intros Hu. apply Na. by apply (st_used _ _ _ _ _ S1).
  - right. unfold c in *. rewrite decide_False in * by done. rewrite Z.sub_0_r. erewrite bind_ok by reflexivity.
    destruct (t_brelse pid [] _ s1 bp _ T1) as (s2 & R2 & T2 & U2).
    exists (file_addr (k_view s) ip bn), s2. rewrite (bind_ok _ _ _ _ _ R2). split; [done|].
    apply mapped_there; [done|done| |done]. eapply upd_view; [by eapply upd_trans|]. by apply U1.
Qed.

Lemma bmap_spec pid r i ip bn s :
  writing pid r i ip s -> 0 <= bn < MAXFILE ->
  let c := if decide (file_addr (k_view s) ip bn = 0) then 2 else 0 in c + 1 <= r ->
  bmap i bn s = Panic "balloc: out of blocks" \/
  exists a ip' s', bmap i bn s = Ok a s' /\ mapped_block pid (r - c) i ip bn s a ip' s'.
Proof.
  intros W Hbn c Hc. destruct (Z_lt_dec bn NDIRECT); [apply bmap_direct; [done|lia|done]|].
  assert (0 <= c) by (unfold c; case_decide; lia). destruct (W) as [T Hf Hi Hd Hok].
  assert (Eb : bmap i bn s = (let! addr := (if ind_addr ip =? 0 then
       let! addr := balloc (i_dev ip) in set_addr i (Z.to_nat NDIRECT) addr ;;; ret addr
     else ret (ind_addr ip)) in entry_of i ip addr bn) s).
  { unfold bmap. rewrite (bind_ok _ _ _ _ _ (get_inode_ok _ _ _ Hi)), (proj2 (Z.ltb_ge _ _)) by lia.
    rewrite (proj2 (Z.ltb_lt _ _)) by (change MAXFILE with (NDIRECT + NINDIRECT) in Hbn; lia).
    by rewrite (bind_ok _ _ _ _ _ (get_addr_ok i (Z.to_nat NDIRECT) ip s Hi (fo_len _ _ _ Hok) ltac:(done))). }
  rewrite Eb. clear Eb.
  destruct (indirect_ready pid r i ip s W) as [E|(ip1 & s1 & E & W1 & S1 & Eip & Hne & Hfa & Hin & Hsame)]; [lia|left; by apply bind_panic|].
  rewrite (bind_ok _ _ _ _ _ E). assert (Eof : entry_of i ip = entry_of i ip1) by (rewrite Eip; done). rewrite Eof.
  destruct (indirect_entry pid r i ip1 bn s1 W1) as [E2|(a & s' & E2 & M)]; try lia; rewrite ?Hfa; fold c; try done; [by left|right].
  exists a, ip1, s'. split; [done|]. rewrite Hfa in M. fold c in M. destruct M as [W' S' _ Ha Hfa' Hcs _ _].
  rewrite (step_dev _ _ _ _ _ S1), (step_sb _ _ _ _ _ S1), Hfa in Hcs. split; try done.
  - eapply stepped_trans; [exact S1|exact S'|]. intros b Hb [[]|E']. by apply Hin.
  - intros bn' Hbn'. rewrite Hfa' by done. by rewrite Hfa.
  - destruct Hcs as [|(E0 & Hn & Hp)]; [by left|right]. split; [done|]. split; [|done]. intros Hu. by apply Hn, (st_used _ _ _ _ _ S1).
  - intros Hb. apply Hsame. intros E0. apply Hb. unfold file_addr. by rewrite (proj2 (Z.ltb_ge _ _)), E0 by lia.
Qed.
End write.
