(* ===== verification/FsNames.v ===== *)
(** The inode cache and path names (fs.c): iget, idup, skipelem, namex. *)

From S2P Require Import Prelude Layout CString State Spinlock Sched Sleeplock Ring Memide Bio Session Log LogDisk LogSafe LogTxn Txn Fs FsAlloc FsInode.
Local Open Scope kernel_scope.

(** ** Path elements *)

(** The pieces of a path between slashes, and those that are not empty. *)
Fixpoint pieces (e : list Z) (path : list Z) : list (list Z) :=
  match path with
  | [] => [e]
  | c :: path' =>
      if c =? 0 then [e]
      else if c =? slash then e :: pieces [] path'
      else pieces (e ++ [c]) path'
  end.

Definition path_elems (path : list Z) : list (list Z) := filter (fun e => e <> []) (pieces [] path).

Lemma pieces_span path e : pieces e path =
  (e ++ (span_elem path).1) ::
  (if deref (span_elem path).2 =? slash then pieces [] (next (span_elem path).2) else []).
Proof.
  revert e. induction path as [|c path IH]; intros e; simpl; [by rewrite app_nil_r|].
  destruct (c =? 0) eqn:E0; simpl; [|destruct (c =? slash) eqn:E1; simpl].
  - apply Z.eqb_eq in E0 as ->. simpl. by rewrite app_nil_r.
  - by rewrite E1, app_nil_r.
  - rewrite IH. destruct (span_elem path) as [s rest]. simpl. by rewrite <- app_assoc.
Qed.

Lemma path_elems_slashes path : path_elems (skip_slashes path) = path_elems path.
Proof.
  induction path as [|c path IH]; [done|]. simpl. destruct (c =? slash) eqn:E; [|done].
  rewrite IH. unfold path_elems. simpl. apply Z.eqb_eq in E as ->. done.
Qed.

Lemma skip_slashes_deref path : deref (skip_slashes path) <> slash.
Proof. induction path as [|c path IH]; simpl; [done|]. destruct (Z.eqb_spec c slash); [done|]. simpl. congruence. Qed.

Lemma length_skip_slashes path : (length (skip_slashes path) <= length path)%nat.
Proof. induction path as [|c path IH]; simpl; [done|]. destruct (c =? slash); simpl; lia. Qed.

Lemma span_elem_cons c path : c <> slash -> c <> 0 ->
  span_elem (c :: path) = (c :: (span_elem path).1, (span_elem path).2).
Proof.
  intros H1 H2. simpl. rewrite (proj2 (Z.eqb_neq c slash)), (proj2 (Z.eqb_neq c 0)) by done. simpl. by destruct (span_elem path).
Qed.

Lemma length_span path : (length (span_elem path).2 <= length path)%nat.
Proof. induction path as [|c path IH]; simpl; [done|]. destruct (_ || _); simpl; [lia|]. destruct (span_elem path). simpl in *. lia. Qed.

Lemma span_rest path : deref (span_elem path).2 = slash \/ deref (span_elem path).2 = 0.
Proof.
  induction path as [|c path IH]; simpl; [by right|]. destruct (_ || _) eqn:E; simpl.
  - apply orb_true_iff in E. rewrite !Z.eqb_eq in E. destruct E; [by left|by right].
  - destruct (span_elem path). done.
Qed.

Lemma path_elems_nil path : deref path <> slash -> path_elems path = [] <-> deref path = 0.
Proof.
  intros Hs. destruct path as [|c p]; [done|]. cbn [deref] in *. unfold path_elems.
  destruct (Z.eqb_spec c 0) as [->|H0]; [done|]. rewrite pieces_span, span_elem_cons by done. done.
Qed.

(** Skipelem splits a path at its slashes.  Called repeatedly it yields exactly the
    non-empty elements of the path in order, each cut to DIRSIZ characters; the rest it
    returns has no leading slash, is empty exactly after the last element, and is
    shorter than the path, so that the loop of namex ends. *)
Theorem skipelem_correct path :
  match path_elems path with
  | [] => skipelem path = None
  | e :: es => exists rest, skipelem path = Some (take (Z.to_nat DIRSIZ) e, rest) /\
      path_elems rest = es /\ deref rest <> slash /\ (deref rest = 0 <-> es = []) /\ (length rest < length path)%nat
  end.
Proof.
  rewrite <- path_elems_slashes. pose proof (length_skip_slashes path) as Hl. pose proof (skip_slashes_deref path) as Hs.
  unfold skipelem. destruct (skip_slashes path) as [|c p]; [done|]. cbn [deref] in Hs |- *.
  destruct (Z.eqb_spec c 0) as [->|H0]; [done|]. unfold path_elems at 1. rewrite pieces_span, span_elem_cons by done.
  cbn [fst snd app]. rewrite filter_cons_True by done. set (rest := (span_elem p).2).
  pose proof (length_span p) as Hsp. pose proof (length_skip_slashes rest) as Hsk. cbn [length] in Hl. fold rest in Hsp.
  assert (Hes : path_elems (skip_slashes rest) = filter (fun e => e <> []) (if deref rest =? slash then pieces [] (next rest) else [])).
  { rewrite path_elems_slashes. unfold path_elems. pose proof (span_rest p) as Hr. fold rest in Hr.
    destruct rest as [|d rest']; [done|]. cbn [deref next pieces] in *. destruct Hr as [-> | ->]; done. }
  exists (skip_slashes rest). split; [done|]. rewrite <- Hes. split; [done|].
  split; [apply skip_slashes_deref|]. split; [|lia]. rewrite path_elems_nil by apply skip_slashes_deref. done.
Qed.

(** ** The inode cache *)

(** No inode is cached twice. *)
Record icache_inv (ips : list inode) : Prop := mk_icache_inv {
  ic_ref : forall i ip, ips !! i = Some ip -> 0 <= i_ref ip;
  ic_uniq : forall i j ip jp, ips !! i = Some ip -> ips !! j = Some jp -> 0 < i_ref ip -> 0 < i_ref jp ->
    i_dev ip = i_dev jp -> i_inum ip = i_inum jp -> i = j }.

Definition caches (dev inum : Z) (ip : inode) : bool := (0 <? i_ref ip) && (i_dev ip =? dev) && (i_inum ip =? inum).

Lemma icache_scan_spec ips dev inum k e :
  match icache_scan ips dev inum k e with
  | inl i => exists j ip, i = (k + j)%nat /\ ips !! j = Some ip /\ caches dev inum ip = true
  | inr e' => (forall j ip, ips !! j = Some ip -> caches dev inum ip = false) /\
      match e' with
      | Some x => e = Some x \/ (e = None /\ exists j ip, x = (k + j)%nat /\ ips !! j = Some ip /\ i_ref ip = 0)
      | None => e = None /\ forall j ip, ips !! j = Some ip -> i_ref ip <> 0
      end
  end.
Proof.
  revert k e. induction ips as [|ip ips IH]; intros k e; simpl.
  - split; [done|]. destruct e; [by left|done].
  - destruct (_ && _) eqn:E; [exists 0%nat, ip; split; [lia|done]|].
    set (e1 := match e with Some e => Some e | None => if i_ref ip =? 0 then Some k else None end).
    specialize (IH (S k) e1). destruct (icache_scan ips dev inum (S k) e1) as [i|e'].
    + destruct IH as (j & jp & -> & Hj & Hc). exists (S j), jp. split; [lia|done].
    + destruct IH as [Hno He]. split; [intros [|j] jp Hj; simpl in Hj; [by simplify_eq|by eapply Hno]|].
      destruct e' as [x|].
      * destruct He as [He|[He (j & jp & -> & Hj & Hr)]].
        -- unfold e1 in He. destruct e; [left; done|right]. split; [done|]. destruct (Z.eqb_spec (i_ref ip) 0); [|done].
           simplify_eq. exists 0%nat, ip. split; [lia|done].
        -- right. unfold e1 in He. destruct e; [done|]. split; [done|]. exists (S j), jp. split; [lia|done].
      * destruct He as [He Hall]. unfold e1 in He. destruct e; [done|]. split; [done|].
        intros [|j] jp Hj; simpl in Hj; [|by eapply Hall]. simplify_eq. by destruct (Z.eqb_spec (i_ref jp) 0).
Qed.

Lemma upd_inodes_sync i f y s : upd_inodes i f (set_sync y s) = set_sync y (upd_inodes i f s).
Proof. done. Qed.

Lemma icache_inv_insert ips i ip ip' : icache_inv ips -> ips !! i = Some ip -> 0 <= i_ref ip' ->
  (forall j jp, ips !! j = Some jp -> j <> i -> 0 < i_ref jp -> i_dev jp = i_dev ip' -> i_inum jp = i_inum ip' -> False) ->
  icache_inv (<[i := ip']> ips).
Proof.
  intros [Hr Hu] Hi Hr' Hno. pose proof (lookup_lt_Some _ _ _ Hi) as Hlt. split.
  - intros j jp Hj. destruct (decide (j = i)) as [->|Hne].
    + rewrite list_lookup_insert_eq in Hj by done. by simplify_eq.
    + rewrite list_lookup_insert_ne in Hj by done. by eapply Hr.
  - intros j k jp kp Hj Hk Hjr Hkr Hd Hn.
    assert (Hlk : forall x xp, <[i := ip']> ips !! x = Some xp -> (x = i /\ xp = ip') \/ (x <> i /\ ips !! x = Some xp)).
    { intros x xp Hx. destruct (decide (x = i)) as [->|Hne].
      - rewrite list_lookup_insert_eq in Hx by done. simplify_eq. by left.
      - rewrite list_lookup_insert_ne in Hx by done. by right. }
    destruct (Hlk j jp Hj) as [[-> ->]|[Hji Hj']], (Hlk k kp Hk) as [[-> ->]|[Hki Hk']]; [done| | |].
    + by destruct (Hno k kp).
    + by destruct (Hno j jp).
    + by eapply Hu.
Qed.

Lemma iget_spec s dev inum :
  quiet s -> icache_inv (inodes (k_fs s)) ->
  let ips := inodes (k_fs s) in
  (iget dev inum s = Panic "iget: no inodes" /\
   forall j jp, ips !! j = Some jp -> 0 < i_ref jp /\ caches dev inum jp = false) \/
  exists i ip ip', ips !! i = Some ip /\
    iget dev inum s = Ok i (set_fs (with_inodes (<[i := ip']> ips) (k_fs s)) s) /\
    icache_inv (<[i := ip']> ips) /\ caches dev inum ip' = true /\ i_ref ip' = i_ref ip + 1 /\ i_lock ip' = i_lock ip /\
    (forall j jp, ips !! j = Some jp -> caches dev inum jp = true -> j = i /\ inode_dinode ip' = inode_dinode ip /\ i_valid ip' = i_valid ip) /\
    ((forall j jp, ips !! j = Some jp -> caches dev inum jp = false) -> i_ref ip = 0 /\ i_valid ip' = 0).
Proof.
  intros Hc Hinv ips. pose proof Hinv as [Hr Hu]. unfold iget.
  rewrite (bind_ok _ _ _ _ _ (acquire_quiet L_icache s Hc I)). erewrite bind_ok by reflexivity.
  cbn [k_fs set_sync]. fold ips. pose proof (icache_scan_spec ips dev inum 0 None) as Hscan.
  assert (Hrel : forall i f, on_sync (release L_icache) (upd_inodes i f (set_sync (lock L_icache (k_sync s)) s)) = Ok tt (upd_inodes i f s)).
  { intros i f. rewrite (release_quiet L_icache s) by done. by destruct s. }
  assert (Hst : forall i ip f, ips !! i = Some ip -> upd_inodes i f s = set_fs (with_inodes (<[i := f ip]> ips) (k_fs s)) s).
  { intros i ip f Hi. unfold upd_inodes. do 2 f_equal. by apply list_alter_insert_at. }
  destruct (icache_scan ips dev inum 0 None) as [i|[i|]].
  - right. destruct Hscan as (j & ip & -> & Hi & Hca). simpl in *. set (ip' := with_i_ref (i_ref ip + 1) ip).
    exists j, ip, ip'. split; [done|]. split.
    { erewrite bind_ok by reflexivity. rewrite (bind_ok _ _ _ _ _ (Hrel _ _)), (Hst j ip) by done. done. }
    unfold caches in Hca |- *. zbool. split.
    { apply (icache_inv_insert ips j ip); [done|done|simpl; lia|]. simpl. intros k kp Hk Hne Hkr Hd Hn.
      apply Hne, (Hu k j kp ip); done || congruence. }
    split; [cbn; rewrite (proj2 (Z.eqb_eq _ _)), (proj2 (Z.eqb_eq (i_inum ip) _)), (proj2 (Z.ltb_lt _ _)) by (done || lia); done|].
    split; [done|]. split; [done|]. split.
    + intros k kp Hk Hkc. zbool. split; [|by destruct ip]. apply (Hu k j kp ip); done || congruence.
    + intros Hno. specialize (Hno j ip Hi). rewrite (proj2 (Z.eqb_eq _ _)), (proj2 (Z.eqb_eq (i_inum ip) _)), (proj2 (Z.ltb_lt _ _)) in Hno by done. done.
  - right. destruct Hscan as [Hno [?|[_ (j & ip & -> & Hi & Hr0)]]]; [done|]. simpl.
    set (ip' := with_i_valid 0 (with_i_ref 1 (with_i_inum inum (with_i_dev dev ip)))).
    exists j, ip, ip'. split; [done|]. split.
    { do 4 (erewrite bind_ok by reflexivity).
      match goal with |- bind _ _ ?st = _ => assert (st = upd_inodes j (fun ip => with_i_valid 0 (with_i_ref 1 (with_i_inum inum (with_i_dev dev ip)))) (set_sync (lock L_icache (k_sync s)) s)) as -> end.
      { unfold upd_inodes. cbn [k_fs set_fs set_sync inodes with_inodes]. by rewrite !list_alter_alter_eq. }
      rewrite (bind_ok _ _ _ _ _ (Hrel _ _)), (Hst j ip) by done. done. }
    split.
    { apply (icache_inv_insert ips j ip); [done|done|done|]. simpl. intros k kp Hk Hne Hkr Hd Hn.
      specialize (Hno k kp Hk). unfold caches in Hno. rewrite Hd, Hn, !Z.eqb_refl, (proj2 (Z.ltb_lt _ _)) in Hno by done. done. }
    split; [unfold caches; simpl; by rewrite !Z.eqb_refl|]. split; [simpl; lia|]. split; [done|]. split.
    + intros k kp Hk Hkc. rewrite (Hno k kp Hk) in Hkc. done.
    + done.
  - left. destruct Hscan as [Hno [_ Hall]]. split; [done|]. intros j jp Hj. split; [|by eapply Hno].
    pose proof (Hall j jp Hj). pose proof (Hr j jp Hj). lia.
Qed.

(** Iget returns the cache entry of the inode with one more reference: the entry
    that already caches it if there is one, else a free entry not yet read from disk.
    No inode is ever cached twice.  It panics only if all entries are in use. *)
Theorem iget_correct pid s dev inum :
  calm pid s -> icache_inv (inodes (k_fs s)) ->
  let ips := inodes (k_fs s) in
  (iget dev inum s = Panic "iget: no inodes" /\
   forall j jp, ips !! j = Some jp -> 0 < i_ref jp /\ caches dev inum jp = false) \/
  exists i ip ip', ips !! i = Some ip /\
    iget dev inum s = Ok i (set_fs (with_inodes (<[i := ip']> ips) (k_fs s)) s) /\
    icache_inv (<[i := ip']> ips) /\ caches dev inum ip' = true /\ i_ref ip' = i_ref ip + 1 /\
    (forall j jp, ips !! j = Some jp -> caches dev inum jp = true -> j = i /\ inode_dinode ip' = inode_dinode ip /\ i_valid ip' = i_valid ip) /\
    ((forall j jp, ips !! j = Some jp -> caches dev inum jp = false) -> i_ref ip = 0 /\ i_valid ip' = 0).
Proof.
  intros Hc Hinv ips. destruct (iget_spec s dev inum (calm_quiet _ _ Hc) Hinv) as [|(i & ip & ip' & H1 & H2 & H3 & H4 & H5 & _ & H6)]; [by left|right].
  by exists i, ip, ip'.
Qed.
