(* ===== verification/Kalloc.v ===== *)
(** Physical memory, page tables and the page replacement of kalloc.c, with the page
    table helpers of vm.c that it calls.

    The free pages form a list through the first word of each page, in [k_mem].
    Where the code follows the addresses of user pages (reclaim puts one on the free
    list), the accesses go through the page table of the running process. *)

From S2P Require Import Prelude Layout CString State Spinlock Sched Mem Sleeplock Ring Memide Bio Log Fs.
Local Open Scope kernel_scope.

(** The addresses the linker script kernel.ld provides, [data] and [end], and where it
    puts them: above the address 0x80100000 at which the kernel is linked. *)
Class Image := {
  img_data : Z;
  img_end : Z;
  img_order : KERNLINK < img_data < img_end;
  img_fits : img_end < KERNBASE + PHYSTOP }.

Definition NPAGES : Z := PHYSTOP / PGSIZE.

Definition get_kmem : K kmem := reads k_kmem.
Definition upd_kmem (f : kmem -> kmem) : K unit := modify (fun s => set_kmem (f (k_kmem s)) s).

(** [if(kmem.use_lock) acquire(&kmem.lock)], and the same with release. *)
Definition kmem_acquire : K unit := let! k := get_kmem in when (use_lock k) (on_sync (acquire L_kmem)).
Definition kmem_release : K unit := let! k := get_kmem in when (use_lock k) (on_sync (release L_kmem)).

(** ** The page table helpers of vm.c *)

(** walkpgdir: the address of the entry, or 0; [newpage] is kalloc. *)
Definition walkpgdir (newpage : K Z) (pgdir va : Z) (alloc : bool) : K Z :=
  let! pde := vld32 (pde_at pgdir va) in
  if negb (Z.land pde PTE_P =? 0) then ret (P2V (PTE_ADDR pde) + 4 * PTX va) else
  if negb alloc then ret 0 else
  let! pgtab := newpage in
  if pgtab =? 0 then ret 0 else
  upd_mem (fun m => memset m pgtab 0 PGSIZE) ;;;
  vst32 (pde_at pgdir va) (Z.lor (Z.lor (Z.lor (V2P pgtab) PTE_P) PTE_W) PTE_U) ;;;
  ret (pgtab + 4 * PTX va).

(** walkpgdir(pgdir, va, 0), which allocates nothing. *)
Definition walk (pgdir va : Z) : K Z := walkpgdir (ret 0) pgdir va false.

Definition pte_logical_and (pgdir va flag : Z) : K Z :=
  let! pte := walk pgdir va in
  if pte =? 0 then ret 0 else
  let! x := vld32 pte in ret (s32 (Z.land x flag)).

(** The updates [*pte &= mask] of the helpers below. *)
Definition pte_mask (mask pgdir va : Z) : K Z :=
  let! pte := walk pgdir va in
  if pte =? 0 then ret (-1) else
  let! x := vld32 pte in
  vst32 pte (Z.land x mask) ;;;
  ret 0.

Definition pte_pte_a_clear : Z -> Z -> K Z := pte_mask (Z.lnot PTE_A).
Definition pte_pte_p_set : Z -> Z -> K Z := pte_mask PTE_P.
Definition pte_pte_p_clear : Z -> Z -> K Z := pte_mask (Z.lnot PTE_P).
Definition pte_pte_swap_set : Z -> Z -> K Z := pte_mask PTE_SWAP.
Definition pte_pte_swap_clear : Z -> Z -> K Z := pte_mask (Z.lnot PTE_SWAP).

Definition pte_set_swapoffset (pgdir va off : Z) : K Z :=
  let! pte := walk pgdir va in
  if pte =? 0 then ret (-1) else
  let! x := vld32 pte in
  vst32 pte (Z.land x 0xFFF) ;;;
  let! x := vld32 pte in
  vst32 pte (Z.lor x (u32 (Z.shiftl off 12))) ;;;
  ret 0.

(** The steps of reclaim on the entry of its victim. *)
Definition swap_out_pte (pgdir va off : Z) : K Z :=
  let! _ := pte_pte_swap_set pgdir va in
  let! _ := pte_pte_p_clear pgdir va in
  pte_set_swapoffset pgdir va off.

Definition swapin_helper (pgdir va np : Z) : K unit :=
  let! pte := walk pgdir va in
  let! x := vld32 pte in
  vst32 pte (Z.land x 0xFFF) ;;;
  let! x := vld32 pte in
  vst32 pte (Z.lor x PTE_P) ;;;
  let! x := vld32 pte in
  vst32 pte (Z.land x (u32 (Z.shiftl (V2P np) 12))).

(** ** The list of user pages *)
Definition get_page (i : nat) : K page := fun s => index "pages" (pages (k_kmem s) !! i) s.
Definition upd_page (i : nat) (f : page -> page) : K unit :=
  upd_kmem (fun k => with_pages (alter f i (pages k)) k).
Definition pg_ptr (what : string) (o : option nat) : K nat := index what o.

(** The unlinking of a page in reclaim and in lru_delete. *)
Definition lru_unlink (p : nat) : K unit :=
  let! x := get_page p in
  let! nx := pg_ptr "next" (pg_next x) in
  let! pv := pg_ptr "prev" (pg_prev x) in
  upd_page nx (with_pg_prev (Some pv)) ;;;
  upd_page pv (with_pg_next (Some nx)) ;;;
  upd_page p (with_pg_next None) ;;;
  upd_page p (with_pg_prev None) ;;;
  upd_kmem (fun k => with_num_lru_pages (num_lru_pages k - 1) k).

(** [pages[i].next] is not null, from slot [i] on. *)
Fixpoint find_used (ps : list page) (i : nat) : option nat :=
  match ps with
  | [] => None
  | p :: ps' => match pg_next p with Some _ => Some i | None => find_used ps' (S i) end
  end.

Definition lru_insert (pgdir va pte_u_mask : Z) : K unit :=
  if pte_u_mask =? 0 then ret tt else
  upd_kmem (fun k => with_num_lru_pages (num_lru_pages k + 1) k) ;;;
  let! k := get_kmem in
  match page_lru_head k with
  | None =>
      upd_kmem (with_page_lru_head (Some 0%nat)) ;;;
      upd_page 0 (with_pg_next (Some 0%nat)) ;;;
      upd_page 0 (with_pg_prev (Some 0%nat)) ;;;
      upd_page 0 (with_pg_pgdir pgdir) ;;;
      upd_page 0 (with_pg_vaddr va)
  | Some h =>
      let! x := get_page h in
      match find_used (pages k) 0 with
      | None => panic "full page array"
      | Some i =>
          upd_page i (with_pg_next (Some h)) ;;;
          upd_page i (with_pg_prev (pg_prev x)) ;;;
          let! p := pg_ptr "prev" (pg_prev x) in
          upd_page p (with_pg_next (Some i)) ;;;
          upd_page h (with_pg_prev (Some i))
      end
  end.

(** The search of lru_delete. *)
Fixpoint lru_find (fuel : nat) (va : Z) (p : nat) : K nat :=
  match fuel with
  | O => hang
  | S fuel' =>
      let! x := get_page p in
      if (pg_vaddr x =? va) && bool_decide (pg_next x <> None) then ret p else
      let! q := pg_ptr "next" (pg_next x) in
      lru_find fuel' va q
  end.

(** A list of at most NPAGES pages is searched in as many steps. *)
Definition lru_fuel : nat := Z.to_nat NPAGES.

Definition clear_entries (va : Z) (bm : list Z) : list Z := (fun v => if u32 v =? va then 0 else v) <$> bm.

Definition lru_delete (pgdir va : Z) : K unit :=
  let! k := get_kmem in
  match page_lru_head k with
  | None => ret tt
  | Some h =>
      let! p := lru_find lru_fuel va h in
      lru_unlink p ;;;
      upd_kmem (fun k => with_swapbitmap (clear_entries va (swapbitmap k)) k)
  end.

Section kalloc.
Context `{!Driver} `{!DevSw} `{!Image}.

Definition kfree (v : Z) : K unit :=
  if negb (v mod PGSIZE =? 0) || (v <? img_end) || (PHYSTOP <=? V2P v) then panic "kfree" else
  upd_mem (fun m => memset m v 1 PGSIZE) ;;;
  kmem_acquire ;;;
  let! k := get_kmem in
  vst32 v (freelist k) ;;;
  upd_kmem (with_freelist v) ;;;
  kmem_release.

(** [fuel] bounds the number of pages in the range. *)
Fixpoint freerange_loop (fuel : nat) (p vend : Z) : K unit :=
  if p + PGSIZE <=? vend then
    match fuel with
    | O => hang
    | S fuel' => kfree p ;;; freerange_loop fuel' (p + PGSIZE) vend
    end
  else ret tt.

Definition freerange (vstart vend : Z) : K unit :=
  freerange_loop (S (Z.to_nat ((vend - vstart) / PGSIZE))) (PGROUNDUP vstart) vend.

Definition kinit1 (vstart vend : Z) : K unit :=
  on_sync (initlock L_kmem) ;;;
  upd_kmem (with_use_lock false) ;;;
  freerange vstart vend.

Definition kinit2 (vstart vend : Z) : K unit :=
  freerange vstart vend ;;;
  upd_kmem (with_use_lock true).

(** [swapbitmap[i] = v]: the array has PGSIZE elements. *)
Definition set_swapbitmap (i v : Z) : K unit := fun s =>
  (let! _ := index "swapbitmap" (swapbitmap (k_kmem s) !! Z.to_nat i) in
   upd_kmem (fun k => with_swapbitmap (<[Z.to_nat i := v]> (swapbitmap k)) k)) s.

(** The body of reclaim for the victim page. *)
Definition evict (p : nat) : K unit :=
  let! x := get_page p in
  lru_unlink p ;;;
  let! blkno := balloc_for_swap in
  swapwrite (pg_vaddr x) (s32 blkno) ;;;
  set_swapbitmap blkno (s32 (pg_vaddr x)) ;;;
  let! _ := swap_out_pte (pg_pgdir x) (pg_vaddr x) (s32 blkno) in
  upd_kmem (with_freelist (pg_vaddr x)).

Fixpoint reclaim_loop (fuel : nat) (p tail : nat) : K Z :=
  match fuel with
  | O => hang
  | S fuel' =>
      let! x := get_page p in
      let! a := pte_logical_and (pg_pgdir x) (pg_vaddr x) PTE_A in
      if a =? 0 then evict p ;;; ret 1 else
      let! _ := pte_pte_a_clear (pg_pgdir x) (pg_vaddr x) in
      let! k := get_kmem in
      let! h := pg_ptr "page_lru_head" (page_lru_head k) in
      let! y := get_page h in
      upd_kmem (with_page_lru_head (pg_next y)) ;;;
      if decide (p = tail) then ret 0 else
      let! q := pg_ptr "next" (pg_next x) in
      reclaim_loop fuel' q tail
  end.

Definition reclaim : K Z :=
  let! k := get_kmem in
  match page_lru_head k with
  | None => ret 0
  | Some head =>
      let! x := get_page head in
      let! tail := pg_ptr "prev" (pg_prev x) in
      reclaim_loop lru_fuel head tail
  end.

(** [do { r = kmem.freelist; } while (!r && reclaim());] *)
Fixpoint kalloc_loop (fuel : nat) : K Z :=
  let! k := get_kmem in
  if negb (freelist k =? 0) then ret (freelist k) else
  let! n := reclaim in
  if n =? 0 then ret 0 else
  match fuel with
  | O => hang
  | S fuel' => kalloc_loop fuel'
  end.

(** The message printed when memory is exhausted is left out. *)
Definition kalloc : K Z :=
  kmem_acquire ;;;
  let! r := kalloc_loop lru_fuel in
  when (negb (r =? 0))
    (let! n := vld32 r in
     upd_kmem (with_freelist n)) ;;;
  kmem_release ;;;
  ret r.

Fixpoint count_free (fuel : nat) (r : Z) : K Z :=
  if r =? 0 then ret 0 else
  match fuel with
  | O => hang
  | S fuel' => let! n := vld32 r in let! c := count_free fuel' n in ret (c + 1)
  end.

Definition kmem_len : K Z :=
  kmem_acquire ;;;
  let! k := get_kmem in
  let! i := count_free lru_fuel (freelist k) in
  kmem_release ;;;
  ret i.

Definition swapin (pgdir va : Z) : K Z :=
  let! np := kalloc in
  if np =? 0 then ret (-1) else
  let blkno := Z.shiftr va 12 in
  set_swapbitmap blkno 0 ;;;
  swapread np (s32 blkno) ;;;
  swapin_helper pgdir va np ;;;
  ret 0.
End kalloc.
