(* ===== verification/KallocSafe.v ===== *)
(** Correctness of the page allocator (kalloc.c), and what its page replacement does. *)

From S2P Require Import Prelude Layout CString State Spinlock Sched Mem Sleeplock Ring Memide Bio Log Fs Kalloc.
Local Open Scope kernel_scope.

(** * The free list *)

(** The list of pages that hangs on [h]. *)
Fixpoint linked (m : memory) (h : Z) (l : list Z) : Prop :=
  match l with
  | [] => h = 0
  | p :: l' => h = p /\ linked m (ld32 m p) l'
  end.

Definition same_outside (p : Z) (m m' : memory) : Prop := forall a, ~ (p <= a < p + PGSIZE) -> ldb m' a = ldb m a.

Lemma ld32_same m m' a : (forall i, 0 <= i < 4 -> ldb m' (a + i) = ldb m (a + i)) -> ld32 m' a = ld32 m a.
Proof.
  intros H. unfold ld32. rewrite !(H 1), !(H 2), !(H 3) by lia. pose proof (H 0 ltac:(lia)) as H0.
  rewrite Z.add_0_r in H0. by rewrite H0.
Qed.

(** A page the allocator manages. *)
Definition is_page `{!Image} (p : Z) : Prop := p mod PGSIZE = 0 /\ img_end <= p < KERNBASE + PHYSTOP.

Lemma page_sep `{!Image} p q : is_page p -> is_page q -> p <> q -> p + PGSIZE <= q \/ q + PGSIZE <= p.
Proof. unfold is_page. change PGSIZE with 4096. intros [] [] ?. zdiv. Qed.

Lemma page_kernel `{!Image} p : is_page p -> KERNBASE < p /\ 0 < p < 2 ^ 32 /\ V2P p = p - KERNBASE.
Proof.
  intros [_ Hp]. pose proof img_order as Ho. pose proof img_fits. unfold V2P, KERNLINK, EXTMEM, KERNBASE, PHYSTOP in *.
  split; [lia|]. split; [lia|]. apply u32_small. lia.
Qed.

Lemma linked_outside `{!Image} m m' p l : forall h, same_outside p m m' -> is_page p -> Forall is_page l -> (p ∉ l) ->
  linked m h l -> linked m' h l.
Proof.
  induction l as [|q l IH]; intros h Hs Hp Hl Hn; [done|]. apply Forall_cons_iff in Hl as [Hq Hl].
  apply not_elem_of_cons in Hn as [Hne Hn]. intros [-> Hlk]. split; [done|].
  assert (ld32 m' q = ld32 m q) as ->; [|by apply IH]. apply ld32_same. intros i Hi. apply Hs.
  destruct (page_sep p q Hp Hq Hne); change PGSIZE with 4096 in *; lia.
Qed.

Section kmem.
Context {drv : Driver} {dsw : DevSw} {im : Image}.

(** The free pages are [l], each of them once, and no page of the list overlaps
    another; the memory holds bytes. *)
Record free_ok (s : kstate) (l : list Z) : Prop := mk_free_ok {
  fo_pages : Forall is_page l;
  fo_nodup : NoDup l;
  fo_linked : linked (k_mem s) (freelist (k_kmem s)) l }.

(** The synchronisation state in the critical sections of the allocator. *)
Definition kmem_sync (s : kstate) : sync := if use_lock (k_kmem s) then lock L_kmem (k_sync s) else k_sync s.

(** The allocator's lock, if it is in use, can be taken. *)
Definition may_alloc (s : kstate) : Prop := use_lock (k_kmem s) = true -> sync_ok (k_sync s) /\ free_lock L_kmem (k_sync s).

Lemma quiet_may_alloc s : quiet s -> may_alloc s.
Proof. intros [Hy _ Hl] _. split; [done|]. by apply Hl. Qed.

Lemma calm_may_alloc pid s : calm pid s -> may_alloc s.
Proof. intros Hc. by apply quiet_may_alloc, (calm_quiet pid). Qed.

Lemma may_alloc_frame s s' : may_alloc s -> k_sync s' = k_sync s -> use_lock (k_kmem s') = use_lock (k_kmem s) -> may_alloc s'.
Proof. unfold may_alloc. by intros ? -> ->. Qed.

Lemma kmem_acquire_ok s : may_alloc s -> kmem_acquire s = Ok tt (set_sync (kmem_sync s) s).
Proof.
  intros Hc. unfold kmem_acquire, get_kmem, kmem_sync. erewrite bind_ok by reflexivity.
  destruct (use_lock (k_kmem s)) eqn:E; simpl; [|by destruct s]. destruct (Hc E). by apply acquire_k.
Qed.

Lemma kmem_release_ok s0 s : may_alloc s0 -> k_sync s = kmem_sync s0 -> use_lock (k_kmem s) = use_lock (k_kmem s0) ->
  kmem_release s = Ok tt (set_sync (k_sync s0) s).
Proof.
  intros Hc Hs Hu. unfold kmem_release, get_kmem, kmem_sync in *. erewrite bind_ok by reflexivity. rewrite Hu in *.
  destruct (use_lock (k_kmem s0)) eqn:E; simpl; [|rewrite <- Hs; by destruct s]. destruct (Hc E). by apply release_locked.
Qed.

(** kfree of [v]: the page is filled with junk and pushed on the list. *)
Definition freed (v : Z) (s : kstate) : kstate :=
  set_kmem (with_freelist v (k_kmem s)) (set_mem (st32 (memset (k_mem s) v 1 PGSIZE) v (freelist (k_kmem s))) s).

Lemma kfree_run s v : may_alloc s -> is_page v -> kfree v s = Ok tt (freed v s).
Proof.
  intros Hc Hv. destruct (page_kernel v Hv) as (Hk & Hr & HV). destruct (Hv) as [Ha [He Hp]]. unfold kfree.
  rewrite HV, Ha, (proj2 (Z.ltb_ge _ _)), (proj2 (Z.leb_gt _ _)) by lia. cbn [Z.eqb negb orb].
  unfold upd_mem. erewrite bind_ok by reflexivity. set (s1 := set_mem _ s).
  assert (Hc1 : may_alloc s1) by (by apply (may_alloc_frame s)).
  rewrite (bind_ok _ _ _ _ _ (kmem_acquire_ok s1 Hc1)). erewrite bind_ok by reflexivity.
  rewrite (bind_ok _ _ _ _ _ (vst32_kernel v _ (set_sync _ _) ltac:(lia))). unfold upd_kmem. erewrite bind_ok by reflexivity.
  rewrite (kmem_release_ok s1) by done. by destruct s.
Qed.

Lemma freed_outside v s : same_outside v (k_mem s) (k_mem (freed v s)).
Proof.
  intros a Ha. simpl. change PGSIZE with 4096 in *. rewrite ldb_st32, decide_False by lia.
  rewrite memset_spec by lia. by rewrite decide_False by lia.
Qed.

Lemma linked_head m h l : linked m h l -> h = default 0 (head l).
Proof. by destruct l; simpl; [|intros [? _]]. Qed.

Lemma free_head s l : free_ok s l -> 0 <= freelist (k_kmem s) < 2 ^ 32.
Proof.
  intros [Hp _ Hl]. rewrite (linked_head _ _ _ Hl). destruct l as [|p l]; simpl; [lia|].
  apply Forall_cons_iff in Hp as [Hp _]. apply page_kernel in Hp. lia.
Qed.

(** Kfree gives a page back.  The page becomes the first of the free list, the
    other free pages stay as they are, and no byte outside the page changes.  A
    pointer that is not the address of a page between the end of the kernel and the
    top of memory panics. *)
Theorem kfree_correct s l v :
  may_alloc s -> free_ok s l -> 0 <= v < 2 ^ 32 ->
  if decide (is_page v) then
    (v ∉ l) -> exists s', kfree v s = Ok tt s' /\ free_ok s' (v :: l) /\ same_outside v (k_mem s) (k_mem s') /\
      k_sync s' = k_sync s
  else kfree v s = Panic "kfree".
Proof.
  intros Hc Hf Hr. case_decide as Hv.
  - intros Hn. exists (freed v s). split; [by apply kfree_run|]. split; [|split; [apply freed_outside|done]].
    destruct (Hf) as [Hp Hnd Hl]. split.
    + by apply Forall_cons.
    + by apply list.NoDup_cons.
    + simpl. split; [done|]. rewrite ld32_st32_eq. rewrite u32_small by (by eapply free_head).
      by apply (linked_outside (k_mem s) _ v l _ (freed_outside v s)).
  - unfold kfree. destruct (_ || _) eqn:E; [done|]. destruct Hv. zbool.
    pose proof img_order. pose proof img_fits.
    unfold is_page, V2P, KERNLINK, EXTMEM, KERNBASE, PHYSTOP in *. rewrite u32_small in * by lia. lia.
Qed.

Lemma kalloc_run s p l : may_alloc s -> free_ok s (p :: l) ->
  kalloc s = Ok p (set_kmem (with_freelist (ld32 (k_mem s) p) (k_kmem s)) s).
Proof.
  intros Hc [Hp _ [Hh _]]. apply Forall_cons_iff in Hp as [Hp _]. destruct (page_kernel p Hp) as (Hk & Hr & _).
  unfold kalloc. rewrite (bind_ok _ _ _ _ _ (kmem_acquire_ok s Hc)).
  assert (Hloop : forall s', freelist (k_kmem s') = p -> kalloc_loop lru_fuel s' = Ok p s').
  { intros s' E. unfold lru_fuel. destruct (Z.to_nat NPAGES); cbn [kalloc_loop]; unfold get_kmem; erewrite bind_ok by reflexivity;
      rewrite E, (proj2 (Z.eqb_neq _ _)) by lia; done. }
  rewrite (bind_ok _ _ _ _ _ (Hloop (set_sync _ s) Hh)). rewrite (proj2 (Z.eqb_neq _ _)) by lia. cbn [negb when].
  erewrite bind_ok by (rewrite (bind_ok _ _ _ _ _ (vld32_kernel p (set_sync _ s) ltac:(lia))); reflexivity).
  erewrite bind_ok by (apply (kmem_release_ok s); done). by destruct s.
Qed.

(** Kalloc takes the first page off the free list, so that it hands out a page
    that is free and is not handed out again before it is given back; memory is not
    touched.  With no free page, and no user page to reclaim, it returns 0. *)
Theorem kalloc_correct s l :
  may_alloc s -> free_ok s l ->
  match l with
  | p :: l' => exists s', kalloc s = Ok p s' /\ is_page p /\ (p ∉ l') /\ free_ok s' l' /\ k_mem s' = k_mem s /\ k_sync s' = k_sync s
  | [] => page_lru_head (k_kmem s) = None -> kalloc s = Ok 0 s
  end.
Proof.
  intros Hc Hf. destruct l as [|p l].
  - intros Hn. destruct Hf as [_ _ Hl]. simpl in Hl. unfold kalloc. rewrite (bind_ok _ _ _ _ _ (kmem_acquire_ok s Hc)).
    assert (Hloop : kalloc_loop lru_fuel (set_sync (kmem_sync s) s) = Ok 0 (set_sync (kmem_sync s) s)).
    { unfold lru_fuel. destruct (Z.to_nat NPAGES); cbn [kalloc_loop]; unfold reclaim, get_kmem;
        erewrite bind_ok by reflexivity; cbn [k_kmem set_sync]; rewrite Hl; cbn [Z.eqb negb];
        erewrite bind_ok by (erewrite bind_ok by reflexivity; cbn [k_kmem set_sync]; rewrite Hn; reflexivity); done. }
    rewrite (bind_ok _ _ _ _ _ Hloop). cbn [Z.eqb negb when]. erewrite bind_ok by reflexivity.
    erewrite bind_ok by (apply (kmem_release_ok s); done). by destruct s.
  - eexists. split; [by apply (kalloc_run s p l)|]. destruct Hf as [Hp Hnd [Hh Hl]].
    apply Forall_cons_iff in Hp as [Hp Hps]. apply list.NoDup_cons in Hnd as [Hn Hnd]. done.
Qed.

(** kmem_len counts the free pages. *)
Theorem kmem_len_correct s l :
  may_alloc s -> free_ok s l -> (length l <= Z.to_nat NPAGES)%nat -> kmem_len s = Ok (Z.of_nat (length l)) s.
Proof.
  intros Hc [Hp _ Hl] Hlen. unfold kmem_len. rewrite (bind_ok _ _ _ _ _ (kmem_acquire_ok s Hc)). erewrite bind_ok by reflexivity.
  assert (Hcnt : forall fuel h y, linked (k_mem s) h l -> (length l <= fuel)%nat ->
    count_free fuel h (set_sync y s) = Ok (Z.of_nat (length l)) (set_sync y s)).
  { clear Hl Hlen. induction l as [|p l IH]; intros fuel h y Hl Hlen; simpl in Hl, Hlen.
    - subst h. destruct fuel; done.
    - destruct Hl as [-> Hl]. apply Forall_cons_iff in Hp as [Hp Hps]. destruct (page_kernel p Hp) as (Hk & Hr & _).
      destruct fuel as [|fuel]; [lia|]. cbn [count_free]. rewrite (proj2 (Z.eqb_neq _ _)) by lia.
      rewrite (bind_ok _ _ _ _ _ (vld32_kernel p (set_sync y s) ltac:(lia))).
      rewrite (bind_ok _ _ _ _ _ (IH Hps fuel _ y Hl ltac:(lia))). unfold ret. f_equal. simpl. lia. }
  rewrite (bind_ok _ _ _ _ _ (Hcnt lru_fuel _ (kmem_sync s) Hl Hlen)).
  erewrite bind_ok by (apply (kmem_release_ok s); done). by destruct s.
Qed.

(** ** Filling the free list *)
Definition pages_from (p : Z) (n : nat) : list Z := (fun i => p + Z.of_nat i * PGSIZE) <$> seq 0 n.

Lemma pages_from_S p n : pages_from p (S n) = p :: pages_from (p + PGSIZE) n.
Proof.
  unfold pages_from. cbn [seq fmap list_fmap]. f_equal; [lia|]. rewrite <- seq_shift. rewrite <- list_fmap_compose.
  apply list_fmap_ext. intros i x _. simpl. lia.
Qed.

Lemma elem_of_pages_from p n q : q ∈ pages_from p n <-> exists i, q = p + Z.of_nat i * PGSIZE /\ (i < n)%nat.
Proof.
  unfold pages_from. rewrite list_elem_of_fmap. split.
  - intros (i & -> & Hi%elem_of_seq). exists i. split; [done|lia].
  - intros (i & -> & Hi). exists i. split; [done|]. apply elem_of_seq. lia.
Qed.

Lemma free_ok_freed s l v : free_ok s l -> is_page v -> (v ∉ l) -> free_ok (freed v s) (v :: l).
Proof.
  intros Hf Hv Hn. destruct (Hf) as [Hp Hnd Hl]. split.
  - by apply Forall_cons.
  - by apply list.NoDup_cons.
  - simpl. split; [done|]. rewrite ld32_st32_eq. rewrite u32_small by (by eapply free_head).
    by apply (linked_outside (k_mem s) _ v l _ (freed_outside v s)).
Qed.

(** The allocator changes memory and the head of its list only. *)
Definition alloc_state (f : Z) (m : memory) (s : kstate) : kstate := set_kmem (with_freelist f (k_kmem s)) (set_mem m s).

Lemma may_alloc_state f m s : may_alloc s -> may_alloc (alloc_state f m s).
Proof. intros H. by apply (may_alloc_frame s). Qed.

Lemma alloc_state_state f m f' m' s : alloc_state f m (alloc_state f' m' s) = alloc_state f m s.
Proof. done. Qed.

Lemma alloc_state_id s : alloc_state (freelist (k_kmem s)) (k_mem s) s = s.
Proof. unfold alloc_state. destruct s as [? ? ? k]. by destruct k. Qed.

Lemma freerange_loop_spec n : forall fuel p vend s l,
  may_alloc s -> free_ok s l -> n = 0%nat \/ p + Z.of_nat n * PGSIZE <= vend -> vend < p + Z.of_nat (S n) * PGSIZE -> (n <= fuel)%nat ->
  Forall is_page (pages_from p n) -> (forall q, q ∈ pages_from p n -> q ∉ l) ->
  exists f m', freerange_loop fuel p vend s = Ok tt (alloc_state f m' s) /\ free_ok (alloc_state f m' s) (rev (pages_from p n) ++ l) /\
    (forall a, (forall q, q ∈ pages_from p n -> ~ (q <= a < q + PGSIZE)) -> ldb m' a = ldb (k_mem s) a).
Proof.
  induction n as [|n IH]; intros fuel p vend s l Hc Hf Hv1 Hv2 Hfu Hp Hn.
  - exists (freelist (k_kmem s)), (k_mem s). rewrite alloc_state_id. split; [|by split].
    destruct fuel; cbn [freerange_loop]; rewrite (proj2 (Z.leb_gt _ _)) by lia; done.
  - rewrite pages_from_S in *. apply Forall_cons_iff in Hp as [Hp Hps]. destruct fuel as [|fuel]; [lia|]. cbn [freerange_loop].
    change PGSIZE with 4096 in *. rewrite (proj2 (Z.leb_le _ _)) by lia.
    rewrite (bind_ok _ _ _ _ _ (kfree_run s p Hc Hp)).
    destruct (IH fuel (p + 4096) vend (freed p s) (p :: l)) as (f & m' & R & Hf' & Hm').
    { by apply (may_alloc_frame s). } { apply free_ok_freed; [done|done|]. apply Hn, list_elem_of_here. } { lia. } { lia. } { lia. } { done. }
    { intros q Hq. apply not_elem_of_cons. split.
      - apply elem_of_pages_from in Hq as (i & -> & _). change PGSIZE with 4096. lia.
      - apply Hn. by apply list_elem_of_further. }
    exists f, m'. change (alloc_state f m' (freed p s)) with (alloc_state f m' s) in *. split; [done|]. split; [simpl; by rewrite <- app_assoc|].
    intros a Ha. rewrite Hm' by (intros q Hq; apply Ha; by right). apply freed_outside, Ha. by left.
Qed.

(** Freerange puts every whole page between two addresses on the free list, and
    nothing else: this is how kinit1 and kinit2 set up the allocator. *)
Theorem freerange_correct s l vstart vend :
  let p := PGROUNDUP vstart in let n := Z.to_nat ((vend - p) / PGSIZE) in
  may_alloc s -> free_ok s l -> img_end <= vstart <= vend -> vend <= KERNBASE + PHYSTOP ->
  (forall q, q ∈ pages_from p n -> q ∉ l) ->
  exists f m', freerange vstart vend s = Ok tt (alloc_state f m' s) /\ free_ok (alloc_state f m' s) (rev (pages_from p n) ++ l) /\
    (forall a, (forall q, q ∈ pages_from p n -> ~ (q <= a < q + PGSIZE)) -> ldb m' a = ldb (k_mem s) a).
Proof.
  intros p n Hc Hf Hs He Hn. pose proof img_order as Ho. pose proof img_fits as Hfit.
  assert (Hv : 0 <= vstart <= 2 ^ 32 - PGSIZE) by (unfold KERNLINK, EXTMEM, KERNBASE, PHYSTOP, PGSIZE in *; lia).
  destruct (PGROUNDUP_bounds vstart Hv) as [Hb Ha]. fold p in Hb, Ha. unfold freerange. fold p.
  destruct (freerange_loop_spec n (S (Z.to_nat ((vend - vstart) / PGSIZE))) p vend s l) as (f & m' & R & Hf' & Hm'); try done.
  - unfold n. change PGSIZE with 4096 in *. zdiv.
  - unfold n. change PGSIZE with 4096 in *. zdiv.
  - unfold n. assert ((vend - p) / PGSIZE <= (vend - vstart) / PGSIZE) by (apply Z.div_le_mono; [done|lia]). lia.
  - apply list.Forall_forall. intros q (i & -> & Hi)%elem_of_pages_from. unfold n in Hi.
    change PGSIZE with 4096 in *. unfold is_page. change PGSIZE with 4096. split; [zdiv|]. split; [lia|]. zdiv.
  - by exists f, m'.
Qed.

(** * Page replacement *)

(** The pages [R] are closed under the links of the list, and none is at [va]. *)
Definition ring_without (s : kstate) (va : Z) (R : nat -> Prop) : Prop :=
  forall p, R p -> exists x q, pages (k_kmem s) !! p = Some x /\ pg_vaddr x <> va /\ pg_next x = Some q /\ R q.

Lemma lru_find_hangs s va R fuel : forall p, ring_without s va R -> R p -> lru_find fuel va p s = Hang.
Proof.
  induction fuel as [|fuel IH]; intros p HR Hp; [done|]. cbn [lru_find].
  destruct (HR p Hp) as (x & q & Hx & Hva & Hq & HRq). unfold get_page.
  assert (Hg : get_page p s = Ok x s) by (unfold get_page; by rewrite Hx).
  rewrite (bind_ok _ _ _ _ _ Hg), (proj2 (Z.eqb_neq _ _)) by done. cbn [andb]. rewrite Hq. by apply IH.
Qed.

(** Lru_delete does not return when no page of the list has the given address:
    however many steps it is given, it is still searching. *)
Theorem lru_delete_hangs s pgdir va h R :
  page_lru_head (k_kmem s) = Some h -> R h -> ring_without s va R ->
  lru_delete pgdir va s = Hang /\ forall fuel, lru_find fuel va h s = Hang.
Proof.
  intros Hh HR Hr. split; [|intros fuel; by apply (lru_find_hangs s va R)].
  unfold lru_delete, get_kmem. erewrite bind_ok by reflexivity. rewrite Hh.
  unfold bind at 1. by rewrite (lru_find_hangs s va R).
Qed.

(** The list that the first lru_insert sets up. *)
Definition one_page (s : kstate) : Prop :=
  page_lru_head (k_kmem s) = Some 0%nat /\
  exists x, pages (k_kmem s) !! 0%nat = Some x /\ pg_next x = Some 0%nat /\ pg_prev x = Some 0%nat.

Lemma lru_insert_run s pgdir va mask :
  mask <> 0 -> (0 < length (pages (k_kmem s)))%nat -> page_lru_head (k_kmem s) = None \/ one_page s ->
  exists k', lru_insert pgdir va mask s = Ok tt (set_kmem k' s) /\ one_page (set_kmem k' s) /\
    num_lru_pages k' = num_lru_pages (k_kmem s) + 1 /\
    freelist k' = freelist (k_kmem s) /\ use_lock k' = use_lock (k_kmem s) /\ (one_page s -> pages k' = pages (k_kmem s)).
Proof.
  intros Hm Hlen Hs. unfold lru_insert. rewrite (proj2 (Z.eqb_neq _ _)) by done.
  unfold upd_kmem. erewrite bind_ok by reflexivity. unfold get_kmem. erewrite bind_ok by reflexivity.
  cbn [k_kmem set_kmem page_lru_head with_num_lru_pages pages].
  apply lookup_lt_is_Some in Hlen as [x0 Hx0]. destruct (pages (k_kmem s)) as [|y ps] eqn:Eps; [done|]. clear x0 Hx0.
  destruct Hs as [Hn|(Hh & x & Hx & Hnx & Hpx)].
  - rewrite Hn. do 4 (erewrite bind_ok by reflexivity). eexists. split; [reflexivity|].
    cbn. rewrite Eps. cbn. split; [split; [done|by eexists]|]. split; [done|]. split; [done|]. split; [done|]. intros [Hh _]. congruence.
  - rewrite Eps in Hx. change (Some y = Some x) in Hx. injection Hx as ->. rewrite Hh. cbn [find_used]. rewrite Hnx.
    erewrite bind_ok by (unfold get_page; cbn; rewrite Eps; reflexivity).
    do 2 (erewrite bind_ok by reflexivity). rewrite Hpx. do 2 (erewrite bind_ok by reflexivity).
    eexists. split; [reflexivity|]. cbn. rewrite Eps. cbn. split; [split; [done|by eexists]|]. split; [done|]. split; [done|]. split; [done|].
    intros _. destruct x as [nx pv pd va0]. simpl in *. by subst.
Qed.

(** The list never holds more than one page.  The first lru_insert records its
    page; every later one finds the slot that is in use instead of a free one, and
    only counts the page. *)
Theorem lru_insert_keeps_one s pgdir va mask :
  mask <> 0 -> (0 < length (pages (k_kmem s)))%nat -> page_lru_head (k_kmem s) = None \/ one_page s ->
  exists s', lru_insert pgdir va mask s = Ok tt s' /\ one_page s' /\
    num_lru_pages (k_kmem s') = num_lru_pages (k_kmem s) + 1 /\
    (one_page s -> pages (k_kmem s') = pages (k_kmem s)).
Proof.
  intros Hm Hlen Hs. destruct (lru_insert_run s pgdir va mask Hm Hlen Hs) as (k' & R & Ho & Hn & _ & _ & Hp). by eexists.
Qed.

(** ** Page table entries of evicted pages *)

(** The page table entry of [va] is at [a], in kernel memory and not in the page
    directory entry that leads to it. *)
Record pte_ok (m : memory) (pgdir va a : Z) : Prop := mk_pte_ok {
  po_find : find_pte m pgdir va = Some a;
  po_kern : KERNBASE <= pde_at pgdir va /\ KERNBASE <= a;
  po_sep : a + 4 <= pde_at pgdir va \/ pde_at pgdir va + 4 <= a }.

Lemma pte_ok_store m pgdir va a v : pte_ok m pgdir va a -> pte_ok (st32 m a v) pgdir va a.
Proof. intros [Hf Hk Hs]. split; try done. unfold find_pte in *. by rewrite ld32_st32_ne by lia. Qed.

Lemma walk_ok s pgdir va a : pte_ok (k_mem s) pgdir va a -> walk pgdir va s = Ok a s.
Proof.
  intros [Hf [Hk1 Hk2] _]. unfold walk, walkpgdir. rewrite (bind_ok _ _ _ _ _ (vld32_kernel _ s Hk1)).
  unfold find_pte in Hf. destruct (Z.land (ld32 (k_mem s) (pde_at pgdir va)) PTE_P =? 0); [done|]. simplify_eq. done.
Qed.

Lemma pte_mask_ok mask s pgdir va a : pte_ok (k_mem s) pgdir va a ->
  pte_mask mask pgdir va s = Ok 0 (set_mem (st32 (k_mem s) a (Z.land (ld32 (k_mem s) a) mask)) s).
Proof.
  intros Hp. unfold pte_mask. rewrite (bind_ok _ _ _ _ _ (walk_ok _ _ _ _ Hp)). destruct Hp as [_ [_ Hk] _].
  rewrite (proj2 (Z.eqb_neq _ _)) by (unfold KERNBASE in *; lia).
  rewrite (bind_ok _ _ _ _ _ (vld32_kernel _ s Hk)), (bind_ok _ _ _ _ _ (vst32_kernel _ _ s Hk)). done.
Qed.

Lemma pte_set_swapoffset_ok s pgdir va off a : pte_ok (k_mem s) pgdir va a ->
  exists m', pte_set_swapoffset pgdir va off s = Ok 0 (set_mem m' s) /\ pte_ok m' pgdir va a /\
    ld32 m' a = u32 (Z.lor (u32 (Z.land (ld32 (k_mem s) a) 0xFFF)) (u32 (Z.shiftl off 12))).
Proof.
  intros Hp. unfold pte_set_swapoffset. rewrite (bind_ok _ _ _ _ _ (walk_ok _ _ _ _ Hp)). destruct (Hp) as [_ [_ Hk] _].
  rewrite (proj2 (Z.eqb_neq _ _)) by (unfold KERNBASE in *; lia).
  rewrite (bind_ok _ _ _ _ _ (vld32_kernel _ s Hk)), (bind_ok _ _ _ _ _ (vst32_kernel _ _ s Hk)).
  rewrite (bind_ok _ _ _ _ _ (vld32_kernel _ (set_mem _ s) Hk)), (bind_ok _ _ _ _ _ (vst32_kernel _ _ (set_mem _ s) Hk)).
  eexists. split; [reflexivity|]. cbn [k_mem set_mem]. rewrite !ld32_st32_eq. split; [|done]. by repeat apply pte_ok_store.
Qed.

Lemma swap_out_pte_run s pgdir va off a :
  pte_ok (k_mem s) pgdir va a -> Z.land (ld32 (k_mem s) a) PTE_SWAP = 0 ->
  exists m', swap_out_pte pgdir va off s = Ok 0 (set_mem m' s) /\ pte_ok m' pgdir va a /\ ld32 m' a = u32 (Z.shiftl off 12).
Proof.
  intros Hp H0. unfold swap_out_pte, pte_pte_swap_set, pte_pte_p_clear.
  rewrite (bind_ok _ _ _ _ _ (pte_mask_ok PTE_SWAP s _ _ _ Hp)), H0.
  pose proof (pte_ok_store _ _ _ _ 0 Hp) as Hp1.
  rewrite (bind_ok _ _ _ _ _ (pte_mask_ok (Z.lnot PTE_P) (set_mem _ s) _ _ _ Hp1)). cbn [k_mem set_mem].
  rewrite ld32_st32_eq. change (Z.land (u32 0) (Z.lnot PTE_P)) with 0.
  pose proof (pte_ok_store _ _ _ _ 0 Hp1) as Hp2.
  destruct (pte_set_swapoffset_ok (set_mem (st32 (st32 (k_mem s) a 0) a 0) s) pgdir va off a Hp2) as (m' & R & Hp3 & Hv).
  exists m'. split; [exact R|]. split; [done|]. cbn [k_mem set_mem] in Hv. rewrite ld32_st32_eq in Hv.
  change (Z.lor (u32 (Z.land (u32 0) 0xFFF))) with (Z.lor 0) in Hv. by rewrite Z.lor_0_l, u32_idemp in Hv.
Qed.

Lemma shifted_low off n : 0 <= n < 12 -> Z.land (u32 (Z.shiftl off 12)) (2 ^ n) = 0.
Proof.
  intros Hn. rewrite land_bit by lia. unfold u32. rewrite Z.mod_pow2_bits_low by lia. by rewrite Z.shiftl_spec_low by lia.
Qed.

(** An evicted page cannot be recognised.  The steps reclaim applies to the page
    table entry of its victim (pte_pte_swap_set, pte_pte_p_clear, pte_set_swapoffset)
    leave an entry without PTE_SWAP and without PTE_P, whatever the entry was, as long
    as it did not have PTE_SWAP before: pte_pte_swap_set masks with PTE_SWAP where it
    should set it. *)
Theorem swapped_pte_unmarked s pgdir va off a :
  pte_ok (k_mem s) pgdir va a -> Z.land (ld32 (k_mem s) a) PTE_SWAP = 0 ->
  exists m', swap_out_pte pgdir va off s = Ok 0 (set_mem m' s) /\ pte_ok m' pgdir va a /\
    Z.land (ld32 m' a) PTE_SWAP = 0 /\ Z.land (ld32 m' a) PTE_P = 0.
Proof.
  intros Hp H0. destruct (swap_out_pte_run s pgdir va off a Hp H0) as (m' & R & Hp' & Hv). exists m'. rewrite Hv.
  split; [done|]. split; [done|]. split; [apply (shifted_low off 8)|apply (shifted_low off 0)]; lia.
Qed.

(** Swapin_helper clears the page table entry.  Its last step masks the entry,
    which at that point has no bit above the twelfth, with an address shifted beyond
    them; the page that was read back is never mapped. *)
Theorem swapin_helper_unmaps s pgdir va np a :
  pte_ok (k_mem s) pgdir va a ->
  exists m', swapin_helper pgdir va np s = Ok tt (set_mem m' s) /\ ld32 m' a = 0.
Proof.
  intros Hp. unfold swapin_helper. rewrite (bind_ok _ _ _ _ _ (walk_ok _ _ _ _ Hp)). destruct (Hp) as [_ [_ Hk] _].
  rewrite (bind_ok _ _ _ _ _ (vld32_kernel _ s Hk)), (bind_ok _ _ _ _ _ (vst32_kernel _ _ s Hk)).
  rewrite (bind_ok _ _ _ _ _ (vld32_kernel _ (set_mem _ _) Hk)), (bind_ok _ _ _ _ _ (vst32_kernel _ _ (set_mem _ _) Hk)).
  rewrite (bind_ok _ _ _ _ _ (vld32_kernel _ (set_mem _ _) Hk)), (vst32_kernel _ _ (set_mem _ _) Hk).
  eexists. split; [reflexivity|]. cbn [k_mem set_mem]. rewrite !ld32_st32_eq.
  set (x := u32 (Z.land (ld32 (k_mem s) a) 0xFFF)). set (y := u32 (Z.shiftl (V2P np) 12)).
  assert (Hx : u32 (Z.lor x PTE_P) = u32 (Z.lor x PTE_P) mod 2 ^ 12).
  { symmetry. apply Z.bits_inj'. intros n Hn. destruct (Z.lt_ge_cases n 12); [by rewrite Z.mod_pow2_bits_low by lia|].
    rewrite Z.mod_pow2_bits_high by lia. unfold u32, x. destruct (Z.lt_ge_cases n 32); [|by rewrite Z.mod_pow2_bits_high by lia].
    rewrite Z.mod_pow2_bits_low, Z.lor_spec by lia. unfold u32. rewrite Z.mod_pow2_bits_low by lia. rewrite Z.land_spec.
    change 0xFFF with (Z.ones 12). rewrite Z.ones_spec_high by lia. rewrite andb_false_r. simpl.
    change PTE_P with (2 ^ 0). by rewrite Z.pow2_bits_false by lia. }
  assert (Hland : Z.land (u32 (Z.lor x PTE_P)) y = 0); [|by rewrite Hland].
  apply Z.bits_inj'. intros n Hn. rewrite Z.land_spec, Z.bits_0, Hx. destruct (Z.lt_ge_cases n 12).
  - unfold y, u32. rewrite (Z.mod_pow2_bits_low (Z.shiftl _ _)) by lia. rewrite Z.shiftl_spec_low by lia. apply andb_false_r.
  - rewrite Z.mod_pow2_bits_high by lia. done.
Qed.
End kmem.
