(* ===== verification/Vm.v ===== *)
(** Page tables and user memory: vm.c.

    The descriptor tables and the loads of cr3, gdtr and tr are state of the processor
    that no other code reads; of switchuvm and switchkvm only the checks and the
    interrupt nesting are kept. *)

From S2P Require Import Prelude Layout CString State Spinlock Sched Mem Sleeplock Ring Memide Bio Log Fs Kalloc.
Local Open Scope kernel_scope.

Section vm.
Context `{!Driver} `{!DevSw} `{!Image}.

(** The loop of mappages; [fuel] bounds the number of pages. *)
Fixpoint mappages_loop (fuel : nat) (pgdir va a last pa perm : Z) : K Z :=
  match fuel with
  | O => hang
  | S fuel' =>
      let! pte := walkpgdir kalloc pgdir a true in
      if pte =? 0 then ret (-1) else
      let! x := vld32 pte in
      if negb (Z.land x PTE_P =? 0) then panic "remap" else
      vst32 pte (Z.lor (Z.lor pa perm) PTE_P) ;;;
      let! x := vld32 pte in
      lru_insert pgdir va (Z.land x PTE_U) ;;;
      if a =? last then ret 0 else
      mappages_loop fuel' pgdir va (u32 (a + PGSIZE)) last (u32 (pa + PGSIZE)) perm
  end.

Definition mappages (pgdir va size pa perm : Z) : K Z :=
  let a := PGROUNDDOWN va in
  let last := PGROUNDDOWN (va + size - 1) in
  mappages_loop (S (Z.to_nat (u32 (last - a) / PGSIZE))) pgdir va a last pa perm.

(** The table of the kernel's mappings: virt, phys_start, phys_end, perm. *)
Record kmap_entry := mk_kmap { km_virt : Z; km_start : Z; km_end : Z; km_perm : Z }.
Definition kmap : list kmap_entry :=
  [mk_kmap KERNBASE 0 EXTMEM PTE_W;
   mk_kmap KERNLINK (V2P KERNLINK) (V2P img_data) 0;
   mk_kmap img_data (V2P img_data) PHYSTOP PTE_W;
   mk_kmap DEVSPACE DEVSPACE 0 PTE_W].

(** The loop of deallocuvm; [fuel] bounds the number of pages. *)
Fixpoint deallocuvm_loop (fuel : nat) (pgdir a oldsz : Z) : K unit :=
  if a <? oldsz then
    match fuel with
    | O => hang
    | S fuel' =>
        let! pte := walk pgdir a in
        if pte =? 0 then deallocuvm_loop fuel' pgdir (u32 (u32 (PGADDR (PDX a + 1) 0 0 - PGSIZE) + PGSIZE)) oldsz else
        let! x := vld32 pte in
        (if negb (Z.land x PTE_P =? 0) then
           let pa := PTE_ADDR x in
           if pa =? 0 then panic "kfree" else
           kfree (P2V pa) ;;;
           lru_delete pgdir (P2V pa) ;;;
           vst32 pte 0
         else ret tt) ;;;
        deallocuvm_loop fuel' pgdir (u32 (a + PGSIZE)) oldsz
    end
  else ret tt.

Definition deallocuvm (pgdir oldsz newsz : Z) : K Z :=
  if oldsz <=? newsz then ret oldsz else
  deallocuvm_loop (S (Z.to_nat (oldsz / PGSIZE))) pgdir (PGROUNDUP newsz) oldsz ;;;
  ret newsz.

Definition freevm (pgdir : Z) : K unit :=
  if pgdir =? 0 then panic "freevm: no pgdir" else
  let! _ := deallocuvm pgdir KERNBASE 0 in
  for_each (seq 0 (Z.to_nat NPDENTRIES)) (fun i =>
    let! pde := vld32 (pgdir + 4 * Z.of_nat i) in
    when (negb (Z.land pde PTE_P =? 0)) (kfree (P2V (PTE_ADDR pde)))) ;;;
  kfree pgdir.

Fixpoint map_kernel (pgdir : Z) (ks : list kmap_entry) : K Z :=
  match ks with
  | [] => ret pgdir
  | k :: ks' =>
      let! r := mappages pgdir (km_virt k) (u32 (km_end k - km_start k)) (km_start k) (km_perm k) in
      if r <? 0 then freevm pgdir ;;; ret 0 else map_kernel pgdir ks'
  end.

Definition setupkvm : K Z :=
  let! pgdir := kalloc in
  if pgdir =? 0 then ret 0 else
  upd_mem (fun m => memset m pgdir 0 PGSIZE) ;;;
  if DEVSPACE <? P2V PHYSTOP then panic "PHYSTOP too high" else
  map_kernel pgdir kmap.

Definition switchuvm (i : nat) : K unit :=
  let! p := get_proc i in
  if p_kstack p =? 0 then panic "switchuvm: no kstack" else
  if p_pgdir p =? 0 then panic "switchuvm: no pgdir" else
  on_sync pushcli ;;;
  on_sync popcli.

Definition inituvm (pgdir : Z) (init : list Z) : K unit :=
  if PGSIZE <=? Z.of_nat (length init) then panic "inituvm: more than a page" else
  let! mem := kalloc in
  if mem =? 0 then undef "memset(0, 0, PGSIZE)" else
  upd_mem (fun m => memset m mem 0 PGSIZE) ;;;
  let! _ := mappages pgdir 0 PGSIZE (V2P mem) (Z.lor PTE_W PTE_U) in
  vstore mem init.

Fixpoint loaduvm_loop (fuel : nat) (pgdir addr : Z) (ip : nat) (offset sz i : Z) : K Z :=
  if i <? sz then
    match fuel with
    | O => hang
    | S fuel' =>
        let! pte := walk pgdir (u32 (addr + i)) in
        if pte =? 0 then panic "loaduvm: address should exist" else
        let! x := vld32 pte in
        let pa := PTE_ADDR x in
        let n := if sz - i <? PGSIZE then sz - i else PGSIZE in
        let! (r, bytes) := readi ip (u32 (offset + i)) n in
        vstore (P2V pa) bytes ;;;
        if negb (r =? n) then ret (-1) else
        loaduvm_loop fuel' pgdir addr ip offset sz (i + PGSIZE)
    end
  else ret 0.

Definition loaduvm (pgdir addr : Z) (ip : nat) (offset sz : Z) : K Z :=
  if negb (addr mod PGSIZE =? 0) then panic "loaduvm: addr must be page aligned" else
  loaduvm_loop (S (Z.to_nat (sz / PGSIZE))) pgdir addr ip offset sz 0.

(** The messages of allocuvm are left out. *)
Fixpoint allocuvm_loop (fuel : nat) (pgdir oldsz newsz a : Z) : K Z :=
  if a <? newsz then
    match fuel with
    | O => hang
    | S fuel' =>
        let! mem := kalloc in
        if mem =? 0 then
          let! _ := deallocuvm pgdir newsz oldsz in ret 0
        else
        upd_mem (fun m => memset m mem 0 PGSIZE) ;;;
        let! r := mappages pgdir a PGSIZE (V2P mem) (Z.lor PTE_W PTE_U) in
        if r <? 0 then
          let! _ := deallocuvm pgdir newsz oldsz in
          kfree mem ;;;
          ret 0
        else allocuvm_loop fuel' pgdir oldsz newsz (u32 (a + PGSIZE))
    end
  else ret newsz.

Definition allocuvm (pgdir oldsz newsz : Z) : K Z :=
  if KERNBASE <=? newsz then ret 0 else
  if newsz <? oldsz then ret oldsz else
  allocuvm_loop (S (Z.to_nat (newsz / PGSIZE))) pgdir oldsz newsz (PGROUNDUP oldsz).

Definition clearpteu (pgdir uva : Z) : K unit :=
  let! pte := walk pgdir uva in
  if pte =? 0 then panic "clearpteu" else
  let! x := vld32 pte in
  vst32 pte (Z.land x (Z.lnot PTE_U)).

Fixpoint copyuvm_loop (fuel : nat) (pgdir d sz i : Z) : K Z :=
  if i <? sz then
    match fuel with
    | O => hang
    | S fuel' =>
        let! pte := walk pgdir i in
        if pte =? 0 then panic "copyuvm: pte should exist" else
        let! x := vld32 pte in
        if Z.land x PTE_P =? 0 then panic "copyuvm: page not present" else
        let pa := PTE_ADDR x in
        let flags := PTE_FLAGS x in
        let! mem := kalloc in
        if mem =? 0 then freevm d ;;; ret 0 else
        upd_mem (fun m => memmove m mem (P2V pa) PGSIZE) ;;;
        let! x := vld32 pte in
        lru_insert pgdir mem (Z.land x PTE_U) ;;;
        let! r := mappages d i PGSIZE (V2P mem) flags in
        if r <? 0 then kfree mem ;;; freevm d ;;; ret 0 else
        copyuvm_loop fuel' pgdir d sz (u32 (i + PGSIZE))
    end
  else ret d.

Definition copyuvm (pgdir sz : Z) : K Z :=
  let! d := setupkvm in
  if d =? 0 then ret 0 else
  copyuvm_loop (S (Z.to_nat (sz / PGSIZE))) pgdir d sz 0.

Definition uva2ka (pgdir uva : Z) : K Z :=
  let! pte := walk pgdir uva in
  let! x := vld32 pte in
  if Z.land x PTE_P =? 0 then ret 0 else
  if Z.land x PTE_U =? 0 then ret 0 else
  ret (P2V (PTE_ADDR x)).

Fixpoint copyout_loop (fuel : nat) (pgdir va : Z) (buf : list Z) : K Z :=
  match buf with
  | [] => ret 0
  | _ =>
      match fuel with
      | O => hang
      | S fuel' =>
          let va0 := PGROUNDDOWN va in
          let! pa0 := uva2ka pgdir va0 in
          if pa0 =? 0 then ret (-1) else
          let n := PGSIZE - (va - va0) in
          let n := if Z.of_nat (length buf) <? n then Z.of_nat (length buf) else n in
          vstore (pa0 + (va - va0)) (take (Z.to_nat n) buf) ;;;
          copyout_loop fuel' pgdir (u32 (va0 + PGSIZE)) (drop (Z.to_nat n) buf)
      end
  end.

Definition copyout (pgdir va : Z) (p : list Z) : K Z :=
  copyout_loop (S (S (length p / Z.to_nat PGSIZE))) pgdir va p.

Definition pgintr (rcr : Z) : K unit :=
  let! p := on_sync myproc in
  let! p := index "myproc()" p in
  let! pr := get_proc p in
  let! pte := walk (p_pgdir pr) rcr in
  let! x := vld32 pte in
  if negb (Z.land x PTE_SWAP =? 0) then
    let! result := swapin (p_pgdir pr) rcr in
    when (result =? -1) (upd_proc p (fun p => with_killed (Z.lor (p_killed p) 1) p))
  else upd_proc p (fun p => with_killed (Z.lor (p_killed p) 1) p).
End vm.
