(* ===== verification/VmSafe.v ===== *)
(** What the page table code of vm.c guarantees: mappages installs exactly one mapping;
    and what becomes of pages that were evicted or are freed. *)

From S2P Require Import Prelude Layout CString State Spinlock Sched Mem Sleeplock Ring Memide Bio Log Fs Kalloc KallocSafe Vm.
Local Open Scope kernel_scope.

(** The page table of the directory entry [i], if there is one. *)
Definition table_at (m : memory) (pgdir i : Z) : option Z :=
  let pde := ld32 m (pgdir + 4 * i) in if Z.land pde PTE_P =? 0 then None else Some (P2V (PTE_ADDR pde)).

(** The page table entry of [va]: its value, or 0 when there is no page table. *)
Definition pte_val (m : memory) (pgdir va : Z) : Z :=
  match table_at m pgdir (PDX va) with Some t => ld32 m (t + 4 * PTX va) | None => 0 end.

Definition same_page (va va' : Z) : Prop := PDX va = PDX va' /\ PTX va = PTX va'.

Section vm.
Context {drv : Driver} {dsw : DevSw} {im : Image}.

(** A part of the list of user pages that holds only user addresses and is not left by
    following it. *)
Definition user_ring (s : kstate) (R : nat -> Prop) : Prop :=
  forall p, R p -> exists y q, pages (k_kmem s) !! p = Some y /\ pg_vaddr y < KERNBASE /\ pg_next y = Some q /\ R q.

(** Process [i] marked as killed, the way pgintr does it. *)
Definition faulted (i : nat) (s : kstate) : kstate :=
  set_ptable (upd_procs i (fun p => with_killed (Z.lor (p_killed p) 1) p) (k_ptable s)) s.

(** A page directory in order: the directory and its page tables are different
    pages, none of them on the free list [l]. *)
Record pgdir_ok (m : memory) (pgdir : Z) (l : list Z) : Prop := mk_pgdir_ok {
  pd_page : is_page pgdir;
  pd_free : pgdir ∉ l;
  pd_table : forall i t, 0 <= i < 1024 -> table_at m pgdir i = Some t -> is_page t /\ (t ∉ l) /\ t <> pgdir;
  pd_inj : forall i j t, 0 <= i < 1024 -> 0 <= j < 1024 ->
    table_at m pgdir i = Some t -> table_at m pgdir j = Some t -> i = j }.

Lemma PDX_range va : 0 <= PDX va < 1024.
Proof. rewrite PDX_eq. pose proof (u32_range va). split; [apply Z.div_pos; lia|]. apply Z.div_lt_upper_bound; lia. Qed.

Lemma PTX_range va : 0 <= PTX va < 1024.
Proof. rewrite PTX_eq. pose proof (Z.mod_pos_bound (u32 va / 2 ^ 12) (2 ^ 10)). lia. Qed.

Lemma find_pte_table m pgdir va : find_pte m pgdir va = (fun t => t + 4 * PTX va) <$> table_at m pgdir (PDX va).
Proof. unfold find_pte, table_at, pde_at, pte_at. by destruct (_ =? 0). Qed.

(** A store into a page: words elsewhere keep their value. *)
Lemma ld32_outside m m' p a : same_outside p m m' -> a + 4 <= p \/ p + PGSIZE <= a -> ld32 m' a = ld32 m a.
Proof. intros Hs Ha. apply ld32_same. intros i Hi. apply Hs. lia. Qed.

Lemma in_page `{!Image} p q i : is_page p -> is_page q -> p <> q -> 0 <= i < 1024 ->
  q + 4 * i + 4 <= p \/ p + PGSIZE <= q + 4 * i.
Proof. intros Hp Hq Hne Hi. destruct (page_sep p q Hp Hq Hne); change PGSIZE with 4096 in *; lia. Qed.

(** The tables of a directory do not change when another page is written. *)
Lemma table_outside m m' p pgdir i : same_outside p m m' -> is_page p -> is_page pgdir -> p <> pgdir -> 0 <= i < 1024 ->
  table_at m' pgdir i = table_at m pgdir i.
Proof. intros Hs Hp Hd Hne Hi. unfold table_at. by rewrite (ld32_outside m m' p) by (done || by apply in_page). Qed.

Lemma pte_outside m m' p pgdir l va : same_outside p m m' -> is_page p -> pgdir_ok m pgdir l -> p <> pgdir ->
  (forall i, 0 <= i < 1024 -> table_at m pgdir i <> Some p) -> pte_val m' pgdir va = pte_val m pgdir va.
Proof.
  intros Hs Hp [Hd _ Ht _] Hne Hnt. unfold pte_val. pose proof (PDX_range va). pose proof (PTX_range va).
  rewrite (table_outside m m' p) by done. destruct (table_at m pgdir (PDX va)) as [t|] eqn:E; [|done].
  destruct (Ht (PDX va) t (PDX_range va) E) as (Hpt & _). apply (ld32_outside m m' p); [done|]. apply in_page; try done.
  intros ->. exact (Hnt _ (PDX_range va) E).
Qed.

(** ** The walk that creates page tables *)
Definition new_pde (pg : Z) : Z := Z.lor (Z.lor (Z.lor (V2P pg) PTE_P) PTE_W) PTE_U.

Lemma new_pde_table pg : is_page pg -> Z.land (new_pde pg) PTE_P <> 0 /\ P2V (PTE_ADDR (new_pde pg)) = pg /\ 0 <= new_pde pg < 2 ^ 32.
Proof.
  intros Hp. destruct (page_kernel pg Hp) as (Hk & Hr & HV). destruct Hp as [Ha [_ Hhi]]. unfold new_pde. rewrite HV.
  set (x := pg - KERNBASE).
  assert (Hx : 0 <= x < 2 ^ 31 /\ x mod 4096 = 0).
  { unfold x. unfold KERNBASE, PHYSTOP in *. change PGSIZE with 4096 in Ha. split; [lia|zdiv]. }
  rewrite <- !Z.lor_assoc. change (Z.lor PTE_P (Z.lor PTE_W PTE_U)) with 7.
  assert (E : Z.lor x 7 = x + 7).
  { replace x with (x / 4096 * 2 ^ 12) by zdiv. apply lor_disjoint; lia. }
  rewrite E. split; [|split].
  - change PTE_P with (2 ^ 0). rewrite land_bit by lia. assert (Z.testbit (x + 7) 0 = true) as ->; [|done].
    rewrite <- E, Z.lor_spec. apply orb_true_r.
  - rewrite PTE_ADDR_eq. change PGSIZE with 4096. rewrite u32_small by lia.
    replace ((x + 7) / 4096) with (x / 4096) by zdiv. unfold P2V. rewrite u32_small; unfold x, KERNBASE in *; zdiv.
  - lia.
Qed.

(** The memory after a new page table [pg] was put in the directory for [va]. *)
Definition add_table (m : memory) (pgdir va pg : Z) : memory :=
  st32 (memset m pg 0 PGSIZE) (pde_at pgdir va) (new_pde pg).

Lemma memset_outside m p c : same_outside p m (memset m p c PGSIZE).
Proof. intros a Ha. rewrite memset_spec by done. by rewrite decide_False. Qed.

Lemma st32_outside m p a v : p <= a -> a + 4 <= p + PGSIZE -> same_outside p m (st32 m a v).
Proof. intros H1 H2 b Hb. rewrite ldb_st32. by rewrite decide_False by lia. Qed.

Lemma ld32_zeroed m p i : 0 <= i < 1024 -> ld32 (memset m p 0 PGSIZE) (p + 4 * i) = 0.
Proof.
  intros Hi. unfold ld32. rewrite !memset_spec by done. change PGSIZE with 4096.
  repeat (rewrite decide_True by lia). done.
Qed.

Lemma add_table_table m pgdir va pg l i : pgdir_ok m pgdir l -> is_page pg -> pg <> pgdir -> 0 <= i < 1024 ->
  table_at (add_table m pgdir va pg) pgdir i = if decide (i = PDX va) then Some pg else table_at m pgdir i.
Proof.
  intros [Hd _ _ _] Hp Hne Hi. pose proof (PDX_range va). unfold table_at, add_table, pde_at. case_decide as E.
  - subst i. rewrite ld32_st32_eq. destruct (new_pde_table pg Hp) as (Hz & Ht & Hr). rewrite u32_small by done.
    rewrite (proj2 (Z.eqb_neq _ _)) by done. by rewrite Ht.
  - rewrite ld32_st32_ne by lia. by rewrite (ld32_outside m _ pg) by (apply memset_outside || by apply in_page).
Qed.

Lemma add_table_pte m pgdir va pg l va' : pgdir_ok m pgdir l -> pg ∈ l -> is_page pg -> table_at m pgdir (PDX va) = None ->
  pte_val (add_table m pgdir va pg) pgdir va' = pte_val m pgdir va'.
Proof.
  intros Hok Hl Hp Hn. destruct (Hok) as [Hd Hdl Ht _]. assert (Hne : pg <> pgdir) by (intros ->; done).
  pose proof (PDX_range va) as Hr. pose proof (PDX_range va') as Hr'. pose proof (PTX_range va') as Hx'. unfold pte_val.
  rewrite (add_table_table m pgdir va pg l) by done. case_decide as E.
  - rewrite E, Hn. unfold add_table, pde_at. rewrite ld32_st32_ne; [by apply ld32_zeroed|].
    destruct (page_sep pg pgdir Hp Hd Hne); change PGSIZE with 4096 in *; lia.
  - destruct (table_at m pgdir (PDX va')) as [t|] eqn:Et; [|done]. destruct (Ht _ t Hr' Et) as (Hpt & Htl & Htd).
    assert (Htp : pg <> t) by (intros ->; done). unfold add_table, pde_at. rewrite ld32_st32_ne.
    + by apply (ld32_outside m _ pg); [apply memset_outside|apply in_page].
    + destruct (page_sep t pgdir Hpt Hd Htd); change PGSIZE with 4096 in *; lia.
Qed.

Lemma add_table_ok m pgdir va pg l : pgdir_ok m pgdir (pg :: l) -> is_page pg -> (pg ∉ l) -> table_at m pgdir (PDX va) = None ->
  pgdir_ok (add_table m pgdir va pg) pgdir l.
Proof.
  intros Hok Hp Hn Hno. destruct (Hok) as [Hd Hdl Ht Hi]. apply not_elem_of_cons in Hdl as [Hdp Hdl].
  assert (Ht' : forall i t, 0 <= i < 1024 -> table_at m pgdir i = Some t -> is_page t /\ (t ∉ l) /\ t <> pgdir /\ t <> pg).
  { intros i t Hir Hit. destruct (Ht i t Hir Hit) as (? & [? ?]%not_elem_of_cons & ?). done. }
  split; [done|done| |].
  - intros i t Hir. rewrite (add_table_table m pgdir va pg (pg :: l)) by done. case_decide; [|intros Hit; by destruct (Ht' i t Hir Hit) as (? & ? & ? & _)].
    intros [= <-]. done.
  - intros i j t Hir Hjr. rewrite !(add_table_table m pgdir va pg (pg :: l)) by done. repeat case_decide; subst; try done.
    + intros [= <-] Hjt. destruct (Ht' j pg Hjr Hjt) as (_ & _ & _ & ?). done.
    + intros Hit [= <-]. destruct (Ht' i pg Hir Hit) as (_ & _ & _ & ?). done.
    + by apply Hi.
Qed.

Lemma linked_add m h l pgdir va pg : pgdir_ok m pgdir (pg :: l) -> Forall is_page (pg :: l) -> (pg ∉ l) ->
  linked m h l -> linked (add_table m pgdir va pg) h l.
Proof.
  intros [Hd Hdl _ _] [Hp Hl]%Forall_cons_iff Hn Hlk. apply not_elem_of_cons in Hdl as [Hdp Hdl]. pose proof (PDX_range va).
  apply (linked_outside (memset m pg 0 PGSIZE) _ pgdir); try done.
  - apply st32_outside; unfold pde_at; change PGSIZE with 4096; lia.
  - by apply (linked_outside m _ pg l h (memset_outside m pg 0)).
Qed.

(** The pages that belong to the directory or to the free list [l]. *)
Definition owned (m : memory) (pgdir : Z) (l : list Z) (p : Z) : Prop :=
  p ∈ l \/ p = pgdir \/ exists i, 0 <= i < 1024 /\ table_at m pgdir i = Some p.

(** From [m] and [l] to [m'] and [l']: the memory outside these pages keeps its contents,
    and no page is added. *)
Definition keeps (pgdir : Z) (m : memory) (l : list Z) (m' : memory) (l' : list Z) : Prop :=
  (forall a, (forall p, owned m pgdir l p -> ~ (p <= a < p + PGSIZE)) -> ldb m' a = ldb m a) /\
  (forall p, owned m' pgdir l' p -> owned m pgdir l p) /\ l' ⊆ l.

Lemma keeps_refl pgdir m l : keeps pgdir m l m l.
Proof. done. Qed.

Lemma keeps_trans pgdir m l m1 l1 m2 l2 : keeps pgdir m l m1 l1 -> keeps pgdir m1 l1 m2 l2 -> keeps pgdir m l m2 l2.
Proof.
  intros (H1 & H2 & H3') (H3 & H4 & H4'). split; [|split; [by auto|by etrans]]. intros a Ha. rewrite H3 by (intros p Hp; by apply Ha, H2). by apply H1.
Qed.

Lemma add_table_keeps m pgdir va pg l : pgdir_ok m pgdir (pg :: l) -> is_page pg -> pg <> pgdir ->
  keeps pgdir m (pg :: l) (add_table m pgdir va pg) l.
Proof.
  intros Hok Hp Hpd. destruct (Hok) as [Hd _ _ _]. pose proof (PDX_range va). split; [|split; [|by apply list_subseteq_cons]].
  - intros a Ha. unfold add_table, pde_at. rewrite (st32_outside _ pgdir) by (change PGSIZE with 4096; try lia; apply Ha; right; by left).
    apply memset_outside, Ha. left. by left.
  - intros q [Hq|[->|(i & Hi & Ht)]]; [left; by right|right; by left|]. rewrite (add_table_table m pgdir va pg (pg :: l)) in Ht by done.
    case_decide; [simplify_eq; left; by left|]. right. right. by exists i.
Qed.

(** The page tables of [D] that are still to be made. *)
Definition missing (m : memory) (pgdir : Z) (D : list Z) : nat := length (filter (fun i => table_at m pgdir i = None) D).

Lemma missing_ext m m' pgdir D : Forall (fun j => 0 <= j < 1024) D -> (forall j, 0 <= j < 1024 -> table_at m' pgdir j = table_at m pgdir j) ->
  missing m' pgdir D = missing m pgdir D.
Proof.
  intros HD He. unfold missing. induction HD as [|j D Hj HD IH]; [done|]. rewrite !filter_cons, (He j Hj). by case_decide; simpl; rewrite IH.
Qed.

(** The walk found a table, or took the first free page for it. *)
Definition table_made (m : memory) (pgdir i : Z) (l : list Z) (m' : memory) (l' : list Z) : Prop :=
  (table_at m pgdir i <> None /\ m' = m /\ l' = l) \/
  (table_at m pgdir i = None /\ exists pg, l = pg :: l' /\
    forall j, 0 <= j < 1024 -> table_at m' pgdir j = if decide (j = i) then Some pg else table_at m pgdir j).

Lemma missing_made m pgdir i l m' l' D : table_made m pgdir i l m' l' -> i ∈ D -> NoDup D -> Forall (fun j => 0 <= j < 1024) D ->
  (length l' + missing m pgdir D = length l + missing m' pgdir D)%nat.
Proof.
  intros [(_ & -> & ->)|(Hn & pg & -> & Ht)] Hi Hnd HD; [done|]. simpl.
  assert (E : missing m pgdir D = S (missing m' pgdir D)); [|lia]. unfold missing.
  assert (Hp : filter (fun i => table_at m pgdir i = None) D ≡ₚ i :: filter (fun i => table_at m' pgdir i = None) D).
  { apply NoDup_Permutation; [by apply list.NoDup_filter| |].
    - apply list.NoDup_cons. split; [|by apply list.NoDup_filter]. rewrite list_elem_of_filter. intros [Hc _].
      rewrite list.Forall_forall in HD. rewrite (Ht i) in Hc by (by apply HD). by rewrite decide_True in Hc.
    - intros j. rewrite elem_of_cons, !list_elem_of_filter. rewrite list.Forall_forall in HD. split.
      + intros [Hj HjD]. destruct (decide (j = i)) as [->|Hne]; [by left|]. right. split; [|done]. rewrite Ht by (by apply HD). by rewrite decide_False.
      + intros [->|[Hj HjD]]; [done|]. rewrite Ht in Hj by (by apply HD). by case_decide. }
  by rewrite Hp.
Qed.

(** walkpgdir with allocation: the entry's address, in a state with the same mappings. *)
Lemma walk_alloc s l pgdir va :
  may_alloc s -> free_ok s l -> pgdir_ok (k_mem s) pgdir l ->
  (table_at (k_mem s) pgdir (PDX va) = None -> l <> []) ->
  exists t m' f l', walkpgdir kalloc pgdir va true s = Ok (t + 4 * PTX va) (alloc_state f m' s) /\
    table_at m' pgdir (PDX va) = Some t /\ free_ok (alloc_state f m' s) l' /\ pgdir_ok m' pgdir l' /\
    (forall va', pte_val m' pgdir va' = pte_val (k_mem s) pgdir va') /\
    table_made (k_mem s) pgdir (PDX va) l m' l' /\ keeps pgdir (k_mem s) l m' l'.
Proof.
  intros Hc Hf Hok Hno. destruct (Hok) as [Hd _ _ _]. destruct (page_kernel pgdir Hd) as (Hdk & Hdr & _). pose proof (PDX_range va) as Hr.
  unfold walkpgdir. rewrite (bind_ok _ _ _ _ _ (vld32_kernel (pde_at pgdir va) s ltac:(unfold pde_at; lia))).
  destruct (table_at (k_mem s) pgdir (PDX va)) as [t|] eqn:Et.
  - exists t, (k_mem s), (freelist (k_kmem s)), l. rewrite alloc_state_id. pose proof Et as Et'. unfold table_at in Et'. fold (pde_at pgdir va) in Et'.
    destruct (_ =? 0); [done|]. injection Et' as Et'. cbn [negb]. rewrite Et'. split; [done|]. split; [done|]. split; [done|]. split; [done|]. split; [done|].
    split; [left; by rewrite Et|apply keeps_refl].
  - destruct l as [|pg l]; [by destruct Hno|]. unfold table_at in Et. fold (pde_at pgdir va) in Et.
    destruct (_ =? 0) eqn:E0; [|done]. cbn [negb]. clear Et. assert (Et : table_at (k_mem s) pgdir (PDX va) = None).
    { unfold table_at. fold (pde_at pgdir va). by rewrite E0. }
    destruct (Hf) as [Hps Hnd [Hh Hlk]]. pose proof (Hps) as Hps'. apply Forall_cons_iff in Hps' as [Hp Hpl].
    apply list.NoDup_cons in Hnd as [Hn Hnd]. destruct (page_kernel pg Hp) as (Hk & Hpr & _).
    rewrite (bind_ok _ _ _ _ _ (kalloc_run s pg l Hc Hf)), (proj2 (Z.eqb_neq _ _)) by lia.
    unfold upd_mem. erewrite bind_ok by reflexivity.
    rewrite (bind_ok _ _ _ _ _ (vst32_kernel (pde_at pgdir va) _ (set_mem _ _) ltac:(unfold pde_at; lia))).
    exists pg, (add_table (k_mem s) pgdir va pg), (ld32 (k_mem s) pg), l.
    assert (Hpd : pg <> pgdir) by (intros ->; destruct Hok as [_ Hfr _ _]; by apply not_elem_of_cons in Hfr as [? _]).
    pose proof (fun i => add_table_table (k_mem s) pgdir va pg (pg :: l) i Hok Hp Hpd) as Ht.
    split; [by destruct s|]. split; [rewrite Ht by done; by rewrite decide_True|]. split; [|split; [|split; [|split]]].
    + split; [done|done|]. cbn. by apply linked_add.
    + by apply add_table_ok.
    + intros va'. by apply (add_table_pte _ _ _ _ (pg :: l)); [|apply list_elem_of_here| |].
    + right. split; [done|]. exists pg. split; [done|]. exact Ht.
    + by apply add_table_keeps.
Qed.

(** ** Installing a mapping *)
Definition new_pte (pa perm : Z) : Z := Z.lor (Z.lor pa perm) PTE_P.

(** The list of user pages is as lru_insert leaves it. *)
Definition lru_ok (s : kstate) : Prop :=
  (0 < length (pages (k_kmem s)))%nat /\ (page_lru_head (k_kmem s) = None \/ one_page s).

Lemma lru_insert_any s pgdir va mask : lru_ok s ->
  exists k', lru_insert pgdir va mask s = Ok tt (set_kmem k' s) /\ lru_ok (set_kmem k' s) /\
    freelist k' = freelist (k_kmem s) /\ use_lock k' = use_lock (k_kmem s) /\ (mask = 0 -> k' = k_kmem s).
Proof.
  intros [Hl Hs]. destruct (Z.eq_dec mask 0) as [->|Hm].
  - exists (k_kmem s). split; [by destruct s|]. by destruct s.
  - destruct (lru_insert_run s pgdir va mask Hm Hl Hs) as (k' & R & Ho & _ & Hf & Hu & _). exists k'. split; [done|].
    split; [|done]. split; [|by right]. destruct Ho as (_ & x & Hx & _). by eapply lookup_lt_Some.
Qed.

Lemma pte_val_store m pgdir va t l v va' : pgdir_ok m pgdir l -> table_at m pgdir (PDX va) = Some t ->
  pte_val (st32 m (t + 4 * PTX va) v) pgdir va' =
  if decide (PDX va' = PDX va /\ PTX va' = PTX va) then u32 v else pte_val m pgdir va'.
Proof.
  intros [Hd _ Ht Hi] Et. pose proof (PDX_range va) as Hr. pose proof (PTX_range va) as Hx.
  pose proof (PDX_range va') as Hr'. pose proof (PTX_range va') as Hx'. destruct (Ht _ t Hr Et) as (Hpt & _ & Htd).
  assert (Hout : same_outside t m (st32 m (t + 4 * PTX va) v)) by (apply st32_outside; change PGSIZE with 4096; lia).
  unfold pte_val. rewrite (table_outside m _ t) by done. destruct (table_at m pgdir (PDX va')) as [t'|] eqn:Et'.
  - destruct (Ht _ t' Hr' Et') as (Hpt' & _ & Htd'). case_decide as E.
    + destruct E as [E1 E2]. rewrite E1, Et in Et'. simplify_eq. rewrite E2. apply ld32_st32_eq.
    + destruct (Z.eq_dec t' t) as [->|Hne]; [|by apply (ld32_outside m _ t); [done|apply in_page; congruence]].
      assert (PDX va' = PDX va) by (by eapply (Hi _ _ t)). apply ld32_st32_ne.
      destruct (Z.eq_dec (PTX va') (PTX va)); [tauto|lia].
  - rewrite decide_False; [done|]. intros [E _]. rewrite E, Et in Et'. done.
Qed.

Lemma pgdir_ok_store m pgdir va t l v : pgdir_ok m pgdir l -> table_at m pgdir (PDX va) = Some t ->
  pgdir_ok (st32 m (t + 4 * PTX va) v) pgdir l.
Proof.
  intros [Hd Hdl Ht Hi] Et. destruct (Ht _ t (PDX_range va) Et) as (Hpt & _ & Htd). pose proof (PTX_range va).
  assert (Hout : same_outside t m (st32 m (t + 4 * PTX va) v)) by (apply st32_outside; change PGSIZE with 4096; lia).
  split; [done|done| |].
  - intros i t' Hir. rewrite (table_outside m _ t) by done. by apply Ht.
  - intros i j t' Hir Hjr. rewrite (table_outside m _ t pgdir i), (table_outside m _ t pgdir j) by done. by apply Hi.
Qed.

Lemma free_ok_store s l m' t : free_ok s l -> is_page t -> (t ∉ l) -> same_outside t (k_mem s) m' -> free_ok (set_mem m' s) l.
Proof.
  intros [Hp Hnd Hlk] Ht Hn Hs. split; [done|done|]. cbn. by apply (linked_outside (k_mem s) _ t).
Qed.

Lemma store_keeps m m' pgdir i t l : pgdir_ok m pgdir l -> 0 <= i < 1024 -> table_at m pgdir i = Some t -> same_outside t m m' -> keeps pgdir m l m' l.
Proof.
  intros Hok Hi Et Hs. destruct (Hok) as [Hd _ Ht _]. destruct (Ht i t Hi Et) as (Hpt & _ & Htd). split; [|split; [|done]].
  - intros a Ha. apply Hs, Ha. right. right. by exists i.
  - intros p [Hp|[->|(j & Hj & Hjt)]]; [by left|right; by left|]. rewrite (table_outside m m' t) in Hjt by done. right. right. by exists j.
Qed.

(** One step of mappages, for a page that is not mapped yet. *)
Lemma map_one s l pgdir va a pa perm fuel last :
  may_alloc s -> free_ok s l -> pgdir_ok (k_mem s) pgdir l -> lru_ok s ->
  (table_at (k_mem s) pgdir (PDX a) = None -> l <> []) -> Z.land (pte_val (k_mem s) pgdir a) PTE_P = 0 ->
  exists k' m' l', let s' := set_kmem k' (set_mem m' s) in
    mappages_loop (S fuel) pgdir va a last pa perm s =
      (if a =? last then ret 0 else mappages_loop fuel pgdir va (u32 (a + PGSIZE)) last (u32 (pa + PGSIZE)) perm) s' /\
    use_lock k' = use_lock (k_kmem s) /\ (Z.land (u32 (new_pte pa perm)) PTE_U = 0 -> k' = with_freelist (freelist k') (k_kmem s)) /\
    free_ok s' l' /\ pgdir_ok m' pgdir l' /\ lru_ok s' /\
    (forall va', pte_val m' pgdir va' =
      if decide (PDX va' = PDX a /\ PTX va' = PTX a) then u32 (new_pte pa perm) else pte_val (k_mem s) pgdir va') /\
    keeps pgdir (k_mem s) l m' l' /\
    (forall D, PDX a ∈ D -> NoDup D -> Forall (fun j => 0 <= j < 1024) D -> (length l' + missing (k_mem s) pgdir D = length l + missing m' pgdir D)%nat).
Proof.
  intros Hc Hf Hok Hlru Hno Hnp. cbn [mappages_loop].
  destruct (walk_alloc s l pgdir a Hc Hf Hok Hno) as (t & m1 & f1 & l1 & R1 & Et & Hf1 & Hok1 & Hsame & Hmade & Hkeep).
  rewrite (bind_ok _ _ _ _ _ R1). set (s1 := alloc_state f1 m1 s) in *.
  pose proof (PDX_range a) as Hr. pose proof (PTX_range a) as Hx. destruct (pd_table _ _ _ Hok1 _ t Hr Et) as (Hpt & Htl & Htd).
  destruct (page_kernel t Hpt) as (Htk & Htr & _). set (pte := t + 4 * PTX a) in *.
  assert (Hpk : KERNBASE <= pte) by (unfold pte; lia). rewrite (proj2 (Z.eqb_neq pte 0)) by (unfold KERNBASE in *; lia).
  rewrite (bind_ok _ _ _ _ _ (vld32_kernel pte s1 Hpk)).
  assert (Hv : ld32 (k_mem s1) pte = pte_val (k_mem s) pgdir a) by (rewrite <- Hsame; unfold pte_val; by rewrite Et).
  rewrite Hv, Hnp. cbn [Z.eqb negb]. rewrite (bind_ok _ _ _ _ _ (vst32_kernel pte _ s1 Hpk)). set (s2 := set_mem _ s1).
  rewrite (bind_ok _ _ _ _ _ (vld32_kernel pte s2 Hpk)).
  assert (Hld : ld32 (k_mem s2) pte = u32 (new_pte pa perm)) by apply ld32_st32_eq. rewrite Hld.
  destruct (lru_insert_any s2 pgdir va (Z.land (u32 (new_pte pa perm)) PTE_U) Hlru) as (k3 & R3 & Hlru3 & Hfl & Hul & Hk3).
  rewrite (bind_ok _ _ _ _ _ R3). exists k3, (k_mem s2), l1.
  assert (Hout : same_outside t m1 (k_mem s2)) by (unfold s2, pte; apply st32_outside; change PGSIZE with 4096; lia).
  assert (Hf2 : free_ok s2 l1) by (by apply (free_ok_store s1 l1 _ t)).
  split; [done|]. split; [done|]. split; [intros E; by rewrite (Hk3 E)|]. split; [|split; [|split; [done|split; [|split]]]].
  - destruct Hf2 as [? ? Hlk]. split; [done|done|]. cbn [k_kmem set_kmem k_mem]. by rewrite Hfl.
  - by apply pgdir_ok_store.
  - intros va'. unfold s2. cbn [k_mem set_mem]. unfold pte. rewrite (pte_val_store m1 pgdir a t l1) by done. case_decide; [done|]. apply Hsame.
  - apply (keeps_trans _ _ _ m1 l1); [done|]. by apply (store_keeps m1 _ pgdir (PDX a) t l1).
  - intros D Ha HD Hrg. rewrite (missing_made _ _ _ _ _ _ _ Hmade Ha HD Hrg).
    f_equal. symmetry. apply missing_ext; [done|]. intros j Hj. apply (table_outside m1 _ t); try done. apply Hok1.
Qed.

(** Pages by their number. *)
Lemma same_page_div va va' : 0 <= va < 2 ^ 32 -> 0 <= va' < 2 ^ 32 -> same_page va va' <-> va / PGSIZE = va' / PGSIZE.
Proof.
  intros Hv Hv'. unfold same_page. rewrite !PDX_eq, !PTX_eq, !u32_small by done. change PGSIZE with 4096. change (2 ^ 22) with (4096 * 1024).
  rewrite <- !Z.div_div by lia. change (2 ^ 12) with 4096. change (2 ^ 10) with 1024. split; intros H; [zdiv|by rewrite H].
Qed.

Lemma new_pte_user pa perm : pa mod PGSIZE = 0 -> Z.land perm PTE_U = 0 -> Z.land (u32 (new_pte pa perm)) PTE_U = 0.
Proof.
  intros Ha Hp. unfold new_pte, u32. change PTE_U with (2 ^ 2) in *. rewrite land_bit in * by lia. change PTE_P with 1.
  assert (E : Z.testbit (Z.lor (Z.lor pa perm) 1 mod 2 ^ 32) 2 = Z.testbit perm 2).
  { rewrite Z.mod_pow2_bits_low by lia. rewrite !Z.lor_spec. rewrite (Z.mod_divide pa PGSIZE) in Ha by done. destruct Ha as [q ->].
    change PGSIZE with (2 ^ 12). rewrite Z.mul_pow2_bits_low by lia. by rewrite orb_false_r. }
  rewrite E. by destruct (Z.testbit perm 2).
Qed.

(** What mapping the pages from [a] on changes: the entries of [n] pages, the free list
    and, for user pages, the list of user pages. *)
Record pages_mapped (pgdir a : Z) (n : nat) (pa perm : Z) (s : kstate) (l : list Z) (k' : kmem) (m' : memory) (l' : list Z) : Prop := mk_pages_mapped {
  mp_lock : use_lock k' = use_lock (k_kmem s);
  mp_kmem : Z.land perm PTE_U = 0 -> k' = with_freelist (freelist k') (k_kmem s);
  mp_free : free_ok (set_kmem k' (set_mem m' s)) l';
  mp_pgdir : pgdir_ok m' pgdir l';
  mp_lru : lru_ok (set_kmem k' (set_mem m' s));
  mp_pte : forall va, 0 <= va < 2 ^ 32 -> pte_val m' pgdir va =
    if decide (a <= va < a + Z.of_nat n * PGSIZE) then u32 (new_pte (u32 (pa + (va - a) / PGSIZE * PGSIZE)) perm) else pte_val (k_mem s) pgdir va;
  mp_keeps : keeps pgdir (k_mem s) l m' l';
  mp_missing : forall D, (forall va, a <= va < a + Z.of_nat n * PGSIZE -> PDX va ∈ D) -> NoDup D -> Forall (fun j => 0 <= j < 1024) D ->
    (length l' + missing (k_mem s) pgdir D = length l + missing m' pgdir D)%nat }.

(** There are free pages for the page tables of [n] pages from [a] on. *)
Definition table_room (m : memory) (pgdir a : Z) (n : nat) (l : list Z) : Prop :=
  exists D, (forall va, a <= va < a + Z.of_nat n * PGSIZE -> PDX va ∈ D) /\ NoDup D /\ Forall (fun j => 0 <= j < 1024) D /\
    (missing m pgdir D <= length l)%nat.

Lemma room_table m pgdir a n l : table_room m pgdir a (S n) l -> table_at m pgdir (PDX a) = None -> l <> [].
Proof.
  intros (D & HD & Hnd & _ & Hm) Hn ->. simpl in Hm. assert (Hin : PDX a ∈ filter (fun i => table_at m pgdir i = None) D).
  { apply list_elem_of_filter. split; [done|]. apply HD. change PGSIZE with 4096. lia. }
  unfold missing in Hm. destruct (filter _ D); [by apply elem_of_nil in Hin|simpl in Hm; lia].
Qed.

Lemma mapped_one s l pgdir va a pa perm fuel last :
  may_alloc s -> free_ok s l -> pgdir_ok (k_mem s) pgdir l -> lru_ok s ->
  0 <= a < 2 ^ 32 -> a mod PGSIZE = 0 -> 0 <= pa < 2 ^ 32 -> pa mod PGSIZE = 0 -> (table_at (k_mem s) pgdir (PDX a) = None -> l <> []) ->
  Z.land (pte_val (k_mem s) pgdir a) PTE_P = 0 ->
  exists k' m' l', mappages_loop (S fuel) pgdir va a last pa perm s =
      (if a =? last then ret 0 else mappages_loop fuel pgdir va (u32 (a + PGSIZE)) last (u32 (pa + PGSIZE)) perm) (set_kmem k' (set_mem m' s)) /\
    pages_mapped pgdir a 1 pa perm s l k' m' l'.
Proof.
  intros Hc Hf Hok Hlru Hr Ha Hpa Hpam Hno Hnp.
  destruct (map_one s l pgdir va a pa perm fuel last Hc Hf Hok Hlru Hno Hnp) as (k1 & m1 & l1 & R & Hu & Hk & Hf1 & Hok1 & Hlru1 & Hv1 & Hkp & Hms).
  exists k1, m1, l1. split; [done|]. split; try done.
  - intros Hp. apply Hk. by apply new_pte_user.
  - intros va' Hv'. rewrite Hv1. pose proof (same_page_div va' a Hv' Hr) as Hd. unfold same_page in Hd. change PGSIZE with 4096 in *.
    case_decide as E1; case_decide as E2; try done.
    + rewrite Z.div_small, Z.mul_0_l, Z.add_0_r, (u32_small pa) by lia. done.
    + exfalso. apply E2. apply Hd in E1. zdiv.
    + exfalso. apply E1. apply Hd. zdiv.
  - intros D HD. apply Hms, HD. change PGSIZE with 4096. lia.
Qed.

Lemma mapped_cons pgdir a n pa perm s l k1 m1 l1 k2 m2 l2 :
  a + Z.of_nat (S n) * PGSIZE <= 2 ^ 32 -> 0 <= a ->
  pages_mapped pgdir a 1 pa perm s l k1 m1 l1 -> pages_mapped pgdir (a + PGSIZE) n (u32 (pa + PGSIZE)) perm (set_kmem k1 (set_mem m1 s)) l1 k2 m2 l2 ->
  pages_mapped pgdir a (S n) pa perm s l k2 m2 l2.
Proof.
  intros Hend Ha [U1 K1 F1 O1 L1 V1 P1 M1] [U2 K2 F2 O2 L2 V2 P2 M2]. split; try done.
  - rewrite U2. exact U1.
  - intros Hp. rewrite (K2 Hp). cbn. by rewrite (K1 Hp).
  - intros va Hva. rewrite (V2 va Hva). cbn [k_mem set_kmem set_mem]. rewrite (V1 va Hva). change PGSIZE with 4096 in *. repeat case_decide; try done; try lia.
    f_equal. f_equal. unfold u32. rewrite Zplus_mod_idemp_l. f_equal. zdiv.
  - by apply (keeps_trans _ _ _ m1 l1).
  - intros D HD Hnd Hr. change PGSIZE with 4096 in *. cbn [k_mem set_kmem set_mem] in M2.
    assert (E1 := M1 D ltac:(intros; apply HD; lia) Hnd Hr). assert (E2 := M2 D ltac:(intros; apply HD; lia) Hnd Hr). lia.
Qed.

(** Mapping [n] pages. *)
Lemma mappages_loop_spec n : forall s l pgdir va a pa perm,
  may_alloc s -> free_ok s l -> pgdir_ok (k_mem s) pgdir l -> lru_ok s ->
  0 <= a -> a mod PGSIZE = 0 -> a + Z.of_nat (S n) * PGSIZE <= 2 ^ 32 -> 0 <= pa < 2 ^ 32 -> pa mod PGSIZE = 0 -> table_room (k_mem s) pgdir a (S n) l ->
  (forall va, a <= va < a + Z.of_nat (S n) * PGSIZE -> Z.land (pte_val (k_mem s) pgdir va) PTE_P = 0) ->
  exists k' m' l', mappages_loop (S n) pgdir va a (a + Z.of_nat n * PGSIZE) pa perm s = Ok 0 (set_kmem k' (set_mem m' s)) /\
    pages_mapped pgdir a (S n) pa perm s l k' m' l'.
Proof.
  induction n as [|n IH]; intros s l pgdir va a pa perm Hc Hf Hok Hlru Ha0 Ha Hend Hpa Hpam Hroom Hnp; change PGSIZE with 4096 in *.
  - destruct (mapped_one s l pgdir va a pa perm 0 (a + Z.of_nat 0 * 4096)) as (k1 & m1 & l1 & R & M1); try done; try lia.
    { by eapply room_table. } { apply Hnp. lia. }
    change (Z.of_nat 0 * 4096) with 0 in *. rewrite Z.add_0_r in *. rewrite Z.eqb_refl in R. by exists k1, m1, l1.
  - destruct (mapped_one s l pgdir va a pa perm (S n) (a + Z.of_nat (S n) * 4096)) as (k1 & m1 & l1 & R & M1); try done; try lia.
    { by eapply room_table. } { apply Hnp. lia. }
    rewrite (proj2 (Z.eqb_neq a _)) in R by lia. change PGSIZE with 4096 in R. rewrite (u32_small (a + 4096)) in R by lia. pose proof (u32_range (pa + 4096)).
    destruct (IH (set_kmem k1 (set_mem m1 s)) l1 pgdir va (a + 4096) (u32 (pa + 4096)) perm) as (k2 & m2 & l2 & R2 & M2); try done; try apply M1; try lia.
    + apply (may_alloc_frame s); [done|done|apply M1].
    + zdiv.
    + unfold u32. zdiv.
    + destruct Hroom as (D & HD & Hnd & Hr & Hm). exists D. split; [intros; apply HD; change PGSIZE with 4096 in *; lia|]. split; [done|]. split; [done|].
      assert (E := mp_missing _ _ _ _ _ _ _ _ _ _ M1 D ltac:(intros; apply HD; change PGSIZE with 4096 in *; lia) Hnd Hr). cbn [k_mem set_kmem set_mem]. lia.
    + intros va' Hv'. cbn [k_mem set_mem set_kmem]. rewrite (mp_pte _ _ _ _ _ _ _ _ _ _ M1) by lia. change PGSIZE with 4096. rewrite decide_False by lia.
      apply Hnp. lia.
    + exists k2, m2, l2. split; [|by apply (mapped_cons _ _ _ _ _ _ _ k1 m1 l1)].
      rewrite R. replace (a + Z.of_nat (S n) * 4096) with (a + 4096 + Z.of_nat n * 4096) by lia. exact R2.
Qed.

(** The number of pages of a region. *)
Definition region_pages (va size : Z) : nat := S (Z.to_nat ((PGROUNDDOWN (va + size - 1) - PGROUNDDOWN va) / PGSIZE)).

Lemma region_bounds va size : 0 <= va -> 0 < size -> va + size <= 2 ^ 32 ->
  0 <= PGROUNDDOWN va <= va /\ PGROUNDDOWN va mod PGSIZE = 0 /\
  PGROUNDDOWN (va + size - 1) = PGROUNDDOWN va + Z.of_nat (pred (region_pages va size)) * PGSIZE /\
  va + size <= PGROUNDDOWN va + Z.of_nat (region_pages va size) * PGSIZE <= 2 ^ 32.
Proof.
  intros Hv Hs He. unfold region_pages. cbn [pred]. rewrite !PGROUNDDOWN_eq, !u32_small by lia. change PGSIZE with 4096. zdiv.
Qed.

Lemma mappages_run s l pgdir va size pa perm :
  may_alloc s -> free_ok s l -> pgdir_ok (k_mem s) pgdir l -> lru_ok s ->
  0 <= va -> 0 < size -> va + size <= 2 ^ 32 -> 0 <= pa < 2 ^ 32 -> pa mod PGSIZE = 0 ->
  table_room (k_mem s) pgdir (PGROUNDDOWN va) (region_pages va size) l ->
  (forall va', PGROUNDDOWN va <= va' < PGROUNDDOWN va + Z.of_nat (region_pages va size) * PGSIZE -> Z.land (pte_val (k_mem s) pgdir va') PTE_P = 0) ->
  exists k' m' l', mappages pgdir va size pa perm s = Ok 0 (set_kmem k' (set_mem m' s)) /\
    pages_mapped pgdir (PGROUNDDOWN va) (region_pages va size) pa perm s l k' m' l'.
Proof.
  intros Hc Hf Hok Hlru Hv Hs He Hpa Hpam Hroom Hnp. destruct (region_bounds va size Hv Hs He) as (B1 & B2 & B3 & B4). unfold mappages. cbv zeta.
  assert (E : S (Z.to_nat (u32 (PGROUNDDOWN (va + size - 1) - PGROUNDDOWN va) / PGSIZE)) = region_pages va size).
  { unfold region_pages in *. cbn [pred] in *. rewrite u32_small; [done|]. change PGSIZE with 4096 in *. lia. }
  rewrite E, B3. unfold region_pages in *. cbn [pred] in *. apply mappages_loop_spec; try done; lia.
Qed.

(** C23: mappages maps a region.  Given a page directory in order, free pages for the page
    tables that are missing, and a region of which no page is mapped, it succeeds and sets
    the entry of the i-th page to the i-th physical page with the permissions and PTE_P;
    the entries of all other pages, the memory that is neither free nor part of the
    directory, and the order of the directory and of the free list are kept. *)
Theorem mappages_correct s l pgdir va size pa perm :
  may_alloc s -> free_ok s l -> pgdir_ok (k_mem s) pgdir l -> lru_ok s ->
  0 <= va -> 0 < size -> va + size <= 2 ^ 32 -> 0 <= pa < 2 ^ 32 -> pa mod PGSIZE = 0 ->
  table_room (k_mem s) pgdir (PGROUNDDOWN va) (region_pages va size) l ->
  (forall va', PGROUNDDOWN va <= va' < PGROUNDDOWN va + Z.of_nat (region_pages va size) * PGSIZE -> Z.land (pte_val (k_mem s) pgdir va') PTE_P = 0) ->
  exists s' l', mappages pgdir va size pa perm s = Ok 0 s' /\ free_ok s' l' /\ pgdir_ok (k_mem s') pgdir l' /\ keeps pgdir (k_mem s) l (k_mem s') l' /\
    forall va', 0 <= va' < 2 ^ 32 -> pte_val (k_mem s') pgdir va' =
      if decide (PGROUNDDOWN va <= va' < PGROUNDDOWN va + Z.of_nat (region_pages va size) * PGSIZE)
      then u32 (Z.lor (Z.lor (u32 (pa + (va' - PGROUNDDOWN va) / PGSIZE * PGSIZE)) perm) PTE_P) else pte_val (k_mem s) pgdir va'.
Proof.
  intros Hc Hf Hok Hlru Hv Hs He Hpa Hpam Hroom Hnp.
  destruct (mappages_run s l pgdir va size pa perm) as (k' & m' & l' & R & []); try done.
  by exists (set_kmem k' (set_mem m' s)), l'.
Qed.

(** ** What becomes of evicted pages, and of freed ones *)

(** C39: a page fault on an evicted page kills the process.  After the steps reclaim
    applies to the page table entry of its victim, pgintr on that address takes the
    branch for invalid accesses and marks the process as killed; the page is not read
    back. *)
Theorem evicted_page_kills s pgdir va off a i p :
  sync_ok (k_sync s) -> cur_proc (k_sync s) = Some i -> procs (k_ptable s) !! i = Some p -> p_pgdir p = pgdir ->
  pte_ok (k_mem s) pgdir va a -> Z.land (ld32 (k_mem s) a) PTE_SWAP = 0 ->
  exists m', (let! _ := swap_out_pte pgdir va off in pgintr va) s =
    Ok tt (faulted i (set_mem m' s)).
Proof.
  intros Hy Hcur Hi Hpg Hp H0. destruct (swap_out_pte_run s pgdir va off a Hp H0) as (m' & R & Hp' & Hv).
  exists m'. rewrite (bind_ok _ _ _ _ _ R). unfold pgintr.
  assert (Hmy : on_sync myproc (set_mem m' s) = Ok (Some i) (set_mem m' s)).
  { apply on_sync_pure. cbn. rewrite (myproc_cur _ Hy). by rewrite Hcur. }
  rewrite (bind_ok _ _ _ _ _ Hmy). erewrite bind_ok by reflexivity.
  erewrite bind_ok by (unfold get_proc; cbn; rewrite Hi; reflexivity). rewrite Hpg.
  rewrite (bind_ok _ _ _ _ _ (walk_ok (set_mem m' s) _ _ _ Hp')). destruct Hp' as [_ [_ Hk] _].
  rewrite (bind_ok _ _ _ _ _ (vld32_kernel a (set_mem m' s) Hk)). cbn [k_mem set_mem]. rewrite Hv.
  change PTE_SWAP with (2 ^ 8). rewrite shifted_low by lia. done.
Qed.

(** C40: freeing user memory does not end.  When the list of user pages holds only user
    addresses, deallocuvm of a region whose first page is mapped frees the page and
    then searches the list for its kernel address, for ever. *)
Theorem deallocuvm_hangs s pgdir oldsz newsz a x h R :
  may_alloc s -> newsz < oldsz -> PGROUNDUP newsz < oldsz -> pte_ok (k_mem s) pgdir (PGROUNDUP newsz) a ->
  ld32 (k_mem s) a = x -> Z.land x PTE_P <> 0 -> is_page (P2V (PTE_ADDR x)) ->
  page_lru_head (k_kmem s) = Some h -> R h -> user_ring s R ->
  deallocuvm pgdir oldsz newsz s = Hang.
Proof.
  intros Hc Hsz Hlt Hp Hx Hpr Hpg Hh HR Hring. unfold deallocuvm. rewrite (proj2 (Z.leb_gt _ _)) by done.
  destruct (page_kernel _ Hpg) as (Hk & Hr & _). destruct (Hp) as [_ [_ Hka] _].
  assert (Hlru : forall s', k_kmem s' = with_freelist (P2V (PTE_ADDR x)) (k_kmem s) -> lru_delete pgdir (P2V (PTE_ADDR x)) s' = Hang).
  { intros s' Ek. unfold lru_delete, get_kmem. erewrite bind_ok by reflexivity. rewrite Ek. cbn [page_lru_head with_freelist]. rewrite Hh.
    unfold bind. rewrite (lru_find_hangs s' _ R); [done| |done]. intros q Hq. destruct (Hring q Hq) as (y & q' & Hy & Hva & Hn & Hq').
    exists y, q'. rewrite Ek. split; [done|]. split; [lia|done]. }
  unfold bind at 1. assert (Hloop : deallocuvm_loop (S (Z.to_nat (oldsz / PGSIZE))) pgdir (PGROUNDUP newsz) oldsz s = Hang); [|by rewrite Hloop].
  cbn [deallocuvm_loop]. rewrite (proj2 (Z.ltb_lt _ _)) by done.
  rewrite (bind_ok _ _ _ _ _ (walk_ok s _ _ _ Hp)), (proj2 (Z.eqb_neq a 0)) by (unfold KERNBASE in *; lia).
  rewrite (bind_ok _ _ _ _ _ (vld32_kernel a s Hka)), Hx, (proj2 (Z.eqb_neq (Z.land x PTE_P) 0)) by done. cbn [negb].
  assert (Hpa : PTE_ADDR x <> 0).
  { intros E. rewrite E in Hpg. destruct Hpg as [_ [He _]]. pose proof img_order. change (P2V 0) with KERNBASE in He.
    unfold KERNLINK, EXTMEM, KERNBASE in *. lia. }
  rewrite (proj2 (Z.eqb_neq (PTE_ADDR x) 0)) by done.
  assert (Hkf : kfree (P2V (PTE_ADDR x)) s = Ok tt (freed (P2V (PTE_ADDR x)) s)) by (by apply kfree_run).
  unfold bind at 1 2. rewrite Hkf. cbn [obind]. unfold bind. rewrite Hlru by done. done.
Qed.
End vm.
