(* ===== verification/KvmSafe.v ===== *)
(** The page table that setupkvm makes, with which every process starts. *)

From S2P Require Import Prelude Layout CString State Spinlock Sched Mem Sleeplock Ring Memide Bio Log Fs Kalloc KallocSafe Vm VmSafe.
Local Open Scope kernel_scope.

(** The directory entries of the kernel's mappings. *)
Definition kernel_pdes : list Z := seqZ 512 56 ++ seqZ 1016 8.

Section kvm.
Context {drv : Driver} {dsw : DevSw} {im : Image}.

(** The physical address and the permissions of the page of a kernel address: physical
    memory is mapped at KERNBASE, writable but for the kernel's text, and the devices at
    their own addresses. *)
Definition kernel_map (va : Z) : option (Z * Z) :=
  if decide (KERNBASE <= va < KERNBASE + PHYSTOP) then
    Some (PGROUNDDOWN va - KERNBASE, if decide (KERNLINK <= va < img_data) then 0 else PTE_W)
  else if decide (DEVSPACE <= va < 2 ^ 32) then Some (PGROUNDDOWN va, PTE_W) else None.

Definition kernel_pte (va : Z) : Z := match kernel_map va with Some (pa, perm) => Z.lor (Z.lor pa perm) PTE_P | None => 0 end.

Definition km_size (k : kmap_entry) : Z := u32 (km_end k - km_start k).

(** An entry of the table that mappages can map page by page. *)
Definition kmap_ok (k : kmap_entry) : Prop :=
  0 <= km_virt k /\ km_virt k mod PGSIZE = 0 /\ 0 < km_size k /\ km_size k mod PGSIZE = 0 /\ km_virt k + km_size k <= 2 ^ 32 /\
  0 <= km_start k < 2 ^ 32 /\ km_start k mod PGSIZE = 0 /\ Z.land (km_perm k) PTE_U = 0 /\
  forall va, km_virt k <= va < km_virt k + km_size k -> PDX va ∈ kernel_pdes.

Fixpoint ascending (low : Z) (ks : list kmap_entry) : Prop :=
  match ks with [] => True | k :: ks' => low <= km_virt k /\ ascending (km_virt k + km_size k) ks' end.

Fixpoint kmap_pte (ks : list kmap_entry) (va old : Z) : Z :=
  match ks with
  | [] => old
  | k :: ks' => kmap_pte ks' va
      (if decide (km_virt k <= va < km_virt k + km_size k) then u32 (new_pte (u32 (km_start k + (va - km_virt k) / PGSIZE * PGSIZE)) (km_perm k)) else old)
  end.

Lemma kernel_pdes_ok : NoDup kernel_pdes /\ Forall (fun j => 0 <= j < 1024) kernel_pdes.
Proof.
  split; [apply (bool_decide_unpack (NoDup kernel_pdes)); by vm_compute|].
  apply (bool_decide_unpack (Forall (fun j => 0 <= j < 1024) kernel_pdes)). by vm_compute.
Qed.

Lemma kmap_region k : kmap_ok k -> PGROUNDDOWN (km_virt k) = km_virt k /\
  Z.of_nat (region_pages (km_virt k) (km_size k)) * PGSIZE = km_size k.
Proof.
  intros (H0 & Ha & Hs & Hsa & He & _). destruct (region_bounds (km_virt k) (km_size k) H0 Hs He) as (B1 & B2 & _ & _).
  unfold region_pages. rewrite !PGROUNDDOWN_eq, !u32_small by lia. change PGSIZE with 4096 in *. zdiv.
Qed.

Lemma map_kernel_spec ks : forall pgdir s l low,
  Forall kmap_ok ks -> ascending low ks -> may_alloc s -> free_ok s l -> pgdir_ok (k_mem s) pgdir l -> lru_ok s ->
  (missing (k_mem s) pgdir kernel_pdes <= length l)%nat ->
  (forall va, low <= va < 2 ^ 32 -> Z.land (pte_val (k_mem s) pgdir va) PTE_P = 0) ->
  exists f m' l', map_kernel pgdir ks s = Ok pgdir (alloc_state f m' s) /\
    free_ok (alloc_state f m' s) l' /\ pgdir_ok m' pgdir l' /\ keeps pgdir (k_mem s) l m' l' /\
    (length l' + missing (k_mem s) pgdir kernel_pdes = length l + missing m' pgdir kernel_pdes)%nat /\
    (forall va, 0 <= va < 2 ^ 32 -> pte_val m' pgdir va = kmap_pte ks va (pte_val (k_mem s) pgdir va)).
Proof.
  induction ks as [|k ks IH]; intros pgdir s l low Hks Has Hc Hf Hok Hlru Hm Hnp.
  - exists (freelist (k_kmem s)), (k_mem s), l. rewrite alloc_state_id. cbn [map_kernel kmap_pte]. split; [done|]. split; [done|]. split; [done|].
    split; [apply keeps_refl|]. split; [done|done].
  - apply Forall_cons_iff in Hks as [Hk Hks]. destruct Has as [Hlow Has]. destruct (kmap_region k Hk) as [Er En].
    destruct (Hk) as (H0 & Ha & Hs & Hsa & He & Hp0 & Hpa & Hu & Hpd). cbn [map_kernel]. fold (km_size k).
    destruct (mappages_run s l pgdir (km_virt k) (km_size k) (km_start k) (km_perm k)) as (k1 & m1 & l1 & R1 & M1); try done.
    { rewrite Er. exists kernel_pdes. rewrite En. destruct kernel_pdes_ok. done. }
    { intros va. rewrite Er, En. intros Hva. apply Hnp. lia. }
    rewrite (bind_ok _ _ _ _ _ R1). change (0 <? 0) with false. cbn [Z.ltb Z.compare]. rewrite Er in M1.
    destruct M1 as [U1 K1 F1 O1 L1 V1 P1 Mi1]. rewrite En in *. pose proof (K1 Hu) as Ek.
    assert (Es : set_kmem k1 (set_mem m1 s) = alloc_state (freelist k1) m1 s) by (unfold alloc_state; by rewrite Ek at 1). rewrite Es in *.
    destruct kernel_pdes_ok as [Hnd Hrg]. assert (E1 := Mi1 _ Hpd Hnd Hrg).
    destruct (IH pgdir (alloc_state (freelist k1) m1 s) l1 (km_virt k + km_size k)) as (f & m2 & l2 & R2 & F2 & O2 & P2 & E2 & V2); try done.
    { cbn [k_mem alloc_state set_kmem set_mem]. lia. }
    { intros va Hva. cbn [k_mem alloc_state set_kmem set_mem]. rewrite V1 by lia. rewrite decide_False by lia. apply Hnp. lia. }
    rewrite alloc_state_state in *. exists f, m2, l2. split; [done|]. split; [done|]. split; [done|]. split; [by apply (keeps_trans _ _ _ m1 l1)|].
    split; [cbn [k_mem alloc_state set_kmem set_mem] in E2; lia|]. intros va Hva. rewrite (V2 va Hva). cbn [kmap_pte k_mem alloc_state set_kmem set_mem]. by rewrite (V1 va Hva).
Qed.
(** ** The table of mappings *)
Lemma kernel_pde_in a n va : (a = 512 /\ n = 56 \/ a = 1016 /\ n = 8) -> a * 2 ^ 22 <= va < (a + n) * 2 ^ 22 -> PDX va ∈ kernel_pdes.
Proof.
  intros Han Hva. rewrite PDX_eq, u32_small by lia. unfold kernel_pdes. rewrite elem_of_app, !elem_of_seqZ.
  change (2 ^ 22) with 4194304 in *. destruct Han as [[-> ->]|[-> ->]]; [left|right]; zdiv.
Qed.

Lemma kmap_wf : img_data mod PGSIZE = 0 -> Forall kmap_ok kmap /\ ascending 0 kmap.
Proof.
  intros Hd. pose proof img_order as Ho. pose proof img_fits as Hf. change KERNLINK with 0x80100000 in *. change (KERNBASE + PHYSTOP) with 0x8E000000 in *.
  assert (Hv : V2P img_data = img_data - KERNBASE) by (unfold V2P; apply u32_small; unfold KERNBASE; lia).
  unfold kmap. change (V2P KERNLINK) with 0x100000. rewrite Hv. change PGSIZE with 4096 in *.
  assert (E2 : u32 (img_data - KERNBASE - 0x100000) = img_data - KERNBASE - 0x100000) by (apply u32_small; unfold KERNBASE; lia).
  assert (E3 : u32 (PHYSTOP - (img_data - KERNBASE)) = PHYSTOP - (img_data - KERNBASE)) by (apply u32_small; unfold KERNBASE, PHYSTOP; lia).
  assert (Hpde : forall va, 0x80000000 <= va < 0x8E000000 -> PDX va ∈ kernel_pdes).
  { intros va Hva. apply (kernel_pde_in 512 56); [by left|]. change (2 ^ 22) with 4194304. lia. }
  assert (Hdev : forall va, 0xFE000000 <= va < 2 ^ 32 -> PDX va ∈ kernel_pdes).
  { intros va Hva. apply (kernel_pde_in 1016 8); [by right|]. change (2 ^ 22) with 4194304. lia. }
  split.
  - repeat apply List.Forall_cons; [..|apply List.Forall_nil]; unfold kmap_ok, km_size; cbn [km_virt km_start km_end km_perm]; rewrite ?E2, ?E3;
      unfold KERNLINK, KERNBASE, PHYSTOP, EXTMEM, DEVSPACE in *; change PGSIZE with 4096;
      change (u32 (0x100000 - 0)) with 0x100000; change (u32 (0 - 0xFE000000)) with 0x2000000;
      repeat split; try done; try zdiv; intros va Hva; (apply Hpde || apply Hdev); lia.
  - cbn [ascending]. unfold km_size. cbn [km_virt km_start km_end]. rewrite E2, E3. unfold KERNLINK, KERNBASE, PHYSTOP, EXTMEM, DEVSPACE in *.
    change (u32 (0x100000 - 0)) with 0x100000. repeat split; lia.
Qed.

Lemma u32_lor a b : u32 (Z.lor a b) = Z.lor (u32 a) (u32 b).
Proof. unfold u32. rewrite <- !Z.land_ones by lia. apply Z.land_lor_distr_l. Qed.

(** The entry that the table gives for a page [virt <= va] of a region that starts at
    physical address [start]. *)
Lemma region_pte virt start va perm : virt mod PGSIZE = 0 -> 0 <= virt <= va -> va < 2 ^ 32 -> 0 <= start -> start + (va - virt) < 2 ^ 32 -> 0 <= perm < 2 ^ 32 ->
  u32 (new_pte (u32 (start + (va - virt) / PGSIZE * PGSIZE)) perm) = Z.lor (Z.lor (PGROUNDDOWN va - virt + start) perm) PTE_P.
Proof.
  intros Hv Hva Hhi Hs Hsum Hp. unfold new_pte. rewrite !u32_lor, (u32_small perm) by done. change (u32 PTE_P) with PTE_P.
  rewrite PGROUNDDOWN_eq, (u32_small va) by lia. change PGSIZE with 4096 in *. f_equal. f_equal. rewrite !u32_small; [zdiv|zdiv|]. rewrite u32_small; zdiv.
Qed.

Lemma kmap_pte_spec va : img_data mod PGSIZE = 0 -> 0 <= va < 2 ^ 32 -> kmap_pte kmap va 0 = kernel_pte va.
Proof.
  intros Hd Hva. pose proof img_order as Ho. pose proof img_fits as Hf.
  assert (Hv : V2P img_data = img_data - KERNBASE) by (unfold V2P; apply u32_small; unfold KERNLINK, EXTMEM, PHYSTOP, KERNBASE in *; lia).
  unfold kmap, kmap_pte, km_size, kernel_pte, kernel_map. cbn [km_virt km_start km_end km_perm]. rewrite Hv.
  change (V2P KERNLINK) with 0x100000. unfold KERNLINK, KERNBASE, PHYSTOP, EXTMEM, DEVSPACE in *.
  change (u32 (0x100000 - 0)) with 0x100000. change (u32 (0 - 0xFE000000)) with 0x2000000. rewrite !(u32_small (_ - _)) by lia.
  destruct (decide (DEVSPACE <= va)) as [H4|H4]; unfold DEVSPACE in H4.
  { rewrite decide_True by lia. rewrite decide_False, decide_True by lia. rewrite region_pte by (done || lia). f_equal. f_equal. lia. }
  rewrite decide_False by lia. destruct (decide (img_data <= va < 0x8E000000)) as [H3|H3].
  { rewrite !decide_True by lia. rewrite (decide_False (P := _ <= va < img_data)) by lia. rewrite region_pte by (done || lia). f_equal. f_equal. lia. }
  rewrite decide_False by lia. destruct (decide (0x80100000 <= va < img_data)) as [H2|H2].
  { rewrite !decide_True by lia. rewrite region_pte by (done || lia). f_equal. f_equal. lia. }
  rewrite decide_False by lia. case_decide as H1.
  - rewrite decide_True by lia. rewrite (decide_False (P := _ <= va < img_data)) by lia. rewrite region_pte by (done || lia). f_equal. f_equal. lia.
  - by rewrite !decide_False by lia.
Qed.
Lemma kernel_pte_supervisor va : 0 <= va < 2 ^ 32 -> Z.land (kernel_pte va) PTE_U = 0.
Proof.
  intros Hva. unfold kernel_pte. destruct (kernel_map va) as [[pa perm]|] eqn:E; [|done].
  assert (H : 0 <= pa < 2 ^ 32 /\ pa mod PGSIZE = 0 /\ Z.land perm PTE_U = 0 /\ 0 <= perm < 2 ^ 32).
  { unfold kernel_map in E. rewrite PGROUNDDOWN_eq, u32_small in E by done. unfold KERNBASE, PHYSTOP, KERNLINK, DEVSPACE in E.
    change PGSIZE with 4096 in *. repeat case_decide; simplify_eq; repeat split; try done; try zdiv. }
  destruct H as (H1 & H2 & H3 & H4). rewrite <- (new_pte_user pa perm H2 H3). unfold new_pte. by rewrite !u32_lor, (u32_small pa), (u32_small perm) by done.
Qed.

(** ** setupkvm *)
Lemma zeroed_table m p i : 0 <= i < 1024 -> table_at (memset m p 0 PGSIZE) p i = None.
Proof. intros Hi. unfold table_at. by rewrite ld32_zeroed. Qed.

Lemma zeroed_pgdir m p l : is_page p -> (p ∉ l) -> pgdir_ok (memset m p 0 PGSIZE) p l.
Proof. intros Hp Hn. split; [done|done|intros i t Hi|intros i j t Hi Hj]; by rewrite zeroed_table. Qed.

Lemma zeroed_missing m p : missing (memset m p 0 PGSIZE) p kernel_pdes = 64%nat.
Proof.
  transitivity (length kernel_pdes); [|done]. unfold missing. f_equal. destruct kernel_pdes_ok as [_ Hr].
  induction Hr as [|i D Hi HD IH]; [done|]. rewrite filter_cons, IH, zeroed_table by done. by rewrite decide_True.
Qed.

Lemma setupkvm_run s pg l : may_alloc s -> free_ok s (pg :: l) -> lru_ok s -> img_data mod PGSIZE = 0 -> (64 <= length l)%nat ->
  exists f m' l', setupkvm s = Ok pg (alloc_state f m' s) /\ free_ok (alloc_state f m' s) l' /\ pgdir_ok m' pg l' /\
    (forall va, 0 <= va < 2 ^ 32 -> pte_val m' pg va = kernel_pte va) /\
    (forall a, (forall p, p ∈ pg :: l -> ~ (p <= a < p + PGSIZE)) -> ldb m' a = ldb (k_mem s) a) /\
    l' ⊆ l /\ (forall p, owned m' pg l' p -> p ∈ pg :: l) /\ (length l <= length l' + 64)%nat.
Proof.
  intros Hc Hf Hlru Hd Hlen. destruct (kmap_wf Hd) as [Hwf Has]. pose proof (kalloc_run s pg l Hc Hf) as R.
  destruct (Hf) as [Hps Hnd [_ Hlk]]. apply Forall_cons_iff in Hps as [Hp Hpl]. apply list.NoDup_cons in Hnd as [Hn Hnd].
  destruct (page_kernel pg Hp) as (Hk & Hr & _). unfold setupkvm. rewrite (bind_ok _ _ _ _ _ R), (proj2 (Z.eqb_neq _ _)) by lia.
  unfold upd_mem. erewrite bind_ok by reflexivity. change (DEVSPACE <? P2V PHYSTOP) with false. cbv iota.
  set (m1 := memset (k_mem s) pg 0 PGSIZE). change (set_mem _ _) with (alloc_state (ld32 (k_mem s) pg) m1 s).
  assert (Hout : same_outside pg (k_mem s) m1) by apply memset_outside.
  destruct (map_kernel_spec kmap pg (alloc_state (ld32 (k_mem s) pg) m1 s) l 0) as (f & m' & l' & R2 & F2 & O2 & (P2 & Q2 & S2) & E2 & V2); try done.
  - split; [done|done|]. cbn. by apply (linked_outside (k_mem s) _ pg).
  - by apply zeroed_pgdir.
  - cbn [k_mem alloc_state set_kmem set_mem]. unfold m1. by rewrite zeroed_missing.
  - intros va Hva. cbn [k_mem alloc_state set_kmem set_mem]. unfold pte_val, m1. by rewrite zeroed_table by apply PDX_range.
  - cbn [k_mem alloc_state set_kmem set_mem] in *. rewrite alloc_state_state in *. exists f, m', l'.
    assert (Howned : forall p, owned m1 pg l p -> p ∈ pg :: l).
    { intros p [Ho|[->|(i & Hi & Ht)]]; [by right|by left|]. unfold m1 in Ht. by rewrite zeroed_table in Ht. }
    split; [done|]. split; [done|]. split; [done|]. split; [|split; [|split; [|split]]].
    + intros va Hva. rewrite (V2 va Hva). unfold pte_val at 1, m1. rewrite zeroed_table by apply PDX_range. by apply kmap_pte_spec.
    + intros a Ha. rewrite P2 by (intros p Hpp; by apply Ha, Howned). apply Hout, Ha. by left.
    + done.
    + intros p Hpo. by apply Howned, Q2.
    + unfold m1 in E2. rewrite zeroed_missing in E2. lia.
Qed.

(** C24: setupkvm makes the kernel's page table.  With 65 free pages it returns a page
    directory in which physical memory is mapped at KERNBASE, read-only for the kernel's
    text and writable elsewhere, the devices at their own addresses, and nothing else; no
    page is accessible to user programs.  It takes its pages from the free list and
    changes no other memory. *)
Theorem setupkvm_correct s pg l : may_alloc s -> free_ok s (pg :: l) -> lru_ok s -> img_data mod PGSIZE = 0 -> (64 <= length l)%nat ->
  exists s' l', setupkvm s = Ok pg s' /\ free_ok s' l' /\ l' ⊆ l /\ pgdir_ok (k_mem s') pg l' /\
    (forall va, 0 <= va < 2 ^ 32 -> pte_val (k_mem s') pg va = kernel_pte va) /\
    (forall va, 0 <= va < 2 ^ 32 -> Z.land (pte_val (k_mem s') pg va) PTE_U = 0) /\
    (forall a, (forall p, p ∈ pg :: l -> ~ (p <= a < p + PGSIZE)) -> ldb (k_mem s') a = ldb (k_mem s) a).
Proof.
  intros Hc Hf Hlru Hd Hlen. destruct (setupkvm_run s pg l Hc Hf Hlru Hd Hlen) as (f & m' & l' & R & F & O & V & K & S & _).
  exists (alloc_state f m' s), l'. split; [done|]. split; [done|]. split; [done|]. split; [done|]. split; [done|]. split; [|done].
  intros va Hva. cbn [k_mem alloc_state set_kmem set_mem]. rewrite (V va Hva). by apply kernel_pte_supervisor.
Qed.
End kvm.
