(* ===== verification/Pipe.v ===== *)
(** Pipes: pipe.c.  A pipe is named by the address of the page it lives in. *)

From S2P Require Import Prelude Layout CString State Spinlock Sched Mem Sleeplock Ring Memide Bio Log Fs Kalloc.
Local Open Scope kernel_scope.

Definition PIPESIZE : Z := 512.

Definition get_pipe (a : Z) : K pipe := fun s => index "pipe" (k_pipes s !! a) s.
Definition upd_pipe (a : Z) (f : pipe -> pipe) : K unit := modify (fun s => set_pipes (alter f a (k_pipes s)) s).

(** [myproc()->killed] *)
Definition my_killed : K Z :=
  let! p := on_sync myproc in
  let! i := index "myproc()" p in
  let! pr := get_proc i in
  ret (p_killed pr).

(** [p->data[p->nwrite++ % PIPESIZE] = c] and its counterpart for reading. *)
Definition put_byte (c : Z) (p : pipe) : pipe :=
  with_nwrite (u32 (nwrite p + 1)) (with_pi_data (<[Z.to_nat (nwrite p mod PIPESIZE) := c]> (pi_data p)) p).
Definition front_byte (p : pipe) : Z := default 0 (pi_data p !! Z.to_nat (nread p mod PIPESIZE)).
Definition drop_byte (p : pipe) : pipe := with_nread (u32 (nread p + 1)) p.

Definition is_full (p : pipe) : bool := nwrite p =? u32 (nread p + PIPESIZE).
Definition is_empty (p : pipe) : bool := nread p =? nwrite p.

(** The inner loop of pipewrite: true if there is room, false if it has to give up
    (the lock is then released). *)
Fixpoint wait_room (fuel : nat) (a : Z) : K bool :=
  let! p := get_pipe a in
  if negb (is_full p) then ret true else
  let! k := (if readopen p =? 0 then ret 1 else my_killed) in
  if negb (k =? 0) then on_sync (release (L_pipe a)) ;;; ret false else
  match fuel with
  | O => hang
  | S fuel' =>
      wakeup (C_pipe_r a) ;;;
      sleep (C_pipe_w a) (Some (L_pipe a)) ;;;
      wait_room fuel' a
  end.

Fixpoint pipewrite_loop (a : Z) (bs : list Z) : K bool :=
  match bs with
  | [] => ret true
  | b :: bs' =>
      let! ok := wait_room wait_fuel a in
      if negb ok then ret false else
      upd_pipe a (put_byte b) ;;;
      pipewrite_loop a bs'
  end.

Definition pipewrite (a : Z) (bs : list Z) : K Z :=
  on_sync (acquire (L_pipe a)) ;;;
  let! ok := pipewrite_loop a bs in
  if negb ok then ret (-1) else
  wakeup (C_pipe_r a) ;;;
  on_sync (release (L_pipe a)) ;;;
  ret (Z.of_nat (length bs)).

Fixpoint wait_data (fuel : nat) (a : Z) : K bool :=
  let! p := get_pipe a in
  if negb (is_empty p && negb (writeopen p =? 0)) then ret true else
  let! k := my_killed in
  if negb (k =? 0) then on_sync (release (L_pipe a)) ;;; ret false else
  match fuel with
  | O => hang
  | S fuel' =>
      sleep (C_pipe_r a) (Some (L_pipe a)) ;;;
      wait_data fuel' a
  end.

Fixpoint piperead_loop (n : nat) (a : Z) : K (list Z) :=
  match n with
  | O => ret []
  | S n' =>
      let! p := get_pipe a in
      if is_empty p then ret [] else
      upd_pipe a drop_byte ;;;
      let! bs := piperead_loop n' a in
      ret (front_byte p :: bs)
  end.

(** The result is the return value and the bytes stored at addr. *)
Definition piperead (a : Z) (n : Z) : K (Z * list Z) :=
  on_sync (acquire (L_pipe a)) ;;;
  let! ok := wait_data wait_fuel a in
  if negb ok then ret (-1, []) else
  let! bs := piperead_loop (Z.to_nat n) a in
  wakeup (C_pipe_w a) ;;;
  on_sync (release (L_pipe a)) ;;;
  ret (Z.of_nat (length bs), bs).

Section pipe.
Context `{!Driver} `{!DevSw} `{!Image}.

Definition pipeclose (a : Z) (writable : Z) : K unit :=
  on_sync (acquire (L_pipe a)) ;;;
  (if negb (writable =? 0) then
     upd_pipe a (with_writeopen 0) ;;; wakeup (C_pipe_r a)
   else
     upd_pipe a (with_readopen 0) ;;; wakeup (C_pipe_w a)) ;;;
  let! p := get_pipe a in
  if (readopen p =? 0) && (writeopen p =? 0) then
    on_sync (release (L_pipe a)) ;;;
    modify (fun s => set_pipes (delete a (k_pipes s)) s) ;;;
    kfree a
  else on_sync (release (L_pipe a)).
End pipe.

(** * Lemmas *)

(** The bytes in the pipe, oldest first. *)
Definition pipe_bytes (p : pipe) : list Z :=
  (fun j => default 0 (pi_data p !! Z.to_nat ((nread p + Z.of_nat j) mod PIPESIZE)))
    <$> seq 0 (Z.to_nat (u32 (nwrite p - nread p))).

Record pipe_ok (p : pipe) : Prop := mk_pipe_ok {
  pk_len : length (pi_data p) = Z.to_nat PIPESIZE;
  pk_read : 0 <= nread p < 2 ^ 32;
  pk_write : 0 <= nwrite p < 2 ^ 32;
  pk_size : u32 (nwrite p - nread p) <= PIPESIZE }.

Lemma length_pipe_bytes p : Z.of_nat (length (pipe_bytes p)) = u32 (nwrite p - nread p).
Proof. unfold pipe_bytes. rewrite length_fmap, length_seq. pose proof (u32_range (nwrite p - nread p)). lia. Qed.

Lemma is_full_spec p : pipe_ok p -> is_full p = bool_decide (Z.of_nat (length (pipe_bytes p)) = PIPESIZE).
Proof.
  intros [_ Hr Hw Hs]. rewrite length_pipe_bytes. unfold is_full, u32 in *. change PIPESIZE with 512 in *.
  case_bool_decide; [apply Z.eqb_eq|apply Z.eqb_neq]; zdiv.
Qed.

Lemma is_empty_spec p : pipe_ok p -> is_empty p = bool_decide (pipe_bytes p = []).
Proof.
  intros [_ Hr Hw Hs]. pose proof (length_pipe_bytes p) as Hl. unfold is_empty, u32 in *.
  case_bool_decide as E; [apply Z.eqb_eq|apply Z.eqb_neq].
  - rewrite E in Hl. simpl in Hl. zdiv.
  - intros Eq. apply E. apply length_zero_iff_nil. rewrite Eq, Z.sub_diag in Hl. change (0 mod 2 ^ 32) with 0 in Hl. lia.
Qed.

(** The counters wrap around at 2^32, a multiple of PIPESIZE. *)
Lemma mod_pipe x : u32 x mod PIPESIZE = x mod PIPESIZE.
Proof. unfold u32. change PIPESIZE with 512. change (2 ^ 32) with (8388608 * 512). zdiv. Qed.

Lemma put_byte_spec p c : pipe_ok p -> Z.of_nat (length (pipe_bytes p)) < PIPESIZE ->
  pipe_ok (put_byte c p) /\ pipe_bytes (put_byte c p) = pipe_bytes p ++ [c].
Proof.
  intros Hok Hlt. destruct (Hok) as [Hl Hr Hw Hs]. rewrite length_pipe_bytes in Hlt.
  assert (Hsz : u32 (nwrite (put_byte c p) - nread (put_byte c p)) = u32 (nwrite p - nread p) + 1).
  { cbn. rewrite u32_sub_l. unfold u32 in *. change PIPESIZE with 512 in *. zdiv. }
  split.
  - split; [cbn; by rewrite length_insert|done|apply u32_range|]. rewrite Hsz. lia.
  - unfold pipe_bytes. rewrite Hsz. pose proof (u32_range (nwrite p - nread p)) as Hu.
    replace (Z.to_nat (u32 (nwrite p - nread p) + 1)) with (Z.to_nat (u32 (nwrite p - nread p)) + 1)%nat by lia.
    rewrite seq_app, fmap_app. f_equal.
    + apply list_fmap_ext. intros i j Hj. apply lookup_seq in Hj as [-> Hj]. cbn [pi_data put_byte with_nwrite with_pi_data nread].
      rewrite list_lookup_insert_ne; [done|]. change PIPESIZE with 512 in *. unfold u32 in *.
      intros E. apply (f_equal Z.of_nat) in E. rewrite !Z2Nat.id in E by (apply Z.mod_pos_bound; lia). zdiv.
    + cbn [seq fmap list_fmap]. f_equal. cbn [pi_data put_byte with_nwrite with_pi_data nread].
      replace ((nread p + Z.of_nat (0 + Z.to_nat (u32 (nwrite p - nread p)))) mod PIPESIZE) with (nwrite p mod PIPESIZE).
      * rewrite list_lookup_insert_eq; [done|]. rewrite Hl. pose proof (Z.mod_pos_bound (nwrite p) PIPESIZE). change PIPESIZE with 512 in *. lia.
      * replace (nread p + Z.of_nat (0 + Z.to_nat (u32 (nwrite p - nread p)))) with (nread p + u32 (nwrite p - nread p)) by lia.
        rewrite <- (mod_pipe (nread p + _)), u32_add_r, mod_pipe. f_equal. lia.
Qed.

Lemma drop_byte_spec p b bs : pipe_ok p -> pipe_bytes p = b :: bs ->
  front_byte p = b /\ pipe_ok (drop_byte p) /\ pipe_bytes (drop_byte p) = bs.
Proof.
  intros Hok Hb. destruct (Hok) as [Hl Hr Hw Hs]. pose proof (length_pipe_bytes p) as Hlen. rewrite Hb in Hlen. simpl in Hlen.
  assert (Hsz : u32 (nwrite (drop_byte p) - nread (drop_byte p)) = u32 (nwrite p - nread p) - 1).
  { cbn. rewrite u32_sub_r. unfold u32 in *. change PIPESIZE with 512 in *. zdiv. }
  unfold pipe_bytes in Hb. destruct (Z.to_nat (u32 (nwrite p - nread p))) as [|n] eqn:En; [done|].
  cbn [seq fmap list_fmap] in Hb. injection Hb as Hb1 Hb2. rewrite Z.add_0_r in Hb1. split; [done|]. split.
  - split; [done|apply u32_range|done|]. rewrite Hsz. lia.
  - unfold pipe_bytes. rewrite Hsz. replace (Z.to_nat (u32 (nwrite p - nread p) - 1)) with n by lia.
    rewrite <- Hb2, <- seq_shift. rewrite <- list_fmap_compose. apply list_fmap_ext. intros i j Hj. cbn [pi_data drop_byte with_nread nread compose].
    do 3 f_equal. rewrite <- (mod_pipe (u32 (nread p + 1) + _)), u32_add_l, mod_pipe. f_equal. lia.
Qed.

(** ** Reading and writing *)
Lemma get_pipe_ok a s p : k_pipes s !! a = Some p -> get_pipe a s = Ok p s.
Proof. intros H. unfold get_pipe. by rewrite H. Qed.

Lemma upd_pipe_ok a f s p : k_pipes s !! a = Some p -> upd_pipe a f s = Ok tt (set_pipes (<[a := f p]> (k_pipes s)) s).
Proof.
  intros H. unfold upd_pipe, modify. do 2 f_equal. apply map_eq. intros k. destruct (decide (k = a)) as [->|Hne].
  - by rewrite lookup_alter_eq, H, lookup_insert_eq.
  - by rewrite lookup_alter_ne, lookup_insert_ne.
Qed.

Lemma set_pipes_id s p a : k_pipes s !! a = Some p -> set_pipes (<[a := p]> (k_pipes s)) s = s.
Proof. intros H. rewrite insert_id by done. by destruct s. Qed.

Lemma wait_room_ok fuel a s p : k_pipes s !! a = Some p -> is_full p = false -> wait_room fuel a s = Ok true s.
Proof. intros Hp Hf. destruct fuel; cbn [wait_room]; rewrite (bind_ok _ _ _ _ _ (get_pipe_ok _ _ _ Hp)), Hf; done. Qed.

Lemma pipewrite_loop_ok a bs : forall s p, k_pipes s !! a = Some p -> pipe_ok p ->
  Z.of_nat (length (pipe_bytes p) + length bs) <= PIPESIZE ->
  exists p', pipewrite_loop a bs s = Ok true (set_pipes (<[a := p']> (k_pipes s)) s) /\ pipe_ok p' /\
    pipe_bytes p' = pipe_bytes p ++ bs /\ readopen p' = readopen p /\ writeopen p' = writeopen p.
Proof.
  induction bs as [|b bs IH]; intros s p Hp Hok Hlen.
  - exists p. rewrite set_pipes_id by done. rewrite app_nil_r. done.
  - cbn [pipewrite_loop]. simpl in Hlen. rewrite (bind_ok _ _ _ _ _ (wait_room_ok wait_fuel a s p Hp
      ltac:(rewrite is_full_spec by done; apply bool_decide_false; lia))). cbn [negb].
    rewrite (bind_ok _ _ _ _ _ (upd_pipe_ok _ _ _ _ Hp)).
    destruct (put_byte_spec p b Hok ltac:(lia)) as [Hok1 Hb1].
    destruct (IH (set_pipes (<[a := put_byte b p]> (k_pipes s)) s) (put_byte b p)) as (p' & R & Hok' & Hb' & Hr & Hw).
    { cbn. by rewrite lookup_insert_eq. } { done. } { rewrite Hb1, length_app. simpl. lia. }
    exists p'. split; [rewrite R; cbn; by rewrite insert_insert_eq|]. split; [done|]. split; [by rewrite Hb', Hb1, <- app_assoc|done].
Qed.

Lemma piperead_loop_ok n a : forall s p, k_pipes s !! a = Some p -> pipe_ok p ->
  exists p', piperead_loop n a s = Ok (take n (pipe_bytes p)) (set_pipes (<[a := p']> (k_pipes s)) s) /\ pipe_ok p' /\
    pipe_bytes p' = drop n (pipe_bytes p).
Proof.
  induction n as [|n IH]; intros s p Hp Hok.
  - exists p. rewrite set_pipes_id by done. rewrite take_0, drop_0. done.
  - cbn [piperead_loop]. rewrite (bind_ok _ _ _ _ _ (get_pipe_ok _ _ _ Hp)), is_empty_spec by done.
    destruct (pipe_bytes p) as [|b bs] eqn:Eb.
    + rewrite bool_decide_true by done. exists p. rewrite set_pipes_id by done. rewrite Eb. done.
    + rewrite bool_decide_false by done. rewrite (bind_ok _ _ _ _ _ (upd_pipe_ok _ _ _ _ Hp)).
      destruct (drop_byte_spec p b bs Hok Eb) as (Hf & Hok1 & Hb1).
      destruct (IH (set_pipes (<[a := drop_byte p]> (k_pipes s)) s) (drop_byte p)) as (p' & R & Hok' & Hb').
      { cbn. by rewrite lookup_insert_eq. } { done. }
      rewrite (bind_ok _ _ _ _ _ R). exists p'. cbn. rewrite insert_insert_eq, Hb1, Hf. rewrite Hb1 in Hb'. done.
Qed.

(** The state after an operation on the pipe that wakes the processes waiting on [ch]. *)
Definition pipe_done (a : Z) (p' : pipe) (ch : chan) (s : kstate) : kstate :=
  set_ptable (woken ch (k_ptable s)) (set_pipes (<[a := p']> (k_pipes s)) s).

Lemma pipe_finish {A} pid a p p' ch s (r : A) : calm pid s -> k_pipes s !! a = Some p ->
  (wakeup ch ;;; on_sync (release (L_pipe a)) ;;; ret r)
    (set_pipes (<[a := p']> (k_pipes s)) (set_sync (lock (L_pipe a) (k_sync s)) s)) = Ok r (pipe_done a p' ch s).
Proof.
  intros Hc Hp. assert (Hl : has_lock (L_pipe a) s) by (by exists p).
  rewrite (bind_ok _ _ _ _ _ (wakeup_with (L_pipe a) ch pid s (set_pipes _ (set_sync _ s)) Hc Hl ltac:(done) eq_refl)).
  erewrite bind_ok by (apply (release_calm (L_pipe a) pid s); done). by destruct s.
Qed.

(** Pipewrite appends its bytes to the pipe, in order, when there is room for
    them; no byte that was in the pipe is lost. *)
Theorem pipewrite_appends pid a p bs s :
  calm pid s -> k_pipes s !! a = Some p -> pipe_ok p -> Z.of_nat (length (pipe_bytes p) + length bs) <= PIPESIZE ->
  exists p', pipewrite a bs s = Ok (Z.of_nat (length bs)) (pipe_done a p' (C_pipe_r a) s) /\
    pipe_ok p' /\ pipe_bytes p' = pipe_bytes p ++ bs /\ readopen p' = readopen p /\ writeopen p' = writeopen p.
Proof.
  intros Hc Hp Hok Hlen. unfold pipewrite. assert (Hl : has_lock (L_pipe a) s) by (by exists p).
  rewrite (bind_ok _ _ _ _ _ (acquire_calm (L_pipe a) pid s Hc Hl)).
  destruct (pipewrite_loop_ok a bs (set_sync (lock (L_pipe a) (k_sync s)) s) p Hp Hok Hlen) as (p' & R & Hok' & Hb & Hro).
  rewrite (bind_ok _ _ _ _ _ R). cbn [negb k_pipes set_sync]. exists p'. by rewrite (pipe_finish pid a p).
Qed.

(** Piperead removes the oldest bytes of the pipe and returns them, as many as were
    asked for or as there are; it does not wait when there are bytes, or when no
    writer is left. *)
Theorem piperead_takes pid a p n s :
  calm pid s -> k_pipes s !! a = Some p -> pipe_ok p -> pipe_bytes p <> [] \/ writeopen p = 0 -> 0 <= n ->
  let out := take (Z.to_nat n) (pipe_bytes p) in
  exists p', piperead a n s = Ok (Z.of_nat (length out), out) (pipe_done a p' (C_pipe_w a) s) /\
    pipe_ok p' /\ pipe_bytes p = out ++ pipe_bytes p'.
Proof.
  intros Hc Hp Hok Hne Hn out. unfold piperead. assert (Hl : has_lock (L_pipe a) s) by (by exists p).
  rewrite (bind_ok _ _ _ _ _ (acquire_calm (L_pipe a) pid s Hc Hl)). set (s1 := set_sync _ s).
  assert (Hw : wait_data wait_fuel a s1 = Ok true s1).
  { assert (Hg : is_empty p && negb (writeopen p =? 0) = false).
    { rewrite is_empty_spec by done. destruct Hne as [H | ->]; [by rewrite bool_decide_false|apply andb_false_r]. }
    unfold wait_fuel. cbn [wait_data]. rewrite (bind_ok _ _ _ _ _ (get_pipe_ok a s1 p Hp)), Hg. done. }
  rewrite (bind_ok _ _ _ _ _ Hw). cbn [negb].
  destruct (piperead_loop_ok (Z.to_nat n) a s1 p Hp Hok) as (p' & R & Hok' & Hb').
  rewrite (bind_ok _ _ _ _ _ R). exists p'. cbn [k_pipes s1 set_sync]. rewrite (pipe_finish pid a p) by done.
  split; [done|]. split; [done|]. rewrite Hb'. unfold out. by rewrite take_drop.
Qed.

(** ** Contended pipes *)
Definition pipe_inv (a : Z) (s : kstate) : Prop := exists p, k_pipes s !! a = Some p /\ pipe_ok p.

#[export] Instance pipe_inv_data a : DataInv (pipe_inv a).
Proof. by split. Qed.

Lemma in_cs_set_pipes lk i s x : in_cs lk i s -> in_cs lk i (set_pipes x s).
Proof. intros []. by split. Qed.

Lemma in_cs_wakeup ch lk i s : in_cs lk i s -> wakeup ch s = Ok tt (set_ptable (woken ch (k_ptable s)) s) /\
  in_cs lk i (set_ptable (woken ch (k_ptable s)) s).
Proof.
  intros [Hy Hh Hd Hf Hc [p Hp]]. split; [by apply wakeup_ok|]. split; try done.
  exists (wake_proc ch p). cbn. by rewrite list_lookup_fmap, Hp.
Qed.

Lemma my_killed_ok lk i s : in_cs lk i s -> exists p, procs (k_ptable s) !! i = Some p /\ my_killed s = Ok (p_killed p) s.
Proof.
  intros [Hy Hh Hd Hf Hc [p Hp]]. exists p. split; [done|]. unfold my_killed.
  assert (Hm : on_sync myproc s = Ok (Some i) s) by (apply on_sync_pure; rewrite (myproc_cur _ Hy); by rewrite Hc).
  rewrite (bind_ok _ _ _ _ _ Hm). erewrite bind_ok by reflexivity.
  erewrite bind_ok by (unfold get_proc; rewrite Hp; reflexivity). done.
Qed.

(** Leaving the critical section. *)
Definition left_cs (a : Z) (s : kstate) : Prop := pipe_inv a s /\ free_lock (L_pipe a) (k_sync s) /\ sync_ok (k_sync s).

Lemma leave_cs a i s : in_cs (L_pipe a) i s -> pipe_inv a s ->
  exists s', on_sync (release (L_pipe a)) s = Ok tt s' /\ left_cs a s'.
Proof.
  intros [Hy Hh Hd Hf Hc Hp] Hi. eexists. split; [apply release_k; [done|lia|done]|].
  destruct (sync_ok_unlock (L_pipe a) _ Hy ltac:(lia)) as [Hy' _]. split; [done|]. split; [|done].
  unfold free_lock, unlock. cbn [k_sync set_sync locks]. by rewrite lookup_insert_eq.
Qed.

Lemma wait_room_guar fuel a i : forall s, in_cs (L_pipe a) i s -> pipe_inv a s ->
  guar (cs_guar (pipe_inv a) (L_pipe a)) (cs_rely (pipe_inv a) (L_pipe a) i)
    (fun (ok : bool) s' => if ok then in_cs (L_pipe a) i s' /\ exists p, k_pipes s' !! a = Some p /\ pipe_ok p /\
                       Z.of_nat (length (pipe_bytes p)) < PIPESIZE
                  else left_cs a s') (wait_room fuel a s).
Proof.
  induction fuel as [|fuel IH]; intros s Hcs (p & Hp & Hok); cbn [wait_room];
    rewrite (bind_ok _ _ _ _ _ (get_pipe_ok _ _ _ Hp)); destruct (is_full p) eqn:Ef; cbn [negb].
  2,4: simpl; split; [done|]; exists p; split; [done|]; split; [done|]; rewrite is_full_spec in Ef by done;
    apply bool_decide_eq_false in Ef; pose proof (pk_size _ Hok); rewrite length_pipe_bytes in *; lia.
  all: destruct (my_killed_ok _ _ _ Hcs) as (pr & _ & Hk); destruct (leave_cs a i s Hcs ltac:(by exists p)) as (s1 & R1 & Hl1).
  all: assert (Hch : exists k : Z, (if readopen p =? 0 then ret 1 else my_killed : K Z) s = Ok k s) by (destruct (readopen p =? 0); by eexists).
  all: destruct Hch as [k Hch]; rewrite (bind_ok _ _ _ _ _ Hch); destruct (negb (k =? 0));
    [rewrite (bind_ok _ _ _ _ _ R1); exact Hl1|].
  - done.
  - destruct (in_cs_wakeup (C_pipe_r a) _ _ _ Hcs) as [Rw Hw]. rewrite (bind_ok _ _ _ _ _ Rw).
    eapply guar_bind; [apply sleep_guar; [apply _|exact Hw|done|by exists p]|]. intros [] s' [Hcs' Hi']. by apply IH.
Qed.

Lemma pipewrite_loop_guar a i bs : forall s, in_cs (L_pipe a) i s -> pipe_inv a s ->
  guar (cs_guar (pipe_inv a) (L_pipe a)) (cs_rely (pipe_inv a) (L_pipe a) i)
    (fun (ok : bool) s' => if ok then in_cs (L_pipe a) i s' /\ pipe_inv a s' else left_cs a s') (pipewrite_loop a bs s).
Proof.
  induction bs as [|b bs IH]; intros s Hcs Hi; [done|]. cbn [pipewrite_loop].
  eapply guar_bind; [by apply wait_room_guar|]. intros [|] s1; [|by intros ?]. intros [Hcs1 (p & Hp & Hok & Hlt)]. cbn [negb].
  rewrite (bind_ok _ _ _ _ _ (upd_pipe_ok _ _ _ _ Hp)). destruct (put_byte_spec p b Hok Hlt) as [Hok1 _].
  apply IH; [by apply in_cs_set_pipes|]. exists (put_byte b p). split; [cbn; by rewrite lookup_insert_eq|done].
Qed.

(** C25: pipewrite is safe under contention.  Whatever readers and other writers do to
    the pipe while it sleeps for room, it neither overruns the buffer nor leaves the
    pipe inconsistent whenever the lock is free; it returns the number of bytes or
    -1, with the lock released. *)
Theorem pipewrite_safe pid a bs s i :
  calm pid s -> pipe_inv a s -> cur_proc (k_sync s) = Some i ->
  guar (cs_guar (pipe_inv a) (L_pipe a)) (cs_rely (pipe_inv a) (L_pipe a) i)
    (fun r s' => (r = -1 \/ r = Z.of_nat (length bs)) /\ left_cs a s') (pipewrite a bs s).
Proof.
  intros Hc Hi Hcur. assert (Hl : has_lock (L_pipe a) s) by (destruct Hi as (p & Hp & _); by exists p). unfold pipewrite.
  rewrite (bind_ok _ _ _ _ _ (acquire_calm (L_pipe a) pid s Hc Hl)).
  destruct (calm_in_cs (L_pipe a) pid s Hc Hl ltac:(done)) as (i' & Hi' & Hcs). rewrite Hcur in Hi'. simplify_eq.
  eapply guar_bind; [by apply pipewrite_loop_guar|]. intros [|] s1; cbn [negb].
  - intros [Hcs1 Hi1]. destruct (in_cs_wakeup (C_pipe_r a) _ _ _ Hcs1) as [Rw Hw]. rewrite (bind_ok _ _ _ _ _ Rw).
    destruct (leave_cs a i' _ Hw Hi1) as (s2 & R2 & Hl2). rewrite (bind_ok _ _ _ _ _ R2). simpl. auto.
  - simpl. auto.
Qed.
