(* ===== verification/File.v ===== *)
(** Open files: file.c, and pipealloc of pipe.c.  A file pointer is an index of
    ftable.file. *)

From S2P Require Import Prelude Layout CString State Spinlock Sched Mem Sleeplock Ring Memide Bio Log Fs Kalloc Pipe.
Local Open Scope kernel_scope.

Definition get_file (i : nat) : K file := fun s => index "ftable.file" (k_files s !! i) s.
Definition upd_files (i : nat) (f : file -> file) (s : kstate) : kstate := set_files (alter f i (k_files s)) s.
Definition upd_file (i : nat) (f : file -> file) : K unit := modify (upd_files i f).

Definition fileinit : K unit := on_sync (initlock L_ftable).

Fixpoint find_file (fs : list file) (i : nat) : option nat :=
  match fs with
  | [] => None
  | f :: fs' => if f_ref f =? 0 then Some i else find_file fs' (S i)
  end.

Definition filealloc : K (option nat) :=
  on_sync (acquire L_ftable) ;;;
  let! fs := reads k_files in
  match find_file fs 0 with
  | Some i =>
      upd_file i (with_f_ref 1) ;;;
      on_sync (release L_ftable) ;;;
      ret (Some i)
  | None =>
      on_sync (release L_ftable) ;;;
      ret None
  end.

Definition filedup (i : nat) : K nat :=
  on_sync (acquire L_ftable) ;;;
  let! f := get_file i in
  if f_ref f <? 1 then panic "filedup" else
  upd_file i (with_f_ref (f_ref f + 1)) ;;;
  on_sync (release L_ftable) ;;;
  ret i.

Section file.
Context `{!Driver} `{!DevSw} `{!Image}.

Definition fileclose (i : nat) : K unit :=
  on_sync (acquire L_ftable) ;;;
  let! f := get_file i in
  if f_ref f <? 1 then panic "fileclose" else
  upd_file i (with_f_ref (f_ref f - 1)) ;;;
  if 0 <? f_ref f - 1 then on_sync (release L_ftable) else
  let! ff := get_file i in
  upd_file i (with_f_ref 0) ;;;
  upd_file i (with_f_type FD_NONE) ;;;
  on_sync (release L_ftable) ;;;
  match f_type ff with
  | FD_PIPE => pipeclose (f_pipe ff) (f_writable ff)
  | FD_INODE =>
      begin_op ;;;
      let! ip := index "ff.ip" (f_ip ff) in
      iput ip ;;;
      end_op
  | FD_NONE => ret tt
  end.

Definition filestat (i : nat) : K (option stat) :=
  let! f := get_file i in
  match f_type f with
  | FD_INODE =>
      let! ip := index "f->ip" (f_ip f) in
      ilock ip ;;;
      let! st := stati ip in
      iunlock ip ;;;
      ret (Some st)
  | _ => ret None
  end.

Definition fileread (i : nat) (n : Z) : K (Z * list Z) :=
  let! f := get_file i in
  if f_readable f =? 0 then ret (-1, []) else
  match f_type f with
  | FD_PIPE => piperead (f_pipe f) n
  | FD_INODE =>
      let! ip := index "f->ip" (f_ip f) in
      ilock ip ;;;
      let! f := get_file i in
      let! (r, bs) := readi ip (f_off f) (u32 n) in
      when (0 <? r) (upd_file i (fun f => with_f_off (u32 (f_off f + r)) f)) ;;;
      iunlock ip ;;;
      ret (r, bs)
  | FD_NONE => panic "fileread"
  end.

(** What is written in one transaction, in bytes. *)
Definition max_write : Z := (MAXOPBLOCKS - 1 - 1 - 2) / 2 * 512.

(** The loop of filewrite: [bs] are the bytes left, [i0] those written. *)
Fixpoint filewrite_loop (fuel : nat) (i : nat) (ip : nat) (bs : list Z) (i0 : Z) : K Z :=
  match bs with
  | [] => ret i0
  | _ =>
      match fuel with
      | O => hang
      | S fuel' =>
          let n1 := Z.min (Z.of_nat (length bs)) max_write in
          begin_op ;;;
          ilock ip ;;;
          let! f := get_file i in
          let! r := writei ip (take (Z.to_nat n1) bs) (f_off f) in
          when (0 <? r) (upd_file i (fun f => with_f_off (u32 (f_off f + r)) f)) ;;;
          iunlock ip ;;;
          end_op ;;;
          if r <? 0 then ret i0 else
          if negb (r =? n1) then panic "short filewrite" else
          filewrite_loop fuel' i ip (drop (Z.to_nat n1) bs) (i0 + r)
      end
  end.

Definition filewrite (i : nat) (bs : list Z) : K Z :=
  let n := Z.of_nat (length bs) in
  let! f := get_file i in
  if f_writable f =? 0 then ret (-1) else
  match f_type f with
  | FD_PIPE => pipewrite (f_pipe f) bs
  | FD_INODE =>
      let! ip := index "f->ip" (f_ip f) in
      let! r := filewrite_loop (S (length bs)) i ip bs 0 in
      ret (if r =? n then n else -1)
  | FD_NONE => panic "filewrite"
  end.

(** The label [bad] of pipealloc. *)

(** The initial contents of a pipe's buffer are those of the page. *)
Definition pipealloc : K (option (nat * nat)) :=
  let! f0 := filealloc in
  match f0 with
  | None => ret None
  | Some f0 =>
      let! f1 := filealloc in
      match f1 with
      | None => fileclose f0 ;;; ret None
      | Some f1 =>
          let! a := kalloc in
          if a =? 0 then fileclose f0 ;;; fileclose f1 ;;; ret None else
          modify (fun s => set_pipes (<[a := mk_pipe (ld_bytes (k_mem s) a (Z.to_nat PIPESIZE)) 0 0 1 1]> (k_pipes s)) s) ;;;
          on_sync (initlock (L_pipe a)) ;;;
          upd_file f0 (fun f => mk_file FD_PIPE (f_ref f) 1 0 a (f_ip f) (f_off f)) ;;;
          upd_file f1 (fun f => mk_file FD_PIPE (f_ref f) 0 1 a (f_ip f) (f_off f)) ;;;
          ret (Some (f0, f1))
      end
  end.
End file.

(** * References to open files *)

Lemma find_file_spec fs k :
  match find_file fs k with
  | Some i => exists j f, i = (k + j)%nat /\ fs !! j = Some f /\ f_ref f = 0
  | None => forall j f, fs !! j = Some f -> f_ref f <> 0
  end.
Proof.
  revert k. induction fs as [|f fs IH]; intros k; simpl; [done|]. destruct (Z.eqb_spec (f_ref f) 0).
  - exists 0%nat, f. split; [lia|done].
  - specialize (IH (S k)). destruct (find_file fs (S k)).
    + destruct IH as (j & g & -> & Hj & Hr). exists (S j), g. split; [lia|done].
    + intros [|j] g Hj; simpl in Hj; [by simplify_eq|by eapply IH].
Qed.

Lemma ftable_release pid s g : calm pid s ->
  on_sync (release L_ftable) (set_files g (set_sync (lock L_ftable (k_sync s)) s)) = Ok tt (set_files g s).
Proof. intros Hc. rewrite (release_calm L_ftable pid s) by done. by destruct s. Qed.

Lemma get_file_ok i s f : k_files s !! i = Some f -> get_file i s = Ok f s.
Proof. intros H. unfold get_file. by rewrite H. Qed.

Section refs.
Context {drv : Driver} {dsw : DevSw} {im : Image} (pid : Z) (s : kstate) (Hc : calm pid s).

Lemma ftable_acquire : on_sync (acquire L_ftable) s = Ok tt (set_sync (lock L_ftable (k_sync s)) s).
Proof. by apply (acquire_calm L_ftable pid). Qed.

Lemma upd_file_at i f g y : k_files s !! i = Some f ->
  upd_file i g (set_sync y s) = Ok tt (set_files (<[i := g f]> (k_files s)) (set_sync y s)).
Proof. intros Hf. unfold upd_file, modify, upd_files. do 2 f_equal. by apply list_alter_insert_at. Qed.

Lemma filealloc_run :
  match filealloc s with
  | Ok (Some i) s' => exists f, k_files s !! i = Some f /\ f_ref f = 0 /\ s' = set_files (<[i := with_f_ref 1 f]> (k_files s)) s
  | Ok None s' => s' = s /\ forall i f, k_files s !! i = Some f -> f_ref f <> 0
  | _ => False
  end.
Proof.
  unfold filealloc. rewrite (bind_ok _ _ _ _ _ ftable_acquire). erewrite bind_ok by reflexivity. cbn [k_files set_sync].
  pose proof (find_file_spec (k_files s) 0) as Hf. destruct (find_file (k_files s) 0) as [i|].
  - destruct Hf as (j & f & -> & Hf & Hr). cbn [Nat.add]. rewrite (bind_ok _ _ _ _ _ (upd_file_at j f _ _ Hf)).
    rewrite (bind_ok _ _ _ _ _ (ftable_release pid s _ Hc)). by exists f.
  - erewrite bind_ok by (apply (release_calm L_ftable pid s); done). cbn. split; [by destruct s|done].
Qed.

Lemma filedup_run i f : k_files s !! i = Some f -> filedup i s =
  (if f_ref f <? 1 then Panic "filedup" else Ok i (set_files (<[i := with_f_ref (f_ref f + 1) f]> (k_files s)) s)).
Proof.
  intros Hf. unfold filedup. rewrite (bind_ok _ _ _ _ _ ftable_acquire).
  rewrite (bind_ok _ _ _ _ _ (get_file_ok i (set_sync _ s) f Hf)). destruct (f_ref f <? 1); [done|].
  rewrite (bind_ok _ _ _ _ _ (upd_file_at i f _ _ Hf)), (bind_ok _ _ _ _ _ (ftable_release pid s _ Hc)). done.
Qed.

Lemma fileclose_run i f : k_files s !! i = Some f ->
  (f_ref f < 1 -> fileclose i s = Panic "fileclose") /\
  (1 < f_ref f -> fileclose i s = Ok tt (set_files (<[i := with_f_ref (f_ref f - 1) f]> (k_files s)) s)).
Proof.
  intros Hf. unfold fileclose. rewrite (bind_ok _ _ _ _ _ ftable_acquire).
  rewrite (bind_ok _ _ _ _ _ (get_file_ok i (set_sync _ s) f Hf)). destruct (f_ref f <? 1) eqn:Er; zbool; [split; [done|lia]|].
  rewrite (bind_ok _ _ _ _ _ (upd_file_at i f _ _ Hf)). split; [lia|]. intros Hr.
  rewrite (proj2 (Z.ltb_lt 0 _)) by lia. by apply (ftable_release pid).
Qed.
End refs.

(** The reference counts of open files.  filealloc hands out an entry that nobody
    refers to, with one reference, and fails only if all entries are in use; filedup
    adds a reference to an entry in use; fileclose of an entry with several references
    removes one and does nothing else; the entries in between are not touched, and a
    filedup or fileclose of a free entry panics. *)
Theorem file_refs {drv : Driver} {dsw : DevSw} {im : Image} pid s :
  calm pid s ->
  (match filealloc s with
   | Ok (Some i) s' => exists f, k_files s !! i = Some f /\ f_ref f = 0 /\ s' = set_files (<[i := with_f_ref 1 f]> (k_files s)) s
   | Ok None s' => s' = s /\ forall i f, k_files s !! i = Some f -> f_ref f <> 0
   | _ => False
   end) /\
  forall i f, k_files s !! i = Some f ->
    filedup i s = (if f_ref f <? 1 then Panic "filedup" else Ok i (set_files (<[i := with_f_ref (f_ref f + 1) f]> (k_files s)) s)) /\
    (f_ref f < 1 -> fileclose i s = Panic "fileclose") /\
    (1 < f_ref f -> fileclose i s = Ok tt (set_files (<[i := with_f_ref (f_ref f - 1) f]> (k_files s)) s)).
Proof.
  intros Hc. split; [by apply (filealloc_run pid)|]. intros i f Hf.
  split; [by apply (filedup_run pid)|by apply (fileclose_run pid)].
Qed.
