(* ===== verification/FsWrite.v ===== *)
(** Writing files: writei (fs.c). *)

From S2P Require Import Prelude Layout CString State Spinlock Sched Sleeplock Ring Memide Bio Session Log LogDisk LogSafe LogTxn Txn Fs FsAlloc FsInode FsBmap File.
Local Open Scope kernel_scope.

(** The byte at offset [o], if the block is there. *)
Definition fbyte (V : Z * Z -> list Z) (ip : inode) (o : Z) : Z :=
  get_byte (V (i_dev ip, file_addr V ip (o / BSIZE))) (Z.to_nat (o mod BSIZE)).

(** The room in the log that the blocks [bn], ..., [bn + k - 1] may need: a new block is
    logged and marked in the bitmap, an old one is logged. *)
Fixpoint bcost (V : Z * Z -> list Z) (ip : inode) (bn : Z) (k : nat) : Z :=
  match k with
  | O => 0
  | S k' => (if decide (file_addr V ip bn = 0) then 2 else 1) + bcost V ip (bn + 1) k'
  end.

(** The number of blocks that [n] bytes at [off] lie in. *)
Definition nblocks (off n : Z) : nat := if n <=? 0 then O else Z.to_nat ((off + n - 1) / BSIZE - off / BSIZE + 1).

Section writei.
Context {drv : Driver} {dsw : DevSw}.

Abbreviation dev s := (l_dev (k_log s)).
Abbreviation sblk s := (sb (k_fs s)).

(** The bytes [src] have been written at [off], in blocks of the file. *)
Record written (pid r : Z) (i : nat) (ip : inode) (off : Z) (src : list Z) (s : kstate) (ip' : inode) (s' : kstate) : Prop := mk_written {
  wn_writing : writing pid r i ip' s';
  wn_step : stepped i ip' s s' (owns (k_view s) ip);
  wn_ip : ip' = with_i_addrs (i_addrs ip') ip;
  wn_old bn : 0 <= bn < MAXFILE -> file_addr (k_view s) ip bn <> 0 -> file_addr (k_view s') ip' bn = file_addr (k_view s) ip bn;
  wn_after bn : off + Z.of_nat (length src) <= bn * BSIZE -> bn < MAXFILE ->
    file_addr (k_view s') ip' bn = file_addr (k_view s) ip bn;
  wn_own b : in_use (sblk s) (k_view s) (dev s) b -> owns (k_view s') ip' b -> owns (k_view s) ip b;
  wn_there o : off <= o < off + Z.of_nat (length src) -> file_addr (k_view s') ip' (o / BSIZE) <> 0;
  wn_new o : off <= o < off + Z.of_nat (length src) -> fbyte (k_view s') ip' o = get_byte src (Z.to_nat (o - off));
  wn_keep o : 0 <= o < MAXFILE * BSIZE -> file_addr (k_view s) ip (o / BSIZE) <> 0 ->
    ~ (off <= o < off + Z.of_nat (length src)) -> fbyte (k_view s') ip' o = fbyte (k_view s) ip o;
  wn_same : (forall o, off <= o < off + Z.of_nat (length src) -> file_addr (k_view s) ip (o / BSIZE) <> 0) -> ip' = ip }.

(** The data of block [a] is written, after bmap has returned [a]. *)
Lemma put_part pid r i ip bn s a ip' s1 o part :
  mapped_block pid r i ip bn s a ip' s1 -> 0 <= bn < MAXFILE -> i_dev ip = dev s ->
  1 <= r -> (o + length part <= Z.to_nat BSIZE)%nat -> bytes_ok part ->
  exists bp s2 s3 s4, bread (dev s) a s1 = Ok bp s2 /\
    log_write bp (upd_bufs bp (fun x => with_b_data (splice (b_data x) o part) x) s2) = Ok tt s3 /\ brelse bp s3 = Ok tt s4 /\
    writing pid (if decide (file_addr (k_view s) ip bn = 0) then r else r - 1) i ip' s4 /\
    stepped i ip' s s4 (fun b => b = ind_addr ip \/ b = a) /\
    k_view s4 (dev s, a) = splice (k_view s1 (dev s, a)) o part /\
    forall b, file_addr (k_view s4) ip' b = file_addr (k_view s1) ip' b.
Proof.
  intros [W S Eip Ha Hfa Hcs _ _] Hbn Hdv Hr Hlen Hpart. destruct (W) as [T Hf Hi Hd Hok]. pose proof (layout_inv _ Hf) as Hlo.
  pose proof (step_sb _ _ _ _ _ S) as Esb. pose proof (step_dev _ _ _ _ _ S) as Ed. pose proof (fi_dev _ Hf) as Hd0.
  assert (Ea : file_addr (k_view s1) ip' bn = a) by (rewrite Hfa by done; by rewrite decide_True).
  destruct (fo_data _ _ _ Hok bn Hbn) as [|[Hra Hu]]; [congruence|]. rewrite Ea in *.
  pose proof (icost_range s1 ip') as Hic. pose proof (fs_order _ Hf) as Hord. cbv zeta in Hord.
  destruct (t_bread pid [] (r + icost s1 ip') s1 a T) as (bp & s2 & R2 & T2 & U2).
  { by intros ?%not_elem_of_nil. } { intros [= ? _]. lia. } { apply (fi_drv _ Hf). lia. } { simpl. lia. }
  pose proof (upd_dev _ _ _ U2) as Ed2. pose proof (upd_fs _ _ _ U2) as Ef2. rewrite <- Ed2 in T2.
  set (v := splice (k_view s2 (dev s2, a)) o part). assert (Hb : block_ok (k_view s2 (dev s2, a))) by (eapply view_ok, T2).
  destruct (t_commit_pinned pid [] (r + icost s1 ip') s2 bp a v T2) as (s3 & s4 & R3 & R4 & T4 & P4 & U4).
  { lia. } { lia. } { rewrite Ed2, (upd_home _ _ _ _ U2). apply home_after_log; [done|lia]. }
  { rewrite Ed2, (upd_drv _ _ _ _ _ U2). apply (fi_drv _ Hf). lia. }
  { split; [unfold v; rewrite length_splice; [apply Hb|by rewrite (proj1 Hb)]|]. apply splice_bytes_ok; [apply Hb|done]. }
  exists bp, s2, s3, s4. rewrite <- Ed. split; [done|].
  rewrite (held_upd pid [] _ s2 bp (dev s2, a) (fun x => splice x o part) T2). fold v. split; [done|]. split; [done|].
  assert (U : upd s1 s4 (put (dev s1, a) v (k_view s1))).
  { eapply upd_view; [by eapply upd_trans|]. rewrite Ed2. intros k Hk. unfold put. clear T4. case_decide; [done|]. by apply U2. }
  assert (Hv : v = splice (k_view s1 (dev s1, a)) o part).
  { unfold v. rewrite Ed2, (up_view _ _ _ U2); [done|]. intros [= ? _]. lia. }
  pose proof (stepped_put i ip' s1 s4 a v Hf Hi U ltac:(lia)) as S4.
  assert (HV : forall n, k_view s4 (i_dev ip', n) = put (i_dev ip', file_addr (k_view s1) ip' bn) v (k_view s1) (i_dev ip', n)).
  { intros n. rewrite Ea, Hd. apply (up_view _ _ _ U). intros [= ? _]. lia. }
  destruct (put_data _ Hlo (k_view s1) (k_view s4) ip' bn v Hok Hbn ltac:(congruence) HV) as [Hok4 Hfa4].
  split; [|split; [|split]].
  - eapply writing_step; [exact W|exact S4| |done|done]. pose proof (icost_step _ _ _ _ _ ip' S4). eapply txn_weaken; [|exact T4].
    rewrite Ed2. destruct Hcs as [E|(E & _ & Hp)].
    + rewrite (decide_False (P := file_addr _ _ _ = 0)) by congruence. clear T4. case_decide; lia.
    + rewrite (decide_True (P := file_addr _ _ _ = 0)) by done. rewrite decide_True; [lia|]. rewrite Ed. by apply (up_pinned _ _ _ U2).
  - eapply stepped_trans; [exact S|exact S4|]. tauto.
  - rewrite (up_view _ _ _ U) by (intros [= ? _]; lia). unfold put. rewrite decide_True by done. exact Hv.
  - done.
Qed.

Lemma get_byte_splice l o part j : (o + length part <= length l)%nat ->
  get_byte (splice l o part) j = if decide (o <= j < o + length part)%nat then get_byte part (j - o) else get_byte l j.
Proof.
  intros Hl. unfold get_byte. case_decide.
  - by rewrite lookup_splice_in.
  - by rewrite lookup_splice_out by lia.
Qed.

(** A round that writes [part] inside block [off / BSIZE]. *)
Lemma part_written pid r r' i ip s a ip' s1 s4 off part :
  let bn := off / BSIZE in let o := Z.to_nat (off mod BSIZE) in
  mapped_block pid r i ip bn s a ip' s1 -> writing pid r' i ip' s4 -> i_dev ip = dev s ->
  file_ok (sblk s) (k_view s) ip ->
  stepped i ip' s s4 (fun b => b = ind_addr ip \/ b = a) -> k_view s4 (dev s, a) = splice (k_view s1 (dev s, a)) o part ->
  (forall b, file_addr (k_view s4) ip' b = file_addr (k_view s1) ip' b) -> block_ok (k_view s1 (dev s, a)) ->
  0 <= off < MAXFILE * BSIZE -> off mod BSIZE + Z.of_nat (length part) <= BSIZE -> part <> [] ->
  written pid r' i ip off part s ip' s4.
Proof.
  intros bn o [W S Eip Ha Hfa Hcs Hin Hsm] W4 Hdv Hok S4 Hv Hfa4 Hb Hoff Hlen Hne.
  assert (Hbn : 0 <= bn < MAXFILE) by (unfold bn; change BSIZE with 512 in *; zdiv).
  assert (Hpl : 0 < Z.of_nat (length part)) by (destruct part; simpl; [done|lia]).
  assert (Hfa' : forall b, 0 <= b < MAXFILE -> file_addr (k_view s4) ip' b = if decide (b = bn) then a else file_addr (k_view s) ip b).
  { intros b Hbr. by rewrite Hfa4, Hfa. }
  assert (Ed : i_dev ip' = dev s) by (rewrite Eip; exact Hdv).
  assert (Hmod := Z.mod_pos_bound off BSIZE ltac:(done)).
  assert (Hin_bn : forall x, off <= x < off + Z.of_nat (length part) -> x / BSIZE = bn /\ Z.to_nat (x mod BSIZE) = (o + Z.to_nat (x - off))%nat).
  { intros x Hx. unfold bn, o. change BSIZE with 512 in *. zdiv. }
  assert (Hbyte : forall x, 0 <= x -> x / BSIZE = bn -> fbyte (k_view s4) ip' x = get_byte (splice (k_view s1 (dev s, a)) o part) (Z.to_nat (x mod BSIZE))).
  { intros x Hx E. unfold fbyte. rewrite E, Hfa', decide_True, Ed, Hv by done. done. }
  assert (Hlo : (o + length part <= length (k_view s1 (dev s, a)))%nat) by (rewrite (proj1 Hb); unfold o; lia).
  split; try done.
  - eapply stepped_weaken; [exact S4|]. intros b Hu [->| ->].
    + split; [|by left]. destruct Hu as [Hr _]. pose proof (layout_inv _ (st_inv _ _ _ _ _ S)) as [_ [? _]].
      rewrite (step_sb _ _ _ _ _ S) in *. lia.
    + destruct Hcs as [E|(_ & Hn & _)]; [|done]. split; [done|]. right. by exists bn.
  - intros b Hbr Hne0. rewrite Hfa' by done. case_decide as E; [subst b|done]. by destruct Hcs as [|[? _]].
  - intros b Hbr Hmax. assert (bn < b) by (unfold bn in *; change BSIZE with 512 in *; zdiv).
    rewrite Hfa' by lia. by rewrite decide_False by lia.
  - intros b Hu [Hb0 [E|(b' & Hb' & E)]].
    + split; [done|]. left. by apply Hin.
    + split; [done|]. right. rewrite Hfa' in E by done. destruct (decide (b' = bn)) as [->|]; [|by exists b'].
      destruct Hcs as [E'|(_ & Hn & _)]; [|by subst]. exists bn. by subst.
  - intros x Hx. destruct (Hin_bn x Hx) as [-> _]. by rewrite Hfa', decide_True.
  - intros x Hx. destruct (Hin_bn x Hx) as [E1 E2]. rewrite Hbyte by (done || lia). rewrite get_byte_splice, E2 by done.
    rewrite decide_True by lia. f_equal. lia.
  - intros x Hx Hne0 Hout. destruct (Z.eq_dec (x / BSIZE) bn) as [E|E].
    + rewrite Hbyte by (done || lia). rewrite get_byte_splice by done. rewrite decide_False.
      * unfold fbyte. rewrite E in *. destruct Hcs as [Ea|[? _]]; [|done]. rewrite Ea, Hdv. f_equal.
        apply (st_frame _ _ _ _ _ S).
        -- destruct (fo_data _ _ _ Hok bn Hbn) as [|Hu]; [done|]. by rewrite Ea, Hdv in Hu.
        -- rewrite <- Ea. by apply (fo_sep _ _ _ Hok).
      * intros Hc. apply Hout. unfold o, bn in *. change BSIZE with 512 in *. zdiv.
    + assert (Hxb : 0 <= x / BSIZE < MAXFILE) by (change BSIZE with 512 in *; zdiv).
      unfold fbyte. rewrite Hfa', decide_False by done. rewrite Ed, Hdv. f_equal. apply (st_frame _ _ _ _ _ S4).
      * rewrite <- Hdv. by destruct (fo_data _ _ _ Hok _ Hxb).
      * intros [E'|E']; [by apply (fo_sep _ _ _ Hok _ Hxb Hne0)|].
        destruct Hcs as [Ea|(_ & Hn & _)].
        -- apply E, (fo_inj _ _ _ Hok); [done|done|done|]. by rewrite Ea.
        -- apply Hn. rewrite <- E', <- Hdv. by destruct (fo_data _ _ _ Hok _ Hxb).
  - intros Hall. apply Hsm. apply (Hall off). lia.
Qed.

Lemma get_byte_app l l' j : get_byte (l ++ l') j = if decide (j < length l)%nat then get_byte l j else get_byte l' (j - length l).
Proof. unfold get_byte. case_decide; [by rewrite lookup_app_l|by rewrite lookup_app_r by lia]. Qed.

Lemma written_trans pid r1 r i ip ip1 ip2 s s1 s2 off off' part rest :
  written pid r1 i ip off part s ip1 s1 -> written pid r i ip1 off' rest s1 ip2 s2 -> off' = off + Z.of_nat (length part) ->
  0 <= off -> off + Z.of_nat (length (part ++ rest)) <= MAXFILE * BSIZE -> written pid r i ip off (part ++ rest) s ip2 s2.
Proof.
  intros W1 W2 -> Hoff Hmax. rewrite length_app in Hmax.
  pose proof (wn_step _ _ _ _ _ _ _ _ _ W1) as S1. pose proof (wn_step _ _ _ _ _ _ _ _ _ W2) as S2.
  assert (Hx : forall x, 0 <= x < MAXFILE * BSIZE -> 0 <= x / BSIZE < MAXFILE) by (intros; change BSIZE with 512 in *; zdiv).
  destruct W1 as [_ _ Eip1 Old1 Aft1 Own1 Th1 New1 Keep1 Same1], W2 as [Wr _ Eip2 Old2 Aft2 Own2 Th2 New2 Keep2 Same2].
  rewrite (step_sb _ _ _ _ _ S1), (step_dev _ _ _ _ _ S1) in Own2.
  assert (Ho : forall b, in_use (sblk s) (k_view s) (dev s) b -> owns (k_view s2) ip2 b -> owns (k_view s) ip b).
  { intros b Hb Ho. apply Own1; [done|]. apply Own2; [|done]. by apply (st_used _ _ _ _ _ S1). }
  split; rewrite ?length_app; try done.
  - eapply stepped_trans; [exact S1|exact S2|]. intros b Hb [?|?]; auto.
  - by rewrite Eip2, Eip1.
  - intros bn Hbn Hne. rewrite Old2; rewrite ?Old1; done.
  - intros bn Hbn Hb. rewrite Aft2, Aft1; try done; lia.
  - intros x Hr. destruct (Z_lt_dec x (off + Z.of_nat (length part))).
    + rewrite Old2; [apply Th1; lia|apply Hx; lia|apply Th1; lia].
    + apply Th2. lia.
  - intros x Hr. rewrite get_byte_app. destruct (Z_lt_dec x (off + Z.of_nat (length part))).
    + rewrite decide_True by lia. rewrite Keep2; [apply New1; lia|lia|apply Th1; lia|lia].
    + rewrite decide_False by lia. rewrite New2 by lia. f_equal. lia.
  - intros x Hr Hne Hout. rewrite Keep2; [apply Keep1; try done; lia|done| |lia].
    rewrite Old1; [done|by apply Hx|done].
  - intros Hall. rewrite Same2; [apply Same1; intros; apply Hall; lia|]. intros x Hr.
    rewrite Old1; [apply Hall; lia|apply Hx; lia|apply Hall; lia].
Qed.

Lemma written_nil pid r i ip off s : writing pid r i ip s -> written pid r i ip off [] s ip s.
Proof.
  intros W. destruct (W) as [T Hf Hi Hd Hok]. split; try done; try (simpl; lia).
  - eapply stepped_weaken; [apply stepped_same; [done|done|apply upd_refl]|]. done.
  - by destruct ip.
Qed.

(** The cost of the blocks behind the first one does not change in a round. *)
Lemma bcost_same V V' ip ip' bn k :
  (forall b, bn <= b < bn + Z.of_nat k -> file_addr V' ip' b = file_addr V ip b) -> bcost V' ip' bn k = bcost V ip bn k.
Proof.
  revert bn. induction k as [|k IH]; intros bn Hb; [done|]. cbn [bcost]. rewrite (Hb bn) by lia.
  f_equal. apply IH. intros b Hr. apply Hb. lia.
Qed.

Lemma nblocks_step off n m : 0 <= off -> 0 < n -> m = Z.min n (BSIZE - off mod BSIZE) ->
  nblocks off n = S (nblocks (off + m) (n - m)) /\ (m < n -> (off + m) / BSIZE = off / BSIZE + 1).
Proof. intros Ho Hn ->. unfold nblocks. change BSIZE with 512. repeat case_bool; zdiv. Qed.

Lemma bcost_nonneg V ip bn k : 0 <= bcost V ip bn k.
Proof. revert bn. induction k as [|k IH]; intros bn; cbn [bcost]; [lia|]. specialize (IH (bn + 1)). case_decide; lia. Qed.

(** One round of the loop, followed by [k]. *)
Lemma write_round pid r i ip s off part (k : K Z) :
  writing pid r i ip s -> 0 <= off < MAXFILE * BSIZE -> off mod BSIZE + Z.of_nat (length part) <= BSIZE -> part <> [] ->
  bytes_ok part ->
  let c := if decide (file_addr (k_view s) ip (off / BSIZE) = 0) then 2 else 1 in c + 1 <= r ->
  let m := (let! ip := get_inode i in
            let! addr := bmap i (off / BSIZE) in
            let! bp := bread (i_dev ip) addr in
            upd_buf bp (fun x => with_b_data (splice (b_data x) (Z.to_nat (off mod BSIZE)) part) x) ;;;
            log_write bp ;;;
            brelse bp ;;;
            k) in
  m s = Panic "balloc: out of blocks" \/
  exists ip' s', m s = k s' /\ written pid (r - c) i ip off part s ip' s'.
Proof.
  intros W Hoff Hlen Hne Hpart c Hc m. subst m. destruct (W) as [T Hf Hi Hd Hok].
  assert (Hbn : 0 <= off / BSIZE < MAXFILE) by (change BSIZE with 512 in *; zdiv).
  pose proof (Z.mod_pos_bound off BSIZE ltac:(done)) as Hmod.
  rewrite (bind_ok _ _ _ _ _ (get_inode_ok _ _ _ Hi)).
  destruct (bmap_spec pid r i ip (off / BSIZE) s W Hbn) as [E|(a & ip' & s1 & E & M)].
  { unfold c in Hc. case_decide; lia. } { left. by apply bind_panic. } right. rewrite (bind_ok _ _ _ _ _ E).
  destruct (put_part pid _ i ip (off / BSIZE) s a ip' s1 (Z.to_nat (off mod BSIZE)) part M Hbn Hd) as
    (bp & s2 & s3 & s4 & R2 & R3 & R4 & W4 & S4 & Hv & Hfa4).
  { unfold c in Hc. case_decide; lia. } { lia. } { done. }
  rewrite Hd, (bind_ok _ _ _ _ _ R2). unfold upd_buf, modify. erewrite bind_ok by reflexivity.
  rewrite (bind_ok _ _ _ _ _ R3), (bind_ok _ _ _ _ _ R4). exists ip', s4. split; [done|].
  eapply part_written; try done.
  - unfold c. case_decide; [exact W4|]. by replace (r - 1) with (r - 0 - 1) by lia.
  - eapply view_ok. apply (wr_txn _ _ _ _ _ (mb_writing _ _ _ _ _ _ _ _ _ M)).
Qed.

(** A round does not change what the rest of the write costs. *)
Lemma cost_next pid r i ip ip1 s s1 off n m part : written pid r i ip off part s ip1 s1 ->
  Z.of_nat (length part) = m -> 0 <= off -> 0 < n -> m = Z.min n (BSIZE - off mod BSIZE) -> off + n <= MAXFILE * BSIZE ->
  bcost (k_view s1) ip1 ((off + m) / BSIZE) (nblocks (off + m) (n - m)) =
  bcost (k_view s) ip (off / BSIZE + 1) (nblocks (off + m) (n - m)).
Proof.
  intros W1 Hlp Hoff Hn Em Hmax. destruct (nblocks_step off n m Hoff Hn Em) as [_ Hnext].
  pose proof (Z.mod_pos_bound off BSIZE ltac:(done)) as Hmod.
  destruct (Z.eq_dec m n) as [Emn|]; [unfold nblocks; by rewrite (proj2 (Z.leb_le _ _)) by lia|].
  rewrite Hnext by lia. apply bcost_same. intros b Hb. apply (wn_after _ _ _ _ _ _ _ _ _ W1).
  - rewrite Hlp. assert (m = BSIZE - off mod BSIZE) by lia. change BSIZE with 512 in *. zdiv.
  - unfold nblocks in Hb. rewrite (proj2 (Z.leb_gt _ _)) in Hb by lia. change BSIZE with 512 in *. zdiv.
Qed.

Lemma writei_loop_spec pid i fuel : forall r ip s off src,
  writing pid r i ip s -> 0 <= off -> off + Z.of_nat (length src) <= MAXFILE * BSIZE -> bytes_ok src ->
  let c := bcost (k_view s) ip (off / BSIZE) (nblocks off (Z.of_nat (length src))) in c + 1 <= r ->
  src = [] \/ off mod BSIZE + Z.of_nat (length src) <= Z.of_nat fuel * BSIZE ->
  writei_loop fuel i off src s = Panic "balloc: out of blocks" \/
  exists ip' s', writei_loop fuel i off src s = Ok (off + Z.of_nat (length src)) s' /\
    written pid (r - c) i ip off src s ip' s'.
Proof.
  induction fuel as [|fuel IH]; intros r ip s off src W Hoff Hmax Hsrc c Hc Hfuel;
    pose proof (Z.mod_pos_bound off BSIZE ltac:(done)) as Hmod;
    (destruct (decide (src = [])) as [->|Hne];
      [right; exists ip, s; split; [cbn; by rewrite Z.add_0_r|]; unfold c; rewrite Z.sub_0_r; by apply written_nil|]).
  { destruct src; [done|]. simpl in Hfuel. destruct Hfuel; [done|]. change BSIZE with 512 in *. lia. }
  set (n := Z.of_nat (length src)) in *. set (m := Z.min n (BSIZE - off mod BSIZE)).
  assert (Hn : 0 < n) by (unfold n; destruct src; simpl; [done|lia]).
  destruct (nblocks_step off n m Hoff Hn eq_refl) as [Enb Hnext]. assert (Hm : 0 < m <= n) by (unfold m; lia).
  set (part := take (Z.to_nat m) src). assert (Hlp : Z.of_nat (length part) = m) by (unfold part; rewrite length_take; lia).
  assert (Hcat : src = part ++ drop (Z.to_nat m) src) by (symmetry; apply take_drop).
  assert (Hld : Z.of_nat (length (drop (Z.to_nat m) src)) = n - m) by (rewrite length_drop; lia).
  unfold c in *. rewrite Enb in *. cbn [bcost] in *. set (k := nblocks (off + m) (n - m)) in *.
  pose proof (bcost_nonneg (k_view s) ip (off / BSIZE + 1) k) as Hc0.
  destruct (write_round pid r i ip s off part (writei_loop fuel i (off + m) (drop (Z.to_nat m) src)) W) as [E|(ip1 & s1 & E & W1)].
  { lia. } { rewrite Hlp. unfold m. lia. } { intros E. rewrite E in Hlp. simpl in Hlp. lia. }
  { by apply Forall_take. } { lia. }
  { left. destruct src; [done|]. exact E. }
  assert (Erun : writei_loop (S fuel) i off src s = writei_loop fuel i (off + m) (drop (Z.to_nat m) src) s1)
    by (destruct src; [done|exact E]).
  assert (Hsame : bcost (k_view s1) ip1 ((off + m) / BSIZE) k = bcost (k_view s) ip (off / BSIZE + 1) k)
    by (by apply (cost_next pid (r - (if decide (file_addr (k_view s) ip (off / BSIZE) = 0) then 2 else 1)) i ip ip1 s s1 off n m part)).
  rewrite Erun. edestruct (IH (r - (if decide (file_addr (k_view s) ip (off / BSIZE) = 0) then 2 else 1)) ip1 s1 (off + m) (drop (Z.to_nat m) src))
    as [E2|(ip2 & s2 & E2 & W2)].
  { apply W1. } { lia. } { rewrite Hld. lia. } { by apply Forall_drop. } { rewrite Hld. fold k. rewrite Hsame. lia. }
  { destruct (Z.eq_dec m n); [left; apply nil_length_inv; lia|right]. destruct Hfuel as [|Hfuel]; [done|].
    assert (Em : m = BSIZE - off mod BSIZE) by (unfold m in *; lia).
    assert ((off + m) mod BSIZE = 0) as -> by (rewrite Em; change BSIZE with 512; zdiv). rewrite Hld. lia. }
  { by left. }
  right. exists ip2, s2. rewrite Hld in E2, W2. fold k in W2. rewrite Hsame in W2. split; [rewrite E2; f_equal; lia|].
  rewrite Hcat. eapply written_trans; [exact W1| |by rewrite Hlp|done|rewrite <- Hcat; done].
  by replace (r - (_ + _)) with (r - (if decide (file_addr (k_view s) ip (off / BSIZE) = 0) then 2 else 1) - bcost (k_view s) ip (off / BSIZE + 1) k) by lia.
Qed.

(** * The whole file *)
Lemma addr_fits V sb0 ip bn : layout_ok sb0 -> file_ok sb0 V ip -> 0 <= bn < MAXFILE -> 0 <= file_addr V ip bn < 2 ^ 32.
Proof. intros [_ [? ?]] Hok Hbn. destruct (fo_data _ _ _ Hok bn Hbn) as [->|[? _]]; lia. Qed.

Lemma addrs_fit V sb0 ip : layout_ok sb0 -> file_ok sb0 V ip -> Forall (fun a => u32 a = a) (i_addrs ip).
Proof.
  intros Hlo Hok. apply Forall_lookup. intros j a Hj. pose proof (lookup_lt_Some _ _ _ Hj) as Hlt. rewrite (fo_len _ _ _ Hok) in Hlt.
  apply u32_small. destruct (decide (j = Z.to_nat NDIRECT)) as [->|].
  - destruct Hlo as [_ [? ?]], (fo_ind _ _ _ Hok) as [E|[[E _] _]]; unfold ind_addr in E; rewrite Hj in E; simpl in E; lia.
  - pose proof (addr_fits V sb0 ip (Z.of_nat j) Hlo Hok) as Ha. unfold file_addr in Ha. unfold NDIRECT in *.
    rewrite (proj2 (Z.ltb_lt _ _)), Nat2Z.id, Hj in Ha by lia. apply Ha. change MAXFILE with 140. lia.
Qed.

(** Blocks outside the bitmap and the data area do not matter. *)
Lemma file_ok_agree V V' sb0 ip : layout_ok sb0 -> file_ok sb0 V ip ->
  (forall b, sb_bmapstart sb0 <= b -> V' (i_dev ip, b) = V (i_dev ip, b)) ->
  file_ok sb0 V' ip /\ (forall bn, file_addr V' ip bn = file_addr V ip bn) /\
  (forall o, 0 <= o < MAXFILE * BSIZE -> file_addr V ip (o / BSIZE) <> 0 -> fbyte V' ip o = fbyte V ip o).
Proof.
  intros Hlo [Hl Hs Hd Hi Hinj Hsep Hfull] HV. pose proof (lo_order _ Hlo) as Ho.
  assert (Hfa : forall bn, file_addr V' ip bn = file_addr V ip bn).
  { intros bn. unfold file_addr. destruct (Z.eqb_spec (ind_addr ip) 0); [done|]. rewrite HV; [done|].
    destruct Hi as [|[[? _] _]]; [done|lia]. }
  assert (Hu : forall b, in_use sb0 V (i_dev ip) b -> in_use sb0 V' (i_dev ip) b).
  { intros b [Hb Hu]. split; [done|]. unfold used. rewrite HV; [done|]. apply (lo_bmap _ Hlo). lia. }
  split; [|split; [done|]].
  - split; try done.
    + intros b Hb. rewrite Hfa. destruct (Hd b Hb); [by left|right; auto].
    + destruct Hi as [|[Hi Hb]]; [by left|right]. rewrite HV by (destruct Hi; lia). auto.
    + intros b b'. rewrite !Hfa. apply Hinj.
    + intros b. rewrite Hfa. apply Hsep.
    + intros b. rewrite Hfa. apply Hfull.
  - intros o Hr Hne. unfold fbyte. rewrite Hfa, HV; [done|].
    destruct (Hd (o / BSIZE)) as [|[? _]]; [change BSIZE with 512 in *; zdiv|done|lia].
Qed.

Lemma fbyte_file V sb0 ip o : file_ok sb0 V ip -> 0 <= o < i_size ip -> file_byte V ip o = fbyte V ip o.
Proof.
  intros Hok Ho. unfold file_byte, fbyte. do 3 f_equal. pose proof (fo_full _ _ _ Hok (o / BSIZE)) as Hf.
  unfold addr_of, file_addr in *. destruct (o / BSIZE <? NDIRECT); [done|].
  destruct (Z.eqb_spec (ind_addr ip) 0); [|done]. destruct Hf; change BSIZE with 512; [zdiv|zdiv|done].
Qed.

Lemma length_file_bytes V ip off n : length (file_bytes V ip off n) = Z.to_nat n.
Proof. unfold file_bytes. by rewrite length_fmap, length_seq. Qed.

Lemma lookup_file_bytes V ip n j : (j < Z.to_nat n)%nat -> file_bytes V ip 0 n !! j = Some (file_byte V ip (Z.of_nat j)).
Proof. intros Hj. unfold file_bytes. by rewrite list_lookup_fmap, lookup_seq_lt by done. Qed.

Lemma file_bytes_agree V V' sb0 ip : file_ok sb0 V ip -> file_ok sb0 V' ip ->
  (forall o, 0 <= o < MAXFILE * BSIZE -> file_addr V ip (o / BSIZE) <> 0 -> fbyte V' ip o = fbyte V ip o) ->
  file_bytes V' ip 0 (i_size ip) = file_bytes V ip 0 (i_size ip).
Proof.
  intros Hok Hok' Hby. pose proof (fo_size _ _ _ Hok) as Hs. unfold file_bytes. apply list_fmap_ext.
  intros j x Hx. apply lookup_seq in Hx as [-> Hj]. cbn [Nat.add Z.add].
  assert (Ho : 0 <= Z.of_nat j < i_size ip) by lia. rewrite (fbyte_file V' sb0), (fbyte_file V sb0) by done.
  apply Hby; [lia|]. apply (fo_full _ _ _ Hok); change BSIZE with 512; zdiv.
Qed.

(** The contents of the file before and after. *)
Lemma contents_spliced V V' sb0 ip ip' off src :
  file_ok sb0 V ip -> file_ok sb0 V' ip' -> 0 <= off <= i_size ip -> off + Z.of_nat (length src) <= MAXFILE * BSIZE ->
  i_size ip' = Z.max (i_size ip) (off + Z.of_nat (length src)) ->
  (forall o, off <= o < off + Z.of_nat (length src) -> fbyte V' ip' o = get_byte src (Z.to_nat (o - off))) ->
  (forall o, 0 <= o < MAXFILE * BSIZE -> file_addr V ip (o / BSIZE) <> 0 ->
    ~ (off <= o < off + Z.of_nat (length src)) -> fbyte V' ip' o = fbyte V ip o) ->
  file_bytes V' ip' 0 (i_size ip') = splice (file_bytes V ip 0 (i_size ip)) (Z.to_nat off) src.
Proof.
  intros Hok Hok' Hoff Hmax Es Hnew Hkeep. pose proof (fo_size _ _ _ Hok) as Hs. apply list_eq. intros j.
  rewrite lookup_splice by (rewrite length_file_bytes; lia).
  destruct (decide (j < Z.to_nat (i_size ip'))%nat) as [Hj|Hj].
  - rewrite lookup_file_bytes by done. rewrite (fbyte_file V' sb0) by (done || lia). case_decide as Hr.
    + rewrite Hnew by lia. replace (Z.to_nat (Z.of_nat j - off)) with (j - Z.to_nat off)%nat by lia.
      unfold get_byte. destruct (lookup_lt_is_Some_2 src (j - Z.to_nat off)) as [x Hx]; [lia|]. by rewrite Hx.
    + rewrite lookup_file_bytes by lia. rewrite (fbyte_file V sb0) by (done || lia). rewrite Hkeep; try done; try lia.
      apply (fo_full _ _ _ Hok); change BSIZE with 512; zdiv.
  - rewrite lookup_ge_None_2 by (rewrite length_file_bytes; lia). rewrite decide_False by lia.
    symmetry. apply lookup_ge_None_2. rewrite length_file_bytes. lia.
Qed.

(** What a write of [src] at [off] does to the file system. *)
Record wrote_file (pid r : Z) (i : nat) (ip : inode) (off : Z) (src : list Z) (s : kstate) (ip' : inode) (s' : kstate) : Prop := mk_wrote_file {
  wt_txn : txn pid [] r s';
  wt_inv : fs_inv s';
  wt_fs : k_fs s' = with_inodes (<[i := ip']> (inodes (k_fs s))) (k_fs s);
  wt_ip : ip' = with_i_size (i_size ip') (with_i_addrs (i_addrs ip') ip);
  wt_ok : file_ok (sblk s) (k_view s') ip';
  (** the file has grown if needed, and has the new bytes *)
  wt_size : i_size ip' = Z.max (i_size ip) (off + Z.of_nat (length src));
  wt_bytes : file_bytes (k_view s') ip' 0 (i_size ip') =
    splice (file_bytes (k_view s) ip 0 (i_size ip)) (Z.to_nat off) src;
  (** the inode on the disk follows the one in memory *)
  wt_dinode : dinode_at (k_view s) (dev s) (sblk s) (i_inum ip) = inode_dinode ip ->
    dinode_at (k_view s') (dev s) (sblk s) (i_inum ip) = inode_dinode ip';
  (** other inodes, and the blocks of other files, are as before *)
  wt_inodes inum : 0 <= inum < sb_ninodes (sblk s) -> inum <> i_inum ip ->
    dinode_at (k_view s') (dev s) (sblk s) inum = dinode_at (k_view s) (dev s) (sblk s) inum;
  wt_frame b : in_use (sblk s) (k_view s) (dev s) b -> ~ owns (k_view s) ip b ->
    in_use (sblk s) (k_view s') (dev s) b /\ k_view s' (dev s, b) = k_view s (dev s, b);
  (** apart from this only the cache and the log in memory change: nothing is on the
      disk before the transaction commits *)
  wt_upd : upd s (set_fs (k_fs s) s') (k_view s') }.

Lemma stepped_inodes i ip' s s' own inum : stepped i ip' s s' own -> fs_inv s -> 0 <= inum < sb_ninodes (sblk s) ->
  dinode_at (k_view s') (dev s) (sblk s) inum = dinode_at (k_view s) (dev s) (sblk s) inum.
Proof.
  intros S Hf Hin. unfold dinode_at. f_equal. apply (st_meta _ _ _ _ _ S). by apply inode_block.
Qed.

(** The size has not changed: no block was added. *)
Lemma wrote_inside pid r i ip off src s ip' s' :
  written pid r i ip off src s ip' s' -> fs_inv s -> file_ok (sblk s) (k_view s) ip ->
  0 <= i_inum ip < sb_ninodes (sblk s) -> 0 <= off -> off + Z.of_nat (length src) <= i_size ip ->
  wrote_file pid r i ip off src s ip' s'.
Proof.
  intros W Hf Hok Hin Hoff Hle. destruct W as [Wr S Eip Hold _ _ Hth Hnew Hkeep Hsame].
  assert (ip' = ip) as ->.
  { apply Hsame. intros o Ho. apply (fo_full _ _ _ Hok); change BSIZE with 512; zdiv. }
  pose proof (fo_size _ _ _ Hok) as Hs. pose proof (wr_ok _ _ _ _ _ Wr) as Hok'. rewrite (step_sb _ _ _ _ _ S) in Hok'.
  split; try done.
  - eapply txn_weaken; [|apply Wr]. pose proof (icost_range s' ip). lia.
  - apply S.
  - apply S.
  - lia.
  - eapply contents_spliced; try done; lia.
  - intros <-. by apply (stepped_inodes i ip s s' (owns (k_view s) ip)).
  - intros inum Hi _. by apply (stepped_inodes i ip s s' (owns (k_view s) ip)).
  - intros b Hb Hn. split; [by apply S|]. by apply (st_frame _ _ _ _ _ S).
  - apply S.
Qed.

Lemma file_ok_size V sb0 ip n : file_ok sb0 V ip -> 0 <= n <= MAXFILE * BSIZE ->
  (forall bn, 0 <= bn -> bn * BSIZE < n -> file_addr V ip bn <> 0) -> file_ok sb0 V (with_i_size n ip).
Proof. intros [Hl Hs Hd Hi Hinj Hsep Hfull] Hn Hf. by split. Qed.

Lemma grown_ok pid r i ip off src s ip' s' : written pid r i ip off src s ip' s' -> file_ok (sblk s) (k_view s) ip ->
  0 <= off <= i_size ip -> i_size ip < off + Z.of_nat (length src) <= MAXFILE * BSIZE ->
  file_ok (sblk s) (k_view s') (with_i_size (off + Z.of_nat (length src)) ip').
Proof.
  intros W Hok Hoff Hn. pose proof (wn_step _ _ _ _ _ _ _ _ _ W) as S. pose proof (wr_ok _ _ _ _ _ (wn_writing _ _ _ _ _ _ _ _ _ W)) as Hok'.
  rewrite (step_sb _ _ _ _ _ S) in Hok'. apply file_ok_size; [done|lia|]. intros bn Hbn Hlt.
  destruct (Z_lt_dec (bn * BSIZE) (i_size ip)).
  - rewrite (wn_old _ _ _ _ _ _ _ _ _ W); [by apply (fo_full _ _ _ Hok)| |by apply (fo_full _ _ _ Hok)].
    change BSIZE with 512 in *. lia.
  - pose proof (wn_there _ _ _ _ _ _ _ _ _ W (bn * BSIZE) ltac:(lia)) as Hth. by rewrite Z.div_mul in Hth.
Qed.

Lemma grown_bytes pid r i ip off src s ip1 s1 V :
  let n := off + Z.of_nat (length src) in
  written pid r i ip off src s ip1 s1 -> file_ok (sblk s) (k_view s) ip -> file_ok (sblk s) V (with_i_size n ip1) ->
  0 <= off <= i_size ip -> i_size ip < n <= MAXFILE * BSIZE ->
  (forall o, 0 <= o < MAXFILE * BSIZE -> file_addr (k_view s1) ip1 (o / BSIZE) <> 0 -> fbyte V (with_i_size n ip1) o = fbyte (k_view s1) ip1 o) ->
  file_bytes V (with_i_size n ip1) 0 n = splice (file_bytes (k_view s) ip 0 (i_size ip)) (Z.to_nat off) src.
Proof.
  intros n W Hok Hok' Hoff Hn Hby. destruct W as [_ _ _ Hold _ _ Hth Hnew Hkeep _].
  apply (contents_spliced (k_view s) V (sblk s) ip (with_i_size n ip1) off src); try done.
  - apply Hn.
  - cbn. unfold n in *. lia.
  - intros o Ho. rewrite Hby; [by apply Hnew|lia|by apply Hth].
  - intros o Ho Hne Hout. rewrite Hby; [by apply Hkeep|done|].
    rewrite Hold; [done|change BSIZE with 512 in *; zdiv|done].
Qed.

(** iupdate writes the inode [ip'] and no other. *)
Lemma dinode_put V V' dv sb0 inum d : block_ok (V (dv, IBLOCK inum sb0)) -> dinode_ok d ->
  (forall b, V' (dv, b) = put (dv, IBLOCK inum sb0) (set_dinode (V (dv, IBLOCK inum sb0)) inum d) V (dv, b)) ->
  dinode_at V' dv sb0 inum = d /\
  forall j, 0 <= j -> 0 <= inum -> j <> inum -> dinode_at V' dv sb0 j = dinode_at V dv sb0 j.
Proof.
  intros Hb Hd HV. split; [|intros j Hj Hi Hne]; unfold dinode_at; rewrite HV; unfold put.
  - rewrite decide_True by done. by apply get_set_dinode.
  - case_decide as E; [|done]. injection E as E. rewrite E. apply get_set_dinode_ne; [done|done|].
    unfold IBLOCK in E. change IPB with 8 in *. intros Em. apply Hne.
    pose proof (Z.div_mod j 8). pose proof (Z.div_mod inum 8). lia.
Qed.

(** The file has grown: its new size is recorded. *)
Lemma wrote_grown pid r i ip off src s ip1 s1 :
  let n := off + Z.of_nat (length src) in
  written pid r i ip off src s ip1 s1 -> fs_inv s -> inodes (k_fs s) !! i = Some ip -> i_dev ip = dev s ->
  file_ok (sblk s) (k_view s) ip -> 0 <= i_inum ip < sb_ninodes (sblk s) -> dinode_ok (inode_dinode ip) -> 1 <= r ->
  0 <= off <= i_size ip -> i_size ip < n <= MAXFILE * BSIZE ->
  exists s', iupdate i (upd_inodes i (with_i_size n) s1) = Ok tt s' /\
    wrote_file pid (r - 1) i ip off src s (with_i_size n ip1) s'.
Proof.
  intros n W Hf Hi Hdv Hok Hin Hdi Hr Hoff Hn. pose proof (wn_step _ _ _ _ _ _ _ _ _ W) as S1.
  pose proof (grown_ok _ _ _ _ _ _ _ _ _ W Hok Hoff Hn) as Hok2. fold n in Hok2. set (ip2 := with_i_size n ip1) in *.
  pose proof (wn_writing _ _ _ _ _ _ _ _ _ W) as Wr. pose proof (wn_ip _ _ _ _ _ _ _ _ _ W) as Eip. pose proof (fi_dev _ Hf) as Hd0.
  assert (S2 : stepped i ip2 s (upd_inodes i (with_i_size n) s1) (owns (k_view s) ip)).
  { eapply stepped_trans; [exact S1|apply (stepped_inode i (with_i_size n) ip1)|]; [apply S1|apply Wr|]. tauto. }
  set (s2 := upd_inodes i (with_i_size n) s1) in *.
  pose proof (step_sb _ _ _ _ _ S2) as Esb. pose proof (step_dev _ _ _ _ _ S2) as Ed. pose proof (lookup_lt_Some _ _ _ Hi) as Hlt.
  assert (T2 : txn pid [] r s2).
  { apply txn_inode. eapply txn_weaken; [|apply Wr]. pose proof (icost_range s1 ip1). lia. }
  assert (Hlo : layout_ok (sblk s)) by (by apply layout_inv).
  assert (Efields : i_inum ip2 = i_inum ip /\ i_dev ip2 = dev s) by (unfold ip2; rewrite Eip; done). destruct Efields as [En Ev].
  assert (Hdi2 : dinode_ok (inode_dinode ip2)).
  { destruct Hdi. unfold ip2. rewrite Eip. split; try done; cbn.
    - apply u32_small. change (MAXFILE * BSIZE) with 71680 in Hn. lia.
    - apply (fo_len _ _ _ Hok2).
    - apply (addrs_fit _ _ _ Hlo Hok2). }
  destruct (iupdate_spec pid r s2 i ip2 T2 (st_inv _ _ _ _ _ S2) Hr (step_inode _ _ _ _ _ S2 Hlt)) as (s3 & R3 & T3 & U3);
    [congruence|by rewrite En, Esb|done|].
  rewrite Ed, Esb, En in U3. set (ib := IBLOCK (i_inum ip) (sblk s)) in *.
  pose proof (inode_block s (i_inum ip) Hf Hin) as Hib. fold ib in Hib.
  assert (HV : forall b, k_view s3 (dev s, b) = put (dev s, ib) (set_dinode (k_view s2 (dev s, ib)) (i_inum ip) (inode_dinode ip2)) (k_view s2) (dev s, b)).
  { intros b. apply (up_view _ _ _ U3). intros [= ? _]. lia. }
  assert (HVo : forall b, b <> ib -> k_view s3 (dev s, b) = k_view s2 (dev s, b)).
  { intros b Hb. rewrite HV. unfold put. rewrite decide_False; [done|]. congruence. }
  destruct (dinode_put (k_view s2) (k_view s3) (dev s) (sblk s) (i_inum ip) (inode_dinode ip2)) as [Hd1 Hd2]; try done.
  { eapply view_ok, T2. }
  destruct (file_ok_agree (k_view s2) (k_view s3) (sblk s) ip2 Hlo Hok2) as (Hok3 & Hfa3 & Hby3).
  { intros b Hb. rewrite Ev. apply HVo. lia. }
  exists s3. split; [done|]. split; try done.
  - apply (fs_inv_upd s2 s3 _ U3 (st_inv _ _ _ _ _ S2)).
    + rewrite Ed. unfold put. rewrite decide_False; [done|]. pose proof (fs_order s Hf) as Hord. cbv zeta in Hord. intros [= E]. lia.
    + intros b Hb. rewrite Ed, Esb in *. pose proof (fi_meta _ (st_inv _ _ _ _ _ S2) b) as Hm. rewrite Ed, Esb in Hm.
      rewrite <- (Hm Hb). unfold used, put. rewrite decide_False; [done|].
      pose proof (lo_bmap _ Hlo b). pose proof (fi_bmap _ Hf). intros [= E]. lia.
  - rewrite (upd_fs _ _ _ U3). apply S2.
  - unfold ip2. rewrite Eip. done.
  - cbn. lia.
  - by apply (grown_bytes pid r i ip off src s ip1 s1).
  - intros inum Hinum Hne. rewrite Hd2 by lia. by apply (stepped_inodes i ip2 s s2 (owns (k_view s) ip)).
  - intros b Hb Hnb. destruct Hlo as [Hl1 Hl2]. destruct (Hb) as [Hr1 _].
    split; [|rewrite HVo by lia; by apply (st_frame _ _ _ _ _ S2)].
    destruct (st_used _ _ _ _ _ S2 b Hb) as [_ Hu]. split; [done|]. unfold used in *.
    pose proof (Hl1 b). rewrite HVo by lia. done.
  - eapply upd_view; [exact (upd_set_fs s s2 s3 _ _ (k_fs s) (st_upd _ _ _ _ _ S2) U3)|].
    intros k Hk. symmetry. by apply (up_view _ _ _ U3).
Qed.

Lemma writei_guard ip off n : 0 <= off < 2 ^ 32 -> 0 <= n < 2 ^ 32 -> i_size ip < 2 ^ 31 ->
  (i_size ip <? off) || (u32 (off + n) <? off) = true -> ~ (off <= i_size ip /\ off + n <= MAXFILE * BSIZE).
Proof.
  intros Ho Hn Hs E [H1 H2]. change (MAXFILE * BSIZE) with 71680 in H2. rewrite u32_small in E by lia.
  apply orb_true_iff in E. rewrite !Z.ltb_lt in E. lia.
Qed.

Lemma writei_spec pid r s i ip off src :
  let n := Z.of_nat (length src) in let c := bcost (k_view s) ip (off / BSIZE) (nblocks off n) in
  txn pid [] r s -> fs_inv s -> inodes (k_fs s) !! i = Some ip -> i_dev ip = dev s ->
  file_ok (sblk s) (k_view s) ip -> 0 <= i_inum ip < sb_ninodes (sblk s) -> dinode_ok (inode_dinode ip) ->
  i_type ip <> T_DEV -> 0 <= off < 2 ^ 32 -> n < 2 ^ 32 -> bytes_ok src -> c + 3 <= r ->
  if decide (off <= i_size ip /\ off + n <= MAXFILE * BSIZE) then
    writei i src off s = Panic "balloc: out of blocks" \/
    exists ip' s', writei i src off s = Ok n s' /\ wrote_file pid (r - c - 3) i ip off src s ip' s'
  else writei i src off s = Ok (-1) s.
Proof.
  intros n c T Hf Hi Hdv Hok Hin Hdi Hty Hoff Hn Hsrc Hc. pose proof (fo_size _ _ _ Hok) as Hs.
  unfold writei. fold n. rewrite (bind_ok _ _ _ _ _ (get_inode_ok _ _ _ Hi)), (proj2 (Z.eqb_neq _ _)) by done.
  pose proof (writei_guard ip off n Hoff ltac:(lia) ltac:(change (MAXFILE * BSIZE) with 71680 in Hs; lia)) as Hg.
  destruct ((i_size ip <? off) || (u32 (off + n) <? off)) eqn:Eg.
  { rewrite decide_False by auto. done. }
  apply orb_false_iff in Eg as [E1 _]. apply Z.ltb_ge in E1.
  destruct (Z.ltb_spec (MAXFILE * BSIZE) (off + n)); [by rewrite decide_False by lia|]. rewrite decide_True by lia.
  assert (W : writing pid (r - 2) i ip s).
  { split; try done. eapply txn_weaken; [|exact T]. pose proof (icost_range s ip). lia. }
  destruct (writei_loop_spec pid i (io_fuel n) (r - 2) ip s off src W) as [E|(ip1 & s1 & E & Wn)]; fold n; try done; try lia.
  { right. unfold io_fuel. pose proof (Z.mod_pos_bound off BSIZE). change BSIZE with 512 in *. zdiv. }
  { fold n in E. left. by apply bind_panic. }
  fold n c in E, Wn. right. rewrite (bind_ok _ _ _ _ _ E).
  pose proof (wr_inode _ _ _ _ _ (wn_writing _ _ _ _ _ _ _ _ _ Wn)) as Hi1. rewrite (bind_ok _ _ _ _ _ (get_inode_ok _ _ _ Hi1)).
  assert (i_size ip1 = i_size ip) as -> by (rewrite (wn_ip _ _ _ _ _ _ _ _ _ Wn); done).
  destruct (Z_lt_dec (i_size ip) (off + n)).
  - assert ((0 <? n) && (i_size ip <? off + n) = true) as -> by (rewrite andb_true_iff, !Z.ltb_lt; lia). cbn [when].
    destruct (wrote_grown pid _ i ip off src s ip1 s1 Wn Hf Hi Hdv Hok Hin Hdi) as (s' & R & Wf); fold n; [lia..|].
    exists (with_i_size (off + n) ip1), s'. fold n in R, Wf. split.
    + rewrite (bind_ok _ _ s1 tt s'); [done|]. unfold upd_inode, modify. erewrite bind_ok by reflexivity. exact R.
    + by replace (r - c - 3) with (r - 2 - c - 1) by lia.
  - rewrite (proj2 (Z.ltb_ge (i_size ip) _)), andb_false_r by lia. cbn [when]. erewrite bind_ok by reflexivity.
    exists ip1, s1. split; [done|]. destruct (wrote_inside pid _ i ip off src s ip1 s1 Wn Hf Hok Hin) as []; fold n; try lia.
    split; try done. eapply txn_weaken; [|done]. lia.
Qed.

Lemma bcost_le V ip bn k : bcost V ip bn k <= 2 * Z.of_nat k.
Proof. revert bn. induction k as [|k IH]; intros bn; cbn [bcost]; [lia|]. specialize (IH (bn + 1)). case_decide; lia. Qed.

(** A chunk takes at most the log space of one operation: if it is not aligned it
    touches one block more, but its first block is there already. *)
Lemma chunk_fits V sb0 ip off n : file_ok sb0 V ip -> 0 <= off <= i_size ip -> 0 <= n <= max_write ->
  bcost V ip (off / BSIZE) (nblocks off n) + 3 <= MAXOPBLOCKS.
Proof.
  intros Hok Hoff Hn. change max_write with 1536 in Hn. change MAXOPBLOCKS with 10. unfold nblocks.
  destruct (n <=? 0) eqn:E0; [cbn; lia|]. apply Z.leb_gt in E0. set (k := Z.to_nat _). change BSIZE with 512 in *.
  destruct (Z.eq_dec (off mod 512) 0).
  - pose proof (bcost_le V ip (off / 512) k). assert (k <= 3)%nat by (unfold k; zdiv). lia.
  - assert (Hk : (k <= 4)%nat) by (unfold k; zdiv). destruct k as [|k]; [cbn; lia|]. cbn [bcost].
    pose proof (bcost_le V ip (off / 512 + 1) k). rewrite decide_False; [lia|].
    apply (fo_full _ _ _ Hok); change BSIZE with 512; zdiv.
Qed.

Lemma writei_chunk pid r s i ip off src :
  txn pid [] r s -> fs_inv s -> inodes (k_fs s) !! i = Some ip -> i_dev ip = dev s ->
  file_ok (sblk s) (k_view s) ip -> 0 <= i_inum ip < sb_ninodes (sblk s) -> dinode_ok (inode_dinode ip) ->
  i_type ip <> T_DEV -> 0 <= off < 2 ^ 32 -> bytes_ok src -> Z.of_nat (length src) <= max_write -> MAXOPBLOCKS <= r ->
  if decide (off <= i_size ip /\ off + Z.of_nat (length src) <= MAXFILE * BSIZE) then
    writei i src off s = Panic "balloc: out of blocks" \/
    exists ip' s', writei i src off s = Ok (Z.of_nat (length src)) s' /\
      wrote_file pid (r - MAXOPBLOCKS) i ip off src s ip' s'
  else writei i src off s = Ok (-1) s.
Proof.
  intros T Hf Hi Hdv Hok Hin Hdi Hty Hoff Hsrc Hn Hr. destruct (Z_le_dec off (i_size ip)).
  - pose proof (chunk_fits (k_view s) (sblk s) ip off (Z.of_nat (length src)) Hok ltac:(lia) ltac:(lia)) as Hc.
    pose proof (writei_spec pid r s i ip off src T Hf Hi Hdv Hok Hin Hdi Hty Hoff ltac:(change max_write with 1536 in Hn; lia) Hsrc ltac:(lia)) as W.
    cbv zeta in W. case_decide; [|done]. destruct W as [|(ip' & s' & E & W)]; [by left|right]. exists ip', s'. split; [done|].
    destruct W. split; try done. eapply txn_weaken; [|done]. lia.
  - rewrite decide_False by tauto. unfold writei. rewrite (bind_ok _ _ _ _ _ (get_inode_ok _ _ _ Hi)), (proj2 (Z.eqb_neq _ _)) by done.
    by rewrite (proj2 (Z.ltb_lt _ _)) by lia.
Qed.

End writei.
