(* ===== verification/FsDir.v ===== *)
(** Directories: dirlookup and dirlink (fs.c).

    A directory is a file of entries of 16 bytes.  [dirmap] is the map from names to
    inode numbers that it stands for: dirlookup looks a name up in this map, and dirlink
    adds one to it.  Names are compared up to their first NUL and DIRSIZ characters. *)

From S2P Require Import Prelude Layout CString State Spinlock Sched Sleeplock Ring Memide Bio Session Log LogDisk LogSafe LogTxn Txn Fs FsAlloc FsInode FsBmap FsNames File FsWrite.
Local Open Scope kernel_scope.

(** * Directories as maps *)

(** The entries of a directory with contents [bs]. *)
Definition dents (bs : list Z) : list (list Z) := (fun k => slice (16 * k) 16 bs) <$> seq 0 (length bs / 16).

(** The part of a name that counts. *)
Definition canon (name : list Z) : list Z := cstr (Z.to_nat DIRSIZ) name.

Definition dirmap_of (es : list (list Z)) : gmap (list Z) Z :=
  list_to_map ((fun de => (canon (de_name de), de_inum de)) <$> filter (fun de => de_inum de <> 0) es).
Definition dirmap (bs : list Z) : gmap (list Z) Z := dirmap_of (dents bs).

(** The entry that dirlookup finds, and the one that dirlink fills. *)
Fixpoint find_entry (name : list Z) (es : list (list Z)) (k : nat) : option (nat * Z) :=
  match es with
  | [] => None
  | de :: es' =>
      if negb (de_inum de =? 0) && (namecmp name (de_name de) =? 0) then Some (k, de_inum de) else find_entry name es' (S k)
  end.
Fixpoint find_free (es : list (list Z)) (k : nat) : nat :=
  match es with
  | [] => k
  | de :: es' => if de_inum de =? 0 then k else find_free es' (S k)
  end.

Lemma dirmap_cons de es : dirmap_of (de :: es) =
  if decide (de_inum de = 0) then dirmap_of es else <[canon (de_name de) := de_inum de]> (dirmap_of es).
Proof.
  unfold dirmap_of. destruct (decide (de_inum de = 0)) as [E|E].
  - rewrite filter_cons_False by tauto. done.
  - rewrite filter_cons_True by done. done.
Qed.

Lemma namecmp_canon s t : bytes_ok s -> bytes_ok t -> namecmp s t = 0 <-> canon s = canon t.
Proof. apply strncmp_cstr. Qed.

Lemma de_name_ok de : bytes_ok de -> bytes_ok (de_name de).
Proof. apply slice_bytes_ok. Qed.

(** Searching the entries is looking the name up in the map. *)
Lemma find_entry_map name es k : bytes_ok name -> Forall bytes_ok es -> snd <$> find_entry name es k = dirmap_of es !! canon name.
Proof.
  intros Hn Hes. revert k. induction Hes as [|de es Hde Hes IH]; intros k; [done|]. cbn [find_entry]. rewrite dirmap_cons.
  destruct (Z.eqb_spec (de_inum de) 0); case_decide; try done; cbn [negb andb]; [apply IH|].
  pose proof (namecmp_canon name (de_name de) Hn (de_name_ok _ Hde)) as Hc. destruct (Z.eqb_spec (namecmp name (de_name de)) 0) as [E|E].
  - apply Hc in E. by rewrite E, lookup_insert_eq.
  - rewrite lookup_insert_ne by (intros ?; by apply E, Hc). apply IH.
Qed.

Lemma find_entry_at name es k j n : find_entry name es k = Some (j, n) -> exists i de, j = (k + i)%nat /\ es !! i = Some de /\ de_inum de = n.
Proof.
  revert k. induction es as [|de es IH]; intros k E; [done|]. cbn [find_entry] in E. destruct (_ && _).
  - injection E as <- <-. exists 0%nat, de. split; [lia|done].
  - destruct (IH _ E) as (i & de' & -> & Hi & Hn). exists (S i), de'. split; [lia|done].
Qed.

Lemma find_free_at es k : exists i, find_free es k = (k + i)%nat /\ (i <= length es)%nat /\
  forall de, es !! i = Some de -> de_inum de = 0.
Proof.
  revert k. induction es as [|de es IH]; intros k; cbn [find_free]; [exists 0%nat; by split; [lia|]|].
  destruct (Z.eqb_spec (de_inum de) 0) as [E|E].
  - exists 0%nat. split; [lia|]. split; [lia|]. by intros de' [= <-].
  - destruct (IH (S k)) as (i & -> & Hi & Hd). exists (S i). split; [lia|]. cbn [length]. split; [lia|done].
Qed.

(** Filling an unused entry, or adding one behind the last, adds the name to the map. *)
Lemma dirmap_fill es i de : (forall de', es !! i = Some de' -> de_inum de' = 0) -> (i <= length es)%nat ->
  de_inum de <> 0 -> dirmap_of es !! canon (de_name de) = None ->
  dirmap_of (take i es ++ de :: drop (S i) es) = <[canon (de_name de) := de_inum de]> (dirmap_of es).
Proof.
  revert i. induction es as [|de0 es IH]; intros i H0 Hi Hde Hno.
  - assert (i = 0%nat) as -> by (simpl in Hi; lia). change (dirmap_of [de] = <[canon (de_name de) := de_inum de]> (dirmap_of [])).
    rewrite dirmap_cons, decide_False by done. done.
  - destruct i as [|i].
    + cbn [take drop app]. rewrite drop_0, dirmap_cons, decide_False by done. rewrite dirmap_cons, decide_True by (by apply H0). done.
    + cbn [take drop app]. rewrite dirmap_cons in Hno. rewrite !dirmap_cons. destruct (decide (de_inum de0 = 0)).
      * apply IH; try done. simpl in Hi. lia.
      * destruct (decide (canon (de_name de0) = canon (de_name de))) as [E|E]; [rewrite E, lookup_insert_eq in Hno; done|].
        rewrite lookup_insert_ne in Hno by done. rewrite IH; try done; [|simpl in Hi; lia]. by rewrite insert_insert_ne.
Qed.

(** ** The entries in the bytes of the file *)
Lemma length_dents bs : length (dents bs) = (length bs / 16)%nat.
Proof. unfold dents. by rewrite length_fmap, length_seq. Qed.

Lemma lookup_dents bs k : (k < length bs / 16)%nat -> dents bs !! k = Some (slice (16 * k) 16 bs).
Proof. intros Hk. unfold dents. by rewrite list_lookup_fmap, lookup_seq_lt by done. Qed.

Lemma dents_ok bs : bytes_ok bs -> Forall bytes_ok (dents bs).
Proof. intros Hb. apply Forall_fmap, List.Forall_forall. intros k _. by apply slice_bytes_ok. Qed.

Lemma slice_splice_entry (bs de : list Z) k i : (16 * k <= length bs)%nat -> length de = 16%nat ->
  slice (16 * i) 16 (splice bs (16 * k) de) = if decide (i = k) then de else slice (16 * i) 16 bs.
Proof.
  intros Hk Hde. apply list_eq. intros j. unfold slice. destruct (decide (j < 16)%nat).
  - rewrite lookup_take_lt, lookup_drop, lookup_splice by lia. case_decide as E.
    + subst. rewrite decide_True by lia. f_equal. lia.
    + rewrite decide_False by lia. by rewrite lookup_take_lt, lookup_drop by lia.
  - rewrite lookup_take_ge by lia. case_decide; [rewrite lookup_ge_None_2 by lia; done|by rewrite lookup_take_ge by lia].
Qed.

Lemma dents_splice bs de k n : length bs = (16 * n)%nat -> (k <= n)%nat -> length de = 16%nat ->
  dents (splice bs (16 * k) de) = take k (dents bs) ++ de :: drop (S k) (dents bs).
Proof.
  intros Hn Hk Hde. assert (Hd : (length bs / 16 = n)%nat) by (rewrite Hn, Nat.mul_comm; by apply Nat.div_mul).
  assert (Hl : (length (splice bs (16 * k) de) / 16 = n `max` S k)%nat).
  { assert (El : length (splice bs (16 * k) de) = ((n `max` S k) * 16)%nat).
    { unfold splice. rewrite !length_app, length_take, length_drop, Hde, Hn. lia. }
    rewrite El. by apply Nat.div_mul. }
  apply list_eq. intros i. destruct (decide (i < n `max` S k)%nat) as [Hi|Hi].
  - rewrite lookup_dents by lia. rewrite slice_splice_entry by lia. case_decide as E.
    + subst i. rewrite lookup_app_r by (rewrite length_take; lia). rewrite length_take, length_dents, Hd. by rewrite Nat.min_l, Nat.sub_diag by lia.
    + destruct (decide (i < k)%nat).
      * rewrite lookup_app_l, lookup_take_lt, lookup_dents by (rewrite ?length_take, ?length_dents; lia). done.
      * rewrite lookup_app_r by (rewrite length_take; lia). rewrite length_take, length_dents, Hd, Nat.min_l by lia.
        replace (i - k)%nat with (S (i - S k)) by lia. change ((de :: drop (S k) (dents bs)) !! S (i - S k)) with (drop (S k) (dents bs) !! (i - S k)%nat). rewrite lookup_drop.
        replace (S k + (i - S k))%nat with i by lia. by rewrite lookup_dents by lia.
  - rewrite !lookup_ge_None_2; [done| |by rewrite length_dents; lia].
    rewrite length_app. cbn [length]. rewrite length_take, length_drop, length_dents. lia.
Qed.

Lemma mk_dirent_fields inum name : 0 <= inum < 2 ^ 16 ->
  de_inum (mk_dirent inum name) = inum /\ de_name (mk_dirent inum name) = strncpy name (Z.to_nat DIRSIZ) /\ length (mk_dirent inum name) = 16%nat.
Proof.
  intros Hi. unfold mk_dirent. split; [|split].
  - unfold de_inum, get16, slice. rewrite drop_0, take_app_le, take_ge by (by rewrite length_le_bytes). rewrite le_val_bytes. by apply Z.mod_small.
  - unfold de_name, slice. rewrite drop_app_length', take_ge by (by rewrite ?length_strncpy, ?length_le_bytes). done.
  - by rewrite length_app, length_le_bytes, length_strncpy.
Qed.

Lemma file_bytes_slice V ip n off m : 0 <= off -> 0 <= m -> off + m <= n ->
  slice (Z.to_nat off) (Z.to_nat m) (file_bytes V ip 0 n) = file_bytes V ip off m.
Proof.
  intros Ho Hm Hle. replace n with (off + (m + (n - off - m))) by lia. rewrite !file_bytes_app by lia. unfold slice.
  rewrite drop_app_length' by (by rewrite length_file_bytes). by rewrite Z.add_0_l, take_app_length' by (by rewrite length_file_bytes).
Qed.

(** * The code *)
Section dir.
Context {drv : Driver} {dsw : DevSw}.

Abbreviation dev s := (l_dev (k_log s)).
Abbreviation sblk s := (sb (k_fs s)).

(** [d], in entry [dp] of the cache, is a directory, inside a transaction. *)
Record dir_at (pid r : Z) (dp : nat) (d : inode) (s : kstate) : Prop := mk_dir_at {
  da_txn : txn pid [] r s;
  da_inv : fs_inv s;
  da_room : 0 <= r;
  da_inode : inodes (k_fs s) !! dp = Some d;
  da_dev : i_dev d = dev s;
  da_ok : file_ok (sblk s) (k_view s) d;
  da_type : i_type d = T_DIR;
  da_size : i_size d mod sizeof_dirent = 0 }.

(** The contents of the directory. *)
Definition dir_bytes (s : kstate) (d : inode) : list Z := file_bytes (k_view s) d 0 (i_size d).

Lemma file_ok_mapped s ip : fs_inv s -> file_ok (sblk s) (k_view s) ip -> mapped s ip.
Proof.
  intros Hf Hok. destruct (layout_inv s Hf) as [_ [Ho _]]. pose proof (fs_order s Hf) as Hord. cbv zeta in Hord.
  assert (Hi : NDIRECT * BSIZE < i_size ip -> ind_addr ip <> 0).
  { intros Hlt E. apply (fo_full _ _ _ Hok NDIRECT ltac:(done) Hlt). unfold file_addr. by rewrite E. }
  split; [apply Hok|apply Hok| |].
  - intros Hlt. specialize (Hi Hlt). destruct (fo_ind _ _ _ Hok) as [|[[Hr _] _]]; [done|]. change (0 < ind_addr ip < sb_size (sblk s)). lia.
  - intros bn Hbn Hlt. pose proof (fo_full _ _ _ Hok bn Hbn Hlt) as Hne. pose proof (fo_size _ _ _ Hok) as Hsz.
    assert (Hbm : bn < MAXFILE) by (change BSIZE with 512 in *; lia).
    assert (E : addr_of (k_view s) ip bn = file_addr (k_view s) ip bn).
    { unfold addr_of, file_addr in *. destruct (Z.ltb_spec bn NDIRECT); [done|].
      fold (ind_addr ip). rewrite (proj2 (Z.eqb_neq _ _)); [done|]. apply Hi. change BSIZE with 512 in *. lia. }
    rewrite E. destruct (fo_data _ _ _ Hok bn ltac:(lia)) as [|[Hr _]]; [done|lia].
Qed.

Lemma dir_at_upd pid r dp d s s' : dir_at pid r dp d s -> txn pid [] r s' -> upd s s' (k_view s) ->
  dir_at pid r dp d s' /\ dir_bytes s' d = dir_bytes s d.
Proof.
  intros [T Hf Hr Hi Hd Hok Hty Hsz] T' U. pose proof (fi_dev _ Hf) as Hd0. pose proof (upd_fs _ _ _ U) as Ef. split.
  - split; try done; rewrite ?Ef, ?(upd_dev _ _ _ U); try done; [by apply (fs_inv_same s)|].
    apply (file_ok_same s s'); [done|lia|done].
  - apply file_bytes_upd; [done|lia].
Qed.

Lemma length_dir_bytes s d : length (dir_bytes s d) = Z.to_nat (i_size d).
Proof. apply length_file_bytes. Qed.

Lemma dir_length pid r dp d s : dir_at pid r dp d s -> i_size d = 16 * Z.of_nat (length (dents (dir_bytes s d))).
Proof.
  intros [_ _ _ _ _ Hok _ Hm]. pose proof (fo_size _ _ _ Hok) as Hs. change sizeof_dirent with 16 in Hm.
  rewrite length_dents, length_dir_bytes. rewrite Nat2Z.inj_div, Z2Nat.id by lia. change (Z.of_nat 16) with 16. zdiv.
Qed.

(** Reading entry [k]. *)
Lemma read_entry pid r dp d s k : dir_at pid r dp d s -> (k < length (dents (dir_bytes s d)))%nat ->
  exists de s', readi dp (16 * Z.of_nat k) sizeof_dirent s = Ok (sizeof_dirent, de) s' /\ dents (dir_bytes s d) !! k = Some de /\
    upd s s' (k_view s) /\ dir_at pid r dp d s' /\ dir_bytes s' d = dir_bytes s d.
Proof.
  intros D Hk. pose proof (dir_length _ _ _ _ _ D) as El. pose proof D as [T Hf Hr Hi Hd Hok Hty Hm]. pose proof (fo_size _ _ _ Hok) as Hs.
  change (MAXFILE * BSIZE) with 71680 in Hs.
  pose proof (readi_spec pid r s dp d (16 * Z.of_nat k) 16 T Hf Hr Hi Hd (file_ok_mapped s d Hf Hok)) as R.
  specialize (R ltac:(by rewrite Hty) ltac:(lia) ltac:(lia)). rewrite decide_True in R by lia. cbv zeta in R.
  rewrite Z.min_l in R by lia. destruct R as (s' & R & _ & T' & U). exists (file_bytes (k_view s) d (16 * Z.of_nat k) 16), s'.
  split; [exact R|]. destruct (dir_at_upd _ _ _ _ _ _ D T' U) as [D' E']. split; [|done].
  rewrite lookup_dents by (by rewrite length_dents in Hk). f_equal. unfold dir_bytes.
  rewrite <- (file_bytes_slice (k_view s) d (i_size d) (16 * Z.of_nat k) 16) by lia. f_equal. lia.
Qed.

Lemma dirlookup_loop_spec pid r dp d name fuel : forall k s, dir_at pid r dp d s ->
  let es := dents (dir_bytes s d) in (k <= length es <= k + fuel)%nat ->
  exists s1, upd s s1 (k_view s) /\ dir_at pid r dp d s1 /\ dir_bytes s1 d = dir_bytes s d /\
    dirlookup_loop fuel dp name (16 * Z.of_nat k) s =
      match find_entry name (drop k es) k with
      | None => Ok None s1
      | Some (j, n) => (let! ip := iget (i_dev d) n in ret (Some (ip, 16 * Z.of_nat j))) s1
      end.
Proof.
  induction fuel as [|fuel IH]; intros k s D es Hk; pose proof (dir_length _ _ _ _ _ D) as El; fold es in El;
    cbn [dirlookup_loop]; rewrite (bind_ok _ _ _ _ _ (get_inode_ok _ _ _ (da_inode _ _ _ _ _ D))).
  - exists s. rewrite (proj2 (Z.leb_le _ _)), drop_ge by lia. split; [apply upd_refl|done].
  - destruct (decide (k = length es)) as [->|Hne].
    { exists s. rewrite (proj2 (Z.leb_le _ _)), drop_ge by lia. split; [apply upd_refl|done]. }
    rewrite (proj2 (Z.leb_gt _ _)) by lia.
    destruct (read_entry pid r dp d s k D ltac:(fold es; lia)) as (de & s' & R & He & U & D' & Eb). fold es in He.
    rewrite (bind_ok _ _ _ _ _ R), Z.eqb_refl. cbn [negb]. cbv iota beta. rewrite (drop_S es de k He). cbn [find_entry].
    destruct (IH (S k) s' D') as (s1 & U1 & D1 & Eb1 & E1); [rewrite Eb; fold es; lia|]. rewrite Eb in E1. fold es in E1.
    assert (U2 : upd s s1 (k_view s)) by (eapply upd_view; [by eapply upd_trans|]; by apply U).
    replace (16 * Z.of_nat k + sizeof_dirent) with (16 * Z.of_nat (S k)) by (change sizeof_dirent with 16; lia).
    destruct (de_inum de =? 0); cbn [negb andb].
    { exists s1. split; [done|]. split; [done|]. split; [congruence|exact E1]. }
    destruct (namecmp name (de_name de) =? 0).
    + by exists s'.
    + exists s1. split; [done|]. split; [done|]. split; [congruence|exact E1].
Qed.

Lemma dirlookup_run pid r dp d name s : dir_at pid r dp d s ->
  exists s1, upd s s1 (k_view s) /\ dir_at pid r dp d s1 /\ dir_bytes s1 d = dir_bytes s d /\
    dirlookup dp name s =
      match find_entry name (dents (dir_bytes s d)) 0 with
      | None => Ok None s1
      | Some (j, n) => (let! ip := iget (i_dev d) n in ret (Some (ip, 16 * Z.of_nat j))) s1
      end.
Proof.
  intros D. unfold dirlookup. rewrite (bind_ok _ _ _ _ _ (get_inode_ok _ _ _ (da_inode _ _ _ _ _ D))), (da_type _ _ _ _ _ D).
  cbn [negb Z.eqb T_DIR Pos.eqb]. apply (dirlookup_loop_spec pid r dp d name (dir_fuel (i_size d)) 0 s D).
  rewrite (dir_length _ _ _ _ _ D). unfold dir_fuel. change sizeof_dirent with 16. rewrite Z.mul_comm, Z.div_mul, Nat2Z.id by done. lia.
Qed.

Lemma find_empty_spec pid r dp d fuel : forall k s, dir_at pid r dp d s ->
  let es := dents (dir_bytes s d) in (k <= length es <= k + fuel)%nat ->
  exists s1, upd s s1 (k_view s) /\ dir_at pid r dp d s1 /\ dir_bytes s1 d = dir_bytes s d /\
    find_empty fuel dp (16 * Z.of_nat k) s = Ok (16 * Z.of_nat (find_free (drop k es) k)) s1.
Proof.
  induction fuel as [|fuel IH]; intros k s D es Hk; pose proof (dir_length _ _ _ _ _ D) as El; fold es in El;
    cbn [find_empty]; rewrite (bind_ok _ _ _ _ _ (get_inode_ok _ _ _ (da_inode _ _ _ _ _ D))).
  - exists s. rewrite (proj2 (Z.leb_le _ _)), drop_ge by lia. split; [apply upd_refl|done].
  - destruct (decide (k = length es)) as [->|Hne].
    { exists s. rewrite (proj2 (Z.leb_le _ _)), drop_ge by lia. split; [apply upd_refl|done]. }
    rewrite (proj2 (Z.leb_gt _ _)) by lia.
    destruct (read_entry pid r dp d s k D ltac:(fold es; lia)) as (de & s' & R & He & U & D' & Eb). fold es in He.
    rewrite (bind_ok _ _ _ _ _ R), Z.eqb_refl. cbn [negb]. cbv iota beta. rewrite (drop_S es de k He). cbn [find_free].
    destruct (de_inum de =? 0); [by exists s'|].
    destruct (IH (S k) s' D') as (s1 & U1 & D1 & Eb1 & E1); [rewrite Eb; fold es; lia|]. rewrite Eb in E1. fold es in E1.
    replace (16 * Z.of_nat k + sizeof_dirent) with (16 * Z.of_nat (S k)) by (change sizeof_dirent with 16; lia).
    exists s1. split; [eapply upd_view; [by eapply upd_trans|]; by apply U|]. split; [done|]. split; [congruence|exact E1].
Qed.

Lemma dir_bytes_ok pid r dp d s : dir_at pid r dp d s -> bytes_ok (dir_bytes s d).
Proof.
  intros D. apply Forall_fmap, List.Forall_forall. intros j _. unfold file_byte, get_byte. cbn [compose].
  destruct (view_ok pid [] s (i_dev d, addr_of (k_view s) d ((0 + Z.of_nat j) / BSIZE)) (tx_session _ _ _ _ (da_txn _ _ _ _ _ D))) as [_ Hb].
  destruct (_ !! _) eqn:E; [exact (Forall_lookup_1 _ _ _ _ Hb E)|simpl; lia].
Qed.


(** ** Adding a name *)

(** What dirlink does after it has not found the name. *)
Lemma dirlink_new pid r dp d name inum s :
  dir_at pid r dp d s -> bytes_ok name -> 0 < inum < 2 ^ 16 -> dirmap (dir_bytes s d) !! canon name = None ->
  MAXOPBLOCKS <= r -> 0 <= i_inum d < sb_ninodes (sblk s) -> dinode_ok (inode_dinode d) -> i_size d + 16 <= MAXFILE * BSIZE ->
  dirlink dp name inum s = Panic "balloc: out of blocks" \/
  exists k d' s1 s', dirlink dp name inum s = Ok 0 s' /\ upd s s1 (k_view s) /\ dir_bytes s1 d = dir_bytes s d /\
    k = find_free (dents (dir_bytes s d)) 0 /\
    wrote_file pid (r - MAXOPBLOCKS) dp d (16 * Z.of_nat k) (mk_dirent inum name) s1 d' s'.
Proof.
  intros D Hn Hin Hno Hr Hir Hdi Hsz. destruct (dirlookup_run pid r dp d name s D) as (s0 & U0 & D0 & Eb0 & E0).
  pose proof (find_entry_map name _ 0 Hn (dents_ok _ (dir_bytes_ok _ _ _ _ _ D))) as Hm. fold (dirmap (dir_bytes s d)) in Hm. rewrite Hno in Hm.
  destruct (find_entry name (dents (dir_bytes s d)) 0) as [[]|]; [done|]. unfold dirlink. rewrite (bind_ok _ _ _ _ _ E0).
  rewrite (bind_ok _ _ _ _ _ (get_inode_ok _ _ _ (da_inode _ _ _ _ _ D0))).
  destruct (find_empty_spec pid r dp d (dir_fuel (i_size d)) 0 s0 D0) as (s1 & U1 & D1 & Eb1 & E1).
  { rewrite (dir_length _ _ _ _ _ D0). unfold dir_fuel. change sizeof_dirent with 16. rewrite Z.mul_comm, Z.div_mul, Nat2Z.id by done. lia. }
  rewrite (bind_ok _ _ _ _ _ E1), drop_0, Eb0. set (k := find_free (dents (dir_bytes s d)) 0).
  destruct (find_free_at (dents (dir_bytes s d)) 0) as (i & Ek & Hi & _). fold k in Ek. pose proof (dir_length _ _ _ _ _ D) as El.
  destruct (mk_dirent_fields inum name ltac:(lia)) as (_ & _ & Hl). pose proof D1 as [T1 Hf1 _ Hi1 Hd1 Hok1 Hty1 _].
  unfold u16. rewrite Z.mod_small by lia. set (de := mk_dirent inum name) in *. change (MAXFILE * BSIZE) with 71680 in Hsz.
  assert (Hde : bytes_ok de) by (apply Forall_app; split; [apply le_bytes_ok|by apply strncpy_bytes_ok]).
  assert (U : upd s s1 (k_view s)) by (eapply upd_view; [by eapply upd_trans|]; by apply U0).
  pose proof (writei_chunk pid r s1 dp d (16 * Z.of_nat k) de T1 Hf1 Hi1 Hd1 Hok1) as Hw.
  specialize (Hw ltac:(by rewrite (upd_fs _ _ _ U)) Hdi ltac:(by rewrite Hty1) ltac:(lia) Hde ltac:(rewrite Hl; by vm_compute) Hr).
  rewrite Hl, decide_True in Hw by (change (MAXFILE * BSIZE) with 71680; lia).
  destruct Hw as [Hw|(d' & s' & Hw & W)]; [left; by apply bind_panic|right]. exists k, d', s1, s'. rewrite (bind_ok _ _ _ _ _ Hw).
  split; [done|]. split; [done|]. split; [congruence|]. split; [done|exact W].
Qed.


(** ** A name for the directory itself *)

(** Adding a name that the directory already has for itself, as in link(f, "."),
    never returns.  dirlink finds the directory under the name and gives the reference
    back with iput, which waits for the lock of the directory, held by the process
    itself: it goes to sleep on that lock, and whenever it is woken while the lock is
    still held it goes to sleep again. *)
Theorem dirlink_self_deadlock pid r dp d name inum s :
  dir_at pid r dp d s -> icache_inv (inodes (k_fs s)) -> bytes_ok name -> 0 < i_ref d -> sl_locked (i_lock d) <> 0 ->
  dirmap (dir_bytes s d) !! canon name = Some (i_inum d) ->
  exists i, cur_proc (k_sync s) = Some i /\
    guar (cs_guar (sl_held (S_inode dp)) (L_inode dp)) (cs_rely (sl_held (S_inode dp)) (L_inode dp) i) (fun _ _ => False) (dirlink dp name inum s) /\
    exists s1 k p, dirlink dp name inum s = Swtch s1 k /\ procs (k_ptable s1) !! i = Some p /\ p_state p = SLEEPING /\ p_chan p = Some (sl_chan (S_inode dp)).
Proof.
  intros D Hic Hn Href Hlk Hd. destruct (dirlookup_run pid r dp d name s D) as (s1 & U & D1 & Eb & E).
  pose proof (find_entry_map name _ 0 Hn (dents_ok _ (dir_bytes_ok _ _ _ _ _ D))) as Hm. fold (dirmap (dir_bytes s d)) in Hm. rewrite Hd in Hm.
  destruct (find_entry name (dents (dir_bytes s d)) 0) as [[k n]|]; [injection Hm as ->|done]. pose proof (upd_fs _ _ _ U) as Ef.
  assert (Hc : caches (i_dev d) (i_inum d) d = true) by (unfold caches; by rewrite !Z.eqb_refl, (proj2 (Z.ltb_lt _ _)) by done).
  pose proof (da_inode _ _ _ _ _ D) as Hi. pose proof (da_txn _ _ _ _ _ D1) as T1.
  destruct (iget_spec s1 (i_dev d) (i_inum d)) as [[_ Hall]|(i & ip & ip' & Hip & R & _ & _ & _ & El & Hsame & _)].
  { apply (calm_quiet pid), T1. } { by rewrite Ef. }
  { rewrite Ef in Hall. destruct (Hall dp d Hi) as [_ H]. by rewrite Hc in H. }
  rewrite Ef in *. destruct (Hsame dp d Hi Hc) as (<- & _). rewrite Hi in Hip. injection Hip as <-.
  set (s2 := set_fs (with_inodes (<[dp := ip']> (inodes (k_fs s))) (k_fs s)) s1) in *.
  assert (T2 : txn pid [] r s2) by (apply txn_set_fs; [cbn; by rewrite length_insert, Ef|done]).
  assert (Hh : sl_held (S_inode dp) s2).
  { exists (i_lock ip'). split; [|by rewrite El]. cbn. rewrite list_lookup_insert_eq; [done|]. by eapply lookup_lt_Some. }
  assert (C2 : calm pid s2) by apply T2. destruct (calm_proc _ _ C2) as (i & _ & Hcur & _).
  assert (Es : k_sync s2 = k_sync s) by (change (k_sync s2) with (k_sync s1); by rewrite (up_rest _ _ _ U)).
  destruct (acquiresleep_blocks (S_inode dp) pid s2 i C2 Hh Hcur) as [G (s3 & k3 & p & R3 & Hp)].
  assert (Erun : dirlink dp name inum s = (iput dp ;;; ret (-1)) s2).
  { unfold dirlink. erewrite bind_ok; [|rewrite E; exact (bind_ok _ _ _ _ _ R)]. reflexivity. }
  exists i. rewrite <- Es, Erun. split; [done|]. split.
  - unfold iput. apply (guar_bind _ _ (fun _ _ => False)); [|by intros]. by apply (guar_bind _ _ _ _ _ _ G).
  - unfold iput, bind at 1 2. rewrite R3. cbn [obind]. eexists s3, _, p. split; [reflexivity|exact Hp].
Qed.
End dir.
