(* ===== verification/FileWrite.v ===== *)
(** Writing through a file descriptor: filewrite (file.c), which splits a write into
    operations of the log, each with its own begin_op, ilock, writei, iunlock, end_op. *)

From S2P Require Import Prelude Layout CString State Spinlock Sched Sleeplock Ring Memide Bio Session Log LogDisk LogSafe LogTxn Txn LogRefine.
From S2P Require Import Fs FsAlloc FsInode FsBmap Pipe File FsWrite.
Local Open Scope kernel_scope.

Section filewrite.
Context {drv : Driver} {dsw : DevSw}.

Abbreviation dev s := (l_dev (k_log s)).
Abbreviation sblk s := (sb (k_fs s)).

(** * The invariants do not depend on open files and wakeups *)
Lemma txn_set_files pid H r s fl : txn pid H r s -> txn pid H r (set_files fl s).
Proof.
  intros [[[[Hy Hd Hlk Hp] Hring Hinv] Hnd Hre Hhe Hfr] [[Hlay Ha] Hn Hlen Hrg Hnd2 Hho Hdi Hem] Ho Hr Hsp Hcl].
  assert (Hdk : forall d b, drv_block (set_files fl s) d b = drv_block s d b) by (intros; by apply drv_block_disk).
  assert (Hld : log_disk (set_files fl s)) by (split; [done|]; intros m Hm; rewrite Hdk; by apply Ha).
  split; try done; split; try done.
  intros n Hin. rewrite Hdk. by apply Hho.
Qed.

Lemma txn_woken pid H r s ch : txn pid H r s -> txn pid H r (set_ptable (woken ch (k_ptable s)) s).
Proof.
  intros [Hs [[Hlay Ha] Hn Hlen Hrg Hnd2 Hho Hdi Hem] Ho Hr Hsp Hcl].
  set (s' := set_ptable _ s). assert (Hdk : forall d b, drv_block s' d b = drv_block s d b) by (intros; by apply drv_block_disk).
  assert (Hld : log_disk s') by (split; [done|]; intros m Hm; rewrite Hdk; by apply Ha).
  split; try done; [by apply session_woken|]. split; try done.
  intros n Hin. rewrite Hdk. by apply Hho.
Qed.

Lemma fs_inv_log s l : same_place (k_log s) l -> fs_inv s -> fs_inv (set_log l s).
Proof.
  intros (Hd & Hst & Hz) [Hdv Hsb Hlog Hino Hbm Hdrv Hmeta].
  split; cbn [k_log set_log k_fs]; rewrite ?Hd, ?Hst, ?Hz; try done.
  intros n Hn. rewrite <- (Hdrv n Hn). by apply drv_block_disk.
Qed.

Lemma fs_inv_ptable s p : fs_inv s -> fs_inv (set_ptable p s).
Proof. intros [Hdv Hsb Hlog Hino Hbm Hdrv Hmeta]. split; try done. intros n Hn. rewrite <- (Hdrv n Hn). by apply drv_block_disk. Qed.

Lemma fs_inv_files s p : fs_inv s -> fs_inv (set_files p s).
Proof. intros [Hdv Hsb Hlog Hino Hbm Hdrv Hmeta]. split; try done. intros n Hn. rewrite <- (Hdrv n Hn). by apply drv_block_disk. Qed.

(** Everything the file system relies on lies outside the log. *)
Lemma meta_home s b : fs_inv s -> b = 1 \/ sb_inodestart (sblk s) <= b -> home (k_log s) (dev s, b).
Proof. intros Hf [->|Hb]; [|by apply home_after_log]. destruct Hf. split; [intros [= ? _]; lia|]. right. simpl. lia. Qed.

Lemma fs_inv_home s s' : fs_inv s -> same_place (k_log s) (k_log s') -> k_fs s' = k_fs s ->
  dk_size (k_disk s') = dk_size (k_disk s) -> (forall k, home (k_log s) k -> k_view s' k = k_view s k) -> fs_inv s'.
Proof.
  intros Hf (Hd & Hst & Hz) Ef Ez HV. pose proof (meta_home s) as Hm. pose proof (layout_inv s Hf) as Hlo.
  pose proof (fs_order s Hf) as Hord. cbv zeta in Hord. destruct (Hf) as [Hdv Hsb Hlog Hino Hbm Hdrv Hmeta].
  split; rewrite ?Ef, ?Hd, ?Hst, ?Hz; try done.
  - rewrite HV; [done|]. apply Hm; [done|by left].
  - intros n Hn. rewrite (drv_block_disk s) by done. auto.
  - intros b Hb. rewrite <- (Hmeta b Hb). unfold used. rewrite HV; [done|]. apply Hm; [done|right].
    pose proof (lo_bmap _ Hlo b). lia.
Qed.

Lemma idle_clean pid s k : idle pid s -> k <> (0, 0) -> k_view s k = disk_block (k_img s) k.
Proof.
  intros [Hs Hl (_ & _ & Hn) _ _] Hk. apply (session_clean pid s k Hs); [|done].
  intros k' Hk'. rewrite (li_dirty _ Hl) by done. unfold logged. rewrite Hn. intros [_ ?]. by apply not_elem_of_nil in H.
Qed.

(** * One operation *)

(** No operation is open, and entry [i] of the inode cache holds the file [ip], which is
    the one on the disk. *)
Record at_rest (pid : Z) (i : nat) (ip : inode) (s : kstate) : Prop := mk_at_rest {
  ar_idle : idle pid s;
  ar_inv : fs_inv s;
  ar_inode : inodes (k_fs s) !! i = Some ip;
  ar_dev : i_dev ip = dev s;
  ar_inum : 0 <= i_inum ip < sb_ninodes (sblk s);
  ar_type : i_type ip <> T_DEV;
  ar_ref : 1 <= i_ref ip;
  ar_valid : i_valid ip <> 0;
  ar_lock : sl_locked (i_lock ip) = 0;
  ar_dinode : dinode_ok (inode_dinode ip);
  ar_disk : dinode_at (k_view s) (dev s) (sblk s) (i_inum ip) = inode_dinode ip;
  ar_ok : file_ok (sblk s) (k_view s) ip }.

Lemma wrote_dinode_ok pid r i ip off src s ip' s' : wrote_file pid r i ip off src s ip' s' -> fs_inv s ->
  dinode_ok (inode_dinode ip) -> dinode_ok (inode_dinode ip').
Proof.
  intros W Hf [H1 H2 H3 H4 H5 H6 H7]. pose proof (wt_ok _ _ _ _ _ _ _ _ _ W) as Hok. pose proof (layout_inv s Hf) as Hlo.
  pose proof (fo_size _ _ _ Hok) as Hs. rewrite (wt_ip _ _ _ _ _ _ _ _ _ W) in *. split; try done; cbn in *.
  - apply u32_small. change (MAXFILE * BSIZE) with 71680 in Hs. lia.
  - apply (fo_len _ _ _ Hok).
  - apply (addrs_fit _ _ _ Hlo Hok).
Qed.

(** The lock of the inode does not matter to the file. *)
Lemma file_ok_lock V sb0 ip v : file_ok sb0 V ip -> file_ok sb0 V (with_i_lock v ip).
Proof. intros []. by split. Qed.

(** The state inside the operation in which the inode is locked. *)
Definition locked_in (pid : Z) (i : nat) (ip : inode) (s : kstate) : kstate :=
  set_fs (with_inodes (<[i := with_i_lock (mk_sleeplock 1 pid) ip]> (inodes (k_fs s))) (k_fs s))
    (set_log (with_outstanding 1 (k_log s)) s).

Lemma enter_op pid i ip s : at_rest pid i ip s ->
  (forall A (k : K A), (begin_op ;;; ilock i ;;; k) s = k (locked_in pid i ip s)) /\ txn pid [] MAXOPBLOCKS (locked_in pid i ip s) /\
  fs_inv (locked_in pid i ip s) /\ MAXOPBLOCKS < l_size (k_log s).
Proof.
  intros [Hid Hf Hi _ _ _ Href Hv Hl _ _ _]. destruct (begin_op_run pid s Hid) as (s1 & R1 & [T1 _ _ Hbig] & ->).
  pose proof (bio_calm _ _ (ss_bio _ _ _ (tx_session _ _ _ _ T1))) as Hc1.
  assert (E2 : ilock i (set_log (with_outstanding 1 (k_log s)) s) = Ok tt (locked_in pid i ip s)).
  { rewrite (ilock_valid pid _ i ip Hc1 Hi Hl Href Hv). f_equal. unfold locked_in, sl_put. cbn [k_fs set_log].
    by rewrite (list_alter_insert_at _ _ ip). }
  split; [intros A k; rewrite (bind_ok _ _ _ _ _ R1); by rewrite (bind_ok _ _ _ _ _ E2)|]. split; [|split; [|exact Hbig]].
  - apply txn_set_fs; [cbn; by rewrite length_insert|done].
  - apply fs_inv_set_inodes; [done|]. apply fs_inv_log; [by destruct (k_log s)|done].
Qed.

(** The state after the write, with the offset advanced and the inode unlocked. *)
Definition left_in (fi i : nat) (ip : inode) (n : Z) (s : kstate) : kstate :=
  set_ptable (woken (C_inodelock i) (k_ptable s))
    (set_fs (with_inodes (<[i := with_i_lock (mk_sleeplock 0 0) ip]> (inodes (k_fs s))) (k_fs s))
      (upd_files fi (fun f => with_f_off (u32 (f_off f + n)) f) s)).

Lemma leave_inode pid r fi i ip n s : txn pid [] r s -> fs_inv s -> inodes (k_fs s) !! i = Some ip ->
  i_lock ip = mk_sleeplock 1 pid -> 1 <= i_ref ip -> 0 < n ->
  (forall A (k : K A), (when (0 <? n) (upd_file fi (fun f => with_f_off (u32 (f_off f + n)) f)) ;;; iunlock i ;;; k) s = k (left_in fi i ip n s)) /\
  txn pid [] r (left_in fi i ip n s) /\ fs_inv (left_in fi i ip n s).
Proof.
  intros T Hf Hi Hl Href Hn. rewrite (proj2 (Z.ltb_lt _ _)) by done. cbn [when].
  pose proof (txn_set_files pid [] r s (alter (fun f => with_f_off (u32 (f_off f + n)) f) fi (k_files s)) T) as T4.
  pose proof (bio_calm _ _ (ss_bio _ _ _ (tx_session _ _ _ _ T4))) as Hc4.
  split; [|split].
  - intros A k. erewrite bind_ok by reflexivity. rewrite (bind_ok _ _ _ _ _ (iunlock_run pid (upd_files fi _ s) i ip Hc4 Hi Hl Href)).
    unfold left_in, sl_put. cbn [k_fs upd_files set_files]. by rewrite (list_alter_insert_at _ _ ip).
  - apply (txn_woken pid [] r (set_fs _ (upd_files fi _ s))). apply txn_set_fs; [cbn; by rewrite length_insert|exact T4].
  - apply fs_inv_ptable. apply (fs_inv_set_inodes (upd_files fi _ s)); [done|]. by apply fs_inv_files.
Qed.

Definition bytes_of (s : kstate) (ip : inode) : list Z := file_bytes (k_view s) ip 0 (i_size ip).

(** What one operation of filewrite does, and what a crash in it leaves on the disk. *)
Record chunk_done (pid : Z) (fi : nat) (f : file) (i : nat) (ip : inode) (part : list Z) (s : kstate)
    (W : writes) (ip' : inode) (s' : kstate) : Prop := mk_chunk_done {
  cd_rest : at_rest pid i ip' s';
  cd_file : k_files s' = <[fi := with_f_off (u32 (f_off f + Z.of_nat (length part))) f]> (k_files s);
  cd_place : same_place (k_log s) (k_log s') /\ sblk s' = sblk s;
  cd_inum : i_inum ip' = i_inum ip;
  cd_size : i_size ip' = Z.max (i_size ip) (f_off f + Z.of_nat (length part));
  cd_bytes : bytes_of s' ip' = splice (bytes_of s ip) (Z.to_nat (f_off f)) part;
  cd_writes : dk_writes (k_disk s') = W ++ dk_writes (k_disk s) /\ k_img s' = apply_writes W (k_img s);
  cd_crash W9 W0 : W = W9 ++ W0 ->
    (forall k, home (k_log s) k -> logical (k_log s) (apply_writes W0 (k_img s)) k = k_view s k) \/
    (forall k, home (k_log s) k -> logical (k_log s) (apply_writes W0 (k_img s)) k = k_view s' k) }.

(** The end of the operation, in the state [left_in fi i ip3 n s3] after a write that took
    [locked_in pid i ip s] to [s3]. *)
Lemma finish_chunk pid fi f i ip part s r ip3 s3 s' W :
  let s2 := locked_in pid i ip s in let ip2 := with_i_lock (mk_sleeplock 1 pid) ip in
  let s5 := left_in fi i ip3 (Z.of_nat (length part)) s3 in let ip' := with_i_lock (mk_sleeplock 0 0) ip3 in
  at_rest pid i ip s -> k_files s !! fi = Some f -> wrote_file pid r i ip2 (f_off f) part s2 ip3 s3 -> fs_inv s2 -> fs_inv s5 ->
  idle pid s' -> same_place (k_log s5) (k_log s') -> io (set_log (k_log s') s5) s' ->
  dk_writes (k_disk s') = W ++ dk_writes (k_disk s5) -> k_img s' = apply_writes W (k_img s5) ->
  (forall k, home (k_log s5) k -> k_view s' k = k_view s5 k) ->
  (forall W9 W0, W = W9 ++ W0 -> all_or_nothing s5 (apply_writes W0 (k_img s5))) ->
  chunk_done pid fi f i ip part s W ip' s'.
Proof.
  intros s2 ip2 s5 ip' Hrest Hfile Wf Hf2 Hf5 Hid Hp Hio Hw Him HV Haon. destruct Hrest as [Hid0 Hf Hi Hdv Hin Hty Href Hva Hlk Hdk Hdi Hok].
  pose proof (wt_upd _ _ _ _ _ _ _ _ _ Wf) as U. pose proof (wt_fs _ _ _ _ _ _ _ _ _ Wf) as Ef3. pose proof (wt_ip _ _ _ _ _ _ _ _ _ Wf) as Eip.
  pose proof (up_img _ _ _ U) as Ei. pose proof (up_writes _ _ _ U) as Ew. destruct (up_log _ _ _ U) as (Hp3 & _). cbn in Ei, Ew, Hp3.
  destruct Hio as [Es' Ez]. pose proof (lookup_lt_Some _ _ _ Hi) as Hlt.
  assert (Hp0 : same_place (k_log s) (k_log s')).
  { destruct Hp as (?&?&?), Hp3 as (?&?&?). cbn in *. repeat split; congruence. }
  pose proof Hp0 as (Ed & _ & _).
  assert (Efs : k_fs s' = with_inodes (<[i := ip']> (inodes (k_fs s))) (k_fs s)).
  { rewrite Es'. cbn [k_fs set_ptable set_disk set_bcache set_log]. unfold s5, left_in. cbn [k_fs set_ptable set_fs].
    rewrite Ef3. cbn [inodes with_inodes k_fs set_fs]. unfold s2, locked_in. cbn. by rewrite !list_insert_insert_eq. }
  assert (Esb : sblk s' = sblk s) by (by rewrite Efs).
  assert (Hhome : forall b, sb_inodestart (sblk s) <= b -> k_view s' (dev s, b) = k_view s3 (dev s, b)).
  { intros b Hb. rewrite (HV (dev s, b)); [done|]. apply (home_place (k_log s)); [|apply meta_home; [done|by right]].
    destruct Hp3 as (?&?&?). cbn in *. repeat split; congruence. }
  pose proof (fs_order s Hf) as Hord. cbv zeta in Hord. pose proof (layout_inv s Hf) as Hlo.
  assert (Hok3 : file_ok (sblk s) (k_view s3) ip') by (apply file_ok_lock, Wf).
  assert (Edv : i_dev ip' = dev s) by (unfold ip'; rewrite Eip; exact Hdv).
  destruct (file_ok_agree (k_view s3) (k_view s') (sblk s) ip' Hlo Hok3) as (Hok' & Hfa' & Hby').
  { intros b Hb. rewrite Edv. apply Hhome. lia. }
  split; try done.
  - pose proof (wrote_dinode_ok _ _ _ _ _ _ _ _ _ Wf Hf2 Hdk) as Hdk3.
    split; rewrite ?Esb, ?Ed; try done.
    + apply (fs_inv_home s5); try done. by rewrite Es'.
    + rewrite Efs. cbn. by rewrite list_lookup_insert_eq.
    + unfold ip'. by rewrite Eip.
    + unfold ip'. by rewrite Eip.
    + unfold ip'. by rewrite Eip.
    + unfold ip'. by rewrite Eip.
    + pose proof (wt_dinode _ _ _ _ _ _ _ _ _ Wf Hdi) as Hd3. unfold ip' at 1. rewrite Eip. cbn [i_inum with_i_lock with_i_size with_i_addrs].
      unfold dinode_at in Hd3 |- *. rewrite Hhome; [exact Hd3|]. by apply inode_block.
  - assert (Efl : k_files s3 = k_files s) by exact (f_equal k_files (up_rest _ _ _ U)).
    rewrite Es'. cbn. unfold s5, left_in. cbn. rewrite Efl. by rewrite (list_alter_insert_at _ _ f).
  - unfold ip'. by rewrite Eip.
  - apply (wt_size _ _ _ _ _ _ _ _ _ Wf).
  - unfold bytes_of. rewrite (file_bytes_agree (k_view s3) (k_view s') (sblk s)) by done. exact (wt_bytes _ _ _ _ _ _ _ _ _ Wf).
  - rewrite Hw, Him. split; f_equal; [exact Ew|exact Ei].
  - intros W9 W0 HW. destruct (Haon W9 W0 HW) as [_ Hcase].
    assert (Hp5 : same_place (k_log s) (k_log s5)) by (destruct Hp3 as (?&?&?); cbn in *; repeat split; congruence).
    assert (Ei5 : k_img s5 = k_img s) by exact Ei. rewrite Ei5 in Hcase.
    destruct Hcase as [Hc|Hc]; [left|right]; intros k Hk; rewrite <- (logical_place _ _ _ _ Hp5), Hc by (by apply (home_place (k_log s))).
    + symmetry. apply (idle_clean pid); [done|apply Hk].
    + symmetry. apply HV. by apply (home_place (k_log s)).
Qed.

Lemma chunk_run pid fi f i ip part s (k : Z -> K Z) :
  at_rest pid i ip s -> k_files s !! fi = Some f -> 0 <= f_off f <= i_size ip -> part <> [] ->
  Z.of_nat (length part) <= max_write -> f_off f + Z.of_nat (length part) <= MAXFILE * BSIZE -> bytes_ok part ->
  let m := (begin_op ;;;
            ilock i ;;;
            let! f := get_file fi in
            let! r := writei i part (f_off f) in
            when (0 <? r) (upd_file fi (fun f => with_f_off (u32 (f_off f + r)) f)) ;;;
            iunlock i ;;;
            end_op ;;;
            k r) in
  m s = Panic "balloc: out of blocks" \/
  exists W ip' s', m s = k (Z.of_nat (length part)) s' /\ chunk_done pid fi f i ip part s W ip' s'.
Proof.
  intros Hrest Hfile Hoff Hne Hlen Hmax Hb m. subst m. set (n := Z.of_nat (length part)) in *.
  assert (Hn : 0 < n) by (unfold n; destruct part; simpl; [done|lia]).
  destruct (enter_op pid i ip s Hrest) as (E & T2 & Hf2 & Hbig). rewrite E. clear E.
  set (s2 := locked_in pid i ip s) in *. set (ip2 := with_i_lock (mk_sleeplock 1 pid) ip).
  assert (Hi2 : inodes (k_fs s2) !! i = Some ip2).
  { cbn. apply list_lookup_insert_eq. eapply lookup_lt_Some, Hrest. }
  rewrite (bind_ok _ _ _ _ _ (get_file_ok fi s2 f Hfile)).
  pose proof (chunk_fits (k_view s2) (sblk s) ip2 (f_off f) n (file_ok_lock _ _ _ _ (ar_ok _ _ _ _ Hrest)) Hoff ltac:(lia)) as Hc.
  pose proof (writei_spec pid MAXOPBLOCKS s2 i ip2 (f_off f) part T2 Hf2 Hi2) as Hw. cbv zeta in Hw. fold n in Hw.
  destruct (Hrest) as [Hid Hf Hi Hdv Hin Hty Href Hva Hlk Hdk Hdi Hok]. pose proof (fo_size _ _ _ Hok) as Hsz.
  specialize (Hw Hdv (file_ok_lock _ _ _ _ Hok) Hin Hdk Hty). change (MAXFILE * BSIZE) with 71680 in *.
  specialize (Hw ltac:(lia) ltac:(lia) Hb Hc). rewrite decide_True in Hw by (split; [apply Hoff|done]).
  destruct Hw as [E|(ip3 & s3 & E & Wf)]; [left; by apply bind_panic|right]. rewrite (bind_ok _ _ _ _ _ E).
  pose proof (wt_ip _ _ _ _ _ _ _ _ _ Wf) as Eip. pose proof (wt_upd _ _ _ _ _ _ _ _ _ Wf) as U.
  assert (Hi3 : inodes (k_fs s3) !! i = Some ip3).
  { rewrite (wt_fs _ _ _ _ _ _ _ _ _ Wf). cbn. apply list_lookup_insert_eq. by eapply lookup_lt_Some. }
  destruct (leave_inode pid (MAXOPBLOCKS - bcost (k_view s2) ip2 (f_off f / BSIZE) (nblocks (f_off f) n) - 3) fi i ip3 n s3)
    as (E3 & T5 & Hf5); [apply Wf|apply Wf|done|by rewrite Eip|by rewrite Eip|done|].
  rewrite E3. clear E3. set (s5 := left_in fi i ip3 n s3) in *.
  destruct (up_log _ _ _ U) as (Hp3 & Ho3 & Hc3). destruct (id_open _ _ Hid) as (Ho & Hcm & _).
  assert (Hbig5 : MAXOPBLOCKS < l_size (k_log s5)).
  { destruct Hp3 as (_ & _ & Ez). change (k_log s5) with (k_log (set_fs (k_fs s2) s3)). rewrite Ez. exact Hbig. }
  destruct (end_op_run pid _ s5 (mk_in_op _ _ _ T5 (conj Ho3 (eq_trans Hc3 Hcm)) ltac:(lia) Hbig5))
    as (s' & W & R & Hid' & Hp & Hio & Hwr & Him & HV & Haon).
  exists W, (with_i_lock (mk_sleeplock 0 0) ip3), s'. rewrite (bind_ok _ _ _ _ _ R). split; [done|].
  eapply (finish_chunk pid fi f i ip part s _ ip3 s3 s' W); try done. intros k' Hk'. by apply HV.
Qed.

(** * The whole write *)

(** In the blocks [V] of device [d], inode [inum] is a file with the contents [bs]. *)
Definition on_disk (V : Z * Z -> list Z) (d : Z) (sb0 : superblock) (inum : Z) (bs : list Z) : Prop :=
  exists ip, i_dev ip = d /\ dinode_at V d sb0 inum = inode_dinode ip /\ file_bytes V ip 0 (i_size ip) = bs.

Lemma at_rest_on_disk pid i ip s V : at_rest pid i ip s -> (forall k, home (k_log s) k -> V k = k_view s k) ->
  on_disk V (dev s) (sblk s) (i_inum ip) (bytes_of s ip).
Proof.
  intros [Hid Hf Hi Hdv Hin Hty Href Hva Hlk Hdk Hdi Hok] HV. exists ip.
  pose proof (fs_order s Hf) as Hord. cbv zeta in Hord. pose proof (layout_inv s Hf) as Hlo.
  assert (Hh : forall b, sb_inodestart (sblk s) <= b -> V (dev s, b) = k_view s (dev s, b)).
  { intros b Hb. apply HV, meta_home; [done|by right]. }
  destruct (file_ok_agree (k_view s) V (sblk s) ip Hlo Hok) as (Hok' & _ & Hby).
  { intros b Hb. rewrite Hdv. apply Hh. lia. }
  split; [done|]. split; [|by apply (file_bytes_agree (k_view s) V (sblk s))].
  rewrite <- Hdi. unfold dinode_at. rewrite Hh; [done|]. by apply inode_block.
Qed.

Lemma length_bytes_of s ip : length (bytes_of s ip) = Z.to_nat (i_size ip).
Proof. apply length_file_bytes. Qed.

(** [bs] has been written at the offset of the open file; wherever the disk writes were
    cut off, the file on the disk would have some first part of it. *)
Record all_done (pid : Z) (fi : nat) (f : file) (i : nat) (ip : inode) (bs : list Z) (s : kstate)
    (W : writes) (ip' : inode) (s' : kstate) : Prop := mk_all_done {
  ad_rest : at_rest pid i ip' s';
  ad_place : dev s' = dev s /\ sblk s' = sblk s /\ i_inum ip' = i_inum ip;
  ad_file : k_files s' = <[fi := with_f_off (f_off f + Z.of_nat (length bs)) f]> (k_files s);
  ad_bytes : bytes_of s' ip' = splice (bytes_of s ip) (Z.to_nat (f_off f)) bs;
  ad_writes : dk_writes (k_disk s') = W ++ dk_writes (k_disk s) /\ k_img s' = apply_writes W (k_img s);
  ad_crash W9 W0 : W = W9 ++ W0 -> exists m, (m <= length bs)%nat /\
    on_disk (logical (k_log s) (apply_writes W0 (k_img s))) (dev s) (sblk s) (i_inum ip)
      (splice (bytes_of s ip) (Z.to_nat (f_off f)) (take m bs)) }.

Lemma all_done_nil pid fi f i ip s : at_rest pid i ip s -> k_files s !! fi = Some f -> all_done pid fi f i ip [] s [] ip s.
Proof.
  intros Hr Hf. pose proof (ar_idle _ _ _ _ Hr) as Hid. split; rewrite ?splice_nil; try done.
  - rewrite Z.add_0_r. symmetry. apply list_insert_id. rewrite Hf. by destruct f.
  - intros W9 W0 HW. symmetry in HW. apply app_eq_nil in HW as [-> ->]. exists 0%nat. split; [done|]. rewrite take_0.
    rewrite splice_nil. apply (at_rest_on_disk pid i); [done|]. intros k Hk. rewrite (idle_clean pid s) by (done || apply Hk).
    apply logical_empty. apply (li_empty _ (id_log _ _ Hid)).
Qed.

(** Where a sequence of writes is cut off: in its later or in its earlier part. *)
Lemma cut_app {A} (W2 W1 W9 W0 : list A) : W2 ++ W1 = W9 ++ W0 ->
  (exists Wx, W1 = Wx ++ W0) \/ (exists Wy, W0 = Wy ++ W1 /\ W2 = W9 ++ Wy).
Proof.
  intros E. apply app_eq_app in E as [l [[-> ->]|[-> ->]]]; [right; by exists l|left; by exists l].
Qed.

Lemma all_done_app pid fi f i ip ip1 ip' part rest s s1 s' W1 W2 :
  chunk_done pid fi f i ip part s W1 ip1 s1 -> 0 <= f_off f <= i_size ip -> f_off f + Z.of_nat (length part) < 2 ^ 32 ->
  let f1 := with_f_off (f_off f + Z.of_nat (length part)) f in
  all_done pid fi f1 i ip1 rest s1 W2 ip' s' -> at_rest pid i ip s ->
  all_done pid fi f i ip (part ++ rest) s (W2 ++ W1) ip' s'.
Proof.
  intros [Cr Cf [Cp Csb] Cn Cs Cb [Cw Ci] Cc] Hoff Hmax f1 [Ar (Ad & As & An) Af Ab [Aw Ai] Ac] Hr. pose proof Cp as (Ed & _ & _).
  assert (Eo : Z.to_nat (f_off f1) = (Z.to_nat (f_off f) + length part)%nat) by (cbn; lia).
  assert (Hl : (Z.to_nat (f_off f) <= length (bytes_of s ip))%nat) by (rewrite length_bytes_of; lia).
  split; try done.
  - rewrite Ad, As, An. done.
  - rewrite Af, Cf, list_insert_insert_eq. f_equal. rewrite length_app, Nat2Z.inj_add, Z.add_assoc. done.
  - by rewrite Ab, Eo, Cb, splice_splice.
  - rewrite Aw, Cw, Ai, Ci. split; [by rewrite app_assoc|]. unfold apply_writes. by rewrite foldr_app.
  - intros W9 W0 HW. destruct (cut_app _ _ _ _ HW) as [[Wx HWx]|(Wy & -> & HW2)].
    + destruct (Cc Wx W0 HWx) as [Hc|Hc].
      * exists 0%nat. split; [lia|]. rewrite take_0, splice_nil. by apply (at_rest_on_disk pid i).
      * exists (length part). rewrite length_app. split; [lia|]. rewrite take_app_length, <- Cb, <- Cn, <- Ed, <- Csb.
        apply (at_rest_on_disk pid i); [done|]. intros k Hk. apply Hc. by apply (home_place (k_log s)) in Hk.
    + destruct (Ac W9 Wy HW2) as (m & Hm & Hd). exists (length part + m)%nat. rewrite length_app. split; [lia|].
      rewrite take_app_add. rewrite <- splice_splice, <- Cb, <- Eo by done. rewrite Ed, Csb, Cn in Hd.
      unfold on_disk in Hd |- *. destruct Hd as (ipx & E1 & E2 & E3). exists ipx. split; [done|].
      assert (El : logical (k_log s) (apply_writes (Wy ++ W1) (k_img s)) = logical (k_log s1) (apply_writes Wy (k_img s1))).
      { rewrite Ci. unfold apply_writes. rewrite foldr_app. unfold logical, replay_writes, hd_blk, home_blk, log_blk.
        destruct Cp as (-> & -> & _). done. }
      by rewrite El.
Qed.

Lemma filewrite_loop_spec pid fi i fuel : forall f ip bs i0 s,
  at_rest pid i ip s -> k_files s !! fi = Some f -> 0 <= f_off f <= i_size ip ->
  f_off f + Z.of_nat (length bs) <= MAXFILE * BSIZE -> bytes_ok bs -> (length bs < fuel)%nat ->
  filewrite_loop fuel fi i bs i0 s = Panic "balloc: out of blocks" \/
  exists W ip' s', filewrite_loop fuel fi i bs i0 s = Ok (i0 + Z.of_nat (length bs)) s' /\
    all_done pid fi f i ip bs s W ip' s'.
Proof.
  induction fuel as [|fuel IH]; intros f ip bs i0 s Hr Hf Hoff Hmax Hb Hfuel; [lia|].
  destruct (decide (bs = [])) as [->|Hne].
  { right. exists [], ip, s. split; [cbn; by rewrite Z.add_0_r|by apply all_done_nil]. }
  set (n1 := Z.min (Z.of_nat (length bs)) max_write). set (part := take (Z.to_nat n1) bs). set (rest := drop (Z.to_nat n1) bs).
  assert (Hl : 0 < Z.of_nat (length bs)) by (destruct bs; simpl; [done|lia]).
  assert (Hn1 : 0 < n1 <= max_write /\ n1 <= Z.of_nat (length bs)) by (unfold n1; change max_write with 1536; lia).
  assert (Hlp : Z.of_nat (length part) = n1) by (unfold part; rewrite length_take; lia).
  assert (Hlr : Z.of_nat (length rest) = Z.of_nat (length bs) - n1) by (unfold rest; rewrite length_drop; lia).
  assert (Hcat : part ++ rest = bs) by apply take_drop. change (MAXFILE * BSIZE) with 71680 in *.
  set (k := fun r => if r <? 0 then ret i0 else if negb (r =? n1) then panic "short filewrite" else filewrite_loop fuel fi i rest (i0 + r)).
  destruct (chunk_run pid fi f i ip part s k Hr Hf Hoff) as [E|(W1 & ip1 & s1 & E & C)].
  { intros E. rewrite E in Hlp. simpl in Hlp. lia. } { lia. } { change (MAXFILE * BSIZE) with 71680. lia. } { by apply Forall_take. }
  { left. destruct bs; [done|]. exact E. }
  assert (Erun : filewrite_loop (S fuel) fi i bs i0 s = filewrite_loop fuel fi i rest (i0 + n1) s1).
  { destruct bs; [done|]. etrans; [exact E|]. unfold k. rewrite Hlp, (proj2 (Z.ltb_ge _ _)), Z.eqb_refl by lia. done. }
  rewrite Erun. pose proof (cd_file _ _ _ _ _ _ _ _ _ _ C) as Cf. rewrite Hlp, u32_small in Cf by lia.
  pose proof (cd_size _ _ _ _ _ _ _ _ _ _ C) as Cs. rewrite Hlp in Cs. set (f1 := with_f_off (f_off f + n1) f) in *.
  destruct (IH f1 ip1 rest (i0 + n1) s1) as [E2|(W2 & ip2 & s2 & E2 & A2)].
  { apply C. } { rewrite Cf. apply list_lookup_insert_eq. by eapply lookup_lt_Some. } { cbn. lia. }
  { cbn. change (MAXFILE * BSIZE) with 71680. lia. } { by apply Forall_drop. } { lia. } { by left. }
  right. exists (W2 ++ W1), ip2, s2. split; [rewrite E2; f_equal; lia|]. rewrite <- Hcat.
  apply (all_done_app pid fi f i ip ip1 ip2 part rest s s1 s2 W1 W2 C Hoff); [lia| |done]. by rewrite Hlp.
Qed.

End filewrite.
