(* ===== verification/Mkfs.v ===== *)
(** The program that builds the initial file system: mkfs.c.

    Its state is the image file, as sectors, and its two counters.  A failed assertion,
    a failed system call and the exit after it are outcomes [Panic].  The host stores
    integers little-endian, so a struct on it has the layout of the disk. *)

From S2P Require Import Prelude Layout CString State Memide Fs.
Local Open Scope kernel_scope.

Definition NINODES : Z := 200.

Definition nbitmap : Z := FSSIZE / (BSIZE * 8) + 1.
Definition ninodeblocks : Z := NINODES / IPB + 1.
Definition nlog : Z := LOGSIZE.
Definition nmeta : Z := 2 + nlog + ninodeblocks + nbitmap.

Definition xshort (x : Z) : Z := le_val [u8 x; u8 (Z.shiftr (u16 x) 8)].
Definition xint (x : Z) : Z :=
  le_val [u8 x; u8 (Z.shiftr (u32 x) 8); u8 (Z.shiftr (u32 x) 16); u8 (Z.shiftr (u32 x) 24)].

Definition mkfs_sb : superblock :=
  mk_superblock (xint FSSIZE) (xint (FSSIZE - nmeta)) (xint NINODES) (xint nlog) (xint 2) (xint (2 + nlog))
    (xint (2 + nlog + ninodeblocks)).

(** The bytes of [sb]. *)
Definition sb_bytes (sb : superblock) : list Z :=
  concat (le_bytes 4 <$> [sb_size sb; sb_nblocks sb; sb_ninodes sb; sb_nlog sb; sb_logstart sb; sb_inodestart sb; sb_bmapstart sb]).

(** The file open as [fsfd], which has [sectors] sectors, those not written being zero. *)
Record mkfs := mk_mkfs { img : gmap Z (list Z); sectors : Z; freeinode : Z; freeblock : Z }.
Definition W (A : Type) : Type := M mkfs A.

Definition set_freeinode (n : Z) (m : mkfs) : mkfs := mk_mkfs (img m) (sectors m) n (freeblock m).
Definition set_freeblock (n : Z) (m : mkfs) : mkfs := mk_mkfs (img m) (sectors m) (freeinode m) n.

Definition assert (b : bool) : W unit := if b then ret tt else panic "assert".

(** The sector that [lseek(fsfd, sec * BSIZE, 0)] seeks. *)
Definition seek (sec : Z) : Z := u32 (sec * BSIZE) / BSIZE.

Definition wsect (sec : Z) (buf : list Z) : W unit :=
  modify (fun m => mk_mkfs (<[seek sec := buf]> (img m)) (Z.max (sectors m) (seek sec + 1)) (freeinode m) (freeblock m)).

Definition rsect (sec : Z) : W (list Z) :=
  let! m := reads id in
  if seek sec <? sectors m then ret (default zero_block (img m !! seek sec)) else panic "read".

Definition winode (inum : Z) (ip : dinode) : W unit :=
  let bn := IBLOCK inum mkfs_sb in
  let! buf := rsect bn in
  wsect bn (set_dinode buf inum ip).

Definition rinode (inum : Z) : W dinode :=
  let bn := IBLOCK inum mkfs_sb in
  let! buf := rsect bn in
  ret (get_dinode buf inum).

(** [freeinode++] and [freeblock++] *)
Definition next_inode : W Z :=
  let! n := reads freeinode in
  modify (set_freeinode (u32 (n + 1))) ;;;
  ret n.
Definition next_block : W Z :=
  let! n := reads freeblock in
  modify (set_freeblock (u32 (n + 1))) ;;;
  ret n.

Definition ialloc (type : Z) : W Z :=
  let! inum := next_inode in
  winode inum (mk_dinode (s16 (xshort type)) 0 0 (s16 (xshort 1)) (xint 0) (replicate (Z.to_nat (NDIRECT + 1)) 0)) ;;;
  ret inum.

(** Bits [0] to [used - 1] of the bitmap. *)
Definition mark_used (used : Z) : list Z :=
  foldl (fun buf i => <[(i / 8)%nat := u8 (Z.lor (get_byte buf (i / 8)) (Z.shiftl 1 (Z.of_nat (i mod 8))))]> buf)
    zero_block (seq 0 (Z.to_nat used)).

Definition balloc (used : Z) : W unit :=
  assert (used <? BSIZE * 8) ;;;
  wsect (sb_bmapstart mkfs_sb) (mark_used used).

Definition with_di_addr (j : Z) (a : Z) (din : dinode) : dinode :=
  mk_dinode (di_type din) (di_major din) (di_minor din) (di_nlink din) (di_size din) (<[Z.to_nat j := a]> (di_addrs din)).
Definition di_addr (din : dinode) (j : Z) : Z := default 0 (di_addrs din !! Z.to_nat j).
Definition with_di_size (n : Z) (din : dinode) : dinode :=
  mk_dinode (di_type din) (di_major din) (di_minor din) (di_nlink din) n (di_addrs din).

(** The block of [din] that holds its block [fbn], allocated if there is none. *)
Definition append_block (din : dinode) (fbn : Z) : W (dinode * Z) :=
  if fbn <? NDIRECT then
    let! din := (if xint (di_addr din fbn) =? 0 then
                   let! b := next_block in
                   ret (with_di_addr fbn (xint b) din)
                 else ret din) in
    ret (din, xint (di_addr din fbn))
  else
    let! din := (if xint (di_addr din NDIRECT) =? 0 then
                   let! b := next_block in
                   ret (with_di_addr NDIRECT (xint b) din)
                 else ret din) in
    let! indirect := rsect (xint (di_addr din NDIRECT)) in
    let o := (4 * Z.to_nat (fbn - NDIRECT))%nat in
    let! indirect := (if get32 indirect o =? 0 then
                        let! b := next_block in
                        let indirect := set32 indirect o (xint b) in
                        wsect (xint (di_addr din NDIRECT)) indirect ;;;
                        ret indirect
                      else ret indirect) in
    ret (din, xint (get32 indirect o)).

Fixpoint iappend_loop (fuel : nat) (din : dinode) (off : Z) (p : list Z) : W (dinode * Z) :=
  match p with
  | [] => ret (din, off)
  | _ =>
      match fuel with
      | O => hang
      | S fuel' =>
          let fbn := off / BSIZE in
          assert (fbn <? MAXFILE) ;;;
          let! (din, x) := append_block din fbn in
          let n1 := Z.min (Z.of_nat (length p)) ((fbn + 1) * BSIZE - off) in
          let! buf := rsect x in
          wsect x (splice buf (Z.to_nat (off - fbn * BSIZE)) (take (Z.to_nat n1) p)) ;;;
          iappend_loop fuel' din (u32 (off + n1)) (drop (Z.to_nat n1) p)
      end
  end.

Definition iappend (inum : Z) (p : list Z) : W unit :=
  let! din := rinode inum in
  let off := xint (di_size din) in
  let! (din, off) := iappend_loop (S (length p)) din off p in
  winode inum (with_di_size (xint off) din).

(** A file of the command line: its name, and, if it can be opened, what the successive
    calls of read return. *)
Record source := mk_source { argv : list Z; reads_of : option (list (list Z)) }.

(** [if(argv[i][0] == '_') ++argv[i]] *)
Definition skip_underscore (name : list Z) : list Z :=
  match name with
  | c :: rest => if c =? 95 then rest else name
  | [] => name
  end.

Definition add_file (rootino : Z) (f : source) : W unit :=
  assert (negb (existsb (Z.eqb 47) (argv f))) ;;;
  match reads_of f with
  | None => panic "open"
  | Some chunks =>
      let name := skip_underscore (argv f) in
      let! inum := ialloc T_FILE in
      iappend rootino (mk_dirent (xshort inum) name) ;;;
      for_each chunks (iappend inum)
  end.

(** The loop of main that writes [n] zero sectors from [i] on. *)
Fixpoint zero_sectors (n : nat) (i : Z) : W unit :=
  match n with
  | O => ret tt
  | S n' => wsect i zero_block ;;; zero_sectors n' (i + 1)
  end.

(** [main] from the write of the superblock on. *)
Definition fill_image (files : list source) : W unit :=
  wsect 1 (splice zero_block 0 (sb_bytes mkfs_sb)) ;;;
  let! rootino := ialloc T_DIR in
  assert (rootino =? ROOTINO) ;;;
  iappend rootino (mk_dirent (xshort rootino) [46]) ;;;
  iappend rootino (mk_dirent (xshort rootino) [46; 46]) ;;;
  for_each files (add_file rootino) ;;;
  let! din := rinode rootino in
  let off := xint (di_size din) in
  let off := u32 ((off / BSIZE + 1) * BSIZE) in
  winode rootino (with_di_size (xint off) din) ;;;
  let! b := reads freeblock in
  balloc (s32 b).

(** [main], from the point where the image is open and empty. *)
Definition main (files : list source) : W unit :=
  assert (BSIZE mod sizeof_dinode =? 0) ;;;
  assert (BSIZE mod sizeof_dirent =? 0) ;;;
  modify (set_freeblock nmeta) ;;;
  zero_sectors (Z.to_nat FSSIZE) 0 ;;;
  fill_image files.

(** The counters start at 1 and 0. *)
Definition mkfs_start : mkfs := mk_mkfs ∅ 0 1 0.
