(* ===== verification/MkfsSafe.v ===== *)
(** Appending to a file of the image (mkfs.c).

    [view] is the image with the bitmap it will have when it is complete, so that a block
    taken from the counter is a block allocated in the sense of FsBmap.v.
    [iappend_loop_spec] says what iappend does to its file, [frame_filling] and
    [frame_bytes] that other files are as before. *)

From S2P Require Import Prelude Layout CString State Spinlock Sched Sleeplock Ring Memide Bio Session Log LogDisk LogSafe LogTxn Txn Fs FsAlloc FsInode FsBmap File FsWrite Mkfs.
Local Open Scope kernel_scope.

(** * Integers and sectors *)
Lemma xint_small x : 0 <= x < 2 ^ 32 -> xint x = x.
Proof.
  intros Hx. unfold xint. rewrite (u32_small x) by done. rewrite !Z.shiftr_div_pow2 by lia. unfold u8.
  rewrite <- (Z.mod_small x (2 ^ (8 * Z.of_nat 4))) at 5 by done. rewrite <- le_val_bytes.
  cbn [le_bytes]. change 256 with (2 ^ 8). rewrite !Z.div_div by done. done.
Qed.

Lemma xshort_small x : 0 <= x < 2 ^ 16 -> xshort x = x.
Proof.
  intros Hx. unfold xshort, u16. rewrite (Z.mod_small x (2 ^ 16)) by done. rewrite !Z.shiftr_div_pow2 by lia. unfold u8.
  rewrite <- (Z.mod_small x (2 ^ (8 * Z.of_nat 2))) at 3 by done. rewrite <- le_val_bytes. done.
Qed.

Lemma seek_small b : 0 <= b < FSSIZE -> seek b = b.
Proof. unfold FSSIZE. intros Hb. unfold seek. change BSIZE with 512. rewrite u32_small by lia. by rewrite Z.div_mul. Qed.

Lemma mkfs_sb_eq : mkfs_sb = mk_superblock 100000 99917 200 30 2 32 58.
Proof. vm_compute. reflexivity. Qed.

Lemma mkfs_data : data_start mkfs_sb = 83.
Proof. vm_compute. reflexivity. Qed.

Lemma mkfs_layout : layout_ok mkfs_sb.
Proof.
  split; [|by vm_compute]. rewrite mkfs_data. intros b Hb. unfold BBLOCK. rewrite mkfs_sb_eq in *. cbn in *.
  change BPB with 4096. zdiv.
Qed.

(** The sectors of the image, on whatever device. *)
Definition disk (m : mkfs) (k : Z * Z) : list Z := default zero_block (img m !! k.2).

(** The image after a sector was written. *)
Definition wr (b : Z) (v : list Z) (m : mkfs) : mkfs := mk_mkfs (<[b := v]> (img m)) (sectors m) (freeinode m) (freeblock m).

Lemma disk_wr b v m d b' : disk (wr b v m) (d, b') = put (d, b) v (disk m) (d, b').
Proof.
  unfold disk, wr, put. cbn [img snd]. case_decide as E.
  - injection E as ->. by rewrite lookup_insert_eq.
  - rewrite lookup_insert_ne; [done|congruence].
Qed.

(** * The bitmap *)
Lemma mark_used_S n : 0 <= n -> mark_used (n + 1) = set_bit (mark_used n) (Z.to_nat n).
Proof.
  intros Hn. unfold mark_used. rewrite Z2Nat.inj_add, Nat.add_comm by lia. change (Z.to_nat 1 + Z.to_nat n)%nat with (S (Z.to_nat n)).
  rewrite seq_S, foldl_app. done.
Qed.

Lemma mark_used_ok n : 0 <= n -> block_ok (mark_used n).
Proof.
  intros Hn. pattern n. apply natlike_ind; [apply zero_block_ok| |done].
  intros x Hx IH. rewrite <- Z.add_1_r, mark_used_S by done. by apply set_bit_ok.
Qed.

Lemma bit_zero i : bit_set zero_block i = false.
Proof.
  rewrite bit_set_testbit. unfold get_byte, zero_block. destruct (_ !! _) eqn:E; [|apply Z.bits_0].
  apply lookup_replicate in E as [-> _]. apply Z.bits_0.
Qed.

Lemma mark_used_bit n i : 0 <= n <= 4096 -> bit_set (mark_used n) i = bool_decide (Z.of_nat i < n).
Proof.
  intros [Hn Hmax]. revert Hmax. pattern n. apply natlike_ind; [|clear n Hn|done].
  - intros _. change (mark_used 0) with zero_block. rewrite bit_zero, bool_decide_false by lia. done.
  - intros n Hn IH Hmax. rewrite <- Z.add_1_r, mark_used_S in * by done. rewrite bit_set_set, IH by (lia ||
      (rewrite (proj1 (mark_used_ok n Hn)); change (Z.to_nat BSIZE) with 512%nat; apply Nat.Div0.div_lt_upper_bound; lia)).
    repeat case_bool_decide; try done; lia.
Qed.

(** * The state of the image *)

(** The image is complete, and everything from [freeblock] on is still zero, as is the
    bitmap. *)
Record sane (m : mkfs) : Prop := mk_sane {
  sn_size : sectors m = FSSIZE;
  sn_ok b : block_ok (disk m (ROOTDEV, b));
  sn_free : 83 <= freeblock m < 4096;
  sn_zero b : freeblock m <= b -> disk m (ROOTDEV, b) = zero_block;
  sn_bmap b : 58 <= b < 83 -> disk m (ROOTDEV, b) = zero_block }.

Definition view (m : mkfs) : Z * Z -> list Z := put (ROOTDEV, 58) (mark_used (freeblock m)) (disk m).

Lemma view_disk m b : b <> 58 -> view m (ROOTDEV, b) = disk m (ROOTDEV, b).
Proof. intros Hb. unfold view, put. rewrite decide_False; [done|congruence]. Qed.

Lemma view_ok_block m b : sane m -> block_ok (view m (ROOTDEV, b)).
Proof.
  intros Hs. unfold view, put. case_decide; [|apply Hs]. apply mark_used_ok. destruct (sn_free _ Hs). lia.
Qed.

Lemma used_view m b : sane m -> 0 <= b < FSSIZE -> used (view m) ROOTDEV mkfs_sb b = (b <? freeblock m).
Proof.
  intros Hs Hb. pose proof (sn_free _ Hs) as Hf. unfold FSSIZE in Hb. unfold used, BBLOCK. rewrite mkfs_sb_eq. cbn [sb_bmapstart].
  change BPB with 4096. destruct (Z_lt_dec b 4096) as [Hlt|Hge].
  - rewrite Z.div_small, Z.mod_small by lia. unfold view, put. rewrite decide_True by done.
    rewrite mark_used_bit by lia. rewrite Z2Nat.id by lia. case_bool_decide; symmetry; [by apply Z.ltb_lt|apply Z.ltb_ge; lia].
  - rewrite view_disk, (sn_bmap _ Hs) by zdiv. rewrite bit_zero. symmetry. apply Z.ltb_ge. lia.
Qed.

Lemma in_use_view m b : sane m -> in_use mkfs_sb (view m) ROOTDEV b <-> 83 <= b < freeblock m.
Proof.
  intros Hs. pose proof (sn_free _ Hs) as Hf. unfold in_use. rewrite mkfs_data. split.
  - intros [Hr Hu]. rewrite used_view in Hu by (done || (rewrite mkfs_sb_eq in Hr; cbn in Hr; unfold FSSIZE; lia)).
    apply Z.ltb_lt in Hu. lia.
  - intros Hb. rewrite mkfs_sb_eq at 1. cbn [sb_size]. split; [lia|]. rewrite used_view by (done || (unfold FSSIZE; lia)). apply Z.ltb_lt. lia.
Qed.

Lemma rsect_run b m : sane m -> 0 <= b < FSSIZE -> rsect b m = Ok (disk m (ROOTDEV, b)) m.
Proof.
  intros Hs Hb. unfold rsect. erewrite bind_ok by reflexivity. cbn [id]. rewrite seek_small, (sn_size _ Hs) by done.
  by rewrite (proj2 (Z.ltb_lt _ _)) by lia.
Qed.

Lemma wsect_run b v m : sane m -> 0 <= b < FSSIZE -> wsect b v m = Ok tt (wr b v m).
Proof.
  intros Hs Hb. unfold wsect, modify, wr. rewrite seek_small by done. pose proof (sn_size _ Hs). by rewrite Z.max_l by lia.
Qed.

(** Writing an inode, or a block below the counter. *)
Lemma sane_wr b v m : sane m -> b < freeblock m -> ~ (58 <= b < 83) -> block_ok v -> sane (wr b v m).
Proof.
  intros [Hz Hok Hf H0 Hb] Hlt Hn Hv. split; try done; intros b'; rewrite disk_wr; unfold put; case_decide as E; try done; auto.
  all: injection E as ->; cbn; lia.
Qed.

Lemma view_wr b v m b' : b <> 58 -> view (wr b v m) (ROOTDEV, b') = put (ROOTDEV, b) v (view m) (ROOTDEV, b').
Proof.
  intros Hb. unfold view. cbn [freeblock wr]. unfold put at 1 2 3. rewrite disk_wr. unfold put.
  repeat case_decide; try done. congruence.
Qed.

(** ** Taking a block *)
Definition taken (m : mkfs) : mkfs := set_freeblock (freeblock m + 1) m.

Lemma next_block_run m : sane m -> next_block m = Ok (freeblock m) (taken m).
Proof.
  intros Hs. pose proof (sn_free _ Hs). unfold next_block. erewrite bind_ok by reflexivity.
  erewrite bind_ok by reflexivity. by rewrite u32_small by lia.
Qed.

Lemma sane_taken m : sane m -> freeblock m < 4095 -> sane (taken m).
Proof.
  intros [Hz Hok Hf H0 Hb] Hlt. split; cbn [sectors taken set_freeblock freeblock]; try done; [lia|].
  intros b Hr. apply H0. lia.
Qed.

Lemma taken_fresh m : sane m -> freeblock m < 4095 -> fresh mkfs_sb (view m) (view (taken m)) ROOTDEV (freeblock m).
Proof.
  intros Hs Hlt. pose proof (sn_free _ Hs) as Hf. pose proof (sane_taken m Hs Hlt) as Hs'.
  assert (Hd : forall b, b <> 58 -> view (taken m) (ROOTDEV, b) = view m (ROOTDEV, b)) by (intros; by rewrite !view_disk).
  split.
  - rewrite mkfs_data, mkfs_sb_eq. cbn [sb_size]. lia.
  - rewrite used_view by (done || (unfold FSSIZE; lia)). apply Z.ltb_irrefl.
  - intros b Hb. rewrite mkfs_sb_eq in Hb. cbn [sb_size] in Hb. rewrite !used_view by (done || (unfold FSSIZE; lia)).
    cbn [freeblock taken set_freeblock]. destruct (Z.eqb_spec b (freeblock m)); simpl.
    + apply Z.ltb_lt. lia.
    + repeat case_bool; zbool; try done; lia.
  - rewrite Hd, view_disk by lia. apply Hs. lia.
  - intros b Hb%(in_use_view m b Hs). apply Hd. lia.
  - rewrite mkfs_sb_eq. intros b Hb. cbn in Hb. apply Hd. lia.
Qed.

(** ** Steps *)

(** From [m] to [m'] only blocks that [own] describes, and new ones, have changed. *)
Record mstep (own : Z -> Prop) (m m' : mkfs) : Prop := mk_mstep {
  ms_sane : sane m';
  ms_free : freeblock m <= freeblock m';
  ms_next : freeinode m' = freeinode m;
  ms_meta b : b < 83 -> disk m' (ROOTDEV, b) = disk m (ROOTDEV, b);
  ms_frame b : 83 <= b < freeblock m -> ~ own b -> disk m' (ROOTDEV, b) = disk m (ROOTDEV, b) }.

Lemma mstep_refl own m : sane m -> mstep own m m.
Proof. by split. Qed.

Lemma mstep_trans (own own1 : Z -> Prop) m m1 m2 : mstep own m m1 -> mstep own1 m1 m2 ->
  (forall b, 83 <= b < freeblock m -> own1 b -> own b) -> mstep own m m2.
Proof.
  intros [S1 F1 N1 M1 K1] [S2 F2 N2 M2 K2] Ho. split; try done.
  - lia.
  - congruence.
  - intros b Hb. by rewrite M2, M1.
  - intros b Hb Hn. rewrite K2, K1; try done; [lia|]. intros ?. apply Hn. auto.
Qed.

Lemma mstep_taken own m : sane m -> freeblock m < 4095 -> mstep own m (taken m).
Proof. intros Hs Hlt. split; try done; [by apply sane_taken|cbn; lia]. Qed.

Lemma mstep_wr b v m : sane m -> 83 <= b < freeblock m -> block_ok v -> mstep (fun x => x = b) m (wr b v m).
Proof.
  intros Hs Hb Hv. split; try done; [apply sane_wr; try done; lia| |]; intros b' Hb'; [|intros Hne];
    rewrite disk_wr; unfold put; (rewrite decide_False; [done|intros [= E]; lia]).
Qed.

(** The inode that a dinode describes. *)
Definition file_of (inum : Z) (d : dinode) : inode :=
  mk_inode ROOTDEV inum 1 (mk_sleeplock 0 0) 1 (di_type d) (di_major d) (di_minor d) (di_nlink d) (di_size d) (di_addrs d).

(** The inode while its file has [off] bytes. *)
Definition upto (inum : Z) (din : dinode) (off : Z) : inode := file_of inum (with_di_size off din).

(** The file has exactly the blocks its [off] bytes need, and zeros behind them. *)
Record filling (m : mkfs) (inum : Z) (din : dinode) (off : Z) : Prop := mk_filling {
  fl_ok : file_ok mkfs_sb (view m) (upto inum din off);
  fl_tight bn : 0 <= bn < MAXFILE -> off <= bn * BSIZE -> file_addr (view m) (upto inum din off) bn = 0;
  fl_ind : off <= NDIRECT * BSIZE -> ind_addr (upto inum din off) = 0;
  fl_tail o : off <= o < MAXFILE * BSIZE -> file_addr (view m) (upto inum din off) (o / BSIZE) <> 0 ->
    fbyte (view m) (upto inum din off) o = 0 }.

(** The number of blocks of a file of [n] bytes. *)
Definition nblk (n : Z) : Z := (n + BSIZE - 1) / BSIZE + if NDIRECT * BSIZE <? n then 1 else 0.

Definition same_meta (din din' : dinode) : Prop :=
  din' = mk_dinode (di_type din) (di_major din) (di_minor din) (di_nlink din) (di_size din) (di_addrs din').

(** The block for offset [off], at the end of the file, is there. *)
Record has_block (m : mkfs) (inum : Z) (din : dinode) (off : Z) (din' : dinode) (a : Z) (m' : mkfs) : Prop := mk_has_block {
  hb_step : mstep (fun b => b = ind_addr (upto inum din off)) m m';
  hb_ok : file_ok mkfs_sb (view m') (upto inum din' off);
  hb_meta : same_meta din din';
  hb_addr bn : 0 <= bn < MAXFILE -> file_addr (view m') (upto inum din' off) bn =
    if decide (bn = off / BSIZE) then a else file_addr (view m) (upto inum din off) bn;
  hb_range : 83 <= a < freeblock m';
  hb_case : file_addr (view m) (upto inum din off) (off / BSIZE) = a \/
    file_addr (view m) (upto inum din off) (off / BSIZE) = 0 /\ freeblock m <= a /\ disk m' (ROOTDEV, a) = zero_block;
  hb_ind : ind_addr (upto inum din' off) = ind_addr (upto inum din off) \/
    NDIRECT * BSIZE <= off /\ freeblock m <= ind_addr (upto inum din' off) < freeblock m';
  hb_count : freeblock m' = freeblock m + nblk (off + 1) - nblk off }.

(** The last block is there unless the file ends at its end. *)
Lemma last_block m inum din off : filling m inum din off -> 0 <= off < MAXFILE * BSIZE ->
  if decide (off mod BSIZE = 0) then file_addr (view m) (upto inum din off) (off / BSIZE) = 0
  else file_addr (view m) (upto inum din off) (off / BSIZE) <> 0.
Proof.
  intros F Hoff. change (MAXFILE * BSIZE) with 71680 in Hoff. change BSIZE with 512 in *. case_decide.
  - apply (fl_tight _ _ _ _ F); change MAXFILE with 140; change BSIZE with 512; zdiv.
  - apply (fo_full _ _ _ (fl_ok _ _ _ _ F)); change BSIZE with 512; cbn [i_size upto file_of with_di_size di_size]; zdiv.
Qed.

Lemma last_ind m inum din off : filling m inum din off -> NDIRECT * BSIZE <= off < MAXFILE * BSIZE ->
  if decide (off = NDIRECT * BSIZE) then ind_addr (upto inum din off) = 0 else ind_addr (upto inum din off) <> 0.
Proof.
  intros F Hoff. case_decide; [apply (fl_ind _ _ _ _ F); lia|]. pose proof (fo_full _ _ _ (fl_ok _ _ _ _ F) NDIRECT) as Hf.
  intros E. change (NDIRECT * BSIZE) with 6144 in *. destruct Hf; [done|cbn [i_size upto file_of with_di_size di_size]; lia|]. unfold file_addr. rewrite E. done.
Qed.

(** ** The block at the end of the file *)

(** The counter is taken for a block of the file. *)
Lemma take_fresh m inum din off : sane m -> freeblock m < 4095 -> file_ok mkfs_sb (view m) (upto inum din off) ->
  let V := view (taken m) in let a := freeblock m in
  sane (taken m) /\ file_ok mkfs_sb V (upto inum din off) /\ ~ owns V (upto inum din off) a /\
  in_use mkfs_sb V ROOTDEV a /\ disk (taken m) (ROOTDEV, a) = zero_block /\
  forall bn, file_addr V (upto inum din off) bn = file_addr (view m) (upto inum din off) bn.
Proof.
  intros Hs Hlt Hok V a. pose proof (taken_fresh m Hs Hlt) as Hf. pose proof (sane_taken m Hs Hlt) as Hs'.
  destruct (file_ok_fresh mkfs_sb mkfs_layout (view m) V (upto inum din off) a Hok Hf) as [Hok' Ho].
  split; [done|]. split; [done|]. split; [done|]. split; [|split].
  - by apply (fresh_used mkfs_sb mkfs_layout (view m)).
  - apply (sn_zero _ Hs). lia.
  - intros bn. by apply (fresh_addr mkfs_sb _ _ _ a).
Qed.

Lemma upto_link inum din off j a : upto inum (with_di_addr j a din) off = link (Z.to_nat j) a (upto inum din off).
Proof. done. Qed.

Lemma addr_direct V inum din off bn : 0 <= bn < NDIRECT -> file_addr V (upto inum din off) bn = di_addr din bn.
Proof. intros Hbn. unfold file_addr. rewrite (proj2 (Z.ltb_lt _ _)) by lia. done. Qed.

Lemma addr_ind inum din off : di_addr din NDIRECT = ind_addr (upto inum din off).
Proof. done. Qed.

Lemma nblk_next off : 0 <= off -> nblk (off + 1) - nblk off =
  (if decide (off mod BSIZE = 0) then 1 else 0) + (if decide (off = NDIRECT * BSIZE) then 1 else 0).
Proof.
  intros Hoff. unfold nblk. change (NDIRECT * BSIZE) with 6144. change BSIZE with 512.
  repeat case_decide; repeat case_bool; zbool; zdiv.
Qed.

Lemma append_direct m inum din off : sane m -> filling m inum din off -> 0 <= off < NDIRECT * BSIZE ->
  freeblock m + nblk (off + 1) - nblk off < 4096 ->
  exists din' a m', append_block din (off / BSIZE) m = Ok (din', a) m' /\ has_block m inum din off din' a m'.
Proof.
  intros Hs F Hoff Hroom. pose proof (nblk_next off ltac:(lia)) as Hn. change (NDIRECT * BSIZE) with 6144 in *.
  pose proof (last_block m inum din off F ltac:(change (MAXFILE * BSIZE) with 71680; lia)) as Hl.
  assert (Hbn : 0 <= off / BSIZE < NDIRECT) by (unfold NDIRECT, BSIZE; zdiv).
  rewrite (decide_False (P := off = 6144)) in Hn by lia. set (bn := off / BSIZE) in *.
  pose proof (fl_ok _ _ _ _ F) as Hok. pose proof (sn_free _ Hs) as Hf. unfold append_block. rewrite (proj2 (Z.ltb_lt _ _)) by lia.
  rewrite addr_direct in Hl by done.
  destruct (decide (off mod BSIZE = 0)) as [Em|Em].
  - rewrite Hl. change (xint 0 =? 0) with true. cbv iota. destruct (take_fresh m inum din off Hs ltac:(lia) Hok) as (Hs' & Hok' & Ho & Hu & Hz & Ha).
    destruct (link_direct mkfs_sb mkfs_layout _ _ _ bn Hok' Hu Ho Hbn) as (Hok2 & Ei & Hfa).
    set (a := freeblock m) in *. exists (with_di_addr bn a din), a, (taken m). split.
    + assert (Ea : di_addr (with_di_addr bn a din) bn = a).
      { unfold di_addr. cbn [di_addrs with_di_addr]. rewrite list_lookup_insert_eq; [done|].
        pose proof (fo_len _ _ _ Hok) as El. cbn in El. rewrite El. unfold NDIRECT in *. lia. }
      erewrite bind_ok; [|erewrite bind_ok by (by apply next_block_run); reflexivity].
      rewrite (xint_small (freeblock m)) by lia. fold a. rewrite Ea, xint_small by (unfold a; lia). done.
    + split; try done.
      * apply mstep_taken; [done|lia].
      * intros b Hb. rewrite upto_link, Hfa by done. by rewrite Ha.
      * unfold a. cbn. lia.
      * right. rewrite addr_direct by done. split; [done|]. split; [unfold a; lia|done].
      * left. exact Ei.
      * cbn. lia.
  - rewrite <- (addr_direct (view m) inum din off) in Hl |- * by done.
    assert (Hd : 0 <= bn < MAXFILE) by (change MAXFILE with (NDIRECT + 128); lia).
    destruct (fo_data _ _ _ Hok bn Hd) as [|Hu%(in_use_view m _ Hs)]; [done|].
    set (a := file_addr (view m) (upto inum din off) bn) in *. exists din, a, m. rewrite xint_small by lia.
    rewrite (proj2 (Z.eqb_neq _ _)) by done. split.
    + erewrite bind_ok by reflexivity. rewrite <- (addr_direct (view m) inum din off) by done. fold a. by rewrite xint_small by lia.
    + split; try done; [by destruct din| |by left|by left|lia].
      intros b Hb. case_decide; [by subst|done].
Qed.

(** The indirect block is allocated if it is missing. *)
Lemma ensure_ind m inum din off : sane m -> filling m inum din off -> NDIRECT * BSIZE <= off < MAXFILE * BSIZE ->
  freeblock m + (if decide (off = NDIRECT * BSIZE) then 1 else 0) < 4096 ->
  exists din' m',
    (if xint (di_addr din NDIRECT) =? 0 then
       let! b := next_block in ret (with_di_addr NDIRECT (xint b) din)
     else ret din) m = Ok din' m' /\
    mstep (fun _ => False) m m' /\ same_meta din din' /\ file_ok mkfs_sb (view m') (upto inum din' off) /\
    83 <= ind_addr (upto inum din' off) < freeblock m' /\
    (ind_addr (upto inum din' off) = ind_addr (upto inum din off) \/ freeblock m <= ind_addr (upto inum din' off)) /\
    (forall bn, file_addr (view m') (upto inum din' off) bn = file_addr (view m) (upto inum din off) bn) /\
    freeblock m' = freeblock m + if decide (off = NDIRECT * BSIZE) then 1 else 0.
Proof.
  intros Hs F Hoff Hroom. pose proof (last_ind m inum din off F Hoff) as Hi. pose proof (fl_ok _ _ _ _ F) as Hok.
  pose proof (sn_free _ Hs) as Hf. rewrite (addr_ind inum din off). destruct (decide (off = NDIRECT * BSIZE)).
  - rewrite Hi. change (xint 0 =? 0) with true. cbv iota.
    destruct (take_fresh m inum din off Hs ltac:(lia) Hok) as (Hs' & Hok' & Ho & Hu & Hz & Ha).
    assert (Hz' : view (taken m) (ROOTDEV, freeblock m) = zero_block) by (rewrite view_disk; [done|lia]).
    destruct (link_ind mkfs_sb mkfs_layout _ _ _ Hok' Hi Hu Ho Hz') as (Hok2 & Ei & Hfa).
    exists (with_di_addr NDIRECT (freeblock m) din), (taken m). rewrite upto_link. split.
    { erewrite bind_ok by (by apply next_block_run). by rewrite xint_small by lia. }
    rewrite Ei. split; [apply mstep_taken; [done|lia]|]. split; [done|]. split; [done|]. split; [cbn; lia|]. split; [right; lia|].
    split; [|done]. intros bn. by rewrite Hfa, Ha.
  - destruct (fo_ind _ _ _ Hok) as [|[Hu%(in_use_view m _ Hs) _]]; [done|].
    exists din, m. rewrite xint_small, (proj2 (Z.eqb_neq _ _)) by (done || lia). split; [done|].
    split; [by apply mstep_refl|]. split; [by destruct din|]. split; [done|]. split; [done|]. split; [by left|]. split; [done|lia].
Qed.

Lemma append_indirect m inum din off : sane m -> filling m inum din off -> NDIRECT * BSIZE <= off < MAXFILE * BSIZE ->
  freeblock m + nblk (off + 1) - nblk off < 4096 ->
  exists din' a m', append_block din (off / BSIZE) m = Ok (din', a) m' /\ has_block m inum din off din' a m'.
Proof.
  intros Hs F Hoff Hroom. pose proof (nblk_next off ltac:(unfold NDIRECT, BSIZE in *; lia)) as Hn.
  pose proof (last_block m inum din off F ltac:(unfold NDIRECT, BSIZE in *; lia)) as Hl.
  assert (Hbn : NDIRECT <= off / BSIZE < MAXFILE).
  { change MAXFILE with 140 in *. unfold NDIRECT, BSIZE in *. zdiv. }
  destruct (ensure_ind m inum din off Hs F Hoff) as (din1 & m1 & E1 & S1 & M1 & Hok1 & Hi1 & Ci1 & Ha1 & Hc1).
  { destruct (decide (off = _)), (decide (off mod _ = 0)); lia. }
  set (bn := off / BSIZE) in *. pose proof (ms_sane _ _ _ S1) as Hs1. pose proof (ms_free _ _ _ S1) as Hf1. pose proof (sn_free _ Hs1) as Hr1.
  unfold append_block. rewrite (proj2 (Z.ltb_ge _ _)) by lia. rewrite (bind_ok _ _ _ _ _ E1).
  set (ip1 := upto inum din1 off) in *. set (i := ind_addr ip1) in *. rewrite (addr_ind inum din1 off). fold ip1. fold i.
  rewrite (xint_small i) by lia. rewrite (bind_ok _ _ _ _ _ (rsect_run i m1 Hs1 ltac:(unfold FSSIZE; lia))).
  set (o := (4 * Z.to_nat (bn - NDIRECT))%nat).
  assert (Efa : file_addr (view m1) ip1 bn = get32 (disk m1 (ROOTDEV, i)) o).
  { unfold file_addr. rewrite (proj2 (Z.ltb_ge _ _)) by lia. fold i. rewrite (proj2 (Z.eqb_neq _ _)) by lia.
    change (i_dev ip1) with ROOTDEV. by rewrite view_disk by lia. }
  rewrite <- Efa, Ha1.
  assert (Hb0 : 0 <= bn < MAXFILE) by (unfold NDIRECT in *; lia).
  assert (Hci : i = ind_addr (upto inum din off) \/ freeblock m <= i) by done.
  destruct (decide (off mod BSIZE = 0)) as [Em|Em].
  - rewrite Hl. change (0 =? 0) with true. cbv iota. assert (Hlt : freeblock m1 < 4095) by lia.
    destruct (take_fresh m1 inum din1 off Hs1 Hlt Hok1) as (Hs2 & Hok2 & Ho2 & Hu2 & Hz2 & Ha2). fold ip1 in Hok2, Ho2, Ha2.
    set (a := freeblock m1) in *. set (v := set32 (disk m1 (ROOTDEV, i)) o a).
    assert (Ho4 : (o + 4 <= length (disk m1 (ROOTDEV, i)))%nat).
    { rewrite (proj1 (sn_ok _ Hs1 i)). unfold o. change MAXFILE with (NDIRECT + 128) in Hbn. change BSIZE with 512. lia. }
    assert (Hv : block_ok v).
    { split; [unfold v; rewrite length_set32 by done; apply Hs1|apply set32_bytes_ok, Hs1]. }
    assert (S3 : mstep (fun x => x = i) (taken m1) (wr i v (taken m1))) by (apply mstep_wr; [done|cbn; unfold i; lia|done]).
    destruct (link_entry mkfs_sb mkfs_layout (view (taken m1)) (view (wr i v (taken m1))) ip1 a bn Hok2 Hu2 Ho2 Hbn) as [Hok3 Ha3].
    { fold i. lia. }
    { intros n. fold i. change (i_dev ip1) with ROOTDEV. rewrite view_wr by lia. rewrite (view_disk (taken m1) i) by lia. done. }
    exists din1, a, (wr i v (taken m1)). split.
    + erewrite bind_ok; [|erewrite bind_ok by (by apply next_block_run); fold a; rewrite xint_small by (unfold a; lia);
        fold v; erewrite bind_ok by (apply wsect_run; [done|unfold FSSIZE; lia]); reflexivity].
      unfold v. rewrite get32_set32_eq by done. rewrite u32_small, xint_small by (unfold a; lia). done.
    + assert (S : mstep (fun b => b = ind_addr (upto inum din off)) m (wr i v (taken m1))).
      { eapply mstep_trans; [|exact S3|intros b Hb E; cbn in E; destruct Hci; [congruence|lia]].
        eapply mstep_trans; [|by apply mstep_taken|intros b _ E; exact E].
        eapply (mstep_trans _ (fun _ => False)); [by apply mstep_refl|exact S1|done]. }
      split; try done.
      * intros b Hb. rewrite Ha3, Ha2, Ha1 by done. done.
      * cbn. unfold a. lia.
      * right. split; [done|]. split; [unfold a; lia|]. rewrite disk_wr. unfold put. rewrite decide_False by (unfold a; intros [= E]; lia). done.
      * destruct Ci1 as [|]; [by left|right]. split; [apply Hoff|]. fold ip1. fold i. cbn. lia.
      * cbn. unfold a in *. lia.
  - destruct (fo_data _ _ _ (fl_ok _ _ _ _ F) bn Hb0) as [|Hu%(in_use_view m _ Hs)]; [done|].
    set (a := file_addr (view m) (upto inum din off) bn) in *. pose proof (sn_free _ Hs).
    exists din1, a, m1. rewrite (proj2 (Z.eqb_neq _ _)) by done. split.
    + erewrite bind_ok by reflexivity. rewrite <- Efa, Ha1. fold a. by rewrite xint_small by lia.
    + split; try done.
      * eapply (mstep_trans _ (fun _ => False)); [by apply mstep_refl|exact S1|done].
      * intros b Hb. rewrite Ha1. destruct (decide (b = off / BSIZE)) as [->|]; done.
      * lia.
      * by left.
      * destruct Ci1 as [|]; [by left|right]. split; [apply Hoff|]. fold ip1. fold i. lia.
      * rewrite Hc1. lia.
Qed.

Lemma append_block_spec m inum din off : sane m -> filling m inum din off -> 0 <= off < MAXFILE * BSIZE ->
  freeblock m + nblk (off + 1) - nblk off < 4096 ->
  exists din' a m', append_block din (off / BSIZE) m = Ok (din', a) m' /\ has_block m inum din off din' a m'.
Proof.
  intros Hs F Hoff Hroom. destruct (Z_lt_dec off (NDIRECT * BSIZE)); [apply append_direct|apply append_indirect]; try done; lia.
Qed.

(** * Appending bytes *)
Record appended (m : mkfs) (inum : Z) (din : dinode) (off : Z) (bs : list Z) (din' : dinode) (m' : mkfs) : Prop := mk_appended {
  ap_fill : filling m' inum din' (off + Z.of_nat (length bs));
  ap_step : mstep (owns (view m) (upto inum din off)) m m';
  ap_meta : same_meta din din';
  ap_own b : owns (view m') (upto inum din' (off + Z.of_nat (length bs))) b ->
    owns (view m) (upto inum din off) b \/ freeblock m <= b;
  ap_bytes : file_bytes (view m') (upto inum din' (off + Z.of_nat (length bs))) 0 (off + Z.of_nat (length bs)) =
    file_bytes (view m) (upto inum din off) 0 off ++ bs;
  ap_count : freeblock m' = freeblock m + nblk (off + Z.of_nat (length bs)) - nblk off }.

Section round.
Context (m : mkfs) (inum : Z) (din : dinode) (off : Z) (part : list Z) (din1 : dinode) (a : Z) (m1 : mkfs).
Context (Hs : sane m) (F : filling m inum din off) (B : has_block m inum din off din1 a m1).
Context (Hoff : 0 <= off) (Hne : part <> []) (Hfit : off mod BSIZE + Z.of_nat (length part) <= BSIZE)
  (Hmax : off + Z.of_nat (length part) <= MAXFILE * BSIZE) (Hb : bytes_ok part).

Let n := Z.of_nat (length part).
Let o := Z.to_nat (off mod BSIZE).
Let v := splice (disk m1 (ROOTDEV, a)) o part.
Let m2 := wr a v m1.
Let ip := upto inum din off.
Let ip2 := upto inum din1 (off + n).

Lemma round_pos : 0 < n.
Proof. unfold n. destruct (length part) eqn:E; [by apply nil_length_inv in E|lia]. Qed.

Lemma round_block : 0 <= off / BSIZE < MAXFILE.
Proof.
  pose proof round_pos as Hn. unfold n in Hn. change (MAXFILE * BSIZE) with 71680 in Hmax. change MAXFILE with 140. change BSIZE with 512 in *. zdiv.
Qed.

Lemma round_len : (o + length part <= length (disk m1 (ROOTDEV, a)))%nat.
Proof. rewrite (proj1 (sn_ok _ (ms_sane _ _ _ (hb_step _ _ _ _ _ _ _ B)) a)). unfold o. change BSIZE with 512 in *. zdiv. Qed.

Lemma round_ok : block_ok v.
Proof.
  pose proof (sn_ok _ (ms_sane _ _ _ (hb_step _ _ _ _ _ _ _ B)) a) as [Hl Hbk]. pose proof round_len.
  split; [unfold v; by rewrite length_splice|by apply splice_bytes_ok].
Qed.

Lemma round_view b : view m2 (ROOTDEV, b) = put (ROOTDEV, a) v (view m1) (ROOTDEV, b).
Proof. apply view_wr. pose proof (hb_range _ _ _ _ _ _ _ B). lia. Qed.

(** The addresses of the file after the round. *)
Lemma round_addr : file_ok mkfs_sb (view m2) (upto inum din1 off) /\
  forall bn, 0 <= bn < MAXFILE -> file_addr (view m2) ip2 bn = if decide (bn = off / BSIZE) then a else file_addr (view m) ip bn.
Proof.
  pose proof (hb_addr _ _ _ _ _ _ _ B (off / BSIZE) round_block) as Ea. rewrite decide_True in Ea by done.
  pose proof (hb_range _ _ _ _ _ _ _ B) as Hr.
  destruct (put_data mkfs_sb mkfs_layout (view m1) (view m2) (upto inum din1 off) (off / BSIZE) v (hb_ok _ _ _ _ _ _ _ B) round_block)
    as [Hok Hfa].
  - rewrite Ea. lia.
  - intros b. rewrite Ea. apply round_view.
  - split; [done|]. intros bn Hbn. etrans; [exact (Hfa bn)|]. by apply (hb_addr _ _ _ _ _ _ _ B).
Qed.

(** Blocks of the file keep their contents up to the write. *)
Lemma round_old bn : 0 <= bn < MAXFILE -> file_addr (view m) ip bn <> 0 ->
  83 <= file_addr (view m) ip bn < freeblock m /\
  view m1 (ROOTDEV, file_addr (view m) ip bn) = view m (ROOTDEV, file_addr (view m) ip bn).
Proof.
  intros Hbn Hn0. pose proof (fl_ok _ _ _ _ F) as Hok. destruct (fo_data _ _ _ Hok bn Hbn) as [|Hu%(in_use_view m _ Hs)]; [done|].
  split; [done|]. unfold ip in *. rewrite !view_disk by lia. apply (ms_frame _ _ _ (hb_step _ _ _ _ _ _ _ B)); [done|].
  by apply (fo_sep _ _ _ Hok).
Qed.

Lemma round_byte x : 0 <= x < MAXFILE * BSIZE -> file_addr (view m2) ip2 (x / BSIZE) <> 0 ->
  fbyte (view m2) ip2 x =
    if decide (off <= x < off + n) then get_byte part (Z.to_nat (x - off))
    else if decide (file_addr (view m) ip (x / BSIZE) = 0) then 0 else fbyte (view m) ip x.
Proof.
  intros Hx. destruct round_addr as [_ Hfa]. pose proof (hb_range _ _ _ _ _ _ _ B) as Hr.
  assert (Hxb : 0 <= x / BSIZE < MAXFILE).
  { change (MAXFILE * BSIZE) with 71680 in Hx. change MAXFILE with 140. change BSIZE with 512 in *. zdiv. }
  intros Hn0. unfold fbyte. change (i_dev ip2) with ROOTDEV. change (i_dev ip) with ROOTDEV.
  rewrite Hfa in Hn0 |- * by done. rewrite round_view. unfold put.
  destruct (decide (x / BSIZE = off / BSIZE)) as [E|E].
  - rewrite decide_True by done. unfold v. rewrite get_byte_splice by apply round_len. destruct (decide (off <= x < off + n)) as [Hin|Hin].
    + rewrite decide_True by (unfold o, n in *; change BSIZE with 512 in *; zdiv). f_equal. unfold o. change BSIZE with 512 in *. zdiv.
    + rewrite decide_False by (unfold o, n in *; change BSIZE with 512 in *; intros ?; apply Hin; zdiv).
      rewrite E. destruct (hb_case _ _ _ _ _ _ _ B) as [Ea|(Ez & _ & Hz)].
      * rewrite decide_False by (unfold ip; rewrite Ea; lia). f_equal. rewrite <- (view_disk m1) by lia.
        pose proof (round_old (off / BSIZE) round_block) as Ho. unfold ip in *. rewrite Ea in *. apply Ho. lia.
      * rewrite decide_True by done. rewrite Hz. unfold get_byte, zero_block.
        destruct (_ !! _) eqn:El; [by apply lookup_replicate in El as [-> _]|done].
  - rewrite (decide_False (P := off <= x < off + n)) by (unfold n in *; change BSIZE with 512 in *; intros ?; apply E; zdiv).
    rewrite (decide_False (P := file_addr (view m) ip (x / BSIZE) = 0)) by done.
    destruct (round_old (x / BSIZE) Hxb Hn0) as [Hu Ev]. rewrite decide_False; [by rewrite Ev|]. intros [= Ex].
    destruct (hb_case _ _ _ _ _ _ _ B) as [Ea|(_ & Hge & _)]; [|unfold ip in *; lia].
    apply E, (fo_inj _ _ _ (fl_ok _ _ _ _ F)); [done|apply round_block|done|]. unfold ip in *. congruence.
Qed.

Lemma round_filling : filling m2 inum din1 (off + n).
Proof.
  destruct round_addr as [Hok2 Hfa]. pose proof round_pos as Hn. pose proof round_block as Hbk. pose proof (hb_range _ _ _ _ _ _ _ B) as Hr.
  pose proof (fl_ok _ _ _ _ F) as Hok. fold n in Hfit, Hmax. change (MAXFILE * BSIZE) with 71680 in *. split; fold ip2.
  - apply (file_ok_size (view m2) mkfs_sb (upto inum din1 off) (off + n)); [done|change (MAXFILE * BSIZE) with 71680; lia|].
    intros bn H0 Hlt. change (file_addr (view m2) ip2 bn <> 0). change MAXFILE with 140 in *. rewrite Hfa by (change BSIZE with 512 in *; zdiv).
    case_decide; [lia|]. apply (fo_full _ _ _ Hok); [done|]. cbn [i_size upto file_of with_di_size di_size]. change BSIZE with 512 in *. zdiv.
  - intros bn H0 Hge. rewrite Hfa by done. rewrite decide_False by (change BSIZE with 512 in *; zdiv).
    apply (fl_tight _ _ _ _ F); [done|lia].
  - intros Hle. destruct (hb_ind _ _ _ _ _ _ _ B) as [E|[Hge _]]; [|lia]. etrans; [exact E|]. apply (fl_ind _ _ _ _ F). lia.
  - intros x Hx Hn0. change (MAXFILE * BSIZE) with 71680 in Hx. rewrite round_byte by (done || (change (MAXFILE * BSIZE) with 71680; lia)). rewrite decide_False by lia.
    case_decide; [done|]. apply (fl_tail _ _ _ _ F); [change (MAXFILE * BSIZE) with 71680; lia|done].
Qed.

Lemma round_step : mstep (owns (view m) ip) m m2.
Proof.
  pose proof (hb_range _ _ _ _ _ _ _ B) as Hr. pose proof (hb_step _ _ _ _ _ _ _ B) as S1. pose proof (ms_sane _ _ _ S1) as Hs1.
  eapply mstep_trans; [|apply (mstep_wr a v m1); [done|done|apply round_ok]|].
  - eapply mstep_trans; [by apply mstep_refl|exact S1|]. cbn. intros b Hbr ->. split; [unfold ip in *; lia|by left].
  - cbn. intros b Hbr ->. destruct (hb_case _ _ _ _ _ _ _ B) as [Ea|(_ & Hge & _)]; [|lia].
    split; [lia|]. right. exists (off / BSIZE). split; [apply round_block|by unfold ip].
Qed.

Lemma nblk_block x y : 0 <= x -> x < y -> x / BSIZE = (y - 1) / BSIZE -> nblk y = nblk (x + 1).
Proof.
  intros Hx Hy E. unfold nblk. change (NDIRECT * BSIZE) with 6144. change BSIZE with 512 in *.
  repeat case_bool; zbool; zdiv.
Qed.

Lemma round_appended : appended m inum din off part din1 m2.
Proof.
  destruct round_addr as [Hok2 Hfa]. pose proof round_pos as Hn. pose proof round_block as Hbk. pose proof (hb_range _ _ _ _ _ _ _ B) as Hr.
  pose proof (fl_ok _ _ _ _ F) as Hok. pose proof round_filling as F2. split; fold n; fold ip2; fold ip; try done.
  - apply round_step.
  - apply B.
  - intros b [Hb0 [E|(bn & Hbn & E)]].
    + destruct (hb_ind _ _ _ _ _ _ _ B) as [Ei|[_ Hge]].
      * left. split; [done|]. left. rewrite E. exact Ei.
      * right. rewrite E. apply Hge.
    + rewrite Hfa in E by done. destruct (decide (bn = off / BSIZE)) as [->|].
      * destruct (hb_case _ _ _ _ _ _ _ B) as [Ea|(_ & Hge & _)]; [left|right; lia].
        split; [done|]. right. exists (off / BSIZE). split; [done|]. unfold ip. by rewrite Ea.
      * left. split; [done|]. right. by exists bn.
  - pose proof (contents_spliced (view m) (view m2) mkfs_sb ip ip2 off part Hok (fl_ok _ _ _ _ F2)) as C.
    change (i_size ip2) with (off + n) in C. change (i_size ip) with off in C. fold n in C.
    rewrite C; try done; try lia.
    + unfold splice. rewrite take_ge, drop_ge, app_nil_r by (rewrite length_file_bytes; lia). done.
    + intros x Hx. assert (E : x / BSIZE = off / BSIZE) by (unfold n in *; change BSIZE with 512 in *; zdiv).
      rewrite round_byte; [by rewrite decide_True|fold n in Hmax; lia|]. rewrite E, Hfa, decide_True by done. lia.
    + intros x Hx Hn0 Hout. rewrite round_byte; [by rewrite decide_False, decide_False by done|done|].
      rewrite Hfa by (change (MAXFILE * BSIZE) with 71680 in *; change MAXFILE with 140; change BSIZE with 512 in *; zdiv).
      destruct (decide _); [lia|done].
  - change (freeblock m1 = freeblock m + nblk (off + n) - nblk off). rewrite (hb_count _ _ _ _ _ _ _ B).
    rewrite (nblk_block off (off + n)); [done|lia|lia|]. fold n in Hfit. change BSIZE with 512 in *. zdiv.
Qed.
End round.

Lemma nblk_mono x y : x <= y -> nblk x <= nblk y.
Proof.
  intros Hxy. unfold nblk. change (NDIRECT * BSIZE) with 6144. change BSIZE with 512. repeat case_bool; zbool; zdiv.
Qed.

Lemma appended_nil m inum din off : sane m -> filling m inum din off -> appended m inum din off [] din m.
Proof.
  intros Hs F. split; cbn [length Z.of_nat]; rewrite ?Z.add_0_r, ?app_nil_r; try done; [by destruct din|by left|lia].
Qed.

Lemma appended_app m inum din off p din1 m1 q din2 m2 :
  let off1 := off + Z.of_nat (length p) in
  appended m inum din off p din1 m1 -> appended m1 inum din1 off1 q din2 m2 -> appended m inum din off (p ++ q) din2 m2.
Proof.
  intros off1 [F1 S1 M1 O1 B1 C1] [F2 S2 M2 O2 B2 C2].
  assert (E : off + Z.of_nat (length (p ++ q)) = off1 + Z.of_nat (length q)) by (unfold off1; rewrite length_app; lia).
  pose proof (ms_free _ _ _ S1). split; rewrite ?E; try done.
  - eapply mstep_trans; [exact S1|exact S2|]. intros b Hb Ho. destruct (O1 b Ho); [done|lia].
  - unfold same_meta in *. rewrite M2, M1. done.
  - intros b Hb. destruct (O2 b Hb) as [Hb1|]; [|right; lia]. destruct (O1 b Hb1); [by left|by right].
  - rewrite B2. unfold off1. rewrite B1. by rewrite app_assoc.
  - rewrite C2, C1. unfold off1. lia.
Qed.

Lemma iappend_loop_spec inum fuel : forall din off p m,
  sane m -> filling m inum din off -> 0 <= off -> off + Z.of_nat (length p) <= MAXFILE * BSIZE -> bytes_ok p ->
  (length p < fuel)%nat -> freeblock m + nblk (off + Z.of_nat (length p)) - nblk off < 4096 ->
  exists din' m', iappend_loop fuel din off p m = Ok (din', off + Z.of_nat (length p)) m' /\ appended m inum din off p din' m'.
Proof.
  induction fuel as [|fuel IH]; intros din off p m Hs F Hoff Hmax Hb Hfuel Hroom; [lia|].
  destruct (decide (p = [])) as [->|Hne].
  { exists din, m. split; [cbn; by rewrite Z.add_0_r|by apply appended_nil]. }
  assert (Hl : 0 < Z.of_nat (length p)) by (destruct p; simpl; [done|lia]).
  set (n1 := Z.min (Z.of_nat (length p)) ((off / BSIZE + 1) * BSIZE - off)).
  assert (Hn1 : 0 < n1 <= Z.of_nat (length p) /\ off mod BSIZE + n1 <= BSIZE) by (unfold n1; change BSIZE with 512; zdiv).
  set (part := take (Z.to_nat n1) p). set (rest := drop (Z.to_nat n1) p).
  assert (Hlp : Z.of_nat (length part) = n1) by (unfold part; rewrite length_take; lia).
  assert (Hlr : Z.of_nat (length rest) = Z.of_nat (length p) - n1) by (unfold rest; rewrite length_drop; lia).
  assert (Hcat : part ++ rest = p) by apply take_drop. change (MAXFILE * BSIZE) with 71680 in *.
  pose proof (nblk_mono (off + 1) (off + Z.of_nat (length p)) ltac:(lia)).
  destruct (append_block_spec m inum din off Hs F) as (din1 & a & m1 & E1 & B); [change (MAXFILE * BSIZE) with 71680; lia|lia|].
  pose proof (hb_step _ _ _ _ _ _ _ B) as S1. pose proof (hb_range _ _ _ _ _ _ _ B) as Hr. pose proof (sn_free _ (ms_sane _ _ _ S1)) as Hf1.
  pose proof (round_appended m inum din off part din1 a m1 Hs F B Hoff) as A.
  rewrite Hlp in A. specialize (A ltac:(intros E; rewrite E in Hlp; simpl in Hlp; lia) ltac:(lia) ltac:(change (MAXFILE * BSIZE) with 71680; lia) ltac:(by apply Forall_take)).
  set (m2 := wr a _ m1) in A. pose proof (ap_fill _ _ _ _ _ _ _ A) as F2. rewrite Hlp in F2. pose proof (ap_count _ _ _ _ _ _ _ A) as C2. rewrite Hlp in C2.
  destruct (IH din1 (off + n1) rest m2) as (din2 & m3 & E3 & A3); try done.
  { apply A. } { lia. } { change (MAXFILE * BSIZE) with 71680. lia. } { by apply Forall_drop. } { lia. }
  { replace (off + n1 + Z.of_nat (length rest)) with (off + Z.of_nat (length p)) by lia. lia. }
  exists din2, m3. split; [|rewrite <- Hcat; eapply appended_app; [exact A|by rewrite Hlp]].
  assert (Erun : iappend_loop (S fuel) din off p m = iappend_loop fuel din1 (off + n1) rest m2).
  { destruct p as [|x p0]; [done|]. cbn [iappend_loop]. rewrite (proj2 (Z.ltb_lt (off / BSIZE) MAXFILE)) by (change MAXFILE with 140; change BSIZE with 512; zdiv).
    erewrite bind_ok by reflexivity. rewrite (bind_ok _ _ _ _ _ E1). fold n1. cbv beta iota.
    rewrite (bind_ok _ _ _ _ _ (rsect_run a m1 (ms_sane _ _ _ S1) ltac:(unfold FSSIZE; lia))).
    rewrite (bind_ok _ _ _ _ _ (wsect_run a _ m1 (ms_sane _ _ _ S1) ltac:(unfold FSSIZE; lia))).
    fold part. fold rest. rewrite u32_small by lia. replace (off - off / BSIZE * BSIZE) with (off mod BSIZE) by (change BSIZE with 512; zdiv). done. }
  rewrite Erun, E3. do 2 f_equal. lia.
Qed.

(** * Files that are not touched *)
Section frame.
Context (m m' : mkfs) (inum : Z) (din : dinode) (off : Z).
Let ip := upto inum din off.
Context (Hs : sane m) (Hs' : sane m') (F : filling m inum din off) (Hfree : freeblock m <= freeblock m').
Context (Hkeep : forall b, 83 <= b < freeblock m -> owns (view m) ip b -> disk m' (ROOTDEV, b) = disk m (ROOTDEV, b)).

Lemma owned_range b : owns (view m) ip b -> 83 <= b < freeblock m.
Proof. intros Ho. apply (in_use_view m b Hs), (owns_use mkfs_sb (view m) ip b mkfs_layout (fl_ok _ _ _ _ F) Ho). Qed.

Lemma owned_kept b : owns (view m) ip b -> view m' (ROOTDEV, b) = view m (ROOTDEV, b).
Proof. intros Ho. pose proof (owned_range b Ho). rewrite !view_disk by lia. by apply Hkeep. Qed.

Lemma frame_addr bn : file_addr (view m') ip bn = file_addr (view m) ip bn.
Proof.
  unfold file_addr. destruct (bn <? NDIRECT); [done|]. destruct (Z.eqb_spec (ind_addr ip) 0); [done|].
  change (i_dev ip) with ROOTDEV. rewrite owned_kept; [done|]. split; [done|by left].
Qed.

Lemma frame_owns b : owns (view m') ip b <-> owns (view m) ip b.
Proof. unfold owns. by setoid_rewrite frame_addr. Qed.

Lemma frame_byte o : 0 <= o < MAXFILE * BSIZE -> file_addr (view m) ip (o / BSIZE) <> 0 -> fbyte (view m') ip o = fbyte (view m) ip o.
Proof.
  intros Ho Hn. unfold fbyte. rewrite frame_addr. change (i_dev ip) with ROOTDEV. rewrite owned_kept; [done|]. split; [done|]. right.
  exists (o / BSIZE). split; [|done]. change (MAXFILE * BSIZE) with 71680 in Ho. change MAXFILE with 140. change BSIZE with 512 in *. zdiv.
Qed.

Lemma frame_ok : file_ok mkfs_sb (view m') ip.
Proof.
  assert (Hu : forall b, in_use mkfs_sb (view m) ROOTDEV b -> in_use mkfs_sb (view m') ROOTDEV b).
  { intros b Hb%(in_use_view m b Hs). apply in_use_view; [done|lia]. }
  destruct (fl_ok _ _ _ _ F) as [Hl Hz Hd Hi Hinj Hsep Hfull]. split; try done.
  - intros bn Hbn. rewrite frame_addr. destruct (Hd bn Hbn); [by left|right; by apply Hu].
  - destruct Hi as [|[Hi _]]; [by left|right]. split; [by apply Hu|by apply view_ok_block].
  - intros bn bn'. rewrite !frame_addr. apply Hinj.
  - intros bn. rewrite frame_addr. apply Hsep.
  - intros bn. rewrite frame_addr. apply Hfull.
Qed.

Lemma frame_filling : filling m' inum din off.
Proof.
  split; fold ip; [apply frame_ok| |apply F|].
  - intros bn. rewrite frame_addr. apply F.
  - intros o Ho. rewrite frame_addr. intros Hn. rewrite frame_byte; [by apply (fl_tail _ _ _ _ F)| |done].
    pose proof (fo_size _ _ _ (fl_ok _ _ _ _ F)) as Hz. change (i_size (upto inum din off)) with off in Hz. lia.
Qed.

Lemma frame_bytes : file_bytes (view m') ip 0 off = file_bytes (view m) ip 0 off.
Proof. apply (file_bytes_agree (view m) (view m') mkfs_sb ip (fl_ok _ _ _ _ F) frame_ok frame_byte). Qed.
End frame.

(** * Inodes *)
Definition wi (inum : Z) (d : dinode) (m : mkfs) : mkfs :=
  wr (IBLOCK inum mkfs_sb) (set_dinode (disk m (ROOTDEV, IBLOCK inum mkfs_sb)) inum d) m.

Lemma iblock_range inum : 0 <= inum < NINODES -> 32 <= IBLOCK inum mkfs_sb < 58.
Proof. unfold NINODES. intros H. unfold IBLOCK. rewrite mkfs_sb_eq. cbn. change IPB with 8. zdiv. Qed.

Lemma winode_run inum d m : sane m -> 0 <= inum < NINODES -> winode inum d m = Ok tt (wi inum d m).
Proof.
  intros Hs Hi. pose proof (iblock_range inum Hi). unfold winode.
  rewrite (bind_ok _ _ _ _ _ (rsect_run (IBLOCK inum mkfs_sb) m Hs ltac:(unfold FSSIZE; lia))). apply wsect_run; [done|unfold FSSIZE; lia].
Qed.

Lemma rinode_run inum m : sane m -> 0 <= inum < NINODES -> rinode inum m = Ok (dinode_at (disk m) ROOTDEV mkfs_sb inum) m.
Proof.
  intros Hs Hi. pose proof (iblock_range inum Hi). unfold rinode.
  by rewrite (bind_ok _ _ _ _ _ (rsect_run (IBLOCK inum mkfs_sb) m Hs ltac:(unfold FSSIZE; lia))).
Qed.

Lemma set_dinode_ok data inum d : block_ok data -> dinode_ok d -> block_ok (set_dinode data inum d).
Proof.
  intros Hb Hd. rewrite set_dinode_splice by done. pose proof (dinode_off_bound inum) as Ho. destruct Hb as [Hl Hbk]. split.
  - rewrite length_splice; [done|]. rewrite length_enc_dinode by done. lia.
  - apply splice_bytes_ok; [done|]. unfold enc_dinode. repeat (apply Forall_app; split); try apply le_bytes_ok. apply words_ok.
Qed.

Lemma wi_spec inum d m : sane m -> 0 <= inum < NINODES -> dinode_ok d ->
  sane (wi inum d m) /\ dinode_at (disk (wi inum d m)) ROOTDEV mkfs_sb inum = d /\
  (forall j, 0 <= j -> j <> inum -> dinode_at (disk (wi inum d m)) ROOTDEV mkfs_sb j = dinode_at (disk m) ROOTDEV mkfs_sb j) /\
  (forall b, ~ (32 <= b < 58) -> disk (wi inum d m) (ROOTDEV, b) = disk m (ROOTDEV, b)).
Proof.
  intros Hs Hi Hd. pose proof (iblock_range inum Hi) as Hr. pose proof (sn_free _ Hs) as Hf.
  destruct (dinode_put (disk m) (disk (wi inum d m)) ROOTDEV mkfs_sb inum d) as [E1 E2]; [apply Hs|done|intros; apply disk_wr|].
  split; [|split; [done|split]].
  - apply sane_wr; [done|lia|lia|]. apply set_dinode_ok; [apply Hs|done].
  - intros j Hj Hne. apply E2; [done|lia|done].
  - intros b Hb. unfold wi. rewrite disk_wr. unfold put. rewrite decide_False; [done|]. intros [= E]. lia.
Qed.
