(* ===== verification/MkfsImage.v ===== *)
(** The image that mkfs.c builds is a file system of the kernel.

    [built] relates the image to the list of the files made so far: file [i] has inode
    number [i + 1]. *)

From S2P Require Import Prelude Layout CString State Spinlock Sched Sleeplock Ring Memide Bio Session Log LogDisk LogSafe LogTxn Txn Fs FsAlloc FsInode FsBmap File FsWrite Mkfs MkfsSafe.
Local Open Scope kernel_scope.

Definition total (L : list (Z * list Z)) : Z := foldr (fun f n => nblk (Z.of_nat (length f.2)) + n) 0 L.

(** The dinode of file [i], and its inode. *)
Definition din_at (m : mkfs) (i : nat) : dinode := dinode_at (disk m) ROOTDEV mkfs_sb (Z.of_nat i + 1).
Definition ip_at (m : mkfs) (i : nat) : inode := file_of (Z.of_nat i + 1) (din_at m i).

(** File [i] is complete: type [ty], one link, contents [bs]. *)
Record made (m : mkfs) (i : nat) (ty : Z) (bs : list Z) : Prop := mk_made {
  md_din : din_at m i = mk_dinode ty 0 0 1 (Z.of_nat (length bs)) (di_addrs (din_at m i));
  md_fill : filling m (Z.of_nat i + 1) (din_at m i) (Z.of_nat (length bs));
  md_bytes : file_bytes (view m) (ip_at m i) 0 (Z.of_nat (length bs)) = bs }.

Record built (m : mkfs) (L : list (Z * list Z)) : Prop := mk_built {
  bt_sane : sane m;
  bt_next : freeinode m = 1 + Z.of_nat (length L);
  bt_count : freeblock m = 83 + total L;
  bt_low b : b < 32 -> disk m (ROOTDEV, b) = if decide (b = 1) then splice zero_block 0 (sb_bytes mkfs_sb) else zero_block;
  bt_made i ty bs : L !! i = Some (ty, bs) -> made m i ty bs;
  bt_sep i j b : (i < length L)%nat -> (j < length L)%nat -> owns (view m) (ip_at m i) b -> owns (view m) (ip_at m j) b -> i = j }.

Lemma total_cons f L : total (f :: L) = nblk (Z.of_nat (length f.2)) + total L.
Proof. done. Qed.

Lemma total_app L L' : total (L ++ L') = total L + total L'.
Proof. induction L as [|f L IH]; [done|]. rewrite <- app_comm_cons, !total_cons. lia. Qed.

Lemma total_insert L i ty bs p : L !! i = Some (ty, bs) ->
  total (<[i := (ty, bs ++ p)]> L) = total L + nblk (Z.of_nat (length bs) + Z.of_nat (length p)) - nblk (Z.of_nat (length bs)).
Proof.
  revert i. induction L as [|f L IH]; intros [|i] Hi; try done.
  - injection Hi as ->. change (<[0%nat := (ty, bs ++ p)]> ((ty, bs) :: L)) with ((ty, bs ++ p) :: L).
    rewrite !total_cons. cbn [snd]. rewrite length_app, Nat2Z.inj_add. lia.
  - change (<[S i := (ty, bs ++ p)]> (f :: L)) with (f :: <[i := (ty, bs ++ p)]> L). rewrite !total_cons, (IH i Hi). lia.
Qed.

Lemma nblk_nonneg n : 0 <= n -> 0 <= nblk n.
Proof. intros Hn. pose proof (nblk_mono 0 n Hn). change (nblk 0) with 0 in H. lia. Qed.

Lemma total_nonneg L : 0 <= total L.
Proof. induction L as [|f L IH]; [done|]. rewrite total_cons. pose proof (nblk_nonneg (Z.of_nat (length f.2))). lia. Qed.

(** The size stored in the dinode is the length of the contents. *)
Lemma ip_at_upto m i ty bs : made m i ty bs -> ip_at m i = upto (Z.of_nat i + 1) (din_at m i) (Z.of_nat (length bs)).
Proof. intros [E _ _]. unfold ip_at, upto. rewrite E. done. Qed.

(** A file none of whose blocks, and whose inode was not written, is as before. *)
Lemma made_frame m m' i ty bs : sane m -> sane m' -> made m i ty bs -> freeblock m <= freeblock m' ->
  din_at m' i = din_at m i ->
  (forall b, 83 <= b < freeblock m -> owns (view m) (ip_at m i) b -> disk m' (ROOTDEV, b) = disk m (ROOTDEV, b)) ->
  made m' i ty bs /\ forall b, owns (view m') (ip_at m' i) b <-> owns (view m) (ip_at m i) b.
Proof.
  intros Hs Hs' M Hf Ed Hk. pose proof (ip_at_upto m i ty bs M) as Eip. pose proof M as [E F B].
  assert (Eip' : ip_at m' i = ip_at m i) by (unfold ip_at; by rewrite Ed).
  rewrite Eip in *. split; [split; rewrite ?Ed|].
  - done.
  - by apply (frame_filling m).
  - rewrite Eip'. etrans; [|exact B]. by apply (frame_bytes m).
  - intros b. rewrite Eip'. by apply frame_owns.
Qed.

Lemma made_range m i ty bs b : sane m -> made m i ty bs -> owns (view m) (ip_at m i) b -> 83 <= b < freeblock m.
Proof. intros Hs M Ho. rewrite (ip_at_upto m i ty bs M) in Ho. by apply (owned_range m _ _ _ Hs (md_fill _ _ _ _ M)). Qed.

(** ** New files *)
Definition empty_dinode (ty : Z) : dinode := mk_dinode ty 0 0 1 0 (replicate (Z.to_nat (NDIRECT + 1)) 0).

Lemma empty_addr V inum ty bn : file_addr V (upto inum (empty_dinode ty) 0) bn = 0.
Proof.
  unfold file_addr. change (ind_addr (upto inum (empty_dinode ty) 0)) with 0. change (0 =? 0) with true. cbv iota. destruct (bn <? NDIRECT); [|done].
  change (i_addrs (upto inum (empty_dinode ty) 0)) with (replicate 13 0). destruct (_ !! _) eqn:E; [|done].
  by apply lookup_replicate in E as [-> _].
Qed.

Lemma empty_owns V inum ty b : ~ owns V (upto inum (empty_dinode ty) 0) b.
Proof. intros [H0 [E|(bn & _ & E)]]; apply H0; [exact E|]. by rewrite empty_addr in E. Qed.

Lemma empty_ok V inum ty : file_ok mkfs_sb V (upto inum (empty_dinode ty) 0).
Proof.
  split; [done|change (0 <= 0 <= MAXFILE * BSIZE); change (MAXFILE * BSIZE) with 71680; lia| |by left| | |].
  - intros bn _. left. apply empty_addr.
  - intros bn bn' _ _ H. by rewrite empty_addr in H.
  - intros bn _ H. by rewrite empty_addr in H.
  - intros bn Hbn H. change (i_size _) with 0 in H. change BSIZE with 512 in H. lia.
Qed.

Lemma empty_filling m inum ty : filling m inum (empty_dinode ty) 0.
Proof.
  split; [apply empty_ok|intros; apply empty_addr|done|]. intros o _ H. by rewrite empty_addr in H.
Qed.

Lemma empty_dinode_ok ty : s16 ty = ty -> dinode_ok (empty_dinode ty).
Proof. intros H. split; try done. repeat constructor. Qed.

Lemma ialloc_spec m L ty : built m L -> (length L < 199)%nat -> 0 <= ty < 2 ^ 15 ->
  exists m', ialloc ty m = Ok (1 + Z.of_nat (length L)) m' /\ built m' (L ++ [(ty, [])]).
Proof.
  intros [Hs Hn Hc Hlow Hm Hsep] Hlen Hty. set (inum := 1 + Z.of_nat (length L)) in *.
  assert (Ei : Z.of_nat (length L) + 1 = inum) by (unfold inum; lia).
  assert (Hi : 0 <= inum < NINODES) by (unfold inum, NINODES; lia).
  set (m1 := set_freeinode (inum + 1) m). assert (Hs1 : sane m1) by (destruct Hs; by split).
  assert (Hd : dinode_ok (empty_dinode ty)) by (apply empty_dinode_ok; unfold s16; rewrite Z.mod_small by lia; case_bool; zbool; lia).
  destruct (wi_spec inum (empty_dinode ty) m1 Hs1 Hi Hd) as (Hs' & Ed & Edn & Eb). set (m' := wi inum (empty_dinode ty) m1) in *.
  exists m'. split.
  { unfold ialloc, next_inode. erewrite bind_ok; [|erewrite bind_ok by reflexivity; erewrite bind_ok by reflexivity; reflexivity].
    rewrite Hn. fold inum. rewrite u32_small by (unfold inum; lia). fold m1. rewrite (xshort_small ty) by lia.
    replace (s16 ty) with ty by (symmetry; apply Hd). erewrite bind_ok by (apply (winode_run inum (empty_dinode ty) m1 Hs1 Hi)). done. }
  assert (Hold : forall i ty0 bs, L !! i = Some (ty0, bs) -> made m' i ty0 bs /\ forall b, owns (view m') (ip_at m' i) b <-> owns (view m) (ip_at m i) b).
  { intros i ty0 bs Hl. pose proof (lookup_lt_Some _ _ _ Hl). apply made_frame; auto; [reflexivity| |].
    - unfold din_at. rewrite Edn by (unfold inum; lia). done.
    - intros b Hb _. rewrite Eb by lia. done. }
  assert (Enew : din_at m' (length L) = empty_dinode ty) by (unfold din_at; by rewrite Ei).
  assert (Hno : forall b, ~ owns (view m') (ip_at m' (length L)) b) by (intros b; unfold ip_at; rewrite Enew; apply empty_owns).
  split; try done.
  - change (freeinode m') with (inum + 1). rewrite length_app. cbn. unfold inum. lia.
  - change (freeblock m') with (freeblock m). rewrite total_app, total_cons. change (total []) with 0. change (nblk _) with 0. lia.
  - intros b Hb. rewrite Eb by lia. by apply Hlow.
  - intros i ty0 bs Hl. apply lookup_app_Some in Hl as [Hl|[Hge Hl]]; [by apply Hold|].
    apply list_lookup_singleton_Some in Hl as [E [= <- <-]]. replace i with (length L) by lia. split; rewrite ?Enew; try done.
    apply empty_filling.
  - intros i j b. rewrite length_app. cbn [length]. intros Hil Hjl Ho Ho'.
    destruct (decide (i = length L)) as [->|]; [by destruct (Hno b)|]. destruct (decide (j = length L)) as [->|]; [by destruct (Hno b)|].
    destruct (lookup_lt_is_Some_2 L i) as [[t1 b1] H1]; [lia|]. destruct (lookup_lt_is_Some_2 L j) as [[t2 b2] H2]; [lia|].
    apply (Hsep i j b); [lia|lia|by apply (Hold i t1 b1)|by apply (Hold j t2 b2)].
Qed.

(** ** Appending to a file *)
Lemma filling_size m inum din off : filling m inum din off -> filling m inum (with_di_size off din) off.
Proof. intros [H1 H2 H3 H4]. by split. Qed.

(** The dinode of a file that was appended to. *)
Lemma grown_dinode m i ty bs p din' m1 : made m i ty bs -> s16 ty = ty ->
  appended m (Z.of_nat i + 1) (din_at m i) (Z.of_nat (length bs)) p din' m1 ->
  let n := Z.of_nat (length bs) + Z.of_nat (length p) in
  dinode_ok (with_di_size n din') /\ with_di_size n din' = mk_dinode ty 0 0 1 n (di_addrs din').
Proof.
  intros [E _ _] Hty [F _ M _ _ _] n. pose proof (fl_ok _ _ _ _ F) as Hok. assert (Hz : 0 <= n <= MAXFILE * BSIZE) by apply (fo_size _ _ _ Hok).
  change (MAXFILE * BSIZE) with 71680 in Hz.
  assert (E' : with_di_size n din' = mk_dinode ty 0 0 1 n (di_addrs din')) by (rewrite M, E; done).
  split; [|done]. rewrite E'. split; try done.
  - cbn [di_size]. apply u32_small. lia.
  - apply (fo_len _ _ _ Hok).
  - apply (addrs_fit (view m1) mkfs_sb _ mkfs_layout Hok).
Qed.

Lemma iappend_spec m L i ty bs p : built m L -> L !! i = Some (ty, bs) -> (length L <= 199)%nat -> s16 ty = ty -> bytes_ok p ->
  Z.of_nat (length bs) + Z.of_nat (length p) <= MAXFILE * BSIZE -> 83 + total (<[i := (ty, bs ++ p)]> L) < 4096 ->
  exists m', iappend (Z.of_nat i + 1) p m = Ok tt m' /\ built m' (<[i := (ty, bs ++ p)]> L).
Proof.
  intros [Hs Hn Hc Hlow Hm Hsep] Hl Hlen Hty Hp Hmax Hroom. set (inum := Z.of_nat i + 1). pose proof (lookup_lt_Some _ _ _ Hl) as Hi.
  assert (Hin : 0 <= inum < NINODES) by (unfold inum, NINODES; lia). pose proof (Hm i ty bs Hl) as M. rewrite (total_insert L i ty bs p Hl) in Hroom.
  destruct (iappend_loop_spec inum (S (length p)) (din_at m i) (Z.of_nat (length bs)) p m Hs (md_fill _ _ _ _ M) ltac:(lia) Hmax Hp ltac:(lia) ltac:(lia))
    as (din' & m1 & E1 & A). pose proof (grown_dinode m i ty bs p din' m1 M Hty A) as [Hd Ed']. cbv zeta in *.
  set (n := Z.of_nat (length bs) + Z.of_nat (length p)) in *. set (d' := with_di_size n din') in *.
  pose proof A as [F S _ O B C]. fold n in F, O, B, C. pose proof (ms_sane _ _ _ S) as Hs1. pose proof (ms_free _ _ _ S) as Hf1.
  destruct (wi_spec inum d' m1 Hs1 Hin Hd) as (Hs' & Ed & Edn & Eb). set (m' := wi inum d' m1) in *. exists m'.
  pose proof (ip_at_upto m i ty bs M) as Eip. fold inum in Eip. split.
  { unfold iappend. rewrite (bind_ok _ _ _ _ _ (rinode_run inum m Hs Hin)). change (dinode_at (disk m) ROOTDEV mkfs_sb inum) with (din_at m i).
    assert (Ex : xint (di_size (din_at m i)) = Z.of_nat (length bs)).
    { rewrite (md_din _ _ _ _ M). cbn [di_size]. apply xint_small. change (MAXFILE * BSIZE) with 71680 in Hmax. lia. }
    rewrite Ex, (bind_ok _ _ _ _ _ E1). cbv beta iota. fold n. rewrite xint_small by (change (MAXFILE * BSIZE) with 71680 in Hmax; unfold n; lia).
    by apply winode_run. }
  assert (Emeta : forall b, b < 83 -> ~ (32 <= b < 58) -> disk m' (ROOTDEV, b) = disk m (ROOTDEV, b)).
  { intros b Hb Hnb. rewrite Eb by done. by apply (ms_meta _ _ _ S). }
  assert (Hold : forall j ty0 bs0, L !! j = Some (ty0, bs0) -> j <> i ->
    made m' j ty0 bs0 /\ forall b, owns (view m') (ip_at m' j) b <-> owns (view m) (ip_at m j) b).
  { intros j ty0 bs0 Hj Hne. pose proof (Hm j ty0 bs0 Hj) as Mj. apply made_frame; try done.
    - unfold din_at. rewrite Edn by (unfold inum; lia). unfold dinode_at. rewrite (ms_meta _ _ _ S); [done|].
      pose proof (lookup_lt_Some _ _ _ Hj). pose proof (iblock_range (Z.of_nat j + 1) ltac:(unfold NINODES; lia)). lia.
    - intros b Hb Ho. rewrite Eb by lia. apply (ms_frame _ _ _ S); [done|]. intros Ho'. apply Hne.
      apply (Hsep j i b); [by eapply lookup_lt_Some|by eapply lookup_lt_Some|done|]. by rewrite Eip. }
  assert (Edi : din_at m' i = d') by done.
  assert (Fk : forall b, 83 <= b < freeblock m1 -> owns (view m1) (upto inum din' n) b -> disk m' (ROOTDEV, b) = disk m1 (ROOTDEV, b)).
  { intros b Hb _. apply Eb. lia. }
  assert (Eip' : ip_at m' i = upto inum din' n) by (unfold ip_at; by rewrite Edi).
  assert (Hown : forall b, owns (view m') (ip_at m' i) b -> owns (view m) (ip_at m i) b \/ freeblock m <= b).
  { intros b Ho. rewrite Eip' in Ho. apply (frame_owns m1 m' inum din' n Hs1 F Fk) in Ho. rewrite Eip. by apply O. }
  split; try done.
  - rewrite length_insert. change (freeinode m') with (freeinode m1). by rewrite (ms_next _ _ _ S).
  - rewrite (total_insert L i ty bs p Hl). change (freeblock m') with (freeblock m1). fold n. lia.
  - intros b Hb. rewrite Emeta by lia. by apply Hlow.
  - intros j ty0 bs0 Hj. destruct (decide (j = i)) as [->|Hne]; [|rewrite list_lookup_insert_ne in Hj by done; by apply Hold].
    rewrite list_lookup_insert_eq in Hj by done. injection Hj as <- <-.
    assert (En : Z.of_nat (length (bs ++ p)) = n) by (rewrite length_app; unfold n; lia). split; rewrite ?En, ?Edi, ?Eip'.
    + exact Ed'.
    + apply filling_size, (frame_filling m1 m' inum din' n Hs1 Hs' F); [reflexivity|done].
    + rewrite (frame_bytes m1 m' inum din' n Hs1 Hs' F ltac:(reflexivity) Fk), B, <- Eip. f_equal. apply M.
  - rewrite length_insert. intros j1 j2 b H1 H2 O1 O2.
    destruct (lookup_lt_is_Some_2 L j1 H1) as [[t1 b1] L1], (lookup_lt_is_Some_2 L j2 H2) as [[t2 b2] L2].
    destruct (decide (j1 = i)) as [->|N1], (decide (j2 = i)) as [->|N2]; try done.
    + apply (Hold j2 t2 b2 L2 N2) in O2. destruct (Hown b O1) as [O1'|Hge]; [by apply (Hsep i j2 b)|].
      pose proof (made_range m j2 t2 b2 b Hs (Hm _ _ _ L2) O2). lia.
    + apply (Hold j1 t1 b1 L1 N1) in O1. destruct (Hown b O2) as [O2'|Hge]; [by apply (Hsep j1 i b)|].
      pose proof (made_range m j1 t1 b1 b Hs (Hm _ _ _ L1) O1). lia.
    + apply (Hold j1 t1 b1 L1 N1) in O1. apply (Hold j2 t2 b2 L2 N2) in O2. by apply (Hsep j1 j2 b).
Qed.

(** * The program *)

(** ** The empty image *)
Lemma zero_sectors_run n : forall i m, 0 <= i -> i + Z.of_nat n <= FSSIZE -> sectors m = i -> (forall k, disk m k = zero_block) ->
  exists m', zero_sectors n i m = Ok tt m' /\ sectors m' = i + Z.of_nat n /\ freeinode m' = freeinode m /\
    freeblock m' = freeblock m /\ forall k, disk m' k = zero_block.
Proof.
  induction n as [|n IH]; intros i m Hi Hmax Hsec Hz.
  - exists m. cbn. rewrite Z.add_0_r. done.
  - set (m1 := mk_mkfs (<[i := zero_block]> (img m)) (i + 1) (freeinode m) (freeblock m)).
    destruct (IH (i + 1) m1) as (m' & E & H1 & H2 & H3 & H4); [lia|lia|done| |].
    + intros [d b]. unfold disk. cbn [img m1 snd]. destruct (decide (b = i)) as [->|]; [by rewrite lookup_insert_eq|].
      rewrite lookup_insert_ne by done. apply (Hz (d, b)).
    + exists m'. split; [|repeat split; try done; lia]. cbn [zero_sectors].
      erewrite bind_ok; [exact E|]. unfold wsect, modify. rewrite seek_small, Hsec by lia. by rewrite Z.max_r by lia.
Qed.

Lemma sb_block_ok : block_ok (splice zero_block 0 (sb_bytes mkfs_sb)).
Proof.
  split.
  - rewrite length_splice; [apply zero_block_ok|]. rewrite mkfs_sb_eq. vm_compute. lia.
  - apply splice_bytes_ok; [apply zero_block_ok|apply words_ok].
Qed.

Lemma built_nil m : sectors m = FSSIZE -> freeinode m = 1 -> freeblock m = 83 -> (forall k, disk m k = zero_block) ->
  built (wr 1 (splice zero_block 0 (sb_bytes mkfs_sb)) m) [] /\
  wsect 1 (splice zero_block 0 (sb_bytes mkfs_sb)) m = Ok tt (wr 1 (splice zero_block 0 (sb_bytes mkfs_sb)) m).
Proof.
  intros Hsec Hi Hb Hz. assert (Hs : sane m).
  { split; [done| |lia| |]; intros; rewrite Hz; try done. apply zero_block_ok. }
  split; [|apply wsect_run; [done|unfold FSSIZE; lia]]. split; try done.
  - apply sane_wr; [done|lia|lia|apply sb_block_ok].
  - intros b _. rewrite disk_wr. unfold put. rewrite Hz. case_decide as E; case_decide as E'; try done; congruence.
  - intros i j b H. cbn in H. lia.
Qed.

(** ** The files *)
Definition contents (f : source) : list Z := concat (default [] (reads_of f)).
Definition name_of (f : source) : list Z := skip_underscore (argv f).

(** The file can be read, its name has no slash, and it is not too large. *)
Record source_ok (f : source) : Prop := mk_source_ok {
  so_open : is_Some (reads_of f);
  so_slash : 47 ∉ argv f;
  so_name : bytes_ok (argv f);
  so_bytes : bytes_ok (contents f);
  so_size : Z.of_nat (length (contents f)) <= MAXFILE * BSIZE }.

(** The directory entries of [files], the first of which has inode [n]. *)
Fixpoint entries (n : Z) (files : list source) : list Z :=
  match files with
  | [] => []
  | f :: rest => mk_dirent n (name_of f) ++ entries (n + 1) rest
  end.

Lemma length_mk_dirent n name : length (mk_dirent n name) = 16%nat.
Proof. unfold mk_dirent. by rewrite length_app, length_le_bytes, length_strncpy. Qed.

Lemma mk_dirent_ok n name : bytes_ok name -> bytes_ok (mk_dirent n name).
Proof. intros H. apply Forall_app. split; [apply le_bytes_ok|by apply strncpy_bytes_ok]. Qed.

Lemma length_entries n files : length (entries n files) = (16 * length files)%nat.
Proof. revert n. induction files as [|f r IH]; intros n; [done|]. cbn [entries length]. rewrite length_app, length_mk_dirent, IH. lia. Qed.

Lemma skip_underscore_ok name : bytes_ok name -> bytes_ok (skip_underscore name).
Proof. destruct name as [|c r]; [done|]. intros H. cbn. destruct (c =? 95); [|done]. by inversion H. Qed.

Lemma chunks_spec i ty chunks : forall m L bs, built m L -> L !! i = Some (ty, bs) -> (length L <= 199)%nat -> s16 ty = ty ->
  bytes_ok (concat chunks) -> Z.of_nat (length bs) + Z.of_nat (length (concat chunks)) <= MAXFILE * BSIZE ->
  83 + total (<[i := (ty, bs ++ concat chunks)]> L) < 4096 ->
  exists m', for_each chunks (iappend (Z.of_nat i + 1)) m = Ok tt m' /\ built m' (<[i := (ty, bs ++ concat chunks)]> L).
Proof.
  induction chunks as [|c r IH]; intros m L bs Hb Hl Hlen Hty Hok Hmax Hroom.
  - exists m. cbn. rewrite app_nil_r, list_insert_id by done. done.
  - cbn [concat] in *. apply Forall_app in Hok as [Hc Hr]. rewrite length_app in Hmax.
    pose proof Hroom as Hroom'. rewrite (total_insert L i ty bs _ Hl), length_app in Hroom.
    pose proof (nblk_mono (Z.of_nat (length bs) + Z.of_nat (length c)) (Z.of_nat (length bs) + Z.of_nat (length c + length (concat r))) ltac:(lia)).
    destruct (iappend_spec m L i ty bs c Hb Hl Hlen Hty Hc) as (m1 & E1 & B1); [lia|rewrite (total_insert L i ty bs c Hl); lia|].
    pose proof (lookup_lt_Some _ _ _ Hl) as Hi. destruct (IH m1 (<[i := (ty, bs ++ c)]> L) (bs ++ c)) as (m2 & E2 & B2); try done.
    + by apply list_lookup_insert_eq.
    + by rewrite length_insert.
    + rewrite length_app. lia.
    + rewrite list_insert_insert_eq, <- app_assoc. done.
    + rewrite list_insert_insert_eq, <- app_assoc in B2. exists m2. split; [|done]. cbn [for_each]. by rewrite (bind_ok _ _ _ _ _ E1).
Qed.

Definition file_list (files : list source) : list (Z * list Z) := (fun f => (T_FILE, contents f)) <$> files.

(** One round of the loop over the arguments. *)
Lemma add_file_spec f m root fs : source_ok f -> built m ((T_DIR, root) :: fs) -> (length fs < 198)%nat ->
  Z.of_nat (length root) + 16 <= MAXFILE * BSIZE ->
  let n := 2 + Z.of_nat (length fs) in
  let L' := (T_DIR, root ++ mk_dirent n (name_of f)) :: fs ++ [(T_FILE, contents f)] in
  83 + total L' < 4096 -> exists m', add_file ROOTINO f m = Ok tt m' /\ built m' L'.
Proof.
  intros [[cs Ho] Hsl Hn Hby Hz] Hb Hlen Hroot n. assert (Ec : contents f = concat cs) by (unfold contents; by rewrite Ho).
  rewrite Ec in *. intros L' Hroom.
  destruct (ialloc_spec m _ T_FILE Hb) as (m1 & E1 & B1); [cbn; lia|unfold T_FILE; lia|]. rewrite <- app_comm_cons in B1.
  replace (1 + Z.of_nat (length ((T_DIR, root) :: fs))) with n in E1 by (unfold n; cbn [length]; lia).
  set (de := mk_dirent n (name_of f)) in *. set (L1 := (T_DIR, root) :: fs ++ [(T_FILE, [])]) in *.
  assert (Hl1 : (length L1 <= 199)%nat) by (unfold L1; cbn [length]; rewrite length_app; cbn [length]; lia).
  assert (Hde : length de = 16%nat) by apply length_mk_dirent.
  set (L2 := (T_DIR, root ++ de) :: fs ++ [(T_FILE, [])]).
  assert (Hi2 : L2 !! S (length fs) = Some (T_FILE, [])) by (change ((fs ++ [(T_FILE, [])]) !! length fs = Some (T_FILE, [])); rewrite lookup_app_r, Nat.sub_diag by lia; done).
  assert (E2' : <[S (length fs) := (T_FILE, concat cs)]> L2 = L').
  { unfold L2, L'. change (<[S (length fs) := (T_FILE, concat cs)]> ((T_DIR, root ++ de) :: fs ++ [(T_FILE, [])])) with
      ((T_DIR, root ++ de) :: <[length fs := (T_FILE, concat cs)]> (fs ++ [(T_FILE, [])])).
    rewrite insert_app_r_alt, Nat.sub_diag by lia. done. }
  assert (Ht2 : 83 + total L2 < 4096).
  { unfold L2, L' in *. rewrite !total_cons, !total_app, !total_cons in *. cbn [snd] in *.
    pose proof (nblk_mono (Z.of_nat (length (@nil Z))) (Z.of_nat (length (concat cs))) ltac:(cbn; lia)). lia. }
  destruct (iappend_spec m1 L1 0 T_DIR root de B1 eq_refl Hl1 eq_refl) as (m2 & E2 & B2); [by apply mk_dirent_ok, skip_underscore_ok|lia|exact Ht2|].
  change (<[0%nat := (T_DIR, root ++ de)]> L1) with L2 in B2.
  destruct (chunks_spec (S (length fs)) T_FILE cs m2 L2 [] B2 Hi2) as (m3 & E3 & B3); try done; [by rewrite app_nil_l, E2'|].
  rewrite app_nil_l, E2' in B3. exists m3. split; [|done]. unfold add_file. rewrite Ho.
  assert (Es : existsb (Z.eqb 47) (argv f) = false).
  { apply not_true_iff_false. intros (x & Hx & Ex)%existsb_exists. apply Z.eqb_eq in Ex as <-. by apply Hsl, list_elem_of_In. }
  rewrite Es. erewrite bind_ok by reflexivity. rewrite (bind_ok _ _ _ _ _ E1). rewrite xshort_small by (unfold n; lia). fold (name_of f) de.
  change (Z.of_nat 0 + 1) with ROOTINO in E2. rewrite (bind_ok _ _ _ _ _ E2).
  replace n with (Z.of_nat (S (length fs)) + 1) by (unfold n; lia). exact E3.
Qed.

Lemma add_files_spec files : forall m root fs, Forall source_ok files -> built m ((T_DIR, root) :: fs) ->
  (length fs + length files <= 198)%nat -> Z.of_nat (length root) + 16 * Z.of_nat (length files) <= MAXFILE * BSIZE ->
  let L' := (T_DIR, root ++ entries (2 + Z.of_nat (length fs)) files) :: fs ++ file_list files in
  83 + total L' < 4096 -> exists m', for_each files (add_file ROOTINO) m = Ok tt m' /\ built m' L'.
Proof.
  induction files as [|f r IH]; intros m root fs Hok Hb Hlen Hroot L' Hroom.
  - exists m. unfold L'. cbn. rewrite !app_nil_r. done.
  - apply Forall_cons_iff in Hok as [Hf Hr]. cbn [length] in *. cbn [entries file_list fmap list_fmap] in L'. fold (file_list r) in L'.
    set (n := 2 + Z.of_nat (length fs)) in *. set (de := mk_dirent n (name_of f)) in *.
    assert (Hde : length de = 16%nat) by apply length_mk_dirent. unfold L' in *. rewrite total_cons, total_app, total_cons in Hroom. cbn [snd] in Hroom.
    rewrite !length_app, length_entries in Hroom. pose proof (total_nonneg (file_list r)).
    destruct (add_file_spec f m root fs Hf Hb) as (m1 & E1 & B1); [lia|lia| |].
    { fold n. fold de. rewrite total_cons, total_app, total_cons. cbn [snd]. change (total []) with 0.
      pose proof (nblk_mono (Z.of_nat (length (root ++ de))) (Z.of_nat (length root + (length de + 16 * length r))) ltac:(rewrite length_app; lia)). lia. }
    fold n in B1. fold de in B1. destruct (IH m1 (root ++ de) (fs ++ [(T_FILE, contents f)]) Hr B1) as (m2 & E2 & B2).
    + rewrite length_app. cbn [length]. lia.
    + rewrite length_app. lia.
    + rewrite !total_cons, !total_app, !total_cons. cbn [snd]. rewrite !length_app, length_entries. change (total []) with 0.
      replace (length root + length de + 16 * length r)%nat with (length root + (length de + 16 * length r))%nat by lia. lia.
    + exists m2. split; [cbn [for_each]; by rewrite (bind_ok _ _ _ _ _ E1)|]. rewrite <- !app_assoc in B2. rewrite length_app in B2. cbn [length app] in B2.
      replace (n + 1) with (2 + Z.of_nat (length fs + 1)) by (unfold n; lia). exact B2.
Qed.

(** ** The whole program *)
Definition root_dir (files : list source) : list Z := mk_dirent 1 [46] ++ mk_dirent 1 [46; 46] ++ entries 2 files.

(** What main leaves: the directory's size is rounded, and the bitmap is written. *)
Definition rounded (n : Z) : Z := (n / BSIZE + 1) * BSIZE.
Definition resized (m : mkfs) (n : Z) : mkfs := wi ROOTINO (with_di_size (rounded n) (din_at m 0)) m.
Definition finished (m : mkfs) (n : Z) : mkfs := wr 58 (mark_used (freeblock m)) (resized m n).

(** The arguments make a file system that fits. *)
Record args_ok (files : list source) : Prop := mk_args_ok {
  ao_files : Forall source_ok files;
  ao_inodes : (length files <= 198)%nat;
  ao_room : 83 + total ((T_DIR, root_dir files) :: file_list files) < 4096 }.

Lemma length_root_dir files : Z.of_nat (length (root_dir files)) = 16 * (2 + Z.of_nat (length files)).
Proof. unfold root_dir. rewrite !length_app, !length_mk_dirent, length_entries. lia. Qed.

Lemma dots_spec m files : args_ok files -> built m [] -> exists m', built m' [(T_DIR, mk_dirent 1 [46] ++ mk_dirent 1 [46; 46])] /\
  forall A (k : Z -> W A), (let! rootino := ialloc T_DIR in
    assert (rootino =? ROOTINO) ;;;
    iappend rootino (mk_dirent (xshort rootino) [46]) ;;;
    iappend rootino (mk_dirent (xshort rootino) [46; 46]) ;;;
    k rootino) m = k ROOTINO m'.
Proof.
  intros [_ _ Hroom] Hb. set (d1 := mk_dirent 1 [46]). set (d2 := mk_dirent 1 [46; 46]). pose proof (total_nonneg (file_list files)).
  assert (H1 : length d1 = 16%nat) by apply length_mk_dirent. assert (H2 : length d2 = 16%nat) by apply length_mk_dirent.
  assert (Hdots : bytes_ok [46; 46]) by (repeat (constructor; [lia|]); constructor). assert (Hdot : bytes_ok [46]) by (by inversion Hdots).
  destruct (ialloc_spec m [] T_DIR Hb) as (m1 & E1 & B1); [cbn; lia|unfold T_DIR; lia|].
  destruct (iappend_spec m1 [(T_DIR, [])] 0 T_DIR [] d1 B1 eq_refl) as (m2 & E2 & B2);
    [cbn; lia|done|by apply mk_dirent_ok|by vm_compute|by vm_compute|].
  destruct (iappend_spec m2 [(T_DIR, d1)] 0 T_DIR d1 d2 B2 eq_refl) as (m3 & E3 & B3);
    [cbn; lia|done|by apply mk_dirent_ok|by vm_compute|by vm_compute|].
  exists m3. split; [exact B3|]. intros A k. rewrite (bind_ok _ _ _ _ _ E1). erewrite bind_ok by reflexivity.
  change (xshort (1 + Z.of_nat (length []))) with 1. change (1 + Z.of_nat (length [])) with (Z.of_nat 0 + 1).
  rewrite (bind_ok _ _ _ _ _ E2). by rewrite (bind_ok _ _ _ _ _ E3).
Qed.

(** The dinode of the root directory, with its size rounded. *)
Lemma root_dinode m root fs : built m ((T_DIR, root) :: fs) -> let n := Z.of_nat (length root) in n < 2 ^ 31 ->
  let d := with_di_size (rounded n) (din_at m 0) in dinode_ok d /\ d = mk_dinode T_DIR 0 0 1 (rounded n) (di_addrs d).
Proof.
  intros Hb n Hn d. pose proof (bt_made _ _ Hb 0%nat _ _ eq_refl) as M. pose proof (fl_ok _ _ _ _ (md_fill _ _ _ _ M)) as Hok.
  assert (E : d = mk_dinode T_DIR 0 0 1 (rounded n) (di_addrs (din_at m 0))) by (unfold d; rewrite (md_din _ _ _ _ M); done).
  split; [|done]. rewrite E. split; try done.
  - apply u32_small. cbn [di_size]. unfold rounded. change BSIZE with 512. zdiv.
  - exact (addrs_fit _ _ _ mkfs_layout Hok).
Qed.

Lemma main_run files : args_ok files -> let n := Z.of_nat (length (root_dir files)) in
  exists m, built m ((T_DIR, root_dir files) :: file_list files) /\ main files mkfs_start = Ok tt (finished m n).
Proof.
  intros Ha n. pose proof Ha as [Hok Hlen Hroom]. assert (En : n = 16 * (2 + Z.of_nat (length files))) by apply length_root_dir.
  set (m0 := set_freeblock nmeta mkfs_start).
  destruct (zero_sectors_run (Z.to_nat FSSIZE) 0 m0) as (m1 & E1 & Hsec & Hi & Hb & Hz); [lia|rewrite Z2Nat.id by done; lia|done|done|].
  rewrite Z2Nat.id in Hsec by done. destruct (built_nil m1 Hsec Hi Hb Hz) as [B1 E1']. set (m2 := wr 1 _ m1) in *.
  destruct (dots_spec m2 files Ha B1) as (m3 & B3 & E3).
  destruct (add_files_spec files m3 _ [] Hok B3) as (m & E4 & B4).
  { cbn [length]. lia. } { rewrite length_app, !length_mk_dirent. change (MAXFILE * BSIZE) with 71680. lia. } { rewrite <- app_assoc. exact Hroom. }
  rewrite <- app_assoc in B4. change (_ :: [] ++ _) with ((T_DIR, root_dir files) :: file_list files) in B4.
  exists m. split; [done|]. pose proof B4 as [Hs _ Hc _ Hm _]. pose proof (Hm 0%nat _ _ eq_refl) as M. pose proof (sn_free _ Hs) as Hf.
  unfold main, fill_image. do 2 (erewrite bind_ok by reflexivity). erewrite (bind_ok (modify _)) by reflexivity. fold m0.
  rewrite (bind_ok _ _ _ _ _ E1), (bind_ok _ _ _ _ _ E1'). etrans; [apply E3|]. rewrite (bind_ok _ _ _ _ _ E4).
  assert (Hin : 0 <= ROOTINO < NINODES) by (unfold ROOTINO, NINODES; lia).
  pose proof (rinode_run ROOTINO m Hs Hin) as R1.
  rewrite (bind_ok _ _ _ _ _ R1). change (dinode_at (disk m) ROOTDEV mkfs_sb ROOTINO) with (din_at m 0).
  assert (Ex : di_size (din_at m 0) = n) by (rewrite (md_din _ _ _ _ M); done). rewrite Ex, (xint_small n) by lia.
  assert (Hr : 0 <= rounded n < 2 ^ 16) by (unfold rounded; change BSIZE with 512; zdiv).
  fold (rounded n). rewrite u32_small, xint_small by lia. rewrite (bind_ok _ _ _ _ _ (winode_run ROOTINO _ m Hs Hin)).
  fold (resized m n). erewrite bind_ok by reflexivity. change (freeblock (resized m n)) with (freeblock m).
  unfold balloc. rewrite s32_small, (proj2 (Z.ltb_lt _ _)) by (change BSIZE with 512; lia). erewrite bind_ok by reflexivity.
  destruct (root_dinode m _ _ B4) as [Hd _]; [fold n; lia|]. fold n in Hd.
  apply (wsect_run 58); [|unfold FSSIZE; lia]. apply (wi_spec ROOTINO _ m Hs Hin Hd).
Qed.

(** * The image as a disk of the kernel *)
Definition image_of (m : mkfs) : gmap (Z * Z) (list Z) := kmap (pair ROOTDEV) (img m).

Lemma image_of_block m b : disk_block (image_of m) (ROOTDEV, b) = disk m (ROOTDEV, b).
Proof. unfold disk_block, image_of, disk. by rewrite (lookup_kmap (pair ROOTDEV)). Qed.

Lemma finished_view m n b : disk_block (image_of (finished m n)) (ROOTDEV, b) = view (resized m n) (ROOTDEV, b).
Proof. rewrite image_of_block. unfold finished. by rewrite disk_wr. Qed.

(** The inode that inode number [inum] has on the disk. *)
Definition disk_inode (V : Z * Z -> list Z) (inum : Z) : inode := file_of inum (dinode_at V ROOTDEV mkfs_sb inum).

(** A file of type [ty] with one link and contents [bs]. *)
Record stored (V : Z * Z -> list Z) (inum ty : Z) (bs : list Z) : Prop := mk_stored {
  sd_dinode : exists addrs, dinode_at V ROOTDEV mkfs_sb inum = mk_dinode ty 0 0 1 (Z.of_nat (length bs)) addrs;
  sd_ok : file_ok mkfs_sb V (disk_inode V inum);
  sd_bytes : file_bytes V (disk_inode V inum) 0 (Z.of_nat (length bs)) = bs }.

Section disk.
Context (V V' : Z * Z -> list Z) (HV : forall b, V' (ROOTDEV, b) = V (ROOTDEV, b)).

Lemma disk_inode_agree inum : disk_inode V' inum = disk_inode V inum.
Proof. unfold disk_inode, dinode_at. by rewrite HV. Qed.

Lemma owns_agree ip b : i_dev ip = ROOTDEV -> owns V' ip b <-> owns V ip b.
Proof. intros Ed. unfold owns, file_addr. by rewrite Ed, HV. Qed.

Lemma stored_agree inum ty bs : stored V inum ty bs -> stored V' inum ty bs.
Proof.
  intros [[a E] Hok Hby]. pose proof (disk_inode_agree inum) as Ei.
  assert (Es : i_size (disk_inode V inum) = Z.of_nat (length bs)) by (unfold disk_inode; by rewrite E).
  destruct (file_ok_agree V V' mkfs_sb (disk_inode V inum) mkfs_layout Hok) as (Hok' & _ & Hfb); [intros b _; apply HV|].
  split; rewrite ?Ei; try done.
  - exists a. unfold dinode_at in *. by rewrite HV.
  - rewrite <- Es in *. rewrite (file_bytes_agree V V' mkfs_sb) by done. done.
Qed.
End disk.

(** ** After the root directory was resized *)
Section resized.
Context (m : mkfs) (root : list Z) (fs : list (Z * list Z)) (B : built m ((T_DIR, root) :: fs)).
Let n := Z.of_nat (length root).
Context (Hn : n <= 3200).
Let m2 := resized m n.

Lemma resized_disk : sane m2 /\ din_at m2 0 = with_di_size (rounded n) (din_at m 0) /\
  (forall i, (i <> 0)%nat -> din_at m2 i = din_at m i) /\ (forall b, ~ (32 <= b < 58) -> disk m2 (ROOTDEV, b) = disk m (ROOTDEV, b)).
Proof.
  destruct (root_dinode m root fs B) as [Hd _]; [fold n; lia|]. fold n in Hd.
  destruct (wi_spec ROOTINO _ m (bt_sane _ _ B) ltac:(unfold ROOTINO, NINODES; lia) Hd) as (Hs & E0 & Ei & Eb).
  split; [exact Hs|]. split; [exact E0|]. split; [|exact Eb]. intros i Hi. apply Ei; [lia|unfold ROOTINO; lia].
Qed.

Lemma resized_made i ty bs : (i <> 0)%nat -> ((T_DIR, root) :: fs) !! i = Some (ty, bs) ->
  made m2 i ty bs /\ forall b, owns (view m2) (ip_at m2 i) b <-> owns (view m) (ip_at m i) b.
Proof.
  intros Hi Hl. destruct resized_disk as (Hs & _ & Ed & Eb). apply made_frame; [apply B|done|by apply B|reflexivity|by apply Ed|].
  intros b Hb _. apply Eb. lia.
Qed.

Let ip := upto 1 (din_at m 0) n.

Lemma resized_root : filling m2 1 (din_at m 0) n /\ file_bytes (view m2) ip 0 n = root /\
  forall b, owns (view m2) (ip_at m2 0) b <-> owns (view m) (ip_at m 0) b.
Proof.
  destruct resized_disk as (Hs & Ed & _ & Eb). pose proof (bt_sane _ _ B) as Hs0. pose proof (bt_made _ _ B 0%nat _ _ eq_refl) as M.
  pose proof (md_fill _ _ _ _ M) as F. change (Z.of_nat 0 + 1) with 1 in F. fold n in F. pose proof (ip_at_upto _ _ _ _ M) as Eip.
  assert (Hk : forall b, 83 <= b < freeblock m -> owns (view m) ip b -> disk m2 (ROOTDEV, b) = disk m (ROOTDEV, b)) by (intros b Hb _; apply Eb; lia).
  split; [by apply (frame_filling m m2)|]. split.
  - etrans; [exact (frame_bytes m m2 1 (din_at m 0) n Hs0 Hs F ltac:(reflexivity) Hk)|].
    etrans; [|exact (md_bytes _ _ _ _ M)]. by rewrite Eip.
  - intros b. unfold ip_at at 1. rewrite Ed, Eip. exact (frame_owns m m2 1 (din_at m 0) n Hs0 F Hk b).
Qed.

Lemma resized_sep i j b : (i <= length fs)%nat -> (j <= length fs)%nat ->
  owns (view m2) (ip_at m2 i) b -> owns (view m2) (ip_at m2 j) b -> i = j.
Proof.
  assert (Ho : forall i, (i <= length fs)%nat -> owns (view m2) (ip_at m2 i) b -> owns (view m) (ip_at m i) b).
  { intros k Hk. destruct (decide (k = 0%nat)) as [->|Hne]; [apply resized_root|].
    destruct (lookup_lt_is_Some_2 ((T_DIR, root) :: fs) k) as [[t c] Hl]; [cbn; lia|]. by apply (resized_made k t c Hne Hl). }
  intros Hi Hj O1 O2. apply (bt_sep _ _ B i j b); [cbn; lia|cbn; lia|by apply Ho|by apply Ho].
Qed.

(** The directory fills its last block, unless its entries end at the end of it. *)
Let ip' := upto 1 (din_at m 0) (rounded n).

Lemma root_tail o : n <= o < rounded n -> n mod BSIZE <> 0 -> file_addr (view m2) ip' (o / BSIZE) <> 0 /\ fbyte (view m2) ip' o = 0.
Proof.
  intros Ho Hm. destruct resized_root as (F & _ & _). unfold rounded in Ho.
  assert (Hf : file_addr (view m2) ip (o / BSIZE) <> 0).
  { apply (fo_full _ _ _ (fl_ok _ _ _ _ F)); change (i_size (upto 1 (din_at m 0) n)) with n; change BSIZE with 512 in *; zdiv. }
  split; [exact Hf|]. apply (fl_tail _ _ _ _ F); [|exact Hf]. change (MAXFILE * BSIZE) with 71680. change BSIZE with 512 in *. zdiv.
Qed.

Lemma root_ok : n mod BSIZE <> 0 -> file_ok mkfs_sb (view m2) ip'.
Proof.
  intros Hm. destruct resized_root as (F & _ & _). apply (file_ok_size (view m2) mkfs_sb ip (rounded n) (fl_ok _ _ _ _ F)).
  - change (MAXFILE * BSIZE) with 71680. unfold rounded. change BSIZE with 512 in *. zdiv.
  - intros bn H0 H1. apply (fo_full _ _ _ (fl_ok _ _ _ _ F)); [done|]. change (i_size (upto 1 (din_at m 0) n)) with n.
    unfold rounded in H1. change BSIZE with 512 in *. zdiv.
Qed.

Lemma root_bytes : n mod BSIZE <> 0 -> file_bytes (view m2) ip' 0 (rounded n) = root ++ replicate (Z.to_nat (rounded n - n)) 0.
Proof.
  intros Hm. destruct resized_root as (F & Hby & _). assert (Hr : n <= rounded n) by (unfold rounded; change BSIZE with 512; zdiv).
  replace (rounded n) with (n + (rounded n - n)) at 1 by lia. rewrite file_bytes_app by lia. f_equal; [exact Hby|].
  symmetry. apply replicate_as_elem_of. rewrite length_file_bytes. split; [done|]. intros x. unfold file_bytes. intros (j & -> & Hj)%list_elem_of_fmap.
  apply elem_of_seq in Hj. rewrite (fbyte_file _ mkfs_sb) by (by apply root_ok || (change (i_size ip') with (rounded n); lia)).
  by apply root_tail; [lia|].
Qed.

Lemma root_stored : n mod BSIZE <> 0 -> stored (view m2) ROOTINO T_DIR (root ++ replicate (Z.to_nat (rounded n - n)) 0).
Proof.
  intros Hm. destruct resized_disk as (_ & Ed & _). destruct (root_dinode m root fs B) as [_ Er]; [fold n; lia|]. fold n in Er.
  assert (Hr : n <= rounded n) by (unfold rounded; change BSIZE with 512; zdiv).
  assert (Ev : dinode_at (view m2) ROOTDEV mkfs_sb ROOTINO = din_at m2 0) by done.
  assert (El : Z.of_nat (length (root ++ replicate (Z.to_nat (rounded n - n)) 0)) = rounded n).
  { rewrite length_app, length_replicate. unfold n in *. lia. }
  split; rewrite ?El; unfold disk_inode; rewrite ?Ev, ?Ed.
  - eexists. exact Er.
  - by apply root_ok.
  - by apply root_bytes.
Qed.
End resized.

Lemma view_dinode m i : (i <= 198)%nat -> dinode_at (view m) ROOTDEV mkfs_sb (Z.of_nat i + 1) = din_at m i.
Proof.
  intros Hi. unfold din_at, dinode_at. rewrite view_disk; [done|]. pose proof (iblock_range (Z.of_nat i + 1) ltac:(unfold NINODES; lia)). lia.
Qed.

Lemma made_stored m i ty bs : made m i ty bs -> (i <= 198)%nat -> stored (view m) (Z.of_nat i + 1) ty bs.
Proof.
  intros M Hi. pose proof (ip_at_upto m i ty bs M) as Eip. pose proof M as [E F By].
  assert (Ed : disk_inode (view m) (Z.of_nat i + 1) = ip_at m i) by (unfold disk_inode; by rewrite view_dinode).
  split; rewrite ?Ed.
  - eexists. rewrite view_dinode by done. exact E.
  - rewrite Eip. apply F.
  - exact By.
Qed.

(** The superblock can be read back. *)
Lemma decode_sb_block : decode_sb (splice zero_block 0 (sb_bytes mkfs_sb)) = mkfs_sb.
Proof. vm_compute. reflexivity. Qed.

(** A kernel whose blocks are those of the image satisfies the invariant of fs.c. *)
Lemma image_fs_inv {drv : Driver} m s : sane m ->
  (forall b, b < 32 -> disk m (ROOTDEV, b) = if decide (b = 1) then splice zero_block 0 (sb_bytes mkfs_sb) else zero_block) ->
  (forall b, k_view s (ROOTDEV, b) = view m (ROOTDEV, b)) ->
  l_dev (k_log s) = ROOTDEV -> l_start (k_log s) = sb_logstart mkfs_sb -> l_size (k_log s) = sb_nlog mkfs_sb -> sb (k_fs s) = mkfs_sb ->
  (forall b, 0 < b < FSSIZE -> drv_block s ROOTDEV b = true) -> fs_inv s.
Proof.
  intros Hs Hlow HV Ed Est Esz Esb Hdrv. split; rewrite ?Ed, ?Est, ?Esz, ?Esb, ?mkfs_data.
  - done.
  - rewrite HV, view_disk, Hlow, decide_True by done. apply decode_sb_block.
  - rewrite mkfs_sb_eq. cbn. lia.
  - rewrite mkfs_sb_eq. cbn. change IPB with 8. split; [lia|]. by vm_compute.
  - rewrite mkfs_sb_eq. cbn. lia.
  - intros b Hb. rewrite mkfs_sb_eq in Hb. by apply Hdrv.
  - intros b Hb. pose proof (sn_free _ Hs). pose proof (used_view m b Hs ltac:(unfold FSSIZE; lia)) as Hu.
    unfold used in *. rewrite HV, Hu. apply Z.ltb_lt. lia.
Qed.

(** What the finished image promises to the kernel. *)
Record fs_image (files : list source) (V : Z * Z -> list Z) : Prop := mk_fs_image {
  (** the superblock is there and the log is empty *)
  im_sb : decode_sb (V (ROOTDEV, 1)) = mkfs_sb;
  im_log : V (ROOTDEV, sb_logstart mkfs_sb) = zero_block;
  (** the blocks up to some block are marked in use, all others are free *)
  im_used : exists n, 83 <= n < 4096 /\ forall b, 0 <= b < FSSIZE -> used V ROOTDEV mkfs_sb b = (b <? n);
  (** every argument is a file, and the root directory names it *)
  im_file i f : files !! i = Some f -> stored V (Z.of_nat i + 2) T_FILE (contents f);
  im_root : let n := Z.of_nat (length (root_dir files)) in n mod BSIZE <> 0 ->
    stored V ROOTINO T_DIR (root_dir files ++ replicate (Z.to_nat (rounded n - n)) 0);
  (** no block belongs to two files *)
  im_sep i j b : (i <= length files)%nat -> (j <= length files)%nat ->
    owns V (disk_inode V (Z.of_nat i + 1)) b -> owns V (disk_inode V (Z.of_nat j + 1)) b -> i = j }.


(** The rounding of the directory's size counts a block that was never allocated when
    the entries end at the end of a block. *)
Theorem mkfs_root_hole files : args_ok files -> Z.of_nat (length (root_dir files)) mod BSIZE = 0 ->
  exists m, main files mkfs_start = Ok tt m /\
    let V := disk_block (image_of m) in let ip := disk_inode V ROOTINO in
    exists bn, 0 <= bn /\ bn * BSIZE < i_size ip /\ file_addr V ip bn = 0.
Proof.
  intros Ha Hmod. destruct (main_run files Ha) as (m & B & R). pose proof (length_root_dir files) as En. destruct Ha as [_ Hlen _].
  set (root := root_dir files) in *. set (n := Z.of_nat (length root)) in *. assert (Hn : n <= 3200) by lia.
  destruct (resized_disk m root _ B Hn) as (Hs & Ed0 & _ & _). fold n in Hs, Ed0. destruct (resized_root m root _ B Hn) as (F & _). fold n in F.
  set (m2 := resized m n) in *. exists (finished m n). split; [exact R|]. intros V ip.
  assert (Hv : forall b, V (ROOTDEV, b) = view m2 (ROOTDEV, b)) by apply finished_view.
  assert (Eip : ip = upto 1 (din_at m 0) (rounded n)).
  { unfold ip. rewrite (disk_inode_agree (view m2) V Hv). unfold disk_inode. change (dinode_at (view m2) ROOTDEV mkfs_sb ROOTINO) with (din_at m2 0). by rewrite Ed0. }
  assert (Hdiv : n = BSIZE * (n / BSIZE)) by (by apply Z_div_exact_full_2). assert (H0 : 0 <= n / BSIZE) by (apply Z.div_pos; [lia|done]).
  clearbody n. exists (n / BSIZE). split; [exact H0|]. rewrite Eip. split.
  - change (n / BSIZE * BSIZE < rounded n). unfold rounded. change BSIZE with 512 in *. lia.
  - pose proof (fl_tight _ _ _ _ F (n / BSIZE)) as Hf. unfold file_addr in *. change (i_dev _) with ROOTDEV. rewrite Hv. apply Hf.
    + change MAXFILE with 140. change BSIZE with 512 in *. lia.
    + lia.
Qed.

(** ialloc does not look at the number of inodes: the inode after the last one that the
    inode blocks have room for is written over the bitmap. *)
Lemma ialloc_overruns : IBLOCK (ninodeblocks * IPB) mkfs_sb = sb_bmapstart mkfs_sb.
Proof. vm_compute. reflexivity. Qed.

(** A file system with one file, whose name begins with an underscore. *)
Definition demo_source : source := mk_source [95; 104; 105] (Some [[104; 101; 108]; [108; 111; 10]]).

Lemma demo_args : args_ok [demo_source].
Proof.
  split; [|cbn; lia|by vm_compute]. constructor; [|constructor]. split.
  - by eexists.
  - cbn. rewrite !not_elem_of_cons. repeat split; try done. apply not_elem_of_nil.
  - repeat (constructor; [lia|]). constructor.
  - repeat (constructor; [lia|]). constructor.
  - by vm_compute.
Qed.


(** Thirty files and the two entries for the directory itself fill a block. *)
Lemma thirty_args : args_ok (replicate 30 demo_source).
Proof.
  split; [|cbn; lia|by vm_compute]. apply Forall_replicate. by destruct demo_args as [[]%Forall_cons_iff _ _].
Qed.

Lemma mkfs_root_hole_witness : exists m, main (replicate 30 demo_source) mkfs_start = Ok tt m.
Proof. destruct (mkfs_root_hole _ thirty_args eq_refl) as (m & R & _). by exists m. Defined.
