(* ===== verification/Proc.v ===== *)
(** Processes: the rest of proc.c (allocproc, userinit, growproc, fork, exit, wait,
    scheduler, forkret).

    The trap frame and the saved context of a process are fields of its struct proc
    here; in the kernel they lie on its kernel stack, at places only the process uses.
    procdump only prints. *)

From S2P Require Import Prelude Layout CString State Spinlock Sched Mem Sleeplock Ring Memide Bio Log Fs Kalloc KallocSafe Vm Pipe File.
Local Open Scope kernel_scope.

(** The addresses of forkret and of trapret in trapasm.S. *)
Class Entry := { a_forkret : Z; a_trapret : Z }.

Definition upd_ptable (f : ptable -> ptable) : K unit := modify (fun s => set_ptable (f (k_ptable s)) s).
Definition with_nextpid (x : Z) (t : ptable) : ptable := mk_ptable (procs t) x (initproc t).
Definition with_initproc (x : option nat) (t : ptable) : ptable := mk_ptable (procs t) (nextpid t) x.

(** [myproc()], where the caller runs on behalf of a process. *)
Definition curproc : K nat := let! p := on_sync myproc in index "myproc()" p.

Definition pinit : K unit := on_sync (initlock L_ptable).

Fixpoint find_unused (ps : list proc) (i : nat) : option nat :=
  match ps with
  | [] => None
  | p :: ps' => if decide (p_state p = UNUSED) then Some i else find_unused ps' (S i)
  end.

Definition sizeof_trapframe : Z := 19 * 4.

Section proc.
Context `{!Driver} `{!DevSw} `{!Image} `{!Entry}.

Definition allocproc : K (option nat) :=
  on_sync (acquire L_ptable) ;;;
  let! t := reads k_ptable in
  match find_unused (procs t) 0 with
  | None => on_sync (release L_ptable) ;;; ret None
  | Some i =>
      upd_proc i (with_state EMBRYO) ;;;
      upd_proc i (with_pid (nextpid t)) ;;;
      upd_ptable (with_nextpid (s32 (nextpid t + 1))) ;;;
      on_sync (release L_ptable) ;;;
      let! ks := kalloc in
      upd_proc i (with_kstack ks) ;;;
      if ks =? 0 then upd_proc i (with_state UNUSED) ;;; ret None else
      vst32 (ks + KSTACKSIZE - sizeof_trapframe - 4) a_trapret ;;;
      upd_proc i (with_context (mk_context 0 0 0 0 a_forkret)) ;;;
      ret (Some i)
  end.

(** [initcode] is the program of initcode.S, linked into the kernel as a binary. *)
Definition userinit (initcode : list Z) : K unit :=
  let! p := allocproc in
  upd_ptable (with_initproc p) ;;;
  let! p := index "p" p in
  let! pgdir := setupkvm in
  upd_proc p (with_pgdir pgdir) ;;;
  if pgdir =? 0 then panic "userinit: out of memory?" else
  inituvm pgdir initcode ;;;
  upd_proc p (with_sz PGSIZE) ;;;
  let ds := Z.lor (Z.shiftl SEG_UDATA 3) DPL_USER in
  upd_proc p (with_tf (mk_trapframe 0 0 0 0 0 0 0 0 0 0 ds ds 0 0 0
    (Z.lor (Z.shiftl SEG_UCODE 3) DPL_USER) FL_IF PGSIZE ds)) ;;;
  upd_proc p (with_name (safestrcpy (str "initcode") 16)) ;;;
  let! cwd := namei [slash] in
  upd_proc p (with_cwd cwd) ;;;
  on_sync (acquire L_ptable) ;;;
  upd_proc p (with_state RUNNABLE) ;;;
  on_sync (release L_ptable).

Definition growproc (n : Z) : K Z :=
  let! i := curproc in
  let! p := get_proc i in
  let sz := p_sz p in
  let! sz := (if 0 <? n then allocuvm (p_pgdir p) sz (u32 (sz + n))
              else if n <? 0 then deallocuvm (p_pgdir p) sz (u32 (sz + n))
              else ret sz) in
  if negb (n =? 0) && (sz =? 0) then ret (-1) else
  upd_proc i (with_sz sz) ;;;
  switchuvm i ;;;
  ret 0.

(** [np->ofile[fd] = filedup(curproc->ofile[fd])] for the open descriptors. *)
Fixpoint dup_files (np : nat) (fd : nat) (ofs : list (option nat)) : K unit :=
  match ofs with
  | [] => ret tt
  | o :: ofs' =>
      match o with
      | Some f => let! f := filedup f in upd_proc np (fun p => with_ofile (<[fd := Some f]> (p_ofile p)) p)
      | None => ret tt
      end ;;;
      dup_files np (S fd) ofs'
  end.

Definition with_tf_eax (v : Z) (t : trapframe) : trapframe :=
  mk_trapframe (tf_edi t) (tf_esi t) (tf_ebp t) (tf_oesp t) (tf_ebx t) (tf_edx t) (tf_ecx t) v (tf_gs t) (tf_fs t)
    (tf_es t) (tf_ds t) (tf_trapno t) (tf_err t) (tf_eip t) (tf_cs t) (tf_eflags t) (tf_esp t) (tf_ss t).

Definition fork : K Z :=
  let! me := curproc in
  let! np := allocproc in
  match np with
  | None => ret (-1)
  | Some np =>
      let! cp := get_proc me in
      let! pgdir := copyuvm (p_pgdir cp) (p_sz cp) in
      upd_proc np (with_pgdir pgdir) ;;;
      if pgdir =? 0 then
        let! p := get_proc np in
        kfree (p_kstack p) ;;;
        upd_proc np (with_kstack 0) ;;;
        upd_proc np (with_state UNUSED) ;;;
        ret (-1)
      else
      upd_proc np (with_sz (p_sz cp)) ;;;
      upd_proc np (with_parent (Some me)) ;;;
      upd_proc np (with_tf (with_tf_eax 0 (p_tf cp))) ;;;
      dup_files np 0 (p_ofile cp) ;;;
      let! cwd := index "cwd" (p_cwd cp) in
      let! cwd := idup cwd in
      upd_proc np (with_cwd (Some cwd)) ;;;
      upd_proc np (with_name (safestrcpy (p_name cp) 16)) ;;;
      let! p := get_proc np in
      on_sync (acquire L_ptable) ;;;
      upd_proc np (with_state RUNNABLE) ;;;
      on_sync (release L_ptable) ;;;
      ret (p_pid p)
  end.

Fixpoint close_files (me : nat) (fd : nat) (ofs : list (option nat)) : K unit :=
  match ofs with
  | [] => ret tt
  | o :: ofs' =>
      match o with
      | Some f => fileclose f ;;; upd_proc me (fun p => with_ofile (<[fd := None]> (p_ofile p)) p)
      | None => ret tt
      end ;;;
      close_files me (S fd) ofs'
  end.

(** The loop of exit that passes abandoned children to init. *)
Definition reparent (me : nat) (i : nat) : K unit :=
  let! p := get_proc i in
  when (bool_decide (p_parent p = Some me))
    (let! t := reads k_ptable in
     upd_proc i (with_parent (initproc t)) ;;;
     when (bool_decide (p_state p = ZOMBIE))
       (match initproc t with Some ip => wakeup1 (C_proc ip) | None => ret tt end)).

Definition exit : K unit :=
  let! me := curproc in
  let! t := reads k_ptable in
  if decide (Some me = initproc t) then panic "init exiting" else
  let! cp := get_proc me in
  close_files me 0 (p_ofile cp) ;;;
  begin_op ;;;
  let! cp := get_proc me in
  let! cwd := index "cwd" (p_cwd cp) in
  iput cwd ;;;
  end_op ;;;
  upd_proc me (with_cwd None) ;;;
  on_sync (acquire L_ptable) ;;;
  let! cp := get_proc me in
  match p_parent cp with Some q => wakeup1 (C_proc q) | None => ret tt end ;;;
  let! t := reads k_ptable in
  for_each (seq 0 (length (procs t))) (reparent me) ;;;
  upd_proc me (with_state ZOMBIE) ;;;
  sched ;;;
  panic "zombie exit".

(** The scan of wait: the first exited child, or whether there are children. *)
Fixpoint find_zombie (ps : list proc) (me : nat) (i : nat) (havekids : bool) : nat + bool :=
  match ps with
  | [] => inr havekids
  | p :: ps' =>
      if decide (p_parent p = Some me) then
        if decide (p_state p = ZOMBIE) then inl i else find_zombie ps' me (S i) true
      else find_zombie ps' me (S i) havekids
  end.

(** The body of wait for an exited child. *)
Definition reap (i : nat) : K Z :=
  let! p := get_proc i in
  kfree (p_kstack p) ;;;
  upd_proc i (with_kstack 0) ;;;
  freevm (p_pgdir p) ;;;
  upd_proc i (with_pid 0) ;;;
  upd_proc i (with_parent None) ;;;
  upd_proc i (fun p => with_name (<[0%nat := 0]> (p_name p)) p) ;;;
  upd_proc i (with_killed 0) ;;;
  upd_proc i (with_state UNUSED) ;;;
  on_sync (release L_ptable) ;;;
  ret (p_pid p).

Fixpoint wait_loop (fuel : nat) (me : nat) : K Z :=
  let! t := reads k_ptable in
  match find_zombie (procs t) me 0 false with
  | inl i => reap i
  | inr havekids =>
      let! cp := get_proc me in
      if negb havekids || negb (p_killed cp =? 0) then on_sync (release L_ptable) ;;; ret (-1) else
      match fuel with
      | O => hang
      | S fuel' =>
          sleep (C_proc me) (Some L_ptable) ;;;
          wait_loop fuel' me
      end
  end.

Definition wait : K Z :=
  let! me := curproc in
  on_sync (acquire L_ptable) ;;;
  wait_loop wait_fuel me.

Definition with_cpu_proc (x : option nat) (c : cpu) : cpu :=
  mk_cpu (apicid c) (started c) (ncli c) (intena c) x (eflags_if c).

(** The body of the scheduler's loop over the process table, for process [i]. *)
Definition schedule_proc (i : nat) : K unit :=
  let! p := get_proc i in
  when (bool_decide (p_state p = RUNNABLE))
    (on_sync (upd_mycpu (with_cpu_proc (Some i))) ;;;
     switchuvm i ;;;
     upd_proc i (with_state RUNNING) ;;;
     swtch ;;;
     on_sync (upd_mycpu (with_cpu_proc None))).

(** One round of the scheduler, which runs rounds for ever. *)
Definition scheduler_round : K unit :=
  on_sync sti ;;;
  on_sync (acquire L_ptable) ;;;
  let! t := reads k_ptable in
  for_each (seq 0 (length (procs t))) schedule_proc ;;;
  on_sync (release L_ptable).

(** [first] is the static variable of forkret. *)
Definition forkret (first : bool) : K unit :=
  on_sync (release L_ptable) ;;;
  when first (iinit ROOTDEV ;;; initlog ROOTDEV).
End proc.

(** * Theorems *)

(** Process identifiers are below nextpid, and those in use are distinct. *)
Record pids_ok (t : ptable) : Prop := mk_pids_ok {
  pi_range : forall i p, procs t !! i = Some p -> p_state p <> UNUSED -> p_pid p < nextpid t;
  pi_uniq : forall i j p q, procs t !! i = Some p -> procs t !! j = Some q ->
    p_state p <> UNUSED -> p_state q <> UNUSED -> p_pid p = p_pid q -> i = j }.

Lemma find_unused_spec ps k :
  match find_unused ps k with
  | Some i => exists j p, i = (k + j)%nat /\ ps !! j = Some p /\ p_state p = UNUSED
  | None => forall j p, ps !! j = Some p -> p_state p <> UNUSED
  end.
Proof.
  revert k. induction ps as [|p ps IH]; intros k; simpl; [done|]. case_decide.
  - exists 0%nat, p. split; [lia|done].
  - specialize (IH (S k)). destruct (find_unused ps (S k)).
    + destruct IH as (j & q & -> & Hj & Hq). exists (S j), q. split; [lia|done].
    + intros [|j] q Hj; simpl in Hj; [by simplify_eq|by eapply IH].
Qed.

Lemma pids_ok_insert t i p p' n : pids_ok t -> procs t !! i = Some p -> p_pid p' = nextpid t -> n = nextpid t + 1 ->
  pids_ok (mk_ptable (<[i := p']> (procs t)) n (initproc t)).
Proof.
  intros [Hr Hu] Hi Hp ->. pose proof (lookup_lt_Some _ _ _ Hi) as Hlt.
  assert (Hlk : forall x q, <[i := p']> (procs t) !! x = Some q -> (x = i /\ q = p') \/ (x <> i /\ procs t !! x = Some q)).
  { intros x q Hx. destruct (decide (x = i)) as [->|Hne].
    - rewrite list_lookup_insert_eq in Hx by done. simplify_eq. by left.
    - rewrite list_lookup_insert_ne in Hx by done. by right. }
  split; cbn [procs nextpid].
  - intros x q [[-> ->]|[_ Hx]]%Hlk Hs; [lia|]. specialize (Hr x q Hx Hs). lia.
  - intros x y q q' [[-> ->]|[Hxi Hx]]%Hlk [[-> ->]|[Hyi Hy]]%Hlk Hs Hs' E; [done| | |by eapply Hu].
    + specialize (Hr y q' Hy Hs'). lia.
    + specialize (Hr x q Hx Hs). lia.
Qed.

Section theorems.
Context {drv : Driver} {dsw : DevSw} {im : Image} {en : Entry}.

Definition new_proc (pid ks : Z) (p : proc) : proc :=
  with_context (mk_context 0 0 0 0 a_forkret) (with_kstack ks (with_pid pid (with_state EMBRYO p))).

(** Process [i] allocated with the kernel stack [pg]. *)
Definition allocated (i : nat) (p : proc) (pg : Z) (s : kstate) : kstate :=
  let t := k_ptable s in
  alloc_state (ld32 (k_mem s) pg) (st32 (k_mem s) (pg + KSTACKSIZE - sizeof_trapframe - 4) a_trapret)
    (set_ptable (mk_ptable (<[i := new_proc (nextpid t) pg p]> (procs t)) (nextpid t + 1) (initproc t)) s).

Lemma allocproc_run s i p pg l :
  quiet s -> free_ok s (pg :: l) -> 0 <= nextpid (k_ptable s) < 2 ^ 31 - 1 ->
  find_unused (procs (k_ptable s)) 0 = Some i -> procs (k_ptable s) !! i = Some p ->
  allocproc s = Ok (Some i) (allocated i p pg s) /\ free_ok (allocated i p pg s) l.
Proof.
  intros Hc Hf Hn Hfu Hj. set (t := k_ptable s) in *. unfold allocproc.
  rewrite (bind_ok _ _ _ _ _ (acquire_quiet L_ptable s Hc I)). erewrite bind_ok by reflexivity. cbn [k_ptable set_sync]. fold t. rewrite Hfu.
  rewrite (bind_ok _ _ _ _ _ (upd_proc_ok _ _ _)), (bind_ok _ _ _ _ _ (upd_proc_ok _ _ _)). unfold upd_ptable. erewrite bind_ok by reflexivity.
  erewrite bind_ok by (apply (release_quiet L_ptable s); done).
  set (p1 := with_pid (nextpid t) (with_state EMBRYO p)). pose proof (lookup_lt_Some _ _ _ Hj) as Hlt.
  set (s1 := set_ptable (mk_ptable (<[i := p1]> (procs t)) (nextpid t + 1) (initproc t)) s).
  match goal with |- context [bind kalloc _ ?st] => assert (Est : st = s1) end.
  { unfold s1, upd_procs, with_nextpid. cbn [k_ptable set_ptable set_sync procs nextpid initproc]. fold t.
    rewrite list_alter_alter_eq, (list_alter_insert_at _ _ p) by done. rewrite s32_small by lia. by destruct s. }
  rewrite Est. clear Est. assert (Hc1 : may_alloc s1) by (by apply (may_alloc_frame s); [apply quiet_may_alloc| |]).
  assert (Hf1 : free_ok s1 (pg :: l)) by (destruct Hf; by split).
  rewrite (bind_ok _ _ _ _ _ (kalloc_run s1 pg l Hc1 Hf1)). destruct Hf1 as [Hps Hnd [Hh Hlk]].
  apply Forall_cons_iff in Hps as [Hp Hps]. apply list.NoDup_cons in Hnd as [Hnl Hnd]. destruct (page_kernel pg Hp) as (Hk & Hr & _).
  rewrite (bind_ok _ _ _ _ _ (upd_proc_ok _ _ _)), (proj2 (Z.eqb_neq _ _)) by lia. set (a := pg + KSTACKSIZE - sizeof_trapframe - 4).
  assert (Ha : pg <= a /\ a + 4 <= pg + PGSIZE) by (unfold a, KSTACKSIZE, sizeof_trapframe; change PGSIZE with 4096; lia).
  rewrite (bind_ok _ _ _ _ _ (vst32_kernel a _ (set_ptable _ _) ltac:(lia))).
  rewrite (bind_ok _ _ _ _ _ (upd_proc_ok _ _ _)). split.
  - unfold ret. apply (f_equal (Ok (Some i))). unfold allocated, alloc_state, upd_procs. fold t a.
    cbn [k_ptable k_kmem k_mem set_ptable set_mem set_kmem procs s1 nextpid initproc]. rewrite list_alter_alter_eq.
    rewrite (list_alter_insert_at _ _ p1) by (by apply list_lookup_insert_eq). rewrite list_insert_insert_eq. by destruct s.
  - split; [done|done|]. cbn. fold a. apply (linked_outside (k_mem s) _ pg); try done. intros b Hb. rewrite ldb_st32. by rewrite decide_False by lia.
Qed.

(** Allocproc takes an unused entry of the process table, gives it a process
    identifier that no process has, a kernel stack of its own and a context that
    starts at forkret, and touches no other process.  It fails, changing nothing, when
    every entry is in use. *)
Theorem allocproc_correct pid s pg l :
  calm pid s -> free_ok s (pg :: l) -> pids_ok (k_ptable s) -> nextpid (k_ptable s) < 2 ^ 31 - 1 -> 0 <= nextpid (k_ptable s) ->
  (allocproc s = Ok None s /\ forall i p, procs (k_ptable s) !! i = Some p -> p_state p <> UNUSED) \/
  exists i p s', allocproc s = Ok (Some i) s' /\ procs (k_ptable s) !! i = Some p /\ p_state p = UNUSED /\
    procs (k_ptable s') = <[i := new_proc (nextpid (k_ptable s)) pg p]> (procs (k_ptable s)) /\
    pids_ok (k_ptable s') /\ free_ok s' l /\ k_sync s' = k_sync s.
Proof.
  intros Hc Hf Hpid Hn1 Hn2. apply calm_quiet in Hc.
  pose proof (find_unused_spec (procs (k_ptable s)) 0) as Hfu. destruct (find_unused (procs (k_ptable s)) 0) as [i|] eqn:E.
  - right. destruct Hfu as (j & p & -> & Hj & Hu). destruct (allocproc_run s _ p pg l Hc Hf (conj Hn2 Hn1) E Hj) as [R Hf'].
    exists j, p, (allocated j p pg s). do 4 (split; [done|]). split; [by apply (pids_ok_insert (k_ptable s) j p)|done].
  - left. split; [|done]. unfold allocproc. rewrite (bind_ok _ _ _ _ _ (acquire_quiet L_ptable s Hc I)). erewrite bind_ok by reflexivity.
    cbn [k_ptable set_sync]. rewrite E. erewrite bind_ok by (apply (release_quiet L_ptable s); done). by destruct s.
Qed.

(** [c->proc = x] on the executing processor. *)
Lemma set_cpu_proc y x : sync_ok y -> 0 < depth y ->
  upd_mycpu (with_cpu_proc x) y = Ok tt (upd_cur (with_cpu_proc x) y) /\
  sync_ok (upd_cur (with_cpu_proc x) y) /\ depth (upd_cur (with_cpu_proc x) y) = depth y /\
  cur_proc (upd_cur (with_cpu_proc x) y) = x.
Proof.
  intros (c & Hc & Hid & Hn & Hen & Hif) Hd. unfold depth in *. rewrite Hc in Hd |- *.
  pose proof (cpu_at_upd y c (with_cpu_proc x) ltac:(done) (conj Hc Hid)) as [Hc' Hid'].
  split; [apply (upd_mycpu_ok y c); [done|auto]|]. split.
  - exists (with_cpu_proc x c). split; [done|]. split; [done|]. cbn. auto.
  - rewrite Hc'. split; [done|]. unfold cur_proc. by rewrite Hc'.
Qed.

Lemma switchuvm_ok i p s : sync_ok (k_sync s) -> procs (k_ptable s) !! i = Some p -> p_kstack p <> 0 -> p_pgdir p <> 0 ->
  switchuvm i s = Ok tt s.
Proof.
  intros Hy Hp Hks Hpg. unfold switchuvm. erewrite bind_ok by (unfold get_proc; rewrite Hp; reflexivity).
  rewrite !(proj2 (Z.eqb_neq _ _)) by done. destruct (sync_ok_at _ Hy) as (c & Hat & Hn & _).
  rewrite (bind_ok _ _ _ _ _ (on_sync_ok _ s tt _ (pushcli_ok _ c Hat))).
  destruct (sync_ok_push _ Hy) as [(c' & Hc' & Hid' & Hn' & _ & Hif') Hd']. 
  assert (Hpos : 0 < ncli c').
  { unfold depth in Hd'. rewrite Hc' in Hd'. destruct Hat as [Hc _]. rewrite Hc in Hd'. lia. }
  rewrite (on_sync_ok _ (set_sync _ s) tt _ (popcli_ok _ c' (conj Hc' Hid') (Hif' Hpos) Hpos)).
  cbn [k_sync set_sync]. rewrite pop_push by done. by destruct s.
Qed.

(** The state in which the scheduler leaves the processor to process [i]. *)
Definition handed (i : nat) (s : kstate) : kstate :=
  set_ptable (upd_procs i (with_state RUNNING) (k_ptable s)) (set_sync (upd_cur (with_cpu_proc (Some i)) (k_sync s)) s).

Lemma schedule_proc_run i p s : sync_ok (k_sync s) -> 0 < depth (k_sync s) -> procs (k_ptable s) !! i = Some p ->
  p_state p = RUNNABLE -> p_kstack p <> 0 -> p_pgdir p <> 0 ->
  schedule_proc i s = Swtch (handed i s) (fun s2 => on_sync (upd_mycpu (with_cpu_proc None)) s2).
Proof.
  intros Hy Hd Hp Hs Hks Hpg. unfold schedule_proc. erewrite bind_ok by (unfold get_proc; rewrite Hp; reflexivity).
  rewrite bool_decide_true by done. cbn [when]. destruct (set_cpu_proc _ (Some i) Hy Hd) as (R1 & Hy1 & _).
  rewrite (bind_ok _ _ _ _ _ (on_sync_ok _ s tt _ R1)).
  rewrite (bind_ok _ _ _ _ _ (switchuvm_ok i p (set_sync _ s) Hy1 Hp Hks Hpg)), (bind_ok _ _ _ _ _ (upd_proc_ok _ _ _)). done.
Qed.

(** The scheduler keeps its side of the contract of sched. *)
Lemma handed_resumed lk i p s : sync_ok (k_sync s) -> held_lock L_ptable (k_sync s) -> depth (k_sync s) = 1 -> free_lock lk (k_sync s) ->
  procs (k_ptable s) !! i = Some p -> resumed lk i (handed i s) /\ procs (k_ptable (handed i s)) !! i = Some (with_state RUNNING p).
Proof.
  intros Hy Hh Hd Hf Hp. destruct (set_cpu_proc (k_sync s) (Some i) Hy ltac:(lia)) as (_ & Hy' & Hd' & Hc').
  assert (E : procs (k_ptable (handed i s)) !! i = Some (with_state RUNNING p)) by (cbn; by rewrite list_lookup_alter_eq, Hp).
  split; [|done]. split; try done. by rewrite <- Hd.
Qed.

(** C30: the hand-over from the scheduler to a process.  The scheduler gives the processor
    only to a process that is RUNNABLE; it does so with ptable.lock and no other lock
    held, the process marked RUNNING and recorded as the one this CPU runs: what sched
    relies on when it returns.  A process in another state is passed over. *)
Theorem scheduler_hands_over i p s :
  sync_ok (k_sync s) -> held_lock L_ptable (k_sync s) -> depth (k_sync s) = 1 -> procs (k_ptable s) !! i = Some p ->
  p_kstack p <> 0 -> p_pgdir p <> 0 ->
  if decide (p_state p = RUNNABLE) then
    exists s1 k, schedule_proc i s = Swtch s1 k /\
      sync_ok (k_sync s1) /\ held_lock L_ptable (k_sync s1) /\ depth (k_sync s1) = 1 /\
      cur_proc (k_sync s1) = Some i /\ locks (k_sync s1) = locks (k_sync s) /\
      procs (k_ptable s1) = <[i := with_state RUNNING p]> (procs (k_ptable s)) /\
      forall s2, sync_ok (k_sync s2) -> 0 < depth (k_sync s2) ->
        exists s3, k s2 = Ok tt s3 /\ cur_proc (k_sync s3) = None /\ k_ptable s3 = k_ptable s2
  else schedule_proc i s = Ok tt s.
Proof.
  intros Hy Hh Hd Hp Hks Hpg. destruct (decide (p_state p = RUNNABLE)) as [Hs|Hs].
  - destruct (set_cpu_proc _ (Some i) Hy ltac:(lia)) as (_ & Hy1 & Hd1 & Hc1).
    rewrite (schedule_proc_run i p) by (done || lia). eexists _, _. split; [reflexivity|]. unfold handed. cbn [k_sync k_ptable set_ptable set_sync].
    split; [done|]. split; [done|]. split; [lia|]. split; [done|]. split; [done|].
    split; [by apply list_alter_insert_at|]. intros s2 Hy2 Hd2. destruct (set_cpu_proc _ None Hy2 Hd2) as (R2 & _ & _ & Hc2).
    eexists. split; [by rewrite (on_sync_ok _ s2 tt _ R2)|]. done.
  - unfold schedule_proc. erewrite bind_ok by (unfold get_proc; rewrite Hp; reflexivity). by rewrite bool_decide_false.
Qed.

(** ** Abandoned children *)

(** Process table [t'] has the processes of [t], with parents changed by [f]. *)
Definition adopts (f : nat -> option nat -> option nat) (t t' : ptable) : Prop :=
  initproc t' = initproc t /\ length (procs t') = length (procs t) /\
  forall i p, procs t !! i = Some p ->
    exists q, procs t' !! i = Some q /\ p_pid q = p_pid p /\ p_parent q = f i (p_parent p).

Lemma adopts_refl t : adopts (fun _ x => x) t t.
Proof. split; [done|]. split; [done|]. intros i p Hp. by exists p. Qed.

Lemma adopts_trans f g t1 t2 t3 : adopts f t1 t2 -> adopts g t2 t3 -> adopts (fun i x => g i (f i x)) t1 t3.
Proof.
  intros (E1 & L1 & H1) (E2 & L2 & H2). split; [congruence|]. split; [congruence|]. intros i p Hp.
  destruct (H1 i p Hp) as (q & Hq & Hpid & Hpar). destruct (H2 i q Hq) as (r & Hr & Hpid2 & Hpar2).
  exists r. split; [done|]. split; [congruence|]. by rewrite Hpar2, Hpar.
Qed.

Lemma adopts_woken ch t : adopts (fun _ x => x) t (woken ch t).
Proof.
  split; [done|]. split; [cbn; by rewrite length_fmap|]. intros i p Hp. exists (wake_proc ch p).
  cbn. rewrite list_lookup_fmap, Hp. split; [done|]. unfold wake_proc. by destruct (_ && _).
Qed.

Definition adopt (me ip : nat) (k i : nat) (x : option nat) : option nat :=
  if decide (i = k /\ x = Some me) then Some ip else x.

Lemma adopt_step me ip k i x : ip <> me ->
  (if decide ((S k <= i)%nat /\ adopt me ip k i x = Some me) then Some ip else adopt me ip k i x) =
  (if decide ((k <= i)%nat /\ x = Some me) then Some ip else x).
Proof.
  intros Hne. unfold adopt. destruct (decide (x = Some me)) as [->|Hx].
  - destruct (decide (i = k)) as [->|Hi].
    + rewrite (decide_True (P := k = k /\ _)) by done. rewrite decide_False by lia. by rewrite decide_True by (split; [lia|done]).
    + rewrite (decide_False (P := i = k /\ _)) by tauto. destruct (decide (k <= i)%nat).
      * rewrite !decide_True by (split; [lia|done]). done.
      * rewrite !decide_False by lia. done.
  - rewrite (decide_False (P := i = k /\ _)) by tauto. by rewrite !decide_False by tauto.
Qed.

Lemma reparent_step me ip k s p : initproc (k_ptable s) = Some ip -> procs (k_ptable s) !! k = Some p ->
  exists t, reparent me k s = Ok tt (set_ptable t s) /\ adopts (adopt me ip k) (k_ptable s) t.
Proof.
  intros Hi Hp. unfold reparent. erewrite bind_ok by (unfold get_proc; rewrite Hp; reflexivity).
  destruct (decide (p_parent p = Some me)) as [Hme|Hme].
  - rewrite bool_decide_true by done. cbn [when]. erewrite bind_ok by reflexivity. rewrite Hi.
    rewrite (bind_ok _ _ _ _ _ (upd_proc_ok _ _ _)). set (t1 := upd_procs k (with_parent (Some ip)) (k_ptable s)).
    assert (H1 : adopts (adopt me ip k) (k_ptable s) t1).
    { split; [done|]. split; [cbn; by rewrite length_alter|]. intros i q Hq. unfold adopt. cbn.
      destruct (decide (i = k)) as [->|Hne].
      - rewrite list_lookup_alter_eq, Hq. eexists. split; [done|]. split; [done|]. assert (q = p) as -> by congruence.
        by rewrite decide_True.
      - rewrite list_lookup_alter_ne by done. exists q. split; [done|]. split; [done|]. rewrite decide_False; [done|tauto]. }
    destruct (bool_decide (p_state p = ZOMBIE)); cbn [when].
    + eexists. split; [reflexivity|]. exact (adopts_trans _ _ _ _ _ H1 (adopts_woken (C_proc ip) t1)).
    + by exists t1.
  - rewrite bool_decide_false by done. exists (k_ptable s). split; [by destruct s|]. split; [done|]. split; [done|].
    intros i q Hq. exists q. split; [done|]. split; [done|]. unfold adopt. rewrite decide_False; [done|].
    intros [-> E]. assert (q = p) as -> by congruence. done.
Qed.

Lemma reparent_loop me ip n : forall k s, initproc (k_ptable s) = Some ip -> (k + n)%nat = length (procs (k_ptable s)) -> ip <> me ->
  exists t, for_each (seq k n) (reparent me) s = Ok tt (set_ptable t s) /\
    adopts (fun i x => if decide ((k <= i)%nat /\ x = Some me) then Some ip else x) (k_ptable s) t.
Proof.
  induction n as [|n IH]; intros k s Hi Hl Hne.
  - exists (k_ptable s). split; [by destruct s|]. split; [done|]. split; [done|]. intros i p Hp. exists p. split; [done|]. split; [done|].
    apply lookup_lt_Some in Hp. rewrite decide_False; [done|lia].
  - assert (Hk : (k < length (procs (k_ptable s)))%nat) by lia. apply lookup_lt_is_Some in Hk as [p Hp].
    destruct (reparent_step me ip k s p Hi Hp) as (t1 & R1 & A1). cbn [seq for_each]. rewrite (bind_ok _ _ _ _ _ R1).
    destruct (A1) as (E1 & L1 & _). destruct (IH (S k) (set_ptable t1 s)) as (t2 & R2 & A2); cbn; [congruence|lia|done|].
    exists t2. split; [exact R2|]. destruct (adopts_trans _ _ _ _ _ A1 A2) as (E & L & H). split; [done|]. split; [done|].
    intros i q Hq. destruct (H i q Hq) as (r & Hr & Hpid & Hpar). exists r. split; [done|]. split; [done|]. rewrite Hpar.
    apply adopt_step, Hne.
Qed.

(** Exit leaves no orphans.  The loop of exit runs to the end over the whole process
    table, after which no process has the exiting one as its parent; its children have
    become children of init, and every other process keeps its parent. *)
Theorem exit_passes_children me ip s :
  initproc (k_ptable s) = Some ip -> ip <> me ->
  exists t, for_each (seq 0 (length (procs (k_ptable s)))) (reparent me) s = Ok tt (set_ptable t s) /\
    length (procs t) = length (procs (k_ptable s)) /\
    forall i p, procs (k_ptable s) !! i = Some p -> exists q, procs t !! i = Some q /\ p_pid q = p_pid p /\
      p_parent q = if decide (p_parent p = Some me) then Some ip else p_parent p.
Proof.
  intros Hi Hne. destruct (reparent_loop me ip (length (procs (k_ptable s))) 0 s Hi eq_refl Hne) as (t & R & _ & L & H).
  exists t. split; [done|]. split; [done|]. intros i p Hp. destruct (H i p Hp) as (q & Hq & Hpid & Hpar). exists q.
  split; [done|]. split; [done|]. rewrite Hpar.
  by rewrite (decide_ext ((0 <= i)%nat /\ p_parent p = Some me) (p_parent p = Some me)) by (split; [tauto|split; [lia|done]]).
Qed.

Lemma find_zombie_none (kd : Z) me ps : forall k hk,
  (forall i q, ps !! i = Some q -> p_parent q = Some me -> p_state q <> ZOMBIE /\ kd <> 0) ->
  exists hk', find_zombie ps me k hk = inr hk' /\ (hk' = true -> hk = true \/ kd <> 0).
Proof.
  induction ps as [|q ps IH]; intros k hk H; simpl; [exists hk; auto|]. case_decide as E.
  - destruct (H 0%nat q eq_refl E) as [Hz Hk]. rewrite decide_False by done.
    destruct (IH (S k) true) as (hk' & R & _); [intros i; apply (H (S i))|]. exists hk'. auto.
  - apply (IH (S k) hk). intros i. apply (H (S i)).
Qed.

Lemma wait_loop_none fuel me s p : procs (k_ptable s) !! me = Some p ->
  (forall i q, procs (k_ptable s) !! i = Some q -> p_parent q = Some me -> p_state q <> ZOMBIE /\ p_killed p <> 0) ->
  wait_loop fuel me s = (on_sync (release L_ptable) ;;; ret (-1)) s.
Proof.
  intros Hme Hno. destruct (find_zombie_none _ _ _ 0%nat false Hno) as (hk & Hfz & Hhk).
  assert (Hx : negb hk || negb (p_killed p =? 0) = true).
  { destruct hk; [|done]. destruct (Hhk eq_refl) as [?|?]; [done|]. by rewrite (proj2 (Z.eqb_neq _ _)). }
  destruct fuel; cbn [wait_loop]; erewrite bind_ok by reflexivity; rewrite Hfz;
    (erewrite bind_ok by (unfold get_proc; rewrite Hme; reflexivity)); by rewrite Hx.
Qed.

(** Wait without children returns -1 at once and changes nothing; with children none
    of which has exited, a process that was killed does the same. *)
Theorem wait_no_children pid me s p :
  calm pid s -> cur_proc (k_sync s) = Some me -> procs (k_ptable s) !! me = Some p ->
  (forall i q, procs (k_ptable s) !! i = Some q -> p_parent q = Some me -> p_state q <> ZOMBIE /\ p_killed p <> 0) ->
  wait s = Ok (-1) s.
Proof.
  intros Hc Hcur Hme Hno. unfold wait, curproc. assert (Hm : on_sync myproc s = Ok (Some me) s).
  { apply on_sync_pure. rewrite (myproc_cur _ (calm_sync _ _ Hc)). by rewrite Hcur. }
  erewrite bind_ok by (rewrite (bind_ok _ _ _ _ _ Hm); reflexivity).
  rewrite (bind_ok _ _ _ _ _ (acquire_calm L_ptable pid s Hc I)).
  rewrite wait_loop_none with (s := set_sync (lock L_ptable (k_sync s)) s) (p := p); [|done|done].
  rewrite (bind_ok _ _ _ _ _ (release_calm L_ptable pid s (set_sync (lock L_ptable (k_sync s)) s) Hc I eq_refl)). by destruct s.
Qed.
End theorems.
