(* ===== verification/Console.v ===== *)
(** The console: console.c, procdump of proc.c, and the keyboard and serial port
    drivers kbd.c, kbd.h and uart.c.

    [con_out] is the sequence of the arguments of consputc.  What the two output devices
    make of it is modelled apart: [uart_bytes] are the bytes sent to the serial port,
    [cgaputc] is the display.  The spinning of uartputc for a free transmitter, and the
    freeze of other processors after a panic, are left out. *)

From S2P Require Import Prelude Layout CString Printf State Spinlock Sched Mem Sleeplock Ring Memide Bio Log Fs Kalloc Pipe.
Local Open Scope kernel_scope.

(** * The display *)
Definition BACKSPACE : Z := 0x100.

(** The character cells at [crt], and the cursor position held in the controller's
    registers 14 and 15. *)
Record screen := mk_screen { crt : list Z; pos : Z }.

Definition set_cell (i v : Z) : M screen unit := fun s =>
  (let! _ := index "crt" (if 0 <=? i then crt s !! Z.to_nat i else None) in
   modify (fun s => mk_screen (<[Z.to_nat i := v]> (crt s)) (pos s))) s.

Definition cgaputc (c : Z) : M screen unit :=
  let! p := reads pos in
  let! p :=
    (if c =? 10 then ret (p + (80 - p mod 80))
     else if c =? BACKSPACE then ret (if 0 <? p then p - 1 else p)
     else set_cell p (Z.lor (Z.land c 0xff) 0x0700) ;;; ret (p + 1)) in
  if (p <? 0) || (25 * 80 <? p) then panic "pos under/overflow" else
  let! p :=
    (if 24 <=? p / 80 then
       modify (fun s => mk_screen (splice (crt s) 0 (slice 80 (23 * 80) (crt s))) (pos s)) ;;;
       modify (fun s => mk_screen
         (splice (crt s) (Z.to_nat (p - 80)) (replicate (Z.to_nat (24 * 80 - (p - 80))) 0)) (pos s)) ;;;
       ret (p - 80)
     else ret p) in
  modify (fun s => mk_screen (crt s) (Z.lor (Z.shiftl (u8 (Z.shiftr p 8)) 8) (u8 p))) ;;;
  set_cell p (Z.lor 32 0x0700).

(** * The serial port *)
Definition uart_bytes (c : Z) : list Z := if c =? BACKSPACE then [8; 32; 8] else [u8 c].

(** * Input *)
Definition INPUT_BUF : Z := 128.
(** [C(x)]: Control-x *)
Definition CTRL (x : Z) : Z := x - 64.

Definition get_cons : K console := reads k_cons.
Definition upd_cons (f : console -> console) : K unit := modify (fun s => set_cons (f (k_cons s)) s).
Definition with_in_buf (x : list Z) (t : console) : console := mk_console x (in_r t) (in_w t) (in_e t) (con_out t).
Definition with_in_r (x : Z) (t : console) : console := mk_console (in_buf t) x (in_w t) (in_e t) (con_out t).
Definition with_in_w (x : Z) (t : console) : console := mk_console (in_buf t) (in_r t) x (in_e t) (con_out t).
Definition with_in_e (x : Z) (t : console) : console := mk_console (in_buf t) (in_r t) (in_w t) x (con_out t).
Definition put_out (bs : list Z) (t : console) : console :=
  mk_console (in_buf t) (in_r t) (in_w t) (in_e t) (con_out t ++ bs).

(** [input.buf[i % INPUT_BUF]] *)
Definition in_at (t : console) (i : Z) : Z := default 0 (in_buf t !! Z.to_nat (i mod INPUT_BUF)).

Definition consputc (c : Z) : K unit := upd_cons (put_out [c]).

(** cprintf with console locking on: [bs] are the characters it prints. *)
Definition cons_print (bs : list Z) : K unit :=
  on_sync (acquire L_cons) ;;;
  upd_cons (put_out bs) ;;;
  on_sync (release L_cons).

(** ** procdump of proc.c *)
Definition state_name (st : procstate) : string :=
  match st with
  | UNUSED => "unused" | EMBRYO => "embryo" | SLEEPING => "sleep " | RUNNABLE => "runble"
  | RUNNING => "run   " | ZOMBIE => "zombie"
  end.

Fixpoint print_pcs (pcs : list Z) : K unit :=
  match pcs with
  | [] => ret tt
  | pc :: pcs' =>
      if pc =? 0 then ret tt else
      cons_print (cprintf (fun _ => []) (str " %p") [pc]) ;;;
      print_pcs pcs'
  end.

(** The pointers of the format's two string arguments are named 1 and 2. *)
Definition dump_proc (i : nat) : K unit :=
  let! p := get_proc i in
  if decide (p_state p = UNUSED) then ret tt else
  cons_print (cprintf (fun a => if a =? 1 then str (state_name (p_state p)) else p_name p)
    (str "%d %s %s") [p_pid p; 1; 2]) ;;;
  when (bool_decide (p_state p = SLEEPING))
    (let! m := reads k_mem in
     print_pcs (getcallerpcs (ld32 m) (cx_ebp (p_context p) + 8))) ;;;
  cons_print [10].

Definition procdump : K unit :=
  let! t := reads k_ptable in
  for_each (seq 0 (length (procs t))) dump_proc.

(** ** consoleintr *)

(** The loop of Control-U. *)
Fixpoint kill_line (fuel : nat) : K unit :=
  let! t := get_cons in
  if (in_e t =? in_w t) || (in_at t (u32 (in_e t - 1)) =? 10) then ret tt else
  match fuel with
  | O => hang
  | S fuel' =>
      upd_cons (with_in_e (u32 (in_e t - 1))) ;;;
      consputc BACKSPACE ;;;
      kill_line fuel'
  end.

(** The default case: a character is added to the line. *)
Definition add_char (c : Z) : K unit :=
  let! t := get_cons in
  when (negb (c =? 0) && (u32 (in_e t - in_r t) <? INPUT_BUF))
    (let c := if c =? 13 then 10 else c in
     upd_cons (fun t => with_in_buf (<[Z.to_nat (in_e t mod INPUT_BUF) := u8 c]> (in_buf t)) t) ;;;
     upd_cons (with_in_e (u32 (in_e t + 1))) ;;;
     consputc c ;;;
     let! t := get_cons in
     when ((c =? 10) || (c =? CTRL 68) || (in_e t =? u32 (in_r t + INPUT_BUF)))
       (upd_cons (with_in_w (in_e t)) ;;;
        wakeup C_input)).

(** The body of the loop; the result tells whether to call procdump. *)
Definition cons_char (c : Z) : K bool :=
  if c =? CTRL 80 then ret true
  else if c =? CTRL 85 then kill_line (Z.to_nat INPUT_BUF) ;;; ret false
  else if (c =? CTRL 72) || (c =? 127) then
    let! t := get_cons in
    when (negb (in_e t =? in_w t))
      (upd_cons (with_in_e (u32 (in_e t - 1))) ;;; consputc BACKSPACE) ;;;
    ret false
  else add_char c ;;; ret false.

(** [cs] are the successive results of [getc]; a negative one, or the end of the list,
    stops the loop. *)
Fixpoint consoleintr_loop (cs : list Z) (doprocdump : bool) : K bool :=
  match cs with
  | [] => ret doprocdump
  | c :: cs' =>
      if c <? 0 then ret doprocdump else
      let! d := cons_char c in
      consoleintr_loop cs' (doprocdump || d)
  end.

Definition consoleintr (cs : list Z) : K unit :=
  on_sync (acquire L_cons) ;;;
  let! d := consoleintr_loop cs false in
  on_sync (release L_cons) ;;;
  when d procdump.

(** ** consoleread *)

(** The inner loop: true if there is input; false if the process was killed, and then
    the lock is released. *)
Fixpoint wait_input (fuel : nat) : K bool :=
  let! t := get_cons in
  if negb (in_r t =? in_w t) then ret true else
  let! k := my_killed in
  if negb (k =? 0) then on_sync (release L_cons) ;;; ret false else
  match fuel with
  | O => hang
  | S fuel' => sleep C_input (Some L_cons) ;;; wait_input fuel'
  end.

(** The outer loop, with [n] bytes still wanted and [got] already stored. *)
Fixpoint read_loop (n : nat) (got : list Z) : K (option (list Z)) :=
  match n with
  | O => ret (Some got)
  | S n' =>
      let! ok := wait_input wait_fuel in
      if negb ok then ret None else
      let! t := get_cons in
      let c := in_at t (in_r t) in
      upd_cons (with_in_r (u32 (in_r t + 1))) ;;;
      if c =? CTRL 68 then
        when (negb (bool_decide (got = []))) (upd_cons (fun t => with_in_r (u32 (in_r t - 1)) t)) ;;;
        ret (Some got)
      else if c =? 10 then ret (Some (got ++ [c]))
      else read_loop n' (got ++ [c])
  end.

Section cons.
Context `{!Driver}.

Definition consoleread (ip : nat) (n : Z) : K (Z * list Z) :=
  iunlock ip ;;;
  on_sync (acquire L_cons) ;;;
  let! r := read_loop (Z.to_nat n) [] in
  match r with
  | None => ilock ip ;;; ret (-1, [])
  | Some bs =>
      on_sync (release L_cons) ;;;
      ilock ip ;;;
      ret (Z.of_nat (length bs), bs)
  end.

Definition consolewrite (ip : nat) (bs : list Z) : K Z :=
  iunlock ip ;;;
  on_sync (acquire L_cons) ;;;
  for_each bs (fun b => consputc (Z.land b 0xff)) ;;;
  on_sync (release L_cons) ;;;
  ilock ip ;;;
  ret (Z.of_nat (length bs)).
End cons.

Definition CONSOLE : Z := 1.

(** The assignments of consoleinit to devsw: the console is the only device. *)
#[export] Instance console_devsw `{!Driver} : DevSw := {|
  dev_read := fun major => if major =? CONSOLE then Some consoleread else None;
  dev_write := fun major => if major =? CONSOLE then Some consolewrite else None |}.

Definition consoleinit : K unit := on_sync (initlock L_cons).

(** * The keyboard *)
Definition NO : Z := 0.
Definition SHIFT : Z := 1.
Definition CTL : Z := 2.
Definition ALT : Z := 4.
Definition CAPSLOCK : Z := 8.
Definition NUMLOCK : Z := 16.
Definition SCROLLLOCK : Z := 32.
Definition E0ESC : Z := 64.

(** Arrays with designated initialisers: the elements given in order, and those given
    by their index; all others are 0. *)
Definition table (front : list Z) (entries : list (Z * Z)) (i : Z) : Z :=
  match list_find (fun e => e.1 = i) entries with
  | Some (_, e) => e.2
  | None => nth (Z.to_nat i) front 0
  end.

Definition shiftcode : Z -> Z :=
  table [] [(0x1D, CTL); (0x2A, SHIFT); (0x36, SHIFT); (0x38, ALT); (0x9D, CTL); (0xB8, ALT)].
Definition togglecode : Z -> Z := table [] [(0x3A, CAPSLOCK); (0x45, NUMLOCK); (0x46, SCROLLLOCK)].

(** The entries that end the three maps, up to their codes for KP_Enter and KP_Div. *)
Definition keypad (enter div : Z) : list (Z * Z) :=
  [(0x9C, enter); (0xB5, div); (0xC8, 0xE2); (0xD0, 0xE3); (0xC9, 0xE6); (0xD1, 0xE7);
   (0xCB, 0xE4); (0xCD, 0xE5); (0x97, 0xE0); (0xCF, 0xE1); (0xD2, 0xE8); (0xD3, 0xE9)].

Definition normalmap : Z -> Z := table
  ([NO; 0x1B] ++ str "1234567890-=" ++ [8; 9] ++ str "qwertyuiop[]" ++ [10; NO] ++ str "asdfghjkl;'`" ++
   [NO; 92] ++ str "zxcvbnm,./" ++ [NO] ++ str "*" ++ [NO; 32; NO; NO; NO; NO; NO; NO] ++
   [NO; NO; NO; NO; NO; NO; NO] ++ str "789-456+1230." ++ [NO; NO; NO; NO])
  (keypad 10 47).

Definition shiftmap : Z -> Z := table
  ([NO; 27] ++ str "!@#$%^&*()_+" ++ [8; 9] ++ str "QWERTYUIOP{}" ++ [10; NO] ++ str "ASDFGHJKL:" ++ [34; 126] ++
   [NO; 124] ++ str "ZXCVBNM<>?" ++ [NO] ++ str "*" ++ [NO; 32; NO; NO; NO; NO; NO; NO] ++
   [NO; NO; NO; NO; NO; NO; NO] ++ str "789-456+1230." ++ [NO; NO; NO; NO])
  (keypad 10 47).

Definition ctlmap : Z -> Z := table
  (replicate 16 NO ++ (CTRL <$> str "QWERTYUIOP") ++ [NO; NO; 13; NO] ++ (CTRL <$> str "ASDFGHJKL") ++
   [NO; NO; NO; NO; CTRL 92] ++ (CTRL <$> str "ZXCVBNM") ++ [NO; NO; u8 (CTRL 47); NO; NO])
  (keypad 13 (u8 (CTRL 47))).

Definition charcode (i : Z) : Z -> Z := if i =? 0 then normalmap else if i =? 1 then shiftmap else ctlmap.

(** kbdgetc for one byte from the controller: the new value of the static variable
    [shift], and the result.  Without a byte in the buffer kbdgetc returns -1. *)
Definition kbdgetc (shift data : Z) : Z * Z :=
  if data =? 0xE0 then (Z.lor shift E0ESC, 0)
  else if negb (Z.land data 0x80 =? 0) then
    let data := if negb (Z.land shift E0ESC =? 0) then data else Z.land data 0x7F in
    (Z.ldiff shift (Z.lor (shiftcode data) E0ESC), 0)
  else
    let (shift, data) :=
      if negb (Z.land shift E0ESC =? 0) then (Z.ldiff shift E0ESC, Z.lor data 0x80) else (shift, data) in
    let shift := Z.lxor (Z.lor shift (shiftcode data)) (togglecode data) in
    let c := charcode (Z.land shift (Z.lor CTL SHIFT)) data in
    let c :=
      if negb (Z.land shift CAPSLOCK =? 0) then
        if (97 <=? c) && (c <=? 122) then c + (65 - 97)
        else if (65 <=? c) && (c <=? 90) then c + (97 - 65) else c
      else c in
    (shift, c).

(** The results of kbdgetc for a sequence of bytes, and the value of [shift] after it. *)
Fixpoint kbd_run (shift : Z) (bytes : list Z) : Z * list Z :=
  match bytes with
  | [] => (shift, [])
  | b :: bytes' => let (shift, c) := kbdgetc shift b in let (sh, cs) := kbd_run shift bytes' in (sh, c :: cs)
  end.

(** kbdintr: consoleintr on the bytes waiting in the controller.  The static variable
    [shift] is passed and returned. *)
Definition kbdintr (shift : Z) (bytes : list Z) : K Z :=
  let (shift, cs) := kbd_run shift bytes in
  consoleintr cs ;;;
  ret shift.

(** uartintr: the bytes waiting in the serial port. *)
Definition uartintr (bytes : list Z) : K unit := consoleintr (u8 <$> bytes).
