(* ===== verification/ConsoleSafe.v ===== *)
(** The console: the display stays in bounds, the input buffer implements a line
    editor, and the keyboard driver's modifier state. *)

From S2P Require Import Prelude Layout CString Printf State Spinlock Sched Mem Sleeplock Ring Memide Bio Log Fs FsInode Kalloc Pipe Console.
Local Open Scope kernel_scope.

(** * The specification of the line editor *)

(** What can be read, and the line being edited. *)
Record tty := mk_tty { ready : list Z; line : list Z }.

Definition tty_len (T : tty) : Z := Z.of_nat (length (ready T) + length (line T)).

Definition tty_add (c : Z) (T : tty) : tty :=
  let c := if c =? 13 then 10 else c in
  let line' := line T ++ [c] in
  if (c =? 10) || (c =? CTRL 68) || (tty_len T + 1 =? INPUT_BUF)
  then mk_tty (ready T ++ line') [] else mk_tty (ready T) line'.

Definition tty_char (T : tty) (c : Z) : tty :=
  if c =? CTRL 80 then T
  else if c =? CTRL 85 then mk_tty (ready T) []
  else if (c =? CTRL 72) || (c =? 127) then mk_tty (ready T) (removelast (line T))
  else if negb (c =? 0) && (tty_len T <? INPUT_BUF) then tty_add c T else T.

(** A read of [n] bytes from what is ready: up to the end of a line, or to a Control-D,
    which is left for the next read unless it comes first. *)
Fixpoint tty_read (n : nat) (rd : list Z) (first : bool) : list Z * list Z :=
  match n, rd with
  | S n', c :: rd' =>
      if c =? CTRL 68 then ([], if first then rd' else rd)
      else if c =? 10 then ([c], rd')
      else let (got, left) := tty_read n' rd' false in (c :: got, left)
  | _, _ => ([], rd)
  end.

(** The input buffer of the console represents [T]. *)
Record tty_rep (t : console) (T : tty) : Prop := mk_tty_rep {
  tr_len : length (in_buf t) = Z.to_nat INPUT_BUF;
  tr_r : 0 <= in_r t < 2 ^ 32;
  tr_w : in_w t = u32 (in_r t + Z.of_nat (length (ready T)));
  tr_e : in_e t = u32 (in_r t + tty_len T);
  tr_room : tty_len T <= INPUT_BUF;
  tr_bytes : forall j c, (ready T ++ line T) !! j = Some c -> in_at t (in_r t + Z.of_nat j) = c }.

(** A line being edited has no end yet. *)
Definition tty_ok (T : tty) : Prop := 10 ∉ line T.

(** * Theorems *)

(** ** The input buffer *)
Lemma u32_mod_buf x : u32 x mod INPUT_BUF = x mod INPUT_BUF.
Proof. unfold u32, INPUT_BUF. change (2 ^ 32) with (128 * 33554432). rewrite Z.rem_mul_r by lia. zdiv. Qed.

Lemma in_at_u32 t x : in_at t (u32 x) = in_at t x.
Proof. unfold in_at. by rewrite u32_mod_buf. Qed.

Lemma u32_inj a x y : 0 <= x <= INPUT_BUF -> 0 <= y <= INPUT_BUF -> u32 (a + x) = u32 (a + y) -> x = y.
Proof. unfold u32, INPUT_BUF. intros. zdiv. Qed.

Lemma rep_ew t T : tty_rep t T -> (in_e t =? in_w t) = bool_decide (line T = []).
Proof.
  intros []. rewrite tr_w0, tr_e0. unfold tty_len in *. destruct (line T) as [|c l]; simpl in *.
  - by rewrite Nat.add_0_r, Z.eqb_refl.
  - apply Z.eqb_neq. intros H. apply u32_inj in H; unfold INPUT_BUF in *; lia.
Qed.

Lemma rep_room t T : tty_rep t T -> u32 (in_e t - in_r t) = tty_len T.
Proof.
  intros []. rewrite tr_e0, u32_sub_l. replace (in_r t + tty_len T - in_r t) with (tty_len T) by lia.
  apply u32_small. unfold tty_len, INPUT_BUF in *. lia.
Qed.

Lemma rep_full t T : tty_rep t T -> (in_e t =? u32 (in_r t + INPUT_BUF)) = (tty_len T =? INPUT_BUF).
Proof.
  intros []. rewrite tr_e0. destruct (Z.eqb_spec (tty_len T) INPUT_BUF) as [->|Hne]; [apply Z.eqb_refl|].
  apply Z.eqb_neq. intros H. apply u32_inj in H; unfold tty_len, INPUT_BUF in *; lia.
Qed.

Lemma rep_out t T bs : tty_rep t T -> tty_rep (put_out bs t) T.
Proof. intros []. by split. Qed.

Lemma rep_last t T l c : tty_rep t T -> line T = l ++ [c] -> in_at t (u32 (in_e t - 1)) = c.
Proof.
  intros [] Hl. rewrite in_at_u32. rewrite tr_e0. unfold tty_len. rewrite Hl, length_app. simpl.
  set (k := (length (ready T) + length l)%nat).
  rewrite <- (tr_bytes0 k c) by (rewrite Hl, app_assoc; apply list_lookup_middle; rewrite length_app; done).
  rewrite <- (in_at_u32 _ (_ - 1)), u32_sub_l, in_at_u32. f_equal. lia.
Qed.

(** Erasing the last character of the line. *)
Lemma rep_erase t T l c : tty_rep t T -> line T = l ++ [c] ->
  tty_rep (with_in_e (u32 (in_e t - 1)) t) (mk_tty (ready T) l).
Proof.
  intros [] Hl. unfold tty_len in *. rewrite Hl, length_app in *. simpl in *. split; try done; unfold tty_len; simpl.
  - rewrite tr_e0, u32_sub_l. f_equal. lia.
  - lia.
  - intros j x Hj. apply tr_bytes0. rewrite app_assoc. by apply lookup_app_l_Some.
Qed.

(** Adding a character to the line, and making the line ready. *)
Lemma rep_insert t T c : tty_rep t T -> tty_len T < INPUT_BUF -> 0 <= c < 256 ->
  tty_rep (with_in_e (u32 (in_e t + 1)) (with_in_buf (<[Z.to_nat (in_e t mod INPUT_BUF) := u8 c]> (in_buf t)) t))
    (mk_tty (ready T) (line T ++ [c])).
Proof.
  intros [Hlen Hr Hw He Hroom Hb] Hlt Hc. unfold tty_len in *.
  assert (Hidx : forall j, Z.to_nat ((in_r t + Z.of_nat j) mod INPUT_BUF) = Z.to_nat (in_e t mod INPUT_BUF) ->
    (j <= length (ready T) + length (line T))%nat -> j = (length (ready T) + length (line T))%nat).
  { intros j Hj Hle. rewrite He, u32_mod_buf in Hj. unfold INPUT_BUF in *.
    apply Z2Nat.inj in Hj; [|zdiv..]. zdiv. }
  split; unfold tty_len; cbn [in_buf in_r in_w in_e with_in_e with_in_buf ready line]; try done.
  - by rewrite length_insert.
  - rewrite He, u32_add_l, length_app. f_equal. simpl. lia.
  - rewrite length_app. simpl. unfold INPUT_BUF in *. lia.
  - intros j x Hj. unfold in_at. cbn [in_buf with_in_e with_in_buf]. rewrite app_assoc in Hj.
    apply lookup_app_Some in Hj as [Hj|[Hge Hj]].
    + apply lookup_lt_Some in Hj as Hlt'. rewrite length_app in Hlt'.
      rewrite list_lookup_insert_ne; [by apply Hb|]. intros E. symmetry in E. apply Hidx in E; lia.
    + apply list_lookup_singleton_Some in Hj as [Hj ->]. rewrite length_app in *.
      assert (Z.to_nat ((in_r t + Z.of_nat j) mod INPUT_BUF) = Z.to_nat (in_e t mod INPUT_BUF)) as ->.
      { rewrite He, u32_mod_buf. do 2 f_equal. lia. }
      rewrite list_lookup_insert_eq; [by apply u8_small|]. rewrite Hlen. unfold INPUT_BUF. zdiv.
Qed.

Lemma rep_commit t T : tty_rep t T -> tty_rep (with_in_w (in_e t) t) (mk_tty (ready T ++ line T) []).
Proof.
  intros []. unfold tty_len in *. split; unfold tty_len; cbn [in_buf in_r in_w in_e with_in_w ready line]; try done.
  - by rewrite tr_e0, length_app.
  - rewrite length_app. simpl. by rewrite Nat.add_0_r.
  - rewrite length_app. simpl. lia.
  - by rewrite app_nil_r.
Qed.

(** Control-U erases the whole line. *)
Lemma kill_line_spec l : forall fuel s R, tty_rep (k_cons s) (mk_tty R l) -> 10 ∉ l -> (length l <= fuel)%nat ->
  exists t', kill_line fuel s = Ok tt (set_cons t' s) /\ tty_rep t' (mk_tty R []).
Proof.
  induction l as [|c l IH] using rev_ind; intros fuel s R Hrep Hn Hf.
  - exists (k_cons s). split; [|done]. destruct fuel; cbn [kill_line]; erewrite bind_ok by reflexivity;
      rewrite (rep_ew _ _ Hrep); by destruct s.
  - rewrite length_app in Hf. simpl in Hf. destruct fuel as [|fuel]; [lia|]. cbn [kill_line]. erewrite bind_ok by reflexivity.
    rewrite (rep_ew _ _ Hrep), (rep_last _ _ l c Hrep eq_refl), bool_decide_false by (simpl; by destruct l).
    rewrite (proj2 (Z.eqb_neq c 10)) by set_solver. cbn [orb].
    erewrite bind_ok by reflexivity. unfold consputc. erewrite bind_ok by reflexivity.
    destruct (IH fuel (set_cons (put_out [BACKSPACE] (with_in_e (u32 (in_e (k_cons s) - 1)) (k_cons s))) s) R) as (t' & E & Hrep').
    + apply rep_out. by apply (rep_erase _ _ l c Hrep).
    + set_solver.
    + lia.
    + exists t'. split; [exact E|done].
Qed.

(** ** One character *)
Lemma tty_char_ok T c : tty_ok T -> tty_ok (tty_char T c).
Proof.
  unfold tty_ok, tty_char, tty_add. intros H. repeat case_match; simpl; try set_solver.
  - intros Hin. apply H. destruct (line T) as [|x l] using rev_ind; [done|]. rewrite removelast_last in Hin. set_solver.
Qed.

(** The sleepers on the input are awake. *)
Definition input_awake (P : ptable) : Prop :=
  forall i p, procs P !! i = Some p -> p_state p = SLEEPING -> p_chan p <> Some C_input.

Lemma woken_awake P : input_awake (woken C_input P).
Proof.
  intros i p Hp Hs. cbn in Hp. rewrite list_lookup_fmap in Hp. destruct (procs P !! i) as [q|]; [|done].
  cbn in Hp. injection Hp as <-. unfold wake_proc in *. destruct (decide (p_state q = SLEEPING)), (decide (p_chan q = Some C_input)).
  - rewrite !bool_decide_true in Hs by done. done.
  - by rewrite (bool_decide_false (p_chan q = _)), andb_false_r by done.
  - rewrite (bool_decide_false (p_state q = _)) in Hs by done. done.
  - by rewrite (bool_decide_false (p_chan q = _)), andb_false_r by done.
Qed.

Definition same_pids (P P' : ptable) : Prop :=
  forall i p, procs P !! i = Some p -> exists q, procs P' !! i = Some q /\ p_pid q = p_pid p.

Lemma same_pids_refl P : same_pids P P.
Proof. intros i p Hp. by exists p. Qed.

Lemma same_pids_woken ch P : same_pids P (woken ch P).
Proof. intros i p Hp. exists (wake_proc ch p). cbn. rewrite list_lookup_fmap, Hp. split; [done|apply wake_pid]. Qed.

Definition cons_state (P : ptable) (t : console) (s : kstate) : kstate := set_ptable P (set_cons t s).

(** A step of the console from [s], under cons.lock: only the console changes and, if
    something has become ready, the processes that wait for it are awake. *)
Definition cons_stepped (T T' : tty) (s s' : kstate) : Prop :=
  exists P t, s' = cons_state P t s /\ tty_rep t T' /\ same_pids (k_ptable s) P /\
    (P = k_ptable s \/ input_awake P) /\ (ready T' <> ready T -> input_awake P).

Lemma cons_stepped_same T T' s t : tty_rep t T' -> ready T' = ready T -> cons_stepped T T' s (set_cons t s).
Proof. intros Ht Hr. exists (k_ptable s), t. split; [by destruct s|]. split; [done|]. split; [apply same_pids_refl|]. split; [by left|done]. Qed.

Section intr.
Context (pid : Z) (s0 : kstate) (Hcalm : calm pid s0).

Lemma add_char_spec s T c : k_sync s = lock L_cons (k_sync s0) -> tty_rep (k_cons s) T -> 0 < c < 256 ->
  exists s', add_char c s = Ok tt s' /\
    cons_stepped T (if tty_len T <? INPUT_BUF then tty_add c T else T) s s'.
Proof.
  intros Hs Hrep Hc. unfold add_char. erewrite bind_ok by reflexivity.
  rewrite (rep_room _ _ Hrep), (proj2 (Z.eqb_neq c 0)) by lia. cbn [negb andb].
  destruct (tty_len T <? INPUT_BUF) eqn:Hlt; cbn [when].
  2:{ eexists. split; [done|]. rewrite <- (set_cons_id s) at 2. by apply cons_stepped_same. }
  apply Z.ltb_lt in Hlt. set (c' := if c =? 13 then 10 else c).
  assert (Hc' : 0 <= c' < 256) by (unfold c'; destruct (c =? 13); lia).
  erewrite bind_ok by reflexivity. erewrite bind_ok by reflexivity. unfold consputc at 1. erewrite bind_ok by reflexivity.
  erewrite bind_ok by reflexivity. cbn [k_cons set_cons].
  pose proof (rep_out _ _ [c'] (rep_insert _ _ c' Hrep Hlt Hc')) as Hrep'.
  set (t1 := put_out _ _) in *. rewrite (rep_full _ _ Hrep'). unfold tty_add. fold c'.
  assert (tty_len (mk_tty (ready T) (line T ++ [c'])) = tty_len T + 1) as ->.
  { unfold tty_len. simpl. rewrite length_app. simpl. lia. }
  destruct (_ || _ || _); cbn [when].
  - erewrite bind_ok by reflexivity. eexists. split; [apply (wakeup_with L_cons C_input pid s0); [done|done|done|exact Hs]|].
    exists (woken C_input (k_ptable s)), (with_in_w (in_e t1) t1). split; [done|]. split; [by apply (rep_commit _ _ Hrep')|].
    split; [apply same_pids_woken|]. split; [right|intros _]; apply woken_awake.
  - eexists. split; [done|]. exact (cons_stepped_same _ _ s t1 Hrep' eq_refl).
Qed.

Lemma cons_char_spec s T c : k_sync s = lock L_cons (k_sync s0) -> tty_rep (k_cons s) T -> tty_ok T -> 0 <= c < 256 ->
  exists d s', cons_char c s = Ok d s' /\ cons_stepped T (tty_char T c) s s'.
Proof.
  intros Hs Hrep Hok Hc. unfold cons_char, tty_char. destruct (c =? CTRL 80).
  { eexists _, _. split; [done|]. rewrite <- (set_cons_id s) at 2. by apply cons_stepped_same. }
  destruct (c =? CTRL 85).
  { destruct T as [R l]. destruct (kill_line_spec l (Z.to_nat INPUT_BUF) s R Hrep Hok) as (t' & E & Hrep').
    { pose proof (tr_room _ _ Hrep). unfold tty_len, INPUT_BUF in *. simpl in *. lia. }
    rewrite (bind_ok _ _ _ _ _ E). eexists _, _. split; [done|]. by apply cons_stepped_same. }
  destruct (_ || _).
  { erewrite bind_ok by reflexivity. rewrite (rep_ew _ _ Hrep). destruct T as [R l]. cbn [line ready] in *.
    destruct l as [|x l _] using rev_ind; cbn [bool_decide negb when].
    - erewrite bind_ok by reflexivity. eexists _, _. split; [done|]. rewrite <- (set_cons_id s) at 2. by apply cons_stepped_same.
    - rewrite bool_decide_false by (by destruct l). cbn [negb when]. erewrite bind_ok by reflexivity.
      eexists _, _. split; [done|]. rewrite removelast_last.
      exact (cons_stepped_same _ _ s _ (rep_out _ _ [BACKSPACE] (rep_erase _ _ l x Hrep eq_refl)) eq_refl). }
  destruct (Z.eqb_spec c 0) as [->|H0]; cbn [negb andb].
  { erewrite bind_ok by reflexivity. eexists _, _. split; [done|]. rewrite <- (set_cons_id s) at 2. by apply cons_stepped_same. }
  destruct (add_char_spec s T c Hs Hrep) as (s' & E & Hst); [lia|]. rewrite (bind_ok _ _ _ _ _ E). by eexists _, _.
Qed.

Lemma cons_stepped_trans T1 T2 T3 s1 s2 s3 :
  cons_stepped T1 T2 s1 s2 -> cons_stepped T2 T3 s2 s3 -> cons_stepped T1 T3 s1 s3.
Proof.
  intros (P1 & t1 & -> & Ht1 & Hp1 & Hc1 & Hr1) (P2 & t2 & -> & Ht2 & Hp2 & Hc2 & Hr2).
  exists P2, t2. split; [done|]. split; [done|]. cbn [k_ptable cons_state set_ptable set_cons] in *. split; [|split].
  - intros i p Hp. destruct (Hp1 i p Hp) as (q & Hq & Eq). destruct (Hp2 i q Hq) as (r & Hr & Er). exists r. split; [done|congruence].
  - destruct Hc2 as [-> | Hc2]; [exact Hc1|by right].
  - intros Hne. destruct (decide (ready T3 = ready T2)) as [E|E]; [|by apply Hr2].
    destruct Hc2 as [-> | Hc2]; [|done]. apply Hr1. congruence.
Qed.

Lemma consoleintr_loop_spec cs : forall s T d, k_sync s = lock L_cons (k_sync s0) -> tty_rep (k_cons s) T -> tty_ok T ->
  Forall (fun c => 0 <= c < 256) cs ->
  exists d' s', consoleintr_loop cs d s = Ok d' s' /\ cons_stepped T (foldl tty_char T cs) s s'.
Proof.
  induction cs as [|c cs IH]; intros s T d Hs Hrep Hok Hcs; cbn [consoleintr_loop foldl].
  - eexists _, _. split; [done|]. rewrite <- (set_cons_id s) at 2. by apply cons_stepped_same.
  - apply Forall_cons_iff in Hcs as [Hc Hcs]. rewrite (proj2 (Z.ltb_ge c 0)) by lia.
    destruct (cons_char_spec s T c Hs Hrep Hok Hc) as (d1 & s1 & E & Hst). rewrite (bind_ok _ _ _ _ _ E).
    destruct (Hst) as (P & t & -> & Ht & _).
    destruct (IH (cons_state P t s) (tty_char T c) (d || d1)) as (d' & s' & E' & Hst'); [done|done|by apply tty_char_ok|done|].
    exists d', s'. split; [exact E'|]. by eapply cons_stepped_trans.
Qed.
End intr.

(** ** Printing *)
Lemma calm_cons pid P t s : calm pid s -> same_pids (k_ptable s) P -> calm pid (cons_state P t s).
Proof.
  intros [Hy Hd Hl (i & p & Hi & Hp & Hpid)] HP. split; try done.
  destruct (HP i p Hp) as (q & Hq & E). exists i, q. split; [done|]. split; [done|congruence].
Qed.

(** [m] prints and does nothing else. *)
Definition prints (pid : Z) (m : K unit) : Prop :=
  forall s, calm pid s -> exists bs, m s = Ok tt (set_cons (put_out bs (k_cons s)) s).

Lemma prints_ret pid : prints pid (ret tt).
Proof. intros s _. exists []. unfold put_out. rewrite app_nil_r. by destruct s as [? ? ? ? ? ? ? ? ? ? ? []]. Qed.

Lemma prints_bind pid m k : prints pid m -> prints pid k -> prints pid (m ;;; k).
Proof.
  intros Hm Hk s Hc. destruct (Hm s Hc) as (b1 & E1). rewrite (bind_ok _ _ _ _ _ E1).
  destruct (Hk (set_cons (put_out b1 (k_cons s)) s)) as (b2 & E2).
  { apply (calm_cons pid (k_ptable s) _ s Hc (same_pids_refl _)). }
  exists (b1 ++ b2). rewrite E2. unfold put_out. cbn. by rewrite app_assoc.
Qed.

Lemma prints_cons pid bs : prints pid (cons_print bs).
Proof.
  intros s Hc. exists bs. unfold cons_print. rewrite (bind_ok _ _ _ _ _ (acquire_calm L_cons pid s Hc I)).
  erewrite bind_ok by reflexivity. rewrite (release_calm L_cons pid s _ Hc I) by reflexivity. by destruct s.
Qed.

Lemma prints_pcs pid pcs : prints pid (print_pcs pcs).
Proof.
  induction pcs as [|pc pcs IH]; simpl; [apply prints_ret|]. destruct (pc =? 0); [apply prints_ret|].
  apply prints_bind; [apply prints_cons|done].
Qed.

Lemma dump_proc_prints pid i s : calm pid s -> (i < length (procs (k_ptable s)))%nat ->
  exists bs, dump_proc i s = Ok tt (set_cons (put_out bs (k_cons s)) s).
Proof.
  intros Hc [p Hp]%lookup_lt_is_Some. unfold dump_proc.
  erewrite bind_ok by (unfold get_proc; rewrite Hp; reflexivity). case_decide; [by apply (prints_ret pid)|].
  apply (prints_bind pid _ _ (prints_cons pid _)); [|done].
  apply prints_bind; [|apply prints_cons]. destruct (bool_decide _); cbn [when]; [|apply prints_ret].
  intros s' Hc'. erewrite bind_ok by reflexivity. exact (prints_pcs pid _ s' Hc').
Qed.

Lemma procdump_prints pid : prints pid procdump.
Proof.
  intros s Hc. unfold procdump. erewrite bind_ok by reflexivity.
  assert (H : forall n k s', k_ptable s' = k_ptable s -> calm pid s' -> (k + n <= length (procs (k_ptable s)))%nat ->
    exists bs, for_each (seq k n) dump_proc s' = Ok tt (set_cons (put_out bs (k_cons s')) s')).
  { intros n. induction n as [|n IH]; intros k s' Ep Hc' Hk; cbn [seq for_each]; [by apply (prints_ret pid)|].
    destruct (dump_proc_prints pid k s' Hc') as (b1 & E1); [rewrite Ep; lia|]. rewrite (bind_ok _ _ _ _ _ E1).
    destruct (IH (S k) (set_cons (put_out b1 (k_cons s')) s')) as (b2 & E2); [done| |lia|].
    { apply (calm_cons pid (k_ptable s') _ s' Hc' (same_pids_refl _)). }
    exists (b1 ++ b2). rewrite E2. unfold put_out. cbn. by rewrite app_assoc. }
  by apply (H _ 0%nat).
Qed.

Lemma consoleintr_run pid s T cs :
  calm pid s -> tty_rep (k_cons s) T -> tty_ok T -> Forall (fun c => 0 <= c < 256) cs ->
  let T' := foldl tty_char T cs in
  exists P t, consoleintr cs s = Ok tt (cons_state P t s) /\ tty_rep t T' /\ tty_ok T' /\
    (ready T' <> ready T -> input_awake P).
Proof.
  intros Hc Hrep Hok Hcs T'. unfold consoleintr. rewrite (bind_ok _ _ _ _ _ (acquire_calm L_cons pid s Hc I)).
  destruct (consoleintr_loop_spec pid s Hc cs (set_sync (lock L_cons (k_sync s)) s) T false eq_refl Hrep Hok Hcs) as (d & s' & E & Hst).
  rewrite (bind_ok _ _ _ _ _ E). destruct Hst as (P & t & -> & Ht & HP & _ & Hr).
  rewrite (bind_ok _ _ _ _ _ (release_calm L_cons pid s (cons_state P t (set_sync (lock L_cons (k_sync s)) s)) Hc I eq_refl)).
  assert (Hok' : tty_ok T') by (unfold T'; clear -Hok; revert T Hok; induction cs as [|c cs IH]; intros T Hok; [done|by apply IH, tty_char_ok]).
  change (set_sync (k_sync s) _) with (cons_state P t s). destruct d; cbn [when].
  - destruct (procdump_prints pid (cons_state P t s) (calm_cons pid P t s Hc HP)) as (bs & ->).
    exists P, (put_out bs t). split; [done|]. split; [by apply rep_out|]. split; [done|exact Hr].
  - exists P, t. split; [by destruct s|]. split; [done|]. split; [done|exact Hr].
Qed.

(** C26: the input side of the console refines a line editor.  Whatever characters the
    keyboard or the serial port deliver, consoleintr runs to the end, and the input
    buffer then represents the state of the specification [tty_char] after these
    characters: Control-U and backspace edit only the current line, a line becomes
    readable as a whole, nothing that is readable is ever edited or overwritten, and
    when something has become readable no process is left sleeping for it. *)
Theorem consoleintr_refines pid s T cs :
  calm pid s -> tty_rep (k_cons s) T -> tty_ok T -> Forall (fun c => 0 <= c < 256) cs ->
  let T' := foldl tty_char T cs in
  exists P t, consoleintr cs s = Ok tt (cons_state P t s) /\ tty_rep t T' /\ tty_ok T' /\
    (ready T' <> ready T -> input_awake P).
Proof. apply consoleintr_run. Qed.

(** ** consoleread *)
Lemma rep_rw t T : tty_rep t T -> (in_r t =? in_w t) = bool_decide (ready T = []).
Proof.
  intros []. rewrite tr_w0. unfold tty_len in *. destruct (ready T) as [|c l]; simpl in *.
  - rewrite Z.add_0_r, u32_small by lia. by rewrite Z.eqb_refl.
  - apply Z.eqb_neq. intros H. rewrite <- (u32_small (in_r t)) in H at 1 by lia. rewrite <- (Z.add_0_r (in_r t)) in H at 1.
    apply u32_inj in H; unfold INPUT_BUF in *; lia.
Qed.

Lemma rep_take t c R L : tty_rep t (mk_tty (c :: R) L) ->
  in_at t (in_r t) = c /\ tty_rep (with_in_r (u32 (in_r t + 1)) t) (mk_tty R L).
Proof.
  intros [Hlen Hr Hw He Hroom Hb]. unfold tty_len in *. cbn [ready line length] in *. split.
  - rewrite <- (Hb 0%nat c) by done. f_equal. lia.
  - split; unfold tty_len; cbn [in_buf in_r in_w in_e with_in_r ready line]; try done.
    + apply u32_range.
    + rewrite Hw, u32_add_l. f_equal. lia.
    + rewrite He, u32_add_l. f_equal. lia.
    + lia.
    + intros j x Hj. rewrite <- (Hb (S j) x) by done. unfold in_at. cbn [in_buf with_in_r].
      rewrite <- Z.add_mod_idemp_l, u32_mod_buf, Z.add_mod_idemp_l by done. do 4 f_equal. lia.
Qed.

(** A read of [n] bytes need not wait. *)
Definition enough (n : nat) (rd : list Z) : Prop := (n <= length rd)%nat \/ 10 ∈ rd \/ CTRL 68 ∈ rd.

Lemma enough_nonempty n c rd : enough (S n) (c :: rd) -> c <> 10 -> c <> CTRL 68 -> enough n rd.
Proof. intros [H|[H|H]] H1 H2; simpl in *; [left; lia|right; left; set_solver|right; right; set_solver]. Qed.

Lemma wait_input_ready fuel s T : tty_rep (k_cons s) T -> ready T <> [] -> wait_input fuel s = Ok true s.
Proof.
  intros Hrep Hne. destruct fuel; cbn [wait_input]; erewrite bind_ok by reflexivity;
    rewrite (rep_rw _ _ Hrep), bool_decide_false by done; done.
Qed.

Lemma read_loop_spec n : forall s got rd L, tty_rep (k_cons s) (mk_tty rd L) -> enough n rd ->
  let r := tty_read n rd (bool_decide (got = [])) in
  exists t', read_loop n got s = Ok (Some (got ++ r.1)) (set_cons t' s) /\ tty_rep t' (mk_tty r.2 L).
Proof.
  induction n as [|n IH]; intros s got rd L Hrep Hen r; cbn [read_loop].
  - exists (k_cons s). rewrite set_cons_id. unfold r. destruct rd; simpl; by rewrite app_nil_r.
  - destruct rd as [|c rd]; [destruct Hen as [H|[H|H]]; [simpl in H; lia|by apply elem_of_nil in H..]|].
    rewrite (bind_ok _ _ _ _ _ (wait_input_ready _ s _ Hrep ltac:(done))). cbn [negb].
    erewrite bind_ok by reflexivity. destruct (rep_take _ _ _ _ Hrep) as [-> Hrep'].
    erewrite bind_ok by reflexivity. unfold r. cbn [tty_read]. destruct (Z.eqb_spec c (CTRL 68)) as [->|H4].
    { destruct (decide (got = [])) as [->|Hg].
      - erewrite bind_ok by reflexivity. eexists. split; [done|]. exact Hrep'.
      - rewrite bool_decide_false by done. cbn [negb when]. erewrite bind_ok by reflexivity. cbn [fst snd].
        rewrite app_nil_r. eexists. split; [done|]. cbn [k_cons set_cons in_r with_in_r].
        rewrite u32_sub_l. replace (in_r (k_cons s) + 1 - 1) with (in_r (k_cons s)) by lia.
        rewrite u32_small by apply Hrep. by destruct (k_cons s). }
    destruct (Z.eqb_spec c 10) as [->|H10].
    { eexists. split; [done|]. exact Hrep'. }
    destruct (IH (set_cons (with_in_r (u32 (in_r (k_cons s) + 1)) (k_cons s)) s) (got ++ [c]) rd L Hrep') as (t' & E & Ht').
    { by apply (enough_nonempty n c). }
    rewrite (bool_decide_false (got ++ [c] = [])) in E, Ht' by (by destruct got).
    exists t'. destruct (tty_read n rd false) as [g l]. simpl in *. rewrite <- app_assoc in E. split; [exact E|exact Ht'].
Qed.

Section read.
Context {drv : Driver}.

(** Reading the console.  When there is a whole line, an end-of-file mark or enough
    bytes, consoleread returns what the specification [tty_read] takes from the bytes
    that are ready, at most one line, and leaves the rest and the line being edited
    for later; it gives up the lock of the inode while it reads and takes it back. *)
Theorem consoleread_correct pid s i ip T n :
  calm pid s -> inodes (k_fs s) !! i = Some ip -> i_lock ip = mk_sleeplock 1 pid -> 1 <= i_ref ip -> i_valid ip <> 0 ->
  tty_rep (k_cons s) T -> enough (Z.to_nat n) (ready T) ->
  let r := tty_read (Z.to_nat n) (ready T) true in
  exists t, consoleread i n s =
      Ok (Z.of_nat (length r.1), r.1) (cons_state (woken (C_inodelock i) (k_ptable s)) t s) /\
    tty_rep t (mk_tty r.2 (line T)).
Proof.
  intros Hc Hi Hl Href Hv Hrep Hen r. unfold consoleread.
  rewrite (bind_ok _ _ _ _ _ (iunlock_run pid s i ip Hc Hi Hl Href)).
  pose proof (calm_woken (C_inodelock i) pid _ (calm_put (S_inode i) (mk_sleeplock 0 0) pid s Hc)) as Hc1.
  cbn [k_ptable sl_put set_fs] in Hc1. set (s1 := set_ptable _ _) in *.
  rewrite (bind_ok _ _ _ _ _ (acquire_calm L_cons pid s1 Hc1 I)).
  destruct (read_loop_spec (Z.to_nat n) (set_sync (lock L_cons (k_sync s1)) s1) [] (ready T) (line T)) as (t & E & Ht);
    [by destruct T|done|]. rewrite (bind_ok _ _ _ _ _ E). cbn [app].
  rewrite (bind_ok _ _ _ _ _ (release_calm L_cons pid s1 (set_cons t (set_sync (lock L_cons (k_sync s1)) s1)) Hc1 I eq_refl)).
  assert (Hc2 : calm pid (set_cons t s1)) by exact (calm_cons pid (k_ptable s1) t s1 Hc1 (same_pids_refl _)).
  change (set_sync (k_sync s1) _) with (set_cons t s1).
  erewrite bind_ok.
  2:{ eapply (ilock_valid pid (set_cons t s1) i (with_i_lock (mk_sleeplock 0 0) ip)); [done| |done|done|done].
      simpl. by rewrite list_lookup_alter_eq, Hi. }
  exists t. split; [|exact Ht]. f_equal. unfold s1, cons_state. simpl.
  rewrite list_alter_alter_eq, (list_alter_insert_at _ _ _ _ Hi).
  rewrite list_insert_id by (rewrite Hi; f_equal; destruct ip; simpl in *; by subst). by destruct s as [? ? ? ? ? ? ? ? []].
Qed.
End read.

(** ** The keyboard *)
Definition all_below (n : nat) (f : Z -> bool) : bool := forallb (fun i => f (Z.of_nat i)) (seq 0 n).

Lemma all_below_spec n f : all_below n f = true -> forall x, 0 <= x < Z.of_nat n -> f x = true.
Proof.
  intros H x Hx. unfold all_below in H. rewrite forallb_forall in H. rewrite <- (Z2Nat.id x) by lia. apply H, in_seq. lia.
Qed.

Lemma kbd_range shift data : 0 <= shift < 128 -> 0 <= data < 256 ->
  0 <= (kbdgetc shift data).1 < 128 /\ 0 <= (kbdgetc shift data).2 < 256.
Proof.
  intros Hs Hd.
  assert (H : all_below 128 (fun sh => all_below 256 (fun d => let r := kbdgetc sh d in
    (0 <=? r.1) && (r.1 <? 128) && (0 <=? r.2) && (r.2 <? 256))) = true) by (vm_compute; reflexivity).
  pose proof (all_below_spec _ _ (all_below_spec _ _ H shift Hs) data Hd) as E. cbv zeta beta in E. lia.
Qed.

Lemma kbd_run_range bytes : forall shift, 0 <= shift < 128 -> Forall (fun b => 0 <= b < 256) bytes ->
  0 <= (kbd_run shift bytes).1 < 128 /\ Forall (fun c => 0 <= c < 256) (kbd_run shift bytes).2.
Proof.
  induction bytes as [|b bytes IH]; intros shift Hs Hb; simpl; [done|]. apply Forall_cons_iff in Hb as [Hb Hbs].
  destruct (kbd_range shift b Hs Hb) as [H1 H2]. destruct (kbdgetc shift b) as [sh c]. simpl in *.
  destruct (IH sh H1 Hbs) as [H3 H4]. destruct (kbd_run sh bytes) as [sh' cs]. simpl in *. split; [done|]. by constructor.
Qed.

(** Keys typed on the keyboard reach the line editor. *)
Lemma kbdintr_types pid s T shift bytes :
  calm pid s -> tty_rep (k_cons s) T -> tty_ok T -> 0 <= shift < 128 -> Forall (fun b => 0 <= b < 256) bytes ->
  exists P t, kbdintr shift bytes s = Ok (kbd_run shift bytes).1 (cons_state P t s) /\
    tty_rep t (foldl tty_char T (kbd_run shift bytes).2).
Proof.
  intros Hc Hrep Hok Hs Hb. destruct (kbd_run_range bytes shift Hs Hb) as [_ Hcs]. unfold kbdintr.
  destruct (kbd_run shift bytes) as [sh cs]. simpl in *.
  destruct (consoleintr_run pid s T cs Hc Hrep Hok Hcs) as (P & t & E & Ht & _).
  exists P, t. rewrite (bind_ok _ _ _ _ _ E). done.
Qed.

(** ** The display *)
Definition screen_ok (s : screen) : Prop := length (crt s) = 2000%nat /\ 0 <= pos s < 24 * 80.

(** The position after [c] and the cells after it is drawn, before scrolling. *)
Definition next_pos (c : Z) (s : screen) : Z :=
  if c =? 10 then pos s + (80 - pos s mod 80) else if c =? BACKSPACE then (if 0 <? pos s then pos s - 1 else pos s) else pos s + 1.
Definition drawn (c : Z) (s : screen) : list Z :=
  if (c =? 10) || (c =? BACKSPACE) then crt s else <[Z.to_nat (pos s) := Z.lor (Z.land c 0xff) 0x0700]> (crt s).

Lemma set_cell_ok i v s : 0 <= i < Z.of_nat (length (crt s)) ->
  set_cell i v s = Ok tt (mk_screen (<[Z.to_nat i := v]> (crt s)) (pos s)).
Proof.
  intros Hi. unfold set_cell. rewrite (proj2 (Z.leb_le 0 i)) by lia.
  destruct (lookup_lt_is_Some_2 (crt s) (Z.to_nat i)) as [x Hx]; [lia|]. rewrite Hx. done.
Qed.

Lemma next_pos_range c s : screen_ok s -> 0 <= next_pos c s <= 24 * 80.
Proof. intros [_ Hp]. unfold next_pos. repeat case_match; zbool; zdiv. Qed.

Lemma cursor_bytes p : 0 <= p < 2 ^ 16 -> Z.lor (Z.shiftl (u8 (Z.shiftr p 8)) 8) (u8 p) = p.
Proof.
  intros Hp. unfold u8. rewrite Z.shiftr_div_pow2, Z.shiftl_mul_pow2 by lia. rewrite Z.mod_small by zdiv.
  rewrite lor_disjoint by zdiv. zdiv.
Qed.

(** The display driver stays within the screen.  From any cursor position on the
    first 24 lines, cgaputc of any character does not panic, writes only cells of the
    screen and leaves the cursor on the first 24 lines.  The screen then shows the
    character at the old position and the cursor at the new one, or, when the cursor
    would leave the 24th line, the same moved up by one line. *)
Theorem cgaputc_bounds c s :
  screen_ok s ->
  exists s', cgaputc c s = Ok tt s' /\ screen_ok s' /\
    if next_pos c s <? 24 * 80
    then s' = mk_screen (<[Z.to_nat (next_pos c s) := Z.lor 32 0x0700]> (drawn c s)) (next_pos c s)
    else pos s' = 23 * 80 /\ forall i, (i < 23 * 80)%nat -> crt s' !! i = drawn c s !! (i + 80)%nat.
Proof.
  intros Hok. destruct (Hok) as [Hlen Hpos]. pose proof (next_pos_range c s Hok) as Hnp. unfold cgaputc.
  erewrite bind_ok by reflexivity.
  assert (Hdraw : (if c =? 10 then ret (pos s + (80 - pos s mod 80))
    else if c =? BACKSPACE then ret (if 0 <? pos s then pos s - 1 else pos s)
    else set_cell (pos s) (Z.lor (Z.land c 0xff) 0x0700) ;;; ret (pos s + 1)) s =
    Ok (next_pos c s) (mk_screen (drawn c s) (pos s))).
  { unfold next_pos, drawn. destruct (c =? 10); [by destruct s|]. destruct (c =? BACKSPACE); [by destruct s|].
    by rewrite (bind_ok _ _ _ _ _ (set_cell_ok (pos s) _ s ltac:(lia))). }
  rewrite (bind_ok _ _ _ _ _ Hdraw).
  assert (Hd : length (drawn c s) = 2000%nat) by (unfold drawn; destruct (_ || _); [done|by rewrite length_insert]).
  set (p := next_pos c s) in *. set (cs := drawn c s) in *. clearbody p cs. clear Hdraw.
  rewrite (proj2 (Z.ltb_ge p 0)), (proj2 (Z.ltb_ge (25 * 80) p)) by lia. cbn [orb].
  destruct (Z.ltb_spec p (24 * 80)) as [Hlt|Hge].
  - rewrite (proj2 (Z.leb_gt 24 (p / 80))) by zdiv. erewrite bind_ok by reflexivity. erewrite bind_ok by reflexivity.
    cbn [crt pos]. rewrite cursor_bytes by lia. eexists. split; [apply set_cell_ok; cbn [crt]; lia|]. cbn [crt pos].
    split; [|done]. split; cbn [crt pos]; [by rewrite length_insert|lia].
  - assert (p = 1920) as -> by lia. change (24 <=? 1920 / 80) with true. cbv iota.
    erewrite bind_ok; [|erewrite bind_ok by reflexivity; erewrite bind_ok by reflexivity; reflexivity].
    erewrite bind_ok by reflexivity. cbn [crt pos]. change (Z.to_nat (1920 - 80)) with 1840%nat.
    change (Z.to_nat (24 * 80 - (1920 - 80))) with 80%nat. set (c1 := splice cs 0 (slice 80 (23 * 80) cs)).
    assert (Hs : length (slice 80 (23 * 80) cs) = 1840%nat) by (rewrite length_slice; lia).
    assert (Hc1 : length c1 = 2000%nat) by (unfold c1; rewrite length_splice; lia).
    eexists. split; [apply set_cell_ok; cbn [crt]; rewrite length_splice; rewrite ?length_replicate; lia|]. cbn [crt pos]. split.
    + split; cbn [crt pos]; [|done]. rewrite length_insert, length_splice; rewrite ?length_replicate; lia.
    + split; [done|]. intros i Hi. rewrite list_lookup_insert_ne by lia.
      rewrite lookup_splice_out by (rewrite ?length_replicate; lia). unfold c1.
      rewrite lookup_splice_in by lia. unfold slice. rewrite lookup_take_lt by lia. rewrite lookup_drop. f_equal. lia.
Qed.
