(* ===== verification/Syscall.v ===== *)
(** Fetching the arguments of system calls (the first half of syscall.c), and exec.c.

    An int is its signed value; a pointer argument is an address of the calling process,
    and a string argument is the list of its bytes without the terminator. *)

From S2P Require Import Prelude Layout CString Printf State Spinlock Sched Mem Sleeplock Ring Memide Bio Log Fs.
From S2P Require Import Kalloc KallocSafe Vm Pipe File Proc Console.
Local Open Scope kernel_scope.

(** * Arguments *)
Definition fetchint (addr : Z) : K (option Z) :=
  let! me := curproc in
  let! p := get_proc me in
  if (p_sz p <=? addr) || (p_sz p <? u32 (addr + 4)) then ret None else
  let! w := vld32 addr in
  ret (Some (s32 w)).

(** The loop of fetchstr: [n] is what is left of the process' memory from [a] on. *)
Fixpoint fetchstr_loop (n : nat) (a : Z) : K (option (list Z)) :=
  match n with
  | O => ret None
  | S n' =>
      let! c := vldb a in
      if c =? 0 then ret (Some []) else
      let! r := fetchstr_loop n' (a + 1) in
      ret (cons c <$> r)
  end.

Definition fetchstr (addr : Z) : K (option (list Z)) :=
  let! me := curproc in
  let! p := get_proc me in
  if p_sz p <=? addr then ret None else
  fetchstr_loop (Z.to_nat (p_sz p - addr)) addr.

Definition argint (n : Z) : K (option Z) :=
  let! me := curproc in
  let! p := get_proc me in
  fetchint (u32 (tf_esp (p_tf p) + 4 + 4 * n)).

Definition argptr (n : Z) (size : Z) : K (option Z) :=
  let! me := curproc in
  let! i := argint n in
  match i with
  | None => ret None
  | Some i =>
      let! p := get_proc me in
      if (size <? 0) || (p_sz p <=? u32 i) || (p_sz p <? u32 (u32 i + size)) then ret None else
      ret (Some (u32 i))
  end.

Definition argstr (n : Z) : K (option (list Z)) :=
  let! addr := argint n in
  match addr with
  | None => ret None
  | Some addr => fetchstr (u32 addr)
  end.

(** * exec *)
Definition ELF_MAGIC : Z := 0x464C457F.
Definition ELF_PROG_LOAD : Z := 1.

(** struct elfhdr and struct proghdr: their sizes, and the fields exec uses. *)
Definition sizeof_elfhdr : Z := 52.
Record elfhdr := mk_elfhdr { eh_magic : Z; eh_entry : Z; eh_phoff : Z; eh_phnum : Z }.
Definition get_elfhdr (bs : list Z) : elfhdr := mk_elfhdr (get32 bs 0) (get32 bs 24) (get32 bs 28) (get16 bs 44).

Definition sizeof_proghdr : Z := 32.
Record proghdr := mk_proghdr { ph_type : Z; ph_off : Z; ph_vaddr : Z; ph_filesz : Z; ph_memsz : Z }.
Definition get_proghdr (bs : list Z) : proghdr :=
  mk_proghdr (get32 bs 0) (get32 bs 4) (get32 bs 8) (get32 bs 16) (get32 bs 20).

Section exec.
Context `{!Driver} `{!DevSw} `{!Image} `{!Entry}.

(** The loop over the program headers; None is [goto bad]. *)
Fixpoint load_segments (n : nat) (pgdir : Z) (ip : nat) (off sz : Z) : K (option Z) :=
  match n with
  | O => ret (Some sz)
  | S n' =>
      let! (r, bs) := readi ip (u32 off) sizeof_proghdr in
      if negb (r =? sizeof_proghdr) then ret None else
      let ph := get_proghdr bs in
      if negb (ph_type ph =? ELF_PROG_LOAD) then load_segments n' pgdir ip (off + sizeof_proghdr) sz else
      if ph_memsz ph <? ph_filesz ph then ret None else
      if u32 (ph_vaddr ph + ph_memsz ph) <? ph_vaddr ph then ret None else
      let! sz := allocuvm pgdir sz (u32 (ph_vaddr ph + ph_memsz ph)) in
      if sz =? 0 then ret None else
      if negb (ph_vaddr ph mod PGSIZE =? 0) then ret None else
      let! l := loaduvm pgdir (ph_vaddr ph) ip (ph_off ph) (ph_filesz ph) in
      if l <? 0 then ret None else
      load_segments n' pgdir ip (off + sizeof_proghdr) sz
  end.

(** The loop that pushes the argument strings: the stack pointer after it, and the
    addresses of the strings. *)
Fixpoint push_args (argv : list (list Z)) (argc : nat) (pgdir sp : Z) : K (option (Z * list Z)) :=
  match argv with
  | [] => ret (Some (sp, []))
  | arg :: argv' =>
      if (Z.to_nat MAXARG <=? argc)%nat then ret None else
      let sp := Z.land (u32 (sp - (strlen arg + 1))) (Z.lnot 3) in
      let! r := copyout pgdir sp (take (Z.to_nat (strlen arg)) arg ++ [0]) in
      if r <? 0 then ret None else
      let! r := push_args argv' (S argc) pgdir sp in
      match r with
      | None => ret None
      | Some (sp', ptrs) => ret (Some (sp', sp :: ptrs))
      end
  end.

(** What exec puts below the strings: return address, argc, argv, and argv's elements. *)
Definition ustack (sp : Z) (ptrs : list Z) : list Z :=
  let argc := Z.of_nat (length ptrs) in
  [0xffffffff; argc; u32 (sp - (argc + 1) * 4)] ++ ptrs ++ [0].

(** The part of exec that pushes the arguments on the stack of the new image: the stack
    pointer main starts with. *)
Definition push_stack (pgdir sp : Z) (argv : list (list Z)) : K (option Z) :=
  let! r := push_args argv 0 pgdir sp in
  match r with
  | None => ret None
  | Some (sp, ptrs) =>
      let us := ustack sp ptrs in
      let sp := u32 (sp - 4 * Z.of_nat (length us)) in
      let! r := copyout pgdir sp (concat (le_bytes 4 <$> us)) in
      if r <? 0 then ret None else ret (Some sp)
  end.

(** The part of exec between loading the program and committing to the image: the size
    and the stack pointer of the new image. *)
Definition make_stack (pgdir sz : Z) (argv : list (list Z)) : K (option (Z * Z)) :=
  let! sz := allocuvm pgdir (PGROUNDUP sz) (u32 (PGROUNDUP sz + 2 * PGSIZE)) in
  if sz =? 0 then ret None else
  clearpteu pgdir (u32 (sz - 2 * PGSIZE)) ;;;
  let! sp := push_stack pgdir sz argv in
  ret (pair sz <$> sp).

(** The last path element: the text after the last slash. *)
Fixpoint last_elem (path : list Z) (last : list Z) : list Z :=
  match path with
  | [] => last
  | c :: path' => if c =? 0 then last else last_elem path' (if c =? slash then path' else last)
  end.

Definition with_tf_start (eip esp : Z) (t : trapframe) : trapframe :=
  mk_trapframe (tf_edi t) (tf_esi t) (tf_ebp t) (tf_oesp t) (tf_ebx t) (tf_edx t) (tf_ecx t) (tf_eax t) (tf_gs t) (tf_fs t)
    (tf_es t) (tf_ds t) (tf_trapno t) (tf_err t) eip (tf_cs t) (tf_eflags t) esp (tf_ss t).

Definition exec (path : list Z) (argv : list (list Z)) : K Z :=
  let! me := curproc in
  begin_op ;;;
  let! ip := namei path in
  match ip with
  | None => end_op ;;; cons_print (str "exec: fail" ++ [10]) ;;; ret (-1)
  | Some ip =>
      ilock ip ;;;
      let bad_file := iunlockput ip ;;; end_op ;;; ret (-1) in
      let! (r, bs) := readi ip 0 sizeof_elfhdr in
      if negb (r =? sizeof_elfhdr) then bad_file else
      let elf := get_elfhdr bs in
      if negb (eh_magic elf =? ELF_MAGIC) then bad_file else
      let! pgdir := setupkvm in
      if pgdir =? 0 then bad_file else
      let! sz := load_segments (Z.to_nat (eh_phnum elf)) pgdir ip (s32 (eh_phoff elf)) 0 in
      match sz with
      | None => freevm pgdir ;;; bad_file
      | Some sz =>
          iunlockput ip ;;;
          end_op ;;;
          let! st := make_stack pgdir sz argv in
          match st with
          | None => freevm pgdir ;;; ret (-1)
          | Some (sz, sp) =>
              upd_proc me (with_name (safestrcpy (last_elem path path) 16)) ;;;
              let! cp := get_proc me in
              upd_proc me (with_pgdir pgdir) ;;;
              upd_proc me (with_sz sz) ;;;
              upd_proc me (with_tf (with_tf_start (eh_entry elf) sp (p_tf cp))) ;;;
              switchuvm me ;;;
              freevm (p_pgdir cp) ;;;
              ret 0
          end
      end
  end.
End exec.
