(* ===== verification/Sysfile.v ===== *)
(** System calls on files: sysfile.c. *)

From S2P Require Import Prelude Layout CString Printf State Spinlock Sched Mem Sleeplock Ring Memide Bio Log Fs.
From S2P Require Import Kalloc KallocSafe Vm Pipe File Proc Console Syscall.
Local Open Scope kernel_scope.

(** A handler that has to give up when an argument is missing or not valid. *)
Notation "'arg!' x := m 'in' k" := (bind m (fun r => match r with None => ret (-1) | Some x => k end))
  (at level 10, x pattern, m at level 100, k at level 200) : kernel_scope.

Definition argfd (n : Z) : K (option (nat * nat)) :=
  let! fd := argint n in
  match fd with
  | None => ret None
  | Some fd =>
      if (fd <? 0) || (NOFILE <=? fd) then ret None else
      let! me := curproc in
      let! p := get_proc me in
      let! f := index "ofile" (p_ofile p !! Z.to_nat fd) in
      ret (pair (Z.to_nat fd) <$> f)
  end.

Fixpoint find_fd {A} (ofs : list (option A)) (fd : nat) : option nat :=
  match ofs with
  | [] => None
  | None :: _ => Some fd
  | Some _ :: ofs' => find_fd ofs' (S fd)
  end.

Definition set_ofile (me fd : nat) (f : option nat) : K unit :=
  upd_proc me (fun p => with_ofile (<[fd := f]> (p_ofile p)) p).

Definition fdalloc (f : nat) : K (option nat) :=
  let! me := curproc in
  let! p := get_proc me in
  match find_fd (p_ofile p) 0 with
  | Some fd => set_ofile me fd (Some f) ;;; ret (Some fd)
  | None => ret None
  end.

Definition sys_dup : K Z :=
  arg! (_, f) := argfd 0 in
  let! fd := fdalloc f in
  match fd with
  | None => ret (-1)
  | Some fd => let! _ := filedup f in ret (Z.of_nat fd)
  end.

Section sysfile.
Context `{!Driver} `{!DevSw} `{!Image} `{!Entry}.

Definition sys_read : K Z :=
  arg! (_, f) := argfd 0 in
  arg! n := argint 2 in
  arg! p := argptr 1 n in
  let! (r, bs) := fileread f n in
  vstore p bs ;;;
  ret r.

Definition sys_write : K Z :=
  arg! (_, f) := argfd 0 in
  arg! n := argint 2 in
  arg! p := argptr 1 n in
  let! bs := vload p (Z.to_nat n) in
  filewrite f bs.

Definition sys_close : K Z :=
  arg! (fd, f) := argfd 0 in
  let! me := curproc in
  set_ofile me fd None ;;;
  fileclose f ;;;
  ret 0.

(** struct stat in memory: type, padding, dev, ino, nlink, padding, size. *)
Definition sizeof_stat : Z := 20.
Definition store_stat (a : Z) (st : stat) : K unit :=
  vstore a (le_bytes 2 (st_type st)) ;;;
  vst32 (a + 4) (st_dev st) ;;;
  vst32 (a + 8) (st_ino st) ;;;
  vstore (a + 12) (le_bytes 2 (st_nlink st)) ;;;
  vst32 (a + 16) (st_size st).

Definition sys_fstat : K Z :=
  arg! (_, f) := argfd 0 in
  arg! a := argptr 1 sizeof_stat in
  let! st := filestat f in
  match st with
  | None => ret (-1)
  | Some st => store_stat a st ;;; ret 0
  end.

Definition upd_nlink (i : nat) (d : Z) : K unit :=
  upd_inode i (fun ip => with_i_nlink (s16 (i_nlink ip + d)) ip).

Definition sys_link : K Z :=
  arg! old := argstr 0 in
  arg! new := argstr 1 in
  begin_op ;;;
  let! ip := namei old in
  match ip with
  | None => end_op ;;; ret (-1)
  | Some ip =>
      ilock ip ;;;
      let! x := get_inode ip in
      if i_type x =? T_DIR then iunlockput ip ;;; end_op ;;; ret (-1) else
      upd_nlink ip 1 ;;;
      iupdate ip ;;;
      iunlock ip ;;;
      let bad :=
        ilock ip ;;;
        upd_nlink ip (-1) ;;;
        iupdate ip ;;;
        iunlockput ip ;;;
        end_op ;;;
        ret (-1) in
      let! (dp, name) := nameiparent new in
      match dp with
      | None => bad
      | Some dp =>
          ilock dp ;;;
          let! d := get_inode dp in
          let! x := get_inode ip in
          let! r := (if negb (i_dev d =? i_dev x) then ret (-1) else dirlink dp name (i_inum x)) in
          if r <? 0 then iunlockput dp ;;; bad else
          iunlockput dp ;;;
          iput ip ;;;
          end_op ;;;
          ret 0
      end
  end.

(** The loop of isdirempty. *)
Fixpoint isdirempty_loop (fuel : nat) (dp : nat) (off : Z) : K bool :=
  let! d := get_inode dp in
  if i_size d <=? off then ret true else
  match fuel with
  | O => hang
  | S fuel' =>
      let! (r, de) := readi dp off sizeof_dirent in
      if negb (r =? sizeof_dirent) then panic "isdirempty: readi" else
      if negb (de_inum de =? 0) then ret false else
      isdirempty_loop fuel' dp (off + sizeof_dirent)
  end.

Definition isdirempty (dp : nat) : K bool :=
  let! d := get_inode dp in
  isdirempty_loop (dir_fuel (i_size d)) dp (2 * sizeof_dirent).

Definition dot : list Z := [46; 0].
Definition dotdot : list Z := [46; 46; 0].

Definition sys_unlink : K Z :=
  arg! path := argstr 0 in
  begin_op ;;;
  let! (dp, name) := nameiparent path in
  match dp with
  | None => end_op ;;; ret (-1)
  | Some dp =>
      ilock dp ;;;
      let bad := iunlockput dp ;;; end_op ;;; ret (-1) in
      if (namecmp name dot =? 0) || (namecmp name dotdot =? 0) then bad else
      let! r := dirlookup dp name in
      match r with
      | None => bad
      | Some (ip, off) =>
          ilock ip ;;;
          let! x := get_inode ip in
          if i_nlink x <? 1 then panic "unlink: nlink < 1" else
          let! keep := (if i_type x =? T_DIR then let! e := isdirempty ip in ret (negb e) else ret false) in
          if keep then iunlockput ip ;;; bad else
          let! r := writei dp (replicate (Z.to_nat sizeof_dirent) 0) off in
          if negb (r =? sizeof_dirent) then panic "unlink: writei" else
          let! x := get_inode ip in
          when (i_type x =? T_DIR) (upd_nlink dp (-1) ;;; iupdate dp) ;;;
          iunlockput dp ;;;
          upd_nlink ip (-1) ;;;
          iupdate ip ;;;
          iunlockput ip ;;;
          end_op ;;;
          ret 0
      end
  end.

Definition create (path : list Z) (type major minor : Z) : K (option nat) :=
  let! (dp, name) := nameiparent path in
  match dp with
  | None => ret None
  | Some dp =>
      ilock dp ;;;
      let! r := dirlookup dp name in
      match r with
      | Some (ip, _) =>
          iunlockput dp ;;;
          ilock ip ;;;
          let! x := get_inode ip in
          if (type =? T_FILE) && (i_type x =? T_FILE) then ret (Some ip) else
          iunlockput ip ;;;
          ret None
      | None =>
          let! d := get_inode dp in
          let! ip := ialloc (i_dev d) type in
          ilock ip ;;;
          upd_inode ip (with_i_major (s16 major)) ;;;
          upd_inode ip (with_i_minor (s16 minor)) ;;;
          upd_inode ip (with_i_nlink 1) ;;;
          iupdate ip ;;;
          let! x := get_inode ip in
          let! r :=
            (if type =? T_DIR then
               upd_nlink dp 1 ;;;
               iupdate dp ;;;
               let! r := dirlink ip dot (i_inum x) in
               if r <? 0 then ret r else dirlink ip dotdot (i_inum d)
             else ret 0) in
          if r <? 0 then panic "create dots" else
          let! r := dirlink dp name (i_inum x) in
          if r <? 0 then panic "create: dirlink" else
          iunlockput dp ;;;
          ret (Some ip)
      end
  end.

(** The part of sys_open that finds or creates the inode, and leaves it locked. *)
Definition open_inode (path : list Z) (omode : Z) : K (option nat) :=
  if negb (Z.land omode O_CREATE =? 0) then create path T_FILE 0 0 else
  let! ip := namei path in
  match ip with
  | None => ret None
  | Some ip =>
      ilock ip ;;;
      let! x := get_inode ip in
      if (i_type x =? T_DIR) && negb (omode =? O_RDONLY) then iunlockput ip ;;; ret None else
      ret (Some ip)
  end.

Definition open_mode (omode : Z) (ip : nat) (f : file) : file :=
  mk_file FD_INODE (f_ref f) (if Z.land omode O_WRONLY =? 0 then 1 else 0)
    (if negb (Z.land omode O_WRONLY =? 0) || negb (Z.land omode O_RDWR =? 0) then 1 else 0)
    (f_pipe f) (Some ip) 0.

Definition sys_open : K Z :=
  arg! path := argstr 0 in
  arg! omode := argint 1 in
  begin_op ;;;
  let! ip := open_inode path omode in
  match ip with
  | None => end_op ;;; ret (-1)
  | Some ip =>
      let bad := iunlockput ip ;;; end_op ;;; ret (-1) in
      let! f := filealloc in
      match f with
      | None => bad
      | Some f =>
          let! fd := fdalloc f in
          match fd with
          | None => fileclose f ;;; bad
          | Some fd =>
              iunlock ip ;;;
              end_op ;;;
              upd_file f (open_mode omode ip) ;;;
              ret (Z.of_nat fd)
          end
      end
  end.

(** The end of sys_mkdir and sys_mknod. *)
Definition made (ip : option nat) : K Z :=
  match ip with
  | None => end_op ;;; ret (-1)
  | Some ip => iunlockput ip ;;; end_op ;;; ret 0
  end.

Definition sys_mkdir : K Z :=
  begin_op ;;;
  let! path := argstr 0 in
  let! ip := (match path with None => ret None | Some path => create path T_DIR 0 0 end) in
  made ip.

Definition sys_mknod : K Z :=
  begin_op ;;;
  let! path := argstr 0 in
  let! ip :=
    (match path with
     | None => ret None
     | Some path =>
         let! major := argint 1 in
         match major with
         | None => ret None
         | Some major =>
             let! minor := argint 2 in
             match minor with
             | None => ret None
             | Some minor => create path T_DEV major minor
             end
         end
     end) in
  made ip.

Definition sys_chdir : K Z :=
  let! me := curproc in
  begin_op ;;;
  let! path := argstr 0 in
  let! ip := (match path with None => ret None | Some path => namei path end) in
  match ip with
  | None => end_op ;;; ret (-1)
  | Some ip =>
      ilock ip ;;;
      let! x := get_inode ip in
      if negb (i_type x =? T_DIR) then iunlockput ip ;;; end_op ;;; ret (-1) else
      iunlock ip ;;;
      let! cp := get_proc me in
      let! cwd := index "cwd" (p_cwd cp) in
      iput cwd ;;;
      end_op ;;;
      upd_proc me (with_cwd (Some ip)) ;;;
      ret 0
  end.

(** The loop of sys_exec over the user's argv; [n] is the room left in argv[MAXARG]. *)
Fixpoint fetch_args (n : nat) (uargv : Z) : K (option (list (list Z))) :=
  match n with
  | O => ret None
  | S n' =>
      let! uarg := fetchint uargv in
      match uarg with
      | None => ret None
      | Some uarg =>
          if uarg =? 0 then ret (Some []) else
          let! a := fetchstr (u32 uarg) in
          match a with
          | None => ret None
          | Some a => let! r := fetch_args n' (u32 (uargv + 4)) in ret (cons a <$> r)
          end
      end
  end.

Definition sys_exec : K Z :=
  arg! path := argstr 0 in
  arg! uargv := argint 1 in
  arg! argv := fetch_args (Z.to_nat MAXARG) (u32 uargv) in
  exec path argv.

Definition sys_pipe : K Z :=
  arg! fd := argptr 0 (2 * 4) in
  arg! (rf, wf) := pipealloc in
  let! me := curproc in
  let bad := fileclose rf ;;; fileclose wf ;;; ret (-1) in
  let! fd0 := fdalloc rf in
  match fd0 with
  | None => bad
  | Some fd0 =>
      let! fd1 := fdalloc wf in
      match fd1 with
      | None => set_ofile me fd0 None ;;; bad
      | Some fd1 =>
          vst32 fd (Z.of_nat fd0) ;;;
          vst32 (fd + 4) (Z.of_nat fd1) ;;;
          ret 0
      end
  end.

Definition sys_swapread : K Z :=
  arg! ptr := argptr 0 PGSIZE in
  arg! blkno := argint 1 in
  swapread ptr blkno ;;;
  ret 0.

Definition sys_swapwrite : K Z :=
  arg! ptr := argptr 0 PGSIZE in
  arg! blkno := argint 1 in
  swapwrite ptr blkno ;;;
  ret 0.

Definition sys_swapstat : K Z :=
  arg! r := argptr 0 4 in
  arg! w := argptr 1 4 in
  let! f := reads k_fs in
  vst32 r (nr_sectors_read f) ;;;
  let! f := reads k_fs in
  vst32 w (nr_sectors_write f) ;;;
  ret 0.
End sysfile.

(** The lowest free descriptor. *)
Lemma find_fd_spec {A} (ofs : list (option A)) k :
  match find_fd ofs k with
  | Some fd => exists j, fd = (k + j)%nat /\ ofs !! j = Some None /\ forall j', (j' < j)%nat -> exists f, ofs !! j' = Some (Some f)
  | None => forall j o, ofs !! j = Some o -> o <> None
  end.
Proof.
  revert k. induction ofs as [|[f|] ofs IH]; intros k; cbn [find_fd].
  - done.
  - specialize (IH (S k)). destruct (find_fd ofs (S k)) as [fd|].
    + destruct IH as (j & -> & Hj & Hlt). exists (S j). split; [lia|]. split; [done|].
      intros [|j'] Hj'; [by exists f|]. apply Hlt. lia.
    + intros [|j] o Hj; simpl in Hj; [by injection Hj as <-|by eapply IH].
  - exists 0%nat. split; [lia|]. split; [done|lia].
Qed.
