(* ===== verification/User.v ===== *)
(** User programs as sequences of system calls.

    A program of user space is a tree of system calls (user.h, usys.S): each node is
    a call, its branches are what the program does for each reply.  What a process
    makes of such a tree is given by [run]: the descriptor table follows the code of
    sysfile.c (the lowest free descriptor is used), fork runs the rest of the program
    twice, exec ends it, and everything else is decided by the kernel, a function of
    the process, of the calls it made before and of the call. *)

From S2P Require Import Prelude Layout CString Printf Sysfile.

(** * Programs *)

(** The system calls of user.h, with the contents of buffers in place of pointers. *)
Inductive call :=
| C_fork | C_exit | C_wait | C_pipe
| C_read (fd n : Z)
| C_write (fd : Z) (bs : list Z)
| C_close (fd : Z)
| C_kill (pid : Z)
| C_exec (path : list Z) (argv : list (list Z))
| C_open (path : list Z) (mode : Z)
| C_mknod (path : list Z) (major minor : Z)
| C_unlink (path : list Z)
| C_fstat (fd : Z)
| C_link (old new : list Z)
| C_mkdir (path : list Z)
| C_chdir (path : list Z)
| C_dup (fd : Z)
| C_getpid
| C_sbrk (n : Z)
| C_sleep (n : Z)
| C_uptime
| C_swapstat.

(** struct stat of stat.h, as fstat fills it. *)
Record ustat := mk_ustat { us_type : Z; us_dev : Z; us_ino : Z; us_nlink : Z; us_size : Z }.
Definition no_stat : ustat := mk_ustat 0 0 0 0 0.

(** The value returned, and what was stored in the caller's buffer. *)
Record reply := mk_reply { r_val : Z; r_bytes : list Z; r_pair : Z * Z; r_stat : ustat }.
Definition val (v : Z) : reply := mk_reply v [] (0, 0) no_stat.

Inductive prog (A : Type) :=
| Done (a : A)
| Call (e : call) (k : reply -> prog A)
| Endless.

Arguments Done {A} a.
Arguments Call {A} e k.
Arguments Endless {A}.

#[export] Instance prog_ret : MRet prog := @Done.
#[export] Instance prog_bind : MBind prog := fun A B f =>
  fix go (m : prog A) : prog B :=
    match m with
    | Done a => f a
    | Call e k => Call e (fun r => go (k r))
    | Endless => Endless
    end.

Definition sys (e : call) : prog Z := Call e (fun r => Done (r_val r)).
Definition fork : prog Z := sys C_fork.
Definition exit {A} : prog A := Call C_exit (fun _ => Endless).
Definition wait : prog Z := sys C_wait.
Definition pipe : prog (Z * (Z * Z)) := Call C_pipe (fun r => Done (r_val r, r_pair r)).
Definition read (fd n : Z) : prog (Z * list Z) := Call (C_read fd n) (fun r => Done (r_val r, r_bytes r)).
Definition write (fd : Z) (bs : list Z) : prog Z := sys (C_write fd bs).
Definition close (fd : Z) : prog Z := sys (C_close fd).
Definition exec (path : list Z) (argv : list (list Z)) : prog Z := sys (C_exec path argv).
Definition open (path : list Z) (mode : Z) : prog Z := sys (C_open path mode).
Definition dup (fd : Z) : prog Z := sys (C_dup fd).
Definition chdir (path : list Z) : prog Z := sys (C_chdir path).
Definition fstat (fd : Z) : prog (Z * ustat) := Call (C_fstat fd) (fun r => Done (r_val r, r_stat r)).

Definition pwhen (b : bool) (m : prog unit) : prog unit := if b then m else mret ().

(** ** printf.c and ulib.c on top of the calls *)

(** putc writes one byte; nobody looks at what write returns. *)
Definition putc (fd c : Z) : prog unit := _ ← write fd [c]; mret ().

Fixpoint puts (fd : Z) (bs : list Z) : prog unit :=
  match bs with
  | [] => mret ()
  | c :: bs' => putc fd c ;; puts fd bs'
  end.

(** The arguments of printf: strings and numbers.  On the stack a string is a
    pointer, here the position of the argument. *)
Inductive parg := A_str (s : list Z) | A_int (z : Z).

Definition arg_str (args : list parg) (ptr : Z) : list Z :=
  match args !! Z.to_nat (ptr - 1) with Some (A_str s) => s ++ [0] | _ => [] end.
Definition arg_words (args : list parg) : list Z :=
  imap (fun i a => match a with A_str _ => Z.of_nat (S i) | A_int z => z end) args.
Definition format (fmt : list Z) (args : list parg) : list Z := Printf.printf (arg_str args) fmt (arg_words args).
Definition printf (fd : Z) (fmt : list Z) (args : list parg) : prog unit := puts fd (format fmt args).

(** A literal that ends in a newline. *)
Definition ln (s : string) : list Z := str s ++ [10].

(** gets: [room] is what is left of [max - 1]. *)
Fixpoint gets_loop (room : nat) : prog (list Z) :=
  match room with
  | O => mret []
  | S room' =>
      '(cc, bs) ← read 0 1;
      if cc <? 1 then mret [] else
      let c := deref bs in
      if (c =? 10) || (c =? 13) then mret [c] else
      rest ← gets_loop room'; mret (c :: rest)
  end.

Definition gets (max : Z) : prog (list Z) := bs ← gets_loop (Z.to_nat (max - 1)); mret (bs ++ [0]).

(** stat of ulib.c *)
Definition stat (n : list Z) : prog (Z * ustat) :=
  fd ← open n O_RDONLY;
  if fd <? 0 then mret (-1, no_stat) else
  '(r, st) ← fstat fd;
  _ ← close fd;
  mret (r, st).

(** * Processes *)

(** What a descriptor stands for: a file that was opened, an end of the pipe a
    process made (by its name and a number), or one of the descriptors the program
    was started with. *)
Inductive obj :=
| O_file (path : list Z) (mode : Z)
| O_pipe (who : list nat) (k : nat) (wr : bool)
| O_given (k : nat).

Abbreviation fdtab := (list (option obj)).

(** A process is named by the forks that lead to it; the history is the list of the
    calls it made with their replies, the last one first. *)
Record process := mk_process {
  u_name : list nat;
  u_hist : list (call * reply);
  u_kids : nat;
  u_pipes : nat;
  u_fds : fdtab }.

Definition with_fds (t : fdtab) (p : process) : process := mk_process (u_name p) (u_hist p) (u_kids p) (u_pipes p) t.
Definition log_call (e : call) (r : reply) (p : process) : process :=
  mk_process (u_name p) ((e, r) :: u_hist p) (u_kids p) (u_pipes p) (u_fds p).
Definition made_pipe (p : process) : process := mk_process (u_name p) (u_hist p) (u_kids p) (S (u_pipes p)) (u_fds p).
Definition forked (p : process) : process := mk_process (u_name p) (u_hist p) (S (u_kids p)) (u_pipes p) (u_fds p).
Definition child (p : process) : process := mk_process (u_name p ++ [u_kids p]) [] 0 0 (u_fds p).

(** ** The descriptor table *)
Definition fd_get (t : fdtab) (fd : Z) : option obj := if fd <? 0 then None else (t !! Z.to_nat fd) ≫= id.

Definition fd_alloc (o : obj) (t : fdtab) : option (nat * fdtab) :=
  match find_fd t 0 with Some fd => Some (fd, <[fd := Some o]> t) | None => None end.

Definition fd_close (fd : Z) (t : fdtab) : Z * fdtab :=
  match fd_get t fd with Some _ => (0, <[Z.to_nat fd := None]> t) | None => (-1, t) end.

Definition fd_dup (fd : Z) (t : fdtab) : Z * fdtab :=
  match fd_get t fd with
  | Some o => match fd_alloc o t with Some (n, t') => (Z.of_nat n, t') | None => (-1, t) end
  | None => (-1, t)
  end.

Definition fd_pipe (who : list nat) (k : nat) (t : fdtab) : option (nat * nat * fdtab) :=
  match fd_alloc (O_pipe who k false) t with
  | Some (r, t1) => match fd_alloc (O_pipe who k true) t1 with Some (w, t2) => Some (r, w, t2) | None => None end
  | None => None
  end.

(** ** Runs *)

(** What a process does, with the processes it forks inside. *)
#[warnings="-register-all"]
Inductive item :=
| Did (e : call) (r : reply)
| Forked (pid : Z) (kid : list item)
| Became (path : list Z) (argv : list (list Z)) (fds : fdtab)
| Looping.

Section Run.
Variable kern : list nat -> list (call * reply) -> call -> reply.

(** A call other than fork, exec and exit: its reply and the process after it. *)
Definition handle (e : call) (p : process) : reply * process :=
  let r := kern (u_name p) (u_hist p) e in
  let t := u_fds p in
  match e with
  | C_close fd => let '(v, t') := fd_close fd t in (val v, with_fds t' p)
  | C_dup fd => let '(v, t') := fd_dup fd t in (val v, with_fds t' p)
  | C_open path mode =>
      if r_val r <? 0 then (val (-1), p) else
      match fd_alloc (O_file path mode) t with
      | Some (fd, t') => (val (Z.of_nat fd), with_fds t' p)
      | None => (val (-1), p)
      end
  | C_pipe =>
      if r_val r <? 0 then (val (-1), p) else
      match fd_pipe (u_name p) (u_pipes p) t with
      | Some (rd, wr, t') => (mk_reply 0 [] (Z.of_nat rd, Z.of_nat wr) no_stat, made_pipe (with_fds t' p))
      | None => (val (-1), p)
      end
  | C_read fd n =>
      if (r_val r <? 0) || negb (bool_decide (is_Some (fd_get t fd))) then (val (-1), p) else
      let bs := take (Z.to_nat n) (r_bytes r) in
      (mk_reply (Z.of_nat (length bs)) bs (0, 0) no_stat, p)
  | C_write fd bs =>
      if (r_val r <? 0) || negb (bool_decide (is_Some (fd_get t fd))) then (val (-1), p)
      else (val (Z.of_nat (length bs)), p)
  | C_fstat fd => if bool_decide (is_Some (fd_get t fd)) then (r, p) else (val (-1), p)
  | _ => (r, p)
  end.

Fixpoint run {A} (m : prog A) (p : process) : list item * option (A * process) :=
  match m with
  | Done a => ([], Some (a, p))
  | Endless => ([Looping], None)
  | Call e k =>
      let r := kern (u_name p) (u_hist p) e in
      match e with
      | C_fork =>
          if r_val r <? 1 then
            let '(l, o) := run (k (val (-1))) (log_call e (val (-1)) p) in (Did e (val (-1)) :: l, o)
          else
            let pid := r_val r in
            let '(lc, _) := run (k (val 0)) (child p) in
            let '(l, o) := run (k (val pid)) (log_call e (val pid) (forked p)) in
            (Forked pid lc :: l, o)
      | C_exit => ([Did e (val 0)], None)
      | C_exec path argv =>
          if r_val r <? 0 then
            let '(l, o) := run (k (val (-1))) (log_call e (val (-1)) p) in (Did e (val (-1)) :: l, o)
          else ([Became path argv (u_fds p)], None)
      | _ =>
          let '(v, p1) := handle e p in
          let '(l, o) := run (k v) (log_call e v p1) in (Did e v :: l, o)
      end
  end.
End Run.

(** * What can be seen of a run *)

(** The forks, waits, programs executed, outputs and exits, without the calls that
    only move descriptors. *)
#[warnings="-register-all"]
Inductive vis :=
| V_fork (kid : list vis)
| V_wait
| V_exec (path : list Z) (argv : list (list Z)) (fds : fdtab)
| V_write (fd : Z) (bs : list Z)
| V_chdir (path : list Z)
| V_exit
| V_loop.

Fixpoint visible_item (i : item) : list vis :=
  match i with
  | Forked _ kid => [V_fork (flat_map visible_item kid)]
  | Became path argv fds => [V_exec path argv fds]
  | Did C_wait _ => [V_wait]
  | Did C_exit _ => [V_exit]
  | Did (C_write fd bs) _ => [V_write fd bs]
  | Did (C_chdir path) _ => [V_chdir path]
  | Did _ _ => []
  | Looping => [V_loop]
  end.

Definition see kern {A} (m : prog A) (p : process) : list vis := flat_map visible_item (fst (run kern m p)).

(** The programs executed, with their descriptors. *)
Fixpoint execs_of (v : vis) : list (list Z * list (list Z) * fdtab) :=
  match v with
  | V_fork kid => flat_map execs_of kid
  | V_exec path argv fds => [(path, argv, fds)]
  | _ => []
  end.
Definition execs (l : list vis) : list (list Z * list (list Z) * fdtab) := flat_map execs_of l.

(** The bytes a process itself writes to a descriptor. *)
Definition written_of (fd : Z) (v : vis) : list Z :=
  match v with V_write fd' bs => if fd' =? fd then bs else [] | _ => [] end.
Definition written (fd : Z) (l : list vis) : list Z := flat_map (written_of fd) l.

(** The number of reads in a history. *)
Fixpoint reads (h : list (call * reply)) : nat :=
  match h with [] => 0 | (C_read _ _, _) :: h' => S (reads h') | _ :: h' => reads h' end.

(** * Stepping through a run *)

(** The descriptors and counters of a process, without its history. *)
Definition alike (p q : process) : Prop :=
  u_name p = u_name q /\ u_kids p = u_kids q /\ u_pipes p = u_pipes q /\ u_fds p = u_fds q.

Section See.
Context (kern : list nat -> list (call * reply) -> call -> reply).

(** Two processes that differ only in calls that are no reads. *)
Definition same (p q : process) : Prop :=
  u_name p = u_name q /\ u_kids p = u_kids q /\ u_pipes p = u_pipes q /\ u_fds p = u_fds q /\ reads (u_hist p) = reads (u_hist q).

Lemma same_trans p q r : same p q -> same q r -> same p r.
Proof. unfold same. intuition congruence. Qed.

(** A call that forks, executes and exits nothing. *)
Definition plain (e : call) : bool := match e with C_fork | C_exit | C_exec _ _ => false | _ => true end.

Lemma see_plain {A} e (k : reply -> prog A) p : plain e = true ->
  see kern (Call e k) p =
  visible_item (Did e (fst (handle kern e p))) ++
  see kern (k (fst (handle kern e p))) (log_call e (fst (handle kern e p)) (snd (handle kern e p))).
Proof.
  unfold see. cbn [run]. destruct e; try done; intros _; destruct (handle kern _ p) as [v p1];
    cbn [fst snd]; destruct (run kern (k v) _) as [l o]; reflexivity.
Qed.

Lemma run_assoc {A B C} (m : prog A) (g : A -> prog B) (f : B -> prog C) p :
  run kern ((m ≫= g) ≫= f) p = run kern (m ≫= fun x => g x ≫= f) p.
Proof.
  revert p. induction m as [a|e k IH|]; intros p; [done| |done].
  change (run kern (Call e (fun r => (k r ≫= g) ≫= f)) p = run kern (Call e (fun r => k r ≫= fun x => g x ≫= f)) p).
  cbn [run]. destruct e; repeat (case_match; rewrite ?IH in *; simplify_eq); try congruence.
Qed.

Lemma see_ret {A} (m : prog A) p : see kern (m ≫= Done) p = see kern m p.
Proof.
  unfold see. do 2 f_equal. revert p. induction m as [a|e k IH|]; intros p; [done| |done].
  change (run kern (Call e (fun r => k r ≫= Done)) p = run kern (Call e k) p).
  cbn [run]. destruct e; repeat (case_match; rewrite ?IH in *; simplify_eq); try congruence.
Qed.

Lemma see_assoc {A B C} (m : prog A) (g : A -> prog B) (f : B -> prog C) p :
  see kern ((m ≫= g) ≫= f) p = see kern (m ≫= fun x => g x ≫= f) p.
Proof. unfold see. by rewrite run_assoc. Qed.

Lemma see_exit {A B} (f : A -> prog B) p : see kern (exit ≫= f) p = [V_exit].
Proof. done. Qed.

Lemma see_close {A} fd (k : Z -> prog A) p :
  see kern (close fd ≫= k) p =
  let '(v, t) := fd_close fd (u_fds p) in see kern (k v) (log_call (C_close fd) (val v) (with_fds t p)).
Proof.
  change (close fd ≫= k) with (Call (C_close fd) (fun r => k (r_val r))).
  rewrite see_plain by done. cbn [handle visible_item app]. by destruct (fd_close fd (u_fds p)).
Qed.

Lemma see_dup {A} fd (k : Z -> prog A) p :
  see kern (dup fd ≫= k) p =
  let '(v, t) := fd_dup fd (u_fds p) in see kern (k v) (log_call (C_dup fd) (val v) (with_fds t p)).
Proof.
  change (dup fd ≫= k) with (Call (C_dup fd) (fun r => k (r_val r))).
  rewrite see_plain by done. cbn [handle visible_item app]. by destruct (fd_dup fd (u_fds p)).
Qed.

Lemma see_open {A} path mode (k : Z -> prog A) p :
  (exists q, see kern (open path mode ≫= k) p = see kern (k (-1)) q /\
     (r_val (kern (u_name p) (u_hist p) (C_open path mode)) < 0 \/ find_fd (u_fds p) 0 = None) /\
     q = log_call (C_open path mode) (val (-1)) p) \/
  exists fd, find_fd (u_fds p) 0 = Some fd /\ 0 <= r_val (kern (u_name p) (u_hist p) (C_open path mode)) /\
    see kern (open path mode ≫= k) p =
    see kern (k (Z.of_nat fd)) (log_call (C_open path mode) (val (Z.of_nat fd)) (with_fds (<[fd := Some (O_file path mode)]> (u_fds p)) p)).
Proof.
  change (open path mode ≫= k) with (Call (C_open path mode) (fun r => k (r_val r))).
  rewrite see_plain by done. cbn [handle visible_item app]. unfold fd_alloc.
  destruct (Z.ltb_spec (r_val (kern (u_name p) (u_hist p) (C_open path mode))) 0); [left; eauto 10|].
  destruct (find_fd (u_fds p) 0) as [fd|]; [right; eauto 10|left; eauto 10].
Qed.

Lemma see_pipe {A} (k : Z * (Z * Z) -> prog A) p :
  (exists q x, see kern (pipe ≫= k) p = see kern (k (-1, x)) q /\
     (r_val (kern (u_name p) (u_hist p) C_pipe) < 0 \/ fd_pipe (u_name p) (u_pipes p) (u_fds p) = None)) \/
  exists r w t h, fd_pipe (u_name p) (u_pipes p) (u_fds p) = Some (r, w, t) /\
    see kern (pipe ≫= k) p =
    see kern (k (0, (Z.of_nat r, Z.of_nat w))) (mk_process (u_name p) h (u_kids p) (S (u_pipes p)) t).
Proof.
  change (pipe ≫= k) with (Call C_pipe (fun r => k (r_val r, r_pair r))).
  rewrite see_plain by done. cbn [handle visible_item app].
  destruct (Z.ltb_spec (r_val (kern (u_name p) (u_hist p) C_pipe)) 0); [left; eauto 10|].
  destruct (fd_pipe (u_name p) (u_pipes p) (u_fds p)) as [[[r w] t]|]; [right|left; eauto 10].
  by eexists r, w, t, _.
Qed.

(** wait says nothing that matters here, and leaves the process as it is. *)
Lemma see_wait {A} (k : Z -> prog A) p :
  exists v h, see kern (wait ≫= k) p = V_wait :: see kern (k v) (mk_process (u_name p) h (u_kids p) (u_pipes p) (u_fds p)) /\
    reads h = reads (u_hist p).
Proof.
  change (wait ≫= k) with (Call C_wait (fun r => k (r_val r))).
  rewrite see_plain by done. cbn [handle visible_item app fst snd]. by eexists _, _.
Qed.

Lemma see_fork {A} (k : Z -> prog A) p :
  (exists q, see kern (fork ≫= k) p = see kern (k (-1)) q /\ r_val (kern (u_name p) (u_hist p) C_fork) < 1) \/
  exists pid h, 0 < pid /\ reads h = reads (u_hist p) /\
    see kern (fork ≫= k) p =
    V_fork (see kern (k 0) (child p)) :: see kern (k pid) (mk_process (u_name p) h (S (u_kids p)) (u_pipes p) (u_fds p)).
Proof.
  change (fork ≫= k) with (Call C_fork (fun r => k (r_val r))). unfold see. cbn [run].
  destruct (Z.ltb_spec (r_val (kern (u_name p) (u_hist p) C_fork)) 1).
  - left. exists (log_call C_fork (val (-1)) p). split; [|done]. cbn [val r_val]. by destruct (run kern (k (-1)) _).
  - right. exists (r_val (kern (u_name p) (u_hist p) C_fork)), ((C_fork, val (r_val (kern (u_name p) (u_hist p) C_fork))) :: u_hist p).
    split; [lia|]. split; [done|]. cbn [val r_val]. destruct (run kern (k 0) (child p)) as [lc oc].
    unfold forked, log_call. cbn [u_name u_hist u_kids u_pipes u_fds]. by destruct (run kern (k (r_val _)) _).
Qed.

Lemma see_exec {A} path argv (k : Z -> prog A) p :
  (exists q, see kern (exec path argv ≫= k) p = see kern (k (-1)) q /\ r_val (kern (u_name p) (u_hist p) (C_exec path argv)) < 0) \/
  see kern (exec path argv ≫= k) p = [V_exec path argv (u_fds p)].
Proof.
  change (exec path argv ≫= k) with (Call (C_exec path argv) (fun r => k (r_val r))). unfold see. cbn [run].
  destruct (Z.ltb_spec (r_val (kern (u_name p) (u_hist p) (C_exec path argv))) 0); [left|by right].
  exists (log_call (C_exec path argv) (val (-1)) p). split; [|done]. cbn [val r_val]. by destruct (run kern (k (-1)) _).
Qed.

Lemma see_puts {A} fd bs (f : unit -> prog A) p :
  exists p', same p p' /\ see kern (puts fd bs ≫= f) p = map (fun c => V_write fd [c]) bs ++ see kern (f ()) p'.
Proof.
  revert p. induction bs as [|c bs IH]; intros p; [by exists p|].
  cbn [map app]. destruct (IH (log_call (C_write fd [c]) (fst (handle kern (C_write fd [c]) p)) p)) as (p' & Hs & E).
  exists p'. split; [exact Hs|].
  change (see kern (puts fd (c :: bs) ≫= f) p) with (see kern (Call (C_write fd [c]) (fun r => puts fd bs ≫= f)) p).
  rewrite see_plain by done. replace (snd (handle kern (C_write fd [c]) p)) with p; [by rewrite E|].
  unfold handle. by destruct (_ || _).
Qed.
End See.
