(* ===== verification/ShRun.v ===== *)
(** The shell at work: runcmd, getcmd and main of sh.c, as a program of system calls.

    The parser is in Sh.v.  The command that runcmd runs is the parsed one; its words
    are read back from the buffer, where nulterminate has put NULs behind them.  The
    specification says what a command means: which processes are started in which
    order, and with which descriptors each program is executed. *)

From S2P Require Import Prelude Layout CString Sysfile Sh User.

(** * sh.c *)

(** panic of sh.c ends the process. *)
Definition panic {A} (s : list Z) : prog A := printf 2 (ln "%s") [A_str s] ;; exit.

Definition fork1 : prog Z :=
  pid ← fork;
  if pid =? -1 then panic (str "fork") else mret pid.

(** The C string a pointer into the line finds in the buffer. *)
Definition tok_str (line buf : list Z) (t : token) : list Z :=
  cstr (length buf) (drop (length line - length (fst t)) buf).

Section Runcmd.
Variable word : token -> list Z.

Fixpoint runcmd (c : cmd) : prog unit :=
  match c with
  | EXEC argv =>
      match argv with
      | [] => exit
      | a :: _ =>
          _ ← exec (word a) (map word argv);
          printf 2 (ln "exec %s failed") [A_str (word a)] ;;
          exit
      end
  | REDIR c' file mode fd =>
      _ ← close fd;
      r ← open (word file) mode;
      if r <? 0 then printf 2 (ln "open %s failed") [A_str (word file)] ;; exit else
      runcmd c' ;;
      exit
  | LIST lcmd rcmd =>
      pid ← fork1;
      pwhen (pid =? 0) (runcmd lcmd) ;;
      _ ← wait;
      runcmd rcmd ;;
      exit
  | PIPE lcmd rcmd =>
      '(r, (p0, p1)) ← pipe;
      if r <? 0 then panic (str "pipe") else
      pid ← fork1;
      pwhen (pid =? 0)
        (_ ← close 1; _ ← dup p1; _ ← close p0; _ ← close p1; runcmd lcmd) ;;
      pid ← fork1;
      pwhen (pid =? 0)
        (_ ← close 0; _ ← dup p0; _ ← close p0; _ ← close p1; runcmd rcmd) ;;
      _ ← close p0;
      _ ← close p1;
      _ ← wait;
      _ ← wait;
      exit
  | BACK c' =>
      pid ← fork1;
      pwhen (pid =? 0) (runcmd c') ;;
      exit
  end.
End Runcmd.

(** parsecmd with what it prints when it gives up. *)
Definition parse_line (s : list Z) : prog (cmd * list Z) :=
  match bind (parseline (parse_fuel s)) (fun c => bind (peek []) (fun _ => Prelude.ret c)) s with
  | Ok c ps =>
      if negb (length ps =? 0)%nat
      then printf 2 (ln "leftovers: %s") [A_str ps] ;; panic (str "syntax")
      else mret (c, nulterminate s c (s ++ [0]))
  | Panic msg => panic (str msg)
  | _ => Endless
  end.

Definition nbuf : Z := 100.

(** The buffer is cleared, then gets stores the line and a NUL. *)
Definition getcmd : prog (Z * list Z) :=
  printf 2 (str "$ ") [] ;;
  bs ← gets nbuf;
  let buf := bs ++ replicate (Z.to_nat nbuf - length bs) 0 in
  mret (if deref buf =? 0 then (-1, buf) else (0, buf)).

(** Ensure that three file descriptors are open: a turn of the loop that does not end
    it opens one more descriptor, and there are NOFILE. *)
Fixpoint open_console (fuel : nat) : prog unit :=
  match fuel with
  | O => Endless
  | S fuel' =>
      fd ← open (str "console") O_RDWR;
      if fd <? 0 then mret () else
      if 3 <=? fd then _ ← close fd; mret () else
      open_console fuel'
  end.

(** The body of the main loop, on a line [buf] that was read. *)
Definition do_line (buf : list Z) : prog unit :=
  if (default 0 (buf !! 0%nat) =? 99) && (default 0 (buf !! 1%nat) =? 100) && (default 0 (buf !! 2%nat) =? 32) then
    let buf := <[Z.to_nat (strlen buf - 1) := 0]> buf in
    let dir := cstr (length buf) (drop 3 buf) in
    r ← chdir dir;
    pwhen (r <? 0) (printf 2 (ln "cannot cd %s") [A_str dir])
  else
    pid ← fork1;
    pwhen (pid =? 0)
      (let s := cstr (length buf) buf in
       '(c, buf') ← parse_line s;
       runcmd (tok_str s buf') c) ;;
    _ ← wait;
    mret ().

Fixpoint main_loop (fuel : nat) : prog unit :=
  match fuel with
  | O => Endless
  | S fuel' =>
      '(r, buf) ← getcmd;
      if r <? 0 then exit else
      do_line buf ;;
      main_loop fuel'
  end.

Definition main (fuel : nat) : prog unit := open_console (S (Z.to_nat NOFILE)) ;; main_loop fuel.

(** * What commands mean *)

(** The descriptors of the program executed for each word are those of the shell,
    with the redirections of the command and the ends of its pipes in the places of
    standard input and output. *)
Fixpoint meaning (a : ast) (who : list nat) (kids pipes : nat) (t : fdtab) : list vis :=
  match a with
  | Exec [] => [V_exit]
  | Exec (w :: ws) => [V_exec w (w :: ws) t]
  | Redir c file out => meaning c who kids pipes (<[Z.to_nat (fd_of out) := Some (O_file file (mode_of out))]> t)
  | Lst l r => V_fork (meaning l (who ++ [kids]) 0 0 t) :: V_wait :: meaning r who (S kids) pipes t
  | Pipe l r =>
      [V_fork (meaning l (who ++ [kids]) 0 0 (<[1%nat := Some (O_pipe who pipes true)]> t));
       V_fork (meaning r (who ++ [S kids]) 0 0 (<[0%nat := Some (O_pipe who pipes false)]> t));
       V_wait; V_wait; V_exit]
  | Back c => [V_fork (meaning c (who ++ [kids]) 0 0 t); V_exit]
  end.

(** A line typed at the prompt. *)
Inductive typed := T_cmd (a : ast) | T_cd (dir : list Z).

Definition typed_text (l : typed) : list Z :=
  match l with T_cmd a => line_of (show 0 a) | T_cd dir => str "cd " ++ dir ++ [10] end.

Definition prompt : list vis := [V_write 2 [36]; V_write 2 [32]].

Fixpoint dialogue (ls : list typed) (who : list nat) (kids pipes : nat) (t : fdtab) : list vis :=
  match ls with
  | [] => prompt ++ [V_exit]
  | T_cd dir :: ls' => prompt ++ V_chdir dir :: dialogue ls' who kids pipes t
  | T_cmd a :: ls' => prompt ++ V_fork (meaning a (who ++ [kids]) 0 0 t) :: V_wait :: dialogue ls' who (S kids) pipes t
  end.

(** [cut P real full]: the processes do what [full] says, except that, and then [P],
    some of them stop on the way, with a message on descriptor 2 and an exit. *)
Inductive cut (P : Prop) : list vis -> list vis -> Prop :=
| cut_nil : cut P [] []
| cut_stop msg l : P -> cut P (map (fun c => V_write 2 [c]) msg ++ [V_exit]) l
| cut_step v l l' : cut P l l' -> cut P (v :: l) (v :: l')
| cut_fork k k' l l' : cut P k k' -> cut P l l' -> cut P (V_fork k :: l) (V_fork k' :: l').

(** The kernel refuses a call for a reason other than the descriptor table. *)
Definition refused (kern : list nat -> list (call * reply) -> call -> reply) : Prop :=
  exists who h e, r_val (kern who h e) < match e with C_fork => 1 | _ => 0 end.

(** * Descriptors *)

(** Standard input and output are open. *)
Definition std_open (t : fdtab) : Prop := (exists o, t !! 0%nat = Some (Some o)) /\ (exists o, t !! 1%nat = Some (Some o)).

(** Two descriptors are free. *)
Definition spare (t : fdtab) : Prop := exists i j, i <> j /\ t !! i = Some None /\ t !! j = Some None.

Lemma find_fd_lowest (t : fdtab) i :
  t !! i = Some None -> (forall j, (j < i)%nat -> exists o, t !! j = Some (Some o)) -> find_fd t 0 = Some i.
Proof.
  intros Hi Hlt. pose proof (find_fd_spec t 0) as H. destruct (find_fd t 0) as [fd|]; [|by destruct (H i None Hi)].
  destruct H as (j & -> & Hj & Hjlt). f_equal. destruct (Nat.lt_trichotomy i j) as [H|[->|H]]; [|done|].
  - destruct (Hjlt i H). congruence.
  - destruct (Hlt j H). congruence.
Qed.

Lemma fd_get_nat (t : fdtab) (n : nat) : fd_get t (Z.of_nat n) = t !! n ≫= id.
Proof. unfold fd_get. rewrite (proj2 (Z.ltb_ge _ _)) by lia. by rewrite Nat2Z.id. Qed.

Lemma fd_close_open (t : fdtab) (n : nat) o : t !! n = Some (Some o) -> fd_close (Z.of_nat n) t = (0, <[n := None]> t).
Proof. intros H. unfold fd_close. rewrite fd_get_nat, H. cbn. by rewrite Nat2Z.id. Qed.

(** Closing descriptor 0 or 1 makes it the lowest free one. *)
Lemma find_fd_closed (t : fdtab) n : std_open t -> (n < 2)%nat -> find_fd (<[n := None]> t) 0 = Some n.
Proof.
  intros [[o H0] [o' H1]] Hn. assert (Hl : (1 < length t)%nat) by (by eapply lookup_lt_Some).
  apply find_fd_lowest; [apply list_lookup_insert_eq; lia|].
  intros j Hj. rewrite list_lookup_insert_ne by lia. assert (j = 0%nat) as -> by lia. eauto.
Qed.

Lemma std_open_insert (t : fdtab) n o : std_open t -> std_open (<[n := Some o]> t).
Proof.
  intros [[a H0] [b H1]]. pose proof (lookup_lt_Some _ _ _ H1).
  split; [destruct (decide (n = 0%nat)) as [->|]|destruct (decide (n = 1%nat)) as [->|]];
    rewrite ?list_lookup_insert_eq by lia; rewrite ?list_lookup_insert_ne by done; eauto.
Qed.

Lemma spare_insert (t : fdtab) n o : (n < 2)%nat -> std_open t -> spare t -> spare (<[n := Some o]> t).
Proof.
  intros Hn [[a H0] [b H1]] (i & j & Hij & Hi & Hj). exists i, j. split; [done|].
  assert (n <> i /\ n <> j) as [? ?] by (destruct n as [|[|n]]; [| |lia]; split; congruence).
  by rewrite !list_lookup_insert_ne by done.
Qed.

(** pipe uses two descriptors that were free. *)
Lemma fd_pipe_spec who k (t : fdtab) r w t' : fd_pipe who k t = Some (r, w, t') ->
  t !! r = Some None /\ t !! w = Some None /\ r <> w /\
  t' = <[w := Some (O_pipe who k true)]> (<[r := Some (O_pipe who k false)]> t).
Proof.
  unfold fd_pipe, fd_alloc. pose proof (find_fd_spec t 0) as H. destruct (find_fd t 0) as [i|]; [|done].
  destruct H as (i' & -> & Hi & _). cbn [plus] in *.
  pose proof (find_fd_spec (<[i' := Some (O_pipe who k false)]> t) 0) as H.
  destruct (find_fd (<[i' := _]> t) 0) as [j|]; [|done]. destruct H as (j' & -> & Hj & _). cbn [plus].
  assert (Hne : i' <> j').
  { intros <-. rewrite list_lookup_insert_eq in Hj by (by eapply lookup_lt_Some). done. }
  rewrite list_lookup_insert_ne in Hj by done. by intros [= <- <- <-].
Qed.

Lemma fd_pipe_some who k (t : fdtab) : spare t -> exists r w t', fd_pipe who k t = Some (r, w, t').
Proof.
  intros (i & j & Hij & Hi & Hj). unfold fd_pipe, fd_alloc. pose proof (find_fd_spec t 0) as H.
  destruct (find_fd t 0) as [a|]; [|by destruct (H i None Hi)]. destruct H as (a' & -> & Ha & _). cbn [plus].
  pose proof (find_fd_spec (<[a' := Some (O_pipe who k false)]> t) 0) as H.
  destruct (find_fd (<[a' := _]> t) 0) as [b|]; [by eauto|].
  destruct (decide (a' = i)) as [->|].
  - destruct (H j None); [by rewrite list_lookup_insert_ne|done].
  - destruct (H i None); [by rewrite list_lookup_insert_ne|done].
Qed.

(** The table of a process that has the pipe open: closing both ends gives the table
    before the pipe; putting one end in the place of [n] first leaves just that. *)
Lemma pipe_closed (t : fdtab) r w a b : t !! r = Some None -> t !! w = Some None -> r <> w ->
  fd_close (Z.of_nat r) (<[w := Some b]> (<[r := Some a]> t)) = (0, <[w := Some b]> t) /\
  fd_close (Z.of_nat w) (<[w := Some b]> t) = (0, t).
Proof.
  intros Hr Hw Hne. pose proof (lookup_lt_Some _ _ _ Hr). pose proof (lookup_lt_Some _ _ _ Hw). split.
  - rewrite (fd_close_open _ _ a) by (rewrite list_lookup_insert_ne by done; by rewrite list_lookup_insert_eq).
    by rewrite list_insert_insert_ne, list_insert_insert_eq, (list_insert_id t r None) by done.
  - rewrite (fd_close_open _ _ b) by (by rewrite list_lookup_insert_eq). by rewrite list_insert_insert_eq, list_insert_id.
Qed.

Lemma pipe_placed (t : fdtab) r w a b n x o : (n < 2)%nat -> std_open t -> t !! r = Some None -> t !! w = Some None -> r <> w ->
  x = r /\ o = a \/ x = w /\ o = b ->
  let t2 := <[w := Some b]> (<[r := Some a]> t) in let t3 := <[n := None]> t2 in
  let t4 := <[w := Some b]> (<[r := Some a]> (<[n := Some o]> t)) in
  fd_close (Z.of_nat n) t2 = (0, t3) /\ fd_dup (Z.of_nat x) t3 = (Z.of_nat n, t4) /\
  fd_close (Z.of_nat r) t4 = (0, <[w := Some b]> (<[n := Some o]> t)) /\
  fd_close (Z.of_nat w) (<[w := Some b]> (<[n := Some o]> t)) = (0, <[n := Some o]> t).
Proof.
  intros Hn Hstd Hr Hw Hne Hx t2 t3 t4. pose proof (lookup_lt_Some _ _ _ Hr). pose proof (lookup_lt_Some _ _ _ Hw).
  assert (r <> n /\ w <> n) as [Hrn Hwn].
  { destruct Hstd as [[u Hu] [v Hv]]. destruct n as [|[|n]]; [| |lia]; split; congruence. }
  assert (Hs2 : std_open t2) by (by do 2 apply std_open_insert).
  assert (Ho : exists u, t2 !! n = Some (Some u)) by (destruct Hs2; destruct n as [|[|n]]; [done|done|lia]).
  destruct Ho as [u Hu]. split; [by apply (fd_close_open _ _ u)|]. split; [|apply pipe_closed; [..|done]; by rewrite list_lookup_insert_ne by done].
  assert (E : fd_get t3 (Z.of_nat x) = Some o).
  { rewrite fd_get_nat. unfold t3, t2. destruct Hx as [[-> ->]|[-> ->]].
    - rewrite list_lookup_insert_ne by done. rewrite list_lookup_insert_ne by done. by rewrite list_lookup_insert_eq.
    - rewrite list_lookup_insert_ne by done. rewrite list_lookup_insert_eq; [done|by rewrite length_insert]. }
  unfold fd_dup, fd_alloc. rewrite E. unfold t3 at 1. rewrite find_fd_closed by done. f_equal.
  unfold t3, t2, t4. rewrite list_insert_insert_eq, (list_insert_insert_ne _ n w), (list_insert_insert_ne _ n r) by done. done.
Qed.

(** * runcmd *)
Section Proofs.
Context (kern : list nat -> list (call * reply) -> call -> reply) (P : Prop) (HP : refused kern -> P).

Lemma see_panic {A B} s (f : A -> prog B) p :
  exists msg, see kern (panic s ≫= f) p = map (fun c => V_write 2 [c]) msg ++ [V_exit].
Proof.
  unfold panic. rewrite see_assoc. destruct (see_puts kern 2 (format (ln "%s") [A_str s]) (fun _ => exit ≫= f) p) as (p' & _ & E).
  unfold printf. rewrite E. by eexists.
Qed.

Lemma see_message {A B} fmt args (f : A -> prog B) p :
  exists msg, see kern ((printf 2 fmt args ;; exit) ≫= f) p = map (fun c => V_write 2 [c]) msg ++ [V_exit].
Proof.
  rewrite see_assoc. destruct (see_puts kern 2 (format fmt args) (fun _ => exit ≫= f) p) as (p' & _ & E).
  unfold printf. rewrite E. by eexists.
Qed.

Lemma see_fork1 {A} (f : Z -> prog A) p :
  (refused kern /\ exists msg, see kern (fork1 ≫= f) p = map (fun c => V_write 2 [c]) msg ++ [V_exit]) \/
  exists pid h, 0 < pid /\ reads h = reads (u_hist p) /\
    see kern (fork1 ≫= f) p =
    V_fork (see kern (f 0) (child p)) :: see kern (f pid) (mk_process (u_name p) h (S (u_kids p)) (u_pipes p) (u_fds p)).
Proof.
  unfold fork1. rewrite see_assoc.
  destruct (see_fork kern (fun pid => (if pid =? -1 then panic (str "fork") else mret pid) ≫= f) p)
    as [(q & E & Hr)|(pid & h & Hp & Hh & E)]; rewrite E.
  - left. split; [by exists (u_name p), (u_hist p), C_fork|]. apply see_panic.
  - right. exists pid, h. rewrite (proj2 (Z.eqb_neq pid (-1))) by lia. done.
Qed.

(** In the child the command of [pwhen] runs, in the parent it does not. *)
Lemma see_split {A B} (m : prog unit) (g : unit -> prog B) (f : B -> prog A) p full rest :
  cut P (see kern (m ≫= fun _ => g () ≫= f) (child p)) full ->
  (forall h, reads h = reads (u_hist p) ->
    cut P (see kern (g () ≫= f) (mk_process (u_name p) h (S (u_kids p)) (u_pipes p) (u_fds p))) rest) ->
  cut P (see kern (fork1 ≫= fun pid => (pwhen (pid =? 0) m ≫= fun _ => g ()) ≫= f) p) (V_fork full :: rest).
Proof.
  intros Hc Hr. destruct (see_fork1 (fun pid => (pwhen (pid =? 0) m ≫= fun _ => g ()) ≫= f) p)
    as [(H & msg & E)|(pid & h & Hp & Hh & E)]; rewrite E.
  - apply cut_stop. by apply HP.
  - apply cut_fork; [by rewrite see_assoc|]. rewrite (proj2 (Z.eqb_neq pid 0)) by lia. by apply Hr.
Qed.

Lemma see_wait_cut {A} (k : Z -> prog A) p l :
  (forall v h, cut P (see kern (k v) (mk_process (u_name p) h (u_kids p) (u_pipes p) (u_fds p))) l) ->
  cut P (see kern (wait ≫= k) p) (V_wait :: l).
Proof. intros H. destruct (see_wait kern k p) as (v & h & E & _). rewrite E. by apply cut_step. Qed.

(** What is proved of a command, for every continuation and process. *)
Definition means (m : prog unit) (a : ast) : Prop := forall A (f : unit -> prog A) p,
  std_open (u_fds p) -> spare (u_fds p) \/ P ->
  cut P (see kern (m ≫= f) p) (meaning a (u_name p) (u_kids p) (u_pipes p) (u_fds p)).

Section Word.
Context (word : token -> list Z).

Lemma means_exec argv : (forall t, t ∈ argv -> word t = text t) -> means (runcmd word (EXEC argv)) (Exec (map text argv)).
Proof.
  intros Hw A f p _ _. assert (E : map word argv = map text argv) by (apply map_ext_in; intros t Ht; by apply Hw, list_elem_of_In).
  destruct argv as [|t argv]; cbn [runcmd]; [apply cut_step, cut_nil|]. rewrite E, (Hw t) by constructor. cbn [map meaning]. rewrite see_assoc.
  match goal with |- cut _ (see kern (exec ?w ?ws ≫= ?k) p) _ => destruct (see_exec kern w ws k p) as [(q & Eq & Hr)|Eq] end; rewrite Eq.
  - destruct (see_message (ln "exec %s failed") [A_str (text t)] f q) as [msg Em]. rewrite Em.
    apply cut_stop, HP. eexists _, _, _; exact Hr.
  - apply cut_step, cut_nil.
Qed.

Lemma means_redir c a file out : word file = text file -> means (runcmd word c) a ->
  means (runcmd word (REDIR c file (mode_of out) (fd_of out))) (Redir a (text file) out).
Proof.
  intros Hw IH A f p Hstd Hsp. cbn [runcmd meaning]. rewrite Hw, see_assoc, see_close.
  assert (exists n, (n < 2)%nat /\ fd_of out = Z.of_nat n) as (n & Hn & En) by (destruct out; [exists 1%nat|exists 0%nat]; split; (lia || done)).
  rewrite En, Nat2Z.id. assert (exists o, u_fds p !! n = Some (Some o)) as [o Ho] by (destruct Hstd, n as [|[|n]]; [done|done|lia]).
  rewrite (fd_close_open _ _ o Ho). cbv beta iota. rewrite see_assoc.
  match goal with |- cut _ (see kern (open ?w ?m ≫= ?k) ?q) _ => destruct (see_open kern w m k q) as [(q' & Eq & Hr & _)|(fd & Hfd & _ & Eq)] end; rewrite Eq.
  - change (-1 <? 0) with true. cbv beta iota. destruct (see_message (ln "open %s failed") [A_str (text file)] f q') as [msg Em]. rewrite Em.
    apply cut_stop, HP. destruct Hr as [Hr|Hr]; [eexists _, _, _; exact Hr|]. cbn in Hr. by rewrite (find_fd_closed _ n Hstd Hn) in Hr.
  - cbn in Hfd. rewrite (find_fd_closed _ n Hstd Hn) in Hfd. injection Hfd as <-.
    rewrite (proj2 (Z.ltb_ge _ _)) by lia. rewrite see_assoc.
    cbn [u_fds log_call with_fds]. rewrite list_insert_insert_eq.
    refine (IH A _ (log_call _ _ (with_fds (<[n := Some _]> (u_fds p)) _)) _ _); [by apply std_open_insert|]. destruct Hsp as [Hsp|]; [left; by apply spare_insert|by right].
Qed.

Lemma means_list l r a b : means (runcmd word l) a -> means (runcmd word r) b -> means (runcmd word (LIST l r)) (Lst a b).
Proof.
  intros IHl IHr A f p Hstd Hsp. cbn [runcmd meaning]. rewrite see_assoc.
  apply (see_split _ (fun _ => _ ← wait; runcmd word r ;; exit)); [by apply (IHl A _ (child p))|].
  intros h _. rewrite see_assoc. apply see_wait_cut. intros v h'. rewrite see_assoc. by apply (IHr A _ (mk_process _ _ _ _ _)).
Qed.

Lemma means_back c a : means (runcmd word c) a -> means (runcmd word (BACK c)) (Back a).
Proof.
  intros IH A f p Hstd Hsp. cbn [runcmd meaning]. rewrite see_assoc.
  apply (see_split _ (fun _ => exit)); [by apply (IH A _ (child p))|]. intros h _. apply cut_step, cut_nil.
Qed.

(** One side of a pipe: descriptor [n] becomes the end [x] of the pipe. *)
Lemma means_side {A} (m : prog unit) a n x o r w who k t (f : unit -> prog A) q : means m a ->
  (n < 2)%nat -> std_open t -> spare t \/ P -> t !! r = Some None -> t !! w = Some None -> r <> w ->
  x = r /\ o = O_pipe who k false \/ x = w /\ o = O_pipe who k true ->
  u_fds q = <[w := Some (O_pipe who k true)]> (<[r := Some (O_pipe who k false)]> t) ->
  cut P (see kern ((_ ← close (Z.of_nat n); _ ← dup (Z.of_nat x); _ ← close (Z.of_nat r); _ ← close (Z.of_nat w); m) ≫= f) q)
        (meaning a (u_name q) (u_kids q) (u_pipes q) (<[n := Some o]> t)).
Proof.
  intros Hm Hn Hstd Hsp Hr Hw Hne Hx Eq.
  destruct (pipe_placed t r w (O_pipe who k false) (O_pipe who k true) n x o Hn Hstd Hr Hw Hne Hx) as (E1 & E2 & E3 & E4).
  rewrite see_assoc, see_close, Eq, E1. cbv beta iota. rewrite see_assoc, see_dup. cbn [u_fds log_call with_fds]. rewrite E2. cbv beta iota.
  rewrite see_assoc, see_close. cbn [u_fds log_call with_fds]. rewrite E3. cbv beta iota.
  rewrite see_assoc, see_close. cbn [u_fds log_call with_fds]. rewrite E4. cbv beta iota.
  refine (Hm A f (log_call _ _ (with_fds (<[n := Some o]> t) _)) _ _); [by apply std_open_insert|].
  destruct Hsp as [Hsp|]; [left; by apply spare_insert|by right].
Qed.

Lemma means_pipe l r a b : means (runcmd word l) a -> means (runcmd word r) b -> means (runcmd word (PIPE l r)) (Pipe a b).
Proof.
  intros IHl IHr A f p Hstd Hsp. cbn [runcmd meaning]. rewrite see_assoc.
  match goal with |- cut _ (see kern (pipe ≫= ?k) p) _ => destruct (see_pipe kern k p) as [(q & x & Eq & Hr)|(rd & wr & t & h & Hp & Eq)] end; rewrite Eq; cbv beta iota.
  - destruct x as [x1 x2]. change (-1 <? 0) with true. cbv beta iota. destruct (see_panic (A:=unit) (str "pipe") f q) as [msg Em]. rewrite Em. apply cut_stop. destruct Hr as [Hr|Hr]; [apply HP; eexists _, _, _; exact Hr|].
    destruct Hsp as [Hsp|]; [|done]. destruct (fd_pipe_some (u_name p) (u_pipes p) _ Hsp) as (? & ? & ? & E). by rewrite E in Hr.
  - destruct (fd_pipe_spec _ _ _ _ _ _ Hp) as (Hrd & Hwr & Hne & ->). change (0 <? 0) with false. cbv iota. rewrite see_assoc.
    apply (see_split _ (fun _ => _)).
    { apply (means_side (runcmd word l) a 1 wr (O_pipe (u_name p) (u_pipes p) true) rd wr (u_name p) (u_pipes p)); try done; [lia|by right]. }
    intros h1 _. rewrite see_assoc. apply (see_split _ (fun _ => _)).
    { apply (means_side (runcmd word r) b 0 rd (O_pipe (u_name p) (u_pipes p) false) rd wr (u_name p) (u_pipes p)); try done; [lia|by left]. }
    intros h2 _. destruct (pipe_closed (u_fds p) rd wr (O_pipe (u_name p) (u_pipes p) false) (O_pipe (u_name p) (u_pipes p) true) Hrd Hwr Hne) as [E1 E2].
    rewrite see_assoc, see_close. cbn [u_fds]. rewrite E1. cbv beta iota. rewrite see_assoc, see_close. cbn [u_fds log_call with_fds]. rewrite E2.
    rewrite see_assoc. apply see_wait_cut. intros v h3. rewrite see_assoc. apply see_wait_cut. intros v' h4. apply cut_step, cut_nil.
Qed.

Lemma means_denote c a : denote c a -> (forall t, t ∈ tokens c -> word t = text t) -> means (runcmd word c) a.
Proof.
  induction 1 as [argv|c a file out _ IH|l r a b _ IHl _ IHr|l r a b _ IHl _ IHr|c a _ IH]; intros Hw.
  - by apply means_exec.
  - apply means_redir; [apply Hw|apply IH; intros t Ht; apply Hw]; cbn [tokens]; set_solver.
  - apply means_pipe; [apply IHl|apply IHr]; intros t Ht; apply Hw; cbn [tokens]; set_solver.
  - apply means_list; [apply IHl|apply IHr]; intros t Ht; apply Hw; cbn [tokens]; set_solver.
  - by apply means_back, IH.
Qed.
End Word.
End Proofs.

Lemma cut_exact P l l' : ~ P -> cut P l l' -> l = l'.
Proof. intros HP. induction 1; congruence || done. Qed.

Lemma execs_app l l' : execs (l ++ l') = execs l ++ execs l'.
Proof. apply flat_map_app. Qed.

Lemma cut_execs P l l' : cut P l l' -> execs l `sublist_of` execs l'.
Proof.
  induction 1 as [|msg l _|v l l' _ IH|k k' l l' _ IHk _ IH]; [done| | |].
  - rewrite execs_app. replace (execs (map _ msg)) with (@nil (list Z * list (list Z) * fdtab)); [apply sublist_nil_l|].
    induction msg; done.
  - by apply (sublist_app (execs_of v)).
  - by apply (sublist_app (execs k) (execs k')).
Qed.

(** The shell executes a command as it is meant: when no call is refused and two
    descriptors are free, runcmd forks and waits as the command says, and every program
    is executed with exactly the descriptors of the shell, its redirections and the
    ends of its pipes in the places of standard input and output; no other end of a
    pipe stays open anywhere. *)
Theorem runcmd_correct kern word c a p :
  denote c a -> (forall t, t ∈ tokens c -> word t = text t) -> ~ refused kern ->
  std_open (u_fds p) -> spare (u_fds p) ->
  see kern (runcmd word c) p = meaning a (u_name p) (u_kids p) (u_pipes p) (u_fds p).
Proof.
  intros Hd Hw Hk Hs Hsp. pose proof (means_denote kern False (fun H => Hk H) word c a Hd Hw _ Done p Hs (or_introl Hsp)) as H.
  apply cut_exact in H; [|tauto]. by rewrite <- H, see_ret.
Qed.

(** C33: whatever calls the kernel refuses and however few descriptors are free, the
    processes of a command do what the command means, except that some of them stop on
    the way with a message and an exit; so the programs executed are some of those
    meant, in their order, and never with other descriptors. *)
Theorem runcmd_failures kern word c a p :
  denote c a -> (forall t, t ∈ tokens c -> word t = text t) -> std_open (u_fds p) ->
  let full := meaning a (u_name p) (u_kids p) (u_pipes p) (u_fds p) in
  cut True (see kern (runcmd word c) p) full /\ execs (see kern (runcmd word c) p) `sublist_of` execs full.
Proof.
  intros Hd Hw Hs full. pose proof (means_denote kern True (fun _ => I) word c a Hd Hw _ Done p Hs (or_intror I)) as H.
  rewrite see_ret in H. split; [exact H|]. by eapply cut_execs.
Qed.

(** * The lines of a dialogue *)

(** The reads of the shell deliver the script one byte at a time. *)
Definition fed (script : list Z) (h : list (call * reply)) : reply :=
  match script !! reads h with Some c => mk_reply 1 [c] (0, 0) no_stat | None => val 0 end.

Definition text_char (c : Z) : Prop := c <> 0 /\ c <> 10 /\ c <> 13.

Definition typed_ok (l : typed) : Prop :=
  match l with
  | T_cmd a => ast_ok a /\ show 0 a <> [] /\ Z.of_nat (length (typed_text l)) < nbuf /\ take 3 (typed_text l) <> str "cd "
  | T_cd dir => Forall text_char dir /\ Z.of_nat (length (typed_text l)) < nbuf
  end.

Lemma gets_loop_line b rest room : Forall text_char b -> (length b < room)%nat ->
  CString.gets_loop (b ++ 10 :: rest) room = (b ++ [10], rest).
Proof.
  intros Hb. revert room. induction Hb as [|c b (_ & H1 & H2) _ IH]; intros [|room] Hr; simpl in Hr; try lia; [done|].
  cbn [app CString.gets_loop]. rewrite (proj2 (Z.eqb_neq c 10)), (proj2 (Z.eqb_neq c 13)) by done. cbn [orb].
  by rewrite IH by lia.
Qed.

Lemma text_char_word c : has_char whitespace c = false -> c <> 0 -> text_char c.
Proof. intros H H0. split; [done|]. split; intros ->; discriminate H. Qed.

Lemma line_of_text ts : ts <> [] -> Forall tk_ok ts -> exists b, line_of ts = b ++ [10] /\ Forall text_char b.
Proof.
  intros Hne Hts. induction Hts as [|t ts Ht Hts IH]; [done|].
  assert (Hc : Forall text_char (tk_text t)).
  { destruct t as [w|c]; cbn [tk_text].
    - destruct Ht as [_ Hw]. eapply List.Forall_impl; [|exact Hw]. intros c (H0 & Hws & _). by apply text_char_word.
    - apply Forall_singleton. destruct (symbol_not_ws c Ht). by apply text_char_word. }
  destruct ts as [|u ts]; [by exists (tk_text t)|]. destruct IH as (b & E & Hb); [done|].
  exists (tk_text t ++ 32 :: b). rewrite line_of_cons, E, <- app_assoc. split; [done|].
  apply Forall_app. split; [done|]. by constructor.
Qed.

Lemma typed_line l : typed_ok l -> exists b, typed_text l = b ++ [10] /\ Forall text_char b.
Proof.
  destruct l as [a|dir]; cbn [typed_ok typed_text].
  - intros (Ha & Hne & _). apply line_of_text; [done|]. by apply show_ok.
  - intros [Hd _]. exists (str "cd " ++ dir). rewrite app_assoc. split; [done|]. apply Forall_app. split; [|done]. by repeat constructor.
Qed.

Section Dialogue.
Context (kern : list nat -> list (call * reply) -> call -> reply) (script : list Z) (who : list nat).
Context (Hfed : forall h, kern who h (C_read 0 1) = fed script h) (Hk : ~ refused kern).

(** What is left of the script. *)
Definition rest_of (p : process) : list Z := drop (reads (u_hist p)) script.

Lemma see_read {A} (f : Z * list Z -> prog A) p : u_name p = who -> is_Some (fd_get (u_fds p) 0) ->
  exists q, alike p q /\ rest_of q = next (rest_of p) /\
    see kern (read 0 1 ≫= f) p = see kern (f (match rest_of p with c :: _ => (1, [c]) | [] => (0, []) end)) q.
Proof.
  intros Hw Hfd. change (read 0 1 ≫= f) with (Call (C_read 0 1) (fun r => f (r_val r, r_bytes r))).
  rewrite see_plain by done. cbn [handle visible_item app]. rewrite Hw, Hfed. unfold fed, rest_of.
  rewrite (bool_decide_true (is_Some (fd_get (u_fds p) 0))) by done.
  destruct (script !! reads (u_hist p)) as [c|] eqn:E.
  - rewrite (drop_S _ _ _ E). eexists. split; [|split; [|reflexivity]]; done.
  - apply lookup_ge_None in E. rewrite drop_ge by done. eexists. split; [|split; [|reflexivity]]; [done|]. cbn. by rewrite drop_ge by lia.
Qed.

Lemma see_gets_loop {A} room (f : list Z -> prog A) p : u_name p = who -> is_Some (fd_get (u_fds p) 0) ->
  exists q, alike p q /\ rest_of q = snd (CString.gets_loop (rest_of p) room) /\
    see kern (gets_loop room ≫= f) p = see kern (f (fst (CString.gets_loop (rest_of p) room))) q.
Proof.
  revert f p. induction room as [|room IH]; intros f p Hw Hfd; [exists p; split; [done|]; by destruct (rest_of p)|].
  cbn [gets_loop]. rewrite see_assoc.
  match goal with |- context [read 0 1 ≫= ?k] => destruct (see_read k p Hw Hfd) as (q & Hq & Hr & E) end. rewrite E.
  destruct (rest_of p) as [|c inp] eqn:Ep; cbn [next] in Hr; cbv beta iota.
  - change (0 <? 1) with true. cbv iota. by exists q.
  - change (1 <? 1) with false. cbv iota zeta. cbn [deref CString.gets_loop]. destruct ((c =? 10) || (c =? 13)); [by exists q|].
    rewrite see_assoc. destruct Hq as (Q1 & Q2 & Q3 & Q4).
    destruct (IH (fun rest => mret (c :: rest) ≫= f) q) as (q' & (P1 & P2 & P3 & P4) & Hr' & E'); [congruence|by rewrite <- Q4|].
    rewrite Hr in Hr', E'. rewrite E'. destruct (CString.gets_loop inp room) as [b rest]. exists q'. split; [|done]. unfold alike. repeat split; congruence.
Qed.

(** getcmd prints the prompt and reads a line, or finds the end of the script. *)
Lemma see_getcmd {A} (f : Z * list Z -> prog A) p : u_name p = who -> is_Some (fd_get (u_fds p) 0) ->
  exists q, alike p q /\ rest_of q = snd (CString.gets_loop (rest_of p) 99) /\
    let b := fst (CString.gets_loop (rest_of p) 99) in let buf := (b ++ [0]) ++ replicate (100 - length (b ++ [0])) 0 in
    see kern (getcmd ≫= f) p = prompt ++ see kern (f (if deref buf =? 0 then -1 else 0, buf)) q.
Proof.
  intros Hw Hfd. unfold getcmd. rewrite see_assoc.
  match goal with |- context [printf 2 (str "$ ") [] ≫= ?k] => destruct (see_puts kern 2 (format (str "$ ") []) k p) as (p1 & (S1 & S2 & S3 & S4 & S5) & E1) end.
  unfold printf. rewrite E1. rewrite see_assoc. unfold gets. rewrite see_assoc. change (Z.to_nat (nbuf - 1)) with 99%nat.
  match goal with |- context [gets_loop 99 ≫= ?k] => destruct (see_gets_loop 99 k p1) as (q & (Q1 & Q2 & Q3 & Q4) & Hr & E2) end;
    [congruence|by rewrite <- S4|]. rewrite E2.
  assert (Er : rest_of p1 = rest_of p) by (unfold rest_of; by rewrite S5). rewrite Er in *.
  exists q. split; [unfold alike; repeat split; congruence|]. split; [done|]. cbv zeta.
  change (mret ?x ≫= ?g) with (g x). cbv beta. change (Z.to_nat nbuf) with 100%nat. by destruct (deref _ =? 0).
Qed.

(** The buffer after a line was read. *)
Definition buf_of (line : list Z) : list Z := (line ++ [0]) ++ replicate (100 - length (line ++ [0])) 0.

Lemma cstr_line b n tl : Forall text_char b -> (length b < n)%nat -> cstr n ((b ++ [10]) ++ 0 :: tl) = b ++ [10].
Proof.
  intros Hb. revert n. induction Hb as [|c b (H0 & _) _ IH]; intros [|n] Hn; simpl in Hn; try lia.
  - destruct n; [done|]. done.
  - cbn [app cstr]. rewrite (proj2 (Z.eqb_neq c 0)) by done. by rewrite IH by lia.
Qed.

Lemma cstr_buf b : Forall text_char b -> (length b < 99)%nat -> cstr (length (buf_of (b ++ [10]))) (buf_of (b ++ [10])) = b ++ [10].
Proof.
  intros Hb Hl. unfold buf_of at 2. rewrite <- app_assoc. apply cstr_line; [done|].
  unfold buf_of. repeat rewrite ?length_app, ?length_replicate. simpl. lia.
Qed.

(** Parsing in the child: a typed command becomes the command it is. *)
Lemma parse_line_show a : ast_ok a ->
  exists c buf, parse_line (line_of (show 0 a)) = mret (c, buf) /\ denote c a /\
    forall t, t ∈ tokens c -> tok_str (line_of (show 0 a)) buf t = text t.
Proof.
  intros Ha. destruct (parseline_show a Ha) as (c & Hc & Hd). exists c. eexists. split; [|split; [done|]].
  - unfold parse_line. rewrite (bind_ok _ _ _ _ _ Hc). reflexivity.
  - intros t Ht. unfold tok_str. apply (nulterminate_strings _ c _ []); [| |done].
    + destruct (decide (show 0 a = [])) as [->|Hne]; [constructor|].
      destruct (line_of_text _ Hne (show_ok a 0 Ha)) as (b & -> & Hb). apply Forall_app. split; [|by repeat constructor].
      eapply List.Forall_impl; [|exact Hb]. by intros x [? _].
    + unfold parsecmd. by rewrite (bind_ok _ _ _ _ _ Hc).
Qed.

Definition is_cd (buf : list Z) : bool :=
  (default 0 (buf !! 0%nat) =? 99) && (default 0 (buf !! 1%nat) =? 100) && (default 0 (buf !! 2%nat) =? 32).

Lemma is_cd_buf line : take 3 line <> str "cd " -> is_cd (buf_of line) = false.
Proof.
  intros H. apply not_true_is_false. unfold is_cd. intros [[H1 H2]%andb_true_iff H3]%andb_true_iff. zbool. apply H. unfold buf_of in *.
  destruct line as [|x [|y [|z line]]]; cbn in H1, H2, H3; try lia. cbn. by subst.
Qed.

Lemma do_line_cmd a {A} (f : unit -> prog A) p : typed_ok (T_cmd a) -> std_open (u_fds p) -> spare (u_fds p) ->
  exists h, reads h = reads (u_hist p) /\
  see kern (do_line (buf_of (typed_text (T_cmd a))) ≫= f) p =
    V_fork (meaning a (u_name p ++ [u_kids p]) 0 0 (u_fds p)) :: V_wait ::
    see kern (f ()) (mk_process (u_name p) h (S (u_kids p)) (u_pipes p) (u_fds p)).
Proof.
  intros Hok Hstd Hsp. destruct (typed_line _ Hok) as (b & Eb & Hb). destruct Hok as (Ha & _ & Hlen & Hcd). unfold nbuf in Hlen.
  unfold do_line. fold (is_cd (buf_of (typed_text (T_cmd a)))). rewrite is_cd_buf by done. rewrite see_assoc.
  assert (Hl : (length b < 99)%nat) by (rewrite Eb, length_app in Hlen; simpl in Hlen; lia).
  destruct (parse_line_show a Ha) as (c & buf' & Ep & Hd & Hw).
  match goal with |- context [fork1 ≫= ?k] => destruct (see_fork1 kern k p) as [(Hr & _)|(pid & h & Hp & Hh & E)] end; [done|]. rewrite E.
  rewrite (proj2 (Z.eqb_neq pid 0)) by lia. change (0 =? 0) with true. cbn [pwhen].
  change (mret () ≫= ?g) with (g ()). cbv beta.
  match goal with |- context [see kern ((_ ← wait; _) ≫= ?g) ?q] => rewrite (see_assoc kern wait _ g q); destruct (see_wait kern (fun x : Z => mret () ≫= g) q) as (v & h' & E2 & Hh') end.
  exists h'. split; [by rewrite Hh'|]. rewrite E2. f_equal. f_equal.
  rewrite Eb, cstr_buf, <- Eb by done. cbv zeta. rewrite !see_assoc. change (typed_text (T_cmd a)) with (line_of (show 0 a)) in *. rewrite Ep.
  refine (cut_exact False _ _ _ (means_denote kern False Hk _ c a Hd Hw _ _ (child p) Hstd (or_introl Hsp))). tauto.
Qed.
Lemma strlen_line b tl : Forall text_char b -> strlen (b ++ 10 :: 0 :: tl) = Z.of_nat (length b) + 1.
Proof.
  induction 1 as [|c b (H0 & _) _ IH]; [done|]. cbn [app strlen length]. rewrite (proj2 (Z.eqb_neq c 0)) by done. rewrite IH. lia.
Qed.

Lemma do_line_cd dir {A} (f : unit -> prog A) p : typed_ok (T_cd dir) ->
  exists q, same p q /\ see kern (do_line (buf_of (typed_text (T_cd dir))) ≫= f) p = V_chdir dir :: see kern (f ()) q.
Proof.
  intros [Hd Hlen]. unfold do_line, buf_of. cbn [typed_text]. set (tl := replicate _ 0).
  replace (((str "cd " ++ dir ++ [10]) ++ [0]) ++ tl) with ((str "cd " ++ dir) ++ 10 :: 0 :: tl) by (rewrite <- !app_assoc; done).
  change (_ && _ && _) with true. cbv iota zeta.
  assert (Hb : Forall text_char (str "cd " ++ dir)) by (apply Forall_app; split; [by repeat constructor|done]).
  rewrite strlen_line by done. replace (Z.to_nat _) with (length (str "cd " ++ dir)) by lia.
  rewrite insert_app_r_alt, Nat.sub_diag by lia. change (<[0%nat := 0]> (10 :: 0 :: tl)) with (0 :: 0 :: tl).
  replace (drop 3 ((str "cd " ++ dir) ++ 0 :: 0 :: tl)) with (dir ++ 0 :: 0 :: tl) by done.
  rewrite cstr_prefix; [|eapply List.Forall_impl; [|exact Hd]; by intros x [? _]|rewrite length_app; simpl; lia].
  rewrite see_assoc. match goal with |- context [chdir dir ≫= ?k] => change (chdir dir ≫= k) with (Call (C_chdir dir) (fun r => k (r_val r))) end.
  rewrite see_plain by done. cbn [handle visible_item app fst snd].
  rewrite (proj2 (Z.ltb_ge _ _)) by (apply Z.nlt_ge; intros Hr; apply Hk; eexists _, _, _; exact Hr). cbn [pwhen]. change (mret () ≫= f) with (f ()).
  eexists. split; [|reflexivity]. done.
Qed.

Lemma see_dialogue ls fuel p : Forall typed_ok ls -> (length ls < fuel)%nat -> u_name p = who -> std_open (u_fds p) -> spare (u_fds p) ->
  rest_of p = concat (map typed_text ls) -> see kern (main_loop fuel) p = dialogue ls who (u_kids p) (u_pipes p) (u_fds p).
Proof.
  intros Hls. revert fuel p. induction Hls as [|l ls Hl Hls IH]; intros [|fuel] p Hf Hw Hstd Hsp Hr; simpl in Hf; try lia;
    cbn [main_loop]; assert (Hfd : is_Some (fd_get (u_fds p) 0)) by (destruct Hstd as [[o Ho] _]; rewrite (fd_get_nat _ 0), Ho; by eexists).
  - match goal with |- context [getcmd ≫= ?k] => destruct (see_getcmd k p Hw Hfd) as (q & _ & _ & E) end. cbv zeta in E. rewrite Hr in E. exact E.
  - match goal with |- context [getcmd ≫= ?k] => destruct (see_getcmd k p Hw Hfd) as (q & (Q1 & Q2 & Q3 & Q4) & Hr' & E) end. cbv zeta in E. rewrite E. clear E.
    destruct (typed_line l Hl) as (b & Eb & Hb). cbn [map concat] in Hr.
    assert (Hlen : (length b < 99)%nat).
    { assert (Z.of_nat (length (typed_text l)) < nbuf) as H by (destruct l; apply Hl). rewrite Eb, length_app in H. unfold nbuf in H. simpl in H. lia. }
    assert (G : CString.gets_loop (rest_of p) 99 = (typed_text l, concat (map typed_text ls))).
    { rewrite Hr, Eb, <- app_assoc. by apply gets_loop_line. }
    rewrite G in *. cbn [fst snd] in *. fold (buf_of (typed_text l)). assert (Hdr : (deref (buf_of (typed_text l)) =? 0) = false).
    { apply Z.eqb_neq. rewrite Eb. destruct Hb as [|c b [? _] _]; done. }
    rewrite Hdr. change (0 <? 0) with false. cbv beta iota.
    destruct l as [a|dir].
    + destruct (do_line_cmd a (fun _ => main_loop fuel) q) as (h & Hh & E); [done|by rewrite <- Q4..|]. rewrite E. cbn [dialogue]. f_equal.
      rewrite <- Q1, <- Q2, <- Q4, Hw. do 2 f_equal. rewrite <- Q3.
      refine (IH fuel (mk_process who h (S (u_kids p)) (u_pipes p) (u_fds p)) _ eq_refl Hstd Hsp _); [lia|]. unfold rest_of in *. cbn. by rewrite Hh.
    + destruct (do_line_cd dir (fun _ => main_loop fuel) q Hl) as (q' & (S1 & S2 & S3 & S4 & S5) & E). rewrite E. cbn [dialogue]. do 2 f_equal.
      rewrite Q2, Q3, Q4, S2, S3, S4. apply IH; [lia|congruence|by rewrite <- S4, <- Q4..|]. unfold rest_of in *. by rewrite <- S5.
Qed.
End Dialogue.

(** main leaves the descriptors alone when three are open. *)
Lemma see_open_console kern {A} (f : unit -> prog A) p fuel : ~ refused kern -> (0 < fuel)%nat ->
  (forall i, (i < 3)%nat -> exists o, u_fds p !! i = Some (Some o)) -> spare (u_fds p) ->
  exists q, same p q /\ see kern (open_console fuel ≫= f) p = see kern (f ()) q.
Proof.
  intros Hk Hf H3 (i & _ & _ & Hi & _). destruct fuel as [|fuel]; [lia|]. cbn [open_console]. rewrite see_assoc.
  match goal with |- context [open ?w ?m ≫= ?k] => destruct (see_open kern w m k p) as [(q & _ & Hr & _)|(fd & Hfd & _ & E)] end.
  - exfalso. destruct Hr as [Hr|Hr]; [apply Hk; eexists _, _, _; exact Hr|].
    pose proof (find_fd_spec (u_fds p) 0) as H. rewrite Hr in H. by destruct (H i None Hi).
  - rewrite E. pose proof (find_fd_spec (u_fds p) 0) as H. rewrite Hfd in H. destruct H as (j & -> & Hj & _). cbn [plus].
    assert (3 <= j)%nat by (destruct (decide (j < 3)%nat) as [H|]; [|lia]; destruct (H3 j H); congruence).
    rewrite (proj2 (Z.ltb_ge _ _)), (proj2 (Z.leb_le _ _)) by lia. rewrite see_assoc, see_close. cbn [u_fds log_call with_fds].
    rewrite (fd_close_open _ _ (O_file (str "console") O_RDWR)) by (apply list_lookup_insert_eq; by eapply lookup_lt_Some).
    eexists. split; [|reflexivity]. unfold same. cbn. by rewrite list_insert_insert_eq, list_insert_id.
Qed.

(** C32: the shell from the bytes it reads to the programs it starts.  When its reads
    deliver the lines of a dialogue and no call is refused, main prompts, changes the
    directory itself for cd, runs every other line in a process of its own as the
    command means, waits for it, and exits at the end of the input.  The lines are read
    by gets, parsed by parsecmd and executed by runcmd. *)
Theorem shell_correct kern ls fuel p :
  Forall typed_ok ls -> (length ls < fuel)%nat -> ~ refused kern ->
  (forall h, kern (u_name p) h (C_read 0 1) = fed (concat (map typed_text ls)) h) -> reads (u_hist p) = 0%nat ->
  (forall i, (i < 3)%nat -> exists o, u_fds p !! i = Some (Some o)) -> spare (u_fds p) ->
  see kern (main fuel) p = dialogue ls (u_name p) (u_kids p) (u_pipes p) (u_fds p).
Proof.
  intros Hls Hf Hk Hfed H0 H3 Hsp. unfold main.
  destruct (see_open_console kern (fun _ => main_loop fuel) p (S (Z.to_nat NOFILE)) Hk ltac:(lia) H3 Hsp) as (q & (S1 & S2 & S3 & S4 & S5) & E).
  rewrite E, S2, S3, S4. apply (see_dialogue kern (concat (map typed_text ls))); try done.
  - split; rewrite <- S4; apply H3; lia.
  - by rewrite <- S4.
  - unfold rest_of. by rewrite <- S5, H0.
Qed.

(** ** Witnesses: "cd d" and "ls | wc > f" typed at the prompt *)
Definition demo_pipeline : ast := Pipe (Exec [str "ls"]) (Redir (Exec [str "wc"]) (str "f") true).
Definition demo_lines : list typed := [T_cd (str "d"); T_cmd demo_pipeline].
Definition demo_fds : fdtab := [Some (O_given 0); Some (O_given 0); Some (O_given 0); None; None].
Definition demo_shell : process := mk_process [] [] 0 0 demo_fds.
Definition demo_kern (who : list nat) (h : list (call * reply)) (e : call) : reply :=
  match e with C_fork => val 7 | C_read _ _ => fed (concat (map typed_text demo_lines)) h | _ => val 0 end.

Lemma demo_kern_grants : ~ refused demo_kern.
Proof.
  intros (who & h & e & H). destruct e; simpl in H; try lia. unfold fed in H. destruct (_ !! _); simpl in H; lia.
Qed.

Lemma demo_spare : spare demo_fds.
Proof. by exists 3%nat, 4%nat. Qed.

Lemma shell_correct_witness :
  execs (see demo_kern (main 3) demo_shell) =
  [(str "ls", [str "ls"], [Some (O_given 0); Some (O_pipe [0%nat] 0 true); Some (O_given 0); None; None]);
   (str "wc", [str "wc"], [Some (O_pipe [0%nat] 0 false); Some (O_file (str "f") (mode_of true)); Some (O_given 0); None; None])].
Proof.
  rewrite (shell_correct demo_kern demo_lines 3 demo_shell); try done.
  - repeat constructor; try done; cbn; try lia; repeat (split || constructor); try done.
  - simpl. lia.
  - apply demo_kern_grants.
  - intros [|[|[|i]]] Hi; [by eexists..|lia].
  - exact demo_spare.
Defined.

(** The second fork of the pipeline fails: its left side runs all the same. *)
Definition poor_kern (who : list nat) (h : list (call * reply)) (e : call) : reply :=
  match e with C_fork => if existsb (fun c => match c with (C_fork, _) => true | _ => false end) h then val (-1) else val 7 | _ => val 0 end.
Definition tok (s : string) : token := (str s, []).

Lemma runcmd_failures_witness :
  let c := PIPE (EXEC [tok "ls"]) (EXEC [tok "wc"]) in
  execs (see poor_kern (runcmd text c) demo_shell) =
    [(str "ls", [str "ls"], [Some (O_given 0); Some (O_pipe [] 0 true); Some (O_given 0); None; None])] /\
  execs (see poor_kern (runcmd text c) demo_shell) `sublist_of`
    execs (meaning (Pipe (Exec [str "ls"]) (Exec [str "wc"])) [] 0 0 demo_fds).
Proof.
  intros c. split; [vm_compute; reflexivity|].
  refine (proj2 (runcmd_failures poor_kern text c (Pipe (Exec [str "ls"]) (Exec [str "wc"])) demo_shell _ _ _)).
  - apply de_pipe; [exact (de_exec [tok "ls"])|exact (de_exec [tok "wc"])].
  - done.
  - split; by eexists.
Defined.
