(* ===== verification/UserProgs.v ===== *)
(** The small programs of user space, as sequences of system calls: cat, echo, ls, ln,
    mkdir, rm, kill, init, zombie, forktest, stressfs, swaptest, and the parts of grep
    and wc that make the calls (TextTools.v has the matcher and the counting).

    [argv] is the argument vector, with the name of the program first.  A loop that the
    number of arguments does not bound takes fuel. *)

From S2P Require Import Prelude Layout CString TextTools Sysfile Fs User ShRun.

(** [for(i = 1; i < argc; i++) body(argv[i])] *)
Fixpoint for_args (args : list (list Z)) (body : list Z -> prog unit) : prog unit :=
  match args with
  | [] => mret ()
  | a :: args' => body a ;; for_args args' body
  end.

(** ** cat.c *)
Fixpoint cat (fuel : nat) (fd : Z) : prog unit :=
  match fuel with
  | O => Endless
  | S fuel' =>
      '(n, bs) ← read fd 512;
      if 0 <? n then
        w ← write 1 bs;
        if negb (w =? n) then printf 1 (ln "cat: write error") [] ;; exit
        else cat fuel' fd
      else if n <? 0 then printf 1 (ln "cat: read error") [] ;; exit
      else mret ()
  end.

Definition cat_main (fuel : nat) (argv : list (list Z)) : prog unit :=
  if (length argv <=? 1)%nat then cat fuel 0 ;; exit else
  for_args (tail argv) (fun a =>
    fd ← open a 0;
    if fd <? 0 then printf 1 (ln "cat: cannot open %s") [A_str a] ;; exit else
    cat fuel fd ;;
    _ ← close fd;
    mret ()) ;;
  exit.

(** ** echo.c *)
Fixpoint echo_args (args : list (list Z)) : prog unit :=
  match args with
  | [] => mret ()
  | a :: args' =>
      printf 1 (str "%s%s") [A_str a; A_str (match args' with [] => [10] | _ => [32] end)] ;;
      echo_args args'
  end.

Definition echo_main (argv : list (list Z)) : prog unit := echo_args (tail argv) ;; exit.

(** ** ls.c *)
Definition ls_line (path : list Z) (st : ustat) : prog unit :=
  printf 1 (ln "%s %d %d %d") [A_str (fmtname path); A_int (us_type st); A_int (us_ino st); A_int (us_size st)].

(** The loop over the entries of a directory: [buf] is the path with its slash. *)
Fixpoint ls_loop (fuel : nat) (fd : Z) (buf : list Z) : prog unit :=
  match fuel with
  | O => Endless
  | S fuel' =>
      '(n, de) ← read fd sizeof_dirent;
      if negb (n =? sizeof_dirent) then mret () else
      if de_inum de =? 0 then ls_loop fuel' fd buf else
      let path := buf ++ cstr (Z.to_nat DIRSIZ) (de_name de) in
      '(r, st) ← stat path;
      (if r <? 0 then printf 1 (ln "ls: cannot stat %s") [A_str path] else ls_line path st) ;;
      ls_loop fuel' fd buf
  end.

Definition ls (fuel : nat) (path : list Z) : prog unit :=
  fd ← open path 0;
  if fd <? 0 then printf 2 (ln "ls: cannot open %s") [A_str path] else
  '(r, st) ← fstat fd;
  if r <? 0 then printf 2 (ln "ls: cannot stat %s") [A_str path] ;; _ ← close fd; mret () else
  (if us_type st =? T_FILE then ls_line path st
   else if us_type st =? T_DIR then
     if 512 <? strlen path + 1 + DIRSIZ + 1 then printf 1 (ln "ls: path too long") []
     else ls_loop fuel fd (path ++ [47])
   else mret ()) ;;
  _ ← close fd;
  mret ().

Definition ls_main (fuel : nat) (argv : list (list Z)) : prog unit :=
  if (length argv <? 2)%nat then ls fuel (str ".") ;; exit else
  for_args (tail argv) (ls fuel) ;;
  exit.

(** ** ln.c, mkdir.c, rm.c, kill.c *)
Definition ln_main (argv : list (list Z)) : prog unit :=
  if negb (length argv =? 3)%nat then printf 2 (ln "Usage: ln old new") [] ;; exit else
  let old := default [] (argv !! 1%nat) in
  let new := default [] (argv !! 2%nat) in
  r ← sys (C_link old new);
  pwhen (r <? 0) (printf 2 (ln "link %s %s: failed") [A_str old; A_str new]) ;;
  exit.

(** The loops of mkdir and rm, which break at the first failure. *)
Fixpoint until_failure (args : list (list Z)) (act : list Z -> call) (msg : list Z) : prog unit :=
  match args with
  | [] => mret ()
  | a :: args' =>
      r ← sys (act a);
      if r <? 0 then printf 2 msg [A_str a] else until_failure args' act msg
  end.

Definition mkdir_main (argv : list (list Z)) : prog unit :=
  if (length argv <? 2)%nat then printf 2 (ln "Usage: mkdir files...") [] ;; exit else
  until_failure (tail argv) C_mkdir (ln "mkdir: %s failed to create") ;;
  exit.

Definition rm_main (argv : list (list Z)) : prog unit :=
  if (length argv <? 2)%nat then printf 2 (ln "Usage: rm files...") [] ;; exit else
  until_failure (tail argv) C_unlink (ln "rm: %s failed to delete") ;;
  exit.

Definition kill_main (argv : list (list Z)) : prog unit :=
  if (length argv <? 2)%nat then printf 2 (ln "usage: kill pid...") [] ;; exit else
  for_args (tail argv) (fun a => _ ← sys (C_kill (atoi a)); mret ()) ;;
  exit.

(** ** init.c *)
Fixpoint wait_for (fuel : nat) (pid : Z) : prog unit :=
  match fuel with
  | O => Endless
  | S fuel' =>
      wpid ← wait;
      if (0 <=? wpid) && negb (wpid =? pid) then printf 1 (ln "zombie!") [] ;; wait_for fuel' pid
      else mret ()
  end.

(** [turns] turns of the endless loop; [fuel] bounds the orphans collected in one. *)
Fixpoint init_loop (turns fuel : nat) : prog unit :=
  match turns with
  | O => mret ()
  | S turns' =>
      printf 1 (ln "init: starting sh") [] ;;
      pid ← fork;
      if pid <? 0 then printf 1 (ln "init: fork failed") [] ;; exit else
      if pid =? 0 then
        _ ← exec (str "sh") [str "sh"];
        printf 1 (ln "init: exec sh failed") [] ;;
        exit
      else
      wait_for fuel pid ;;
      init_loop turns' fuel
  end.

Definition init_main (turns fuel : nat) : prog unit :=
  r ← open (str "console") O_RDWR;
  pwhen (r <? 0)
    (_ ← sys (C_mknod (str "console") 1 1);
     _ ← open (str "console") O_RDWR;
     mret ()) ;;
  _ ← dup 0;
  _ ← dup 0;
  init_loop turns fuel.

(** ** zombie.c, swaptest.c *)
Definition zombie_main : prog unit :=
  pid ← fork;
  pwhen (0 <? pid) (_ ← sys (C_sleep 5); mret ()) ;;
  exit.

(** main of swaptest.c returns without exit. *)
Definition swaptest_main : prog unit := _ ← sys C_swapstat; mret ().

(** ** forktest.c *)

(** Its own printf, which writes the string as it is. *)
Definition ft_print (s : list Z) : prog unit := _ ← write 1 s; mret ().

Definition FORKTEST_N : nat := 1000.

(** The number of children, counted up from [n]. *)
Fixpoint ft_fork (left_ : nat) (n : nat) : prog nat :=
  match left_ with
  | O => mret n
  | S left_' =>
      pid ← fork;
      if pid <? 0 then mret n else
      if pid =? 0 then exit else
      ft_fork left_' (S n)
  end.

Fixpoint ft_wait (n : nat) : prog unit :=
  match n with
  | O => mret ()
  | S n' =>
      r ← wait;
      if r <? 0 then ft_print (ln "wait stopped early") ;; exit else
      ft_wait n'
  end.

Definition forktest : prog unit :=
  ft_print (ln "fork test") ;;
  n ← ft_fork FORKTEST_N 0;
  if (n =? FORKTEST_N)%nat then ft_print (ln "fork claimed to work N times!") ;; exit else
  ft_wait n ;;
  r ← wait;
  if negb (r =? -1) then ft_print (ln "wait got too many") ;; exit else
  ft_print (ln "fork test OK").

Definition forktest_main : prog unit := forktest ;; exit.

(** ** stressfs.c *)
Fixpoint stress_fork (left_ : nat) (i : Z) : prog Z :=
  match left_ with
  | O => mret i
  | S left_' => pid ← fork; if 0 <? pid then mret i else stress_fork left_' (i + 1)
  end.

Fixpoint repeat_call (n : nat) (e : call) : prog unit :=
  match n with O => mret () | S n' => _ ← sys e; repeat_call n' e end.

Definition stressfs_main : prog unit :=
  printf 1 (ln "stressfs starting") [] ;;
  let data := replicate 512 97 in
  i ← stress_fork 4 0;
  printf 1 (ln "write %d") [A_int i] ;;
  let path := str "stressfs" ++ [u8 (48 + i)] in
  fd ← open path (Z.lor O_CREATE O_RDWR);
  repeat_call 20 (C_write fd data) ;;
  _ ← close fd;
  printf 1 (ln "read") [] ;;
  fd ← open path O_RDONLY;
  repeat_call 20 (C_read fd 512) ;;
  _ ← close fd;
  _ ← wait;
  exit.

(** ** grep.c and wc.c: the calls *)

(** One pass over the lines in the buffer: the lines that match are written. *)
Fixpoint put_lines (fuel : nat) (pattern p : list Z) : prog (list Z) :=
  match fuel with
  | O => mret p
  | S fuel' =>
      match strchr p 10 with
      | None => mret p
      | Some q =>
          let line := take (length p - length q) p in
          (if match_ pattern line then _ ← write 1 (line ++ [10]); mret () else mret ()) ;;
          put_lines fuel' pattern (next q)
      end
  end.

Fixpoint grep_fd (fuel : nat) (pattern buf : list Z) (fd : Z) : prog unit :=
  match fuel with
  | O => Endless
  | S fuel' =>
      '(n, bs) ← read fd (1024 - Z.of_nat (length buf) - 1);
      if n <=? 0 then mret () else
      let buf := buf ++ bs in
      p ← put_lines (S (length buf)) pattern buf;
      let buf := if (length p =? length buf)%nat then [] else p in
      grep_fd fuel' pattern buf fd
  end.

Definition grep_main (fuel : nat) (argv : list (list Z)) : prog unit :=
  if (length argv <=? 1)%nat then printf 2 (ln "usage: grep pattern [file ...]") [] ;; exit else
  let pattern := default [] (argv !! 1%nat) in
  if (length argv <=? 2)%nat then grep_fd fuel pattern [] 0 ;; exit else
  for_args (drop 2 argv) (fun a =>
    fd ← open a 0;
    if fd <? 0 then printf 1 (ln "grep: cannot open %s") [A_str a] ;; exit else
    grep_fd fuel pattern [] fd ;;
    _ ← close fd;
    mret ()) ;;
  exit.

Fixpoint wc_fd (fuel : nat) (st : wc_state) (fd : Z) : prog (Z * wc_state) :=
  match fuel with
  | O => Endless
  | S fuel' =>
      '(n, bs) ← read fd 512;
      if 0 <? n then wc_fd fuel' (fold_left wc_byte bs st) fd else mret (n, st)
  end.

Definition wc_print (fuel : nat) (fd : Z) (name : list Z) : prog unit :=
  '(n, st) ← wc_fd fuel (mk_wc 0 0 0 false) fd;
  if n <? 0 then printf 1 (ln "wc: read error") [] ;; exit else
  printf 1 (ln "%d %d %d %s") [A_int (wc_l st); A_int (wc_w st); A_int (wc_c st); A_str name].

Definition wc_main (fuel : nat) (argv : list (list Z)) : prog unit :=
  if (length argv <=? 1)%nat then wc_print fuel 0 [] ;; exit else
  for_args (tail argv) (fun a =>
    fd ← open a 0;
    if fd <? 0 then printf 1 (ln "wc: cannot open %s") [A_str a] ;; exit else
    wc_print fuel fd a ;;
    _ ← close fd;
    mret ()) ;;
  exit.

(** * What they do *)

(** The chunks a descriptor still has to deliver after the reads of a history, when it
    had [s] at first. *)
Fixpoint left_of (fd : Z) (s : list (list Z)) (h : list (call * reply)) : list (list Z) :=
  match h with
  | [] => s
  | (C_read fd' n, _) :: h' =>
      if fd' =? fd then snd (read_fd (Z.to_nat n) (left_of fd s h')) else left_of fd s h'
  | _ :: h' => left_of fd s h'
  end.

Definition delivers (kern : list nat -> list (call * reply) -> call -> reply) (who : list nat) (fd : Z) (s : list (list Z)) : Prop :=
  forall h n, kern who h (C_read fd n) =
    let bs := fst (read_fd (Z.to_nat n) (left_of fd s h)) in mk_reply (Z.of_nat (length bs)) bs (0, 0) no_stat.

(** A write to an open descriptor is never refused. *)
Definition writable (kern : list nat -> list (call * reply) -> call -> reply) : Prop :=
  forall who h fd bs, 0 <= r_val (kern who h (C_write fd bs)).

Definition fd_open (t : fdtab) (fd : Z) : Prop := is_Some (fd_get t fd).

Section Streams.
Context (kern : list nat -> list (call * reply) -> call -> reply) (who : list nat) (fd : Z) (s : list (list Z)).
Context (Hd : delivers kern who fd s) (Hw : writable kern).

(** A process that has read some of the stream. *)
Definition at_stream (p : process) (rest : list (list Z)) : Prop :=
  u_name p = who /\ fd_open (u_fds p) fd /\ fd_open (u_fds p) 1 /\ left_of fd s (u_hist p) = rest.

Lemma read_fd_room room cs : (length (fst (read_fd room cs)) <= room)%nat.
Proof.
  destruct cs as [|c cs]; simpl; [lia|]. destruct (Nat.leb_spec (length c) room); simpl; [done|]. rewrite length_take. lia.
Qed.

Lemma see_stream {A} n (f : Z * list Z -> prog A) p rest : at_stream p rest ->
  exists q, alike p q /\ at_stream q (snd (read_fd (Z.to_nat n) rest)) /\
    see kern (read fd n ≫= f) p =
    see kern (f (Z.of_nat (length (fst (read_fd (Z.to_nat n) rest))), fst (read_fd (Z.to_nat n) rest))) q.
Proof.
  intros (Hn & Hfd & H1 & Hr). change (read fd n ≫= f) with (Call (C_read fd n) (fun r => f (r_val r, r_bytes r))).
  rewrite see_plain by done. cbn [handle visible_item app]. rewrite Hn, Hd, Hr. cbv zeta. cbn [r_val r_bytes].
  rewrite (proj2 (Z.ltb_ge _ _)) by lia. rewrite bool_decide_true by done. cbn [orb negb fst snd].
  rewrite take_ge by apply read_fd_room. eexists. split; [|split; [|reflexivity]]; [done|].
  split; [done|]. split; [done|]. split; [done|]. cbn. by rewrite Z.eqb_refl, Hr.
Qed.

Lemma see_write {A} bs (f : Z -> prog A) p rest : at_stream p rest ->
  exists q, alike p q /\ at_stream q rest /\ see kern (write 1 bs ≫= f) p = V_write 1 bs :: see kern (f (Z.of_nat (length bs))) q.
Proof.
  intros (Hn & Hfd & H1 & Hr). change (write 1 bs ≫= f) with (Call (C_write 1 bs) (fun r => f (r_val r))).
  rewrite see_plain by done. cbn [handle visible_item app]. rewrite (proj2 (Z.ltb_ge _ _)) by apply Hw.
  rewrite bool_decide_true by done. cbn [orb negb fst snd]. eexists. split; [|split; [|reflexivity]]; done.
Qed.

Lemma alike_trans p q r : alike p q -> alike q r -> alike p r.
Proof. unfold alike. intuition congruence. Qed.

(** A read that returns something shortens what is left. *)
Lemma read_fd_shorter room cs : Forall (fun c => c <> []) cs -> (0 < room)%nat ->
  let '(bs, cs') := read_fd room cs in
  concat cs = bs ++ concat cs' /\ Forall (fun c => c <> []) cs' /\ (bs = [] -> cs = []).
Proof.
  intros Hne Hroom. destruct Hne as [|c cs Hc Hcs]; [done|]. cbn [read_fd]. destruct (Nat.leb_spec (length c) room) as [Hl|Hl].
  - split; [done|]. split; [done|]. by intros ->.
  - split; [cbn [concat]; by rewrite app_assoc, take_drop|]. split.
    + constructor; [|done]. intros E. apply (f_equal length) in E. rewrite length_drop in E. simpl in E. lia.
    + intros E. apply (f_equal length) in E. rewrite length_take in E. simpl in E. lia.
Qed.

Lemma see_cat {A} fuel (f : unit -> prog A) p rest : at_stream p rest -> Forall (fun c => c <> []) rest ->
  (length (concat rest) < fuel)%nat ->
  exists q out, alike p q /\ at_stream q [] /\ concat out = concat rest /\
    see kern (cat fuel fd ≫= f) p = map (V_write 1) out ++ see kern (f ()) q.
Proof.
  revert p rest. induction fuel as [|fuel IH]; intros p rest Hp Hne Hf; [lia|]. cbn [cat]. rewrite see_assoc.
  match goal with |- context [read fd 512 ≫= ?k] => destruct (see_stream 512 k p rest Hp) as (q & Hq & Hat & E) end. rewrite E. clear E.
  pose proof (read_fd_shorter 512 rest Hne ltac:(lia)) as H. change (Z.to_nat 512) with 512%nat in *.
  destruct (read_fd 512 rest) as [bs rest'] eqn:Er. destruct H as (Hc & Hne' & Hnil). cbn [fst snd] in *.
  destruct bs as [|b bs].
  - rewrite Hnil in * by done. injection Er as <-. exists q, []. done.
  - rewrite (proj2 (Z.ltb_lt 0 _)) by (simpl; lia). rewrite see_assoc.
    match goal with |- context [write 1 ?w ≫= ?k] => destruct (see_write w k q rest' Hat) as (q1 & Hq1 & Hat1 & E) end. rewrite E.
    rewrite Z.eqb_refl. cbn [negb]. destruct (IH q1 rest' Hat1 Hne') as (q2 & out & Hq2 & Hat2 & Ho & E2).
    { apply (f_equal length) in Hc. rewrite length_app in Hc. simpl in Hc. lia. }
    exists q2, ((b :: bs) :: out). split; [by eapply alike_trans, alike_trans|]. split; [done|]. rewrite E2. split; [|done].
    cbn [concat]. by rewrite Ho, <- Hc.
Qed.

Lemma see_put_lines {A} fuel pattern b (f : list Z -> prog A) p rest : at_stream p rest ->
  exists q out, alike p q /\ at_stream q rest /\ concat out = fst (grep_lines fuel pattern b) /\
    see kern (put_lines fuel pattern b ≫= f) p = map (V_write 1) out ++ see kern (f (snd (grep_lines fuel pattern b))) q.
Proof.
  revert b p. induction fuel as [|fuel IH]; intros b p Hp; [by exists p, []|]. cbn [put_lines grep_lines].
  destruct (strchr b 10) as [q|]; [|by exists p, []]. rewrite see_assoc. set (line := take _ b).
  destruct (match_ pattern line).
  - rewrite see_assoc. match goal with |- context [write 1 ?w ≫= ?k] => destruct (see_write w k p rest Hp) as (q1 & Hq1 & Hat1 & E) end. rewrite E.
    destruct (IH (next q) q1 Hat1) as (q2 & out & Hq2 & Hat2 & Ho & E2). change (mret () ≫= ?g) with (g ()). cbv beta. rewrite E2.
    destruct (grep_lines fuel pattern (next q)) as [o b']. exists q2, ((line ++ [10]) :: out). split; [by eapply alike_trans|]. split; [done|].
    cbn [concat fst] in *. by rewrite Ho.
  - change (mret () ≫= ?g) with (g ()). cbv beta. destruct (IH (next q) p Hp) as (q2 & out & Hq2 & Hat2 & Ho & E2). rewrite E2.
    destruct (grep_lines fuel pattern (next q)) as [o b']. by exists q2, out.
Qed.

Lemma length_strchr b c q : strchr b c = Some q -> (length (next q) <= length b)%nat.
Proof.
  induction b as [|x b IH]; [done|]. cbn [strchr]. destruct (x =? 0); [done|]. destruct (x =? c).
  - intros [= <-]. simpl. lia.
  - intros H. specialize (IH H). simpl. lia.
Qed.

Lemma length_grep_lines fuel pattern b : (length (snd (grep_lines fuel pattern b)) <= length b)%nat.
Proof.
  revert b. induction fuel as [|fuel IH]; intros b; [done|]. cbn [grep_lines]. destruct (strchr b 10) as [q|] eqn:E; [|done].
  specialize (IH (next q)). apply length_strchr in E. destruct (grep_lines fuel pattern (next q)). simpl in *. lia.
Qed.

(** The buffer always has room for another byte. *)
Lemma see_grep {A} fuel pattern b (f : unit -> prog A) p rest : at_stream p rest -> (length b < 1023)%nat ->
  (length (concat rest) < fuel)%nat -> Forall (fun c => c <> []) rest ->
  exists q out, alike p q /\ concat out = grep_loop fuel pattern b rest /\
    see kern (grep_fd fuel pattern b fd ≫= f) p = map (V_write 1) out ++ see kern (f ()) q.
Proof.
  revert b p rest. induction fuel as [|fuel IH]; intros b p rest Hp Hb Hf Hne; [lia|]. cbn [grep_fd grep_loop]. rewrite see_assoc.
  match goal with |- context [read fd ?n ≫= ?k] => destruct (see_stream n k p rest Hp) as (q & Hq & Hat & E) end. rewrite E. clear E.
  replace (Z.to_nat (1024 - Z.of_nat (length b) - 1)) with (1024 - length b - 1)%nat in * by lia.
  pose proof (read_fd_shorter (1024 - length b - 1) rest Hne ltac:(lia)) as H. pose proof (read_fd_room (1024 - length b - 1) rest) as Hroom.
  destruct (read_fd (1024 - length b - 1) rest) as [bs rest'] eqn:Er. destruct H as (Hc & Hne' & Hnil). cbn [fst snd] in *.
  destruct bs as [|c bs]; [by exists q, []|]. remember (c :: bs) as cs eqn:Ecs.
  assert (Hl : (0 < length cs)%nat) by (subst cs; simpl; lia).
  rewrite (proj2 (Z.leb_gt _ _)) by lia. rewrite (proj2 (Nat.eqb_neq _ _)) by lia. cbv beta iota zeta. rewrite see_assoc.
  match goal with |- context [put_lines ?n ?pt ?b ≫= ?k] => destruct (see_put_lines n pt b k q rest' Hat) as (q1 & out & Hq1 & Hat1 & Ho & E);
    pose proof (length_grep_lines n pt b) as Hlp end. rewrite E. destruct (grep_lines _ pattern (b ++ cs)) as [o b'] eqn:Eg. cbn [fst snd] in *.
  rewrite length_app in Hlp. set (b1 := if (length b' =? _)%nat then [] else b').
  destruct (IH b1 q1 rest' Hat1) as (q2 & out2 & Hq2 & Ho2 & E2); [| |done|].
  { unfold b1. rewrite length_app. destruct (Nat.eqb_spec (length b') (length b + length cs)); simpl; lia. }
  { apply (f_equal length) in Hc. rewrite length_app in Hc. lia. }
  exists q2, (out ++ out2). split; [by eapply alike_trans, alike_trans|]. rewrite E2, map_app, concat_app, Ho, Ho2, <- app_assoc. done.
Qed.
End Streams.

Lemma written_app fd l l' : written fd (l ++ l') = written fd l ++ written fd l'.
Proof. apply flat_map_app. Qed.

Lemma written_map fd out : written fd (map (V_write fd) out) = concat out.
Proof. unfold written. induction out as [|b out IH]; [done|]. cbn [map flat_map written_of concat]. by rewrite Z.eqb_refl, IH. Qed.

(** Cat without arguments copies: however the bytes of standard input arrive, it
    writes exactly those bytes to standard output, in order, and exits at their end. *)
Theorem cat_copies kern argv0 fuel p s :
  delivers kern (u_name p) 0 s -> writable kern -> u_hist p = [] -> fd_open (u_fds p) 0 -> fd_open (u_fds p) 1 ->
  Forall (fun c => c <> []) s -> (length (concat s) < fuel)%nat ->
  exists out, see kern (cat_main fuel [argv0]) p = map (V_write 1) out ++ [V_exit] /\ concat out = concat s.
Proof.
  intros Hd Hw Hh H0 H1 Hne Hf. destruct (see_cat kern (u_name p) 0 s Hd Hw fuel (fun _ => @exit unit) p s) as (q & out & _ & _ & Ho & E).
  - split; [done|]. split; [done|]. split; [done|]. by rewrite Hh.
  - done.
  - done.
  - exists out. split; [exact E|done].
Qed.


(** ** init *)
Section Init.
Context (kern : list nat -> list (call * reply) -> call -> reply).

Lemma execs_writes fd bs l : execs (map (fun c => V_write fd [c]) bs ++ l) = execs l.
Proof. induction bs as [|c bs IH]; [done|]. exact IH. Qed.

Lemma execs_wait l : execs (V_wait :: l) = execs l.
Proof. done. Qed.

Lemma execs_fork k l : execs (V_fork k :: l) = execs k ++ execs l.
Proof. done. Qed.

Lemma execs_printf {A} fd fmt args (f : unit -> prog A) p :
  exists q, alike p q /\ execs (see kern (printf fd fmt args ≫= f) p) = execs (see kern (f ()) q).
Proof.
  destruct (see_puts kern fd (format fmt args) f p) as (q & (S1 & S2 & S3 & S4 & _) & E). exists q. split; [done|].
  unfold printf. by rewrite E, execs_writes.
Qed.

Lemma execs_last_words {A B} fd fmt args (f : A -> prog B) p : execs (see kern ((printf fd fmt args ;; exit) ≫= f) p) = [].
Proof. rewrite see_assoc. destruct (execs_printf fd fmt args (fun _ => exit ≫= f) p) as (q & _ & E). by rewrite E. Qed.

Lemma execs_wait_for {A} fuel pid (f : unit -> prog A) p :
  execs (see kern (wait_for fuel pid ≫= f) p) = [] \/
  exists q, u_name q = u_name p /\ u_fds q = u_fds p /\ execs (see kern (wait_for fuel pid ≫= f) p) = execs (see kern (f ()) q).
Proof.
  revert p. induction fuel as [|fuel IH]; intros p; [by left|]. cbn [wait_for]. rewrite see_assoc.
  match goal with |- context [wait ≫= ?k] => destruct (see_wait kern k p) as (v & h & E & _) end. rewrite E.
  destruct ((0 <=? v) && negb (v =? pid)); [|right; eexists; split; [|split; [|reflexivity]]; done].
  match goal with |- context [see kern (_ ≫= f) ?q] => set (q0 := q) end. rewrite see_assoc.
  destruct (execs_printf 1 (ln "zombie!") [] (fun _ => wait_for fuel pid ≫= f) q0) as (q & (S1 & _ & _ & S4) & E1).
  rewrite execs_wait, E1. destruct (IH q) as [H|(q' & Hn & Hf & H)]; [by left|right]. exists q'.
  rewrite Hn, Hf. split; [by rewrite <- S1|]. split; [by rewrite <- S4|done].
Qed.

Definition sh_with (t : fdtab) (x : list Z * list (list Z) * fdtab) : Prop := x = (str "sh", [str "sh"], t).

Lemma execs_init_loop turns fuel p t : u_fds p = t -> Forall (sh_with t) (execs (see kern (init_loop turns fuel) p)).
Proof.
  revert p. induction turns as [|turns IH]; intros p Ht; [constructor|]. cbn [init_loop].
  match goal with |- context [see kern (printf 1 ?m [] ≫= ?k) p] => destruct (execs_printf 1 m [] k p) as (q & (_ & _ & _ & S4) & E) end. rewrite E.
  match goal with |- context [fork ≫= ?k] => destruct (see_fork kern k q) as [(q' & E1 & _)|(pid & h & Hp & _ & E1)] end; rewrite E1.
  - change (-1 <? 0) with true. cbv iota. match goal with |- context [see kern ?m q'] => rewrite <- (see_ret kern m q') end. by rewrite execs_last_words.
  - rewrite execs_fork. apply Forall_app. rewrite (proj2 (Z.ltb_ge pid 0)), (proj2 (Z.eqb_neq pid 0)) by lia. split.
    + change (0 <? 0) with false. change (0 =? 0) with true. cbv iota.
      match goal with |- context [exec ?a ?b ≫= ?k] => destruct (see_exec kern a b k (child q)) as [(q' & E2 & _)|E2] end; rewrite E2.
      * match goal with |- context [see kern ?m q'] => rewrite <- (see_ret kern m q') end. by rewrite execs_last_words.
      * constructor; [|constructor]. unfold sh_with. cbn. by rewrite <- S4, Ht.
    + match goal with |- context [see kern (wait_for fuel pid ≫= ?k) ?x] => destruct (execs_wait_for fuel pid k x) as [H|(q' & _ & Hf & H)] end; rewrite H.
      * constructor.
      * apply IH. rewrite Hf. cbn [u_fds]. by rewrite <- S4.
Qed.

(** The table of the shell: the console three times. *)
Definition console : option obj := Some (O_file (str "console") O_RDWR).
Definition sh_fds : fdtab := [console; console; console] ++ replicate 13 None.

(** C34: whatever else the kernel refuses, once init has the console open, at its first
    try or after making the device, every shell it starts has the console, and only the
    console, as its standard input, output and error output. *)
Theorem init_shells turns fuel p :
  u_fds p = replicate (Z.to_nat NOFILE) None ->
  0 <= r_val (kern (u_name p) (u_hist p) (C_open (str "console") O_RDWR)) \/
  (forall h, (1 < length h)%nat -> 0 <= r_val (kern (u_name p) h (C_open (str "console") O_RDWR))) ->
  Forall (sh_with sh_fds) (execs (see kern (init_main turns fuel) p)).
Proof.
  intros Ht Hopen. unfold init_main.
  assert (Hgo : forall q, u_fds q = [console] ++ replicate 15 None ->
    Forall (sh_with sh_fds) (execs (see kern (_ ← dup 0; _ ← dup 0; init_loop turns fuel) q))).
  { intros q Hq. rewrite see_dup, Hq. change (fd_dup 0 ([console] ++ replicate 15 None)) with (1, [console; console] ++ replicate 14 None).
    cbv beta iota. rewrite see_dup. cbn [u_fds log_call with_fds].
    change (fd_dup 0 ([console; console] ++ replicate 14 None)) with (2, sh_fds). cbv beta iota. by apply execs_init_loop. }
  assert (Hfd0 : find_fd (u_fds p) 0 = Some 0%nat) by (by rewrite Ht).
  assert (Hone : <[0%nat := console]> (u_fds p) = [console] ++ replicate 15 None) by (by rewrite Ht).
  match goal with |- context [open ?w ?m ≫= ?k] => destruct (see_open kern w m k p) as [(q & E & Hr & Hq)|(fd & Hfd & _ & E)] end; rewrite E; clear E.
  - assert (Hopen2 : forall h, (1 < length h)%nat -> 0 <= r_val (kern (u_name p) h (C_open (str "console") O_RDWR))).
    { destruct Hopen as [H|H]; [|done]. destruct Hr as [Hr|Hr]; [lia|congruence]. }
    change (-1 <? 0) with true. cbn [pwhen]. rewrite see_assoc. match goal with |- context [sys ?e ≫= ?k] => change (sys e ≫= k) with (Call e (fun r => k (r_val r))) end.
    rewrite see_plain by done. cbn [handle visible_item app fst snd]. rewrite see_assoc.
    match goal with |- context [open ?w ?m ≫= ?k] => match goal with |- context [see kern (open w m ≫= k) ?x] =>
      destruct (see_open kern w m k x) as [(q1 & _ & [Hr1|Hr1] & _)|(fd & Hfd & _ & E)] end end.
    + specialize (Hopen2 (u_hist (log_call (C_mknod (str "console") 1 1) (kern (u_name q) (u_hist q) (C_mknod (str "console") 1 1)) q))).
      subst q. cbn [u_hist u_name log_call length] in *. specialize (Hopen2 ltac:(lia)). lia.
    + subst q. cbn [u_fds log_call] in Hr1. congruence.
    + rewrite E. subst q. cbn [u_fds log_call] in Hfd. rewrite Hfd0 in Hfd. injection Hfd as <-. apply Hgo. exact Hone.
  - rewrite Hfd0 in Hfd. injection Hfd as <-. change (Z.of_nat 0 <? 0) with false. cbn [pwhen]. apply Hgo. exact Hone.
Qed.
End Init.

(** Such a shell has what main of sh.c needs: three open descriptors, two free ones. *)
Lemma sh_fds_ready : (forall i, (i < 3)%nat -> exists o, sh_fds !! i = Some (Some o)) /\ spare sh_fds.
Proof. split; [intros [|[|[|i]]] Hi; [by eexists..|lia]|by exists 3%nat, 4%nat]. Qed.

(** ** Witnesses *)
Definition demo_stream : list (list Z) := [str "one tw"; ln "o"; ln "three"].
Definition stream_kern (who : list nat) (h : list (call * reply)) (e : call) : reply :=
  match e with
  | C_read _ n => let bs := fst (read_fd (Z.to_nat n) (left_of 0 demo_stream h)) in mk_reply (Z.of_nat (length bs)) bs (0, 0) no_stat
  | C_fork => val 7
  | _ => val 0
  end.
Definition filter_process : process := mk_process [] [] 0 0 demo_fds.

Lemma cat_copies_witness :
  exists out, see stream_kern (cat_main 20 [str "cat"]) filter_process = map (V_write 1) out ++ [V_exit] /\
    concat out = concat demo_stream.
Proof.
  apply (cat_copies stream_kern (str "cat") 20 filter_process demo_stream); try done; try (by eexists).
  - by repeat constructor.
  - vm_compute. lia.
Defined.


Lemma init_shells_witness :
  let p := mk_process [] [] 0 0 (replicate (Z.to_nat NOFILE) None) in
  Forall (sh_with sh_fds) (execs (see stream_kern (init_main 2 3) p)) /\ length (execs (see stream_kern (init_main 1 0) p)) = 1%nat.
Proof.
  intros p. split; [|vm_compute; reflexivity]. apply (init_shells stream_kern 2 3 p); [reflexivity|]. left. vm_compute. discriminate.
Defined.
