(* ===== verification/UserTests.v ===== *)
(** usertests.c: the tests of the system calls, as programs of system calls.

    The array buf is passed to the tests that use it and handed back; a test that ends
    the process does so with exit.  A loop whose length the code does not bound takes
    fuel.  The tests that are not sequences of system calls (mem, which is about malloc,
    sbrktest, which is about memory, validatetest and uio, which are assembly) are
    parameters of main. *)

From S2P Require Import Prelude Layout CString Printf User.

(** ** Calls and loops *)
Definition u_mkdir (path : list Z) : prog Z := sys (C_mkdir path).
Definition u_unlink (path : list Z) : prog Z := sys (C_unlink path).
Definition u_link (old new : list Z) : prog Z := sys (C_link old new).
Definition u_kill (pid : Z) : prog Z := sys (C_kill pid).
Definition u_sleep (n : Z) : prog Z := sys (C_sleep n).
Definition u_sbrk (n : Z) : prog Z := sys (C_sbrk n).

Definition stdout : Z := 1.
Definition say (s : string) : prog unit := printf stdout (ln s) [].

(** [if(bad){ printf(stdout, fmt, args); exit(); }] *)
Definition fail_if (bad : bool) (fmt : list Z) (args : list parg) : prog unit :=
  if bad then printf stdout fmt args ;; exit else mret ().

(** [n] turns of [for(i = ...; ; i++)], with the variables of the body as [s]. *)
Fixpoint turns {S} (n : nat) (i : Z) (body : Z -> S -> prog S) (s : S) : prog S :=
  match n with
  | O => mret s
  | S n' => s' ← body i s; turns n' (i + 1) body s'
  end.

(** The same without variables. *)
Definition times (n : nat) (body : Z -> prog unit) : prog unit := turns n 0 (fun i _ => body i) ().

(** [read(fd, buf, n)] *)
Definition read_into (buf : list Z) (fd n : Z) : prog (Z * list Z) :=
  '(r, bs) ← read fd n; mret (r, bs ++ drop (length bs) buf).

(** [memset(buf, c, n)] *)
Definition set_bytes (buf : list Z) (c : Z) (n : nat) : list Z := replicate n (u8 c) ++ drop n buf.

(** The value of a char. *)
Definition s8 (z : Z) : Z := if u8 z <? 128 then u8 z else u8 z - 256.
Definition byte_at (buf : list Z) (i : nat) : Z := default 0 (buf !! i).

(** ** Directories and exit *)
Definition iputtest : prog unit :=
  say "iput test" ;;
  r ← u_mkdir (str "iputdir");
  fail_if (r <? 0) (ln "mkdir failed") [] ;;
  r ← chdir (str "iputdir");
  fail_if (r <? 0) (ln "chdir iputdir failed") [] ;;
  r ← u_unlink (str "../iputdir");
  fail_if (r <? 0) (ln "unlink ../iputdir failed") [] ;;
  r ← chdir (str "/");
  fail_if (r <? 0) (ln "chdir / failed") [] ;;
  say "iput test ok".

Definition exitiputtest : prog unit :=
  say "exitiput test" ;;
  pid ← fork;
  fail_if (pid <? 0) (ln "fork failed") [] ;;
  if pid =? 0 then
    r ← u_mkdir (str "iputdir");
    fail_if (r <? 0) (ln "mkdir failed") [] ;;
    r ← chdir (str "iputdir");
    fail_if (r <? 0) (ln "child chdir failed") [] ;;
    r ← u_unlink (str "../iputdir");
    fail_if (r <? 0) (ln "unlink ../iputdir failed") [] ;;
    exit
  else
  _ ← wait;
  say "exitiput test ok".

Definition openiputtest : prog unit :=
  say "openiput test" ;;
  r ← u_mkdir (str "oidir");
  fail_if (r <? 0) (ln "mkdir oidir failed") [] ;;
  pid ← fork;
  fail_if (pid <? 0) (ln "fork failed") [] ;;
  if pid =? 0 then
    fd ← open (str "oidir") O_RDWR;
    fail_if (0 <=? fd) (ln "open directory for write succeeded") [] ;;
    exit
  else
  _ ← u_sleep 1;
  r ← u_unlink (str "oidir");
  fail_if (negb (r =? 0)) (ln "unlink failed") [] ;;
  _ ← wait;
  say "openiput test ok".

(** ** Simple files *)
Definition opentest : prog unit :=
  say "open test" ;;
  fd ← open (str "echo") 0;
  fail_if (fd <? 0) (ln "open echo failed!") [] ;;
  _ ← close fd;
  fd ← open (str "doesnotexist") 0;
  fail_if (0 <=? fd) (ln "open doesnotexist succeeded!") [] ;;
  say "open test ok".

Definition writetest (buf : list Z) : prog (list Z) :=
  say "small file test" ;;
  fd ← open (str "small") (Z.lor O_CREATE O_RDWR);
  (if 0 <=? fd then say "creat small succeeded; ok" else say "error: creat small failed!" ;; exit) ;;
  times 100 (fun i =>
    r ← write fd (str "aaaaaaaaaa");
    fail_if (negb (r =? 10)) (ln "error: write aa %d new file failed") [A_int i] ;;
    r ← write fd (str "bbbbbbbbbb");
    fail_if (negb (r =? 10)) (ln "error: write bb %d new file failed") [A_int i]) ;;
  say "writes ok" ;;
  _ ← close fd;
  fd ← open (str "small") O_RDONLY;
  (if 0 <=? fd then say "open small succeeded ok" else say "error: open small failed!" ;; exit) ;;
  '(i, buf) ← read_into buf fd 2000;
  (if i =? 2000 then say "read succeeded ok" else say "read failed" ;; exit) ;;
  _ ← close fd;
  r ← u_unlink (str "small");
  fail_if (r <? 0) (ln "unlink small failed") [] ;;
  say "small file test ok" ;;
  mret buf.

(** The int at the start of buf. *)
Definition first_int (buf : list Z) : Z := s32 (le_val (take 4 buf)).

(** The loop that reads the file back, after [n] blocks. *)
Fixpoint read_blocks (fuel : nat) (fd n : Z) (buf : list Z) : prog (list Z) :=
  match fuel with
  | O => Endless
  | S fuel' =>
      '(i, buf) ← read_into buf fd 512;
      if i =? 0 then
        fail_if (n =? MAXFILE - 1) (str "read only %d blocks from big") [A_int n] ;;
        mret buf
      else
      fail_if (negb (i =? 512)) (ln "read failed %d") [A_int i] ;;
      fail_if (negb (first_int buf =? n)) (ln "read content of block %d is %d") [A_int n; A_int (first_int buf)] ;;
      read_blocks fuel' fd (n + 1) buf
  end.

Definition writetest1 (fuel : nat) (buf : list Z) : prog (list Z) :=
  say "big files test" ;;
  fd ← open (str "big") (Z.lor O_CREATE O_RDWR);
  fail_if (fd <? 0) (ln "error: creat big failed!") [] ;;
  buf ← turns (Z.to_nat MAXFILE) 0 (fun i buf =>
    let buf := le_bytes 4 i ++ drop 4 buf in
    r ← write fd (take 512 buf);
    fail_if (negb (r =? 512)) (ln "error: write big file failed") [A_int i] ;;
    mret buf) buf;
  _ ← close fd;
  fd ← open (str "big") O_RDONLY;
  fail_if (fd <? 0) (ln "error: open big failed!") [] ;;
  buf ← read_blocks fuel fd 0 buf;
  _ ← close fd;
  r ← u_unlink (str "big");
  fail_if (r <? 0) (ln "unlink big failed") [] ;;
  say "big files ok" ;;
  mret buf.

Definition createtest : prog unit :=
  say "many creates, followed by unlink test" ;;
  times 52 (fun i => fd ← open [97; u8 (48 + i)] (Z.lor O_CREATE O_RDWR); _ ← close fd; mret ()) ;;
  times 52 (fun i => _ ← u_unlink [97; u8 (48 + i)]; mret ()) ;;
  say "many creates, followed by unlink; ok".

Definition dirtest : prog unit :=
  say "mkdir test" ;;
  r ← u_mkdir (str "dir0");
  fail_if (r <? 0) (ln "mkdir failed") [] ;;
  r ← chdir (str "dir0");
  fail_if (r <? 0) (ln "chdir dir0 failed") [] ;;
  r ← chdir (str "..");
  fail_if (r <? 0) (ln "chdir .. failed") [] ;;
  r ← u_unlink (str "dir0");
  fail_if (r <? 0) (ln "unlink dir0 failed") [] ;;
  say "mkdir test ok".

Definition echoargv : list (list Z) := [str "echo"; str "ALL"; str "TESTS"; str "PASSED"].

Definition exectest : prog unit :=
  say "exec test" ;;
  r ← exec (str "echo") echoargv;
  fail_if (r <? 0) (ln "exec echo failed") [].

(** ** Processes and pipes *)

(** The bytes [seq], [seq + 1], ... as chars. *)
Definition seq_bytes (seq : Z) (n : nat) : list Z := (fun i => u8 (seq + Z.of_nat i)) <$> List.seq 0 n.

(** The comparison of what was read with the sequence from [seq] on. *)
Fixpoint in_sequence (bs : list Z) (seq : Z) : bool :=
  match bs with
  | [] => true
  | b :: bs' => (u8 b =? u8 seq) && in_sequence bs' (seq + 1)
  end.

(** The loop of the reader: the total, or nothing when the data is wrong.  The bytes
    before the first wrong one have been counted in seq, which is not used again. *)
Fixpoint pipe1_read (fuel : nat) (fd seq cc total : Z) (buf : list Z) : prog (option Z * list Z) :=
  match fuel with
  | O => Endless
  | S fuel' =>
      '(n, buf) ← read_into buf fd cc;
      if 0 <? n then
        if negb (in_sequence (take (Z.to_nat n) buf) seq) then say "pipe1 oops 2" ;; mret (None, buf) else
        pipe1_read fuel' fd (seq + n) (Z.min (cc * 2) 8192) (total + n) buf
      else mret (Some total, buf)
  end.

Definition pipe1 (fuel : nat) (buf : list Z) : prog (list Z) :=
  '(r, (fd0, fd1)) ← pipe;
  fail_if (negb (r =? 0)) (ln "pipe() failed") [] ;;
  pid ← fork;
  if pid =? 0 then
    _ ← close fd0;
    _ ← turns 5 0 (fun n buf =>
      let buf := seq_bytes (n * 1033) 1033 ++ drop 1033 buf in
      r ← write fd1 (take 1033 buf);
      fail_if (negb (r =? 1033)) (ln "pipe1 oops 1") [] ;;
      mret buf) buf;
    exit
  else if 0 <? pid then
    _ ← close fd1;
    '(total, buf) ← pipe1_read fuel fd0 0 1 0 buf;
    match total with
    | None => mret buf
    | Some total =>
        fail_if (negb (total =? 5 * 1033)) (ln "pipe1 oops 3 total %d") [A_int total] ;;
        _ ← close fd0;
        _ ← wait;
        say "pipe1 ok" ;;
        mret buf
    end
  else say "fork() failed" ;; exit.

Definition preempt (buf : list Z) : prog (list Z) :=
  printf 1 (str "preempt: ") [] ;;
  pid1 ← fork;
  if pid1 =? 0 then Endless else
  pid2 ← fork;
  if pid2 =? 0 then Endless else
  '(_, (fd0, fd1)) ← pipe;
  pid3 ← fork;
  if pid3 =? 0 then
    _ ← close fd0;
    r ← write fd1 (str "x");
    pwhen (negb (r =? 1)) (printf 1 (str "preempt write error") []) ;;
    _ ← close fd1;
    Endless
  else
  _ ← close fd1;
  '(n, buf) ← read_into buf fd0 8192;
  if negb (n =? 1) then printf 1 (str "preempt read error") [] ;; mret buf else
  _ ← close fd0;
  printf 1 (str "kill... ") [] ;;
  _ ← u_kill pid1;
  _ ← u_kill pid2;
  _ ← u_kill pid3;
  printf 1 (str "wait... ") [] ;;
  _ ← wait;
  _ ← wait;
  _ ← wait;
  say "preempt ok" ;;
  mret buf.

Fixpoint exitwait_loop (n : nat) : prog unit :=
  match n with
  | O => say "exitwait ok"
  | S n' =>
      pid ← fork;
      if pid <? 0 then say "fork failed" else
      if negb (pid =? 0) then
        r ← wait;
        if negb (r =? pid) then say "wait wrong pid" else exitwait_loop n'
      else exit
  end.

Definition exitwait : prog unit := exitwait_loop 100.

(** ** Concurrent use of files *)

(** How often [c] occurs in the array. *)
Definition occurs (c : Z) (bs : list Z) : Z := Z.of_nat (length (filter (fun b => b = c) bs)).

Fixpoint shared_write (n : nat) (fd : Z) (buf : list Z) : prog unit :=
  match n with
  | O => mret ()
  | S n' =>
      r ← write fd buf;
      if negb (r =? 10) then say "fstests: write sharedfd failed" else shared_write n' fd buf
  end.

Fixpoint shared_read (fuel : nat) (fd nc np : Z) (buf : list Z) : prog (Z * Z) :=
  match fuel with
  | O => Endless
  | S fuel' =>
      '(n, buf) ← read_into buf fd 10;
      if 0 <? n then shared_read fuel' fd (nc + occurs 99 buf) (np + occurs 112 buf) buf
      else mret (nc, np)
  end.

Definition sharedfd (fuel : nat) : prog unit :=
  say "sharedfd test" ;;
  _ ← u_unlink (str "sharedfd");
  fd ← open (str "sharedfd") (Z.lor O_CREATE O_RDWR);
  if fd <? 0 then printf 1 (str "fstests: cannot open sharedfd for writing") [] else
  pid ← fork;
  let buf := replicate 10 (if pid =? 0 then 99 else 112) in
  shared_write 1000 fd buf ;;
  (if pid =? 0 then exit else _ ← wait; mret ()) ;;
  _ ← close fd;
  fd ← open (str "sharedfd") 0;
  if fd <? 0 then say "fstests: cannot open sharedfd for reading" else
  '(nc, np) ← shared_read fuel fd 0 0 buf;
  _ ← close fd;
  _ ← u_unlink (str "sharedfd");
  if (nc =? 10000) && (np =? 10000) then say "sharedfd ok"
  else printf 1 (ln "sharedfd oops %d %d") [A_int nc; A_int np] ;; exit.

(** The loop that reads a file of one char back: the total. *)
Fixpoint read_same (fuel : nat) (fd c total : Z) (buf : list Z) : prog (Z * list Z) :=
  match fuel with
  | O => Endless
  | S fuel' =>
      '(n, buf) ← read_into buf fd 8192;
      if 0 <? n then
        fail_if (negb (forallb (fun b => s8 b =? c) (take (Z.to_nat n) buf))) (ln "wrong char") [] ;;
        read_same fuel' fd c (total + n) buf
      else mret (total, buf)
  end.

Definition names (i : Z) : list Z := [102; 48 + i].

Definition fourfiles (fuel : nat) (buf : list Z) : prog (list Z) :=
  say "fourfiles test" ;;
  times 4 (fun pi =>
    _ ← u_unlink (names pi);
    pid ← fork;
    fail_if (pid <? 0) (ln "fork failed") [] ;;
    if pid =? 0 then
      fd ← open (names pi) (Z.lor O_CREATE O_RDWR);
      fail_if (fd <? 0) (ln "create failed") [] ;;
      let buf := set_bytes buf (48 + pi) 512 in
      times 12 (fun _ => n ← write fd (take 500 buf); fail_if (negb (n =? 500)) (ln "write failed %d") [A_int n]) ;;
      exit
    else mret ()) ;;
  times 4 (fun _ => _ ← wait; mret ()) ;;
  buf ← turns 2 0 (fun i buf =>
    fd ← open (names i) 0;
    '(total, buf) ← read_same fuel fd (48 + i) 0 buf;
    _ ← close fd;
    fail_if (negb (total =? 12 * 500)) (ln "wrong length %d") [A_int total] ;;
    _ ← u_unlink (names i);
    mret buf) buf;
  say "fourfiles ok" ;;
  mret buf.

Definition cd_name (a b : Z) : list Z := [u8 (112 + a); u8 (48 + b)].

(** What the four processes of createdelete do. *)
Definition cd_child (pi : Z) : prog unit :=
  times 20 (fun i =>
    fd ← open (cd_name pi i) (Z.lor O_CREATE O_RDWR);
    fail_if (fd <? 0) (ln "create failed") [] ;;
    _ ← close fd;
    if (0 <? i) && (i mod 2 =? 0) then
      r ← u_unlink (cd_name pi (i / 2));
      fail_if (r <? 0) (ln "unlink failed") []
    else mret ()) ;;
  exit.

(** The two loops after the processes have ended: the check and the removal. *)
Definition cd_check : prog unit :=
  times 20 (fun i => times 4 (fun pi =>
    fd ← open (cd_name pi i) 0;
    (if ((i =? 0) || (10 <=? i)) && (fd <? 0) then printf 1 (ln "oops createdelete %s didn't exist") [A_str (cd_name pi i)] ;; exit
     else if ((1 <=? i) && (i <? 10)) && (0 <=? fd) then printf 1 (ln "oops createdelete %s did exist") [A_str (cd_name pi i)] ;; exit
     else mret ()) ;;
    if 0 <=? fd then _ ← close fd; mret () else mret ())).

Definition cd_clean : prog unit := times 20 (fun i => times 4 (fun pi => _ ← u_unlink (cd_name i i); mret ())).

Definition createdelete : prog unit :=
  say "createdelete test" ;;
  times 4 (fun pi => pid ← fork; fail_if (pid <? 0) (ln "fork failed") [] ;; if pid =? 0 then cd_child pi else mret ()) ;;
  times 4 (fun _ => _ ← wait; mret ()) ;;
  cd_check ;;
  cd_clean ;;
  say "createdelete ok".

Definition unlinkread (buf : list Z) : prog (list Z) :=
  say "unlinkread test" ;;
  fd ← open (str "unlinkread") (Z.lor O_CREATE O_RDWR);
  fail_if (fd <? 0) (ln "create unlinkread failed") [] ;;
  _ ← write fd (str "hello");
  _ ← close fd;
  fd ← open (str "unlinkread") O_RDWR;
  fail_if (fd <? 0) (ln "open unlinkread failed") [] ;;
  r ← u_unlink (str "unlinkread");
  fail_if (negb (r =? 0)) (ln "unlink unlinkread failed") [] ;;
  fd1 ← open (str "unlinkread") (Z.lor O_CREATE O_RDWR);
  _ ← write fd1 (str "yyy");
  _ ← close fd1;
  '(n, buf) ← read_into buf fd 8192;
  fail_if (negb (n =? 5)) (str "unlinkread read failed") [] ;;
  fail_if (negb (s8 (byte_at buf 0) =? 104)) (ln "unlinkread wrong data") [] ;;
  r ← write fd (take 10 buf);
  fail_if (negb (r =? 10)) (ln "unlinkread write failed") [] ;;
  _ ← close fd;
  _ ← u_unlink (str "unlinkread");
  say "unlinkread ok" ;;
  mret buf.

Definition linktest (buf : list Z) : prog (list Z) :=
  say "linktest" ;;
  _ ← u_unlink (str "lf1");
  _ ← u_unlink (str "lf2");
  fd ← open (str "lf1") (Z.lor O_CREATE O_RDWR);
  fail_if (fd <? 0) (ln "create lf1 failed") [] ;;
  r ← write fd (str "hello");
  fail_if (negb (r =? 5)) (ln "write lf1 failed") [] ;;
  _ ← close fd;
  r ← u_link (str "lf1") (str "lf2");
  fail_if (r <? 0) (ln "link lf1 lf2 failed") [] ;;
  _ ← u_unlink (str "lf1");
  r ← open (str "lf1") 0;
  fail_if (0 <=? r) (ln "unlinked lf1 but it is still there!") [] ;;
  fd ← open (str "lf2") 0;
  fail_if (fd <? 0) (ln "open lf2 failed") [] ;;
  '(n, buf) ← read_into buf fd 8192;
  fail_if (negb (n =? 5)) (ln "read lf2 failed") [] ;;
  _ ← close fd;
  r ← u_link (str "lf2") (str "lf2");
  fail_if (0 <=? r) (ln "link lf2 lf2 succeeded! oops") [] ;;
  _ ← u_unlink (str "lf2");
  r ← u_link (str "lf2") (str "lf1");
  fail_if (0 <=? r) (ln "link non-existant succeeded! oops") [] ;;
  r ← u_link (str ".") (str "lf1");
  fail_if (0 <=? r) (ln "link . lf1 succeeded! oops") [] ;;
  say "linktest ok" ;;
  mret buf.

(** ** Many files *)
Definition cc_name (i : Z) : list Z := [67; u8 (48 + i)].

(** The entries of the directory: [fa] marks the files seen, [n] counts them. *)
Fixpoint concreate_scan (fuel : nat) (fd : Z) (de fa : list Z) (n : Z) : prog Z :=
  match fuel with
  | O => Endless
  | S fuel' =>
      '(r, de) ← read_into de fd 16;
      if r <=? 0 then mret n else
      if (byte_at de 0 =? 0) && (byte_at de 1 =? 0) then concreate_scan fuel' fd de fa n else
      let name := drop 2 de in
      if (byte_at name 0 =? 67) && (byte_at name 2 =? 0) then
        let i := s8 (byte_at name 1) - 48 in
        fail_if ((i <? 0) || (40 <=? i)) (ln "concreate weird file %s") [A_str (cstr 14 name)] ;;
        fail_if (negb (byte_at fa (Z.to_nat i) =? 0)) (ln "concreate duplicate file %s") [A_str (cstr 14 name)] ;;
        concreate_scan fuel' fd de (<[Z.to_nat i := 1]> fa) (n + 1)
      else concreate_scan fuel' fd de fa n
  end.

(** [de] is what the entry on the stack holds at first. *)
Definition concreate (fuel : nat) (de : list Z) : prog unit :=
  say "concreate test" ;;
  times 40 (fun i =>
    let file := cc_name i in
    _ ← u_unlink file;
    pid ← fork;
    (if negb (pid =? 0) && (i mod 3 =? 1) then _ ← u_link (str "C0") file; mret ()
     else if (pid =? 0) && (i mod 5 =? 1) then _ ← u_link (str "C0") file; mret ()
     else
       fd ← open file (Z.lor O_CREATE O_RDWR);
       fail_if (fd <? 0) (ln "concreate create %s failed") [A_str file] ;;
       _ ← close fd;
       mret ()) ;;
    if pid =? 0 then exit else _ ← wait; mret ()) ;;
  fd ← open (str ".") 0;
  n ← concreate_scan fuel fd de (replicate 40 0) 0;
  _ ← close fd;
  fail_if (negb (n =? 40)) (ln "concreate not enough files in directory listing") [] ;;
  times 40 (fun i =>
    let file := cc_name i in
    pid ← fork;
    fail_if (pid <? 0) (ln "fork failed") [] ;;
    (if ((i mod 3 =? 0) && (pid =? 0)) || ((i mod 3 =? 1) && negb (pid =? 0))
     then times 4 (fun _ => fd ← open file 0; _ ← close fd; mret ())
     else times 4 (fun _ => _ ← u_unlink file; mret ())) ;;
    if pid =? 0 then exit else _ ← wait; mret ()) ;;
  say "concreate ok".

Definition linkunlink : prog unit :=
  say "linkunlink test" ;;
  _ ← u_unlink (str "x");
  pid ← fork;
  fail_if (pid <? 0) (ln "fork failed") [] ;;
  _ ← turns 100 0 (fun _ x =>
    let x := u32 (x * 1103515245 + 12345) in
    (if x mod 3 =? 0 then fd ← open (str "x") (Z.lor O_RDWR O_CREATE); _ ← close fd; mret ()
     else if x mod 3 =? 1 then _ ← u_link (str "cat") (str "x"); mret ()
     else _ ← u_unlink (str "x"); mret ()) ;;
    mret x) (if negb (pid =? 0) then 1 else 97);
  (if negb (pid =? 0) then _ ← wait; mret () else exit) ;;
  say "linkunlink ok".

Definition bd_name (i : Z) : list Z := [120; u8 (48 + i / 64); u8 (48 + i mod 64)].

Definition bigdir : prog unit :=
  say "bigdir test" ;;
  _ ← u_unlink (str "bd");
  fd ← open (str "bd") O_CREATE;
  fail_if (fd <? 0) (ln "bigdir create failed") [] ;;
  _ ← close fd;
  times 500 (fun i => r ← u_link (str "bd") (bd_name i); fail_if (negb (r =? 0)) (ln "bigdir link failed") []) ;;
  _ ← u_unlink (str "bd");
  times 500 (fun i => r ← u_unlink (bd_name i); fail_if (negb (r =? 0)) (str "bigdir unlink failed") []) ;;
  say "bigdir ok".

Definition subdir (buf : list Z) : prog (list Z) :=
  say "subdir test" ;;
  _ ← u_unlink (str "ff");
  r ← u_mkdir (str "dd");
  fail_if (negb (r =? 0)) (ln "subdir mkdir dd failed") [] ;;
  fd ← open (str "dd/ff") (Z.lor O_CREATE O_RDWR);
  fail_if (fd <? 0) (ln "create dd/ff failed") [] ;;
  _ ← write fd (str "ff");
  _ ← close fd;
  r ← u_unlink (str "dd");
  fail_if (0 <=? r) (ln "unlink dd (non-empty dir) succeeded!") [] ;;
  r ← u_mkdir (str "/dd/dd");
  fail_if (negb (r =? 0)) (ln "subdir mkdir dd/dd failed") [] ;;
  fd ← open (str "dd/dd/ff") (Z.lor O_CREATE O_RDWR);
  fail_if (fd <? 0) (ln "create dd/dd/ff failed") [] ;;
  _ ← write fd (str "FF");
  _ ← close fd;
  fd ← open (str "dd/dd/../ff") 0;
  fail_if (fd <? 0) (ln "open dd/dd/../ff failed") [] ;;
  '(cc, buf) ← read_into buf fd 8192;
  fail_if (negb (cc =? 2) || negb (s8 (byte_at buf 0) =? 102)) (ln "dd/dd/../ff wrong content") [] ;;
  _ ← close fd;
  r ← u_link (str "dd/dd/ff") (str "dd/dd/ffff");
  fail_if (negb (r =? 0)) (ln "link dd/dd/ff dd/dd/ffff failed") [] ;;
  r ← u_unlink (str "dd/dd/ff");
  fail_if (negb (r =? 0)) (ln "unlink dd/dd/ff failed") [] ;;
  r ← open (str "dd/dd/ff") O_RDONLY;
  fail_if (0 <=? r) (ln "open (unlinked) dd/dd/ff succeeded") [] ;;
  r ← chdir (str "dd");
  fail_if (negb (r =? 0)) (ln "chdir dd failed") [] ;;
  r ← chdir (str "dd/../../dd");
  fail_if (negb (r =? 0)) (ln "chdir dd/../../dd failed") [] ;;
  r ← chdir (str "dd/../../../dd");
  fail_if (negb (r =? 0)) (ln "chdir dd/../../dd failed") [] ;;
  r ← chdir (str "./..");
  fail_if (negb (r =? 0)) (ln "chdir ./.. failed") [] ;;
  fd ← open (str "dd/dd/ffff") 0;
  fail_if (fd <? 0) (ln "open dd/dd/ffff failed") [] ;;
  '(n, buf) ← read_into buf fd 8192;
  fail_if (negb (n =? 2)) (ln "read dd/dd/ffff wrong len") [] ;;
  _ ← close fd;
  r ← open (str "dd/dd/ff") O_RDONLY;
  fail_if (0 <=? r) (ln "open (unlinked) dd/dd/ff succeeded!") [] ;;
  r ← open (str "dd/ff/ff") (Z.lor O_CREATE O_RDWR);
  fail_if (0 <=? r) (ln "create dd/ff/ff succeeded!") [] ;;
  r ← open (str "dd/xx/ff") (Z.lor O_CREATE O_RDWR);
  fail_if (0 <=? r) (ln "create dd/xx/ff succeeded!") [] ;;
  r ← open (str "dd") O_CREATE;
  fail_if (0 <=? r) (ln "create dd succeeded!") [] ;;
  r ← open (str "dd") O_RDWR;
  fail_if (0 <=? r) (ln "open dd rdwr succeeded!") [] ;;
  r ← open (str "dd") O_WRONLY;
  fail_if (0 <=? r) (ln "open dd wronly succeeded!") [] ;;
  r ← u_link (str "dd/ff/ff") (str "dd/dd/xx");
  fail_if (r =? 0) (ln "link dd/ff/ff dd/dd/xx succeeded!") [] ;;
  r ← u_link (str "dd/xx/ff") (str "dd/dd/xx");
  fail_if (r =? 0) (ln "link dd/xx/ff dd/dd/xx succeeded!") [] ;;
  r ← u_link (str "dd/ff") (str "dd/dd/ffff");
  fail_if (r =? 0) (ln "link dd/ff dd/dd/ffff succeeded!") [] ;;
  r ← u_mkdir (str "dd/ff/ff");
  fail_if (r =? 0) (ln "mkdir dd/ff/ff succeeded!") [] ;;
  r ← u_mkdir (str "dd/xx/ff");
  fail_if (r =? 0) (ln "mkdir dd/xx/ff succeeded!") [] ;;
  r ← u_mkdir (str "dd/dd/ffff");
  fail_if (r =? 0) (ln "mkdir dd/dd/ffff succeeded!") [] ;;
  r ← u_unlink (str "dd/xx/ff");
  fail_if (r =? 0) (ln "unlink dd/xx/ff succeeded!") [] ;;
  r ← u_unlink (str "dd/ff/ff");
  fail_if (r =? 0) (ln "unlink dd/ff/ff succeeded!") [] ;;
  r ← chdir (str "dd/ff");
  fail_if (r =? 0) (ln "chdir dd/ff succeeded!") [] ;;
  r ← chdir (str "dd/xx");
  fail_if (r =? 0) (ln "chdir dd/xx succeeded!") [] ;;
  r ← u_unlink (str "dd/dd/ffff");
  fail_if (negb (r =? 0)) (ln "unlink dd/dd/ff failed") [] ;;
  r ← u_unlink (str "dd/ff");
  fail_if (negb (r =? 0)) (ln "unlink dd/ff failed") [] ;;
  r ← u_unlink (str "dd");
  fail_if (r =? 0) (ln "unlink non-empty dd succeeded!") [] ;;
  r ← u_unlink (str "dd/dd");
  fail_if (r <? 0) (ln "unlink dd/dd failed") [] ;;
  r ← u_unlink (str "dd");
  fail_if (r <? 0) (ln "unlink dd failed") [] ;;
  say "subdir ok" ;;
  mret buf.

(** ** Large files *)
Fixpoint bigwrite_loop (fuel : nat) (sz : Z) (buf : list Z) : prog unit :=
  if sz <? 12 * 512 then
    match fuel with
    | O => Endless
    | S fuel' =>
        fd ← open (str "bigwrite") (Z.lor O_CREATE O_RDWR);
        fail_if (fd <? 0) (ln "cannot create bigwrite") [] ;;
        times 2 (fun _ =>
          cc ← write fd (take (Z.to_nat sz) buf);
          fail_if (negb (cc =? sz)) (ln "write(%d) ret %d") [A_int sz; A_int cc]) ;;
        _ ← close fd;
        _ ← u_unlink (str "bigwrite");
        bigwrite_loop fuel' (sz + 471) buf
    end
  else mret ().

(** The loop makes 12 turns. *)
Definition bigwrite (buf : list Z) : prog unit :=
  say "bigwrite test" ;;
  _ ← u_unlink (str "bigwrite");
  bigwrite_loop 12 499 buf ;;
  say "bigwrite ok".

Fixpoint bigfile_read (fuel : nat) (fd i total : Z) (buf : list Z) : prog (Z * list Z) :=
  match fuel with
  | O => Endless
  | S fuel' =>
      '(cc, buf) ← read_into buf fd 300;
      fail_if (cc <? 0) (ln "read bigfile failed") [] ;;
      if cc =? 0 then mret (total, buf) else
      fail_if (negb (cc =? 300)) (ln "short read bigfile") [] ;;
      fail_if (negb (s8 (byte_at buf 0) =? i / 2) || negb (s8 (byte_at buf 299) =? i / 2)) (ln "read bigfile wrong data") [] ;;
      bigfile_read fuel' fd (i + 1) (total + cc) buf
  end.

Definition bigfile (fuel : nat) (buf : list Z) : prog (list Z) :=
  say "bigfile test" ;;
  _ ← u_unlink (str "bigfile");
  fd ← open (str "bigfile") (Z.lor O_CREATE O_RDWR);
  fail_if (fd <? 0) (str "cannot create bigfile") [] ;;
  buf ← turns 20 0 (fun i buf =>
    let buf := set_bytes buf i 600 in
    r ← write fd (take 600 buf);
    fail_if (negb (r =? 600)) (ln "write bigfile failed") [] ;;
    mret buf) buf;
  _ ← close fd;
  fd ← open (str "bigfile") 0;
  fail_if (fd <? 0) (ln "cannot open bigfile") [] ;;
  '(total, buf) ← bigfile_read fuel fd 0 0 buf;
  _ ← close fd;
  fail_if (negb (total =? 20 * 600)) (ln "read bigfile wrong total") [] ;;
  _ ← u_unlink (str "bigfile");
  say "bigfile test ok" ;;
  mret buf.

(** ** Names *)
Definition fourteen : prog unit :=
  say "fourteen test" ;;
  r ← u_mkdir (str "12345678901234");
  fail_if (negb (r =? 0)) (ln "mkdir 12345678901234 failed") [] ;;
  r ← u_mkdir (str "12345678901234/123456789012345");
  fail_if (negb (r =? 0)) (ln "mkdir 12345678901234/123456789012345 failed") [] ;;
  fd ← open (str "123456789012345/123456789012345/123456789012345") O_CREATE;
  fail_if (fd <? 0) (ln "create 123456789012345/123456789012345/123456789012345 failed") [] ;;
  _ ← close fd;
  fd ← open (str "12345678901234/12345678901234/12345678901234") 0;
  fail_if (fd <? 0) (ln "open 12345678901234/12345678901234/12345678901234 failed") [] ;;
  _ ← close fd;
  r ← u_mkdir (str "12345678901234/12345678901234");
  fail_if (r =? 0) (ln "mkdir 12345678901234/12345678901234 succeeded!") [] ;;
  r ← u_mkdir (str "123456789012345/12345678901234");
  fail_if (r =? 0) (ln "mkdir 12345678901234/123456789012345 succeeded!") [] ;;
  say "fourteen ok".

Definition rmdot : prog unit :=
  say "rmdot test" ;;
  r ← u_mkdir (str "dots");
  fail_if (negb (r =? 0)) (ln "mkdir dots failed") [] ;;
  r ← chdir (str "dots");
  fail_if (negb (r =? 0)) (ln "chdir dots failed") [] ;;
  r ← u_unlink (str ".");
  fail_if (r =? 0) (ln "rm . worked!") [] ;;
  r ← u_unlink (str "..");
  fail_if (r =? 0) (ln "rm .. worked!") [] ;;
  r ← chdir (str "/");
  fail_if (negb (r =? 0)) (ln "chdir / failed") [] ;;
  r ← u_unlink (str "dots/.");
  fail_if (r =? 0) (ln "unlink dots/. worked!") [] ;;
  r ← u_unlink (str "dots/..");
  fail_if (r =? 0) (ln "unlink dots/.. worked!") [] ;;
  r ← u_unlink (str "dots");
  fail_if (negb (r =? 0)) (ln "unlink dots failed!") [] ;;
  say "rmdot ok".

Definition dirfile : prog unit :=
  say "dir vs file" ;;
  fd ← open (str "dirfile") O_CREATE;
  fail_if (fd <? 0) (ln "create dirfile failed") [] ;;
  _ ← close fd;
  r ← chdir (str "dirfile");
  fail_if (r =? 0) (ln "chdir dirfile succeeded!") [] ;;
  fd ← open (str "dirfile/xx") 0;
  fail_if (0 <=? fd) (ln "create dirfile/xx succeeded!") [] ;;
  fd ← open (str "dirfile/xx") O_CREATE;
  fail_if (0 <=? fd) (ln "create dirfile/xx succeeded!") [] ;;
  r ← u_mkdir (str "dirfile/xx");
  fail_if (r =? 0) (ln "mkdir dirfile/xx succeeded!") [] ;;
  r ← u_unlink (str "dirfile/xx");
  fail_if (r =? 0) (ln "unlink dirfile/xx succeeded!") [] ;;
  r ← u_link (str "README") (str "dirfile/xx");
  fail_if (r =? 0) (ln "link to dirfile/xx succeeded!") [] ;;
  r ← u_unlink (str "dirfile");
  fail_if (negb (r =? 0)) (ln "unlink dirfile failed!") [] ;;
  fd ← open (str ".") O_RDWR;
  fail_if (0 <=? fd) (ln "open . for writing succeeded!") [] ;;
  fd ← open (str ".") 0;
  r ← write fd (str "x");
  fail_if (0 <? r) (ln "write . succeeded!") [] ;;
  _ ← close fd;
  say "dir vs file OK".

Definition iref : prog unit :=
  say "empty file name" ;;
  times 51 (fun _ =>
    r ← u_mkdir (str "irefd");
    fail_if (negb (r =? 0)) (ln "mkdir irefd failed") [] ;;
    r ← chdir (str "irefd");
    fail_if (negb (r =? 0)) (ln "chdir irefd failed") [] ;;
    _ ← u_mkdir [];
    _ ← u_link (str "README") [];
    fd ← open [] O_CREATE;
    pwhen (0 <=? fd) (_ ← close fd; mret ()) ;;
    fd ← open (str "xx") O_CREATE;
    pwhen (0 <=? fd) (_ ← close fd; mret ()) ;;
    _ ← u_unlink (str "xx");
    mret ()) ;;
  _ ← chdir (str "/");
  say "empty file name OK".

(** ** Processes and memory *)

(** The number of children, counted up from [n]. *)
Fixpoint forktest_fork (left_ : nat) (n : nat) : prog nat :=
  match left_ with
  | O => mret n
  | S left_' =>
      pid ← fork;
      if pid <? 0 then mret n else
      if pid =? 0 then exit else
      forktest_fork left_' (S n)
  end.

Definition forktest : prog unit :=
  say "fork test" ;;
  n ← forktest_fork 1000 0;
  fail_if (n =? 1000)%nat (ln "fork claimed to work 1000 times!") [] ;;
  times n (fun _ => r ← wait; fail_if (r <? 0) (ln "wait stopped early") []) ;;
  r ← wait;
  fail_if (negb (r =? -1)) (ln "wait got too many") [] ;;
  say "fork test OK".

(** [uninit] is the array as the program finds it. *)
Definition bsstest (uninit : list Z) : prog unit :=
  say "bss test" ;;
  fail_if (negb (forallb (fun b => b =? 0) uninit)) (ln "bss test failed") [] ;;
  say "bss test ok".

Definition bigarg : list Z := str "bigargs test: failed" ++ [10] ++ replicate 199 32.

Definition bigargtest : prog unit :=
  _ ← u_unlink (str "bigarg-ok");
  pid ← fork;
  if pid =? 0 then
    say "bigarg test" ;;
    _ ← exec (str "echo") (replicate (Z.to_nat MAXARG - 1) bigarg);
    say "bigarg test ok" ;;
    fd ← open (str "bigarg-ok") O_CREATE;
    _ ← close fd;
    exit
  else
  fail_if (pid <? 0) (ln "bigargtest: fork failed") [] ;;
  _ ← wait;
  fd ← open (str "bigarg-ok") 0;
  fail_if (fd <? 0) (ln "bigarg test failed!") [] ;;
  _ ← close fd;
  _ ← u_unlink (str "bigarg-ok");
  mret ().

Definition ff_name (n : Z) : list Z :=
  [102; u8 (48 + n / 1000); u8 (48 + n mod 1000 / 100); u8 (48 + n mod 100 / 10); u8 (48 + n mod 10)].

(** The blocks written to one file: the total. *)
Fixpoint fill_file (fuel : nat) (fd total : Z) (buf : list Z) : prog Z :=
  match fuel with
  | O => Endless
  | S fuel' =>
      cc ← write fd (take 512 buf);
      if cc <? 512 then mret total else fill_file fuel' fd (total + cc) buf
  end.

(** The files that are made: the number of the last one. *)
Fixpoint fill_disk (files fuel : nat) (nfiles : Z) (buf : list Z) : prog Z :=
  match files with
  | O => Endless
  | S files' =>
      printf 1 (ln "writing %s") [A_str (ff_name nfiles)] ;;
      fd ← open (ff_name nfiles) (Z.lor O_CREATE O_RDWR);
      if fd <? 0 then printf 1 (ln "open %s failed") [A_str (ff_name nfiles)] ;; mret nfiles else
      total ← fill_file fuel fd 0 buf;
      printf 1 (ln "wrote %d bytes") [A_int total] ;;
      _ ← close fd;
      if total =? 0 then mret nfiles else fill_disk files' fuel (nfiles + 1) buf
  end.

Definition fsfull (files fuel : nat) (buf : list Z) : prog unit :=
  say "fsfull test" ;;
  nfiles ← fill_disk files fuel 0 buf;
  times (Z.to_nat (nfiles + 1)) (fun i => _ ← u_unlink (ff_name (nfiles - i)); mret ()) ;;
  say "fsfull test finished".

(** The buffer of the read lies at the end of the memory of the process. *)
Definition argptest : prog unit :=
  fd ← open (str "init") O_RDONLY;
  (if fd <? 0 then printf 2 (ln "open failed") [] ;; exit else mret ()) ;;
  _ ← u_sbrk 0;
  _ ← read fd (-1);
  _ ← close fd;
  say "arg test passed".

(** One step of the generator, from the state randstate: the state is the result. *)
Definition rand (randstate : Z) : Z := u32 (randstate * 1664525 + 1013904223).

Section main.
Variables mem sbrktest validatetest uio : prog unit.

(** [fuel] bounds the reads of a loop; [buf], [uninit] and [de] are the arrays of the
    program and of concreate as it starts. *)
Definition main (fuel : nat) (buf uninit de : list Z) : prog unit :=
  say "usertests starting" ;;
  r ← open (str "usertests.ran") 0;
  fail_if (0 <=? r) (ln "already ran user tests -- rebuild fs.img") [] ;;
  fd ← open (str "usertests.ran") O_CREATE;
  _ ← close fd;
  argptest ;;
  createdelete ;;
  linkunlink ;;
  concreate fuel de ;;
  buf ← fourfiles fuel buf;
  sharedfd fuel ;;
  bigargtest ;;
  bigwrite buf ;;
  bigargtest ;;
  bsstest uninit ;;
  sbrktest ;;
  validatetest ;;
  opentest ;;
  buf ← writetest buf;
  buf ← writetest1 fuel buf;
  createtest ;;
  openiputtest ;;
  exitiputtest ;;
  iputtest ;;
  mem ;;
  buf ← pipe1 fuel buf;
  buf ← preempt buf;
  exitwait ;;
  rmdot ;;
  fourteen ;;
  buf ← bigfile fuel buf;
  buf ← subdir buf;
  buf ← linktest buf;
  buf ← unlinkread buf;
  dirfile ;;
  iref ;;
  forktest ;;
  bigdir ;;
  uio ;;
  exectest ;;
  exit.
End main.
