(* ===== verification/TestSafe.v ===== *)
(** What the tests of usertests.c establish.

    A test is run against any system, given as a function from the state of the system
    and the call to the reply.  The reference file system at the end is such a system: it
    says what the tests expect of files and directories, and they accept it. *)

From S2P Require Import Prelude Layout CString Printf User UserTests.

(** * Running a program against a system *)
Section play.
Context {St : Type} (step : St -> call -> reply * St).

(** The calls made with their replies, and the result unless the process ends.  A fork
    is followed into the process that its reply says: the parent, or the child for 0. *)
Fixpoint play {A} (m : prog A) (s : St) : list (call * reply) * option (A * St) :=
  match m with
  | Done a => ([], Some (a, s))
  | Endless => ([], None)
  | Call e k =>
      let '(r, s') := step s e in
      let ends := match e with C_exit => true | C_exec _ _ => 0 <=? r_val r | _ => false end in
      if ends then ([(e, r)], None) else
      let '(tr, o) := play (k r) s' in ((e, r) :: tr, o)
  end.

Lemma play_bind {A C} (m : prog A) (f : A -> prog C) s :
  play (m ≫= f) s = let '(tr, o) := play m s in
    match o with Some (a, s') => let '(tr', o') := play (f a) s' in (tr ++ tr', o') | None => (tr, None) end.
Proof.
  revert s. induction m as [a|e k IH|]; intros s.
  - cbn. by destruct (play (f a) s).
  - cbn [mbind prog_bind play]. destruct (step s e) as [r s']. cbn [fst snd].
    destruct (match e with C_exit => true | C_exec _ _ => 0 <=? r_val r | _ => false end); [done|].
    change ((fix go (m : prog A) : prog C := match m with Done a => f a | Call e k => Call e (fun r => go (k r)) | Endless => Endless end) (k r)) with (k r ≫= f).
    rewrite IH. destruct (play (k r) s') as [tr [[a s2]|]]; [|done]. by destruct (play (f a) s2).
  - done.
Qed.

(** A run that comes to its end passes through its parts. *)
Lemma play_bind_inv {A C} (m : prog A) (f : A -> prog C) s tr c s' : play (m ≫= f) s = (tr, Some (c, s')) ->
  exists tr1 a s1 tr2, play m s = (tr1, Some (a, s1)) /\ play (f a) s1 = (tr2, Some (c, s')) /\ tr = tr1 ++ tr2.
Proof.
  rewrite play_bind. destruct (play m s) as [tr1 [[a s1]|]]; [|done]. destruct (play (f a) s1) as [tr2 o] eqn:E. intros [= <- ->].
  by exists tr1, a, s1, tr2.
Qed.
End play.

(** What is written to the standard output. *)
Definition said (tr : list (call * reply)) : list Z :=
  concat (map (fun x => match x with (C_write fd bs, _) => if fd =? 1 then bs else [] | _ => [] end) tr).

(** What a descriptor has delivered. *)
Definition delivered (fd : Z) (tr : list (call * reply)) : list Z :=
  concat (map (fun x => match x with (C_read fd' _, r) => if fd' =? fd then r_bytes r else [] | _ => [] end) tr).

Lemma said_app a b : said (a ++ b) = said a ++ said b.
Proof. unfold said. by rewrite map_app, concat_app. Qed.

Lemma delivered_app fd a b : delivered fd (a ++ b) = delivered fd a ++ delivered fd b.
Proof. unfold delivered. by rewrite map_app, concat_app. Qed.

Section parts.
Context {St : Type} (step : St -> call -> reply * St).

(** A read delivers as many bytes as it says, and none when it fails. *)
Definition sane_reads : Prop := forall s fd n, let r := fst (step s (C_read fd n)) in
  r_val r = Z.of_nat (length (r_bytes r)) \/ r_val r < 0 /\ r_bytes r = [].

Definition plain_call (e : call) : Prop := match e with C_exit | C_exec _ _ => False | _ => True end.

Lemma play_call {A} e (k : reply -> prog A) s tr o : plain_call e -> play step (Call e k) s = (tr, o) ->
  exists tr', tr = (e, fst (step s e)) :: tr' /\ play step (k (fst (step s e))) (snd (step s e)) = (tr', o).
Proof.
  intros He. cbn [play]. destruct (step s e) as [r s']. cbn [fst snd]. destruct (play step (k r) s') as [tr' o'] eqn:E.
  destruct e; try done; intros [= <- <-]; by exists tr'.
Qed.

Lemma play_sys {A} e (f : Z -> prog A) s tr o : plain_call e -> play step (sys e ≫= f) s = (tr, o) ->
  exists tr', tr = (e, fst (step s e)) :: tr' /\ play step (f (r_val (fst (step s e)))) (snd (step s e)) = (tr', o).
Proof. intros He. by apply (play_call e (fun r => f (r_val r))). Qed.

Lemma play_pipe {A} (f : Z * (Z * Z) -> prog A) s tr o : play step (pipe ≫= f) s = (tr, o) ->
  exists r s1 tr', tr = (C_pipe, r) :: tr' /\ play step (f (r_val r, r_pair r)) s1 = (tr', o).
Proof. intros H. destruct (play_call C_pipe (fun r => f (r_val r, r_pair r)) s tr o I H) as (tr' & -> & H'). by eexists _, _, _. Qed.

Lemma play_puts fd bs : forall s, exists tr s', play step (puts fd bs) s = (tr, Some ((), s')) /\
  said tr = (if fd =? 1 then bs else []) /\ forall fd', delivered fd' tr = [].
Proof.
  induction bs as [|c bs IH]; intros s; [exists [], s; by destruct (fd =? 1)|]. cbn [puts]. rewrite play_bind. unfold putc, write, sys.
  cbn [mbind prog_bind play]. destruct (step s (C_write fd [c])) as [r s1]. cbn [play mret prog_ret]. destruct (IH s1) as (tr & s' & E & Hs & Hg).
  rewrite E. eexists _, s'. split; [reflexivity|]. split; [|done]. cbn. unfold said in Hs. rewrite Hs. by destruct (fd =? 1).
Qed.

(** A message and the rest. *)
Lemma play_print {A} fmt args (f : unit -> prog A) s tr o : play step (printf 1 fmt args ≫= f) s = (tr, o) ->
  exists tr1 s1 tr2, play step (f ()) s1 = (tr2, o) /\ tr = tr1 ++ tr2 /\ said tr1 = format fmt args /\ forall fd, delivered fd tr1 = [].
Proof.
  rewrite play_bind. unfold printf. destruct (play_puts 1 (format fmt args) s) as (tr1 & s1 & E & Hs & Hg). rewrite E.
  destruct (play step (f ()) s1) as [tr2 o2] eqn:E2. intros [= <- <-]. by exists tr1, s1, tr2.
Qed.

Lemma play_say {A} m (f : unit -> prog A) s tr o : play step (say m ≫= f) s = (tr, o) ->
  exists tr1 s1 tr2, play step (f ()) s1 = (tr2, o) /\ tr = tr1 ++ tr2 /\ said tr1 = format (ln m) [] /\ forall fd, delivered fd tr1 = [].
Proof. apply play_print. Qed.

(** A check that a returning run has passed. *)
Lemma play_check {A} bad fmt args (f : unit -> prog A) s tr a s' : play step (fail_if bad fmt args ≫= f) s = (tr, Some (a, s')) ->
  bad = false /\ play step (f ()) s = (tr, Some (a, s')).
Proof.
  unfold fail_if. destruct bad; [|by intros H]. rewrite play_bind, play_bind.
  destruct (play_puts 1 (format fmt args) s) as (tr1 & s1 & E & _). unfold printf, stdout. rewrite E. unfold exit. cbn [play]. by destruct (step s1 C_exit).
Qed.

Lemma play_read {A} buf fd n (f : Z * list Z -> prog A) s tr o : sane_reads -> play step (read_into buf fd n ≫= f) s = (tr, o) ->
  exists bs s1 tr', (forall fd', delivered fd' tr = (if fd =? fd' then bs else []) ++ delivered fd' tr') /\ said tr = said tr' /\
    exists v, (v = Z.of_nat (length bs) \/ v < 0 /\ bs = []) /\ play step (f (v, bs ++ drop (length bs) buf)) s1 = (tr', o).
Proof.
  intros Hs H. destruct (play_call (C_read fd n) (fun r => f (r_val r, r_bytes r ++ drop (length (r_bytes r)) buf)) s tr o I H) as (tr' & -> & H').
  exists (r_bytes (fst (step s (C_read fd n)))), (snd (step s (C_read fd n))), tr'. split; [done|]. split; [done|].
  exists (r_val (fst (step s (C_read fd n)))). split; [apply Hs|done].
Qed.

(** ** pipe1 *)
Lemma seq_bytes_app x n m : seq_bytes x (n + m) = seq_bytes x n ++ seq_bytes (x + Z.of_nat n) m.
Proof.
  unfold seq_bytes. rewrite seq_app, fmap_app. f_equal. apply list_eq. intros i. rewrite !list_lookup_fmap.
  destruct (decide (i < m)%nat); [rewrite !lookup_seq_lt by done|by rewrite !lookup_seq_ge by lia]. cbn. do 2 f_equal. lia.
Qed.

Lemma in_sequence_spec bs : forall x, in_sequence bs x = true -> u8 <$> bs = seq_bytes x (length bs).
Proof.
  induction bs as [|b bs IH]; intros x; [done|]. cbn [in_sequence]. intros [Hb Hbs]%andb_prop. apply Z.eqb_eq in Hb.
  cbn [length]. change (S (length bs)) with (1 + length bs)%nat. rewrite seq_bytes_app. cbn [fmap list_fmap]. rewrite (IH _ Hbs), Hb.
  change (seq_bytes x 1) with [u8 (x + 0)]. by rewrite Z.add_0_r.
Qed.

Lemma oops_format : format (ln "pipe1 oops 2") [] = ln "pipe1 oops 2".
Proof. vm_compute. reflexivity. Qed.

Lemma pipe1_read_sound fuel fd : sane_reads -> forall x cc total buf s tr o buf' s',
  play step (pipe1_read fuel fd x cc total buf) s = (tr, Some ((o, buf'), s')) ->
  match o with
  | Some t => u8 <$> delivered fd tr = seq_bytes x (length (delivered fd tr)) /\ t = total + Z.of_nat (length (delivered fd tr)) /\ said tr = []
  | None => said tr = ln "pipe1 oops 2"
  end.
Proof.
  intros Hs. induction fuel as [|fuel IH]; intros x cc total buf s tr o buf' s' H; [done|]. cbn [pipe1_read] in H.
  destruct (play_read _ _ _ _ _ _ _ Hs H) as (bs & s1 & tr' & Hg & Hsd & v & Hv & H1). clear H. rewrite Hsd. specialize (Hg fd). rewrite Z.eqb_refl in Hg. rewrite Hg.
  destruct (Z.ltb_spec 0 v) as [Hp|Hp].
  - destruct Hv as [->|[? _]]; [|lia]. rewrite Nat2Z.id, take_app_length in H1. destruct (negb (in_sequence bs x)) eqn:Eq.
    + destruct (play_say _ _ _ _ _ H1) as (tr1 & s2 & tr2 & H2 & -> & Hs1 & _). injection H2 as <- <- <- <-. by rewrite app_nil_r, Hs1, oops_format.
    + apply negb_false_iff in Eq. pose proof (IH _ _ _ _ _ _ _ _ _ H1) as HI. destruct o as [t|]; [|done]. destruct HI as (Hd & Ht & Hn).
      rewrite fmap_app, length_app, seq_bytes_app, (in_sequence_spec bs x Eq), Hd. split; [done|]. split; [lia|done].
  - injection H1 as <- <- <- <-. assert (bs = []) as -> by (destruct Hv as [->|[_ ?]]; [destruct bs; [done|simpl in Hp; lia]|done]).
    cbn. split; [done|]. split; [lia|done].
Qed.

End parts.

(** * A reference file system *)

(** Files hold their bytes, directories their entries, the first two of which are the
    directory itself and its parent. *)
Inductive node := N_file (data : list Z) | N_dir (ents : list (list Z * nat)).

Inductive ofile := R_console | R_node (n : nat) (off : Z) (wr : bool).

Record rfs := mk_rfs { rf_nodes : gmap nat node; rf_next : nat; rf_cwd : nat; rf_fds : list (option ofile) }.

Definition ROOT : nat := 1.

(** The elements of a path, cut to the length of a name. *)
Fixpoint elems_aux (cur : list Z) (path : list Z) : list (list Z) :=
  match path with
  | [] => match cur with [] => [] | _ => [take (Z.to_nat DIRSIZ) cur] end
  | c :: path' =>
      if c =? 47 then match cur with [] => elems_aux [] path' | _ => take (Z.to_nat DIRSIZ) cur :: elems_aux [] path' end
      else elems_aux (cur ++ [c]) path'
  end.
Definition elems (path : list Z) : list (list Z) := elems_aux [] path.

Fixpoint find_ent (name : list Z) (ents : list (list Z * nat)) : option nat :=
  match ents with
  | [] => None
  | (nm, n) :: ents' => if decide (nm = name) then Some n else find_ent name ents'
  end.

Definition look (s : rfs) (d : nat) (name : list Z) : option nat :=
  match rf_nodes s !! d with Some (N_dir ents) => find_ent name ents | _ => None end.

Fixpoint descend (s : rfs) (d : nat) (es : list (list Z)) : option nat :=
  match es with [] => Some d | e :: es' => match look s d e with Some n => descend s n es' | None => None end end.

Definition start_of (s : rfs) (path : list Z) : nat := if deref path =? 47 then ROOT else rf_cwd s.
Definition resolve (s : rfs) (path : list Z) : option nat := descend s (start_of s path) (elems path).

(** The directory and the name of the last element. *)
Definition resolve_parent (s : rfs) (path : list Z) : option (nat * list Z * list (list Z * nat)) :=
  match rev (elems path) with
  | [] => None
  | name :: es =>
      match descend s (start_of s path) (rev es) with
      | Some d => match rf_nodes s !! d with Some (N_dir ents) => Some (d, name, ents) | _ => None end
      | None => None
      end
  end.

Definition set_node (n : nat) (x : node) (s : rfs) : rfs := mk_rfs (<[n := x]> (rf_nodes s)) (rf_next s) (rf_cwd s) (rf_fds s).
Definition set_cwd (n : nat) (s : rfs) : rfs := mk_rfs (rf_nodes s) (rf_next s) n (rf_fds s).
Definition set_fds (t : list (option ofile)) (s : rfs) : rfs := mk_rfs (rf_nodes s) (rf_next s) (rf_cwd s) t.
Definition add_ent (d : nat) (ents : list (list Z * nat)) (name : list Z) (n : nat) : rfs -> rfs := set_node d (N_dir (ents ++ [(name, n)])).
Definition new_node (x : node) (s : rfs) : rfs := mk_rfs (<[rf_next s := x]> (rf_nodes s)) (S (rf_next s)) (rf_cwd s) (rf_fds s).

(** Its own file, when [path] names one or none. *)
Definition create_file (s : rfs) (path : list Z) : option (nat * rfs) :=
  match resolve_parent s path with
  | None => None
  | Some (d, name, ents) =>
      match find_ent name ents with
      | Some n => match rf_nodes s !! n with Some (N_file _) => Some (n, s) | _ => None end
      | None => Some (rf_next s, add_ent d ents name (rf_next s) (new_node (N_file []) s))
      end
  end.

Fixpoint lowest (t : list (option ofile)) (i : nat) : option nat :=
  match t with [] => None | None :: _ => Some i | _ :: t' => lowest t' (S i) end.

Definition give_fd (n : nat) (mode : Z) (s : rfs) : Z * rfs :=
  match lowest (rf_fds s) 0 with
  | None => (-1, s)
  | Some fd => (Z.of_nat fd, set_fds (<[fd := Some (R_node n 0 (negb (Z.land mode (Z.lor O_WRONLY O_RDWR) =? 0)))]> (rf_fds s)) s)
  end.

Definition ref_open (path : list Z) (mode : Z) (s : rfs) : Z * rfs :=
  if negb (Z.land mode O_CREATE =? 0) then
    match create_file s path with Some (n, s') => give_fd n mode s' | None => (-1, s) end
  else
    match resolve s path with
    | None => (-1, s)
    | Some n =>
        match rf_nodes s !! n with
        | Some (N_file _) => give_fd n mode s
        | Some (N_dir _) => if mode =? 0 then give_fd n mode s else (-1, s)
        | None => (-1, s)
        end
    end.

Definition of_fd (s : rfs) (fd : Z) : option ofile := if fd <? 0 then None else (rf_fds s !! Z.to_nat fd) ≫= id.

Definition ref_read (fd n : Z) (s : rfs) : reply * rfs :=
  if n <? 0 then (val (-1), s) else
  match of_fd s fd with
  | Some (R_node i off wr) =>
      match rf_nodes s !! i with
      | Some (N_file data) =>
          let bs := take (Z.to_nat n) (drop (Z.to_nat off) data) in
          (mk_reply (Z.of_nat (length bs)) bs (0, 0) no_stat,
           set_fds (<[Z.to_nat fd := Some (R_node i (off + Z.of_nat (length bs)) wr)]> (rf_fds s)) s)
      | _ => (val (-1), s)
      end
  | _ => (val (-1), s)
  end.

Definition ref_write (fd : Z) (bs : list Z) (s : rfs) : Z * rfs :=
  match of_fd s fd with
  | Some R_console => (Z.of_nat (length bs), s)
  | Some (R_node i off true) =>
      match rf_nodes s !! i with
      | Some (N_file data) =>
          if MAXFILE * BSIZE <? off + Z.of_nat (length bs) then (-1, s) else
          (Z.of_nat (length bs),
           set_fds (<[Z.to_nat fd := Some (R_node i (off + Z.of_nat (length bs)) true)]> (rf_fds s))
             (set_node i (N_file (take (Z.to_nat off) data ++ bs ++ drop (Z.to_nat off + length bs) data)) s))
      | _ => (-1, s)
      end
  | _ => (-1, s)
  end.

Definition ref_unlink (path : list Z) (s : rfs) : Z * rfs :=
  match resolve_parent s path with
  | None => (-1, s)
  | Some (d, name, ents) =>
      if decide (name = str ".") then (-1, s) else if decide (name = str "..") then (-1, s) else
      match find_ent name ents with
      | None => (-1, s)
      | Some n =>
          let full := match rf_nodes s !! n with Some (N_dir (_ :: _ :: _ :: _)) => true | _ => false end in
          if full then (-1, s) else (0, set_node d (N_dir (filter (fun e => fst e <> name) ents)) s)
      end
  end.

Definition ref_link (old new : list Z) (s : rfs) : Z * rfs :=
  match resolve s old with
  | None => (-1, s)
  | Some n =>
      match rf_nodes s !! n, resolve_parent s new with
      | Some (N_file _), Some (d, name, ents) =>
          match find_ent name ents with Some _ => (-1, s) | None => (0, add_ent d ents name n s) end
      | _, _ => (-1, s)
      end
  end.

Definition ref_mkdir (path : list Z) (s : rfs) : Z * rfs :=
  match resolve_parent s path with
  | None => (-1, s)
  | Some (d, name, ents) =>
      match find_ent name ents with
      | Some _ => (-1, s)
      | None => (0, add_ent d ents name (rf_next s) (new_node (N_dir [(str ".", rf_next s); (str "..", d)]) s))
      end
  end.

Definition ref_chdir (path : list Z) (s : rfs) : Z * rfs :=
  match resolve s path with
  | Some n => match rf_nodes s !! n with Some (N_dir _) => (0, set_cwd n s) | _ => (-1, s) end
  | None => (-1, s)
  end.

Definition ref_close (fd : Z) (s : rfs) : Z * rfs :=
  match of_fd s fd with Some _ => (0, set_fds (<[Z.to_nat fd := None]> (rf_fds s)) s) | None => (-1, s) end.

(** Calls that are not about files fail. *)
Definition ref_step (s : rfs) (e : call) : reply * rfs :=
  let out r := (val (fst r), snd r) : reply * rfs in
  match e with
  | C_open path mode => out (ref_open path mode s)
  | C_close fd => out (ref_close fd s)
  | C_read fd n => ref_read fd n s
  | C_write fd bs => out (ref_write fd bs s)
  | C_unlink path => out (ref_unlink path s)
  | C_link old new => out (ref_link old new s)
  | C_mkdir path => out (ref_mkdir path s)
  | C_chdir path => out (ref_chdir path s)
  | _ => (val (-1), s)
  end.

(** A disk with some programs, and the console as the first three descriptors. *)
Definition ref_init : rfs :=
  mk_rfs {[ ROOT := N_dir ([(str ".", ROOT); (str "..", ROOT); (str "echo", 2%nat); (str "init", 3%nat); (str "README", 4%nat); (str "cat", 5%nat)]);
            2%nat := N_file []; 3%nat := N_file [1; 2; 3]; 4%nat := N_file (str "xv6"); 5%nat := N_file [] ]}
    6 ROOT (replicate 3 (Some R_console) ++ replicate 13 None).

(** The tests that one process makes of files and directories, in the order of main. *)
Definition file_tests (fuel : nat) (buf : list Z) : prog (list Z) :=
  argptest ;;
  bigwrite buf ;;
  opentest ;;
  buf ← writetest buf;
  buf ← writetest1 fuel buf;
  createtest ;;
  iputtest ;;
  rmdot ;;
  fourteen ;;
  buf ← bigfile fuel buf;
  buf ← subdir buf;
  buf ← linktest buf;
  buf ← unlinkread buf;
  dirfile ;;
  iref ;;
  bigdir ;;
  dirtest ;;
  mret buf.

Definition listing (s : rfs) : list (list Z) := match rf_nodes s !! ROOT with Some (N_dir ents) => fst <$> ents | _ => [] end.

(** The tests accept the reference file system, and leave what they should: no descriptor,
    and of their files only the directories that fourteen and iref do not remove. *)
Lemma reference_accepted :
  match play ref_step (file_tests 200 (replicate (Z.to_nat 8192) 0)) ref_init with
  | (_, Some (_, s)) => rf_fds s = rf_fds ref_init /\ listing s = listing ref_init ++ [str "12345678901234"; str "irefd"]
  | _ => False
  end.
Proof. vm_compute. split; reflexivity. Qed.

(** * A pipe that works *)
Definition pipe_step (s : list Z) (e : call) : reply * list Z :=
  match e with
  | C_pipe => (mk_reply 0 [] (3, 4) no_stat, s)
  | C_fork => (val 5, s)
  | C_read _ n => let bs := take (Z.to_nat n) s in (mk_reply (Z.of_nat (length bs)) bs (0, 0) no_stat, drop (Z.to_nat n) s)
  | _ => (val 0, s)
  end.

Definition pipe_run : list (call * reply) * option (list Z * list Z) :=
  play pipe_step (pipe1 50 (replicate (Z.to_nat 8192) 0)) (seq_bytes 0 (5 * 1033)).

Definition result_of (o : option (list Z * list Z)) : list Z * list Z := default ([], []) o.
Definition pipe_end : list Z * list Z := result_of (snd pipe_run).

Lemma run_split (x : list (call * reply) * option (list Z * list Z)) : bool_decide (is_Some (snd x)) = true ->
  x = (fst x, Some (fst (result_of (snd x)), snd (result_of (snd x)))).
Proof. by destruct x as [tr [[b s]|]]. Qed.

Lemma pipe_run_some : bool_decide (is_Some (snd pipe_run)) = true.
Proof. vm_compute. reflexivity. Qed.

Lemma pipe_run_ends : play pipe_step (pipe1 50 (replicate (Z.to_nat 8192) 0)) (seq_bytes 0 (5 * 1033)) = (fst pipe_run, Some (fst pipe_end, snd pipe_end)).
Proof. unfold pipe_end. rewrite <- (run_split pipe_run pipe_run_some). unfold pipe_run. reflexivity. Qed.

Lemma pipe_run_ok : ln "pipe1 ok" `suffix_of` said (fst pipe_run).
Proof. exists []. vm_compute. reflexivity. Qed.

Lemma pipe_step_sane : sane_reads pipe_step.
Proof. intros s fd n. left. reflexivity. Qed.


(** * A weak check *)

(** A system that writes everything and from which nothing comes back. *)
Definition hollow_step (s : unit) (e : call) : reply * unit :=
  match e with
  | C_open _ _ => (val 3, s)
  | C_write _ bs => (val (Z.of_nat (length bs)), s)
  | _ => (val 0, s)
  end.

(** writetest1 accepts it: at the end of the file it compares the number of blocks with
    MAXFILE - 1 only, which it takes for the one wrong number. *)
Lemma writetest1_accepts_hollow : is_Some (snd (play hollow_step (writetest1 200 (replicate (Z.to_nat 8192) 0)) ())).
Proof. vm_compute. by eexists. Qed.
