(* ===== verification/Trap.v ===== *)
(** System calls on processes (sysproc.c), the dispatch of system calls (syscall.c) and
    traps (trap.c).

    The acknowledgement of interrupts (lapiceoi) and the loading of the descriptor table
    (idtinit) only touch hardware.  What the interrupting devices deliver (the bytes of
    the keyboard and the serial port, the faulting address in cr2, the disk's interrupt
    handler) are arguments. *)

From S2P Require Import Prelude Layout CString Printf State Spinlock Sched Mem Sleeplock Ring Memide Bio Log Fs.
From S2P Require Import Kalloc KallocSafe Vm Pipe File Proc Console Syscall Sysfile.
Local Open Scope kernel_scope.

(** * sysproc.c *)

Fixpoint sleep_loop (fuel : nat) (ticks0 n : Z) : K Z :=
  let! ticks := reads k_ticks in
  if u32 n <=? u32 (ticks - ticks0) then on_sync (release L_ticks) ;;; ret 0 else
  let! k := my_killed in
  if negb (k =? 0) then on_sync (release L_ticks) ;;; ret (-1) else
  match fuel with
  | O => hang
  | S fuel' => sleep C_ticks (Some L_ticks) ;;; sleep_loop fuel' ticks0 n
  end.

Definition sys_sleep : K Z :=
  arg! n := argint 0 in
  on_sync (acquire L_ticks) ;;;
  let! ticks0 := reads k_ticks in
  sleep_loop wait_fuel ticks0 n.

Definition sys_uptime : K Z :=
  on_sync (acquire L_ticks) ;;;
  let! xticks := reads k_ticks in
  on_sync (release L_ticks) ;;;
  ret (s32 xticks).

Definition sys_kill : K Z :=
  arg! pid := argint 0 in
  kill pid.

Definition sys_getpid : K Z := mypid.

Section trap.
Context `{!Driver} `{!DevSw} `{!Image} `{!Entry}.

Definition sys_fork : K Z := fork.
Definition sys_exit : K Z := exit ;;; ret 0.
Definition sys_wait : K Z := wait.

Definition sys_sbrk : K Z :=
  arg! n := argint 0 in
  let! me := curproc in
  let! p := get_proc me in
  let! r := growproc n in
  if r <? 0 then ret (-1) else ret (s32 (p_sz p)).

(** * syscall.c *)

(** The array syscalls, indexed by the numbers of syscall.h. *)
Definition syscalls (num : Z) : option (K Z) :=
  match num with
  | 1 => Some sys_fork | 2 => Some sys_exit | 3 => Some sys_wait | 4 => Some sys_pipe | 5 => Some sys_read
  | 6 => Some sys_kill | 7 => Some sys_exec | 8 => Some sys_fstat | 9 => Some sys_chdir | 10 => Some sys_dup
  | 11 => Some sys_getpid | 12 => Some sys_sbrk | 13 => Some sys_sleep | 14 => Some sys_uptime | 15 => Some sys_open
  | 16 => Some sys_write | 17 => Some sys_mknod | 18 => Some sys_unlink | 19 => Some sys_link | 20 => Some sys_mkdir
  | 21 => Some sys_close | 22 => Some sys_swapread | 23 => Some sys_swapwrite | 24 => Some sys_swapstat
  | _ => None
  end.

Definition set_eax (me : nat) (v : Z) : K unit := upd_proc me (fun p => with_tf (with_tf_eax (u32 v) (p_tf p)) p).

Definition syscall : K unit :=
  let! me := curproc in
  let! p := get_proc me in
  let num := s32 (tf_eax (p_tf p)) in
  match syscalls num with
  | Some f => let! r := f in set_eax me r
  | None =>
      cons_print (cprintf (fun _ => p_name p) (str "%d %s: unknown sys call %d") [p_pid p; 1; num] ++ [10]) ;;;
      set_eax me (-1)
  end.

(** * trap.c *)
Definition T_PGFLT : Z := 14.
Definition T_IRQ0 : Z := 32.
Definition T_SYSCALL : Z := 64.
Definition IRQ_TIMER : Z := 0.
Definition IRQ_KBD : Z := 1.
Definition IRQ_COM1 : Z := 4.
Definition IRQ_IDE : Z := 14.
Definition IRQ_SPURIOUS : Z := 31.

(** The descriptor table tvinit fills: [vectors] are the entry points of vectors.S. *)
Definition tvinit (vectors : Z -> Z) : list gatedesc :=
  let idt := (fun i => SETGATE false (Z.shiftl SEG_KCODE 3) (vectors (Z.of_nat i)) 0) <$> seq 0 256 in
  <[Z.to_nat T_SYSCALL := SETGATE true (Z.shiftl SEG_KCODE 3) (vectors T_SYSCALL) DPL_USER]> idt.

(** What a trap finds at the devices. *)
Record devices := mk_devices { dv_ideintr : K unit; dv_kbdintr : K unit; dv_uartintr : K unit; dv_cr2 : Z }.

Definition from_user (tf : trapframe) : bool := Z.land (tf_cs tf) 3 =? DPL_USER.

(** [if(myproc() && myproc()->killed && (tf->cs&3) == DPL_USER) exit();] *)
Definition exit_if_killed (tf : trapframe) : K unit :=
  let! p := on_sync myproc in
  match p with
  | None => ret tt
  | Some i => let! p := get_proc i in when (negb (p_killed p =? 0) && from_user tf) exit
  end.

Definition timer_tick : K unit :=
  let! c := on_sync cpuid in
  when (c =? 0)
    (on_sync (acquire L_ticks) ;;;
     modify (fun s => set_ticks (u32 (k_ticks s + 1)) s) ;;;
     wakeup C_ticks ;;;
     on_sync (release L_ticks)).

(** The default case: a fault.  In the kernel it is fatal; in user space it kills the
    process.  The message is left out. *)
Definition bad_trap (tf : trapframe) : K unit :=
  let! p := on_sync myproc in
  match p with
  | None => panic "trap"
  | Some i => if Z.land (tf_cs tf) 3 =? 0 then panic "trap" else upd_proc i (with_killed 1)
  end.

(** The switch on the trap number; the message of a spurious interrupt is left out. *)
Definition handle_trap (tf : trapframe) (dv : devices) : K unit :=
  let n := tf_trapno tf in
  if n =? T_IRQ0 + IRQ_TIMER then timer_tick
  else if n =? T_IRQ0 + IRQ_IDE then dv_ideintr dv
  else if n =? T_IRQ0 + IRQ_IDE + 1 then ret tt
  else if n =? T_IRQ0 + IRQ_KBD then dv_kbdintr dv
  else if n =? T_IRQ0 + IRQ_COM1 then dv_uartintr dv
  else if (n =? T_IRQ0 + 7) || (n =? T_IRQ0 + IRQ_SPURIOUS) then ret tt
  else if n =? T_PGFLT then pgintr (dv_cr2 dv)
  else bad_trap tf.

(** [if(myproc() && myproc()->state == RUNNING && tf->trapno == T_IRQ0+IRQ_TIMER) yield();] *)
Definition yield_on_tick (tf : trapframe) : K unit :=
  let! p := on_sync myproc in
  match p with
  | None => ret tt
  | Some i =>
      let! p := get_proc i in
      when (bool_decide (p_state p = RUNNING) && (tf_trapno tf =? T_IRQ0 + IRQ_TIMER)) yield
  end.

Definition trap (tf : trapframe) (dv : devices) : K unit :=
  if tf_trapno tf =? T_SYSCALL then
    let! k := my_killed in
    when (negb (k =? 0)) exit ;;;
    let! me := curproc in
    upd_proc me (with_tf tf) ;;;
    syscall ;;;
    let! k := my_killed in
    when (negb (k =? 0)) exit
  else
    handle_trap tf dv ;;;
    exit_if_killed tf ;;;
    yield_on_tick tf ;;;
    exit_if_killed tf.
End trap.
