(* ===== verification/Asm.v ===== *)
(** The assembly of the kernel: the context switch of swtch.S, the trap entry and exit of
    vectors.pl and trapasm.S, the system call stubs of usys.S and the first user code of
    initcode.S, on a model of the instructions they use.

    Memory is a function from addresses to 32-bit words; every access of this code is to
    a word, and stack pointers are multiples of four, so words do not overlap.  A call of
    a C function between two parts of the assembly is not part of them. *)

From S2P Require Import Prelude Layout CString Printf State Spinlock Sched Mem Sleeplock Ring Memide Bio Log Fs Kalloc KallocSafe Vm Pipe File Proc Console Syscall Sysfile Trap.

(** * The processor *)
Inductive reg := EAX | ECX | EDX | EBX | ESP | EBP | ESI | EDI.
Inductive sreg := DS | ES | FS | GS.

Definition reg_no (r : reg) : Z :=
  match r with EAX => 0 | ECX => 1 | EDX => 2 | EBX => 3 | ESP => 4 | EBP => 5 | ESI => 6 | EDI => 7 end.
Definition sreg_no (s : sreg) : Z := match s with ES => 0 | DS => 3 | FS => 4 | GS => 5 end.

Record cpu_state := mk_cpu_state {
  c_reg : reg -> Z;
  c_seg : sreg -> Z;
  c_cs : Z;
  c_ss : Z;
  c_eip : Z;
  c_eflags : Z;
  c_mem : Z -> Z }.

Definition set_reg (r : reg) (v : Z) (c : cpu_state) : cpu_state :=
  mk_cpu_state (fun r' => if reg_no r' =? reg_no r then v else c_reg c r') (c_seg c) (c_cs c) (c_ss c) (c_eip c) (c_eflags c) (c_mem c).
Definition set_seg (r : sreg) (v : Z) (c : cpu_state) : cpu_state :=
  mk_cpu_state (c_reg c) (fun r' => if sreg_no r' =? sreg_no r then v else c_seg c r') (c_cs c) (c_ss c) (c_eip c) (c_eflags c) (c_mem c).
Definition set_eip (v : Z) (c : cpu_state) : cpu_state :=
  mk_cpu_state (c_reg c) (c_seg c) (c_cs c) (c_ss c) v (c_eflags c) (c_mem c).
Definition set_word (a v : Z) (c : cpu_state) : cpu_state :=
  mk_cpu_state (c_reg c) (c_seg c) (c_cs c) (c_ss c) (c_eip c) (c_eflags c) (fun a' => if a' =? a then v else c_mem c a').

Definition push (v : Z) (c : cpu_state) : cpu_state :=
  let sp := u32 (c_reg c ESP - 4) in set_word sp v (set_reg ESP sp c).
Definition pop (c : cpu_state) : Z * cpu_state :=
  let sp := c_reg c ESP in (c_mem c sp, set_reg ESP (u32 (sp + 4)) c).

(** Popping into a register; [popal] throws the saved stack pointer away. *)
Definition pop_reg (r : reg) (c : cpu_state) : cpu_state := let '(v, c) := pop c in set_reg r v c.
Definition drop_word (c : cpu_state) : cpu_state := snd (pop c).

(** Pushing a list of words, the last one at the lowest address, and popping words into a
    list of registers. *)
Definition pushes (l : list Z) (c : cpu_state) : cpu_state := fold_left (fun c v => push v c) l c.
Definition pops (rs : list reg) (c : cpu_state) : cpu_state := fold_left (fun c r => pop_reg r c) rs c.

Definition set_cs_ss (cs ss : Z) (c : cpu_state) : cpu_state :=
  mk_cpu_state (c_reg c) (c_seg c) cs ss (c_eip c) (c_eflags c) (c_mem c).

(** The instructions used. *)
Inductive instr :=
| Pushl (r : reg)
| PushlImm (v : Z)
| Popl (r : reg)
| PushSeg (s : sreg)
| PopSeg (s : sreg)
| Pushal
| Popal
| Load (off : Z) (base dst : reg)
| Store (src base : reg)
| MovReg (src dst : reg)
| MovImm (v : Z) (dst : reg)
| MovwImm (v : Z) (dst : reg)
| MovSeg (src : reg) (dst : sreg)
| Addl (v : Z) (dst : reg)
| Ret
| Iret.

Definition step (i : instr) (c : cpu_state) : cpu_state :=
  match i with
  | Pushl r => push (c_reg c r) c
  | PushlImm v => push v c
  | Popl r => pop_reg r c
  | PushSeg s => push (c_seg c s) c
  | PopSeg s => let '(v, c) := pop c in set_seg s (u16 v) c
  | Pushal => pushes (map (c_reg c) [EAX; ECX; EDX; EBX; ESP; EBP; ESI; EDI]) c
  | Popal => pops [EBX; EDX; ECX; EAX] (drop_word (pops [EDI; ESI; EBP] c))
  | Load off base dst => set_reg dst (c_mem c (u32 (c_reg c base + off))) c
  | Store src base => set_word (c_reg c base) (c_reg c src) c
  | MovReg src dst => set_reg dst (c_reg c src) c
  | MovImm v dst => set_reg dst v c
  | MovwImm v dst => set_reg dst (Z.lor (Z.land (c_reg c dst) 0xffff0000) v) c
  | MovSeg src dst => set_seg dst (u16 (c_reg c src)) c
  | Addl v dst => set_reg dst (u32 (c_reg c dst + v)) c
  | Ret => let '(v, c) := pop c in set_eip v c
  | Iret =>
      let '(eip, c) := pop c in let '(cs, c) := pop c in let '(fl, c) := pop c in
      let c1 := mk_cpu_state (c_reg c) (c_seg c) (u16 cs) (c_ss c) eip fl (c_mem c) in
      if Z.land (u16 cs) 3 =? Z.land (c_cs c) 3 then c1 else
      let '(sp, c1) := pop c1 in let '(ss, c1) := pop c1 in
      set_reg ESP sp (mk_cpu_state (c_reg c1) (c_seg c1) (c_cs c1) (u16 ss) (c_eip c1) (c_eflags c1) (c_mem c1))
  end.

Definition steps (l : list instr) (c : cpu_state) : cpu_state := fold_left (fun c i => step i c) l c.

(** The processor's part of a trap: at a change of privilege the stack of the task state
    segment, [esp0], is taken and the old one pushed; some exceptions push a code. *)
Definition has_code (n : Z) : bool := (n =? 8) || ((10 <=? n) && (n <=? 14)) || (n =? 17).

Definition hw_trap (esp0 n err : Z) (c : cpu_state) : cpu_state :=
  let user := negb (Z.land (c_cs c) 3 =? 0) in
  set_cs_ss (Z.shiftl SEG_KCODE 3) (if user then Z.shiftl SEG_KDATA 3 else c_ss c)
    (pushes ((if user then [c_ss c; c_reg c ESP] else []) ++ [c_eflags c; c_cs c; c_eip c] ++ (if has_code n then [err] else []))
       (if user then set_reg ESP esp0 c else c)).

(** * swtch.S *)
Definition swtch : list instr :=
  [ Load 4 ESP EAX; Load 8 ESP EDX;
    Pushl EBP; Pushl EBX; Pushl ESI; Pushl EDI;
    Store ESP EAX; MovReg EDX ESP;
    Popl EDI; Popl ESI; Popl EBX; Popl EBP;
    Ret ].

(** * vectors.pl and trapasm.S *)

(** The generated code of vector [n], up to the jump. *)
Definition vector (n : Z) : list instr := (if has_code n then [] else [PushlImm 0]) ++ [PushlImm n].

(** From alltraps to the call of trap, the address of the frame being pushed. *)
Definition alltraps : list instr :=
  [ PushSeg DS; PushSeg ES; PushSeg FS; PushSeg GS; Pushal;
    MovwImm (Z.shiftl SEG_KDATA 3) EAX; MovSeg EAX DS; MovSeg EAX ES;
    Pushl ESP ].

Definition trapret : list instr :=
  [ Popal; PopSeg GS; PopSeg FS; PopSeg ES; PopSeg DS; Addl 8 ESP; Iret ].

(** After the call. *)
Definition after_trap : list instr := Addl 4 ESP :: trapret.

(** * usys.S and initcode.S *)

(** The numbers of syscall.h. *)
Inductive sysname :=
| SYS_fork | SYS_exit | SYS_wait | SYS_pipe | SYS_read | SYS_kill | SYS_exec | SYS_fstat
| SYS_chdir | SYS_dup | SYS_getpid | SYS_sbrk | SYS_sleep | SYS_uptime | SYS_open | SYS_write
| SYS_mknod | SYS_unlink | SYS_link | SYS_mkdir | SYS_close | SYS_swapread | SYS_swapwrite | SYS_swapstat.

Definition sysno (s : sysname) : Z :=
  match s with
  | SYS_fork => 1 | SYS_exit => 2 | SYS_wait => 3 | SYS_pipe => 4 | SYS_read => 5 | SYS_kill => 6
  | SYS_exec => 7 | SYS_fstat => 8 | SYS_chdir => 9 | SYS_dup => 10 | SYS_getpid => 11 | SYS_sbrk => 12
  | SYS_sleep => 13 | SYS_uptime => 14 | SYS_open => 15 | SYS_write => 16 | SYS_mknod => 17
  | SYS_unlink => 18 | SYS_link => 19 | SYS_mkdir => 20 | SYS_close => 21 | SYS_swapread => 22
  | SYS_swapwrite => 23 | SYS_swapstat => 24
  end.

(** The stub up to its int instruction; after the trap it returns. *)
Definition stub (s : sysname) : list instr := [MovImm (sysno s) EAX].
Definition stub_end : list instr := [Ret].

(** start of initcode.S up to its int instruction; [init] and [argv] are the addresses of
    the string and of the argument vector. *)
Definition initcode_start (init argv : Z) : list instr :=
  [PushlImm argv; PushlImm init; PushlImm 0; MovImm (sysno SYS_exec) EAX].

(** A trap from the int instruction or from the processor to the call of trap. *)
Definition enter (esp0 n err : Z) (c : cpu_state) : cpu_state :=
  steps (vector n ++ alltraps) (hw_trap esp0 n err c).
Definition leave (c : cpu_state) : cpu_state := steps after_trap c.

(** * The structures on the stack *)

(** struct context and struct trapframe at an address. *)
Definition context_at (m : Z -> Z) (a : Z) : context :=
  mk_context (m a) (m (u32 (a + 4))) (m (u32 (a + 8))) (m (u32 (a + 12))) (m (u32 (a + 16))).

Definition trapframe_at (m : Z -> Z) (a : Z) : trapframe :=
  let w k := m (u32 (a + 4 * k)) in
  mk_trapframe (w 0) (w 1) (w 2) (w 3) (w 4) (w 5) (w 6) (w 7) (u16 (w 8)) (u16 (w 9)) (u16 (w 10)) (u16 (w 11))
    (w 12) (w 13) (w 14) (u16 (w 15)) (w 16) (w 17) (u16 (w 18)).

(** * Proofs *)



(** Everything but general registers and memory. *)
Definition rest_of (c : cpu_state) : (sreg -> Z) * Z * Z * Z * Z := (c_seg c, c_cs c, c_ss c, c_eip c, c_eflags c).

Lemma reg_no_inj r r' : reg_no r = reg_no r' -> r = r'.
Proof. by destruct r, r'. Qed.

Lemma pushes_spec l : forall c sp, c_reg c ESP = sp -> 4 * Z.of_nat (length l) <= sp <= 2 ^ 32 ->
  let c' := pushes l c in
  c_reg c' ESP = (if decide (l = []) then sp else sp - 4 * Z.of_nat (length l)) /\
  (forall r, r <> ESP -> c_reg c' r = c_reg c r) /\ rest_of c' = rest_of c /\
  (forall i v, l !! i = Some v -> c_mem c' (sp - 4 * (Z.of_nat i + 1)) = v) /\
  (forall a, a < sp - 4 * Z.of_nat (length l) \/ sp <= a -> c_mem c' a = c_mem c a).
Proof.
  induction l as [|v l IH]; intros c sp Hsp Hl; [done|]. cbn [length] in Hl. rewrite decide_False by done.
  assert (Hu : u32 (sp - 4) = sp - 4) by (apply u32_small; lia).
  destruct (IH (push v c) (sp - 4)) as (E1 & E2 & E3 & E4 & E5); [cbn; by rewrite Hsp|lia|].
  change (pushes (v :: l) c) with (pushes l (push v c)). cbv zeta. split; [|split; [|split; [|split]]].
  - rewrite E1. cbn [length]. case_decide; [subst; cbn; lia|lia].
  - intros r Hr. rewrite E2 by done. cbn. destruct (Z.eqb_spec (reg_no r) 4) as [E|]; [|done]. destruct r; done.
  - by rewrite E3.
  - intros [|i] w Hw.
    + injection Hw as <-. rewrite E5 by lia. cbn. rewrite Hsp, Hu. by rewrite (proj2 (Z.eqb_eq _ _)) by lia.
    + rewrite <- (E4 i w Hw). f_equal. lia.
  - intros x Hx. cbn [length] in Hx. rewrite E5 by lia. cbn. rewrite Hsp, Hu. by rewrite (proj2 (Z.eqb_neq _ _)) by lia.
Qed.

Lemma pops_spec rs : forall c sp, c_reg c ESP = sp -> NoDup rs -> ESP ∉ rs -> 0 <= sp -> sp + 4 * Z.of_nat (length rs) < 2 ^ 32 ->
  let c' := pops rs c in
  c_reg c' ESP = sp + 4 * Z.of_nat (length rs) /\ c_mem c' = c_mem c /\ rest_of c' = rest_of c /\
  (forall i r, rs !! i = Some r -> c_reg c' r = c_mem c (sp + 4 * Z.of_nat i)) /\
  (forall r, r ∉ rs -> r <> ESP -> c_reg c' r = c_reg c r).
Proof.
  induction rs as [|r0 rs IH]; intros c sp Hsp Hnd Hn H0 Hl; [cbv zeta; split; [cbn; lia|done]|].
  apply list.NoDup_cons in Hnd as [Hr0 Hnd]. rewrite not_elem_of_cons in Hn. destruct Hn as [Hr Hn]. cbn [length] in Hl.
  assert (Hu : u32 (sp + 4) = sp + 4) by (apply u32_small; lia).
  assert (Hne : (reg_no ESP =? reg_no r0) = false) by (apply Z.eqb_neq; intros E; by apply reg_no_inj in E).
  destruct (IH (pop_reg r0 c) (sp + 4)) as (E1 & E2 & E3 & E4 & E5); [|done|done|lia|lia|].
  { unfold pop_reg, pop, set_reg. cbn [c_reg]. rewrite Hne, Z.eqb_refl, Hsp. done. }
  change (pops (r0 :: rs) c) with (pops rs (pop_reg r0 c)). cbv zeta. split; [|split; [|split; [|split]]].
  - rewrite E1. cbn [length]. lia.
  - by rewrite E2.
  - by rewrite E3.
  - intros [|i] r Hi.
    + injection Hi as <-. rewrite E5 by done. unfold pop_reg, pop, set_reg. cbn [c_reg c_mem]. rewrite Z.eqb_refl, Hsp. f_equal. lia.
    + rewrite (E4 i r Hi). cbn [pop_reg pop set_reg c_mem]. f_equal. lia.
  - intros r Hr' HE. rewrite not_elem_of_cons in Hr'. rewrite E5 by tauto. unfold pop_reg, pop, set_reg. cbn [c_reg].
    rewrite (proj2 (Z.eqb_neq (reg_no r) (reg_no r0))), (proj2 (Z.eqb_neq (reg_no r) (reg_no ESP))); [done|..];
      intros E; apply reg_no_inj in E; tauto.
Qed.

Lemma push_reg v c r : r <> ESP -> c_reg (push v c) r = c_reg c r.
Proof. intros H. cbn. destruct (Z.eqb_spec (reg_no r) 4) as [E|]; [|done]. by destruct r. Qed.

Lemma set_reg_ne r v c r' : r' <> r -> c_reg (set_reg r v c) r' = c_reg c r'.
Proof. intros H. cbn. destruct (Z.eqb_spec (reg_no r') (reg_no r)) as [E|]; [|done]. by apply reg_no_inj in E. Qed.

Lemma set_reg_eq r v c : c_reg (set_reg r v c) r = v.
Proof. cbn. by rewrite Z.eqb_refl. Qed.

Lemma set_eip_reg v c r : c_reg (set_eip v c) r = c_reg c r.
Proof. done. Qed.

#[export] Instance reg_eq : EqDecision reg.
Proof. solve_decision. Defined.

(** ** swtch *)
Lemma swtch_regs : NoDup [EDI; ESI; EBX; EBP] /\ ESP ∉ [EDI; ESI; EBX; EBP].
Proof. split; by apply (bool_decide_unpack _). Qed.

(** What a call of swtch finds: the return address, [old] and [new] on the stack, and
    three separate places for the saved context, the pointer to it and the new one. *)
Record swtch_call (c : cpu_state) (sp old new : Z) : Prop := mk_swtch_call {
  sw_sp : c_reg c ESP = sp;
  sw_old : c_mem c (sp + 4) = old;
  sw_new : c_mem c (sp + 8) = new;
  sw_stack : 16 <= sp < 2 ^ 32 - 12;
  sw_context : 0 <= new < 2 ^ 32 - 20;
  sw_old_apart : old + 4 <= sp - 16 \/ sp + 4 <= old;
  sw_new_apart : new + 20 <= sp - 16 \/ sp <= new;
  sw_both : old + 4 <= new \/ new + 20 <= old }.

(** The stages of swtch: arguments loaded, registers saved, stacks switched, registers
    loaded. *)
Definition sw_args (old new : Z) (c : cpu_state) : cpu_state := set_reg EDX new (set_reg EAX old c).
Definition sw_saved (old new : Z) (c : cpu_state) : cpu_state :=
  pushes [c_reg c EBP; c_reg c EBX; c_reg c ESI; c_reg c EDI] (sw_args old new c).
Definition sw_switched (c : cpu_state) : cpu_state :=
  let c' := set_word (c_reg c EAX) (c_reg c ESP) c in set_reg ESP (c_reg c' EDX) c'.
Definition sw_return (c : cpu_state) : cpu_state := set_eip (c_mem c (c_reg c ESP)) (set_reg ESP (u32 (c_reg c ESP + 4)) c).

Lemma sw_args_reg old new c r : r <> EDX -> r <> EAX -> c_reg (sw_args old new c) r = c_reg c r.
Proof. intros. unfold sw_args. by rewrite !set_reg_ne. Qed.

Lemma swtch_stages c sp old new : swtch_call c sp old new ->
  steps swtch c = sw_return (pops [EDI; ESI; EBX; EBP] (sw_switched (sw_saved old new c))).
Proof.
  intros [Hsp Ho Hn Hs Hc A1 A2 A3]. unfold steps, swtch. cbn [fold_left step].
  rewrite Hsp, (set_reg_ne EAX _ _ ESP), Hsp by done. rewrite !u32_small, Ho by lia.
  change (c_mem (set_reg EAX old c) (sp + 8)) with (c_mem c (sp + 8)). rewrite Hn. fold (sw_args old new c).
  unfold sw_saved, sw_switched, pops, pushes. cbn [fold_left]. unfold sw_return, pop at 1.
  rewrite !(push_reg _ _ EBX), !(push_reg _ _ ESI), !(push_reg _ _ EDI) by done.
  rewrite (sw_args_reg _ _ _ EBP), (sw_args_reg _ _ _ EBX), (sw_args_reg _ _ _ ESI), (sw_args_reg _ _ _ EDI) by done.
  reflexivity.
Qed.

Lemma swtch_spec c sp old new : swtch_call c sp old new ->
  let c' := steps swtch c in
  context_at (c_mem c') (sp - 16) = mk_context (c_reg c EDI) (c_reg c ESI) (c_reg c EBX) (c_reg c EBP) (c_mem c sp) /\
  c_mem c' old = sp - 16 /\
  (forall a, a <> old -> a < sp - 16 \/ sp <= a -> c_mem c' a = c_mem c a) /\
  mk_context (c_reg c' EDI) (c_reg c' ESI) (c_reg c' EBX) (c_reg c' EBP) (c_eip c') = context_at (c_mem c) new /\
  c_reg c' ESP = new + 20.
Proof.
  intros Hcall. pose proof (swtch_stages _ _ _ _ Hcall) as E. destruct Hcall as [Hsp Ho Hn Hs Hc A1 A2 A3]. cbv zeta. rewrite E. clear E.
  unfold sw_saved. set (c1 := sw_args old new c).
  assert (Hc1 : c_reg c1 ESP = sp /\ c_reg c1 EAX = old /\ c_reg c1 EDX = new /\ c_mem c1 = c_mem c).
  { unfold c1, sw_args. rewrite set_reg_eq, !(set_reg_ne EDX) by done. by rewrite set_reg_eq, set_reg_ne by done. }
  destruct Hc1 as (Hsp1 & Ha1 & Hd1 & Hm). clearbody c1.
  destruct (pushes_spec [c_reg c EBP; c_reg c EBX; c_reg c ESI; c_reg c EDI] c1 sp Hsp1) as (P1 & P2 & _ & P4 & P5); [cbn [length]; lia|].
  revert P1 P2 P4 P5. generalize (pushes [c_reg c EBP; c_reg c EBX; c_reg c ESI; c_reg c EDI] c1). intros c2 P1 P2 P4 P5.
  cbn [length] in P1, P5. rewrite decide_False in P1 by done.
  assert (Hc3 : c_reg (sw_switched c2) ESP = new /\ forall a, c_mem (sw_switched c2) a = if a =? old then sp - 16 else c_mem c2 a).
  { unfold sw_switched. rewrite set_reg_eq. cbn [set_reg set_word c_mem c_reg]. rewrite !P2 by done. rewrite P1, Ha1, Hd1. done. }
  destruct Hc3 as [Hsp3 M3]. revert Hsp3 M3. generalize (sw_switched c2). intros c3 Hsp3 M3.
  destruct (pops_spec [EDI; ESI; EBX; EBP] c3 new Hsp3) as (Q1 & Q2 & _ & Q4 & _); [apply swtch_regs|apply swtch_regs|lia|cbn [length]; lia|].
  revert Q1 Q2 Q4. generalize (pops [EDI; ESI; EBX; EBP] c3). intros c4 Q1 Q2 Q4. cbn [length] in Q1.
  unfold sw_return. cbn [set_eip set_reg c_mem c_eip]. rewrite Q2.
  assert (Hw : forall i v, [c_reg c EBP; c_reg c EBX; c_reg c ESI; c_reg c EDI] !! i = Some v -> c_mem c3 (sp - 4 * (Z.of_nat i + 1)) = v).
  { intros i v Hi. pose proof (lookup_lt_Some _ _ _ Hi) as Hl. cbn [length] in Hl. rewrite M3, (proj2 (Z.eqb_neq _ _)) by lia. by apply P4. }
  assert (Hk : forall a, a <> old -> a < sp - 16 \/ sp <= a -> c_mem c3 a = c_mem c a).
  { intros a Hne Hra. rewrite M3, (proj2 (Z.eqb_neq _ _)) by done. rewrite P5 by lia. by rewrite Hm. }
  split; [|split; [by rewrite M3, Z.eqb_refl|split; [exact Hk|split]]].
  - unfold context_at. rewrite !u32_small by lia. f_equal.
    + exact (Hw 3%nat _ eq_refl).
    + rewrite <- (Hw 2%nat _ eq_refl). f_equal. lia.
    + rewrite <- (Hw 1%nat _ eq_refl). f_equal. lia.
    + rewrite <- (Hw 0%nat _ eq_refl). f_equal. lia.
    + rewrite <- (Hk sp) by lia. f_equal. lia.
  - rewrite !set_eip_reg, !set_reg_ne by done.
    rewrite (Q4 0%nat EDI eq_refl), (Q4 1%nat ESI eq_refl), (Q4 2%nat EBX eq_refl), (Q4 3%nat EBP eq_refl), Q1.
    unfold context_at. rewrite !u32_small by lia. rewrite !Hk by lia. f_equal; f_equal; lia.
  - rewrite set_eip_reg, set_reg_eq, Q1. rewrite u32_small by lia. lia.
Qed.

(** C5: the context switch keeps its promise to C.  A process that calls swtch(&old, new)
    and is later switched back to, by a swtch with the context saved in old, while its
    stack was left alone, continues as if its call had returned: at the return address,
    with its stack pointer behind the return address and its callee-saved registers. *)
Theorem swtch_resumes c1 sp1 old1 new1 c2 sp2 old2 :
  swtch_call c1 sp1 old1 new1 ->
  (forall a, sp1 - 16 <= a <= sp1 -> c_mem c2 a = c_mem (steps swtch c1) a) ->
  swtch_call c2 sp2 old2 (c_mem (steps swtch c1) old1) ->
  let c' := steps swtch c2 in
  c_eip c' = c_mem c1 sp1 /\ c_reg c' ESP = sp1 + 4 /\
  forall r, r ∈ [EBX; EBP; ESI; EDI] -> c_reg c' r = c_reg c1 r.
Proof.
  intros H1 Hm H2. destruct (swtch_spec _ _ _ _ H1) as (Hsaved & Hold & _ & _ & _). pose proof (sw_stack _ _ _ _ H1) as Hs.
  destruct (swtch_spec _ _ _ _ H2) as (_ & _ & _ & Hctx & Hesp). rewrite Hold in Hctx, Hesp.
  assert (E : context_at (c_mem c2) (sp1 - 16) = context_at (c_mem (steps swtch c1)) (sp1 - 16)).
  { unfold context_at. rewrite !u32_small by lia. by rewrite !Hm by lia. }
  rewrite E, Hsaved in Hctx. injection Hctx as E1 E2 E3 E4 E5. cbv zeta. split; [done|]. split; [rewrite Hesp; lia|].
  intros r Hr. set_unfold in Hr. naive_solver.
Qed.

(** ** Traps *)

(** A program in user space, with 16-bit selectors. *)
Record in_user (c : cpu_state) : Prop := mk_in_user {
  iu_ring : Z.land (c_cs c) 3 <> 0;
  iu_cs : 0 <= c_cs c < 2 ^ 16;
  iu_ss : 0 <= c_ss c < 2 ^ 16;
  iu_seg : forall s, 0 <= c_seg c s < 2 ^ 16 }.

(** The words of the frame in the order they are pushed, for a trap from user space. *)
Definition frame_words (esp0 n err : Z) (c : cpu_state) : list Z :=
  [c_ss c; c_reg c ESP; c_eflags c; c_cs c; c_eip c; if has_code n then err else 0; n;
   c_seg c DS; c_seg c ES; c_seg c FS; c_seg c GS;
   c_reg c EAX; c_reg c ECX; c_reg c EDX; c_reg c EBX; esp0 - 44; c_reg c EBP; c_reg c ESI; c_reg c EDI].

Lemma push_set_cs_ss v cs ss c : push v (set_cs_ss cs ss c) = set_cs_ss cs ss (push v c).
Proof. done. Qed.

Lemma pushes_set_cs_ss l cs ss c : pushes l (set_cs_ss cs ss c) = set_cs_ss cs ss (pushes l c).
Proof. revert c. induction l as [|v l IH]; intros c; [done|]. exact (IH (push v c)). Qed.

Lemma pushes_app l l' c : pushes (l ++ l') c = pushes l' (pushes l c).
Proof. apply fold_left_app. Qed.

Lemma vector_pushes n c : steps (vector n) c = pushes (if has_code n then [n] else [0; n]) c.
Proof. unfold vector. by destruct (has_code n). Qed.

(** What the processor pushes, and the words of the vector. *)
Lemma hw_vector esp0 n err c : Z.land (c_cs c) 3 <> 0 ->
  steps (vector n) (hw_trap esp0 n err c) =
  set_cs_ss (Z.shiftl SEG_KCODE 3) (Z.shiftl SEG_KDATA 3) (pushes (take 7 (frame_words esp0 n err c)) (set_reg ESP esp0 c)).
Proof.
  intros Hu. rewrite vector_pushes. unfold hw_trap, frame_words. rewrite (proj2 (Z.eqb_neq _ _)) by done. cbn [negb take].
  rewrite pushes_set_cs_ss, <- pushes_app. by destruct (has_code n).
Qed.

Lemma steps_app l l' c : steps (l ++ l') c = steps l' (steps l c).
Proof. apply fold_left_app. Qed.

(** The end of alltraps, when the frame is on the stack. *)
Definition finish_entry (c : cpu_state) : cpu_state :=
  steps [MovwImm (Z.shiftl SEG_KDATA 3) EAX; MovSeg EAX DS; MovSeg EAX ES; Pushl ESP] c.

Lemma set_cs_ss_reg cs ss c : c_reg (set_cs_ss cs ss c) = c_reg c /\ c_seg (set_cs_ss cs ss c) = c_seg c.
Proof. done. Qed.

Lemma set_cs_ss_mem cs ss c : c_mem (set_cs_ss cs ss c) = c_mem c.
Proof. done. Qed.

Lemma push_seg v c : c_seg (push v c) = c_seg c.
Proof. done. Qed.

Lemma push_mem v c a : c_mem (push v c) a = if a =? u32 (c_reg c ESP - 4) then v else c_mem c a.
Proof. done. Qed.

Lemma push_esp v c : c_reg (push v c) ESP = u32 (c_reg c ESP - 4).
Proof. done. Qed.

#[local] Opaque push.

Lemma pushes_seg l c : c_seg (pushes l c) = c_seg c.
Proof. revert c. induction l as [|v l IH]; intros c; [done|]. etrans; [exact (IH (push v c))|apply push_seg]. Qed.

Lemma pushes_segs c : steps [PushSeg DS; PushSeg ES; PushSeg FS; PushSeg GS] c = pushes [c_seg c DS; c_seg c ES; c_seg c FS; c_seg c GS] c.
Proof. unfold steps, pushes. cbn [fold_left step]. by rewrite !push_seg. Qed.

Lemma enter_pushes esp0 n err c : Z.land (c_cs c) 3 <> 0 -> 76 <= esp0 <= 2 ^ 32 ->
  enter esp0 n err c =
  finish_entry (set_cs_ss (Z.shiftl SEG_KCODE 3) (Z.shiftl SEG_KDATA 3) (pushes (frame_words esp0 n err c) (set_reg ESP esp0 c))).
Proof.
  intros Hu He. unfold enter. rewrite steps_app, hw_vector by done.
  change alltraps with ([PushSeg DS; PushSeg ES; PushSeg FS; PushSeg GS] ++ [Pushal] ++
    [MovwImm (Z.shiftl SEG_KDATA 3) EAX; MovSeg EAX DS; MovSeg EAX ES; Pushl ESP]).
  rewrite !steps_app. fold (finish_entry (steps [Pushal] (steps [PushSeg DS; PushSeg ES; PushSeg FS; PushSeg GS]
    (set_cs_ss (Z.shiftl SEG_KCODE 3) (Z.shiftl SEG_KDATA 3) (pushes (take 7 (frame_words esp0 n err c)) (set_reg ESP esp0 c)))))).
  apply (f_equal finish_entry). rewrite pushes_segs.
  destruct (set_cs_ss_reg (Z.shiftl SEG_KCODE 3) (Z.shiftl SEG_KDATA 3) (pushes (take 7 (frame_words esp0 n err c)) (set_reg ESP esp0 c))) as [_ ->].
  rewrite pushes_set_cs_ss, <- pushes_app.
  assert (Hsp : c_reg (set_reg ESP esp0 c) ESP = esp0) by apply set_reg_eq.
  assert (Hse : c_seg (set_reg ESP esp0 c) = c_seg c) by done.
  assert (Hrg : forall r, r <> ESP -> c_reg (set_reg ESP esp0 c) r = c_reg c r) by (intros; by apply set_reg_ne).
  revert Hsp Hse Hrg. generalize (set_reg ESP esp0 c). intros c0 Hsp Hse Hrg.
  rewrite pushes_seg, Hse.
  change (take 7 (frame_words esp0 n err c) ++ [c_seg c DS; c_seg c ES; c_seg c FS; c_seg c GS]) with (take 11 (frame_words esp0 n err c)).
  destruct (pushes_spec (take 11 (frame_words esp0 n err c)) _ esp0 Hsp) as (E11 & R11 & _); [cbn [length take frame_words]; lia|].
  cbn [length take frame_words] in E11. rewrite decide_False in E11 by done.
  unfold steps. cbn [fold_left step]. rewrite pushes_set_cs_ss. apply (f_equal (set_cs_ss _ _)). cbn [map].
  destruct (set_cs_ss_reg (Z.shiftl SEG_KCODE 3) (Z.shiftl SEG_KDATA 3) (pushes (take 11 (frame_words esp0 n err c)) c0)) as [-> _].
  unfold frame_words in *. cbn [take] in *. rewrite E11, !R11, !Hrg, <- pushes_app by done. cbn [app length].
  replace (esp0 - 4 * Z.of_nat 11) with (esp0 - 44) by lia. reflexivity.
Qed.

Lemma movw_low x y : 0 <= y < 2 ^ 16 -> u16 (Z.lor (Z.land x 0xffff0000) y) = y.
Proof.
  intros Hy. unfold u16. rewrite <- Z.land_ones by lia. apply Z.bits_inj_iff'. intros i Hi.
  rewrite Z.land_spec, Z.lor_spec, Z.land_spec, Z.testbit_ones_nonneg by lia.
  change 0xffff0000 with (Z.shiftl (Z.ones 16) 16). rewrite Z.shiftl_spec by lia.
  destruct (Z.ltb_spec i 16).
  - rewrite (Z.testbit_neg_r _ (i - 16)) by lia. by rewrite andb_false_r, andb_true_r.
  - rewrite andb_false_r. symmetry. apply Z.bits_above_log2; [lia|]. destruct (decide (y = 0)) as [->|]; [cbn; lia|].
    assert (Z.log2 y < 16) by (apply Z.log2_lt_pow2; lia). lia.
Qed.

Lemma finish_entry_spec f tf : c_reg f ESP = tf -> 4 <= tf <= 2 ^ 32 ->
  let g := finish_entry f in
  c_reg g ESP = tf - 4 /\ c_mem g (tf - 4) = tf /\ (forall a, a <> tf - 4 -> c_mem g a = c_mem f a) /\
  c_seg g DS = Z.shiftl SEG_KDATA 3 /\ c_seg g ES = Z.shiftl SEG_KDATA 3.
Proof.
  intros Hsp Htf. unfold finish_entry, steps. cbn [fold_left step].
  set (f1 := set_reg EAX _ f). assert (H1 : c_reg f1 ESP = tf) by (unfold f1; by rewrite set_reg_ne).
  assert (H2 : u16 (c_reg f1 EAX) = Z.shiftl SEG_KDATA 3) by (unfold f1; rewrite set_reg_eq; apply movw_low; vm_compute; split; congruence).
  assert (Hm : c_mem f1 = c_mem f) by done. clearbody f1. set (f2 := set_seg ES _ (set_seg DS _ f1)).
  assert (H3 : c_reg f2 = c_reg f1 /\ c_mem f2 = c_mem f1) by done.
  assert (H4 : c_seg f2 DS = u16 (c_reg f1 EAX) /\ c_seg f2 ES = u16 (c_reg f1 EAX)) by done. clearbody f2.
  destruct H3 as [H3 H5]. destruct H4 as [H6 H7]. cbv zeta. rewrite push_esp, push_seg, H3, H1, H6, H7, H2. rewrite u32_small by lia.
  split; [done|]. split; [|split; [|done]].
  - rewrite push_mem, H3, H1, u32_small by lia. by rewrite Z.eqb_refl.
  - intros a Ha. rewrite push_mem, H3, H1, u32_small by lia. rewrite (proj2 (Z.eqb_neq _ _)) by done. by rewrite H5, Hm.
Qed.

(** The frame trap() is given.  Whatever the trap number, and whether or not the
    processor pushes an error code, the entry code reached from user space leaves on the
    kernel stack a struct trapframe with the number, the code or zero, and all registers
    of the interrupted program; the argument of trap is its address, and the kernel's
    data segments are loaded. *)
Lemma trap_frame_spec esp0 n err c :
  Z.land (c_cs c) 3 <> 0 -> 80 <= esp0 <= 2 ^ 32 ->
  0 <= c_cs c < 2 ^ 16 -> 0 <= c_ss c < 2 ^ 16 -> (forall s, 0 <= c_seg c s < 2 ^ 16) ->
  let c' := enter esp0 n err c in let tf := esp0 - 76 in
  c_reg c' ESP = tf - 4 /\ c_mem c' (tf - 4) = tf /\ c_seg c' DS = Z.shiftl SEG_KDATA 3 /\ c_seg c' ES = Z.shiftl SEG_KDATA 3 /\
  trapframe_at (c_mem c') tf =
    mk_trapframe (c_reg c EDI) (c_reg c ESI) (c_reg c EBP) (esp0 - 44) (c_reg c EBX) (c_reg c EDX) (c_reg c ECX) (c_reg c EAX)
      (c_seg c GS) (c_seg c FS) (c_seg c ES) (c_seg c DS) n (if has_code n then err else 0)
      (c_eip c) (c_cs c) (c_eflags c) (c_reg c ESP) (c_ss c).
Proof.
  intros Hu He Hcs Hss Hseg. cbv zeta. rewrite enter_pushes by (done || lia).
  assert (Hsp : c_reg (set_reg ESP esp0 c) ESP = esp0) by apply set_reg_eq.
  destruct (pushes_spec (frame_words esp0 n err c) _ esp0 Hsp) as (P1 & _ & _ & P4 & _); [cbn [length frame_words]; lia|].
  cbn [length frame_words] in P1. rewrite decide_False in P1 by done.
  set (f := set_cs_ss _ _ _). assert (Hf : c_reg f ESP = esp0 - 76) by (unfold f; rewrite (proj1 (set_cs_ss_reg _ _ _)), P1; lia).
  assert (Hw : forall i v, frame_words esp0 n err c !! i = Some v -> c_mem f (esp0 - 4 * (Z.of_nat i + 1)) = v).
  { unfold f. rewrite set_cs_ss_mem. exact P4. }
  clearbody f. clear P1 P4.
  destruct (finish_entry_spec f (esp0 - 76) Hf) as (F1 & F2 & F3 & F4 & F5); [lia|].
  split; [exact F1|]. split; [exact F2|]. split; [exact F4|]. split; [exact F5|].
  assert (Hg : forall k v, 0 <= k < 19 -> frame_words esp0 n err c !! Z.to_nat (18 - k) = Some v -> c_mem (finish_entry f) (u32 (esp0 - 76 + 4 * k)) = v).
  { intros k v Hk Hv. rewrite u32_small, F3 by lia. rewrite <- (Hw _ _ Hv). f_equal. lia. }
  unfold trapframe_at. cbv zeta.
  rewrite (Hg 0 _ ltac:(lia) eq_refl), (Hg 1 _ ltac:(lia) eq_refl), (Hg 2 _ ltac:(lia) eq_refl), (Hg 3 _ ltac:(lia) eq_refl), (Hg 4 _ ltac:(lia) eq_refl),
    (Hg 5 _ ltac:(lia) eq_refl), (Hg 6 _ ltac:(lia) eq_refl), (Hg 7 _ ltac:(lia) eq_refl), (Hg 8 _ ltac:(lia) eq_refl), (Hg 9 _ ltac:(lia) eq_refl),
    (Hg 10 _ ltac:(lia) eq_refl), (Hg 11 _ ltac:(lia) eq_refl), (Hg 12 _ ltac:(lia) eq_refl), (Hg 13 _ ltac:(lia) eq_refl), (Hg 14 _ ltac:(lia) eq_refl),
    (Hg 15 _ ltac:(lia) eq_refl), (Hg 16 _ ltac:(lia) eq_refl), (Hg 17 _ ltac:(lia) eq_refl), (Hg 18 _ ltac:(lia) eq_refl).
  unfold u16. rewrite !Z.mod_small by (apply Hseg || lia). done.
Qed.

Lemma popal_regs :
  NoDup [EDI; ESI; EBP] /\ (ESP ∉ [EDI; ESI; EBP]) /\ NoDup [EBX; EDX; ECX; EAX] /\ (ESP ∉ [EBX; EDX; ECX; EAX]).
Proof. split; [|split; [|split]]; by apply (bool_decide_unpack _). Qed.

Lemma drop_word_spec c sp : c_reg c ESP = sp -> 0 <= sp < 2 ^ 32 - 4 ->
  c_reg (drop_word c) ESP = sp + 4 /\ (forall r, r <> ESP -> c_reg (drop_word c) r = c_reg c r) /\
  c_mem (drop_word c) = c_mem c /\ rest_of (drop_word c) = rest_of c.
Proof.
  intros Hsp Hr. unfold drop_word, pop. cbn [snd]. rewrite set_reg_eq, Hsp, u32_small by lia. split; [done|]. split; [|done].
  intros r Hne. by apply set_reg_ne.
Qed.

Lemma popal_spec c sp : c_reg c ESP = sp -> 0 <= sp < 2 ^ 32 - 32 ->
  let c' := step Popal c in let w k := c_mem c (sp + 4 * k) in
  c_reg c' ESP = sp + 32 /\ c_mem c' = c_mem c /\ rest_of c' = rest_of c /\
  c_reg c' EDI = w 0 /\ c_reg c' ESI = w 1 /\ c_reg c' EBP = w 2 /\ c_reg c' EBX = w 4 /\
  c_reg c' EDX = w 5 /\ c_reg c' ECX = w 6 /\ c_reg c' EAX = w 7.
Proof.
  intros Hsp Hr. destruct popal_regs as (N1 & S1 & N2 & S2). cbn [step].
  destruct (pops_spec [EDI; ESI; EBP] c sp Hsp N1 S1) as (P1 & P2 & P3 & P4 & _); [lia|cbn [length]; lia|].
  revert P1 P2 P3 P4. generalize (pops [EDI; ESI; EBP] c). intros c1 P1 P2 P3 P4. cbn [length] in P1.
  destruct (drop_word_spec c1 (sp + 12)) as (D1 & D2 & D3 & D4); [rewrite P1; lia|lia|].
  revert D1 D2 D3 D4. generalize (drop_word c1). intros c2 D1 D2 D3 D4.
  destruct (pops_spec [EBX; EDX; ECX; EAX] c2 (sp + 12 + 4) D1 N2 S2) as (Q1 & Q2 & Q3 & Q4 & Q5); [lia|cbn [length]; lia|].
  revert Q1 Q2 Q3 Q4 Q5. generalize (pops [EBX; EDX; ECX; EAX] c2). intros c3 Q1 Q2 Q3 Q4 Q5. cbn [length] in Q1. cbv zeta.
  split; [rewrite Q1; lia|]. split; [by rewrite Q2, D3, P2|]. split; [by rewrite Q3, D4, P3|].
  rewrite !Q5, !D2 by (done || by apply (bool_decide_unpack _)).
  rewrite (P4 0%nat EDI eq_refl), (P4 1%nat ESI eq_refl), (P4 2%nat EBP eq_refl).
  rewrite (Q4 0%nat EBX eq_refl), (Q4 1%nat EDX eq_refl), (Q4 2%nat ECX eq_refl), (Q4 3%nat EAX eq_refl), D3, P2.
  repeat split; f_equal; lia.
Qed.

(** One segment register popped. *)
Lemma popseg_spec c s sp : c_reg c ESP = sp -> 0 <= sp < 2 ^ 32 - 4 ->
  let c' := step (PopSeg s) c in
  c_reg c' ESP = sp + 4 /\ (forall r, r <> ESP -> c_reg c' r = c_reg c r) /\ c_mem c' = c_mem c /\
  c_seg c' s = u16 (c_mem c sp) /\ (forall s', s' <> s -> c_seg c' s' = c_seg c s') /\
  (c_cs c', c_ss c', c_eip c', c_eflags c') = (c_cs c, c_ss c, c_eip c, c_eflags c).
Proof.
  intros Hsp Hr. cbn [step]. unfold pop. rewrite Hsp, u32_small by lia. cbv zeta. split; [|split; [|split; [|split; [|split]]]]; try done.
  - intros r Hne. by apply (set_reg_ne ESP).
  - cbn. by rewrite Z.eqb_refl.
  - intros s' Hne. cbn. destruct (Z.eqb_spec (sreg_no s') (sreg_no s)) as [E|]; [|done]. by destruct s, s'.
Qed.

(** iret to another ring. *)
Lemma iret_spec c sp : c_reg c ESP = sp -> 0 <= sp < 2 ^ 32 - 20 -> Z.land (u16 (c_mem c (sp + 4))) 3 <> Z.land (c_cs c) 3 ->
  let c' := step Iret c in let w k := c_mem c (sp + 4 * k) in
  (forall r, r <> ESP -> c_reg c' r = c_reg c r) /\ c_seg c' = c_seg c /\ c_mem c' = c_mem c /\
  c_eip c' = w 0 /\ c_cs c' = u16 (w 1) /\ c_eflags c' = w 2 /\ c_reg c' ESP = w 3 /\ c_ss c' = u16 (w 4).
Proof.
  intros Hsp Hr Hring. cbn [step]. unfold pop. cbn [c_reg set_reg c_mem c_cs reg_no Z.eqb Pos.eqb]. rewrite Hsp.
  rewrite !(u32_small (sp + 4)) by lia. rewrite (u32_small (sp + 4 + 4)) by lia.
  rewrite (proj2 (Z.eqb_neq _ _)) by done. cbn. rewrite !u32_small by (rewrite ?u32_small; lia). split.
  - intros r Hne. rewrite (proj2 (Z.eqb_neq (reg_no r) 4)); [done|]. by destruct r.
  - do 2 (split; [done|]). repeat split; first [f_equal; lia|do 2 f_equal; lia].
Qed.

Lemma leave_spec d tf : c_reg d ESP = tf - 4 -> 4 <= tf < 2 ^ 32 - 76 -> Z.land (c_cs d) 3 = 0 ->
  let t := trapframe_at (c_mem d) tf in let c := leave d in
  Z.land (tf_cs t) 3 <> 0 ->
  (c_reg c EDI, c_reg c ESI, c_reg c EBP, c_reg c EBX, c_reg c EDX, c_reg c ECX, c_reg c EAX, c_reg c ESP) =
    (tf_edi t, tf_esi t, tf_ebp t, tf_ebx t, tf_edx t, tf_ecx t, tf_eax t, tf_esp t) /\
  (c_seg c GS, c_seg c FS, c_seg c ES, c_seg c DS) = (tf_gs t, tf_fs t, tf_es t, tf_ds t) /\
  (c_eip c, c_cs c, c_eflags c, c_ss c) = (tf_eip t, tf_cs t, tf_eflags t, tf_ss t) /\ c_mem c = c_mem d.
Proof.
  intros Hsp Htf Hcs t c Hring. unfold c, leave, steps, after_trap, trapret. cbn [fold_left].
  set (d0 := step (Addl 4 ESP) d). assert (H0 : c_reg d0 ESP = tf) by (unfold d0; cbn [step]; rewrite set_reg_eq, Hsp, u32_small by lia; lia).
  assert (M0 : c_mem d0 = c_mem d) by done. assert (R0 : rest_of d0 = rest_of d) by done. clearbody d0.
  destruct (popal_spec d0 tf H0) as (A1 & A2 & A3 & G0 & G1 & G2 & G4 & G5 & G6 & G7); [lia|].
  revert A1 A2 A3 G0 G1 G2 G4 G5 G6 G7. generalize (step Popal d0). intros d1 A1 A2 A3 G0 G1 G2 G4 G5 G6 G7.
  destruct (popseg_spec d1 GS _ A1) as (B1 & B2 & B3 & B4 & _ & B6); [lia|].
  revert B1 B2 B3 B4 B6. generalize (step (PopSeg GS) d1). intros d2 B1 B2 B3 B4 B6.
  destruct (popseg_spec d2 FS _ B1) as (C1 & C2 & C3 & C4 & C5 & C6); [lia|].
  revert C1 C2 C3 C4 C5 C6. generalize (step (PopSeg FS) d2). intros d3 C1 C2 C3 C4 C5 C6.
  destruct (popseg_spec d3 ES _ C1) as (D1 & D2 & D3 & D4 & D5 & D6); [lia|].
  revert D1 D2 D3 D4 D5 D6. generalize (step (PopSeg ES) d3). intros d4 D1 D2 D3 D4 D5 D6.
  destruct (popseg_spec d4 DS _ D1) as (E1 & E2 & E3 & E4 & E5 & E6); [lia|].
  revert E1 E2 E3 E4 E5 E6. generalize (step (PopSeg DS) d4). intros d5 E1 E2 E3 E4 E5 E6.
  set (d6 := step (Addl 8 ESP) d5). assert (H6 : c_reg d6 ESP = tf + 56) by (unfold d6; cbn [step]; rewrite set_reg_eq, E1, u32_small by lia; lia).
  assert (R6 : (forall r, r <> ESP -> c_reg d6 r = c_reg d5 r) /\ c_mem d6 = c_mem d5 /\ c_seg d6 = c_seg d5 /\ c_cs d6 = c_cs d5).
  { split; [intros r Hr; by apply set_reg_ne|done]. }
  clearbody d6. destruct R6 as (R6 & M6 & S6 & Q6).
  assert (M : c_mem d6 = c_mem d) by (by rewrite M6, E3, D3, C3, B3, A2, M0).
  assert (Hk : c_cs d6 = c_cs d).
  { rewrite Q6. injection E6 as -> _ _ _. injection D6 as -> _ _ _. injection C6 as -> _ _ _. injection B6 as -> _ _ _.
    injection A3 as _ -> _ _ _. by injection R0. }
  assert (W : forall k, 0 <= k <= 18 -> u32 (tf + 4 * k) = tf + 4 * k) by (intros; apply u32_small; lia).
  destruct (iret_spec d6 (tf + 56) H6) as (I1 & I2 & I3 & I4 & I5 & I6 & I7 & I8); [lia| |].
  { rewrite M, Hk, Hcs. replace (tf + 56 + 4) with (u32 (tf + 4 * 15)); [exact Hring|rewrite W by lia; lia]. }
  revert I1 I2 I3 I4 I5 I6 I7 I8. generalize (step Iret d6). intros d7 I1 I2 I3 I4 I5 I6 I7 I8. clear c.
  rewrite !I1, !R6, !E2, !D2, !C2, !B2 by done. rewrite I2, S6, E4, !E5, D4, !D5, C4, C5, B4 by done.
  rewrite I3, I4, I5, I6, I7, I8, G0, G1, G2, G4, G5, G6, G7, M, D3, C3, B3, A2, M0. unfold t, trapframe_at.
  cbn [tf_edi tf_esi tf_ebp tf_ebx tf_edx tf_ecx tf_eax tf_esp tf_gs tf_fs tf_es tf_ds tf_eip tf_cs tf_eflags tf_ss].
  rewrite !W by lia. replace (tf + 32) with (tf + 4 * 8) by lia. replace (tf + 4 * 8 + 4) with (tf + 4 * 9) by lia.
  replace (tf + 4 * 9 + 4) with (tf + 4 * 10) by lia. replace (tf + 4 * 10 + 4) with (tf + 4 * 11) by lia.
  replace (tf + 56 + 4 * 0) with (tf + 4 * 14) by lia. replace (tf + 56 + 4 * 1) with (tf + 4 * 15) by lia.
  replace (tf + 56 + 4 * 2) with (tf + 4 * 16) by lia. replace (tf + 56 + 4 * 3) with (tf + 4 * 17) by lia.
  replace (tf + 56 + 4 * 4) with (tf + 4 * 18) by lia. done.
Qed.

(** A trap gives the interrupted program back as it was.  Between the entry and the
    exit code trap() runs; when it leaves the frame and the stack pointer as they were,
    the program continues after the trap with all registers, its segments, flags and
    stack; what trap() changes in the frame, such as eax for the value of a system call,
    is what the program sees in the register. *)
Lemma trap_returns_spec esp0 n err c d eax :
  Z.land (c_cs c) 3 <> 0 -> 80 <= esp0 < 2 ^ 32 ->
  0 <= c_cs c < 2 ^ 16 -> 0 <= c_ss c < 2 ^ 16 -> (forall s, 0 <= c_seg c s < 2 ^ 16) ->
  let tf := esp0 - 76 in
  c_reg d ESP = tf - 4 -> Z.land (c_cs d) 3 = 0 ->
  trapframe_at (c_mem d) tf = with_tf_eax eax (trapframe_at (c_mem (enter esp0 n err c)) tf) ->
  let c' := leave d in
  c_reg c' EAX = eax /\ (forall r, r <> EAX -> c_reg c' r = c_reg c r) /\ (forall s, c_seg c' s = c_seg c s) /\
  c_eip c' = c_eip c /\ c_cs c' = c_cs c /\ c_eflags c' = c_eflags c /\ c_ss c' = c_ss c /\ c_mem c' = c_mem d.
Proof.
  intros Hu He Hcs Hss Hseg tf Hsp Hring Hf.
  destruct (trap_frame_spec esp0 n err c Hu ltac:(lia) Hcs Hss Hseg) as (_ & _ & _ & _ & Et). fold tf in Et. rewrite Et in Hf. clear Et.
  destruct (leave_spec d tf Hsp ltac:(lia) Hring) as (E1 & E2 & E3 & E4); rewrite Hf in *; [done|].
  revert E1 E2 E3 E4. generalize (leave d). intros c' E1 E2 E3 E4. cbn in E1, E2, E3. injection E1 as ? ? ? ? ? ? ? ?. injection E2 as ? ? ? ?. injection E3 as ? ? ? ?.
  cbv zeta. repeat split; try done; [intros []|intros []]; done.
Qed.


(** ** System calls *)

(** A C call of a system call stub.  The kernel sees the number of the call in eax
    and the arguments where argint looks for them, at esp + 4 + 4n of the frame, the place
    of the n-th argument of the C call; and when the kernel has put its value in eax of the
    frame and left the stack of the program alone, the stub returns that value to its
    caller, with the other registers as they were. *)
Theorem stub_correct s esp0 c sp :
  in_user c -> 80 <= esp0 < 2 ^ 32 -> c_reg c ESP = sp -> 0 <= sp < 2 ^ 32 - 4 ->
  let tf := esp0 - 76 in let c1 := enter esp0 T_SYSCALL 0 (steps (stub s) c) in let t := trapframe_at (c_mem c1) tf in
  tf_trapno t = T_SYSCALL /\ tf_eax t = sysno s /\ tf_esp t = sp /\
  forall d v, c_reg d ESP = tf - 4 -> Z.land (c_cs d) 3 = 0 -> trapframe_at (c_mem d) tf = with_tf_eax v t -> c_mem d sp = c_mem c sp ->
    let r := steps stub_end (leave d) in
    c_reg r EAX = v /\ c_eip r = c_mem c sp /\ c_reg r ESP = sp + 4 /\ forall x, x <> EAX -> x <> ESP -> c_reg r x = c_reg c x.
Proof.
  intros [Hu Hcs Hss Hseg] He Hsp Hr. cbv zeta. set (c0 := steps (stub s) c).
  assert (Hc0 : c_reg c0 EAX = sysno s /\ (forall x, x <> EAX -> c_reg c0 x = c_reg c x) /\ c_cs c0 = c_cs c /\ c_ss c0 = c_ss c /\ c_seg c0 = c_seg c).
  { split; [apply set_reg_eq|]. split; [intros x Hx; by apply set_reg_ne|done]. }
  destruct Hc0 as (G1 & G2 & G3 & G4 & G5). clearbody c0. rewrite <- G3 in Hu, Hcs. rewrite <- G4 in Hss. rewrite <- G5 in Hseg.
  destruct (trap_frame_spec esp0 T_SYSCALL 0 c0 Hu ltac:(lia) Hcs Hss Hseg) as (_ & _ & _ & _ & Et).
  split; [by rewrite Et|]. split; [by rewrite Et|]. split; [rewrite Et; cbn; by rewrite G2|].
  intros d v Hd Hring Hf Hret. destruct (trap_returns_spec esp0 T_SYSCALL 0 c0 d v Hu He Hcs Hss Hseg Hd Hring Hf) as (R1 & R2 & _ & _ & _ & _ & _ & Rm).
  revert R1 R2 Rm. generalize (leave d). intros e R1 R2 Rm. unfold steps, stub_end. cbn [fold_left step]. unfold pop. cbv zeta.
  assert (Hesp : c_reg e ESP = sp) by (rewrite R2, G2 by done; done). rewrite Hesp, Rm, Hret, u32_small by lia.
  rewrite !set_eip_reg, set_reg_eq, set_reg_ne by done. split; [done|]. split; [done|]. split; [done|].
  intros x Hx Hx'. rewrite set_eip_reg, set_reg_ne by done. rewrite R2, G2 by done. done.
Qed.

(** The stubs of usys.S and the table of syscall.c agree on the numbers of syscall.h. *)
Section Table.
Context `{!Driver} `{!DevSw} `{!Image} `{!Entry}.

Definition handler (s : sysname) : K Z :=
  match s with
  | SYS_fork => sys_fork | SYS_exit => sys_exit | SYS_wait => sys_wait | SYS_pipe => sys_pipe | SYS_read => sys_read
  | SYS_kill => sys_kill | SYS_exec => sys_exec | SYS_fstat => sys_fstat | SYS_chdir => sys_chdir | SYS_dup => sys_dup
  | SYS_getpid => sys_getpid | SYS_sbrk => sys_sbrk | SYS_sleep => sys_sleep | SYS_uptime => sys_uptime
  | SYS_open => sys_open | SYS_write => sys_write | SYS_mknod => sys_mknod | SYS_unlink => sys_unlink
  | SYS_link => sys_link | SYS_mkdir => sys_mkdir | SYS_close => sys_close | SYS_swapread => sys_swapread
  | SYS_swapwrite => sys_swapwrite | SYS_swapstat => sys_swapstat
  end.

Lemma syscalls_handler s : syscalls (sysno s) = Some (handler s).
Proof. by destruct s. Qed.
End Table.

(** initcode.S calls exec: its number, and its two arguments where a C call puts them. *)
Lemma initcode_exec init argv c sp : c_reg c ESP = sp -> 12 <= sp < 2 ^ 32 ->
  let c' := steps (initcode_start init argv) c in
  c_reg c' EAX = sysno SYS_exec /\ c_reg c' ESP = sp - 12 /\ c_mem c' (sp - 12 + 4) = init /\ c_mem c' (sp - 12 + 8) = argv.
Proof.
  intros Hsp Hr. change (steps (initcode_start init argv) c) with (set_reg EAX (sysno SYS_exec) (pushes [argv; init; 0] c)).
  destruct (pushes_spec [argv; init; 0] c sp Hsp) as (P1 & _ & _ & P4 & _); [cbn [length]; lia|].
  cbv zeta. rewrite set_reg_eq, set_reg_ne, P1 by done. rewrite decide_False by done. cbn [length]. split; [done|]. split; [lia|].
  change (c_mem (set_reg EAX (sysno SYS_exec) (pushes [argv; init; 0] c))) with (c_mem (pushes [argv; init; 0] c)).
  rewrite <- (P4 1%nat init eq_refl) at 2. rewrite <- (P4 0%nat argv eq_refl) at 4. split; f_equal; lia.
Qed.

(** ** Witnesses *)
Definition demo_reg (sp : Z) (r : reg) : Z :=
  match r with EAX => 1 | ECX => 2 | EDX => 3 | EBX => 4 | ESP => sp | EBP => 5 | ESI => 6 | EDI => 7 end.
Definition demo_cpu (sp cs : Z) (m : Z -> Z) : cpu_state := mk_cpu_state (demo_reg sp) (fun _ => 35) cs 35 4096 512 m.

(** A caller at 1000 that saves its context for the pointer at 5000, and a later one at
    2000 that switches back. *)
Definition demo_first : cpu_state :=
  demo_cpu 1000 8 (fun a => if a =? 1000 then 77 else if a =? 1004 then 5000 else if a =? 1008 then 3000 else 0).
Definition demo_second : cpu_state :=
  demo_cpu 2000 8 (fun a => if a =? 2004 then 6000 else if a =? 2008 then 984 else c_mem (steps swtch demo_first) a).

Lemma demo_first_call : swtch_call demo_first 1000 5000 3000.
Proof. split; try reflexivity; lia. Qed.

Lemma swtch_resumes_witness :
  c_eip (steps swtch demo_second) = 77 /\ c_reg (steps swtch demo_second) ESP = 1004 /\ c_reg (steps swtch demo_second) EBX = 4.
Proof.
  destruct (swtch_resumes demo_first 1000 5000 3000 demo_second 2000 6000 demo_first_call) as (E1 & E2 & E3).
  - intros a Ha. unfold demo_second, demo_cpu. cbn [c_mem]. by rewrite !(proj2 (Z.eqb_neq _ _)) by lia.
  - split; try reflexivity; change (c_mem (steps swtch demo_first) 5000) with 984; lia.
  - split; [exact E1|]. split; [exact E2|]. apply E3. constructor.
Defined.

(** A program at ring 3 whose call returns to 99. *)
Definition demo_user : cpu_state := demo_cpu 0x2000 27 (fun a => if a =? 0x2000 then 99 else 0).

Lemma demo_in_user : in_user demo_user.
Proof. split; [done|vm_compute; split; congruence|vm_compute; split; congruence|]. intros s. cbn. lia. Qed.


(** A kernel that answers 42 to a read. *)
Definition demo_answer : cpu_state :=
  let c := enter 0x100000 T_SYSCALL 0 (steps (stub SYS_read) demo_user) in set_word (0x100000 - 76 + 28) 42 c.

Lemma stub_correct_witness :
  let r := steps stub_end (leave demo_answer) in
  tf_eax (trapframe_at (c_mem (enter 0x100000 T_SYSCALL 0 (steps (stub SYS_read) demo_user))) (0x100000 - 76)) = 5 /\
  c_reg r EAX = 42 /\ c_eip r = 99 /\ c_reg r ESP = 0x2004.
Proof.
  destruct (stub_correct SYS_read 0x100000 demo_user 0x2000 demo_in_user ltac:(lia) eq_refl ltac:(lia)) as (_ & E2 & _ & H).
  destruct (H demo_answer 42 ltac:(vm_compute; reflexivity) ltac:(vm_compute; reflexivity) ltac:(vm_compute; reflexivity) ltac:(vm_compute; reflexivity))
    as (R1 & R2 & R3 & _).
  cbv zeta. split; [exact E2|]. split; [exact R1|]. split; [exact R2|exact R3].
Defined.
