(* ===== verification/Devices.v ===== *)
(** The interrupt controllers, the clock and the serial port: lapic.c, ioapic.c, picirq.c
    and the initialisation of uart.c.

    What the code does to the hardware is the list of its accesses, the last one first.
    What a read returns is up to the device, a function of the accesses made before and of
    the place that is read. *)

From S2P Require Import Prelude Layout CString Console Trap.
Local Open Scope kernel_scope.

(** The places that can be accessed: I/O ports, registers of the local APIC, the two
    registers of the I/O APIC, and words of low memory. *)
Inductive place := Port (p : Z) | Lapic (i : Z) | IoReg | IoData | Low16 (a : Z).
Inductive io_event := Wr (x : place) (v : Z) | Rd (x : place) (v : Z).

#[export] Instance place_eq : EqDecision place.
Proof. solve_decision. Defined.

Abbreviation IO := (M (list io_event)).

Section Devices.
Variable dev : list io_event -> place -> Z.

Definition wr (x : place) (v : Z) : IO unit := fun l => Ok tt (Wr x v :: l).
Definition rd (x : place) : IO Z := fun l => let v := dev l x in Ok v (Rd x v :: l).

Definition outb (port v : Z) : IO unit := wr (Port port) (u8 v).
Definition inb (port : Z) : IO Z := let! v := rd (Port port) in ret (u8 v).

(** ** lapic.c *)
Definition ID : Z := 0x20 / 4.
Definition VER : Z := 0x30 / 4.
Definition TPR : Z := 0x80 / 4.
Definition EOI : Z := 0xB0 / 4.
Definition SVR : Z := 0xF0 / 4.
Definition ESR : Z := 0x280 / 4.
Definition ICRLO : Z := 0x300 / 4.
Definition ICRHI : Z := 0x310 / 4.
Definition TIMER : Z := 0x320 / 4.
Definition PCINT : Z := 0x340 / 4.
Definition LINT0 : Z := 0x350 / 4.
Definition LINT1 : Z := 0x360 / 4.
Definition ERROR : Z := 0x370 / 4.
Definition TICR : Z := 0x380 / 4.
Definition TDCR : Z := 0x3E0 / 4.
Definition ENABLE : Z := 0x100.
Definition INIT : Z := 0x500.
Definition STARTUP : Z := 0x600.
Definition DELIVS : Z := 0x1000.
Definition ASSERT : Z := 0x4000.
Definition LEVEL : Z := 0x8000.
Definition BCAST : Z := 0x80000.
Definition X1 : Z := 0xB.
Definition PERIODIC : Z := 0x20000.
Definition MASKED : Z := 0x10000.
Definition IRQ_ERROR : Z := 19.

Definition lapicw (index value : Z) : IO unit :=
  wr (Lapic index) (u32 value) ;;;
  let! _ := rd (Lapic ID) in
  ret tt.

(** [while(lapic[ICRLO] & DELIVS);] *)
Fixpoint wait_delivered (fuel : nat) : IO unit :=
  match fuel with
  | O => hang
  | S fuel' =>
      let! v := rd (Lapic ICRLO) in
      if negb (Z.land v DELIVS =? 0) then wait_delivered fuel' else ret tt
  end.

(** [present] says that mpinit has found the address of the local APIC. *)
Definition lapicinit (fuel : nat) (present : bool) : IO unit :=
  if negb present then ret tt else
  lapicw SVR (Z.lor ENABLE (T_IRQ0 + IRQ_SPURIOUS)) ;;;
  lapicw TDCR X1 ;;;
  lapicw TIMER (Z.lor PERIODIC (T_IRQ0 + IRQ_TIMER)) ;;;
  lapicw TICR 10000000 ;;;
  lapicw LINT0 MASKED ;;;
  lapicw LINT1 MASKED ;;;
  let! ver := rd (Lapic VER) in
  when (4 <=? Z.land (Z.shiftr ver 16) 0xFF) (lapicw PCINT MASKED) ;;;
  lapicw ERROR (T_IRQ0 + IRQ_ERROR) ;;;
  lapicw ESR 0 ;;;
  lapicw ESR 0 ;;;
  lapicw EOI 0 ;;;
  lapicw ICRHI 0 ;;;
  lapicw ICRLO (Z.lor BCAST (Z.lor INIT LEVEL)) ;;;
  wait_delivered fuel ;;;
  lapicw TPR 0.

Definition lapicid (present : bool) : IO Z :=
  if negb present then ret 0 else
  let! v := rd (Lapic ID) in
  ret (Z.shiftr v 24).

Definition lapiceoi (present : bool) : IO unit := when present (lapicw EOI 0).

Definition CMOS_PORT : Z := 0x70.
Definition CMOS_RETURN : Z := 0x71.

(** microdelay does nothing. *)
Definition lapicstartap (apicid addr : Z) : IO unit :=
  outb CMOS_PORT 0xF ;;;
  outb (CMOS_PORT + 1) 0x0A ;;;
  let wrv := Z.lor (Z.shiftl 0x40 4) 0x67 in
  wr (Low16 wrv) 0 ;;;
  wr (Low16 (wrv + 2)) (u16 (Z.shiftr addr 4)) ;;;
  lapicw ICRHI (Z.shiftl apicid 24) ;;;
  lapicw ICRLO (Z.lor INIT (Z.lor LEVEL ASSERT)) ;;;
  lapicw ICRLO (Z.lor INIT LEVEL) ;;;
  lapicw ICRHI (Z.shiftl apicid 24) ;;;
  lapicw ICRLO (Z.lor STARTUP (Z.shiftr addr 12)) ;;;
  lapicw ICRHI (Z.shiftl apicid 24) ;;;
  lapicw ICRLO (Z.lor STARTUP (Z.shiftr addr 12)).

Definition CMOS_STATA : Z := 0x0a.
Definition CMOS_STATB : Z := 0x0b.
Definition CMOS_UIP : Z := Z.shiftl 1 7.
Definition SECS : Z := 0x00.
Definition MINS : Z := 0x02.
Definition HOURS : Z := 0x04.
Definition DAY : Z := 0x07.
Definition MONTH : Z := 0x08.
Definition YEAR : Z := 0x09.

Definition cmos_read (reg : Z) : IO Z := outb CMOS_PORT reg ;;; inb CMOS_RETURN.

(** struct rtcdate of date.h *)
Record rtcdate := mk_rtcdate { second : Z; minute : Z; hour : Z; day : Z; month : Z; year : Z }.

#[export] Instance rtcdate_eq : EqDecision rtcdate.
Proof. solve_decision. Defined.

Definition fill_rtcdate : IO rtcdate :=
  let! s := cmos_read SECS in
  let! mi := cmos_read MINS in
  let! h := cmos_read HOURS in
  let! d := cmos_read DAY in
  let! mo := cmos_read MONTH in
  let! y := cmos_read YEAR in
  ret (mk_rtcdate s mi h d mo y).

(** The loop of cmostime: two equal readings, with no update in progress between. *)
Fixpoint stable_date (fuel : nat) : IO rtcdate :=
  match fuel with
  | O => hang
  | S fuel' =>
      let! t1 := fill_rtcdate in
      let! a := cmos_read CMOS_STATA in
      if negb (Z.land a CMOS_UIP =? 0) then stable_date fuel' else
      let! t2 := fill_rtcdate in
      if bool_decide (t1 = t2) then ret t1 else stable_date fuel'
  end.

Definition CONV (x : Z) : Z := u32 (Z.shiftr x 4 * 10 + Z.land x 0xf).

Definition cmostime (fuel : nat) : IO rtcdate :=
  let! sb := cmos_read CMOS_STATB in
  let bcd := Z.land sb (Z.shiftl 1 2) =? 0 in
  let! t1 := stable_date fuel in
  let t1 := if bcd then mk_rtcdate (CONV (second t1)) (CONV (minute t1)) (CONV (hour t1)) (CONV (day t1)) (CONV (month t1)) (CONV (year t1)) else t1 in
  ret (mk_rtcdate (second t1) (minute t1) (hour t1) (day t1) (month t1) (u32 (year t1 + 2000))).

(** ** ioapic.c *)
Definition REG_ID : Z := 0x00.
Definition REG_VER : Z := 0x01.
Definition REG_TABLE : Z := 0x10.
Definition INT_DISABLED : Z := 0x10000.

Definition ioapicread (reg : Z) : IO Z := wr IoReg reg ;;; rd IoData.
Definition ioapicwrite (reg data : Z) : IO unit := wr IoReg reg ;;; wr IoData (u32 data).

(** [n] turns of the loop that masks the interrupts, from [i]. *)
Fixpoint mask_loop (n : nat) (i : Z) : IO unit :=
  match n with
  | O => ret tt
  | S n' =>
      ioapicwrite (REG_TABLE + 2 * i) (Z.lor INT_DISABLED (T_IRQ0 + i)) ;;;
      ioapicwrite (REG_TABLE + 2 * i + 1) 0 ;;;
      mask_loop n' (i + 1)
  end.

(** The result says whether the warning about the id is printed. *)
Definition ioapicinit (ioapicid : Z) : IO bool :=
  let! v := ioapicread REG_VER in
  let maxintr := Z.land (Z.shiftr v 16) 0xFF in
  let! id := ioapicread REG_ID in
  mask_loop (Z.to_nat (maxintr + 1)) 0 ;;;
  ret (negb (Z.shiftr id 24 =? ioapicid)).

Definition ioapicenable (irq cpunum : Z) : IO unit :=
  ioapicwrite (REG_TABLE + 2 * irq) (T_IRQ0 + irq) ;;;
  ioapicwrite (REG_TABLE + 2 * irq + 1) (Z.shiftl cpunum 24).

(** ** picirq.c *)
Definition IO_PIC1 : Z := 0x20.
Definition IO_PIC2 : Z := 0xA0.

Definition picinit : IO unit := outb (IO_PIC1 + 1) 0xFF ;;; outb (IO_PIC2 + 1) 0xFF.

(** ** uart.c *)
Definition COM1 : Z := 0x3f8.

(** At most 128 polls of the status register. *)
Fixpoint uart_ready (n : nat) : IO unit :=
  match n with
  | O => ret tt
  | S n' =>
      let! v := inb (COM1 + 5) in
      if Z.land v 0x20 =? 0 then uart_ready n' else ret tt
  end.

Definition uartputc (uart : bool) (c : Z) : IO unit :=
  if negb uart then ret tt else uart_ready 128 ;;; outb (COM1 + 0) c.

Definition uartgetc (uart : bool) : IO Z :=
  if negb uart then ret (-1) else
  let! v := inb (COM1 + 5) in
  if Z.land v 0x01 =? 0 then ret (-1) else inb (COM1 + 0).

Fixpoint uart_print (s : list Z) : IO unit :=
  match s with
  | [] => ret tt
  | c :: s' => uartputc true c ;;; uart_print s'
  end.

(** The result is the variable uart: whether there is a serial port. *)
Definition uartinit : IO bool :=
  outb (COM1 + 2) 0 ;;;
  outb (COM1 + 3) 0x80 ;;;
  outb (COM1 + 0) (115200 / 9600) ;;;
  outb (COM1 + 1) 0 ;;;
  outb (COM1 + 3) 0x03 ;;;
  outb (COM1 + 4) 0 ;;;
  outb (COM1 + 1) 0x01 ;;;
  let! v := inb (COM1 + 5) in
  if v =? 0xFF then ret false else
  let! _ := inb (COM1 + 2) in
  let! _ := inb (COM1 + 0) in
  ioapicenable IRQ_COM1 0 ;;;
  uart_print (str "xv6..." ++ [10]) ;;;
  ret true.
End Devices.

(** * The clock *)

(** The CMOS register selected by the last write to its port. *)
Fixpoint selected (l : list io_event) : Z :=
  match l with
  | [] => 0
  | Wr (Port p) v :: l' => if p =? CMOS_PORT then v else selected l'
  | _ :: l' => selected l'
  end.

(** A clock with the given registers. *)
Definition clock (dev : list io_event -> place -> Z) (regs : Z -> Z) : Prop :=
  (forall l, dev l (Port CMOS_RETURN) = regs (selected l)) /\ forall r, 0 <= regs r < 256.

Lemma cmos_read_spec dev regs reg l : clock dev regs -> 0 <= reg < 256 ->
  exists l', cmos_read dev reg l = Ok (regs reg) l'.
Proof.
  intros [Hd Hb] Hr. unfold cmos_read, outb, inb, wr, rd, bind, ret. cbn [obind]. rewrite Hd. cbn [selected].
  rewrite Z.eqb_refl, (u8_small reg), u8_small by (apply Hb || done). by eexists.
Qed.

Definition date_of (regs : Z -> Z) : rtcdate :=
  mk_rtcdate (regs SECS) (regs MINS) (regs HOURS) (regs DAY) (regs MONTH) (regs YEAR).

Lemma fill_rtcdate_spec dev regs l : clock dev regs -> exists l', fill_rtcdate dev l = Ok (date_of regs) l'.
Proof.
  intros Hc. unfold fill_rtcdate.
  destruct (cmos_read_spec dev regs SECS l Hc ltac:(done)) as [l1 E1]. rewrite (bind_ok _ _ _ _ _ E1).
  destruct (cmos_read_spec dev regs MINS l1 Hc ltac:(done)) as [l2 E2]. rewrite (bind_ok _ _ _ _ _ E2).
  destruct (cmos_read_spec dev regs HOURS l2 Hc ltac:(done)) as [l3 E3]. rewrite (bind_ok _ _ _ _ _ E3).
  destruct (cmos_read_spec dev regs DAY l3 Hc ltac:(done)) as [l4 E4]. rewrite (bind_ok _ _ _ _ _ E4).
  destruct (cmos_read_spec dev regs MONTH l4 Hc ltac:(done)) as [l5 E5]. rewrite (bind_ok _ _ _ _ _ E5).
  destruct (cmos_read_spec dev regs YEAR l5 Hc ltac:(done)) as [l6 E6]. rewrite (bind_ok _ _ _ _ _ E6). by eexists.
Qed.

(** Two decimal digits in one byte. *)
Definition bcd (x : Z) : Z := 16 * (x / 10) + x mod 10.

Lemma CONV_bcd x : 0 <= x < 100 -> CONV (bcd x) = x.
Proof.
  intros Hx. unfold CONV, bcd. rewrite Z.shiftr_div_pow2 by lia. change 0xf with (Z.ones 4). rewrite Z.land_ones by lia.
  change (2 ^ 4) with 16. assert (0 <= x mod 10 < 10) by (apply Z.mod_pos_bound; lia).
  rewrite <- (Z.div_unique (16 * (x / 10) + x mod 10) 16 (x / 10) (x mod 10)) by lia.
  rewrite <- (Z.mod_unique (16 * (x / 10) + x mod 10) 16 (x / 10) (x mod 10)) by lia.
  rewrite u32_small; zdiv.
Qed.

Record date_ok (t : rtcdate) : Prop := mk_date_ok {
  dt_second : 0 <= second t < 100; dt_minute : 0 <= minute t < 100; dt_hour : 0 <= hour t < 100;
  dt_day : 0 <= day t < 100; dt_month : 0 <= month t < 100; dt_year : 2000 <= year t < 2100 }.

(** The registers of a clock that shows the date [t], in binary coded decimal. *)
Definition shows (regs : Z -> Z) (t : rtcdate) : Prop :=
  date_of regs = mk_rtcdate (bcd (second t)) (bcd (minute t)) (bcd (hour t)) (bcd (day t)) (bcd (month t)) (bcd (year t - 2000)) /\
  Z.land (regs CMOS_STATA) CMOS_UIP = 0 /\ Z.land (regs CMOS_STATB) (Z.shiftl 1 2) = 0.

(** Cmostime reads the date a clock shows in binary coded decimal, and returns after
    one reading that its second reading confirms. *)
Theorem cmostime_correct dev regs t fuel l :
  clock dev regs -> date_ok t -> shows regs t -> (0 < fuel)%nat -> exists l', cmostime dev fuel l = Ok t l'.
Proof.
  intros Hc [D1 D2 D3 D4 D5 D6] (Hd & Ha & Hb) Hf. unfold cmostime.
  destruct (cmos_read_spec dev regs CMOS_STATB l Hc ltac:(done)) as [l1 E1]. rewrite (bind_ok _ _ _ _ _ E1). rewrite Hb. cbv zeta. change (0 =? 0) with true.
  assert (Hs : exists l2, stable_date dev fuel l1 = Ok (date_of regs) l2).
  { destruct fuel as [|fuel]; [lia|]. cbn [stable_date]. destruct (fill_rtcdate_spec dev regs l1 Hc) as [l2 E2]. rewrite (bind_ok _ _ _ _ _ E2).
    destruct (cmos_read_spec dev regs CMOS_STATA l2 Hc ltac:(done)) as [l3 E3]. rewrite (bind_ok _ _ _ _ _ E3). rewrite Ha. change (negb (0 =? 0)) with false. cbv iota.
    destruct (fill_rtcdate_spec dev regs l3 Hc) as [l4 E4]. rewrite (bind_ok _ _ _ _ _ E4). rewrite bool_decide_true by done. by eexists. }
  destruct Hs as [l2 E2]. rewrite (bind_ok _ _ _ _ _ E2). rewrite Hd. cbn [second minute hour day month year].
  rewrite !CONV_bcd by lia. exists l2. unfold ret. do 2 f_equal. destruct t. cbn in *. f_equal. rewrite u32_small by lia. lia.
Qed.

(** * The I/O APIC *)

(** Its register window: the register selected and the contents of all. *)
Fixpoint window (l : list io_event) : Z * (Z -> Z) :=
  match l with
  | [] => (0, fun _ => 0)
  | Wr IoReg r :: l' => (r, snd (window l'))
  | Wr IoData v :: l' => let '(sel, regs) := window l' in (sel, fun r => if r =? sel then v else regs r)
  | _ :: l' => window l'
  end.
Definition io_reg (l : list io_event) (r : Z) : Z := snd (window l) r.

Lemma ioapicwrite_spec reg data l : 0 <= data < 2 ^ 32 ->
  exists l', ioapicwrite reg data l = Ok tt l' /\ forall r, io_reg l' r = if r =? reg then data else io_reg l r.
Proof. intros Hd. eexists. split; [reflexivity|]. intros r. unfold io_reg. cbn. by rewrite u32_small. Qed.

Lemma ioapicread_ok dev r l :
  let v := dev (Wr IoReg r :: l) IoData in ioapicread dev r l = Ok v (Rd IoData v :: Wr IoReg r :: l).
Proof. done. Qed.

Lemma masked_range i : 0 <= i < 256 -> 0 <= Z.lor INT_DISABLED (T_IRQ0 + i) < 2 ^ 32.
Proof.
  intros Hi. unfold T_IRQ0. split; [apply Z.lor_nonneg; split; [done|lia]|].
  destruct (decide (Z.lor INT_DISABLED (32 + i) = 0)) as [->|Hne]; [done|].
  assert (0 <= Z.lor INT_DISABLED (32 + i)) by (apply Z.lor_nonneg; split; [done|lia]).
  apply Z.log2_lt_pow2; [lia|]. rewrite Z.log2_lor by (done || lia). apply Z.max_lub_lt; [done|].
  apply Z.log2_lt_pow2; lia.
Qed.

Lemma mask_loop_spec n : forall i l, 0 <= i -> i + Z.of_nat n <= 256 ->
  exists l', mask_loop n i l = Ok tt l' /\ (forall k, i <= k < i + Z.of_nat n ->
    io_reg l' (REG_TABLE + 2 * k) = Z.lor INT_DISABLED (T_IRQ0 + k) /\ io_reg l' (REG_TABLE + 2 * k + 1) = 0) /\
  (forall r, r < REG_TABLE + 2 * i \/ REG_TABLE + 2 * (i + Z.of_nat n) <= r -> io_reg l' r = io_reg l r).
Proof.
  induction n as [|n IH]; intros i l H0 Hn.
  { exists l. split; [done|]. split; [lia|done]. }
  cbn [mask_loop]. destruct (ioapicwrite_spec (REG_TABLE + 2 * i) (Z.lor INT_DISABLED (T_IRQ0 + i)) l (masked_range i ltac:(lia))) as (l1 & E1 & H1).
  rewrite (bind_ok _ _ _ _ _ E1). destruct (ioapicwrite_spec (REG_TABLE + 2 * i + 1) 0 l1 ltac:(done)) as (l2 & E2 & H2).
  rewrite (bind_ok _ _ _ _ _ E2). destruct (IH (i + 1) l2 ltac:(lia) ltac:(lia)) as (l3 & E3 & H3 & H4). exists l3. split; [done|]. split.
  - intros k Hk. destruct (decide (k = i)) as [->|Hne]; [|apply H3; lia].
    rewrite !H4, !H2, !H1 by lia. rewrite Z.eqb_refl, (proj2 (Z.eqb_neq _ _)), Z.eqb_refl by lia. done.
  - intros r Hr. rewrite H4, H2, H1 by lia. by rewrite !(proj2 (Z.eqb_neq _ _)) by lia.
Qed.

(** After the initialisation and the enabling of one interrupt exactly that interrupt
    is enabled and goes to the given processor with vector T_IRQ0 + irq; every other
    interrupt of the controller is masked and routed nowhere. *)
Theorem ioapic_routes dev l ioapicid irq cpunum :
  let maxintr := Z.land (Z.shiftr (dev (Wr IoReg REG_VER :: l) IoData) 16) 0xFF in
  0 <= irq <= maxintr -> 0 <= cpunum < 256 ->
  exists b l', (let! b := ioapicinit dev ioapicid in ioapicenable irq cpunum ;;; ret b) l = Ok b l' /\
    forall i, 0 <= i <= maxintr ->
      io_reg l' (REG_TABLE + 2 * i) = (if i =? irq then T_IRQ0 + irq else Z.lor INT_DISABLED (T_IRQ0 + i)) /\
      io_reg l' (REG_TABLE + 2 * i + 1) = (if i =? irq then Z.shiftl cpunum 24 else 0).
Proof.
  intros maxintr Hirq Hcpu. assert (Hmax : 0 <= maxintr < 256).
  { unfold maxintr. change 0xFF with (Z.ones 8). rewrite Z.land_ones by lia. apply Z.mod_pos_bound. lia. }
  assert (E : exists b l1, ioapicinit dev ioapicid l =
    ((mask_loop (Z.to_nat (maxintr + 1)) 0) ;;; ret b) l1).
  { unfold ioapicinit. rewrite (bind_ok _ _ _ _ _ (ioapicread_ok dev REG_VER l)). cbv zeta. rewrite (bind_ok _ _ _ _ _ (ioapicread_ok dev REG_ID _)).
    do 2 eexists. reflexivity. }
  destruct E as (b & l1 & E). destruct (mask_loop_spec (Z.to_nat (maxintr + 1)) 0 l1) as (l2 & E2 & H2 & _); [lia|lia|].
  rewrite (bind_ok _ _ _ _ _ E2) in E. rewrite (bind_ok _ _ _ _ _ E). unfold ioapicenable.
  destruct (ioapicwrite_spec (REG_TABLE + 2 * irq) (T_IRQ0 + irq) l2) as (l3 & E3 & H3); [unfold T_IRQ0; lia|].
  destruct (ioapicwrite_spec (REG_TABLE + 2 * irq + 1) (Z.shiftl cpunum 24) l3) as (l4 & E4 & H4); [rewrite Z.shiftl_mul_pow2 by lia; lia|].
  exists b, l4. split.
  { erewrite bind_ok; [reflexivity|]. by rewrite (bind_ok _ _ _ _ _ E3). }
  intros i Hi. destruct (H2 i ltac:(lia)) as [Hlo Hhi]. rewrite !H4, !H3. destruct (Z.eqb_spec i irq) as [->|Hne].
  - rewrite !Z.eqb_refl. by rewrite (proj2 (Z.eqb_neq _ _)) by lia.
  - rewrite !(proj2 (Z.eqb_neq _ _)) by lia. done.
Qed.

(** ** Witnesses *)

(** Half past noon on 31 December 2026, and an I/O APIC with 24 interrupts. *)
Definition demo_date : rtcdate := mk_rtcdate 5 30 12 31 12 2026.
Definition demo_regs (r : Z) : Z :=
  if r =? SECS then bcd 5 else if r =? MINS then bcd 30 else if r =? HOURS then bcd 12 else if r =? DAY then bcd 31
  else if r =? MONTH then bcd 12 else if r =? YEAR then bcd 26 else 0.
Definition demo_dev (l : list io_event) (x : place) : Z :=
  match x with Port p => if p =? CMOS_RETURN then demo_regs (selected l) else 0 | IoData => 0x170000 | _ => 0 end.

Lemma cmostime_correct_witness : exists l', cmostime demo_dev 1 [] = Ok demo_date l'.
Proof.
  apply (cmostime_correct demo_dev demo_regs demo_date 1 []).
  - split; [done|]. intros r. unfold demo_regs. repeat case_bool; vm_compute; split; congruence.
  - split; cbn; lia.
  - split; [reflexivity|]. split; reflexivity.
  - lia.
Defined.

Lemma ioapic_routes_witness :
  exists b l', (let! b := ioapicinit demo_dev 0 in ioapicenable IRQ_IDE 1 ;;; ret b) [] = Ok b l' /\
    io_reg l' (REG_TABLE + 2 * IRQ_IDE) = 46 /\ io_reg l' (REG_TABLE + 2 * IRQ_KBD) = Z.lor INT_DISABLED 33.
Proof.
  destruct (ioapic_routes demo_dev [] 0 IRQ_IDE 1) as (b & l' & E & H); [vm_compute; split; congruence|lia|].
  exists b, l'. split; [exact E|]. split; [exact (proj1 (H IRQ_IDE ltac:(vm_compute; split; congruence)))|].
  exact (proj1 (H IRQ_KBD ltac:(vm_compute; split; congruence))).
Defined.
