(* ===== verification/SyscallSafe.v ===== *)
(** System calls: arguments stay within the process, and file descriptors keep the
    reference counts of the files they name. *)

From S2P Require Import Prelude Layout CString Printf State Spinlock Sched Mem Sleeplock Ring Memide Bio Log Fs.
From S2P Require Import Kalloc KallocSafe Vm Pipe File Proc Console Syscall Sysfile Trap.
Local Open Scope kernel_scope.

(** * Arguments *)

(** Process [i] runs, with all its memory mapped. *)
Record user_ok (i : nat) (p : proc) (s : kstate) : Prop := mk_user_ok {
  uo_sync : sync_ok (k_sync s);
  uo_cur : cur_proc (k_sync s) = Some i;
  uo_proc : procs (k_ptable s) !! i = Some p;
  uo_size : 0 <= p_sz p <= KERNBASE;
  uo_pgdir : p_pgdir p <> 0;
  uo_esp : 0 <= tf_esp (p_tf p) < 2 ^ 32;
  uo_mapped : forall a, 0 <= a < p_sz p -> is_Some (user_ka (k_mem s) (p_pgdir p) a) }.

(** The byte at a user address. *)
Definition user_byte (p : proc) (s : kstate) (a : Z) : Z :=
  match user_ka (k_mem s) (p_pgdir p) a with Some k => ldb (k_mem s) k | None => 0 end.

Lemma curproc_ok s i : sync_ok (k_sync s) -> cur_proc (k_sync s) = Some i -> curproc s = Ok i s.
Proof.
  intros Hy Hc. unfold curproc.
  assert (Hm : on_sync myproc s = Ok (Some i) s) by (apply on_sync_pure; rewrite (myproc_cur _ Hy); by rewrite Hc).
  by rewrite (bind_ok _ _ _ _ _ Hm).
Qed.

Lemma get_proc_ok s i p : procs (k_ptable s) !! i = Some p -> get_proc i s = Ok p s.
Proof. intros H. unfold get_proc. by rewrite H. Qed.

Section args.
Context (i : nat) (p : proc) (s : kstate) (Hu : user_ok i p s).

Lemma user_self : curproc s = Ok i s.
Proof. destruct Hu. by apply curproc_ok. Qed.

Lemma user_vaddr a : 0 <= a < p_sz p -> vaddr_ka s a = user_ka (k_mem s) (p_pgdir p) a.
Proof.
  intros Ha. destruct Hu. unfold vaddr_ka, active_pgdir. rewrite uo_cur0. cbn. rewrite uo_proc0.
  rewrite (proj2 (Z.leb_gt KERNBASE a)), (proj2 (Z.eqb_neq _ 0)) by (done || lia). done.
Qed.

Lemma user_vldb a : 0 <= a < p_sz p -> vldb a s = Ok (user_byte p s a) s.
Proof.
  intros Ha. destruct (uo_mapped _ _ _ Hu a Ha) as [k Hk]. unfold vldb, user_byte. rewrite user_vaddr, Hk by done. done.
Qed.

Lemma user_vload n : forall a, 0 <= a -> a + Z.of_nat n <= p_sz p ->
  vload a n s = Ok ((fun j => user_byte p s (a + Z.of_nat j)) <$> seq 0 n) s.
Proof.
  induction n as [|n IH]; intros a Ha Hn; [done|]. cbn [vload].
  rewrite (bind_ok _ _ _ _ _ (user_vldb a ltac:(lia))), (bind_ok _ _ _ _ _ (IH (a + 1) ltac:(lia) ltac:(lia))).
  cbn [seq fmap list_fmap]. rewrite Z.add_0_r, <- fmap_S_seq, <- list_fmap_compose. do 2 f_equal.
  apply list_fmap_ext. intros j x _. cbn. f_equal. lia.
Qed.

(** The word at a user address. *)
Definition user_word (a : Z) : Z := le_val ((fun j => user_byte p s (a + Z.of_nat j)) <$> seq 0 4).

Lemma fetchint_run addr : 0 <= addr < 2 ^ 32 ->
  fetchint addr s = Ok (if addr + 4 <=? p_sz p then Some (s32 (user_word addr)) else None) s.
Proof.
  intros Ha. pose proof (uo_size _ _ _ Hu) as Hsz. unfold fetchint. rewrite (bind_ok _ _ _ _ _ user_self).
  rewrite (bind_ok _ _ _ _ _ (get_proc_ok s i p (uo_proc _ _ _ Hu))). unfold KERNBASE in Hsz.
  destruct (Z.leb_spec (p_sz p) addr); cbn [orb]; [by rewrite (proj2 (Z.leb_gt _ _)) by lia|].
  rewrite u32_small by lia. destruct (Z.ltb_spec (p_sz p) (addr + 4)).
  - by rewrite (proj2 (Z.leb_gt _ _)) by lia.
  - rewrite (proj2 (Z.leb_le _ _)) by lia. unfold vld32.
    erewrite bind_ok by (erewrite bind_ok by (apply user_vload; lia); reflexivity). done.
Qed.

Lemma argint_run n : exists r, argint n s = Ok r s /\ match r with Some v => - 2 ^ 31 <= v < 2 ^ 31 | None => True end.
Proof.
  unfold argint. rewrite (bind_ok _ _ _ _ _ user_self), (bind_ok _ _ _ _ _ (get_proc_ok s i p (uo_proc _ _ _ Hu))).
  rewrite fetchint_run by apply u32_range. eexists. split; [done|]. destruct (_ <=? _); [apply s32_range|done].
Qed.

Lemma argptr_run n size : size < 2 ^ 31 -> exists r, argptr n size s = Ok r s /\
  match r with Some a => 0 <= size /\ 0 <= a /\ a + size <= p_sz p | None => True end.
Proof.
  intros Hs. pose proof (uo_size _ _ _ Hu) as Hsz. unfold KERNBASE in Hsz.
  unfold argptr. rewrite (bind_ok _ _ _ _ _ user_self). destruct (argint_run n) as (r & E & _). rewrite (bind_ok _ _ _ _ _ E).
  destruct r as [v|]; [|by exists None]. rewrite (bind_ok _ _ _ _ _ (get_proc_ok s i p (uo_proc _ _ _ Hu))).
  destruct (_ || _ || _) eqn:Hb; [by exists None|]. exists (Some (u32 v)). split; [done|]. zbool.
  pose proof (u32_range v). rewrite u32_small in * by lia. lia.
Qed.

Lemma fetchstr_loop_run n : forall a, 0 <= a -> a + Z.of_nat n <= p_sz p ->
  exists r, fetchstr_loop n a s = Ok r s /\
    match r with
    | Some bs => (length bs < n)%nat /\ bs = (fun j => user_byte p s (a + Z.of_nat j)) <$> seq 0 (length bs) /\
        (0 ∉ bs) /\ user_byte p s (a + Z.of_nat (length bs)) = 0
    | None => forall j, (j < n)%nat -> user_byte p s (a + Z.of_nat j) <> 0
    end.
Proof.
  induction n as [|n IH]; intros a Ha Hn; cbn [fetchstr_loop]; [exists None; split; [done|lia]|].
  rewrite (bind_ok _ _ _ _ _ (user_vldb a ltac:(lia))). destruct (Z.eqb_spec (user_byte p s a) 0) as [E0|E0].
  - exists (Some []). split; [done|]. split; [simpl; lia|]. split; [done|]. split; [set_solver|]. simpl. by rewrite Z.add_0_r.
  - destruct (IH (a + 1) ltac:(lia) ltac:(lia)) as (r & E & Hr). rewrite (bind_ok _ _ _ _ _ E). eexists. split; [done|].
    destruct r as [bs|]; simpl in *.
    + destruct Hr as (Hl & Hbs & H0 & Hend). split; [lia|]. split; [|split; [set_solver|rewrite <- Hend; f_equal; lia]].
      rewrite Z.add_0_r. f_equal. rewrite Hbs at 1. rewrite <- fmap_S_seq, <- list_fmap_compose.
      apply list_fmap_ext. intros j x _. cbn. f_equal. lia.
    + intros [|j] Hj; [by rewrite Z.add_0_r|]. replace (a + Z.of_nat (S j)) with (a + 1 + Z.of_nat j) by lia. apply Hr. lia.
Qed.
End args.

(** C27: system calls do not follow pointers out of the process.  argptr accepts a block
    of memory only if all of it lies below the size of the process, whatever the user
    put on the stack and whatever overflows 32 bits; fetchstr accepts a string only if
    it ends below that size, and returns the bytes up to the terminator.  Neither
    changes anything, and neither faults. *)
Theorem args_stay_in_process i p s n size addr :
  user_ok i p s -> size < 2 ^ 31 -> 0 <= addr < 2 ^ 32 ->
  (exists r, argptr n size s = Ok r s /\
    match r with Some a => 0 <= size /\ 0 <= a /\ a + size <= p_sz p | None => True end) /\
  (exists r, fetchstr addr s = Ok r s /\
    match r with
    | Some bs => addr + Z.of_nat (length bs) < p_sz p /\ (0 ∉ bs) /\
        (forall j b, bs !! j = Some b -> user_byte p s (addr + Z.of_nat j) = b) /\
        user_byte p s (addr + Z.of_nat (length bs)) = 0
    | None => forall a, addr <= a < p_sz p -> user_byte p s a <> 0
    end).
Proof.
  intros Hu Hsize Ha. split; [by apply (argptr_run i p s Hu)|]. pose proof (uo_size _ _ _ Hu) as Hsz.
  unfold fetchstr. rewrite (bind_ok _ _ _ _ _ (user_self i p s Hu)), (bind_ok _ _ _ _ _ (get_proc_ok s i p (uo_proc _ _ _ Hu))).
  destruct (Z.leb_spec (p_sz p) addr); [exists None; split; [done|lia]|].
  destruct (fetchstr_loop_run i p s Hu (Z.to_nat (p_sz p - addr)) addr) as (r & E & Hr); [lia|lia|].
  exists r. split; [exact E|]. destruct r as [bs|].
  - destruct Hr as (Hl & Hbs & H0 & Hend). split; [lia|]. split; [done|]. split; [|done]. intros j b Hj.
    apply lookup_lt_Some in Hj as Hlt. rewrite Hbs, list_lookup_fmap, lookup_seq_lt in Hj by done. by injection Hj.
  - intros a Hin. replace a with (addr + Z.of_nat (Z.to_nat (a - addr))) by lia. apply Hr. lia.
Qed.

(** * File descriptors *)

(** How many descriptors of the processes name file [f]. *)
Definition fd_count (ofs : list (option nat)) (f : nat) : nat := length (filter (fun o => o = Some f) ofs).
Definition refs (ps : list proc) (f : nat) : nat := sum_list ((fun p => fd_count (p_ofile p) f) <$> ps).

(** Every file has as many references as descriptors name it. *)
Record files_ok (s : kstate) : Prop := mk_files_ok {
  fk_refs : forall f x, k_files s !! f = Some x -> f_ref x = Z.of_nat (refs (procs (k_ptable s)) f);
  fk_valid : forall j p fd f, procs (k_ptable s) !! j = Some p -> p_ofile p !! fd = Some (Some f) -> (f < length (k_files s))%nat;
  fk_len : forall j p, procs (k_ptable s) !! j = Some p -> length (p_ofile p) = Z.to_nat NOFILE }.

Definition fd_is (f : nat) (o : option nat) : nat := if decide (o = Some f) then 1 else 0.

Lemma fd_count_insert ofs fd o o' f : ofs !! fd = Some o ->
  (fd_count (<[fd := o']> ofs) f + fd_is f o = fd_count ofs f + fd_is f o')%nat.
Proof.
  revert fd. unfold fd_count. induction ofs as [|x ofs IH]; intros [|fd] H; simpl in H; [done|done| |].
  - injection H as ->. cbn [insert list_insert]. rewrite !filter_cons. unfold fd_is. repeat case_decide; simpl; lia.
  - change (<[S fd:=o']> (x :: ofs)) with (x :: <[fd:=o']> ofs). rewrite !filter_cons.
    specialize (IH fd H). case_decide; cbn [length]; lia.
Qed.

Lemma refs_insert ps j p q f : ps !! j = Some p ->
  (refs (<[j := q]> ps) f + fd_count (p_ofile p) f = refs ps f + fd_count (p_ofile q) f)%nat.
Proof.
  revert j. unfold refs. induction ps as [|x ps IH]; intros [|j] H; simpl in H; [done|done| |].
  - injection H as ->. simpl. lia.
  - change (<[S j:=q]> (x :: ps)) with (x :: <[j:=q]> ps). specialize (IH j H). cbn [fmap list_fmap sum_list sum_list_with] in *. unfold id in *. lia.
Qed.

(** Changing one descriptor of one process, and the reference counts along with it. *)
Lemma files_ok_set s j p fd o o' fs' : files_ok s -> procs (k_ptable s) !! j = Some p -> p_ofile p !! fd = Some o ->
  (forall f, o' = Some f -> (f < length (k_files s))%nat) ->
  length fs' = length (k_files s) ->
  (forall f x, k_files s !! f = Some x -> exists y, fs' !! f = Some y /\
     f_ref y = f_ref x + Z.of_nat (fd_is f o') - Z.of_nat (fd_is f o)) ->
  files_ok (set_files fs' (set_ptable (upd_procs j (fun p => with_ofile (<[fd := o']> (p_ofile p)) p) (k_ptable s)) s)).
Proof.
  intros [Hr Hv Hl] Hp Ho Ho' Hlen Hfs. set (q := with_ofile (<[fd := o']> (p_ofile p)) p).
  assert (Eps : procs (upd_procs j (fun p => with_ofile (<[fd := o']> (p_ofile p)) p) (k_ptable s)) = <[j := q]> (procs (k_ptable s)))
    by (cbn; by rewrite (list_alter_insert_at _ _ _ _ Hp)).
  assert (Hcase : forall k r, <[j := q]> (procs (k_ptable s)) !! k = Some r -> (k = j /\ r = q) \/ procs (k_ptable s) !! k = Some r).
  { intros k r Hk. destruct (decide (k = j)) as [->|Hne]; [|rewrite list_lookup_insert_ne in Hk by done; by right].
    rewrite list_lookup_insert_eq in Hk by (by eapply lookup_lt_Some). left. split; congruence. }
  split; cbn [k_files k_ptable set_files set_ptable]; rewrite Eps.
  - intros f y Hy. assert (Hlt : (f < length (k_files s))%nat) by (rewrite <- Hlen; by eapply lookup_lt_Some).
    apply lookup_lt_is_Some in Hlt as [x Hx]. destruct (Hfs f x Hx) as (y' & Hy' & Ey).
    assert (y' = y) as -> by congruence. rewrite Ey, (Hr f x Hx).
    pose proof (refs_insert (procs (k_ptable s)) j p q f Hp). pose proof (fd_count_insert (p_ofile p) fd o o' f Ho).
    unfold q in *. simpl in *. lia.
  - intros k r fd' f Hk Hf. rewrite Hlen. destruct (Hcase k r Hk) as [[-> ->] | Hk']; [|by eapply Hv].
    unfold q in Hf. simpl in Hf. destruct (decide (fd' = fd)) as [->|Hne].
    + rewrite list_lookup_insert_eq in Hf by (by eapply lookup_lt_Some). apply Ho'. congruence.
    + rewrite list_lookup_insert_ne in Hf by done. by eapply Hv.
  - intros k r Hk. destruct (Hcase k r Hk) as [[-> ->] | Hk']; [|by eapply Hl]. unfold q. simpl. rewrite length_insert. by eapply Hl.
Qed.

Lemma fd_is_same f : fd_is f (Some f) = 1%nat.
Proof. unfold fd_is. by rewrite decide_True. Qed.
Lemma fd_is_none f : fd_is f None = 0%nat.
Proof. done. Qed.
Lemma fd_is_other f g : f <> g -> fd_is f (Some g) = 0%nat.
Proof. intros. unfold fd_is. rewrite decide_False; [done|congruence]. Qed.

(** A file named by a descriptor is in use. *)
Lemma named_in_use s j p fd f : files_ok s -> procs (k_ptable s) !! j = Some p -> p_ofile p !! fd = Some (Some f) ->
  exists x, k_files s !! f = Some x /\ 1 <= f_ref x.
Proof.
  intros [Hr Hv _] Hp Hf. destruct (lookup_lt_is_Some_2 (k_files s) f) as [x Hx]; [by eapply Hv|]. exists x. split; [done|].
  rewrite (Hr f x Hx). pose proof (fd_count_insert (p_ofile p) fd (Some f) None f Hf) as H1.
  pose proof (refs_insert (procs (k_ptable s)) j p (with_ofile [] p) f Hp) as H2. rewrite fd_is_same, fd_is_none in H1.
  change (fd_count (p_ofile (with_ofile [] p)) f) with 0%nat in H2. lia.
Qed.

Section fds.
Context {drv : Driver} {dsw : DevSw} {im : Image} (pid : Z) (i : nat) (p : proc) (s : kstate).
Context (Hc : calm pid s) (Hu : user_ok i p s) (Hf : files_ok s).

Lemma argfd_run n : exists r, argfd n s = Ok r s /\
  match r with Some (fd, f) => p_ofile p !! fd = Some (Some f) | None => True end.
Proof.
  unfold argfd. destruct (argint_run i p s Hu n) as (r & E & _). rewrite (bind_ok _ _ _ _ _ E).
  destruct r as [v|]; [|by exists None]. destruct (_ || _) eqn:Hb; [by exists None|]. zbool.
  rewrite (bind_ok _ _ _ _ _ (user_self i p s Hu)), (bind_ok _ _ _ _ _ (get_proc_ok s i p (uo_proc _ _ _ Hu))).
  destruct (lookup_lt_is_Some_2 (p_ofile p) (Z.to_nat v)) as [o Ho].
  { rewrite (fk_len _ Hf i p (uo_proc _ _ _ Hu)). lia. }
  rewrite Ho. erewrite bind_ok by reflexivity. eexists. split; [done|]. by destruct o.
Qed.

(** The state after descriptor [fd] was set to [o]. *)
Definition fd_set (fd : nat) (o : option nat) : kstate :=
  set_ptable (upd_procs i (fun p => with_ofile (<[fd := o]> (p_ofile p)) p) (k_ptable s)) s.

Lemma fd_set_calm fd o : calm pid (fd_set fd o).
Proof.
  destruct Hc as [Hy Hd Hl (j & q & Hj & Hq & Hpid)]. split; try done. exists j. cbn.
  destruct (decide (j = i)) as [->|Hne].
  - rewrite list_lookup_alter_eq, Hq. eexists. split; [done|]. split; [done|]. done.
  - rewrite list_lookup_alter_ne by done. by exists q.
Qed.

Lemma fdalloc_run f : exists r, fdalloc f s = Ok r (match r with Some fd => fd_set fd (Some f) | None => s end) /\
  match r with
  | Some fd => p_ofile p !! fd = Some None /\ forall fd', (fd' < fd)%nat -> exists g, p_ofile p !! fd' = Some (Some g)
  | None => forall fd o, p_ofile p !! fd = Some o -> o <> None
  end.
Proof.
  unfold fdalloc. rewrite (bind_ok _ _ _ _ _ (user_self i p s Hu)), (bind_ok _ _ _ _ _ (get_proc_ok s i p (uo_proc _ _ _ Hu))).
  pose proof (find_fd_spec (p_ofile p) 0) as H. destruct (find_fd (p_ofile p) 0) as [fd|].
  - destruct H as (j & -> & Hj & Hlt). cbn [Nat.add]. exists (Some j). split; [done|]. done.
  - by exists None.
Qed.

Lemma sys_dup_run : exists r s', sys_dup s = Ok r s' /\ files_ok s' /\
  (r = -1 /\ s' = s \/
   exists fd f q, r = Z.of_nat fd /\ p_ofile p !! fd = Some None /\
     (forall fd', (fd' < fd)%nat -> exists g, p_ofile p !! fd' = Some (Some g)) /\ f ∈ omap id (p_ofile p) /\
     procs (k_ptable s') !! i = Some q /\ p_ofile q = <[fd := Some f]> (p_ofile p)).
Proof.
  unfold sys_dup. destruct (argfd_run 0) as (r & E & Hr). rewrite (bind_ok _ _ _ _ _ E).
  destruct r as [[fd0 f]|]; [|eexists _, _; split; [done|]; split; [done|by left]].
  destruct (fdalloc_run f) as (r & E' & Hr'). rewrite (bind_ok _ _ _ _ _ E'). pose proof (uo_proc _ _ _ Hu) as Hp.
  destruct r as [fd|]; [|eexists _, _; split; [done|]; split; [done|by left]]. destruct Hr' as [Hfree Hlow].
  destruct (named_in_use s i p fd0 f Hf Hp Hr) as (x & Hx & Href).
  pose proof (filedup_run pid (fd_set fd (Some f)) (fd_set_calm fd (Some f)) f x Hx) as Ed.
  rewrite (proj2 (Z.ltb_ge _ _)) in Ed by lia. rewrite (bind_ok _ _ _ _ _ Ed). eexists _, _. split; [done|]. split.
  - apply (files_ok_set s i p fd None (Some f)); try done.
    + intros g [= <-]. by eapply lookup_lt_Some.
    + apply length_insert.
    + intros g y Hy. cbn [k_files fd_set set_ptable]. rewrite fd_is_none. destruct (decide (g = f)) as [->|Hne].
      * rewrite list_lookup_insert_eq by (by eapply lookup_lt_Some). eexists. split; [done|]. rewrite fd_is_same.
        assert (y = x) as -> by congruence. simpl. lia.
      * rewrite list_lookup_insert_ne by done. exists y. split; [done|]. rewrite fd_is_other by done. lia.
  - right. exists fd, f, (with_ofile (<[fd := Some f]> (p_ofile p)) p). split; [done|]. split; [done|]. split; [done|]. split.
    + apply list_elem_of_omap. exists (Some f). split; [by eapply list_elem_of_lookup_2|done].
    + cbn. by rewrite list_lookup_alter_eq, Hp.
Qed.

Lemma sys_close_run fd f x : argfd 0 s = Ok (Some (fd, f)) s -> k_files s !! f = Some x -> 1 < f_ref x ->
  exists s', sys_close s = Ok 0 s' /\ files_ok s' /\
    exists q, procs (k_ptable s') !! i = Some q /\ p_ofile q = <[fd := None]> (p_ofile p).
Proof.
  intros E Hx Href. destruct (argfd_run 0) as (r & E0 & Hr). rewrite E in E0. injection E0 as <-.
  pose proof (uo_proc _ _ _ Hu) as Hp. unfold sys_close. rewrite (bind_ok _ _ _ _ _ E), (bind_ok _ _ _ _ _ (user_self i p s Hu)).
  change (set_ofile i fd None) with (modify (fun s => set_ptable (upd_procs i (fun p => with_ofile (<[fd := None]> (p_ofile p)) p) (k_ptable s)) s)).
  erewrite bind_ok by reflexivity.
  destruct (fileclose_run pid (fd_set fd None) (fd_set_calm fd None) f x Hx) as [_ Ec].
  rewrite (bind_ok _ _ _ _ _ (Ec Href)). eexists. split; [done|]. split.
  - apply (files_ok_set s i p fd (Some f) None); try done.
    + apply length_insert.
    + intros g y Hy. cbn [k_files fd_set set_ptable]. rewrite fd_is_none. destruct (decide (g = f)) as [->|Hne].
      * rewrite list_lookup_insert_eq by (by eapply lookup_lt_Some). eexists. split; [done|]. rewrite fd_is_same.
        assert (y = x) as -> by congruence. simpl. lia.
      * rewrite list_lookup_insert_ne by done. exists y. split; [done|]. rewrite fd_is_other by done. lia.
  - exists (with_ofile (<[fd := None]> (p_ofile p)) p). cbn. by rewrite list_lookup_alter_eq, Hp.
Qed.
End fds.

