(* ===== verification/UserMem.v ===== *)
(** User memory: what copyout of vm.c does to the memory a process sees, and the stack
    that exec builds for a new program. *)

From S2P Require Import Prelude Layout CString Printf State Spinlock Sched Mem Sleeplock Ring Memide Bio Log Fs.
From S2P Require Import Kalloc KallocSafe Vm VmSafe Pipe File Proc Console Syscall.
Local Open Scope kernel_scope.

(** The page frame of a user address, and the byte there. *)
Definition frame (m : memory) (pgdir va : Z) : option Z :=
  let x := pte_val m pgdir va in if Z.land x PTE_P =? 0 then None else Some (P2V (PTE_ADDR x)).
Definition ubyte (m : memory) (pgdir a : Z) : Z :=
  match frame m pgdir a with Some f => ldb m (f + a mod PGSIZE) | None => 0 end.

(** The page of [va] is mapped for the user. *)
Definition user_page (m : memory) (pgdir va : Z) : Prop :=
  Z.land (pte_val m pgdir va) PTE_P <> 0 /\ Z.land (pte_val m pgdir va) PTE_U <> 0.

Lemma ldb_st_bytes bs : forall m a x, bytes_ok bs -> ldb (st_bytes m a bs) x =
  if decide (a <= x < a + Z.of_nat (length bs)) then default 0 (bs !! Z.to_nat (x - a)) else ldb m x.
Proof.
  induction bs as [|b bs IH]; intros m a x Hb; cbn [st_bytes]; [by rewrite decide_False by (simpl; lia)|].
  apply Forall_cons_iff in Hb as [Hb Hbs]. rewrite IH by done. rewrite ldb_stb. cbn [length].
  destruct (decide (x = a)) as [->|Hne].
  - rewrite decide_False, decide_True, decide_True by lia. rewrite Z.sub_diag. simpl. by apply u8_small.
  - destruct (decide (a <= x < a + Z.of_nat (S (length bs)))) as [Hin|Hout].
    + rewrite decide_True by lia. replace (Z.to_nat (x - a)) with (S (Z.to_nat (x - (a + 1)))) by lia. done.
    + rewrite !decide_False by lia. done.
Qed.

Lemma pte_val_page m pgdir va va' : 0 <= va < 2 ^ 32 -> 0 <= va' < 2 ^ 32 -> va / PGSIZE = va' / PGSIZE ->
  pte_val m pgdir va = pte_val m pgdir va'.
Proof. intros H H' E. destruct (proj2 (same_page_div va va' H H') E) as [E1 E2]. unfold pte_val. by rewrite E1, E2. Qed.

Section umem.
Context {drv : Driver} {dsw : DevSw} {im : Image}.

(** A page directory whose user pages are distinct frames, apart from the directory and
    its tables. *)
Record umap_ok (m : memory) (pgdir : Z) : Prop := mk_umap_ok {
  um_dir : pgdir_ok m pgdir [];
  um_frame : forall va f, 0 <= va < KERNBASE -> frame m pgdir va = Some f ->
    is_page f /\ f <> pgdir /\ forall i, 0 <= i < 1024 -> table_at m pgdir i <> Some f;
  um_inj : forall va va' f, 0 <= va < KERNBASE -> 0 <= va' < KERNBASE ->
    frame m pgdir va = Some f -> frame m pgdir va' = Some f -> va / PGSIZE = va' / PGSIZE }.

(** Nothing but the contents of user pages differs. *)
Definition same_maps (m m' : memory) (pgdir : Z) : Prop :=
  (forall va, pte_val m' pgdir va = pte_val m pgdir va) /\
  forall i, 0 <= i < 1024 -> table_at m' pgdir i = table_at m pgdir i.

Lemma same_maps_frame m m' pgdir va : same_maps m m' pgdir -> frame m' pgdir va = frame m pgdir va.
Proof. intros [H _]. unfold frame. by rewrite H. Qed.

Lemma same_maps_user m m' pgdir va : same_maps m m' pgdir -> user_page m pgdir va -> user_page m' pgdir va.
Proof. intros [H _]. unfold user_page. by rewrite H. Qed.

Lemma umap_ok_same m m' pgdir : same_maps m m' pgdir -> umap_ok m pgdir -> umap_ok m' pgdir.
Proof.
  intros Hs [[Hp Hl Ht Hi] Hf Hj]. pose proof Hs as [_ Hst]. split.
  - split; [done|done| |].
    + intros i t Hir. rewrite Hst by done. by apply Ht.
    + intros i j t Hir Hjr. rewrite !Hst by done. by apply Hi.
  - intros va f Hva. rewrite (same_maps_frame m m' pgdir va Hs). intros E. destruct (Hf va f Hva E) as (? & ? & Hn).
    split; [done|]. split; [done|]. intros i Hir. rewrite Hst by done. by apply Hn.
  - intros va va' f Hva Hva'. rewrite !(same_maps_frame m m' pgdir) by done. by apply Hj.
Qed.

(** Writing into the page of user address [va]. *)
Section store.
Context (m : memory) (pgdir va f : Z) (bs : list Z).
Context (Hok : umap_ok m pgdir) (Hva : 0 <= va < KERNBASE) (Hf : frame m pgdir va = Some f) (Hbs : bytes_ok bs).
Context (Hfit : va mod PGSIZE + Z.of_nat (length bs) <= PGSIZE).

Definition stored : memory := st_bytes m (f + va mod PGSIZE) bs.

Lemma stored_outside : same_outside f m stored.
Proof.
  intros a Ha. unfold stored. rewrite ldb_st_bytes by done. rewrite decide_False; [done|]. change PGSIZE with 4096 in *.
  pose proof (Z.mod_pos_bound va 4096). lia.
Qed.

Lemma stored_maps : same_maps m stored pgdir.
Proof.
  destruct (um_frame _ _ Hok va f Hva Hf) as (Hp & Hd & Ht). destruct (um_dir _ _ Hok) as [Hpd ? ? ?] eqn:E. split.
  - intros va'. apply (pte_outside m stored f pgdir []); [apply stored_outside|done|apply Hok|done|done].
  - intros i Hi. apply (table_outside m stored f); [apply stored_outside|done|done|done|done].
Qed.

Lemma stored_ubyte a : 0 <= a < KERNBASE -> ubyte stored pgdir a =
  if decide (va <= a < va + Z.of_nat (length bs)) then default 0 (bs !! Z.to_nat (a - va)) else ubyte m pgdir a.
Proof.
  intros Ha. unfold ubyte. rewrite (same_maps_frame m stored pgdir a stored_maps).
  destruct (Z.eq_dec (a / PGSIZE) (va / PGSIZE)) as [E|E].
  - assert (Efr : frame m pgdir a = Some f).
    { rewrite <- Hf. unfold frame. by rewrite (pte_val_page m pgdir a va) by (done || (unfold KERNBASE in *; lia)). }
    rewrite Efr. unfold stored. rewrite ldb_st_bytes by done. change PGSIZE with 4096 in *.
    destruct (decide (va <= a < va + Z.of_nat (length bs))).
    + rewrite decide_True by zdiv. do 3 f_equal. zdiv.
    + rewrite decide_False by zdiv. done.
  - change PGSIZE with 4096 in *. rewrite decide_False by zdiv. destruct (frame m pgdir a) as [g|] eqn:Eg; [|done].
    destruct (um_frame _ _ Hok a g Ha Eg) as (Hpg & _). destruct (um_frame _ _ Hok va f Hva Hf) as (Hpf & _).
    apply stored_outside. assert (Hne : g <> f) by (intros ->; apply E; exact (um_inj _ _ Hok a va f Ha Hva Eg Hf)).
    pose proof (Z.mod_pos_bound a 4096). destruct (page_sep g f Hpg Hpf Hne); change PGSIZE with 4096 in *; lia.
Qed.
End store.

Lemma uva2ka_run s pgdir va : umap_ok (k_mem s) pgdir -> 0 <= va < KERNBASE -> user_page (k_mem s) pgdir va ->
  exists f, frame (k_mem s) pgdir va = Some f /\ uva2ka pgdir va s = Ok f s.
Proof.
  intros Hok Hva [HP HU]. unfold frame. rewrite (proj2 (Z.eqb_neq _ _)) by done. eexists. split; [done|].
  destruct (um_dir _ _ Hok) as [Hpd _ Ht _]. pose proof (PDX_range va) as Hr. pose proof (PTX_range va) as Hx.
  unfold pte_val in *. destruct (table_at (k_mem s) pgdir (PDX va)) as [t|] eqn:Et; [|by rewrite Z.land_0_l in HP].
  destruct (Ht (PDX va) t Hr Et) as (Hpt & _ & Hne). destruct (page_kernel t Hpt) as (Htk & _).
  destruct (page_kernel pgdir Hpd) as (Hdk & _).
  assert (Hpte : pte_ok (k_mem s) pgdir va (t + 4 * PTX va)).
  { split; [by rewrite find_pte_table, Et|unfold pde_at; lia|]. unfold pde_at.
    destruct (page_sep t pgdir Hpt Hpd Hne); change PGSIZE with 4096 in *; lia. }
  unfold uva2ka. rewrite (bind_ok _ _ _ _ _ (walk_ok s _ _ _ Hpte)), (bind_ok _ _ _ _ _ (vld32_kernel (t + 4 * PTX va) s ltac:(lia))).
  by rewrite !(proj2 (Z.eqb_neq _ 0)) by done.
Qed.

(** [m'] is [m] after the process' memory at [va] was overwritten by [bs]. *)
Definition wrote (m m' : memory) (pgdir va : Z) (bs : list Z) : Prop :=
  same_maps m m' pgdir /\ forall a, 0 <= a < KERNBASE -> ubyte m' pgdir a =
    if decide (va <= a < va + Z.of_nat (length bs)) then default 0 (bs !! Z.to_nat (a - va)) else ubyte m pgdir a.

Lemma wrote_nil m pgdir va : wrote m m pgdir va [].
Proof. split; [by split|]. intros a Ha. by rewrite decide_False by (simpl; lia). Qed.

Lemma same_maps_trans m m1 m2 pgdir : same_maps m m1 pgdir -> same_maps m1 m2 pgdir -> same_maps m m2 pgdir.
Proof. intros [H1 H2] [H3 H4]. split; [intros va; by rewrite H3|intros i Hi; by rewrite H4, H2]. Qed.

Lemma wrote_app m m1 m2 pgdir va l1 l2 : wrote m m1 pgdir va l1 ->
  wrote m1 m2 pgdir (va + Z.of_nat (length l1)) l2 -> wrote m m2 pgdir va (l1 ++ l2).
Proof.
  intros [Hs1 H1] [Hs2 H2]. split; [by eapply same_maps_trans|]. intros a Ha. rewrite (H2 a Ha), (H1 a Ha), length_app.
  destruct (decide (va <= a < va + Z.of_nat (length l1 + length l2))).
  - destruct (decide (va <= a < va + Z.of_nat (length l1))).
    + rewrite decide_False by lia. by rewrite lookup_app_l by lia.
    + rewrite decide_True by lia. rewrite lookup_app_r by lia. do 2 f_equal. lia.
  - by rewrite !decide_False by lia.
Qed.

(** One turn of the loop: the part of the buffer that fits the page of [va]. *)
Lemma copy_page s pgdir va bs : umap_ok (k_mem s) pgdir -> 0 <= va < KERNBASE -> user_page (k_mem s) pgdir va ->
  bytes_ok bs -> va mod PGSIZE + Z.of_nat (length bs) <= PGSIZE ->
  exists pa m', uva2ka pgdir (PGROUNDDOWN va) s = Ok pa s /\ (pa =? 0) = false /\
    vstore (pa + (va - PGROUNDDOWN va)) bs s = Ok tt (set_mem m' s) /\ wrote (k_mem s) m' pgdir va bs.
Proof.
  intros Hok Hva Hu Hbs Hfit. assert (H32 : 0 <= va < 2 ^ 32) by (unfold KERNBASE in Hva; lia).
  destruct (PGROUNDDOWN_bounds va H32) as [Hb Hal]. change PGSIZE with 4096 in *. set (va0 := PGROUNDDOWN va) in *.
  assert (H0 : 0 <= va0 < KERNBASE) by (clearbody va0; zdiv). assert (Ed : va0 / 4096 = va / 4096) by (clearbody va0; zdiv).
  assert (Ev : pte_val (k_mem s) pgdir va0 = pte_val (k_mem s) pgdir va) by (apply pte_val_page; [lia|done|done]).
  destruct (uva2ka_run s pgdir va0 Hok H0) as (f & Ef & Er); [unfold user_page; by rewrite Ev|].
  assert (Ef' : frame (k_mem s) pgdir va = Some f) by (rewrite <- Ef; unfold frame; by rewrite Ev).
  destruct (um_frame _ _ Hok va f Hva Ef') as (Hp & _). destruct (page_kernel f Hp) as (Hk & Hr & _).
  exists f, (stored (k_mem s) va f bs). split; [done|]. split; [by apply Z.eqb_neq; lia|]. split.
  - rewrite vstore_kernel by lia. unfold stored. do 3 f_equal. change PGSIZE with 4096. clearbody va0. zdiv.
  - split; [by apply stored_maps|]. intros a Ha. by apply stored_ubyte.
Qed.

Lemma copyout_loop_run fuel pgdir : forall va buf s, umap_ok (k_mem s) pgdir -> 0 <= va ->
  va + Z.of_nat (length buf) <= KERNBASE ->
  (forall a, va <= a < va + Z.of_nat (length buf) -> user_page (k_mem s) pgdir a) -> bytes_ok buf ->
  va mod PGSIZE + Z.of_nat (length buf) <= Z.of_nat fuel * PGSIZE ->
  exists m', copyout_loop fuel pgdir va buf s = Ok 0 (set_mem m' s) /\ wrote (k_mem s) m' pgdir va buf.
Proof.
  induction fuel as [|fuel IH]; intros va buf s Hok Hva Hend Hu Hb Hfuel; (destruct buf as [|b0 rest] eqn:Eb;
    [exists (k_mem s); split; [by destruct s|apply wrote_nil]|]); rewrite <- Eb in *;
    assert (Hlen : 0 < Z.of_nat (length buf)) by (rewrite Eb; simpl; lia).
  - change PGSIZE with 4096 in *. pose proof (Z.mod_pos_bound va 4096). lia.
  - assert (E : copyout_loop (S fuel) pgdir va buf = let va0 := PGROUNDDOWN va in
      let! pa0 := uva2ka pgdir va0 in if pa0 =? 0 then ret (-1) else
      let n := PGSIZE - (va - va0) in let n := if Z.of_nat (length buf) <? n then Z.of_nat (length buf) else n in
      vstore (pa0 + (va - va0)) (take (Z.to_nat n) buf) ;;;
      copyout_loop fuel pgdir (u32 (va0 + PGSIZE)) (drop (Z.to_nat n) buf)) by (by rewrite Eb).
    rewrite E. clear E Eb b0 rest. cbv zeta. assert (H32 : 0 <= va < 2 ^ 32) by (unfold KERNBASE in Hend; lia).
    destruct (PGROUNDDOWN_bounds va H32) as [Hb0 Hal]. set (n := if _ <? _ then _ else _).
    assert (Hn : 0 < n <= Z.of_nat (length buf) /\ va mod PGSIZE + n <= PGSIZE /\
      (n = Z.of_nat (length buf) \/ va + n = PGROUNDDOWN va + PGSIZE)).
    { subst n. change PGSIZE with 4096 in *. set (va0 := PGROUNDDOWN va) in *. clearbody va0.
      destruct (Z.ltb_spec (Z.of_nat (length buf)) (4096 - (va - va0))); zdiv. }
    clearbody n. destruct Hn as (Hn & Hnf & Hcase). assert (Hl1 : length (take (Z.to_nat n) buf) = Z.to_nat n) by (rewrite length_take; lia).
    destruct (copy_page s pgdir va (take (Z.to_nat n) buf)) as (pa & m1 & E1 & E2 & E3 & Hw1); [done|lia|apply Hu; lia|by apply Forall_take|lia|].
    rewrite (bind_ok _ _ _ _ _ E1), E2, (bind_ok _ _ _ _ _ E3). 
    destruct Hcase as [Hall|Hpage].
    + rewrite drop_ge by lia. exists m1. split; [by destruct fuel|]. by rewrite take_ge in Hw1 by lia.
    + pose proof (proj1 Hw1) as Hsm. rewrite <- Hpage, u32_small by (unfold KERNBASE in Hend; lia).
      destruct (IH (va + n) (drop (Z.to_nat n) buf) (set_mem m1 s)) as (m2 & E4 & Hw2);
        rewrite ?length_drop; try (by apply Forall_drop); try lia.
      * by apply (umap_ok_same (k_mem s)).
      * intros a Ha. apply (same_maps_user (k_mem s)); [done|]. apply Hu. lia.
      * rewrite Hpage. change PGSIZE with 4096 in *. set (va0 := PGROUNDDOWN va) in *. clearbody va0. zdiv.
      * exists m2. split; [exact E4|]. rewrite <- (take_drop (Z.to_nat n) buf). apply (wrote_app _ m1); [done|]. rewrite Hl1, Z2Nat.id by lia. exact Hw2.
Qed.

Lemma copyout_run s pgdir va buf :
  umap_ok (k_mem s) pgdir -> 0 <= va -> va + Z.of_nat (length buf) <= KERNBASE ->
  (forall a, va <= a < va + Z.of_nat (length buf) -> user_page (k_mem s) pgdir a) -> bytes_ok buf ->
  exists m', copyout pgdir va buf s = Ok 0 (set_mem m' s) /\ wrote (k_mem s) m' pgdir va buf /\ umap_ok m' pgdir.
Proof.
  intros Hok Hva Hend Hu Hb. destruct (copyout_loop_run (S (S (length buf / Z.to_nat PGSIZE))) pgdir va buf s) as (m' & E & Hw); try done.
  { change PGSIZE with 4096. change (Z.to_nat 4096) with 4096%nat. pose proof (Z.mod_pos_bound va 4096).
    pose proof (Nat.div_mod_eq (length buf) 4096). pose proof (Nat.mod_upper_bound (length buf) 4096). lia. }
  exists m'. split; [exact E|]. split; [done|]. by apply (umap_ok_same (k_mem s)), Hok; apply Hw.
Qed.

(** When the destination lies below the kernel and its pages are mapped for the
    user, copyout returns 0; the process then sees the copied bytes at the destination
    and its old bytes everywhere else, and no mapping has changed. *)
Theorem copyout_correct (s : kstate) (pgdir va : Z) (buf : list Z) :
  umap_ok (k_mem s) pgdir -> 0 <= va -> va + Z.of_nat (length buf) <= KERNBASE ->
  (forall a, va <= a < va + Z.of_nat (length buf) -> user_page (k_mem s) pgdir a) -> bytes_ok buf ->
  exists m', copyout pgdir va buf s = Ok 0 (set_mem m' s) /\ wrote (k_mem s) m' pgdir va buf /\ umap_ok m' pgdir.
Proof. apply copyout_run. Qed.

(** * The stack of a new program *)

(** The bytes and the words a process sees. *)
Definition ubytes (m : memory) (pgdir a : Z) (n : nat) : list Z := (fun i => ubyte m pgdir (a + Z.of_nat i)) <$> seq 0 n.
Definition uword (m : memory) (pgdir a : Z) : Z := le_val (ubytes m pgdir a 4).

Lemma ubytes_same m m' pgdir a n : (forall x, a <= x < a + Z.of_nat n -> ubyte m' pgdir x = ubyte m pgdir x) ->
  ubytes m' pgdir a n = ubytes m pgdir a n.
Proof.
  intros H. unfold ubytes. apply list_eq. intros i. rewrite !list_lookup_fmap. destruct (seq 0 n !! i) as [j|] eqn:E; [|done].
  apply lookup_seq in E as [-> Hi]. simpl. f_equal. apply H. lia.
Qed.

Lemma wrote_ubytes m m' pgdir va bs off n : wrote m m' pgdir va bs -> 0 <= va -> va + Z.of_nat (length bs) <= KERNBASE ->
  (off + n <= length bs)%nat -> ubytes m' pgdir (va + Z.of_nat off) n = slice off n bs.
Proof.
  intros [_ Hw] Hva Hend Hn. unfold ubytes, slice. apply list_eq. intros i. rewrite list_lookup_fmap.
  destruct (decide (i < n)%nat) as [Hi|Hi].
  - rewrite lookup_seq_lt by done. cbn [fmap option_fmap option_map]. rewrite lookup_take_lt, lookup_drop by done.
    rewrite Hw by lia. rewrite decide_True by lia. replace (Z.to_nat _) with (off + i)%nat by lia.
    destruct (lookup_lt_is_Some_2 bs (off + i)) as [b E]; [lia|]. by rewrite E.
  - rewrite lookup_seq_ge by lia. rewrite lookup_take_ge by lia. done.
Qed.

Lemma wrote_word m m' pgdir va ws i w : wrote m m' pgdir va (concat (le_bytes 4 <$> ws)) -> 0 <= va ->
  va + 4 * Z.of_nat (length ws) <= KERNBASE -> ws !! i = Some w -> uword m' pgdir (va + 4 * Z.of_nat i) = u32 w.
Proof.
  intros Hw Hva Hend Hi. pose proof (lookup_lt_Some _ _ _ Hi). unfold uword.
  replace (va + 4 * Z.of_nat i) with (va + Z.of_nat (4 * i)) by lia.
  rewrite (wrote_ubytes m m' pgdir va (concat (le_bytes 4 <$> ws))) by (rewrite ?length_words; done || lia).
  rewrite (slice_words ws i w Hi). rewrite le_val_bytes. done.
Qed.

Lemma wrote_outside m m' pgdir va bs a n : wrote m m' pgdir va bs -> 0 <= a -> a + Z.of_nat n <= KERNBASE ->
  a + Z.of_nat n <= va \/ va + Z.of_nat (length bs) <= a -> ubytes m' pgdir a n = ubytes m pgdir a n.
Proof. intros [_ Hw] Ha Hend Hd. apply ubytes_same. intros x Hx. rewrite Hw by lia. by rewrite decide_False by lia. Qed.

(** A C string without its terminator. *)
Definition cstring (l : list Z) : Prop := Forall (fun c => 0 < c < 256) l.

Lemma strlen_cstring l : cstring l -> strlen l = Z.of_nat (length l).
Proof. induction 1 as [|c l Hc _ IH]; [done|]. simpl. rewrite (proj2 (Z.eqb_neq c 0)) by lia. lia. Qed.

(** Room for the strings: each with its terminator and at most three bytes of padding. *)
Definition args_room (argv : list (list Z)) : Z := foldr (fun arg n => Z.of_nat (length arg) + 4 + n) 0 argv.

(** The range [lo, hi) of the stack is the process' own. *)
Definition stack_at (m : memory) (pgdir lo hi : Z) : Prop :=
  0 <= lo /\ hi <= KERNBASE /\ forall a, lo <= a < hi -> user_page m pgdir a.

Lemma stack_at_same m m' pgdir lo hi hi' : same_maps m m' pgdir -> stack_at m pgdir lo hi -> hi' <= hi -> stack_at m' pgdir lo hi'.
Proof. intros Hs (H1 & H2 & H3) Hle. split; [done|]. split; [lia|]. intros a Ha. apply (same_maps_user m); [done|]. apply H3. lia. Qed.

(** The bytes outside [lo, hi) are the same. *)
Definition only_in (m m' : memory) (pgdir lo hi : Z) : Prop :=
  same_maps m m' pgdir /\ forall a, 0 <= a < KERNBASE -> a < lo \/ hi <= a -> ubyte m' pgdir a = ubyte m pgdir a.

Lemma wrote_only_in m m' pgdir va bs lo hi : wrote m m' pgdir va bs -> lo <= va -> va + Z.of_nat (length bs) <= hi ->
  only_in m m' pgdir lo hi.
Proof. intros [Hs Hw] H1 H2. split; [done|]. intros a Ha Ho. rewrite Hw by done. by rewrite decide_False by lia. Qed.

Lemma only_in_trans m m1 m2 pgdir lo mid hi : only_in m m1 pgdir mid hi -> only_in m1 m2 pgdir lo mid -> lo <= mid <= hi ->
  only_in m m2 pgdir lo hi.
Proof.
  intros [H1 H2] [H3 H4] Hle. split; [by eapply same_maps_trans|]. intros a Ha Ho. rewrite H4 by lia. apply H2; lia.
Qed.

Lemma only_in_ubytes m m' pgdir lo hi a n : only_in m m' pgdir lo hi -> 0 <= a -> a + Z.of_nat n <= KERNBASE ->
  a + Z.of_nat n <= lo \/ hi <= a -> ubytes m' pgdir a n = ubytes m pgdir a n.
Proof. intros [_ H] Ha Hend Hd. apply ubytes_same. intros x Hx. apply H; lia. Qed.

(** [p] is the address, in [lo, hi), of the string [arg]. *)
Definition string_at (m : memory) (pgdir lo hi : Z) (arg : list Z) (p : Z) : Prop :=
  lo <= p /\ p + Z.of_nat (length arg) + 1 <= hi /\ ubytes m pgdir p (S (length arg)) = arg ++ [0].

Lemma push_args_run argv pgdir lo : forall argc sp s, umap_ok (k_mem s) pgdir -> stack_at (k_mem s) pgdir lo sp ->
  sp mod 4 = 0 -> Forall cstring argv -> Z.of_nat (argc + length argv) <= MAXARG -> lo + args_room argv <= sp ->
  exists m' sp' ptrs, push_args argv argc pgdir sp s = Ok (Some (sp', ptrs)) (set_mem m' s) /\ umap_ok m' pgdir /\
    sp - args_room argv <= sp' <= sp /\ sp' mod 4 = 0 /\ only_in (k_mem s) m' pgdir sp' sp /\
    Forall2 (string_at m' pgdir sp' sp) argv ptrs.
Proof.
  induction argv as [|arg argv IH]; intros argc sp s Hok Hst Hal Hargs Hmax Hroom; cbn [push_args args_room foldr length] in *.
  - exists (k_mem s), sp, []. split; [by destruct s|]. do 3 (split; [done || lia|]). split; [|constructor].
    split; [by split|by intros].
  - fold (args_room argv) in *. apply Forall_cons_iff in Hargs as [Harg Hargs]. pose proof Hst as (Hlo & Hhi & Hu).
    assert (Hr0 : 0 <= args_room argv) by (clear; induction argv as [|x l IH]; cbn [args_room foldr]; [|fold (args_room l)]; lia).
    rewrite (proj2 (Nat.leb_gt _ _)) by (unfold MAXARG in *; lia). rewrite (strlen_cstring arg Harg), u32_small by (unfold KERNBASE in *; lia).
    change 3 with (Z.ones 2). rewrite land_high by lia. change (2 ^ 2) with 4. set (n := Z.of_nat (length arg)) in *.
    set (sp1 := 4 * ((sp - (n + 1)) / 4)). assert (Hsp1 : sp - (n + 4) <= sp1 <= sp - (n + 1) /\ sp1 mod 4 = 0) by (subst sp1; clearbody n; zdiv).
    clearbody sp1. destruct Hsp1 as [Hsp1 Hal1]. rewrite (take_ge arg) by (unfold n; lia).
    assert (Hlen : Z.of_nat (length (arg ++ [0])) = n + 1) by (rewrite length_app; simpl; unfold n; lia).
    destruct (copyout_run s pgdir sp1 (arg ++ [0])) as (m1 & E1 & Hw1 & Hok1); rewrite ?Hlen; try done; try lia.
    { intros a Ha. apply Hu. lia. }
    { apply Forall_app. split; [|by repeat constructor]. apply (list.Forall_impl _ _ _ Harg). simpl. lia. }
    rewrite (bind_ok _ _ _ _ _ E1). cbn [Z.ltb Z.compare].
    destruct (IH (S argc) sp1 (set_mem m1 s)) as (m2 & sp2 & ptrs & E2 & Hok2 & Hsp2 & Hal2 & Hin2 & Hptrs); try done; try lia.
    { apply (stack_at_same (k_mem s) _ _ _ sp); [apply Hw1|done|lia]. }
    rewrite (bind_ok _ _ _ _ _ E2). exists m2, sp2, (sp1 :: ptrs). split; [reflexivity|]. split; [done|]. split; [lia|]. split; [done|].
    split; [apply (only_in_trans _ m1 _ _ _ sp1); [apply (wrote_only_in _ _ _ sp1 (arg ++ [0])); [done|lia|lia]|exact Hin2|lia]|].
    constructor.
    + split; [lia|]. split; [fold n; lia|]. rewrite (only_in_ubytes m1 m2 pgdir sp2 sp1) by (done || lia).
      pose proof (wrote_ubytes _ _ _ _ _ 0 (S (length arg)) Hw1) as Hb. rewrite Z.add_0_r in Hb. rewrite Hb by (lia || (rewrite length_app; simpl; lia)).
      unfold slice. rewrite drop_0. apply take_ge. rewrite length_app. simpl. lia.
    + apply (list.Forall2_impl _ _ _ _ Hptrs). intros x p (? & ? & ?). repeat split; try done; lia.
Qed.

(** C29: exec gives the new program the stack main expects: when the stack's range is
    mapped and large enough for at most MAXARG arguments, the stack pointer points to
    the fake return address, argc, argv and a zero-terminated array of pointers to the
    argument strings; nothing outside the stack's used part has changed. *)
Theorem exec_stack (s : kstate) (pgdir lo sp : Z) (argv : list (list Z)) :
  umap_ok (k_mem s) pgdir -> stack_at (k_mem s) pgdir lo sp -> sp mod 4 = 0 -> Forall cstring argv ->
  Z.of_nat (length argv) <= MAXARG -> lo + args_room argv + 4 * (Z.of_nat (length argv) + 4) <= sp ->
  let argc := Z.of_nat (length argv) in
  exists m' sp' ptrs, push_stack pgdir sp argv s = Ok (Some sp') (set_mem m' s) /\ lo <= sp' /\ sp' mod 4 = 0 /\
    uword m' pgdir sp' = 0xffffffff /\ uword m' pgdir (sp' + 4) = argc /\ uword m' pgdir (sp' + 8) = sp' + 12 /\
    Forall2 (string_at m' pgdir (sp' + 12 + 4 * (argc + 1)) sp) argv ptrs /\
    (forall i p, ptrs !! i = Some p -> uword m' pgdir (sp' + 12 + 4 * Z.of_nat i) = p) /\
    uword m' pgdir (sp' + 12 + 4 * argc) = 0 /\ only_in (k_mem s) m' pgdir sp' sp /\ umap_ok m' pgdir.
Proof.
  intros Hok Hst Hal Hargs Hmax Hroom argc.
  destruct (push_args_run argv pgdir lo 0 sp s) as (m1 & sp1 & ptrs & E1 & Hok1 & Hsp1 & Hal1 & Hin1 & Hptrs); try done; try lia.
  pose proof Hst as (Hlo & Hhi & Hu). pose proof (Forall2_length Hptrs) as El.
  unfold push_stack. rewrite (bind_ok _ _ _ _ _ E1). cbv zeta. set (us := ustack sp1 ptrs).
  assert (Hus : Z.of_nat (length us) = argc + 4) by (unfold us, ustack; rewrite !length_app, <- El; simpl; unfold argc; lia).
  rewrite Hus, u32_small by (unfold KERNBASE in *; lia). set (sp' := sp1 - 4 * (argc + 4)).
  assert (Hcat : Z.of_nat (length (concat (le_bytes 4 <$> us))) = 4 * (argc + 4)) by (rewrite length_words; lia).
  destruct (copyout_run (set_mem m1 s) pgdir sp' (concat (le_bytes 4 <$> us))) as (m2 & E2 & Hw & Hok2); rewrite ?Hcat; try done; try lia.
  { intros a Ha. apply (same_maps_user (k_mem s)); [apply Hin1|]. apply Hu. lia. }
  { apply words_ok. }
  rewrite (bind_ok _ _ _ _ _ E2). cbn [Z.ltb Z.compare]. exists m2, sp', ptrs. split; [reflexivity|]. split; [lia|].
  assert (Hword : forall i w, us !! i = Some w -> uword m2 pgdir (sp' + 4 * Z.of_nat i) = u32 w).
  { intros i w Hi. apply (wrote_word m1 m2 pgdir sp' us); [exact Hw|lia|lia|done]. }
  split; [subst sp'; zdiv|]. split; [rewrite <- (Z.add_0_r sp') at 1; exact (Hword 0%nat _ eq_refl)|].
  split; [rewrite (Hword 1%nat _ eq_refl : uword _ _ (sp' + 4) = _), <- El; apply u32_small; unfold MAXARG in *; lia|].
  split; [rewrite (Hword 2%nat _ eq_refl : uword _ _ (sp' + 8) = _), u32_idemp, <- El, u32_small; unfold KERNBASE in *; lia|].
  assert (Hsep : forall arg p, string_at m1 pgdir sp1 sp arg p -> string_at m2 pgdir (sp' + 12 + 4 * (argc + 1)) sp arg p).
  { intros arg p (H1 & H2 & H3). split; [lia|]. split; [done|]. rewrite <- H3.
    apply (wrote_outside m1 m2 pgdir sp' (concat (le_bytes 4 <$> us))); [exact Hw|lia|lia|]. rewrite Hcat. lia. }
  split; [exact (list.Forall2_impl _ _ _ _ Hptrs Hsep)|]. split; [|split; [|split; [|done]]].
  - intros i p Hi. pose proof (Forall2_lookup_r _ _ _ _ _ Hptrs Hi) as (arg & Ha & H1 & H2 & _).
    replace (sp' + 12 + 4 * Z.of_nat i) with (sp' + 4 * Z.of_nat (3 + i)) by lia. rewrite (Hword (3 + i)%nat p).
    + apply u32_small. unfold KERNBASE in *. lia.
    + change ((ptrs ++ [0]) !! i = Some p). by rewrite lookup_app_l by (by eapply lookup_lt_Some).
  - replace (sp' + 12 + 4 * argc) with (sp' + 4 * Z.of_nat (3 + length ptrs)) by (unfold argc; lia). rewrite (Hword (3 + length ptrs)%nat 0); [done|].
    change ((ptrs ++ [0]) !! length ptrs = Some 0). rewrite lookup_app_r by lia. by rewrite Nat.sub_diag.
  - apply (only_in_trans _ m1 _ _ _ sp1); [done| |lia]. apply (wrote_only_in _ _ _ sp' (concat (le_bytes 4 <$> us))); [exact Hw|lia|lia].
Qed.
End umem.
