(* ===== verification/InitProc.v ===== *)
(** The first process: what inituvm and userinit set up. *)

From S2P Require Import Prelude Layout CString State Spinlock Sched Mem Sleeplock Ring Memide Bio Log Fs FsNames Kalloc KallocSafe Vm VmSafe KvmSafe.
From S2P Require Import Pipe File Proc Printf Console Syscall UserMem.
Local Open Scope kernel_scope.

Section init.
Context {drv : Driver} {dsw : DevSw} {im : Image} {en : Entry}.

(** A page taken off the free list does not belong to the directory. *)
Lemma pgdir_ok_take m pgdir p l : pgdir_ok m pgdir (p :: l) -> (p ∉ l) -> pgdir_ok m pgdir l /\ ~ owned m pgdir l p.
Proof.
  intros [Hd [Hne Hnl]%not_elem_of_cons Ht Hi] Hp. split; [split; try done|].
  - intros i t Hir Hit. destruct (Ht i t Hir Hit) as (? & [? ?]%not_elem_of_cons & ?). done.
  - intros [Ho|[->|(i & Hir & Hit)]]; [done|done|]. destruct (Ht i p Hir Hit) as (_ & Hn & _). apply Hn. by left.
Qed.

(** Writing such a page keeps the directory. *)
Lemma pgdir_ok_outside m m' pgdir p l : pgdir_ok m pgdir l -> is_page p -> ~ owned m pgdir l p -> same_outside p m m' ->
  pgdir_ok m' pgdir l /\ (forall va, pte_val m' pgdir va = pte_val m pgdir va) /\ ~ owned m' pgdir l p.
Proof.
  intros Hok Hp Ho Hs. destruct (Hok) as [Hd Hnl Ht Hi]. assert (Hpd : p <> pgdir) by (intros ->; apply Ho; right; by left).
  assert (Ht' : forall i, 0 <= i < 1024 -> table_at m' pgdir i = table_at m pgdir i) by (intros; by apply (table_outside m m' p)).
  split; [split; try done|split].
  - intros i t Hir. rewrite Ht' by done. by apply Ht.
  - intros i j t Hir Hjr. rewrite !Ht' by done. by apply Hi.
  - intros va. apply (pte_outside m m' p pgdir l); try done. intros i Hir Hit. apply Ho. right. right. by exists i.
  - intros [?|[?|(i & Hir & Hit)]]; apply Ho; [by left|right; by left|]. rewrite Ht' in Hit by done. right. right. by exists i.
Qed.

(** The entry that maps the page [mem] for the user. *)
Definition user_pte (mem : Z) : Z := Z.lor (Z.lor (V2P mem) (Z.lor PTE_W PTE_U)) PTE_P.

Lemma user_pte_frame mem : is_page mem -> Z.land (user_pte mem) PTE_P <> 0 /\ Z.land (user_pte mem) PTE_U <> 0 /\ P2V (PTE_ADDR (user_pte mem)) = mem /\
  u32 (new_pte (u32 (V2P mem)) (Z.lor PTE_W PTE_U)) = user_pte mem.
Proof.
  intros Hp. destruct (new_pde_table mem Hp) as (HP & Ht & Hr).
  assert (E : user_pte mem = new_pde mem).
  { unfold user_pte, new_pde. rewrite <- !Z.lor_assoc. f_equal. }
  rewrite E. split; [done|]. split; [|split; [done|]].
  - change PTE_U with (2 ^ 2). rewrite land_bit by lia. unfold new_pde. rewrite !Z.lor_spec. change (Z.testbit PTE_U 2) with true. by rewrite orb_true_r.
  - rewrite <- E. unfold new_pte. fold (user_pte mem). destruct (page_kernel mem Hp) as (_ & _ & HV). destruct Hp as [_ [_ Hhi]].
    rewrite (u32_small (V2P mem)); [fold (user_pte mem); rewrite E; by apply u32_small|]. apply u32_range.
Qed.

Lemma inituvm_run s mem l pgdir init :
  may_alloc s -> free_ok s (mem :: l) -> pgdir_ok (k_mem s) pgdir (mem :: l) -> lru_ok s -> l <> [] ->
  (forall va, 0 <= va < PGSIZE -> pte_val (k_mem s) pgdir va = 0) -> bytes_ok init -> Z.of_nat (length init) < PGSIZE ->
  exists k' m' l', inituvm pgdir init s = Ok tt (set_kmem k' (set_mem m' s)) /\ use_lock k' = use_lock (k_kmem s) /\
    free_ok (set_kmem k' (set_mem m' s)) l' /\ pgdir_ok m' pgdir l' /\ l' ⊆ l /\
    (forall va, 0 <= va < 2 ^ 32 -> pte_val m' pgdir va = if decide (va < PGSIZE) then user_pte mem else pte_val (k_mem s) pgdir va) /\
    (forall j, 0 <= j < PGSIZE -> ldb m' (mem + j) = default 0 (init !! Z.to_nat j)) /\
    (forall a, ~ (mem <= a < mem + PGSIZE) -> (forall q, owned (k_mem s) pgdir l q -> ~ (q <= a < q + PGSIZE)) -> ldb m' a = ldb (k_mem s) a).
Proof.
  intros Hc Hf Hok Hlru Hl Hz Hb Hlen. destruct (Hf) as [Hps Hnd [_ Hlk]]. apply Forall_cons_iff in Hps as [Hp Hpl]. apply list.NoDup_cons in Hnd as [Hn Hnd].
  destruct (page_kernel mem Hp) as (Hk & Hr & HV). unfold inituvm. rewrite (proj2 (Z.leb_gt _ _)) by done.
  rewrite (bind_ok _ _ _ _ _ (kalloc_run s mem l Hc Hf)), (proj2 (Z.eqb_neq _ _)) by lia. unfold upd_mem. erewrite bind_ok by reflexivity.
  set (m1 := memset (k_mem s) mem 0 PGSIZE). set (s1 := alloc_state (ld32 (k_mem s) mem) m1 s).
  match goal with |- context [bind _ _ ?st] => change st with s1 end.
  assert (Hout : same_outside mem (k_mem s) m1) by apply memset_outside.
  destruct (pgdir_ok_take _ _ _ _ Hok Hn) as [Hok0 Hno0]. destruct (pgdir_ok_outside _ _ _ _ _ Hok0 Hp Hno0 Hout) as (Hok1 & Hpte1 & Hno1). pose proof (u32_range (mem - KERNBASE)) as HVr. fold (V2P mem) in HVr.
  assert (HVa : V2P mem mod PGSIZE = 0) by (rewrite HV; destruct Hp as [Ha _]; unfold KERNBASE; change PGSIZE with 4096 in *; zdiv).
  destruct (mappages_run s1 l pgdir 0 PGSIZE (V2P mem) (Z.lor PTE_W PTE_U)) as (k2 & m2 & l2 & R2 & M2); try done.
  - split; [done|done|]. cbn. by apply (linked_outside (k_mem s) _ mem).
  - exists [0]. change (PGROUNDDOWN 0) with 0. change (region_pages 0 PGSIZE) with 1%nat. split; [|split; [|split]].
    + intros va Hva. change (Z.of_nat 1 * PGSIZE) with 4096 in Hva. rewrite PDX_eq, u32_small by lia. rewrite Z.div_small by (change (2 ^ 22) with 4194304; lia). by left.
    + apply NoDup_singleton.
    + apply Forall_singleton. lia.
    + unfold missing. transitivity 1%nat; [etrans; [apply length_filter|done]|]. destruct l; [done|simpl; lia].
  - change (PGROUNDDOWN 0) with 0. change (region_pages 0 PGSIZE) with 1%nat. intros va Hva. cbn [k_mem s1 alloc_state set_kmem set_mem]. rewrite Hpte1, Hz; [done|].
    change (Z.of_nat 1 * PGSIZE) with PGSIZE in Hva. lia.
  - change (PGROUNDDOWN 0) with 0 in M2. change (region_pages 0 PGSIZE) with 1%nat in M2. destruct M2 as [U2 _ F2 O2 L2 V2 (P2 & Q2 & S2) _].
    cbn [k_mem s1 alloc_state set_kmem set_mem] in *. rewrite (bind_ok _ _ _ _ _ R2), vstore_kernel by lia. set (m3 := st_bytes _ mem init).
    assert (Hout3 : same_outside mem m2 m3).
    { intros a Ha. unfold m3. cbn [k_mem set_kmem set_mem]. rewrite ldb_st_bytes by done. by rewrite decide_False by lia. }
    assert (Hno2 : ~ owned m2 pgdir l2 mem) by (intros Ho; by apply Hno1, Q2).
    destruct (pgdir_ok_outside _ _ _ _ _ O2 Hp Hno2 Hout3) as (O3 & V3 & _).
    exists k2, m3, l2. split; [done|]. split; [done|]. split; [|split; [done|split; [|split; [|split]]]].
    + apply (free_ok_store (set_kmem k2 (set_mem m2 s1)) l2 m3 mem F2 Hp); [|done]. intros Hin. apply Hno2. by left.
    + done.
    + intros va Hva. rewrite V3, (V2 va Hva). change (Z.of_nat 1 * PGSIZE) with PGSIZE. destruct (user_pte_frame mem Hp) as (_ & _ & _ & E).
      change PGSIZE with 4096 in *. case_decide; case_decide; try lia.
      * rewrite <- E. f_equal. f_equal. f_equal. zdiv.
      * by rewrite Hpte1.
    + intros j Hj. unfold m3. cbn [k_mem set_kmem set_mem]. rewrite ldb_st_bytes by done. case_decide as Hin.
      * do 3 f_equal. lia.
      * rewrite lookup_ge_None_2 by lia. cbn [default]. rewrite P2; [unfold m1; rewrite memset_spec by done; by rewrite decide_True by lia|].
        intros q Hq Ha. assert (q <> mem) by (intros ->; done).
        assert (Hqp : is_page q).
        { destruct Hq as [Hq|[->|(i & Hi & Ht)]]; [|apply Hok1|by apply (pd_table _ _ _ Hok1 i q)]. rewrite list.Forall_forall in Hpl. by apply Hpl. }
        destruct (page_sep q mem Hqp Hp); try done; lia.
    + intros a Ham Ha. rewrite (Hout3 a Ham), P2; [by apply Hout|]. intros q Hq. apply Ha.
      destruct Hq as [?|[?|(i & Hi & Ht)]]; [by left|right; by left|]. right. right. exists i. split; [done|].
      rewrite <- Ht. symmetry. apply (table_outside _ _ mem); try done; [apply Hok|]. intros ->. apply Hno0. right. by left.
Qed.
(** ** The root directory *)
Lemma namei_root s : quiet s -> icache_inv (inodes (k_fs s)) -> (exists j jp, inodes (k_fs s) !! j = Some jp /\ i_ref jp = 0) ->
  exists i ip, (i < length (inodes (k_fs s)))%nat /\ caches ROOTDEV ROOTINO ip = true /\
    namei [slash] s = Ok (Some i) (set_fs (with_inodes (<[i := ip]> (inodes (k_fs s))) (k_fs s)) s).
Proof.
  intros Hq Hinv (j & jp & Hj & Hr). destruct (iget_spec s ROOTDEV ROOTINO Hq Hinv) as [[_ Hall]|(i & ip & ip' & Hi & R & _ & Hc & _)].
  - destruct (Hall j jp Hj) as [H _]. lia.
  - exists i, ip'. split; [by eapply lookup_lt_Some|]. split; [done|]. unfold namei, namex. change (deref [slash] =? slash) with true. cbv iota.
    erewrite bind_ok by (rewrite (bind_ok _ _ _ _ _ R); reflexivity). done.
Qed.

(** ** userinit *)
Definition init_tf : trapframe :=
  mk_trapframe 0 0 0 0 0 0 0 0 0 0 (Z.lor (Z.shiftl SEG_UDATA 3) DPL_USER) (Z.lor (Z.shiftl SEG_UDATA 3) DPL_USER) 0 0 0
    (Z.lor (Z.shiftl SEG_UCODE 3) DPL_USER) FL_IF PGSIZE (Z.lor (Z.shiftl SEG_UDATA 3) DPL_USER).

(** The first process, made from the unused entry [p]. *)
Definition init_process (p : proc) (pid ks pd : Z) (root : nat) : proc :=
  with_state RUNNABLE (with_cwd (Some root) (with_name (safestrcpy (str "initcode") 16) (with_tf init_tf (with_sz PGSIZE (with_pgdir pd (new_proc pid ks p)))))).

(** The address space of the first process: the program in the page at 0, nothing else
    below KERNBASE, and the kernel above. *)
Record init_space (m : memory) (pd mem : Z) (l : list Z) (initcode : list Z) : Prop := mk_init_space {
  is_dir : pgdir_ok m pd l;
  is_user : forall a, 0 <= a < PGSIZE -> user_page m pd a /\ frame m pd a = Some mem /\ ubyte m pd a = default 0 (initcode !! Z.to_nat a);
  is_empty : forall a, PGSIZE <= a < KERNBASE -> frame m pd a = None;
  is_kernel : forall a, KERNBASE <= a < 2 ^ 32 -> pte_val m pd a = kernel_pte a }.

Lemma kernel_pte_low va : va < KERNBASE -> kernel_pte va = 0.
Proof.
  intros Hva. unfold kernel_pte, kernel_map. rewrite decide_False by lia. rewrite decide_False by (unfold KERNBASE, DEVSPACE in *; lia). done.
Qed.

(** userinit after allocproc: the address space. *)
Lemma make_space s pd l initcode : may_alloc s -> free_ok s (pd :: l) -> lru_ok s -> img_data mod PGSIZE = 0 -> (66 <= length l)%nat ->
  bytes_ok initcode -> Z.of_nat (length initcode) < PGSIZE ->
  exists f m1, setupkvm s = Ok pd (alloc_state f m1 s) /\
  forall s1, k_mem s1 = m1 -> k_kmem s1 = with_freelist f (k_kmem s) -> k_sync s1 = k_sync s ->
  exists k' m' l' mem, inituvm pd initcode s1 = Ok tt (set_kmem k' (set_mem m' s1)) /\ use_lock k' = use_lock (k_kmem s) /\
    free_ok (set_kmem k' (set_mem m' s1)) l' /\ init_space m' pd mem l' initcode /\
    (forall a, (forall q, q ∈ pd :: l -> ~ (q <= a < q + PGSIZE)) -> ldb m' a = ldb (k_mem s) a).
Proof.
  intros Hc Hf Hlru Hd Hlen Hb Hil. destruct (setupkvm_run s pd l Hc Hf Hlru Hd ltac:(lia)) as (f & m1 & l1 & R & F1 & O1 & V1 & K1 & S1 & W1 & L1).
  exists f, m1. split; [done|]. intros s1 Em Ek Es. destruct l1 as [|mem [|x l1]]; [simpl in L1; lia|simpl in L1; lia|].
  destruct (inituvm_run s1 mem (x :: l1) pd initcode) as (k' & m' & l' & R2 & U2 & F2 & O2 & S2 & V2 & B2 & K2); try done.
  - by apply (may_alloc_frame s); [|done|rewrite Ek].
  - destruct F1 as [? ? Hlk]. split; [done|done|]. rewrite Em, Ek. exact Hlk.
  - by rewrite Em.
  - unfold lru_ok, one_page in *. by rewrite Ek.
  - intros va Hva. rewrite Em, V1 by (change PGSIZE with 4096 in *; lia). apply kernel_pte_low. unfold KERNBASE. change PGSIZE with 4096 in *. lia.
  - exists k', m', l', mem. split; [done|]. split; [by rewrite U2, Ek|]. split; [done|].
    assert (Hp : is_page mem) by (destruct F1 as [[Hp _]%Forall_cons_iff _ _]; done). destruct (user_pte_frame mem Hp) as (HP & HU & HA & _).
    assert (Hv : forall a, 0 <= a < PGSIZE -> pte_val m' pd a = user_pte mem).
    { intros a Ha. rewrite V2 by (change PGSIZE with 4096 in *; lia). by rewrite decide_True by lia. }
    assert (Hv' : forall a, PGSIZE <= a < 2 ^ 32 -> pte_val m' pd a = kernel_pte a).
    { intros a Ha. change PGSIZE with 4096 in *. rewrite V2 by lia. change PGSIZE with 4096. rewrite decide_False by lia. rewrite Em. apply V1. lia. }
    split; [split; [done| | |]|].
    + intros a Ha. assert (Hfr : frame m' pd a = Some mem) by (unfold frame; rewrite (Hv a Ha), (proj2 (Z.eqb_neq _ _)) by done; by rewrite HA).
      split; [unfold user_page; by rewrite (Hv a Ha)|]. split; [done|]. unfold ubyte. rewrite Hfr, Z.mod_small by lia. by apply B2.
    + intros a Ha. unfold frame. rewrite Hv' by (unfold KERNBASE in *; lia). by rewrite kernel_pte_low by lia.
    + intros a Ha. apply Hv'. unfold KERNBASE in *. change PGSIZE with 4096. lia.
    + intros a Ha. rewrite K2; [rewrite Em; by apply K1| |].
      * apply Ha. right. apply S1. by left.
      * rewrite Em. intros q Hq. apply Ha, W1. destruct Hq as [Hq|?]; [left; by right|by right].
Qed.

(** userinit makes the first process.  When it returns, the first unused entry is the
    runnable process init, with the next process identifier, a kernel stack, the root
    directory, and registers that start the program at address 0 with an empty stack; its
    memory is one page that holds the program, with the kernel above and nothing else; no
    lock is held, and every other process and all memory that was not free is as it was. *)
Lemma userinit_run s ks pd l i p initcode :
  quiet s -> free_ok s (ks :: pd :: l) -> lru_ok s -> (66 <= length l)%nat -> img_data mod PGSIZE = 0 ->
  0 <= nextpid (k_ptable s) < 2 ^ 31 - 1 -> find_unused (procs (k_ptable s)) 0 = Some i -> procs (k_ptable s) !! i = Some p ->
  icache_inv (inodes (k_fs s)) -> (exists j jp, inodes (k_fs s) !! j = Some jp /\ i_ref jp = 0) ->
  bytes_ok initcode -> Z.of_nat (length initcode) < PGSIZE ->
  exists k' m' l' mem root ip,
    let t' := mk_ptable (<[i := init_process p (nextpid (k_ptable s)) ks pd root]> (procs (k_ptable s))) (nextpid (k_ptable s) + 1) (Some i) in
    let s' := set_fs (with_inodes (<[root := ip]> (inodes (k_fs s))) (k_fs s)) (set_ptable t' (set_kmem k' (set_mem m' s))) in
    userinit initcode s = Ok tt s' /\ use_lock k' = use_lock (k_kmem s) /\ free_ok s' l' /\ init_space m' pd mem l' initcode /\
    (root < length (inodes (k_fs s)))%nat /\ caches ROOTDEV ROOTINO ip = true /\
    (forall a, (forall q, q ∈ ks :: pd :: l -> ~ (q <= a < q + PGSIZE)) -> ldb m' a = ldb (k_mem s) a).
Proof.
  intros Hq Hf Hlru Hlen Hd Hn Hfu Hi Hinv Hfree Hb Hil. pose proof (lookup_lt_Some _ _ _ Hi) as Hlt.
  destruct (allocproc_run s i p ks (pd :: l) Hq Hf Hn Hfu Hi) as [R1 F1]. unfold userinit. rewrite (bind_ok _ _ _ _ _ R1).
  set (s1 := allocated i p ks s) in *. unfold upd_ptable. erewrite bind_ok by reflexivity. erewrite bind_ok by reflexivity.
  set (s2 := set_ptable _ s1). assert (F2 : free_ok s2 (pd :: l)) by (destruct F1; by split).
  assert (Hc2 : may_alloc s2) by (by apply (may_alloc_frame s); [apply quiet_may_alloc| |]).
  destruct (make_space s2 pd l initcode Hc2 F2 Hlru Hd Hlen Hb Hil) as (f & m3 & R3 & Hnext). rewrite (bind_ok _ _ _ _ _ R3).
  rewrite (bind_ok _ _ _ _ _ (upd_proc_ok _ _ _)). destruct F2 as [[Hpd _]%Forall_cons_iff _ _]. destruct (page_kernel pd Hpd) as (Hk & Hr & _).
  rewrite (proj2 (Z.eqb_neq pd 0)) by lia. set (s4 := set_ptable _ (alloc_state f m3 s2)).
  destruct (Hnext s4 eq_refl eq_refl eq_refl) as (k' & m' & l' & mem & R5 & U5 & F5 & Sp & K5). rewrite (bind_ok _ _ _ _ _ R5).
  do 3 rewrite (bind_ok _ _ _ _ _ (upd_proc_ok _ _ _)). set (s5 := set_ptable _ _).
  assert (Hq5 : quiet s5) by (destruct Hq as [Hy Hdp Hl]; by split).
  destruct (namei_root s5 Hq5 Hinv Hfree) as (root & ip & Hroot & Hca & R6). rewrite (bind_ok _ _ _ _ _ R6).
  rewrite (bind_ok _ _ _ _ _ (upd_proc_ok _ _ _)). set (s6 := set_ptable _ (set_fs _ s5)).
  assert (Hq6 : quiet s6).
  { destruct Hq as [Hy Hdp Hl]. split; [done|done|]. intros lk Hlk. apply Hl. destruct lk; try done. cbn in Hlk |- *. by rewrite length_insert in Hlk. }
  rewrite (bind_ok _ _ _ _ _ (acquire_quiet L_ptable s6 Hq6 I)), (bind_ok _ _ _ _ _ (upd_proc_ok _ _ _)), (release_quiet L_ptable s6) by done.
  exists k', m', l', mem, root, ip. split; [|split; [done|split; [destruct F5; by split|split; [done|split; [done|split; [done|]]]]]].
  2:{ intros a Ha. rewrite K5 by (intros q Hin; apply Ha; by right). cbn. apply (st32_outside _ ks); [unfold KSTACKSIZE, sizeof_trapframe; lia|unfold KSTACKSIZE, sizeof_trapframe; change PGSIZE with 4096; lia|].
      apply Ha. by left. }
  apply (f_equal (Ok tt)). unfold s6, s5, s4, s2, s1, allocated, upd_procs, init_process.
  cbn [k_ptable set_ptable set_sync set_fs set_kmem set_mem alloc_state procs nextpid initproc with_initproc].
  assert (Ha : forall f, alter f i (<[i := new_proc (nextpid (k_ptable s)) ks p]> (procs (k_ptable s))) = <[i := f (new_proc (nextpid (k_ptable s)) ks p)]> (procs (k_ptable s))).
  { intros g. rewrite (list_alter_insert_at _ _ (new_proc (nextpid (k_ptable s)) ks p)) by (by apply list_lookup_insert_eq). by rewrite list_insert_insert_eq. }
  rewrite !list_alter_alter_eq, !Ha. by destruct s.
Qed.
End init.
