(* ===== verification/Main.v ===== *)
(** Starting the kernel: main.c, with seginit, kvmalloc and switchkvm of vm.c and idtinit
    of trap.c.

    The state of the boot is the kernel's memory, the accesses to devices, and the
    variables and processor registers that only this code uses.  The firmware's tables, in
    memory that the kernel does not allocate, are given by [fw]; the values that
    startothers reads while it waits for a processor by [started_at]. *)

From S2P Require Import Prelude Layout CString Printf Mp State Spinlock Sched Mem Sleeplock Ring Memide Bio Log Fs FsNames Kalloc KallocSafe.
From S2P Require Import Vm VmSafe KvmSafe Pipe File Proc Console Syscall Trap Devices UserMem InitProc.
Local Open Scope kernel_scope.

(** * Two views of the state *)
Fixpoint zoom_out {S T A} (get : T -> S) (set : S -> T -> T) (o : outcome S A) (t : T) : outcome T A :=
  match o with
  | Ok a s => Ok a (set s t)
  | Panic msg => Panic msg
  | Undef why => Undef why
  | Hang => Hang
  | Swtch s k => Swtch (set s t) (fun t' => zoom_out get set (k (get t')) t')
  end.
Definition zoom {S T A} (get : T -> S) (set : S -> T -> T) (m : M S A) : M T A := fun t => zoom_out get set (m (get t)) t.

Record bstate := mk_bstate {
  b_k : kstate;
  b_io : list io_event;
  (** kpgdir of vm.c, and the register cr3 as switchkvm loads it *)
  b_kpgdir : Z;
  b_cr3 : Z;
  (** the descriptors in the tables of the processors, by processor and index *)
  b_gdt : gmap (nat * Z) segdesc;
  (** idt of trap.c, and the processors that have loaded it *)
  b_idt : list gatedesc;
  b_idtr : list nat;
  (** uart of uart.c, lapic of lapic.c and ioapicid of mp.c *)
  b_uart : bool;
  b_lapic : Z;
  b_ioapicid : Z }.

Abbreviation B := (M bstate).

Definition set_k (x : kstate) (b : bstate) : bstate :=
  mk_bstate x (b_io b) (b_kpgdir b) (b_cr3 b) (b_gdt b) (b_idt b) (b_idtr b) (b_uart b) (b_lapic b) (b_ioapicid b).
Definition set_io (x : list io_event) (b : bstate) : bstate :=
  mk_bstate (b_k b) x (b_kpgdir b) (b_cr3 b) (b_gdt b) (b_idt b) (b_idtr b) (b_uart b) (b_lapic b) (b_ioapicid b).
Definition set_kpgdir (x : Z) (b : bstate) : bstate :=
  mk_bstate (b_k b) (b_io b) x (b_cr3 b) (b_gdt b) (b_idt b) (b_idtr b) (b_uart b) (b_lapic b) (b_ioapicid b).
Definition set_cr3 (x : Z) (b : bstate) : bstate :=
  mk_bstate (b_k b) (b_io b) (b_kpgdir b) x (b_gdt b) (b_idt b) (b_idtr b) (b_uart b) (b_lapic b) (b_ioapicid b).
Definition set_gdt (x : gmap (nat * Z) segdesc) (b : bstate) : bstate :=
  mk_bstate (b_k b) (b_io b) (b_kpgdir b) (b_cr3 b) x (b_idt b) (b_idtr b) (b_uart b) (b_lapic b) (b_ioapicid b).
Definition set_idt (x : list gatedesc) (b : bstate) : bstate :=
  mk_bstate (b_k b) (b_io b) (b_kpgdir b) (b_cr3 b) (b_gdt b) x (b_idtr b) (b_uart b) (b_lapic b) (b_ioapicid b).
Definition set_idtr (x : list nat) (b : bstate) : bstate :=
  mk_bstate (b_k b) (b_io b) (b_kpgdir b) (b_cr3 b) (b_gdt b) (b_idt b) x (b_uart b) (b_lapic b) (b_ioapicid b).
Definition set_uart (x : bool) (b : bstate) : bstate :=
  mk_bstate (b_k b) (b_io b) (b_kpgdir b) (b_cr3 b) (b_gdt b) (b_idt b) (b_idtr b) x (b_lapic b) (b_ioapicid b).
Definition set_apics (l i : Z) (b : bstate) : bstate :=
  mk_bstate (b_k b) (b_io b) (b_kpgdir b) (b_cr3 b) (b_gdt b) (b_idt b) (b_idtr b) (b_uart b) l i.

Definition kern {A} (m : K A) : B A := zoom b_k set_k m.
Definition hw {A} (m : IO A) : B A := zoom b_io set_io m.

(** What the linker provides: the entry code for other processors, the first program, the
    addresses of mpenter and entrypgdir, and the entry points of the trap vectors. *)
Class Linked := {
  entryother_bin : list Z;
  initcode_bin : list Z;
  a_mpenter : Z;
  a_entrypgdir : Z;
  vectors : Z -> Z }.

(** * The processors *)

Definition with_started (x : Z) (c : cpu) : cpu := mk_cpu (apicid c) x (ncli c) (intena c) (cpu_proc c) (eflags_if c).

(** An element of cpus as mpinit leaves it. *)
Definition fresh_cpu (id : Z) : cpu := mk_cpu id 0 0 false None false.

(** * The boot page table *)
Definition entrypgdir : list Z :=
  <[Z.to_nat (Z.shiftr KERNBASE PDXSHIFT) := Z.lor (Z.lor (Z.lor 0 PTE_P) PTE_W) PTE_PS]>
    (<[0%nat := Z.lor (Z.lor (Z.lor 0 PTE_P) PTE_W) PTE_PS]> (replicate (Z.to_nat NPDENTRIES) 0)).

Section main.
Context `{!Driver} `{!DevSw} `{!Image} `{!Entry} `{!Linked}.
Variable dev : list io_event -> place -> Z.
Variable fw : Z -> Z.
Variable started_at : nat -> nat -> Z.
(** ideinit of the disk driver the kernel is linked with. *)
Variable ideinit : K unit.

(** ** vm.c and trap.c *)
Definition seginit : B unit :=
  let! c := kern (on_sync mycpu) in
  let seg i d : B unit := modify (fun b => set_gdt (<[(c, i) := d]> (b_gdt b)) b) in
  seg SEG_KCODE (SEG (Z.lor STA_X STA_R) 0 0xffffffff 0) ;;;
  seg SEG_KDATA (SEG STA_W 0 0xffffffff 0) ;;;
  seg SEG_UCODE (SEG (Z.lor STA_X STA_R) 0 0xffffffff DPL_USER) ;;;
  seg SEG_UDATA (SEG STA_W 0 0xffffffff DPL_USER).

Definition switchkvm : B unit := modify (fun b => set_cr3 (V2P (b_kpgdir b)) b).

Definition kvmalloc : B unit :=
  let! pgdir := kern setupkvm in
  modify (set_kpgdir pgdir) ;;;
  switchkvm.

Definition boot_tvinit : B unit :=
  modify (set_idt (tvinit vectors)) ;;;
  kern (on_sync (initlock L_ticks)).

Definition idtinit : B unit :=
  let! y := kern (reads k_sync) in
  modify (fun b => set_idtr (cur y :: b_idtr b) b).

(** ** The devices, with the variables of their files *)

(** mpinit fills cpus[0 .. ncpu - 1], which were zero. *)
Definition boot_mpinit (fuel : nat) : B unit := fun b =>
  match mpinit fw fuel with
  | Ok info _ =>
      let cpus := fresh_cpu <$> mi_cpus info in
      let b := set_apics (mi_lapic info) (mi_ioapicid info) b in
      (kern (modify (fun s => set_sync (mk_sync cpus (cur (k_sync s)) (locks (k_sync s))) s)) ;;;
       when (mi_imcr info) (hw (outb 0x22 0x70 ;;; let! v := inb dev 0x23 in outb 0x23 (Z.lor v 1)))) b
  | Panic msg => Panic msg
  | Undef why => Undef why
  | Hang => Hang
  | Swtch _ _ => Undef "mpinit"
  end.

Definition boot_lapicinit (fuel : nat) : B unit := fun b => hw (lapicinit dev fuel (negb (b_lapic b =? 0))) b.

(** cprintf takes no lock before consoleinit. *)
Definition boot_ioapicinit : B unit := fun b =>
  (let! warn := hw (ioapicinit dev (b_ioapicid b)) in
   when warn (kern (upd_cons (put_out (str "ioapicinit: id isn't equal to ioapicid; not a MP" ++ [10]))))) b.

Definition boot_consoleinit : B unit := kern consoleinit ;;; hw (ioapicenable IRQ_KBD 0).

Definition boot_uartinit : B unit := let! u := hw (uartinit dev) in modify (set_uart u).

(** ** main.c *)

(** The page of real memory where entryother.S is put. *)
Definition code : Z := P2V 0x7000.

(** [while(c->started == 0);] for processor [i], from the [k]-th read on. *)
Fixpoint wait_started (fuel : nat) (i k : nat) : B unit :=
  match fuel with
  | O => hang
  | S fuel' =>
      if started_at i k =? 0 then wait_started fuel' i (S k) else
      kern (on_sync (modify (fun y => mk_sync (alter (with_started (started_at i k)) i (cpus y)) (cur y) (locks y))))
  end.

(** The body of the loop of startothers, for processor [i]. *)
Definition start_cpu (fuel : nat) (i : nat) : B unit :=
  let! me := kern (on_sync mycpu) in
  if decide (i = me) then ret tt else
  let! stack := kern kalloc in
  kern (vst32 (code - 4) (u32 (stack + KSTACKSIZE))) ;;;
  kern (vst32 (code - 8) a_mpenter) ;;;
  kern (vst32 (code - 12) (V2P a_entrypgdir)) ;;;
  let! y := kern (reads k_sync) in
  let! c := kern (index "cpus" (cpus y !! i)) in
  hw (lapicstartap dev (apicid c) (V2P code)) ;;;
  wait_started fuel i 0.

Definition startothers (fuel : nat) : B unit :=
  kern (vstore code entryother_bin) ;;;
  let! y := kern (reads k_sync) in
  for_each (seq 0 (length (cpus y))) (start_cpu fuel).

(** The rounds of the scheduler, which does not return. *)
Fixpoint rounds (fuel : nat) : K unit :=
  match fuel with O => hang | S fuel' => scheduler_round ;;; rounds fuel' end.
Definition scheduler (fuel : nat) : K unit := on_sync (upd_mycpu (with_cpu_proc None)) ;;; rounds fuel.

Definition mpmain (fuel : nat) : B unit :=
  let! c := kern (on_sync cpuid) in
  kern (cons_print (cprintf (fun _ => []) (str "cpu%d: starting %d") [c; c] ++ [10])) ;;;
  idtinit ;;;
  kern (on_sync (upd_mycpu (with_started 1))) ;;;
  kern (scheduler fuel).

(** Where the other processors enter. *)
Definition mpenter (fuel : nat) : B unit :=
  switchkvm ;;;
  seginit ;;;
  boot_lapicinit fuel ;;;
  mpmain fuel.

(** main up to the call of mpmain. *)
Definition main_init (fuel : nat) : B unit :=
  kern (kinit1 img_end (P2V (4 * 1024 * 1024))) ;;;
  kvmalloc ;;;
  boot_mpinit fuel ;;;
  boot_lapicinit fuel ;;;
  seginit ;;;
  hw picinit ;;;
  boot_ioapicinit ;;;
  boot_consoleinit ;;;
  boot_uartinit ;;;
  kern pinit ;;;
  boot_tvinit ;;;
  kern binit ;;;
  kern fileinit ;;;
  kern ideinit ;;;
  startothers fuel ;;;
  kern (kinit2 (P2V (4 * 1024 * 1024)) (P2V PHYSTOP)) ;;;
  kern (userinit initcode_bin).

Definition main (fuel : nat) : B unit := main_init fuel ;;; mpmain fuel.
End main.
