(* ===== verification/MainSafe.v ===== *)
(** The boot of the machine: main takes a processor from the state in which the boot
    loader leaves it to the hand-over to the first process. *)

From S2P Require Import Prelude Layout CString Printf Mp State Spinlock Sched Mem Sleeplock Ring Memide Bio Log Fs FsNames Kalloc KallocSafe.
From S2P Require Import Vm VmSafe KvmSafe Pipe File Proc Console Syscall Trap Devices UserMem InitProc Main.
Local Open Scope kernel_scope.

(** * The two views *)
Lemma kern_ok {A} (m : K A) b a k : m (b_k b) = Ok a k -> kern m b = Ok a (set_k k b).
Proof. intros H. unfold kern, zoom. by rewrite H. Qed.

Lemma hw_ok {A} (m : IO A) b a l : m (b_io b) = Ok a l -> hw m b = Ok a (set_io l b).
Proof. intros H. unfold hw, zoom. by rewrite H. Qed.

(** * The devices *)

(** A routine that always returns. *)
Definition returns {A} (m : IO A) : Prop := forall l, exists a l', m l = Ok a l'.

Lemma returns_ret {A} (a : A) : returns (ret a).
Proof. intros l. by exists a, l. Qed.

Lemma returns_wr x v : returns (wr x v).
Proof. intros l. by eexists _, _. Qed.

Lemma returns_rd dev x : returns (rd dev x).
Proof. intros l. by eexists _, _. Qed.

Lemma returns_bind {A C} (m : IO A) (f : A -> IO C) : returns m -> (forall a, returns (f a)) -> returns (bind m f).
Proof. intros Hm Hf l. destruct (Hm l) as (a & l1 & R). destruct (Hf a l1) as (c & l2 & R2). exists c, l2. by rewrite (bind_ok _ _ _ _ _ R). Qed.

Lemma returns_when b (m : IO unit) : returns m -> returns (when b m).
Proof. intros H. destruct b; [done|apply returns_ret]. Qed.

Create HintDb devices.
#[export] Hint Resolve returns_ret returns_wr returns_rd returns_bind returns_when : devices.

Lemma returns_inb dev p : returns (inb dev p).
Proof. unfold inb. auto with devices. Qed.

Lemma returns_outb p v : returns (outb p v).
Proof. unfold outb. auto with devices. Qed.

Lemma returns_lapicw dev i v : returns (lapicw dev i v).
Proof. unfold lapicw. auto with devices. Qed.

Lemma returns_ioapicenable irq c : returns (ioapicenable irq c).
Proof. unfold ioapicenable, ioapicwrite. auto with devices. Qed.
#[export] Hint Resolve returns_inb returns_outb returns_lapicw returns_ioapicenable : devices.

(** The local APIC delivers each request at once. *)
Definition delivers (dev : list io_event -> place -> Z) : Prop := forall l, Z.land (dev l (Lapic ICRLO)) DELIVS = 0.

Lemma returns_lapicinit dev fuel present : delivers dev -> returns (lapicinit dev (S fuel) present).
Proof.
  intros Hd. unfold lapicinit. destruct (negb present); [auto with devices|]. assert (returns (wait_delivered dev (S fuel))).
  { intros l. cbn [wait_delivered]. unfold rd. erewrite bind_ok by reflexivity. rewrite Hd. by eexists _, _. }
  auto 30 with devices.
Qed.

Lemma returns_lapicstartap dev id a : returns (lapicstartap dev id a).
Proof. unfold lapicstartap. auto 20 with devices. Qed.

Lemma returns_mask_loop n : forall i, returns (mask_loop n i).
Proof. induction n; intros i; cbn [mask_loop]; unfold ioapicwrite; auto with devices. Qed.

Lemma returns_ioapicinit dev id : returns (ioapicinit dev id).
Proof. unfold ioapicinit, ioapicread. auto using returns_mask_loop with devices. Qed.

Lemma returns_uartinit dev : returns (uartinit dev).
Proof.
  assert (Hr : forall n, returns (uart_ready dev n)).
  { induction n; cbn [uart_ready]; [auto with devices|]. apply returns_bind; [auto with devices|]. intros v. by destruct (Z.land v 0x20 =? 0); auto with devices. }
  assert (Hp : forall s, returns (uart_print dev s)).
  { induction s; cbn [uart_print]; unfold uartputc; cbn [negb]; unfold outb; auto with devices. }
  unfold uartinit, outb. do 7 (apply returns_bind; [auto with devices|intros _]). apply returns_bind; [auto with devices|]. intros v.
  destruct (v =? 0xFF); auto 10 with devices.
Qed.

(** * The processors *)

Lemma sync_started x i y : let y' := mk_sync (alter (with_started x) i (cpus y)) (cur y) (locks y) in
  sync_ok y -> sync_ok y' /\ depth y' = depth y.
Proof.
  intros y' (c & Hc & Hid & H). unfold sync_ok, depth, y'. cbn [cpus cur locks].
  destruct (decide (i = cur y)) as [->|Hne].
  - rewrite list_lookup_alter_eq, Hc. cbn. split; [|done]. exists (with_started x c). by rewrite find_cpu_alter.
  - rewrite list_lookup_alter_ne by done. split; [|done]. exists c. by rewrite find_cpu_alter.
Qed.

Lemma quiet_set_sync s y : quiet s -> sync_ok y -> depth y = 0 -> locks y = locks (k_sync s) -> quiet (set_sync y s).
Proof. intros [_ _ Hl] Hy Hd E. split; [done|done|]. intros lk Hlk. unfold free_lock. cbn. rewrite E. by apply Hl. Qed.

Lemma find_fresh ids : forall i k id, NoDup ids -> ids !! i = Some id -> find_cpu (fresh_cpu <$> ids) id k = Some (k + i)%nat.
Proof.
  induction ids as [|x ids IH]; intros i k id Hnd Hi; [done|].
  apply list.NoDup_cons in Hnd as [Hn Hnd]. cbn. destruct i as [|i]; cbn in Hi.
  - injection Hi as ->. rewrite Z.eqb_refl. f_equal. lia.
  - rewrite (proj2 (Z.eqb_neq _ _)); [rewrite (IH i (S k)) by done; f_equal; lia|]. intros ->. by apply Hn, list_elem_of_lookup_2 with i.
Qed.

Lemma fresh_sync ids me lks : NoDup ids -> (me < length ids)%nat ->
  sync_ok (mk_sync (fresh_cpu <$> ids) me lks) /\ depth (mk_sync (fresh_cpu <$> ids) me lks) = 0.
Proof.
  intros Hnd [id Hid]%lookup_lt_is_Some. unfold sync_ok, depth. cbn [cpus cur]. rewrite list_lookup_fmap, Hid. cbn. split; [|done].
  exists (fresh_cpu id). split; [done|]. rewrite (find_fresh ids me) by done. done.
Qed.

(** The scheduler enables interrupts before it takes the lock of the process table. *)
Lemma acquire_sti lk y : sync_ok y -> depth y = 0 -> free_lock lk y ->
  exists y1 y', sti y = Ok tt y1 /\ acquire lk y1 = Ok tt y' /\ sync_ok y' /\ held_lock lk y' /\ depth y' = 1 /\ cur y' = cur y /\
    forall lk', lk' <> lk -> locks y' !! lk' = locks y !! lk'.
Proof.
  intros Hy Hd Hf. destruct (sync_ok_at y Hy) as (c & Hat & _). pose proof (proj1 Hat) as Hc. unfold depth in Hd. rewrite Hc in Hd.
  set (g := fun c => mk_cpu (apicid c) (started c) (ncli c) true (cpu_proc c) true). set (y1 := upd_cur g y).
  assert (Hat1 : cpu_at y1 (g c)) by (by apply cpu_at_upd). assert (Hy1 : sync_ok y1).
  { exists (g c). destruct Hat1. split; [done|]. split; [done|]. cbn. rewrite Hd. lia. }
  eexists _, (lock lk y1). split; [reflexivity|]. split; [|split; [|split; [|split; [|split]]]].
  - rewrite <- (acquire_ok y1 lk Hy1 Hf). unfold acquire. rewrite (bind_ok _ _ _ _ _ (pushcli_ok y1 _ Hat1)).
    erewrite bind_ok by (eapply pushcli_ok, cpu_at_upd; [|exact Hat]; done).
    match goal with |- bind _ _ ?s1 = bind _ _ ?s2 => replace s1 with s2; [done|] end. unfold push, y1. rewrite !upd_cur_upd_cur.
    apply (upd_cur_ext _ _ y c Hc). unfold push_cpu. cbn. by rewrite Hd.
  - by apply sync_ok_lock.
  - apply held_lock_lock.
  - destruct (sync_ok_lock lk y1 Hy1) as [_ ->]. unfold depth. rewrite (proj1 Hat1). cbn. lia.
  - done.
  - intros lk' Hne. by rewrite lock_other.
Qed.

Section boot.
Context {drv : Driver} {dsw : DevSw} {im : Image} {en : Entry} {ln : Linked}.

(** * Memory *)

(** The end of the memory that the boot page table maps. *)
Definition low_end : Z := P2V (4 * 1024 * 1024).

Definition low (q : Z) : Prop := q + PGSIZE <= low_end.

(** The translation of the boot page table, whose entries are pages of 4 megabytes. *)
Definition boot_map (va : Z) : option Z :=
  match entrypgdir !! Z.to_nat (PDX va) with
  | Some pde => if (Z.land pde PTE_P =? 0) || (Z.land pde PTE_PS =? 0) then None else Some (Z.land pde 0xFFC00000 + va mod 2 ^ 22)
  | None => None
  end.

(** The pages of a page directory. *)
Definition dir_page (m : memory) (pd q : Z) : Prop := q = pd \/ exists i, 0 <= i < 1024 /\ table_at m pd i = Some q.

(** A directory in low memory that maps the kernel and shares no page with [l]. *)
Record kernel_dir (m : memory) (pd : Z) (l : list Z) : Prop := mk_kernel_dir {
  kd_ok : pgdir_ok m pd l;
  kd_low : forall q, dir_page m pd q -> low q;
  kd_map : forall va, 0 <= va < 2 ^ 32 -> pte_val m pd va = kernel_pte va }.

(** What is written elsewhere does not change the directory. *)
Lemma kernel_dir_frame m m' pd l l' : kernel_dir m pd l ->
  (forall q, q ∈ l' -> q ∈ l \/ ~ low q) -> 
  (forall q a, dir_page m pd q -> q <= a < q + PGSIZE -> ldb m' a = ldb m a) -> kernel_dir m' pd l'.
Proof.
  intros [[Hp Hnl Ht Hi] Hlow Hmap] Hl Hm.
  assert (Et : forall i, 0 <= i < 1024 -> table_at m' pd i = table_at m pd i).
  { intros i Hir. unfold table_at. rewrite (ld32_same m m'); [done|]. intros j Hj. apply (Hm pd); [by left|]. change PGSIZE with 4096. lia. }
  assert (Hd : forall q, dir_page m pd q -> q ∉ l').
  { intros q Hq [Hin|Hn]%Hl; [|by apply Hn, Hlow]. destruct Hq as [->|(i & Hir & Hit)]; [done|]. by destruct (Ht i q Hir Hit) as (_ & ? & _). }
  split; [split|..].
  - done.
  - apply Hd. by left.
  - intros i t Hir. rewrite Et by done. intros Hit. destruct (Ht i t Hir Hit) as (? & _ & ?). split; [done|]. split; [|done].
    apply Hd. right. by exists i.
  - intros i j t Hir Hjr. rewrite !Et by done. by apply Hi.
  - intros q [->|(i & Hir & Hit)]; apply Hlow; [by left|]. rewrite Et in Hit by done. right. by exists i.
  - intros va Hva. rewrite <- (Hmap va Hva). unfold pte_val. rewrite Et by apply PDX_range.
    destruct (table_at m pd (PDX va)) as [t|] eqn:E; [|done]. apply ld32_same. intros j Hj. apply (Hm t).
    + right. exists (PDX va). split; [apply PDX_range|done].
    + pose proof (PTX_range va). change PGSIZE with 4096. lia.
Qed.

Lemma linked_same m m' l : forall h, (forall q a, q ∈ l -> q <= a < q + PGSIZE -> ldb m' a = ldb m a) -> linked m h l -> linked m' h l.
Proof.
  induction l as [|q l IH]; intros h Hs; [done|]. intros [-> Hlk]. split; [done|]. rewrite (ld32_same m m').
  - apply IH; [|done]. intros q' a Hq'. apply Hs. by right.
  - intros i Hi. apply (Hs q); [by left|]. change PGSIZE with 4096. lia.
Qed.

(** The boot page table maps low memory at its physical addresses and at KERNBASE, and
    nothing else. *)
Lemma boot_map_spec va : 0 <= va < 2 ^ 32 -> boot_map va =
  if decide (va < 4 * 1024 * 1024) then Some va else if decide (KERNBASE <= va < low_end) then Some (va - KERNBASE) else None.
Proof.
  intros Hva. unfold boot_map. rewrite PDX_eq, u32_small by done. change low_end with 0x80400000. change KERNBASE with 0x80000000.
  change (2 ^ 22) with 4194304 in *. change (2 ^ 32) with 4294967296 in Hva. change (4 * 1024 * 1024) with 4194304. unfold entrypgdir.
  change (Z.to_nat (Z.shiftr KERNBASE PDXSHIFT)) with 512%nat. set (pde := Z.lor (Z.lor (Z.lor 0 PTE_P) PTE_W) PTE_PS).
  assert (Hpde : (if (Z.land pde PTE_P =? 0) || (Z.land pde PTE_PS =? 0) then None else Some (Z.land pde 0xFFC00000 + va mod 4194304)) = Some (va mod 4194304)) by reflexivity.
  destruct (decide (Z.to_nat (va / 4194304) = 512%nat)) as [E|E].
  - rewrite E, list_lookup_insert_eq by (rewrite length_insert, length_replicate; vm_compute; lia). rewrite Hpde, decide_False, decide_True by zdiv. f_equal. zdiv.
  - rewrite list_lookup_insert_ne by done. destruct (decide (Z.to_nat (va / 4194304) = 0%nat)) as [E0|E0].
    + rewrite E0, list_lookup_insert_eq by (rewrite length_replicate; vm_compute; lia). rewrite Hpde, decide_True by zdiv. f_equal. zdiv.
    + rewrite list_lookup_insert_ne by done. rewrite !decide_False by zdiv. destruct (replicate _ _ !! _) as [x|] eqn:Ex; [|done].
      apply lookup_replicate in Ex as [-> _]. reflexivity.
Qed.

Lemma boot_map_low q a : is_page q -> low q -> q <= a < q + PGSIZE -> boot_map a = Some (V2P a).
Proof.
  intros Hq Hl Ha. destruct (page_kernel q Hq) as (Hk & Hr & _). unfold low in Hl. change PGSIZE with 4096 in *. change low_end with 0x80400000 in *.
  unfold KERNBASE in *. rewrite boot_map_spec by lia. change low_end with 0x80400000. unfold KERNBASE. rewrite decide_False, decide_True by lia.
  unfold V2P, KERNBASE. by rewrite u32_small by lia.
Qed.

(** * The state of the kernel while it boots *)
Definition no_interrupts (y : sync) : Prop := forall c, cpus y !! cur y = Some c -> eflags_if c = false.

(** Booted from [k0], with the page directory [pd] and the free pages [l]. *)
Record ready (k0 : kstate) (pd : Z) (l : list Z) (k : kstate) : Prop := mk_ready {
  rd_quiet : quiet k;
  rd_cur : cur (k_sync k) = cur (k_sync k0);
  rd_if : no_interrupts (k_sync k);
  rd_ptable : k_ptable k = k_ptable k0;
  rd_inodes : inodes (k_fs k) = inodes (k_fs k0);
  rd_pipes : k_pipes k = k_pipes k0;
  rd_use : use_lock (k_kmem k) = false;
  rd_lru : lru_ok k;
  rd_free : free_ok k l;
  rd_pages : Forall low l;
  rd_dir : kernel_dir (k_mem k) pd l }.

Lemma initlock_run lk s : has_lock lk s -> quiet s -> on_sync (initlock lk) s = Ok tt s.
Proof.
  intros Hl [_ _ Hf]. unfold on_sync, initlock, put_lock, modify. rewrite insert_id by (by apply Hf). by destruct s as [[]].
Qed.

Lemma mycpu_run s : sync_ok (k_sync s) -> no_interrupts (k_sync s) ->
  on_sync mycpu s = Ok (cur (k_sync s)) s.
Proof.
  intros Hy Hif. destruct (sync_ok_at _ Hy) as (c & Hat & _). rewrite (on_sync_ok _ s _ _ (mycpu_ok _ c Hat (Hif c (proj1 Hat)))). by destruct s.
Qed.

(** Memory below the pages of the allocator may be written. *)
Lemma ready_store k0 pd l k m' : ready k0 pd l k -> (forall a, img_end <= a -> ldb m' a = ldb (k_mem k) a) -> ready k0 pd l (set_mem m' k).
Proof.
  intros [[Hy Hd Hl] Hc Hif Hp Hi Hpi Hu Hlru [Hps Hnd Hlk] Hlow Hdir] Hm. split; try done.
  - split; [done|done|]. apply (linked_same (k_mem k)); [|done]. intros q a Hq Ha. apply Hm. rewrite list.Forall_forall in Hps.
    destruct (Hps q Hq) as [_ ?]. lia.
  - apply (kernel_dir_frame (k_mem k) _ pd l); [done|by left|]. intros q a Hq Ha. apply Hm. destruct Hdir as [[Hpg _ Ht _] _ _].
    assert (is_page q) as [_ ?]; [|lia]. destruct Hq as [->|(j & Hj & Hjt)]; [done|]. by destruct (Ht j q Hj Hjt).
Qed.

Lemma ready_sync k0 pd l k y : ready k0 pd l k -> sync_ok y -> depth y = 0 -> locks y = locks (k_sync k) -> cur y = cur (k_sync k) ->
  no_interrupts y -> ready k0 pd l (set_sync y k).
Proof. intros [Hq Hc Hif Hp Hi Hpi Hu Hlru Hf Hlow Hdir] Hy Hd El Ec Hify. split; try done; [by apply quiet_set_sync|by etrans|by destruct Hf]. Qed.

(** kalloc gives the next page, while the lock of the allocator is not in use. *)
Lemma ready_kalloc k0 pd p l k : ready k0 pd (p :: l) k ->
  exists f, kalloc k = Ok p (set_kmem (with_freelist f (k_kmem k)) k) /\ ready k0 pd l (set_kmem (with_freelist f (k_kmem k)) k) /\ is_page p /\ low p.
Proof.
  intros [Hq Hc Hif Hp Hi Hpi Hu Hlru Hf Hlow Hdir]. exists (ld32 (k_mem k) p). split; [by apply (kalloc_run k p l); [apply quiet_may_alloc|]|].
  destruct Hf as [[Hpp Hps]%Forall_cons_iff [Hn Hnd]%list.NoDup_cons [_ Hlk]]. apply Forall_cons_iff in Hlow as [Hpl Hlow].
  split; [|done]. split; try done; [by destruct Hq|]. apply (kernel_dir_frame (k_mem k) _ pd (p :: l)); [done| |done]. intros q ?. left. by right.
Qed.

(** * Starting the other processors *)
Section others.
Variable dev : list io_event -> place -> Z.
Variable started_at : nat -> nat -> Z.

Lemma code_low : code <= img_end.
Proof. pose proof img_order. change KERNLINK with 0x80100000 in *. change code with 0x80007000. lia. Qed.

(** Processor [i] is seen to have started within [fuel] reads. *)
Definition starts (fuel i : nat) : Prop := exists j, (j < fuel)%nat /\ started_at i j <> 0.

Lemma wait_started_run fuel : forall i j b, (exists j', (j <= j' < j + fuel)%nat /\ started_at i j' <> 0) ->
  exists x, x <> 0 /\ wait_started started_at fuel i j b =
    Ok tt (set_k (set_sync (mk_sync (alter (with_started x) i (cpus (k_sync (b_k b)))) (cur (k_sync (b_k b))) (locks (k_sync (b_k b)))) (b_k b)) b).
Proof.
  induction fuel as [|fuel IH]; intros i j b (j' & Hj & Hs); [lia|]. cbn [wait_started]. destruct (Z.eqb_spec (started_at i j) 0) as [E|E].
  - apply IH. exists j'. split; [|done]. destruct (decide (j' = j)) as [->|]; [done|lia].
  - exists (started_at i j). split; [done|]. by apply kern_ok.
Qed.

(** The words below the entry code: stack, entry point and page table of a processor. *)
Definition start_words (m : memory) (stack : Z) : Prop :=
  ld32 m (code - 4) = u32 (stack + KSTACKSIZE) /\ ld32 m (code - 8) = u32 a_mpenter /\ ld32 m (code - 12) = u32 (V2P a_entrypgdir).

Lemma start_cpu_run fuel i k0 pd p l b : starts fuel i -> ready k0 pd (p :: l) (b_k b) -> i <> cur (k_sync k0) ->
  (i < length (cpus (k_sync (b_k b))))%nat ->
  exists k' ev, start_cpu dev started_at fuel i b = Ok tt (set_io ev (set_k k' b)) /\ ready k0 pd l k' /\
    length (cpus (k_sync k')) = length (cpus (k_sync (b_k b))) /\ k_bcache k' = k_bcache (b_k b) /\ start_words (k_mem k') p /\
    (forall a, p <= a < p + PGSIZE -> boot_map a = Some (V2P a)) /\ (exists c, cpus (k_sync k') !! i = Some c /\ started c <> 0) /\
    (forall a, code <= a -> ldb (k_mem k') a = ldb (k_mem (b_k b)) a).
Proof.
  intros (j & Hj & Hs) Hr Hi Hlen. unfold start_cpu.
  rewrite (bind_ok _ _ _ _ _ (kern_ok _ b _ _ (mycpu_run (b_k b) (quiet_sync _ (rd_quiet _ _ _ _ Hr)) (rd_if _ _ _ _ Hr)))).
  rewrite (rd_cur _ _ _ _ Hr), decide_False by done. destruct (ready_kalloc _ _ _ _ _ Hr) as (f & R & Hr1 & Hp & Hlow).
  rewrite (bind_ok _ _ _ _ _ (kern_ok _ (set_k _ b) _ _ R)). set (k1 := set_kmem _ _) in *.
  do 3 erewrite bind_ok by (apply kern_ok, vst32_kernel; vm_compute; congruence). cbn [b_k set_k k_mem set_mem]. set (m1 := st32 _ _ _).
  assert (Hm : forall a, code <= a -> ldb m1 a = ldb (k_mem k1) a).
  { intros a Ha. unfold m1. rewrite !ldb_st32. by rewrite !decide_False by lia. }
  pose proof (ready_store _ _ _ _ m1 Hr1 (fun a Ha => Hm a (Z.le_trans _ _ _ code_low Ha))) as Hr2. unfold reads. erewrite bind_ok by (apply kern_ok; reflexivity). cbn [b_k set_k k_sync set_mem].
  apply lookup_lt_is_Some in Hlen as [c Hc]. erewrite bind_ok by (apply kern_ok; cbn; rewrite Hc; reflexivity). cbn [b_k set_k].
  destruct (returns_lapicstartap dev (apicid c) (V2P code) (b_io b)) as ([] & ev & R3).
  erewrite bind_ok by (apply hw_ok; exact R3). match goal with |- context [wait_started _ _ _ _ ?st] => set (b3 := st) end.
  destruct (wait_started_run fuel i 0 b3) as (x & Hx & ->); [exists j; split; [lia|done]|].
  eexists _, ev. split; [by destruct b|]. split; [|split; [|split; [|split; [|split; [|split]]]]]; try done.
  4: { intros a. by apply boot_map_low. }
  4: { exists (with_started x c). split; [|done]. cbn. by rewrite list_lookup_alter_eq, Hc. }
  - destruct (sync_started x i (k_sync k1) (quiet_sync _ (rd_quiet _ _ _ _ Hr1))) as [Hy Hd]. apply ready_sync; try done.
    + etrans; [exact Hd|]. apply (quiet_depth _ (rd_quiet _ _ _ _ Hr1)).
    + intros c'. cbn. rewrite list_lookup_alter_ne by (by rewrite (rd_cur _ _ _ _ Hr)). apply (rd_if _ _ _ _ Hr).
  - cbn. by rewrite length_alter.
  - unfold start_words. cbn [b_k b3 set_io set_k k_mem set_sync set_mem]. unfold m1. split; [|split].
    + rewrite !ld32_st32_ne, ld32_st32_eq by lia. apply u32_small, u32_range.
    + rewrite ld32_st32_ne, ld32_st32_eq by lia. done.
    + by rewrite ld32_st32_eq.
Qed.


Lemma start_loop fuel k0 pd n : forall a l b, ready k0 pd l (b_k b) -> (n <= length l)%nat -> (a + n)%nat = length (cpus (k_sync (b_k b))) ->
  (forall i, (i < a + n)%nat -> i <> cur (k_sync k0) -> starts fuel i) ->
  exists k' ev l', for_each (seq a n) (start_cpu dev started_at fuel) b = Ok tt (set_io ev (set_k k' b)) /\ ready k0 pd l' k' /\
    (length l <= length l' + n)%nat /\ k_bcache k' = k_bcache (b_k b) /\ (forall a, code <= a -> ldb (k_mem k') a = ldb (k_mem (b_k b)) a).
Proof.
  induction n as [|n IH]; intros a l b Hr Hl Ha Hs.
  - exists (b_k b), (b_io b), l. split; [by destruct b|]. split; [done|]. split; [lia|done].
  - cbn [seq for_each]. destruct (decide (a = cur (k_sync k0))) as [->|Hne].
    + rewrite (bind_ok _ _ b tt b).
      * destruct (IH (S (cur (k_sync k0))) l b) as (k' & ev & l' & R & Hr' & Hl' & H); [done|lia|lia|intros; apply Hs; lia || done|].
        exists k', ev, l'. split; [done|]. split; [done|]. split; [lia|done].
      * unfold start_cpu. rewrite (bind_ok _ _ _ _ _ (kern_ok _ b _ _ (mycpu_run (b_k b) (quiet_sync _ (rd_quiet _ _ _ _ Hr)) (rd_if _ _ _ _ Hr)))).
        rewrite decide_True by (symmetry; apply (rd_cur _ _ _ _ Hr)). by destruct b.
    + destruct l as [|p l]; [simpl in Hl; lia|]. destruct (start_cpu_run fuel a k0 pd p l b) as (k1 & ev1 & R1 & Hr1 & Hc1 & B1 & _ & _ & _ & M1); [apply Hs; lia || done|done|done|lia|].
      rewrite (bind_ok _ _ _ _ _ R1). destruct (IH (S a) l (set_io ev1 (set_k k1 b))) as (k' & ev & l' & R & Hr' & Hl' & B' & M');
        [done|simpl in Hl; lia|cbn; lia|intros; apply Hs; lia || done|].
      exists k', ev, l'. split; [rewrite R; by destruct b|]. split; [done|]. split; [simpl; lia|]. split; [by rewrite B'|]. intros x Hx. by rewrite M', M1.
Qed.

(** startothers copies the entry code to its place and starts every other processor. *)
Lemma startothers_run fuel k0 pd l b : ready k0 pd l (b_k b) -> (length (cpus (k_sync (b_k b))) <= length l)%nat ->
  (forall i, (i < length (cpus (k_sync (b_k b))))%nat -> i <> cur (k_sync k0) -> starts fuel i) ->
  bytes_ok entryother_bin -> Z.of_nat (length entryother_bin) <= PGSIZE ->
  exists k' ev l', startothers dev started_at fuel b = Ok tt (set_io ev (set_k k' b)) /\ ready k0 pd l' k' /\
    (length l <= length l' + length (cpus (k_sync (b_k b))))%nat /\ k_bcache k' = k_bcache (b_k b) /\
    (forall j x, entryother_bin !! j = Some x -> ldb (k_mem k') (code + Z.of_nat j) = x).
Proof.
  intros Hr Hl Hs Hb Hlen. unfold startothers. erewrite bind_ok by (apply kern_ok, vstore_kernel; vm_compute; congruence).
  set (m1 := st_bytes _ _ _). assert (Hm : forall a, img_end <= a -> ldb m1 a = ldb (k_mem (b_k b)) a).
  { intros a Ha. pose proof img_order. unfold m1. rewrite ldb_st_bytes by done. change KERNLINK with 0x80100000 in *. change code with 0x80007000.
    change PGSIZE with 4096 in Hlen. by rewrite decide_False by lia. }
  unfold reads. erewrite bind_ok by (apply kern_ok; reflexivity).
  destruct (start_loop fuel k0 pd (length (cpus (k_sync (b_k b)))) 0 l (set_k (set_mem m1 (b_k b)) b)) as (k' & ev & l' & R & Hr' & Hl' & B' & M'); try done.
  { by apply ready_store. }
  exists k', ev, l'. split; [etrans; [|etrans; [exact R|]]; by destruct b|]. split; [done|]. split; [done|]. split; [done|].
  intros j x Hj. rewrite M' by lia. cbn. unfold m1. rewrite ldb_st_bytes by done. apply lookup_lt_Some in Hj as Hjl. rewrite decide_True by lia.
  replace (Z.to_nat _) with j by lia. by rewrite Hj.
Qed.
End others.

(** * Memory before the other processors *)

(** How many pages are between the kernel and the end of low memory. *)
Definition low_pages : nat := Z.to_nat ((low_end - PGROUNDUP img_end) / PGSIZE).

(** The state in which the boot loader leaves the kernel: the variables have their
    initial values, which are zero where no other is given. *)
Record power_on (k : kstate) : Prop := mk_power_on {
  po_locks : forall lk, has_lock lk k -> free_lock lk (k_sync k);
  po_free : freelist (k_kmem k) = 0;
  po_lru : (0 < length (pages (k_kmem k)))%nat /\ page_lru_head (k_kmem k) = None;
  po_bufs : length (bufs (k_bcache k)) = HEAD;
  po_pid : nextpid (k_ptable k) = 1;
  po_procs : exists p, procs (k_ptable k) !! 0%nat = Some p /\ p_state p = UNUSED;
  po_inodes : (0 < length (inodes (k_fs k)))%nat /\ Forall (fun ip => i_ref ip = 0) (inodes (k_fs k)) }.

Lemma power_on_icache k : power_on k -> icache_inv (inodes (k_fs k)) /\ exists j jp, inodes (k_fs k) !! j = Some jp /\ i_ref jp = 0.
Proof.
  intros Hk. destruct (po_inodes k Hk) as [Hl H0]. rewrite Forall_lookup in H0. split; [split|].
  - intros i ip Hi. rewrite (H0 i ip Hi). lia.
  - intros i j ip jp Hi Hj Hr. rewrite (H0 i ip Hi) in Hr. lia.
  - apply lookup_lt_is_Some in Hl as [ip Hip]. exists 0%nat, ip. split; [done|by apply (H0 0%nat)].
Qed.

Lemma low_end_bound : low_end <= KERNBASE + PHYSTOP /\ low_end mod PGSIZE = 0.
Proof. split; [vm_compute; congruence|reflexivity]. Qed.

Lemma low_pages_low : img_end <= low_end -> Forall low (rev (pages_from (PGROUNDUP img_end) low_pages)).
Proof.
  intros He. apply list.Forall_forall. intros q. rewrite list_elem_of_In, <- in_rev, <- list_elem_of_In. intros (i & -> & Hi)%elem_of_pages_from.
  unfold low_pages in Hi. unfold low. change PGSIZE with 4096 in *. zdiv.
Qed.

(** kinit1 and setupkvm: the kernel's page table, made of low memory. *)
Lemma kinit1_run k : power_on k -> img_end <= low_end ->
  let l := rev (pages_from (PGROUNDUP img_end) low_pages) in let k1 := set_kmem (with_use_lock false (k_kmem k)) k in
  exists f m, kinit1 img_end low_end k = Ok tt (alloc_state f m k1) /\ free_ok (alloc_state f m k1) l /\ Forall low l.
Proof.
  intros Hk He l k1. unfold kinit1. assert (R : on_sync (initlock L_kmem) k = Ok tt k).
  { unfold on_sync, initlock, put_lock, modify. rewrite insert_id by (by apply (po_locks k Hk L_kmem)). by destruct k as [[]]. }
  rewrite (bind_ok _ _ _ _ _ R). unfold upd_kmem, modify. erewrite bind_ok by reflexivity. fold k1.
  destruct (freerange_correct k1 [] img_end low_end) as (f & m & R1 & Hf & _).
  - intros Hu. discriminate Hu.
  - split; [constructor|constructor|]. apply (po_free k Hk).
  - lia.
  - apply low_end_bound.
  - set_solver.
  - exists f, m. rewrite app_nil_r in Hf. split; [done|]. split; [done|]. by apply low_pages_low.
Qed.

Lemma kvmalloc_run b pd l : may_alloc (b_k b) -> free_ok (b_k b) (pd :: l) -> Forall low (pd :: l) -> lru_ok (b_k b) ->
  img_data mod PGSIZE = 0 -> (64 <= length l)%nat ->
  exists f m l', kvmalloc b = Ok tt (set_cr3 (V2P pd) (set_kpgdir pd (set_k (alloc_state f m (b_k b)) b))) /\
    free_ok (alloc_state f m (b_k b)) l' /\ Forall low l' /\ kernel_dir m pd l' /\ (length l <= length l' + 64)%nat.
Proof.
  intros Hc Hf Hlow Hlru Hd Hlen. destruct (setupkvm_run (b_k b) pd l Hc Hf Hlru Hd Hlen) as (f & m & l' & R & F & O & V & _ & S & W & L).
  rewrite list.Forall_forall in Hlow. exists f, m, l'. split; [|split; [done|split; [|split; [|done]]]].
  - unfold kvmalloc. rewrite (bind_ok _ _ _ _ _ (kern_ok _ b _ _ R)). done.
  - apply list.Forall_forall. intros q Hq. apply Hlow. right. by apply S.
  - split; [done| |done]. intros q Hq. apply Hlow, W. by right.
Qed.

(** * The end of main *)
Lemma print_run bs s : quiet s -> cons_print bs s = Ok tt (set_cons (put_out bs (k_cons s)) s).
Proof.
  intros Hq. unfold cons_print. rewrite (bind_ok _ _ _ _ _ (acquire_quiet L_cons s Hq I)). erewrite bind_ok by reflexivity.
  rewrite (release_quiet L_cons s) by done. by destruct s.
Qed.

(** mycpu() may be written while interrupts are off. *)
Lemma upd_mycpu_run f y : (forall c, apicid (f c) = apicid c /\ ncli (f c) = ncli c /\ intena (f c) = intena c /\ eflags_if (f c) = eflags_if c) ->
  sync_ok y -> no_interrupts y -> upd_mycpu f y = Ok tt (upd_cur f y) /\ sync_ok (upd_cur f y) /\ depth (upd_cur f y) = depth y /\ no_interrupts (upd_cur f y).
Proof.
  intros Hf (c & Hc & Hid & H) Hi. pose proof (Hi c Hc) as Hif. split; [by apply (upd_mycpu_ok y c)|].
  pose proof (cpu_at_upd y c f (fun c => proj1 (Hf c)) (conj Hc Hid)) as [Hc' Hid']. destruct (Hf c) as (_ & En & Ei & Ee).
  unfold depth, no_interrupts. rewrite Hc', Hc. split; [|split; [done|intros c1 [= <-]; by rewrite Ee]].
  exists (f c). rewrite En, Ei, Ee. done.
Qed.

(** The scheduler finds the first process runnable and hands the processor to it. *)
Lemma scheduler_run fuel s p : quiet s -> no_interrupts (k_sync s) -> procs (k_ptable s) !! 0%nat = Some p ->
  p_state p = RUNNABLE -> p_kstack p <> 0 -> p_pgdir p <> 0 ->
  exists y kont, scheduler (S fuel) s = Swtch (handed 0 (set_sync y s)) kont /\ sync_ok y /\ held_lock L_ptable y /\ depth y = 1 /\
    cur y = cur (k_sync s) /\ forall lk, lk <> L_ptable -> locks y !! lk = locks (k_sync s) !! lk.
Proof.
  intros Hq Hni Hp Hs Hks Hpg. pose proof Hq as [Hy Hd Hl]. unfold scheduler.
  destruct (upd_mycpu_run (with_cpu_proc None) _ ltac:(done) Hy Hni) as (R1 & Hy1 & Hd1 & _). set (y1 := upd_cur _ _) in *.
  rewrite (bind_ok _ _ _ _ _ (on_sync_ok _ s tt _ R1)).
  destruct (acquire_sti L_ptable y1 Hy1 ltac:(lia) (Hl L_ptable I)) as (y2 & y & R2 & R3 & Hy3 & Hh3 & Hd3 & Hc3 & Hl3).
  pose proof (on_sync_ok _ (set_sync y1 s) tt _ R2) as R2'. pose proof (on_sync_ok _ (set_sync y2 s) tt _ R3) as R3'.
  assert (R4 : schedule_proc 0 (set_sync y s) = Swtch (handed 0 (set_sync y s)) (fun s2 => on_sync (upd_mycpu (with_cpu_proc None)) s2)).
  { apply (schedule_proc_run 0 p); try done. cbn. lia. }
  exists y. cbn [rounds]. unfold scheduler_round. unfold bind at 1. rewrite (bind_ok _ _ _ _ _ R2').
  change (set_sync y2 (set_sync y1 s)) with (set_sync y2 s). rewrite (bind_ok _ _ _ _ _ R3'). unfold reads. erewrite bind_ok by reflexivity.
  change (set_sync y (set_sync y2 s)) with (set_sync y s). cbn [k_ptable set_sync]. pose proof (lookup_lt_Some _ _ _ Hp) as Hlen.
  destruct (length (procs (k_ptable s))) as [|n]; [lia|]. cbn [seq for_each]. unfold bind. rewrite R4. cbn [obind].
  eexists. split; [reflexivity|]. split; [done|]. split; [done|]. split; [done|]. split; [done|]. done.
Qed.

Lemma mpmain_run fuel b p : quiet (b_k b) -> no_interrupts (k_sync (b_k b)) -> procs (k_ptable (b_k b)) !! 0%nat = Some p ->
  p_state p = RUNNABLE -> p_kstack p <> 0 -> p_pgdir p <> 0 ->
  exists y c kont, mpmain (S fuel) b = Swtch (set_k (handed 0 (set_sync y (set_cons c (b_k b)))) (set_idtr (cur (k_sync (b_k b)) :: b_idtr b) b)) kont /\
    sync_ok y /\ held_lock L_ptable y /\ depth y = 1 /\
    cur y = cur (k_sync (b_k b)) /\ forall lk, lk <> L_ptable -> locks y !! lk = locks (k_sync (b_k b)) !! lk.
Proof.
  intros Hq Hni Hp Hs Hks Hpg. pose proof Hq as [Hy Hd Hl]. unfold mpmain, cpuid.
  erewrite bind_ok by (apply kern_ok; apply on_sync_ok; destruct (sync_ok_at _ Hy) as (c & Hat & _);
    rewrite (bind_ok _ _ _ _ _ (mycpu_ok _ c Hat (Hni c (proj1 Hat)))); reflexivity).
  match goal with |- context [set_sync ?y ?k] => replace (set_sync y k) with k by (by destruct k) end.
  erewrite bind_ok by (apply kern_ok, print_run; done). cbn [b_k set_k]. set (k1 := set_cons _ _).
  unfold idtinit, reads, modify. erewrite bind_ok by (erewrite bind_ok by (apply kern_ok; reflexivity); reflexivity). cbn [b_k set_k set_idtr b_idtr].
  destruct (upd_mycpu_run (with_started 1) (k_sync k1) ltac:(done) Hy Hni) as (R1 & Hy1 & Hd1 & Hn1).
  erewrite bind_ok by (apply kern_ok, on_sync_ok; exact R1). cbn [b_k set_k set_idtr].
  destruct (scheduler_run fuel (set_sync (upd_cur (with_started 1) (k_sync k1)) k1) p) as (y & kont & R & H); try done.
  - apply quiet_set_sync; [by split|done|by rewrite Hd1|done].
  - exists y, (put_out (cprintf (fun _ => []) (str "cpu%d: starting %d") [Z.of_nat (cur (k_sync (b_k b))); Z.of_nat (cur (k_sync (b_k b)))] ++ [10]) (k_cons (b_k b))).
    unfold kern, zoom. cbn [b_k set_k set_idtr]. rewrite R. cbn [zoom_out]. eexists. split; [by destruct b|]. done.
Qed.

(** * The rest of memory, and the first process *)
Definition high_pages : list Z := pages_from low_end (Z.to_nat ((P2V PHYSTOP - low_end) / PGSIZE)).

Lemma high_not_low q : q ∈ high_pages -> low_end <= q.
Proof. intros (i & -> & _)%elem_of_pages_from. change PGSIZE with 4096. lia. Qed.

Lemma dir_page_page m pd l q : pgdir_ok m pd l -> dir_page m pd q -> is_page q /\ (q ∉ l).
Proof. intros [Hp Hn Ht _] [->|(i & Hi & E)]; [done|]. by destruct (Ht i q Hi E) as (? & ? & _). Qed.

Lemma kinit2_run k0 pd l k : ready k0 pd l k ->
  exists f m, let k' := set_kmem (with_use_lock true (with_freelist f (k_kmem k))) (set_mem m k) in
    kinit2 low_end (P2V PHYSTOP) k = Ok tt k' /\ quiet k' /\ lru_ok k' /\ free_ok k' (rev high_pages ++ l) /\ kernel_dir m pd (rev high_pages ++ l).
Proof.
  intros [Hq Hc Hif Hp Hi Hpi Hu Hlru Hf Hlow Hdir]. destruct low_end_bound as [Hle Hlm].
  assert (Er : PGROUNDUP low_end = low_end) by reflexivity. rewrite list.Forall_forall in Hlow.
  destruct (freerange_correct k l low_end (P2V PHYSTOP)) as (f & m & R & Hf' & Hm).
  - by apply quiet_may_alloc.
  - done.
  - split; [|vm_compute; congruence]. destruct Hf as [Hps _ _]. clear -Hdir Hlow. pose proof (kd_low _ _ _ Hdir pd (or_introl eq_refl)) as H.
    destruct (pd_page _ _ _ (kd_ok _ _ _ Hdir)) as [_ H']. unfold low in H. change PGSIZE with 4096 in H. lia.
  - vm_compute. congruence.
  - rewrite Er. fold high_pages. intros q Hq1 Hq2. pose proof (high_not_low q Hq1). pose proof (Hlow q Hq2) as H2. unfold low in H2. change PGSIZE with 4096 in H2. lia.
  - rewrite Er in Hf', Hm. fold high_pages in Hf', Hm. exists f, m. cbv zeta. split; [|split; [|split; [|split]]].
    + unfold kinit2. rewrite (bind_ok _ _ _ _ _ R). done.
    + by destruct Hq.
    + done.
    + destruct Hf' as [H1 H2 H3]. split; [exact H1|exact H2|exact H3].
    + apply (kernel_dir_frame (k_mem k) _ pd l); [done| |].
      * intros q [Hq1|Hq1]%elem_of_app; [right|by left]. rewrite list_elem_of_In, <- in_rev, <- list_elem_of_In in Hq1. apply high_not_low in Hq1.
        unfold low. change PGSIZE with 4096. lia.
      * intros q a Hq1 Ha. apply Hm. intros q' Hq'. apply high_not_low in Hq'. pose proof (kd_low _ _ _ Hdir q Hq1) as H. unfold low in H. lia.
Qed.

Lemma high_pages_many l : exists ks pd l', rev high_pages ++ l = ks :: pd :: l' /\ (66 <= length l')%nat.
Proof.
  assert (H : (100 <= length (rev high_pages ++ l))%nat).
  { rewrite length_app, length_rev. unfold high_pages, pages_from. rewrite length_fmap, length_seq. change ((P2V PHYSTOP - low_end) / PGSIZE) with 56320. lia. }
  destruct (rev high_pages ++ l) as [|ks [|pd l']]; simpl in H; try lia. exists ks, pd, l'. split; [done|]. lia.
Qed.

(** The first process exists, and the kernel has its page table, its buffer cache and all
    of its memory. *)
Record set_up (k0 : kstate) (kpd : Z) (k : kstate) : Prop := mk_set_up {
  su_map : forall va, 0 <= va < 2 ^ 32 -> pte_val (k_mem k) kpd va = kernel_pte va;
  su_init : exists p ks pd root ip mem l, procs (k_ptable k0) !! 0%nat = Some p /\
    procs (k_ptable k) !! 0%nat = Some (init_process p 1 ks pd root) /\ is_page ks /\ initproc (k_ptable k) = Some 0%nat /\
    inodes (k_fs k) !! root = Some ip /\ caches ROOTDEV ROOTINO ip = true /\ init_space (k_mem k) pd mem l initcode_bin /\ free_ok k l;
  su_use : use_lock (k_kmem k) = true }.

Lemma find_first ps p : ps !! 0%nat = Some p -> p_state p = UNUSED -> find_unused ps 0 = Some 0%nat.
Proof. destruct ps as [|q ps]; [done|]. intros [= ->] Hs. cbn. by rewrite decide_True. Qed.

Lemma userinit_last k0 kpd l k : power_on k0 -> k_ptable k = k_ptable k0 -> inodes (k_fs k) = inodes (k_fs k0) ->
  quiet k -> lru_ok k -> free_ok k (rev high_pages ++ l) -> kernel_dir (k_mem k) kpd (rev high_pages ++ l) -> use_lock (k_kmem k) = true ->
  img_data mod PGSIZE = 0 -> bytes_ok initcode_bin -> Z.of_nat (length initcode_bin) < PGSIZE ->
  exists k', userinit initcode_bin k = Ok tt k' /\ set_up k0 kpd k' /\ quiet k' /\ k_sync k' = k_sync k /\ k_bcache k' = k_bcache k.
Proof.
  intros Hk Ep Ei Hq Hlru Hf Hdir Hu Hd Hb Hlen. destruct (power_on_icache k0 Hk) as [Hinv Hfree]. rewrite <- Ei in Hinv, Hfree.
  destruct (po_procs k0 Hk) as (p & Hp & Hs). destruct (high_pages_many l) as (ks & pd & l1 & El & Hl1). rewrite El in Hf, Hdir. clear El.
  assert (Hp' : procs (k_ptable k) !! 0%nat = Some p) by (by rewrite Ep).
  assert (Hn : nextpid (k_ptable k) = 1) by (rewrite Ep; apply (po_pid k0 Hk)). pose proof (lookup_lt_Some _ _ _ Hp') as Hlt.
  destruct (userinit_run k ks pd l1 0 p initcode_bin Hq Hf Hlru Hl1 Hd ltac:(lia) (find_first _ _ Hp' Hs) Hp' Hinv Hfree Hb Hlen)
    as (k1 & m & l2 & mem & root & ip & R & Hu1 & Hf2 & Hsp & Hroot & Hca & Hm). cbv zeta in R, Hf2.
  match type of R with _ = Ok tt ?st => set (k' := st) in * end. exists k'. split; [done|]. split; [split|split; [|done]].
  - apply (kernel_dir_frame _ m kpd _ [] Hdir); [set_solver|]. intros q a Hqd Ha. apply Hm. intros q' Hq'.
    destruct (dir_page_page _ _ _ _ (kd_ok _ _ _ Hdir) Hqd) as [Hpq Hnq]. destruct Hf as [Hps _ _]. rewrite list.Forall_forall in Hps.
    destruct (page_sep q q' Hpq (Hps q' Hq')); [intros ->; done|lia|lia].
  - exists p, ks, pd, root, ip, mem, l2. split; [done|]. split; [unfold k'; cbn [k_ptable set_fs set_ptable procs]; rewrite Hn; by apply list_lookup_insert_eq|].
    split; [destruct Hf as [[? _]%Forall_cons_iff _ _]; done|]. split; [done|]. split; [cbn; by apply list_lookup_insert_eq|done].
  - cbn. by rewrite Hu1.
  - destruct Hq as [Hy Hdp Hl]. split; [done|done|]. intros lk Hlk. apply Hl. destruct lk; try done. cbn in Hlk |- *. by rewrite length_insert in Hlk.
Qed.

(** * main *)
Lemma ready_cons k0 pd l k c : ready k0 pd l k -> ready k0 pd l (set_cons c k).
Proof. intros [Hq Hc Hif Hp Hi Hpi Hu Hlru Hf Hlow Hdir]. split; try done; [by destruct Hq|by destruct Hf]. Qed.

Lemma ready_disk k0 pd l k d : ready k0 pd l k -> ready k0 pd l (set_disk d k).
Proof. intros [Hq Hc Hif Hp Hi Hpi Hu Hlru Hf Hlow Hdir]. split; try done; [by destruct Hq|by destruct Hf]. Qed.

Lemma ready_bcache k0 pd l k c : length (bufs c) = length (bufs (k_bcache k)) -> ready k0 pd l k -> ready k0 pd l (set_bcache c k).
Proof.
  intros E [Hq Hc Hif Hp Hi Hpi Hu Hlru Hf Hlow Hdir]. split; try done; [|by destruct Hf]. destruct Hq as [? ? Hl]. split; try done.
  intros lk Hlk. apply Hl. destruct lk; try done. cbn in Hlk |- *. by rewrite <- E.
Qed.

(** The segments of a processor. *)
Definition segments (me : nat) (g : gmap (nat * Z) segdesc) : gmap (nat * Z) segdesc :=
  <[(me, SEG_UDATA) := SEG STA_W 0 0xffffffff DPL_USER]> (<[(me, SEG_UCODE) := SEG (Z.lor STA_X STA_R) 0 0xffffffff DPL_USER]>
    (<[(me, SEG_KDATA) := SEG STA_W 0 0xffffffff 0]> (<[(me, SEG_KCODE) := SEG (Z.lor STA_X STA_R) 0 0xffffffff 0]> g))).

Lemma seginit_run k0 pd l b : ready k0 pd l (b_k b) -> seginit b = Ok tt (set_gdt (segments (cur (k_sync k0)) (b_gdt b)) b).
Proof.
  intros Hr. unfold seginit.
  rewrite (bind_ok _ _ _ _ _ (kern_ok _ b _ _ (mycpu_run (b_k b) (quiet_sync _ (rd_quiet _ _ _ _ Hr)) (rd_if _ _ _ _ Hr)))).
  rewrite (rd_cur _ _ _ _ Hr). by destruct b.
Qed.

Section main.
Variable dev : list io_event -> place -> Z.
Variable fw : Z -> Z.
Variable started_at : nat -> nat -> Z.
Variable ideinit : K unit.

Lemma boot_mpinit_run fuel info b : mpinit fw fuel = Ok info tt ->
  exists ev, boot_mpinit dev fw fuel b = Ok tt (set_io ev (set_k (set_sync (mk_sync (fresh_cpu <$> mi_cpus info) (cur (k_sync (b_k b))) (locks (k_sync (b_k b)))) (b_k b))
    (set_apics (mi_lapic info) (mi_ioapicid info) b))).
Proof.
  intros R. unfold boot_mpinit. rewrite R. cbv zeta. unfold modify. erewrite bind_ok by (apply kern_ok; reflexivity). cbn [b_k set_apics]. destruct (mi_imcr info); cbn [when].
  - assert (H : returns (outb 0x22 0x70 ;;; let! v := inb dev 0x23 in outb 0x23 (Z.lor v 1))) by auto with devices.
    destruct (H (b_io b)) as ([] & ev & R1). exists ev. by erewrite hw_ok by exact R1.
  - exists (b_io b). by destruct b.
Qed.

Lemma boot_ioapicinit_run k0 pd l b : ready k0 pd l (b_k b) ->
  exists k ev, boot_ioapicinit dev b = Ok tt (set_k k (set_io ev b)) /\ ready k0 pd l k /\
    k_bcache k = k_bcache (b_k b) /\ k_sync k = k_sync (b_k b).
Proof.
  intros Hr. unfold boot_ioapicinit. destruct (returns_ioapicinit dev (b_ioapicid b) (b_io b)) as (w & ev & R). rewrite (bind_ok _ _ _ _ _ (hw_ok _ b _ _ R)).
  destruct w; cbn [when].
  - unfold upd_cons, modify. erewrite kern_ok by reflexivity. eexists _, ev. split; [reflexivity|]. split; [by apply ready_cons|done].
  - exists (b_k b), ev. split; [by destruct b|done].
Qed.

(** What the boot relies on: the kernel as it is loaded, enough low memory, the tables of
    the firmware, devices and processors that answer, a disk driver that starts, and
    programs of a page. *)
Record bootable (fuel : nat) (info : mpinfo) (b : bstate) : Prop := mk_bootable {
  bo_on : power_on (b_k b);
  bo_data : img_data mod PGSIZE = 0;
  bo_room : (65 + length (mi_cpus info) <= low_pages)%nat;
  bo_mp : mpinit fw fuel = Ok info tt;
  bo_ids : NoDup (mi_cpus info);
  bo_me : (cur (k_sync (b_k b)) < length (mi_cpus info))%nat;
  bo_apic : delivers dev;
  bo_others : forall i, (i < length (mi_cpus info))%nat -> i <> cur (k_sync (b_k b)) -> starts started_at fuel i;
  bo_ide : forall k, quiet k -> exists d, ideinit k = Ok tt (set_disk d k);
  bo_entry : bytes_ok entryother_bin /\ Z.of_nat (length entryother_bin) <= PGSIZE;
  bo_init : bytes_ok initcode_bin /\ Z.of_nat (length initcode_bin) < PGSIZE }.

Lemma room_low : (0 < low_pages)%nat -> img_end <= low_end.
Proof.
  intros H. unfold low_pages in H. pose proof img_order as Ho. pose proof img_fits as Hf.
  destruct (PGROUNDUP_bounds img_end) as [Hb _]; [unfold KERNBASE, PHYSTOP in *; change KERNLINK with 0x80100000 in *; change PGSIZE with 4096; lia|].
  destruct (Z.le_gt_cases (PGROUNDUP img_end) low_end); [lia|].
  assert ((low_end - PGROUNDUP img_end) / PGSIZE < 0) by (apply Z.div_lt_upper_bound; [done|lia]). lia.
Qed.

(** main up to startothers: the memory, the page table, and the processors. *)
Lemma early_run fuel info b : bootable (S fuel) info b ->
  exists k pd l ev, ready (b_k b) pd l k /\ (length (mi_cpus info) <= length l)%nat /\ cpus (k_sync k) = fresh_cpu <$> mi_cpus info /\ length (bufs (k_bcache k)) = HEAD /\
    forall (rest : B unit), (kern (kinit1 img_end low_end) ;;; kvmalloc ;;; boot_mpinit dev fw (S fuel) ;;; rest) b =
      rest (set_io ev (set_k k (set_apics (mi_lapic info) (mi_ioapicid info) (set_cr3 (V2P pd) (set_kpgdir pd b))))).
Proof.
  intros [Hon Hd Hroom Hmp Hnd Hme _ _ _ _ _]. destruct (kinit1_run (b_k b) Hon) as (f & m & R1 & F1 & L1); [apply room_low; lia|].
  assert (Hlen : length (rev (pages_from (PGROUNDUP img_end) low_pages)) = low_pages) by (unfold pages_from; by rewrite length_rev, length_fmap, length_seq).
  destruct (rev _) as [|pd l]; [simpl in Hlen; lia|]. set (k1 := alloc_state _ _ _) in *. destruct (po_lru _ Hon) as [Hl1 Hl2].
  destruct (kvmalloc_run (set_k k1 b) pd l) as (f2 & m2 & l2 & R2 & F2 & L2 & D2 & N2); try done; [by split; [|left]|simpl in Hlen; lia|].
  set (b2 := set_cr3 _ _) in *. destruct (boot_mpinit_run (S fuel) info b2 Hmp) as (ev & R3).
  eexists _, pd, l2, ev. split; [|split; [simpl in Hlen; lia|split; [|split]]].
  4:{ intros rest. rewrite (bind_ok _ _ _ _ _ (kern_ok _ b _ _ R1)), (bind_ok _ _ _ _ _ R2), (bind_ok _ _ _ _ _ R3). reflexivity. }
  - destruct (fresh_sync (mi_cpus info) (cur (k_sync (b_k b))) (locks (k_sync (b_k b))) Hnd Hme) as [Hy Hdp]. split; try done.
    + split; [done|done|]. intros lk Hlk. exact (po_locks _ Hon lk Hlk).
    + intros c. cbn. rewrite list_lookup_fmap_Some. by intros (id & -> & _).
    + by split; [|left].
    + by destruct F2.
  - done.
  - exact (po_bufs _ Hon).
Qed.

(** main up to the call of mpmain. *)
Lemma main_init_run fuel info b : bootable (S fuel) info b ->
  exists b', main_init dev fw started_at ideinit (S fuel) b = Ok tt b' /\ set_up (b_k b) (b_kpgdir b') (b_k b') /\ quiet (b_k b') /\
    cur (k_sync (b_k b')) = cur (k_sync (b_k b)) /\ no_interrupts (k_sync (b_k b')) /\ ring (k_bcache (b_k b')) (rev (seq 0 HEAD)) /\
    b_idt b' = tvinit vectors /\ b_gdt b' = segments (cur (k_sync (b_k b))) (b_gdt b).
Proof.
  intros Hb. destruct (early_run fuel info b Hb) as (k & pd & l & ev & Hr & Hl & Hcp & Hbuf & Run). unfold main_init. fold low_end. rewrite Run. clear Run.
  destruct (Hb) as [Hon Hd _ _ _ _ Hdel Hoth Hide [He1 He2] [Hi1 Hi2]]. set (b1 := set_io _ _).
  destruct (returns_lapicinit dev fuel (negb (b_lapic b1 =? 0)) Hdel (b_io b1)) as ([] & ev2 & R2).
  erewrite bind_ok by (unfold boot_lapicinit; apply hw_ok; exact R2).
  erewrite bind_ok by (eapply seginit_run; exact Hr).
  erewrite bind_ok by (apply hw_ok; reflexivity).
  match goal with |- context [bind _ _ ?st] => destruct (boot_ioapicinit_run (b_k b) pd l st Hr) as (k3 & ev3 & R3 & Hr3 & Hb3 & Hs3); rewrite (bind_ok _ _ _ _ _ R3); clear R3 end.
  cbn [b_k b1 set_io set_k set_gdt] in Hb3, Hs3.
  assert (Hil : forall lk b0, b_k b0 = k3 -> has_lock lk k3 -> kern (on_sync (initlock lk)) b0 = Ok tt b0).
  { intros lk b0 E Hlk. rewrite (kern_ok _ b0 tt k3); [rewrite <- E; by destruct b0|]. rewrite E. apply initlock_run; [done|]. apply (rd_quiet _ _ _ _ Hr3). }
  unfold boot_consoleinit, consoleinit. erewrite bind_ok by (erewrite bind_ok by (apply Hil; [reflexivity|exact I]); apply hw_ok; reflexivity).
  match goal with |- context [bind (boot_uartinit dev) _ ?st] => destruct (returns_uartinit dev (b_io st)) as (u & ev4 & R4) end.
  unfold boot_uartinit. erewrite bind_ok by (erewrite bind_ok by (apply hw_ok; exact R4); reflexivity).
  unfold pinit, boot_tvinit. erewrite bind_ok by (apply Hil; [reflexivity|exact I]).
  erewrite bind_ok by (unfold modify; erewrite bind_ok by reflexivity; apply Hil; [reflexivity|exact I]).
  destruct (binit_run k3) as (c & R5 & Hring & Hcores); [by rewrite Hb3|apply (rd_quiet _ _ _ _ Hr3)|].
  erewrite bind_ok by (apply kern_ok; exact R5).
  assert (Hr5 : ready (b_k b) pd l (set_bcache c k3)).
  { apply ready_bcache; [|done]. apply (f_equal length) in Hcores. unfold cores in Hcores. by rewrite !length_fmap in Hcores. }
  unfold fileinit. erewrite bind_ok by (apply kern_ok, (initlock_run L_ftable); [exact I|apply (rd_quiet _ _ _ _ Hr5)]).
  destruct (Hide (set_bcache c k3) (rd_quiet _ _ _ _ Hr5)) as (d & R6). erewrite bind_ok by (apply kern_ok; exact R6).
  pose proof (ready_disk _ _ _ _ d Hr5) as Hr6.
  match goal with |- context [bind (startothers _ _ _) _ ?st] => assert (Hst : exists b6, b6 = st /\ b_k b6 = set_disk d (set_bcache c k3) /\ b_kpgdir b6 = pd /\
    b_idt b6 = tvinit vectors /\ b_gdt b6 = segments (cur (k_sync (b_k b))) (b_gdt b)) by (exists st; done) end.
  destruct Hst as (b6 & <- & E6 & Kp & Ki & Kg). rewrite <- E6 in Hr6.
  assert (Hc6 : cpus (k_sync (b_k b6)) = fresh_cpu <$> mi_cpus info) by (rewrite E6; cbn; by rewrite Hs3).
  destruct (startothers_run dev started_at (S fuel) (b_k b) pd l b6 Hr6) as (k7 & ev7 & l7 & R7 & Hr7 & _ & B7 & _); [by rewrite Hc6, length_fmap|..|done|done|].
  { intros i. rewrite Hc6, length_fmap. apply Hoth. }
  rewrite (bind_ok _ _ _ _ _ R7). destruct (kinit2_run _ _ _ _ Hr7) as (f & m & R8 & Hq8 & Hl8 & Hf8 & Hd8). cbv zeta in *.
  rewrite (bind_ok _ _ _ _ _ (kern_ok _ (set_io _ (set_k k7 b6)) _ _ R8)).
  set (k8 := set_kmem _ _) in *.
  destruct (userinit_last (b_k b) pd l7 k8 Hon (rd_ptable _ _ _ _ Hr7) (rd_inodes _ _ _ _ Hr7) Hq8 Hl8 Hf8 Hd8 eq_refl Hd Hi1 Hi2) as (k9 & R9 & Su & Hq9 & Hy9 & B9).
  eexists. split; [apply kern_ok; exact R9|]. cbn [b_k set_k set_io b_kpgdir b_idt b_gdt]. rewrite Kp, Hy9, B9. cbn [k_sync k_bcache set_kmem set_mem].
  split; [done|]. split; [done|]. split; [apply (rd_cur _ _ _ _ Hr7)|]. split; [apply (rd_if _ _ _ _ Hr7)|]. split; [|done].
  unfold k8. cbn [k_bcache set_kmem set_mem]. by rewrite B7, E6.
Qed.

(** The machine runs the first process: the processor has been given to it as sched
    expects, with ptable.lock the only lock that is held. *)
Record runs_init (b b' : bstate) : Prop := mk_runs_init {
  ri_resumed : forall lk, lk <> L_ptable -> has_lock lk (b_k b') -> resumed lk 0 (b_k b');
  ri_init : exists p ks pd root ip mem l, procs (k_ptable (b_k b)) !! 0%nat = Some p /\
    procs (k_ptable (b_k b')) !! 0%nat = Some (with_state RUNNING (init_process p 1 ks pd root)) /\ initproc (k_ptable (b_k b')) = Some 0%nat /\
    inodes (k_fs (b_k b')) !! root = Some ip /\ caches ROOTDEV ROOTINO ip = true /\
    init_space (k_mem (b_k b')) pd mem l initcode_bin /\ free_ok (b_k b') l;
  ri_map : forall va, 0 <= va < 2 ^ 32 -> pte_val (k_mem (b_k b')) (b_kpgdir b') va = kernel_pte va;
  ri_bcache : ring (k_bcache (b_k b')) (rev (seq 0 HEAD));
  ri_idt : b_idt b' = tvinit vectors /\ cur (k_sync (b_k b)) ∈ b_idtr b';
  ri_gdt : b_gdt b' = segments (cur (k_sync (b_k b))) (b_gdt b) }.

(** C8: main boots the machine.  It does not return, panic or hang: from the state in which
    the boot loader leaves the kernel it gets to the hand-over to the first process, which
    holds initcode at address 0, the root directory, and the kernel's half of the address
    space; kpgdir maps the kernel, the buffers are in their list, the interrupt table and
    the segments of this processor are set, and ptable.lock is the only lock held. *)
Theorem main_boots fuel info b : bootable (S fuel) info b ->
  exists b' kont, main dev fw started_at ideinit (S fuel) b = Swtch b' kont /\ runs_init b b'.
Proof.
  intros Hb. destruct (main_init_run fuel info b Hb) as (b1 & R1 & [Hmap (p & ks & pd & root & ip & mem & l & Hp & Hp1 & Hks & Hip & Hroot & Hca & Hsp & Hf) _] & Hq & Hc & Hni & Hring & Hidt & Hgdt).
  destruct (page_kernel ks Hks) as (_ & Hk0 & _). destruct (page_kernel pd (pd_page _ _ _ (is_dir _ _ _ _ _ Hsp))) as (_ & Hpd0 & _).
  destruct (mpmain_run fuel b1 _ Hq Hni Hp1) as (y & c & kont & R2 & Hy & Hh & Hd & Hcy & Hl); [done|cbn; lia|cbn; lia|].
  eexists _, kont. unfold main. rewrite (bind_ok _ _ _ _ _ R1). split; [exact R2|]. set (s := set_sync y _).
  assert (Hres : forall lk, lk <> L_ptable -> has_lock lk (b_k b1) ->
    resumed lk 0 (handed 0 s) /\ procs (k_ptable (handed 0 s)) !! 0%nat = Some (with_state RUNNING (init_process p 1 ks pd root))).
  { intros lk Hne Hlk. apply handed_resumed; [exact Hy|exact Hh|exact Hd| |exact Hp1].
    unfold free_lock. cbn [s k_sync set_sync]. rewrite Hl by exact Hne. exact (quiet_locks _ Hq lk Hlk). }
  split; cbn [b_k set_k set_idtr b_idt b_idtr b_gdt b_kpgdir].
  - intros lk Hne Hlk. apply Hres; [exact Hne|]. by destruct lk.
  - exists p, ks, pd, root, ip, mem, l. split; [exact Hp|]. split; [exact (proj2 (Hres L_cons ltac:(discriminate) I))|]. split; [exact Hip|].
    split; [exact Hroot|]. split; [exact Hca|]. split; [exact Hsp|]. by destruct Hf.
  - done.
  - done.
  - split; [done|]. rewrite Hc. by left.
  - done.
Qed.
End main.
End boot.
