(* ===== verification/Machine.v ===== *)
(** A small concrete machine, on which the theorems of the development are
    instantiated: one processor running process 0; a disk with a file system of 100
    blocks in which an operation has changed block 36; a page directory with one page
    table, and three free pages; a pipe that holds two bytes; a process with two pages
    of memory, two descriptors of one file, and a line typed at the console. *)

From S2P Require Import Prelude Layout CString State Spinlock Sched Mem Sleeplock Ring Memide Bio Session.
From S2P Require Import Log LogDisk LogSafe LogTxn Txn LogRefine Fs FsAlloc FsInode FsNames Kalloc KallocSafe Vm.
From S2P Require Import VmSafe Pipe File Proc Console ConsoleSafe Syscall Sysfile Trap SyscallSafe UserMem.

(** * Processes and locks *)
Definition zero_tf : trapframe := mk_trapframe 0 0 0 0 0 0 0 0 0 0 0 0 0 0 0 0 0 0 0.

Definition unused_proc : proc :=
  mk_proc 0 0 0 UNUSED 0 None zero_tf (mk_context 0 0 0 0 0) None 0 (replicate 16 None) None [].

(** The kernel ends at [0x80200000]; page [k] after it. *)
Definition demo_page (k : Z) : Z := KERNBASE + 0x200000 + PGSIZE * k.

Definition demo_proc (st : procstate) (pid : Z) (parent : option nat) : proc :=
  with_parent parent (with_kstack (demo_page 9) (with_pgdir (demo_page 0) (with_pid pid (with_state st unused_proc)))).

Definition demo_procs : list proc :=
  [demo_proc RUNNING 1 None; demo_proc SLEEPING 2 (Some 2%nat); demo_proc RUNNABLE 3 None; unused_proc].

Definition demo_locks : gmap lockid spinlock :=
  list_to_map ((fun l => (l, mk_spinlock 0 None)) <$>
    [L_ptable; L_ticks; L_kmem; L_bcache; L_ide; L_log; L_icache; L_ftable; L_cons;
     L_pipe 4096; L_inode 0; L_inode 1] ++ (L_buf <$> seq 0 30)).

Definition demo_sync : sync := mk_sync [mk_cpu 7 1 0 true (Some 0%nat) true] 0 demo_locks.

(** * Memory *)
#[export] Instance demo_image : Image := {|
  img_data := KERNBASE + 0x180000; img_end := KERNBASE + 0x200000;
  img_order := conj eq_refl eq_refl; img_fits := eq_refl |}.
#[export] Instance demo_entry : Entry := {| a_forkret := KERNBASE + 0x104000; a_trapret := KERNBASE + 0x105000 |}.

(** Page 0 is a page directory, page 1 its only page table, which maps the user address
    [0x1000] to page 5; pages 2, 3 and 4 are free. *)
Definition demo_table : memory :=
  st32 (st32 ∅ (demo_page 0) (V2P (demo_page 1) + 7)) (demo_page 1 + 4) (V2P (demo_page 5) + 7).
Definition demo_mem : memory := st32 (st32 demo_table (demo_page 2) (demo_page 3)) (demo_page 3) (demo_page 4).
Definition demo_free : list Z := [demo_page 2; demo_page 3; demo_page 4].

Definition demo_kmem : kmem :=
  mk_kmem true (demo_page 2) [mk_page (Some 0%nat) (Some 0%nat) (demo_page 0) 0x1000] (Some 0%nat) 1 [].

(** * Disk *)
Definition block_of (l : list Z) : list Z := l ++ replicate (Z.to_nat BSIZE - length l) 0.

Definition demo_sb : superblock := mk_superblock 100 65 8 30 2 32 34.
Definition demo_text : list Z := [104; 101; 108; 108; 111].
Definition demo_blocks : list ((Z * Z) * list Z) :=
  [((1, 1), block_of (concat (le_bytes 4 <$> [100; 65; 8; 30; 2; 32; 34])));
   ((1, 34), block_of [255; 255; 255; 255; 31]);
   ((1, 35), block_of demo_text)].

(** The same disk after a crash that followed the write of the log header. *)
Definition crash_blocks : list ((Z * Z) * list Z) :=
  ((1, 2), block_of (concat (le_bytes 4 <$> [1; 36]))) :: ((1, 3), block_of [7; 7; 7]) :: demo_blocks.

Definition blank_buf : buf := mk_buf 0 0 0 (mk_sleeplock 0 0) 0 0 0 zero_block.
Definition dirty_buf : buf := mk_buf (B_VALID + B_DIRTY) 1 36 (mk_sleeplock 0 0) 0 0 0 (block_of [9; 9]).
Definition ring_of (bs : list buf) : bcache :=
  mk_bcache (imap (fun i b => with_b_next (S i) (with_b_prev (match i with O => 30 | S j => j end) b)) bs) 29 0.

Definition demo_log (n : Z) (b : Z) : log := mk_log 2 30 n 0 1 n (b :: replicate 29 0).

Definition demo_inode : inode :=
  mk_inode 1 2 1 (mk_sleeplock 0 0) 1 2 0 0 1 5 (35 :: replicate 12 0).
Definition free_inode : inode := mk_inode 0 0 0 (mk_sleeplock 0 0) 0 0 0 0 0 0 (replicate 13 0).

Definition demo_pipe : pipe := mk_pipe ([1; 2] ++ replicate 510 0) 0 2 1 1.

Definition machine_with (bs : list buf) (l : log) (blocks : list ((Z * Z) * list Z)) : kstate :=
  mk_kstate demo_sync (mk_ptable demo_procs 4 (Some 0%nat)) 0 demo_kmem demo_mem
    (ring_of bs) (mk_disk [] false 1000 (list_to_map blocks) [] []) l
    (mk_fs demo_sb [demo_inode; free_inode] 0 0)
    [mk_file FD_INODE 2 1 1 0 (Some 0%nat) 0; mk_file FD_NONE 0 0 0 0 None 0]
    {[ 4096 := demo_pipe ]} (mk_console [] 0 0 0 []).

(** In the middle of an operation that has changed block 36. *)
Definition busy_on (blocks : list ((Z * Z) * list Z)) : kstate :=
  machine_with (dirty_buf :: replicate 29 blank_buf) (demo_log 1 36) blocks.
Definition machine : kstate := busy_on demo_blocks.
(** Freshly booted, on the same disk and on the disk of a crashed machine. *)
Definition booted : kstate := machine_with (replicate 30 blank_buf) (demo_log 0 0) demo_blocks.
Definition crashed : kstate := machine_with (replicate 30 blank_buf) (demo_log 0 0) crash_blocks.

(** * The machine satisfies the invariants *)
Lemma demo_sync_ok : sync_ok demo_sync.
Proof. eexists. split; [reflexivity|]. split; [reflexivity|]. simpl. split; [lia|]. split; [done|lia]. Qed.

Lemma demo_buf_locks : Forall (fun i => free_lock (L_buf i) demo_sync) (seq 0 30).
Proof. repeat constructor. Qed.

Lemma machine_calm bs l blocks : length bs = 30%nat -> calm 1 (machine_with bs l blocks).
Proof.
  intros Hlen. split; [apply demo_sync_ok|done| |by eexists 0%nat, _].
  intros [] Hl; try reflexivity; simpl in Hl.
  - destruct Hl as [p Hp]. apply lookup_singleton_Some in Hp as [<- _]. reflexivity.
  - apply (proj1 (list.Forall_forall _ _) demo_buf_locks), elem_of_seq. rewrite length_imap in Hl. lia.
  - destruct i as [|[|i]]; [reflexivity..|lia].
Qed.

Lemma machine_in_cs lk : lk <> L_ptable -> in_cs lk 0 (set_sync (lock lk demo_sync) machine).
Proof.
  intros Hne. destruct (sync_ok_lock lk _ demo_sync_ok) as [Hy Hd]. split.
  - exact Hy.
  - apply held_lock_lock.
  - exact Hd.
  - unfold free_lock. cbn [k_sync set_sync]. rewrite lock_other by done. vm_compute. reflexivity.
  - reflexivity.
  - by eexists.
Qed.

Lemma block_of_ok l : (length l <= Z.to_nat BSIZE)%nat -> bytes_ok l -> block_ok (block_of l).
Proof.
  intros Hl Hb. unfold block_of. split.
  - rewrite length_app, length_replicate. lia.
  - apply Forall_app. split; [done|]. apply Forall_replicate. lia.
Qed.

Definition bytes_okb (l : list Z) : bool := forallb (fun b => (0 <=? b) && (b <? 256)) l.
Lemma bytes_okb_ok l : bytes_okb l = true -> bytes_ok l.
Proof.
  unfold bytes_okb. rewrite forallb_forall. intros H. apply List.Forall_forall. intros b Hb.
  specialize (H b Hb). lia.
Qed.

Definition block_okb (l : list Z) : bool := (length l =? Z.to_nat BSIZE)%nat && bytes_okb l.
Lemma block_okb_ok l : block_okb l = true -> block_ok l.
Proof. intros [H1 H2]%andb_prop. split; [by apply Nat.eqb_eq|by apply bytes_okb_ok]. Qed.

Lemma image_ok blocks k : forallb (fun kv => block_okb kv.2) blocks = true ->
  block_ok (disk_block (list_to_map blocks) k).
Proof.
  intros H. unfold disk_block. destruct (_ !! k) as [v|] eqn:E; simpl.
  - apply elem_of_list_to_map_2, list_elem_of_In in E. rewrite forallb_forall in H. by apply block_okb_ok, (H _ E).
  - by apply block_okb_ok.
Qed.

Lemma ring_of_ring bs : length bs = 30%nat -> ring (ring_of bs) (seq 0 HEAD).
Proof.
  intros H. split; [|split; [done|simpl; by rewrite length_imap]].
  do 31 (destruct bs as [|? bs]; [try (discriminate H)|]); [vm_compute; tauto|discriminate H].
Qed.

Lemma cores_ring_of bs : Forall (fun b => core b = b) bs -> cores (ring_of bs) = bs.
Proof.
  intros H. unfold cores, ring_of. cbn [bufs]. rewrite fmap_imap.
  apply list_eq. intros i. rewrite list_lookup_imap. destruct (bs !! i) as [b|] eqn:E; [|done].
  simpl. f_equal. rewrite list.Forall_forall in H. symmetry. rewrite <- (H b) at 1 by (by eapply list_elem_of_lookup_2). done.
Qed.

(** A cache in which every buffer is free: block 36 in one of them, or nothing. *)
Lemma machine_session bs l blocks :
  length bs = 30%nat -> (forall i b, bs !! i = Some b -> (i = 0%nat /\ b = dirty_buf) \/ b = blank_buf) ->
  forallb (fun kv => block_okb kv.2) blocks = true -> session 1 [] (machine_with bs l blocks).
Proof.
  intros Hlen Hbs Hblk.
  assert (Hc : k_cores (machine_with bs l blocks) = bs).
  { apply cores_ring_of, list.Forall_forall. intros b (i & Hi)%list_elem_of_lookup.
    by destruct (Hbs i b Hi) as [[_ ->] | ->]. }
  split; [|apply NoDup_nil_2|intros ? ? []%elem_of_nil|intros ? ? ? []%elem_of_nil|].
  - split; [by apply machine_calm|exists (seq 0 HEAD); by apply ring_of_ring|]. rewrite Hc. split.
    + intros i j b b' Hi Hj Hd Hn H0. destruct (Hbs i b Hi) as [[-> ->] | ->]; [|done].
      destruct (Hbs j b' Hj) as [[-> ->] | ->]; done.
    + intros i b Hi. destruct (Hbs i b Hi) as [[_ ->] | ->]; split; try done; by left.
    + intros i b Hi _ Hv Hd. destruct (Hbs i b Hi) as [[_ ->] | ->]; [discriminate Hd|discriminate Hv].
    + intros i b Hi Hd. destruct (Hbs i b Hi) as [[_ ->] | ->]; [done|discriminate Hd].
    + intros i b Hi. destruct (Hbs i b Hi) as [[_ ->] | ->]; by apply block_okb_ok.
    + intros k. by apply image_ok.
  - intros i b Hi _. rewrite Hc in Hi. by destruct (Hbs i b Hi) as [[_ ->] | ->].
Qed.

Lemma dirty_bufs i b : (dirty_buf :: replicate 29 blank_buf) !! i = Some b -> (i = 0%nat /\ b = dirty_buf) \/ b = blank_buf.
Proof.
  destruct i as [|i]; [intros [= <-]; by left|].
  change (replicate 29 blank_buf !! i = Some b -> (S i = 0%nat /\ b = dirty_buf) \/ b = blank_buf).
  intros [-> _]%lookup_replicate. by right.
Qed.

Lemma blank_bufs i b : replicate 30 blank_buf !! i = Some b -> (i = 0%nat /\ b = dirty_buf) \/ b = blank_buf.
Proof. intros [-> _]%lookup_replicate. by right. Qed.

Lemma machine_cores : k_cores machine = dirty_buf :: replicate 29 blank_buf.
Proof. reflexivity. Qed.

Lemma blank_clean l blocks k : ~ k_dirty (machine_with (replicate 30 blank_buf) l blocks) k.
Proof.
  intros (i & b & Hi & _ & Hd). change (k_cores _) with (replicate 30 blank_buf) in Hi.
  apply lookup_replicate in Hi as [-> _]. discriminate Hd.
Qed.

Lemma busy_dirty blocks k : k_dirty (busy_on blocks) k <-> k = (1, 36).
Proof.
  split.
  - intros (i & b & Hi & Hk & Hd). change (k_cores _) with (dirty_buf :: replicate 29 blank_buf) in Hi. destruct (dirty_bufs i b Hi) as [[_ ->] | ->]; [|discriminate Hd].
    apply is_block_iff in Hk as [H1 H2]. destruct k. simpl in *. by subst.
  - intros ->. by exists 0%nat, dirty_buf.
Qed.

Lemma machine_log_disk bs n b blocks : log_disk (machine_with bs (demo_log n b) blocks).
Proof.
  split; [by split|]. intros m Hm. simpl in Hm. apply andb_true_intro. split; [done|]. simpl. lia.
Qed.

Lemma demo_range n b : 0 <= b < 100 -> Forall (fun b => - 2 ^ 31 <= b < 2 ^ 31) (lh_block (demo_log n b)).
Proof. intros. constructor; [lia|]. apply Forall_replicate. lia. Qed.

Lemma busy_session blocks : forallb (fun kv => block_okb kv.2) blocks = true -> session 1 [] (busy_on blocks).
Proof. intros H. apply machine_session; [done|apply dirty_bufs|exact H]. Qed.

Lemma busy_log_inv blocks : hdr_n (disk_block (k_img (busy_on blocks)) (1, 2)) = 0 -> log_inv (busy_on blocks).
Proof.
  intros He. assert (Hl : logged (demo_log 1 36) = [36]) by reflexivity.
  split; [apply machine_log_disk|done|done|by apply demo_range| | | |exact He];
    change (k_log (busy_on blocks)) with (demo_log 1 36); rewrite Hl.
  - apply NoDup_singleton.
  - intros n ->%list_elem_of_singleton. split; [|done]. split; [done|right; simpl; lia].
  - intros [d n] _. rewrite busy_dirty, list_elem_of_singleton. simpl. split; [by intros [= -> ->]|by intros [-> ->]].
Qed.

Lemma busy_txn blocks : forallb (fun kv => block_okb kv.2) blocks = true ->
  hdr_n (disk_block (k_img (busy_on blocks)) (1, 2)) = 0 -> txn 1 [] 10 (busy_on blocks).
Proof.
  intros Hb Hh.
  split; [by apply busy_session|by apply busy_log_inv|done|done|vm_compute; discriminate|intros ? ? []%elem_of_nil].
Qed.

Lemma machine_session_ok : session 1 [] machine.
Proof. apply busy_session. vm_compute. reflexivity. Qed.

Lemma machine_log_inv : log_inv machine.
Proof. apply busy_log_inv. vm_compute. reflexivity. Qed.

Lemma machine_txn : txn 1 [] 10 machine.
Proof. apply busy_txn; vm_compute; reflexivity. Qed.

Lemma machine_fs_inv : fs_inv machine.
Proof.
  split; [done|vm_compute; reflexivity|done|done|done| |].
  - intros n Hn. simpl in Hn. apply andb_true_intro. split; [done|]. simpl. lia.
  - intros b Hb. simpl in Hb. change (data_start _) with 35 in Hb.
    assert (H : forallb (fun n => used (k_view machine) 1 demo_sb (Z.of_nat n)) (seq 0 35) = true) by (vm_compute; reflexivity).
    rewrite forallb_forall in H. rewrite <- (Z2Nat.id b) by lia. apply H, in_seq. lia.
Qed.

(** ** Memory *)
Lemma demo_page_ok k : 0 <= k < 1000 -> is_page (demo_page k).
Proof.
  intros. unfold is_page, demo_page, img_end, demo_image, KERNBASE, PHYSTOP. change PGSIZE with 4096.
  split; [|lia]. rewrite Z.add_mod, Z.mul_comm, Z_mod_mult by done. reflexivity.
Qed.

Lemma demo_free_ok bs l blocks : free_ok (machine_with bs l blocks) demo_free.
Proof.
  split; [repeat constructor; by apply demo_page_ok| |vm_compute; tauto].
  apply (bool_decide_unpack _). vm_compute. exact I.
Qed.

Lemma demo_table_at i t : 0 <= i < 1024 -> table_at demo_mem (demo_page 0) i = Some t -> i = 0 /\ t = demo_page 1.
Proof.
  intros Hi. destruct (decide (i = 0)) as [->|Hne].
  - vm_compute. intros [= <-]. done.
  - assert (E : ld32 demo_mem (demo_page 0 + 4 * i) = 0).
    { unfold demo_mem, demo_table. unfold demo_page, KERNBASE in *. change PGSIZE with 4096.
      rewrite !ld32_st32_ne by lia. reflexivity. }
    unfold table_at. rewrite E. done.
Qed.

Lemma demo_pgdir_ok : pgdir_ok demo_mem (demo_page 0) demo_free.
Proof.
  split.
  - by apply demo_page_ok.
  - apply (bool_decide_unpack _). vm_compute. exact I.
  - intros i t Hi [_ ->]%demo_table_at; [|done]. split; [by apply demo_page_ok|]. split; [|done].
    apply (bool_decide_unpack _). vm_compute. exact I.
  - intros i j t Hi Hj [-> _]%demo_table_at [-> _]%demo_table_at; done.
Qed.

Lemma demo_pte_ok : pte_ok demo_mem (demo_page 0) 0x1000 (demo_page 1 + 4).
Proof. split; [vm_compute; reflexivity|done|right; done]. Qed.

Lemma demo_lru_ok : lru_ok machine.
Proof. split; [simpl; lia|]. right. split; [done|]. by eexists. Qed.

Lemma demo_pids_ok : pids_ok (mk_ptable demo_procs 4 (Some 0%nat)).
Proof.
  split.
  - intros [|[|[|[|i]]]] p [= <-] Hu; simpl; [lia..|done].
  - intros [|[|[|[|i]]]] [|[|[|[|j]]]] p q [= <-] [= <-] Hp Hq Hpid; done.
Qed.

(** ** A user process *)

(** Process 0 has the pages 0 and 0x1000, a stack pointer in the second one, and two
    descriptors of file 0; [hi] has been typed at the console. *)
Definition user_mem : memory :=
  st_bytes (st32 demo_mem (demo_page 1) (V2P (demo_page 6) + 7)) (demo_page 5 + 0x200) [104; 105; 0].
Definition user_tf : trapframe := mk_trapframe 0 0 0 0 0 0 0 0 0 0 0 0 0 0 0 0 0 0x1100 0.
Definition user_proc : proc :=
  with_ofile ([Some 0; Some 0]%nat ++ replicate 14 None) (with_tf user_tf (with_sz 0x2000 (demo_proc RUNNING 1 None))).
Definition user_ptable : ptable := mk_ptable (user_proc :: tail demo_procs) 4 (Some 0%nat).
Definition demo_console : console := mk_console ([104; 105; 10; 120] ++ replicate 124 0) 0 3 4 [].
Definition user_machine : kstate := set_cons demo_console (set_mem user_mem (set_ptable user_ptable machine)).

Lemma user_machine_calm : calm 1 user_machine.
Proof.
  destruct (machine_calm (dirty_buf :: replicate 29 blank_buf) (demo_log 1 36) demo_blocks eq_refl) as [Hy Hd Hl _].
  split; [exact Hy|exact Hd|exact Hl|by exists 0%nat, user_proc].
Qed.

(** The same with inode 0 locked by the process. *)
Definition reading_machine : kstate :=
  set_fs (mk_fs demo_sb [with_i_lock (mk_sleeplock 1 1) demo_inode; free_inode] 0 0) user_machine.

Lemma reading_machine_calm : calm 1 reading_machine.
Proof. destruct user_machine_calm as [Hy Hd Hl Hp]. split; [exact Hy|exact Hd|exact Hl|exact Hp]. Qed.

Lemma hi_ok : bytes_ok [104; 105; 0].
Proof. do 3 (constructor; [lia|]). constructor. Qed.

Lemma user_table_at i : 0 <= i < 1024 -> table_at user_mem (demo_page 0) i = if decide (i = 0) then Some (demo_page 1) else None.
Proof.
  intros Hi. destruct (decide (i = 0)) as [->|Hne]; [vm_compute; reflexivity|].
  assert (E : ld32 user_mem (demo_page 0 + 4 * i) = 0).
  { unfold user_mem. rewrite (ld32_same (st32 demo_mem (demo_page 1) (V2P (demo_page 6) + 7))).
    - unfold demo_mem, demo_table. unfold demo_page, KERNBASE in *. change PGSIZE with 4096.
      rewrite !ld32_st32_ne by lia. reflexivity.
    - intros j Hj. rewrite ldb_st_bytes by exact hi_ok. rewrite decide_False; [done|].
      unfold demo_page, KERNBASE. change PGSIZE with 4096. simpl length. lia. }
  unfold table_at. rewrite E. done.
Qed.

Lemma user_pte i : 0 <= i < 1024 -> ld32 user_mem (demo_page 1 + 4 * i) =
  if decide (i = 0) then V2P (demo_page 6) + 7 else if decide (i = 1) then V2P (demo_page 5) + 7 else 0.
Proof.
  intros Hi. destruct (decide (i = 0)) as [->|H0]; [vm_compute; reflexivity|].
  destruct (decide (i = 1)) as [->|H1]; [vm_compute; reflexivity|].
  unfold user_mem. rewrite (ld32_same (st32 demo_mem (demo_page 1) (V2P (demo_page 6) + 7))).
  - unfold demo_mem, demo_table. unfold demo_page, KERNBASE in *. change PGSIZE with 4096.
    rewrite !ld32_st32_ne by lia. reflexivity.
  - intros j Hj. rewrite ldb_st_bytes by exact hi_ok. rewrite decide_False; [done|].
    unfold demo_page, KERNBASE. change PGSIZE with 4096. simpl length. lia.
Qed.

Lemma user_pte_val va : 0 <= va < KERNBASE -> pte_val user_mem (demo_page 0) va =
  if decide (va / PGSIZE = 0) then V2P (demo_page 6) + 7 else if decide (va / PGSIZE = 1) then V2P (demo_page 5) + 7 else 0.
Proof.
  intros Hva. unfold KERNBASE in Hva. pose proof (PDX_range va) as Hd. pose proof (PTX_range va) as Hx. unfold pte_val.
  rewrite user_table_at by done. rewrite PDX_eq, PTX_eq, u32_small in * by lia. change PGSIZE with 4096.
  change (2 ^ 22) with (4096 * 1024) in *. rewrite <- Z.div_div in * by lia. change (2 ^ 12) with 4096 in *. change (2 ^ 10) with 1024 in *.
  set (pg := va / 4096) in *. clearbody pg.
  destruct (decide (pg / 1024 = 0)) as [E|E].
  - rewrite user_pte by done. rewrite Z.mod_small by zdiv. done.
  - rewrite !decide_False by zdiv. done.
Qed.

Lemma user_frame va : 0 <= va < KERNBASE -> frame user_mem (demo_page 0) va =
  if decide (va / PGSIZE = 0) then Some (demo_page 6) else if decide (va / PGSIZE = 1) then Some (demo_page 5) else None.
Proof.
  intros Hva. unfold frame. rewrite user_pte_val by done. destruct (decide _); [vm_compute; reflexivity|].
  destruct (decide _); [vm_compute; reflexivity|]. reflexivity.
Qed.

Lemma user_umap_ok : umap_ok user_mem (demo_page 0).
Proof.
  split.
  - split; [by apply demo_page_ok|apply not_elem_of_nil| |].
    + intros i t Hi. rewrite user_table_at by done. destruct (decide (i = 0)); [|done]. intros [= <-].
      split; [by apply demo_page_ok|]. split; [apply not_elem_of_nil|done].
    + intros i j t Hi Hj. rewrite !user_table_at by done. destruct (decide (i = 0)), (decide (j = 0)); by subst.
  - intros va f Hva. rewrite user_frame by done. intros H.
    assert (Hf : f = demo_page 6 \/ f = demo_page 5) by (destruct (decide _); [|destruct (decide _)]; naive_solver).
    split; [destruct Hf as [-> | ->]; by apply demo_page_ok|]. split; [by destruct Hf as [-> | ->]|].
    intros i Hi. rewrite user_table_at by done. destruct (decide (i = 0)); [|done]. intros [= <-]. by destruct Hf.
  - intros va va' f Hva Hva'. rewrite !user_frame by done. repeat destruct (decide _); intros [= <-] [=]; congruence.
Qed.

Lemma user_pages a : 0 <= a < 0x2000 -> user_page user_mem (demo_page 0) a.
Proof.
  intros Ha. unfold user_page. rewrite user_pte_val by (unfold KERNBASE; lia). change PGSIZE with 4096.
  destruct (decide (a / 4096 = 0)); [by vm_compute|]. rewrite decide_True by zdiv. by vm_compute.
Qed.

Lemma user_machine_ok : user_ok 0 user_proc user_machine.
Proof.
  split; [apply demo_sync_ok|done|done|done|done|done|]. intros a Ha. cbn in Ha. change (k_mem user_machine) with user_mem.
  change (p_pgdir user_proc) with (demo_page 0). pose proof (user_frame a ltac:(unfold KERNBASE; lia)) as Hf.
  unfold user_ka. unfold frame, pte_val in Hf. rewrite find_pte_table. change PGSIZE with 4096 in *.
  destruct (table_at _ _ _) as [t|]; cbn [fmap option_fmap option_map].
  - destruct (Z.land _ _ =? 0); [|by eexists]. repeat destruct (decide _); try done. zdiv.
  - repeat destruct (decide _); try done. zdiv.
Qed.

Lemma user_argfd : argfd 0 user_machine = Ok (Some (0, 0)%nat) user_machine.
Proof.
  assert (E : argint 0 user_machine = Ok (Some 0) user_machine).
  { unfold argint. rewrite (bind_ok _ _ _ _ _ (user_self 0 user_proc user_machine user_machine_ok)).
    rewrite (bind_ok _ _ _ _ _ (get_proc_ok user_machine 0 user_proc eq_refl)).
    rewrite (fetchint_run 0 user_proc user_machine user_machine_ok) by apply u32_range.
    assert (Ew : s32 (user_word user_proc user_machine (u32 (tf_esp (p_tf user_proc) + 4 + 4 * 0))) = 0) by (vm_compute; reflexivity).
    rewrite Ew. reflexivity. }
  unfold argfd. rewrite (bind_ok _ _ _ _ _ E). change ((0 <? 0) || (NOFILE <=? 0)) with false. cbv iota.
  rewrite (bind_ok _ _ _ _ _ (user_self 0 user_proc user_machine user_machine_ok)).
  rewrite (bind_ok _ _ _ _ _ (get_proc_ok user_machine 0 user_proc eq_refl)). reflexivity.
Qed.

Lemma user_files_ok : files_ok user_machine.
Proof.
  split.
  - intros [|[|f]] x Hx; [injection Hx as <-; vm_compute; reflexivity..|done].
  - intros [|[|[|[|j]]]] p fd f Hp; [injection Hp as <-..|done].
    + destruct fd as [|[|fd]]; [intros [= <-]; vm_compute; lia..|]. intros H.
      change (replicate 14 (@None nat) !! fd = Some (Some f)) in H. by apply lookup_replicate in H as [? _].
    + intros H. change (replicate 16 (@None nat) !! fd = Some (Some f)) in H. by apply lookup_replicate in H as [? _].
    + intros H. change (replicate 16 (@None nat) !! fd = Some (Some f)) in H. by apply lookup_replicate in H as [? _].
    + intros H. change (replicate 16 (@None nat) !! fd = Some (Some f)) in H. by apply lookup_replicate in H as [? _].
  - intros [|[|[|[|j]]]] p Hp; [injection Hp as <-; reflexivity..|done].
Qed.

Lemma demo_tty : tty_rep demo_console (mk_tty [104; 105; 10] [120]).
Proof.
  split; [reflexivity|simpl; lia|reflexivity|reflexivity|by vm_compute|].
  intros [|[|[|[|j]]]] c Hc; [injection Hc as <-; reflexivity..|done].
Qed.
