(* ===== verification/System.v ===== *)
(** The system as a whole, at work: a disk made by mkfs, the kernel that mounts it, and a
    user program whose calls go through the trap frame and the memory of the process. *)

From S2P Require Import Prelude Layout CString State Spinlock Sched Mem Sleeplock Ring Memide Bio Log Fs Kalloc Vm.
From S2P Require Import Pipe File Mkfs MkfsImage Proc Console Syscall Sysfile Trap User UserTests TestSafe Machine.
Local Open Scope kernel_scope.

(** * System calls of a program *)

(** The program's memory: strings at [0x100] and [0x400], the stack at [0xf00], and a
    buffer at [0x1000]. *)
Definition path1 : Z := 0x100.
Definition path2 : Z := 0x400.
Definition ubuf : Z := 0x1000.
Definition uesp : Z := 0xf00.

(** What the stub of the call number [num] does: the arguments are above the return
    address on the stack. *)
Definition invoke (num : Z) (args : list Z) : K Z :=
  for_each (imap (fun i a => (Z.of_nat i, a)) args) (fun '(i, a) => vst32 (uesp + 4 + 4 * i) (u32 a)) ;;;
  let! me := curproc in
  upd_proc me (fun p => with_tf (with_tf_eax num (p_tf p)) p) ;;;
  syscall ;;;
  let! p := get_proc me in
  ret (s32 (tf_eax (p_tf p))).

Definition call_kernel (e : call) : K reply :=
  let simple num args := let! r := invoke num args in ret (val r) in
  match e with
  | C_open path mode => vstore path1 (path ++ [0]) ;;; simple 15 [path1; mode]
  | C_close fd => simple 21 [fd]
  | C_read fd n =>
      let! r := invoke 5 [fd; ubuf; n] in
      let! bs := vload ubuf (Z.to_nat r) in
      ret (mk_reply r bs (0, 0) no_stat)
  | C_write fd bs => vstore ubuf bs ;;; simple 16 [fd; ubuf; Z.of_nat (length bs)]
  | C_unlink path => vstore path1 (path ++ [0]) ;;; simple 18 [path1]
  | C_link old new => vstore path1 (old ++ [0]) ;;; vstore path2 (new ++ [0]) ;;; simple 19 [path1; path2]
  | C_mkdir path => vstore path1 (path ++ [0]) ;;; simple 20 [path1]
  | C_chdir path => vstore path1 (path ++ [0]) ;;; simple 9 [path1]
  | C_dup fd => simple 10 [fd]
  | C_getpid => simple 11 []
  | C_sbrk n => simple 12 [n]
  | _ => ret (val (-1))
  end.

(** The kernel as a system for programs; it is lost when a call does not return. *)
Definition kern_step (s : option kstate) (e : call) : reply * option kstate :=
  match s with
  | Some k => match call_kernel e k with Ok r k' => (r, Some k') | _ => (val (-2), None) end
  | None => (val (-2), None)
  end.

(** * The machine *)
Definition programs : list source :=
  (fun n => mk_source n (Some [str "#"; []])) <$> [str "_echo"; str "_init"; str "README"; str "_cat"].

Definition image_from (o : outcome mkfs unit) : gmap (Z * Z) (list Z) := match o with Ok _ m => image_of m | _ => ∅ end.
(** The image of mkfs, from the point where all sectors are zero. *)
Definition disk_of (files : list source) : gmap (Z * Z) (list Z) := image_from (fill_image files (mk_mkfs ∅ FSSIZE 1 nmeta)).

(** Every lock is free. *)
Definition sys_locks : gmap lockid spinlock :=
  list_to_map ((fun l => (l, mk_spinlock 0 None)) <$>
    [L_ptable; L_ticks; L_kmem; L_bcache; L_ide; L_log; L_icache; L_ftable; L_cons] ++ (L_buf <$> seq 0 30) ++ (L_inode <$> seq 0 50)).

(** A process of four pages, with the console as its first three descriptors and the root
    directory as its own. *)
Definition sys_page (i : Z) : Z := demo_page (10 + i).
Definition sys_mem : memory :=
  foldr (fun i m => st32 m (demo_page 1 + 4 * i) (V2P (sys_page i) + 7)) (st32 ∅ (demo_page 0) (V2P (demo_page 1) + 7)) [0; 1; 2; 3].
Definition sys_proc : proc :=
  mk_proc 0x4000 (demo_page 0) (demo_page 9) RUNNING 1 None (mk_trapframe 0 0 0 0 0 0 0 0 0 0 0 0 0 0 0 0 0 uesp 0) (mk_context 0 0 0 0 0) None 0
    (replicate 3 (Some 0%nat) ++ replicate 13 None) (Some 1%nat) (str "usertests").
Definition console_inode : inode := mk_inode 1 150 1 (mk_sleeplock 0 0) 1 T_DEV CONSOLE 1 1 0 (replicate 13 0).
Definition root_inode : inode := mk_inode ROOTDEV ROOTINO 1 (mk_sleeplock 0 0) 0 0 0 0 0 0 (replicate 13 0).

Definition sys_start (files : list source) : kstate :=
  mk_kstate (mk_sync [mk_cpu 7 1 0 true (Some 0%nat) true] 0 sys_locks) (mk_ptable (sys_proc :: replicate 63 unused_proc) 2 (Some 0%nat)) 0
    (mk_kmem true 0 [mk_page None None 0 0] None 0 []) sys_mem (ring_of (replicate 30 blank_buf))
    (mk_disk [] false FSSIZE (disk_of files) [] []) (mk_log 0 0 0 0 0 0 (replicate 30 0))
    (mk_fs (mk_superblock 0 0 0 0 0 0 0) (console_inode :: root_inode :: replicate 48 free_inode) 0 0)
    (mk_file FD_INODE 3 1 1 0 (Some 0%nat) 0 :: replicate 99 (mk_file FD_NONE 0 0 0 0 None 0)) ∅ (mk_console [] 0 0 0 []).

(** What the first process does in forkret. *)
Definition mount (s : kstate) : option kstate :=
  match (iinit ROOTDEV ;;; initlog ROOTDEV) s with Ok _ s' => Some s' | _ => None end.

(** * Running the tests *)

(** The tests of names, links and directories that one process makes. *)
Definition name_tests (buf : list Z) : prog (list Z) :=
  opentest ;;
  iputtest ;;
  rmdot ;;
  fourteen ;;
  buf ← subdir buf;
  buf ← linktest buf;
  buf ← unlinkread buf;
  dirfile ;;
  dirtest ;;
  mret buf.

(** A call with the number and the bytes it gave back. *)
Definition seen (x : call * reply) : call * Z * list Z := (fst x, r_val (snd x), r_bytes (snd x)).

Definition returned {A B} (r : A * option B) : bool := match snd r with Some _ => true | None => false end.

(** The first contents of buf, which is in bss. *)
Definition buf0 : list Z := replicate (Z.to_nat 8192) 0.

