(* ===== verification/Witness.v ===== *)
(** The theorems about the kernel's state, applied to the concrete machine of
    Machine.v: every hypothesis they make holds there. *)

From S2P Require Import Ide Mp Devices InitProc Main MainSafe.
From S2P Require Import Prelude Layout CString State Spinlock Sched Mem Sleeplock Ring Memide Bio Session.
From S2P Require Import Log LogDisk LogSafe LogTxn Txn LogRefine Fs FsAlloc FsInode FsBmap FsNames Kalloc KallocSafe Vm KvmSafe.
From S2P Require Import VmSafe Pipe File FsWrite FsDir FileWrite Proc Console ConsoleSafe Syscall Sysfile Trap SyscallSafe UserMem Machine.

Local Open Scope kernel_scope.


Lemma kill_correct_witness :
  exists i p q t, kill 2 machine = Ok 0 (set_ptable t machine) /\
    procs (k_ptable machine) !! i = Some p /\ procs t = <[i := q]> (procs (k_ptable machine)) /\ p_state q <> SLEEPING.
Proof.
  destruct (kill_correct 2 machine demo_sync_ok eq_refl) as [[H _]|(i & p & q & t & H & Hp & _ & Ht & _ & Hst & _)].
  - destruct (proj1 (Forall_lookup _ _) H 1%nat _ eq_refl). reflexivity.
  - exists i, p, q, t. split; [exact H|]. split; [exact Hp|]. split; [exact Ht|exact Hst].
Defined.

Lemma machine_is_calm : calm 1 machine.
Proof. by apply machine_calm. Qed.


Lemma demo_unused i p : demo_procs !! i = Some p -> p_state p = UNUSED -> p = unused_proc.
Proof. destruct i as [|[|[|[|i]]]]; intros [= <-] Hu; done. Qed.

Lemma allocproc_correct_witness :
  exists i s', allocproc machine = Ok (Some i) s' /\ procs (k_ptable s') !! i = Some (new_proc 4 (demo_page 2) unused_proc).
Proof.
  destruct (allocproc_correct 1 machine (demo_page 2) [demo_page 3; demo_page 4] machine_is_calm (demo_free_ok _ _ _)
    demo_pids_ok eq_refl ltac:(done)) as [[_ H]|(i & p & s' & H & Hp & Hu & Hps & _)].
  - destruct (H 3%nat unused_proc eq_refl). reflexivity.
  - exists i, s'. split; [done|]. rewrite Hps, list_lookup_insert_eq by (by eapply lookup_lt_Some).
    by rewrite (demo_unused i p Hp Hu).
Defined.

Lemma scheduler_hands_over_witness :
  exists s1 k, schedule_proc 2 (set_sync (lock L_ptable demo_sync) machine) = Swtch s1 k /\ cur_proc (k_sync s1) = Some 2%nat.
Proof.
  destruct (sync_ok_lock L_ptable _ demo_sync_ok) as [Hy Hd].
  pose proof (scheduler_hands_over 2 (demo_proc RUNNABLE 3 None) (set_sync (lock L_ptable demo_sync) machine)
    Hy (held_lock_lock _ _) Hd eq_refl ltac:(done) ltac:(done)) as H.
  destruct (decide _) as [_|n]; [|by destruct n]. destruct H as (s1 & k & H & _ & _ & _ & Hc & _). by exists s1, k.
Defined.

Lemma exit_passes_children_witness :
  exists t q, for_each (seq 0 4) (reparent 2) machine = Ok tt (set_ptable t machine) /\
    procs t !! 1%nat = Some q /\ p_parent q = Some 0%nat.
Proof.
  destruct (exit_passes_children 2 0 machine eq_refl ltac:(done)) as (t & R & _ & H).
  destruct (H 1%nat _ eq_refl) as (q & Hq & _ & Hpar). exists t, q. split; [exact R|]. split; [exact Hq|exact Hpar].
Defined.

Lemma wait_no_children_witness : wait machine = Ok (-1) machine.
Proof.
  apply (wait_no_children 1 0 machine (demo_proc RUNNING 1 None) machine_is_calm eq_refl eq_refl).
  intros [|[|[|[|i]]]] q [= <-] Hq; discriminate Hq.
Defined.

(** * The buffer cache and the log *)
Lemma bread_correct_witness :
  exists i s' b, bread 1 35 machine = Ok i s' /\ k_cores s' !! i = Some b /\ b_data b = block_of demo_text.
Proof.
  destruct (bread_correct 1 1 35 machine (ss_bio _ _ _ machine_session_ok) ltac:(done) eq_refl) as (i & s' & b & H & _ & Hb & _ & _ & _ & Hd & _).
  - intros i b Hi _. rewrite machine_cores in Hi. by destruct (dirty_bufs i b Hi) as [[_ ->] | ->].
  - exists 1%nat, blank_buf. split; [reflexivity|]. by right.
  - exists i, s', b. split; [exact H|]. split; [exact Hb|]. rewrite Hd. vm_compute. reflexivity.
Defined.

Lemma home_36 n b : home (demo_log n b) (1, 36).
Proof. split; [done|right; simpl; lia]. Qed.

Lemma machine_committable : committable 1 machine.
Proof.
  split; [apply machine_session_ok|apply machine_log_disk|done|done| |by apply demo_range| |vm_compute; reflexivity|vm_compute; lia].
  - intros t Ht. change (t < 1)%nat in Ht. assert (t = 0%nat) as -> by lia.
    split; [by eexists|]. split; [exact (home_36 1 36)|done].
  - intros k _. rewrite (busy_dirty demo_blocks). change (_ <$> _) with [(1, 36)]. by rewrite list_elem_of_singleton.
Qed.

Lemma commit_crash_atomic_witness :
  exists s' W, commit machine = Ok tt s' /\ dk_writes (k_disk s') = W ++ [] /\ lh_n (k_log s') = 0.
Proof.
  destruct (commit_crash_atomic 1 machine machine_committable) as (s' & W & H & HW & Hn & _). exists s', W.
  split; [exact H|]. split; [exact HW|exact Hn].
Defined.

Lemma crashed_recoverable : recoverable 1 crashed.
Proof.
  split; [|apply machine_log_disk|done| | |intros; apply blank_clean|vm_compute; lia].
  - apply machine_session; [done|apply blank_bufs|vm_compute; reflexivity].
  - split; [vm_compute; split; congruence|]. intros t Ht. change (t < 1)%nat in Ht. assert (t = 0%nat) as -> by lia.
    exact (home_36 0 0).
  - intros t Ht. change (t < 1)%nat in Ht. assert (t = 0%nat) as -> by lia. vm_compute. reflexivity.
Qed.

Lemma recover_correct_witness :
  exists s', recover_from_log crashed = Ok tt s' /\ k_view s' (1, 36) = block_of [7; 7; 7].
Proof.
  destruct (recover_correct 1 crashed crashed_recoverable) as (s' & W & H & _ & _ & _ & Hv & _).
  exists s'. split; [exact H|]. rewrite Hv by apply (home_36 0 0). vm_compute. reflexivity.
Defined.

(** A crash before the first write of the commit: the machine boots on the old disk. *)
Lemma booted_rebooted : rebooted 1 machine (apply_writes [] (k_img machine)) booted.
Proof.
  split; [|done|done|done|done|intros; apply blank_clean|vm_compute; lia].
  apply machine_session; [done|apply blank_bufs|vm_compute; reflexivity].
Qed.

Lemma crash_recovery_witness :
  exists s2, recover_from_log booted = Ok tt s2 /\
    ((forall k, home (k_log machine) k -> k_view s2 k = disk_block (k_img machine) k) \/
     (forall k, home (k_log machine) k -> k_view s2 k = k_view machine k)).
Proof.
  destruct (crash_recovery 1 1 machine machine_committable) as (s' & W & _ & _ & H).
  exact (H W [] booted (eq_sym (app_nil_r W)) booted_rebooted).
Defined.

Lemma end_op_durable_witness :
  exists s', end_op machine = Ok tt s' /\ disk_block (k_img s') (1, 36) = block_of [9; 9].
Proof.
  destruct (end_op_durable 1 machine machine_session_ok machine_log_inv eq_refl eq_refl) as (s' & H & _ & _ & _ & Hk).
  - vm_compute. lia.
  - exists s'. split; [exact H|]. destruct (Hk (1, 36) (home_36 1 36)) as [_ E].
    rewrite E. vm_compute. reflexivity.
Defined.


(** * The file system *)
Lemma no_held s : held_data_blocks [] s.
Proof. intros d b []%elem_of_nil. Qed.

Lemma balloc_correct_witness :
  exists b s', balloc 1 machine = Ok b s' /\ 35 <= b < 100 /\ used (k_view machine) 1 demo_sb b = false.
Proof.
  destruct (balloc_correct 1 [] 10 machine machine_txn machine_fs_inv (no_held _) ltac:(lia) ltac:(simpl; lia))
    as [[_ H]|(b & s' & H & _ & _ & Hb & Hu & _)].
  - specialize (H 50 ltac:(simpl; lia)). vm_compute in H. discriminate H.
  - exists b, s'. split; [exact H|]. split; [exact Hb|exact Hu].
Defined.

Lemma bfree_correct_witness :
  exists s', bfree 1 35 machine = Ok tt s' /\ used (k_view s') 1 demo_sb 35 = false.
Proof.
  pose proof (bfree_correct 1 [] 10 machine 35 machine_txn machine_fs_inv (no_held _) ltac:(lia) ltac:(simpl; lia)
    ltac:(change (35 <= 35 < 100); lia)) as H. cbv zeta in H.
  assert (E : used (k_view machine) 1 demo_sb 35 = true) by (vm_compute; reflexivity).
  change (l_dev (k_log machine)) with 1 in H. change (sb (k_fs machine)) with demo_sb in H. rewrite E in H.
  destruct H as (s' & R & _ & _ & Hu & _). exists s'. split; [exact R|].
  rewrite (Hu 35) by (change (0 <= 35 < 100); lia). reflexivity.
Defined.

Lemma demo_mapped : mapped machine demo_inode.
Proof.
  split; [done|vm_compute; split; congruence|by vm_compute|].
  intros bn Hbn H. assert (bn = 0) as -> by (simpl in H; unfold BSIZE in H; lia). change (0 < 35 < 100). lia.
Qed.


Lemma iupdate_ilock_roundtrip_witness :
  exists s1, iupdate 0 machine = Ok tt s1 /\ txn 1 [] 9 s1.
Proof.
  destruct (iupdate_ilock_roundtrip 1 10 machine 0 demo_inode machine_txn machine_fs_inv ltac:(lia) eq_refl eq_refl
    ltac:(simpl; lia)) as (s1 & R & Ht & _).
  - split; try done. repeat constructor.
  - done.
  - exists s1. split; [exact R|exact Ht].
Defined.

(** A computation that evaluates to another outcome does not panic. *)
Lemma no_panic {A} (m : K A) s msg (P : Prop) : m s = Panic msg ->
  match m s with Panic _ => false | _ => true end = true -> P.
Proof. by intros ->. Qed.

(** A file whose only block is block 35. *)
Definition one_block (ip : inode) : Prop := i_dev ip = 1 /\ i_addrs ip = 35 :: replicate 12 0 /\ 0 <= i_size ip <= 512.

Lemma one_block_zero V ip bn : one_block ip -> 0 <= bn -> bn <> 0 -> file_addr V ip bn = 0.
Proof.
  intros (_ & Ha & _) H0 Hne. unfold file_addr, ind_addr. rewrite Ha. case_bool; [|done]. zbool.
  change NDIRECT with 12 in *. destruct (Z.to_nat bn) as [|n] eqn:En; [lia|].
  change (default 0 (replicate 12 0 !! n) = 0). rewrite lookup_replicate_2 by lia. done.
Qed.

Lemma one_block_ok V ip : one_block ip -> used V 1 demo_sb 35 = true -> file_ok demo_sb V ip.
Proof.
  intros O Hu. pose proof O as (Hd & Ha & Hs).
  assert (Z0 : forall bn, 0 <= bn -> file_addr V ip bn <> 0 -> bn = 0).
  { intros bn Hb Hne. destruct (decide (bn = 0)); [done|]. by destruct (Hne (one_block_zero V ip bn O Hb n)). }
  assert (E0 : file_addr V ip 0 = 35) by (unfold file_addr; by rewrite Ha).
  assert (Ei : ind_addr ip = 0) by (unfold ind_addr; by rewrite Ha).
  split; rewrite ?Ei, ?Ha; [done|change (MAXFILE * BSIZE) with 71680; lia| |by left| | |].
  - intros bn Hbn. destruct (decide (bn = 0)) as [->|Hne]; [right|left; apply one_block_zero; lia || done].
    rewrite E0, Hd. split; [by vm_compute|done].
  - intros bn bn' Hb Hb' H1 H2. assert (bn = 0) as -> by (apply Z0; [lia|done]). rewrite H2 in H1. symmetry. apply Z0; [lia|done].
  - intros bn Hb H1. assert (bn = 0) as -> by (apply Z0; [lia|done]). by rewrite E0.
  - intros bn Hb H1. change BSIZE with 512 in H1. assert (bn = 0) as -> by lia. by rewrite E0.
Qed.

Lemma demo_file_ok V : used V 1 demo_sb 35 = true -> file_ok demo_sb V demo_inode.
Proof. apply one_block_ok. by repeat split. Qed.

Lemma demo_dinode_ok : dinode_ok (inode_dinode demo_inode).
Proof. split; try done. repeat constructor. Qed.


(** The same disk at rest, with the inode of the file on it. *)
Definition file_blocks : list ((Z * Z) * list Z) :=
  ((1, 32), block_of (replicate 128 0 ++ enc_dinode (inode_dinode demo_inode))) :: demo_blocks.
Definition file_machine : kstate := machine_with (replicate 30 blank_buf) (demo_log 0 0) file_blocks.

Lemma file_machine_session : session 1 [] file_machine.
Proof. apply machine_session; [done|apply blank_bufs|vm_compute; reflexivity]. Qed.

Lemma file_machine_idle : idle 1 file_machine.
Proof.
  apply idle_intro; [apply file_machine_session|intros; apply blank_clean|apply machine_log_disk|by repeat split|done| | |].
  - by apply demo_range.
  - vm_compute. reflexivity.
  - vm_compute. reflexivity.
Qed.

Lemma file_machine_fs_inv : fs_inv file_machine.
Proof.
  split; [done|vm_compute; reflexivity|done|done|done| |].
  - intros n Hn. simpl in Hn. apply andb_true_intro. split; [done|]. simpl. lia.
  - intros b Hb. simpl in Hb. change (data_start _) with 35 in Hb.
    assert (H : forallb (fun n => used (k_view file_machine) 1 demo_sb (Z.of_nat n)) (seq 0 35) = true) by (vm_compute; reflexivity).
    rewrite forallb_forall in H. rewrite <- (Z2Nat.id b) by lia. apply H, in_seq. lia.
Qed.

Lemma file_machine_at_rest : at_rest 1 0 demo_inode file_machine.
Proof.
  split; try done; [apply file_machine_idle|apply file_machine_fs_inv|exact demo_dinode_ok|].
  - apply (demo_file_ok (k_view file_machine)). vm_compute. reflexivity.
Qed.


Lemma demo_icache : icache_inv [demo_inode; free_inode].
Proof.
  split.
  - intros [|[|i]] ip [= <-]; simpl; lia.
  - intros [|[|i]] [|[|j]] ip jp [= <-] [= <-]; done.
Qed.

Lemma iget_correct_witness :
  exists i s', iget 1 2 machine = Ok i s'.
Proof.
  destruct (iget_correct 1 machine 1 2 machine_is_calm demo_icache) as [[_ H]|(i & ip & ip' & _ & R & _)].
  - destruct (H 0%nat demo_inode eq_refl) as [_ E]. discriminate E.
  - eexists i, _. exact R.
Defined.

(** A directory in block 35 that holds its own name and one file, locked by the
    process. *)
Definition dot : list Z := [46].
Definition hello : list Z := [104; 105].
Definition dir_inode : inode := mk_inode 1 2 1 (mk_sleeplock 1 1) 1 T_DIR 0 0 1 32 (35 :: replicate 12 0).
Definition dir_blocks : list ((Z * Z) * list Z) := ((1, 35), block_of (mk_dirent 2 dot ++ mk_dirent 5 hello)) :: demo_blocks.
Definition dir_fs : fs := mk_fs demo_sb [dir_inode; free_inode] 0 0.
Definition dir_machine : kstate := set_fs dir_fs (busy_on dir_blocks).

Lemma dir_machine_fs_inv : fs_inv dir_machine.
Proof.
  split; [done|vm_compute; reflexivity|done|done|done| |].
  - intros n Hn. simpl in Hn. apply andb_true_intro. split; [done|]. simpl. lia.
  - intros b Hb. simpl in Hb. change (data_start _) with 35 in Hb.
    assert (H : forallb (fun n => used (k_view dir_machine) 1 demo_sb (Z.of_nat n)) (seq 0 35) = true) by (vm_compute; reflexivity).
    rewrite forallb_forall in H. rewrite <- (Z2Nat.id b) by lia. apply H, in_seq. lia.
Qed.

Lemma dir_machine_dir : dir_at 1 10 0 dir_inode dir_machine.
Proof.
  split; try done; [|exact dir_machine_fs_inv|apply one_block_ok; [by repeat split|vm_compute; reflexivity]].
  apply txn_set_fs; [done|]. apply busy_txn; vm_compute; reflexivity.
Qed.

Lemma dir_icache : icache_inv (inodes dir_fs).
Proof.
  split.
  - intros [|[|i]] ip [= <-]; simpl; lia.
  - intros [|[|i]] [|[|j]] ip jp [= <-] [= <-]; done.
Qed.



Lemma dirlink_self_deadlock_witness :
  exists s1 k p, dirlink 0 dot 7 dir_machine = Swtch s1 k /\ procs (k_ptable s1) !! 0%nat = Some p /\ p_state p = SLEEPING.
Proof.
  destruct (dirlink_self_deadlock 1 10 0 dir_inode dot 7 dir_machine dir_machine_dir dir_icache ltac:(repeat constructor; lia)
    ltac:(done) ltac:(done) ltac:(vm_compute; reflexivity)) as (i & Hi & _ & s1 & k & p & R & Hp & Hs & _). injection Hi as <-.
  exists s1, k, p. split; [exact R|]. split; [exact Hp|exact Hs].
Defined.

(** * Memory *)
Lemma kfree_correct_witness :
  exists s', kfree (demo_page 6) machine = Ok tt s' /\ free_ok s' (demo_page 6 :: demo_free).
Proof.
  pose proof (kfree_correct machine demo_free (demo_page 6) (calm_may_alloc _ _ machine_is_calm) (demo_free_ok _ _ _) ltac:(split; done)) as H.
  rewrite decide_True in H by (by apply demo_page_ok).
  destruct H as (s' & R & Hf & _); [apply (bool_decide_unpack _); vm_compute; exact I|].
  exists s'. split; [exact R|exact Hf].
Defined.

Lemma kalloc_correct_witness :
  exists s', kalloc machine = Ok (demo_page 2) s' /\ free_ok s' [demo_page 3; demo_page 4].
Proof.
  destruct (kalloc_correct machine demo_free (calm_may_alloc _ _ machine_is_calm) (demo_free_ok _ _ _)) as (s' & R & _ & _ & Hf & _).
  exists s'. split; [exact R|exact Hf].
Defined.

Lemma freerange_correct_witness :
  exists s', freerange (demo_page 6) (demo_page 8) machine = Ok tt s' /\
    free_ok s' (demo_page 7 :: demo_page 6 :: demo_free).
Proof.
  destruct (freerange_correct machine demo_free (demo_page 6) (demo_page 8) (calm_may_alloc _ _ machine_is_calm) (demo_free_ok _ _ _))
    as (f & m' & R & Hf & _).
  - vm_compute. split; congruence.
  - vm_compute. congruence.
  - apply list.Forall_forall. apply (bool_decide_unpack _). vm_compute. exact I.
  - eexists. split; [exact R|exact Hf].
Defined.

Lemma lru_delete_hangs_witness : lru_delete (demo_page 0) 0x2000 machine = Hang.
Proof.
  apply (lru_delete_hangs machine (demo_page 0) 0x2000 0 (fun p => p = 0%nat)); [reflexivity|reflexivity|].
  intros p ->. eexists _, 0%nat. split; [reflexivity|]. done.
Defined.

Lemma lru_insert_keeps_one_witness :
  exists s', lru_insert (demo_page 0) 0x2000 4 machine = Ok tt s' /\ num_lru_pages (k_kmem s') = 2.
Proof.
  destruct (lru_insert_keeps_one machine (demo_page 0) 0x2000 4 ltac:(done) ltac:(simpl; lia)) as (s' & R & _ & Hn & _).
  - right. split; [reflexivity|]. by eexists.
  - exists s'. split; [exact R|exact Hn].
Defined.

Lemma swapin_helper_unmaps_witness :
  exists m', swapin_helper (demo_page 0) 0x1000 (demo_page 6) machine = Ok tt (set_mem m' machine) /\
    ld32 m' (demo_page 1 + 4) = 0.
Proof. exact (swapin_helper_unmaps machine (demo_page 0) 0x1000 (demo_page 6) (demo_page 1 + 4) demo_pte_ok). Defined.

Lemma mappages_correct_witness :
  exists s' l', mappages (demo_page 0) 0x2800 0x1000 0x300000 6 machine = Ok 0 s' /\ pgdir_ok (k_mem s') (demo_page 0) l' /\
    pte_val (k_mem s') (demo_page 0) 0x2800 = 0x300007 /\ pte_val (k_mem s') (demo_page 0) 0x3000 = 0x301007.
Proof.
  destruct (mappages_correct machine demo_free (demo_page 0) 0x2800 0x1000 0x300000 6 (calm_may_alloc _ _ machine_is_calm) (demo_free_ok _ _ _)
    demo_pgdir_ok demo_lru_ok) as (s' & l' & R & _ & Hp & _ & Hv); [lia|lia|lia|lia|reflexivity| | |].
  - exists [0]. change (PGROUNDDOWN 0x2800) with 0x2000. change (region_pages 0x2800 0x1000) with 2%nat. split; [|split; [|split]].
    + intros va Hva. change (Z.of_nat 2 * PGSIZE) with 0x2000 in Hva. rewrite PDX_eq, u32_small by lia.
      rewrite Z.div_small by (change (2 ^ 22) with 0x400000; lia). by left.
    + apply NoDup_singleton.
    + apply Forall_singleton. lia.
    + vm_compute. lia.
  - change (PGROUNDDOWN 0x2800) with 0x2000. change (region_pages 0x2800 0x1000) with 2%nat. change (Z.of_nat 2 * PGSIZE) with 0x2000. intros va Hva.
    destruct (decide (va < 0x3000)).
    + rewrite (pte_val_page _ _ va 0x2000) by (change PGSIZE with 4096; zdiv). vm_compute. reflexivity.
    + rewrite (pte_val_page _ _ va 0x3000) by (change PGSIZE with 4096; zdiv). vm_compute. reflexivity.
  - exists s', l'. split; [exact R|]. split; [exact Hp|].
    rewrite (Hv 0x2800), (Hv 0x3000) by lia. split; vm_compute; reflexivity.
Defined.

(** A machine with eighty free pages. *)
Lemma setupkvm_correct_witness : exists s pg s' l', setupkvm s = Ok pg s' /\ pgdir_ok (k_mem s') pg l' /\
  pte_val (k_mem s') pg (KERNLINK + 0x123) = EXTMEM + 1 /\ pte_val (k_mem s') pg (img_data + 0x1234) = V2P img_data + 0x1003.
Proof.
  destruct (freerange_correct machine demo_free (demo_page 6) (demo_page 83) (calm_may_alloc _ _ machine_is_calm) (demo_free_ok _ _ _)) as (f & m' & R & Hf & _).
  - vm_compute. split; congruence.
  - vm_compute. congruence.
  - apply list.Forall_forall. apply (bool_decide_unpack _). vm_compute. exact I.
  - destruct (rev _ ++ demo_free) as [|pg l] eqn:E; [vm_compute in E; discriminate E|].
    destruct (setupkvm_correct (alloc_state f m' machine) pg l (may_alloc_state _ _ _ (calm_may_alloc _ _ machine_is_calm)) Hf demo_lru_ok eq_refl)
      as (s' & l' & R' & _ & _ & Hp & Hv & _).
    + match type of E with ?x = _ => assert (H : (70 <= length x)%nat) by (vm_compute; lia) end. rewrite E in H. cbn in H. lia.
    + exists (alloc_state f m' machine), pg, s', l'. split; [exact R'|]. split; [exact Hp|].
      rewrite !Hv by (vm_compute; split; congruence). split; vm_compute; reflexivity.
Defined.

Lemma evicted_page_kills_witness :
  exists s', (let! _ := swap_out_pte (demo_page 0) 0x1000 3 in pgintr 0x1000) machine = Ok tt s'.
Proof.
  destruct (evicted_page_kills machine (demo_page 0) 0x1000 3 (demo_page 1 + 4) 0 (demo_proc RUNNING 1 None)
    demo_sync_ok eq_refl eq_refl eq_refl demo_pte_ok) as (m' & R).
  - vm_compute. reflexivity.
  - eexists. exact R.
Defined.

Lemma deallocuvm_hangs_witness : deallocuvm (demo_page 0) 0x2000 0x1000 machine = Hang.
Proof.
  apply (deallocuvm_hangs machine (demo_page 0) 0x2000 0x1000 (demo_page 1 + 4) (V2P (demo_page 5) + 7) 0 (fun p => p = 0%nat)
    (calm_may_alloc _ _ machine_is_calm)); [lia|vm_compute; reflexivity|exact demo_pte_ok|vm_compute; reflexivity|vm_compute; congruence| |reflexivity|reflexivity|].
  - exact (demo_page_ok 5 ltac:(lia)).
  - intros p ->. eexists _, 0%nat. split; [reflexivity|]. split; [vm_compute; reflexivity|]. done.
Defined.

(** * Pipes and files *)
Lemma demo_pipe_ok : pipe_ok demo_pipe.
Proof. split; [done|simpl; lia|simpl; lia|vm_compute; congruence]. Qed.

Lemma pipewrite_appends_witness :
  exists p', pipewrite 4096 [3; 4; 5] machine = Ok 3 (pipe_done 4096 p' (C_pipe_r 4096) machine) /\ pipe_bytes p' = [1; 2; 3; 4; 5].
Proof.
  destruct (pipewrite_appends 1 4096 demo_pipe [3; 4; 5] machine machine_is_calm eq_refl demo_pipe_ok) as (p' & R & _ & E & _).
  - vm_compute. congruence.
  - exists p'. split; [exact R|exact E].
Defined.

Lemma piperead_takes_witness :
  exists p', piperead 4096 100 machine = Ok (2, [1; 2]) (pipe_done 4096 p' (C_pipe_w 4096) machine) /\ pipe_bytes p' = [].
Proof.
  destruct (piperead_takes 1 4096 demo_pipe 100 machine machine_is_calm eq_refl demo_pipe_ok) as (p' & R & _ & E).
  - left. discriminate.
  - lia.
  - exists p'. split; [exact R|]. change (pipe_bytes demo_pipe) with [1; 2] in E. exact (eq_sym (app_inv_head [1; 2] [] _ E)).
Defined.

Lemma pipewrite_safe_witness :
  guar (cs_guar (pipe_inv 4096) (L_pipe 4096)) (cs_rely (pipe_inv 4096) (L_pipe 4096) 0)
    (fun r s' => (r = -1 \/ r = 3) /\ left_cs 4096 s') (pipewrite 4096 [3; 4; 5] machine).
Proof.
  apply (pipewrite_safe 1 4096 [3; 4; 5] machine 0 machine_is_calm); [|reflexivity].
  exists demo_pipe. split; [reflexivity|exact demo_pipe_ok].
Defined.

Lemma file_refs_witness :
  exists s', fileclose 0 machine = Ok tt s' /\ filedup 1 machine = Panic "filedup".
Proof.
  destruct (file_refs 1 machine machine_is_calm) as [_ H].
  destruct (H 0%nat _ eq_refl) as (_ & _ & Hc). destruct (H 1%nat _ eq_refl) as (Hd & _).
  eexists. split; [apply Hc; simpl; lia|exact Hd].
Defined.

(** * The console *)
Lemma consoleintr_refines_witness :
  exists P t, consoleintr [97; 8; 121; 13] user_machine = Ok tt (cons_state P t user_machine) /\
    tty_rep t (mk_tty [104; 105; 10; 120; 121; 10] []) /\ input_awake P.
Proof.
  destruct (consoleintr_refines 1 user_machine (mk_tty [104; 105; 10] [120]) [97; 8; 121; 13] user_machine_calm demo_tty)
    as (P & t & R & Ht & _ & Hw).
  - apply (bool_decide_unpack _). vm_compute. exact I.
  - repeat (constructor; [lia|]). constructor.
  - exists P, t. split; [exact R|]. split; [exact Ht|]. apply Hw. vm_compute. intros H. discriminate H.
Defined.

Lemma consoleread_correct_witness :
  exists t, consoleread 0 100 reading_machine =
      Ok (3, [104; 105; 10]) (cons_state (woken (C_inodelock 0) user_ptable) t reading_machine) /\
    tty_rep t (mk_tty [] [120]).
Proof.
  apply (consoleread_correct 1 reading_machine 0 (with_i_lock (mk_sleeplock 1 1) demo_inode) (mk_tty [104; 105; 10] [120]) 100
    reading_machine_calm eq_refl eq_refl); [simpl; lia|done|exact demo_tty|].
  right. left. apply (bool_decide_unpack _). vm_compute. exact I.
Defined.

Lemma cgaputc_bounds_witness :
  exists s', cgaputc 10 (mk_screen (replicate 2000 0) 1900) = Ok tt s' /\ pos s' = 23 * 80.
Proof.
  destruct (cgaputc_bounds 10 (mk_screen (replicate 2000 0) 1900)) as (s' & R & _ & H).
  - split; [apply length_replicate|cbn [pos]; lia].
  - exists s'. split; [exact R|]. exact (proj1 H).
Defined.

(** * System calls *)
Lemma args_stay_in_process_witness :
  (exists r, argptr 0 0x1000 user_machine = Ok r user_machine) /\
  exists r, fetchstr 0x1200 user_machine = Ok r user_machine.
Proof.
  destruct (args_stay_in_process 0 user_proc user_machine 0 0x1000 0x1200 user_machine_ok ltac:(lia) ltac:(lia))
    as [(r & R & _) (r' & R' & _)].
  split; [exists r; exact R|exists r'; exact R'].
Defined.


(** * User memory *)
Lemma copyout_correct_witness :
  exists m', copyout (demo_page 0) 0xffe [1; 2; 3; 4] user_machine = Ok 0 (set_mem m' user_machine) /\
    wrote user_mem m' (demo_page 0) 0xffe [1; 2; 3; 4].
Proof.
  destruct (copyout_correct user_machine (demo_page 0) 0xffe [1; 2; 3; 4] user_umap_ok) as (m' & R & Hw & _).
  - lia.
  - unfold KERNBASE. simpl length. lia.
  - intros a Ha. apply user_pages. simpl length in Ha. lia.
  - repeat (constructor; [lia|]). constructor.
  - exists m'. split; [exact R|exact Hw].
Defined.

Lemma exec_stack_witness :
  exists m' sp', push_stack (demo_page 0) 0x2000 [[101; 99; 104; 111]; [104; 105]] user_machine =
      Ok (Some sp') (set_mem m' user_machine) /\
    uword m' (demo_page 0) (sp' + 4) = 2 /\ uword m' (demo_page 0) (sp' + 8) = sp' + 12.
Proof.
  destruct (exec_stack user_machine (demo_page 0) 0x1000 0x2000 [[101; 99; 104; 111]; [104; 105]] user_umap_ok)
    as (m' & sp' & ptrs & R & _ & _ & _ & H1 & H2 & _).
  - split; [lia|]. split; [unfold KERNBASE; lia|]. intros a Ha. apply user_pages. lia.
  - reflexivity.
  - do 2 (constructor; [repeat (constructor; [lia|]); constructor|]). constructor.
  - vm_compute. discriminate.
  - vm_compute. discriminate.
  - exists m', sp'. split; [exact R|]. split; [exact H1|exact H2].
Defined.

(** * The log as an atomic disk *)
Definition machine_disk : adisk := mk_adisk (disk_block (k_img machine)) (k_view machine) (Some 10).

Lemma machine_represents : represents machine machine_disk.
Proof.
  split; [exists 1|split; intros k _; reflexivity]. cbn [open_txn machine_disk].
  split; [exact machine_txn|split; reflexivity|lia|reflexivity].
Qed.

Lemma log_refines_witness :
  exists s' A', asteps machine_disk [End_] A' /\ open_txn A' = None /\ represents s' A' /\ returns s' None.
Proof.
  destruct (represents_returns machine machine_disk machine_represents) as [(s' & R) _].
  destruct (log_refines machine machine_disk [End_] None s' machine_represents) as [Hret (A' & Ha & Ho & Hr)].
  - apply (cs_cons _ _ _ None s'); [apply c_end; exact R|apply cs_nil].
  - exists s', A'. split; [exact Ha|]. split; [exact Ho|]. split; [exact Hr|exact Hret].
Defined.

(** * The disk driver *)

(** A disk that answers at once, reading block 40 of disk 0 for buffer 0, while process 1
    holds buffer 1, which is to be written to block 36 of disk 1. *)
#[local] Instance demo_controller : Controller := {| ide_status := fun _ => IDE_DRDY |}.
#[local] Instance demo_sound : Sound.
Proof. by split. Qed.

Definition read_buf : buf := mk_buf 0 0 40 (mk_sleeplock 1 2) 1 0 0 zero_block.
Definition write_buf : buf := mk_buf (B_VALID + B_DIRTY) 1 36 (mk_sleeplock 1 1) 1 0 0 (block_of [9; 9]).
Definition ide_bufs : list buf := bufs (ring_of (read_buf :: write_buf :: replicate 28 blank_buf)).
Definition ring_buf (k : nat) (b : buf) : buf := with_b_next (S k) (with_b_prev (match k with O => 30 | S j => j end) b).
Definition ide_machine : kstate :=
  set_disk (mk_disk [0%nat] true 1000 (list_to_map demo_blocks) [] (regs read_buf))
    (machine_with (read_buf :: write_buf :: replicate 28 blank_buf) (demo_log 0 0) demo_blocks).

Lemma ide_machine_calm : calm 1 ide_machine.
Proof. destruct (machine_calm (read_buf :: write_buf :: replicate 28 blank_buf) (demo_log 0 0) demo_blocks eq_refl). by split. Qed.

Lemma ide_head : bufs (k_bcache ide_machine) !! 0%nat = Some (ring_buf 0 read_buf).
Proof. reflexivity. Qed.

Lemma ide_queued i : queued i ide_machine -> i = 0%nat.
Proof. unfold queued. cbn. by intros ?%list_elem_of_singleton. Qed.

Lemma ide_machine_ok : ide_ok ide_machine.
Proof.
  split.
  - apply list.NoDup_singleton.
  - intros i ->%ide_queued. exists (ring_buf 0 read_buf). split; [apply ide_head|]. split; [by left|]. done.
  - by intros i j bi bj ->%ide_queued ->%ide_queued.
  - intros i b [= <-]. rewrite ide_head. intros [= <-]. split; [|by split].
    by apply (target_regs read_buf []); split; [left|split].
Qed.

Lemma ide_requestable : requestable 1 (ring_buf 1 write_buf) ide_machine.
Proof.
  split.
  - reflexivity.
  - split; [by right|]. done.
  - by right.
  - by intros H%ide_queued.
  - intros j bj ->%ide_queued. rewrite ide_head. by intros [= <-].
Qed.

Lemma ide_free lk : lk = L_ide \/ lk = L_ptable -> free_lock lk demo_sync.
Proof. intros [-> | ->]; reflexivity. Qed.

Lemma ideintr_correct_witness : exists s', Ide.ideintr ide_machine = Ok tt s' /\ ide_ok s' /\ idequeue (k_disk s') = [].
Proof.
  destruct (ideintr_correct ide_machine demo_sync_ok (ide_free _ (or_introl eq_refl)) (ide_free _ (or_intror eq_refl))
    ide_machine_ok) as (s' & R & Hok & _ & Hq & _).
  exists s'. split; [exact R|]. split; [exact Hok|exact Hq].
Defined.


(** Process 0 sleeps until its write, which is behind the read, is done. *)
Definition waiting_machine : kstate :=
  set_ptable (upd_procs 0 (with_state SLEEPING ∘ with_chan (Some (C_buf 1))) (k_ptable ide_machine)) (enqueued 1 ide_machine).

Lemma waiting_machine_ok : ide_ok waiting_machine /\ request 1 (ring_buf 1 write_buf) waiting_machine.
Proof.
  split; apply data_ptable.
  - apply (enqueued_ok 1 (ring_buf 1 write_buf)); [exact ide_machine_ok|exact ide_requestable].
  - apply enqueued_request; [exact ide_machine_ok|exact ide_requestable].
Qed.


(** * Booting a machine with two processors *)
#[local] Instance demo_linked : Linked := {|
  entryother_bin := [0xfa; 0x31; 0xc0; 0x8e; 0xd8; 0x8e; 0xc0; 0x8e; 0xd0];
  initcode_bin := [0x68; 0x24; 0; 0; 0; 0x68; 0x1c; 0; 0; 0; 0x6a; 0; 0xb8; 7; 0; 0; 0; 0xcd; 0x40];
  a_mpenter := KERNBASE + 0x103000; a_entrypgdir := KERNBASE + 0x109000; vectors := fun i => KERNBASE + 0x106000 + 10 * i |}.

(** The kernel as it is loaded: its variables are zero but for nextpid. *)
Definition demo_loaded : kstate :=
  mk_kstate (mk_sync [] 0 demo_locks) (mk_ptable (replicate 64 unused_proc) 1 None) 0 (mk_kmem false 0 (replicate 10 (mk_page None None 0 0)) None 0 [])
    ∅ (mk_bcache (replicate 30 blank_buf) 0 0) (mk_disk [] false 0 ∅ [] []) (demo_log 0 0) (mk_fs demo_sb [free_inode; free_inode] 0 0) []
    ∅ (mk_console [] 0 0 0 []).

Definition demo_boot : bstate := mk_bstate demo_loaded [] 0 0 ∅ [] [] false 0 0.

Lemma demo_power_on : power_on demo_loaded.
Proof.
  split; [|done|split; [cbn; lia|done]|done|done|by exists unused_proc|split; [cbn; lia|repeat constructor]].
  intros [] Hl; try reflexivity; simpl in Hl.
  - by destruct Hl as [p Hp].
  - apply (proj1 (list.Forall_forall _ _) demo_buf_locks), elem_of_seq. lia.
  - destruct i as [|[|i]]; [reflexivity..|lia].
Qed.

Abbreviation demo_fw := (demo_memory 100 130 0).
Abbreviation demo_info := (mk_mpinfo [0; 3] 2 0xfee00000 false).
Abbreviation demo_ideinit := (Memide.ideinit ∅ 1000).

Lemma demo_bootable : bootable (fun _ _ => 0) demo_fw (fun _ _ => 1) demo_ideinit 5 demo_info demo_boot.
Proof.
  split.
  - exact demo_power_on.
  - reflexivity.
  - vm_compute. lia.
  - vm_compute. reflexivity.
  - apply list.NoDup_cons. split; [set_solver|apply NoDup_singleton].
  - vm_compute. lia.
  - intros l. reflexivity.
  - intros i _ _. exists 0%nat. split; [lia|done].
  - intros k _. eexists. reflexivity.
  - split; [by apply bytes_okb_ok|vm_compute; congruence].
  - split; [by apply bytes_okb_ok|reflexivity].
Qed.

Lemma main_boots_witness : exists b' kont, main (fun _ _ => 0) demo_fw (fun _ _ => 1) demo_ideinit 5 demo_boot = Swtch b' kont /\ runs_init demo_boot b'.
Proof. exact (main_boots _ _ _ _ 4 demo_info demo_boot demo_bootable). Defined.

